(* ===== verification/_CoqProject ===== *)
-Q . S2P
Prelude.v
SbiDefs.v
Bitops.v
Locks.v
Strings.v
Fifo.v
Scratch.v
Domain.v
Csr.v
Hart.v
Pmu.v
Machine.v
Hsm.v
Tlb.v
Ipi.v
Timer.v
Console.v
Format.v
System.v
Trap.v
Unpriv.v
Misaligned.v
Emulate.v
Ecall.v
Report.v
ReportText.v
TrapHandler.v
Init.v
Mmio.v
Aclint.v
Plic.v
Uart.v
Spi.v
SdCard.v
Bootrom.v
Fdt.v
FdtRo.v
FdtTree.v
FdtRw.v
FdtLayout.v
FdtEdit.v
FdtHelper.v
BoardTree.v
Ariane.v
FdtFixup.v
FdtReserve.v
FdtMask.v
ArianeTree.v
ArianeBoot.v
