(* ===== verification/Prelude.v ===== *)
(** * The firmware of the CVA6/Culsans SoC

    A verification development of the software the SoC runs before an operating
    system does: the boot ROM, which loads the firmware from a memory card
    (src/modules/cva6/corev_apu/fpga/src/bootrom/src), and the supervisor binary
    interface firmware OpenSBI that stays below Linux (the library
    src/cva6-sdk/opensbi/lib/sbi with its headers, the drivers of lib/utils for
    the devices of this SoC, and its platform code), together with the registers
    of those devices (the CLINT, the PLIC and the serial port under
    src/modules/cva6/corev_apu).  Paths of OpenSBI below are relative to
    src/cva6-sdk/opensbi.  This first file is also the prelude: machine integers,
    the state-and-stop monad, tactics and the lemmas on bits and lists that the
    other files share.

    ** The program

    The boot ROM reads the partition table of the card and copies the first
    partition to the start of memory.  There every hart enters the firmware.  One
    wins a lottery, sets up every component (sbi_init.c: scratch space, domains,
    hart, console, PMU, IPI, TLB, timer, ecall table), programs its PMP entries
    and enters the supervisor; the others wait for it and are then started
    through the hart state manager.  From then on the firmware runs on traps:
    ecalls of the supervisor, machine timer and software interrupts, and the
    exceptions it emulates (misaligned accesses, missing counters) or passes
    back.  Harts speak to each other through per-hart words in the scratch space,
    changed atomically, through a locked queue of TLB requests, and through
    inter-processor interrupts, which the CLINT driver raises.

    ** The files, in order of dependency

    The library:
    - [Prelude], [SbiDefs]: shared definitions; the numbers of the SBI interface.
    - [Bitops]: sbi_bitops.c, sbi_bitmap.c, sbi_math.c, the bitmap and hart mask
      headers.
    - [Locks]: riscv_locks.c, as a step relation over the harts' instructions,
      and as the operations the other files call.
    - [Strings]: sbi_string.c.
    - [Fifo]: sbi_fifo.c.
    - [Scratch]: sbi_scratch.c, the hart numbering of sbi_platform.c.
    - [Domain]: sbi_domain.c.
    - [Csr]: riscv_asm.c (CSR access by number, PMP entries, the ISA string).
    - [Hart]: sbi_hart.c.
    - [Pmu]: sbi_pmu.c.
    - [Machine]: the state the multi-hart components share ([machine]: for each
      hart its scratch words and CSRs, the globals, the devices, a trace of
      effects), riscv_atomic.c, the platform hooks of sbi_platform.h.
    - [Hsm]: sbi_hsm.c.      [Ipi]: sbi_ipi.c.      [Timer]: sbi_timer.c.
    - [Tlb]: the fences and the queue of sbi_tlb.c.
    - [Console]: sbi_console.c.      [Format]: the text of a formatted print, and
      what a format means.
    - [System]: sbi_tlb_request and its set-up, sbi_system.c, sbi_exit: the place
      where the event handlers of [Ipi] get their instance.
    - [Trap], [TrapHandler]: sbi_trap.c.      [Unpriv]: sbi_unpriv.c.
    - [Misaligned]: sbi_misaligned_ldst.c.
    - [Emulate]: sbi_illegal_insn.c, sbi_emulate_csr.c.
    - [Ecall]: sbi_ecall.c and the sbi_ecall_*.c handlers.
    - [Report]: the report of the cold boot, the dump of a domain, the feature
      strings of sbi_hart.c and sbi_platform.c.      [ReportText]: what they say.
    - [Init]: sbi_init.c, sbi_domain_finalize, sbi_hart_init.
    Drivers and hardware:
    - [Mmio]: riscv_io.h over the class [Bus], clint.sv, and the instance [soc]
      of the bus: the CLINT, a record of the writes to everything else, and
      arbitrary values for its reads.
    - [Aclint]: lib/utils/timer/aclint_mtimer.c, lib/utils/ipi/aclint_mswi.c.
    - [Plic]: lib/utils/irqchip/plic.c, the registers and targets of rv_plic.
    - [Uart]: lib/utils/serial/uart8250.c, uart.c of the boot ROM, apb_uart.vhd.
    - [Ariane]: platform/fpga/ariane/platform.c.
    The device tree:
    - [Fdt]: lib/utils/libfdt/fdt.c; the blob of a list of tags, and the logic
      [reads] and [safe] of code that only looks.
    - [FdtRo]: lib/utils/libfdt/fdt_ro.c, the cell counts of fdt_addresses.c.
    - [FdtTree]: device trees as trees, what the functions of [FdtRo] compute on
      them, and how a tree is written ([build]).
    - [FdtRw]: fdt_rw.c, fdt_wip.c, the setters of libfdt.h, the rest of
      fdt_addresses.c.
    - [FdtLayout]: the blob as blocks (header, reservations, structure, strings,
      free space), and what moving and growing blocks does to it.
    - [FdtEdit]: the edits as edits of the list of tags and of the tree.
    - [FdtHelper]: lib/utils/fdt/fdt_helper.c.
    - [FdtFixup]: lib/utils/fdt/fdt_fixup.c, fdt_pmu.c.
    - [FdtReserve], [FdtMask]: what the fixups make of a tree, within the free
      space of its blob.
    - [BoardTree]: cv64a6.dts and the blob in bootrom_64.h.
    - [ArianeTree]: ariane_early_init and ariane_final_init of the platform.
    - [ArianeBoot]: the platform's hooks in the order of a cold boot.
    The boot ROM:
    - [Spi]: spi.c, over the classes [Card] and [SpiBus].
    - [SdCard]: sd.c, the class [MemoryCard], an example of card and controller.
    - [Bootrom]: gpt.c, main.c.

    A C function is a definition of the same name.  Functions of one state are
    Rocq functions on it; stateful code is in the monad [M S A] below, whose
    result is a value or the reason the hart does not come back ([Stop]): a
    hang, a jump to the next mode, a spin, an access outside every object.  A
    larger state runs code of a part of it through [zoom], [on_hart] and
    [on_machine].  Errors are the negative SBI codes of the source.

    ** The theorems

    - Mutual exclusion and queue behaviour: the ticket lock keeps harts apart and
      serves them in order, in every interleaving (C1, C36); the request queue is
      a bounded queue (C34).
    - Protection: the root domain keeps S- and U-mode out of the firmware (C2);
      the PMP image of a domain decides accesses as sbi_domain_check_addr does
      (C3); the sanity check leaves the regions in an order in which the first
      match is the most specific one (C33); every hart is in at most one domain
      (C35); scratch allocations are disjoint; after the cold boot of the
      platform, with the tree of the boot ROM and all its hooks, the supervisor
      reaches neither the firmware nor the CLINT (C15).
    - Harts: each operation moves one hart along the state machine, in every
      interleaving, and exactly along the edges of the operations it ran (C4); an accepted start boots the hart exactly once (C5)
      and into the state asked for (C11), and which starts are accepted is
      exact (C28); suspend and resume is a round trip
      (C10); no hart misses the end of the cold boot (C12); a system reset halts
      the others (C13).
    - Remote requests: a queue of TLB requests is processed completely and every
      waiting hart released (C6), merging requests keeps what is queued, as long as the queue has
      room and no request is of a form the merging gets wrong (C7), a local
      fence covers what is asked (C8), IPIs reach exactly the harts they should
      (C9) and each pending event is handled once.
    - Traps: misaligned loads and stores and counter reads behave as the
      instruction would (C29, C30, C31), faults on the way and everything else
      reach the supervisor (C32, C38).
    - Devices: what the timer and IPI drivers do to the CLINT is what the trace of
      [Machine] says (C23); the PLIC is masked at boot (C26); the serial port loses no character and
      gets its divisor (C25).
    - Device tree: walking a blob, whatever it holds, stays inside it (C21); on
      the blob of a tree a path finds the node that the tree has under it
      (C19), a device's region is the one its [reg] and the [ranges] above it
      say where they are of the form the code handles (C22), and setting a property is setting it in the tree
      (C20), and the platform's early initialisation takes over what the
      tree says (C18); its final initialisation lists the firmware's memory
      in the tree (C17) and masks the machine-mode interrupt contexts (C16); the blob in the boot ROM is the tree of the SoC
      ([rom_blob_is_tree]).
    - Loading: the boot ROM puts the first partition into memory (C14), each copy
      storing exactly what the card sent with the right checksum (C24, C27).
    - Counters, time, strings and printing: C37, C39, C40; the report of the
      cold boot disturbs nothing but the console ([boot_report_only_talks]).

    Where the code falls short of its purpose, a theorem proves what it does
    instead (a region check that misses containing regions, a halt loop that
    spares an aliased hart, a range merge that loses the last page, a checksum
    that is always the same, and others).

    ** Fuel and bounds

    - Integers are [Z] in the range of their C type; every operation that can
      leave the range is written with its wrap-around ([u64], [u32], [u16],
      [add64]...).  The target is RV64: [unsigned long] has 64 bits.
    - Loops over data are structural on the list or on the number of rounds the
      code itself bounds (64 bits of a word, the regions of an array).  The loops
      over memory that a zero byte ends take a fuel and a theorem gives the fuel
      that is enough (string length + 1; print: the length of the format + 1; a
      number: 64 digits).
    - A busy-wait polls at most [polls] times; between two polls the other harts
      run, which is the parameter [world : machine → machine].  Running out of
      polls is the outcome [Stop spinning], which theorems about waiting exclude
      by a hypothesis on [world] (the clock advances; the sender is answered) or
      on the device (the port drains; a transfer is over within the nops
      the driver waits; the card answers).
    - The mutual recursion of the IPI handlers (a halt event exits, an exit can
      process events; a full TLB queue is emptied while sending) is cut at the
      parameter [depth].

    ** Abstractions

    - CSRs are independent 64-bit registers: sip/sie are not views of mip/mie,
      WARL fields keep what is written.  Which CSRs exist is a parameter where
      the code probes for it.
    - To the library a device is a record of which callbacks it has and what they
      return; its effect is an event of the trace [m_trace].  [Aclint] relates
      these events to the registers.  Fences and TLB flushes are events of the
      trace.
    - Harts interleave at the steps of [Locks], at the atomic operations of
      [Hsm] and [Init], and at the polls of busy-waits; inside a critical section
      the code runs as one step, which the lock theorems justify.
    - A message takes the console lock, finds it free (other harts hold it only
      while they print) and leaves it free; messages of failed checks inside
      sbi_domain.c, sbi_hsm.c, sbi_hart.c, sbi_ecall.c and sbi_pmu.c, and the
      debug prints, are left out.
    - Memory of the interrupted context is a byte map with the faults an access
      raises ([user_view]).  A fault of the firmware's own unprivileged access
      leaves mepc, mcause and mtval alone in the model.
    - Between two accesses to a device time passes by an arbitrary amount, which
      an oracle in the device's state gives (clock ticks, characters sent,
      bytes exchanged).
    - The SPI controller is a vendor core and the card is outside the chip: the
      classes [SpiBus] (the documented registers, and a bound on the time of a
      byte) and [MemoryCard] state what the ROM relies on.
    - The firmware's assembly (entry, trap vector, expected-trap handler), the
      platform hooks and the function from hart ids to scratch areas are
      parameters.

    ** Not modelled

    sbi_trap_exit, which jumps to assembly.  Building device trees (fdt_sw.c,
    fdt_empty_tree.c), overlays and domains in the tree (fdt_domain.c), which this
    platform never uses; drivers and platforms for other machines; and the rest of
    the SDK: U-Boot, buildroot, the simulator and the Linux patches are vendored;
    the coherence unit itself is SystemVerilog. *)

From Stdlib Require Import ZArith Lia.
From stdpp Require Import base tactics list gmap numbers strings.

#[global] Open Scope Z_scope.
#[export] Set Warnings "-clear-no-such-hyp".

(** ** Machine integers

    [unsigned long], [u64] and pointers are integers in [0, 2^64); the other
    widths are written out with [wrap].  The shift count of [<<] and [>>] is
    taken modulo 64, as the RISC-V [sll]/[srl] instructions do. *)

Definition XLEN : Z := 64.

Definition wrap (w x : Z) : Z := x mod 2 ^ w.

Definition u64 (x : Z) : Z := x mod 2 ^ 64.

Definition u32 (x : Z) : Z := x mod 2 ^ 32.

Definition u16 (x : Z) : Z := x mod 2 ^ 16.

Definition u64_max : Z := 2 ^ 64 - 1.

Definition not64 (x : Z) : Z := u64_max - x.

Definition shl64 (x n : Z) : Z := u64 (Z.shiftl x (n mod 64)).

Definition shr64 (x n : Z) : Z := Z.shiftr x (n mod 64).

Definition add64 (x y : Z) : Z := u64 (x + y).

Definition sub64 (x y : Z) : Z := u64 (x - y).

(** [BIT(nr)] of sbi_bitops.h. *)
Definition BIT (nr : Z) : Z := shl64 1 nr.

(** C truth of an integer. *)
Definition truthy (x : Z) : bool := negb (x =? 0).

(** A [int] of 32 bits read back from a word. *)
Definition s32 (x : Z) : Z := let y := u32 x in if y <? 2 ^ 31 then y else y - 2 ^ 32.

Lemma s32_small x : - 2 ^ 31 <= x < 2 ^ 31 -> s32 x = x.
Proof.
  intros Hx. unfold s32, u32. destruct (Z.lt_ge_cases x 0).
  - rewrite <- (Z_mod_plus_full x 1), Z.mod_small by lia.
    rewrite (proj2 (Z.ltb_ge _ _)) by lia. lia.
  - rewrite Z.mod_small by lia. rewrite (proj2 (Z.ltb_lt _ _)) by lia. done.
Qed.

Lemma u32_small x : 0 <= x < 2 ^ 32 -> u32 x = x.
Proof. apply Z.mod_small. Qed.

(** [is_u64 x]: [x] is the value of an [unsigned long]. *)
Definition is_u64 (x : Z) : Prop := 0 <= x < 2 ^ 64.

(** ** Computations

    A firmware routine is a state transformer whose outcome is a returned value
    or one of the ways in which control never comes back to the caller. *)

Inductive noreturn : Type :=
| hart_hang            (* sbi_hart_hang(): wfi forever *)
| jump_warmboot        (* jump to scratch->warmboot_addr *)
| hart_off             (* a device operation that powers the hart down *)
| spinning             (* a busy-wait loop that only another hart can end *)
| wild_access          (* an array access outside its bounds *)
| system_down.         (* a reset device took the system down *)

Inductive outcome (A : Type) : Type :=
| Ret (a : A)
| Stop (why : noreturn).
Arguments Ret {A} a.
Arguments Stop {A} why.

Definition M (S A : Type) : Type := S → outcome A * S.

Definition ret {S A} (a : A) : M S A := λ s, (Ret a, s).

Definition stop {S A} (w : noreturn) : M S A := λ s, (Stop w, s).

Definition bind {S A B} (m : M S A) (k : A → M S B) : M S B :=
  λ s, match m s with
       | (Ret a, s') => k a s'
       | (Stop w, s') => (Stop w, s')
       end.

Definition gets {S A} (f : S → A) : M S A := λ s, (Ret (f s), s).

Definition modify {S} (f : S → S) : M S unit := λ s, (Ret tt, f s).

(** Run a computation on a part of the state. *)
Definition zoom {S T A} (get : S → T) (put : T → S → S) (m : M T A) : M S A :=
  λ s, let '(o, t) := m (get s) in (o, put t s).

Declare Scope sbi_scope.
Delimit Scope sbi_scope with sbi.

Notation "x <- m ;; k" := (bind m (λ x, k))
  (at level 100, m at next level, right associativity) : sbi_scope.
Notation "m ;;; k" := (bind m (λ _, k))
  (at level 100, right associativity) : sbi_scope.

(** [while_fuel n body s]: run [body] at most [n] times; [inl] continues the
    loop with a new state, [inr] leaves it with a result. *)
Fixpoint while_fuel {S R} (n : nat) (body : S → S + R) (s : S) : S + R :=
  match n with
  | O => inl s
  | S n' => match body s with
            | inl s' => while_fuel n' body s'
            | inr r => inr r
            end
  end.

(** Sequence a list of effects, as a [for] loop over an index list does. *)
Fixpoint mfor {S I} (l : list I) (body : I → M S unit) : M S unit :=
  match l with
  | [] => ret tt
  | i :: l' => bind (body i) (λ _, mfor l' body)
  end.

(** [first_from P lo hi r]: [r] is the least index of [lo, hi) where [P] holds,
    or [hi] when there is none. *)
Definition first_from (P : Z → bool) (lo hi r : Z) : Prop :=
  lo <= r <= hi /\ (forall i, lo <= i < r -> P i = false) /\ (r < hi -> P r = true).

(** ** Automation *)

Create HintDb sbi.

(** Turn the boolean tests of the code into propositions. *)
Ltac zbool :=
  repeat match goal with
  | H : (_ =? _) = true |- _ => apply Z.eqb_eq in H
  | H : (_ =? _) = false |- _ => apply Z.eqb_neq in H
  | H : (_ <? _) = true |- _ => apply Z.ltb_lt in H
  | H : (_ <? _) = false |- _ => apply Z.ltb_ge in H
  | H : (_ <=? _) = true |- _ => apply Z.leb_le in H
  | H : (_ <=? _) = false |- _ => apply Z.leb_gt in H
  | H : (_ && _) = true |- _ => apply andb_true_iff in H; destruct H
  | H : (_ || _) = false |- _ => apply orb_false_iff in H; destruct H
  | H : negb _ = true |- _ => apply negb_true_iff in H
  | H : negb _ = false |- _ => apply negb_false_iff in H
  end.

(** Case analysis on the test of the first [if] of the goal. *)
Ltac case_if :=
  match goal with
  | |- context [if ?b then _ else _] =>
      lazymatch type of b with bool => let E := fresh "E" in destruct b eqn:E end
  end.

Ltac case_if_in H :=
  match type of H with
  | context [if ?b then _ else _] =>
      lazymatch type of b with bool => let E := fresh "E" in destruct b eqn:E end
  end.

(** ** Integers *)

Lemma u64_small x : is_u64 x -> u64 x = x.
Proof. intros H. apply Z.mod_small. exact H. Qed.

Lemma u64_range x : is_u64 (u64 x).
Proof. unfold is_u64, u64. apply Z.mod_pos_bound. lia. Qed.

Lemma u64_idemp x : u64 (u64 x) = u64 x.
Proof. apply u64_small, u64_range. Qed.

Lemma add64_assoc a x y : add64 (add64 a x) y = add64 a (x + y).
Proof. unfold add64, u64. rewrite Zplus_mod_idemp_l. f_equal. lia. Qed.

Lemma add64_0 a : is_u64 a -> add64 a 0 = a.
Proof. intros H. unfold add64. rewrite Z.add_0_r. by apply u64_small. Qed.

Lemma not64_range x : is_u64 x -> is_u64 (not64 x).
Proof. unfold is_u64, not64, u64_max. lia. Qed.

Lemma not64_involutive x : not64 (not64 x) = x.
Proof. unfold not64. lia. Qed.

Lemma shl64_range x n : is_u64 (shl64 x n).
Proof. apply u64_range. Qed.

Lemma shr64_range x n : is_u64 x -> is_u64 (shr64 x n).
Proof.
  unfold is_u64, shr64. intros H.
  assert (0 <= n mod 64 < 64) by (apply Z.mod_pos_bound; lia).
  rewrite Z.shiftr_div_pow2 by lia.
  assert (0 < 2 ^ (n mod 64)) by (apply Z.pow_pos_nonneg; lia).
  split; [apply Z.div_pos; lia|].
  apply Z.div_lt_upper_bound; [lia|nia].
Qed.

Lemma testbit_u64_high x i : is_u64 x -> 64 <= i -> Z.testbit x i = false.
Proof.
  intros [H0 H1] Hi. destruct (Z.eq_dec x 0) as [->|Hne]; [apply Z.bits_0|].
  apply Z.bits_above_log2; [lia|].
  assert (Z.log2 x < 64) by (apply Z.log2_lt_pow2; lia). lia.
Qed.

Lemma testbit_not64 x i :
  is_u64 x -> 0 <= i < 64 -> Z.testbit (not64 x) i = negb (Z.testbit x i).
Proof.
  intros Hx Hi.
  replace (not64 x) with ((Z.lnot x) mod 2 ^ 64).
  - rewrite Z.mod_pow2_bits_low by lia. apply Z.lnot_spec. lia.
  - unfold Z.lnot, not64, u64_max. symmetry.
    apply (Z.mod_unique_pos _ _ (-1)); unfold is_u64 in Hx; lia.
Qed.

Lemma testbit_BIT n i : 0 <= n < 64 -> 0 <= i -> Z.testbit (BIT n) i = (i =? n).
Proof.
  intros Hn Hi. unfold BIT, shl64. rewrite Z.mod_small by lia.
  rewrite Z.shiftl_1_l.
  rewrite u64_small.
  - rewrite Z.pow2_bits_eqb by lia. apply Z.eqb_sym.
  - split; [apply Z.pow_nonneg; lia|apply Z.pow_lt_mono_r; lia].
Qed.

Lemma BIT_pow n : 0 <= n < 64 -> BIT n = 2 ^ n.
Proof.
  intros Hn. unfold BIT, shl64. rewrite Z.mod_small by lia.
  rewrite Z.shiftl_1_l. apply u64_small.
  split; [apply Z.pow_nonneg; lia|apply Z.pow_lt_mono_r; lia].
Qed.

Lemma land_u64 x y : is_u64 x -> 0 <= y -> is_u64 (Z.land x y).
Proof.
  unfold is_u64. intros Hx Hy. split; [apply Z.land_nonneg; lia|].
  destruct (Z.eq_dec (Z.land x y) 0) as [->|Hne]; [lia|].
  assert (0 <= Z.land x y) by (apply Z.land_nonneg; lia).
  apply Z.log2_lt_cancel. change (Z.log2 (2 ^ 64)) with 64.
  assert (Z.log2 (Z.land x y) <= Z.min (Z.log2 x) (Z.log2 y)) by (apply Z.log2_land; lia).
  destruct (Z.eq_dec x 0) as [->|]; [rewrite Z.land_0_l in Hne; lia|].
  assert (Z.log2 x < 64) by (apply Z.log2_lt_pow2; lia). lia.
Qed.

Lemma lor_u64 x y : is_u64 x -> is_u64 y -> is_u64 (Z.lor x y).
Proof.
  unfold is_u64. intros Hx Hy. split; [apply Z.lor_nonneg; lia|].
  destruct (Z.eq_dec x 0) as [->|]; [rewrite Z.lor_0_l; lia|].
  destruct (Z.eq_dec y 0) as [->|]; [rewrite Z.lor_0_r; lia|].
  assert (0 <= Z.lor x y) by (apply Z.lor_nonneg; lia).
  apply Z.log2_lt_cancel. change (Z.log2 (2 ^ 64)) with 64.
  rewrite Z.log2_lor by lia.
  assert (Z.log2 x < 64) by (apply Z.log2_lt_pow2; lia).
  assert (Z.log2 y < 64) by (apply Z.log2_lt_pow2; lia). lia.
Qed.

Lemma land_ones_mod x k : 0 <= k -> Z.land x (2 ^ k - 1) = x mod 2 ^ k.
Proof.
  intros Hk. rewrite <- Z.land_ones by lia. f_equal.
  rewrite Z.ones_equiv. lia.
Qed.

(** Clearing the low [k] bits of a word rounds down to a multiple of [2 ^ k]. *)
Lemma land_not_ones x k :
  is_u64 x -> 0 <= k < 64 -> Z.land x (not64 (2 ^ k - 1)) = x / 2 ^ k * 2 ^ k.
Proof.
  intros Hx Hk. rewrite <- Z.shiftr_div_pow2, <- Z.shiftl_mul_pow2 by lia.
  assert (Hp : 2 ^ k < 2 ^ 64) by (apply Z.pow_lt_mono_r; lia).
  assert (0 < 2 ^ k) by (apply Z.pow_pos_nonneg; lia).
  apply Z.bits_inj'. intros i Hi. rewrite Z.land_spec, Z.shiftl_spec by lia.
  destruct (Z.lt_ge_cases i 64).
  - rewrite testbit_not64 by (unfold is_u64; lia).
    replace (2 ^ k - 1) with (Z.ones k) by (rewrite Z.ones_equiv; lia).
    destruct (Z.lt_ge_cases i k).
    + rewrite Z.ones_spec_low, (Z.testbit_neg_r _ (i - k)) by lia. apply andb_false_r.
    + rewrite Z.ones_spec_high, Z.shiftr_spec by lia. rewrite andb_true_r. f_equal. lia.
  - rewrite (testbit_u64_high x i) by done.
    rewrite Z.shiftr_spec, (testbit_u64_high x (i - k + k)) by (done || lia). done.
Qed.

Lemma shl64_1 k : 0 <= k < 64 -> shl64 1 k = 2 ^ k.
Proof. apply BIT_pow. Qed.

Lemma testbit_shl64 x sh i :
  0 <= sh < 64 -> 0 <= i < 64 -> Z.testbit (shl64 x sh) i = Z.testbit x (i - sh).
Proof.
  intros Hs Hi. unfold shl64, u64. rewrite Z.mod_pow2_bits_low by lia.
  rewrite (Z.mod_small sh) by lia. apply Z.shiftl_spec. lia.
Qed.

Lemma pow2_64 k : 0 <= k < 64 -> 0 < 2 ^ k /\ 2 * 2 ^ k <= 2 ^ 64.
Proof.
  intros Hk. split; [apply Z.pow_pos_nonneg; lia|].
  change 2 with (2 ^ 1) at 1. rewrite <- Z.pow_add_r by lia. apply Z.pow_le_mono_r; lia.
Qed.

Lemma testbit_zero_ext x y : (forall i, 0 <= i -> Z.testbit x i = Z.testbit y i) -> x = y.
Proof. intros H. apply Z.bits_inj'. exact H. Qed.

(** Disjoint bit ranges. *)
Lemma land_high_low q k r : 0 <= k -> 0 <= r < 2 ^ k -> Z.land (q * 2 ^ k) r = 0.
Proof.
  intros Hk Hr. apply Z.bits_inj'. intros i Hi. rewrite Z.land_spec, Z.bits_0.
  destruct (Z.lt_ge_cases i k).
  - by rewrite Z.mul_pow2_bits_low by lia.
  - rewrite <- (Z.mod_small r (2 ^ k)) by lia. rewrite Z.mod_pow2_bits_high by lia.
    apply andb_false_r.
Qed.

(** Their [lor] is a sum. *)
Lemma lor_low q k r : 0 <= k -> 0 <= r < 2 ^ k -> Z.lor (q * 2 ^ k) r = q * 2 ^ k + r.
Proof.
  intros Hk Hr. assert (Hd := land_high_low q k r Hk Hr).
  rewrite Z.add_nocarry_lxor by done. symmetry. by apply Z.lxor_lor.
Qed.

Lemma truthy_false x : truthy x = false <-> x = 0.
Proof. unfold truthy. rewrite negb_false_iff, Z.eqb_eq. done. Qed.

Lemma truthy_true x : truthy x = true <-> x <> 0.
Proof. unfold truthy. rewrite negb_true_iff, Z.eqb_neq. done. Qed.

#[export] Hint Resolve u64_range shl64_range shr64_range not64_range land_u64 lor_u64 : sbi.

(** ** The monad *)

Lemma bind_ret_l {S A B} (a : A) (k : A → M S B) s : bind (ret a) k s = k a s.
Proof. reflexivity. Qed.

Lemma bind_Ret {S A B} (m : M S A) (k : A → M S B) s a s' :
  m s = (Ret a, s') -> bind m k s = k a s'.
Proof. unfold bind. by intros ->. Qed.

Lemma bind_assoc {S A B C} (m : M S A) (f : A → M S B) (g : B → M S C) s :
  bind (bind m f) g s = bind m (λ a, bind (f a) g) s.
Proof. unfold bind. destruct (m s) as [[a|w] s']; reflexivity. Qed.

(** A computation whose every run keeps [P] on the state. *)
Definition preserves {S A} (P : S → Prop) (m : M S A) : Prop :=
  forall s, P s -> P (snd (m s)).

Lemma preserves_ret {S A} (P : S → Prop) (a : A) : preserves P (ret a).
Proof. intros s H. exact H. Qed.

Lemma preserves_stop {S A} (P : S → Prop) w : preserves P (@stop S A w).
Proof. intros s H. exact H. Qed.

Lemma preserves_gets {S A} (P : S → Prop) (f : S → A) : preserves P (gets f).
Proof. intros s H. exact H. Qed.

Lemma preserves_modify {S} (P : S → Prop) (f : S → S) :
  (forall s, P s -> P (f s)) -> preserves P (modify f).
Proof. intros H s Hs. exact (H s Hs). Qed.

Lemma preserves_bind {S A B} (P : S → Prop) (m : M S A) (k : A → M S B) :
  preserves P m -> (forall a, preserves P (k a)) -> preserves P (bind m k).
Proof.
  intros Hm Hk s Hs. unfold bind. specialize (Hm s Hs).
  destruct (m s) as [[a|w] s']; [apply Hk, Hm|exact Hm].
Qed.

Lemma preserves_mfor {S I} (P : S → Prop) (l : list I) (body : I → M S unit) :
  (forall i, preserves P (body i)) -> preserves P (mfor l body).
Proof.
  intros Hb. induction l as [|i l IH]; cbn; [apply preserves_ret|].
  apply preserves_bind; [apply Hb|]. intros _. exact IH.
Qed.

#[export] Hint Resolve preserves_ret preserves_stop preserves_gets preserves_bind
  preserves_mfor : sbi.

(** [runs P m Q]: from every state of [P] the computation returns, with a value
    of [Q], in a state of [P]: a total-correctness triple with an invariant. *)
Definition runs {S A} (P : S → Prop) (m : M S A) (Q : A → Prop) : Prop :=
  forall s, P s -> exists a s', m s = (Ret a, s') /\ P s' /\ Q a.

Lemma runs_ret {S A} (P : S → Prop) (a : A) (Q : A → Prop) : Q a -> runs P (ret a) Q.
Proof. intros H s Hs. exists a, s. done. Qed.

Lemma runs_gets {S A} (P : S → Prop) (f : S → A) (Q : A → Prop) :
  (forall s, P s -> Q (f s)) -> runs P (gets f) Q.
Proof. intros H s Hs. exists (f s), s. split; [done|]. split; [done|by apply H]. Qed.

Lemma runs_bind {S A B} (P : S → Prop) (m : M S A) (k : A → M S B) Q R :
  runs P m Q -> (forall a, Q a -> runs P (k a) R) -> runs P (bind m k) R.
Proof.
  intros Hm Hk s Hs. destruct (Hm s Hs) as (a & s' & E & Hs' & Ha).
  destruct (Hk a Ha s' Hs') as (b & s2 & E2 & H2). exists b, s2.
  split; [|done]. by rewrite (bind_Ret _ _ _ _ _ E).
Qed.

Lemma runs_weaken {S A} (P : S → Prop) (m : M S A) (Q R : A → Prop) :
  runs P m Q -> (forall a, Q a -> R a) -> runs P m R.
Proof.
  intros H Hi s Hs. destruct (H s Hs) as (a & s' & E & Hs' & Ha). exists a, s'. eauto.
Qed.

Lemma runs_mfor {S I} (P : S → Prop) (l : list I) (body : I → M S unit) :
  (forall i, i ∈ l -> runs P (body i) (λ _, True)) -> runs P (mfor l body) (λ _, True).
Proof.
  induction l as [|i l IH]; intros Hb; cbn; [by apply runs_ret|].
  eapply runs_bind; [apply Hb; set_solver|]. intros _ _. apply IH. intros j Hj. apply Hb. set_solver.
Qed.

(** ** Least indices *)

Lemma first_from_unique P lo hi r r' :
  first_from P lo hi r -> first_from P lo hi r' -> r = r'.
Proof.
  intros ((H1 & H2) & H3 & H4) ((H1' & H2') & H3' & H4').
  destruct (Z.lt_trichotomy r r') as [Hlt|[->|Hlt]]; [|done|].
  - assert (P r = true) by (apply H4; lia).
    assert (P r = false) by (apply H3'; lia). congruence.
  - assert (P r' = true) by (apply H4'; lia).
    assert (P r' = false) by (apply H3; lia). congruence.
Qed.

Lemma first_from_skip P lo mid hi r :
  lo <= mid -> (forall i, lo <= i < mid -> P i = false) ->
  first_from P mid hi r -> first_from P lo hi r.
Proof.
  intros Hle Hno (H1 & H2 & H3). split; [lia|]. split; [|exact H3].
  intros i Hi. destruct (Z.lt_ge_cases i mid); [apply Hno|apply H2]; lia.
Qed.

Lemma first_from_none P lo hi :
  lo <= hi -> (forall i, lo <= i < hi -> P i = false) -> first_from P lo hi hi.
Proof. intros Hle Hno. split; [lia|]. split; [exact Hno|lia]. Qed.

Lemma first_from_ext P Q lo hi r :
  (forall i, lo <= i < hi -> P i = Q i) -> first_from P lo hi r -> first_from Q lo hi r.
Proof.
  intros Heq (H1 & H2 & H3). split; [exact H1|]. split.
  - intros i Hi. rewrite <- Heq by lia. apply H2. lia.
  - intros Hr. rewrite <- Heq by lia. apply H3. lia.
Qed.
