(* ===== verification/SbiDefs.v ===== *)
(** * Constants of the SBI interface

    The error codes of include/sbi/sbi_error.h and the extension, function,
    state and flag numbers of include/sbi/sbi_ecall_interface.h and
    include/sbi/riscv_encoding.h used by the other files. *)

From Stdlib Require Import ZArith.
From S2P Require Import Prelude.

Definition SBI_OK : Z := 0.
Definition SBI_EFAIL : Z := -1.
Definition SBI_ENOTSUPP : Z := -2.
Definition SBI_EINVAL : Z := -3.
Definition SBI_EDENIED : Z := -4.
Definition SBI_EINVALID_ADDR : Z := -5.
Definition SBI_EALREADY : Z := -6.
Definition SBI_EALREADY_STARTED : Z := -7.
Definition SBI_EALREADY_STOPPED : Z := -8.
Definition SBI_LAST_ERR : Z := SBI_EALREADY_STOPPED.
Definition SBI_ENODEV : Z := -1000.
Definition SBI_EILL : Z := -1004.
Definition SBI_ENOSPC : Z := -1005.
Definition SBI_ENOMEM : Z := -1006.
Definition SBI_ETRAP : Z := -1007.
Definition SBI_ENOENT : Z := -1009.

(** Privilege modes. *)
Definition PRV_U : Z := 0.
Definition PRV_S : Z := 1.
Definition PRV_M : Z := 3.

(** Hart states of the HSM extension. *)
Definition SBI_HSM_STATE_STARTED : Z := 0.
Definition SBI_HSM_STATE_STOPPED : Z := 1.
Definition SBI_HSM_STATE_START_PENDING : Z := 2.
Definition SBI_HSM_STATE_STOP_PENDING : Z := 3.
Definition SBI_HSM_STATE_SUSPENDED : Z := 4.
Definition SBI_HSM_STATE_SUSPEND_PENDING : Z := 5.
Definition SBI_HSM_STATE_RESUME_PENDING : Z := 6.

Definition SBI_HSM_SUSP_BASE_MASK : Z := 0x7fffffff.
Definition SBI_HSM_SUSP_NON_RET_BIT : Z := 0x80000000.
Definition SBI_HSM_SUSP_PLAT_BASE : Z := 0x10000000.
Definition SBI_HSM_SUSPEND_RET_DEFAULT : Z := 0.
Definition SBI_HSM_SUSPEND_RET_PLATFORM : Z := SBI_HSM_SUSP_PLAT_BASE.
Definition SBI_HSM_SUSPEND_NON_RET_DEFAULT : Z := SBI_HSM_SUSP_NON_RET_BIT.
Definition SBI_HSM_SUSPEND_NON_RET_PLATFORM : Z :=
  Z.lor SBI_HSM_SUSP_NON_RET_BIT SBI_HSM_SUSP_PLAT_BASE.
