(* ===== verification/Bitops.v ===== *)
(** * Bit operations, bitmaps and hart masks

    Models include/sbi/sbi_bitops.h, include/sbi/sbi_bitmap.h,
    include/sbi/sbi_hartmask.h, lib/sbi/sbi_bitops.c, lib/sbi/sbi_bitmap.c and
    lib/sbi/sbi_math.c of OpenSBI.  A bitmap is the list of its 64-bit words;
    [wget] reads a word ([0] outside the list, which every theorem excludes by
    a length hypothesis).  The theorems show that the word-at-a-time searches
    compute the least (or greatest) index they promise, that the iteration
    macros enumerate exactly the set bits, and that hart masks implement finite
    sets of hart ids. *)

From Stdlib Require Import ZArith Lia.
From stdpp Require Import base tactics list gmap numbers.
From S2P Require Import Prelude.

Definition BITS_PER_LONG : Z := 64.

Definition BIT_WORD (bit : Z) : Z := bit / BITS_PER_LONG.

Definition BIT_WORD_OFFSET (bit : Z) : Z := Z.land bit (BITS_PER_LONG - 1).

Definition BIT_MASK (nr : Z) : Z := shl64 1 (nr mod BITS_PER_LONG).

Definition BITS_TO_LONGS (nbits : Z) : Z := (nbits + BITS_PER_LONG - 1) / BITS_PER_LONG.

(** Read and write word [i] of a bitmap. *)
Definition wget (l : list Z) (i : Z) : Z := default 0 (l !! Z.to_nat i).

Definition wset (l : list Z) (i v : Z) : list Z := <[Z.to_nat i := v]> l.

(** Bit [i] of a bitmap. *)
Definition bit_at (l : list Z) (i : Z) : bool := Z.testbit (wget l (i / 64)) (i mod 64).

(** ** Searching a word *)

Definition __ffs (word : Z) : Z :=
  let num := 0 in
  let '(num, word) := if Z.land word 0xffffffff =? 0 then (num + 32, shr64 word 32) else (num, word) in
  let '(num, word) := if Z.land word 0xffff =? 0 then (num + 16, shr64 word 16) else (num, word) in
  let '(num, word) := if Z.land word 0xff =? 0 then (num + 8, shr64 word 8) else (num, word) in
  let '(num, word) := if Z.land word 0xf =? 0 then (num + 4, shr64 word 4) else (num, word) in
  let '(num, word) := if Z.land word 0x3 =? 0 then (num + 2, shr64 word 2) else (num, word) in
  if Z.land word 0x1 =? 0 then num + 1 else num.

Definition ffz (x : Z) : Z := __ffs (not64 x).

Definition __fls (word : Z) : Z :=
  let num := BITS_PER_LONG - 1 in
  let '(num, word) := if negb (truthy (Z.land word (shl64 u64_max 32)))
                      then (num - 32, shl64 word 32) else (num, word) in
  let '(num, word) := if negb (truthy (Z.land word (shl64 u64_max (BITS_PER_LONG - 16))))
                      then (num - 16, shl64 word 16) else (num, word) in
  let '(num, word) := if negb (truthy (Z.land word (shl64 u64_max (BITS_PER_LONG - 8))))
                      then (num - 8, shl64 word 8) else (num, word) in
  let '(num, word) := if negb (truthy (Z.land word (shl64 u64_max (BITS_PER_LONG - 4))))
                      then (num - 4, shl64 word 4) else (num, word) in
  let '(num, word) := if negb (truthy (Z.land word (shl64 u64_max (BITS_PER_LONG - 2))))
                      then (num - 2, shl64 word 2) else (num, word) in
  if negb (truthy (Z.land word (shl64 u64_max (BITS_PER_LONG - 1)))) then num - 1 else num.

(** ** Searching a bitmap *)

(** The [while (size & ~(BITS_PER_LONG-1))] scan over whole words shared by the
    four forward searches: [inr] is the jump to [found] with [result] and
    [tmp], [inl] the state when the loop is left.  [hit] is the test of the
    word ([tmp] or [~tmp] nonzero). *)
Definition scan_body (addr : list Z) (hit : Z → bool) (st : Z * Z * Z)
  : Z * Z * Z + (Z * Z * Z + Z * Z) :=
  let '(p, result, size) := st in
  if truthy (Z.land size (not64 (BITS_PER_LONG - 1))) then
    let tmp := wget addr p in
    if hit tmp then inr (inr (result, tmp))
    else inl (p + 1, result + BITS_PER_LONG, size - BITS_PER_LONG)
  else inr (inl (p, result, size)).

Definition scan (addr : list Z) (hit : Z → bool) (p result size : Z)
  : Z * Z * Z + Z * Z :=
  match while_fuel (S (Z.to_nat (size / BITS_PER_LONG))) (scan_body addr hit) (p, result, size) with
  | inl st => inl st
  | inr r => r
  end.

Definition find_first_bit (addr : list Z) (size : Z) : Z :=
  match scan addr truthy 0 0 size with
  | inr (result, tmp) => result + __ffs tmp
  | inl (p, result, size) =>
      if size =? 0 then result
      else
        let tmp := Z.land (wget addr p) (shr64 u64_max (BITS_PER_LONG - size)) in
        if tmp =? 0 then result + size else result + __ffs tmp
  end.

Definition find_first_zero_bit (addr : list Z) (size : Z) : Z :=
  match scan addr (λ tmp, truthy (not64 tmp)) 0 0 size with
  | inr (result, tmp) => result + ffz tmp
  | inl (p, result, size) =>
      if size =? 0 then result
      else
        let tmp := Z.lor (wget addr p) (shl64 u64_max size) in
        if tmp =? u64_max then result + size else result + ffz tmp
  end.

(** The tail of find_next_bit from the label [found_first]. *)
Definition next_found_first (result size tmp : Z) : Z :=
  let tmp := Z.land tmp (shr64 u64_max (BITS_PER_LONG - size)) in
  if tmp =? 0 then result + size else result + __ffs tmp.

(** The part of find_next_bit from the [while] loop on. *)
Definition next_words (addr : list Z) (p result size : Z) : Z :=
  match scan addr truthy p result size with
  | inr (result, tmp) => result + __ffs tmp
  | inl (p, result, size) =>
      if size =? 0 then result else next_found_first result size (wget addr p)
  end.

Definition find_next_bit (addr : list Z) (size offset : Z) : Z :=
  let p := BIT_WORD offset in
  let result := Z.land offset (not64 (BITS_PER_LONG - 1)) in
  if size <=? offset then size
  else
    let size := size - result in
    let offset := offset mod BITS_PER_LONG in
    if truthy offset then
      let tmp := Z.land (wget addr p) (shl64 u64_max offset) in
      let p := p + 1 in
      if size <? BITS_PER_LONG then next_found_first result size tmp
      else if truthy tmp then result + __ffs tmp
      else next_words addr p (result + BITS_PER_LONG) (size - BITS_PER_LONG)
    else next_words addr p result size.

Definition next_zero_found_first (result size tmp : Z) : Z :=
  let tmp := Z.lor tmp (shl64 u64_max size) in
  if tmp =? u64_max then result + size else result + ffz tmp.

Definition next_zero_words (addr : list Z) (p result size : Z) : Z :=
  match scan addr (λ tmp, truthy (not64 tmp)) p result size with
  | inr (result, tmp) => result + ffz tmp
  | inl (p, result, size) =>
      if size =? 0 then result else next_zero_found_first result size (wget addr p)
  end.

Definition find_next_zero_bit (addr : list Z) (size offset : Z) : Z :=
  let p := BIT_WORD offset in
  let result := Z.land offset (not64 (BITS_PER_LONG - 1)) in
  if size <=? offset then size
  else
    let size := size - result in
    let offset := offset mod BITS_PER_LONG in
    if truthy offset then
      let tmp := Z.lor (wget addr p) (shr64 u64_max (BITS_PER_LONG - offset)) in
      let p := p + 1 in
      if size <? BITS_PER_LONG then next_zero_found_first result size tmp
      else if truthy (not64 tmp) then result + ffz tmp
      else next_zero_words addr p (result + BITS_PER_LONG) (size - BITS_PER_LONG)
    else next_zero_words addr p result size.

(** The [while (words)] loop of find_last_bit; the fuel is the word count. *)
Fixpoint last_words (addr : list Z) (n : nat) (size : Z) : Z :=
  match n with
  | O => size
  | S words =>
      let tmp := wget addr (Z.of_nat words) in
      if truthy tmp then Z.of_nat words * BITS_PER_LONG + __fls tmp
      else last_words addr words size
  end.

Definition find_last_bit (addr : list Z) (size : Z) : Z :=
  let words := size / BITS_PER_LONG in
  if truthy (Z.land size (BITS_PER_LONG - 1)) then
    let tmp := Z.land (wget addr words)
                 (shr64 u64_max (BITS_PER_LONG - Z.land size (BITS_PER_LONG - 1))) in
    if truthy tmp then words * BITS_PER_LONG + __fls tmp
    else last_words addr (Z.to_nat words) size
  else last_words addr (Z.to_nat words) size.

(** The indices visited by [for_each_set_bit_from]. *)
Fixpoint set_bits_from (fuel : nat) (addr : list Z) (size bit : Z) : list Z :=
  match fuel with
  | O => []
  | S n => if bit <? size then bit :: set_bits_from n addr size (find_next_bit addr size (bit + 1))
           else []
  end.

Definition for_each_set_bit_from (addr : list Z) (size bit : Z) : list Z :=
  set_bits_from (Z.to_nat size) addr size (find_next_bit addr size bit).

Definition for_each_set_bit (addr : list Z) (size : Z) : list Z :=
  set_bits_from (Z.to_nat size) addr size (find_first_bit addr size).

(** ** Single bits *)

Definition __set_bit (nr : Z) (addr : list Z) : list Z :=
  wset addr (BIT_WORD nr) (Z.lor (wget addr (BIT_WORD nr)) (BIT_MASK nr)).

Definition __clear_bit (nr : Z) (addr : list Z) : list Z :=
  wset addr (BIT_WORD nr) (Z.land (wget addr (BIT_WORD nr)) (not64 (BIT_MASK nr))).

(** sbi_bitops.h: 1UL & (addr[BIT_WORD(nr)] >> (nr & (BITS_PER_LONG-1))) *)
Definition __test_bit (nr : Z) (addr : list Z) : Z :=
  Z.land 1 (shr64 (wget addr (BIT_WORD nr)) (Z.land nr (BITS_PER_LONG - 1))).

(** ** Whole bitmaps (sbi_bitmap.h, sbi_bitmap.c) *)

Fixpoint bitmap_loop (f : Z → Z → Z) (dst b1 b2 : list Z) (n k : nat) : list Z :=
  match n with
  | O => dst
  | S n' =>
      bitmap_loop f (<[k := f (wget b1 (Z.of_nat k)) (wget b2 (Z.of_nat k))]> dst) b1 b2 n' (S k)
  end.

Definition __bitmap_and (dst b1 b2 : list Z) (bits : Z) : list Z :=
  bitmap_loop Z.land dst b1 b2 (Z.to_nat (BITS_TO_LONGS bits)) 0.

Definition __bitmap_or (dst b1 b2 : list Z) (bits : Z) : list Z :=
  bitmap_loop Z.lor dst b1 b2 (Z.to_nat (BITS_TO_LONGS bits)) 0.

Definition __bitmap_xor (dst b1 b2 : list Z) (bits : Z) : list Z :=
  bitmap_loop Z.lxor dst b1 b2 (Z.to_nat (BITS_TO_LONGS bits)) 0.

Definition bitmap_zero (nbits : Z) : list Z := replicate (Z.to_nat (BITS_TO_LONGS nbits)) 0.

Definition bitmap_zero_except (exception nbits : Z) : list Z :=
  let dst := bitmap_zero nbits in
  if exception <? nbits then __set_bit exception dst else dst.

Definition BITMAP_LAST_WORD_MASK (nbits : Z) : Z :=
  if truthy (nbits mod BITS_PER_LONG) then shl64 1 (nbits mod BITS_PER_LONG) - 1 else u64_max.

Definition bitmap_fill (nbits : Z) : list Z :=
  replicate (Z.to_nat (BITS_TO_LONGS nbits - 1)) u64_max ++ [BITMAP_LAST_WORD_MASK nbits].

(** ** Hart masks (sbi_hartmask.h) *)

Definition SBI_HARTMASK_MAX_BITS : Z := 128.

Record sbi_hartmask : Type := Hartmask { bits : list Z }.

Definition SBI_HARTMASK_INIT : sbi_hartmask := Hartmask (bitmap_zero SBI_HARTMASK_MAX_BITS).

Definition SBI_HARTMASK_INIT_EXCEPT (h : Z) : sbi_hartmask :=
  Hartmask (bitmap_zero_except h SBI_HARTMASK_MAX_BITS).

Definition sbi_hartmask_set_hart (h : Z) (m : sbi_hartmask) : sbi_hartmask :=
  if h <? SBI_HARTMASK_MAX_BITS then Hartmask (__set_bit h (bits m)) else m.

Definition sbi_hartmask_clear_hart (h : Z) (m : sbi_hartmask) : sbi_hartmask :=
  if h <? SBI_HARTMASK_MAX_BITS then Hartmask (__clear_bit h (bits m)) else m.

Definition sbi_hartmask_test_hart (h : Z) (m : sbi_hartmask) : Z :=
  if h <? SBI_HARTMASK_MAX_BITS then __test_bit h (bits m) else 0.

Definition sbi_hartmask_set_all : sbi_hartmask := Hartmask (bitmap_fill SBI_HARTMASK_MAX_BITS).

Definition sbi_hartmask_clear_all : sbi_hartmask := Hartmask (bitmap_zero SBI_HARTMASK_MAX_BITS).

Definition sbi_hartmask_and (d s1 s2 : sbi_hartmask) : sbi_hartmask :=
  Hartmask (__bitmap_and (bits d) (bits s1) (bits s2) SBI_HARTMASK_MAX_BITS).

Definition sbi_hartmask_or (d s1 s2 : sbi_hartmask) : sbi_hartmask :=
  Hartmask (__bitmap_or (bits d) (bits s1) (bits s2) SBI_HARTMASK_MAX_BITS).

Definition sbi_hartmask_xor (d s1 s2 : sbi_hartmask) : sbi_hartmask :=
  Hartmask (__bitmap_xor (bits d) (bits s1) (bits s2) SBI_HARTMASK_MAX_BITS).

Definition sbi_hartmask_for_each_hart (m : sbi_hartmask) : list Z :=
  for_each_set_bit (bits m) SBI_HARTMASK_MAX_BITS.

(** ** log2roundup (sbi_math.c) *)

Definition log2roundup_body (x : Z) (r : Z) : Z + Z :=
  if r <? XLEN then (if x <=? shl64 1 r then inr r else inl (r + 1)) else inr r.

Definition log2roundup (x : Z) : Z :=
  match while_fuel 65 (log2roundup_body x) 0 with inl r => r | inr r => r end.

(** The hart ids a mask denotes, as a finite set. *)
Definition hartmask_set (m : sbi_hartmask) : gset Z :=
  list_to_set (filter (λ i, bit_at (bits m) i = true) (seqZ 0 SBI_HARTMASK_MAX_BITS)).

(** A mask has two 64-bit words. *)
Definition hartmask_wf (m : sbi_hartmask) : Prop :=
  length (bits m) = 2%nat /\ Forall is_u64 (bits m).

Definition bitmap_wf (l : list Z) (size : Z) : Prop :=
  0 <= size <= 64 * Z.of_nat (length l) /\ Forall is_u64 l.

(** ** Words *)

(** The lowest set bit of a word. *)
Definition lowest_bit (w n : Z) : Prop :=
  0 <= n /\ Z.testbit w n = true /\ forall i, 0 <= i < n -> Z.testbit w i = false.

Lemma testbit_mod_0 w k i : w mod 2 ^ k = 0 -> 0 <= i < k -> Z.testbit w i = false.
Proof.
  intros Hm Hi. rewrite <- (Z.mod_pow2_bits_low w k i) by lia.
  rewrite Hm. apply Z.bits_0.
Qed.

(** One halving step of [__ffs]: among the low [2 * k] bits of [w], at least one
    is set; after the step the same holds for the low [k] bits. *)
Lemma ffs_step w k num n (Hk : 0 < k < 64) :
  0 <= w -> w mod 2 ^ (2 * k) <> 0 ->
  let '(num', w') := if Z.land w (2 ^ k - 1) =? 0 then (num + k, shr64 w k) else (num, w) in
  0 <= w' /\ w' mod 2 ^ k <> 0 /\ (lowest_bit w' (n - num') -> lowest_bit w (n - num)).
Proof.
  intros Hw Hnz. rewrite land_ones_mod by lia.
  destruct (w mod 2 ^ k =? 0) eqn:E; zbool.
  - unfold shr64. rewrite Z.mod_small by lia. rewrite Z.shiftr_div_pow2 by lia.
    assert (Hp : 0 < 2 ^ k) by (apply Z.pow_pos_nonneg; lia).
    split; [apply Z.div_pos; lia|]. split.
    + intros H. apply Hnz. replace (2 * k) with (k + k) by lia.
      rewrite Z.pow_add_r by lia. rewrite Z.rem_mul_r by lia. rewrite E, H. lia.
    + intros (H0 & H1 & H2). split; [lia|].
      rewrite <- Z.shiftr_div_pow2 in H1 by lia. rewrite Z.shiftr_spec in H1 by lia.
      replace (n - (num + k) + k) with (n - num) in H1 by lia. split; [done|].
      intros i Hi. destruct (Z.lt_ge_cases i k) as [Hlt|Hge].
      * apply (testbit_mod_0 _ k); [done|lia].
      * specialize (H2 (i - k) ltac:(lia)). rewrite <- Z.shiftr_div_pow2 in H2 by lia.
        rewrite Z.shiftr_spec in H2 by lia. by replace (i - k + k) with i in H2 by lia.
  - split; [done|]. split; [done|]. tauto.
Qed.

Lemma ffs_tail w num r :
  0 <= w -> w mod 2 ^ 1 <> 0 -> r = num -> lowest_bit w (r - num).
Proof.
  intros H0 Hm ->. rewrite Z.sub_diag. split; [lia|]. split; [|lia].
  rewrite Z.bit0_odd. change (2 ^ 1) with 2 in Hm. rewrite Zmod_odd in Hm.
  by destruct (Z.odd w).
Qed.

(** Consume one halving step of an unfolded [__ffs] in [Hr]. *)
Ltac ffs_halve Hr k :=
  match goal with
  | P : 0 <= ?w, Mz : ?w mod _ <> 0 |- lowest_bit ?w (?r - ?num) =>
      let S := fresh "S" in
      pose proof (ffs_step w k num r ltac:(lia) P Mz) as S;
      let m := eval vm_compute in (2 ^ k - 1) in change (2 ^ k - 1) with m in S;
      destruct (if Z.land w m =? 0 then _ else _) as [? ?] in S, Hr;
      let L := fresh "L" in destruct S as (? & ? & L); apply L; clear L P Mz
  end.

Lemma ffs_lowest w : is_u64 w -> w <> 0 -> lowest_bit w (__ffs w).
Proof.
  intros [H0 H1] Hnz.
  assert (Hm : w mod 2 ^ (2 * 32) <> 0) by (rewrite Z.mod_small; lia).
  assert (G : forall r, r = __ffs w -> lowest_bit w (r - 0));
    [|by specialize (G _ eq_refl); rewrite Z.sub_0_r in G].
  clear H1 Hnz. intros r Hr. unfold __ffs in Hr.
  ffs_halve Hr 32. ffs_halve Hr 16. ffs_halve Hr 8. ffs_halve Hr 4. ffs_halve Hr 2.
  match goal with
  | P : 0 <= ?w, Mz : ?w mod _ <> 0 |- lowest_bit ?w (?r - ?num) =>
      pose proof (ffs_step w 1 num r ltac:(lia) P Mz) as S6
  end.
  change (2 ^ 1 - 1) with 0x1 in S6.
  case_if_in Hr; destruct S6 as (P6 & M6 & L6); apply L6; by apply ffs_tail.
Qed.

Lemma lowest_bit_first w n hi :
  lowest_bit w n -> n < hi -> first_from (Z.testbit w) 0 hi n.
Proof.
  intros (H0 & H1 & H2) Hn. split; [lia|]. split; [exact H2|done].
Qed.

Lemma lowest_bit_lt w n : is_u64 w -> lowest_bit w n -> n < 64.
Proof.
  intros Hw (H0 & H1 & _). destruct (Z.lt_ge_cases n 64); [done|].
  by rewrite testbit_u64_high in H1.
Qed.

(** One halving step of [__fls]. *)
Lemma fls_step w k num :
  0 < k < 64 -> 0 < w < 2 ^ 64 -> 64 - 2 * k <= Z.log2 w ->
  let '(num', w') := if negb (truthy (Z.land w (shl64 u64_max (64 - k))))
                     then (num - k, shl64 w k) else (num, w) in
  0 < w' < 2 ^ 64 /\ 64 - k <= Z.log2 w' /\ num' + Z.log2 w' = num + Z.log2 w.
Proof.
  intros Hk Hw Hlow.
  assert (Hp : 0 < 2 ^ k) by (apply Z.pow_pos_nonneg; lia).
  assert (Hs : 2 ^ (64 - k) * 2 ^ k = 2 ^ 64).
  { rewrite <- Z.pow_add_r by lia. f_equal. lia. }
  assert (Hl : Z.log2 w < 64) by (apply Z.log2_lt_pow2; lia).
  assert (Hbit : forall i, 0 <= i < 64 ->
    Z.testbit (shl64 u64_max (64 - k)) i = (64 - k <=? i)).
  { intros i Hi. unfold shl64, u64. rewrite (Z.mod_small (64 - k)) by lia.
    rewrite Z.mod_pow2_bits_low by lia. rewrite Z.shiftl_spec by lia.
    change u64_max with (2 ^ 64 - 1). replace (2 ^ 64 - 1) with (Z.ones 64) by reflexivity.
    destruct (64 - k <=? i) eqn:E; zbool.
    - apply Z.ones_spec_low. lia.
    - apply Z.testbit_neg_r. lia. }
  destruct (truthy (Z.land w (shl64 u64_max (64 - k)))) eqn:E; cbn [negb].
  - split; [lia|]. split; [|lia]. apply truthy_true in E.
    destruct (Z.lt_ge_cases (Z.log2 w) (64 - k)) as [Hlt|]; [|done]. exfalso. apply E.
    apply testbit_zero_ext. intros i Hi. rewrite Z.land_spec, Z.bits_0.
    destruct (Z.lt_ge_cases i (64 - k)).
    + rewrite Hbit by lia. destruct (64 - k <=? i) eqn:E'; zbool; [lia|apply andb_false_r].
    + rewrite Z.bits_above_log2 by lia. done.
  - apply truthy_false in E.
    assert (Hlt : Z.log2 w < 64 - k).
    { destruct (Z.lt_ge_cases (Z.log2 w) (64 - k)); [done|]. exfalso.
      assert (Hb : Z.testbit (Z.land w (shl64 u64_max (64 - k))) (Z.log2 w) = true).
      { rewrite Z.land_spec, Z.bit_log2 by lia.
        assert (0 <= Z.log2 w) by apply Z.log2_nonneg.
        rewrite Hbit by lia. destruct (64 - k <=? Z.log2 w) eqn:E'; zbool; [done|lia]. }
      by rewrite E, Z.bits_0 in Hb. }
    assert (Hw2 : w < 2 ^ (64 - k)) by (apply Z.log2_lt_pow2; lia).
    unfold shl64. rewrite Z.mod_small by lia. rewrite Z.shiftl_mul_pow2 by lia.
    rewrite u64_small by (unfold is_u64; nia).
    rewrite Z.log2_mul_pow2 by lia. split; [nia|]. split; lia.
Qed.

Ltac fls_halve k :=
  match goal with
  | P : 0 < ?w < 2 ^ 64, L : _ <= Z.log2 ?w |- context [Z.land ?w (shl64 u64_max ?m)] =>
      let S := fresh "S" in
      match goal with
      | |- context [if negb (truthy (Z.land w (shl64 u64_max m))) then (?num - k, _) else _] =>
          pose proof (fls_step w k num ltac:(lia) P L) as S
      end;
      change (64 - k) with m in S;
      destruct (if negb (truthy (Z.land w (shl64 u64_max m))) then _ else _) as [? ?] in S |- *;
      destruct S as (? & ? & ?)
  end.

Lemma fls_log2 w : is_u64 w -> w <> 0 -> __fls w = Z.log2 w.
Proof.
  intros [H0 H1] Hnz. assert (Hw : 0 < w < 2 ^ 64) by lia.
  assert (L : 64 - 2 * 32 <= Z.log2 w) by (pose proof (Z.log2_nonneg w); lia).
  unfold __fls.
  change (BITS_PER_LONG - 1) with 63. change (BITS_PER_LONG - 16) with 48.
  change (BITS_PER_LONG - 8) with 56. change (BITS_PER_LONG - 4) with 60.
  change (BITS_PER_LONG - 2) with 62.
  fls_halve 32. fls_halve 16. fls_halve 8. fls_halve 4. fls_halve 2.
  match goal with
  | P : 0 < ?w < 2 ^ 64, L : 62 <= Z.log2 ?w |- context [if _ then ?num - 1 else _] =>
      pose proof (fls_step w 1 num ltac:(lia) P L) as S6
  end.
  change (64 - 1) with 63 in S6.
  case_if; destruct S6 as (P6 & L6 & E6);
    assert (X6 : forall x, 0 < x < 2 ^ 64 -> Z.log2 x < 64)
      by (intros; apply Z.log2_lt_pow2; lia);
    pose proof (X6 _ P6); lia.
Qed.

(** ** Bitmap searches *)

Lemma land_not64 x y : is_u64 x -> is_u64 y -> Z.land x (not64 y) = Z.ldiff x y.
Proof.
  intros Hx Hy. apply testbit_zero_ext. intros i Hi.
  rewrite Z.land_spec, Z.ldiff_spec.
  destruct (Z.lt_ge_cases i 64).
  - by rewrite testbit_not64.
  - by rewrite (testbit_u64_high x) by (done || lia).
Qed.

Lemma land_not63 x : is_u64 x -> Z.land x (not64 (BITS_PER_LONG - 1)) = 64 * (x / 64).
Proof.
  intros Hx. rewrite land_not64 by (done || (unfold is_u64, BITS_PER_LONG; lia)).
  change (BITS_PER_LONG - 1) with (Z.ones 6). rewrite Z.ldiff_ones_r by lia.
  rewrite Z.shiftr_div_pow2, Z.shiftl_mul_pow2 by lia. change (2 ^ 6) with 64. lia.
Qed.

Lemma wget_u64 l i : Forall is_u64 l -> is_u64 (wget l i).
Proof.
  intros Hl. unfold wget. destruct (l !! Z.to_nat i) eqn:E; cbn.
  - by eapply Forall_lookup in Hl.
  - unfold is_u64. lia.
Qed.

Lemma testbit_ones_shr n i :
  0 < n <= 64 -> 0 <= i < 64 -> Z.testbit (shr64 u64_max (64 - n)) i = (i <? n).
Proof.
  intros Hn Hi. unfold shr64. rewrite Z.mod_small by lia. rewrite Z.shiftr_spec by lia.
  change u64_max with (Z.ones 64). destruct (i <? n) eqn:E; zbool.
  - apply Z.ones_spec_low. lia.
  - apply Z.ones_spec_high. lia.
Qed.

Lemma testbit_ones_shl n i :
  0 <= n < 64 -> 0 <= i < 64 -> Z.testbit (shl64 u64_max n) i = (n <=? i).
Proof.
  intros Hn Hi. unfold shl64, u64. rewrite (Z.mod_small n) by lia.
  rewrite Z.mod_pow2_bits_low by lia. rewrite Z.shiftl_spec by lia.
  change u64_max with (Z.ones 64). destruct (n <=? i) eqn:E; zbool.
  - apply Z.ones_spec_low. lia.
  - apply Z.testbit_neg_r. lia.
Qed.

Lemma u64_max_range : is_u64 u64_max.
Proof. unfold is_u64, u64_max. lia. Qed.

#[export] Hint Resolve wget_u64 u64_max_range : sbi.

(** The searches for set and for clear bits scan the same way; they differ in a
    function [f] applied to each word, the identity or the complement. *)
Section search.
Variable f : Z → Z.
Variable l : list Z.
Hypothesis f_u64 : forall x, is_u64 x -> is_u64 (f x).
Hypothesis l_u64 : Forall is_u64 l.

Definition bit_of (i : Z) : bool := Z.testbit (f (wget l (i / 64))) (i mod 64).

Lemma bit_of_word p j : 0 <= p -> 0 <= j < 64 -> bit_of (64 * p + j) = Z.testbit (f (wget l p)) j.
Proof using Type.
  intros Hp Hj. unfold bit_of.
  replace (64 * p + j) with (j + p * 64) by lia.
  rewrite Z.div_add, Z.mod_add by lia. rewrite Z.div_small, Z.mod_small by lia. done.
Qed.

(** [w] is word [q] with the bits below [lo] and from [hi] on cleared. *)
Definition masked (w q lo hi : Z) : Prop :=
  is_u64 w /\ forall j, 0 <= j < 64 ->
    Z.testbit w j = bit_of (64 * q + j) && (lo <=? 64 * q + j) && (64 * q + j <? hi).

Lemma masked_none w q lo hi i :
  masked w q lo hi -> w = 0 -> 64 * q <= i < 64 * q + 64 -> lo <= i < hi -> bit_of i = false.
Proof using Type.
  intros [_ Hb] -> Hi Hlo. specialize (Hb (i - 64 * q) ltac:(lia)).
  rewrite Z.bits_0 in Hb. replace (64 * q + (i - 64 * q)) with i in Hb by lia.
  destruct (bit_of i); [|done].
  destruct (lo <=? i) eqn:E1; destruct (i <? hi) eqn:E2; zbool; (done || lia).
Qed.

Lemma masked_found w q lo hi hi' :
  masked w q lo hi -> w <> 0 -> 64 * q <= lo -> hi <= hi' -> 64 * q + __ffs w < hi' ->
  first_from bit_of lo hi' (64 * q + __ffs w).
Proof using Type.
  intros [Hw Hb] Hnz Hlo Hhi Hlt.
  pose proof (ffs_lowest w Hw Hnz) as Hlow. pose proof (lowest_bit_lt _ _ Hw Hlow).
  destruct Hlow as (H0 & H1 & H2). rewrite Hb in H1 by lia. zbool.
  split; [lia|]. split; [|done].
  intros i Hi. specialize (H2 (i - 64 * q) ltac:(lia)). rewrite Hb in H2 by lia.
  replace (64 * q + (i - 64 * q)) with i in H2 by lia.
  destruct (bit_of i); [|done].
  destruct (lo <=? i) eqn:E1; destruct (i <? hi) eqn:E2; zbool; (done || lia).
Qed.

Lemma masked_lt w q lo hi : masked w q lo hi -> w <> 0 -> 64 * q + __ffs w < hi.
Proof using Type.
  intros [Hw Hb] Hnz. pose proof (ffs_lowest w Hw Hnz) as Hlow.
  pose proof (lowest_bit_lt _ _ Hw Hlow). destruct Hlow as (H0 & H1 & _).
  rewrite Hb in H1 by lia. zbool. lia.
Qed.

Lemma masked_whole q hi : 0 <= q -> 64 * q + 64 <= hi -> masked (f (wget l q)) q (64 * q) hi.
Proof using f_u64 l_u64.
  intros Hq Hhi. split; [auto with sbi|]. intros j Hj. rewrite bit_of_word by lia.
  destruct (64 * q <=? 64 * q + j) eqn:E1; destruct (64 * q + j <? hi) eqn:E2; zbool; try lia.
  by rewrite !andb_true_r.
Qed.

(** What a whole-word scan from word [p] establishes. *)
Definition scan_post (p size : Z) (r : Z * Z * Z + Z * Z) : Prop :=
  exists q, p <= q /\ (forall i, 64 * p <= i < 64 * q -> bit_of i = false) /\
  match r with
  | inl (q', result, rest) =>
      q' = q /\ result = 64 * q /\ 0 <= rest < 64 /\ rest = size - 64 * (q - p)
  | inr (result, tmp) =>
      result = 64 * q /\ tmp = wget l q /\ f tmp <> 0 /\ 64 * (q - p) + 64 <= size
  end.

Lemma scan_step n p size :
  (forall p size, 0 <= p -> is_u64 size -> size / 64 < Z.of_nat n ->
   scan_post p size (match while_fuel n (scan_body l (λ t, truthy (f t))) (p, 64 * p, size) with
                     | inl st => inl st | inr r => r end)) ->
  0 <= p -> is_u64 size -> size / 64 < Z.of_nat (S n) -> 64 <= size -> f (wget l p) = 0 ->
  scan_post p size
    (match while_fuel n (scan_body l (λ t, truthy (f t))) (p + 1, 64 * p + 64, size - 64) with
     | inl st => inl st | inr r => r end).
Proof using f_u64 l_u64.
  intros IH Hp Hs Hn Hge Hz.
  destruct (IH (p + 1) (size - 64)) as (q & Hq & Hno & Hm); [lia|unfold is_u64 in *; lia| |].
  { replace size with ((size - 64) + 1 * 64) in Hn by lia. rewrite Z.div_add in Hn by lia. lia. }
  replace (64 * (p + 1)) with (64 * p + 64) in Hm by lia.
  exists q. split; [lia|]. split.
  - intros i Hi. destruct (Z.lt_ge_cases i (64 * p + 64)); [|apply Hno; lia].
    apply (masked_none (f (wget l p)) p (64 * p) (64 * p + 64)); try lia.
    apply masked_whole; lia.
  - destruct (match while_fuel n _ _ with inl st => inl st | inr r => r end)
      as [[[q' res] rest]|[res tmp]]; split_and!; try tauto; lia.
Qed.

Lemma scan_loop_spec n p size :
  0 <= p -> is_u64 size -> size / 64 < Z.of_nat n ->
  scan_post p size (match while_fuel n (scan_body l (λ t, truthy (f t))) (p, 64 * p, size) with
                    | inl st => inl st | inr r => r end).
Proof using f_u64 l_u64.
  revert p size. induction n as [|n IH]; intros p size Hp Hs Hn.
  { pose proof (Z.div_pos size 64). unfold is_u64 in Hs. lia. }
  cbn [while_fuel]. unfold scan_body at 1. rewrite land_not63 by done.
  pose proof (Z.div_mod size 64 ltac:(lia)). pose proof (Z.mod_pos_bound size 64 ltac:(lia)).
  destruct (truthy (64 * (size / 64))) eqn:E.
  - apply truthy_true in E. assert (64 <= size).
    { pose proof (Z.div_pos size 64). unfold is_u64 in Hs. lia. }
    destruct (truthy (f (wget l p))) eqn:Ew.
    + apply truthy_true in Ew. exists p. split; [lia|]. split; [lia|].
      split_and!; (done || lia).
    + apply truthy_false in Ew. change BITS_PER_LONG with 64. by apply scan_step.
  - apply truthy_false in E.
    exists p. split; [lia|]. split; [lia|]. unfold is_u64 in Hs. split_and!; (done || lia).
Qed.

Lemma scan_spec p size :
  0 <= p -> is_u64 size -> scan_post p size (scan l (λ t, truthy (f t)) p (64 * p) size).
Proof using f_u64 l_u64.
  intros Hp Hs. unfold scan. apply scan_loop_spec; try done.
  unfold is_u64 in Hs. pose proof (Z.div_pos size 64).
  change BITS_PER_LONG with 64. lia.
Qed.

(** The last partial word. *)
Lemma found_first_spec q w size lo :
  0 <= q -> 0 < size < 64 -> 64 * q <= lo <= 64 * q + size ->
  masked w q lo (64 * q + 64) ->
  first_from bit_of lo (64 * q + size) (next_found_first (64 * q) size w).
Proof using Type.
  intros Hq Hs Hlo [Hw Hb]. unfold next_found_first. change BITS_PER_LONG with 64.
  set (t := Z.land w (shr64 u64_max (64 - size))).
  assert (Hm : masked t q lo (64 * q + size)).
  { split; [apply land_u64; [done|apply shr64_range, u64_max_range]|].
    intros j Hj. unfold t. rewrite Z.land_spec, Hb, testbit_ones_shr by lia.
    rewrite <- andb_assoc. f_equal.
    destruct (64 * q + j <? 64 * q + 64) eqn:E1; destruct (j <? size) eqn:E2;
      destruct (64 * q + j <? 64 * q + size) eqn:E3; zbool; (done || lia). }
  destruct (t =? 0) eqn:E; zbool.
  - apply first_from_none; [lia|]. intros i Hi. eapply masked_none; [exact Hm| | |]; (done || lia).
  - pose proof (masked_lt _ _ _ _ Hm E). eapply masked_found; [exact Hm|..]; (done || lia).
Qed.

(** Scanning from a word boundary, with the partial word at the end. *)
Definition words_from (p size : Z) : Z :=
  match scan l (λ t, truthy (f t)) p (64 * p) size with
  | inr (result, tmp) => result + __ffs (f tmp)
  | inl (p, result, size) =>
      if size =? 0 then result else next_found_first result size (f (wget l p))
  end.

Lemma words_from_spec p size :
  0 <= p -> is_u64 size -> first_from bit_of (64 * p) (64 * p + size) (words_from p size).
Proof using f_u64 l_u64.
  intros Hp Hs. unfold words_from.
  destruct (scan_spec p size Hp Hs) as (q & Hq & Hno & Hm).
  destruct (scan l (λ t, truthy (f t)) p (64 * p) size) as [[[q' res] rest]|[res tmp]].
  - destruct Hm as (-> & -> & Hr & ->).
    destruct (size - 64 * (q - p) =? 0) eqn:E; zbool.
    + replace (64 * p + size) with (64 * q) by lia. apply first_from_none; [lia|done].
    + apply (first_from_skip _ _ (64 * q)); [lia|done|].
      replace (64 * p + size) with (64 * q + (size - 64 * (q - p))) by lia.
      apply found_first_spec; try lia. apply masked_whole; lia.
  - destruct Hm as (-> & -> & Hnz & Hle). apply (first_from_skip _ _ (64 * q)); [lia|done|].
    pose proof (masked_whole q (64 * q + 64) ltac:(lia) ltac:(lia)) as Hm.
    pose proof (masked_lt _ _ _ _ Hm Hnz).
    eapply masked_found; [exact Hm|..]; (done || lia).
Qed.

(** A search from inside word [q]: [w] is the first word with its low bits masked. *)
Definition search_from (size offset : Z) : Z :=
  let q := offset / 64 in
  let w := Z.land (f (wget l q)) (shl64 u64_max (offset mod 64)) in
  if truthy (offset mod 64) then
    if size - 64 * q <? 64 then next_found_first (64 * q) (size - 64 * q) w
    else if truthy w then 64 * q + __ffs w
    else words_from (q + 1) (size - 64 * q - 64)
  else words_from q (size - 64 * q).

Lemma search_from_spec size offset :
  is_u64 size -> 0 <= offset < size ->
  first_from bit_of offset size (search_from size offset).
Proof using f_u64 l_u64.
  intros Hs Ho. unfold search_from.
  pose proof (Z.div_mod offset 64 ltac:(lia)) as Hdm.
  pose proof (Z.mod_pos_bound offset 64 ltac:(lia)) as Hmb.
  set (q := offset / 64) in *. set (o := offset mod 64) in *.
  assert (Hq0 : 0 <= q) by (apply Z.div_pos; lia).
  set (w := Z.land (f (wget l q)) (shl64 u64_max o)).
  assert (Hm : masked w q offset (64 * q + 64)).
  { split; [apply land_u64; [auto with sbi|apply shl64_range]|].
    intros j Hj. unfold w. rewrite Z.land_spec, testbit_ones_shl, bit_of_word by lia.
    rewrite <- andb_assoc. f_equal. destruct (64 * q + j <? 64 * q + 64) eqn:E2; zbool; [|lia].
    rewrite andb_true_r.
    destruct (o <=? j) eqn:E1; destruct (offset <=? 64 * q + j) eqn:E3; zbool; (done || lia). }
  destruct (truthy o) eqn:Eo; [|apply truthy_false in Eo].
  - destruct (size - 64 * q <? 64) eqn:Es; zbool.
    + replace size with (64 * q + (size - 64 * q)) at 1 by lia. apply found_first_spec; (done || lia).
    + destruct (truthy w) eqn:Ew; [apply truthy_true in Ew|apply truthy_false in Ew].
      * pose proof (masked_lt _ _ _ _ Hm Ew). eapply masked_found; [exact Hm|..]; (done || lia).
      * apply (first_from_skip _ _ (64 * (q + 1))); [lia| |].
        -- intros i Hi. eapply masked_none; [exact Hm| | |]; (done || lia).
        -- replace size with (64 * (q + 1) + (size - 64 * q - 64)) at 1 by lia.
           apply words_from_spec; unfold is_u64 in *; lia.
  - replace offset with (64 * q) by lia.
    replace size with (64 * q + (size - 64 * q)) at 1 by lia.
    apply words_from_spec; unfold is_u64 in *; lia.
Qed.
End search.

(** *** Set bits *)

Lemma find_first_bit_spec l size :
  Forall is_u64 l -> is_u64 size -> first_from (bit_at l) 0 size (find_first_bit l size).
Proof. intros Hl Hs. exact (words_from_spec (λ x, x) l (λ x H, H) Hl 0 size ltac:(lia) Hs). Qed.

Lemma find_next_bit_ge l size offset : size <= offset -> find_next_bit l size offset = size.
Proof.
  intros H. unfold find_next_bit. destruct (size <=? offset) eqn:E; zbool; [done|lia].
Qed.

Lemma find_next_bit_spec l size offset :
  Forall is_u64 l -> is_u64 size -> 0 <= offset < size ->
  first_from (bit_at l) offset size (find_next_bit l size offset).
Proof.
  intros Hl Hs Ho.
  pose proof (search_from_spec (λ x, x) l (λ x H, H) Hl size offset Hs Ho) as H.
  replace (find_next_bit l size offset) with (search_from (λ x, x) l size offset); [exact H|].
  unfold find_next_bit, search_from. destruct (size <=? offset) eqn:E; zbool; [lia|].
  rewrite land_not63 by (unfold is_u64 in *; lia). unfold BIT_WORD. change BITS_PER_LONG with 64.
  repeat case_if; try reflexivity.
  unfold words_from, next_words. by replace (64 * (offset / 64) + 64) with (64 * (offset / 64 + 1)) by lia.
Qed.

(** *** Clear bits *)

Lemma bit_of_not64 l i : Forall is_u64 l -> bit_of not64 l i = negb (bit_at l i).
Proof.
  intros Hl. unfold bit_of, bit_at. apply testbit_not64; [by apply wget_u64|].
  apply Z.mod_pos_bound. lia.
Qed.

Lemma not64_lor x y : is_u64 x -> is_u64 y -> not64 (Z.lor x y) = Z.land (not64 x) (not64 y).
Proof.
  intros Hx Hy. apply testbit_zero_ext. intros i Hi. rewrite Z.land_spec.
  destruct (Z.lt_ge_cases i 64).
  - rewrite !testbit_not64 by (try apply lor_u64; done). by rewrite Z.lor_spec, negb_orb.
  - by rewrite !testbit_u64_high by (auto with sbi || lia).
Qed.

Lemma not64_ones_shl n : 0 < n < 64 -> not64 (shl64 u64_max n) = shr64 u64_max (64 - n).
Proof.
  intros Hn. apply testbit_zero_ext. intros i Hi. destruct (Z.lt_ge_cases i 64).
  - rewrite testbit_not64, testbit_ones_shl, testbit_ones_shr by (auto with sbi || lia).
    destruct (n <=? i) eqn:E1; destruct (i <? n) eqn:E2; zbool; (done || lia).
  - by rewrite !testbit_u64_high by (auto with sbi || lia).
Qed.

Lemma not64_max x : (not64 x =? 0) = (x =? u64_max).
Proof.
  unfold not64. destruct (u64_max - x =? 0) eqn:E1; destruct (x =? u64_max) eqn:E2; zbool; (done || lia).
Qed.

Lemma zero_found_first_not result size tmp :
  is_u64 tmp -> 0 < size < 64 ->
  next_zero_found_first result size tmp = next_found_first result size (not64 tmp).
Proof.
  intros Ht Hs. unfold next_zero_found_first, next_found_first, ffz.
  change BITS_PER_LONG with 64. rewrite <- not64_max.
  by rewrite not64_lor, not64_ones_shl by (auto with sbi).
Qed.

Lemma zero_words_not l p size :
  Forall is_u64 l -> 0 <= p -> is_u64 size ->
  next_zero_words l p (64 * p) size = words_from not64 l p size.
Proof.
  intros Hl Hp Hs. unfold next_zero_words, words_from, ffz.
  pose proof (scan_spec not64 l not64_range Hl p size Hp Hs) as (q & _ & _ & Hm).
  destruct (scan l _ p (64 * p) size) as [[[q' res] rest]|[res tmp]]; [|done].
  destruct Hm as (-> & -> & Hr & ->). case_if; [done|]. zbool.
  apply zero_found_first_not; [by apply wget_u64|lia].
Qed.

Lemma find_first_zero_bit_spec l size :
  Forall is_u64 l -> is_u64 size ->
  first_from (λ i, negb (bit_at l i)) 0 size (find_first_zero_bit l size).
Proof.
  intros Hl Hs. change (find_first_zero_bit l size) with (next_zero_words l 0 (64 * 0) size).
  rewrite zero_words_not by (done || lia).
  eapply first_from_ext; [|apply (words_from_spec not64 l not64_range Hl 0 size ltac:(lia) Hs)].
  intros i _. by apply bit_of_not64.
Qed.

Lemma find_next_zero_bit_spec l size offset :
  Forall is_u64 l -> is_u64 size -> 0 <= offset < size ->
  first_from (λ i, negb (bit_at l i)) offset size (find_next_zero_bit l size offset).
Proof.
  intros Hl Hs Ho.
  apply (first_from_ext (bit_of not64 l)); [intros i _; by apply bit_of_not64|].
  replace (find_next_zero_bit l size offset) with (search_from not64 l size offset);
    [by apply (search_from_spec not64 l not64_range Hl)|].
  unfold find_next_zero_bit, search_from. destruct (size <=? offset) eqn:E; zbool; [lia|].
  rewrite land_not63 by (unfold is_u64 in *; lia). unfold BIT_WORD. change BITS_PER_LONG with 64.
  pose proof (Z.div_mod offset 64 ltac:(lia)). pose proof (Z.mod_pos_bound offset 64 ltac:(lia)).
  pose proof (Z.div_pos offset 64).
  destruct (truthy (offset mod 64)) eqn:Eo; [apply truthy_true in Eo|].
  - assert (Hw : Z.land (not64 (wget l (offset / 64))) (shl64 u64_max (offset mod 64))
                 = not64 (Z.lor (wget l (offset / 64)) (shr64 u64_max (64 - offset mod 64)))).
    { rewrite <- not64_ones_shl by lia. rewrite not64_lor by auto with sbi.
      by rewrite not64_involutive. }
    rewrite Hw. case_if; zbool.
    + symmetry. apply zero_found_first_not; [auto with sbi|lia].
    + case_if; [done|].
      replace (64 * (offset / 64) + 64) with (64 * (offset / 64 + 1)) by lia.
      symmetry. apply zero_words_not; (done || (unfold is_u64 in *; lia)).
  - symmetry. apply zero_words_not; (done || (unfold is_u64 in *; lia)).
Qed.

(** *** The last set bit *)

(** [r] is the greatest index below [hi] where [P] holds, or [hi]. *)
Definition last_below (P : Z → bool) (hi r : Z) : Prop :=
  (r = hi /\ forall i, 0 <= i < hi -> P i = false) \/
  (0 <= r < hi /\ P r = true /\ forall i, r < i < hi -> P i = false).

Lemma bit_at_word l p j : 0 <= p -> 0 <= j < 64 -> bit_at l (64 * p + j) = Z.testbit (wget l p) j.
Proof. exact (bit_of_word (λ x, x) l p j). Qed.

Lemma last_in_word (P : Z → bool) w q top hi :
  is_u64 w -> w <> 0 -> 0 <= q ->
  (forall j, 0 <= j < 64 -> Z.testbit w j = P (64 * q + j) && (64 * q + j <? top)) ->
  64 * q <= top <= hi -> (forall i, top <= i < hi -> P i = false) ->
  top <= 64 * q + 64 ->
  last_below P hi (q * BITS_PER_LONG + __fls w).
Proof.
  intros Hw Hnz Hq Hb Htop Hno Ht. right. change BITS_PER_LONG with 64.
  rewrite fls_log2 by done. pose proof (Z.log2_nonneg w).
  assert (Hl : Z.log2 w < 64) by (apply Z.log2_lt_pow2; unfold is_u64 in Hw; lia).
  assert (Hbit : Z.testbit w (Z.log2 w) = true) by (apply Z.bit_log2; unfold is_u64 in Hw; lia).
  rewrite Hb in Hbit by lia. zbool.
  replace (q * 64 + Z.log2 w) with (64 * q + Z.log2 w) by lia.
  split; [lia|]. split; [done|]. intros i Hi.
  destruct (Z.lt_ge_cases i top); [|apply Hno; lia].
  assert (Hz : Z.testbit w (i - 64 * q) = false).
  { apply Z.bits_above_log2; unfold is_u64 in Hw; lia. }
  rewrite Hb in Hz by lia. replace (64 * q + (i - 64 * q)) with i in Hz by lia.
  destruct (P i); [|done]. cbn in Hz. zbool. lia.
Qed.

Lemma last_words_spec l n size :
  Forall is_u64 l -> 64 * Z.of_nat n <= size ->
  (forall i, 64 * Z.of_nat n <= i < size -> bit_at l i = false) ->
  last_below (bit_at l) size (last_words l n size).
Proof.
  intros Hl. induction n as [|n IH]; intros Hs Hno; cbn [last_words].
  - left. split; [done|]. intros i Hi. apply Hno. lia.
  - destruct (truthy (wget l (Z.of_nat n))) eqn:E; [apply truthy_true in E|apply truthy_false in E].
    + apply (last_in_word _ _ _ (64 * Z.of_nat n + 64)); auto with sbi; try lia.
      * intros j Hj. rewrite bit_at_word by lia.
        destruct (64 * Z.of_nat n + j <? 64 * Z.of_nat n + 64) eqn:E'; zbool; [|lia].
        by rewrite andb_true_r.
      * intros i Hi. apply Hno. lia.
    + apply IH; [lia|]. intros i Hi.
      destruct (Z.lt_ge_cases i (64 * Z.of_nat (S n))); [|apply Hno; lia].
      replace i with (64 * Z.of_nat n + (i - 64 * Z.of_nat n)) by lia.
      rewrite bit_at_word, E by lia. apply Z.bits_0.
Qed.

Lemma land_63 x : Z.land x (BITS_PER_LONG - 1) = x mod 64.
Proof. change (BITS_PER_LONG - 1) with (2 ^ 6 - 1). by rewrite land_ones_mod. Qed.

Lemma find_last_bit_spec l size :
  Forall is_u64 l -> 0 <= size -> last_below (bit_at l) size (find_last_bit l size).
Proof.
  intros Hl Hs. unfold find_last_bit. rewrite !land_63. change BITS_PER_LONG with 64.
  pose proof (Z.div_mod size 64 ltac:(lia)). pose proof (Z.mod_pos_bound size 64 ltac:(lia)).
  pose proof (Z.div_pos size 64 Hs ltac:(lia)).
  assert (Hn : Z.of_nat (Z.to_nat (size / 64)) = size / 64) by lia.
  set (q := size / 64) in *. set (o := size mod 64) in *.
  destruct (truthy o) eqn:Eo; [apply truthy_true in Eo|apply truthy_false in Eo].
  - set (w := Z.land (wget l q) (shr64 u64_max (64 - o))).
    assert (Hw : is_u64 w) by (apply land_u64; [auto with sbi|apply shr64_range, u64_max_range]).
    assert (Hb : forall j, 0 <= j < 64 -> Z.testbit w j = bit_at l (64 * q + j) && (64 * q + j <? size)).
    { intros j Hj. unfold w. rewrite Z.land_spec, testbit_ones_shr, bit_at_word by lia. f_equal.
      destruct (j <? o) eqn:E1; destruct (64 * q + j <? size) eqn:E2; zbool; (done || lia). }
    destruct (truthy w) eqn:Ew; [apply truthy_true in Ew|apply truthy_false in Ew].
    + apply (last_in_word _ w q size); (done || lia).
    + apply last_words_spec; [done|lia|]. intros i Hi.
      specialize (Hb (i - 64 * q) ltac:(lia)). rewrite Ew, Z.bits_0 in Hb.
      replace (64 * q + (i - 64 * q)) with i in Hb by lia.
      destruct (bit_at l i); [|done]. cbn in Hb. symmetry in Hb. zbool. lia.
  - apply last_words_spec; [done|lia|lia].
Qed.

(** *** Iteration *)

Lemma seqZ_split lo mid hi :
  lo <= mid <= hi -> seqZ lo (hi - lo) = seqZ lo (mid - lo) ++ seqZ mid (hi - mid).
Proof.
  intros H. replace (hi - lo) with ((mid - lo) + (hi - mid)) by lia.
  rewrite seqZ_app by lia. by replace (lo + (mid - lo)) with mid by lia.
Qed.

Lemma filter_none (P : Z → bool) lo hi :
  (forall i, lo <= i < hi -> P i = false) -> filter (λ i, P i = true) (seqZ lo (hi - lo)) = [].
Proof.
  intros H. destruct (filter (λ i, P i = true) (seqZ lo (hi - lo))) as [|x k] eqn:E; [done|].
  assert (Hx : x ∈ filter (λ i, P i = true) (seqZ lo (hi - lo))) by (rewrite E; left).
  apply list_elem_of_filter in Hx as [Hp Hx]. apply elem_of_seqZ in Hx.
  rewrite H in Hp by lia. done.
Qed.

Lemma set_bits_from_filter l size n bit :
  Forall is_u64 l -> is_u64 size -> 0 <= bit <= size -> size - bit <= Z.of_nat n ->
  first_from (bit_at l) bit size bit ->
  set_bits_from n l size bit = filter (λ i, bit_at l i = true) (seqZ bit (size - bit)).
Proof.
  intros Hl Hs. revert bit. induction n as [|n IH]; intros bit Hb Hn Hf; cbn [set_bits_from].
  { replace bit with size by lia. by rewrite Z.sub_diag. }
  destruct (bit <? size) eqn:E; zbool; [|by replace bit with size by lia; rewrite Z.sub_diag].
  destruct Hf as (_ & _ & Hbit). specialize (Hbit E).
  rewrite (seqZ_cons bit) by lia. rewrite filter_cons_True by done. f_equal.
  replace (Z.succ bit) with (bit + 1) by lia.
  replace (Z.pred (size - bit)) with (size - (bit + 1)) by lia.
  destruct (Z.lt_ge_cases (bit + 1) size) as [Hlt|Hge].
  - pose proof (find_next_bit_spec l size (bit + 1) Hl Hs ltac:(lia)) as (H1 & H2 & H3).
    set (r := find_next_bit l size (bit + 1)) in *.
    rewrite (seqZ_split (bit + 1) r size) by lia.
    rewrite list.filter_app, filter_none by done. cbn [app]. apply IH; [lia|lia|].
    split; [lia|]. split; [lia|done].
  - rewrite find_next_bit_ge by lia. replace (size - (bit + 1)) with 0 by lia.
    destruct n; cbn; [done|]. by rewrite Z.ltb_irrefl.
Qed.

Lemma for_each_set_bit_from_filter l size bit :
  Forall is_u64 l -> is_u64 size -> 0 <= bit ->
  for_each_set_bit_from l size bit = filter (λ i, bit_at l i = true) (seqZ bit (size - bit)).
Proof.
  intros Hl Hs Hb. unfold for_each_set_bit_from.
  destruct (Z.lt_ge_cases bit size) as [Hlt|Hge].
  - pose proof (find_next_bit_spec l size bit Hl Hs ltac:(lia)) as (H1 & H2 & H3).
    set (r := find_next_bit l size bit) in *.
    rewrite (seqZ_split bit r size) by lia. rewrite list.filter_app, filter_none by done. cbn [app].
    apply set_bits_from_filter; try done; try lia. split; [lia|]. split; [lia|done].
  - rewrite find_next_bit_ge by lia. unfold seqZ.
    replace (Z.to_nat (size - bit)) with 0%nat by lia. cbn.
    destruct (Z.to_nat size); cbn; [done|]. by rewrite Z.ltb_irrefl.
Qed.

Lemma for_each_set_bit_filter l size :
  Forall is_u64 l -> is_u64 size ->
  for_each_set_bit l size = filter (λ i, bit_at l i = true) (seqZ 0 size).
Proof.
  intros Hl Hs. unfold for_each_set_bit.
  pose proof (find_first_bit_spec l size Hl Hs) as (H1 & H2 & H3).
  set (r := find_first_bit l size) in *.
  replace size with (size - 0) at 3 by lia.
  rewrite (seqZ_split 0 r size) by lia. rewrite list.filter_app, filter_none by done. cbn [app].
  apply set_bits_from_filter; try done; unfold is_u64 in Hs; [lia|].
  split; [lia|]. split; [lia|done].
Qed.

(** *** Single bits and hart masks *)

Lemma wget_wset l i j v :
  0 <= i < Z.of_nat (length l) -> 0 <= j ->
  wget (wset l i v) j = if j =? i then v else wget l j.
Proof.
  intros Hi Hj. unfold wget, wset. destruct (j =? i) eqn:E; zbool.
  - subst. rewrite list_lookup_insert_eq by lia. done.
  - rewrite list_lookup_insert_ne by lia. done.
Qed.

Lemma length_wset l i v : length (wset l i v) = length l.
Proof. apply length_insert. Qed.

Lemma BIT_MASK_bit nr j : 0 <= nr -> 0 <= j < 64 -> Z.testbit (BIT_MASK nr) j = (j =? nr mod 64).
Proof.
  intros Hn Hj. pose proof (Z.mod_pos_bound nr 64 ltac:(lia)).
  change (BIT_MASK nr) with (BIT (nr mod 64)). apply testbit_BIT; lia.
Qed.

Lemma div_mod_eqb i nr : (i / 64 =? nr / 64) && (i mod 64 =? nr mod 64) = (i =? nr).
Proof.
  pose proof (Z.div_mod i 64 ltac:(lia)). pose proof (Z.div_mod nr 64 ltac:(lia)).
  destruct (i =? nr) eqn:E; zbool; [subst; by rewrite !Z.eqb_refl|].
  destruct (i / 64 =? nr / 64) eqn:E1; destruct (i mod 64 =? nr mod 64) eqn:E2; zbool;
    (done || lia).
Qed.

Lemma bit_at_set_bit l nr i :
  Forall is_u64 l -> 0 <= nr < 64 * Z.of_nat (length l) -> 0 <= i ->
  bit_at (__set_bit nr l) i = (i =? nr) || bit_at l i.
Proof.
  intros Hl Hn Hi. unfold __set_bit, bit_at, BIT_WORD. change BITS_PER_LONG with 64.
  pose proof (Z.mod_pos_bound i 64 ltac:(lia)). pose proof (Z.div_pos i 64 Hi ltac:(lia)).
  assert (0 <= nr / 64 < Z.of_nat (length l)).
  { split; [apply Z.div_pos; lia|]. apply Z.div_lt_upper_bound; lia. }
  rewrite wget_wset by lia. rewrite <- (div_mod_eqb i nr).
  destruct (i / 64 =? nr / 64) eqn:E; [|done]. zbool. rewrite <- E.
  rewrite Z.lor_spec, BIT_MASK_bit by lia. by rewrite orb_comm.
Qed.

Lemma bit_at_clear_bit l nr i :
  Forall is_u64 l -> 0 <= nr < 64 * Z.of_nat (length l) -> 0 <= i ->
  bit_at (__clear_bit nr l) i = negb (i =? nr) && bit_at l i.
Proof.
  intros Hl Hn Hi. unfold __clear_bit, bit_at, BIT_WORD. change BITS_PER_LONG with 64.
  pose proof (Z.mod_pos_bound i 64 ltac:(lia)). pose proof (Z.div_pos i 64 Hi ltac:(lia)).
  assert (0 <= nr / 64 < Z.of_nat (length l)).
  { split; [apply Z.div_pos; lia|]. apply Z.div_lt_upper_bound; lia. }
  rewrite wget_wset by lia. rewrite <- (div_mod_eqb i nr).
  destruct (i / 64 =? nr / 64) eqn:E; [|done]. zbool. rewrite <- E.
  rewrite Z.land_spec, testbit_not64, BIT_MASK_bit by (try apply shl64_range; lia).
  by rewrite andb_comm.
Qed.

Lemma land_1_bit w j : 0 <= j < 64 -> Z.land 1 (shr64 w j) = if Z.testbit w j then 1 else 0.
Proof.
  intros Hj. unfold shr64. rewrite (Z.mod_small j) by lia.
  rewrite Z.land_comm. change 1 with (2 ^ 1 - 1) at 1. rewrite land_ones_mod by lia.
  change (2 ^ 1) with 2. rewrite <- Z.bit0_mod.
  rewrite Z.shiftr_spec, Z.add_0_l by lia. by destruct (Z.testbit w j).
Qed.

Lemma test_bit_bit_at l nr :
  0 <= nr -> __test_bit nr l = if bit_at l nr then 1 else 0.
Proof.
  intros Hn. unfold __test_bit, bit_at, BIT_WORD. rewrite land_63. change BITS_PER_LONG with 64.
  pose proof (Z.mod_pos_bound nr 64 ltac:(lia)). by apply land_1_bit.
Qed.

(** Masks as sets. *)

Lemma elem_of_hartmask_set m i :
  i ∈ hartmask_set m <-> bit_at (bits m) i = true /\ 0 <= i < SBI_HARTMASK_MAX_BITS.
Proof.
  unfold hartmask_set. rewrite elem_of_list_to_set, list_elem_of_filter, elem_of_seqZ.
  change (0 + SBI_HARTMASK_MAX_BITS) with SBI_HARTMASK_MAX_BITS. done.
Qed.

Lemma Forall_wset l i v : Forall is_u64 l -> is_u64 v -> Forall is_u64 (wset l i v).
Proof. intros Hl Hv. by apply Forall_insert. Qed.

Lemma hartmask_wf_set m h :
  hartmask_wf m -> hartmask_wf (Hartmask (__set_bit h (bits m))).
Proof.
  intros [Hlen Hu]. split; cbn; [unfold __set_bit, __clear_bit; by rewrite length_wset|].
  apply Forall_wset; [done|]. apply lor_u64; [by apply wget_u64|apply shl64_range].
Qed.

Lemma hartmask_wf_clear m h :
  hartmask_wf m -> hartmask_wf (Hartmask (__clear_bit h (bits m))).
Proof.
  intros [Hlen Hu]. split; cbn; [unfold __set_bit, __clear_bit; by rewrite length_wset|].
  apply Forall_wset; [done|]. apply land_u64; [by apply wget_u64|].
  apply not64_range, shl64_range.
Qed.

Lemma hartmask_set_hart_spec m h :
  hartmask_wf m -> 0 <= h < SBI_HARTMASK_MAX_BITS ->
  hartmask_wf (sbi_hartmask_set_hart h m) /\
  hartmask_set (sbi_hartmask_set_hart h m) = {[h]} ∪ hartmask_set m.
Proof.
  intros Hwf Hh. unfold sbi_hartmask_set_hart.
  destruct (h <? SBI_HARTMASK_MAX_BITS) eqn:E; zbool; [|lia].
  split; [by apply hartmask_wf_set|]. destruct Hwf as [Hlen Hu].
  apply set_eq. intros i. rewrite elem_of_union, elem_of_singleton, !elem_of_hartmask_set.
  unfold SBI_HARTMASK_MAX_BITS in *. cbn [bits].
  destruct (decide (0 <= i < 128)) as [Hi|]; [|split; [tauto|intros [->|]; tauto]].
  rewrite bit_at_set_bit by (done || lia). rewrite orb_true_iff, Z.eqb_eq. tauto.
Qed.

Lemma hartmask_clear_hart_spec m h :
  hartmask_wf m -> 0 <= h < SBI_HARTMASK_MAX_BITS ->
  hartmask_wf (sbi_hartmask_clear_hart h m) /\
  hartmask_set (sbi_hartmask_clear_hart h m) = hartmask_set m ∖ {[h]}.
Proof.
  intros Hwf Hh. unfold sbi_hartmask_clear_hart.
  destruct (h <? SBI_HARTMASK_MAX_BITS) eqn:E; zbool; [|lia].
  split; [by apply hartmask_wf_clear|]. destruct Hwf as [Hlen Hu].
  apply set_eq. intros i. rewrite elem_of_difference, elem_of_singleton, !elem_of_hartmask_set.
  unfold SBI_HARTMASK_MAX_BITS in *. cbn [bits].
  destruct (decide (0 <= i < 128)) as [Hi|]; [|tauto].
  rewrite bit_at_clear_bit by (done || lia). rewrite andb_true_iff, negb_true_iff, Z.eqb_neq. tauto.
Qed.

Lemma hartmask_test_hart_spec m h :
  0 <= h -> sbi_hartmask_test_hart h m = if decide (h ∈ hartmask_set m) then 1 else 0.
Proof.
  intros Hh. unfold sbi_hartmask_test_hart.
  destruct (h <? SBI_HARTMASK_MAX_BITS) eqn:E; zbool.
  - rewrite test_bit_bit_at by done. case_decide as D; rewrite elem_of_hartmask_set in D.
    + destruct D as [-> _]. done.
    + destruct (bit_at (bits m) h); [|done]. exfalso. apply D. split; [done|lia].
  - case_decide as D; [|done]. rewrite elem_of_hartmask_set in D. lia.
Qed.

Lemma hartmask_for_each_spec m :
  hartmask_wf m ->
  sbi_hartmask_for_each_hart m = filter (λ i, bit_at (bits m) i = true) (seqZ 0 SBI_HARTMASK_MAX_BITS).
Proof.
  intros [_ Hu]. apply for_each_set_bit_filter; [done|].
  unfold is_u64, SBI_HARTMASK_MAX_BITS. lia.
Qed.

Lemma elem_of_for_each_hart m h :
  hartmask_wf m -> h ∈ sbi_hartmask_for_each_hart m <-> h ∈ hartmask_set m.
Proof.
  intros Hwf. rewrite hartmask_for_each_spec by done.
  rewrite list_elem_of_filter, elem_of_seqZ, elem_of_hartmask_set.
  change (0 + SBI_HARTMASK_MAX_BITS) with SBI_HARTMASK_MAX_BITS. done.
Qed.

(** A two-word bitmap operation computes word by word. *)
Lemma bitmap_loop_2 f d0 d1 a0 a1 b0 b1 :
  bitmap_loop f [d0; d1] [a0; a1] [b0; b1] 2 0 = [f a0 b0; f a1 b1].
Proof. reflexivity. Qed.

Lemma hartmask_words m : hartmask_wf m -> exists a b, bits m = [a; b] /\ is_u64 a /\ is_u64 b.
Proof.
  intros [Hlen Hu]. destruct (bits m) as [|a [|b [|c k]]]; try done.
  exists a, b. inversion Hu as [|? ? Ha Hu']; subst. inversion Hu'; subst. done.
Qed.

Lemma bit_at_2 a b i :
  0 <= i < 128 -> bit_at [a; b] i = if i <? 64 then Z.testbit a i else Z.testbit b (i - 64).
Proof.
  intros Hi. destruct (i <? 64) eqn:E; zbool.
  - replace i with (64 * 0 + i) at 1 by lia. by rewrite bit_at_word by lia.
  - replace i with (64 * 1 + (i - 64)) at 1 by lia. by rewrite bit_at_word by lia.
Qed.

Lemma hartmask_or_spec d a b :
  hartmask_wf d -> hartmask_wf a -> hartmask_wf b ->
  hartmask_wf (sbi_hartmask_or d a b) /\
  hartmask_set (sbi_hartmask_or d a b) = hartmask_set a ∪ hartmask_set b.
Proof.
  intros Hd Ha Hb.
  destruct (hartmask_words d Hd) as (d0 & d1 & Ed & _).
  destruct (hartmask_words a Ha) as (a0 & a1 & Ea & ? & ?).
  destruct (hartmask_words b Hb) as (b0 & b1 & Eb & ? & ?).
  unfold sbi_hartmask_or, __bitmap_or. rewrite Ed, Ea, Eb.
  change (Z.to_nat (BITS_TO_LONGS SBI_HARTMASK_MAX_BITS)) with 2%nat. rewrite bitmap_loop_2.
  split; [split; [done|cbn; auto with sbi]|].
  apply set_eq. intros i. rewrite elem_of_union, !elem_of_hartmask_set, Ea, Eb. cbn [bits].
  unfold SBI_HARTMASK_MAX_BITS. destruct (decide (0 <= i < 128)) as [Hi|]; [|tauto].
  rewrite !bit_at_2 by done. case_if; rewrite Z.lor_spec, orb_true_iff; tauto.
Qed.

Lemma hartmask_and_spec d a b :
  hartmask_wf d -> hartmask_wf a -> hartmask_wf b ->
  hartmask_wf (sbi_hartmask_and d a b) /\
  hartmask_set (sbi_hartmask_and d a b) = hartmask_set a ∩ hartmask_set b.
Proof.
  intros Hd Ha Hb.
  destruct (hartmask_words d Hd) as (d0 & d1 & Ed & _).
  destruct (hartmask_words a Ha) as (a0 & a1 & Ea & ? & ?).
  destruct (hartmask_words b Hb) as (b0 & b1 & Eb & [? ?] & [? ?]).
  unfold sbi_hartmask_and, __bitmap_and. rewrite Ed, Ea, Eb.
  change (Z.to_nat (BITS_TO_LONGS SBI_HARTMASK_MAX_BITS)) with 2%nat. rewrite bitmap_loop_2.
  split; [split; [done|cbn; auto with sbi]|].
  apply set_eq. intros i. rewrite elem_of_intersection, !elem_of_hartmask_set, Ea, Eb. cbn [bits].
  unfold SBI_HARTMASK_MAX_BITS. destruct (decide (0 <= i < 128)) as [Hi|]; [|tauto].
  rewrite !bit_at_2 by done. case_if; rewrite Z.land_spec, andb_true_iff; tauto.
Qed.

Lemma hartmask_wf_init : hartmask_wf SBI_HARTMASK_INIT.
Proof. split; [done|]. cbn. repeat constructor; unfold is_u64; lia. Qed.

Lemma hartmask_set_init : hartmask_set SBI_HARTMASK_INIT = ∅.
Proof. vm_compute. done. Qed.

Lemma hartmask_init_except_spec h :
  0 <= h < SBI_HARTMASK_MAX_BITS ->
  hartmask_wf (SBI_HARTMASK_INIT_EXCEPT h) /\ hartmask_set (SBI_HARTMASK_INIT_EXCEPT h) = {[h]}.
Proof.
  intros Hh. destruct (hartmask_set_hart_spec _ h hartmask_wf_init Hh) as [H1 H2].
  rewrite hartmask_set_init, union_empty_r_L in H2.
  unfold SBI_HARTMASK_INIT_EXCEPT, bitmap_zero_except, sbi_hartmask_set_hart in *.
  destruct (h <? SBI_HARTMASK_MAX_BITS); (done || lia).
Qed.

(** *** log2roundup *)

Lemma log2roundup_loop x n r res :
  0 <= r <= 64 -> 64 - r < Z.of_nat n -> 0 <= x ->
  (forall i, 0 <= i < r -> 2 ^ i < x) ->
  match while_fuel n (log2roundup_body x) r with inl r => r | inr r => r end = res ->
  r <= res <= 64 /\ (forall i, 0 <= i < res -> 2 ^ i < x) /\ (res < 64 -> x <= 2 ^ res).
Proof.
  revert r. induction n as [|n IH]; intros r Hr Hn Hx Hlow; [lia|].
  cbn [while_fuel]. unfold log2roundup_body at 1. unfold XLEN.
  destruct (r <? 64) eqn:E; zbool.
  - fold (BIT r). rewrite BIT_pow by lia. destruct (x <=? 2 ^ r) eqn:E2; zbool.
    + intros <-. split; [lia|]. split; done.
    + intros Hres. destruct (IH (r + 1)) as (H1 & H2 & H3); [lia|lia|done| |done|].
      * intros i Hi. destruct (Z.eq_dec i r) as [->|]; [done|apply Hlow; lia].
      * split; [lia|]. split; done.
  - intros <-. split; [lia|]. split; [done|lia].
Qed.

Lemma log2roundup_bounds x :
  0 <= x ->
  0 <= log2roundup x <= 64 /\ (forall i, 0 <= i < log2roundup x -> 2 ^ i < x) /\
  (log2roundup x < 64 -> x <= 2 ^ log2roundup x).
Proof. intros Hx. apply (log2roundup_loop x 65 0); (done || lia). Qed.

(** ** What callers rely on *)

(** The word-at-a-time searches of sbi_bitops.c are exact: find_first_bit
    and find_next_bit return the least set bit (from the offset), the two
    zero-bit searches the least clear bit, find_last_bit the greatest set bit,
    and each returns the size when there is none. *)
Theorem bitmap_searches_exact (l : list Z) (size offset : Z) :
  bitmap_wf l size -> is_u64 size -> 0 <= offset < size ->
  first_from (bit_at l) 0 size (find_first_bit l size) /\
  first_from (bit_at l) offset size (find_next_bit l size offset) /\
  first_from (λ i, negb (bit_at l i)) 0 size (find_first_zero_bit l size) /\
  first_from (λ i, negb (bit_at l i)) offset size (find_next_zero_bit l size offset) /\
  last_below (bit_at l) size (find_last_bit l size).
Proof.
  intros [Hr Hl] Hs Ho. split_and!.
  - by apply find_first_bit_spec.
  - by apply find_next_bit_spec.
  - by apply find_first_zero_bit_spec.
  - by apply find_next_zero_bit_spec.
  - apply find_last_bit_spec; [done|lia].
Qed.

Lemma bitmap_searches_exact_witness :
  first_from (bit_at [0; 0x50]) 0 100 (find_first_bit [0; 0x50] 100) /\
  first_from (bit_at [0; 0x50]) 69 100 (find_next_bit [0; 0x50] 100 69) /\
  first_from (λ i, negb (bit_at [0; 0x50] i)) 0 100 (find_first_zero_bit [0; 0x50] 100) /\
  first_from (λ i, negb (bit_at [0; 0x50] i)) 69 100 (find_next_zero_bit [0; 0x50] 100 69) /\
  last_below (bit_at [0; 0x50]) 100 (find_last_bit [0; 0x50] 100).
Proof.
  apply (bitmap_searches_exact [0; 0x50] 100 69).
  - split; [cbn; lia|]. repeat constructor; unfold is_u64; lia.
  - unfold is_u64. lia.
  - lia.
Defined.

(** The macro for_each_set_bit_from visits exactly the set bits of the
    bitmap from its start index on, in increasing order and each once; so does
    for_each_set_bit from bit 0. *)
Theorem for_each_set_bit_enumerates (l : list Z) (size bit : Z) :
  bitmap_wf l size -> is_u64 size -> 0 <= bit ->
  for_each_set_bit l size = filter (λ i, bit_at l i = true) (seqZ 0 size) /\
  for_each_set_bit_from l size bit = filter (λ i, bit_at l i = true) (seqZ bit (size - bit)).
Proof.
  intros [_ Hl] Hs Hb. split; [by apply for_each_set_bit_filter|by apply for_each_set_bit_from_filter].
Qed.

Lemma for_each_set_bit_enumerates_witness :
  for_each_set_bit [5; 3] 128 = filter (λ i, bit_at [5; 3] i = true) (seqZ 0 128) /\
  for_each_set_bit_from [5; 3] 128 2 = filter (λ i, bit_at [5; 3] i = true) (seqZ 2 126).
Proof.
  apply (for_each_set_bit_enumerates [5; 3] 128 2).
  - split; [cbn; lia|]. repeat constructor; unfold is_u64; lia.
  - unfold is_u64. lia.
  - lia.
Defined.

(** Refinement: a well-formed hart mask is a finite set of hart ids below
    128.  Setting, clearing and testing a hart, the union and intersection of
    masks and the iteration over a mask are the corresponding set operations,
    and all of them keep the mask well formed. *)
Theorem hartmask_refines_set (m m' : sbi_hartmask) (h : Z) :
  hartmask_wf m -> hartmask_wf m' -> 0 <= h < SBI_HARTMASK_MAX_BITS ->
  (hartmask_wf (sbi_hartmask_set_hart h m) /\
   hartmask_set (sbi_hartmask_set_hart h m) = {[h]} ∪ hartmask_set m) /\
  (hartmask_wf (sbi_hartmask_clear_hart h m) /\
   hartmask_set (sbi_hartmask_clear_hart h m) = hartmask_set m ∖ {[h]}) /\
  sbi_hartmask_test_hart h m = (if decide (h ∈ hartmask_set m) then 1 else 0) /\
  (hartmask_wf (sbi_hartmask_or m m m') /\
   hartmask_set (sbi_hartmask_or m m m') = hartmask_set m ∪ hartmask_set m') /\
  (hartmask_wf (sbi_hartmask_and m m m') /\
   hartmask_set (sbi_hartmask_and m m m') = hartmask_set m ∩ hartmask_set m') /\
  (h ∈ sbi_hartmask_for_each_hart m <-> h ∈ hartmask_set m).
Proof.
  intros Hm Hm' Hh. split_and!.
  - by apply hartmask_set_hart_spec.
  - by apply hartmask_set_hart_spec.
  - by apply hartmask_clear_hart_spec.
  - by apply hartmask_clear_hart_spec.
  - apply hartmask_test_hart_spec. lia.
  - by apply hartmask_or_spec.
  - by apply hartmask_or_spec.
  - by apply hartmask_and_spec.
  - by apply hartmask_and_spec.
  - by apply elem_of_for_each_hart.
Qed.

Lemma hartmask_refines_set_witness :
  hartmask_set (sbi_hartmask_set_hart 70 SBI_HARTMASK_INIT) = {[70]} ∪ hartmask_set SBI_HARTMASK_INIT.
Proof.
  apply (hartmask_refines_set SBI_HARTMASK_INIT SBI_HARTMASK_INIT 70).
  - apply hartmask_wf_init.
  - apply hartmask_wf_init.
  - unfold SBI_HARTMASK_MAX_BITS. lia.
Defined.
