(* ===== verification/Locks.v ===== *)
(** * Ticket spin locks

    Models lib/sbi/riscv_locks.c (and [spinlock_t] of riscv_locks.h).  The lock
    is its 32-bit memory word: the low half is [owner], the high half [next].
    Every instruction of the inline assembly that touches the word is one step
    of a hart, so the interleavings of the harts are the traces of [step].  The
    theorems show mutual exclusion, that the lock implements a FIFO queue of
    harts, and that the head of the queue is never blocked. *)

From Stdlib Require Import ZArith Lia.
From stdpp Require Import base tactics list gmap numbers.
From S2P Require Import Prelude.

Definition TICKET_SHIFT : Z := 16.

(** [1u << TICKET_SHIFT] and the two masks of the assembly. *)
Definition inc : Z := Z.shiftl 1 TICKET_SHIFT.

Definition owner_of (w : Z) : Z := Z.land w 0xffff.

Definition next_of (w : Z) : Z := Z.land (Z.shiftr w TICKET_SHIFT) 0xffff.

Definition SPIN_LOCK_INIT : Z := 0.

(** The halfword store to [lock->owner]. *)
Definition store_owner (w o : Z) : Z := Z.lor (Z.shiftl (next_of w) TICKET_SHIFT) (u16 o).

(** ** Straight-line behaviour on an uncontended lock *)

Definition spin_lock_unlocked (w : Z) : bool := owner_of w =? next_of w.

Definition spin_lock_check (w : Z) : bool := negb (spin_lock_unlocked w).

(** [spin_lock] run by one hart alone: it waits for ever if the lock is held. *)
Definition spin_lock : M Z unit :=
  λ w, let l0 := w in
       let w' := u32 (w + inc) in
       if next_of l0 =? owner_of l0 then (Ret tt, w') else (Stop spinning, w').

Definition spin_unlock : M Z unit := λ w, (Ret tt, store_owner w (owner_of w + 1)).

(** The test of [spin_trylock] on the word [l0] read by [lr.w]:
    [slli; and; and; bne]. *)
Definition trylock_free (l0 : Z) : bool :=
  let mask := Z.shiftl 0xffff TICKET_SHIFT in
  Z.land l0 mask =? Z.land (Z.shiftl l0 TICKET_SHIFT) mask.

(** [spin_trylock] when no other hart interferes between [lr.w] and [sc.w];
    [l0] ends as the loaded word or as the zero written by [sc.w]. *)
Definition spin_trylock : M Z bool :=
  λ w, if trylock_free w then (Ret (0 =? 0), u32 (w + inc)) else (Ret (w =? 0), w).

(** ** Interleaved behaviour *)

(** Where a hart is in the lock code. *)
Inductive pc : Type :=
| Idle                       (* outside *)
| Check (ticket l0 : Z)      (* spin_lock, label 1: ticket in %1, lock word in %0 *)
| Spin (ticket : Z)          (* spin_lock, before the lw *)
| Critical                   (* the lock is held *)
| Unlock (o : Z)             (* spin_unlock, owner + 1 computed *)
| TrySC (l0 : Z)             (* spin_trylock, before the sc.w *)
| TryRetry.                  (* spin_trylock, sc.w failed, back to label 1 *)

Record lstate : Type := LState {
  word : Z;
  pcs : list pc;             (* indexed by hart *)
  resv : gset nat;           (* harts whose lr.w reservation is still valid *)
}.

(** A store to the lock word by hart [h] breaks the other reservations. *)
Definition lock_write (h : nat) (w : Z) (p : pc) (s : lstate) : lstate :=
  LState w (<[h := p]> (pcs s)) ∅.

Definition lock_goto (h : nat) (p : pc) (s : lstate) : lstate :=
  LState (word s) (<[h := p]> (pcs s)) (resv s).

Inductive step (h : nat) (s : lstate) : lstate → Prop :=
| lock_amoadd :
    pcs s !! h = Some Idle ->
    step h s (lock_write h (u32 (word s + inc)) (Check (next_of (word s)) (word s)) s)
| lock_got t l0 :
    pcs s !! h = Some (Check t l0) -> t = owner_of l0 ->
    step h s (lock_goto h Critical s)
| lock_not_yet t l0 :
    pcs s !! h = Some (Check t l0) -> t <> owner_of l0 ->
    step h s (lock_goto h (Spin t) s)
| lock_reload t :
    pcs s !! h = Some (Spin t) ->
    step h s (lock_goto h (Check t (word s)) s)
| unlock_load :
    pcs s !! h = Some Critical ->
    step h s (lock_goto h (Unlock (u16 (owner_of (word s) + 1))) s)
| unlock_store o :
    pcs s !! h = Some (Unlock o) ->
    step h s (lock_write h (store_owner (word s) o) Idle s)
| try_lr_free p :
    pcs s !! h = Some p -> p = Idle \/ p = TryRetry -> trylock_free (word s) = true ->
    step h s (LState (word s) (<[h := TrySC (word s)]> (pcs s)) ({[h]} ∪ resv s))
| try_lr_held p :
    pcs s !! h = Some p -> p = Idle \/ p = TryRetry -> trylock_free (word s) = false ->
    step h s (lock_goto h Idle s)
| try_sc_ok l0 :
    pcs s !! h = Some (TrySC l0) -> h ∈ resv s ->
    step h s (lock_write h (u32 (l0 + inc)) Critical s)
| try_sc_fail l0 :
    pcs s !! h = Some (TrySC l0) ->
    step h s (LState (word s) (<[h := TryRetry]> (pcs s)) (resv s ∖ {[h]})).

Definition initial (n : nat) : lstate := LState SPIN_LOCK_INIT (replicate n Idle) ∅.

Inductive reachable (n : nat) : lstate → Prop :=
| reach_init : reachable n (initial n)
| reach_step h s s' : reachable n s -> step h s s' -> reachable n s'.

(** ** The abstract lock: a FIFO queue of harts, its head owns the lock *)

Inductive astep (h : nat) (q : list nat) : list nat → Prop :=
| a_stay : astep h q q
| a_enqueue : (h ∉ q) -> astep h q (q ++ [h])
| a_leave q' : q = h :: q' -> astep h q q'.

(** Does a hart hold or wait for the lock, and with which ticket? *)
Definition pc_wf (q : list nat) (w : Z) (rs : gset nat) (h : nat) (p : pc) : Prop :=
  match p with
  | Idle | TryRetry => h ∉ q
  | Check t l0 =>
      (exists i, q !! i = Some h /\ t = u16 (owner_of w + Z.of_nat i)) /\
      (t = owner_of l0 -> q !! 0%nat = Some h)
  | Spin t => exists i, q !! i = Some h /\ t = u16 (owner_of w + Z.of_nat i)
  | Critical => q !! 0%nat = Some h
  | Unlock o => q !! 0%nat = Some h /\ o = u16 (owner_of w + 1)
  | TrySC l0 => (h ∉ q) /\ (h ∈ rs -> l0 = w /\ q = [])
  end.

(** The lock state [s] represents the queue [q]. *)
Record represents (s : lstate) (q : list nat) : Prop := {
  rep_word : 0 <= word s < 2 ^ 32;
  rep_next : next_of (word s) = u16 (owner_of (word s) + Z.of_nat (length q));
  rep_nodup : NoDup q;
  rep_harts : forall h, h ∈ q -> (h < length (pcs s))%nat;
  rep_few : Z.of_nat (length (pcs s)) < 2 ^ 16;
  rep_pc : forall h p, pcs s !! h = Some p -> pc_wf q (word s) (resv s) h p;
}.

(** The hart is inside [spin_lock]/[spin_trylock] .. [spin_unlock]. *)
Definition holds (s : lstate) (h : nat) : Prop :=
  pcs s !! h = Some Critical \/ exists o, pcs s !! h = Some (Unlock o).

(** ** The lock word *)

Lemma owner_mod w : owner_of w = w mod 2 ^ 16.
Proof. unfold owner_of. change 0xffff with (2 ^ 16 - 1). by apply land_ones_mod. Qed.

Lemma next_div w : 0 <= w < 2 ^ 32 -> next_of w = w / 2 ^ 16.
Proof.
  intros Hw. unfold next_of. change 0xffff with (2 ^ 16 - 1). rewrite land_ones_mod by lia.
  rewrite Z.shiftr_div_pow2 by (unfold TICKET_SHIFT; lia). unfold TICKET_SHIFT.
  apply Z.mod_small. split; [apply Z.div_pos; lia|]. apply Z.div_lt_upper_bound; lia.
Qed.

Lemma word_split w : 0 <= w < 2 ^ 32 -> w = owner_of w + next_of w * 2 ^ 16.
Proof.
  intros Hw. rewrite owner_mod, next_div by done.
  pose proof (Z.div_mod w (2 ^ 16) ltac:(lia)). lia.
Qed.

Lemma owner_range w : 0 <= owner_of w < 2 ^ 16.
Proof. rewrite owner_mod. apply Z.mod_pos_bound. lia. Qed.

Lemma next_range w : 0 <= next_of w < 2 ^ 16.
Proof.
  unfold next_of. change 0xffff with (2 ^ 16 - 1). rewrite land_ones_mod by lia.
  apply Z.mod_pos_bound. lia.
Qed.

(** Fields of a word built from an owner and a ticket. *)
Lemma word_fields o n :
  0 <= o < 2 ^ 16 -> 0 <= n < 2 ^ 16 ->
  0 <= o + n * 2 ^ 16 < 2 ^ 32 /\ owner_of (o + n * 2 ^ 16) = o /\ next_of (o + n * 2 ^ 16) = n.
Proof.
  intros Ho Hn. assert (H : 0 <= o + n * 2 ^ 16 < 2 ^ 32) by lia. split; [done|].
  rewrite owner_mod, next_div by done.
  rewrite Z.mod_add, Z.div_add by lia. rewrite Z.mod_small, Z.div_small by lia. lia.
Qed.

Lemma u16_range x : 0 <= u16 x < 2 ^ 16.
Proof. apply Z.mod_pos_bound. lia. Qed.

Lemma amoadd_word w :
  0 <= w < 2 ^ 32 -> u32 (w + inc) = owner_of w + u16 (next_of w + 1) * 2 ^ 16.
Proof.
  intros Hw. rewrite (word_split w Hw) at 1.
  change inc with (2 ^ 16). pose proof (owner_range w). pose proof (next_range w).
  unfold u32, u16. set (o := owner_of w) in *. set (n := next_of w) in *.
  replace (o + n * 2 ^ 16 + 2 ^ 16) with (o + (n + 1) * 2 ^ 16) by lia.
  symmetry. apply (Z.mod_unique_pos _ _ ((n + 1) / 2 ^ 16)).
  - pose proof (Z.mod_pos_bound (n + 1) (2 ^ 16) ltac:(lia)). lia.
  - pose proof (Z.div_mod (n + 1) (2 ^ 16) ltac:(lia)). lia.
Qed.

Lemma amoadd_fields w :
  0 <= w < 2 ^ 32 ->
  0 <= u32 (w + inc) < 2 ^ 32 /\ owner_of (u32 (w + inc)) = owner_of w /\
  next_of (u32 (w + inc)) = u16 (next_of w + 1).
Proof.
  intros Hw. rewrite amoadd_word by done. apply word_fields; [apply owner_range|apply u16_range].
Qed.

Lemma store_owner_fields w o :
  0 <= store_owner w o < 2 ^ 32 /\ owner_of (store_owner w o) = u16 o /\
  next_of (store_owner w o) = next_of w.
Proof.
  unfold store_owner. rewrite Z.lor_comm. rewrite Z.shiftl_mul_pow2 by (unfold TICKET_SHIFT; lia).
  assert (E : Z.lor (u16 o) (next_of w * 2 ^ TICKET_SHIFT) = u16 o + next_of w * 2 ^ 16).
  { unfold TICKET_SHIFT. rewrite <- Z.shiftl_mul_pow2 by lia. symmetry.
    apply Z.add_nocarry_lor. apply testbit_zero_ext. intros i Hi.
    rewrite Z.land_spec, Z.bits_0, Z.shiftl_spec by lia. unfold u16.
    destruct (Z.lt_ge_cases i 16).
    - rewrite (Z.testbit_neg_r _ (i - 16)) by lia. apply andb_false_r.
    - rewrite Z.mod_pow2_bits_high by lia. done. }
  rewrite E. apply word_fields; [apply u16_range|apply next_range].
Qed.

Lemma trylock_free_iff w : 0 <= w < 2 ^ 32 -> trylock_free w = (owner_of w =? next_of w).
Proof.
  intros Hw. unfold trylock_free.
  assert (Hm : forall x, Z.land x (Z.shiftl 0xffff TICKET_SHIFT) = Z.shiftl (next_of x) TICKET_SHIFT).
  { intros x. unfold next_of.
    apply testbit_zero_ext. intros i Hi. unfold TICKET_SHIFT.
    rewrite Z.land_spec, !Z.shiftl_spec by lia.
    destruct (Z.lt_ge_cases i 16).
    - rewrite !(Z.testbit_neg_r _ (i - 16)) by lia. apply andb_false_r.
    - rewrite Z.land_spec, Z.shiftr_spec by lia. by replace (i - 16 + 16) with i by lia. }
  rewrite !Hm.
  assert (Hn : next_of (Z.shiftl w TICKET_SHIFT) = owner_of w).
  { unfold next_of, owner_of. f_equal. rewrite Z.shiftr_shiftl_l by (unfold TICKET_SHIFT; lia).
    unfold TICKET_SHIFT. apply Z.shiftl_0_r. }
  rewrite Hn. rewrite !Z.shiftl_mul_pow2 by (unfold TICKET_SHIFT; lia). unfold TICKET_SHIFT.
  destruct (owner_of w =? next_of w) eqn:E; zbool.
  - rewrite E. apply Z.eqb_refl.
  - apply Z.eqb_neq. lia.
Qed.

Lemma u16_add_l a b : u16 (u16 a + b) = u16 (a + b).
Proof. unfold u16. apply Zplus_mod_idemp_l. Qed.

Lemma u16_inj o i j :
  0 <= i < 2 ^ 16 -> 0 <= j < 2 ^ 16 -> u16 (o + i) = u16 (o + j) -> i = j.
Proof.
  unfold u16. intros Hi Hj H.
  assert (Hd : ((o + i) - (o + j)) mod 2 ^ 16 = 0).
  { rewrite Zminus_mod, H, Z.sub_diag. done. }
  replace (o + i - (o + j)) with (i - j) in Hd by lia.
  apply Z.mod_divide in Hd as [k Hk]; lia.
Qed.

(** ** The lock implements the queue *)

Lemma represents_initial n : Z.of_nat n < 2 ^ 16 -> represents (initial n) [].
Proof.
  intros Hn. split; cbn.
  - unfold SPIN_LOCK_INIT. lia.
  - reflexivity.
  - constructor.
  - intros h Hh. by apply not_elem_of_nil in Hh.
  - by rewrite length_replicate.
  - intros h p Hp. apply lookup_replicate in Hp as [-> _]. cbn. apply not_elem_of_nil.
Qed.

Lemma rep_length s q : represents s q -> Z.of_nat (length q) < 2 ^ 16.
Proof.
  intros R. assert (length q <= length (pcs s))%nat; [|pose proof (rep_few _ _ R); lia].
  transitivity (length (seq 0 (length (pcs s)))); [|by rewrite length_seq].
  apply submseteq_length, NoDup_submseteq;
    [apply (rep_nodup _ _ R)|].
  intros h Hh. apply elem_of_seq. pose proof (rep_harts _ _ R h Hh). lia.
Qed.

(** A step of [h] that leaves the lock word alone. *)
Lemma represents_local s q h p p' rs :
  represents s q -> pcs s !! h = Some p -> (forall k, k <> h -> k ∈ rs -> k ∈ resv s) ->
  pc_wf q (word s) rs h p' -> represents (LState (word s) (<[h := p']> (pcs s)) rs) q.
Proof.
  intros R Hp Hrs Hwf. destruct R as [R1 R2 R3 R4 R5 R6].
  split; cbn; rewrite ?length_insert; try done.
  intros k pk Hk. destruct (decide (k = h)) as [->|Hne].
  - rewrite list_lookup_insert_eq in Hk by by eapply lookup_lt_Some. by simplify_eq.
  - rewrite list_lookup_insert_ne in Hk by done. specialize (R6 k pk Hk).
    destruct pk as [| | | | |l1|]; cbn in *; try exact R6. split; [tauto|]. intros Hin. apply R6. auto.
Qed.

(** Taking a ticket appends the hart to the queue. *)
Lemma represents_enqueue s q h p w p' :
  represents s q -> pcs s !! h = Some p -> (h ∉ q) ->
  0 <= w < 2 ^ 32 -> owner_of w = owner_of (word s) -> next_of w = u16 (next_of (word s) + 1) ->
  pc_wf (q ++ [h]) w ∅ h p' -> represents (lock_write h w p' s) (q ++ [h]).
Proof.
  intros R Hp Hnq Hw Ho Hn Hwf. destruct R as [R1 R2 R3 R4 R5 R6].
  split; cbn; rewrite ?length_insert; try done.
  - rewrite Hn, R2, Ho, length_app, u16_add_l. cbn. f_equal. lia.
  - apply list.NoDup_app. split; [done|]. split; [|apply NoDup_singleton].
    intros k Hk Hin. apply list_elem_of_singleton in Hin. by subst.
  - intros k Hk. apply elem_of_app in Hk as [Hk|Hk]; [auto|].
    apply list_elem_of_singleton in Hk as ->. by eapply lookup_lt_Some.
  - intros k pk Hk. destruct (decide (k = h)) as [->|Hne].
    + rewrite list_lookup_insert_eq in Hk by by eapply lookup_lt_Some. by simplify_eq.
    + rewrite list_lookup_insert_ne in Hk by done. specialize (R6 k pk Hk).
      assert (Happ : forall i, q !! i = Some k -> (q ++ [h]) !! i = Some k).
      { intros i Hi. by apply lookup_app_l_Some. }
      assert (Hnin : k ∉ q -> k ∉ q ++ [h]).
      { intros Hk' Hin. apply elem_of_app in Hin as [|Hin]; [done|].
        by apply list_elem_of_singleton in Hin. }
      destruct pk; cbn in *; rewrite ?Ho; auto.
      * destruct R6 as [(i & Hi & Ht) Hh]. split; [exists i|]; auto.
      * destruct R6 as (i & Hi & Ht). exists i. auto.
      * destruct R6 as [Hh Ht]. auto.
      * split; [tauto|]. intros Hin. by apply not_elem_of_empty in Hin.
Qed.

(** Releasing the lock removes the head of the queue. *)
Lemma represents_leave s q h o :
  represents s (h :: q) -> pcs s !! h = Some (Unlock o) ->
  represents (lock_write h (store_owner (word s) o) Idle s) q.
Proof.
  intros R Hp. pose proof (rep_length _ _ R) as Hlen. destruct R as [R1 R2 R3 R4 R5 R6].
  destruct (store_owner_fields (word s) o) as (W1 & W2 & W3).
  destruct (R6 h _ Hp) as [_ Ho]. apply list.NoDup_cons in R3 as [Hnq Hnd].
  assert (Hown : owner_of (store_owner (word s) o) = u16 (owner_of (word s) + 1)).
  { rewrite W2, Ho. unfold u16. by rewrite Z.mod_mod. }
  split; cbn; rewrite ?length_insert; try done.
  - rewrite W3, R2, Hown, u16_add_l. f_equal. cbn. lia.
  - intros k Hk. apply R4. by right.
  - intros k pk Hk. destruct (decide (k = h)) as [->|Hne].
    { rewrite list_lookup_insert_eq in Hk by by eapply lookup_lt_Some. by simplify_eq. }
    rewrite list_lookup_insert_ne in Hk by done. specialize (R6 k pk Hk).
    assert (Htail : forall t, (exists i, (h :: q) !! i = Some k /\ t = u16 (owner_of (word s) + Z.of_nat i)) ->
      exists i, q !! i = Some k /\ t = u16 (owner_of (store_owner (word s) o) + Z.of_nat i)).
    { intros t ([|i] & Hi & ->); cbn in Hi; [by simplify_eq|]. exists i. split; [done|].
      rewrite Hown, u16_add_l. f_equal. lia. }
    assert (Hnin : k ∉ h :: q -> k ∉ q) by (intros H1 H2; apply H1; by right).
    destruct pk; cbn in *; auto.
    + destruct R6 as [Hex Hh]. split; [by apply Htail|]. intros E. by simplify_eq (Hh E).
    + by simplify_eq.
    + destruct R6 as [E _]. by simplify_eq.
    + split; [tauto|]. intros Hin. by apply not_elem_of_empty in Hin.
Qed.

(** The ticket equal to [owner] belongs to the head of the queue. *)
Lemma ticket_head o i : 0 <= o < 2 ^ 16 -> 0 <= i < 2 ^ 16 -> u16 (o + i) = o -> i = 0.
Proof.
  intros Ho Hi E. apply (u16_inj o); [lia|lia|]. rewrite E, Z.add_0_r.
  symmetry. by apply Z.mod_small.
Qed.

Lemma queue_empty s q : represents s q -> next_of (word s) = owner_of (word s) -> q = [].
Proof.
  intros R E. rewrite (rep_next _ _ R) in E. pose proof (rep_length _ _ R).
  apply ticket_head in E; [|apply owner_range|lia]. destruct q; [done|cbn in E; lia].
Qed.

(** Every instruction step is a step of the abstract queue. *)
Lemma step_simulates h s s' q :
  represents s q -> step h s s' -> exists q', astep h q q' /\ represents s' q'.
Proof.
  intros R Hst. pose proof (rep_length _ _ R) as Hlen.
  pose proof (rep_word _ _ R) as Hword.
  destruct (amoadd_fields (word s) Hword) as (A1 & A2 & A3).
  destruct Hst as [Hp|t l0 Hp Ht|t l0 Hp Ht|t Hp|Hp|o Hp|p Hp Hor Hf|p Hp Hor Hf|l0 Hp Hin|l0 Hp];
    pose proof (rep_pc _ _ R h _ Hp) as Hwf; cbn in Hwf.
  - exists (q ++ [h]). split; [by constructor|].
    apply (represents_enqueue s q h Idle); try done. cbn. rewrite A2. split.
    + exists (length q). split; [by rewrite lookup_app_r, Nat.sub_diag by done|apply (rep_next _ _ R)].
    + intros He. by rewrite (queue_empty s q R He).
  - exists q. split; [constructor|]. eapply represents_local; [done..|]. naive_solver.
  - exists q. split; [constructor|]. eapply represents_local; [done..|]. cbn. naive_solver.
  - exists q. split; [constructor|]. eapply represents_local; [done..|]. cbn. split; [done|].
    destruct Hwf as (i & Hi & ->). intros He. pose proof (lookup_lt_Some _ _ _ Hi).
    apply ticket_head in He; [|apply owner_range|lia]. by replace 0%nat with i by lia.
  - exists q. split; [constructor|]. eapply represents_local; [done..|]. done.
  - destruct q as [|h' q]; [naive_solver|]. destruct Hwf as [Hh _]. cbn in Hh. simplify_eq.
    exists q. split; [by constructor|]. by apply represents_leave.
  - exists q. split; [constructor|]. eapply represents_local; [done..| |].
    + set_solver.
    + rewrite trylock_free_iff in Hf by done. zbool. cbn.
      split; [destruct Hor as [-> | ->]; exact Hwf|]. intros _. split; [done|].
      by apply (queue_empty s q R).
  - exists q. split; [constructor|]. eapply represents_local; [done..|].
    destruct Hor as [-> | ->]; exact Hwf.
  - destruct Hwf as [Hnq Hres]. destruct (Hres Hin) as [-> ->].
    exists ([] ++ [h]). split; [by constructor|].
    apply (represents_enqueue s [] h (TrySC (word s))); done.
  - exists q. split; [constructor|]. eapply represents_local; [done..| |]; [set_solver|].
    cbn. naive_solver.
Qed.

Lemma reachable_represents n s :
  Z.of_nat n < 2 ^ 16 -> reachable n s -> exists q, represents s q.
Proof.
  intros Hn. induction 1 as [|h s s' Hr IH Hst].
  - exists []. by apply represents_initial.
  - destruct IH as [q R]. destruct (step_simulates h s s' q R Hst) as (q' & _ & R'). by exists q'.
Qed.

Lemma holds_head s q h : represents s q -> holds s h -> q !! 0%nat = Some h.
Proof.
  intros R [Hp|[o Hp]]; pose proof (rep_pc _ _ R h _ Hp) as Hwf; cbn in Hwf; tauto.
Qed.

(** [C1] Mutual exclusion: in every interleaving of fewer than 2^16 harts that
    take the lock with [spin_lock] or [spin_trylock] and release it with
    [spin_unlock], at most one hart is between the acquisition and the store
    that releases the lock. *)
Theorem spin_lock_mutual_exclusion n s h k :
  Z.of_nat n < 2 ^ 16 -> reachable n s -> holds s h -> holds s k -> h = k.
Proof.
  intros Hn Hr Hh Hk. destruct (reachable_represents n s Hn Hr) as [q R].
  pose proof (holds_head s q h R Hh). pose proof (holds_head s q k R Hk). congruence.
Qed.

Lemma spin_lock_mutual_exclusion_witness :
  let s := LState (u32 (0 + inc)) [Critical; Idle] ∅ in
  reachable 2 s /\ (holds s 1%nat -> 0%nat = 1%nat).
Proof.
  assert (R : reachable 2 (LState (u32 (0 + inc)) [Critical; Idle] ∅)).
  { eapply (reach_step 2 0%nat); [eapply (reach_step 2 0%nat); [apply reach_init|]|].
    - exact (lock_amoadd 0%nat (initial 2) eq_refl).
    - exact (lock_got 0%nat (lock_write 0 (u32 (0 + inc)) (Check 0 0) (initial 2)) 0 0 eq_refl eq_refl). }
  split; [exact R|]. intros H1.
  refine (spin_lock_mutual_exclusion 2 _ 0%nat 1%nat _ R _ H1); [lia|by left].
Defined.

(** [C36] Refinement: from a state that represents a queue of harts, every
    instruction of every hart is a step of the abstract FIFO lock (nothing
    happens, the hart joins the tail, or the head leaves), and a hart that holds
    the lock is the head of the queue; so harts acquire the lock in the order
    in which they took their tickets. *)
Theorem spin_lock_refines_fifo s q h s' :
  represents s q -> step h s s' ->
  exists q', astep h q q' /\ represents s' q' /\ (holds s' h -> exists r, q' = h :: r).
Proof.
  intros R Hst. destruct (step_simulates h s s' q R Hst) as (q' & Ha & R').
  exists q'. split; [done|]. split; [done|]. intros Hh.
  pose proof (holds_head s' q' h R' Hh) as Hq. destruct q' as [|x r]; cbn in Hq; [done|].
  simplify_eq. by exists r.
Qed.

Lemma spin_lock_refines_fifo_witness :
  exists q', astep 0%nat [] q' /\
    represents (lock_write 0 (u32 (0 + inc)) (Check 0 0) (initial 3)) q' /\
    (holds (lock_write 0 (u32 (0 + inc)) (Check 0 0) (initial 3)) 0%nat -> exists r, q' = 0%nat :: r).
Proof.
  apply (spin_lock_refines_fifo (initial 3)).
  - apply represents_initial. cbn. lia.
  - by apply lock_amoadd.
Defined.

(** A hart whose ticket is up gets the lock by reloading and comparing. *)
Lemma spin_reload s t h :
  pcs s !! h = Some (Spin t) -> t = owner_of (word s) ->
  exists s1, step h s s1 /\ exists s2, step h s1 s2 /\ holds s2 h.
Proof.
  intros Hs Ht. pose proof (lookup_lt_Some _ _ _ Hs) as Hlt.
  eexists. split; [by apply lock_reload|].
  eexists. split; [eapply (lock_got _ _ t (word s)); cbn|left; cbn].
  - by rewrite list_lookup_insert_eq.
  - done.
  - by rewrite list_lookup_insert_eq by by rewrite length_insert.
Qed.

(** Progress: the head of the queue is never blocked by the other harts.
    If it waits, at most three of its own steps (give up a stale compare, reload the word, compare)
    give it the lock, whatever the others did before. *)
Theorem spin_lock_head_progress s q h p :
  represents s (h :: q) -> pcs s !! h = Some p ->
  holds s h \/
  exists s1, step h s s1 /\ (holds s1 h \/ exists s2, step h s1 s2 /\
    (holds s2 h \/ exists s3, step h s2 s3 /\ holds s3 h)).
Proof.
  intros R Hp. pose proof (rep_pc _ _ R h p Hp) as Hwf.
  pose proof (lookup_lt_Some _ _ _ Hp) as Hlt.
  assert (Hnot : ~ (h ∉ h :: q)) by (intros H; apply H; left).
  assert (Hhead : forall t, (exists i, (h :: q) !! i = Some h /\ t = u16 (owner_of (word s) + Z.of_nat i)) ->
            t = owner_of (word s)).
  { intros t ([|i] & Hi & ->); [|exfalso].
    - rewrite Z.add_0_r. apply Z.mod_small, owner_range.
    - pose proof (rep_nodup _ _ R) as Hnd. apply list.NoDup_cons in Hnd as [Hn _].
      apply Hn. cbn in Hi. by eapply list_elem_of_lookup_2. }
  destruct p as [|t l0|t| |o|l0|]; cbn in Hwf; try tauto.
  - right. destruct (decide (t = owner_of l0)) as [He|He].
    + eexists. split; [by eapply lock_got|]. left. left. cbn. by rewrite list_lookup_insert_eq.
    + eexists. split; [by eapply lock_not_yet|]. right.
      destruct (spin_reload (lock_goto h (Spin t) s) t h) as (s2 & H2 & s3 & H3 & Hh).
      * cbn. by rewrite list_lookup_insert_eq.
      * apply Hhead, Hwf.
      * exists s2. split; [done|]. right. by exists s3.
  - right. destruct (spin_reload s t h) as (s2 & H2 & s3 & H3 & Hh); [done|by apply Hhead|].
    exists s2. split; [done|]. right. exists s3. split; [done|]. by left.
  - left. by left.
  - left. right. by exists o.
Qed.

Lemma spin_lock_head_progress_witness :
  let s := lock_write 0 (u32 (0 + inc)) (Check 0 0) (initial 3) in
  holds s 0%nat \/
  exists s1, step 0%nat s s1 /\ (holds s1 0%nat \/ exists s2, step 0%nat s1 s2 /\
    (holds s2 0%nat \/ exists s3, step 0%nat s2 s3 /\ holds s3 0%nat)).
Proof.
  cbv zeta.
  destruct (step_simulates 0%nat (initial 3) _ [] (represents_initial 3 ltac:(cbn; lia))
              (lock_amoadd 0%nat (initial 3) eq_refl)) as (q' & Ha & R').
  apply (spin_lock_head_progress _ [] 0%nat (Check 0 0)); [|reflexivity].
  pose proof (rep_pc _ _ R' 0%nat _ eq_refl) as [(i & Hi & _) Hh].
  inversion Ha as [E|Hn E|q2 E]; subst; done.
Defined.

(** ** One hart alone *)

(** An uncontended lock word: [owner = next]. *)
Definition lock_free (w : Z) : Prop := 0 <= w < 2 ^ 32 /\ owner_of w = next_of w.

Lemma lock_free_init : lock_free SPIN_LOCK_INIT.
Proof. split; [unfold SPIN_LOCK_INIT; lia|reflexivity]. Qed.

(** Taking and releasing a free lock succeeds and leaves it free. *)
Lemma spin_lock_free w : lock_free w ->
  exists w', spin_lock w = (Ret tt, w') /\ lock_free (snd (spin_unlock w')).
Proof.
  intros [Hw He]. unfold spin_lock. rewrite <- He, Z.eqb_refl. eexists. split; [done|].
  unfold spin_unlock. cbn [snd]. destruct (amoadd_fields w Hw) as (A1 & A2 & A3).
  destruct (store_owner_fields (u32 (w + inc)) (owner_of (u32 (w + inc)) + 1)) as (S1 & S2 & S3).
  split; [done|]. by rewrite S2, S3, A2, A3, He.
Qed.
