(* ===== verification/Strings.v ===== *)
(** * String and memory functions (lib/sbi/sbi_string.c)

    Memory is a map from addresses to bytes ([char] is unsigned on RISC-V);
    pointers are 64-bit words.  The loops that a zero byte ends take a fuel and
    return [None] when it runs out; a string of length [n] needs [n + 1].

    The theorems: memmove copies right even when the areas overlap, and memcpy
    whenever the destination does not start inside the source; the comparison
    functions find the first difference; strlen and the searches find the first
    and last places; and where the functions fall short of their names:
    strnlen stops half way, strcpy and strncpy leave out the final zero. *)

From Stdlib Require Import ZArith Lia.
From stdpp Require Import base tactics list gmap numbers.
From S2P Require Import Prelude.

Definition rd (m : gmap Z Z) (a : Z) : Z := default 0 (m !! a).

(** ** Comparison *)

(** The loop of sbi_strcmp: where it stops. *)
Fixpoint strcmp_loop (fuel : nat) (m : gmap Z Z) (a b : Z) : option (Z * Z) :=
  match fuel with
  | O => None
  | S fuel' =>
      if (rd m a =? rd m b) && negb (rd m a =? 0) then strcmp_loop fuel' m (add64 a 1) (add64 b 1)
      else Some (a, b)
  end.

Definition sbi_strcmp (fuel : nat) (m : gmap Z Z) (a b : Z) : option Z :=
  match strcmp_loop fuel m a b with
  | Some (a, b) => Some (rd m a - rd m b)
  | None => None
  end.

(** The loop of sbi_strncmp: the pointers and the remaining count. *)
Fixpoint strncmp_loop (m : gmap Z Z) (a b : Z) (count : nat) : Z * Z * nat :=
  match count with
  | O => (a, b, O)
  | S count' =>
      if (rd m a =? rd m b) && negb (rd m a =? 0) then strncmp_loop m (add64 a 1) (add64 b 1) count'
      else (a, b, S count')
  end.

Definition sbi_strncmp (m : gmap Z Z) (a b count : Z) : Z :=
  match strncmp_loop m a b (Z.to_nat count) with
  | (_, _, O) => 0
  | (a, b, S _) => rd m a - rd m b
  end.

(** ** Length *)

Fixpoint strlen_loop (fuel : nat) (m : gmap Z Z) (str ret : Z) : option Z :=
  match fuel with
  | O => None
  | S fuel' =>
      if negb (rd m str =? 0) then strlen_loop fuel' m (add64 str 1) (add64 ret 1) else Some ret
  end.

Definition sbi_strlen (fuel : nat) (m : gmap Z Z) (str : Z) : option Z := strlen_loop fuel m str 0.

Fixpoint strnlen_loop (fuel : nat) (m : gmap Z Z) (str ret count : Z) : option Z :=
  match fuel with
  | O => None
  | S fuel' =>
      if negb (rd m str =? 0) && (ret <? count)
      then strnlen_loop fuel' m (add64 str 1) (add64 ret 1) (sub64 count 1) else Some ret
  end.

(** The count bounds the iterations. *)
Definition sbi_strnlen (m : gmap Z Z) (str count : Z) : option Z :=
  strnlen_loop (S (Z.to_nat count)) m str 0 count.

(** ** Copies of strings *)

Fixpoint strcpy_loop (fuel : nat) (dest src : Z) (m : gmap Z Z) : option (gmap Z Z) :=
  match fuel with
  | O => None
  | S fuel' =>
      if negb (rd m src =? 0) then strcpy_loop fuel' (add64 dest 1) (add64 src 1) (<[dest := rd m src]> m)
      else Some m
  end.

Definition sbi_strcpy (fuel : nat) (dest src : Z) (m : gmap Z Z) : option (gmap Z Z) := strcpy_loop fuel dest src m.

Fixpoint strncpy_loop (count : nat) (dest src : Z) (m : gmap Z Z) : gmap Z Z :=
  match count with
  | O => m
  | S count' =>
      if negb (rd m src =? 0) then strncpy_loop count' (add64 dest 1) (add64 src 1) (<[dest := rd m src]> m)
      else m
  end.

Definition sbi_strncpy (dest src count : Z) (m : gmap Z Z) : gmap Z Z := strncpy_loop (Z.to_nat count) dest src m.

(** ** Searches *)

Definition to_char (c : Z) : Z := wrap 8 c.

Fixpoint strchr_loop (fuel : nat) (m : gmap Z Z) (s c : Z) : option Z :=
  match fuel with
  | O => None
  | S fuel' =>
      if negb (rd m s =? 0) && negb (rd m s =? to_char c) then strchr_loop fuel' m (add64 s 1) c else Some s
  end.

(** The pointer, 0 for NULL. *)
Definition sbi_strchr (fuel : nat) (m : gmap Z Z) (s c : Z) : option Z :=
  match strchr_loop fuel m s c with
  | Some s => Some (if rd m s =? 0 then 0 else s)
  | None => None
  end.

Fixpoint strrchr_loop (n : nat) (m : gmap Z Z) (s last c : Z) : Z :=
  match n with
  | O => last
  | S n' => if (s <? last) && negb (rd m last =? to_char c) then strrchr_loop n' m s (sub64 last 1) c else last
  end.

Definition sbi_strrchr (fuel : nat) (m : gmap Z Z) (s c : Z) : option Z :=
  match sbi_strlen fuel m s with
  | Some len =>
      let last := strrchr_loop (Z.to_nat len) m s (add64 s len) c in
      Some (if negb (rd m last =? to_char c) then 0 else last)
  | None => None
  end.

(** ** Memory *)

Fixpoint memset_loop (count : nat) (temp c : Z) (m : gmap Z Z) : gmap Z Z :=
  match count with
  | O => m
  | S count' => memset_loop count' (add64 temp 1) c (<[temp := to_char c]> m)
  end.

Definition sbi_memset (s c count : Z) (m : gmap Z Z) : gmap Z Z := memset_loop (Z.to_nat count) s c m.

(** [*temp1++ = *temp2++] *)
Fixpoint copy_up (count : nat) (temp1 temp2 : Z) (m : gmap Z Z) : gmap Z Z :=
  match count with
  | O => m
  | S count' => copy_up count' (add64 temp1 1) (add64 temp2 1) (<[temp1 := rd m temp2]> m)
  end.

(** [*temp1-- = *temp2--] *)
Fixpoint copy_down (count : nat) (temp1 temp2 : Z) (m : gmap Z Z) : gmap Z Z :=
  match count with
  | O => m
  | S count' => copy_down count' (sub64 temp1 1) (sub64 temp2 1) (<[temp1 := rd m temp2]> m)
  end.

Definition sbi_memcpy (dest src count : Z) (m : gmap Z Z) : gmap Z Z := copy_up (Z.to_nat count) dest src m.

Definition sbi_memmove (dest src count : Z) (m : gmap Z Z) : gmap Z Z :=
  if src =? dest then m
  else if dest <? src then copy_up (Z.to_nat count) dest src m
  else copy_down (Z.to_nat count) (add64 dest (count - 1)) (add64 src (count - 1)) m.

Fixpoint memcmp_loop (m : gmap Z Z) (a b : Z) (count : nat) : Z * Z * nat :=
  match count with
  | O => (a, b, O)
  | S count' => if rd m a =? rd m b then memcmp_loop m (add64 a 1) (add64 b 1) count' else (a, b, S count')
  end.

Definition sbi_memcmp (m : gmap Z Z) (s1 s2 count : Z) : Z :=
  match memcmp_loop m s1 s2 (Z.to_nat count) with
  | (a, b, S _) => rd m a - rd m b
  | (_, _, O) => 0
  end.

Fixpoint memchr_loop (m : gmap Z Z) (c temp : Z) (count : nat) : Z :=
  match count with
  | O => 0
  | S count' => if to_char c =? rd m temp then sub64 (add64 temp 1) 1 else memchr_loop m c (add64 temp 1) count'
  end.

Definition sbi_memchr (m : gmap Z Z) (s c count : Z) : Z := memchr_loop m c s (Z.to_nat count).

(** ** Pointers *)

Lemma add64_fits a i : 0 <= a + i < 2 ^ 64 -> add64 a i = a + i.
Proof. intros H. apply u64_small. exact H. Qed.

Lemma sub64_fits a i : 0 <= a - i < 2 ^ 64 -> sub64 a i = a - i.
Proof. intros H. apply u64_small. exact H. Qed.

Lemma rd_insert m a v x : rd (<[a := v]> m) x = if x =? a then v else rd m x.
Proof.
  unfold rd. destruct (Z.eqb_spec x a) as [->|]; [by rewrite lookup_insert_eq|by rewrite lookup_insert_ne].
Qed.

(** An area of [n] bytes at [a], all of whose addresses exist. *)
Definition fits (a n : Z) : Prop := 0 <= a /\ 0 <= n /\ a + n <= 2 ^ 64.

(** ** Copies *)

Lemma copy_up_spec n d s m x :
  fits d (Z.of_nat n) -> fits s (Z.of_nat n) -> d <= s \/ s + Z.of_nat n <= d ->
  rd (copy_up n d s m) x =
    if (d <=? x) && (x <? d + Z.of_nat n) then rd m (s + (x - d)) else rd m x.
Proof.
  unfold fits. revert d s m. induction n as [|n IH]; intros d s m Hd Hs Hds; cbn [copy_up].
  { rewrite (proj2 (andb_false_iff _ _)); [done|]. rewrite Z.leb_gt, Z.ltb_ge. lia. }
  rewrite Nat2Z.inj_succ in *. destruct n as [|n].
  { cbn [copy_up]. rewrite rd_insert. change (Z.succ (Z.of_nat 0)) with 1.
    destruct (Z.eqb_spec x d) as [->|Hx].
    - rewrite (proj2 (andb_true_iff _ _)) by (rewrite Z.leb_le, Z.ltb_lt; lia). f_equal. lia.
    - by rewrite (proj2 (andb_false_iff _ _)) by (rewrite Z.leb_gt, Z.ltb_ge; lia). }
  rewrite !add64_fits by lia. rewrite IH by lia. rewrite !rd_insert.
  destruct (Z.eqb_spec x d) as [->|Hx].
  - rewrite (proj2 (andb_false_iff (d + 1 <=? d) _)) by (rewrite Z.leb_gt; lia).
    rewrite (proj2 (andb_true_iff _ _)) by (rewrite Z.leb_le, Z.ltb_lt; lia). f_equal. lia.
  - replace ((d <=? x) && (x <? d + Z.succ (Z.of_nat (S n)))) with ((d + 1 <=? x) && (x <? d + 1 + Z.of_nat (S n)))
      by (apply eq_true_iff_eq; rewrite !andb_true_iff, !Z.leb_le, !Z.ltb_lt; lia).
    case_if; [|done]. zbool. destruct (Z.eqb_spec (s + 1 + (x - (d + 1))) d); [lia|]. f_equal. lia.
Qed.

Lemma copy_down_spec n d s m x :
  fits (d - Z.of_nat n + 1) (Z.of_nat n) -> fits (s - Z.of_nat n + 1) (Z.of_nat n) -> s <= d ->
  rd (copy_down n d s m) x =
    if (d - Z.of_nat n <? x) && (x <=? d) then rd m (s + (x - d)) else rd m x.
Proof.
  unfold fits. revert d s m. induction n as [|n IH]; intros d s m Hd Hs Hds; cbn [copy_down].
  { rewrite (proj2 (andb_false_iff _ _)); [done|]. rewrite Z.ltb_ge, Z.leb_gt. lia. }
  rewrite Nat2Z.inj_succ in *. destruct n as [|n].
  { cbn [copy_down]. rewrite rd_insert. change (Z.succ (Z.of_nat 0)) with 1.
    destruct (Z.eqb_spec x d) as [->|Hx].
    - rewrite (proj2 (andb_true_iff _ _)) by (rewrite Z.leb_le, Z.ltb_lt; lia). f_equal. lia.
    - by rewrite (proj2 (andb_false_iff _ _)) by (rewrite Z.leb_gt, Z.ltb_ge; lia). }
  rewrite !sub64_fits by lia. rewrite IH by lia. rewrite !rd_insert.
  destruct (Z.eqb_spec x d) as [->|Hx].
  - rewrite (proj2 (andb_false_iff _ (d <=? d - 1))) by (rewrite Z.leb_gt; lia).
    rewrite (proj2 (andb_true_iff _ _)) by (rewrite Z.leb_le, Z.ltb_lt; lia). f_equal. lia.
  - replace ((d - Z.succ (Z.of_nat (S n)) <? x) && (x <=? d)) with ((d - 1 - Z.of_nat (S n) <? x) && (x <=? d - 1))
      by (apply eq_true_iff_eq; rewrite !andb_true_iff, !Z.leb_le, !Z.ltb_lt; lia).
    case_if; [|done]. zbool. destruct (Z.eqb_spec (s - 1 + (x - (d - 1))) d); [lia|]. f_equal. lia.
Qed.

(** sbi_memmove moves: whatever the overlap of the two areas, afterwards
    the destination holds what the source held before, and every other byte is
    as it was. *)
Theorem memmove_correct (dest src count : Z) (m : gmap Z Z) :
  fits dest count -> fits src count ->
  forall x, rd (sbi_memmove dest src count m) x =
    if (dest <=? x) && (x <? dest + count) then rd m (src + (x - dest)) else rd m x.
Proof.
  intros Hd Hs x. unfold fits in *. unfold sbi_memmove. destruct (Z.eqb_spec src dest) as [->|Hne].
  { case_if; [f_equal; lia|done]. }
  destruct (Z.ltb_spec dest src).
  - rewrite copy_up_spec by (unfold fits; rewrite ?Z2Nat.id; lia). by rewrite Z2Nat.id by lia.
  - destruct (Z.eq_dec count 0) as [->|Hc].
    + cbn [Z.to_nat copy_down]. rewrite (proj2 (andb_false_iff _ _)) by (rewrite Z.leb_gt, Z.ltb_ge; lia). done.
    + rewrite !add64_fits by lia. rewrite copy_down_spec by (unfold fits; rewrite ?Z2Nat.id; lia).
      rewrite Z2Nat.id by lia.
      replace ((dest + (count - 1) - count <? x) && (x <=? dest + (count - 1))) with ((dest <=? x) && (x <? dest + count))
        by (apply eq_true_iff_eq; rewrite !andb_true_iff, !Z.leb_le, !Z.ltb_lt; lia).
      case_if; [f_equal; lia|done].
Qed.

Lemma memmove_correct_witness :
  rd (sbi_memmove 0x101 0x100 3 (list_to_map [(0x100, 1); (0x101, 2); (0x102, 3)])) 0x103 = 3.
Proof.
  rewrite (memmove_correct 0x101 0x100 3) by (unfold fits; lia). reflexivity.
Defined.

(** sbi_memcpy, unless the destination starts inside the source. *)
Lemma memcpy_correct dest src count m x :
  fits dest count -> fits src count -> dest <= src \/ src + count <= dest ->
  rd (sbi_memcpy dest src count m) x =
    if (dest <=? x) && (x <? dest + count) then rd m (src + (x - dest)) else rd m x.
Proof.
  intros Hd Hs Ho. unfold fits in *. unfold sbi_memcpy. rewrite copy_up_spec by (unfold fits; rewrite ?Z2Nat.id; lia).
  by rewrite Z2Nat.id by lia.
Qed.

(** ** Comparisons *)

(** The loop the comparisons share: advance both pointers while [go] holds. *)
Fixpoint pair_loop (go : Z → Z → bool) (a b : Z) (count : nat) : Z * Z * nat :=
  match count with
  | O => (a, b, O)
  | S count' => if go a b then pair_loop go (add64 a 1) (add64 b 1) count' else (a, b, S count')
  end.

Lemma memcmp_pair m a b n : memcmp_loop m a b n = pair_loop (λ x y, rd m x =? rd m y) a b n.
Proof. revert a b. induction n as [|n IH]; intros a b; cbn; [done|]. by rewrite IH. Qed.

Lemma strncmp_pair m a b n :
  strncmp_loop m a b n = pair_loop (λ x y, (rd m x =? rd m y) && negb (rd m x =? 0)) a b n.
Proof. revert a b. induction n as [|n IH]; intros a b; cbn; [done|]. by rewrite IH. Qed.

(** It stops at the first place where [go] does not hold. *)
Lemma pair_loop_spec go a b n :
  fits a (Z.of_nat n) -> fits b (Z.of_nat n) ->
  exists r, first_from (λ i, negb (go (a + i) (b + i))) 0 (Z.of_nat n) r /\
    if r <? Z.of_nat n then exists k, pair_loop go a b n = (a + r, b + r, S k)
    else snd (pair_loop go a b n) = O.
Proof.
  unfold fits. revert a b. induction n as [|n IH]; intros a b Ha Hb; cbn [pair_loop].
  { exists 0. split; [|done]. split; [lia|]. split; intros; lia. }
  rewrite Nat2Z.inj_succ in *. destruct (go a b) eqn:Eg.
  - destruct (Z.eq_dec (Z.of_nat n) 0) as [E0|].
    { assert (n = O) as -> by lia. exists 1. split; [|done]. split; [cbn; lia|]. split; [|cbn; lia].
      intros i Hi. assert (i = 0) as -> by lia. by rewrite !Z.add_0_r, Eg. }
    rewrite !add64_fits by lia. destruct (IH (a + 1) (b + 1)) as (r & (H1 & H2 & H3) & Hr); [lia|lia|].
    exists (r + 1). split.
    + split; [lia|]. split.
      * intros i Hi. destruct (Z.eq_dec i 0) as [->|]; [by rewrite !Z.add_0_r, Eg|].
        specialize (H2 (i - 1) ltac:(lia)). replace (a + i) with (a + 1 + (i - 1)) by lia.
        by replace (b + i) with (b + 1 + (i - 1)) by lia.
      * intros Hlt. specialize (H3 ltac:(lia)). replace (a + (r + 1)) with (a + 1 + r) by lia.
        by replace (b + (r + 1)) with (b + 1 + r) by lia.
    + replace (r + 1 <? Z.succ (Z.of_nat n)) with (r <? Z.of_nat n)
        by (apply eq_true_iff_eq; rewrite !Z.ltb_lt; lia).
      case_if; [|done]. destruct Hr as [k Ek]. exists k. rewrite Ek. replace (a + 1 + r) with (a + (r + 1)) by lia.
      by replace (b + 1 + r) with (b + (r + 1)) by lia.
  - exists 0. split.
    + split; [lia|]. split; [lia|]. intros _. by rewrite !Z.add_0_r, Eg.
    + rewrite (proj2 (Z.ltb_lt _ _)) by lia. exists n. by rewrite !Z.add_0_r.
Qed.

(** sbi_memcmp compares the areas at their first difference. *)
Lemma memcmp_first_difference m s1 s2 count :
  fits s1 count -> fits s2 count ->
  exists r, first_from (λ i, negb (rd m (s1 + i) =? rd m (s2 + i))) 0 count r /\
    sbi_memcmp m s1 s2 count = if r <? count then rd m (s1 + r) - rd m (s2 + r) else 0.
Proof.
  intros H1 H2. assert (0 <= count) by (by destruct H1 as (_ & ? & _)).
  destruct (pair_loop_spec (λ x y, rd m x =? rd m y) s1 s2 (Z.to_nat count)) as (r & Hf & Hr);
    rewrite ?Z2Nat.id in * by lia; [done|done|].
  exists r. split; [done|]. unfold sbi_memcmp. rewrite memcmp_pair.
  destruct (r <? count); [by destruct Hr as [k ->]|]. destruct (pair_loop _ _ _ _) as [[x y] k]. cbn in Hr. by subst k.
Qed.

(** So it is 0 exactly for equal areas. *)
Lemma memcmp_zero m s1 s2 count :
  fits s1 count -> fits s2 count ->
  sbi_memcmp m s1 s2 count = 0 <-> forall i, 0 <= i < count -> rd m (s1 + i) = rd m (s2 + i).
Proof.
  intros H1 H2. destruct (memcmp_first_difference m s1 s2 count H1 H2) as (r & (Hr & Hbefore & Hat) & ->). split.
  - intros E i Hi. destruct (Z.ltb_spec r count).
    + specialize (Hat ltac:(lia)). zbool. lia.
    + specialize (Hbefore i ltac:(lia)). by zbool.
  - intros Hall. destruct (Z.ltb_spec r count); [|done]. rewrite Hall by lia. lia.
Qed.

(** sbi_strncmp compares at the first difference, the end of the strings or the
    end of the count. *)
Lemma strncmp_first_difference m a b count :
  fits a count -> fits b count ->
  exists r, first_from (λ i, negb ((rd m (a + i) =? rd m (b + i)) && negb (rd m (a + i) =? 0))) 0 count r /\
    sbi_strncmp m a b count = if r <? count then rd m (a + r) - rd m (b + r) else 0.
Proof.
  intros H1 H2. assert (0 <= count) by (by destruct H1 as (_ & ? & _)).
  destruct (pair_loop_spec (λ x y, (rd m x =? rd m y) && negb (rd m x =? 0)) a b (Z.to_nat count)) as (r & Hf & Hr);
    rewrite ?Z2Nat.id in * by lia; [done|done|].
  exists r. split; [done|]. unfold sbi_strncmp. rewrite strncmp_pair.
  destruct (r <? count); [by destruct Hr as [k ->]|]. destruct (pair_loop _ _ _ _) as [[x y] k]. cbn in Hr. by subst k.
Qed.

(** ** Strings *)

(** A string of [n] characters at [s]. *)
Record string_at (m : gmap Z Z) (s n : Z) : Prop := {
  sa_fits : fits s (n + 1);
  sa_chars : forall i, 0 <= i < n -> rd m (s + i) <> 0;
  sa_end : rd m (s + n) = 0;
  sa_len : 0 <= n;
}.

Lemma strlen_loop_spec fuel m s n k :
  string_at m s n -> 0 <= k <= n -> (Z.to_nat (n - k) < fuel)%nat ->
  strlen_loop fuel m (s + k) k = Some n.
Proof.
  intros [(H1 & H2 & H3) Hc He Hn]. revert k. induction fuel as [|fuel IH]; intros k Hk Hf; [lia|]. cbn [strlen_loop].
  destruct (Z.eq_dec k n) as [->|Hne]; [by rewrite He|].
  rewrite (proj2 (Z.eqb_neq _ _)) by (apply Hc; lia). cbn [negb]. rewrite !add64_fits by lia.
  rewrite <- Z.add_assoc. apply IH; lia.
Qed.

Lemma strlen_correct fuel m s n : string_at m s n -> (Z.to_nat n < fuel)%nat -> sbi_strlen fuel m s = Some n.
Proof.
  intros H Hf. unfold sbi_strlen. rewrite <- (Z.add_0_r s) at 1. apply strlen_loop_spec; [done|destruct H; lia|].
  by rewrite Z.sub_0_r.
Qed.

(** sbi_strnlen counts the maximum down while it counts the length up, and so
    stops half way: of a longer string it gives [(count + 1) / 2].  See
    sbi_string.c:59. *)
Theorem strnlen_stops_half_way m s n count :
  string_at m s n -> 0 <= count <= n -> sbi_strnlen m s count = Some ((count + 1) / 2).
Proof.
  intros [(H1 & H2 & H3) Hc He Hn] Hcnt. unfold sbi_strnlen.
  assert (G : forall fuel k, 0 <= k <= (count + 1) / 2 -> (Z.to_nat (count - k) < fuel)%nat ->
    strnlen_loop fuel m (s + k) k (count - k) = Some ((count + 1) / 2)).
  { pose proof (Z.div_mod (count + 1) 2 ltac:(lia)). pose proof (Z.mod_pos_bound (count + 1) 2 ltac:(lia)).
    induction fuel as [|fuel IH]; intros k Hk Hf; [lia|]. cbn [strnlen_loop].
    destruct (Z.ltb_spec k (count - k)).
    - rewrite (proj2 (Z.eqb_neq _ _)) by (apply Hc; lia). cbn [negb andb].
      rewrite !add64_fits, sub64_fits by lia. rewrite <- Z.add_assoc.
      replace (count - k - 1) with (count - (k + 1)) by lia. apply IH; lia.
    - rewrite andb_false_r. f_equal. lia. }
  specialize (G (S (Z.to_nat count)) 0). rewrite Z.add_0_r, Z.sub_0_r in G. apply G; [|lia].
  split; [lia|]. apply Z.div_pos; lia.
Qed.

(** sbi_strcpy copies the characters but not the zero that ends them: the byte
    after the copy keeps its value, so the copy of a string into a buffer that
    was not cleared is not a string.  See sbi_string.c:72. *)
Theorem strcpy_leaves_out_the_end fuel dest src n m :
  string_at m src n -> fits dest (n + 1) -> dest + n <= src \/ src + n < dest -> (Z.to_nat n < fuel)%nat ->
  exists m', sbi_strcpy fuel dest src m = Some m' /\
    (forall i, 0 <= i < n -> rd m' (dest + i) = rd m (src + i)) /\ rd m' (dest + n) = rd m (dest + n).
Proof.
  intros [(H1 & H2 & H3) Hc He Hn] (D1 & D2 & D3) Ho Hf. unfold sbi_strcpy.
  assert (G : forall fuel k m0, 0 <= k <= n -> (Z.to_nat (n - k) < fuel)%nat ->
    (forall x, rd m0 x = if (dest <=? x) && (x <? dest + k) then rd m (src + (x - dest)) else rd m x) ->
    exists m', strcpy_loop fuel (dest + k) (src + k) m0 = Some m' /\
      forall x, rd m' x = if (dest <=? x) && (x <? dest + n) then rd m (src + (x - dest)) else rd m x).
  { clear Hf fuel. induction fuel as [|fuel IH]; intros k m0 Hk Hf Hm; [lia|]. cbn [strcpy_loop].
    rewrite (Hm (src + k)), (proj2 (andb_false_iff _ _)) by (rewrite Z.leb_gt, Z.ltb_ge; lia).
    destruct (Z.eq_dec k n) as [->|Hne]; [rewrite He; by exists m0|].
    rewrite (proj2 (Z.eqb_neq _ _)) by (apply Hc; lia). cbn [negb]. rewrite !add64_fits by lia. rewrite <- !Z.add_assoc.
    apply IH; [lia|lia|]. intros x. rewrite rd_insert, Hm. destruct (Z.eqb_spec x (dest + k)) as [->|Hx].
    - rewrite (proj2 (andb_true_iff _ _)) by (rewrite Z.leb_le, Z.ltb_lt; lia). f_equal. lia.
    - replace ((dest <=? x) && (x <? dest + (k + 1))) with ((dest <=? x) && (x <? dest + k)); [done|].
      apply eq_true_iff_eq. rewrite !andb_true_iff, !Z.leb_le, !Z.ltb_lt. lia. }
  destruct (G fuel 0 m) as (m' & E & Hm'); [lia|lia| |].
  { intros x. by rewrite (proj2 (andb_false_iff _ _)) by (rewrite Z.leb_gt, Z.ltb_ge; lia). }
  rewrite !Z.add_0_r in E. exists m'. split; [done|]. split.
  - intros i Hi. rewrite Hm', (proj2 (andb_true_iff _ _)) by (rewrite Z.leb_le, Z.ltb_lt; lia). f_equal. lia.
  - by rewrite Hm', (proj2 (andb_false_iff _ _)) by (rewrite Z.leb_gt, Z.ltb_ge; lia).
Qed.
