(* ===== verification/Fifo.v ===== *)
(** * Ring-buffer FIFOs

    Models lib/sbi/sbi_fifo.c.  A fifo object carries its spin lock, so that
    each operation takes and releases it as the code does; a slot of the queue
    memory ([entry_size] bytes) holds one value of the entry type [A], and
    [zero] is the value of a slot filled by [sbi_memset(.., 0, ..)].  A NULL
    fifo or data pointer is [None].  The theorems show that the ring buffer
    implements a bounded queue and that every path releases the lock. *)

From Stdlib Require Import ZArith Lia.
From stdpp Require Import base tactics list gmap numbers.
From S2P Require Import Prelude SbiDefs Locks.

Definition SBI_FIFO_SKIP : Z := 0.
Definition SBI_FIFO_UPDATED : Z := 1.
Definition SBI_FIFO_UNCHANGED : Z := 2.

Record sbi_fifo (A : Type) : Type := Fifo {
  queue : list A;
  qlock : Z;
  entry_size : Z;
  num_entries : Z;
  avail : Z;
  tail : Z;
}.
Arguments Fifo {A}.
Arguments queue {A}.
Arguments qlock {A}.
Arguments entry_size {A}.
Arguments num_entries {A}.
Arguments avail {A}.
Arguments tail {A}.

Section fifo.
Context {A : Type} (zero : A).
#[local] Open Scope sbi_scope.

Definition set_queue (q : list A) (f : sbi_fifo A) : sbi_fifo A :=
  Fifo q (qlock f) (entry_size f) (num_entries f) (avail f) (tail f).
Definition set_qlock (w : Z) (f : sbi_fifo A) : sbi_fifo A :=
  Fifo (queue f) w (entry_size f) (num_entries f) (avail f) (tail f).
Definition set_avail (n : Z) (f : sbi_fifo A) : sbi_fifo A :=
  Fifo (queue f) (qlock f) (entry_size f) (num_entries f) n (tail f).
Definition set_tail (n : Z) (f : sbi_fifo A) : sbi_fifo A :=
  Fifo (queue f) (qlock f) (entry_size f) (num_entries f) (avail f) n.

Definition lock_q : M (sbi_fifo A) unit := zoom qlock set_qlock spin_lock.
Definition unlock_q : M (sbi_fifo A) unit := zoom qlock set_qlock spin_unlock.

(** Run on the object behind a pointer; [d] is returned for NULL. *)
Definition on_ptr {R} (d : R) (m : M (sbi_fifo A) R) : M (option (sbi_fifo A)) R :=
  λ p, match p with
       | None => (Ret d, None)
       | Some f => let '(o, f') := m f in (o, Some f')
       end.

Definition sbi_fifo_init (queue_mem : list A) (entries esize : Z) : sbi_fifo A :=
  Fifo (replicate (Z.to_nat entries) zero ++ drop (Z.to_nat entries) queue_mem)
       SPIN_LOCK_INIT esize entries 0 0.

Definition __sbi_fifo_is_full (f : sbi_fifo A) : bool := avail f =? num_entries f.

Definition sbi_fifo_avail : M (option (sbi_fifo A)) Z :=
  on_ptr 0 (lock_q ;;; r <- gets avail ;; unlock_q ;;; ret r).

Definition sbi_fifo_is_full : M (option (sbi_fifo A)) Z :=
  on_ptr SBI_EINVAL
    (lock_q ;;; r <- gets __sbi_fifo_is_full ;; unlock_q ;;; ret (if r then 1 else 0 : Z)).

Definition __sbi_fifo_enqueue (data : A) (f : sbi_fifo A) : sbi_fifo A :=
  let head := u32 (tail f + avail f) in
  let head := if num_entries f <=? head then u32 (head - num_entries f) else head in
  set_avail (u16 (avail f + 1)) (set_queue (<[Z.to_nat head := data]> (queue f)) f).

Definition __sbi_fifo_is_empty (f : sbi_fifo A) : bool := avail f =? 0.

Definition sbi_fifo_is_empty : M (option (sbi_fifo A)) Z :=
  on_ptr SBI_EINVAL
    (lock_q ;;; r <- gets __sbi_fifo_is_empty ;; unlock_q ;;; ret (if r then 1 else 0 : Z)).

Definition __sbi_fifo_reset (f : sbi_fifo A) : sbi_fifo A :=
  let f := set_tail 0 (set_avail 0 f) in
  set_queue (replicate (Z.to_nat (num_entries f)) zero ++ drop (Z.to_nat (num_entries f)) (queue f)) f.

Definition sbi_fifo_reset : M (option (sbi_fifo A)) bool :=
  on_ptr false (lock_q ;;; modify __sbi_fifo_reset ;;; unlock_q ;;; ret true).

(** The slot of the [i]-th oldest entry. *)
Definition slot_index (f : sbi_fifo A) (i : Z) : Z :=
  let index := tail f + i in
  if num_entries f <=? index then index - num_entries f else index.

(** The [for] loop of sbi_fifo_inplace_update; [n] iterations are left. *)
Fixpoint inplace_loop {I} (fptr : I → A → Z * A) (inp : I) (n : nat) (i rv : Z)
    (f : sbi_fifo A) : Z * sbi_fifo A :=
  match n with
  | O => (rv, f)
  | S n' =>
      let index := slot_index f i in
      let '(rv, entry) := fptr inp (default zero (queue f !! Z.to_nat index)) in
      let f := set_queue (<[Z.to_nat index := entry]> (queue f)) f in
      if (rv =? SBI_FIFO_SKIP) || (rv =? SBI_FIFO_UPDATED) then (rv, f)
      else inplace_loop fptr inp n' (i + 1) rv f
  end.

Definition sbi_fifo_inplace_update {I} (inp : option I) (fptr : I → A → Z * A)
    : M (option (sbi_fifo A)) Z :=
  on_ptr SBI_FIFO_UNCHANGED
    (match inp with
     | None => ret SBI_FIFO_UNCHANGED
     | Some inp =>
         lock_q ;;;
         e <- gets __sbi_fifo_is_empty ;;
         if (e : bool) then unlock_q ;;; ret SBI_FIFO_UNCHANGED
         else
           rv <- (λ f, let '(r, f') := inplace_loop fptr inp (Z.to_nat (avail f)) 0
                                         SBI_FIFO_UNCHANGED f in (Ret r, f')) ;;
           unlock_q ;;; ret rv
     end).

Definition sbi_fifo_enqueue (data : option A) : M (option (sbi_fifo A)) Z :=
  on_ptr SBI_EINVAL
    (match data with
     | None => ret SBI_EINVAL
     | Some d =>
         lock_q ;;;
         full <- gets __sbi_fifo_is_full ;;
         if (full : bool) then unlock_q ;;; ret SBI_ENOSPC
         else modify (__sbi_fifo_enqueue d) ;;; unlock_q ;;; ret 0
     end).

(** The caller's buffer: its address ([None] is NULL) and, on success, the
    entry copied into it. *)
Definition sbi_fifo_dequeue (data : option unit) : M (option (sbi_fifo A)) (Z * option A) :=
  on_ptr (SBI_EINVAL, None)
    (match data with
     | None => ret (SBI_EINVAL, None)
     | Some _ =>
         lock_q ;;;
         empty <- gets __sbi_fifo_is_empty ;;
         if (empty : bool) then unlock_q ;;; ret (SBI_ENOENT, None)
         else
           d <- gets (λ f, default zero (queue f !! Z.to_nat (tail f))) ;;
           modify (λ f, set_avail (u16 (avail f - 1)) f) ;;;
           modify (λ f, set_tail (u16 (tail f + 1)) f) ;;;
           modify (λ f, if num_entries f <=? tail f then set_tail 0 f else f) ;;;
           unlock_q ;;; ret (0, Some d)
     end).

(** ** The bounded queue a fifo stands for *)

Definition contents (f : sbi_fifo A) : list A :=
  map (λ i, default zero (queue f !! Z.to_nat (slot_index f (Z.of_nat i)))) (seq 0 (Z.to_nat (avail f))).

Record ring_wf (f : sbi_fifo A) : Prop := {
  wf_entries : 0 < num_entries f < 2 ^ 16;
  wf_queue : (Z.to_nat (num_entries f) <= length (queue f))%nat;
  wf_avail : 0 <= avail f <= num_entries f;
  wf_tail : 0 <= tail f < num_entries f;
}.

(** A fifo that no hart is using: the ring is well formed and the lock is free. *)
Definition fifo_wf (f : sbi_fifo A) : Prop := ring_wf f /\ lock_free (qlock f).

(** The reference in-place update of a list, oldest entry first. *)
Fixpoint update_spec {I} (fptr : I → A → Z * A) (inp : I) (rv : Z) (l : list A) : Z * list A :=
  match l with
  | [] => (rv, [])
  | x :: l' =>
      let '(r, y) := fptr inp x in
      if (r =? SBI_FIFO_SKIP) || (r =? SBI_FIFO_UPDATED) then (r, y :: l')
      else let '(r', k) := update_spec fptr inp r l' in (r', y :: k)
  end.
End fifo.

(** ** The ring *)

Section facts.
Context {A : Type} (zero : A).
#[local] Open Scope sbi_scope.
Implicit Types f : sbi_fifo A.

Lemma slot_index_range f i :
  ring_wf f -> 0 <= i < num_entries f -> 0 <= slot_index f i < num_entries f.
Proof.
  intros W Hi. destruct W as [? ? ? ?]. unfold slot_index. case_if; zbool; lia.
Qed.

Lemma slot_index_inj f i j :
  ring_wf f -> 0 <= i < num_entries f -> 0 <= j < num_entries f ->
  slot_index f i = slot_index f j -> i = j.
Proof.
  intros W Hi Hj. destruct W as [? ? ? ?]. unfold slot_index. repeat case_if; zbool; lia.
Qed.

Lemma length_contents f : length (contents zero f) = Z.to_nat (avail f).
Proof. unfold contents. by rewrite length_map, length_seq. Qed.

Lemma contents_lookup f (i : nat) :
  Z.of_nat i < avail f ->
  contents zero f !! i = Some (default zero (queue f !! Z.to_nat (slot_index f (Z.of_nat i)))).
Proof.
  intros Hi. unfold contents. rewrite list_lookup_fmap, lookup_seq_lt by lia. done.
Qed.

Lemma queue_slot f i :
  ring_wf f -> 0 <= i < num_entries f -> (Z.to_nat (slot_index f i) < length (queue f))%nat.
Proof. intros W Hi. pose proof (slot_index_range f i W Hi). pose proof (wf_queue _ W). lia. Qed.

(** Two fifos of the same shape with the same slots have the same contents. *)
Lemma contents_ext f l :
  length l = Z.to_nat (avail f) ->
  (forall i : nat, Z.of_nat i < avail f ->
     l !! i = Some (default zero (queue f !! Z.to_nat (slot_index f (Z.of_nat i))))) ->
  contents zero f = l.
Proof.
  intros Hlen H. apply list_eq. intros i.
  destruct (decide (Z.of_nat i < avail f)).
  - rewrite contents_lookup, H by done. done.
  - rewrite !lookup_ge_None_2; [done|lia|rewrite length_contents; lia].
Qed.

Lemma enqueue_head f :
  ring_wf f -> avail f < num_entries f ->
  (let head := u32 (tail f + avail f) in
   if num_entries f <=? head then u32 (head - num_entries f) else head) = slot_index f (avail f).
Proof.
  intros W Ha. destruct W as [? ? ? ?]. unfold slot_index, u32.
  rewrite (Z.mod_small (tail f + avail f)) by lia. cbv zeta.
  case_if; zbool; [|done]. apply Z.mod_small. lia.
Qed.

Lemma enqueue_contents f d :
  ring_wf f -> avail f < num_entries f ->
  ring_wf (__sbi_fifo_enqueue d f) /\
  contents zero (__sbi_fifo_enqueue d f) = contents zero f ++ [d] /\
  num_entries (__sbi_fifo_enqueue d f) = num_entries f /\ qlock (__sbi_fifo_enqueue d f) = qlock f.
Proof.
  intros W Ha. pose proof (enqueue_head f W Ha) as Hh. cbv zeta in Hh.
  unfold __sbi_fifo_enqueue. rewrite Hh.
  pose proof W as [W1 W2 W3 W4]. pose proof (queue_slot f (avail f) W ltac:(lia)) as Hs.
  assert (Hu : u16 (avail f + 1) = avail f + 1) by (apply Z.mod_small; lia). rewrite Hu.
  split; [|split; [|done]].
  - split; cbn; rewrite ?length_insert; (done || lia).
  - apply contents_ext; cbn.
    + rewrite length_app, length_contents. cbn. lia.
    + intros i Hi. change (slot_index (set_avail _ _) _) with (slot_index f (Z.of_nat i)).
      destruct (decide (Z.of_nat i = avail f)) as [He|Hne].
      * rewrite He, list_lookup_insert_eq by done. cbn.
        rewrite lookup_app_r by (rewrite length_contents; lia).
        rewrite length_contents. by replace (i - Z.to_nat (avail f))%nat with 0%nat by lia.
      * rewrite lookup_app_l by (rewrite length_contents; lia).
        rewrite contents_lookup by lia. f_equal. rewrite list_lookup_insert_ne; [done|].
        intros He. apply Hne. symmetry. apply (slot_index_inj f); try lia; [done|].
        pose proof (slot_index_range f (avail f) W ltac:(lia)).
        pose proof (slot_index_range f (Z.of_nat i) W ltac:(lia)). lia.
Qed.

(** The three field updates of a dequeue. *)
Definition advance f : sbi_fifo A :=
  let f := set_tail (u16 (tail f + 1)) (set_avail (u16 (avail f - 1)) f) in
  if num_entries f <=? tail f then set_tail 0 f else f.

Lemma advance_contents f x l :
  ring_wf f -> contents zero f = x :: l ->
  ring_wf (advance f) /\ default zero (queue f !! Z.to_nat (tail f)) = x /\
  contents zero (advance f) = l /\ num_entries (advance f) = num_entries f /\
  qlock (advance f) = qlock f.
Proof.
  intros W Hc. pose proof W as [W1 W2 W3 W4].
  assert (Hlen : avail f = Z.of_nat (S (length l))).
  { pose proof (length_contents f) as Hl. rewrite Hc in Hl. cbn in Hl. lia. }
  assert (Hx : default zero (queue f !! Z.to_nat (tail f)) = x).
  { pose proof (contents_lookup f 0 ltac:(lia)) as H0. rewrite Hc in H0. cbn in H0.
    unfold slot_index in H0. rewrite Z.add_0_r in H0.
    destruct (num_entries f <=? tail f) eqn:E; zbool; [lia|]. by simplify_eq. }
  assert (Ha : u16 (avail f - 1) = avail f - 1) by (apply Z.mod_small; lia).
  assert (Ht : u16 (tail f + 1) = tail f + 1) by (apply Z.mod_small; lia).
  unfold advance. rewrite Ha, Ht. cbn [num_entries tail set_tail set_avail].
  assert (Hl : forall (i : nat) t, (t = tail f + 1 /\ t < num_entries f \/ t = 0 /\ tail f + 1 = num_entries f) ->
    Z.of_nat i < avail f - 1 ->
    l !! i = Some (default zero (queue f !! Z.to_nat
      (if num_entries f <=? t + Z.of_nat i then t + Z.of_nat i - num_entries f else t + Z.of_nat i)))).
  { intros i t Ht' Hi. pose proof (contents_lookup f (S i) ltac:(lia)) as Hs.
    rewrite Hc, lookup_cons in Hs.
    rewrite Hs. do 4 f_equal. unfold slot_index.
    repeat case_if; zbool; lia. }
  case_if; zbool.
  - split; [split; cbn; (done || lia)|]. split; [done|]. split; [|done].
    apply contents_ext; cbn; [lia|]. intros i Hi. apply (Hl i 0); [right; lia|done].
  - split; [split; cbn; (done || lia)|]. split; [done|]. split; [|done].
    apply contents_ext; cbn; [lia|]. intros i Hi. apply (Hl i (tail f + 1)); [left; lia|done].
Qed.

(** Writing the slot of entry [i] updates the queue at [i]. *)
Lemma update_slot f (i : nat) y :
  ring_wf f -> Z.of_nat i < avail f ->
  let f' := set_queue (<[Z.to_nat (slot_index f (Z.of_nat i)) := y]> (queue f)) f in
  ring_wf f' /\ contents zero f' = <[i := y]> (contents zero f).
Proof.
  intros W Hi. pose proof W as [W1 W2 W3 W4].
  pose proof (queue_slot f (Z.of_nat i) W ltac:(lia)) as Hs. cbv zeta. split.
  - split; cbn; rewrite ?length_insert; done.
  - apply contents_ext; cbn; [by rewrite length_insert, length_contents|].
    intros j Hj. change (slot_index (set_queue _ _) _) with (slot_index f (Z.of_nat j)).
    destruct (decide (i = j)) as [->|Hne].
    + rewrite !list_lookup_insert_eq by (done || rewrite length_contents; lia). done.
    + rewrite list_lookup_insert_ne, contents_lookup by done. f_equal.
      rewrite list_lookup_insert_ne; [done|]. intros He. apply Hne.
      pose proof (slot_index_range f (Z.of_nat i) W ltac:(lia)).
      pose proof (slot_index_range f (Z.of_nat j) W ltac:(lia)).
      apply Nat2Z.inj, (slot_index_inj f); (done || lia).
Qed.

Lemma inplace_loop_spec {I} (fptr : I → A → Z * A) inp n i rv f r f' :
  ring_wf f -> Z.of_nat i + Z.of_nat n = avail f ->
  inplace_loop zero fptr inp n (Z.of_nat i) rv f = (r, f') ->
  ring_wf f' /\ num_entries f' = num_entries f /\ qlock f' = qlock f /\
  (r, contents zero f') =
    (let '(r, k) := update_spec fptr inp rv (drop i (contents zero f)) in
     (r, take i (contents zero f) ++ k)).
Proof.
  revert i rv f. induction n as [|n IH]; intros i rv f W Hn Hl; cbn [inplace_loop] in Hl.
  - simplify_eq. rewrite drop_ge, take_ge by (rewrite length_contents; lia). cbn.
    by rewrite app_nil_r.
  - pose proof (contents_lookup f i ltac:(lia)) as Hi.
    rewrite (drop_S _ _ _ Hi). cbn [update_spec].
    set (x := default zero (queue f !! Z.to_nat (slot_index f (Z.of_nat i)))) in *.
    destruct (fptr inp x) as [rx y].
    destruct (update_slot f i y W ltac:(lia)) as [W' Hc].
    set (f1 := set_queue (<[Z.to_nat (slot_index f (Z.of_nat i)) := y]> (queue f)) f) in *.
    pose proof (lookup_lt_Some _ _ _ Hi) as Hlt.
    assert (Htake : take (S i) (contents zero f1) = take i (contents zero f) ++ [y]).
    { rewrite Hc. rewrite (take_S_r _ _ y) by by apply list_lookup_insert_eq.
      by rewrite take_insert_ge. }
    assert (Hdrop : drop (S i) (contents zero f1) = drop (S i) (contents zero f)).
    { rewrite Hc. by rewrite drop_insert_lt by lia. }
    destruct ((rx =? SBI_FIFO_SKIP) || (rx =? SBI_FIFO_UPDATED)).
    + injection Hl as <- <-. split_and!; try done. f_equal.
      rewrite <- (take_drop (S i) (contents zero f1)), Htake, Hdrop.
      by rewrite <- app_assoc.
    + replace (Z.of_nat i + 1) with (Z.of_nat (S i)) in Hl by lia.
      destruct (IH (S i) rx f1 W' ltac:(cbn; lia) Hl) as (H1 & H2 & H3 & H4).
      split_and!; try done. rewrite H4, Htake, Hdrop.
      destruct (update_spec fptr inp rx (drop (S i) (contents zero f))) as [r' k].
      by rewrite <- app_assoc.
Qed.

(** ** Under the lock *)

(** Entering and leaving the critical section of a free fifo. *)
Lemma lock_enter {R} f (body : M (sbi_fifo A) R) :
  fifo_wf f ->
  exists w, (lock_q ;;; body) f = body (set_qlock w f) /\ lock_free (snd (spin_unlock w)) /\
  ring_wf (set_qlock w f) /\ contents zero (set_qlock w f) = contents zero f.
Proof.
  intros [W L]. destruct (spin_lock_free _ L) as (w & Hl & Hf). exists w.
  split; [|split; [done|split; [by destruct W|done]]].
  unfold bind, lock_q, zoom. by rewrite Hl.
Qed.

Lemma lock_leave {R} f (r : R) :
  ring_wf f -> lock_free (snd (spin_unlock (qlock f))) ->
  exists f', (unlock_q ;;; ret r) f = (Ret r, f') /\ fifo_wf f' /\
  contents zero f' = contents zero f /\ num_entries f' = num_entries f.
Proof.
  intros W L. eexists. split; [done|]. split; [|done]. split; [by destruct W|done].
Qed.

Lemma is_full_contents f :
  ring_wf f -> __sbi_fifo_is_full f = bool_decide (Z.of_nat (length (contents zero f)) = num_entries f).
Proof.
  intros [? ? ? ?]. unfold __sbi_fifo_is_full. rewrite length_contents.
  case_bool_decide; [apply Z.eqb_eq|apply Z.eqb_neq]; lia.
Qed.

Lemma is_empty_contents f :
  ring_wf f -> __sbi_fifo_is_empty f = bool_decide (contents zero f = []).
Proof.
  intros [? ? ? ?]. unfold __sbi_fifo_is_empty. pose proof (length_contents f).
  case_bool_decide as E; [rewrite E in *; apply Z.eqb_eq; cbn in *; lia|].
  apply Z.eqb_neq. intros H0. apply E, length_zero_iff_nil. lia.
Qed.

Lemma enqueue_run f d :
  fifo_wf f ->
  exists r f', sbi_fifo_enqueue (Some d) (Some f) = (Ret r, Some f') /\ fifo_wf f' /\
  num_entries f' = num_entries f /\
  if decide (Z.of_nat (length (contents zero f)) < num_entries f)
  then r = 0 /\ contents zero f' = contents zero f ++ [d]
  else r = SBI_ENOSPC /\ contents zero f' = contents zero f.
Proof.
  intros W. unfold sbi_fifo_enqueue, on_ptr.
  match goal with |- context [bind lock_q (λ _, ?b)] =>
    destruct (lock_enter f b W) as (w & Hrun & Lw & Wr & Hc) end.
  rewrite Hrun. clear Hrun. cbn [bind gets]. rewrite is_full_contents, Hc by done.
  assert (Hle : Z.of_nat (length (contents zero f)) <= num_entries f).
  { destruct W as [[? ? ? ?] _]. rewrite length_contents. lia. }
  cbn [num_entries set_qlock].
  case_bool_decide as Hfull; case_decide as Hlt; try lia.
  - destruct (lock_leave (set_qlock w f) SBI_ENOSPC Wr Lw) as (f' & Hr & Hf & Hcf & Hnf).
    rewrite Hr. exists SBI_ENOSPC, f'. rewrite Hcf, Hnf. done.
  - rewrite length_contents in Hlt. pose proof (wf_avail _ (proj1 W)).
    destruct (enqueue_contents (set_qlock w f) d Wr) as (E1 & E2 & E3 & E4); [cbn; lia|].
    destruct (lock_leave (__sbi_fifo_enqueue d (set_qlock w f)) 0 E1 ltac:(by rewrite E4)) as (f' & Hr & Hf & Hcf & Hnf).
    cbn [bind modify]. unfold bind, modify in Hr |- *. rewrite Hr.
    exists 0, f'. rewrite Hcf, Hnf, E2, E3, Hc. done.
Qed.

Lemma dequeue_run f :
  fifo_wf f ->
  exists r o f', sbi_fifo_dequeue zero (Some tt) (Some f) = (Ret (r, o), Some f') /\ fifo_wf f' /\
  num_entries f' = num_entries f /\
  match contents zero f with
  | [] => r = SBI_ENOENT /\ o = None /\ contents zero f' = []
  | x :: l => r = 0 /\ o = Some x /\ contents zero f' = l
  end.
Proof.
  intros W. unfold sbi_fifo_dequeue, on_ptr.
  match goal with |- context [bind lock_q (λ _, ?b)] =>
    destruct (lock_enter f b W) as (w & Hrun & Lw & Wr & Hc) end.
  rewrite Hrun. clear Hrun. cbn [bind gets]. rewrite is_empty_contents by done.
  destruct (contents zero f) as [|x l] eqn:E; rewrite Hc.
  - rewrite bool_decide_eq_true_2 by done.
    destruct (lock_leave (set_qlock w f) (SBI_ENOENT, None : option A) Wr Lw) as (f' & Hr & Hf & Hcf & Hnf).
    rewrite Hr. exists SBI_ENOENT, None, f'. rewrite Hcf, Hnf, Hc. done.
  - rewrite bool_decide_eq_false_2 by done.
    destruct (advance_contents (set_qlock w f) x l Wr Hc) as (A1 & A2 & A3 & A4 & A5).
    destruct (lock_leave (advance (set_qlock w f)) (0, Some x) A1 ltac:(by rewrite A5)) as (f' & Hr & Hf & Hcf & Hnf).
    exists 0, (Some x), f'. split; [|by rewrite Hcf, Hnf, A3, A4].
    rewrite <- A2 in Hr.
    change ((let '(o, f') := (unlock_q ;;; ret (0, Some (default zero (queue (set_qlock w f)
      !! Z.to_nat (tail (set_qlock w f)))))) (advance (set_qlock w f)) in (o, Some f')) =
      (Ret (0, Some x), Some f')).
    by rewrite Hr, A2.
Qed.

Lemma inplace_run {I} (fptr : I → A → Z * A) inp f :
  fifo_wf f ->
  exists r f', sbi_fifo_inplace_update zero (Some inp) fptr (Some f) = (Ret r, Some f') /\
  fifo_wf f' /\ num_entries f' = num_entries f /\
  (r, contents zero f') = update_spec fptr inp SBI_FIFO_UNCHANGED (contents zero f).
Proof.
  intros W. unfold sbi_fifo_inplace_update, on_ptr.
  match goal with |- context [bind lock_q (λ _, ?b)] =>
    destruct (lock_enter f b W) as (w & Hrun & Lw & Wr & Hc) end.
  rewrite Hrun. clear Hrun. cbn [bind gets]. rewrite is_empty_contents by done. rewrite Hc.
  case_bool_decide as E.
  - destruct (lock_leave (set_qlock w f) SBI_FIFO_UNCHANGED Wr Lw) as (f' & Hr & Hf & Hcf & Hnf).
    rewrite Hr. exists SBI_FIFO_UNCHANGED, f'. rewrite Hcf, Hnf, Hc, E. done.
  - unfold bind at 1. cbn [gets].
    destruct (inplace_loop zero fptr inp _ 0 SBI_FIFO_UNCHANGED (set_qlock w f)) as [r f1] eqn:El.
    destruct (inplace_loop_spec fptr inp (Z.to_nat (avail (set_qlock w f))) 0 SBI_FIFO_UNCHANGED
                (set_qlock w f) r f1 Wr) as (H1 & H2 & H3 & H4).
    { pose proof (wf_avail _ Wr). lia. }
    { exact El. }
    destruct (lock_leave f1 r H1 ltac:(by rewrite H3)) as (f' & Hr & Hf & Hcf & Hnf).
    rewrite Hr. exists r, f'. split; [done|]. split; [done|]. rewrite Hcf, Hnf, H2, H4, Hc.
    split; [done|]. rewrite drop_0. by destruct (update_spec _ _ _ _).
Qed.
Lemma query_run {R S} f (g : sbi_fifo A → S) (h : S → R) :
  fifo_wf f ->
  exists f', (lock_q ;;; r <- gets g ;; unlock_q ;;; ret (h r)) f =
             (Ret (h (g (set_qlock (u32 (qlock f + inc)) f))), f') /\
  fifo_wf f' /\ num_entries f' = num_entries f /\ contents zero f' = contents zero f.
Proof.
  intros W. destruct W as [W L]. destruct (spin_lock_free _ L) as (w & Hl & Hf).
  pose proof Hl as Hl'. unfold spin_lock in Hl'. case_if_in Hl'; [|done].
  eexists. unfold bind at 1. unfold lock_q at 1, zoom. rewrite Hl.
  injection Hl' as <-. split; [reflexivity|].
  split; [split; [by destruct W|exact Hf]|done].
Qed.

Lemma contents_reset f :
  ring_wf f -> ring_wf (__sbi_fifo_reset zero f) /\ contents zero (__sbi_fifo_reset zero f) = [].
Proof.
  intros [? ? ? ?]. split; [|done]. split; cbn; try lia.
  rewrite length_app, length_replicate. lia.
Qed.

Lemma reset_run f :
  fifo_wf f ->
  exists f', sbi_fifo_reset zero (Some f) = (Ret true, Some f') /\ fifo_wf f' /\
  num_entries f' = num_entries f /\ contents zero f' = [].
Proof.
  intros W. unfold sbi_fifo_reset, on_ptr.
  match goal with |- context [bind lock_q (λ _, ?b)] =>
    destruct (lock_enter f b W) as (w & Hrun & Lw & Wr & Hc) end.
  rewrite Hrun. destruct (contents_reset (set_qlock w f) Wr) as [H1 H2].
  destruct (lock_leave (__sbi_fifo_reset zero (set_qlock w f)) true H1 Lw) as (f' & Hr & Hf & Hcf & Hnf).
  exists f'. split; [|by rewrite Hcf, Hnf].
  change ((let '(o, f') := (unlock_q ;;; ret true) (__sbi_fifo_reset zero (set_qlock w f)) in
    (o, Some f')) = (Ret true, Some f')). by rewrite Hr.
Qed.
End facts.

(** ** Sequences of operations *)

(** The operations of sbi_fifo.h, with an in-place update by callback [fptr]. *)
Inductive fifo_op (A I : Type) : Type :=
| op_enqueue (d : A)
| op_dequeue
| op_update (inp : I)
| op_avail
| op_is_full
| op_is_empty
| op_reset.
Arguments op_enqueue {A I}.
Arguments op_dequeue {A I}.
Arguments op_update {A I}.
Arguments op_avail {A I}.
Arguments op_is_full {A I}.
Arguments op_is_empty {A I}.
Arguments op_reset {A I}.

(** What a caller sees: the returned integer and the dequeued entry. *)
Definition fifo_step {A I} (zero : A) (fptr : I → A → Z * A) (op : fifo_op A I)
    : M (option (sbi_fifo A)) (Z * option A) :=
  (match op with
   | op_enqueue d => r <- sbi_fifo_enqueue (Some d) ;; ret (r, None)
   | op_dequeue => sbi_fifo_dequeue zero (Some tt)
   | op_update i => r <- sbi_fifo_inplace_update zero (Some i) fptr ;; ret (r, None)
   | op_avail => r <- sbi_fifo_avail ;; ret (r, None)
   | op_is_full => r <- sbi_fifo_is_full ;; ret (r, None)
   | op_is_empty => r <- sbi_fifo_is_empty ;; ret (r, None)
   | op_reset => r <- sbi_fifo_reset zero ;; ret (if (r : bool) then 1 else 0, None)
   end)%sbi.

(** The abstract bounded queue of capacity [n]. *)
Definition queue_step {A I} (fptr : I → A → Z * A) (n : Z) (op : fifo_op A I) (l : list A)
    : (Z * option A) * list A :=
  match op with
  | op_enqueue d => if decide (Z.of_nat (length l) < n) then ((0, None), l ++ [d])
                    else ((SBI_ENOSPC, None), l)
  | op_dequeue => match l with [] => ((SBI_ENOENT, None), []) | x :: l' => ((0, Some x), l') end
  | op_update i => let '(r, l') := update_spec fptr i SBI_FIFO_UNCHANGED l in ((r, None), l')
  | op_avail => ((Z.of_nat (length l), None), l)
  | op_is_full => ((if bool_decide (Z.of_nat (length l) = n) then 1 else 0, None), l)
  | op_is_empty => ((if bool_decide (l = []) then 1 else 0, None), l)
  | op_reset => ((1, None), [])
  end.

Fixpoint fifo_run {A I} (zero : A) (fptr : I → A → Z * A) (ops : list (fifo_op A I))
    : M (option (sbi_fifo A)) (list (Z * option A)) :=
  (match ops with
   | [] => ret []
   | op :: ops' => r <- fifo_step zero fptr op ;; rs <- fifo_run zero fptr ops' ;; ret (r :: rs)
   end)%sbi.

Fixpoint queue_run {A I} (fptr : I → A → Z * A) (n : Z) (ops : list (fifo_op A I)) (l : list A)
    : list (Z * option A) * list A :=
  match ops with
  | [] => ([], l)
  | op :: ops' =>
      let '(r, l1) := queue_step fptr n op l in
      let '(rs, l2) := queue_run fptr n ops' l1 in (r :: rs, l2)
  end.

Lemma fifo_step_refines {A I} (zero : A) (fptr : I → A → Z * A) op f :
  fifo_wf f ->
  exists f', fifo_step zero fptr op (Some f) =
    (Ret (fst (queue_step fptr (num_entries f) op (contents zero f))), Some f') /\
  fifo_wf f' /\ num_entries f' = num_entries f /\
  contents zero f' = snd (queue_step fptr (num_entries f) op (contents zero f)).
Proof.
  intros W. destruct op as [d| |i| | | |]; unfold fifo_step, queue_step, bind.
  - destruct (enqueue_run zero f d W) as (r & f' & Hr & Hw & Hn & Hc). rewrite Hr.
    exists f'. case_decide; destruct Hc as [-> ->]; done.
  - destruct (dequeue_run zero f W) as (r & o & f' & Hr & Hw & Hn & Hc). rewrite Hr.
    exists f'. destruct (contents zero f); destruct Hc as (-> & -> & ->); done.
  - destruct (inplace_run zero fptr i f W) as (r & f' & Hr & Hw & Hn & Hc). rewrite Hr.
    exists f'. rewrite <- Hc. done.
  - destruct (query_run zero f avail (λ r, r) W) as (f' & Hr & Hw & Hn & Hc).
    unfold sbi_fifo_avail, on_ptr. rewrite Hr. exists f'. pose proof (wf_avail _ (proj1 W)).
    rewrite length_contents, Z2Nat.id by lia. done.
  - destruct (query_run zero f __sbi_fifo_is_full (λ r : bool, if r then 1 else 0) W)
      as (f' & Hr & Hw & Hn & Hc).
    unfold sbi_fifo_is_full, on_ptr. rewrite Hr. exists f'. split_and!; try done. cbn.
    by rewrite <- (is_full_contents zero f (proj1 W)).
  - destruct (query_run zero f __sbi_fifo_is_empty (λ r : bool, if r then 1 else 0) W)
      as (f' & Hr & Hw & Hn & Hc).
    unfold sbi_fifo_is_empty, on_ptr. rewrite Hr. exists f'. split_and!; try done. cbn.
    by rewrite <- (is_empty_contents zero f (proj1 W)).
  - destruct (reset_run zero f W) as (f' & Hr & Hw & Hn & Hc). rewrite Hr. by exists f'.
Qed.

Lemma fifo_run_refines {A I} (zero : A) (fptr : I → A → Z * A) ops f :
  fifo_wf f ->
  exists f', fifo_run zero fptr ops (Some f) =
    (Ret (fst (queue_run fptr (num_entries f) ops (contents zero f))), Some f') /\ fifo_wf f' /\
  contents zero f' = snd (queue_run fptr (num_entries f) ops (contents zero f)).
Proof.
  revert f. induction ops as [|op ops IH]; intros f W; [by exists f|].
  cbn [fifo_run queue_run]. unfold bind.
  destruct (fifo_step_refines zero fptr op f W) as (f1 & H1 & W1 & N1 & C1). rewrite H1.
  destruct (queue_step fptr (num_entries f) op (contents zero f)) as [r l1]. cbn in C1. subst l1.
  destruct (IH f1 W1) as (f2 & H2 & W2 & C2). rewrite H2, N1 in *.
  destruct (queue_run fptr (num_entries f) ops (contents zero f1)). by exists f2.
Qed.

Lemma fifo_init_wf {A} (zero : A) mem entries esize :
  0 < entries < 2 ^ 16 ->
  fifo_wf (sbi_fifo_init zero mem entries esize) /\ contents zero (sbi_fifo_init zero mem entries esize) = [].
Proof.
  intros He. split; [|done]. split; [|apply lock_free_init].
  split; cbn; try lia. rewrite length_app, length_replicate. lia.
Qed.

(** [C34] Refinement: started by sbi_fifo_init with any memory and a number of
    entries that fits in 16 bits, every sequence of enqueue, dequeue, in-place
    update, reset and query calls returns exactly what a bounded FIFO queue
    returns (SBI_ENOSPC when full and SBI_ENOENT when empty included), never
    blocks on its lock, and leaves the lock free. *)
Theorem sbi_fifo_refines_queue {A I} (zero : A) (fptr : I → A → Z * A) mem entries esize ops :
  0 < entries < 2 ^ 16 ->
  exists f', fifo_run zero fptr ops (Some (sbi_fifo_init zero mem entries esize)) =
    (Ret (fst (queue_run fptr entries ops [])), Some f') /\
  contents zero f' = snd (queue_run fptr entries ops []) /\ lock_free (qlock f').
Proof.
  intros He. destruct (fifo_init_wf zero mem entries esize He) as [W C].
  destruct (fifo_run_refines zero fptr ops _ W) as (f' & H & W' & C'). rewrite C in *.
  exists f'. split; [exact H|]. split; [exact C'|apply W'].
Qed.

Lemma sbi_fifo_refines_queue_witness :
  exists f', fifo_run 0 (λ i x : Z, (SBI_FIFO_UNCHANGED, x))
    [op_enqueue 7; op_enqueue 8; op_enqueue 9; op_dequeue; op_is_full]
    (Some (sbi_fifo_init 0 [0; 0] 2 8)) =
    (Ret [(0, None); (0, None); (SBI_ENOSPC, None); (0, Some 7); (0, None)], Some f') /\
  contents 0 f' = [8] /\ lock_free (qlock f').
Proof.
  exact (sbi_fifo_refines_queue 0 (λ i x : Z, (SBI_FIFO_UNCHANGED, x)) [0; 0] 2 8
    [op_enqueue 7; op_enqueue 8; op_enqueue 9; op_dequeue; op_is_full] ltac:(lia)).
Defined.
