(* ===== verification/Scratch.v ===== *)
(** * Platform hart numbering and the per-hart scratch space

    Models sbi_platform_hart_index (lib/sbi/sbi_platform.c),
    sbi_platform_hart_invalid (include/sbi/sbi_platform.h) and
    lib/sbi/sbi_scratch.c.  A scratch area is its list of bytes; the function
    stored in [scratch->hartid_to_scratch] by the firmware's assembly entry is
    the parameter [h2s].  The theorems show that the bump allocator hands out
    disjoint, aligned, zeroed ranges inside every scratch area. *)

From Stdlib Require Import ZArith Lia.
From stdpp Require Import base tactics list gmap numbers.
From S2P Require Import Prelude SbiDefs Bitops Locks.

(** ** struct sbi_platform (the fields the library core reads) *)

Record sbi_platform : Type := Platform {
  hart_count : Z;
  hart_index2id : option (list Z);
}.

Fixpoint index_of (ids : list Z) (hartid i : Z) : Z :=
  match ids with
  | [] => u32 (-1)
  | x :: ids' => if x =? hartid then i else index_of ids' hartid (i + 1)
  end.

Definition sbi_platform_hart_index (plat : option sbi_platform) (hartid : Z) : Z :=
  match plat with
  | None => u32 (-1)
  | Some p =>
      match hart_index2id p with
      | Some ids => index_of (take (Z.to_nat (hart_count p)) ids) hartid 0
      | None => hartid
      end
  end.

Definition sbi_platform_hart_invalid (plat : option sbi_platform) (hartid : Z) : bool :=
  match plat with
  | None => true
  | Some p => hart_count p <=? sbi_platform_hart_index plat hartid
  end.

(** ** The scratch space *)

Definition SIZEOF_POINTER : Z := 8.
Definition SBI_SCRATCH_EXTRA_SPACE_OFFSET : Z := 11 * SIZEOF_POINTER.
Definition SBI_SCRATCH_SIZE : Z := 0x1000.

Record scratch_state : Type := ScratchState {
  last_hartid_having_scratch : Z;
  hartid_to_scratch_table : list (option (list Z));   (* bytes of each area *)
  extra_lock : Z;
  extra_offset : Z;
}.

Definition scratch_initial : scratch_state :=
  ScratchState (SBI_HARTMASK_MAX_BITS - 1) (replicate 128 None) SPIN_LOCK_INIT
    SBI_SCRATCH_EXTRA_SPACE_OFFSET.

Definition sbi_hartid_to_scratch (s : scratch_state) (h : Z) : option (list Z) :=
  mjoin (hartid_to_scratch_table s !! Z.to_nat h).

Definition set_extra_lock (w : Z) (s : scratch_state) : scratch_state :=
  ScratchState (last_hartid_having_scratch s) (hartid_to_scratch_table s) w (extra_offset s).
Definition set_extra_offset (o : Z) (s : scratch_state) : scratch_state :=
  ScratchState (last_hartid_having_scratch s) (hartid_to_scratch_table s) (extra_lock s) o.
Definition set_table (t : list (option (list Z))) (s : scratch_state) : scratch_state :=
  ScratchState (last_hartid_having_scratch s) t (extra_lock s) (extra_offset s).
Definition set_last (h : Z) (s : scratch_state) : scratch_state :=
  ScratchState h (hartid_to_scratch_table s) (extra_lock s) (extra_offset s).

(** One iteration of the loop of sbi_scratch_init. *)
Definition scratch_init_body (plat : option sbi_platform) (h2s : Z → Z → option (list Z))
    (s : scratch_state) (i : Z) : scratch_state :=
  if sbi_platform_hart_invalid plat i then s
  else
    let r := h2s i (sbi_platform_hart_index plat i) in
    let s := set_table (<[Z.to_nat i := r]> (hartid_to_scratch_table s)) s in
    match r with Some _ => set_last i s | None => s end.

Definition sbi_scratch_init (plat : option sbi_platform) (h2s : Z → Z → option (list Z))
    : M scratch_state Z :=
  λ s, (Ret 0, foldl (scratch_init_body plat h2s) s (seqZ 0 SBI_HARTMASK_MAX_BITS)).

(** [sbi_memset(ptr, 0, size)] at [off] in an area. *)
Definition zero_range (off size : Z) (area : list Z) : list Z :=
  take (Z.to_nat off) area ++ replicate (Z.to_nat size) 0 ++ drop (Z.to_nat (off + size)) area.

(** One iteration of the clearing loop of sbi_scratch_alloc_offset. *)
Definition alloc_clear_body (off size : Z) (s : scratch_state) (i : Z) : scratch_state :=
  match sbi_hartid_to_scratch s i with
  | None => s
  | Some area =>
      set_table (<[Z.to_nat i := Some (zero_range off size area)]> (hartid_to_scratch_table s)) s
  end.

(** [size] rounded up to the pointer size. *)
Definition alloc_round (size : Z) : Z :=
  if truthy (Z.land size (SIZEOF_POINTER - 1))
  then add64 (Z.land size (not64 (SIZEOF_POINTER - 1))) SIZEOF_POINTER else size.

Definition sbi_scratch_alloc_offset (size : Z) : M scratch_state Z :=
  if size =? 0 then ret 0
  else
    (let size := alloc_round size in
     zoom extra_lock set_extra_lock spin_lock ;;;
     rv <- (λ s, if SBI_SCRATCH_SIZE <? add64 (extra_offset s) size then (Ret 0, s)
                 else (Ret (extra_offset s), set_extra_offset (add64 (extra_offset s) size) s)) ;;
     zoom extra_lock set_extra_lock spin_unlock ;;;
     (if truthy rv then
        modify (λ s, foldl (alloc_clear_body rv size) s
                       (seqZ 0 (last_hartid_having_scratch s + 1)))
      else ret tt) ;;;
     ret rv)%sbi.

Definition sbi_scratch_free_offset (offset : Z) : M scratch_state unit :=
  if (offset <? SBI_SCRATCH_EXTRA_SPACE_OFFSET) || (SBI_SCRATCH_SIZE <=? offset)
  then ret tt else ret tt.

(** ** Specification of the allocator *)

Record scratch_wf (s : scratch_state) : Prop := {
  wf_offset : SBI_SCRATCH_EXTRA_SPACE_OFFSET <= extra_offset s <= SBI_SCRATCH_SIZE;
  wf_aligned : extra_offset s mod SIZEOF_POINTER = 0;
  wf_extra_lock : lock_free (extra_lock s);
  wf_table : length (hartid_to_scratch_table s) = 128%nat;
  wf_areas : forall (h : nat) a, hartid_to_scratch_table s !! h = Some (Some a) ->
    Z.of_nat (length a) = SBI_SCRATCH_SIZE /\ Z.of_nat h <= last_hartid_having_scratch s;
  wf_last : 0 <= last_hartid_having_scratch s < 128;
}.

(** A run of allocations: the ranges handed out, in order. *)
Fixpoint alloc_many (sizes : list Z) : M scratch_state (list (Z * Z)) :=
  (match sizes with
   | [] => ret []
   | size :: sizes' =>
       o <- sbi_scratch_alloc_offset size ;;
       r <- alloc_many sizes' ;;
       ret (if o =? 0 then r else (o, size) :: r)
   end)%sbi.

(** Ranges in increasing order, each starting where the previous one ended or later. *)
Fixpoint ranges_ok (lo : Z) (l : list (Z * Z)) : Prop :=
  match l with
  | [] => True
  | (o, size) :: l' =>
      lo <= o /\ o mod SIZEOF_POINTER = 0 /\ o + size <= SBI_SCRATCH_SIZE /\ ranges_ok (o + size) l'
  end.

Definition roundup8 (size : Z) : Z := (size + 7) / 8 * 8.

(** ** Lemmas *)

Lemma alloc_round_spec size : 0 < size <= 2 ^ 63 -> alloc_round size = roundup8 size.
Proof.
  intros Hs. unfold alloc_round, roundup8, SIZEOF_POINTER.
  change (8 - 1) with (2 ^ 3 - 1) at 1. rewrite land_ones_mod by lia.
  assert (Hland : Z.land size (not64 (8 - 1)) = size - size mod 8).
  { change (8 - 1) with (2 ^ 3 - 1). rewrite land_not_ones by (unfold is_u64; lia).
    change (2 ^ 3) with 8. pose proof (Z.div_mod size 8 ltac:(lia)). lia. }
  rewrite Hland. change (2 ^ 3) with 8. pose proof (Z.mod_pos_bound size 8 ltac:(lia)).
  pose proof (Z.div_mod size 8 ltac:(lia)).
  case_if.
  - apply truthy_true in E. unfold add64. rewrite u64_small by (unfold is_u64; lia).
    replace (size + 7) with (size mod 8 - 1 + (size / 8 + 1) * 8) by lia.
    rewrite Z.div_add, Z.div_small by lia. lia.
  - apply truthy_false in E.
    replace (size + 7) with (7 + size / 8 * 8) by lia.
    rewrite Z.div_add, Z.div_small by lia. lia.
Qed.

Lemma roundup8_bounds size : size <= roundup8 size < size + 8 /\ roundup8 size mod 8 = 0.
Proof.
  unfold roundup8. pose proof (Z.div_mod (size + 7) 8 ltac:(lia)).
  pose proof (Z.mod_pos_bound (size + 7) 8 ltac:(lia)).
  split; [lia|]. apply Z.mod_mul. lia.
Qed.

Lemma length_zero_range off size a :
  0 <= off -> 0 <= size -> off + size <= Z.of_nat (length a) ->
  length (zero_range off size a) = length a.
Proof.
  intros. unfold zero_range. rewrite !length_app, length_take, length_replicate, length_drop. lia.
Qed.

Lemma lookup_zero_range off size a i :
  0 <= off -> 0 <= size -> off + size <= Z.of_nat (length a) -> 0 <= i < Z.of_nat (length a) ->
  zero_range off size a !! Z.to_nat i =
  (if (off <=? i) && (i <? off + size) then Some 0 else a !! Z.to_nat i).
Proof.
  intros H1 H2 H3 H4. unfold zero_range.
  destruct (Z.lt_ge_cases i off) as [Hlo|Hlo].
  - rewrite lookup_app_l by (rewrite length_take; lia).
    rewrite lookup_take_lt by lia. rewrite (proj2 (Z.leb_gt off i)) by lia. done.
  - rewrite lookup_app_r by (rewrite length_take; lia). rewrite length_take.
    rewrite (proj2 (Z.leb_le off i)) by lia. cbn [andb].
    destruct (Z.lt_ge_cases i (off + size)) as [Hhi|Hhi].
    + rewrite (proj2 (Z.ltb_lt _ _)) by lia.
      rewrite lookup_app_l by (rewrite length_replicate; lia).
      apply lookup_replicate_2. lia.
    + rewrite (proj2 (Z.ltb_ge _ _)) by lia.
      rewrite lookup_app_r by (rewrite length_replicate; lia).
      rewrite length_replicate, lookup_drop. f_equal. lia.
Qed.

(** The clearing loop, area by area. *)
Lemma clear_loop off size n s :
  length (hartid_to_scratch_table s) = 128%nat -> (n <= 128)%nat ->
  let s' := foldl (alloc_clear_body off size) s (seqZ 0 (Z.of_nat n)) in
  last_hartid_having_scratch s' = last_hartid_having_scratch s /\
  extra_lock s' = extra_lock s /\ extra_offset s' = extra_offset s /\
  length (hartid_to_scratch_table s') = 128%nat /\
  forall h, hartid_to_scratch_table s' !! h =
    (if (h <? n)%nat then fmap (fmap (zero_range off size)) (hartid_to_scratch_table s !! h)
     else hartid_to_scratch_table s !! h).
Proof.
  intros Hlen. induction n as [|n IH]; intros Hn; cbn zeta; [done|].
  rewrite seqZ_S, foldl_app.
  destruct (IH ltac:(lia)) as (H1 & H2 & H3 & H4 & H5). cbn zeta in *.
  set (t := foldl _ s _) in *. cbn [foldl]. unfold alloc_clear_body, sbi_hartid_to_scratch.
  rewrite Z.add_0_l, Nat2Z.id. specialize (H5 n) as H5n. rewrite Nat.ltb_irrefl in H5n.
  rewrite H5n.
  assert (Hlt : is_Some (hartid_to_scratch_table s !! n)) by (apply lookup_lt_is_Some_2; lia).
  destruct Hlt as [[a|] Ea]; rewrite Ea; cbn [mjoin option_join].
  - cbn -[Nat.ltb]. rewrite length_insert. repeat split; try assumption. intros h.
    destruct (decide (h = n)) as [->|Hne].
    + rewrite list_lookup_insert_eq, Ea by lia. destruct (Nat.ltb_spec n (S n)); [done|lia].
    + rewrite list_lookup_insert_ne by done. rewrite H5.
      destruct (Nat.ltb_spec h n), (Nat.ltb_spec h (S n)); try done; lia.
  - repeat split; try assumption. intros h. rewrite H5.
    destruct (Nat.ltb_spec h n), (Nat.ltb_spec h (S n)); try done; try lia.
    assert (h = n) as -> by lia. by rewrite Ea.
Qed.

(** What one allocation does, as a relation between the states before and after. *)
Definition alloc_spec (size : Z) (s : scratch_state) (o : Z) (s' : scratch_state) : Prop :=
  if decide (extra_offset s + roundup8 size <= SBI_SCRATCH_SIZE) then
    o = extra_offset s /\ extra_offset s' = o + roundup8 size /\
    forall (h : nat) a, hartid_to_scratch_table s !! h = Some (Some a) ->
      exists a', hartid_to_scratch_table s' !! h = Some (Some a') /\ length a' = length a /\
        forall i, 0 <= i < SBI_SCRATCH_SIZE ->
          a' !! Z.to_nat i =
            if (o <=? i) && (i <? o + roundup8 size) then Some 0 else a !! Z.to_nat i
  else o = 0 /\ extra_offset s' = extra_offset s /\
       hartid_to_scratch_table s' = hartid_to_scratch_table s.

Lemma alloc_run size s :
  scratch_wf s -> 0 < size <= 2 ^ 63 ->
  exists o s', sbi_scratch_alloc_offset size s = (Ret o, s') /\ scratch_wf s' /\
    alloc_spec size s o s'.
Proof.
  intros W Hs. destruct (roundup8_bounds size) as [Hr Hm].
  destruct (spin_lock_free _ (wf_extra_lock s W)) as (w & Hl & Hu).
  destruct W as [W1 W2 W3 W4 W5 W6].
  unfold SBI_SCRATCH_EXTRA_SPACE_OFFSET, SIZEOF_POINTER, SBI_SCRATCH_SIZE in W1, W2.
  unfold sbi_scratch_alloc_offset. rewrite (proj2 (Z.eqb_neq _ _)) by lia.
  rewrite alloc_round_spec by done. unfold bind at 1. unfold zoom at 1. rewrite Hl.
  unfold bind at 1. cbn [extra_offset set_extra_lock].
  unfold add64. rewrite u64_small by (unfold is_u64; lia).
  unfold alloc_spec. unfold SBI_SCRATCH_SIZE at 1 2.
  destruct (decide (extra_offset s + roundup8 size <= 0x1000)); case_if; zbool; try lia; [|].
  all: swap 1 2.
  - exists 0. unfold bind, zoom. cbn -[spin_unlock].
    destruct (spin_unlock w) as [[u|?] w'] eqn:E3; [|discriminate E3].
    cbn in Hu |- *. eexists. split; [reflexivity|].
    split; [|done]. constructor; cbn; assumption.
  - exists (extra_offset s). unfold bind, zoom. cbn -[spin_unlock].
    destruct (spin_unlock w) as [[u|?] w'] eqn:E3; [|discriminate E3].
    cbn in Hu |- *. rewrite (proj2 (truthy_true _)) by lia. cbn.
    set (t := set_extra_lock w' _).
    change (last_hartid_having_scratch t) with (last_hartid_having_scratch s).
    rewrite <- (Z2Nat.id (last_hartid_having_scratch s + 1)) by lia.
    destruct (clear_loop (extra_offset s) (roundup8 size) (Z.to_nat (last_hartid_having_scratch s + 1)) t
      ltac:(done) ltac:(lia)) as (C1 & C2 & C3 & C4 & C5). cbn zeta in *.
    set (t' := foldl _ t _) in *. exists t'. split; [reflexivity|].
    assert (Hlk : forall (h : nat) a, hartid_to_scratch_table s !! h = Some (Some a) ->
      hartid_to_scratch_table t' !! h =
        Some (Some (zero_range (extra_offset s) (roundup8 size) a))).
    { intros h a Ha. rewrite C5. destruct (W5 h a Ha) as [_ Hh].
      rewrite (proj2 (Nat.ltb_lt _ _)) by lia. cbn. by rewrite Ha. }
    split.
    + constructor; rewrite ?C1, ?C2, ?C3, ?C4; cbn.
      * unfold SBI_SCRATCH_EXTRA_SPACE_OFFSET, SIZEOF_POINTER, SBI_SCRATCH_SIZE; lia.
      * unfold SIZEOF_POINTER. rewrite Z.add_mod, W2, Hm by lia. done.
      * done.
      * done.
      * intros h a Ha. rewrite C5 in Ha.
        change (hartid_to_scratch_table t) with (hartid_to_scratch_table s) in Ha.
        destruct (hartid_to_scratch_table s !! h) as [[b|]|] eqn:Eb;
          [|case_if_in Ha; discriminate..].
        destruct (W5 h b Eb) as [Hb Hh]. rewrite (proj2 (Nat.ltb_lt _ _)) in Ha by lia.
        injection Ha as <-. unfold SBI_SCRATCH_SIZE in *. rewrite length_zero_range by lia. lia.
      * done.
    + repeat split; [rewrite C3; done|]. intros h a Ha. destruct (W5 h a Ha) as [Hb _].
      unfold SBI_SCRATCH_SIZE in Hb. eexists. split; [by apply Hlk|].
      split; [apply length_zero_range; lia|]. intros i Hi. unfold SBI_SCRATCH_SIZE in Hi. apply lookup_zero_range; lia.
Qed.

(** Every range of a run of allocations starts at or after [extra_offset]. *)
Lemma alloc_many_run sizes s :
  scratch_wf s -> Forall (λ size, 0 <= size <= 2 ^ 63) sizes ->
  exists rs s', alloc_many sizes s = (Ret rs, s') /\ scratch_wf s' /\
    extra_offset s <= extra_offset s' /\ ranges_ok (extra_offset s) rs.
Proof.
  revert s. induction sizes as [|size sizes IH]; intros s W Hall.
  - exists [], s. done.
  - apply Forall_cons_iff in Hall as [Hs Hall]. cbn.
    destruct (decide (size = 0)) as [->|Hne].
    { destruct (IH s W Hall) as (rs & s' & E & W' & Hle & Hok).
      exists rs, s'. unfold bind. cbn. by rewrite E. }
    destruct (alloc_run size s W ltac:(lia)) as (o & s1 & E1 & W1 & Hsp).
    destruct (IH s1 W1 Hall) as (rs & s' & E & W' & Hle & Hok).
    unfold bind. rewrite E1, E. unfold alloc_spec in Hsp.
    destruct (roundup8_bounds size) as [Hr _]. case_decide.
    + destruct Hsp as (-> & Ho & _). eexists _, s'. split; [reflexivity|].
      split; [done|]. split; [lia|].
      destruct (wf_offset s W). unfold SBI_SCRATCH_EXTRA_SPACE_OFFSET, SIZEOF_POINTER in *.
      rewrite (proj2 (Z.eqb_neq _ _)) by lia. cbn. split; [lia|].
      split; [apply (wf_aligned s W)|]. split; [lia|]. rewrite Ho in Hok.
      destruct rs as [|[o1 z1] rs]; [done|]. cbn in Hok |- *. destruct Hok as (? & ? & ? & ?).
      repeat split; try assumption. lia.
    + destruct Hsp as (-> & Ho & _). eexists _, s'. split; [reflexivity|].
      rewrite Ho in *. done.
Qed.

(** A wf concrete state, for the witnesses: three harts with zero-filled areas. *)
Definition three_harts : scratch_state :=
  ScratchState 2 (replicate 3 (Some (replicate 4096 7)) ++ replicate 125 None) SPIN_LOCK_INIT
    SBI_SCRATCH_EXTRA_SPACE_OFFSET.

Lemma three_harts_wf : scratch_wf three_harts.
Proof.
  constructor; cbn [extra_offset extra_lock hartid_to_scratch_table last_hartid_having_scratch three_harts].
  - unfold SBI_SCRATCH_EXTRA_SPACE_OFFSET, SIZEOF_POINTER, SBI_SCRATCH_SIZE. lia.
  - reflexivity.
  - apply lock_free_init.
  - reflexivity.
  - intros h a Ha. apply lookup_app_Some in Ha as [Ha|[_ Ha]].
    + apply lookup_replicate_1 in Ha as [Heq Hh]. apply (inj Some) in Heq as ->.
      rewrite length_replicate. split; [reflexivity|lia].
    + apply lookup_replicate_1 in Ha as [[=] _].
  - lia.
Qed.

(** sbi_scratch_init leaves the table of a platform whose harts all get an area well-formed. *)
Lemma scratch_init_body_table plat h2s s i :
  length (hartid_to_scratch_table (scratch_init_body plat h2s s i)) =
  length (hartid_to_scratch_table s).
Proof.
  unfold scratch_init_body. case_if; [done|].
  destruct (h2s _ _); cbn; by rewrite length_insert.
Qed.

Lemma scratch_init_loop plat h2s n s :
  length (hartid_to_scratch_table s) = 128%nat -> (n <= 128)%nat ->
  let s' := foldl (scratch_init_body plat h2s) s (seqZ 0 (Z.of_nat n)) in
  let entry h := if sbi_platform_hart_invalid plat h then sbi_hartid_to_scratch s h
                 else h2s h (sbi_platform_hart_index plat h) in
  length (hartid_to_scratch_table s') = 128%nat /\
  extra_lock s' = extra_lock s /\ extra_offset s' = extra_offset s /\
  (forall h, 0 <= h < Z.of_nat n -> sbi_hartid_to_scratch s' h = entry h) /\
  (forall h, Z.of_nat n <= h < 128 -> sbi_hartid_to_scratch s' h = sbi_hartid_to_scratch s h) /\
  (forall h, 0 <= h < Z.of_nat n -> sbi_platform_hart_invalid plat h = false ->
     is_Some (entry h) -> h <= last_hartid_having_scratch s' < Z.of_nat n).
Proof.
  intros Hlen Hn. cbn zeta.
  induction n as [|n IH]; [repeat split; try done; intros; lia|].
  rewrite seqZ_S, foldl_app, Z.add_0_l. destruct (IH ltac:(lia)) as (H1 & H2 & H3 & H4 & H5 & H6).
  set (t := foldl _ s _) in *. cbn [foldl]. split; [by rewrite scratch_init_body_table|].
  unfold scratch_init_body. destruct (sbi_platform_hart_invalid plat (Z.of_nat n)) eqn:Ev.
  - repeat split; try done.
    + intros h Hh. destruct (decide (h = Z.of_nat n)) as [->|]; [|apply H4; lia].
      rewrite Ev. apply H5. lia.
    + intros h Hh. apply H5. lia.
    + eapply H6; [|done|done]. destruct (decide (h = Z.of_nat n)); [congruence|lia].
    + assert (h <> Z.of_nat n) by congruence.
      pose proof (H6 h ltac:(lia) H0 H7). lia.
  - set (r := h2s _ _).
    assert (Htab : forall u, hartid_to_scratch_table u = <[Z.to_nat (Z.of_nat n) := r]> (hartid_to_scratch_table t) ->
      (forall h, 0 <= h < Z.of_nat (S n) -> sbi_hartid_to_scratch u h =
         (if sbi_platform_hart_invalid plat h then sbi_hartid_to_scratch s h
          else h2s h (sbi_platform_hart_index plat h))) /\
      (forall h, Z.of_nat (S n) <= h < 128 -> sbi_hartid_to_scratch u h = sbi_hartid_to_scratch s h)).
    { intros u Hu. unfold sbi_hartid_to_scratch at 1 3. rewrite Hu. split; intros h Hh.
      - destruct (decide (h = Z.of_nat n)) as [->|].
        + rewrite list_lookup_insert_eq by lia. rewrite Ev. done.
        + rewrite list_lookup_insert_ne by lia. apply H4. lia.
      - rewrite list_lookup_insert_ne by lia. apply H5. lia. }
    assert (Hr : forall h, 0 <= h < Z.of_nat (S n) -> sbi_platform_hart_invalid plat h = false ->
        is_Some (h2s h (sbi_platform_hart_index plat h)) -> r = None -> h < Z.of_nat n).
    { intros h Hh _ His Hrn. destruct (decide (h = Z.of_nat n)) as [->|]; [|lia].
      fold r in His. rewrite Hrn in His. by destruct His. }
    destruct r as [a|] eqn:Er; (split; [done|]); (split; [done|]);
      (split; [apply Htab; done|]); (split; [apply Htab; done|]); cbn; intros h Hh Hv His.
    + lia.
    + specialize (H6 h). rewrite Hv in H6, His.
      pose proof (Hr h Hh Hv His eq_refl). specialize (H6 ltac:(lia) eq_refl His). lia.
Qed.

(** ** Properties *)

(** sbi_scratch_alloc_offset, for every request of at most 2^63 bytes on a
    well-formed state: it returns, keeps the state well-formed, and either there
    is room and the result is the old bump offset, the offset advances by the
    request rounded up to eight, and in every hart's area exactly that range is
    cleared; or there is no room, the result is 0 and neither the offset nor any
    area changes. *)
Theorem scratch_alloc_offset_correct size s :
  scratch_wf s -> 0 < size <= 2 ^ 63 ->
  exists o s', sbi_scratch_alloc_offset size s = (Ret o, s') /\ scratch_wf s' /\
    alloc_spec size s o s'.
Proof. apply alloc_run. Qed.

Lemma scratch_alloc_offset_correct_witness :
  (0 < 13 <= 2 ^ 63) /\
  exists o s', sbi_scratch_alloc_offset 13 three_harts = (Ret o, s') /\ scratch_wf s' /\
    alloc_spec 13 three_harts o s'.
Proof.
  split; [lia|]. apply (scratch_alloc_offset_correct 13 three_harts); [apply three_harts_wf|lia].
Defined.

(** Any sequence of allocation requests returns ranges that are pointer
    aligned, pairwise disjoint (each starts at or after the end of the previous
    one), and inside the extra space of the scratch area. *)
Theorem scratch_alloc_many_disjoint sizes s :
  scratch_wf s -> Forall (λ size, 0 <= size <= 2 ^ 63) sizes ->
  exists rs s', alloc_many sizes s = (Ret rs, s') /\ scratch_wf s' /\
    ranges_ok SBI_SCRATCH_EXTRA_SPACE_OFFSET rs.
Proof.
  intros W Hall. destruct (alloc_many_run sizes s W Hall) as (rs & s' & E & W' & _ & Hok).
  exists rs, s'. split; [done|]. split; [done|]. destruct rs as [|[o z] rs]; [done|].
  destruct (wf_offset s W). cbn in Hok |- *. destruct Hok as (? & ? & ? & ?).
  repeat split; try assumption. lia.
Qed.

Lemma scratch_alloc_many_disjoint_witness :
  exists rs s', alloc_many [8; 13; 0; 5000; 24] three_harts = (Ret rs, s') /\ scratch_wf s' /\
    ranges_ok SBI_SCRATCH_EXTRA_SPACE_OFFSET rs.
Proof.
  apply (scratch_alloc_many_disjoint [8; 13; 0; 5000; 24] three_harts);
    [apply three_harts_wf|repeat constructor; lia].
Defined.

(** sbi_scratch_init fills the table: after it, the entry of every valid
    hart is what the platform's hartid_to_scratch callback returned, the other
    entries are untouched, and the last hart with an area bounds them all. *)
Theorem scratch_init_table plat h2s s :
  length (hartid_to_scratch_table s) = 128%nat ->
  exists s', sbi_scratch_init plat h2s s = (Ret 0, s') /\
    (forall h, 0 <= h < 128 -> sbi_hartid_to_scratch s' h =
       if sbi_platform_hart_invalid plat h then sbi_hartid_to_scratch s h
       else h2s h (sbi_platform_hart_index plat h)) /\
    (forall h, 0 <= h < 128 -> sbi_platform_hart_invalid plat h = false ->
       is_Some (h2s h (sbi_platform_hart_index plat h)) ->
       h <= last_hartid_having_scratch s' < 128).
Proof.
  intros Hlen. eexists. split; [reflexivity|].
  change (seqZ 0 SBI_HARTMASK_MAX_BITS) with (seqZ 0 (Z.of_nat 128)).
  destruct (scratch_init_loop plat h2s 128 s Hlen ltac:(lia)) as (_ & _ & _ & H4 & _ & H6).
  split; [apply H4|]. intros h Hh Hv His. apply H6; [done..|]. by rewrite Hv.
Qed.

Lemma scratch_init_table_witness :
  let plat := Some (Platform 2 None) in
  let h2s := λ h _ : Z, Some (replicate 4096 h) in
  exists s', sbi_scratch_init plat h2s scratch_initial = (Ret 0, s') /\
    (forall h, 0 <= h < 128 -> sbi_hartid_to_scratch s' h =
       if sbi_platform_hart_invalid plat h then sbi_hartid_to_scratch scratch_initial h
       else h2s h (sbi_platform_hart_index plat h)) /\
    (forall h, 0 <= h < 128 -> sbi_platform_hart_invalid plat h = false ->
       is_Some (h2s h (sbi_platform_hart_index plat h)) ->
       h <= last_hartid_having_scratch s' < 128).
Proof.
  intros plat h2s. apply (scratch_init_table plat h2s scratch_initial). reflexivity.
Defined.

(** A request of 2^64-1 bytes is rounded up to 0: the allocator answers with
    the current offset and does not advance, so the next request is handed
    the same range. *)
Theorem scratch_alloc_wraps :
  fst (alloc_many [2 ^ 64 - 1; 8] (ScratchState 0 (replicate 128 None) SPIN_LOCK_INIT 88))
  = Ret [(88, 2 ^ 64 - 1); (88, 8)].
Proof. vm_compute. reflexivity. Qed.
