(* ===== verification/Domain.v ===== *)
(** * Protection domains

    Models lib/sbi/sbi_domain.c with include/sbi/sbi_domain.h: memory regions,
    address checks, the sanity check with its in-place exchange sort, domain
    registration and the root domain.  Domains live in a store indexed by
    pointer ([0] is the static [root]); the root's region array and hart mask
    are the globals [root_memregs] and [root_hmask], shared with it by pointer.
    sbi_domain_finalize, which starts harts, is in System.v.

    A loop over a region array stops at the first region of order zero; the
    invariant of the store says that every array has such a terminator. *)

From Stdlib Require Import ZArith Lia Sorting.Sorted.
From stdpp Require Import base tactics list gmap numbers sorting.
From S2P Require Import Prelude SbiDefs Bitops Scratch.

Definition SBI_DOMAIN_READ : Z := 1.
Definition SBI_DOMAIN_WRITE : Z := 2.
Definition SBI_DOMAIN_EXECUTE : Z := 4.
Definition SBI_DOMAIN_MMIO : Z := 8.
Definition SBI_DOMAIN_MEMREGION_READABLE : Z := 1.
Definition SBI_DOMAIN_MEMREGION_WRITEABLE : Z := 2.
Definition SBI_DOMAIN_MEMREGION_EXECUTABLE : Z := 4.
Definition SBI_DOMAIN_MEMREGION_MMODE : Z := 8.
Definition SBI_DOMAIN_MEMREGION_MMIO : Z := 2 ^ 31.
Definition SBI_DOMAIN_MAX_INDEX : Z := 32.
Definition ROOT_REGION_MAX : Z := 16.

Record sbi_domain_memregion : Type := MemRegion {
  reg_order : Z;
  reg_base : Z;
  reg_flags : Z;
}.

#[export] Instance memregion_eq_dec : EqDecision sbi_domain_memregion.
Proof. solve_decision. Defined.

#[export] Instance memregion_inhabited : Inhabited sbi_domain_memregion :=
  populate (MemRegion 0 0 0).

(** Pointers to an array of regions and to a hart mask: the root's static
    object, or one owned by the domain. *)
Inductive regions_ref : Type :=
| RootMemregs
| OwnRegions (l : list sbi_domain_memregion).

Inductive hmask_ref : Type :=
| RootHmask
| OwnHmask (m : sbi_hartmask).

Record sbi_domain : Type := Domain {
  dom_index : Z;
  assigned_harts : sbi_hartmask;
  possible_harts : option hmask_ref;
  regions : option regions_ref;
  boot_hartid : Z;
  next_arg1 : Z;
  next_addr : Z;
  next_mode : Z;
  system_reset_allowed : bool;
}.

Record domain_state : Type := DomainState {
  hartid_to_domain_table : list (option nat);
  domidx_to_domain_table : list (option nat);
  domain_count : Z;
  domain_finalized : bool;
  root_hmask : sbi_hartmask;
  root_memregs_count : Z;
  root_fw_region : sbi_domain_memregion;
  root_memregs : list sbi_domain_memregion;
  domains : list sbi_domain;
}.

(** The pointer to [root]. *)
Definition root : nat := 0.

Definition root_static : sbi_domain :=
  Domain 0 (Hartmask [0; 0]) (Some RootHmask) (Some RootMemregs) 0 0 0 0 true.

Definition domain_initial : domain_state :=
  DomainState (replicate 128 None) (replicate 32 None) 0 false (Hartmask [0; 0]) 0
    (MemRegion 0 0 0) (replicate 17 (MemRegion 0 0 0)) [root_static].

(** Field updates. *)
Definition set_hartid_table t (s : domain_state) : domain_state :=
  DomainState t (domidx_to_domain_table s) (domain_count s) (domain_finalized s) (root_hmask s)
    (root_memregs_count s) (root_fw_region s) (root_memregs s) (domains s).
Definition set_domidx_table t (s : domain_state) : domain_state :=
  DomainState (hartid_to_domain_table s) t (domain_count s) (domain_finalized s) (root_hmask s)
    (root_memregs_count s) (root_fw_region s) (root_memregs s) (domains s).
Definition set_domain_count c (s : domain_state) : domain_state :=
  DomainState (hartid_to_domain_table s) (domidx_to_domain_table s) c (domain_finalized s)
    (root_hmask s) (root_memregs_count s) (root_fw_region s) (root_memregs s) (domains s).
Definition set_domain_finalized b (s : domain_state) : domain_state :=
  DomainState (hartid_to_domain_table s) (domidx_to_domain_table s) (domain_count s) b
    (root_hmask s) (root_memregs_count s) (root_fw_region s) (root_memregs s) (domains s).
Definition set_root_hmask m (s : domain_state) : domain_state :=
  DomainState (hartid_to_domain_table s) (domidx_to_domain_table s) (domain_count s)
    (domain_finalized s) m (root_memregs_count s) (root_fw_region s) (root_memregs s) (domains s).
Definition set_root_count c (s : domain_state) : domain_state :=
  DomainState (hartid_to_domain_table s) (domidx_to_domain_table s) (domain_count s)
    (domain_finalized s) (root_hmask s) c (root_fw_region s) (root_memregs s) (domains s).
Definition set_root_fw r (s : domain_state) : domain_state :=
  DomainState (hartid_to_domain_table s) (domidx_to_domain_table s) (domain_count s)
    (domain_finalized s) (root_hmask s) (root_memregs_count s) r (root_memregs s) (domains s).
Definition set_root_memregs l (s : domain_state) : domain_state :=
  DomainState (hartid_to_domain_table s) (domidx_to_domain_table s) (domain_count s)
    (domain_finalized s) (root_hmask s) (root_memregs_count s) (root_fw_region s) l (domains s).
Definition set_domains l (s : domain_state) : domain_state :=
  DomainState (hartid_to_domain_table s) (domidx_to_domain_table s) (domain_count s)
    (domain_finalized s) (root_hmask s) (root_memregs_count s) (root_fw_region s)
    (root_memregs s) l.

Definition dom_set_index i (d : sbi_domain) : sbi_domain :=
  Domain i (assigned_harts d) (possible_harts d) (regions d) (boot_hartid d) (next_arg1 d)
    (next_addr d) (next_mode d) (system_reset_allowed d).
Definition dom_set_assigned m (d : sbi_domain) : sbi_domain :=
  Domain (dom_index d) m (possible_harts d) (regions d) (boot_hartid d) (next_arg1 d)
    (next_addr d) (next_mode d) (system_reset_allowed d).
Definition dom_set_regions r (d : sbi_domain) : sbi_domain :=
  Domain (dom_index d) (assigned_harts d) (possible_harts d) r (boot_hartid d) (next_arg1 d)
    (next_addr d) (next_mode d) (system_reset_allowed d).
Definition dom_set_boot_hartid h (d : sbi_domain) : sbi_domain :=
  Domain (dom_index d) (assigned_harts d) (possible_harts d) (regions d) h (next_arg1 d)
    (next_addr d) (next_mode d) (system_reset_allowed d).
Definition dom_set_next arg1 addr mode (d : sbi_domain) : sbi_domain :=
  Domain (dom_index d) (assigned_harts d) (possible_harts d) (regions d) (boot_hartid d) arg1
    addr mode (system_reset_allowed d).

(** Update the domain a pointer designates. *)
Definition upd_dom (p : nat) (f : sbi_domain → sbi_domain) (s : domain_state) : domain_state :=
  set_domains (alter f p (domains s)) s.

(** ** Regions *)

(** [sbi_domain_for_each_memregion]: the regions before the terminator. *)
Fixpoint memregions (l : list sbi_domain_memregion) : list sbi_domain_memregion :=
  match l with
  | [] => []
  | r :: l' => if truthy (reg_order r) then r :: memregions l' else []
  end.

Fixpoint memregion_loop (fuel : nat) (addr size order : Z) : Z * Z :=
  match fuel with
  | O => (0, order)
  | S n =>
      if order <? XLEN then
        let base := Z.land addr (not64 (sub64 (shl64 1 order) 1)) in
        let last := sub64 (add64 addr size) 1 in
        let end_ := add64 base (shl64 1 order) in
        if (base <=? addr) && (addr <? end_) && (base <=? last) && (last <? end_)
        then (base, order) else memregion_loop n addr size (order + 1)
      else (0, order)
  end.

Definition sbi_domain_memregion_init (addr size flags : Z) : sbi_domain_memregion :=
  let '(base, order) := memregion_loop 65 addr size (log2roundup size) in
  MemRegion order base flags.

Definition region_end (r : sbi_domain_memregion) : Z :=
  if reg_order r <? XLEN then add64 (reg_base r) (sub64 (shl64 1 (reg_order r)) 1) else u64_max.

Fixpoint check_regions (l : list sbi_domain_memregion) (addr mode rwx : Z) (mmio : bool) : bool :=
  match l with
  | [] => mode =? PRV_M
  | reg :: l' =>
      let rflags := reg_flags reg in
      if (mode =? PRV_M) && negb (truthy (Z.land rflags SBI_DOMAIN_MEMREGION_MMODE))
      then check_regions l' addr mode rwx mmio
      else if (reg_base reg <=? addr) && (addr <=? region_end reg) then
        if (mmio && negb (truthy (Z.land rflags SBI_DOMAIN_MEMREGION_MMIO))) ||
           (negb mmio && truthy (Z.land rflags SBI_DOMAIN_MEMREGION_MMIO))
        then false
        else Z.land rflags rwx =? rwx
      else check_regions l' addr mode rwx mmio
  end.

(** The permission bits an access asks for. *)
Definition access_rwx (access_flags : Z) : Z :=
  let rwx := 0 in
  let rwx := if truthy (Z.land access_flags SBI_DOMAIN_READ)
             then Z.lor rwx SBI_DOMAIN_MEMREGION_READABLE else rwx in
  let rwx := if truthy (Z.land access_flags SBI_DOMAIN_WRITE)
             then Z.lor rwx SBI_DOMAIN_MEMREGION_WRITEABLE else rwx in
  if truthy (Z.land access_flags SBI_DOMAIN_EXECUTE)
  then Z.lor rwx SBI_DOMAIN_MEMREGION_EXECUTABLE else rwx.

(** The array a region pointer designates. *)
Definition deref_regions (s : domain_state) (r : regions_ref) : list sbi_domain_memregion :=
  match r with RootMemregs => root_memregs s | OwnRegions l => l end.

Definition deref_hmask (s : domain_state) (r : hmask_ref) : sbi_hartmask :=
  match r with RootHmask => root_hmask s | OwnHmask m => m end.

Definition dom_regions (s : domain_state) (d : sbi_domain) : list sbi_domain_memregion :=
  match regions d with Some r => deref_regions s r | None => [] end.

Definition sbi_domain_check_addr (s : domain_state) (dom : option nat)
    (addr mode access_flags : Z) : bool :=
  match dom ≫= λ p, domains s !! p with
  | None => false
  | Some d =>
      check_regions (memregions (dom_regions s d)) addr mode (access_rwx access_flags)
        (truthy (Z.land access_flags SBI_DOMAIN_MMIO))
  end.

Definition is_region_valid (reg : sbi_domain_memregion) : bool :=
  if (reg_order reg <? 3) || (XLEN <? reg_order reg) then false
  else if truthy (Z.land (reg_base reg) (sub64 (BIT (reg_order reg)) 1)) then false
  else true.

(** As in the source, the end of region B is computed with the order of A. *)
Definition is_region_subset (regA regB : sbi_domain_memregion) : bool :=
  let regA_start := reg_base regA in
  let regA_end := add64 (reg_base regA) (sub64 (BIT (reg_order regA)) 1) in
  let regB_start := reg_base regB in
  let regB_end := add64 (reg_base regB) (sub64 (BIT (reg_order regA)) 1) in
  (regB_start <=? regA_start) && (regA_start <? regB_end) &&
  (regB_start <? regA_end) && (regA_end <=? regB_end).

Definition is_region_conflict (regA regB : sbi_domain_memregion) : bool :=
  (is_region_subset regA regB || is_region_subset regB regA) &&
  (reg_flags regA =? reg_flags regB).

Definition is_region_before (regA regB : sbi_domain_memregion) : bool :=
  if reg_order regA <? reg_order regB then true
  else (reg_order regA =? reg_order regB) && (reg_base regA <? reg_base regB).

(** ** Sanity check of a domain *)

(** A loop with an early error return: [false] is the error. *)
Fixpoint loop_err {I S} (body : I → S → bool * S) (l : list I) (s : S) : bool * S :=
  match l with
  | [] => (true, s)
  | i :: l' => let '(ok, s') := body i s in if ok then loop_err body l' s' else (false, s')
  end.

(** Body of the inner loop of the sort: [reg] is [regions[i]], [reg1] is [regions[j]]. *)
Definition sort_inner (i j : nat) (l : list sbi_domain_memregion)
    : bool * list sbi_domain_memregion :=
  let reg := l !!! i in
  let reg1 := l !!! j in
  if is_region_conflict reg1 reg then (false, l)
  else if negb (is_region_before reg1 reg) then (true, l)
  else (true, <[i := reg1]> (<[j := reg]> l)).

Definition sort_outer (count i : nat) (l : list sbi_domain_memregion)
    : bool * list sbi_domain_memregion :=
  loop_err (sort_inner i) (seq (i + 1) (count - (i + 1))) l.

Definition sort_regions (count : nat) (l : list sbi_domain_memregion)
    : bool * list sbi_domain_memregion :=
  loop_err (sort_outer count) (seq 0 (count - 1)) l.

(** Store the sorted array back where the domain's pointer designates it. *)
Definition store_regions (p : nat) (l : list sbi_domain_memregion) (s : domain_state)
    : domain_state :=
  match domains s !! p ≫= regions with
  | Some RootMemregs => set_root_memregs l s
  | _ => upd_dom p (dom_set_regions (Some (OwnRegions l))) s
  end.

Definition same_region (a b : sbi_domain_memregion) : bool :=
  (reg_order a =? reg_order b) && (reg_base a =? reg_base b) && (reg_flags a =? reg_flags b).

Definition sanitize_domain (plat : option sbi_platform) (p : nat) : M domain_state Z :=
  λ s,
    match domains s !! p with
    | None => (Stop wild_access, s)
    | Some dom =>
        match possible_harts dom with
        | None => (Ret SBI_EINVAL, s)
        | Some hm =>
            if existsb (sbi_platform_hart_invalid plat)
                 (sbi_hartmask_for_each_hart (deref_hmask s hm)) then (Ret SBI_EINVAL, s)
            else match regions dom with
            | None => (Ret SBI_EINVAL, s)
            | Some rr =>
                let l := deref_regions s rr in
                if existsb (λ reg, negb (is_region_valid reg)) (memregions l) then (Ret SBI_EINVAL, s)
                else
                let count := length (memregions l) in
                let have_fw_reg := existsb (λ reg, same_region reg (root_fw_region s)) (memregions l) in
                if negb have_fw_reg then (Ret SBI_EINVAL, s)
                else
                let '(ok, l') := sort_regions count l in
                let s := store_regions p l' s in
                if negb ok then (Ret SBI_EINVAL, s)
                else if negb (next_mode dom =? PRV_S) && negb (next_mode dom =? PRV_U)
                then (Ret SBI_EINVAL, s)
                else if negb (sbi_domain_check_addr s (Some p) (next_addr dom) (next_mode dom)
                                SBI_DOMAIN_EXECUTE)
                then (Ret SBI_EINVAL, s)
                else (Ret 0, s)
            end
        end
    end.

(** ** Hart assignment *)

Definition sbi_domain_is_assigned_hart (s : domain_state) (dom : option nat) (hartid : Z) : bool :=
  match dom ≫= λ p, domains s !! p with
  | Some d => truthy (sbi_hartmask_test_hart hartid (assigned_harts d))
  | None => false
  end.

Definition sbi_domain_get_assigned_hartmask (dom : option nat) (hbase : Z) : M domain_state Z :=
  λ s,
    match dom ≫= λ p, domains s !! p with
    | None => (Ret 0, s)
    | Some d =>
        let bword := hbase / 64 in
        let boff := hbase mod 64 in
        match bits (assigned_harts d) !! Z.to_nat bword with
        | None => (Stop wild_access, s)
        | Some w =>
            let r := shr64 w boff in
            let bword := bword + 1 in
            if truthy boff && (bword <? SBI_HARTMASK_MAX_BITS / 64) then
              match bits (assigned_harts d) !! Z.to_nat bword with
              | None => (Stop wild_access, s)
              | Some w1 =>
                  (Ret (Z.lor r (shl64 (Z.land w1 (sub64 (BIT boff) 1)) (64 - boff))), s)
              end
            else (Ret r, s)
        end
    end.

(** ** Registration *)

(** [sbi_domain_for_each]: the table is read until a NULL entry; past its last
    entry the read is out of bounds. *)
Fixpoint sbi_domain_for_each (tbl : list (option nat)) : outcome (list nat) :=
  match tbl with
  | [] => Stop wild_access
  | None :: _ => Ret []
  | Some q :: tbl' =>
      match sbi_domain_for_each tbl' with
      | Ret l => Ret (q :: l)
      | Stop w => Stop w
      end
  end.

(** The scan for an already registered domain: it returns at the first match,
    so it reads past the table only when there is none. *)
Fixpoint domain_registered (tbl : list (option nat)) (p : nat) : outcome bool :=
  match tbl with
  | [] => Stop wild_access
  | None :: _ => Ret false
  | Some q :: tbl' => if decide (q = p) then Ret true else domain_registered tbl' p
  end.

Definition assign_body (p : nat) (cold_hartid : Z) (s : domain_state) (i : Z) : domain_state :=
  match domains s !! p ≫= possible_harts with
  | None => s
  | Some hm =>
      if negb (truthy (sbi_hartmask_test_hart i (deref_hmask s hm))) then s
      else
        let s := match mjoin (hartid_to_domain_table s !! Z.to_nat i) with
                 | Some q => upd_dom q (λ d, dom_set_assigned
                               (sbi_hartmask_clear_hart i (assigned_harts d)) d) s
                 | None => s
                 end in
        let s := set_hartid_table (<[Z.to_nat i := Some p]> (hartid_to_domain_table s)) s in
        let s := upd_dom p (λ d, dom_set_assigned
                   (sbi_hartmask_set_hart i (assigned_harts d)) d) s in
        upd_dom p (λ d, if (i =? cold_hartid) && negb (boot_hartid d =? cold_hartid)
                        then dom_set_boot_hartid cold_hartid d else d) s
  end.

Definition sbi_domain_register (plat : option sbi_platform) (cold_hartid : Z)
    (dom : option nat) (assign_mask : option hmask_ref) : M domain_state Z :=
  λ s,
    match dom, assign_mask with
    | Some p, Some am =>
        if domain_finalized s then (Ret SBI_EINVAL, s)
        else
          match domain_registered (domidx_to_domain_table s) p with
          | Stop w => (Stop w, s)
          | Ret true => (Ret SBI_EALREADY, s)
          | Ret false =>
              if SBI_DOMAIN_MAX_INDEX <=? domain_count s then (Ret SBI_ENOSPC, s)
              else
                match sanitize_domain plat p s with
                | (Stop w, s) => (Stop w, s)
                | (Ret rc, s) =>
                    if truthy rc then (Ret rc, s)
                    else
                      let index := domain_count s in
                      let s := upd_dom p (dom_set_index index) (set_domain_count (index + 1) s) in
                      let s := set_domidx_table
                                 (<[Z.to_nat index := Some p]> (domidx_to_domain_table s)) s in
                      let s := upd_dom p (dom_set_assigned sbi_hartmask_clear_all) s in
                      (Ret 0, foldl (assign_body p cold_hartid) s
                                (sbi_hartmask_for_each_hart (deref_hmask s am)))
                end
          end
    | _, _ => (Ret SBI_EINVAL, s)
    end.

(** ** Regions of the root domain *)

(** The [while] loop of the merge: everything after [k] moves down by one, the
    terminator included. *)
Fixpoint shift_down (fuel k : nat) (l : list sbi_domain_memregion) : list sbi_domain_memregion :=
  match fuel with
  | O => l
  | S n => if truthy (reg_order (l !!! k)) then shift_down n (k + 1) (<[k := l !!! (k + 1)%nat]> l)
           else l
  end.

Definition mergeable (nreg nreg1 : sbi_domain_memregion) : bool :=
  negb (truthy (Z.land (reg_base nreg) (sub64 (BIT (add64 (reg_order nreg) 1)) 1))) &&
  (add64 (reg_base nreg) (BIT (reg_order nreg)) =? reg_base nreg1) &&
  (reg_order nreg =? reg_order nreg1) && (reg_flags nreg =? reg_flags nreg1).

(** The merge pass over the root regions: the array, the count and whether
    anything was merged.  [k] is the index of [nreg]. *)
Fixpoint merge_pass (fuel k : nat) (l : list sbi_domain_memregion) (count : Z) (merged : bool)
    : list sbi_domain_memregion * Z * bool :=
  match fuel with
  | O => (l, count, merged)
  | S n =>
      let nreg := l !!! k in
      if negb (truthy (reg_order nreg)) then (l, count, merged)
      else
        let nreg1 := l !!! (k + 1)%nat in
        if negb (truthy (reg_order nreg1)) then merge_pass n (k + 1) l count merged
        else if mergeable nreg nreg1 then
          let l := <[k := MemRegion (add64 (reg_order nreg) 1) (reg_base nreg) (reg_flags nreg)]> l in
          merge_pass n (k + 1) (shift_down (length l) (k + 1) l) (count - 1) true
        else merge_pass n (k + 1) l count merged
  end.

(** The [do ... while (reg_merged)] loop. *)
Fixpoint sort_and_merge (fuel : nat) (plat : option sbi_platform) : M domain_state Z :=
  λ s,
    match fuel with
    | O => (Stop spinning, s)
    | S n =>
        match sanitize_domain plat root s with
        | (Stop w, s) => (Stop w, s)
        | (Ret rc, s) =>
            if truthy rc then (Ret rc, s)
            else
              let '(l, count, merged) :=
                merge_pass (length (root_memregs s)) 0 (root_memregs s) (root_memregs_count s) false in
              let s := set_root_count count (set_root_memregs l s) in
              if merged then sort_and_merge n plat s else (Ret 0, s)
        end
    end.

Definition root_uses_memregs (s : domain_state) : bool :=
  match domains s !! root ≫= regions with Some RootMemregs => true | _ => false end.

Definition sbi_domain_root_add_memregion (plat : option sbi_platform)
    (reg : option sbi_domain_memregion) : M domain_state Z :=
  λ s,
    match reg with
    | None => (Ret SBI_EINVAL, s)
    | Some reg =>
        if domain_finalized s || negb (root_uses_memregs s) ||
           (ROOT_REGION_MAX <=? root_memregs_count s) then (Ret SBI_EINVAL, s)
        else if existsb (is_region_conflict reg) (memregions (root_memregs s))
        then (Ret SBI_EINVAL, s)
        else
          let c := Z.to_nat (root_memregs_count s) in
          let l := <[c := reg]> (root_memregs s) in
          let nxt := l !!! (c + 1)%nat in
          let l := <[(c + 1)%nat := MemRegion 0 (reg_base nxt) (reg_flags nxt)]> l in
          let s := set_root_count (root_memregs_count s + 1) (set_root_memregs l s) in
          sort_and_merge (length l + 1) plat s
    end.

(** ** Initialisation *)

Record boot_scratch : Type := BootScratch {
  fw_start : Z;
  fw_size : Z;
  scratch_next_arg1 : Z;
  scratch_next_addr : Z;
  scratch_next_mode : Z;
}.

Definition domain_memregion_initfw (k : nat) (s : domain_state) : domain_state :=
  set_root_memregs (<[k := root_fw_region s]> (root_memregs s)) s.

Definition sbi_domain_init (plat : option sbi_platform) (scratch : boot_scratch)
    (cold_hartid : Z) : M domain_state Z :=
  λ s,
    let s := set_root_fw (sbi_domain_memregion_init (fw_start scratch) (fw_size scratch) 0) s in
    let s := domain_memregion_initfw (Z.to_nat (root_memregs_count s)) s in
    let s := set_root_count (root_memregs_count s + 1) s in
    let all := sbi_domain_memregion_init 0 u64_max
                 (Z.lor (Z.lor SBI_DOMAIN_MEMREGION_READABLE SBI_DOMAIN_MEMREGION_WRITEABLE)
                        SBI_DOMAIN_MEMREGION_EXECUTABLE) in
    let s := set_root_memregs
               (<[Z.to_nat (root_memregs_count s) := all]> (root_memregs s)) s in
    let s := set_root_count (root_memregs_count s + 1) s in
    let c := Z.to_nat (root_memregs_count s) in
    let endr := root_memregs s !!! c in
    let s := set_root_memregs
               (<[c := MemRegion 0 (reg_base endr) (reg_flags endr)]> (root_memregs s)) s in
    let s := upd_dom root (dom_set_boot_hartid cold_hartid) s in
    let s := upd_dom root (dom_set_next (scratch_next_arg1 scratch) (scratch_next_addr scratch)
               (scratch_next_mode scratch)) s in
    let s := foldl (λ s i, if sbi_platform_hart_invalid plat i then s
                           else set_root_hmask (sbi_hartmask_set_hart i (root_hmask s)) s)
               s (seqZ 0 SBI_HARTMASK_MAX_BITS) in
    sbi_domain_register plat cold_hartid (Some root) (Some RootHmask) s.

(** ** Regions: lemmas *)

Lemma memregion_base addr order :
  is_u64 addr -> 0 <= order < 64 ->
  Z.land addr (not64 (sub64 (shl64 1 order) 1)) = addr / 2 ^ order * 2 ^ order.
Proof.
  intros Ha Ho. destruct (pow2_64 order Ho). rewrite shl64_1 by done.
  unfold sub64. rewrite u64_small by (unfold is_u64; lia). by apply land_not_ones.
Qed.

Lemma div_mul_bounds a k : 0 <= k -> a / 2 ^ k * 2 ^ k <= a < a / 2 ^ k * 2 ^ k + 2 ^ k.
Proof.
  intros Hk. assert (0 < 2 ^ k) by (apply Z.pow_pos_nonneg; lia).
  pose proof (Z.div_mod a (2 ^ k) ltac:(lia)). pose proof (Z.mod_pos_bound a (2 ^ k) ltac:(lia)). lia.
Qed.

(** An aligned block containing [addr] starts at [addr] rounded down. *)
Lemma aligned_block_base b a k :
  0 <= k -> b mod 2 ^ k = 0 -> b <= a < b + 2 ^ k -> b = a / 2 ^ k * 2 ^ k.
Proof.
  intros Hk Hb Ha. assert (0 < 2 ^ k) by (apply Z.pow_pos_nonneg; lia).
  pose proof (Z.div_mod b (2 ^ k) ltac:(lia)) as Hd. rewrite Hb, Z.add_0_r in Hd.
  replace a with (a - b + b / 2 ^ k * 2 ^ k) by lia.
  rewrite Z.div_add, Z.div_small by lia. lia.
Qed.

(** The top of an aligned block of the address space does not pass 2^64. *)
Lemma aligned_block_top a k :
  is_u64 a -> 0 <= k < 64 -> 0 <= a / 2 ^ k * 2 ^ k /\ a / 2 ^ k * 2 ^ k + 2 ^ k <= 2 ^ 64.
Proof.
  unfold is_u64. intros Ha Hk. destruct (pow2_64 k Hk).
  assert (0 <= a / 2 ^ k) by (apply Z.div_pos; lia). split; [nia|].
  assert (E : 2 ^ 64 = 2 ^ (64 - k) * 2 ^ k) by (rewrite <- Z.pow_add_r by lia; f_equal; lia).
  assert (a / 2 ^ k < 2 ^ (64 - k)) by (apply Z.div_lt_upper_bound; lia). nia.
Qed.

Definition block_covers (b o addr size : Z) : Prop :=
  b mod 2 ^ o = 0 /\ b <= addr /\ addr + size <= b + 2 ^ o.

Lemma memregion_loop_spec addr size fuel order :
  is_u64 addr -> 0 < size -> addr + size <= 2 ^ 64 -> 0 <= order <= 64 ->
  (Z.to_nat (64 - order) < fuel)%nat ->
  (forall o b, 0 <= o < order -> block_covers b o addr size -> b + 2 ^ o = 2 ^ 64) ->
  let '(b, o) := memregion_loop fuel addr size order in
  0 <= o <= 64 /\ 0 <= b /\ b + 2 ^ o <= 2 ^ 64 /\ block_covers b o addr size /\
  (forall o' b', 0 <= o' < o -> block_covers b' o' addr size -> b' + 2 ^ o' = 2 ^ 64).
Proof.
  intros Ha Hs Hend. revert order.
  induction fuel as [|n IH]; intros order Ho Hf Hmin; [lia|]. cbn [memregion_loop].
  destruct (Z.ltb_spec order XLEN) as [Hlt|Hge]; unfold XLEN in *.
  - rewrite memregion_base by (done || lia). destruct (pow2_64 order ltac:(lia)).
    pose proof (div_mul_bounds addr order ltac:(lia)).
    pose proof (aligned_block_top addr order Ha ltac:(lia)).
    set (b := addr / 2 ^ order * 2 ^ order) in *. rewrite shl64_1 by lia.
    unfold is_u64 in Ha.
    assert (Hlast : sub64 (add64 addr size) 1 = addr + size - 1).
    { unfold sub64, add64. destruct (decide (addr + size = 2 ^ 64)) as [->|].
      - reflexivity.
      - rewrite (u64_small (addr + size)), u64_small by (unfold is_u64; lia). lia. }
    rewrite Hlast.
    assert (Hal : b mod 2 ^ order = 0) by (apply Z.mod_mul; lia).
    case_if; zbool.
    + destruct (decide (b + 2 ^ order = 2 ^ 64)) as [Et|].
      { unfold add64 in *. rewrite Et in *. change (u64 (2 ^ 64)) with 0 in *. lia. }
      unfold add64 in *. rewrite u64_small in * by (unfold is_u64; lia).
      repeat split; try lia; try done.
    + apply IH; [lia|lia|]. intros o b' Ho' Hc.
      destruct (decide (o = order)) as [->|]; [|apply Hmin; [lia|done]].
      destruct Hc as (Hc1 & Hc2 & Hc3).
      assert (b' = b) as -> by (apply aligned_block_base; [lia|done|lia]).
      destruct (decide (b + 2 ^ order = 2 ^ 64)) as [|Hne]; [done|exfalso].
      assert (Hadd : add64 b (2 ^ order) = b + 2 ^ order) by (apply u64_small; unfold is_u64; lia).
      rewrite Hadd in E. apply not_true_iff_false in E. apply E.
      rewrite !andb_true_iff, !Z.leb_le, !Z.ltb_lt. lia.
  - assert (order = 64) as -> by lia. repeat split; try done; try lia.
    unfold is_u64 in Ha. lia.
Qed.

(** The last address of a region that lies inside the address space. *)
Definition region_ok (r : sbi_domain_memregion) : Prop :=
  0 <= reg_order r <= 64 /\ 0 <= reg_base r /\ reg_base r + 2 ^ reg_order r <= 2 ^ 64.

Definition region_contains (r : sbi_domain_memregion) (addr : Z) : bool :=
  (reg_base r <=? addr) && (addr <=? region_end r).

Lemma region_end_ok r : region_ok r -> region_end r = reg_base r + 2 ^ reg_order r - 1.
Proof.
  intros (Ho & Hb & Ht). unfold region_end, XLEN. destruct (Z.ltb_spec (reg_order r) 64).
  - destruct (pow2_64 (reg_order r) ltac:(lia)). rewrite shl64_1 by lia.
    unfold add64, sub64. rewrite (u64_small (_ - 1)), u64_small by (unfold is_u64; lia). lia.
  - assert (reg_order r = 64) as E by lia. rewrite E in *. unfold u64_max. lia.
Qed.

(** ** Address checks: the first applicable region decides *)

Definition applicable (mode addr : Z) (r : sbi_domain_memregion) : bool :=
  negb ((mode =? PRV_M) && negb (truthy (Z.land (reg_flags r) SBI_DOMAIN_MEMREGION_MMODE))) &&
  region_contains r addr.

Definition region_permits (r : sbi_domain_memregion) (rwx : Z) (mmio : bool) : bool :=
  Bool.eqb mmio (truthy (Z.land (reg_flags r) SBI_DOMAIN_MEMREGION_MMIO)) &&
  (Z.land (reg_flags r) rwx =? rwx).

Lemma check_regions_first l addr mode rwx mmio :
  (Forall (λ r, applicable mode addr r = false) l /\
   check_regions l addr mode rwx mmio = (mode =? PRV_M)) \/
  (exists l1 r l2, l = l1 ++ r :: l2 /\ Forall (λ r, applicable mode addr r = false) l1 /\
   applicable mode addr r = true /\
   check_regions l addr mode rwx mmio = region_permits r rwx mmio).
Proof.
  induction l as [|r l IH]; cbn; [by left|].
  destruct (applicable mode addr r) eqn:Ea.
  - right. exists [], r, l. repeat split; [constructor|done|].
    unfold applicable, region_contains in Ea.
    apply andb_true_iff in Ea as [E1 E2]. apply negb_true_iff in E1. rewrite E1, E2.
    unfold region_permits.
    destruct mmio, (truthy (Z.land (reg_flags r) SBI_DOMAIN_MEMREGION_MMIO)); done.
  - assert (Hskip : check_regions (r :: l) addr mode rwx mmio = check_regions l addr mode rwx mmio).
    { cbn. unfold applicable, region_contains in Ea.
      destruct ((mode =? PRV_M) && _); [done|]. cbn in Ea. rewrite Ea. done. }
    cbn in Hskip. rewrite Hskip. destruct IH as [[H1 H2]|(l1 & r' & l2 & -> & H1 & H2 & H3)].
    + left. split; [by constructor|done].
    + right. exists (r :: l1), r', l2. repeat split; try done. by constructor.
Qed.

(** The order in which sanitize_domain leaves the regions. *)
Definition region_le (a b : sbi_domain_memregion) : Prop := is_region_before b a = false.

Lemma region_before_iff a b :
  is_region_before a b = true <->
  reg_order a < reg_order b \/ (reg_order a = reg_order b /\ reg_base a < reg_base b).
Proof.
  unfold is_region_before. case_if; zbool; [tauto|].
  rewrite andb_true_iff, Z.eqb_eq, Z.ltb_lt. lia.
Qed.

Lemma region_le_iff a b :
  region_le a b <-> reg_order a < reg_order b \/ (reg_order a = reg_order b /\ reg_base a <= reg_base b).
Proof. unfold region_le. rewrite <- not_true_iff_false, region_before_iff. lia. Qed.

#[export] Instance region_le_preorder : PreOrder region_le.
Proof.
  split.
  - intros a. apply region_le_iff. lia.
  - intros a b c. rewrite !region_le_iff. lia.
Qed.

(** ** The exchange sort *)

Lemma swap_permutation {A} (l : list A) i j x y :
  l !! i = Some x -> l !! j = Some y -> <[i := y]> (<[j := x]> l) ≡ₚ l.
Proof.
  intros Hi Hj. assert (Hli := lookup_lt_Some _ _ _ Hi). assert (Hlj := lookup_lt_Some _ _ _ Hj).
  apply Permutation_inj. split; [by rewrite !length_insert|].
  exists (λ k, if decide (k = i) then j else if decide (k = j) then i else k). split.
  - intros a b. repeat case_decide; congruence.
  - intros k. case_decide as D; [subst k|case_decide as D2; [subst k|]].
    + rewrite list_lookup_insert_eq by (rewrite length_insert; lia). done.
    + rewrite list_lookup_insert_ne, list_lookup_insert_eq by done. done.
    + by rewrite !list_lookup_insert_ne by done.
Qed.

Lemma lookup_total_swap {A} `{!Inhabited A} (l : list A) i j k :
  (i < length l)%nat -> (j < length l)%nat ->
  <[i := l !!! j]> (<[j := l !!! i]> l) !!! k =
  l !!! (if decide (k = i) then j else if decide (k = j) then i else k).
Proof.
  intros Hi Hj. rewrite !list_lookup_total_alt. case_decide as D; [subst k|case_decide as D2; [subst k|]].
  - rewrite list_lookup_insert_eq by (rewrite length_insert; lia). done.
  - rewrite list_lookup_insert_ne, list_lookup_insert_eq by done. done.
  - by rewrite !list_lookup_insert_ne by done.
Qed.

Lemma loop_err_app {I S} (body : I → S → bool * S) l1 l2 s :
  loop_err body (l1 ++ l2) s =
  let '(ok, s1) := loop_err body l1 s in if ok then loop_err body l2 s1 else (false, s1).
Proof.
  revert s. induction l1 as [|i l1 IH]; intros s; cbn; [done|].
  destruct (body i s) as [ok s']. destruct ok; [apply IH|done].
Qed.

(** What the sort keeps: the entries below [count] are permuted among
    themselves, the others stay. *)
Definition sort_rel (count : nat) (l l' : list sbi_domain_memregion) : Prop :=
  take count l' ≡ₚ take count l /\ drop count l' = drop count l /\ length l' = length l.

Lemma sort_rel_refl count l : sort_rel count l l.
Proof. done. Qed.

Lemma sort_rel_trans count l1 l2 l3 :
  sort_rel count l1 l2 -> sort_rel count l2 l3 -> sort_rel count l1 l3.
Proof. unfold sort_rel. intros (? & ? & ?) (? & ? & ?). repeat split; etrans; eauto. Qed.

Lemma sort_rel_swap count (l : list sbi_domain_memregion) i j :
  (i < j < count)%nat -> (count <= length l)%nat ->
  sort_rel count l (<[i := l !!! j]> (<[j := l !!! i]> l)).
Proof.
  intros Hij Hc. split; [|split].
  - rewrite !take_insert_lt by lia.
    apply swap_permutation; rewrite lookup_take_lt by lia; apply list_lookup_lookup_total_lt; lia.
  - by rewrite !drop_insert_lt by lia.
  - by rewrite !length_insert.
Qed.

Lemma sort_outer_spec count i n l :
  (count <= length l)%nat -> (i + 1 + n <= count)%nat ->
  let '(ok, l') := loop_err (sort_inner i) (seq (i + 1) n) l in
  sort_rel count l l' /\
  (forall a, (a < i)%nat -> l' !!! a = l !!! a) /\
  (forall k, (i <= k < count)%nat -> exists k', (i <= k' < count)%nat /\ l' !!! k = l !!! k') /\
  (ok = true -> forall k, (i < k < i + 1 + n)%nat -> region_le (l' !!! i) (l' !!! k)).
Proof.
  intros Hlen Hn. induction n as [|n IH].
  { cbn. split; [apply sort_rel_refl|]. split; [done|]. split; [eauto|]. intros. lia. }
  rewrite seq_S, loop_err_app. specialize (IH ltac:(lia)).
  destruct (loop_err (sort_inner i) (seq (i + 1) n) l) as [ok l1].
  destruct IH as (Hrel & Hlow & Hfrom & Hle).
  assert (Hl1 : length l1 = length l) by apply Hrel.
  destruct ok; [|split; [done|split; [done|split; [done|discriminate]]]].
  cbn [loop_err]. unfold sort_inner.
  destruct (is_region_conflict _ _); [split; [done|split; [done|split; [done|discriminate]]]|].
  set (j := (i + 1 + n)%nat) in *. destruct (is_region_before (l1 !!! j) (l1 !!! i)) eqn:Eb; cbn [negb].
  - assert (Hsw := sort_rel_swap count l1 i j ltac:(lia) ltac:(lia)).
    assert (Hlk := λ k, lookup_total_swap l1 i j k ltac:(lia) ltac:(lia)).
    split; [by eapply sort_rel_trans|]. split; [|split].
    + intros a Ha. rewrite Hlk. rewrite !decide_False by lia. auto.
    + intros k Hk. rewrite Hlk. repeat case_decide; apply Hfrom; lia.
    + intros _ k Hk. rewrite !Hlk. rewrite (decide_True (P := i = i)) by done.
      rewrite (decide_False (P := k = i)) by lia.
      assert (Hji : region_le (l1 !!! j) (l1 !!! i)).
      { apply region_le_iff. apply region_before_iff in Eb. lia. }
      case_decide; [done|]. etrans; [exact Hji|]. apply Hle; [done|lia].
  - split; [done|]. split; [done|]. split; [done|]. intros _ k Hk.
    destruct (decide (k = j)) as [->|]; [exact Eb|]. apply Hle; [done|lia].
Qed.

Lemma sort_regions_prefix count n l :
  (count <= length l)%nat -> (n < count)%nat ->
  let '(ok, l') := loop_err (sort_outer count) (seq 0 n) l in
  sort_rel count l l' /\
  (ok = true -> forall a b, (a < n)%nat -> (a < b < count)%nat -> region_le (l' !!! a) (l' !!! b)).
Proof.
  intros Hlen Hn. induction n as [|n IH].
  { cbn. split; [apply sort_rel_refl|]. intros. lia. }
  rewrite seq_S, loop_err_app. specialize (IH ltac:(lia)).
  destruct (loop_err (sort_outer count) (seq 0 n) l) as [ok l1]. destruct IH as [Hrel Hs].
  destruct ok; [|split; [done|discriminate]].
  assert (Hl1 : length l1 = length l) by apply Hrel.
  cbn [loop_err]. unfold sort_outer. rewrite Nat.add_0_l.
  assert (Ho := sort_outer_spec count n (count - (n + 1)) l1 ltac:(lia) ltac:(lia)).
  destruct (loop_err (sort_inner n) _ l1) as [ok l2]. destruct Ho as (Hrel2 & Hlow & Hfrom & Hle).
  destruct ok; (split; [by eapply sort_rel_trans|]); [|discriminate]. intros _ a b Ha Hb.
  destruct (decide (a = n)) as [->|]; [apply Hle; [done|lia]|].
  rewrite Hlow by lia. destruct (decide (b < n)%nat).
  - rewrite Hlow by lia. apply Hs; [done|lia..].
  - destruct (Hfrom b ltac:(lia)) as (k & Hk & ->). apply Hs; [done|lia..].
Qed.

Lemma StronglySorted_by_index {A} `{!Inhabited A} (R : A → A → Prop) (l : list A) :
  (forall a b, (a < b < length l)%nat -> R (l !!! a) (l !!! b)) -> StronglySorted R l.
Proof.
  induction l as [|x l IH]; intros H; constructor.
  - apply IH. intros a b Hab. apply (H (S a) (S b)). cbn. lia.
  - apply Forall_lookup. intros i y Hi.
    assert (Hlt := lookup_lt_Some _ _ _ Hi).
    specialize (H 0%nat (S i) ltac:(cbn; lia)). cbn in H.
    rewrite <- (list_lookup_total_correct _ _ _ Hi). exact H.
Qed.

Lemma sort_regions_spec count l :
  (0 < count <= length l)%nat ->
  let '(ok, l') := sort_regions count l in
  sort_rel count l l' /\ (ok = true -> StronglySorted region_le (take count l')).
Proof.
  intros Hc. unfold sort_regions.
  assert (H := sort_regions_prefix count (count - 1) l ltac:(lia) ltac:(lia)).
  destruct (loop_err _ _ l) as [ok l']. destruct H as [Hrel Hs]. split; [done|].
  intros ->. apply StronglySorted_by_index. intros a b. rewrite length_take. intros Hab.
  assert (length l' = length l) by apply Hrel.
  rewrite !lookup_total_take_lt by lia. apply Hs; [done|lia..].
Qed.

(** ** Region arrays and their terminator *)

(** The array has a terminator: a region of order zero. *)
Definition terminated (l : list sbi_domain_memregion) : Prop :=
  exists r, l !! length (memregions l) = Some r /\ reg_order r = 0.

Lemma memregions_take l : memregions l = take (length (memregions l)) l.
Proof.
  induction l as [|r l IH]; cbn; [done|]. destruct (truthy (reg_order r)); cbn; [|done].
  by rewrite <- IH.
Qed.

Lemma memregions_le l : (length (memregions l) <= length l)%nat.
Proof. rewrite memregions_take, length_take. lia. Qed.

Lemma memregions_order l : Forall (λ r, reg_order r <> 0) (memregions l).
Proof.
  induction l as [|r l IH]; cbn; [constructor|]. destruct (truthy (reg_order r)) eqn:E; [|constructor].
  constructor; [by apply truthy_true|done].
Qed.

(** The regions of an array known by its prefix and the entry after it. *)
Lemma memregions_intro n l :
  Forall (λ r, reg_order r <> 0) (take n l) -> (n <= length l)%nat ->
  (forall r, l !! n = Some r -> reg_order r = 0) -> memregions l = take n l.
Proof.
  revert n. induction l as [|r l IH]; intros n Hall Hn Hend; cbn; [by rewrite take_nil|].
  destruct n as [|n]; cbn in *.
  - rewrite (proj2 (truthy_false _)); [done|]. by apply Hend.
  - apply Forall_cons_iff in Hall as [Hr Hall]. rewrite (proj2 (truthy_true _)) by done.
    f_equal. apply IH; [done|lia|done].
Qed.

Lemma memregions_app l r l' :
  Forall (λ r, reg_order r <> 0) l -> reg_order r = 0 -> memregions (l ++ r :: l') = l.
Proof.
  intros Hall Hr. induction Hall as [|x l Hx Hall IH]; cbn.
  - by rewrite Hr.
  - rewrite (proj2 (truthy_true _)) by done. by rewrite IH.
Qed.

Lemma terminated_split l :
  terminated l -> exists r l', l = memregions l ++ r :: l' /\ reg_order r = 0.
Proof.
  intros (r & Hr & H0). exists r, (drop (S (length (memregions l))) l). split; [|done].
  rewrite memregions_take at 1. symmetry. by apply take_drop_middle.
Qed.

Lemma sort_rel_memregions l l' :
  terminated l -> sort_rel (length (memregions l)) l l' ->
  memregions l' ≡ₚ memregions l /\ memregions l' = take (length (memregions l)) l' /\ terminated l'.
Proof.
  intros Ht (Hp & Hd & Hlen). set (n := length (memregions l)) in *.
  assert (Hn : (n <= length l)%nat) by apply memregions_le.
  assert (Hat : l' !! n = l !! n).
  { rewrite <- (Nat.add_0_r n), <- !lookup_drop. by rewrite Hd. }
  destruct Ht as (r & Hr & H0).
  assert (Hm : memregions l' = take n l').
  { apply memregions_intro; [|lia|].
    - rewrite Hp. unfold n. rewrite <- memregions_take. apply memregions_order.
    - intros r' Hr'. rewrite Hat in Hr'. unfold n in Hr'. congruence. }
  split; [|split; [done|]].
  - rewrite Hm, Hp. unfold n. by rewrite <- memregions_take.
  - exists r. split; [|done]. rewrite Hm, length_take, Nat.min_l by lia. rewrite Hat. exact Hr.
Qed.

(** ** sanitize_domain *)

Lemma dom_regions_store p l s d :
  domains s !! p = Some d -> is_Some (regions d) ->
  exists d', domains (store_regions p l s) !! p = Some d' /\
    dom_regions (store_regions p l s) d' = l /\ next_mode d' = next_mode d /\
    next_addr d' = next_addr d.
Proof.
  intros Hd [r Hr]. unfold store_regions, dom_regions. rewrite Hd. cbn. rewrite Hr.
  destruct r as [|l0].
  - exists d. rewrite Hr. done.
  - cbn. rewrite list_lookup_alter, Hd, decide_True by done. cbn. eexists. split; [reflexivity|]. done.
Qed.

Lemma existsb_Forall {A} (f : A → bool) l :
  existsb f l = false <-> Forall (λ x, f x = false) l.
Proof.
  induction l as [|x l IH]; cbn; [split; done|].
  rewrite orb_false_iff, Forall_cons_iff, IH. done.
Qed.

Lemma same_region_eq a b : same_region a b = true <-> a = b.
Proof.
  unfold same_region. rewrite !andb_true_iff, !Z.eqb_eq. destruct a, b; cbn. split.
  - by intros [[-> ->] ->].
  - by intros [= -> -> ->].
Qed.

(** What a successful sanity check has established. *)
Record sanitized (plat : option sbi_platform) (s s' : domain_state) (d d' : sbi_domain)
    (p : nat) : Prop := {
  san_harts : forall hm h, possible_harts d = Some hm ->
    h ∈ sbi_hartmask_for_each_hart (deref_hmask s hm) -> sbi_platform_hart_invalid plat h = false;
  san_lookup : domains s' !! p = Some d';
  san_perm : memregions (dom_regions s' d') ≡ₚ memregions (dom_regions s d);
  san_sorted : StronglySorted region_le (memregions (dom_regions s' d'));
  san_valid : Forall (λ r, is_region_valid r = true) (memregions (dom_regions s' d'));
  san_fw : root_fw_region s ∈ memregions (dom_regions s' d');
  san_mode : next_mode d' = PRV_S \/ next_mode d' = PRV_U;
  san_exec : sbi_domain_check_addr s' (Some p) (next_addr d') (next_mode d') SBI_DOMAIN_EXECUTE = true;
  san_terminated : terminated (dom_regions s' d');
}.

Lemma sanitize_run plat p s d :
  domains s !! p = Some d -> (is_Some (regions d) -> terminated (dom_regions s d)) ->
  exists rc s', sanitize_domain plat p s = (Ret rc, s') /\
    ((rc = 0 /\ exists d', sanitized plat s s' d d' p) \/ rc = SBI_EINVAL).
Proof.
  intros Hd Hterm. unfold sanitize_domain. rewrite Hd.
  destruct (possible_harts d) as [hm|] eqn:Ehm; [|eexists _, _; split; [done|by right]].
  destruct (existsb _ (sbi_hartmask_for_each_hart _)) eqn:Einv; [eexists _, _; split; [done|by right]|].
  destruct (regions d) as [rr|] eqn:Err; [|eexists _, _; split; [done|by right]].
  specialize (Hterm ltac:(done)).
  assert (Hl : deref_regions s rr = dom_regions s d) by (unfold dom_regions; by rewrite Err).
  rewrite Hl. set (l := dom_regions s d) in *.
  destruct (existsb _ (memregions l)) eqn:Ev; [eexists _, _; split; [done|by right]|].
  destruct (existsb (λ reg, same_region reg (root_fw_region s)) (memregions l)) eqn:Efw; cbn [negb];
    [|eexists _, _; split; [done|by right]].
  apply existsb_exists in Efw as (fw & Hin & Hsame). apply list_elem_of_In in Hin.
  apply same_region_eq in Hsame. subst fw.
  assert (Hpos : (0 < length (memregions l))%nat) by (destruct (memregions l); [inversion Hin|cbn; lia]).
  assert (Hsort := sort_regions_spec (length (memregions l)) l (conj Hpos (memregions_le l))).
  destruct (sort_regions _ l) as [ok l']. destruct Hsort as [Hrel Hsorted].
  destruct (sort_rel_memregions l l' Hterm Hrel) as (Hperm & Htake & Ht').
  destruct (dom_regions_store p l' s d Hd) as (d' & Hd' & Hr' & Hm' & Ha'); [by rewrite Err|].
  destruct ok; cbn [negb]; [|eexists _, _; split; [done|by right]].
  destruct (negb (next_mode d =? PRV_S) && negb (next_mode d =? PRV_U)) eqn:Emode;
    [eexists _, _; split; [done|by right]|].
  destruct (sbi_domain_check_addr _ _ _ _ _) eqn:Echk; cbn [negb]; [|eexists _, _; split; [done|by right]].
  eexists _, _. split; [done|]. left. split; [done|]. exists d'.
  constructor; rewrite ?Hr'; try done.
  - intros hm' h Heq Hh. rewrite Ehm in Heq. injection Heq as <-. apply existsb_Forall in Einv. rewrite Forall_forall in Einv. by apply Einv.
  - rewrite Htake. by apply Hsorted.
  - rewrite Hperm. apply existsb_Forall in Ev. eapply Forall_impl; [exact Ev|].
    intros r. cbn. apply negb_false_iff.
  - by rewrite Hperm.
  - rewrite Hm'. apply andb_false_iff in Emode as [E|E]; zbool; [left|right]; done.
  - by rewrite Hm', Ha'.
Qed.

(** In a sorted list the first applicable region is a smallest one. *)
Lemma sorted_first_least l l1 r l2 mode addr r' :
  l = l1 ++ r :: l2 -> StronglySorted region_le l ->
  Forall (λ r, applicable mode addr r = false) l1 ->
  r' ∈ l -> applicable mode addr r' = true -> region_le r r'.
Proof.
  intros -> Hs Hno Hin Ha. apply elem_of_app in Hin as [Hin|Hin].
  - rewrite Forall_forall in Hno. apply Hno in Hin. congruence.
  - apply elem_of_cons in Hin as [->|Hin]; [reflexivity|].
    apply StronglySorted_app_1_r in Hs. apply StronglySorted_inv in Hs as [_ Hs].
    rewrite Forall_forall in Hs. by apply Hs.
Qed.

(** ** The hart assignment invariant *)

Definition registered (s : domain_state) (p : nat) : Prop := Some p ∈ domidx_to_domain_table s.

(** The part of a domain the assignment reads. *)
Definition hart_view (d : sbi_domain) : sbi_hartmask * option hmask_ref :=
  (assigned_harts d, possible_harts d).

Record domain_inv (s : domain_state) : Prop := {
  inv_harts_len : length (hartid_to_domain_table s) = 128%nat;
  inv_idx_len : length (domidx_to_domain_table s) = 32%nat;
  inv_count : 0 <= domain_count s <= 32;
  inv_idx_low : forall i : nat, Z.of_nat i < domain_count s ->
    exists q, domidx_to_domain_table s !! i = Some (Some q) /\ is_Some (domains s !! q);
  inv_idx_high : forall i : nat, domain_count s <= Z.of_nat i < 32 ->
    domidx_to_domain_table s !! i = Some None;
  inv_masks : forall p d, registered s p -> domains s !! p = Some d -> hartmask_wf (assigned_harts d);
  inv_assigned : forall p d h, registered s p -> domains s !! p = Some d -> 0 <= h < 128 ->
    h ∈ hartmask_set (assigned_harts d) <-> hartid_to_domain_table s !! Z.to_nat h = Some (Some p);
  inv_table : forall (h : nat) p, hartid_to_domain_table s !! h = Some (Some p) -> registered s p;
  inv_possible : forall p d h, registered s p -> domains s !! p = Some d ->
    h ∈ hartmask_set (assigned_harts d) ->
    exists hm, possible_harts d = Some hm /\ h ∈ hartmask_set (deref_hmask s hm);
}.

Lemma hartmask_set_bound m h : h ∈ hartmask_set m -> 0 <= h < 128.
Proof. rewrite elem_of_hartmask_set. by intros [_ H]. Qed.

(** The invariant reads only the tables, the count, the root mask and the masks. *)
Lemma domain_inv_ext s s' :
  hartid_to_domain_table s' = hartid_to_domain_table s ->
  domidx_to_domain_table s' = domidx_to_domain_table s ->
  domain_count s' = domain_count s -> root_hmask s' = root_hmask s ->
  (forall p, hart_view <$> domains s' !! p = hart_view <$> domains s !! p) ->
  domain_inv s -> domain_inv s'.
Proof.
  intros E1 E2 E3 E4 Hv I.
  assert (Hd : forall p d', domains s' !! p = Some d' ->
    exists d, domains s !! p = Some d /\ assigned_harts d' = assigned_harts d /\
      possible_harts d' = possible_harts d).
  { intros p d' Hp. specialize (Hv p). rewrite Hp in Hv. cbn in Hv.
    destruct (domains s !! p) as [d|]; [|discriminate]. injection Hv as Ha Hb. eauto. }
  assert (Hreg : forall p, registered s' p <-> registered s p) by (intros; unfold registered; by rewrite E2).
  constructor; rewrite ?E1, ?E2, ?E3.
  - apply I.
  - apply I.
  - apply I.
  - intros i Hi. destruct (inv_idx_low s I i Hi) as (q & Hq & [d Hd0]). exists q. split; [done|].
    specialize (Hv q). rewrite Hd0 in Hv. cbn in Hv. destruct (domains s' !! q); [eauto|discriminate].
  - apply I.
  - intros p d' Hr Hp. apply Hreg in Hr. destruct (Hd p d' Hp) as (d & Hp0 & -> & _).
    by eapply inv_masks.
  - intros p d' h Hr Hp. apply Hreg in Hr. destruct (Hd p d' Hp) as (d & Hp0 & -> & _).
    by eapply inv_assigned.
  - intros h p. rewrite Hreg. apply (inv_table s I h p).
  - intros p d' h Hr Hp Hh. apply Hreg in Hr. destruct (Hd p d' Hp) as (d & Hp0 & Ha & Hb).
    rewrite Ha in Hh. destruct (inv_possible s I p d h Hr Hp0 Hh) as (hm & Hhm & Hin).
    exists hm. rewrite Hb. split; [done|]. destruct hm; cbn in *; [by rewrite E4|done].
Qed.

Lemma hart_view_upd s p f q :
  (forall d, hart_view (f d) = hart_view d) ->
  hart_view <$> domains (upd_dom p f s) !! q = hart_view <$> domains s !! q.
Proof.
  intros Hf. cbn. rewrite list_lookup_alter.
  case_decide; [subst q|done]. destruct (domains s !! p) as [d|]; cbn; rewrite ?Hf; done.
Qed.

Lemma store_regions_frame p l s q :
  hartid_to_domain_table (store_regions p l s) = hartid_to_domain_table s /\
  domidx_to_domain_table (store_regions p l s) = domidx_to_domain_table s /\
  domain_count (store_regions p l s) = domain_count s /\
  root_hmask (store_regions p l s) = root_hmask s /\
  hart_view <$> domains (store_regions p l s) !! q = hart_view <$> domains s !! q /\
  root_fw_region (store_regions p l s) = root_fw_region s /\
  domain_finalized (store_regions p l s) = domain_finalized s.
Proof.
  unfold store_regions. destruct (domains s !! p ≫= regions) as [[|l0]|]; try done.
  all: repeat split; apply (hart_view_upd s p); done.
Qed.

(** sanitize_domain changes nothing but the order of the regions. *)
Lemma sanitize_frame plat p s :
  snd (sanitize_domain plat p s) = s \/ exists l, snd (sanitize_domain plat p s) = store_regions p l s.
Proof.
  unfold sanitize_domain. destruct (domains s !! p) as [d|]; [|by left].
  destruct (possible_harts d) as [hm|]; [|by left].
  destruct (existsb _ (sbi_hartmask_for_each_hart _)); [by left|].
  destruct (regions d) as [rr|]; [|by left].
  destruct (existsb _ (memregions _)); [by left|].
  destruct (negb (existsb _ (memregions _))); [by left|].
  destruct (sort_regions _ _) as [ok l']. right. exists l'.
  repeat case_if; done.
Qed.

Lemma sanitize_same plat p s :
  let s' := snd (sanitize_domain plat p s) in
  hartid_to_domain_table s' = hartid_to_domain_table s /\
  domidx_to_domain_table s' = domidx_to_domain_table s /\
  domain_count s' = domain_count s /\ root_hmask s' = root_hmask s /\
  (forall q, hart_view <$> domains s' !! q = hart_view <$> domains s !! q) /\
  root_fw_region s' = root_fw_region s /\ domain_finalized s' = domain_finalized s.
Proof.
  cbn zeta. destruct (sanitize_frame plat p s) as [->|[l ->]]; [done|].
  destruct (store_regions_frame p l s 0) as (? & ? & ? & ? & _ & ? & ?).
  repeat split; try done. intros q. apply store_regions_frame.
Qed.

Lemma sanitize_inv plat p s : domain_inv s -> domain_inv (snd (sanitize_domain plat p s)).
Proof.
  intros I. destruct (sanitize_same plat p s) as (? & ? & ? & ? & ? & _).
  by eapply domain_inv_ext.
Qed.

(** The hart masks of the store after the updates of one assignment. *)
Lemma upd_dom_lookup s p f q :
  domains (upd_dom p f s) !! q = if decide (p = q) then f <$> domains s !! q else domains s !! q.
Proof. cbn. rewrite list_lookup_alter. by case_decide; subst. Qed.

Lemma assign_body_inv p cold s i d hm :
  domain_inv s -> registered s p -> domains s !! p = Some d -> possible_harts d = Some hm ->
  0 <= i < 128 ->
  let s' := assign_body p cold s i in
  domain_inv s' /\ registered s' p /\
  hartid_to_domain_table s' =
    (if decide (i ∈ hartmask_set (deref_hmask s hm))
     then <[Z.to_nat i := Some p]> (hartid_to_domain_table s) else hartid_to_domain_table s) /\
  domidx_to_domain_table s' = domidx_to_domain_table s /\ root_hmask s' = root_hmask s /\
  exists d', domains s' !! p = Some d' /\ possible_harts d' = Some hm.
Proof.
  intros I Hreg Hd Hhm Hi. cbn zeta. unfold assign_body. rewrite Hd. cbn [mbind option_bind].
  rewrite Hhm, hartmask_test_hart_spec by lia.
  case_decide as Hin; cbn [truthy negb Z.eqb];
    [|split; [exact I|]; do 4 (split; [done|]); eauto].
  set (s1 := match mjoin _ with Some q => _ | None => s end).
  assert (Hs1 : hartid_to_domain_table s1 = hartid_to_domain_table s /\
    domidx_to_domain_table s1 = domidx_to_domain_table s /\ root_hmask s1 = root_hmask s /\
    domain_count s1 = domain_count s /\
    forall q, domains s1 !! q =
      if decide (hartid_to_domain_table s !! Z.to_nat i = Some (Some q))
      then (λ d, dom_set_assigned (sbi_hartmask_clear_hart i (assigned_harts d)) d) <$> domains s !! q
      else domains s !! q).
  { unfold s1. destruct (hartid_to_domain_table s !! Z.to_nat i) as [[q|]|] eqn:Et; cbn [mjoin option_join].
    - repeat split; try done. intros q'. rewrite upd_dom_lookup.
      destruct (decide (q = q')) as [->|]; [by rewrite decide_True by done|].
      rewrite decide_False by congruence. done.
    - done.
    - done. }
  destruct Hs1 as (T1 & T2 & T3 & T4 & T5). clearbody s1.
  set (s4 := upd_dom p _ (upd_dom p _ _)).
  assert (Hlk : forall q, domains s4 !! q =
    (λ d1, if decide (p = q)
           then (λ d2, if (i =? cold) && negb (boot_hartid d2 =? cold) then dom_set_boot_hartid cold d2 else d2)
                  (dom_set_assigned (sbi_hartmask_set_hart i (assigned_harts d1)) d1)
           else d1) <$> domains s1 !! q).
  { intros q. unfold s4. rewrite !upd_dom_lookup. cbn [domains set_hartid_table].
    destruct (domains s1 !! q) as [d1|]; [|by case_decide]. by case_decide. }
  assert (Hr4 : forall q, registered s4 q <-> registered s q)
    by (intros q; unfold registered; cbn; by rewrite T2).
  assert (Hview : forall q d4, domains s4 !! q = Some d4 -> exists d0, domains s !! q = Some d0 /\
    possible_harts d4 = possible_harts d0 /\
    assigned_harts d4 =
      (let m := if decide (hartid_to_domain_table s !! Z.to_nat i = Some (Some q))
                then sbi_hartmask_clear_hart i (assigned_harts d0) else assigned_harts d0 in
       if decide (p = q) then sbi_hartmask_set_hart i m else m)).
  { intros q d4 Hq. rewrite Hlk, T5 in Hq. cbn zeta.
    destruct (domains s !! q) as [d0|];
      destruct (decide (hartid_to_domain_table s !! Z.to_nat i = Some (Some q))) as [D1|D1];
      try discriminate; exists d0; cbn in Hq; injection Hq as <-;
      destruct (decide (p = q)); try case_if; done. }
  assert (Hmask : forall q d4, registered s q -> domains s4 !! q = Some d4 -> exists d0,
    domains s !! q = Some d0 /\ possible_harts d4 = possible_harts d0 /\
    hartmask_wf (assigned_harts d4) /\
    forall h, 0 <= h < 128 -> h ∈ hartmask_set (assigned_harts d4) <->
      (if decide (h = i) then p = q else h ∈ hartmask_set (assigned_harts d0))).
  { intros q d4 Hrq Hq. destruct (Hview q d4 Hq) as (d0 & H0 & Hp & ->). exists d0.
    split; [done|]. split; [done|]. cbn zeta.
    assert (W := inv_masks s I q d0 Hrq H0).
    assert (Ha := inv_assigned s I q d0 i Hrq H0 Hi).
    destruct (hartmask_clear_hart_spec (assigned_harts d0) i W Hi) as [Wc Ec].
    destruct (decide (hartid_to_domain_table s !! Z.to_nat i = Some (Some q))) as [D1|D1];
      destruct (decide (p = q)) as [D2|D2]; try subst q.
    - destruct (hartmask_set_hart_spec _ i Wc Hi) as [Ws Es]. split; [done|]. intros h Hh.
      rewrite Es, Ec. destruct (decide (h = i)); set_solver.
    - split; [done|]. intros h Hh. rewrite Ec. destruct (decide (h = i)); set_solver.
    - destruct (hartmask_set_hart_spec _ i W Hi) as [Ws Es]. split; [done|]. intros h Hh.
      rewrite Es. destruct (decide (h = i)); set_solver.
    - split; [done|]. intros h Hh. destruct (decide (h = i)); [subst h; tauto|done]. }
  split; [|split; [by apply Hr4|split; [cbn; by rewrite T1|split; [exact T2|split; [exact T3|]]]]].
  - constructor.
    + cbn. rewrite length_insert, T1. apply I.
    + cbn. rewrite T2. apply I.
    + cbn. rewrite T4. apply I.
    + cbn [domain_count domidx_to_domain_table upd_dom set_domains set_hartid_table s4].
      rewrite T2, T4. intros k Hk. destruct (inv_idx_low s I k Hk) as (q & Hq & [d0 H0]).
      exists q. split; [done|]. rewrite Hlk, T5, H0. apply fmap_is_Some.
      destruct (decide _); by eexists.
    + cbn. rewrite T2, T4. apply I.
    + intros q d4 Hrq Hq. apply Hr4 in Hrq. by destruct (Hmask q d4 Hrq Hq) as (? & _ & _ & ? & _).
    + intros q d4 h Hrq Hq Hh. apply Hr4 in Hrq.
      destruct (Hmask q d4 Hrq Hq) as (d0 & H0 & _ & _ & Hm). rewrite Hm by done.
      cbn. rewrite T1. destruct (decide (h = i)) as [D|D].
      * subst h. rewrite list_lookup_insert_eq by (rewrite (inv_harts_len s I); lia). split; congruence.
      * rewrite list_lookup_insert_ne by lia. by apply (inv_assigned s I).
    + intros h q. cbn. rewrite T1, Hr4. intros Hq. apply list_lookup_insert_Some in Hq as [(? & [= <-] & _)|[_ Hq]]; [done|].
      by eapply inv_table.
    + intros q d4 h Hrq Hq Hh. apply Hr4 in Hrq.
      destruct (Hmask q d4 Hrq Hq) as (d0 & H0 & Hp & _ & Hm). assert (Hb := hartmask_set_bound _ _ Hh).
      apply Hm in Hh; [|done]. rewrite Hp.
      assert (Hdr : forall r, deref_hmask s4 r = deref_hmask s r) by (intros []; cbn; [exact T3|done]).
      destruct (decide (h = i)) as [D|D].
      * subst h q. assert (d0 = d) as -> by congruence. exists hm. by rewrite Hdr.
      * destruct (inv_possible s I q d0 h Hrq H0 Hh) as (r & Hr & Hin'). exists r. by rewrite Hdr.
  - destruct (domains s4 !! p) as [d4|] eqn:E4.
    + exists d4. split; [done|]. destruct (Hview p d4 E4) as (d0 & H0 & -> & _). congruence.
    + rewrite Hlk, T5, Hd in E4. apply fmap_None in E4. destruct (decide _); discriminate.
Qed.

(** The assignment loop of sbi_domain_register. *)
Lemma assign_loop_inv p cold hm harts s d :
  domain_inv s -> registered s p -> domains s !! p = Some d -> possible_harts d = Some hm ->
  Forall (λ i, 0 <= i < 128) harts ->
  let s' := foldl (assign_body p cold) s harts in
  domain_inv s' /\ registered s' p /\
  forall h, 0 <= h < 128 -> hartid_to_domain_table s' !! Z.to_nat h =
    if decide (h ∈ harts /\ h ∈ hartmask_set (deref_hmask s hm)) then Some (Some p)
    else hartid_to_domain_table s !! Z.to_nat h.
Proof.
  intros I Hreg Hd Hhm Hall. revert s d I Hreg Hd Hhm.
  induction Hall as [|i harts Hi Hall IH]; intros s d I Hreg Hd Hhm; cbn zeta.
  { split; [done|]. split; [done|]. intros h Hh. rewrite decide_False; [done|set_solver]. }
  cbn [foldl]. destruct (assign_body_inv p cold s i d hm I Hreg Hd Hhm Hi)
    as (I1 & R1 & T1 & _ & M1 & d1 & Hd1 & Hhm1).
  set (s1 := assign_body p cold s i) in *.
  destruct (IH s1 d1 I1 R1 Hd1 Hhm1) as (I2 & R2 & T2). split; [done|]. split; [done|].
  intros h Hh. rewrite T2 by done.
  assert (Hm : deref_hmask s1 hm = deref_hmask s hm) by (destruct hm; cbn; congruence).
  rewrite Hm, T1. destruct (decide (h = i)) as [->|Hne].
  - destruct (decide (i ∈ hartmask_set (deref_hmask s hm))) as [Din|Din].
    + rewrite list_lookup_insert_eq by (rewrite (inv_harts_len s I); lia).
      rewrite (decide_True (P := i ∈ i :: harts /\ _)) by (split; [left|]; done). by case_decide.
    + rewrite !decide_False by tauto. done.
  - assert (Hl : (if decide (i ∈ hartmask_set (deref_hmask s hm))
                  then <[Z.to_nat i := Some p]> (hartid_to_domain_table s)
                  else hartid_to_domain_table s) !! Z.to_nat h = hartid_to_domain_table s !! Z.to_nat h).
    { case_decide; [by rewrite list_lookup_insert_ne by lia|done]. }
    rewrite Hl. destruct (decide (h ∈ harts /\ _)) as [D|D].
    + rewrite decide_True; [done|]. set_solver.
    + rewrite decide_False; [done|]. set_solver.
Qed.

Lemma domain_registered_false tbl p :
  Some p ∉ tbl -> None ∈ tbl -> domain_registered tbl p = Ret false.
Proof.
  induction tbl as [|x tbl IH]; intros Hn Hin; [inversion Hin|].
  destruct x as [q|]; [|done]. cbn. rewrite decide_False by set_solver. apply IH; set_solver.
Qed.

Lemma domain_registered_true tbl p (n : nat) :
  (forall i, (i < n)%nat -> exists q, tbl !! i = Some (Some q)) -> tbl !! n = Some (Some p) ->
  domain_registered tbl p = Ret true.
Proof.
  revert n. induction tbl as [|x tbl IH]; intros n Hlow Hn; [by rewrite lookup_nil in Hn|].
  destruct n as [|n]; cbn in Hn.
  - injection Hn as ->. cbn. by rewrite decide_True.
  - destruct (Hlow 0%nat ltac:(lia)) as (q & [= ->]). cbn. case_decide; [done|].
    apply (IH n); [|done]. intros i Hi. apply (Hlow (S i)). lia.
Qed.

Lemma domain_registered_full tbl p :
  Forall (λ x, exists q, x = Some q /\ q <> p) tbl -> domain_registered tbl p = Stop wild_access.
Proof.
  induction 1 as [|x tbl (q & -> & Hq) _ IH]; [done|]. cbn. by rewrite decide_False.
Qed.

Lemma registered_index s p :
  domain_inv s -> registered s p ->
  exists i : nat, Z.of_nat i < domain_count s /\ domidx_to_domain_table s !! i = Some (Some p).
Proof.
  intros I Hr. apply list_elem_of_lookup in Hr as [i Hi]. exists i. split; [|done].
  assert (Hlt := lookup_lt_Some _ _ _ Hi). rewrite (inv_idx_len s I) in Hlt.
  destruct (Z.lt_ge_cases (Z.of_nat i) (domain_count s)) as [|Hge]; [done|].
  rewrite (inv_idx_high s I i) in Hi by lia. discriminate.
Qed.

(** Entering a new domain in the index table, with no hart assigned yet. *)
Lemma enter_domain_inv s p d :
  domain_inv s -> ~ registered s p -> domains s !! p = Some d -> domain_count s < 32 ->
  let s1 := upd_dom p (dom_set_index (domain_count s)) (set_domain_count (domain_count s + 1) s) in
  let s2 := set_domidx_table (<[Z.to_nat (domain_count s) := Some p]> (domidx_to_domain_table s1)) s1 in
  let s3 := upd_dom p (dom_set_assigned sbi_hartmask_clear_all) s2 in
  domain_inv s3 /\ registered s3 p /\ hartid_to_domain_table s3 = hartid_to_domain_table s /\
  root_hmask s3 = root_hmask s /\
  exists d', domains s3 !! p = Some d' /\ possible_harts d' = possible_harts d.
Proof.
  intros I Hnr Hd Hc. cbn zeta. set (s3 := upd_dom p _ (set_domidx_table _ _)).
  assert (Hidx : domidx_to_domain_table s3 = <[Z.to_nat (domain_count s) := Some p]> (domidx_to_domain_table s))
    by done.
  pose proof (inv_count s I) as Hcnt. pose proof (inv_idx_len s I) as Hlen.
  assert (Hfree : domidx_to_domain_table s !! Z.to_nat (domain_count s) = Some None)
    by (apply (inv_idx_high s I); lia).
  assert (Hreg : forall q, registered s3 q <-> q = p \/ registered s q).
  { intros q. unfold registered. rewrite Hidx. rewrite !list_elem_of_lookup. split.
    - intros [i Hi]. apply list_lookup_insert_Some in Hi as [(_ & [= <-] & _)|[_ Hi]]; eauto.
    - intros [->|[i Hi]]; [exists (Z.to_nat (domain_count s)); apply list_lookup_insert_eq; lia|].
      exists i. rewrite list_lookup_insert_ne; [done|]. intros <-. congruence. }
  assert (Hlk : forall q d3, domains s3 !! q = Some d3 -> exists d0, domains s !! q = Some d0 /\
    possible_harts d3 = possible_harts d0 /\
    assigned_harts d3 = if decide (p = q) then sbi_hartmask_clear_all else assigned_harts d0).
  { intros q d3 Hq. unfold s3 in Hq. rewrite upd_dom_lookup in Hq.
    change (domains (set_domidx_table ?t ?u)) with (domains u) in Hq.
    rewrite upd_dom_lookup in Hq. change (domains (set_domain_count ?c ?u)) with (domains u) in Hq.
    destruct (decide (p = q)); destruct (domains s !! q) as [d0|]; try discriminate;
      injection Hq as <-; exists d0; done. }
  assert (Hp3 : exists d3, domains s3 !! p = Some d3 /\ possible_harts d3 = possible_harts d).
  { unfold s3. rewrite upd_dom_lookup, decide_True by done.
    change (domains (set_domidx_table ?t ?u)) with (domains u).
    rewrite upd_dom_lookup, decide_True by done. cbn. rewrite Hd. by eexists. }
  pose proof hartmask_wf_init as Wz. pose proof hartmask_set_init as Ez.
  split; [|split; [apply Hreg; by left|split; [done|split; [done|exact Hp3]]]].
  constructor.
  - apply I.
  - rewrite Hidx, length_insert. apply I.
  - cbn. lia.
  - intros i Hi. cbn in Hi. rewrite Hidx. destruct (decide (i = Z.to_nat (domain_count s))) as [->|].
    + exists p. rewrite list_lookup_insert_eq by lia. split; [done|].
      destruct Hp3 as (d3 & -> & _). done.
    + rewrite list_lookup_insert_ne by lia. destruct (inv_idx_low s I i ltac:(lia)) as (q & Hq & Hs).
      exists q. split; [done|]. unfold s3. rewrite upd_dom_lookup.
      change (domains (set_domidx_table ?t ?u)) with (domains u). rewrite upd_dom_lookup. cbn.
      destruct Hs as [d0 ->]. case_decide; by eexists.
  - intros i Hi. cbn in Hi. rewrite Hidx, list_lookup_insert_ne by lia. apply I. lia.
  - intros q d3 Hr Hq. destruct (Hlk q d3 Hq) as (d0 & H0 & _ & ->). case_decide as D; [exact Wz|].
    apply Hreg in Hr as [->|Hr]; [done|]. by eapply inv_masks.
  - intros q d3 h Hr Hq Hh. destruct (Hlk q d3 Hq) as (d0 & H0 & _ & ->).
    change (hartid_to_domain_table s3) with (hartid_to_domain_table s). case_decide as D.
    + subst q. unfold sbi_hartmask_clear_all. split; [|].
      * intros Hin. exfalso. revert Hin. change (Hartmask _) with SBI_HARTMASK_INIT. rewrite Ez. set_solver.
      * intros Ht. apply (inv_table s I) in Ht. done.
    + apply Hreg in Hr as [->|Hr]; [done|]. by apply (inv_assigned s I).
  - intros h q Ht. apply Hreg. right. by eapply inv_table.
  - intros q d3 h Hr Hq Hh. destruct (Hlk q d3 Hq) as (d0 & H0 & -> & Ha). rewrite Ha in Hh.
    case_decide as D.
    + exfalso. revert Hh. unfold sbi_hartmask_clear_all. change (Hartmask _) with SBI_HARTMASK_INIT.
      rewrite Ez. set_solver.
    + apply Hreg in Hr as [->|Hr]; [done|].
      destruct (inv_possible s I q d0 h Hr H0 Hh) as (hm & ? & ?). exists hm. split; [done|].
      by destruct hm.
Qed.

#[export] Instance registered_dec s p : Decision (registered s p).
Proof. unfold registered. apply _. Defined.

(** The harts of an optional mask. *)
Definition harts_of (s : domain_state) (hm : option hmask_ref) : gset Z :=
  match hm with Some m => hartmask_set (deref_hmask s m) | None => ∅ end.

(** What sbi_domain_register does when it returns: either the domain is
    registered and takes over its harts, or it fails and no hart moves. *)
Definition register_result (s : domain_state) (p : nat) (am : hmask_ref) (hm : option hmask_ref)
    (rc : Z) (s' : domain_state) : Prop :=
  domain_inv s' /\
  ((rc = 0 /\ registered s' p /\ ~ registered s p /\
    forall h, 0 <= h < 128 -> hartid_to_domain_table s' !! Z.to_nat h =
      if decide (h ∈ hartmask_set (deref_hmask s am) /\ h ∈ harts_of s hm)
      then Some (Some p) else hartid_to_domain_table s !! Z.to_nat h) \/
   ((rc = SBI_EINVAL \/ (rc = SBI_EALREADY /\ registered s p)) /\
    hartid_to_domain_table s' = hartid_to_domain_table s)).

Lemma sanitize_ok_possible plat p s s' d :
  domains s !! p = Some d -> sanitize_domain plat p s = (Ret 0, s') -> is_Some (possible_harts d).
Proof.
  intros Hd. unfold sanitize_domain. rewrite Hd. destruct (possible_harts d); [done|]. by intros [=].
Qed.

Lemma register_run plat cold s p am d :
  domain_inv s -> domains s !! p = Some d -> (is_Some (regions d) -> terminated (dom_regions s d)) ->
  hartmask_wf (deref_hmask s am) -> domain_count s < 32 \/ registered s p ->
  exists rc s', sbi_domain_register plat cold (Some p) (Some am) s = (Ret rc, s') /\
    register_result s p am (possible_harts d) rc s'.
Proof.
  intros I Hd Hterm Wam Hroom. unfold sbi_domain_register, register_result.
  destruct (domain_finalized s).
  { eexists _, _. split; [done|]. split; [done|]. right. split; [by left|done]. }
  destruct (decide (registered s p)) as [Hr|Hnr].
  { destruct (registered_index s p I Hr) as (i & Hi & Hli).
    rewrite (domain_registered_true _ _ i); [|intros k Hk|done].
    - eexists _, _. split; [done|]. split; [done|]. right. split; [by right|done].
    - destruct (inv_idx_low s I k ltac:(lia)) as (q & Hq & _). eauto. }
  destruct Hroom as [Hroom|]; [|done].
  pose proof (inv_count s I) as Hcnt.
  rewrite domain_registered_false; [|done|].
  2:{ apply (list_elem_of_lookup_2 _ (Z.to_nat (domain_count s))). apply (inv_idx_high s I). lia. }
  rewrite (proj2 (Z.leb_gt _ _)) by (unfold SBI_DOMAIN_MAX_INDEX; lia).
  destruct (sanitize_run plat p s d Hd Hterm) as (rc & s1 & E & Hres).
  destruct (sanitize_same plat p s) as (F1 & F2 & F3 & F4 & F5 & _ & _).
  pose proof (sanitize_inv plat p s I) as I1. rewrite E in *. cbn [snd] in *.
  destruct Hres as [[-> _]| ->].
  2:{ eexists _, _. split; [done|]. split; [done|]. right. split; [by left|done]. }
  destruct (sanitize_ok_possible plat p s s1 d Hd E) as [hm Hhm].
  cbn [truthy Z.eqb negb].
  assert (Hd1 : exists d1, domains s1 !! p = Some d1 /\ possible_harts d1 = Some hm).
  { specialize (F5 p). rewrite Hd in F5. destruct (domains s1 !! p) as [d1|]; [|discriminate].
    injection F5 as _ Hp. exists d1. split; congruence. }
  destruct Hd1 as (d1 & Hd1 & Hhm1).
  assert (Hnr1 : ~ registered s1 p) by (unfold registered; by rewrite F2).
  destruct (enter_domain_inv s1 p d1 I1 Hnr1 Hd1 ltac:(lia)) as (I3 & R3 & T3 & M3 & d3 & Hd3 & Hhm3).
  cbn zeta in *. set (s3 := upd_dom p _ (set_domidx_table _ _)) in *.
  assert (Hm3 : forall r, deref_hmask s3 r = deref_hmask s r) by (intros []; cbn; congruence).
  rewrite (Hm3 am).
  destruct (assign_loop_inv p cold hm (sbi_hartmask_for_each_hart (deref_hmask s am)) s3 d3 I3 R3 Hd3)
    as (I4 & R4 & T4); [congruence| |].
  { apply Forall_forall. intros i Hi. apply elem_of_for_each_hart in Hi; [|done].
    by eapply hartmask_set_bound. }
  eexists _, _. split; [reflexivity|]. split; [exact I4|]. left. split; [done|].
  split; [done|]. split; [done|]. intros h Hh. rewrite T4 by done. rewrite Hm3, T3, F1.
  apply decide_ext. rewrite elem_of_for_each_hart by done. by rewrite Hhm.
Qed.

(** ** The root domain *)

(** The hart mask the loop of sbi_domain_init builds. *)
Definition valid_hmask (plat : option sbi_platform) (m : sbi_hartmask) (l : list Z) : sbi_hartmask :=
  foldl (λ m i, if sbi_platform_hart_invalid plat i then m else sbi_hartmask_set_hart i m) m l.

Lemma init_hmask_loop plat l s :
  foldl (λ s i, if sbi_platform_hart_invalid plat i then s
                else set_root_hmask (sbi_hartmask_set_hart i (root_hmask s)) s) s l =
  set_root_hmask (valid_hmask plat (root_hmask s) l) s.
Proof.
  revert s. induction l as [|i l IH]; intros s; cbn; [by destruct s|]. rewrite IH. by case_if.
Qed.

Lemma valid_hmask_spec plat m l :
  hartmask_wf m -> Forall (λ i, 0 <= i < 128) l ->
  hartmask_wf (valid_hmask plat m l) /\
  forall h, h ∈ hartmask_set (valid_hmask plat m l) <->
    h ∈ hartmask_set m \/ (h ∈ l /\ sbi_platform_hart_invalid plat h = false).
Proof.
  intros Hm Hall. revert m Hm. induction Hall as [|i l Hi Hall IH]; intros m Hm; cbn.
  { split; [done|]. set_solver. }
  destruct (sbi_platform_hart_invalid plat i) eqn:Ev.
  - destruct (IH m Hm) as [W E]. split; [done|]. intros h. rewrite E, elem_of_cons.
    split; [naive_solver|]. intros [?|[[->|?] ?]]; [by left|congruence|naive_solver].
  - destruct (hartmask_set_hart_spec m i Hm Hi) as [W1 E1].
    destruct (IH _ W1) as [W E]. split; [done|]. intros h. rewrite E, E1, elem_of_cons.
    set_unfold. naive_solver.
Qed.

Definition rwx_all : Z :=
  Z.lor (Z.lor SBI_DOMAIN_MEMREGION_READABLE SBI_DOMAIN_MEMREGION_WRITEABLE)
        SBI_DOMAIN_MEMREGION_EXECUTABLE.

Definition allow_all : sbi_domain_memregion := MemRegion 64 0 rwx_all.

Lemma memregion_init_all flags : sbi_domain_memregion_init 0 u64_max flags = MemRegion 64 0 flags.
Proof. reflexivity. Qed.

(** The regions of the root domain are already sorted when sbi_domain_init
    registers it. *)
Lemma sort_root fw rest :
  reg_order fw < 64 -> reg_flags fw = 0 ->
  sort_regions 2 (fw :: allow_all :: rest) = (true, fw :: allow_all :: rest).
Proof.
  intros Ho Hf. unfold sort_regions, sort_outer. cbn -[is_region_conflict is_region_before].
  unfold sort_inner. cbn -[is_region_conflict is_region_before].
  replace (is_region_conflict allow_all fw) with false.
  2:{ unfold is_region_conflict. rewrite Hf. symmetry. apply andb_false_r. }
  destruct (is_region_before allow_all fw) eqn:E; [|done].
  apply region_before_iff in E. cbn [reg_order reg_base allow_all] in E. lia.
Qed.

(** The check of an access against the two root regions. *)
Lemma check_root fw rest addr mode rwx mmio :
  reg_order fw <> 0 -> reg_flags fw = 0 -> is_u64 addr -> mode = PRV_S \/ mode = PRV_U -> 0 <= rwx <= 7 ->
  check_regions (memregions (fw :: allow_all :: MemRegion 0 0 0 :: rest)) addr mode rwx mmio =
  negb mmio && (if region_contains fw addr then rwx =? 0 else true).
Proof.
  intros Ho Hf Ha Hm Hr.
  change (fw :: allow_all :: MemRegion 0 0 0 :: rest) with ([fw; allow_all] ++ MemRegion 0 0 0 :: rest).
  rewrite memregions_app; [|repeat constructor; [done|discriminate]|done].
  cbn [check_regions]. rewrite Hf.
  replace (mode =? PRV_M) with false by (symmetry; apply Z.eqb_neq; destruct Hm as [-> | ->]; discriminate).
  cbn [andb]. unfold region_contains.
  destruct ((reg_base fw <=? addr) && (addr <=? region_end fw)).
  - change (truthy (Z.land 0 SBI_DOMAIN_MEMREGION_MMIO)) with false. rewrite Z.land_0_l, Z.eqb_sym.
    by destruct mmio.
  - change (reg_base allow_all) with 0.
    assert (E : (0 <=? addr) && (addr <=? region_end allow_all) = true).
    { unfold is_u64 in Ha. change (region_end allow_all) with (2 ^ 64 - 1).
      rewrite andb_true_iff, !Z.leb_le. lia. }
    rewrite E. change (truthy (Z.land (reg_flags allow_all) SBI_DOMAIN_MEMREGION_MMIO)) with false.
    destruct mmio; cbn [negb andb orb]; [done|].
    change (reg_flags allow_all) with (2 ^ 3 - 1). rewrite Z.land_comm, land_ones_mod by lia.
    rewrite Z.mod_small by (change (2 ^ 3) with 8; lia). apply Z.eqb_refl.
Qed.

Lemma access_rwx_range a : 0 <= access_rwx a <= 7.
Proof.
  unfold access_rwx. repeat case_if; vm_compute; split; discriminate.
Qed.

(** The firmware region is valid when the firmware has more than four bytes. *)
Lemma memregion_init_spec addr size flags :
  is_u64 addr -> 0 < size -> addr + size <= 2 ^ 64 ->
  let r := sbi_domain_memregion_init addr size flags in
  region_ok r /\ block_covers (reg_base r) (reg_order r) addr size /\ reg_flags r = flags /\
  forall o b, 0 <= o < reg_order r -> block_covers b o addr size -> b + 2 ^ o = 2 ^ 64.
Proof.
  intros Ha Hs He. cbn zeta. unfold sbi_domain_memregion_init.
  destruct (log2roundup_bounds size ltac:(lia)) as (H1 & H2 & H3).
  assert (H := memregion_loop_spec addr size 65 (log2roundup size) Ha Hs He H1 ltac:(lia)).
  destruct (memregion_loop 65 addr size (log2roundup size)) as [b o]. cbn.
  destruct H as (Ho & Hb & Ht & Hc & Hmin).
  - intros o' b' Ho' (_ & ? & ?). specialize (H2 o' Ho'). lia.
  - split; [unfold region_ok; cbn [reg_order reg_base]; lia|]. split; [exact Hc|]. split; [done|exact Hmin].
Qed.

Lemma region_valid_intro r :
  3 <= reg_order r < 64 -> 0 <= reg_base r -> reg_base r mod 2 ^ reg_order r = 0 ->
  is_region_valid r = true.
Proof.
  intros Ho Hb Hm. unfold is_region_valid, XLEN.
  rewrite (proj2 (Z.ltb_ge _ _)), (proj2 (Z.ltb_ge _ _)) by lia. cbn [orb].
  destruct (pow2_64 (reg_order r) ltac:(lia)). rewrite BIT_pow by lia. unfold sub64.
  rewrite u64_small by (unfold is_u64; lia). rewrite land_ones_mod, Hm by lia. done.
Qed.

(** The state in which sbi_domain_init registers the root domain. *)
Definition root_before (plat : option sbi_platform) (scratch : boot_scratch) (cold : Z) : domain_state :=
  let fw := sbi_domain_memregion_init (fw_start scratch) (fw_size scratch) 0 in
  DomainState (replicate 128 None) (replicate 32 None) 0 false
    (valid_hmask plat (Hartmask [0; 0]) (seqZ 0 SBI_HARTMASK_MAX_BITS)) 2 fw
    (fw :: allow_all :: replicate 15 (MemRegion 0 0 0))
    [Domain 0 (Hartmask [0; 0]) (Some RootHmask) (Some RootMemregs) cold
       (scratch_next_arg1 scratch) (scratch_next_addr scratch) (scratch_next_mode scratch) true].

Lemma domain_init_unfold plat scratch cold :
  sbi_domain_init plat scratch cold domain_initial =
  sbi_domain_register plat cold (Some root) (Some RootHmask) (root_before plat scratch cold).
Proof.
  unfold sbi_domain_init. rewrite init_hmask_loop, memregion_init_all. reflexivity.
Qed.

Lemma root_before_inv plat scratch cold : domain_inv (root_before plat scratch cold).
Proof.
  constructor; unfold registered;
    cbn [root_before hartid_to_domain_table domidx_to_domain_table domain_count].
  - apply length_replicate.
  - apply length_replicate.
  - lia.
  - intros i Hi. lia.
  - intros i Hi. apply lookup_replicate_2. lia.
  - intros p d Hr. apply elem_of_replicate in Hr as [[=] _].
  - intros p d h Hr. apply elem_of_replicate in Hr as [[=] _].
  - intros h p Hh. apply lookup_replicate_1 in Hh as [[=] _].
  - intros p d h Hr. apply elem_of_replicate in Hr as [[=] _].
Qed.

(** What the boot parameters have to satisfy: the firmware image has more than
    four bytes and ends inside the address space, and the next stage is entered
    in S- or U-mode at an address outside the firmware region. *)
Definition boot_ok (scratch : boot_scratch) : Prop :=
  is_u64 (fw_start scratch) /\ 4 < fw_size scratch /\ fw_start scratch + fw_size scratch <= 2 ^ 64 /\
  is_u64 (scratch_next_addr scratch) /\
  (scratch_next_mode scratch = PRV_S \/ scratch_next_mode scratch = PRV_U) /\
  region_contains (sbi_domain_memregion_init (fw_start scratch) (fw_size scratch) 0)
    (scratch_next_addr scratch) = false.

Lemma fw_region_spec scratch :
  boot_ok scratch ->
  let fw := sbi_domain_memregion_init (fw_start scratch) (fw_size scratch) 0 in
  3 <= reg_order fw < 64 /\ is_region_valid fw = true /\ reg_flags fw = 0 /\
  forall a, fw_start scratch <= a < fw_start scratch + fw_size scratch -> region_contains fw a = true.
Proof.
  intros (Ha & Hs & He & Hn & Hm & Hout). cbn zeta.
  destruct (memregion_init_spec (fw_start scratch) (fw_size scratch) 0 Ha ltac:(lia) He)
    as (Hok & (Hal & Hlo & Hhi) & Hf & _).
  set (fw := sbi_domain_memregion_init _ _ _) in *.
  assert (Hend := region_end_ok fw Hok). destruct Hok as (Ho & Hb & Ht).
  assert (H3 : 3 <= reg_order fw).
  { destruct (Z.lt_ge_cases (reg_order fw) 3) as [Hlt|]; [|done].
    assert (2 ^ reg_order fw <= 2 ^ 2) by (apply Z.pow_le_mono_r; lia). change (2 ^ 2) with 4 in *. lia. }
  assert (H64 : reg_order fw < 64).
  { destruct (Z.lt_ge_cases (reg_order fw) 64) as [|Hge]; [done|].
    assert (E : reg_order fw = 64) by lia. rewrite E in *. unfold is_u64 in Hn.
    unfold region_contains in Hout. rewrite Hend in Hout.
    apply andb_false_iff in Hout as [Hx|Hx]; apply Z.leb_gt in Hx; lia. }
  split; [lia|]. split; [by apply region_valid_intro|]. split; [done|].
  intros a Hr. unfold region_contains. rewrite Hend. rewrite andb_true_iff, !Z.leb_le. lia.
Qed.

Lemma sanitize_root plat scratch cold :
  boot_ok scratch ->
  sanitize_domain plat root (root_before plat scratch cold) = (Ret 0, root_before plat scratch cold).
Proof.
  intros Hboot. destruct (fw_region_spec scratch Hboot) as (Ho & Hv & Hf & _).
  destruct Hboot as (_ & _ & _ & Hn & Hm & Hout).
  assert (Wz : hartmask_wf (Hartmask [0; 0])) by apply hartmask_wf_init.
  assert (Hseq : Forall (λ i, 0 <= i < 128) (seqZ 0 SBI_HARTMASK_MAX_BITS)).
  { apply Forall_forall. intros i Hi. apply elem_of_seqZ in Hi. unfold SBI_HARTMASK_MAX_BITS in Hi. lia. }
  destruct (valid_hmask_spec plat (Hartmask [0; 0]) _ Wz Hseq) as [Wm Em].
  unfold sanitize_domain.
  unfold root_before at 1 2 3. cbn [domains lookup list_lookup possible_harts root].
  unfold root_before at 1. cbn [deref_hmask root_hmask].
  set (fw := sbi_domain_memregion_init _ _ _) in *.
  replace (existsb _ (sbi_hartmask_for_each_hart _)) with false.
  2:{ symmetry. apply existsb_Forall, Forall_forall. intros h Hh.
      apply elem_of_for_each_hart, Em in Hh; [|done].
      destruct Hh as [Hh|[_ Hh]]; [|done]. change (Hartmask [0; 0]) with SBI_HARTMASK_INIT in Hh.
      rewrite hartmask_set_init in Hh. by apply elem_of_empty in Hh. }
  cbn [regions deref_regions root_memregs root_before]. fold fw.
  assert (Hmr : memregions (fw :: allow_all :: replicate 15 (MemRegion 0 0 0)) = [fw; allow_all]).
  { change (fw :: allow_all :: replicate 15 (MemRegion 0 0 0))
      with ([fw; allow_all] ++ MemRegion 0 0 0 :: replicate 14 (MemRegion 0 0 0)).
    apply memregions_app; [|done]. repeat constructor; [lia|discriminate]. }
  rewrite Hmr. cbn [existsb]. rewrite Hv. change (is_region_valid allow_all) with true. cbn [negb orb].
  replace (same_region fw _) with true by (symmetry; by apply same_region_eq). cbn [orb negb length].
  rewrite sort_root by (done || lia). cbn [negb].
  assert (Hst : store_regions root (fw :: allow_all :: replicate 15 (MemRegion 0 0 0))
    (root_before plat scratch cold) = root_before plat scratch cold) by done.
  rewrite Hst. cbn [next_mode next_addr].
  replace (negb _ && negb _) with false by (destruct Hm as [-> | ->]; done).
  unfold sbi_domain_check_addr. cbn [mbind option_bind root_before domains lookup list_lookup root].
  unfold dom_regions. cbn [regions deref_regions].
  change (root_memregs (root_before plat scratch cold))
    with (fw :: allow_all :: MemRegion 0 0 0 :: replicate 14 (MemRegion 0 0 0)).
  rewrite check_root by (done || lia || apply access_rwx_range). rewrite Hout. done.
Qed.

Lemma upd_dom_regions s p f q :
  (forall d, regions (f d) = regions d) ->
  regions <$> domains (upd_dom p f s) !! q = regions <$> domains s !! q.
Proof.
  intros Hf. rewrite upd_dom_lookup. case_decide; [|done].
  destruct (domains s !! q); cbn; by rewrite ?Hf.
Qed.

(** Assigning harts leaves every region array alone. *)
Lemma assign_loop_regions p cold harts s :
  root_memregs (foldl (assign_body p cold) s harts) = root_memregs s /\
  forall q, regions <$> domains (foldl (assign_body p cold) s harts) !! q = regions <$> domains s !! q.
Proof.
  revert s. induction harts as [|i harts IH]; intros s; [done|]. cbn [foldl].
  destruct (IH (assign_body p cold s i)) as [E1 E2].
  enough (H : root_memregs (assign_body p cold s i) = root_memregs s /\
    forall q, regions <$> domains (assign_body p cold s i) !! q = regions <$> domains s !! q).
  { destruct H as [H1 H2]. split; [by rewrite E1|]. intros q. by rewrite E2. }
  unfold assign_body. destruct (domains s !! p ≫= possible_harts) as [hm|]; [|done].
  case_if; [done|]. split; [by destruct (mjoin _)|]. intros q.
  rewrite upd_dom_regions by (intros d; by case_if). rewrite upd_dom_regions by done.
  change (domains (set_hartid_table ?t ?u)) with (domains u).
  destruct (mjoin _); [by rewrite upd_dom_regions|done].
Qed.

(** sbi_domain_init succeeds, and the root domain ends with exactly the
    firmware region and the region that allows everything. *)
Lemma domain_init_run plat scratch cold :
  boot_ok scratch ->
  exists s' d, sbi_domain_init plat scratch cold domain_initial = (Ret 0, s') /\ domain_inv s' /\
    domains s' !! root = Some d /\ regions d = Some RootMemregs /\
    root_memregs s' = sbi_domain_memregion_init (fw_start scratch) (fw_size scratch) 0 ::
                      allow_all :: replicate 15 (MemRegion 0 0 0) /\
    forall h, 0 <= h < 128 -> hartid_to_domain_table s' !! Z.to_nat h =
      if sbi_platform_hart_invalid plat h then Some None else Some (Some root).
Proof.
  intros Hboot. rewrite domain_init_unfold. set (s := root_before plat scratch cold).
  assert (I : domain_inv s) by apply root_before_inv.
  assert (Wz : hartmask_wf (Hartmask [0; 0])) by apply hartmask_wf_init.
  assert (Hseq : Forall (λ i, 0 <= i < 128) (seqZ 0 SBI_HARTMASK_MAX_BITS)).
  { apply Forall_forall. intros i Hi. apply elem_of_seqZ in Hi. unfold SBI_HARTMASK_MAX_BITS in Hi. lia. }
  destruct (valid_hmask_spec plat (Hartmask [0; 0]) _ Wz Hseq) as [Wm Em].
  assert (Hnr : ~ registered s root).
  { unfold registered. intros Hr. apply elem_of_replicate in Hr as [[=] _]. }
  unfold sbi_domain_register. change (domain_finalized s) with false. cbv iota.
  rewrite domain_registered_false; [|done|by left].
  change (SBI_DOMAIN_MAX_INDEX <=? domain_count s) with false. cbv iota.
  unfold s at 1. rewrite sanitize_root by done. fold s. change (truthy 0) with false. cbv iota.
  destruct (enter_domain_inv s root _ I Hnr eq_refl ltac:(done)) as (I3 & R3 & T3 & M3 & d3 & Hd3 & Hhm3).
  cbn zeta in I3, R3, T3, M3, Hd3. set (s3 := upd_dom root (dom_set_assigned _) _) in *.
  set (harts := sbi_hartmask_for_each_hart _).
  assert (Hh : forall h, h ∈ harts <-> 0 <= h < 128 /\ sbi_platform_hart_invalid plat h = false).
  { intros h. unfold harts. cbn [deref_hmask]. rewrite M3.
    rewrite elem_of_for_each_hart by exact Wm. unfold s. cbn [root_hmask root_before]. rewrite Em.
    change (Hartmask [0; 0]) with SBI_HARTMASK_INIT. rewrite hartmask_set_init, elem_of_seqZ.
    unfold SBI_HARTMASK_MAX_BITS. rewrite elem_of_empty. split.
    - intros [[]|[Hx Hy]]. split; [lia|exact Hy].
    - intros [Hx Hy]. right. split; [lia|exact Hy]. }
  assert (Hin : forall h, h ∈ hartmask_set (root_hmask s) <-> h ∈ harts).
  { intros h. unfold harts. cbn [deref_hmask]. rewrite M3. symmetry.
    apply elem_of_for_each_hart. exact Wm. }
  clearbody harts.
  destruct (assign_loop_inv root cold RootHmask harts s3 d3 I3 R3 Hd3 Hhm3) as (I4 & R4 & T4).
  { apply Forall_forall. intros i Hi. apply Hh in Hi as [Hx _]. exact Hx. }
  destruct (assign_loop_regions root cold harts s3) as [G1 G2].
  set (s4 := foldl (assign_body root cold) s3 harts) in *.
  assert (Hreg3 : regions <$> domains s3 !! root = Some (Some RootMemregs)) by done.
  rewrite <- (G2 root) in Hreg3. destruct (domains s4 !! root) as [d4|] eqn:E4; [|discriminate].
  injection Hreg3 as Hreg4. exists s4, d4.
  split; [done|]. split; [done|]. split; [done|]. split; [done|]. split; [by rewrite G1|].
  intros h Hr. rewrite T4 by done. cbn [deref_hmask]. rewrite M3, T3.
  destruct (sbi_platform_hart_invalid plat h) eqn:Ev.
  - rewrite decide_False; [apply lookup_replicate_2; lia|]. rewrite Hh. intros [[_ ?] _]. congruence.
  - rewrite decide_True; [done|]. rewrite Hin, Hh. tauto.
Qed.

(** ** Properties *)

(** sbi_domain_memregion_init computes the smallest naturally aligned
    power-of-two block that covers the given range; a smaller block that also
    covers it is passed over only when it is the one that ends at the top of the
    address space. *)
Theorem memregion_init_smallest addr size flags :
  is_u64 addr -> 0 < size -> addr + size <= 2 ^ 64 ->
  let r := sbi_domain_memregion_init addr size flags in
  region_ok r /\ block_covers (reg_base r) (reg_order r) addr size /\ reg_flags r = flags /\
  forall o b, 0 <= o < reg_order r -> block_covers b o addr size -> b + 2 ^ o = 2 ^ 64.
Proof. apply memregion_init_spec. Qed.

Lemma memregion_init_smallest_witness :
  let r := sbi_domain_memregion_init 0x80000000 0x28000 0 in
  region_ok r /\ block_covers (reg_base r) (reg_order r) 0x80000000 0x28000 /\ reg_flags r = 0 /\
  forall o b, 0 <= o < reg_order r -> block_covers b o 0x80000000 0x28000 -> b + 2 ^ o = 2 ^ 64.
Proof. apply (memregion_init_smallest 0x80000000 0x28000 0); unfold is_u64; lia. Defined.

(** [C33] sanitize_domain always returns 0 or SBI_EINVAL.  When it returns 0 the
    regions of the domain have been permuted into increasing (order, base)
    order, all are valid and the firmware region is among them, every possible
    hart is valid, and every later address check is decided by a smallest region
    that applies to the address (or by the default, when none applies). *)
Theorem sanitize_most_specific_region plat p s d :
  domains s !! p = Some d -> (is_Some (regions d) -> terminated (dom_regions s d)) ->
  exists rc s', sanitize_domain plat p s = (Ret rc, s') /\
    ((rc = 0 /\ exists d', sanitized plat s s' d d' p /\
      forall addr mode acc,
        let check := sbi_domain_check_addr s' (Some p) addr mode acc in
        let rs := memregions (dom_regions s' d') in
        (Forall (λ r, applicable mode addr r = false) rs /\ check = (mode =? PRV_M)) \/
        (exists r, r ∈ rs /\ applicable mode addr r = true /\
           (forall r', r' ∈ rs -> applicable mode addr r' = true -> region_le r r') /\
           check = region_permits r (access_rwx acc) (truthy (Z.land acc SBI_DOMAIN_MMIO)))) \/
     rc = SBI_EINVAL).
Proof.
  intros Hd Ht. destruct (sanitize_run plat p s d Hd Ht) as (rc & s' & E & [[-> [d' San]]| ->]);
    [|by eauto 10].
  exists 0, s'. split; [done|]. left. split; [done|]. exists d'. split; [done|].
  intros addr mode acc. unfold sbi_domain_check_addr. cbn [mbind option_bind].
  rewrite (san_lookup _ _ _ _ _ _ San). cbn zeta.
  destruct (check_regions_first (memregions (dom_regions s' d')) addr mode (access_rwx acc)
    (truthy (Z.land acc SBI_DOMAIN_MMIO))) as [[H1 H2]|(l1 & r & l2 & El & H1 & H2 & H3)]; [by left|].
  right. exists r. split; [rewrite El; set_solver|]. split; [done|]. split; [|done].
  intros r' Hr' Ha'. eapply sorted_first_least; [exact El|apply San|done..].
Qed.

Lemma sanitize_most_specific_region_witness :
  let plat := Some (Platform 4 None) in
  let s := root_before plat (BootScratch 0x80000000 0x28000 0 0x80200000 PRV_S) 0 in
  exists d, domains s !! root = Some d /\
  exists rc s', sanitize_domain plat root s = (Ret rc, s') /\
    ((rc = 0 /\ exists d', sanitized plat s s' d d' root /\
      forall addr mode acc,
        let check := sbi_domain_check_addr s' (Some root) addr mode acc in
        let rs := memregions (dom_regions s' d') in
        (Forall (λ r, applicable mode addr r = false) rs /\ check = (mode =? PRV_M)) \/
        (exists r, r ∈ rs /\ applicable mode addr r = true /\
           (forall r', r' ∈ rs -> applicable mode addr r' = true -> region_le r r') /\
           check = region_permits r (access_rwx acc) (truthy (Z.land acc SBI_DOMAIN_MMIO)))) \/
     rc = SBI_EINVAL).
Proof.
  intros plat s. eexists. split; [reflexivity|].
  apply (sanitize_most_specific_region plat root s); [reflexivity|].
  intros _. exists (MemRegion 0 0 0). split; vm_compute; reflexivity.
Defined.

(** [C35] sbi_domain_register keeps the harts partitioned: every hart belongs to
    at most one domain, the hart table and the assigned masks agree, and a
    domain only has harts of its possible mask.  On success exactly the harts
    that are both in the assignment mask and possible move to the new domain;
    on any error no hart moves. *)
Theorem domain_register_partition plat cold s p am d :
  domain_inv s -> domains s !! p = Some d -> (is_Some (regions d) -> terminated (dom_regions s d)) ->
  hartmask_wf (deref_hmask s am) -> domain_count s < 32 \/ registered s p ->
  exists rc s', sbi_domain_register plat cold (Some p) (Some am) s = (Ret rc, s') /\
    register_result s p am (possible_harts d) rc s'.
Proof. apply register_run. Qed.

Lemma domain_register_partition_witness :
  let plat := Some (Platform 4 None) in
  let s := root_before plat (BootScratch 0x80000000 0x28000 0 0x80200000 PRV_S) 0 in
  exists d, domains s !! root = Some d /\
  exists rc s', sbi_domain_register plat 0 (Some root) (Some (OwnHmask (Hartmask [5; 0]))) s = (Ret rc, s') /\
    register_result s root (OwnHmask (Hartmask [5; 0])) (possible_harts d) rc s'.
Proof.
  intros plat s. eexists. split; [reflexivity|].
  apply (domain_register_partition plat 0 s root (OwnHmask (Hartmask [5; 0]))).
  - apply root_before_inv.
  - reflexivity.
  - intros _. exists (MemRegion 0 0 0). split; vm_compute; reflexivity.
  - split; [reflexivity|]. repeat constructor; unfold is_u64; lia.
  - left. reflexivity.
Defined.

(** [C2] sbi_domain_init, started from the static data with sane boot
    parameters, succeeds; it assigns exactly the valid harts to the root domain;
    and afterwards an S- or U-mode access is refused exactly when it asks for
    some permission inside the firmware region (or is an MMIO access) -- in
    particular for every byte of the firmware image. *)
Theorem root_domain_protects_firmware plat scratch cold :
  boot_ok scratch ->
  exists s', sbi_domain_init plat scratch cold domain_initial = (Ret 0, s') /\ domain_inv s' /\
    (forall h, 0 <= h < 128 -> hartid_to_domain_table s' !! Z.to_nat h =
       if sbi_platform_hart_invalid plat h then Some None else Some (Some root)) /\
    (forall addr mode acc, is_u64 addr -> mode = PRV_S \/ mode = PRV_U ->
       sbi_domain_check_addr s' (Some root) addr mode acc =
       negb (truthy (Z.land acc SBI_DOMAIN_MMIO)) &&
       (negb (region_contains (sbi_domain_memregion_init (fw_start scratch) (fw_size scratch) 0) addr)
        || (access_rwx acc =? 0))) /\
    (forall addr, fw_start scratch <= addr < fw_start scratch + fw_size scratch ->
       region_contains (sbi_domain_memregion_init (fw_start scratch) (fw_size scratch) 0) addr = true).
Proof.
  intros Hboot. destruct (domain_init_run plat scratch cold Hboot) as (s' & d & E & I & Hd & Hr & Hm & Ht).
  destruct (fw_region_spec scratch Hboot) as (Ho & _ & Hf & Hin).
  exists s'. split; [done|]. split; [done|]. split; [done|]. split; [|done].
  intros addr mode acc Ha Hmode. unfold sbi_domain_check_addr. cbn [mbind option_bind].
  rewrite Hd. unfold dom_regions. rewrite Hr. cbn [deref_regions]. rewrite Hm.
  change (replicate 15 (MemRegion 0 0 0)) with (MemRegion 0 0 0 :: replicate 14 (MemRegion 0 0 0)).
  rewrite check_root by (done || lia || apply access_rwx_range).
  by destruct (region_contains _ addr).
Qed.

Lemma root_domain_protects_firmware_witness :
  let plat := Some (Platform 4 None) in
  let scratch := BootScratch 0x80000000 0x28000 0 0x80200000 PRV_S in
  exists s', sbi_domain_init plat scratch 0 domain_initial = (Ret 0, s') /\ domain_inv s' /\
    (forall h, 0 <= h < 128 -> hartid_to_domain_table s' !! Z.to_nat h =
       if sbi_platform_hart_invalid plat h then Some None else Some (Some root)) /\
    (forall addr mode acc, is_u64 addr -> mode = PRV_S \/ mode = PRV_U ->
       sbi_domain_check_addr s' (Some root) addr mode acc =
       negb (truthy (Z.land acc SBI_DOMAIN_MMIO)) &&
       (negb (region_contains (sbi_domain_memregion_init (fw_start scratch) (fw_size scratch) 0) addr)
        || (access_rwx acc =? 0))) /\
    (forall addr, fw_start scratch <= addr < fw_start scratch + fw_size scratch ->
       region_contains (sbi_domain_memregion_init (fw_start scratch) (fw_size scratch) 0) addr = true).
Proof.
  intros plat scratch. apply (root_domain_protects_firmware plat scratch 0).
  unfold boot_ok, is_u64. cbn [fw_start fw_size scratch_next_addr scratch_next_mode scratch].
  split; [lia|]. split; [lia|]. split; [lia|]. split; [lia|]. split; [by left|].
  vm_compute. reflexivity.
Defined.

(** A region inside another one, with the same flags but another base, is not
    seen as a sub-region: the end of the outer region is computed with the order
    of the inner one. *)
Theorem region_subset_misses :
  let outer := MemRegion 20 0x80000000 7 in
  let inner := MemRegion 12 0x80001000 7 in
  reg_base outer <= reg_base inner /\ region_end inner <= region_end outer /\
  is_region_subset inner outer = false /\ is_region_conflict inner outer = false.
Proof. vm_compute. repeat split; discriminate. Qed.

(** A range that ends at the top of the address space is widened to the whole
    address space, although a page would do. *)
Theorem memregion_init_top_widened :
  sbi_domain_memregion_init (2 ^ 64 - 4096) 4096 7 = MemRegion 64 0 7.
Proof. vm_compute. reflexivity. Qed.

(** With all 32 entries of the index table in use, registering another domain
    reads past the table before the check for room. *)
Theorem domain_register_full_table plat cold s p am :
  domain_inv s -> domain_finalized s = false -> domain_count s = 32 -> ~ registered s p ->
  sbi_domain_register plat cold (Some p) (Some am) s = (Stop wild_access, s).
Proof.
  intros I Hf Hc Hn. unfold sbi_domain_register. rewrite Hf.
  rewrite domain_registered_full; [done|]. apply Forall_lookup. intros i x Hx.
  assert (Hlt := lookup_lt_Some _ _ _ Hx). rewrite (inv_idx_len s I) in Hlt.
  destruct (inv_idx_low s I i ltac:(lia)) as (q & Hq & _). rewrite Hx in Hq. injection Hq as ->.
  exists q. split; [done|]. intros ->. apply Hn. by apply (list_elem_of_lookup_2 _ i).
Qed.

(** An invalid region handed to sbi_domain_root_add_memregion is refused but
    stays in the root's array, so that every later call is refused as well. *)
Theorem root_add_keeps_invalid_region :
  let plat := Some (Platform 1 None) in
  fst ((x <- sbi_domain_init plat (BootScratch 0x80000000 0x28000 0 0x80200000 PRV_S) 0 ;;
        y <- sbi_domain_root_add_memregion plat (Some (MemRegion 2 0x10000000 3)) ;;
        z <- sbi_domain_root_add_memregion plat (Some (MemRegion 12 0x20000000 3)) ;;
        ret (x, y, z))%sbi domain_initial) = Ret (0, SBI_EINVAL, SBI_EINVAL).
Proof. vm_compute. reflexivity. Qed.

(** ** Masks relative to a base hart *)

Lemma testbit_shl64_le x n i :
  0 <= n < 64 -> 0 <= i < 64 -> Z.testbit (shl64 x n) i = (n <=? i) && Z.testbit x (i - n).
Proof.
  intros Hn Hi. rewrite testbit_shl64 by lia. destruct (Z.leb_spec n i); [done|].
  by rewrite Z.testbit_neg_r by lia.
Qed.

Lemma testbit_shr64 x n i :
  0 <= n < 64 -> 0 <= i -> Z.testbit (shr64 x n) i = Z.testbit x (i + n).
Proof. intros Hn Hi. unfold shr64. rewrite Z.mod_small by lia. by rewrite Z.shiftr_spec by lia. Qed.

(** Bit [j] of the mask relative to [hbase] tells whether hart [hbase + j] is
    assigned to the domain. *)
Lemma get_assigned_hartmask_spec s p d hbase :
  domains s !! p = Some d -> hartmask_wf (assigned_harts d) -> 0 <= hbase < 128 ->
  exists r, sbi_domain_get_assigned_hartmask (Some p) hbase s = (Ret r, s) /\ is_u64 r /\
    forall j, 0 <= j < 64 -> Z.testbit r j = bool_decide (hbase + j ∈ hartmask_set (assigned_harts d)).
Proof.
  intros Hd Hw Hb. unfold sbi_domain_get_assigned_hartmask. cbn [mbind option_bind]. rewrite Hd.
  cbv zeta. destruct (hartmask_words _ Hw) as (a & b & Hbits & Ha & Hb').
  assert (Hm : 0 <= hbase mod 64 < 64) by (apply Z.mod_pos_bound; lia).
  pose proof (Z.div_mod hbase 64 ltac:(lia)) as Hdm.
  assert (Hset : forall i, bool_decide (i ∈ hartmask_set (assigned_harts d)) =
    (0 <=? i) && (i <? 128) && Z.testbit (if i <? 64 then a else b) (i mod 64)).
  { intros i. apply eq_true_iff_eq. rewrite bool_decide_eq_true, elem_of_hartmask_set, Hbits. unfold bit_at, wget.
    change SBI_HARTMASK_MAX_BITS with 128.
    destruct (Z.leb_spec 0 i), (Z.ltb_spec i 128); cbn [andb]; [|split; [lia|done]..].
    destruct (Z.ltb_spec i 64).
    - rewrite Z.div_small by lia. cbn. split; [by intros [? _]|done].
    - assert (i / 64 = 1) as -> by (symmetry; apply (Z.div_unique i 64 1 (i - 64)); lia).
      cbn. split; [by intros [? _]|done]. }
  rewrite Hbits. unfold truthy. change (SBI_HARTMASK_MAX_BITS / 64) with 2.
  destruct (Z.lt_ge_cases hbase 64).
  - rewrite (Z.div_small hbase 64) in * by lia. cbn [Z.to_nat lookup list_lookup].
    rewrite Z.mod_small in * by lia. cbn. destruct (Z.eqb_spec hbase 0) as [->|Hne]; cbn.
    + exists (shr64 a 0). split; [done|]. split; [auto with sbi|]. intros j Hj.
      rewrite testbit_shr64, Hset by lia. rewrite Z.add_0_r, Z.add_0_l.
      rewrite Z.mod_small by lia.
      destruct (Z.leb_spec 0 j), (Z.ltb_spec j 128), (Z.ltb_spec j 64); done || lia.
    + eexists. split; [done|].
      assert (Hl : is_u64 (Z.land b (sub64 (BIT hbase) 1))).
      { apply land_u64; [done|]. apply u64_range. }
      split; [apply lor_u64; auto with sbi|]. intros j Hj.
      rewrite Z.lor_spec, testbit_shr64, testbit_shl64_le, Hset by lia.
      destruct (Z.leb_spec 0 (hbase + j)), (Z.ltb_spec (hbase + j) 128); try lia. cbn [andb].
      rewrite Z.land_spec. unfold sub64. rewrite BIT_pow by lia.
      assert (0 < 2 ^ hbase < 2 ^ 64) by (split; [apply Z.pow_pos_nonneg|apply Z.pow_lt_mono_r]; lia).
      rewrite u64_small by (unfold is_u64; lia).
      replace (2 ^ hbase - 1) with (Z.ones hbase) by (rewrite Z.ones_equiv; lia).
      destruct (Z.ltb_spec (hbase + j) 64).
      * rewrite (Z.mod_small (hbase + j)) by lia. destruct (Z.leb_spec (64 - hbase) j); [lia|].
        cbn. rewrite orb_false_r. f_equal. lia.
      * destruct (Z.leb_spec (64 - hbase) j); [|lia]. rewrite (testbit_u64_high a) by (done || lia).
        rewrite Z.ones_spec_low by lia. cbn. rewrite andb_true_r. f_equal.
        apply (Z.mod_unique (hbase + j) 64 1); lia.
  - assert (hbase / 64 = 1) as Hq by (symmetry; apply (Z.div_unique hbase 64 1 (hbase - 64)); lia).
    rewrite Hq in *. cbn. rewrite andb_false_r. eexists. split; [done|]. split; [auto with sbi|].
    intros j Hj. rewrite testbit_shr64, Hset by lia.
    destruct (Z.leb_spec 0 (hbase + j)), (Z.ltb_spec (hbase + j) 128), (Z.ltb_spec (hbase + j) 64); try lia; cbn.
    + f_equal. apply (Z.mod_unique (hbase + j) 64 1); lia.
    + apply testbit_u64_high; [done|lia].
Qed.

Lemma is_assigned_spec s p d h :
  domains s !! p = Some d -> 0 <= h ->
  sbi_domain_is_assigned_hart s (Some p) h = bool_decide (h ∈ hartmask_set (assigned_harts d)).
Proof.
  intros Hd Hh. unfold sbi_domain_is_assigned_hart. cbn. rewrite Hd, hartmask_test_hart_spec by done.
  destruct (decide (h ∈ hartmask_set (assigned_harts d))); [by rewrite bool_decide_true|by rewrite bool_decide_false].
Qed.
