(* ===== verification/Csr.v ===== *)
(** * Control and status registers, PMP entries

    Models lib/sbi/riscv_asm.c.  The CSRs of a hart are a finite map from
    register numbers to 64-bit values; a register that was never written reads
    as zero and a write stores the value (the reserved or hard-wired bits some
    implementations have are not modelled).  BUG() hangs the hart.

    The theorems show that pmp_get reads back what pmp_set wrote, that the two
    touch only the registers of their entry, and that the value pmp_set encodes
    means, to the PMP hardware, exactly the requested block. *)

From Stdlib Require Import ZArith Lia.
From stdpp Require Import base tactics list gmap numbers.
From S2P Require Import Prelude SbiDefs Bitops.

Definition CSR_MISA : Z := 0x301.
Definition CSR_MCOUNTEREN : Z := 0x306.
Definition CSR_MCOUNTINHIBIT : Z := 0x320.
Definition CSR_MHPMEVENT3 : Z := 0x323.
Definition CSR_PMPCFG0 : Z := 0x3a0.
Definition CSR_PMPADDR0 : Z := 0x3b0.
Definition CSR_MCYCLE : Z := 0xb00.
Definition CSR_MINSTRET : Z := 0xb02.
Definition CSR_MHPMCOUNTER3 : Z := 0xb03.
Definition CSR_CYCLE : Z := 0xc00.

Definition PMP_R : Z := 0x01.
Definition PMP_W : Z := 0x02.
Definition PMP_X : Z := 0x04.
Definition PMP_A : Z := 0x18.
Definition PMP_A_NA4 : Z := 0x10.
Definition PMP_A_NAPOT : Z := 0x18.
Definition PMP_L : Z := 0x80.
Definition PMP_SHIFT : Z := 2.
Definition PMP_COUNT : Z := 64.

Abbreviation csr_file := (gmap Z Z).

Definition csr_read (c : Z) : M csr_file Z := gets (λ m, default 0 (m !! c)).

Definition csr_write (c v : Z) : M csr_file unit := modify (λ m, <[c := v]> m).

(** [base <= c < base + n], the cases of one switchcase macro. *)
Definition csr_block (base n c : Z) : bool := (base <=? c) && (c <? base + n).

(** The registers csr_read_num knows. *)
Definition csr_readable (c : Z) : bool :=
  csr_block CSR_PMPCFG0 16 c || csr_block CSR_PMPADDR0 64 c || (c =? CSR_MCYCLE) ||
  (c =? CSR_MINSTRET) || (c =? CSR_MHPMCOUNTER3) || csr_block 0xb04 4 c ||
  csr_block 0xb08 8 c || csr_block 0xb10 16 c.

Definition csr_read_num (c : Z) : M csr_file Z :=
  if csr_readable c then csr_read c else stop hart_hang.

(** The registers csr_write_num knows. *)
Definition csr_writable (c : Z) : bool :=
  csr_readable c || (c =? CSR_MCOUNTINHIBIT) || (c =? CSR_MHPMEVENT3) || csr_block 0x324 4 c ||
  csr_block 0x328 8 c || csr_block 0x330 16 c.

Definition csr_write_num (c v : Z) : M csr_file unit :=
  if csr_writable c then csr_write c v else stop hart_hang.

(** ** The ISA string *)

Section Misa.
(** The platform's answers when misa reads as zero. *)
Variable platform_misa_extension : Z → Z.
Variable platform_misa_xlen : Z.

Definition misa_extension_imp (ext : Z) : M csr_file Z :=
  (misa <- csr_read CSR_MISA ;;
   ret (if truthy misa then
          if (65 <=? ext) && (ext <=? 90) then s32 (Z.land misa (Z.shiftl 1 (ext - 65)))
          else if (97 <=? ext) && (ext <=? 122) then s32 (Z.land misa (Z.shiftl 1 (ext - 97)))
          else 0
        else platform_misa_extension ext))%sbi.

Definition misa_xlen : M csr_file Z :=
  (misa <- csr_read CSR_MISA ;;
   ret (if misa =? 0 then platform_misa_xlen
        else
          let t1 := Z.shiftl (Z.b2z (Z.testbit misa 63)) 1 in
          let t0 := Z.b2z (Z.testbit misa 62) in
          let r := t0 + t1 in
          if truthy r then r else -1))%sbi.

(** "iemafdqclbjtpvnsuhkorwxyzg" and its terminator. *)
Definition valid_isa_order : list Z :=
  [105; 101; 109; 97; 102; 100; 113; 99; 108; 98; 106; 116; 112; 118; 110; 115; 117; 104; 107;
   111; 114; 119; 120; 121; 122; 103; 0].

(** The loop over the extension letters; [out] is what has been written so far. *)
Fixpoint misa_letters (l : list Z) (out_sz : Z) (out : list Z) : M csr_file (list Z) :=
  (match l with
   | [] => ret out
   | c :: l' =>
       if Z.of_nat (length out) <? out_sz then
         e <- misa_extension_imp c ;;
         misa_letters l' out_sz (if truthy e then out ++ [c] else out)
       else ret out
   end)%sbi.

(** misa_string with a non-NULL buffer: the bytes written at its start. *)
Definition misa_string (xlen out_sz : Z) : M csr_file (list Z) :=
  (out <- (if 5 <=? out_sz then
             if xlen =? 1 then ret [114; 118; 51; 50]
             else if xlen =? 2 then ret [114; 118; 54; 52]
             else if xlen =? 3 then ret [114; 118; 49; 50; 56]
             else stop hart_hang
           else ret []) ;;
   out <- misa_letters valid_isa_order out_sz out ;;
   ret (if Z.of_nat (length out) <? out_sz then out ++ [0] else out))%sbi.
End Misa.

(** ** PMP entries *)

Fixpoint ctz_loop (fuel : nat) (x r : Z) : Z :=
  match fuel with
  | O => r
  | S n => if truthy (Z.land x 1) then r else ctz_loop n (shr64 x 1) (r + 1)
  end.

Definition ctz (x : Z) : Z := if x =? 0 then 64 else ctz_loop 64 x 0.

Definition pmpcfg_csr (n : Z) : Z := Z.land (CSR_PMPCFG0 + Z.shiftr n 2) (-2).
Definition pmpcfg_shift (n : Z) : Z := Z.shiftl (Z.land n 7) 3.
Definition pmpaddr_csr (n : Z) : Z := CSR_PMPADDR0 + n.

(** The address register pmp_set computes. *)
Definition pmp_encode_addr (addr log2len : Z) : Z :=
  if log2len =? PMP_SHIFT then shr64 addr PMP_SHIFT
  else if log2len =? XLEN then u64_max
  else
    let addrmask := sub64 (shl64 1 (log2len - PMP_SHIFT)) 1 in
    Z.lor (Z.land (shr64 addr PMP_SHIFT) (not64 addrmask)) (shr64 addrmask 1).

Definition pmp_set (n prot addr log2len : Z) : M csr_file Z :=
  (if (PMP_COUNT <=? n) || (XLEN <? log2len) || (log2len <? PMP_SHIFT) then ret SBI_EINVAL
   else
     let prot := Z.lor prot (if log2len =? PMP_SHIFT then PMP_A_NA4 else PMP_A_NAPOT) in
     let cfgmask := not64 (shl64 0xff (pmpcfg_shift n)) in
     cfg <- csr_read_num (pmpcfg_csr n) ;;
     let pmpcfg := Z.land cfg cfgmask in
     let pmpcfg := Z.lor pmpcfg (Z.land (shl64 prot (pmpcfg_shift n)) (not64 cfgmask)) in
     csr_write_num (pmpaddr_csr n) (pmp_encode_addr addr log2len) ;;;
     csr_write_num (pmpcfg_csr n) pmpcfg ;;;
     ret 0)%sbi.

(** pmp_get with non-NULL result pointers: the return code and what it stores
    through them (protection, address, log2 of the length). *)
Definition pmp_get (n : Z) : M csr_file (Z * option (Z * Z * Z)) :=
  (if PMP_COUNT <=? n then ret (SBI_EINVAL, None)
   else
     let cfgmask := shl64 0xff (pmpcfg_shift n) in
     cfg <- csr_read_num (pmpcfg_csr n) ;;
     let prot := shr64 (Z.land cfg cfgmask) (pmpcfg_shift n) in
     a <- csr_read_num (pmpaddr_csr n) ;;
     ret (0, Some
       (if Z.land prot PMP_A =? PMP_A_NAPOT then
          if a =? u64_max then (prot, 0, XLEN)
          else
            let t1 := ctz (not64 a) in
            (prot, shl64 (Z.land a (not64 (sub64 (shl64 1 t1) 1))) PMP_SHIFT, t1 + PMP_SHIFT + 1)
        else (prot, shl64 a PMP_SHIFT, PMP_SHIFT))))%sbi.

(** ** Meaning of a PMP entry to the hardware

    The privileged architecture's matching rule for the NA4 and NAPOT modes:
    the byte addresses whose [addr >> 2] agrees with the register outside the
    trailing ones. *)

Definition cfg_byte (cfg sh : Z) : Z := Z.land (Z.shiftr cfg sh) 0xff.

Definition pmp_cfg (m : csr_file) (n : Z) : Z :=
  cfg_byte (default 0 (m !! pmpcfg_csr n)) (pmpcfg_shift n).

Definition pmp_addr (m : csr_file) (n : Z) : Z := default 0 (m !! pmpaddr_csr n).

(** The number of bits of a register of mode NAPOT that take no part in the
    match: the trailing ones and the zero above them. *)
Definition napot_ignored (a : Z) : Z := ctz (not64 a) + 1.

Definition pmp_matches (m : csr_file) (n addr : Z) : bool :=
  let mode := Z.land (pmp_cfg m n) PMP_A in
  if mode =? PMP_A_NA4 then Z.shiftr addr 2 =? pmp_addr m n
  else if mode =? PMP_A_NAPOT then
    let k := napot_ignored (pmp_addr m n) in
    Z.shiftr (Z.shiftr addr 2) k =? Z.shiftr (pmp_addr m n) k
  else false.

(** ** Lemmas *)

Definition csr_wf (m : csr_file) : Prop := forall c v, m !! c = Some v -> is_u64 v.

Lemma csr_value_wf m c : csr_wf m -> is_u64 (default 0 (m !! c)).
Proof.
  intros W. destruct (m !! c) as [v|] eqn:E; cbn; [by eapply W|unfold is_u64; lia].
Qed.

Lemma csr_wf_insert m c v : csr_wf m -> is_u64 v -> csr_wf (<[c := v]> m).
Proof.
  intros W Hv c' v' H. apply lookup_insert_Some in H as [[_ <-]|[_ H]]; [done|by eapply W].
Qed.

(** A decidable fact about every index below 64, by evaluation. *)
Lemma below_64 (P : Z → bool) : forallb P (seqZ 0 64) = true -> forall n, 0 <= n < 64 -> P n = true.
Proof.
  intros H n Hn. rewrite forallb_forall in H. apply H, list_elem_of_In, elem_of_seqZ. lia.
Qed.

Lemma pmpcfg_csr_eq n : 0 <= n < 64 -> pmpcfg_csr n = 0x3a0 + 2 * (n / 8).
Proof.
  intros Hn. apply Z.eqb_eq. revert n Hn. apply (below_64 (λ n, pmpcfg_csr n =? 0x3a0 + 2 * (n / 8))).
  vm_compute. reflexivity.
Qed.

Lemma pmpcfg_shift_eq n : 0 <= n < 64 -> pmpcfg_shift n = 8 * (n mod 8).
Proof.
  intros Hn. apply Z.eqb_eq. revert n Hn. apply (below_64 (λ n, pmpcfg_shift n =? 8 * (n mod 8))).
  vm_compute. reflexivity.
Qed.

Lemma pmp_csrs_known n : 0 <= n < 64 ->
  csr_readable (pmpcfg_csr n) = true /\ csr_readable (pmpaddr_csr n) = true.
Proof.
  intros Hn. apply andb_true_iff. revert n Hn.
  apply (below_64 (λ n, csr_readable (pmpcfg_csr n) && csr_readable (pmpaddr_csr n))).
  vm_compute. reflexivity.
Qed.

Lemma csr_readable_writable c : csr_readable c = true -> csr_writable c = true.
Proof. intros H. unfold csr_writable. by rewrite H. Qed.

Lemma div_mod_8 n : 0 <= n < 64 -> 0 <= n / 8 < 8 /\ 0 <= n mod 8 < 8 /\ n = 8 * (n / 8) + n mod 8.
Proof.
  intros Hn. pose proof (Z.div_mod n 8 ltac:(lia)). pose proof (Z.mod_pos_bound n 8 ltac:(lia)). lia.
Qed.

Lemma pmp_csrs_distinct n n' : 0 <= n < 64 -> 0 <= n' < 64 -> pmpcfg_csr n <> pmpaddr_csr n'.
Proof.
  intros Hn Hn'. rewrite pmpcfg_csr_eq by done. unfold pmpaddr_csr, CSR_PMPADDR0.
  destruct (div_mod_8 n Hn). lia.
Qed.

(** [ctz] counts the factors of two. *)
Lemma ctz_loop_odd (fuel : nat) t q r :
  0 <= t < Z.of_nat fuel -> is_u64 (2 ^ t * (2 * q + 1)) ->
  ctz_loop fuel (2 ^ t * (2 * q + 1)) r = r + t.
Proof.
  revert t r. induction fuel as [|n IH]; intros t r Ht Hu; [lia|]. cbn [ctz_loop].
  change (Z.land (2 ^ t * (2 * q + 1)) 1) with (Z.land (2 ^ t * (2 * q + 1)) (2 ^ 1 - 1)).
  rewrite land_ones_mod by lia. change (2 ^ 1) with 2.
  destruct (Z.eq_dec t 0) as [->|Hne].
  - rewrite Z.pow_0_r, Z.mul_1_l. replace ((2 * q + 1) mod 2) with 1; [cbn; lia|].
    symmetry. rewrite Z.add_comm, Z.mul_comm, Z.mod_add by lia. reflexivity.
  - assert (E : 2 ^ t * (2 * q + 1) = 2 ^ (t - 1) * (2 * q + 1) * 2).
    { replace t with (t - 1 + 1) at 1 by lia. rewrite Z.pow_add_r by lia. lia. }
    rewrite E, Z.mod_mul by lia. cbn [truthy Z.eqb negb].
    unfold shr64. change (1 mod 64) with 1. rewrite Z.shiftr_div_pow2 by lia. change (2 ^ 1) with 2.
    rewrite Z.div_mul by lia. rewrite IH; [lia|lia|]. rewrite E in Hu. unfold is_u64 in *. lia.
Qed.

Lemma ctz_odd t q : 0 <= t < 64 -> is_u64 (2 ^ t * (2 * q + 1)) -> ctz (2 ^ t * (2 * q + 1)) = t.
Proof.
  intros Ht Hu. unfold ctz. assert (0 < 2 ^ t) by (apply Z.pow_pos_nonneg; lia).
  rewrite (proj2 (Z.eqb_neq _ _)) by (intros E; apply Z.mul_eq_0 in E; lia).
  rewrite ctz_loop_odd by (done || lia). lia.
Qed.

(** The address register in arithmetic form. *)
Lemma pmp_encode_napot addr l :
  is_u64 addr -> 3 <= l < 64 ->
  pmp_encode_addr addr l = addr / 2 ^ l * 2 ^ (l - 2) + (2 ^ (l - 3) - 1).
Proof.
  intros Ha Hl. unfold pmp_encode_addr, PMP_SHIFT, XLEN.
  rewrite (proj2 (Z.eqb_neq _ _)), (proj2 (Z.eqb_neq _ _)) by lia.
  destruct (pow2_64 (l - 2) ltac:(lia)) as [Hp1 Hp2].
  rewrite shl64_1 by lia. unfold sub64. rewrite u64_small by (unfold is_u64; lia).
  unfold shr64. change (2 mod 64) with 2. change (1 mod 64) with 1.
  rewrite !Z.shiftr_div_pow2 by lia.
  assert (Ha4 : is_u64 (addr / 2 ^ 2)).
  { unfold is_u64 in *. split; [apply Z.div_pos; lia|]. apply Z.div_lt_upper_bound; lia. }
  rewrite land_not_ones by (done || lia). rewrite Z.div_div by lia.
  rewrite <- Z.pow_add_r by lia. replace (2 + (l - 2)) with l by lia.
  assert (Ek : 2 ^ (l - 2) = 2 ^ (l - 3) * 2).
  { replace (l - 2) with (l - 3 + 1) by lia. rewrite Z.pow_add_r by lia. lia. }
  assert (0 < 2 ^ (l - 3)) by (apply Z.pow_pos_nonneg; lia).
  assert (Eh : (2 ^ (l - 2) - 1) / 2 ^ 1 = 2 ^ (l - 3) - 1).
  { rewrite Ek. change (2 ^ 1) with 2.
    replace (2 ^ (l - 3) * 2 - 1) with (1 + (2 ^ (l - 3) - 1) * 2) by lia.
    rewrite Z.div_add by lia. reflexivity. }
  rewrite Eh, lor_low by lia. done.
Qed.

(** What the encoded register tells pmp_get and the matching hardware. *)
Lemma pmp_encode_ctz addr l :
  is_u64 addr -> 3 <= l < 64 ->
  is_u64 (pmp_encode_addr addr l) /\ pmp_encode_addr addr l <> u64_max /\
  ctz (not64 (pmp_encode_addr addr l)) = l - 3.
Proof.
  intros Ha Hl. rewrite pmp_encode_napot by done.
  set (q := addr / 2 ^ l). set (p := 2 ^ (l - 3)).
  assert (Hp : 0 < p) by (apply Z.pow_pos_nonneg; lia).
  assert (E2 : 2 ^ (l - 2) = 2 * p).
  { unfold p. replace (l - 2) with (l - 3 + 1) by lia. rewrite Z.pow_add_r by lia. lia. }
  assert (Hq : 0 <= q < 2 ^ (64 - l)).
  { unfold q, is_u64 in *. split; [apply Z.div_pos; [lia|apply Z.pow_pos_nonneg; lia]|].
    apply Z.div_lt_upper_bound; [apply Z.pow_pos_nonneg; lia|].
    rewrite <- Z.pow_add_r by lia. replace (l + (64 - l)) with 64 by lia. lia. }
  assert (E64 : 2 ^ 64 = 2 ^ (64 - l) * (8 * p)).
  { unfold p. change 8 with (2 ^ 3). rewrite <- !Z.pow_add_r by lia. f_equal. lia. }
  assert (Hb : 0 <= q * 2 ^ (l - 2) + (p - 1) < 2 ^ 62).
  { assert (E62 : 2 ^ 62 = 2 ^ (64 - l) * (2 * p)).
    { rewrite <- E2, <- Z.pow_add_r by lia. f_equal. lia. }
    rewrite E2, E62. nia. }
  split; [unfold is_u64; lia|]. split; [unfold u64_max; lia|].
  replace (not64 (q * 2 ^ (l - 2) + (p - 1)))
    with (2 ^ (l - 3) * (2 * (2 ^ (64 - l) * 4 - q - 1) + 1)).
  - apply ctz_odd; [lia|]. fold p. unfold is_u64. rewrite E2 in *. rewrite E64 in *. nia.
  - fold p. unfold not64, u64_max. rewrite E2, E64. lia.
Qed.

(** The configuration register after byte [b] at bit [sh] was replaced. *)
Definition cfg_insert (cfg prot sh : Z) : Z :=
  let cfgmask := not64 (shl64 0xff sh) in
  Z.lor (Z.land cfg cfgmask) (Z.land (shl64 prot sh) (not64 cfgmask)).

Lemma testbit_ff i : 0 <= i -> Z.testbit 0xff i = (i <? 8).
Proof.
  intros Hi. change 0xff with (Z.ones 8). destruct (Z.ltb_spec i 8).
  - by apply Z.ones_spec_low.
  - apply Z.ones_spec_high. lia.
Qed.

Lemma cfg_insert_bits cfg prot sh i :
  is_u64 cfg -> 0 <= sh <= 56 -> 0 <= i < 64 ->
  Z.testbit (cfg_insert cfg prot sh) i =
  if (sh <=? i) && (i <? sh + 8) then Z.testbit prot (i - sh) else Z.testbit cfg i.
Proof.
  intros Hc Hs Hi. unfold cfg_insert. rewrite not64_involutive, Z.lor_spec, !Z.land_spec.
  rewrite testbit_not64 by (apply shl64_range || lia). rewrite !testbit_shl64 by lia.
  destruct (Z.leb_spec sh i); cbn [andb].
  - rewrite testbit_ff by lia. destruct (Z.ltb_spec (i - sh) 8), (Z.ltb_spec i (sh + 8)); try lia;
      cbn [negb]; rewrite ?andb_true_r, ?andb_false_r, ?orb_false_r; done.
  - rewrite (Z.testbit_neg_r _ (i - sh)) by lia. cbn [negb].
    by rewrite andb_true_r, andb_false_r, orb_false_r.
Qed.

Lemma cfg_insert_u64 cfg prot sh : is_u64 cfg -> is_u64 (cfg_insert cfg prot sh).
Proof.
  intros Hc. assert (Hm : is_u64 (not64 (shl64 0xff sh))) by auto with sbi.
  unfold cfg_insert. apply lor_u64; apply land_u64; auto with sbi.
  - apply Hm.
  - rewrite not64_involutive. apply shl64_range.
Qed.

Lemma cfg_insert_byte cfg prot a b :
  is_u64 cfg -> 0 <= prot <= 0xff -> 0 <= a < 8 -> 0 <= b < 8 ->
  cfg_byte (cfg_insert cfg prot (8 * a)) (8 * b) = if a =? b then prot else cfg_byte cfg (8 * b).
Proof.
  intros Hc Hp Ha Hb.
  assert (Hext : forall x, cfg_byte x (8 * b) = Z.land (cfg_byte x (8 * b)) 0xff).
  { intros x. unfold cfg_byte. rewrite <- Z.land_assoc. f_equal. }
  assert (Hprot : prot = Z.land prot 0xff).
  { change 0xff with (2 ^ 8 - 1). rewrite land_ones_mod by lia. symmetry. apply Z.mod_small. lia. }
  assert (Hbit : forall x i, 0 <= i -> Z.testbit (cfg_byte x (8 * b)) i = Z.testbit x (i + 8 * b) && (i <? 8)).
  { intros x i Hi. unfold cfg_byte. rewrite Z.land_spec, Z.shiftr_spec by lia. by rewrite testbit_ff. }
  apply Z.bits_inj'. intros i Hi. rewrite Hbit by lia.
  destruct (Z.ltb_spec i 8) as [H8|H8].
  - rewrite cfg_insert_bits by (done || lia). rewrite andb_true_r.
    destruct (Z.eqb_spec a b) as [->|Hne].
    + rewrite (proj2 (Z.leb_le _ _)), (proj2 (Z.ltb_lt _ _)) by lia. cbn [andb]. f_equal. lia.
    + replace ((8 * a <=? i + 8 * b) && (i + 8 * b <? 8 * a + 8)) with false.
      * rewrite Hbit by lia. rewrite (proj2 (Z.ltb_lt _ _)) by lia. by rewrite andb_true_r.
      * symmetry. apply andb_false_iff. rewrite Z.leb_gt, Z.ltb_ge. lia.
  - rewrite andb_false_r. destruct (a =? b).
    + rewrite Hprot, Z.land_spec, testbit_ff by lia. rewrite (proj2 (Z.ltb_ge _ _)) by lia.
      symmetry. apply andb_false_r.
    + rewrite Hbit by lia. rewrite (proj2 (Z.ltb_ge _ _)) by lia. symmetry. apply andb_false_r.
Qed.

(** The A field pmp_set chooses. *)
Definition pmp_mode (log2len : Z) : Z := if log2len =? PMP_SHIFT then PMP_A_NA4 else PMP_A_NAPOT.

Lemma pmp_set_run n prot addr l m :
  0 <= n < 64 -> 2 <= l <= 64 ->
  pmp_set n prot addr l m =
  (Ret 0, <[pmpcfg_csr n := cfg_insert (default 0 (m !! pmpcfg_csr n)) (Z.lor prot (pmp_mode l)) (pmpcfg_shift n)]>
          (<[pmpaddr_csr n := pmp_encode_addr addr l]> m)).
Proof.
  intros Hn Hl. unfold pmp_set, PMP_COUNT, XLEN, PMP_SHIFT.
  rewrite (proj2 (Z.leb_gt _ _)), (proj2 (Z.ltb_ge _ _)), (proj2 (Z.ltb_ge _ _)) by lia. cbn [orb].
  destruct (pmp_csrs_known n Hn) as [K1 K2].
  unfold bind, csr_read_num, csr_write_num. rewrite K1, !csr_readable_writable by done.
  unfold csr_read, csr_write, gets, modify, ret. do 2 f_equal.
Qed.

Lemma pmp_fields_after_set n n' prot addr l m :
  csr_wf m -> 0 <= n < 64 -> 0 <= n' < 64 -> 2 <= l <= 64 -> 0 <= Z.lor prot (pmp_mode l) <= 0xff ->
  let m' := snd (pmp_set n prot addr l m) in
  pmp_cfg m' n' = (if n =? n' then Z.lor prot (pmp_mode l) else pmp_cfg m n') /\
  pmp_addr m' n' = (if n =? n' then pmp_encode_addr addr l else pmp_addr m n').
Proof.
  intros W Hn Hn' Hl Hp. cbn zeta. rewrite pmp_set_run by done. cbn [snd].
  unfold pmp_cfg, pmp_addr. split.
  - destruct (decide (pmpcfg_csr n = pmpcfg_csr n')) as [Ec|Ec].
    + rewrite Ec, lookup_insert_eq. cbn [default id]. unfold id. rewrite !pmpcfg_shift_eq by done.
      rewrite !pmpcfg_csr_eq in Ec by done.
      destruct (div_mod_8 n Hn) as (A1 & A2 & A3), (div_mod_8 n' Hn') as (B1 & B2 & B3).
      rewrite cfg_insert_byte by (done || apply csr_value_wf, W).
      destruct (Z.eqb_spec n n'), (Z.eqb_spec (n mod 8) (n' mod 8)); try done; lia.
    + rewrite lookup_insert_ne by done.
      rewrite lookup_insert_ne by (intros E; symmetry in E; revert E; by apply pmp_csrs_distinct).
      destruct (Z.eqb_spec n n'); [congruence|done].
  - rewrite lookup_insert_ne by (by apply pmp_csrs_distinct).
    unfold pmpaddr_csr, CSR_PMPADDR0. destruct (Z.eqb_spec n n') as [->|].
    + by rewrite lookup_insert_eq.
    + rewrite lookup_insert_ne by lia. done.
Qed.

(** pmp_get in terms of the two fields of the entry. *)
Lemma pmp_get_run n m :
  csr_wf m -> 0 <= n < 64 ->
  pmp_get n m =
  (Ret (0, Some (if Z.land (pmp_cfg m n) PMP_A =? PMP_A_NAPOT then
      if pmp_addr m n =? u64_max then (pmp_cfg m n, 0, XLEN)
      else
        let t1 := ctz (not64 (pmp_addr m n)) in
        (pmp_cfg m n, shl64 (Z.land (pmp_addr m n) (not64 (sub64 (shl64 1 t1) 1))) PMP_SHIFT,
         t1 + PMP_SHIFT + 1)
    else (pmp_cfg m n, shl64 (pmp_addr m n) PMP_SHIFT, PMP_SHIFT))), m).
Proof.
  intros W Hn. unfold pmp_get, PMP_COUNT. rewrite (proj2 (Z.leb_gt _ _)) by lia.
  destruct (pmp_csrs_known n Hn) as [K1 K2].
  unfold bind, csr_read_num. rewrite K1, K2. unfold csr_read, gets, ret.
  replace (shr64 (Z.land (default 0 (m !! pmpcfg_csr n)) (shl64 255 (pmpcfg_shift n))) (pmpcfg_shift n))
    with (pmp_cfg m n); [done|].
  unfold pmp_cfg, cfg_byte. set (cfg := default 0 _). rewrite pmpcfg_shift_eq by done.
  destruct (div_mod_8 n Hn) as (_ & A2 & _). set (sh := 8 * (n mod 8)).
  unfold shr64. rewrite (Z.mod_small sh) by lia. rewrite Z.shiftr_land. f_equal.
  apply Z.bits_inj'. intros i Hi. rewrite Z.shiftr_spec by lia.
  destruct (Z.lt_ge_cases (i + sh) 64).
  - rewrite testbit_shl64 by lia. f_equal. lia.
  - rewrite (testbit_u64_high (shl64 255 sh)) by (apply shl64_range || lia).
    rewrite testbit_ff by lia. apply Z.ltb_ge. lia.
Qed.

Lemma napot_block addr l a :
  is_u64 addr -> 3 <= l < 64 -> addr mod 2 ^ l = 0 -> is_u64 a ->
  (Z.shiftr (Z.shiftr a 2) (l - 2) =? Z.shiftr (pmp_encode_addr addr l) (l - 2)) =
  (addr <=? a) && (a <? addr + 2 ^ l).
Proof.
  intros Ha Hl Hm Hx. rewrite Z.shiftr_shiftr, !Z.shiftr_div_pow2 by lia.
  replace (2 + (l - 2)) with l by lia. rewrite pmp_encode_napot by done.
  assert (E2 : 2 ^ (l - 2) = 2 * 2 ^ (l - 3)).
  { replace (l - 2) with (l - 3 + 1) by lia. rewrite Z.pow_add_r by lia. lia. }
  assert (0 < 2 ^ (l - 3)) by (apply Z.pow_pos_nonneg; lia).
  assert (Hp : 0 < 2 ^ l) by (apply Z.pow_pos_nonneg; lia).
  rewrite Z.add_comm, Z.div_add, (Z.div_small (_ - 1)), Z.add_0_l by lia.
  pose proof (Z.div_mod addr (2 ^ l) ltac:(lia)) as Hd. rewrite Hm, Z.add_0_r in Hd.
  pose proof (Z.div_mod a (2 ^ l) ltac:(lia)) as Hda. pose proof (Z.mod_pos_bound a (2 ^ l) Hp).
  apply eq_bool_prop_intro. rewrite !Is_true_true, andb_true_iff, Z.eqb_eq, Z.leb_le, Z.ltb_lt.
  split; intros; nia.
Qed.

(** The arguments pmp_set is meant for: an entry number, a block of 2^l bytes
    aligned to its size, and permission bits without the A field. *)
Record pmp_args_ok (n prot addr l : Z) : Prop := {
  args_n : 0 <= n < 64;
  args_l : 2 <= l <= 64;
  args_addr : 0 <= addr /\ addr + 2 ^ l <= 2 ^ 64;
  args_aligned : addr mod 2 ^ l = 0;
  args_prot : 0 <= prot <= 0xff /\ Z.land prot PMP_A = 0;
}.

Lemma pmp_mode_range l : pmp_mode l = 0x10 \/ pmp_mode l = 0x18.
Proof. unfold pmp_mode. case_if; [by left|by right]. Qed.

Lemma land_lor_mode prot l :
  Z.land prot PMP_A = 0 -> Z.land (Z.lor prot (pmp_mode l)) PMP_A = pmp_mode l.
Proof.
  intros H. rewrite Z.land_lor_distr_l, H, Z.lor_0_l.
  destruct (pmp_mode_range l) as [-> | ->]; reflexivity.
Qed.

Lemma prot_mode_range prot l : 0 <= prot <= 0xff -> 0 <= Z.lor prot (pmp_mode l) <= 0xff.
Proof.
  intros H. assert (Hm : 0 < pmp_mode l) by (destruct (pmp_mode_range l) as [-> | ->]; lia).
  assert (Hn : 0 <= Z.lor prot (pmp_mode l)) by (apply Z.lor_nonneg; lia).
  assert (Hne : Z.lor prot (pmp_mode l) <> 0) by (intros E; apply Z.lor_eq_0_iff in E; lia).
  split; [done|]. enough (Z.lor prot (pmp_mode l) < 2 ^ 8) by lia.
  apply Z.log2_lt_pow2; [lia|]. rewrite Z.log2_lor by lia.
  apply Z.max_lub_lt.
  - destruct (Z.eq_dec prot 0) as [->|]; [done|]. apply Z.log2_lt_pow2; lia.
  - destruct (pmp_mode_range l) as [-> | ->]; reflexivity.
Qed.

Lemma pmp_encode_u64 addr l :
  0 <= addr -> addr + 2 ^ l <= 2 ^ 64 -> 2 <= l <= 64 -> is_u64 (pmp_encode_addr addr l).
Proof.
  intros H0 H1 Hl. assert (0 < 2 ^ l) by (apply Z.pow_pos_nonneg; lia).
  assert (Ha : is_u64 addr) by (unfold is_u64; lia).
  destruct (decide (l = 2)) as [->|]; [by apply shr64_range|].
  destruct (decide (l = 64)) as [->|]; [unfold is_u64; vm_compute; split; congruence|].
  apply pmp_encode_ctz; [done|lia].
Qed.

Lemma pmp_set_wf n prot addr l m :
  csr_wf m -> pmp_args_ok n prot addr l -> csr_wf (snd (pmp_set n prot addr l m)).
Proof.
  intros W A. rewrite pmp_set_run by apply A. cbn [snd].
  apply csr_wf_insert; [apply csr_wf_insert; [done|]|].
  - apply pmp_encode_u64; apply A.
  - apply cfg_insert_u64, csr_value_wf, W.
Qed.

(** The entry pmp_set wrote matches exactly the addresses of its block. *)
Lemma pmp_set_matches n prot addr l m a :
  csr_wf m -> pmp_args_ok n prot addr l -> is_u64 a ->
  pmp_matches (snd (pmp_set n prot addr l m)) n a = (addr <=? a) && (a <? addr + 2 ^ l).
Proof.
  intros W A Hx. pose proof A as [Hn Hl [Ha0 Ha1] Hal [Hp Hpa]].
  assert (0 < 2 ^ l) by (apply Z.pow_pos_nonneg; lia).
  destruct (pmp_fields_after_set n n prot addr l m W Hn Hn Hl (prot_mode_range prot l Hp)) as [F1 F2].
  cbn zeta in F1, F2. unfold pmp_matches. rewrite F1, F2, Z.eqb_refl, land_lor_mode by done.
  unfold is_u64 in Hx.
  destruct (decide (l = 2)) as [->|].
  { cbn [pmp_mode Z.eqb]. unfold pmp_encode_addr. change (2 =? PMP_SHIFT) with true. cbv iota.
    unfold shr64, PMP_SHIFT. change (2 mod 64) with 2. rewrite !Z.shiftr_div_pow2 by lia.
    change (pmp_mode 2 =? PMP_A_NA4) with true. cbv iota. change (2 ^ 2) with 4 in *.
    pose proof (Z.div_mod addr 4 ltac:(lia)) as Hd. rewrite Hal in Hd.
    pose proof (Z.div_mod a 4 ltac:(lia)). pose proof (Z.mod_pos_bound a 4 ltac:(lia)).
    apply eq_bool_prop_intro. rewrite !Is_true_true, andb_true_iff, Z.eqb_eq, Z.leb_le, Z.ltb_lt. lia. }
  assert (Hmode : pmp_mode l = PMP_A_NAPOT).
  { unfold pmp_mode, PMP_SHIFT. by rewrite (proj2 (Z.eqb_neq _ _)) by lia. }
  rewrite Hmode. change (PMP_A_NAPOT =? PMP_A_NA4) with false. rewrite Z.eqb_refl. cbv iota.
  destruct (decide (l = 64)) as [->|].
  - change (pmp_encode_addr addr 64) with u64_max. change (napot_ignored u64_max) with 65.
    rewrite !Z.shiftr_div_pow2 by lia. rewrite Z.div_div by lia.
    rewrite (Z.div_small a), (Z.div_small u64_max) by (unfold u64_max; lia).
    symmetry. rewrite Z.eqb_refl. apply andb_true_iff. rewrite Z.leb_le, Z.ltb_lt. lia.
  - unfold napot_ignored. destruct (pmp_encode_ctz addr l) as (_ & _ & ->); [unfold is_u64; lia|lia|].
    replace (l - 3 + 1) with (l - 2) by lia. apply napot_block; unfold is_u64; (done || lia).
Qed.

(** ** Properties *)

(** pmp_get reads back what pmp_set wrote: the permission bits with the
    chosen A field, the base and the log2 of the size, for every block of four
    bytes or more aligned to its size; and it changes nothing. *)
Theorem pmp_set_get_roundtrip n prot addr l m :
  csr_wf m -> pmp_args_ok n prot addr l ->
  exists m', pmp_set n prot addr l m = (Ret 0, m') /\ csr_wf m' /\
    pmp_get n m' = (Ret (0, Some (Z.lor prot (pmp_mode l), addr, l)), m').
Proof.
  intros W A. pose proof A as [Hn Hl [Ha0 Ha1] Hal [Hp Hpa]].
  assert (Hpos : 0 < 2 ^ l) by (apply Z.pow_pos_nonneg; lia).
  destruct (pmp_fields_after_set n n prot addr l m W Hn Hn Hl (prot_mode_range prot l Hp)) as [F1 F2].
  cbn zeta in F1, F2. pose proof (pmp_set_wf n prot addr l m W A) as W'.
  exists (snd (pmp_set n prot addr l m)). split; [by rewrite pmp_set_run|]. split; [done|].
  rewrite pmp_get_run by done. do 3 f_equal. rewrite F1, F2, Z.eqb_refl, land_lor_mode by done.
  destruct (decide (l = 2)) as [->|].
  { change (pmp_mode 2 =? PMP_A_NAPOT) with false. cbv iota. do 2 f_equal.
    change (pmp_encode_addr addr 2) with (shr64 addr 2). unfold shl64, shr64, PMP_SHIFT.
    change (2 mod 64) with 2. rewrite Z.shiftr_div_pow2, Z.shiftl_mul_pow2 by lia.
    change (2 ^ 2) with 4 in *. pose proof (Z.div_mod addr 4 ltac:(lia)) as Hd. rewrite Hal in Hd.
    rewrite u64_small by (unfold is_u64; lia). f_equal. lia. }
  assert (Hmode : pmp_mode l = PMP_A_NAPOT).
  { unfold pmp_mode, PMP_SHIFT. by rewrite (proj2 (Z.eqb_neq _ _)) by lia. }
  rewrite Hmode, Z.eqb_refl. destruct (decide (l = 64)) as [->|].
  { change (pmp_encode_addr addr 64) with u64_max. rewrite Z.eqb_refl. unfold XLEN.
    assert (addr = 0) as -> by lia. done. }
  destruct (pmp_encode_ctz addr l) as (Hu & Hne & Hc); [unfold is_u64; lia|lia|].
  rewrite (proj2 (Z.eqb_neq _ _)) by done. cbn zeta. rewrite Hc.
  unfold PMP_SHIFT. do 2 f_equal; [f_equal|lia].
  destruct (pow2_64 (l - 3) ltac:(lia)). rewrite shl64_1 by lia.
  unfold sub64. rewrite u64_small by (unfold is_u64; lia). rewrite land_not_ones by (done || lia).
  rewrite pmp_encode_napot by (unfold is_u64; lia).
  assert (E2 : 2 ^ (l - 2) = 2 * 2 ^ (l - 3)).
  { replace (l - 2) with (l - 3 + 1) by lia. rewrite Z.pow_add_r by lia. lia. }
  assert (E3 : 2 ^ l = 8 * 2 ^ (l - 3)).
  { change 8 with (2 ^ 3). rewrite <- Z.pow_add_r by lia. f_equal. lia. }
  replace (addr / 2 ^ l * 2 ^ (l - 2) + (2 ^ (l - 3) - 1))
    with (2 ^ (l - 3) - 1 + addr / 2 ^ l * 2 * 2 ^ (l - 3)) by lia.
  rewrite Z.div_add, Z.div_small, Z.add_0_l by lia.
  unfold shl64. change (2 mod 64) with 2. rewrite Z.shiftl_mul_pow2 by lia. change (2 ^ 2) with 4.
  pose proof (Z.div_mod addr (2 ^ l) ltac:(lia)) as Hd. rewrite Hal in Hd.
  replace (addr / 2 ^ l * 2 * 2 ^ (l - 3) * 4) with addr by lia.
  apply u64_small. unfold is_u64. lia.
Qed.

Lemma pmp_set_get_roundtrip_witness :
  exists m', pmp_set 3 7 0x80000000 18 ∅ = (Ret 0, m') /\ csr_wf m' /\
    pmp_get 3 m' = (Ret (0, Some (Z.lor 7 (pmp_mode 18), 0x80000000, 18)), m').
Proof.
  apply (pmp_set_get_roundtrip 3 7 0x80000000 18 ∅).
  - intros c v H. rewrite lookup_empty in H. discriminate.
  - constructor; [lia|lia|lia|reflexivity|split; [lia|reflexivity]].
Defined.

(** To the PMP hardware the entry pmp_set writes means exactly the
    requested block, and every other entry keeps its configuration and its
    address. *)
Theorem pmp_set_encodes_block n prot addr l m :
  csr_wf m -> pmp_args_ok n prot addr l ->
  let m' := snd (pmp_set n prot addr l m) in
  (forall a, is_u64 a -> pmp_matches m' n a = (addr <=? a) && (a <? addr + 2 ^ l)) /\
  (forall n', 0 <= n' < 64 -> n' <> n -> pmp_cfg m' n' = pmp_cfg m n' /\ pmp_addr m' n' = pmp_addr m n').
Proof.
  intros W A. cbn zeta. split; [intros a; by apply pmp_set_matches|]. intros n' Hn' Hne.
  destruct (pmp_fields_after_set n n' prot addr l m W ltac:(apply A) Hn' ltac:(apply A)
    (prot_mode_range prot l (proj1 (args_prot _ _ _ _ A)))) as [F1 F2].
  cbn zeta in F1, F2. rewrite F1, F2. destruct (Z.eqb_spec n n'); [congruence|done].
Qed.

Lemma pmp_set_encodes_block_witness :
  let m' := snd (pmp_set 9 5 0x1000 12 ∅) in
  (forall a, is_u64 a -> pmp_matches m' 9 a = (0x1000 <=? a) && (a <? 0x1000 + 2 ^ 12)) /\
  (forall n', 0 <= n' < 64 -> n' <> 9 -> pmp_cfg m' n' = pmp_cfg ∅ n' /\ pmp_addr m' n' = pmp_addr ∅ n').
Proof.
  apply (pmp_set_encodes_block 9 5 0x1000 12 ∅).
  - intros c v H. rewrite lookup_empty in H. discriminate.
  - constructor; [lia|lia|lia|reflexivity|split; [lia|reflexivity]].
Defined.

(** misa_string never writes past [out_sz] bytes and leaves the CSRs alone. *)
Lemma misa_letters_bound pe l out_sz out m :
  Z.of_nat (length out) <= out_sz ->
  exists r, misa_letters pe l out_sz out m = (Ret r, m) /\ Z.of_nat (length r) <= out_sz.
Proof.
  revert out. induction l as [|c l IH]; intros out Ho; cbn [misa_letters]; [by eexists|].
  destruct (Z.ltb_spec (Z.of_nat (length out)) out_sz) as [Hlt|Hge]; [|by eexists].
  unfold bind at 1. unfold misa_extension_imp, bind, csr_read, gets, ret.
  apply IH. case_if; [rewrite length_app; cbn; lia|lia].
Qed.

(** misa_string stays inside its buffer: for a known XLEN it returns
    having written at most [out_sz] bytes, and it ends the string with a NUL
    whenever a byte is left for it. *)
Theorem misa_string_in_bounds pe xlen out_sz m :
  1 <= xlen <= 3 -> 0 <= out_sz ->
  exists r, misa_string pe xlen out_sz m = (Ret r, m) /\ Z.of_nat (length r) <= out_sz /\
    (Z.of_nat (length r) < out_sz -> r !! (length r - 1)%nat = Some 0).
Proof.
  intros Hx Hs. unfold misa_string.
  set (pre := if 5 <=? out_sz then _ else _).
  assert (Hpre : exists p, pre m = (Ret p, m) /\ Z.of_nat (length p) <= out_sz).
  { unfold pre. destruct (Z.leb_spec 5 out_sz); [|eexists; split; [done|cbn; lia]].
    assert (xlen = 1 \/ xlen = 2 \/ xlen = 3) as [->|[->| ->]] by lia;
      (eexists; split; [done|cbn; lia]). }
  destruct Hpre as (p & Ep & Hp). unfold bind. rewrite Ep.
  destruct (misa_letters_bound pe valid_isa_order out_sz p m Hp) as (r & -> & Hr).
  destruct (Z.ltb_spec (Z.of_nat (length r)) out_sz).
  - eexists. split; [done|]. rewrite length_app. cbn [length]. split; [lia|]. intros _.
    rewrite lookup_app_r by lia. by replace (_ - _ - _)%nat with 0%nat by lia.
  - eexists. split; [done|]. split; [done|]. lia.
Qed.

Lemma misa_string_in_bounds_witness :
  exists r, misa_string (λ _, 0) 2 7 {[ CSR_MISA := 0x8000000000141129 ]} =
    (Ret r, {[ CSR_MISA := 0x8000000000141129 ]}) /\ Z.of_nat (length r) <= 7 /\
    (Z.of_nat (length r) < 7 -> r !! (length r - 1)%nat = Some 0).
Proof. apply (misa_string_in_bounds (λ _, 0) 2 7); lia. Defined.
