(* ===== verification/Hart.v ===== *)
(** * Hart initialisation and the PMP image of a domain

    Models lib/sbi/sbi_hart.c: mstatus and delegation set-up, detection of the
    hart's features, programming of the PMP entries from the regions of the
    hart's domain, and the switch to the next mode.

    The theorems show that the PMP entries written by sbi_hart_pmp_configure
    make the hardware decide S- and U-mode accesses the way
    sbi_domain_check_addr does, and what the feature detection finds. *)

From Stdlib Require Import ZArith Lia.
From stdpp Require Import base tactics list gmap numbers.
From S2P Require Import Prelude SbiDefs Bitops Scratch Domain Csr.

Definition CSR_MSTATUS : Z := 0x300.
Definition CSR_MEDELEG : Z := 0x302.
Definition CSR_MIDELEG : Z := 0x303.
Definition CSR_MIE : Z := 0x304.
Definition CSR_MEPC : Z := 0x341.
Definition CSR_FCSR : Z := 0x003.
Definition CSR_UIE : Z := 0x004.
Definition CSR_UTVEC : Z := 0x005.
Definition CSR_USCRATCH : Z := 0x040.
Definition CSR_SIE : Z := 0x104.
Definition CSR_STVEC : Z := 0x105.
Definition CSR_SCOUNTEREN : Z := 0x106.
Definition CSR_SSCRATCH : Z := 0x140.
Definition CSR_SATP : Z := 0x180.
Definition CSR_TIME : Z := 0xc01.

Definition MSTATUS_MPIE : Z := 0x80.
Definition MSTATUS_MPP : Z := 0x1800.
Definition MSTATUS_FS : Z := 0x6000.
Definition MSTATUS_VS : Z := 0x1800000.
Definition MSTATUS_MPV : Z := 0x8000000000.

Definition SBI_HART_HAS_SCOUNTEREN : Z := 1.
Definition SBI_HART_HAS_MCOUNTEREN : Z := 2.
Definition SBI_HART_HAS_MCOUNTINHIBIT : Z := 4.
Definition SBI_HART_HAS_TIME : Z := 8.

Definition CAUSE_MISALIGNED_FETCH : Z := 0x0.
Definition CAUSE_BREAKPOINT : Z := 0x3.
Definition CAUSE_USER_ECALL : Z := 0x8.
Definition CAUSE_VIRTUAL_SUPERVISOR_ECALL : Z := 0xa.
Definition CAUSE_FETCH_PAGE_FAULT : Z := 0xc.
Definition CAUSE_LOAD_PAGE_FAULT : Z := 0xd.
Definition CAUSE_STORE_PAGE_FAULT : Z := 0xf.
Definition CAUSE_FETCH_GUEST_PAGE_FAULT : Z := 0x14.
Definition CAUSE_LOAD_GUEST_PAGE_FAULT : Z := 0x15.
Definition CAUSE_VIRTUAL_INST_FAULT : Z := 0x16.
Definition CAUSE_STORE_GUEST_PAGE_FAULT : Z := 0x17.

(** INSERT_FIELD(val, which, fieldval) of sbi_bitops.h. *)
Definition INSERT_FIELD (val which fieldval : Z) : Z :=
  Z.lor (Z.land val (not64 which)) (u64 (fieldval * Z.land which (not64 (which - 1)))).

Record hart_features : Type := HartFeatures {
  features : Z;
  pmp_count : Z;
  pmp_addr_bits : Z;
  pmp_gran : Z;
  mhpm_count : Z;
  mhpm_bits : Z;
}.

Definition sbi_hart_has_feature (hf : hart_features) (feature : Z) : bool :=
  truthy (Z.land (features hf) feature).

Section Hart.
(** The platform's answer for an extension when misa reads as zero. *)
Variable platform_misa_extension : Z → Z.

Definition misa_extension (c : Z) : M csr_file bool :=
  (e <- misa_extension_imp platform_misa_extension c ;; ret (truthy e))%sbi.

(** [if (c) m], for a computation that returns nothing. *)
Definition when {S} (c : bool) (m : M S unit) : M S unit := if c then m else ret tt.

Definition mstatus_init (hf : hart_features) : M csr_file unit :=
  (d <- misa_extension 68 ;;
   f <- (if d then ret true else misa_extension 70) ;;
   let mstatus_val := if d || f then MSTATUS_FS else 0 in
   v <- misa_extension 86 ;;
   let mstatus_val := if v then Z.lor mstatus_val MSTATUS_VS else mstatus_val in
   csr_write CSR_MSTATUS mstatus_val ;;;
   s <- misa_extension 83 ;;
   when (s && sbi_hart_has_feature hf SBI_HART_HAS_SCOUNTEREN) (csr_write CSR_SCOUNTEREN 7) ;;;
   when (sbi_hart_has_feature hf SBI_HART_HAS_MCOUNTEREN)
     (if sbi_hart_has_feature hf SBI_HART_HAS_MCOUNTINHIBIT then csr_write CSR_MCOUNTEREN 7
      else csr_write CSR_MCOUNTEREN u64_max) ;;;
   when (sbi_hart_has_feature hf SBI_HART_HAS_MCOUNTINHIBIT)
     (csr_write CSR_MCOUNTINHIBIT 0xFFFFFFF8) ;;;
   csr_write CSR_MIE 0 ;;;
   s <- misa_extension 83 ;;
   when s (csr_write CSR_SATP 0))%sbi.

(** fp_init for a build with hardware floating point: the floating-point
    registers are not part of the CSR file. *)
Definition fp_init : M csr_file Z :=
  (d <- misa_extension 68 ;;
   f <- misa_extension 70 ;;
   if negb d && negb f then ret 0
   else
     st <- csr_read CSR_MSTATUS ;;
     if negb (truthy (Z.land st MSTATUS_FS)) then ret SBI_EINVAL
     else csr_write CSR_FCSR 0 ;;; ret 0)%sbi.

Definition delegate_traps (mfaults_delegation : bool) : M csr_file Z :=
  (s <- misa_extension 83 ;;
   if negb s then ret 0
   else
     let interrupts := Z.lor (Z.lor (BIT 1) (BIT 5)) (BIT 9) in
     let exceptions := Z.lor (Z.lor (BIT CAUSE_MISALIGNED_FETCH) (BIT CAUSE_BREAKPOINT))
                             (BIT CAUSE_USER_ECALL) in
     let exceptions :=
       if mfaults_delegation
       then Z.lor exceptions (Z.lor (Z.lor (BIT CAUSE_FETCH_PAGE_FAULT) (BIT CAUSE_LOAD_PAGE_FAULT))
                                    (BIT CAUSE_STORE_PAGE_FAULT))
       else exceptions in
     h <- misa_extension 72 ;;
     let exceptions :=
       if h : bool then
         Z.lor (Z.lor (Z.lor (Z.lor (Z.lor exceptions (BIT CAUSE_VIRTUAL_SUPERVISOR_ECALL))
           (BIT CAUSE_FETCH_GUEST_PAGE_FAULT)) (BIT CAUSE_LOAD_GUEST_PAGE_FAULT))
           (BIT CAUSE_VIRTUAL_INST_FAULT)) (BIT CAUSE_STORE_GUEST_PAGE_FAULT)
       else exceptions in
     csr_write CSR_MIDELEG interrupts ;;;
     csr_write CSR_MEDELEG exceptions ;;;
     ret 0)%sbi.

Definition sbi_hart_reinit (hf : hart_features) (mfaults_delegation : bool) : M csr_file Z :=
  (mstatus_init hf ;;;
   rc <- fp_init ;;
   if truthy rc then ret rc
   else
     rc <- delegate_traps mfaults_delegation ;;
     if truthy rc then ret rc else ret 0)%sbi.

(** sbi_hart_switch_mode up to the [mret]: the values left in a0 and a1. *)
Definition sbi_hart_switch_mode (arg0 arg1 next_addr next_mode : Z) (next_virt : bool)
    : M csr_file (Z * Z) :=
  ((if next_mode =? PRV_M then ret tt
    else if next_mode =? PRV_S then
      s <- misa_extension 83 ;; (if s : bool then ret tt else stop hart_hang)
    else if next_mode =? PRV_U then
      u <- misa_extension 85 ;; (if u : bool then ret tt else stop hart_hang)
    else stop hart_hang) ;;;
   val <- csr_read CSR_MSTATUS ;;
   let val := INSERT_FIELD val MSTATUS_MPP next_mode in
   let val := INSERT_FIELD val MSTATUS_MPIE 0 in
   h <- misa_extension 72 ;;
   let val := if h : bool then INSERT_FIELD val MSTATUS_MPV (if next_virt then 1 else 0) else val in
   csr_write CSR_MSTATUS val ;;;
   csr_write CSR_MEPC next_addr ;;;
   (if next_mode =? PRV_S then
      csr_write CSR_STVEC next_addr ;;;
      csr_write CSR_SSCRATCH 0 ;;;
      csr_write CSR_SIE 0 ;;;
      csr_write CSR_SATP 0
    else if next_mode =? PRV_U then
      n <- misa_extension 78 ;;
      (if n : bool then
         csr_write CSR_UTVEC next_addr ;;;
         csr_write CSR_USCRATCH 0 ;;;
         csr_write CSR_UIE 0
       else ret tt)
    else ret tt) ;;;
   ret (arg0, arg1))%sbi.
End Hart.

(** ** The PMP image of a domain *)

Definition region_pmp_flags (rflags : Z) : Z :=
  let pmp_flags := 0 in
  let pmp_flags := if truthy (Z.land rflags SBI_DOMAIN_MEMREGION_READABLE)
                   then Z.lor pmp_flags PMP_R else pmp_flags in
  let pmp_flags := if truthy (Z.land rflags SBI_DOMAIN_MEMREGION_WRITEABLE)
                   then Z.lor pmp_flags PMP_W else pmp_flags in
  let pmp_flags := if truthy (Z.land rflags SBI_DOMAIN_MEMREGION_EXECUTABLE)
                   then Z.lor pmp_flags PMP_X else pmp_flags in
  if truthy (Z.land rflags SBI_DOMAIN_MEMREGION_MMODE) then Z.lor pmp_flags PMP_L else pmp_flags.

Definition pmp_addr_max (hf : hart_features) : Z :=
  let pmp_bits := u32 (pmp_addr_bits hf - 1) in
  Z.lor (shl64 1 pmp_bits) (sub64 (shl64 1 pmp_bits) 1).

(** The region can be put into a PMP entry of this hart. *)
Definition pmp_fits (hf : hart_features) (reg : sbi_domain_memregion) : bool :=
  (log2roundup (pmp_gran hf) <=? reg_order reg) && (shr64 (reg_base reg) PMP_SHIFT <? pmp_addr_max hf).

(** The loop of sbi_hart_pmp_configure over the regions of the domain. *)
Fixpoint pmp_loop (hf : hart_features) (l : list sbi_domain_memregion) (pmp_idx : Z)
    : M csr_file unit :=
  (match l with
   | [] => ret tt
   | reg :: l' =>
       if pmp_count hf <=? pmp_idx then ret tt
       else if pmp_fits hf reg then
         pmp_set pmp_idx (region_pmp_flags (reg_flags reg)) (reg_base reg) (reg_order reg) ;;;
         pmp_loop hf l' (pmp_idx + 1)
       else pmp_loop hf l' pmp_idx
   end)%sbi.

Definition sbi_hart_pmp_configure (hf : hart_features) (regs : list sbi_domain_memregion)
    : M csr_file Z :=
  (if pmp_count hf =? 0 then ret 0 else pmp_loop hf (memregions regs) 0 ;;; ret 0)%sbi.

(** ** Feature detection

    The hardware: which registers exist, and which of their bits are writable. *)

Section Detect.
Variable csr_impl : Z → option Z.

(** [csr_read_allowed]: the value, or [None] when the access traps. *)
Definition csr_read_allowed (c : Z) : M csr_file (option Z) :=
  match csr_impl c with
  | Some _ => (v <- csr_read c ;; ret (Some v))%sbi
  | None => ret None
  end.

(** [csr_write_allowed]: did it succeed?  Only the writable bits change. *)
Definition csr_write_allowed (c v : Z) : M csr_file bool :=
  match csr_impl c with
  | Some mask =>
      (old <- csr_read c ;;
       csr_write c (Z.lor (Z.land v mask) (Z.land old (not64 mask))) ;;; ret true)%sbi
  | None => ret false
  end.

Definition csr_swap (c v : Z) : M csr_file Z :=
  (old <- csr_read c ;; csr_write_allowed c v ;;; ret old)%sbi.

Definition hart_pmp_get_allowed_addr : M csr_file Z :=
  (ok <- csr_write_allowed CSR_PMPADDR0 (2 ^ 54 - 1) ;;
   if ok : bool then
     r <- csr_read_allowed CSR_PMPADDR0 ;; ret (default 0 r)
   else ret 0)%sbi.

Definition hart_pmu_get_allowed_bits : M csr_file Z :=
  (let val := u64_max in
   ok <- csr_write_allowed CSR_MHPMCOUNTER3 val ;;
   if ok : bool then
     r <- csr_read_allowed CSR_MHPMCOUNTER3 ;;
     match r with
     | None => ret 0
     | Some val => ret (__fls val + 1)
     end
   else ret (__fls val + 1))%sbi.

(** __check_csr for a writable register.  [wrval] is the macro argument: for
    the PMP address registers it is the variable [val], which the macro has
    just overwritten with the value read, so the test writes back what it
    read ([None]); for the counters it is the constant 1. *)
Definition check_csr (c : Z) (wrval : option Z) : M csr_file bool :=
  (r <- csr_read_allowed c ;;
   match r with
   | None => ret false
   | Some val =>
       let wr := default val wrval in
       ok <- csr_write_allowed c wr ;;
       if ok : bool then
         back <- csr_swap c val ;; ret (back =? wr)
       else ret false
   end)%sbi.

(** A run of consecutive registers: the number that passed before the first
    failure, and whether all did. *)
Fixpoint check_csrs (l : list Z) (wrval : option Z) (count : Z) : M csr_file (Z * bool) :=
  (match l with
   | [] => ret (count, true)
   | c :: l' =>
       ok <- check_csr c wrval ;;
       if ok : bool then check_csrs l' wrval (count + 1) else ret (count, false)
   end)%sbi.

Definition detect_flag (c feature : Z) (fs : Z) : M csr_file Z :=
  (r <- csr_read_allowed c ;;
   match r with
   | None => ret fs
   | Some val =>
       ok <- csr_write_allowed c val ;;
       ret (if ok : bool then Z.lor fs feature else fs)
   end)%sbi.

Definition hart_detect_features (hf : hart_features) : M csr_file hart_features :=
  (val <- hart_pmp_get_allowed_addr ;;
   pmp <- (if truthy val then
             c <- check_csrs (seqZ CSR_PMPADDR0 64) None 0 ;;
             ret (u64 (s32 (Z.shiftl 1 ((__ffs val + 2) mod 32))), __fls val + 1, fst c)
           else ret (pmp_gran hf, pmp_addr_bits hf, 0)) ;;
   let '(gran, bits, pcount) := pmp in
   first <- check_csr CSR_MHPMCOUNTER3 (Some 1) ;;
   mhpm <- (if first : bool then
              b <- hart_pmu_get_allowed_bits ;;
              c <- check_csrs (seqZ (CSR_MHPMCOUNTER3 + 1) 28) (Some 1) 1 ;;
              ret (fst c, b)
            else ret (0, mhpm_bits hf)) ;;
   let '(mcount, mbits) := mhpm in
   fs <- detect_flag CSR_SCOUNTEREN SBI_HART_HAS_SCOUNTEREN 0 ;;
   fs <- detect_flag CSR_MCOUNTEREN SBI_HART_HAS_MCOUNTEREN fs ;;
   fs <- detect_flag CSR_MCOUNTINHIBIT SBI_HART_HAS_MCOUNTINHIBIT fs ;;
   t <- csr_read_allowed CSR_TIME ;;
   ret (HartFeatures (match t with Some _ => Z.lor fs SBI_HART_HAS_TIME | None => fs end)
          pcount bits gran mcount mbits))%sbi.
End Detect.

(** ** The decision of the PMP hardware

    In S- and U-mode the lowest-numbered entry that matches the address decides;
    when none matches the access is refused. *)
Definition pmp_check (m : csr_file) (entries : list Z) (addr rwx : Z) : bool :=
  match list_find (λ n, pmp_matches m n addr = true) entries with
  | Some (_, n) => Z.land (pmp_cfg m n) rwx =? rwx
  | None => false
  end.

(** Entry [n] holds region [r]. *)
Definition pmp_holds (m : csr_file) (n : Z) (r : sbi_domain_memregion) : Prop :=
  (forall a, is_u64 a -> pmp_matches m n a = region_contains r a) /\
  Z.land (pmp_cfg m n) 7 = Z.land (reg_flags r) 7.

(** ** Lemmas *)

Lemma land_pow2_bit f k : 0 <= k -> Z.land f (2 ^ k) = if Z.testbit f k then 2 ^ k else 0.
Proof.
  intros Hk. apply Z.bits_inj'. intros i Hi. rewrite Z.land_spec, Z.pow2_bits_eqb by lia.
  destruct (Z.eqb_spec k i) as [->|Hne].
  - destruct (Z.testbit f i); [by rewrite Z.pow2_bits_true|by rewrite Z.bits_0].
  - rewrite andb_false_r. destruct (Z.testbit f k); [by rewrite Z.pow2_bits_false|by rewrite Z.bits_0].
Qed.

Lemma truthy_land_pow2 f k : 0 <= k -> truthy (Z.land f (2 ^ k)) = Z.testbit f k.
Proof.
  intros Hk. rewrite land_pow2_bit by done. assert (0 < 2 ^ k) by (apply Z.pow_pos_nonneg; lia).
  destruct (Z.testbit f k); [apply truthy_true; lia|done].
Qed.

(** The permission bits of a region and of its PMP entry are the same. *)
Lemma region_pmp_flags_spec f :
  0 <= region_pmp_flags f <= 0xff /\ Z.land (region_pmp_flags f) PMP_A = 0 /\
  Z.land (region_pmp_flags f) 7 = Z.land f 7.
Proof.
  assert (E7 : Z.land f 7 = Z.b2z (Z.testbit f 0) + 2 * Z.b2z (Z.testbit f 1) + 4 * Z.b2z (Z.testbit f 2)).
  { change 7 with (Z.lor (2 ^ 0) (Z.lor (2 ^ 1) (2 ^ 2))). rewrite !Z.land_lor_distr_r, !land_pow2_bit by lia.
    destruct (Z.testbit f 0), (Z.testbit f 1), (Z.testbit f 2); reflexivity. }
  rewrite E7. unfold region_pmp_flags.
  assert (T : forall k, 0 <= k -> forall x, x = 2 ^ k -> truthy (Z.land f x) = Z.testbit f k)
    by (intros k Hk x ->; by apply truthy_land_pow2).
  rewrite (T 0 ltac:(lia) SBI_DOMAIN_MEMREGION_READABLE eq_refl),
    (T 1 ltac:(lia) SBI_DOMAIN_MEMREGION_WRITEABLE eq_refl),
    (T 2 ltac:(lia) SBI_DOMAIN_MEMREGION_EXECUTABLE eq_refl),
    (T 3 ltac:(lia) SBI_DOMAIN_MEMREGION_MMODE eq_refl).
  destruct (Z.testbit f 0), (Z.testbit f 1), (Z.testbit f 2), (Z.testbit f 3);
    vm_compute; repeat split; congruence.
Qed.

(** A region that can be encoded in one PMP entry: inside the address space,
    at least four bytes, aligned to its size. *)
Definition region_encodable (r : sbi_domain_memregion) : Prop :=
  region_ok r /\ 2 <= reg_order r /\ reg_base r mod 2 ^ reg_order r = 0.

Lemma region_args r n :
  0 <= n < 64 -> region_encodable r ->
  pmp_args_ok n (region_pmp_flags (reg_flags r)) (reg_base r) (reg_order r).
Proof.
  intros Hn ((H1 & H2 & H3) & H4 & H5). destruct (region_pmp_flags_spec (reg_flags r)) as (? & ? & _).
  constructor; (done || lia).
Qed.

Lemma pmp_matches_ext m m' n a :
  pmp_cfg m' n = pmp_cfg m n -> pmp_addr m' n = pmp_addr m n -> pmp_matches m' n a = pmp_matches m n a.
Proof. intros E1 E2. unfold pmp_matches. by rewrite E1, E2. Qed.

Lemma pmp_set_holds m n r :
  csr_wf m -> 0 <= n < 64 -> region_encodable r ->
  let m' := snd (pmp_set n (region_pmp_flags (reg_flags r)) (reg_base r) (reg_order r) m) in
  csr_wf m' /\ pmp_holds m' n r /\
  forall n', 0 <= n' < 64 -> n' <> n -> pmp_cfg m' n' = pmp_cfg m n' /\ pmp_addr m' n' = pmp_addr m n'.
Proof.
  intros W Hn Hr. pose proof (region_args r n Hn Hr) as A. cbn zeta.
  destruct (region_pmp_flags_spec (reg_flags r)) as (Hp & _ & H7).
  assert (Hpm := prot_mode_range _ (reg_order r) Hp).
  split; [by apply pmp_set_wf|]. split; [split|].
  - intros a Ha. rewrite pmp_set_matches by done. unfold region_contains.
    rewrite region_end_ok by apply Hr. apply eq_bool_prop_intro.
    rewrite !Is_true_true, !andb_true_iff, !Z.leb_le, Z.ltb_lt. lia.
  - destruct (pmp_fields_after_set n n _ (reg_base r) _ m W Hn Hn (args_l _ _ _ _ A) Hpm) as [F1 _].
    cbn zeta in F1. rewrite F1, Z.eqb_refl, Z.land_lor_distr_l, H7.
    destruct (pmp_mode_range (reg_order r)) as [-> | ->]; apply Z.lor_0_r.
  - intros n' Hn' Hne.
    destruct (pmp_fields_after_set n n' _ (reg_base r) _ m W Hn Hn' (args_l _ _ _ _ A) Hpm) as [F1 F2].
    cbn zeta in F1, F2. rewrite F1, F2. destruct (Z.eqb_spec n n'); [congruence|done].
Qed.

(** After the loop the entries from [idx] on hold the regions, in order; the
    others are as before. *)
Lemma pmp_loop_run hf rs idx m :
  csr_wf m -> 0 <= idx -> idx + Z.of_nat (length rs) <= pmp_count hf -> pmp_count hf <= 64 ->
  Forall region_encodable rs -> Forall (λ r, pmp_fits hf r = true) rs ->
  exists m', pmp_loop hf rs idx m = (Ret tt, m') /\ csr_wf m' /\
    (forall (j : nat) r, rs !! j = Some r -> pmp_holds m' (idx + Z.of_nat j) r) /\
    (forall n, 0 <= n < 64 -> n < idx \/ idx + Z.of_nat (length rs) <= n ->
       pmp_cfg m' n = pmp_cfg m n /\ pmp_addr m' n = pmp_addr m n).
Proof.
  intros W Hi Hc H64 He Hf. revert idx m W Hi Hc.
  induction rs as [|r rs IH]; intros idx m W Hi Hc; cbn [pmp_loop].
  { exists m. split; [done|]. split; [done|]. split; [intros j r Hj; by rewrite lookup_nil in Hj|done]. }
  apply Forall_cons_iff in He as [He1 He]. apply Forall_cons_iff in Hf as [Hf1 Hf].
  cbn [length] in Hc. rewrite (proj2 (Z.leb_gt _ _)), Hf1 by lia.
  destruct (pmp_set_holds m idx r W ltac:(lia) He1) as (W1 & Hh1 & Hfr1). cbn zeta in *.
  unfold bind. rewrite pmp_set_run in *; [|lia|destruct He1 as ((? & _) & ? & _); lia..].
  cbn [snd] in *. set (m1 := <[_ := _]> (<[_ := _]> m)) in *.
  destruct (IH He Hf (idx + 1) m1 W1 ltac:(lia) ltac:(lia)) as (m' & E & W' & Hh & Hfr).
  exists m'. split; [done|]. split; [done|]. cbn [length]. split.
  - intros [|j] r' Hj; cbn in Hj.
    + injection Hj as <-. rewrite Z.add_0_r. destruct Hh1 as [Hm1 Hc1].
      destruct (Hfr idx ltac:(lia) ltac:(lia)) as [F1 F2]. split.
      * intros a Ha. rewrite (pmp_matches_ext m1) by done. by apply Hm1.
      * by rewrite F1.
    + replace (idx + Z.of_nat (S j)) with (idx + 1 + Z.of_nat j) by lia. by apply Hh.
  - intros n Hn Hor. destruct (Hfr n Hn ltac:(lia)) as [-> ->]. apply Hfr1; lia.
Qed.

(** Reading the entries in order is reading the regions in order. *)
Lemma pmp_check_regions m rs idx addr mode rwx :
  is_u64 addr -> mode = PRV_S \/ mode = PRV_U -> 0 <= rwx <= 7 -> 0 <= idx ->
  idx + Z.of_nat (length rs) <= 64 ->
  Forall (λ r, Z.land (reg_flags r) SBI_DOMAIN_MEMREGION_MMIO = 0) rs ->
  (forall (j : nat) r, rs !! j = Some r -> pmp_holds m (idx + Z.of_nat j) r) ->
  (forall n, idx + Z.of_nat (length rs) <= n < 64 -> pmp_matches m n addr = false) ->
  pmp_check m (seqZ idx (64 - idx)) addr rwx = check_regions rs addr mode rwx false.
Proof.
  intros Ha Hmode Hr. revert idx. induction rs as [|r rs IH]; intros idx Hi Hlen Hmm Hh Hoff.
  - cbn [length check_regions] in *. unfold pmp_check.
    replace (list_find _ _) with (@None (nat * Z)).
    + destruct Hmode as [-> | ->]; reflexivity.
    + symmetry. apply list_find_None, Forall_forall. intros n Hn. apply list_elem_of_In, elem_of_seqZ in Hn.
      rewrite Hoff by lia. discriminate.
  - cbn [length] in Hlen. apply Forall_cons_iff in Hmm as [Hmm1 Hmm].
    destruct (Hh 0%nat r eq_refl) as [Hm0 Hc0]. rewrite Z.add_0_r in Hm0, Hc0.
    rewrite (seqZ_cons idx) by lia. cbn [check_regions].
    replace (mode =? PRV_M) with false by (symmetry; apply Z.eqb_neq; destruct Hmode as [-> | ->]; discriminate).
    cbn [andb]. specialize (Hm0 addr Ha). unfold region_contains in Hm0. rewrite Hmm1.
    change (truthy 0) with false. cbn [andb orb negb].
    unfold pmp_check. cbn [list_find].
    destruct ((reg_base r <=? addr) && (addr <=? region_end r)).
    + rewrite decide_True by done. cbn [fmap option_fmap option_map].
      assert (E : forall x, Z.land x rwx = Z.land (Z.land x 7) rwx).
      { intros x. rewrite <- Z.land_assoc. f_equal. change 7 with (2 ^ 3 - 1).
        rewrite Z.land_comm, land_ones_mod by lia. symmetry. apply Z.mod_small. change (2 ^ 3) with 8. lia. }
      by rewrite E, Hc0, <- E.
    + rewrite decide_False by congruence.
      specialize (IH (idx + 1) ltac:(lia) ltac:(lia) Hmm).
      unfold pmp_check in IH. replace (Z.succ idx) with (idx + 1) by lia.
      replace (Z.pred (64 - idx)) with (64 - (idx + 1)) by lia.
      rewrite <- IH.
      * destruct (list_find _ (seqZ (idx + 1) _)) as [[? ?]|]; done.
      * intros j r' Hj. replace (idx + 1 + Z.of_nat j) with (idx + Z.of_nat (S j)) by lia. by apply Hh.
      * intros n Hn. apply Hoff. cbn [length]. lia.
Qed.

(** ** Properties *)

(** The conditions under which every region of the domain gets its PMP entry. *)
Record pmp_room (hf : hart_features) (rs : list sbi_domain_memregion) : Prop := {
  room_count : 0 < pmp_count hf <= 64 /\ Z.of_nat (length rs) <= pmp_count hf;
  room_encodable : Forall region_encodable rs;
  room_fits : Forall (λ r, pmp_fits hf r = true) rs;
  room_memory : Forall (λ r, Z.land (reg_flags r) SBI_DOMAIN_MEMREGION_MMIO = 0) rs;
}.

Lemma pmp_configure_run hf regs m :
  csr_wf m -> (forall n, 0 <= n < 64 -> Z.land (pmp_cfg m n) PMP_A = 0) -> pmp_room hf (memregions regs) ->
  exists m', sbi_hart_pmp_configure hf regs m = (Ret 0, m') /\ csr_wf m' /\
    forall addr mode acc, is_u64 addr -> mode = PRV_S \/ mode = PRV_U ->
      pmp_check m' (seqZ 0 64) addr (access_rwx acc) =
      check_regions (memregions regs) addr mode (access_rwx acc) false.
Proof.
  intros W Hoff [[Hc1 Hc2] He Hf Hm]. unfold sbi_hart_pmp_configure.
  rewrite (proj2 (Z.eqb_neq _ _)) by lia.
  destruct (pmp_loop_run hf (memregions regs) 0 m W ltac:(lia) ltac:(lia) ltac:(lia) He Hf)
    as (m' & E & W' & Hh & Hfr).
  exists m'. unfold bind. rewrite E. split; [done|]. split; [done|].
  intros addr mode acc Ha Hmode.
  apply (pmp_check_regions m' (memregions regs) 0 addr mode); try done; try lia.
  - apply access_rwx_range.
  - intros n Hn. destruct (Hfr n ltac:(lia) ltac:(lia)) as [F1 F2].
    rewrite (pmp_matches_ext m) by done. unfold pmp_matches. rewrite Hoff by lia. done.
Qed.

(** [C3] The PMP image of a domain is right: when every region fits into an
    entry and the PMP was off, sbi_hart_pmp_configure returns 0 and afterwards
    the hardware decides every S- and U-mode access exactly as the region list
    does in sbi_domain_check_addr. *)
Theorem pmp_configure_refines_domain hf regs m :
  csr_wf m -> (forall n, 0 <= n < 64 -> Z.land (pmp_cfg m n) PMP_A = 0) -> pmp_room hf (memregions regs) ->
  exists m', sbi_hart_pmp_configure hf regs m = (Ret 0, m') /\ csr_wf m' /\
    forall addr mode acc, is_u64 addr -> mode = PRV_S \/ mode = PRV_U ->
      pmp_check m' (seqZ 0 64) addr (access_rwx acc) =
      check_regions (memregions regs) addr mode (access_rwx acc) false.
Proof. apply pmp_configure_run. Qed.

Lemma pmp_configure_refines_domain_witness :
  let regs := [MemRegion 18 0x80000000 0; MemRegion 64 0 7; MemRegion 0 0 0] in
  let hf := HartFeatures 0 8 54 4 0 0 in
  exists m', sbi_hart_pmp_configure hf regs ∅ = (Ret 0, m') /\ csr_wf m' /\
    forall addr mode acc, is_u64 addr -> mode = PRV_S \/ mode = PRV_U ->
      pmp_check m' (seqZ 0 64) addr (access_rwx acc) =
      check_regions (memregions regs) addr mode (access_rwx acc) false.
Proof.
  intros regs hf. apply (pmp_configure_refines_domain hf regs ∅).
  - intros c v H. rewrite lookup_empty in H. discriminate.
  - intros n Hn. unfold pmp_cfg. rewrite lookup_empty. cbn [default]. unfold cfg_byte.
    rewrite Z.shiftr_0_l. reflexivity.
  - change (memregions regs) with [MemRegion 18 0x80000000 0; MemRegion 64 0 7].
    constructor.
    + cbn. lia.
    + repeat constructor; cbn; try lia; discriminate.
    + repeat constructor.
    + repeat constructor.
Defined.

(** Look a register up in a map with known updates. *)
Ltac csr_lookup :=
  repeat first [rewrite lookup_insert_eq | rewrite lookup_insert_ne by discriminate].

(** Asking for an extension changes nothing. *)
Lemma misa_extension_run pe c m : exists b, misa_extension pe c m = (Ret b, m).
Proof. by eexists. Qed.

(** What M-mode keeps for itself: delegate_traps never delegates the
    supervisor ecall, illegal instructions, misaligned accesses or access
    faults, and delegates only the three supervisor interrupts. *)
Theorem delegate_traps_keeps_machine_causes pe md m :
  exists rc m', delegate_traps pe md m = (Ret rc, m') /\ rc = 0 /\
    (m' = m \/
     (m' !! CSR_MIDELEG = Some (2 ^ 1 + 2 ^ 5 + 2 ^ 9) /\
      exists e, m' !! CSR_MEDELEG = Some e /\
        Forall (λ c, Z.testbit e c = false) [1; 2; 4; 5; 6; 7; 9; 11])).
Proof.
  unfold delegate_traps, bind. destruct (misa_extension_run pe 83 m) as [s ->].
  destruct s; cbn [negb]; [|eexists _, _; split; [done|]; split; [done|by left]].
  destruct (misa_extension_run pe 72 m) as [h ->].
  unfold csr_write, modify, ret. eexists _, _. split; [done|]. split; [done|]. right.
  split; [rewrite lookup_insert_ne by done; apply lookup_insert_eq|].
  eexists. split; [apply lookup_insert_eq|].
  destruct md, h; vm_compute; repeat constructor.
Qed.

(** INSERT_FIELD replaces the [w] bits from [lo] on. *)
Lemma INSERT_FIELD_bits val which fv lo w i :
  is_u64 val -> 0 <= lo -> 0 <= w -> lo + w <= 64 -> 0 <= fv < 2 ^ w ->
  which = Z.shiftl (Z.ones w) lo -> Z.land which (not64 (which - 1)) = 2 ^ lo -> 0 <= i < 64 ->
  Z.testbit (INSERT_FIELD val which fv) i =
  if (lo <=? i) && (i <? lo + w) then Z.testbit fv (i - lo) else Z.testbit val i.
Proof.
  intros Hv Hlo Hw Hlw Hfv Hwhich Hlow Hi. unfold INSERT_FIELD. rewrite Hlow.
  assert (Hp : 0 < 2 ^ lo) by (apply Z.pow_pos_nonneg; lia).
  assert (Hpw : 2 ^ w * 2 ^ lo <= 2 ^ 64) by (rewrite <- Z.pow_add_r by lia; apply Z.pow_le_mono_r; lia).
  assert (Hu : is_u64 which).
  { rewrite Hwhich, Z.shiftl_mul_pow2, Z.ones_equiv by lia. unfold is_u64.
    assert (0 < 2 ^ w) by (apply Z.pow_pos_nonneg; lia). nia. }
  rewrite u64_small by (unfold is_u64; nia).
  rewrite Z.lor_spec, Z.land_spec, testbit_not64 by done.
  rewrite Hwhich, Z.shiftl_spec by lia. rewrite Z.testbit_ones by lia.
  rewrite <- Z.shiftl_mul_pow2, Z.shiftl_spec by lia.
  destruct (Z.leb_spec lo i) as [Hl|Hl].
  - replace (0 <=? i - lo) with true by (symmetry; apply Z.leb_le; lia). cbn [andb].
    destruct (Z.ltb_spec (i - lo) w), (Z.ltb_spec i (lo + w)); try lia; cbn [negb].
    + by rewrite andb_false_r.
    + rewrite andb_true_r, <- (Z.mod_small fv (2 ^ w)), Z.mod_pow2_bits_high by lia.
      apply orb_false_r.
  - replace (0 <=? i - lo) with false by (symmetry; apply Z.leb_gt; lia). cbn [andb negb].
    rewrite (Z.testbit_neg_r fv) by lia. by rewrite andb_true_r, orb_false_r.
Qed.

Lemma INSERT_FIELD_u64 val which fv : is_u64 val -> is_u64 which -> is_u64 (INSERT_FIELD val which fv).
Proof.
  intros Hv Hw. unfold INSERT_FIELD. apply lor_u64; [|apply u64_range].
  apply land_u64; [done|]. apply not64_range, Hw.
Qed.

(** The mstatus value sbi_hart_switch_mode computes. *)
Definition switch_mstatus (st next_mode : Z) (h virt : bool) : Z :=
  let val := INSERT_FIELD (INSERT_FIELD st MSTATUS_MPP next_mode) MSTATUS_MPIE 0 in
  if h then INSERT_FIELD val MSTATUS_MPV (if virt then 1 else 0) else val.

Lemma switch_mstatus_fields st next_mode h virt :
  is_u64 st -> 0 <= next_mode <= 3 ->
  Z.land (Z.shiftr (switch_mstatus st next_mode h virt) 11) 3 = next_mode /\
  Z.testbit (switch_mstatus st next_mode h virt) 7 = false.
Proof.
  intros Hst Hm.
  assert (U1 : is_u64 (INSERT_FIELD st MSTATUS_MPP next_mode)).
  { apply INSERT_FIELD_u64; [done|]. unfold is_u64; vm_compute; split; congruence. }
  assert (U2 : is_u64 (INSERT_FIELD (INSERT_FIELD st MSTATUS_MPP next_mode) MSTATUS_MPIE 0)).
  { apply INSERT_FIELD_u64; [done|]. unfold is_u64; vm_compute; split; congruence. }
  assert (B : forall i, 0 <= i < 39 -> Z.testbit (switch_mstatus st next_mode h virt) i =
    if (7 <=? i) && (i <? 8) then false
    else if (11 <=? i) && (i <? 13) then Z.testbit next_mode (i - 11) else Z.testbit st i).
  { intros i Hi. unfold switch_mstatus. cbn zeta.
    assert (B2 : Z.testbit (INSERT_FIELD (INSERT_FIELD st MSTATUS_MPP next_mode) MSTATUS_MPIE 0) i =
      if (7 <=? i) && (i <? 8) then false
      else if (11 <=? i) && (i <? 13) then Z.testbit next_mode (i - 11) else Z.testbit st i).
    { rewrite (INSERT_FIELD_bits _ _ 0 7 1) by (done || lia). rewrite Z.bits_0.
      change (7 + 1) with 8. destruct ((7 <=? i) && (i <? 8)); [done|].
      rewrite (INSERT_FIELD_bits st _ next_mode 11 2) by (done || lia || (change (2 ^ 2) with 4; lia)). done. }
    destruct h; [|exact B2].
    rewrite (INSERT_FIELD_bits _ _ _ 39 1) by (done || lia || (destruct virt; change (2 ^ 1) with 2; lia)).
    replace ((39 <=? i) && (i <? 39 + 1)) with false
      by (symmetry; apply andb_false_iff; left; apply Z.leb_gt; lia). exact B2. }
  split; [|by rewrite B by lia].
  apply Z.bits_inj'. intros i Hi. rewrite Z.land_spec, Z.shiftr_spec by lia.
  change 3 with (Z.ones 2). rewrite Z.testbit_ones by lia.
  replace (0 <=? i) with true by (symmetry; apply Z.leb_le; lia). cbn [andb].
  destruct (Z.ltb_spec i 2).
  - rewrite B by lia. rewrite andb_true_r.
    rewrite (proj2 (Z.leb_le 7 _)), (proj2 (Z.ltb_ge _ 8)), (proj2 (Z.leb_le 11 _)), (proj2 (Z.ltb_lt _ 13)) by lia.
    cbn [andb]. f_equal. lia.
  - rewrite andb_false_r. rewrite <- (Z.mod_small next_mode (2 ^ 2)) by (change (2 ^ 2) with 4; lia).
    by rewrite Z.mod_pow2_bits_high by lia.
Qed.

(** PMP entries that exist but are hard-wired to zero pass the detection,
    because the test writes back the value it has just read: a hart with eight
    entries is taken to have 64. *)
Theorem detect_counts_hardwired_entries :
  let impl c := if csr_block CSR_PMPADDR0 8 c then Some (2 ^ 54 - 1)
                else if csr_block CSR_PMPADDR0 64 c then Some 0 else None in
  exists hf, fst (hart_detect_features impl (HartFeatures 0 0 0 0 0 0) ∅) = Ret hf /\
    pmp_count hf = 64.
Proof. eexists. split; [vm_compute; reflexivity|reflexivity]. Qed.

(** Writing back the value just read changes nothing, and passes the test. *)
Lemma land_complement x mask : is_u64 x -> is_u64 mask ->
  Z.lor (Z.land x mask) (Z.land x (not64 mask)) = x.
Proof.
  intros Hx Hm. apply Z.bits_inj'. intros i Hi. rewrite Z.lor_spec, !Z.land_spec.
  destruct (Z.lt_ge_cases i 64).
  - rewrite testbit_not64 by done. by destruct (Z.testbit x i), (Z.testbit mask i).
  - rewrite (testbit_u64_high x) by done. done.
Qed.

Definition impl_wf (impl : Z → option Z) : Prop := forall c mask, impl c = Some mask -> is_u64 mask.

Lemma check_csr_readback impl c m :
  csr_wf m -> impl_wf impl -> csr_wf (snd (check_csr impl c None m)) /\
  fst (check_csr impl c None m) = Ret (bool_decide (is_Some (impl c))).
Proof.
  intros W I. unfold check_csr, csr_read_allowed, csr_swap, csr_write_allowed, bind, csr_read, csr_write,
    gets, modify, ret. destruct (impl c) as [mask|] eqn:E; [|done].
  pose proof (I c mask E) as Hm. pose proof (csr_value_wf m c W) as Hv. cbn [default].
  rewrite (land_complement _ mask) by done. rewrite lookup_insert_eq. cbn [default id]. unfold id.
  rewrite land_complement by done. rewrite Z.eqb_refl. split; [|done]. cbn [snd].
  by repeat apply csr_wf_insert.
Qed.

Lemma check_csrs_readback impl l m count :
  csr_wf m -> impl_wf impl ->
  exists k b m', check_csrs impl l None count m = (Ret (count + Z.of_nat k, b), m') /\ csr_wf m' /\
    (k <= length l)%nat /\
    (forall (j : nat) c, (j < k)%nat -> l !! j = Some c -> is_Some (impl c)) /\
    (forall c, l !! k = Some c -> impl c = None).
Proof.
  intros W I. revert m count W. induction l as [|c l IH]; intros m count W; cbn [check_csrs].
  { exists 0%nat, true, m. rewrite Z.add_0_r. split; [done|]. split; [done|]. split; [done|].
    split; [lia|done]. }
  destruct (check_csr_readback impl c m W I) as [W1 E1]. unfold bind.
  destruct (check_csr impl c None m) as [o m1]. cbn [fst snd] in *. subst o.
  destruct (impl c) as [mask|] eqn:Ec; cbn.
  - destruct (IH m1 (count + 1) W1) as (k & b & m' & E & W' & Hk & Hlow & Hat).
    exists (S k), b, m'. split; [rewrite E; do 3 f_equal; lia|]. split; [done|]. split; [cbn; lia|].
    split; [|exact Hat]. intros [|j] c' Hj Hl; cbn in Hl; [injection Hl as <-; by rewrite Ec|].
    apply (Hlow j); [lia|done].
  - exists 0%nat, false, m1. rewrite Z.add_0_r. split; [done|]. split; [done|]. split; [lia|].
    split; [lia|]. by intros c' [= <-].
Qed.

Lemma check_csr_total impl c w m : exists b m', check_csr impl c w m = (Ret b, m').
Proof.
  unfold check_csr, csr_read_allowed, csr_swap, csr_write_allowed, bind, csr_read, csr_write, gets, modify, ret.
  destruct (impl c); eauto.
Qed.

Lemma check_csrs_total impl l w count m : exists r m', check_csrs impl l w count m = (Ret r, m').
Proof.
  revert count m. induction l as [|c l IH]; intros count m; cbn [check_csrs]; [by eauto|].
  unfold bind. destruct (check_csr_total impl c w m) as (b & m' & ->). destruct b; [apply IH|by eauto].
Qed.

Lemma detect_flag_total impl c f fs m : exists r m', detect_flag impl c f fs m = (Ret r, m').
Proof.
  unfold detect_flag, csr_read_allowed, csr_write_allowed, bind, csr_read, csr_write, gets, modify, ret.
  destruct (impl c); eauto.
Qed.

Lemma pmu_bits_total impl m : exists r m', hart_pmu_get_allowed_bits impl m = (Ret r, m').
Proof.
  unfold hart_pmu_get_allowed_bits, csr_read_allowed, csr_write_allowed, bind, csr_read, csr_write, gets,
    modify, ret. destruct (impl _); eauto.
Qed.

Lemma allowed_addr_run impl m mask0 :
  csr_wf m -> impl_wf impl -> impl CSR_PMPADDR0 = Some mask0 -> Z.land (2 ^ 54 - 1) mask0 <> 0 ->
  exists v, hart_pmp_get_allowed_addr impl m = (Ret v, <[CSR_PMPADDR0 := v]> m) /\ is_u64 v /\ v <> 0 /\
    (impl CSR_PMPADDR0 = Some u64_max -> v = 2 ^ 54 - 1).
Proof.
  intros W I E0 Hval. unfold hart_pmp_get_allowed_addr, csr_write_allowed, csr_read_allowed, bind, csr_read,
    csr_write, gets, modify, ret. rewrite E0, lookup_insert_eq. cbn [default id]. unfold id.
  eexists. split; [done|]. split.
  - pose proof (I _ _ E0) as Hm. apply lor_u64; apply land_u64.
    + unfold is_u64. lia.
    + apply Hm.
    + apply csr_value_wf, W.
    + apply not64_range, Hm.
  - split; [intros Hz; apply Z.lor_eq_0_iff in Hz as [Hz _]; done|].
    intros Hf. assert (mask0 = u64_max) as -> by congruence. change (not64 u64_max) with 0.
    by rewrite Z.land_0_r, Z.lor_0_r.
Qed.

Lemma detect_run impl hf m mask0 (n : nat) :
  csr_wf m -> impl_wf impl -> impl CSR_PMPADDR0 = Some mask0 ->
  Z.land (2 ^ 54 - 1) mask0 <> 0 -> (n <= 64)%nat ->
  (forall i, 0 <= i < Z.of_nat n -> is_Some (impl (CSR_PMPADDR0 + i))) ->
  ((n < 64)%nat -> impl (CSR_PMPADDR0 + Z.of_nat n) = None) ->
  exists hf' m', hart_detect_features impl hf m = (Ret hf', m') /\ pmp_count hf' = Z.of_nat n /\
    exists v, (impl CSR_PMPADDR0 = Some u64_max -> v = 2 ^ 54 - 1) /\
      pmp_addr_bits hf' = __fls v + 1 /\ pmp_gran hf' = u64 (s32 (Z.shiftl 1 ((__ffs v + 2) mod 32))).
Proof.
  intros W I E0 Hval Hn Hlow Hnone. unfold hart_detect_features.
  destruct (allowed_addr_run impl m mask0 W I E0 Hval) as (v & Ev & Hv & Hv0 & Hfull).
  set (m1 := <[CSR_PMPADDR0 := v]> m) in *. rewrite (bind_Ret _ _ _ _ _ Ev).
  rewrite (proj2 (truthy_true _) Hv0).
  destruct (check_csrs_readback impl (seqZ CSR_PMPADDR0 64) m1 0) as (k & b & m2 & Ek & W2 & Hk & Hlk & Hat);
    [by apply csr_wf_insert|done|].
  erewrite bind_Ret by (erewrite bind_Ret by exact Ek; reflexivity). cbn [fst].
  assert (Hkn : k = n).
  { rewrite length_seqZ in Hk. change (Z.to_nat 64) with 64%nat in Hk.
    destruct (Nat.lt_trichotomy k n) as [Hlt|[->|Hlt]]; [exfalso|done|exfalso].
    - assert (Hx : impl (CSR_PMPADDR0 + Z.of_nat k) = None) by (apply Hat, lookup_seqZ; lia).
      destruct (Hlow (Z.of_nat k) ltac:(lia)) as [? Hs]. congruence.
    - destruct (Hlk n (CSR_PMPADDR0 + Z.of_nat n) Hlt) as [? Hs]; [apply lookup_seqZ; lia|].
      rewrite Hnone in Hs by lia. discriminate. }
  subst k.
  destruct (check_csr_total impl CSR_MHPMCOUNTER3 (Some 1) m2) as (b1 & m3 & E3).
  rewrite (bind_Ret _ _ _ _ _ E3).
  set (mh := if b1 then _ else _).
  assert (Hmh : exists r m4, mh m3 = (Ret r, m4)).
  { unfold mh. destruct b1; [|by eexists _, _]. destruct (pmu_bits_total impl m3) as (r & m4 & E4).
    destruct (check_csrs_total impl (seqZ (CSR_MHPMCOUNTER3 + 1) 28) (Some 1) 1 m4) as (r' & m5 & E5).
    rewrite (bind_Ret _ _ _ _ _ E4), (bind_Ret _ _ _ _ _ E5). by eexists _, _. }
  destruct Hmh as ([mc mb] & m4 & Hmh). rewrite (bind_Ret _ _ _ _ _ Hmh).
  destruct (detect_flag_total impl CSR_SCOUNTEREN SBI_HART_HAS_SCOUNTEREN 0 m4) as (f1 & m5 & E5).
  rewrite (bind_Ret _ _ _ _ _ E5).
  destruct (detect_flag_total impl CSR_MCOUNTEREN SBI_HART_HAS_MCOUNTEREN f1 m5) as (f2 & m6 & E6).
  rewrite (bind_Ret _ _ _ _ _ E6).
  destruct (detect_flag_total impl CSR_MCOUNTINHIBIT SBI_HART_HAS_MCOUNTINHIBIT f2 m6) as (f3 & m7 & E7).
  rewrite (bind_Ret _ _ _ _ _ E7).
  unfold csr_read_allowed, bind, csr_read, gets, ret. destruct (impl CSR_TIME); eexists _, _; (split; [reflexivity|]; split; [cbn; lia|exists v; done]).
Qed.

(** hart_detect_features terminates and, when PMPADDR0 has a writable
    address bit, reports as pmp_count the number of PMP address registers, from
    the first on, that can be accessed without a trap. *)
Theorem detect_pmp_count impl hf m mask0 (n : nat) :
  csr_wf m -> impl_wf impl -> impl CSR_PMPADDR0 = Some mask0 ->
  Z.land (2 ^ 54 - 1) mask0 <> 0 -> (n <= 64)%nat ->
  (forall i, 0 <= i < Z.of_nat n -> is_Some (impl (CSR_PMPADDR0 + i))) ->
  ((n < 64)%nat -> impl (CSR_PMPADDR0 + Z.of_nat n) = None) ->
  exists hf' m', hart_detect_features impl hf m = (Ret hf', m') /\ pmp_count hf' = Z.of_nat n.
Proof.
  intros W I E0 Hval Hn Hlow Hnone.
  destruct (detect_run impl hf m mask0 n W I E0 Hval Hn Hlow Hnone) as (hf' & m' & E & Hc & _). by exists hf', m'.
Qed.

Lemma detect_pmp_count_witness :
  let impl c := if csr_block CSR_PMPADDR0 16 c then Some (2 ^ 54 - 1) else None in
  exists hf' m', hart_detect_features impl (HartFeatures 0 0 0 0 0 0) ∅ = (Ret hf', m') /\
    pmp_count hf' = Z.of_nat 16.
Proof.
  intros impl. apply (detect_pmp_count impl (HartFeatures 0 0 0 0 0 0) ∅ (2 ^ 54 - 1) 16).
  - intros c v H. rewrite lookup_empty in H. discriminate.
  - intros c mask H. unfold impl in H. destruct (csr_block _ _ _); [|discriminate].
    injection H as <-. unfold is_u64. lia.
  - reflexivity.
  - discriminate.
  - lia.
  - intros i Hi. unfold impl, csr_block.
    rewrite (proj2 (Z.leb_le _ _)), (proj2 (Z.ltb_lt _ _)) by lia. by eexists.
  - intros _. reflexivity.
Defined.

(** ** Running the set-up of a hart *)

(** Does the hart have extension [c]? *)
Definition misa_has (pe : Z → Z) (c : Z) (m : csr_file) : bool :=
  match misa_extension pe c m with (Ret b, _) => b | (Stop _, _) => false end.

#[global] Arguments misa_has : simpl never.

Lemma misa_has_run pe c m : misa_extension pe c m = (Ret (misa_has pe c m), m).
Proof. reflexivity. Qed.

Lemma misa_has_ext pe c m m' : m' !! CSR_MISA = m !! CSR_MISA -> misa_has pe c m' = misa_has pe c m.
Proof. intros E. unfold misa_has, misa_extension, misa_extension_imp, csr_read, bind, gets. cbn. by rewrite E. Qed.

(** Frame reasoning: a register that is not written keeps its value, and words
    stay words. *)
Definition csr_frame (c : Z) (x : option Z) (m : csr_file) : Prop := m !! c = x.

Lemma frame_write c x c' v : c <> c' -> preserves (csr_frame c x) (csr_write c' v).
Proof. intros Hne. apply preserves_modify. intros m H. unfold csr_frame in *. by rewrite lookup_insert_ne. Qed.

Lemma wf_write c' v : is_u64 v -> preserves csr_wf (csr_write c' v).
Proof. intros Hv. apply preserves_modify. intros m W. by apply csr_wf_insert. Qed.

Lemma preserves_misa P pe c : preserves P (misa_extension pe c).
Proof. intros m H. exact H. Qed.

Lemma preserves_when {S} (P : S → Prop) b c : preserves P c -> preserves P (when b c).
Proof. destruct b; intros H; [exact H|apply preserves_ret]. Qed.

Lemma preserves_if {S A} (P : S → Prop) (b : bool) (c c' : M S A) :
  preserves P c -> preserves P c' -> preserves P (if b then c else c').
Proof. by destruct b. Qed.

Lemma preserves_run {S A} (P : S → Prop) (c : M S A) s r s' : preserves P c -> c s = (r, s') -> P s -> P s'.
Proof. intros H E HP. specialize (H s HP). by rewrite E in H. Qed.

#[export] Hint Resolve preserves_ret preserves_stop preserves_gets preserves_misa preserves_when preserves_if
  frame_write wf_write : sbi.

(** Walk through a computation with a frame property. *)
Ltac walk :=
  repeat (cbv zeta; match goal with
    | |- preserves _ (bind _ _) => apply preserves_bind; [|intros ?]
    | |- preserves _ (misa_extension _ _) => apply preserves_misa
    | |- preserves _ (when _ _) => apply preserves_when
    | |- preserves _ (if _ then _ else _) => apply preserves_if
    | |- preserves _ (ret _) => apply preserves_ret
    | |- preserves _ (stop _) => apply preserves_stop
    | |- preserves _ (gets _) => apply preserves_gets
    | |- preserves _ (csr_read _) => apply preserves_gets
    | |- preserves (csr_frame _ _) (csr_write _ _) => apply frame_write; congruence
    | |- preserves csr_wf (csr_write _ _) => apply wf_write
    end).

(** The registers the set-up writes. *)
Definition setup_csrs : list Z :=
  [CSR_MSTATUS; CSR_SCOUNTEREN; CSR_MCOUNTEREN; CSR_MCOUNTINHIBIT; CSR_MIE; CSR_SATP; CSR_FCSR;
   CSR_MIDELEG; CSR_MEDELEG].

Lemma reinit_frame pe hf md c x : c ∉ setup_csrs -> preserves (csr_frame c x) (sbi_hart_reinit pe hf md).
Proof.
  intros Hc. unfold setup_csrs in Hc. rewrite !not_elem_of_cons in Hc.
  destruct Hc as (? & ? & ? & ? & ? & ? & ? & ? & ? & _).
  unfold sbi_hart_reinit, mstatus_init, fp_init, delegate_traps. walk.
Qed.

Lemma reinit_wf pe hf md : preserves csr_wf (sbi_hart_reinit pe hf md).
Proof.
  unfold sbi_hart_reinit, mstatus_init, fp_init, delegate_traps. walk; try (unfold is_u64, u64_max; lia).
  all: repeat case_match; unfold is_u64; vm_compute; split; congruence.
Qed.

Lemma mstatus_init_run pe hf m :
  exists m1, mstatus_init pe hf m = (Ret tt, m1) /\ m1 !! CSR_MISA = m !! CSR_MISA /\
    (misa_has pe 68 m || misa_has pe 70 m = true ->
       truthy (Z.land (default 0 (m1 !! CSR_MSTATUS)) MSTATUS_FS) = true).
Proof.
  unfold mstatus_init, bind, when, csr_write, modify. rewrite misa_has_run.
  set (d := misa_has pe 68 m). set (f := misa_has pe 70 m).
  assert (Ef : (if d then ret true else misa_extension pe 70) m = (Ret (if d then true else f), m)) by (by destruct d).
  rewrite Ef, misa_has_run. set (v := misa_has pe 86 m).
  set (st := if v then _ else _). set (m0 := <[CSR_MSTATUS := st]> m). rewrite misa_has_run.
  set (s := misa_has pe 83 m0).
  destruct (s && sbi_hart_has_feature hf SBI_HART_HAS_SCOUNTEREN),
    (sbi_hart_has_feature hf SBI_HART_HAS_MCOUNTEREN), (sbi_hart_has_feature hf SBI_HART_HAS_MCOUNTINHIBIT);
    cbv beta iota delta [ret]; rewrite misa_has_run; set (s' := misa_has pe 83 _); destruct s';
    (eexists; split; [reflexivity|]; unfold m0; split; [by csr_lookup|]);
    intros Hdf; csr_lookup; cbn [default]; unfold st; destruct d, f, v; try discriminate Hdf; reflexivity.
Qed.

(** The set-up never fails. *)
Lemma reinit_run pe hf md m : exists m', sbi_hart_reinit pe hf md m = (Ret 0, m').
Proof.
  destruct (mstatus_init_run pe hf m) as (m1 & E1 & Hm & Hfs). unfold sbi_hart_reinit.
  rewrite (bind_Ret _ _ _ _ _ E1).
  assert (Efp : exists m2, fp_init pe m1 = (Ret 0, m2)).
  { unfold fp_init, bind. rewrite !misa_has_run, !(misa_has_ext pe _ m m1 Hm).
    destruct (misa_has pe 68 m) eqn:E68, (misa_has pe 70 m) eqn:E70; cbn [negb andb orb] in *;
      unfold csr_read, gets; rewrite ?Hfs by done; by eexists. }
  destruct Efp as (m2 & E2). rewrite (bind_Ret _ _ _ _ _ E2). cbn [truthy Z.eqb negb].
  unfold delegate_traps. rewrite !bind_assoc, (bind_Ret _ _ _ _ _ (misa_has_run pe 83 m2)).
  destruct (misa_has pe 83 m2); [|by eexists]. cbv zeta.
  cbn [negb]. rewrite !bind_assoc, (bind_Ret _ _ _ _ _ (misa_has_run pe 72 m2)).
  unfold bind, csr_write, modify. by eexists.
Qed.

(** The PMP loop writes PMP registers only. *)
Lemma pmp_set_frame n prot addr l c x :
  0 <= n < 64 -> c < 0x3a0 -> preserves (csr_frame c x) (pmp_set n prot addr l).
Proof.
  intros Hn Hc. destruct (pmp_csrs_known n Hn) as [K1 K2].
  assert (Hw : forall r v, csr_readable r = true -> 0x3a0 <= r -> preserves (csr_frame c x) (csr_write_num r v)).
  { intros r v Hr Hr'. unfold csr_write_num. rewrite csr_readable_writable by done. apply frame_write. lia. }
  assert (Hrd : forall r, csr_readable r = true -> preserves (csr_frame c x) (csr_read_num r)).
  { intros r Hr. unfold csr_read_num. rewrite Hr. apply preserves_gets. }
  pose proof (pmpcfg_csr_eq n Hn). pose proof (div_mod_8 n Hn).
  assert (pmpaddr_csr n = 0x3b0 + n) by done.
  unfold pmp_set. walk; first [apply Hw; [done|lia] | by apply Hrd].
Qed.

Lemma pmp_loop_frame hf rs idx c x :
  0 <= idx -> pmp_count hf <= 64 -> c < 0x3a0 -> preserves (csr_frame c x) (pmp_loop hf rs idx).
Proof.
  intros Hi Hp Hc. revert idx Hi. induction rs as [|r rs IH]; intros idx Hi; cbn [pmp_loop]; [apply preserves_ret|].
  destruct (Z.leb_spec (pmp_count hf) idx); [apply preserves_ret|].
  apply preserves_if; [|by apply IH]. apply preserves_bind; [apply pmp_set_frame; lia|].
  intros _. apply IH. lia.
Qed.

Lemma pmp_configure_frame hf regs c x :
  pmp_count hf <= 64 -> c < 0x3a0 -> preserves (csr_frame c x) (sbi_hart_pmp_configure hf regs).
Proof.
  intros Hp Hc. unfold sbi_hart_pmp_configure. apply preserves_if; [apply preserves_ret|].
  apply preserves_bind; [by apply pmp_loop_frame|intros; apply preserves_ret].
Qed.

(** The decision of the PMP depends on the PMP registers only. *)
Lemma pmp_check_frame m m' l addr rwx :
  (forall c, 0x3a0 <= c -> m' !! c = m !! c) -> Forall (λ n, 0 <= n < 64) l ->
  pmp_check m' l addr rwx = pmp_check m l addr rwx.
Proof.
  intros Hm Hl.
  assert (Hcfg : forall n, 0 <= n < 64 -> pmp_cfg m' n = pmp_cfg m n /\ pmp_addr m' n = pmp_addr m n).
  { intros n Hn. pose proof (pmpcfg_csr_eq n Hn). pose proof (div_mod_8 n Hn). unfold pmp_cfg, pmp_addr.
    rewrite !Hm; [done|unfold pmpaddr_csr, CSR_PMPADDR0; lia|lia]. }
  unfold pmp_check.
  assert (Hf : list_find (λ n, pmp_matches m' n addr = true) l = list_find (λ n, pmp_matches m n addr = true) l /\
    forall i n, list_find (λ n, pmp_matches m n addr = true) l = Some (i, n) -> 0 <= n < 64).
  { induction Hl as [|n l Hn Hl IH]; [done|]. cbn [list_find]. destruct IH as [IH1 IH2].
    destruct (Hcfg n Hn) as [C1 C2]. rewrite (pmp_matches_ext m m' n addr C1 C2), IH1. split; [done|].
    intros i k. case_decide; [by intros [= <- <-]|].
    intros Hk. apply fmap_Some in Hk as ([i' k'] & E & [= -> ->]). by apply (IH2 i'). }
  destruct Hf as [-> Hr]. destruct (list_find _ l) as [[i n]|]; [|done].
  by destruct (Hcfg n (Hr i n eq_refl)) as [-> _].
Qed.

(** ** Leaving for the next stage *)

Definition mode_supported (pe : Z → Z) (m : csr_file) (mode : Z) : bool :=
  (mode =? PRV_M) || ((mode =? PRV_S) && misa_has pe 83 m) || ((mode =? PRV_U) && misa_has pe 85 m).

(** sbi_hart_switch_mode leaves for exactly the requested mode and address, and
    a supervisor starts with translation off, its interrupts disabled and a
    clean sscratch. *)
Record entered (m : csr_file) (next_addr next_mode : Z) : Prop := {
  en_pc : m !! CSR_MEPC = Some next_addr;
  en_mode : exists st, m !! CSR_MSTATUS = Some st /\ Z.land (Z.shiftr st 11) 3 = next_mode /\
    Z.testbit st 7 = false;
  en_super : next_mode = PRV_S -> m !! CSR_SATP = Some 0 /\ m !! CSR_SIE = Some 0 /\
    m !! CSR_SSCRATCH = Some 0 /\ m !! CSR_STVEC = Some next_addr;
}.

Lemma switch_mode_frame pe a0 a1 na nm virt c x :
  0x342 <= c -> preserves (csr_frame c x) (sbi_hart_switch_mode pe a0 a1 na nm virt).
Proof.
  intros Hc.
  assert (Hw : forall c' v, c' < 0x342 -> preserves (csr_frame c x) (csr_write c' v)) by (intros; apply frame_write; lia).
  unfold sbi_hart_switch_mode.
  repeat (cbv zeta; match goal with
    | |- preserves _ (csr_write _ _) => apply Hw; done
    | |- preserves _ (if _ then ?a else ?b) => apply preserves_if
    | _ => progress walk
    end).
Qed.

Lemma switch_mode_run pe arg0 arg1 next_addr next_mode virt m :
  csr_wf m -> mode_supported pe m next_mode = true ->
  exists m', sbi_hart_switch_mode pe arg0 arg1 next_addr next_mode virt m = (Ret (arg0, arg1), m') /\
    entered m' next_addr next_mode.
Proof.
  intros W Hsup.
  assert (Hmode : 0 <= next_mode <= 3).
  { unfold mode_supported, PRV_M, PRV_S, PRV_U in Hsup.
    destruct (Z.eqb_spec next_mode 3), (Z.eqb_spec next_mode 1), (Z.eqb_spec next_mode 0); cbn in Hsup; lia || discriminate. }
  set (h := misa_has pe 72 m).
  assert (F := switch_mstatus_fields (default 0 (m !! CSR_MSTATUS)) next_mode h virt (csr_value_wf m _ W) Hmode).
  unfold sbi_hart_switch_mode, bind.
  set (pre := if next_mode =? PRV_M then _ else _).
  assert (Hpre : pre m = (Ret tt, m)).
  { unfold pre, mode_supported in *. destruct (next_mode =? PRV_M); [done|].
    destruct (next_mode =? PRV_S) eqn:E1; cbn [orb andb] in Hsup.
    - rewrite misa_has_run. apply Z.eqb_eq in E1. subst. cbn in Hsup. rewrite orb_false_r in Hsup. by rewrite Hsup.
    - destruct (next_mode =? PRV_U); [|discriminate]. rewrite misa_has_run. cbn in Hsup. by rewrite Hsup. }
  rewrite Hpre. unfold csr_read, gets. rewrite misa_has_run. fold h.
  fold (switch_mstatus (default 0 (m !! CSR_MSTATUS)) next_mode h virt).
  set (st := switch_mstatus _ _ _ _) in *. clearbody st.
  unfold csr_write, modify. set (m2 := <[CSR_MEPC := next_addr]> _).
  destruct (Z.eqb_spec next_mode PRV_S) as [->|Hs].
  - eexists. split; [reflexivity|]. unfold m2. constructor; [by csr_lookup|exists st; by csr_lookup|].
    intros _. repeat split; by csr_lookup.
  - assert (Hfin : forall m3, (m3 = m2 \/ exists a b c,
        m3 = <[CSR_UIE := c]> (<[CSR_USCRATCH := b]> (<[CSR_UTVEC := a]> m2))) -> entered m3 next_addr next_mode).
    { intros m3 [->|(a & b & c & ->)]; unfold m2; (constructor; [by csr_lookup|exists st; by csr_lookup|done]). }
    destruct (next_mode =? PRV_U); [rewrite misa_has_run; destruct (misa_has pe 78 m2)|];
      (eexists; split; [reflexivity|apply Hfin; eauto 10]).
Qed.

(** ** What the detection touches *)

(** The registers it may write. *)
Definition probed (c : Z) : bool :=
  csr_block CSR_PMPADDR0 64 c || csr_block CSR_MHPMCOUNTER3 29 c || (c =? CSR_SCOUNTEREN) ||
  (c =? CSR_MCOUNTEREN) || (c =? CSR_MCOUNTINHIBIT).

Section DetectFrame.
Context (impl : Z → option Z).

Lemma preserves_read_allowed P c : preserves P (csr_read_allowed impl c).
Proof. unfold csr_read_allowed. destruct (impl c); [|apply preserves_ret]. walk. Qed.

Lemma frame_write_allowed c x c' v : c <> c' -> preserves (csr_frame c x) (csr_write_allowed impl c' v).
Proof. intros Hne. unfold csr_write_allowed. destruct (impl c'); walk. Qed.

Lemma frame_check c x c' w : c <> c' -> preserves (csr_frame c x) (check_csr impl c' w).
Proof.
  intros Hne. unfold check_csr, csr_swap.
  apply preserves_bind; [apply preserves_read_allowed|]. intros [v|]; walk; by apply frame_write_allowed.
Qed.

Lemma frame_checks c x l w n : c ∉ l -> preserves (csr_frame c x) (check_csrs impl l w n).
Proof.
  revert n. induction l as [|c' l IH]; intros n Hc; cbn [check_csrs]; [apply preserves_ret|].
  apply not_elem_of_cons in Hc as [Hne Hc]. apply preserves_bind; [by apply frame_check|].
  intros []; [by apply IH|apply preserves_ret].
Qed.

Lemma frame_flag c x c' f fs : c <> c' -> preserves (csr_frame c x) (detect_flag impl c' f fs).
Proof.
  intros Hne. unfold detect_flag. apply preserves_bind; [apply preserves_read_allowed|].
  intros [v|]; walk. by apply frame_write_allowed.
Qed.

Lemma detect_frame hf c x : probed c = false -> preserves (csr_frame c x) (hart_detect_features impl hf).
Proof.
  unfold probed, csr_block. rewrite !orb_false_iff, !andb_false_iff, !Z.leb_gt, !Z.ltb_ge, !Z.eqb_neq.
  intros ((((Hp & Hm) & Hs) & Hmc) & Hmi).
  assert (Hp0 : c <> CSR_PMPADDR0) by (unfold CSR_PMPADDR0 in *; lia).
  assert (Hm3 : c <> CSR_MHPMCOUNTER3) by (unfold CSR_MHPMCOUNTER3 in *; lia).
  assert (Hl1 : c ∉ seqZ CSR_PMPADDR0 64) by (rewrite elem_of_seqZ; lia).
  assert (Hl2 : c ∉ seqZ (CSR_MHPMCOUNTER3 + 1) 28) by (rewrite elem_of_seqZ; lia).
  unfold hart_detect_features, hart_pmp_get_allowed_addr, hart_pmu_get_allowed_bits.
  repeat (cbv zeta; match goal with
    | |- preserves _ (csr_read_allowed _ _) => apply preserves_read_allowed
    | |- preserves _ (csr_write_allowed _ _ _) => apply frame_write_allowed; congruence
    | |- preserves _ (check_csr _ _ _) => apply frame_check; congruence
    | |- preserves _ (check_csrs _ _ _ _) => apply frame_checks; assumption
    | |- preserves _ (detect_flag _ _ _ _) => apply frame_flag; congruence
    | |- preserves _ (match ?x with _ => _ end) => destruct x
    | _ => progress walk
    end).
Qed.

(** Words stay words. *)
Context (I : impl_wf impl).

Lemma runs_read_allowed c :
  runs csr_wf (csr_read_allowed impl c) (λ r, match r with Some v => is_u64 v | None => True end).
Proof.
  intros m W. unfold csr_read_allowed. destruct (impl c); [|by exists None, m].
  eexists _, _. split; [reflexivity|]. split; [done|]. by apply csr_value_wf.
Qed.

Lemma runs_write_allowed c v : is_u64 v -> runs csr_wf (csr_write_allowed impl c v) (λ _, True).
Proof.
  intros Hv m W. unfold csr_write_allowed. destruct (impl c) as [mask|] eqn:E; [|by exists false, m].
  eexists _, _. split; [reflexivity|]. split; [|done]. pose proof (I c mask E). pose proof (csr_value_wf m c W).
  apply csr_wf_insert; [done|]. apply lor_u64; apply land_u64; try done; [apply H|apply not64_range, H].
Qed.

Lemma runs_check c w : default True (is_u64 <$> w) -> runs csr_wf (check_csr impl c w) (λ _, True).
Proof.
  intros Hw. unfold check_csr. eapply runs_bind; [apply runs_read_allowed|]. intros [v|] Hv; [|by apply runs_ret].
  cbv zeta. eapply runs_bind; [apply runs_write_allowed; destruct w; [exact Hw|exact Hv]|]. intros [] _; [|by apply runs_ret].
  eapply (runs_bind _ _ _ (λ _, True)); [|intros ? _; by apply runs_ret]. unfold csr_swap.
  eapply runs_bind; [by apply (runs_gets _ _ (λ _, True))|]. intros old _.
  eapply runs_bind; [by apply runs_write_allowed|]. intros ? _. by apply runs_ret.
Qed.

Lemma runs_checks l w n : default True (is_u64 <$> w) -> runs csr_wf (check_csrs impl l w n) (λ _, True).
Proof.
  intros Hw. revert n. induction l as [|c l IH]; intros n; cbn [check_csrs]; [by apply runs_ret|].
  eapply runs_bind; [by apply runs_check|]. intros [] _; [apply IH|by apply runs_ret].
Qed.

Lemma runs_flag c f fs : runs csr_wf (detect_flag impl c f fs) (λ _, True).
Proof.
  unfold detect_flag. eapply runs_bind; [apply runs_read_allowed|]. intros [v|] Hv; [|by apply runs_ret].
  eapply runs_bind; [by apply runs_write_allowed|]. intros ? _. by apply runs_ret.
Qed.

(** The detection always finishes, in a file of words. *)
Lemma detect_wf hf : runs csr_wf (hart_detect_features impl hf) (λ _, True).
Proof.
  unfold hart_detect_features.
  eapply (runs_bind _ _ _ (λ _, True)).
  { unfold hart_pmp_get_allowed_addr. eapply runs_bind; [apply runs_write_allowed; unfold is_u64; lia|].
    intros [] _; [|by apply runs_ret]. eapply runs_bind; [apply runs_read_allowed|]. intros r _. by apply runs_ret. }
  intros v _. eapply (runs_bind _ _ _ (λ _, True)).
  { destruct (truthy v); [|by apply runs_ret]. eapply runs_bind; [by apply runs_checks|]. intros r _. by apply runs_ret. }
  intros [[gran bits] pc] _. eapply runs_bind; [apply runs_check; cbn; unfold is_u64; lia|]. intros first _.
  eapply (runs_bind _ _ _ (λ _, True)).
  { destruct first; [|by apply runs_ret]. unfold hart_pmu_get_allowed_bits. cbv zeta.
    eapply (runs_bind _ _ _ (λ _, True)).
    - eapply runs_bind; [apply runs_write_allowed; unfold is_u64, u64_max; lia|]. intros [] _; [|by apply runs_ret].
      eapply runs_bind; [apply runs_read_allowed|]. intros [r|] _; by apply runs_ret.
    - intros b _. eapply runs_bind; [apply runs_checks; cbn; unfold is_u64; lia|]. intros r _. by apply runs_ret. }
  intros [mc mb] _. do 3 (eapply runs_bind; [apply runs_flag|]; intros ? _).
  eapply runs_bind; [apply runs_read_allowed|]. intros t _. by apply runs_ret.
Qed.

End DetectFrame.
