(* ===== verification/Pmu.v ===== *)
(** * Performance monitoring

    Models lib/sbi/sbi_pmu.c: the table of hardware events, the per-hart map
    from counters to active events and the firmware counters.  The operations
    run on one hart; [pmu_csrs] are the CSRs of that hart.  An access outside an
    array stops with [wild_access].

    The theorems show that the operations stay inside the arrays as long as the
    configured firmware event codes do, that a configured firmware counter counts
    exactly the events of its kind, that counters are allocated from the free
    ones of the mask, and that the event table holds disjoint entries. *)

From Stdlib Require Import ZArith Lia.
From stdpp Require Import base tactics list gmap numbers.
From S2P Require Import Prelude SbiDefs Bitops Csr.

Definition SBI_PMU_HW_EVENT_MAX : Z := 64.
Definition SBI_PMU_FW_EVENT_MAX : Z := 32.
Definition SBI_PMU_FW_CTR_MAX : Z := 16.
Definition SBI_PMU_HW_CTR_MAX : Z := 32.
Definition SBI_PMU_HW_CPU_CYCLES : Z := 1.
Definition SBI_PMU_HW_INSTRUCTIONS : Z := 2.
Definition SBI_PMU_FW_MAX : Z := 22.
Definition SBI_PMU_EVENT_TYPE_HW : Z := 0x0.
Definition SBI_PMU_EVENT_TYPE_FW : Z := 0xf.
Definition SBI_PMU_EVENT_TYPE_MAX : Z := 0x10.
Definition SBI_PMU_CTR_TYPE_HW : Z := 0.
Definition SBI_PMU_CTR_TYPE_FW : Z := 1.
Definition SBI_PMU_EVENT_IDX_OFFSET : Z := 20.
Definition SBI_PMU_EVENT_RAW_IDX : Z := 0x20000.
Definition SBI_PMU_EVENT_IDX_INVALID : Z := 0xFFFFFFFF.
Definition SBI_PMU_CFG_FLAG_SKIP_MATCH : Z := 1.
Definition SBI_PMU_CFG_FLAG_CLEAR_VALUE : Z := 2.
Definition SBI_PMU_CFG_FLAG_AUTO_START : Z := 4.
Definition SBI_PMU_START_FLAG_SET_INIT_VALUE : Z := 1.
Definition SBI_PMU_STOP_FLAG_RESET : Z := 1.

Record sbi_pmu_hw_event : Type := HwEvent {
  counters : Z;
  start_idx : Z;
  end_idx : Z;
  select : Z;
}.

(** The event_idx field of struct sbi_pmu_fw_event is never used by the code. *)
Record sbi_pmu_fw_event : Type := FwEvent {
  curr_count : Z;
  bStarted : bool;
}.

Record pmu_state : Type := PmuState {
  hw_event_map : list sbi_pmu_hw_event;
  active_events : list (list Z);
  fw_event_map : list (list sbi_pmu_fw_event);
  num_hw_events : Z;
  num_hw_ctrs : Z;
  total_ctrs : Z;
  pmu_csrs : csr_file;
}.

Definition set_hw_event_map l (s : pmu_state) : pmu_state :=
  PmuState l (active_events s) (fw_event_map s) (num_hw_events s) (num_hw_ctrs s) (total_ctrs s) (pmu_csrs s).
Definition set_active_events l (s : pmu_state) : pmu_state :=
  PmuState (hw_event_map s) l (fw_event_map s) (num_hw_events s) (num_hw_ctrs s) (total_ctrs s) (pmu_csrs s).
Definition set_fw_event_map l (s : pmu_state) : pmu_state :=
  PmuState (hw_event_map s) (active_events s) l (num_hw_events s) (num_hw_ctrs s) (total_ctrs s) (pmu_csrs s).
Definition set_num_hw_events n (s : pmu_state) : pmu_state :=
  PmuState (hw_event_map s) (active_events s) (fw_event_map s) n (num_hw_ctrs s) (total_ctrs s) (pmu_csrs s).
Definition set_ctr_counts hw total (s : pmu_state) : pmu_state :=
  PmuState (hw_event_map s) (active_events s) (fw_event_map s) (num_hw_events s) hw total (pmu_csrs s).
Definition set_pmu_csrs m (s : pmu_state) : pmu_state :=
  PmuState (hw_event_map s) (active_events s) (fw_event_map s) (num_hw_events s) (num_hw_ctrs s) (total_ctrs s) m.

Definition on_csrs {A} : M csr_file A → M pmu_state A := zoom pmu_csrs set_pmu_csrs.

Definition pmu_initial : pmu_state :=
  PmuState (replicate 64 (HwEvent 0 0 0 0)) (replicate 128 (replicate 48 0))
    (replicate 128 (replicate 32 (FwEvent 0 false))) 0 0 0 ∅.

Definition get_cidx_type (x : Z) : Z := Z.shiftr (Z.land x 0xF0000) 16.
Definition get_cidx_code (x : Z) : Z := Z.land x 0xFFFF.

(** Reads and writes of the two-dimensional arrays. *)
Definition get_active (hartid cidx : Z) : M pmu_state Z :=
  λ s, match active_events s !! Z.to_nat hartid ≫= λ row, row !! Z.to_nat cidx with
       | Some v => (Ret v, s)
       | None => (Stop wild_access, s)
       end.

Definition put_active (hartid cidx v : Z) : M pmu_state unit :=
  (get_active hartid cidx ;;;
   modify (λ s, set_active_events
     (alter (λ row, <[Z.to_nat cidx := v]> row) (Z.to_nat hartid) (active_events s)) s))%sbi.

Definition get_fw (hartid code : Z) : M pmu_state sbi_pmu_fw_event :=
  λ s, match fw_event_map s !! Z.to_nat hartid ≫= λ row, row !! Z.to_nat code with
       | Some v => (Ret v, s)
       | None => (Stop wild_access, s)
       end.

Definition upd_fw (hartid code : Z) (f : sbi_pmu_fw_event → sbi_pmu_fw_event) : M pmu_state unit :=
  (get_fw hartid code ;;;
   modify (λ s, set_fw_event_map
     (alter (λ row, alter f (Z.to_nat code) row) (Z.to_nat hartid) (fw_event_map s)) s))%sbi.

Definition fw_set_count (v : Z) (f : sbi_pmu_fw_event) : sbi_pmu_fw_event := FwEvent v (bStarted f).
Definition fw_set_started (b : bool) (f : sbi_pmu_fw_event) : sbi_pmu_fw_event :=
  FwEvent (curr_count f) b.

(** ** The table of hardware events *)

Definition pmu_event_range_overlap (evtA evtB : sbi_pmu_hw_event) : bool :=
  negb (((end_idx evtA <? start_idx evtB) && (end_idx evtA <? end_idx evtB)) ||
        ((start_idx evtB <? start_idx evtA) && (end_idx evtB <? start_idx evtA))).

Definition pmu_event_select_overlap (evt : sbi_pmu_hw_event) (select_val : Z) : bool :=
  select evt =? select_val.

Definition pmu_add_hw_event_map (eidx_start eidx_end cmap sel : Z) : M pmu_state Z :=
  λ s,
    if ((eidx_start =? SBI_PMU_HW_CPU_CYCLES) && negb (cmap =? 0x1)) ||
       ((eidx_start =? SBI_PMU_HW_INSTRUCTIONS) && negb (cmap =? 0x4)) ||
       ((SBI_PMU_HW_INSTRUCTIONS <? eidx_start) && truthy (Z.land cmap 0x07))
    then (Ret SBI_EDENIED, s)
    else if SBI_PMU_HW_EVENT_MAX - 1 <=? num_hw_events s then (Ret SBI_EFAIL, s)
    else
      let event := HwEvent cmap eidx_start eidx_end sel in
      let s := set_hw_event_map (<[Z.to_nat (num_hw_events s) := event]> (hw_event_map s)) s in
      let overlaps e := if eidx_start =? SBI_PMU_EVENT_RAW_IDX then pmu_event_select_overlap e sel
                        else pmu_event_range_overlap e event in
      if existsb overlaps (take (Z.to_nat (num_hw_events s)) (hw_event_map s))
      then (Ret SBI_EINVALID_ADDR, s)
      else (Ret 0, set_num_hw_events (num_hw_events s + 1) s).

Definition sbi_pmu_add_hw_event_counter_map (eidx_start eidx_end cmap : Z) : M pmu_state Z :=
  if (eidx_end <? eidx_start) || (eidx_start =? SBI_PMU_EVENT_RAW_IDX) ||
     (eidx_end =? SBI_PMU_EVENT_RAW_IDX)
  then ret SBI_EINVAL
  else pmu_add_hw_event_map eidx_start eidx_end cmap 0.

Definition sbi_pmu_add_raw_event_counter_map (sel cmap : Z) : M pmu_state Z :=
  pmu_add_hw_event_map SBI_PMU_EVENT_RAW_IDX SBI_PMU_EVENT_RAW_IDX cmap sel.

(** ** Counter operations *)

Section Ops.
(** current_hartid(). *)
Variable hartid : Z.
(** The platform's translation of an event to an mhpmevent value. *)
Variable xlate_to_mhpmevent : Z → Z → Z.

(** The event type, or an error; the code is returned next to it. *)
Definition pmu_ctr_validate (cidx : Z) : M pmu_state (Z * Z) :=
  (event_idx_val <- get_active hartid cidx ;;
   total <- gets total_ctrs ;;
   if (total <=? cidx) || (event_idx_val =? SBI_PMU_EVENT_IDX_INVALID) then ret (SBI_EINVAL, 0)
   else
     let event_idx_type := get_cidx_type event_idx_val in
     if SBI_PMU_EVENT_TYPE_MAX <=? event_idx_type then ret (SBI_EINVAL, 0)
     else ret (event_idx_type, get_cidx_code event_idx_val))%sbi.

Definition pmu_ctr_read_fw (fw_evt_code : Z) : M pmu_state Z :=
  (fevent <- get_fw hartid fw_evt_code ;; ret (curr_count fevent))%sbi.

(** The return code and the value stored through the pointer. *)
Definition pmu_ctr_read_hw (cidx : Z) : M pmu_state (Z * option Z) :=
  (if cidx =? 1 then ret (SBI_EINVAL, None)
   else v <- on_csrs (csr_read_num (CSR_MCYCLE + cidx)) ;; ret (0, Some v))%sbi.

(** sbi_pmu_ctr_read: the return code and what it stores through [cval];
    for a hardware counter the value goes to a local variable only. *)
Definition sbi_pmu_ctr_read (cidx : Z) : M pmu_state (Z * option Z) :=
  (v <- pmu_ctr_validate cidx ;;
   let '(event_idx_type, event_code) := v in
   if event_idx_type <? 0 then ret (SBI_EINVAL, None)
   else if event_idx_type =? SBI_PMU_EVENT_TYPE_FW then
     c <- pmu_ctr_read_fw event_code ;; ret (0, Some c)
   else pmu_ctr_read_hw cidx ;;; ret (0, None))%sbi.

Definition pmu_ctr_write_hw (cidx ival : Z) : M pmu_state unit :=
  on_csrs (csr_write_num (CSR_MCYCLE + cidx) ival).

Definition pmu_ctr_start_hw (cidx ival : Z) (ival_update : bool) : M pmu_state Z :=
  (mctr_en <- on_csrs (csr_read CSR_MCOUNTEREN) ;;
   mctr_inhbt <- on_csrs (csr_read CSR_MCOUNTINHIBIT) ;;
   hw <- gets num_hw_ctrs ;;
   if (hw <? cidx) || (cidx =? 1) then ret SBI_EINVAL
   else if truthy (__test_bit cidx [mctr_en]) && negb (truthy (__test_bit cidx [mctr_inhbt]))
   then ret SBI_EALREADY_STARTED
   else
     let mctr_en := wget (__set_bit cidx [mctr_en]) 0 in
     let mctr_inhbt := wget (__clear_bit cidx [mctr_inhbt]) 0 in
     (if ival_update then pmu_ctr_write_hw cidx ival else ret tt) ;;;
     on_csrs (csr_write CSR_MCOUNTEREN mctr_en) ;;;
     on_csrs (csr_write CSR_MCOUNTINHIBIT mctr_inhbt) ;;;
     ret 0)%sbi.

Definition pmu_ctr_start_fw (fw_evt_code ival : Z) (ival_update : bool) : M pmu_state Z :=
  (upd_fw hartid fw_evt_code
     (λ f, fw_set_started true (if ival_update then fw_set_count ival f else f)) ;;;
   ret 0)%sbi.

(** The loops of start and stop; [r] is the variable [ret]. *)
Fixpoint ctr_start_loop (l : list Z) (ival : Z) (bUpdate : bool) (r : Z) : M pmu_state Z :=
  (match l with
   | [] => ret r
   | cbase :: l' =>
       v <- pmu_ctr_validate cbase ;;
       let '(event_idx_type, event_code) := v in
       if event_idx_type <? 0 then ctr_start_loop l' ival bUpdate r
       else
         r <- (if event_idx_type =? SBI_PMU_EVENT_TYPE_FW
               then pmu_ctr_start_fw event_code ival bUpdate
               else pmu_ctr_start_hw cbase ival bUpdate) ;;
         ctr_start_loop l' ival bUpdate r
   end)%sbi.

Definition sbi_pmu_ctr_start (cbase cmask flags ival : Z) : M pmu_state Z :=
  (let ctr_mask := shl64 cmask cbase in
   total <- gets total_ctrs ;;
   if total <=? __fls ctr_mask then ret SBI_EINVAL
   else
     let bUpdate := truthy (Z.land flags SBI_PMU_START_FLAG_SET_INIT_VALUE) in
     ctr_start_loop (for_each_set_bit_from [ctr_mask] total cbase) ival bUpdate SBI_EINVAL)%sbi.

Definition pmu_ctr_stop_hw (cidx : Z) : M pmu_state Z :=
  (mctr_en <- on_csrs (csr_read CSR_MCOUNTEREN) ;;
   mctr_inhbt <- on_csrs (csr_read CSR_MCOUNTINHIBIT) ;;
   hw <- gets num_hw_ctrs ;;
   if (hw <? cidx) || (cidx =? 1) then ret SBI_EINVAL
   else if truthy (__test_bit cidx [mctr_en]) && negb (truthy (__test_bit cidx [mctr_inhbt])) then
     let mctr_inhbt := wget (__set_bit cidx [mctr_inhbt]) 0 in
     let mctr_en := wget (__clear_bit cidx [mctr_en]) 0 in
     on_csrs (csr_write CSR_MCOUNTEREN mctr_en) ;;;
     on_csrs (csr_write CSR_MCOUNTINHIBIT mctr_inhbt) ;;;
     ret 0
   else ret SBI_EALREADY_STOPPED)%sbi.

Definition pmu_ctr_stop_fw (fw_evt_code : Z) : M pmu_state Z :=
  (upd_fw hartid fw_evt_code (fw_set_started false) ;;; ret 0)%sbi.

Fixpoint ctr_stop_loop (l : list Z) (flag r : Z) : M pmu_state Z :=
  (match l with
   | [] => ret r
   | cbase :: l' =>
       v <- pmu_ctr_validate cbase ;;
       let '(event_idx_type, event_code) := v in
       if event_idx_type <? 0 then ctr_stop_loop l' flag r
       else
         r <- (if event_idx_type =? SBI_PMU_EVENT_TYPE_FW
               then pmu_ctr_stop_fw event_code
               else pmu_ctr_stop_hw cbase) ;;
         (if negb (truthy r) && truthy (Z.land flag SBI_PMU_STOP_FLAG_RESET)
          then put_active hartid cbase SBI_PMU_EVENT_IDX_INVALID else ret tt) ;;;
         ctr_stop_loop l' flag r
   end)%sbi.

Definition sbi_pmu_ctr_stop (cbase cmask flag : Z) : M pmu_state Z :=
  (let ctr_mask := shl64 cmask cbase in
   total <- gets total_ctrs ;;
   if total <=? __fls ctr_mask then ret SBI_EINVAL
   else ctr_stop_loop (for_each_set_bit_from [ctr_mask] total cbase) flag SBI_EINVAL)%sbi.

Definition pmu_update_hw_mhpmevent (ctr_idx eindex data : Z) : M pmu_state Z :=
  (let mhpmevent_val := xlate_to_mhpmevent (u32 eindex) data in
   if negb (truthy mhpmevent_val) || (ctr_idx <? 3) || (SBI_PMU_HW_CTR_MAX <=? ctr_idx)
   then ret SBI_EFAIL
   else on_csrs (csr_write_num (CSR_MCOUNTINHIBIT + ctr_idx) mhpmevent_val) ;;; ret 0)%sbi.

(** The search of pmu_ctr_find_hw: [cbase] is the loop variable of the inner
    loop, kept from one event to the next; [ctr_idx] the counter found last. *)
Fixpoint find_hw_loop (evts : list sbi_pmu_hw_event) (cbase cmask event_idx data : Z)
    (mctr_en mctr_inhbt ctr_idx : Z) : Z :=
  match evts with
  | [] => ctr_idx
  | temp :: evts' =>
      if ((event_idx <? start_idx temp) && (event_idx <? end_idx temp)) ||
         ((start_idx temp <? event_idx) && (end_idx temp <? event_idx))
      then find_hw_loop evts' cbase cmask event_idx data mctr_en mctr_inhbt ctr_idx
      else if (event_idx =? SBI_PMU_EVENT_RAW_IDX) && negb (select temp =? data)
      then find_hw_loop evts' cbase cmask event_idx data mctr_en mctr_inhbt ctr_idx
      else
        let ctr_mask := Z.land (counters temp) (shl64 cmask cbase) in
        let free b := negb (truthy (__test_bit b [mctr_en])) && truthy (__test_bit b [mctr_inhbt]) in
        match list_find (λ b, free b = true)
                (for_each_set_bit_from [ctr_mask] SBI_PMU_HW_CTR_MAX cbase) with
        | Some (_, b) => find_hw_loop evts' b cmask event_idx data mctr_en mctr_inhbt b
        | None => find_hw_loop evts' SBI_PMU_HW_CTR_MAX cmask event_idx data mctr_en mctr_inhbt ctr_idx
        end
  end.

Definition pmu_ctr_find_hw (cbase cmask event_idx data : Z) : M pmu_state Z :=
  (mctr_en <- on_csrs (csr_read CSR_MCOUNTEREN) ;;
   mctr_inhbt <- on_csrs (csr_read CSR_MCOUNTINHIBIT) ;;
   let evt_idx_code := get_cidx_code event_idx in
   hw <- gets num_hw_ctrs ;;
   if hw <? cbase then ret SBI_EINVAL
   else if evt_idx_code =? SBI_PMU_HW_CPU_CYCLES then ret 0
   else if evt_idx_code =? SBI_PMU_HW_INSTRUCTIONS then ret 2
   else
     evts <- gets (λ s, take (Z.to_nat (num_hw_events s)) (hw_event_map s)) ;;
     let ctr_idx := find_hw_loop evts cbase cmask event_idx data mctr_en mctr_inhbt SBI_ENOTSUPP in
     if ctr_idx =? SBI_ENOTSUPP then ret SBI_EFAIL
     else
       r <- pmu_update_hw_mhpmevent ctr_idx event_idx data ;;
       ret (if negb (truthy r) then ctr_idx else r))%sbi.

(** The scan for a free firmware counter. *)
Fixpoint find_fw_loop (l : list Z) (ctr_mask : Z) : M pmu_state Z :=
  (match l with
   | [] => ret SBI_ENOTSUPP
   | i :: l' =>
       a <- get_active hartid i ;;
       if (a =? SBI_PMU_EVENT_IDX_INVALID) && truthy (Z.land (shl64 1 i) ctr_mask) then ret i
       else find_fw_loop l' ctr_mask
   end)%sbi.

Definition pmu_ctr_find_fw (cbase cmask : Z) : M pmu_state Z :=
  (let ctr_mask := shl64 cmask cbase in
   hw <- gets num_hw_ctrs ;;
   total <- gets total_ctrs ;;
   let fw_base := if cbase <=? hw then hw + 1 else u32 cbase in
   find_fw_loop (seqZ fw_base (total - fw_base)) ctr_mask)%sbi.

Definition sbi_pmu_ctr_cfg_match (cidx_base cidx_mask flags event_idx event_data : Z)
    : M pmu_state Z :=
  (let event_type := get_cidx_type event_idx in
   let tmp := shl64 cidx_mask cidx_base in
   total <- gets total_ctrs ;;
   if (total <=? __fls tmp) || (SBI_PMU_EVENT_TYPE_MAX <=? event_type) then ret SBI_EINVAL
   else
     found <-
       (if truthy (Z.land flags SBI_PMU_CFG_FLAG_SKIP_MATCH) then
          a <- get_active hartid cidx_base ;;
          ret (if a =? SBI_PMU_EVENT_IDX_INVALID then inl SBI_EINVAL else inr (s32 cidx_base))
        else
          ctr_idx <- (if event_type =? SBI_PMU_EVENT_TYPE_FW
                      then pmu_ctr_find_fw cidx_base cidx_mask
                      else pmu_ctr_find_hw cidx_base cidx_mask event_idx event_data) ;;
          if ctr_idx <? 0 then ret (inl SBI_ENOTSUPP)
          else put_active hartid ctr_idx (u32 event_idx) ;;; ret (inr ctr_idx)) ;;
     match found with
     | inl e => ret e
     | inr ctr_idx =>
         (if event_type =? SBI_PMU_EVENT_TYPE_HW then
            (if truthy (Z.land flags SBI_PMU_CFG_FLAG_CLEAR_VALUE)
             then pmu_ctr_write_hw ctr_idx 0 else ret tt) ;;;
            (if truthy (Z.land flags SBI_PMU_CFG_FLAG_AUTO_START)
             then pmu_ctr_start_hw ctr_idx 0 false ;;; ret tt else ret tt)
          else if event_type =? SBI_PMU_EVENT_TYPE_FW then
            let fw_evt_code := get_cidx_code event_idx in
            (if truthy (Z.land flags SBI_PMU_CFG_FLAG_CLEAR_VALUE)
             then upd_fw hartid fw_evt_code (fw_set_count 0) else ret tt) ;;;
            (if truthy (Z.land flags SBI_PMU_CFG_FLAG_AUTO_START)
             then upd_fw hartid fw_evt_code (fw_set_started true) else ret tt)
          else ret tt) ;;;
         ret ctr_idx
     end)%sbi.

Definition sbi_pmu_ctr_incr_fw (fw_id : Z) : M pmu_state Z :=
  (if SBI_PMU_FW_MAX <=? fw_id then ret SBI_EINVAL
   else
     upd_fw hartid fw_id
       (λ f, if bStarted f then fw_set_count (add64 (curr_count f) 1) f else f) ;;;
     ret 0)%sbi.

Definition sbi_pmu_num_ctr : M pmu_state Z :=
  gets (λ s, u32 (num_hw_ctrs s + SBI_PMU_FW_CTR_MAX)).

(** The packed union sbi_pmu_ctr_info: csr:12, width:6, reserved:45, type:1. *)
Definition ctr_info (csr width type : Z) : Z :=
  Z.lor (Z.lor (Z.land csr 0xfff) (Z.shiftl (Z.land width 0x3f) 12)) (Z.shiftl (Z.land type 1) 63).

Definition sbi_pmu_ctr_get_info (mhpm_bits cidx : Z) : M pmu_state (Z * option Z) :=
  (total <- gets total_ctrs ;;
   hw <- gets num_hw_ctrs ;;
   if (total <=? cidx) || (cidx =? 1) then ret (SBI_EINVAL, None)
   else if cidx <=? hw then
     ret (0, Some (ctr_info (CSR_CYCLE + cidx)
                     (if (cidx =? 0) || (cidx =? 2) then 63 else mhpm_bits) SBI_PMU_CTR_TYPE_HW))
   else ret (0, Some (ctr_info 0 (64 - 1) SBI_PMU_CTR_TYPE_FW)))%sbi.

Definition pmu_reset_event_map : M pmu_state unit :=
  (total <- gets total_ctrs ;;
   mfor (seqZ 3 (total - 3)) (λ j, put_active hartid j SBI_PMU_EVENT_IDX_INVALID) ;;;
   mfor (seqZ 0 SBI_PMU_FW_CTR_MAX) (λ j, upd_fw hartid j (λ _, FwEvent 0 false)))%sbi.

Definition sbi_pmu_exit (has_mcountinhibit : bool) : M pmu_state unit :=
  (if has_mcountinhibit then
     on_csrs (csr_write CSR_MCOUNTINHIBIT 0xFFFFFFF8) ;;;
     on_csrs (csr_write CSR_MCOUNTEREN 7) ;;;
     pmu_reset_event_map
   else ret tt)%sbi.

(** [platform_pmu_init] is the platform's callback. *)
Definition sbi_pmu_init (has_mcountinhibit : bool) (platform_pmu_init : M pmu_state Z)
    (mhpm_count : Z) (cold_boot : bool) : M pmu_state Z :=
  (if has_mcountinhibit then
     (if cold_boot then
        platform_pmu_init ;;;
        modify (λ s, set_ctr_counts (u32 (mhpm_count + 2))
                       (u32 (u32 (mhpm_count + 2) + SBI_PMU_FW_CTR_MAX)) s)
      else ret tt) ;;;
     pmu_reset_event_map ;;;
     put_active hartid 0 (Z.lor (Z.shiftl SBI_PMU_EVENT_TYPE_HW SBI_PMU_EVENT_IDX_OFFSET)
                            SBI_PMU_HW_CPU_CYCLES) ;;;
     put_active hartid 1 SBI_PMU_EVENT_IDX_INVALID ;;;
     put_active hartid 2 (Z.lor (Z.shiftl SBI_PMU_EVENT_TYPE_HW SBI_PMU_EVENT_IDX_OFFSET)
                            SBI_PMU_HW_INSTRUCTIONS) ;;;
     ret 0
   else ret 0)%sbi.
End Ops.

(** ** Invariant *)

(** The row of the current hart, entry by entry: a firmware event has a code
    inside the firmware event map and sits on a firmware counter; the hardware
    counters carry hardware events. *)
Definition active_ok (hw cidx v : Z) : Prop :=
  v = SBI_PMU_EVENT_IDX_INVALID \/
  (if hw <? cidx then get_cidx_type v = SBI_PMU_EVENT_TYPE_FW /\ get_cidx_code v < SBI_PMU_FW_EVENT_MAX
   else cidx <> 1 /\ get_cidx_type v <> SBI_PMU_EVENT_TYPE_FW).

Record pmu_inv (hartid hw : Z) (s : pmu_state) : Prop := {
  pi_hart : 0 <= hartid < 128;
  pi_hw : num_hw_ctrs s = hw /\ 2 <= hw <= 31;
  pi_total : total_ctrs s = hw + 16;
  pi_row : exists row, active_events s !! Z.to_nat hartid = Some row /\ length row = 48%nat /\
    forall cidx v, 0 <= cidx < hw + 16 -> row !! Z.to_nat cidx = Some v -> active_ok hw cidx v;
  pi_fw : exists row, fw_event_map s !! Z.to_nat hartid = Some row /\ length row = 32%nat;
  pi_events : 0 <= num_hw_events s <= 63 /\ length (hw_event_map s) = 64%nat;
  pi_maps : Forall (λ e, 0 <= counters e < 2 ^ (hw + 1)) (take (Z.to_nat (num_hw_events s)) (hw_event_map s));
}.

Section Safety.
Context (hartid hw : Z) (xlate : Z → Z → Z).
Abbreviation inv := (pmu_inv hartid hw).

Lemma get_active_runs cidx : 0 <= cidx < hw + 16 -> runs inv (get_active hartid cidx) (active_ok hw cidx).
Proof.
  intros Hc s I. destruct (pi_row _ _ _ I) as (row & Er & Hl & Hok). destruct (pi_hw _ _ _ I).
  unfold get_active. rewrite Er. cbn [mbind option_bind].
  destruct (lookup_lt_is_Some_2 row (Z.to_nat cidx)) as [v Ev]; [lia|]. rewrite Ev.
  exists v, s. split; [done|]. split; [done|]. by apply Hok.
Qed.

Lemma inv_active s row' :
  inv s -> length row' = 48%nat ->
  (forall cidx v, 0 <= cidx < hw + 16 -> row' !! Z.to_nat cidx = Some v -> active_ok hw cidx v) ->
  inv (set_active_events (<[Z.to_nat hartid := row']> (active_events s)) s).
Proof.
  intros I Hl Hok. destruct I as [I1 I2 I3 I4 I5 I6 I7]. constructor; cbn; try assumption.
  destruct I4 as (row & Er & _). exists row'. split; [|done].
  apply list_lookup_insert_eq. by eapply lookup_lt_Some.
Qed.

Lemma put_active_runs cidx v :
  0 <= cidx < hw + 16 -> active_ok hw cidx v -> runs inv (put_active hartid cidx v) (λ _, True).
Proof.
  intros Hc Hv. unfold put_active. eapply runs_bind; [by apply get_active_runs|]. intros _ _ s I.
  eexists _, _. split; [reflexivity|]. split; [|done].
  destruct (pi_row _ _ _ I) as (row & Er & Hl & Hok). destruct (pi_hw _ _ _ I).
  replace (alter _ _ _) with (<[Z.to_nat hartid := <[Z.to_nat cidx := v]> row]> (active_events s)).
  - apply inv_active; [done|by rewrite length_insert|]. intros c w Hcw Hw.
    apply list_lookup_insert_Some in Hw as [(He & -> & _)|[_ Hw]]; [|by apply Hok].
    assert (c = cidx) as -> by lia. done.
  - apply list_eq. intros i. rewrite list_lookup_alter. destruct (decide (Z.to_nat hartid = i)) as [<-|].
    + rewrite list_lookup_insert_eq by (by eapply lookup_lt_Some). by rewrite Er.
    + by rewrite list_lookup_insert_ne.
Qed.

Lemma get_fw_runs code : 0 <= code < 32 -> runs inv (get_fw hartid code) (λ _, True).
Proof.
  intros Hc s I. destruct (pi_fw _ _ _ I) as (row & Er & Hl). unfold get_fw. rewrite Er.
  cbn [mbind option_bind]. destruct (lookup_lt_is_Some_2 row (Z.to_nat code)) as [v Ev]; [lia|].
  rewrite Ev. by exists v, s.
Qed.

Lemma upd_fw_runs code f : 0 <= code < 32 -> runs inv (upd_fw hartid code f) (λ _, True).
Proof.
  intros Hc. unfold upd_fw. eapply runs_bind; [by apply get_fw_runs|]. intros _ _ s I.
  eexists _, _. split; [reflexivity|]. split; [|done].
  destruct I as [I1 I2 I3 I4 I5 I6 I7]. constructor; cbn; try assumption.
  destruct I5 as (row & Er & Hl). exists (alter f (Z.to_nat code) row).
  rewrite list_lookup_alter_eq, Er, length_alter. done.
Qed.

Lemma on_csrs_runs {A} (m : M csr_file A) (Q : A → Prop) :
  (forall c, exists a c', m c = (Ret a, c') /\ Q a) -> runs inv (on_csrs m) Q.
Proof.
  intros Hm s I. destruct (Hm (pmu_csrs s)) as (a & c' & E & Ha).
  exists a, (set_pmu_csrs c' s). unfold on_csrs, zoom. rewrite E. split; [done|]. split; [|done].
  destruct I. by constructor.
Qed.

Lemma csr_read_runs c : runs inv (on_csrs (csr_read c)) (λ _, True).
Proof. apply on_csrs_runs. intros m. by eexists _, _. Qed.

Lemma csr_write_runs c v : runs inv (on_csrs (csr_write c v)) (λ _, True).
Proof. apply on_csrs_runs. intros m. by eexists _, _. Qed.

(** The counter and event registers of the hardware counters are known. *)
Lemma hw_counter_known cidx :
  0 <= cidx <= 31 -> cidx <> 1 -> csr_readable (CSR_MCYCLE + cidx) = true.
Proof.
  intros Hc Hne. assert (H : (cidx =? 1) || csr_readable (CSR_MCYCLE + cidx) = true).
  { clear Hne. assert (Hall : forallb (λ c, (32 <=? c) || (c =? 1) || csr_readable (CSR_MCYCLE + c)) (seqZ 0 64) = true)
      by (vm_compute; reflexivity).
    pose proof (below_64 _ Hall cidx ltac:(lia)) as H. cbn beta in H.
    by rewrite (proj2 (Z.leb_gt _ _)) in H by lia. }
  by rewrite (proj2 (Z.eqb_neq _ _)) in H.
Qed.

Lemma mhpmevent_known ctr : 3 <= ctr < 32 -> csr_writable (CSR_MCOUNTINHIBIT + ctr) = true.
Proof.
  intros Hc. assert (Hall : forallb (λ c, (c <? 3) || (32 <=? c) || csr_writable (CSR_MCOUNTINHIBIT + c)) (seqZ 0 64) = true)
    by (vm_compute; reflexivity).
  pose proof (below_64 _ Hall ctr ltac:(lia)) as H. cbn beta in H.
  by rewrite (proj2 (Z.ltb_ge _ _)), (proj2 (Z.leb_gt _ _)) in H by lia.
Qed.

Lemma write_hw_runs cidx v :
  0 <= cidx <= 31 -> cidx <> 1 -> runs inv (pmu_ctr_write_hw cidx v) (λ _, True).
Proof.
  intros Hc Hne. apply on_csrs_runs. intros m. unfold csr_write_num.
  rewrite csr_readable_writable by (by apply hw_counter_known). by eexists _, _.
Qed.

Lemma gets_hw_runs : runs inv (gets num_hw_ctrs) (λ a, a = hw /\ 2 <= hw <= 31).
Proof. apply runs_gets. intros s I. apply I. Qed.

Lemma gets_total_runs : runs inv (gets total_ctrs) (λ a, a = hw + 16).
Proof. apply runs_gets. intros s I. apply I. Qed.

Lemma validate_runs cidx :
  0 <= cidx < hw + 16 ->
  runs inv (pmu_ctr_validate hartid cidx)
    (λ r, fst r < 0 \/ (fst r = SBI_PMU_EVENT_TYPE_FW /\ 0 <= snd r < 32) \/
          (0 <= fst r /\ fst r <> SBI_PMU_EVENT_TYPE_FW /\ cidx <= hw /\ cidx <> 1)).
Proof.
  intros Hc. unfold pmu_ctr_validate. eapply runs_bind; [by apply get_active_runs|]. intros v Hv.
  eapply runs_bind; [apply gets_total_runs|]. intros total ->.
  destruct (Z.eqb_spec v SBI_PMU_EVENT_IDX_INVALID) as [->|Hne].
  { rewrite orb_true_r. apply runs_ret. by left. }
  rewrite (proj2 (Z.leb_gt _ _)) by lia. cbn [orb].
  case_if; apply runs_ret; cbn [fst snd]; [by left|]. right.
  destruct Hv as [|Hv]; [done|].
  assert (0 <= get_cidx_type v) by (apply Z.shiftr_nonneg, Z.land_nonneg; lia).
  assert (0 <= get_cidx_code v) by (apply Z.land_nonneg; lia).
  destruct (Z.ltb_spec hw cidx); unfold SBI_PMU_FW_EVENT_MAX in *; [left|right]; lia.
Qed.

Lemma start_hw_runs cidx ival upd :
  0 <= cidx -> runs inv (pmu_ctr_start_hw cidx ival upd) (λ _, True).
Proof.
  intros Hc. unfold pmu_ctr_start_hw.
  eapply runs_bind; [apply csr_read_runs|]. intros en _.
  eapply runs_bind; [apply csr_read_runs|]. intros inh _.
  eapply runs_bind; [apply gets_hw_runs|]. intros ? [-> Hhw].
  case_if; [by apply runs_ret|]. zbool. case_if; [by apply runs_ret|]. cbn zeta.
  eapply runs_bind; [destruct upd; [apply write_hw_runs; lia|by apply runs_ret]|]. intros _ _.
  eapply runs_bind; [apply csr_write_runs|]. intros _ _.
  eapply runs_bind; [apply csr_write_runs|]. intros _ _. by apply runs_ret.
Qed.

Lemma stop_hw_runs cidx : runs inv (pmu_ctr_stop_hw cidx) (λ _, True).
Proof.
  unfold pmu_ctr_stop_hw.
  eapply runs_bind; [apply csr_read_runs|]. intros en _.
  eapply runs_bind; [apply csr_read_runs|]. intros inh _.
  eapply runs_bind; [apply gets_hw_runs|]. intros ? _.
  case_if; [by apply runs_ret|]. case_if; [|by apply runs_ret]. cbn zeta.
  eapply runs_bind; [apply csr_write_runs|]. intros _ _.
  eapply runs_bind; [apply csr_write_runs|]. intros _ _. by apply runs_ret.
Qed.

Lemma start_loop_runs l ival upd r :
  Forall (λ c, 0 <= c < hw + 16) l -> runs inv (ctr_start_loop hartid l ival upd r) (λ _, True).
Proof.
  intros Hl. revert r. induction Hl as [|c l Hc Hl IH]; intros r; cbn [ctr_start_loop]; [by apply runs_ret|].
  eapply runs_bind; [by apply validate_runs|]. intros [t code] Ht. cbn [fst snd] in Ht.
  case_if; [apply IH|]. zbool.
  eapply (runs_bind _ _ _ (λ _, True)); [|intros r' _; apply IH].
  case_if; zbool.
  - unfold pmu_ctr_start_fw. eapply runs_bind; [apply upd_fw_runs; lia|]. intros _ _. by apply runs_ret.
  - apply start_hw_runs. lia.
Qed.

Lemma stop_loop_runs l flag r :
  Forall (λ c, 0 <= c < hw + 16) l -> runs inv (ctr_stop_loop hartid l flag r) (λ _, True).
Proof.
  intros Hl. revert r. induction Hl as [|c l Hc Hl IH]; intros r; cbn [ctr_stop_loop]; [by apply runs_ret|].
  eapply runs_bind; [by apply validate_runs|]. intros [t code] Ht. cbn [fst snd] in Ht.
  case_if; [apply IH|]. zbool.
  eapply (runs_bind _ _ _ (λ _, True)).
  { case_if; zbool; [|apply stop_hw_runs].
    unfold pmu_ctr_stop_fw. eapply runs_bind; [apply upd_fw_runs; lia|]. intros _ _. by apply runs_ret. }
  intros r' _. eapply (runs_bind _ _ _ (λ _, True)); [|intros _ _; apply IH].
  case_if; [apply put_active_runs; [done|by left]|by apply runs_ret].
Qed.

(** The counters visited by a loop over the mask are below the total. *)
Lemma mask_counters cmask cbase total :
  0 <= cbase -> 0 <= total < 64 ->
  Forall (λ c, cbase <= c < total) (for_each_set_bit_from [shl64 cmask cbase] total cbase).
Proof.
  intros Hb Ht. rewrite for_each_set_bit_from_filter;
    [|repeat constructor; apply shl64_range|unfold is_u64; lia|done].
  apply Forall_forall. intros c Hc. apply list_elem_of_In, list_elem_of_filter in Hc as [_ Hc].
  apply elem_of_seqZ in Hc. lia.
Qed.

Lemma ctr_start_runs cbase cmask flags ival :
  0 <= cbase -> runs inv (sbi_pmu_ctr_start hartid cbase cmask flags ival) (λ _, True).
Proof.
  intros Hb. unfold sbi_pmu_ctr_start. intros s I. pose proof (pi_hw _ _ _ I) as [_ Hhw]. revert s I.
  eapply runs_bind; [apply gets_total_runs|]. intros total ->.
  case_if; [by apply runs_ret|]. apply start_loop_runs.
  eapply Forall_impl; [|apply mask_counters; lia]. cbn. lia.
Qed.

Lemma ctr_stop_runs cbase cmask flag :
  0 <= cbase -> runs inv (sbi_pmu_ctr_stop hartid cbase cmask flag) (λ _, True).
Proof.
  intros Hb. unfold sbi_pmu_ctr_stop. intros s I. pose proof (pi_hw _ _ _ I) as [_ Hhw]. revert s I.
  eapply runs_bind; [apply gets_total_runs|]. intros total ->.
  case_if; [by apply runs_ret|]. apply stop_loop_runs.
  eapply Forall_impl; [|apply mask_counters; lia]. cbn. lia.
Qed.

Lemma ctr_read_runs cidx :
  0 <= cidx < hw + 16 -> runs inv (sbi_pmu_ctr_read hartid cidx) (λ _, True).
Proof.
  intros Hc. intros s I. pose proof (pi_hw _ _ _ I) as [_ Hhw]. revert s I. unfold sbi_pmu_ctr_read.
  eapply runs_bind; [by apply validate_runs|]. intros [t code] Ht. cbn [fst snd] in Ht.
  case_if; [by apply runs_ret|]. zbool. case_if; zbool.
  - eapply (runs_bind _ _ _ (λ _, True)); [|intros c _; by apply runs_ret]. unfold pmu_ctr_read_fw.
    eapply runs_bind; [apply get_fw_runs; lia|]. intros f _. by apply runs_ret.
  - eapply (runs_bind _ _ _ (λ _, True)); [|intros c _; by apply runs_ret]. unfold pmu_ctr_read_hw.
    case_if; [by apply runs_ret|]. zbool.
    eapply (runs_bind _ _ _ (λ _, True)); [|intros c _; by apply runs_ret].
    apply on_csrs_runs. intros m. unfold csr_read_num. rewrite hw_counter_known by lia. by eexists _, _.
Qed.

Lemma incr_fw_runs fw_id : 0 <= fw_id -> runs inv (sbi_pmu_ctr_incr_fw hartid fw_id) (λ _, True).
Proof.
  intros H. unfold sbi_pmu_ctr_incr_fw. case_if; [by apply runs_ret|]. zbool.
  unfold SBI_PMU_FW_MAX in *. eapply runs_bind; [apply upd_fw_runs; lia|]. intros _ _. by apply runs_ret.
Qed.

Lemma testbit_bound x n b : 0 <= x < 2 ^ n -> 0 <= n -> 0 <= b -> Z.testbit x b = true -> b < n.
Proof.
  intros Hx Hn Hb Ht. destruct (Z.lt_ge_cases b n) as [|Hge]; [done|exfalso].
  rewrite <- (Z.mod_small x (2 ^ n)) in Ht by lia. by rewrite Z.mod_pow2_bits_high in Ht by lia.
Qed.

Lemma find_hw_loop_range evts cbase cmask e d en inh ctr :
  Forall (λ ev, 0 <= counters ev < 2 ^ (hw + 1)) evts -> 0 <= hw <= 31 -> 0 <= cbase <= 32 ->
  ctr = SBI_ENOTSUPP \/ 0 <= ctr <= hw ->
  let r := find_hw_loop evts cbase cmask e d en inh ctr in
  r = SBI_ENOTSUPP \/ 0 <= r <= hw.
Proof.
  intros Hall Hhw. revert cbase ctr. induction Hall as [|ev evts Hev Hall IH]; intros cbase ctr Hb Hc;
    cbn [find_hw_loop]; [done|].
  case_if; [by apply IH|]. case_if; [by apply IH|]. cbn zeta.
  destruct (list_find _ _) as [[i b]|] eqn:Ef; [|apply IH; [unfold SBI_PMU_HW_CTR_MAX; lia|done]].
  apply list_find_Some in Ef as (Hl & _ & _).
  apply list_elem_of_lookup_2 in Hl.
  assert (Hu : is_u64 (Z.land (counters ev) (shl64 cmask cbase))).
  { rewrite Z.land_comm. apply land_u64; [apply shl64_range|lia]. }
  rewrite for_each_set_bit_from_filter in Hl;
    [|constructor; [exact Hu|constructor]|unfold is_u64, SBI_PMU_HW_CTR_MAX; lia|lia].
  apply list_elem_of_filter in Hl as [Hbit Hin]. apply elem_of_seqZ in Hin.
  unfold SBI_PMU_HW_CTR_MAX in Hin. unfold bit_at in Hbit.
  rewrite (Z.div_small b), (Z.mod_small b) in Hbit by lia.
  change (wget [?x] 0) with x in Hbit. rewrite Z.land_spec in Hbit. apply andb_true_iff in Hbit as [Hbit _].
  apply (testbit_bound _ (hw + 1)) in Hbit; [|lia..].
  apply IH; lia.
Qed.

Lemma find_hw_runs cbase cmask e d :
  0 <= cbase -> runs inv (pmu_ctr_find_hw xlate cbase cmask e d) (λ r, r < 0 \/ (0 <= r <= hw /\ r <> 1)).
Proof.
  intros Hb. unfold pmu_ctr_find_hw.
  eapply runs_bind; [apply csr_read_runs|]. intros en _.
  eapply runs_bind; [apply csr_read_runs|]. intros inh _. cbn zeta.
  eapply runs_bind; [apply gets_hw_runs|]. intros ? [-> Hhw].
  case_if; [apply runs_ret; left; done|]. zbool. case_if; [apply runs_ret; lia|].
  case_if; [apply runs_ret; lia|].
  eapply (runs_bind _ _ _ (λ evts, Forall (λ ev, 0 <= counters ev < 2 ^ (hw + 1)) evts)).
  { apply runs_gets. intros s I. apply I. }
  intros evts Hev. cbn zeta.
  assert (Hr := find_hw_loop_range evts cbase cmask e d en inh SBI_ENOTSUPP Hev ltac:(lia) ltac:(lia)
    ltac:(by left)). cbn zeta in Hr.
  set (r := find_hw_loop _ _ _ _ _ _ _ _) in *. case_if; [apply runs_ret; left; done|]. zbool.
  destruct Hr as [|Hr]; [done|].
  eapply (runs_bind _ _ _ (λ x, x < 0 \/ (x = 0 /\ 3 <= r))).
  - unfold pmu_update_hw_mhpmevent. cbn zeta. case_if; [apply runs_ret; left; done|]. zbool.
    unfold SBI_PMU_HW_CTR_MAX in *.
    eapply (runs_bind _ _ _ (λ _, True)); [|intros _ _; apply runs_ret; lia].
    apply on_csrs_runs. intros m. unfold csr_write_num. rewrite mhpmevent_known by lia. by eexists _, _.
  - intros x Hx. apply runs_ret. destruct Hx as [Hx|[-> H3]].
    + replace (truthy x) with true by (symmetry; apply truthy_true; lia). cbn. lia.
    + cbn. lia.
Qed.

Lemma find_fw_loop_runs l mask :
  Forall (λ c, hw < c < hw + 16) l -> 0 <= hw ->
  runs inv (find_fw_loop hartid l mask) (λ r, r < 0 \/ hw < r < hw + 16).
Proof.
  intros Hl Hhw. induction Hl as [|c l Hc Hl IH]; cbn [find_fw_loop]; [apply runs_ret; by left|].
  eapply runs_bind; [apply get_active_runs; lia|]. intros a _.
  case_if; [apply runs_ret; by right|done].
Qed.

Lemma find_fw_runs cbase cmask :
  0 <= cbase < 2 ^ 32 -> runs inv (pmu_ctr_find_fw hartid cbase cmask) (λ r, r < 0 \/ hw < r < hw + 16).
Proof.
  intros Hb. unfold pmu_ctr_find_fw. cbn zeta.
  eapply runs_bind; [apply gets_hw_runs|]. intros ? [-> Hhw].
  eapply runs_bind; [apply gets_total_runs|]. intros ? ->.
  apply find_fw_loop_runs; [|lia]. apply Forall_forall. intros c Hc.
  apply list_elem_of_In, elem_of_seqZ in Hc. case_if_in Hc; zbool; [lia|].
  unfold u32 in *. rewrite Z.mod_small in * by lia. lia.
Qed.

(** The requests for which sbi_pmu_ctr_cfg_match stays inside its arrays and
    known registers. *)
Definition cfg_ok (cidx_base flags event_idx : Z) : Prop :=
  0 <= cidx_base < hw + 16 /\
  (get_cidx_type event_idx = SBI_PMU_EVENT_TYPE_FW -> get_cidx_code event_idx < SBI_PMU_FW_EVENT_MAX) /\
  (truthy (Z.land flags SBI_PMU_CFG_FLAG_SKIP_MATCH) = true ->
   get_cidx_type event_idx = SBI_PMU_EVENT_TYPE_HW ->
   truthy (Z.land flags SBI_PMU_CFG_FLAG_CLEAR_VALUE) = true -> cidx_base <= 31).

Lemma get_cidx_u32 x : get_cidx_type (u32 x) = get_cidx_type x /\ get_cidx_code (u32 x) = get_cidx_code x.
Proof.
  assert (H : forall mask, Z.land mask (2 ^ 32 - 1) = mask -> Z.land (u32 x) mask = Z.land x mask).
  { intros mask Hm. unfold u32. rewrite <- land_ones_mod by lia. rewrite <- Z.land_assoc. f_equal.
    by rewrite Z.land_comm. }
  unfold get_cidx_type, get_cidx_code. by rewrite !H.
Qed.

Lemma cfg_match_runs cidx_base cidx_mask flags event_idx data :
  cfg_ok cidx_base flags event_idx ->
  runs inv (sbi_pmu_ctr_cfg_match hartid xlate cidx_base cidx_mask flags event_idx data) (λ _, True).
Proof.
  intros (Hb & Hcode & Hskip) s I. pose proof (pi_hw _ _ _ I) as [_ Hhw]. revert s I.
  unfold sbi_pmu_ctr_cfg_match. cbn zeta. destruct (get_cidx_u32 event_idx) as [Eu1 Eu2].
  assert (Hc0 : 0 <= get_cidx_code event_idx) by (apply Z.land_nonneg; lia).
  eapply runs_bind; [apply gets_total_runs|]. intros ? ->. case_if; [by apply runs_ret|].
  set (t := get_cidx_type event_idx) in *.
  eapply (runs_bind _ _ _ (λ x : Z + Z, match x with
    | inl _ => True
    | inr c => 0 <= c /\ (t = SBI_PMU_EVENT_TYPE_HW ->
        truthy (Z.land flags SBI_PMU_CFG_FLAG_CLEAR_VALUE) = true -> c <= 31 /\ c <> 1)
    end)).
  - case_if.
    + eapply runs_bind; [by apply get_active_runs|]. intros a Ha. apply runs_ret.
      assert (Es : s32 cidx_base = cidx_base).
      { unfold s32, u32. rewrite Z.mod_small by lia. by rewrite (proj2 (Z.ltb_lt _ _)) by lia. }
      rewrite Es. case_if; [done|]. zbool. split; [lia|]. intros Ht Hclr.
      specialize (Hskip eq_refl Ht Hclr). split; [done|]. destruct Ha as [|Ha]; [done|].
      intros ->. rewrite (proj2 (Z.ltb_ge _ _)) in Ha by lia. lia.
    + eapply (runs_bind _ _ _ (λ r, r < 0 \/ (if t =? SBI_PMU_EVENT_TYPE_FW then hw < r < hw + 16
                                             else 0 <= r <= hw /\ r <> 1))).
      { case_if; [apply find_fw_runs; lia|apply find_hw_runs; lia]. }
      intros r Hr. case_if; [by apply runs_ret|]. zbool. destruct Hr as [|Hr]; [lia|].
      eapply runs_bind.
      * apply put_active_runs; [destruct (t =? SBI_PMU_EVENT_TYPE_FW); lia|]. right.
        rewrite Eu1, Eu2. fold t. destruct (Z.eqb_spec t SBI_PMU_EVENT_TYPE_FW).
        -- rewrite (proj2 (Z.ltb_lt _ _)) by lia. auto.
        -- rewrite (proj2 (Z.ltb_ge _ _)) by lia. split; [lia|done].
      * intros _ _. apply runs_ret. split; [lia|]. intros Ht _.
        rewrite Ht in Hr. cbn in Hr. lia.
  - intros [e|c] Hc; [by apply runs_ret|]. destruct Hc as [Hc Hclr].
    eapply (runs_bind _ _ _ (λ _, True)); [|intros _ _; by apply runs_ret].
    destruct (Z.eqb_spec t SBI_PMU_EVENT_TYPE_HW) as [Ht|].
    + eapply (runs_bind _ _ _ (λ _, True)).
      { case_if; [|by apply runs_ret]. destruct (Hclr Ht eq_refl). apply write_hw_runs; lia. }
      intros _ _. case_if; [|by apply runs_ret].
      eapply runs_bind; [by apply start_hw_runs|]. intros _ _. by apply runs_ret.
    + destruct (Z.eqb_spec t SBI_PMU_EVENT_TYPE_FW) as [Ht|]; [|by apply runs_ret].
      specialize (Hcode Ht). unfold SBI_PMU_FW_EVENT_MAX in Hcode.
      eapply (runs_bind _ _ _ (λ _, True)).
      { case_if; [apply upd_fw_runs; lia|by apply runs_ret]. }
      intros _ _. case_if; [apply upd_fw_runs; lia|by apply runs_ret].
Qed.

(** ** Firmware counters *)

Definition active_at (s : pmu_state) (cidx : Z) : option Z :=
  active_events s !! Z.to_nat hartid ≫= λ row, row !! Z.to_nat cidx.

Definition fw_at (s : pmu_state) (code : Z) : option sbi_pmu_fw_event :=
  fw_event_map s !! Z.to_nat hartid ≫= λ row, row !! Z.to_nat code.

Lemma active_at_some s cidx : inv s -> 0 <= cidx < 48 -> is_Some (active_at s cidx).
Proof.
  intros I Hc. destruct (pi_row _ _ _ I) as (row & Er & Hl & _). unfold active_at. rewrite Er. cbn.
  apply lookup_lt_is_Some_2. lia.
Qed.

Lemma fw_at_some s code : inv s -> 0 <= code < 32 -> is_Some (fw_at s code).
Proof.
  intros I Hc. destruct (pi_fw _ _ _ I) as (row & Er & Hl). unfold fw_at. rewrite Er. cbn.
  apply lookup_lt_is_Some_2. lia.
Qed.

Lemma upd_fw_run s code f :
  inv s -> 0 <= code < 32 ->
  exists s', upd_fw hartid code f s = (Ret tt, s') /\ inv s' /\ active_events s' = active_events s /\
    total_ctrs s' = total_ctrs s /\
    forall c, 0 <= c < 32 -> fw_at s' c = if c =? code then f <$> fw_at s c else fw_at s c.
Proof.
  intros I Hc. destruct (upd_fw_runs code f Hc s I) as ([] & s' & E & I' & _).
  exists s'. split; [done|]. split; [done|].
  destruct (fw_at_some s code I Hc) as [v Ev]. unfold upd_fw, bind, get_fw in E.
  unfold fw_at in Ev. rewrite Ev in E. injection E as <-. split; [done|]. split; [done|].
  intros c Hcc. unfold fw_at. cbn. rewrite list_lookup_alter_eq.
  destruct (pi_fw _ _ _ I) as (row & Er & Hl). rewrite Er. cbn. rewrite list_lookup_alter.
  destruct (Z.eqb_spec c code) as [->|Hne]; [by rewrite decide_True|]. rewrite decide_False by lia. done.
Qed.

(** Counting the occurrences of one event in a stream. *)
Definition occurrences (code : Z) (codes : list Z) : Z := Z.of_nat (length (filter (λ c, c = code) codes)).

Definition incr_all (codes : list Z) : M pmu_state unit :=
  mfor codes (λ c, bind (sbi_pmu_ctr_incr_fw hartid c) (λ _, ret tt)).

Lemma incr_all_run s codes code n :
  inv s -> Forall (λ c, 0 <= c < 22) codes -> 0 <= code < 22 ->
  fw_at s code = Some (FwEvent n true) -> is_u64 n ->
  exists s', incr_all codes s = (Ret tt, s') /\ inv s' /\ active_events s' = active_events s /\
    total_ctrs s' = total_ctrs s /\
    fw_at s' code = Some (FwEvent (u64 (n + occurrences code codes)) true).
Proof.
  intros I Hall Hcode. revert s n I. induction Hall as [|c codes Hc Hall IH]; intros s n I Hfw Hn.
  { exists s. unfold occurrences. cbn. rewrite Z.add_0_r, u64_small by done. done. }
  unfold incr_all. cbn [mfor]. unfold sbi_pmu_ctr_incr_fw at 1, SBI_PMU_FW_MAX.
  rewrite (proj2 (Z.leb_gt _ _)) by lia.
  destruct (upd_fw_run s c (λ f, if bStarted f then fw_set_count (add64 (curr_count f) 1) f else f) I
    ltac:(lia)) as (s1 & E1 & I1 & A1 & T1 & F1).
  set (n1 := if code =? c then add64 n 1 else n).
  assert (Hfw1 : fw_at s1 code = Some (FwEvent n1 true)).
  { rewrite F1 by lia. unfold n1. rewrite Hfw. by destruct (code =? c). }
  assert (Hn1 : is_u64 n1) by (unfold n1; case_if; [apply u64_range|done]).
  destruct (IH s1 n1 I1 Hfw1 Hn1) as (s2 & E2 & I2 & A2 & T2 & F2).
  exists s2. split; [|split; [done|split; [congruence|split; [congruence|]]]].
  - unfold bind at 1 2 3. rewrite E1. cbn. exact E2.
  - rewrite F2. do 2 f_equal. unfold n1, occurrences. rewrite filter_cons.
    destruct (Z.eqb_spec code c) as [->|Hne].
    + rewrite decide_True by done. cbn [length]. unfold add64, u64. rewrite Zplus_mod_idemp_l.
      f_equal. lia.
    + by rewrite decide_False by congruence.
Qed.

(** The counter found by the scan is the first free one of the mask. *)
Lemma find_fw_loop_run s l mask :
  inv s -> Forall (λ c, 0 <= c < 48) l ->
  exists r, find_fw_loop hartid l mask s = (Ret r, s) /\
    let free c := active_at s c = Some SBI_PMU_EVENT_IDX_INVALID /\ truthy (Z.land (shl64 1 c) mask) = true in
    (r = SBI_ENOTSUPP /\ Forall (λ c, ~ free c) l) \/
    (exists l1 l2, l = l1 ++ r :: l2 /\ free r /\ Forall (λ c, ~ free c) l1).
Proof.
  intros I Hl. cbn zeta. induction Hl as [|c l Hc Hl IH]; cbn [find_fw_loop].
  { exists SBI_ENOTSUPP. split; [done|]. by left. }
  destruct (active_at_some s c I Hc) as [a Ea]. unfold bind, get_active.
  change (active_events s !! Z.to_nat hartid ≫= λ row, row !! Z.to_nat c) with (active_at s c). rewrite Ea.
  case_if.
  - zbool. exists c. split; [done|]. right. exists [], l. split; [done|]. split; [by split; congruence|done].
  - destruct IH as (r & Er & Hr). exists r. split; [exact Er|].
    assert (Hnf : ~ (active_at s c = Some SBI_PMU_EVENT_IDX_INVALID /\ truthy (Z.land (shl64 1 c) mask) = true)).
    { rewrite Ea. intros [[= ->] Hb]. rewrite Z.eqb_refl, Hb in E. discriminate. }
    destruct Hr as [[-> Hr]|(l1 & l2 & -> & Hf & Hr)].
    + left. split; [done|]. by constructor.
    + right. exists (c :: l1), l2. split; [done|]. split; [done|]. by constructor.
Qed.

Lemma put_active_run s cidx v :
  inv s -> 0 <= cidx < hw + 16 -> active_ok hw cidx v ->
  exists s', put_active hartid cidx v s = (Ret tt, s') /\ inv s' /\ fw_event_map s' = fw_event_map s /\
    total_ctrs s' = total_ctrs s /\ active_at s' cidx = Some v.
Proof.
  intros I Hc Hv. pose proof (pi_hw _ _ _ I) as [_ Hhw].
  destruct (put_active_runs cidx v Hc Hv s I) as ([] & s' & E & I' & _).
  exists s'. split; [done|]. split; [done|].
  destruct (active_at_some s cidx I ltac:(lia)) as [a Ea]. unfold put_active, bind, get_active in E.
  unfold active_at in Ea. rewrite Ea in E. injection E as <-. split; [done|]. split; [done|].
  unfold active_at. cbn. rewrite list_lookup_alter_eq.
  destruct (pi_row _ _ _ I) as (row & Er & Hl & _). rewrite Er. cbn.
  apply list_lookup_insert_eq. lia.
Qed.

(** A request to configure, clear and start a firmware counter. *)
Record fw_request (base mask flags event_idx : Z) : Prop := {
  fr_base : 0 <= base < hw + 16;
  fr_mask : __fls (shl64 mask base) < hw + 16;
  fr_type : get_cidx_type event_idx = SBI_PMU_EVENT_TYPE_FW;
  fr_code : get_cidx_code event_idx < SBI_PMU_FW_MAX;
  fr_flags : truthy (Z.land flags SBI_PMU_CFG_FLAG_SKIP_MATCH) = false /\
    truthy (Z.land flags SBI_PMU_CFG_FLAG_CLEAR_VALUE) = true /\
    truthy (Z.land flags SBI_PMU_CFG_FLAG_AUTO_START) = true;
}.

Lemma cfg_fw_run s base mask flags event_idx data :
  inv s -> fw_request base mask flags event_idx ->
  exists r s', sbi_pmu_ctr_cfg_match hartid xlate base mask flags event_idx data s = (Ret r, s') /\ inv s' /\
    ((r = SBI_ENOTSUPP /\ s' = s) \/
     (hw < r < hw + 16 /\ active_at s r = Some SBI_PMU_EVENT_IDX_INVALID /\
      truthy (Z.land (shl64 1 r) (shl64 mask base)) = true /\
      active_at s' r = Some (u32 event_idx) /\
      fw_at s' (get_cidx_code event_idx) = Some (FwEvent 0 true))).
Proof.
  intros I [Hb Hm Ht Hcode (Hf1 & Hf2 & Hf3)]. pose proof (pi_hw _ _ _ I) as [Ehw Hhw].
  destruct (get_cidx_u32 event_idx) as [Eu1 Eu2].
  assert (Hc0 : 0 <= get_cidx_code event_idx) by (apply Z.land_nonneg; lia).
  unfold SBI_PMU_FW_MAX in Hcode. unfold sbi_pmu_ctr_cfg_match. cbn zeta.
  erewrite bind_Ret by reflexivity. rewrite (pi_total _ _ _ I), Ht, Hf1, Hf2, Hf3.
  rewrite (proj2 (Z.leb_gt _ _)) by lia. change (SBI_PMU_EVENT_TYPE_MAX <=? SBI_PMU_EVENT_TYPE_FW) with false.
  cbn [orb]. change (SBI_PMU_EVENT_TYPE_FW =? SBI_PMU_EVENT_TYPE_FW) with true.
  change (SBI_PMU_EVENT_TYPE_FW =? SBI_PMU_EVENT_TYPE_HW) with false. cbv iota.
  set (fwb := if base <=? hw then hw + 1 else u32 base).
  assert (Hfwb : hw < fwb < hw + 16).
  { unfold fwb, u32. case_if; zbool; [lia|]. rewrite Z.mod_small by lia. lia. }
  assert (Hl : Forall (λ c, 0 <= c < 48) (seqZ fwb (hw + 16 - fwb))).
  { apply Forall_forall. intros c Hc. apply list_elem_of_In, elem_of_seqZ in Hc. lia. }
  destruct (find_fw_loop_run s _ (shl64 mask base) I Hl) as (r & Er & Hr). cbn zeta in Hr.
  assert (Efind : pmu_ctr_find_fw hartid base mask s = (Ret r, s)).
  { unfold pmu_ctr_find_fw. cbn zeta. erewrite bind_Ret by reflexivity.
    erewrite bind_Ret by reflexivity. rewrite Ehw, (pi_total _ _ _ I). exact Er. }
  destruct Hr as [[-> _]|(l1 & l2 & El & [Hfree Hbit] & _)].
  - exists SBI_ENOTSUPP, s. split; [|split; [done|by left]].
    erewrite bind_Ret by (erewrite bind_Ret by exact Efind; reflexivity). done.
  - assert (Hrr : hw < r < hw + 16).
    { assert (Hin : r ∈ seqZ fwb (hw + 16 - fwb)) by (rewrite El; apply elem_of_app; right; left).
      apply elem_of_seqZ in Hin. lia. }
    assert (Hok : active_ok hw r (u32 event_idx)).
    { right. rewrite Eu1, Eu2, (proj2 (Z.ltb_lt _ _)) by lia. unfold SBI_PMU_FW_EVENT_MAX. split; [done|lia]. }
    destruct (put_active_run s r (u32 event_idx) I ltac:(lia) Hok) as (s1 & E1 & I1 & F1 & T1 & A1).
    destruct (upd_fw_run s1 (get_cidx_code event_idx) (fw_set_count 0) I1 ltac:(lia)) as (s2 & E2 & I2 & A2 & T2 & F2).
    destruct (upd_fw_run s2 (get_cidx_code event_idx) (fw_set_started true) I2 ltac:(lia)) as (s3 & E3 & I3 & A3 & T3 & F3).
    exists r, s3. split; [|split; [done|right]].
    + erewrite bind_Ret.
      2:{ erewrite bind_Ret by exact Efind. rewrite (proj2 (Z.ltb_ge _ _)) by lia.
          erewrite bind_Ret by exact E1. reflexivity. }
      cbv iota. erewrite bind_Ret.
      2:{ erewrite bind_Ret by exact E2. exact E3. }
      reflexivity.
    + split; [done|]. split; [done|]. split; [done|]. split.
      * unfold active_at in *. by rewrite A3, A2.
      * rewrite F3, F2, !Z.eqb_refl by lia.
        destruct (fw_at_some s1 (get_cidx_code event_idx) I1 ltac:(lia)) as [f ->]. done.
Qed.

(** Reading a firmware counter gives the count of its event. *)
Lemma read_fw_run s c v f :
  inv s -> 0 <= c < hw + 16 -> active_at s c = Some v -> v <> SBI_PMU_EVENT_IDX_INVALID ->
  get_cidx_type v = SBI_PMU_EVENT_TYPE_FW -> fw_at s (get_cidx_code v) = Some f ->
  sbi_pmu_ctr_read hartid c s = (Ret (0, Some (curr_count f)), s).
Proof.
  intros I Hc Ha Hv Ht Hf. unfold sbi_pmu_ctr_read, pmu_ctr_validate, get_active.
  unfold active_at in Ha. unfold fw_at in Hf. unfold bind at 1 2. rewrite Ha.
  unfold bind at 1, gets. rewrite (pi_total _ _ _ I), (proj2 (Z.leb_gt _ _)), (proj2 (Z.eqb_neq _ _)) by (lia || done).
  cbn [orb]. rewrite Ht. unfold pmu_ctr_read_fw, get_fw, bind. cbn. by rewrite Hf.
Qed.

(** ** Operations of the supervisor *)

Inductive pmu_op : Type :=
| OpCfgMatch (base mask flags event_idx data : Z)
| OpStart (base mask flags ival : Z)
| OpStop (base mask flag : Z)
| OpRead (cidx : Z)
| OpIncr (fw_id : Z).

Definition run_op (op : pmu_op) : M pmu_state Z :=
  match op with
  | OpCfgMatch base mask flags e d => sbi_pmu_ctr_cfg_match hartid xlate base mask flags e d
  | OpStart base mask flags ival => sbi_pmu_ctr_start hartid base mask flags ival
  | OpStop base mask flag => sbi_pmu_ctr_stop hartid base mask flag
  | OpRead cidx => bind (sbi_pmu_ctr_read hartid cidx) (λ r, ret (fst r))
  | OpIncr fw_id => sbi_pmu_ctr_incr_fw hartid fw_id
  end.

(** The arguments each operation needs to stay inside the arrays. *)
Definition op_ok (op : pmu_op) : Prop :=
  match op with
  | OpCfgMatch base _ flags e _ => cfg_ok base flags e
  | OpStart base _ _ _ | OpStop base _ _ => 0 <= base
  | OpRead cidx => 0 <= cidx < hw + 16
  | OpIncr fw_id => 0 <= fw_id
  end.

Lemma run_op_runs op : op_ok op -> runs inv (run_op op) (λ _, True).
Proof.
  destruct op; cbn [op_ok run_op]; intros H.
  - by apply cfg_match_runs.
  - by apply ctr_start_runs.
  - by apply ctr_stop_runs.
  - eapply (runs_bind _ _ _ (λ _, True)); [by apply ctr_read_runs|]. intros r _. by apply runs_ret.
  - by apply incr_fw_runs.
Qed.

End Safety.

(** ** Initialisation *)

(** What sbi_pmu_init finds: arrays of the declared sizes, and event maps that
    name only counters the hart has. *)
Record pmu_dims (hartid hw : Z) (s : pmu_state) : Prop := {
  pd_hart : 0 <= hartid < 128;
  pd_row : exists row, active_events s !! Z.to_nat hartid = Some row /\ length row = 48%nat;
  pd_fw : exists row, fw_event_map s !! Z.to_nat hartid = Some row /\ length row = 32%nat;
  pd_events : 0 <= num_hw_events s <= 63 /\ length (hw_event_map s) = 64%nat;
  pd_maps : Forall (λ e, 0 <= counters e < 2 ^ (hw + 1)) (take (Z.to_nat (num_hw_events s)) (hw_event_map s));
}.

Lemma put_active_dims hartid hw s cidx v :
  pmu_dims hartid hw s -> 0 <= cidx < 48 ->
  exists s', put_active hartid cidx v s = (Ret tt, s') /\ pmu_dims hartid hw s' /\
    num_hw_ctrs s' = num_hw_ctrs s /\ total_ctrs s' = total_ctrs s /\
    forall c, 0 <= c < 48 -> active_at hartid s' c = if c =? cidx then Some v else active_at hartid s c.
Proof.
  intros D Hc. destruct (pd_row _ _ _ D) as (row & Er & Hl).
  destruct (lookup_lt_is_Some_2 row (Z.to_nat cidx)) as [a Ea]; [lia|].
  eexists. split; [unfold put_active, bind, get_active; rewrite Er; cbn; rewrite Ea; reflexivity|].
  split; [|split; [done|split; [done|]]].
  - destruct D as [D1 D2 D3 D4 D5]. constructor; cbn; try assumption.
    eexists. rewrite list_lookup_alter_eq, Er. cbn. split; [reflexivity|]. by rewrite length_insert.
  - intros c Hcc. unfold active_at. cbn. rewrite list_lookup_alter_eq, Er. cbn.
    destruct (Z.eqb_spec c cidx) as [->|Hne].
    + apply list_lookup_insert_eq. lia.
    + rewrite list_lookup_insert_ne by lia. done.
Qed.

Lemma put_all_dims hartid hw s l v :
  pmu_dims hartid hw s -> Forall (λ c, 0 <= c < 48) l ->
  exists s', mfor l (λ j, put_active hartid j v) s = (Ret tt, s') /\ pmu_dims hartid hw s' /\
    num_hw_ctrs s' = num_hw_ctrs s /\ total_ctrs s' = total_ctrs s /\
    forall c, 0 <= c < 48 -> active_at hartid s' c = if bool_decide (c ∈ l) then Some v else active_at hartid s c.
Proof.
  intros D Hl. revert s D. induction Hl as [|i l Hi Hl IH]; intros s D.
  { exists s. done. }
  destruct (put_active_dims hartid hw s i v D Hi) as (s1 & E1 & D1 & N1 & T1 & A1).
  destruct (IH s1 D1) as (s2 & E2 & D2 & N2 & T2 & A2).
  exists s2. cbn [mfor]. rewrite (bind_Ret _ _ _ _ _ E1). split; [done|]. split; [done|].
  split; [congruence|]. split; [congruence|]. intros c Hc. rewrite A2, A1 by done.
  destruct (decide (c ∈ l)) as [Hin|Hin].
  - rewrite !bool_decide_true by set_solver. done.
  - rewrite (bool_decide_false (c ∈ l)) by done. destruct (Z.eqb_spec c i) as [->|Hne].
    + by rewrite bool_decide_true by set_solver.
    + by rewrite bool_decide_false by set_solver.
Qed.

Lemma reset_fw_dims hartid hw s l :
  pmu_dims hartid hw s -> Forall (λ c, 0 <= c < 32) l ->
  exists s', mfor l (λ j, upd_fw hartid j (λ _, FwEvent 0 false)) s = (Ret tt, s') /\ pmu_dims hartid hw s' /\
    num_hw_ctrs s' = num_hw_ctrs s /\ total_ctrs s' = total_ctrs s /\
    active_events s' = active_events s.
Proof.
  intros D Hl. revert s D. induction Hl as [|i l Hi Hl IH]; intros s D.
  { exists s. done. }
  destruct (pd_fw _ _ _ D) as (row & Er & Hlen).
  destruct (lookup_lt_is_Some_2 row (Z.to_nat i)) as [a Ea]; [lia|].
  set (s1 := set_fw_event_map (alter (λ row, alter (λ _, FwEvent 0 false) (Z.to_nat i) row) (Z.to_nat hartid)
    (fw_event_map s)) s).
  assert (E1 : upd_fw hartid i (λ _, FwEvent 0 false) s = (Ret tt, s1)).
  { unfold upd_fw, bind, get_fw. rewrite Er. cbn. rewrite Ea. reflexivity. }
  assert (D1 : pmu_dims hartid hw s1).
  { destruct D as [D1 D2 D3 D4 D5]. constructor; cbn; try assumption.
    eexists. rewrite list_lookup_alter_eq, Er. cbn. split; [reflexivity|]. by rewrite length_alter. }
  destruct (IH s1 D1) as (s2 & E2 & D2 & N2 & T2 & A2).
  exists s2. cbn [mfor]. rewrite (bind_Ret _ _ _ _ _ E1).
  split; [done|]. split; [done|]. split; [done|]. split; done.
Qed.

Lemma dims_inv hartid hw s :
  pmu_dims hartid hw s -> num_hw_ctrs s = hw -> 2 <= hw <= 31 -> total_ctrs s = hw + 16 ->
  (forall c, 0 <= c < hw + 16 -> exists v, active_at hartid s c = Some v /\ active_ok hw c v) ->
  pmu_inv hartid hw s.
Proof.
  intros [D1 (row & Er & Hl) D3 D4 D5] Hn Hhw Ht Hall. constructor; try done.
  exists row. split; [done|]. split; [done|]. intros c v Hc Hv.
  destruct (Hall c Hc) as (w & Ew & Hw). unfold active_at in Ew. rewrite Er in Ew. cbn in Ew. congruence.
Qed.

(** The part common to cold and warm boot returns. *)
Lemma pmu_init_warm_run hartid hw has platform_init mhpm_count s :
  pmu_dims hartid hw s -> total_ctrs s <= 48 ->
  exists s', sbi_pmu_init hartid has platform_init mhpm_count false s = (Ret 0, s') /\
    pmu_dims hartid hw s' /\ total_ctrs s' = total_ctrs s.
Proof.
  intros D Ht. unfold sbi_pmu_init. destruct has; [|by exists s]. rewrite bind_ret_l.
  destruct (put_all_dims hartid hw s (seqZ 3 (total_ctrs s - 3)) SBI_PMU_EVENT_IDX_INVALID D)
    as (s3 & E3 & D3 & _ & T3 & _).
  { apply Forall_forall. intros c Hc. apply list_elem_of_In, elem_of_seqZ in Hc. lia. }
  destruct (reset_fw_dims hartid hw s3 (seqZ 0 SBI_PMU_FW_CTR_MAX) D3) as (s4 & E4 & D4 & _ & T4 & _).
  { apply Forall_forall. intros c Hc. apply list_elem_of_In, elem_of_seqZ in Hc.
    unfold SBI_PMU_FW_CTR_MAX in Hc. lia. }
  assert (Ereset : pmu_reset_event_map hartid s = (Ret tt, s4)).
  { unfold pmu_reset_event_map. erewrite bind_Ret by reflexivity. rewrite (bind_Ret _ _ _ _ _ E3). exact E4. }
  rewrite (bind_Ret _ _ _ _ _ Ereset).
  destruct (put_active_dims hartid hw s4 0 SBI_PMU_HW_CPU_CYCLES D4 ltac:(lia)) as (s5 & E5 & D5 & _ & T5 & _).
  destruct (put_active_dims hartid hw s5 1 SBI_PMU_EVENT_IDX_INVALID D5 ltac:(lia)) as (s6 & E6 & D6 & _ & T6 & _).
  destruct (put_active_dims hartid hw s6 2 SBI_PMU_HW_INSTRUCTIONS D6 ltac:(lia)) as (s7 & E7 & D7 & _ & T7 & _).
  rewrite (bind_Ret _ _ _ _ _ E5), (bind_Ret _ _ _ _ _ E6), (bind_Ret _ _ _ _ _ E7). exists s7.
  split; [done|]. split; [done|]. congruence.
Qed.

(** sbi_pmu_init at cold boot. *)
Lemma pmu_init_run hartid mhpm_count platform_init s s1 rc :
  0 <= mhpm_count <= 29 -> platform_init s = (Ret rc, s1) -> pmu_dims hartid (mhpm_count + 2) s1 ->
  exists s', sbi_pmu_init hartid true platform_init mhpm_count true s = (Ret 0, s') /\
    pmu_inv hartid (mhpm_count + 2) s' /\
    active_at hartid s' 0 = Some SBI_PMU_HW_CPU_CYCLES /\
    active_at hartid s' 2 = Some SBI_PMU_HW_INSTRUCTIONS /\
    forall c, 0 <= c < mhpm_count + 18 -> c <> 0 -> c <> 2 ->
      active_at hartid s' c = Some SBI_PMU_EVENT_IDX_INVALID.
Proof.
  intros Hm Ep D. set (hw := mhpm_count + 2) in *. unfold sbi_pmu_init.
  set (s2 := set_ctr_counts (u32 (mhpm_count + 2)) (u32 (u32 (mhpm_count + 2) + SBI_PMU_FW_CTR_MAX)) s1).
  assert (Ecold : bind platform_init (λ _ : Z, modify (λ s : pmu_state,
    set_ctr_counts (u32 (mhpm_count + 2)) (u32 (u32 (mhpm_count + 2) + SBI_PMU_FW_CTR_MAX)) s)) s = (Ret tt, s2)).
  { rewrite (bind_Ret _ _ _ _ _ Ep). reflexivity. }
  rewrite (bind_Ret _ _ _ _ _ Ecold).
  assert (D2 : pmu_dims hartid hw s2) by (destruct D; by constructor).
  assert (N2 : num_hw_ctrs s2 = hw) by (cbn; unfold u32; rewrite Z.mod_small by lia; done).
  assert (T2 : total_ctrs s2 = hw + 16).
  { cbn. unfold u32, SBI_PMU_FW_CTR_MAX. rewrite !Z.mod_small by (rewrite ?Z.mod_small by lia; lia). lia. }
  destruct (put_all_dims hartid hw s2 (seqZ 3 (hw + 16 - 3)) SBI_PMU_EVENT_IDX_INVALID D2)
    as (s3 & E3 & D3 & N3 & T3 & A3).
  { apply Forall_forall. intros c Hc. apply list_elem_of_In, elem_of_seqZ in Hc. lia. }
  destruct (reset_fw_dims hartid hw s3 (seqZ 0 SBI_PMU_FW_CTR_MAX) D3) as (s4 & E4 & D4 & N4 & T4 & A4).
  { apply Forall_forall. intros c Hc. apply list_elem_of_In, elem_of_seqZ in Hc.
    unfold SBI_PMU_FW_CTR_MAX in Hc. lia. }
  assert (Ereset : pmu_reset_event_map hartid s2 = (Ret tt, s4)).
  { unfold pmu_reset_event_map. erewrite bind_Ret by reflexivity. rewrite T2.
    rewrite (bind_Ret _ _ _ _ _ E3). exact E4. }
  rewrite (bind_Ret _ _ _ _ _ Ereset).
  destruct (put_active_dims hartid hw s4 0 SBI_PMU_HW_CPU_CYCLES D4 ltac:(lia)) as (s5 & E5 & D5 & N5 & T5 & A5).
  destruct (put_active_dims hartid hw s5 1 SBI_PMU_EVENT_IDX_INVALID D5 ltac:(lia)) as (s6 & E6 & D6 & N6 & T6 & A6).
  destruct (put_active_dims hartid hw s6 2 SBI_PMU_HW_INSTRUCTIONS D6 ltac:(lia)) as (s7 & E7 & D7 & N7 & T7 & A7).
  rewrite (bind_Ret _ _ _ _ _ E5), (bind_Ret _ _ _ _ _ E6), (bind_Ret _ _ _ _ _ E7).
  exists s7. split; [done|].
  assert (Hall : forall c, 0 <= c < hw + 16 -> active_at hartid s7 c =
    if c =? 2 then Some SBI_PMU_HW_INSTRUCTIONS else if c =? 0 then Some SBI_PMU_HW_CPU_CYCLES
    else Some SBI_PMU_EVENT_IDX_INVALID).
  { intros c Hc. rewrite A7, A6, A5 by lia. destruct (Z.eqb_spec c 2); [done|].
    destruct (Z.eqb_spec c 1); [by rewrite (proj2 (Z.eqb_neq _ _)) by lia|].
    destruct (Z.eqb_spec c 0); [done|].
    assert (A4' : active_at hartid s4 c = active_at hartid s3 c) by (unfold active_at; by rewrite A4).
    rewrite A4', A3 by lia. rewrite bool_decide_true; [done|]. apply elem_of_seqZ. lia. }
  split; [|split; [|split]].
  - apply dims_inv; [done|congruence|lia|congruence|]. intros c Hc. rewrite Hall by done.
    destruct (Z.eqb_spec c 2) as [->|]; [|destruct (Z.eqb_spec c 0) as [->|]].
    + eexists. split; [done|]. right. rewrite (proj2 (Z.ltb_ge _ _)) by lia. done.
    + eexists. split; [done|]. right. rewrite (proj2 (Z.ltb_ge _ _)) by lia. done.
    + eexists. split; [done|]. by left.
  - by rewrite Hall by lia.
  - by rewrite Hall by lia.
  - intros c Hc H0 H2. rewrite Hall by lia. by rewrite !(proj2 (Z.eqb_neq _ _)) by lia.
Qed.

(** ** Properties *)

(** sbi_pmu_init at cold boot establishes the invariant of the counter
    maps: it returns 0, the fixed counters 0 and 2 carry cycles and
    instructions, counter 1 and every other counter is free. *)
Theorem pmu_init_establishes_invariant hartid mhpm_count platform_init s s1 rc :
  0 <= mhpm_count <= 29 -> platform_init s = (Ret rc, s1) -> pmu_dims hartid (mhpm_count + 2) s1 ->
  exists s', sbi_pmu_init hartid true platform_init mhpm_count true s = (Ret 0, s') /\
    pmu_inv hartid (mhpm_count + 2) s' /\
    active_at hartid s' 0 = Some SBI_PMU_HW_CPU_CYCLES /\
    active_at hartid s' 2 = Some SBI_PMU_HW_INSTRUCTIONS /\
    forall c, 0 <= c < mhpm_count + 18 -> c <> 0 -> c <> 2 ->
      active_at hartid s' c = Some SBI_PMU_EVENT_IDX_INVALID.
Proof. apply pmu_init_run. Qed.

Lemma pmu_initial_dims hartid hw : 0 <= hartid < 128 -> 0 <= hw -> pmu_dims hartid hw pmu_initial.
Proof.
  intros Hh Hw. constructor; cbn [pmu_initial active_events fw_event_map num_hw_events hw_event_map].
  - done.
  - exists (replicate 48 0). split; [apply lookup_replicate_2; lia|apply length_replicate].
  - exists (replicate 32 (FwEvent 0 false)). split; [apply lookup_replicate_2; lia|apply length_replicate].
  - split; [lia|apply length_replicate].
  - constructor.
Qed.

Lemma pmu_init_establishes_invariant_witness :
  exists s', sbi_pmu_init 0 true (ret 0) 29 true pmu_initial = (Ret 0, s') /\
    pmu_inv 0 (29 + 2) s' /\
    active_at 0 s' 0 = Some SBI_PMU_HW_CPU_CYCLES /\
    active_at 0 s' 2 = Some SBI_PMU_HW_INSTRUCTIONS /\
    forall c, 0 <= c < 29 + 18 -> c <> 0 -> c <> 2 ->
      active_at 0 s' c = Some SBI_PMU_EVENT_IDX_INVALID.
Proof.
  apply (pmu_init_establishes_invariant 0 29 (ret 0) pmu_initial pmu_initial 0);
    [lia|reflexivity|apply pmu_initial_dims; lia].
Defined.

(** A booted state, for the witnesses below. *)
Definition pmu_booted : pmu_state := snd (sbi_pmu_init 0 true (ret 0) 29 true pmu_initial).

Lemma pmu_booted_inv : pmu_inv 0 31 pmu_booted.
Proof.
  destruct (pmu_init_run 0 29 (ret 0) pmu_initial pmu_initial 0) as (s' & E & I & _);
    [lia|reflexivity|apply pmu_initial_dims; lia|].
  unfold pmu_booted. rewrite E. exact I.
Qed.

(** [C37] The counter operations are safe: from a state of the invariant, every
    operation whose arguments are in range returns (no array is left, no unknown
    register is touched) and keeps the invariant. *)
Theorem pmu_operations_safe hartid hw xlate op s :
  pmu_inv hartid hw s -> op_ok hw op ->
  exists rc s', run_op hartid xlate op s = (Ret rc, s') /\ pmu_inv hartid hw s'.
Proof.
  intros I Ho. destruct (run_op_runs hartid hw xlate op Ho s I) as (rc & s' & E & I' & _). eauto.
Qed.

Lemma pmu_operations_safe_witness :
  exists rc s', run_op 0 (λ _ _, 0) (OpStart 0 0x7fff00000005 1 77) pmu_booted = (Ret rc, s') /\
    pmu_inv 0 31 s'.
Proof.
  apply (pmu_operations_safe 0 31 (λ _ _, 0) (OpStart 0 0x7fff00000005 1 77) pmu_booted);
    [apply pmu_booted_inv|cbn; lia].
Defined.

(** A firmware counter counts its event: when sbi_pmu_ctr_cfg_match with
    clear and auto-start returns counter [c] for a firmware event, [c] was a free
    firmware counter of the mask, and after any stream of firmware events reading
    it gives the number of events of that kind in the stream, modulo 2^64. *)
Theorem pmu_fw_counter_counts hartid hw xlate s base mask flags event_idx data c s1 codes :
  pmu_inv hartid hw s -> fw_request hw base mask flags event_idx ->
  sbi_pmu_ctr_cfg_match hartid xlate base mask flags event_idx data s = (Ret c, s1) -> 0 <= c ->
  Forall (λ e, 0 <= e < 22) codes ->
  hw < c < hw + 16 /\ active_at hartid s c = Some SBI_PMU_EVENT_IDX_INVALID /\
  truthy (Z.land (shl64 1 c) (shl64 mask base)) = true /\
  exists s2, incr_all hartid codes s1 = (Ret tt, s2) /\
    sbi_pmu_ctr_read hartid c s2 =
      (Ret (0, Some (u64 (occurrences (get_cidx_code event_idx) codes))), s2).
Proof.
  intros I R E Hc Hall. destruct (get_cidx_u32 event_idx) as [Eu1 Eu2].
  destruct (cfg_fw_run hartid hw xlate s base mask flags event_idx data I R)
    as (r & s' & E' & I' & [[-> _]|(Hr & Hfree & Hbit & Ha & Hf)]); rewrite E in E'; injection E' as -> ->;
    [done|].
  split; [done|]. split; [done|]. split; [done|].
  assert (Hcode : 0 <= get_cidx_code event_idx < 22).
  { split; [apply Z.land_nonneg; lia|apply R]. }
  destruct (incr_all_run hartid hw s' codes (get_cidx_code event_idx) 0 I' Hall Hcode Hf ltac:(unfold is_u64; lia))
    as (s2 & E2 & I2 & A2 & _ & F2).
  exists s2. split; [done|].
  apply (read_fw_run hartid hw s2 r (u32 event_idx)
    (FwEvent (u64 (0 + occurrences (get_cidx_code event_idx) codes)) true)); [done| | | | |].
  - pose proof (pi_hw _ _ _ I) as [_ ?]. lia.
  - unfold active_at in *. by rewrite A2.
  - intros Hx. rewrite Hx in Eu2. rewrite <- Eu2 in Hcode. vm_compute in Hcode. destruct Hcode as [_ Hcode]. discriminate.
  - rewrite Eu1. apply R.
  - by rewrite Eu2.
Qed.

Lemma pmu_fw_counter_counts_witness :
  exists c s1, sbi_pmu_ctr_cfg_match 0 (λ _ _, 0) 32 0xff 6 0xf0005 0 pmu_booted = (Ret c, s1) /\
    31 < c < 31 + 16 /\ active_at 0 pmu_booted c = Some SBI_PMU_EVENT_IDX_INVALID /\
    truthy (Z.land (shl64 1 c) (shl64 0xff 32)) = true /\
    exists s2, incr_all 0 [5; 6; 5; 0; 5] s1 = (Ret tt, s2) /\
      sbi_pmu_ctr_read 0 c s2 = (Ret (0, Some (u64 (occurrences 5 [5; 6; 5; 0; 5]))), s2).
Proof.
  destruct (sbi_pmu_ctr_cfg_match 0 (λ _ _, 0) 32 0xff 6 0xf0005 0 pmu_booted) as [[c|w] s1] eqn:E;
    [|vm_compute in E; discriminate].
  exists c, s1. split; [reflexivity|].
  apply (pmu_fw_counter_counts 0 31 (λ _ _, 0) pmu_booted 32 0xff 6 0xf0005 0 c s1 [5; 6; 5; 0; 5]).
  - apply pmu_booted_inv.
  - constructor; [lia|vm_compute; reflexivity|reflexivity|reflexivity|repeat split; reflexivity].
  - exact E.
  - vm_compute in E. injection E as <- _. lia.
  - repeat constructor; lia.
Defined.

(** Two entries of the event table, the second one added later. *)
Definition events_apart (a b : sbi_pmu_hw_event) : Prop :=
  if start_idx b =? SBI_PMU_EVENT_RAW_IDX then select a <> select b
  else end_idx a < start_idx b \/ end_idx b < start_idx a.

Record event_table_ok (s : pmu_state) : Prop := {
  et_len : 0 <= num_hw_events s <= 63 /\ length (hw_event_map s) = 64%nat;
  et_ranges : forall (i : nat) e, Z.of_nat i < num_hw_events s -> hw_event_map s !! i = Some e ->
    start_idx e <= end_idx e;
  et_apart : forall (i j : nat) a b, (i < j)%nat -> Z.of_nat j < num_hw_events s ->
    hw_event_map s !! i = Some a -> hw_event_map s !! j = Some b -> events_apart a b;
}.

Lemma range_overlap_false a b :
  start_idx a <= end_idx a -> start_idx b <= end_idx b -> pmu_event_range_overlap a b = false ->
  end_idx a < start_idx b \/ end_idx b < start_idx a.
Proof.
  intros Ha Hb. unfold pmu_event_range_overlap. rewrite negb_false_iff, orb_true_iff, !andb_true_iff, !Z.ltb_lt. lia.
Qed.

Lemma add_event_table es ee cmap sel s :
  event_table_ok s -> es <= ee ->
  exists rc s', pmu_add_hw_event_map es ee cmap sel s = (Ret rc, s') /\ event_table_ok s' /\
    ((rc = 0 /\ num_hw_events s' = num_hw_events s + 1 /\
      hw_event_map s' !! Z.to_nat (num_hw_events s) = Some (HwEvent cmap es ee sel)) \/
     (rc <> 0 /\ num_hw_events s' = num_hw_events s)).
Proof.
  intros T He. destruct T as [[T1 T2] T3 T4]. unfold pmu_add_hw_event_map.
  case_if; [eexists _, _; split; [done|]; split; [by constructor|by right]|].
  unfold SBI_PMU_HW_EVENT_MAX. case_if; [eexists _, _; split; [done|]; split; [by constructor|by right]|].
  zbool. cbn zeta. set (ev := HwEvent cmap es ee sel).
  set (s1 := set_hw_event_map _ s). set (n := Z.to_nat (num_hw_events s)) in *.
  change (num_hw_events s1) with (num_hw_events s). fold n.
  assert (Hlow : forall i : nat, Z.of_nat i < num_hw_events s -> hw_event_map s1 !! i = hw_event_map s !! i).
  { intros i Hi. apply list_lookup_insert_ne. lia. }
  assert (Hat : hw_event_map s1 !! n = Some ev) by (apply list_lookup_insert_eq; lia).
  assert (Hlen : length (hw_event_map s1) = 64%nat) by (cbn; by rewrite length_insert).
  assert (Hold : event_table_ok s1).
  { constructor.
    - done.
    - intros i e Hi. rewrite Hlow by done. by apply T3.
    - intros i j a b Hij Hj. change (num_hw_events s1) with (num_hw_events s) in Hj.
      rewrite !Hlow by lia. by apply T4. }
  destruct (existsb _ _) eqn:Eover; [eexists _, _; split; [done|]; split; [done|right; done]|].
  eexists _, _. split; [done|]. split; [|left; done].
  assert (Hnew : forall (i : nat) a, Z.of_nat i < num_hw_events s -> hw_event_map s1 !! i = Some a -> events_apart a ev).
  { intros i a Hi Ha. apply not_true_iff_false in Eover. unfold events_apart.
    assert (Hin : In a (take n (hw_event_map s1))).
    { apply list_elem_of_In, (list_elem_of_lookup_2 _ i). rewrite lookup_take_lt by lia. done. }
    assert (Hno : (if es =? SBI_PMU_EVENT_RAW_IDX then pmu_event_select_overlap a sel
                   else pmu_event_range_overlap a ev) = false).
    { destruct (if es =? _ then _ else _) eqn:Ex; [|done]. exfalso. apply Eover.
      apply existsb_exists. by exists a. }
    change (start_idx ev) with es. destruct (es =? SBI_PMU_EVENT_RAW_IDX).
    - by apply Z.eqb_neq in Hno.
    - apply (range_overlap_false a ev); [|done|done]. apply (T3 i); [done|]. by rewrite <- Hlow. }
  constructor.
  - cbn [num_hw_events set_num_hw_events hw_event_map]. change (num_hw_events s1) with (num_hw_events s). split; [lia|done].
  - intros i e Hi Hl. change (hw_event_map (set_num_hw_events ?x ?y)) with (hw_event_map y) in Hl.
    cbn [num_hw_events set_num_hw_events] in Hi. change (num_hw_events s1) with (num_hw_events s) in Hi.
    destruct (decide (i = n)) as [->|]; [rewrite Hat in Hl; by injection Hl as <-|].
    apply (et_ranges s1 Hold i); [cbn; lia|done].
  - intros i j a b Hij Hj Ha Hb. change (hw_event_map (set_num_hw_events ?x ?y)) with (hw_event_map y) in Ha, Hb.
    cbn [num_hw_events set_num_hw_events] in Hj. change (num_hw_events s1) with (num_hw_events s) in Hj.
    destruct (decide (j = n)) as [->|].
    + rewrite Hat in Hb. injection Hb as <-. apply (Hnew i); [lia|done].
    + apply (et_apart s1 Hold i j); [done|cbn; lia|done..].
Qed.

(** The table of hardware events stays free of overlaps: adding an event
    range or a raw event either appends it, at index num_hw_events, and it is
    apart from every earlier entry (disjoint index ranges, or distinct selectors
    for raw events), or fails and leaves the number of entries. *)
Theorem pmu_event_table_disjoint s es ee cmap sel :
  event_table_ok s ->
  (exists rc s', sbi_pmu_add_hw_event_counter_map es ee cmap s = (Ret rc, s') /\ event_table_ok s' /\
     ((rc = 0 /\ num_hw_events s' = num_hw_events s + 1) \/ (rc <> 0 /\ num_hw_events s' = num_hw_events s))) /\
  (exists rc s', sbi_pmu_add_raw_event_counter_map sel cmap s = (Ret rc, s') /\ event_table_ok s' /\
     ((rc = 0 /\ num_hw_events s' = num_hw_events s + 1) \/ (rc <> 0 /\ num_hw_events s' = num_hw_events s))).
Proof.
  intros T. split.
  - unfold sbi_pmu_add_hw_event_counter_map.
    case_if; [eexists _, _; split; [done|]; split; [done|by right]|]. zbool.
    destruct (add_event_table es ee cmap 0 s T ltac:(lia)) as (rc & s' & E' & T' & [(? & ? & _)|?]);
      exists rc, s'; auto.
  - unfold sbi_pmu_add_raw_event_counter_map.
    destruct (add_event_table SBI_PMU_EVENT_RAW_IDX SBI_PMU_EVENT_RAW_IDX cmap sel s T ltac:(lia))
      as (rc & s' & E' & T' & [(? & ? & _)|?]); exists rc, s'; auto.
Qed.

Lemma pmu_event_table_disjoint_witness :
  (exists rc s', sbi_pmu_add_hw_event_counter_map 3 9 0x78 pmu_initial = (Ret rc, s') /\ event_table_ok s' /\
     ((rc = 0 /\ num_hw_events s' = num_hw_events pmu_initial + 1) \/
      (rc <> 0 /\ num_hw_events s' = num_hw_events pmu_initial))) /\
  (exists rc s', sbi_pmu_add_raw_event_counter_map 5 0x78 pmu_initial = (Ret rc, s') /\ event_table_ok s' /\
     ((rc = 0 /\ num_hw_events s' = num_hw_events pmu_initial + 1) \/
      (rc <> 0 /\ num_hw_events s' = num_hw_events pmu_initial))).
Proof.
  apply (pmu_event_table_disjoint pmu_initial 3 9 0x78 5). constructor.
  - cbn [pmu_initial num_hw_events hw_event_map]. rewrite length_replicate. lia.
  - intros i e Hi. cbn in Hi. lia.
  - intros i j a b _ Hj. cbn in Hj. lia.
Defined.

(** The code of a cache event decides as if it were a general hardware event:
    asking for an L1D read miss (0x10001) is answered with counter 0, the cycle
    counter, and marks that counter with the cache event. *)
Theorem pmu_cache_event_gets_cycle_counter :
  let r := sbi_pmu_ctr_cfg_match 0 (λ _ _, 1) 0 0xff 0 0x10001 0 pmu_booted in
  fst r = Ret 0 /\ active_at 0 (snd r) 0 = Some 0x10001.
Proof. vm_compute. split; reflexivity. Qed.

(** A firmware event code of 32 or more leaves the firmware event map. *)
Theorem pmu_fw_code_out_of_bounds :
  fst (sbi_pmu_ctr_cfg_match 0 (λ _ _, 0) 32 0xff 6 0xf0020 0 pmu_booted) = Stop wild_access.
Proof. vm_compute. reflexivity. Qed.

(** With the skip-match flag the counter index is not checked at all. *)
Theorem pmu_skip_match_out_of_bounds :
  fst (sbi_pmu_ctr_cfg_match 0 (λ _ _, 0) 1000 1 1 0xf0005 0 pmu_booted) = Stop wild_access.
Proof. vm_compute. reflexivity. Qed.

(** Skip-match with a hardware event on an active firmware counter reaches
    BUG() through the clear flag. *)
Theorem pmu_skip_match_hangs :
  fst ((sbi_pmu_ctr_cfg_match 0 (λ _ _, 0) 32 1 6 0xf0005 0 ;;;
        sbi_pmu_ctr_cfg_match 0 (λ _ _, 0) 32 1 3 0x3 0)%sbi pmu_booted) = Stop hart_hang.
Proof. vm_compute. reflexivity. Qed.

(** Reading a hardware counter succeeds without giving a value. *)
Theorem pmu_read_hw_no_value : fst (sbi_pmu_ctr_read 0 0 pmu_booted) = Ret (0, None).
Proof. vm_compute. reflexivity. Qed.
