(* ===== verification/Machine.v ===== *)
(** * The machine seen by the multi-hart components

    The state shared by sbi_hsm.c, sbi_ipi.c, sbi_tlb.c and the ecall handlers:
    for every hart the data these components keep in its scratch space (as typed
    fields at the offsets they allocate) and its CSRs; the global variables; the
    interrupted context's memory and floating-point registers ([user_view]); and
    a trace of the externally visible effects (device accesses and fences).

    Also the atomic operations of lib/sbi/riscv_atomic.c, each one indivisible.
    Devices ([sbi_hsm_device], [sbi_ipi_device]) are values the platform
    registers: the hart-state device by what its callbacks return, the IPI
    device by which callbacks it has, their effect being an event of the trace. *)

From Stdlib Require Import ZArith Lia.
From stdpp Require Import base tactics list gmap numbers.
From S2P Require Import Prelude SbiDefs Bitops Locks Fifo Scratch Domain Csr Hart Pmu.

(** ** Atomic operations on a long (riscv_atomic.c) *)

Definition atomic_read : M Z Z := λ c, (Ret c, c).

Definition atomic_write (value : Z) : M Z unit := λ _, (Ret tt, value).

Definition atomic_add_return (value : Z) : M Z Z := λ c, (Ret (u64 (c + value)), u64 (c + value)).

Definition atomic_sub_return (value : Z) : M Z Z := atomic_add_return (u64 (- value)).

Definition atomic_cmpxchg (oldval newval : Z) : M Z Z :=
  λ c, (Ret c, if c =? oldval then newval else c).

Definition atomic_xchg (newval : Z) : M Z Z := λ c, (Ret c, newval).

Definition atomic_raw_xchg_ulong (newval : Z) : M Z Z := atomic_xchg newval.

(** The old value of the word, as an [int]. *)
Definition atomic_raw_set_bit (nr : Z) : M Z Z := λ c, (Ret (s32 c), Z.lor c (BIT (nr mod 64))).

Definition atomic_raw_clear_bit (nr : Z) : M Z Z :=
  λ c, (Ret (s32 c), Z.land c (not64 (BIT (nr mod 64)))).

(** ** TLB requests *)

(** The functions a [local_fn] pointer can designate. *)
Inductive local_fn_name : Type :=
| local_hfence_vvma
| local_hfence_gvma
| local_sfence_vma
| local_hfence_vvma_asid
| local_hfence_gvma_vmid
| local_sfence_vma_asid
| local_fence_i.

#[export] Instance local_fn_eq_dec : EqDecision local_fn_name.
Proof. solve_decision. Defined.

Record sbi_tlb_info : Type := TlbInfo {
  ti_start : Z;
  ti_size : Z;
  ti_asid : Z;
  ti_vmid : Z;
  ti_local_fn : option local_fn_name;
  ti_smask : sbi_hartmask;
}.

Definition tlb_info_zero : sbi_tlb_info := TlbInfo 0 0 0 0 None (Hartmask [0; 0]).

(** ** Visible effects *)

(** The fence instructions the firmware executes. *)
Inductive fence : Type :=
| F_sfence_vma_all
| F_sfence_vma (va : Z)
| F_sfence_vma_asid (asid : Z)
| F_sfence_vma_va_asid (va asid : Z)
| F_hfence_vvma_all (hgatp : Z)
| F_hfence_vvma_va (hgatp va : Z)
| F_hfence_vvma_asid (hgatp asid : Z)
| F_hfence_vvma_asid_va (hgatp va asid : Z)
| F_hfence_gvma_all
| F_hfence_gvma_gpa (gpa : Z)
| F_hfence_gvma_vmid (vmid : Z)
| F_hfence_gvma_vmid_gpa (gpa vmid : Z)
| F_fence_i.

Inductive event : Type :=
| EvFence (hart : Z) (f : fence)
| EvIpiSend (target : Z)
| EvIpiClear (target : Z)
| EvHartStart (hart saddr : Z)
| EvReset (reset_type reset_reason : Z)
| EvConsole (c : Z)
| EvTimerStart (hart deadline : Z)
| EvTimerStop (hart : Z).

(** ** State *)

(** What a hart keeps in its scratch space, and its CSRs. *)
Record hart_data : Type := HartData {
  hd_next_arg1 : Z;
  hd_next_addr : Z;
  hd_next_mode : Z;
  hd_warmboot_addr : Z;
  hd_hsm_state : Z;
  hd_suspend_type : Z;
  hd_saved_mie : Z;
  hd_saved_mip : Z;
  hd_ipi_type : Z;
  hd_tlb_sync : Z;
  hd_tlb_fifo : sbi_fifo sbi_tlb_info;
  hd_time_delta : Z;
  hd_init_count : Z;
  hd_features : hart_features;
  hd_csrs : csr_file;
}.

Definition hd_set_next (arg1 addr mode : Z) (h : hart_data) : hart_data :=
  HartData
    arg1 addr mode (hd_warmboot_addr h) (hd_hsm_state h) (hd_suspend_type h) (hd_saved_mie h)
    (hd_saved_mip h) (hd_ipi_type h) (hd_tlb_sync h) (hd_tlb_fifo h) (hd_time_delta h) (hd_init_count h)
    (hd_features h) (hd_csrs h).
Definition hd_set_hsm_state v (h : hart_data) : hart_data :=
  HartData
    (hd_next_arg1 h) (hd_next_addr h) (hd_next_mode h) (hd_warmboot_addr h) v (hd_suspend_type h)
    (hd_saved_mie h) (hd_saved_mip h) (hd_ipi_type h) (hd_tlb_sync h) (hd_tlb_fifo h) (hd_time_delta h)
    (hd_init_count h) (hd_features h) (hd_csrs h).
Definition hd_set_suspend_type v (h : hart_data) : hart_data :=
  HartData
    (hd_next_arg1 h) (hd_next_addr h) (hd_next_mode h) (hd_warmboot_addr h) (hd_hsm_state h) v
    (hd_saved_mie h) (hd_saved_mip h) (hd_ipi_type h) (hd_tlb_sync h) (hd_tlb_fifo h) (hd_time_delta h)
    (hd_init_count h) (hd_features h) (hd_csrs h).
Definition hd_set_ipi_type v (h : hart_data) : hart_data :=
  HartData
    (hd_next_arg1 h) (hd_next_addr h) (hd_next_mode h) (hd_warmboot_addr h) (hd_hsm_state h)
    (hd_suspend_type h) (hd_saved_mie h) (hd_saved_mip h) v (hd_tlb_sync h) (hd_tlb_fifo h)
    (hd_time_delta h) (hd_init_count h) (hd_features h) (hd_csrs h).
Definition hd_set_tlb_sync v (h : hart_data) : hart_data :=
  HartData
    (hd_next_arg1 h) (hd_next_addr h) (hd_next_mode h) (hd_warmboot_addr h) (hd_hsm_state h)
    (hd_suspend_type h) (hd_saved_mie h) (hd_saved_mip h) (hd_ipi_type h) v (hd_tlb_fifo h)
    (hd_time_delta h) (hd_init_count h) (hd_features h) (hd_csrs h).
Definition hd_set_tlb_fifo v (h : hart_data) : hart_data :=
  HartData
    (hd_next_arg1 h) (hd_next_addr h) (hd_next_mode h) (hd_warmboot_addr h) (hd_hsm_state h)
    (hd_suspend_type h) (hd_saved_mie h) (hd_saved_mip h) (hd_ipi_type h) (hd_tlb_sync h) v
    (hd_time_delta h) (hd_init_count h) (hd_features h) (hd_csrs h).
Definition hd_set_time_delta v (h : hart_data) : hart_data :=
  HartData
    (hd_next_arg1 h) (hd_next_addr h) (hd_next_mode h) (hd_warmboot_addr h) (hd_hsm_state h)
    (hd_suspend_type h) (hd_saved_mie h) (hd_saved_mip h) (hd_ipi_type h) (hd_tlb_sync h)
    (hd_tlb_fifo h) v (hd_init_count h) (hd_features h) (hd_csrs h).
Definition hd_set_init_count v (h : hart_data) : hart_data :=
  HartData
    (hd_next_arg1 h) (hd_next_addr h) (hd_next_mode h) (hd_warmboot_addr h) (hd_hsm_state h)
    (hd_suspend_type h) (hd_saved_mie h) (hd_saved_mip h) (hd_ipi_type h) (hd_tlb_sync h)
    (hd_tlb_fifo h) (hd_time_delta h) v (hd_features h) (hd_csrs h).
Definition hd_set_csrs v (h : hart_data) : hart_data :=
  HartData
    (hd_next_arg1 h) (hd_next_addr h) (hd_next_mode h) (hd_warmboot_addr h) (hd_hsm_state h)
    (hd_suspend_type h) (hd_saved_mie h) (hd_saved_mip h) (hd_ipi_type h) (hd_tlb_sync h)
    (hd_tlb_fifo h) (hd_time_delta h) (hd_init_count h) (hd_features h) v.
Definition hd_set_features v (h : hart_data) : hart_data :=
  HartData
    (hd_next_arg1 h) (hd_next_addr h) (hd_next_mode h) (hd_warmboot_addr h) (hd_hsm_state h)
    (hd_suspend_type h) (hd_saved_mie h) (hd_saved_mip h) (hd_ipi_type h) (hd_tlb_sync h)
    (hd_tlb_fifo h) (hd_time_delta h) (hd_init_count h) v (hd_csrs h).
Definition hd_set_saved (mie mip : Z) (h : hart_data) : hart_data :=
  HartData
    (hd_next_arg1 h) (hd_next_addr h) (hd_next_mode h) (hd_warmboot_addr h) (hd_hsm_state h)
    (hd_suspend_type h) mie mip (hd_ipi_type h) (hd_tlb_sync h) (hd_tlb_fifo h) (hd_time_delta h)
    (hd_init_count h) (hd_features h) (hd_csrs h).

(** struct sbi_hsm_device: what each callback does when it is there. *)
Record sbi_hsm_device : Type := HsmDevice {
  hart_start_cb : option (Z → Z → Z);
  hart_stop_cb : option (outcome Z);
  hart_suspend_cb : option (Z → Z → outcome Z);
}.

(** struct sbi_ipi_device: which callbacks are there. *)
Record sbi_ipi_device : Type := IpiDevice {
  has_ipi_send : bool;
  has_ipi_clear : bool;
}.

(** struct sbi_timer_device: its frequency and which callbacks are there. *)
Record sbi_timer_device : Type := TimerDevice {
  timer_freq : Z;
  has_timer_value : bool;
  has_timer_event_start : bool;
  has_timer_event_stop : bool;
}.

(** struct sbi_console_device: which callbacks are there. *)
Record sbi_console_device : Type := ConsoleDevice {
  has_putc : bool;
  has_getc : bool;
}.

(** struct sbi_system_reset_device: what the check answers, and whether the
    reset itself comes back. *)
Record sbi_system_reset_device : Type := ResetDevice {
  system_reset_check : option (Z → Z → Z);
  system_reset_works : bool;
}.

(** The functions [get_time_val] can designate. *)
Inductive time_source : Type :=
| get_ticks
| get_platform_ticks.

(** The static event operations that can be registered. *)
Inductive event_ops : Type :=
| IPI_SMODE
| IPI_HALT
| IPI_TLB.

#[export] Instance event_ops_eq_dec : EqDecision event_ops.
Proof. solve_decision. Defined.

Definition SBI_IPI_EVENT_MAX : Z := 64.

(** The handlers and probes an ecall extension can designate. *)
Inductive ecall_fn : Type :=
| ecall_time_fn | ecall_rfence_fn | ecall_ipi_fn | ecall_base_fn | ecall_hsm_fn
| ecall_srst_fn | ecall_pmu_fn | ecall_legacy_fn | ecall_vendor_fn.

(** struct sbi_ecall_extension; [ext_obj] is the identity of the object. *)
Record sbi_ecall_extension : Type := EcallExt {
  ext_obj : nat;
  extid_start : Z;
  extid_end : Z;
  ext_handle : option ecall_fn;
  ext_probe : option ecall_fn;
}.

(** The offsets the components allocate in the scratch space; 0 when not yet. *)
Record offsets : Type := Offsets {
  off_hsm : Z;
  off_ipi : Z;
  off_tlb_sync : Z;
  off_tlb_fifo : Z;
  off_tlb_mem : Z;
  off_time_delta : Z;
  off_init_count : Z;
}.

(** A fault of an unprivileged access. *)
Record access_fault : Type := Fault {
  f_cause : Z;
  f_tval : Z;
  f_tval2 : Z;
  f_tinst : Z;
}.

(** What the firmware reaches of the interrupted context of the hart it runs on:
    memory as that mode sees it (through MPRV), byte by byte, with the fault an
    access of some size at some address raises; the floating-point registers by
    hart and number.  The Boolean of [u_load_fault] is mstatus.MXR. *)
Record user_view : Type := UserView {
  u_bytes : gmap Z Z;   (* 0 where there is no entry *)
  u_load_fault : bool → Z → Z → option access_fault;
  u_store_fault : Z → Z → option access_fault;
  u_fregs : gmap (Z * Z) Z;
}.

(** The whole state. *)
Record machine : Type := Machine {
  m_harts : list (option hart_data);   (* by hart id; None: no scratch space *)
  m_scratch : scratch_state;
  m_offs : offsets;
  m_domains : domain_state;
  m_pmu : pmu_state;
  m_hsm_dev : option sbi_hsm_device;
  m_ipi_dev : option sbi_ipi_device;
  m_ipi_ops_array : list (option event_ops);
  m_ipi_smode_event : Z;
  m_ipi_halt_event : Z;
  m_tlb_event : Z;
  m_tlb_range_flush_limit : Z;
  m_timer_dev : option sbi_timer_device;
  m_get_time_val : option time_source;
  m_mtime : Z;   (* the platform timer *)
  m_reset_devs : list sbi_system_reset_device;   (* the list, from its head *)
  m_console_dev : option sbi_console_device;
  m_input : list Z;   (* characters the console will deliver *)
  m_exts : list sbi_ecall_extension;   (* the list, from its head *)
  m_impid : Z;
  m_umem : user_view;   (* the interrupted context *)
  m_trace : list event;
}.

Definition set_harts v (m : machine) : machine :=
  Machine
    v (m_scratch m) (m_offs m) (m_domains m) (m_pmu m) (m_hsm_dev m) (m_ipi_dev m) (m_ipi_ops_array m)
    (m_ipi_smode_event m) (m_ipi_halt_event m) (m_tlb_event m) (m_tlb_range_flush_limit m)
    (m_timer_dev m) (m_get_time_val m) (m_mtime m) (m_reset_devs m) (m_console_dev m) (m_input m)
    (m_exts m) (m_impid m) (m_umem m) (m_trace m).
Definition set_scratch v (m : machine) : machine :=
  Machine
    (m_harts m) v (m_offs m) (m_domains m) (m_pmu m) (m_hsm_dev m) (m_ipi_dev m) (m_ipi_ops_array m)
    (m_ipi_smode_event m) (m_ipi_halt_event m) (m_tlb_event m) (m_tlb_range_flush_limit m)
    (m_timer_dev m) (m_get_time_val m) (m_mtime m) (m_reset_devs m) (m_console_dev m) (m_input m)
    (m_exts m) (m_impid m) (m_umem m) (m_trace m).
Definition set_offs v (m : machine) : machine :=
  Machine
    (m_harts m) (m_scratch m) v (m_domains m) (m_pmu m) (m_hsm_dev m) (m_ipi_dev m) (m_ipi_ops_array m)
    (m_ipi_smode_event m) (m_ipi_halt_event m) (m_tlb_event m) (m_tlb_range_flush_limit m)
    (m_timer_dev m) (m_get_time_val m) (m_mtime m) (m_reset_devs m) (m_console_dev m) (m_input m)
    (m_exts m) (m_impid m) (m_umem m) (m_trace m).
Definition set_m_domains v (m : machine) : machine :=
  Machine
    (m_harts m) (m_scratch m) (m_offs m) v (m_pmu m) (m_hsm_dev m) (m_ipi_dev m) (m_ipi_ops_array m)
    (m_ipi_smode_event m) (m_ipi_halt_event m) (m_tlb_event m) (m_tlb_range_flush_limit m)
    (m_timer_dev m) (m_get_time_val m) (m_mtime m) (m_reset_devs m) (m_console_dev m) (m_input m)
    (m_exts m) (m_impid m) (m_umem m) (m_trace m).
Definition set_m_pmu v (m : machine) : machine :=
  Machine
    (m_harts m) (m_scratch m) (m_offs m) (m_domains m) v (m_hsm_dev m) (m_ipi_dev m) (m_ipi_ops_array m)
    (m_ipi_smode_event m) (m_ipi_halt_event m) (m_tlb_event m) (m_tlb_range_flush_limit m)
    (m_timer_dev m) (m_get_time_val m) (m_mtime m) (m_reset_devs m) (m_console_dev m) (m_input m)
    (m_exts m) (m_impid m) (m_umem m) (m_trace m).
Definition set_hsm_dev v (m : machine) : machine :=
  Machine
    (m_harts m) (m_scratch m) (m_offs m) (m_domains m) (m_pmu m) v (m_ipi_dev m) (m_ipi_ops_array m)
    (m_ipi_smode_event m) (m_ipi_halt_event m) (m_tlb_event m) (m_tlb_range_flush_limit m)
    (m_timer_dev m) (m_get_time_val m) (m_mtime m) (m_reset_devs m) (m_console_dev m) (m_input m)
    (m_exts m) (m_impid m) (m_umem m) (m_trace m).
Definition set_ipi_dev v (m : machine) : machine :=
  Machine
    (m_harts m) (m_scratch m) (m_offs m) (m_domains m) (m_pmu m) (m_hsm_dev m) v (m_ipi_ops_array m)
    (m_ipi_smode_event m) (m_ipi_halt_event m) (m_tlb_event m) (m_tlb_range_flush_limit m)
    (m_timer_dev m) (m_get_time_val m) (m_mtime m) (m_reset_devs m) (m_console_dev m) (m_input m)
    (m_exts m) (m_impid m) (m_umem m) (m_trace m).
Definition set_ipi_ops_array v (m : machine) : machine :=
  Machine
    (m_harts m) (m_scratch m) (m_offs m) (m_domains m) (m_pmu m) (m_hsm_dev m) (m_ipi_dev m) v
    (m_ipi_smode_event m) (m_ipi_halt_event m) (m_tlb_event m) (m_tlb_range_flush_limit m)
    (m_timer_dev m) (m_get_time_val m) (m_mtime m) (m_reset_devs m) (m_console_dev m) (m_input m)
    (m_exts m) (m_impid m) (m_umem m) (m_trace m).
Definition set_get_time_val v (m : machine) : machine :=
  Machine
    (m_harts m) (m_scratch m) (m_offs m) (m_domains m) (m_pmu m) (m_hsm_dev m) (m_ipi_dev m)
    (m_ipi_ops_array m) (m_ipi_smode_event m) (m_ipi_halt_event m) (m_tlb_event m)
    (m_tlb_range_flush_limit m) (m_timer_dev m) v (m_mtime m) (m_reset_devs m) (m_console_dev m)
    (m_input m) (m_exts m) (m_impid m) (m_umem m) (m_trace m).
Definition set_mtime v (m : machine) : machine :=
  Machine
    (m_harts m) (m_scratch m) (m_offs m) (m_domains m) (m_pmu m) (m_hsm_dev m) (m_ipi_dev m)
    (m_ipi_ops_array m) (m_ipi_smode_event m) (m_ipi_halt_event m) (m_tlb_event m)
    (m_tlb_range_flush_limit m) (m_timer_dev m) (m_get_time_val m) v (m_reset_devs m) (m_console_dev m)
    (m_input m) (m_exts m) (m_impid m) (m_umem m) (m_trace m).
Definition set_timer_dev v (m : machine) : machine :=
  Machine
    (m_harts m) (m_scratch m) (m_offs m) (m_domains m) (m_pmu m) (m_hsm_dev m) (m_ipi_dev m)
    (m_ipi_ops_array m) (m_ipi_smode_event m) (m_ipi_halt_event m) (m_tlb_event m)
    (m_tlb_range_flush_limit m) v (m_get_time_val m) (m_mtime m) (m_reset_devs m) (m_console_dev m)
    (m_input m) (m_exts m) (m_impid m) (m_umem m) (m_trace m).
Definition set_reset_devs v (m : machine) : machine :=
  Machine
    (m_harts m) (m_scratch m) (m_offs m) (m_domains m) (m_pmu m) (m_hsm_dev m) (m_ipi_dev m)
    (m_ipi_ops_array m) (m_ipi_smode_event m) (m_ipi_halt_event m) (m_tlb_event m)
    (m_tlb_range_flush_limit m) (m_timer_dev m) (m_get_time_val m) (m_mtime m) v (m_console_dev m)
    (m_input m) (m_exts m) (m_impid m) (m_umem m) (m_trace m).
Definition set_input v (m : machine) : machine :=
  Machine
    (m_harts m) (m_scratch m) (m_offs m) (m_domains m) (m_pmu m) (m_hsm_dev m) (m_ipi_dev m)
    (m_ipi_ops_array m) (m_ipi_smode_event m) (m_ipi_halt_event m) (m_tlb_event m)
    (m_tlb_range_flush_limit m) (m_timer_dev m) (m_get_time_val m) (m_mtime m) (m_reset_devs m)
    (m_console_dev m) v (m_exts m) (m_impid m) (m_umem m) (m_trace m).
Definition set_exts v (m : machine) : machine :=
  Machine
    (m_harts m) (m_scratch m) (m_offs m) (m_domains m) (m_pmu m) (m_hsm_dev m) (m_ipi_dev m)
    (m_ipi_ops_array m) (m_ipi_smode_event m) (m_ipi_halt_event m) (m_tlb_event m)
    (m_tlb_range_flush_limit m) (m_timer_dev m) (m_get_time_val m) (m_mtime m) (m_reset_devs m)
    (m_console_dev m) (m_input m) v (m_impid m) (m_umem m) (m_trace m).
Definition set_impid v (m : machine) : machine :=
  Machine
    (m_harts m) (m_scratch m) (m_offs m) (m_domains m) (m_pmu m) (m_hsm_dev m) (m_ipi_dev m)
    (m_ipi_ops_array m) (m_ipi_smode_event m) (m_ipi_halt_event m) (m_tlb_event m)
    (m_tlb_range_flush_limit m) (m_timer_dev m) (m_get_time_val m) (m_mtime m) (m_reset_devs m)
    (m_console_dev m) (m_input m) (m_exts m) v (m_umem m) (m_trace m).
Definition set_umem v (m : machine) : machine :=
  Machine
    (m_harts m) (m_scratch m) (m_offs m) (m_domains m) (m_pmu m) (m_hsm_dev m) (m_ipi_dev m)
    (m_ipi_ops_array m) (m_ipi_smode_event m) (m_ipi_halt_event m) (m_tlb_event m)
    (m_tlb_range_flush_limit m) (m_timer_dev m) (m_get_time_val m) (m_mtime m) (m_reset_devs m)
    (m_console_dev m) (m_input m) (m_exts m) (m_impid m) v (m_trace m).
Definition set_console_dev v (m : machine) : machine :=
  Machine
    (m_harts m) (m_scratch m) (m_offs m) (m_domains m) (m_pmu m) (m_hsm_dev m) (m_ipi_dev m)
    (m_ipi_ops_array m) (m_ipi_smode_event m) (m_ipi_halt_event m) (m_tlb_event m)
    (m_tlb_range_flush_limit m) (m_timer_dev m) (m_get_time_val m) (m_mtime m) (m_reset_devs m) v
    (m_input m) (m_exts m) (m_impid m) (m_umem m) (m_trace m).
Definition set_smode_event v (m : machine) : machine :=
  Machine
    (m_harts m) (m_scratch m) (m_offs m) (m_domains m) (m_pmu m) (m_hsm_dev m) (m_ipi_dev m)
    (m_ipi_ops_array m) v (m_ipi_halt_event m) (m_tlb_event m) (m_tlb_range_flush_limit m)
    (m_timer_dev m) (m_get_time_val m) (m_mtime m) (m_reset_devs m) (m_console_dev m) (m_input m)
    (m_exts m) (m_impid m) (m_umem m) (m_trace m).
Definition set_halt_event v (m : machine) : machine :=
  Machine
    (m_harts m) (m_scratch m) (m_offs m) (m_domains m) (m_pmu m) (m_hsm_dev m) (m_ipi_dev m)
    (m_ipi_ops_array m) (m_ipi_smode_event m) v (m_tlb_event m) (m_tlb_range_flush_limit m)
    (m_timer_dev m) (m_get_time_val m) (m_mtime m) (m_reset_devs m) (m_console_dev m) (m_input m)
    (m_exts m) (m_impid m) (m_umem m) (m_trace m).
Definition set_tlb_globals ev limit (m : machine) : machine :=
  Machine
    (m_harts m) (m_scratch m) (m_offs m) (m_domains m) (m_pmu m) (m_hsm_dev m) (m_ipi_dev m)
    (m_ipi_ops_array m) (m_ipi_smode_event m) (m_ipi_halt_event m) ev limit (m_timer_dev m)
    (m_get_time_val m) (m_mtime m) (m_reset_devs m) (m_console_dev m) (m_input m) (m_exts m) (m_impid m)
    (m_umem m) (m_trace m).
Definition add_event e (m : machine) : machine :=
  Machine
    (m_harts m) (m_scratch m) (m_offs m) (m_domains m) (m_pmu m) (m_hsm_dev m) (m_ipi_dev m)
    (m_ipi_ops_array m) (m_ipi_smode_event m) (m_ipi_halt_event m) (m_tlb_event m)
    (m_tlb_range_flush_limit m) (m_timer_dev m) (m_get_time_val m) (m_mtime m) (m_reset_devs m)
    (m_console_dev m) (m_input m) (m_exts m) (m_impid m) (m_umem m) (m_trace m ++ [e]).

Definition emit (e : event) : M machine unit := modify (add_event e).

(** The hart with id [h], when it has a scratch space. *)
Definition hart (m : machine) (h : Z) : option hart_data :=
  if h <? 0 then None else mjoin (m_harts m !! Z.to_nat h).

Definition put_hart (h : Z) (d : hart_data) (m : machine) : machine :=
  set_harts (<[Z.to_nat h := Some d]> (m_harts m)) m.

(** [sbi_hartid_to_scratch(h)], a read of the table of 128 pointers. *)
Definition scratch_ptr (h : Z) : M machine (option hart_data) :=
  λ m, if (0 <=? h) && (h <? SBI_HARTMASK_MAX_BITS) then (Ret (hart m h), m) else (Stop wild_access, m).

(** Run a computation on the data of hart [h]. *)
Definition on_hart {A} (h : Z) (c : M hart_data A) : M machine A :=
  λ m, match hart m h with
       | None => (Stop wild_access, m)
       | Some d => let '(o, d') := c d in (o, put_hart h d' m)
       end.

(** Atomic operations and CSR accesses of a hart. *)
Definition hsm_cell {A} : M Z A → M hart_data A := zoom hd_hsm_state hd_set_hsm_state.
Definition ipi_cell {A} : M Z A → M hart_data A := zoom hd_ipi_type hd_set_ipi_type.
Definition sync_cell {A} : M Z A → M hart_data A := zoom hd_tlb_sync hd_set_tlb_sync.
Definition hart_csr {A} : M csr_file A → M hart_data A := zoom hd_csrs hd_set_csrs.

Definition csr_set (c mask : Z) : M csr_file unit :=
  (v <- csr_read c ;; csr_write c (Z.lor v mask))%sbi.
Definition csr_clear (c mask : Z) : M csr_file unit :=
  (v <- csr_read c ;; csr_write c (Z.land v (not64 mask)))%sbi.

(** [csr_swap]: write, and return the old value. *)
Definition csr_exchange (c v : Z) : M csr_file Z :=
  (old <- csr_read c ;; csr_write c v ;;; ret old)%sbi.

Definition CSR_MIE_ : Z := 0x304.
Definition CSR_MIP : Z := 0x344.
Definition MIP_SSIP : Z := 2.
Definition MIP_MSIP : Z := 8.
Definition MIP_STIP : Z := 32.
Definition MIP_MTIP : Z := 128.

Definition on_domains {A} : M domain_state A → M machine A := zoom m_domains set_m_domains.

(** On the state of the PMU alone, for what accesses no CSR. *)
Definition on_pmu {A} : M pmu_state A → M machine A := zoom m_pmu set_m_pmu.

(** On the state of the PMU and the CSRs of the hart it runs on. *)
Definition on_hart_pmu {A} (cur : Z) (c : M pmu_state A) : M machine A :=
  (csrs <- on_hart cur (gets hd_csrs) ;;
   modify (λ m, set_m_pmu (set_pmu_csrs csrs (m_pmu m)) m) ;;;
   r <- on_pmu c ;;
   csrs' <- gets (λ m, pmu_csrs (m_pmu m)) ;;
   on_hart cur (modify (hd_set_csrs csrs')) ;;;
   ret r)%sbi.

Definition on_scratch {A} : M scratch_state A → M machine A := zoom m_scratch set_scratch.

(** Allocate [size] bytes of every scratch space; the fields there become zero. *)
Definition alloc_field (size : Z) (clear : hart_data → hart_data) : M machine Z :=
  (off <- on_scratch (sbi_scratch_alloc_offset size) ;;
   (if truthy off
    then modify (λ m, set_harts (map (fmap clear) (m_harts m)) m)
    else ret tt) ;;;
   ret off)%sbi.

(** The domain of hart [h] (sbi_domain_thishart_ptr for the current one). *)
Definition domain_ptr (h : Z) : M machine (option nat) :=
  gets (λ m, mjoin (hartid_to_domain_table (m_domains m) !! Z.to_nat h)).

Definition count_fw (cur id : Z) : M machine unit :=
  (on_pmu (sbi_pmu_ctr_incr_fw cur id) ;;; ret tt)%sbi.

(** ** The platform

    struct sbi_platform_operations: the hooks of the platform, each on the hart
    it is called on; [plat] is the static part of the platform. *)
Record sbi_platform_operations : Type := PlatformOps {
  plat : option sbi_platform;
  early_init : option (Z → bool → M machine Z);
  final_init : option (Z → bool → M machine Z);
  early_exit : option (Z → M machine unit);
  final_exit : option (Z → M machine unit);
  irqchip_init : option (Z → bool → M machine Z);
  irqchip_exit : option (Z → M machine unit);
  ipi_init : option (Z → bool → M machine Z);
  ipi_exit : option (Z → M machine unit);
  get_tlbr_flush_limit : option Z;
  timer_init : option (Z → bool → M machine Z);
  timer_exit : option (Z → M machine unit);
  vendor_ext_check : option (Z → Z);
  vendor_ext_provider : option (Z → Z → list Z → Z * option Z * option access_fault);
  misa_check_extension : option (Z → Z);
  pmu_xlate_to_mhpmevent : option (Z → Z → Z);
  console_init : option (M machine Z);
  domains_init : option (M machine Z);
  pmu_init : option (M pmu_state Z);
  mfaults_delegation : bool;     (* the one feature flag *)
}.

Definition platform_call (p : option sbi_platform) (o : option (Z → bool → M machine Z))
    (cur : Z) (cold : bool) : M machine Z :=
  match p, o with Some _, Some f => f cur cold | _, _ => ret 0 end.
Definition platform_exit (p : option sbi_platform) (o : option (Z → M machine unit))
    (cur : Z) : M machine unit :=
  match p, o with Some _, Some f => f cur | _, _ => ret tt end.

Definition sbi_platform_early_init (p : sbi_platform_operations) := platform_call (plat p) (early_init p).
Definition sbi_platform_final_init (p : sbi_platform_operations) := platform_call (plat p) (final_init p).
Definition sbi_platform_early_exit (p : sbi_platform_operations) := platform_exit (plat p) (early_exit p).
Definition sbi_platform_final_exit (p : sbi_platform_operations) := platform_exit (plat p) (final_exit p).
Definition sbi_platform_irqchip_init (p : sbi_platform_operations) := platform_call (plat p) (irqchip_init p).
Definition sbi_platform_irqchip_exit (p : sbi_platform_operations) := platform_exit (plat p) (irqchip_exit p).
Definition sbi_platform_ipi_init (p : sbi_platform_operations) := platform_call (plat p) (ipi_init p).
Definition sbi_platform_ipi_exit (p : sbi_platform_operations) := platform_exit (plat p) (ipi_exit p).
Definition sbi_platform_timer_init (p : sbi_platform_operations) := platform_call (plat p) (timer_init p).
Definition sbi_platform_timer_exit (p : sbi_platform_operations) := platform_exit (plat p) (timer_exit p).

Definition sbi_platform_console_init (p : sbi_platform_operations) : M machine Z :=
  match plat p, console_init p with Some _, Some f => f | _, _ => ret 0 end.
Definition sbi_platform_domains_init (p : sbi_platform_operations) : M machine Z :=
  match plat p, domains_init p with Some _, Some f => f | _, _ => ret 0 end.
Definition sbi_platform_pmu_init (p : sbi_platform_operations) : M pmu_state Z :=
  match plat p, pmu_init p with Some _, Some f => f | _, _ => ret 0 end.

Definition PAGE_SIZE : Z := 4096.
Definition SBI_PLATFORM_TLB_RANGE_FLUSH_LIMIT_DEFAULT : Z := PAGE_SIZE.

Definition sbi_platform_tlbr_flush_limit (p : sbi_platform_operations) : Z :=
  match plat p, get_tlbr_flush_limit p with
  | Some _, Some l => l
  | _, _ => SBI_PLATFORM_TLB_RANGE_FLUSH_LIMIT_DEFAULT
  end.

Definition sbi_platform_vendor_ext_check (p : sbi_platform_operations) (extid : Z) : Z :=
  match plat p, vendor_ext_check p with Some _, Some f => f extid | _, _ => 0 end.

Definition sbi_platform_misa_extension (p : sbi_platform_operations) (ext : Z) : Z :=
  match plat p, misa_check_extension p with Some _, Some f => f ext | _, _ => 0 end.

Definition sbi_platform_pmu_xlate_to_mhpmevent (p : sbi_platform_operations) (event_idx data : Z) : Z :=
  match plat p, pmu_xlate_to_mhpmevent p with Some _, Some f => f event_idx data | _, _ => 0 end.

(** ** Lemmas *)

Lemma hart_put_eq h d d' m : hart m h = Some d -> hart (put_hart h d' m) h = Some d'.
Proof.
  unfold hart. destruct (h <? 0); [discriminate|]. cbn. intros H.
  rewrite list_lookup_insert_eq; [done|]. apply lookup_lt_is_Some_1.
  destruct (m_harts m !! Z.to_nat h); [by eexists|discriminate].
Qed.

Lemma hart_put_ne h h' d m : 0 <= h -> h' <> h -> hart (put_hart h d m) h' = hart m h'.
Proof.
  intros Hh Hne. unfold hart. destruct (Z.ltb_spec h' 0); [done|]. cbn.
  rewrite list_lookup_insert_ne by lia. done.
Qed.

Lemma hart_nonneg m h d : hart m h = Some d -> 0 <= h.
Proof. unfold hart. destruct (Z.ltb_spec h 0); [discriminate|done]. Qed.

Lemma on_hart_run {A} h (c : M hart_data A) m d :
  hart m h = Some d -> on_hart h c m = (fst (c d), put_hart h (snd (c d)) m).
Proof. intros H. unfold on_hart. rewrite H. by destruct (c d). Qed.

(** Step over an access to the data of hart [h] that returns. *)
Lemma bind_on_hart {A B} h (c : M hart_data A) (k : A → M machine B) m d a d' :
  hart m h = Some d -> c d = (Ret a, d') -> bind (on_hart h c) k m = k a (put_hart h d' m).
Proof. intros H E. apply bind_Ret. rewrite (on_hart_run _ _ _ _ H). by rewrite E. Qed.

Lemma put_put_hart h d d' m : put_hart h d' (put_hart h d m) = put_hart h d' m.
Proof. unfold put_hart. cbn. by rewrite list_insert_insert_eq. Qed.

(** Run the straight-line accesses to the data of one hart. *)
Ltac hart_steps :=
  repeat (rewrite bind_assoc || rewrite put_put_hart ||
          (erewrite bind_on_hart;
             [|first [eassumption|eapply hart_put_eq; eassumption]|reflexivity])).

Lemma put_hart_same h d m : hart m h = Some d -> put_hart h d m = m.
Proof.
  unfold hart, put_hart. destruct (h <? 0); [discriminate|]. intros H.
  rewrite list_insert_id; [by destruct m|].
  destruct (m_harts m !! Z.to_nat h) as [o|]; cbn in H; [by subst|discriminate].
Qed.

Lemma on_hart_read {A} h (c : M hart_data A) m d a :
  hart m h = Some d -> c d = (Ret a, d) -> on_hart h c m = (Ret a, m).
Proof. intros H E. rewrite (on_hart_run _ _ _ _ H), E. cbn. by rewrite put_hart_same. Qed.

Lemma bind_gets {S A B} (f : S → A) (k : A → M S B) s : bind (gets f) k s = k (f s) s.
Proof. reflexivity. Qed.

(** ** A machine of three harts

    Hart 0 runs, hart 1 is stopped, hart 2 is suspended; the root domain owns
    the three and may access all memory.  Used to evaluate the operations. *)

Definition SBI_TLB_INFO_SIZE : Z := 56.
Definition SBI_TLB_FIFO_NUM_ENTRIES : Z := 8.

Definition demo_hart (state : Z) : hart_data :=
  HartData 0 0x80200000 PRV_S 0x80000000 state 0 0 0 0 0
    (sbi_fifo_init tlb_info_zero (replicate 8 tlb_info_zero) SBI_TLB_FIFO_NUM_ENTRIES SBI_TLB_INFO_SIZE)
    0 1 (HartFeatures 0 16 54 2 29 64) ∅.

Definition demo_domains : domain_state :=
  DomainState (replicate 3 (Some root) ++ replicate 125 None) (Some root :: replicate 31 None) 1 true
    (Hartmask [7; 0]) 1 (MemRegion 17 0x80000000 0)
    (MemRegion 64 0 7 :: replicate 16 (MemRegion 0 0 0))
    [Domain 0 (Hartmask [7; 0]) (Some RootHmask) (Some RootMemregs) 0 0 0x80200000 PRV_S true].

Definition demo_machine : machine :=
  Machine [Some (demo_hart SBI_HSM_STATE_STARTED); Some (demo_hart SBI_HSM_STATE_STOPPED);
           Some (demo_hart SBI_HSM_STATE_SUSPENDED)]
    (ScratchState 2 (replicate 3 (Some (replicate 4096 0)) ++ replicate 125 None) SPIN_LOCK_INIT 1024)
    (Offsets 88 120 128 136 168 616 624) demo_domains pmu_booted
    None (Some (IpiDevice true true)) (Some IPI_SMODE :: Some IPI_HALT :: Some IPI_TLB :: replicate 61 None)
    0 1 2 4096 (Some (TimerDevice 10000000 true true true)) (Some get_platform_ticks) 0
    [] (Some (ConsoleDevice true true)) [] [] 1 (UserView ∅ (λ _ _ _, None) (λ _ _, None) ∅) [].
