(* ===== verification/Hsm.v ===== *)
(** * Hart state management (lib/sbi/sbi_hsm.c)

    The state machine of each hart: STOPPED, START_PENDING, STARTED,
    STOP_PENDING, SUSPENDED, RESUME_PENDING, moved by compare-and-exchange on
    the state word in the hart's scratch space.  Every operation runs on a hart
    [cur]; [sbi_exit], which sbi_hsm_hart_stop calls and which itself can come
    back to it through a pending IPI, is an argument.

    The theorems: each operation, from any machine, moves the state word of one
    hart along an edge of the state machine, in every interleaving of the atomic
    steps of all harts; a start request that is accepted leads to exactly one
    boot; the result of every branch of the start request; the suspend and
    resume round trip; and the mask of harts that can be interrupted. *)

From Stdlib Require Import ZArith Lia.
From stdpp Require Import base tactics list gmap numbers.
From S2P Require Import Prelude SbiDefs Bitops Scratch Domain Csr Hart Pmu Machine.

(** ** Operations *)

(** [__sbi_hsm_hart_get_state] *)
Definition hsm_hart_get_state (hartid : Z) : M machine Z :=
  (r <- scratch_ptr hartid ;;
   match r with
   | None => ret SBI_EINVAL
   | Some _ => on_hart hartid (hsm_cell atomic_read)
   end)%sbi.

Definition sbi_hsm_hart_get_state (dom : option nat) (hartid : Z) : M machine Z :=
  (assigned <- gets (λ m, sbi_domain_is_assigned_hart (m_domains m) dom hartid) ;;
   if (assigned : bool) then hsm_hart_get_state hartid else ret SBI_EINVAL)%sbi.

Definition interruptible (hstate : Z) : bool :=
  (hstate =? SBI_HSM_STATE_STARTED) || (hstate =? SBI_HSM_STATE_SUSPENDED).

(** The loop of sbi_hsm_hart_interruptible_mask, over the indices [l]. *)
Fixpoint interruptible_loop (hbase dmask : Z) (l : list Z) (out : Z) : M machine Z :=
  match l with
  | [] => ret out
  | i :: l' =>
      (let hmask := shl64 1 (i - hbase) in
       if truthy (Z.land dmask hmask) then
         hstate <- hsm_hart_get_state (u32 i) ;;
         interruptible_loop hbase dmask l' (if interruptible hstate then Z.lor out hmask else out)
       else interruptible_loop hbase dmask l' out)%sbi
  end.

(** The return code and [*out_hmask]. *)
Definition sbi_hsm_hart_interruptible_mask (dom : option nat) (hbase : Z) : M machine (Z * Z) :=
  (last <- gets (λ m, last_hartid_having_scratch (m_scratch m)) ;;
   let hend := u32 (last + 1) in
   if hend <=? hbase then ret (SBI_EINVAL, 0)
   else
     let hend := if 64 <? hend - hbase then hbase + 64 else hend in
     dmask <- on_domains (sbi_domain_get_assigned_hartmask dom hbase) ;;
     out <- interruptible_loop hbase dmask (seqZ hbase (hend - hbase)) 0 ;;
     ret (0, out))%sbi.

Definition sbi_hsm_prepare_next_jump (cur : Z) : M machine unit :=
  (oldstate <- on_hart cur
     (hsm_cell (atomic_cmpxchg SBI_HSM_STATE_START_PENDING SBI_HSM_STATE_STARTED)) ;;
   if negb (oldstate =? SBI_HSM_STATE_START_PENDING) then stop hart_hang else ret tt)%sbi.

(** The wait loop polls the state; [spinning] when this hart alone cannot end it. *)
Definition sbi_hsm_hart_wait (cur : Z) : M machine unit :=
  (saved_mie <- on_hart cur (hart_csr (csr_read CSR_MIE_)) ;;
   on_hart cur (hart_csr (csr_set CSR_MIE_ MIP_MSIP)) ;;;
   state <- on_hart cur (hsm_cell atomic_read) ;;
   (if negb (state =? SBI_HSM_STATE_START_PENDING) then stop spinning else ret tt) ;;;
   on_hart cur (hart_csr (csr_write CSR_MIE_ saved_mie)))%sbi.

Definition sbi_hsm_get_device : M machine (option sbi_hsm_device) := gets m_hsm_dev.

Definition sbi_hsm_set_device (dev : option sbi_hsm_device) : M machine unit :=
  modify (λ m, match dev, m_hsm_dev m with
               | Some _, None => set_hsm_dev dev m
               | _, _ => m
               end).

Definition hsm_device_has_hart_hotplug (m : machine) : bool :=
  match m_hsm_dev m with
  | Some d => match hart_start_cb d, hart_stop_cb d with Some _, Some _ => true | _, _ => false end
  | None => false
  end.

Definition hsm_device_has_hart_secondary_boot (m : machine) : bool :=
  match m_hsm_dev m with
  | Some d => match hart_start_cb d, hart_stop_cb d with Some _, None => true | _, _ => false end
  | None => false
  end.

Definition hsm_device_hart_start (hartid saddr : Z) : M machine Z :=
  λ m, match m_hsm_dev m with
       | Some d => match hart_start_cb d with
                   | Some f => (Ret (f hartid saddr), add_event (EvHartStart hartid saddr) m)
                   | None => (Ret SBI_ENOTSUPP, m)
                   end
       | None => (Ret SBI_ENOTSUPP, m)
       end.

Definition hsm_device_hart_stop : M machine Z :=
  λ m, match m_hsm_dev m with
       | Some d => (default (Ret SBI_ENOTSUPP) (hart_stop_cb d), m)
       | None => (Ret SBI_ENOTSUPP, m)
       end.

Definition hsm_device_hart_suspend (suspend_type raddr : Z) : M machine Z :=
  λ m, match m_hsm_dev m with
       | Some d => match hart_suspend_cb d with
                   | Some f => (f suspend_type raddr, m)
                   | None => (Ret SBI_ENOTSUPP, m)
                   end
       | None => (Ret SBI_ENOTSUPP, m)
       end.

Definition SIZEOF_HSM_DATA : Z := 32.

Definition clear_hsm_data (h : hart_data) : hart_data :=
  hd_set_saved 0 0 (hd_set_suspend_type 0 (hd_set_hsm_state 0 h)).

Definition set_off_hsm (o : Z) (m : machine) : machine :=
  let f := m_offs m in
  set_offs (Offsets o (off_ipi f) (off_tlb_sync f) (off_tlb_fifo f) (off_tlb_mem f)
              (off_time_delta f) (off_init_count f)) m.

(** One iteration of the cold-boot loop. *)
Definition hsm_init_body (hartid i : Z) : M machine unit :=
  (r <- scratch_ptr i ;;
   match r with
   | None => ret tt
   | Some _ =>
       on_hart i (hsm_cell (atomic_write (if i =? hartid then SBI_HSM_STATE_START_PENDING
                                          else SBI_HSM_STATE_STOPPED)))
   end)%sbi.

Definition sbi_hsm_init (cur : Z) (cold_boot : bool) : M machine Z :=
  (if cold_boot then
     off <- alloc_field SIZEOF_HSM_DATA clear_hsm_data ;;
     modify (set_off_hsm off) ;;;
     if negb (truthy off) then ret SBI_ENOMEM
     else
       last <- gets (λ m, last_hartid_having_scratch (m_scratch m)) ;;
       mfor (seqZ 0 (last + 1)) (hsm_init_body cur) ;;;
       ret 0
   else sbi_hsm_hart_wait cur ;;; ret 0)%sbi.

Definition sbi_hsm_exit (cur : Z) : M machine unit :=
  (hstate <- on_hart cur
     (hsm_cell (atomic_cmpxchg SBI_HSM_STATE_STOP_PENDING SBI_HSM_STATE_STOPPED)) ;;
   if negb (hstate =? SBI_HSM_STATE_STOP_PENDING) then stop hart_hang
   else
     hotplug <- gets hsm_device_has_hart_hotplug ;;
     if (hotplug : bool) then hsm_device_hart_stop ;;; stop hart_hang
     else stop jump_warmboot)%sbi.

(** sbi_ipi_raw_send and sbi_init_count, which the start request calls. *)
Definition sbi_ipi_raw_send (target : Z) : M machine unit :=
  λ m, match m_ipi_dev m with
       | Some d => if has_ipi_send d then emit (EvIpiSend target) m else ret tt m
       | None => ret tt m
       end.

Definition sbi_init_count (hartid : Z) : M machine Z :=
  (off <- gets (λ m, off_init_count (m_offs m)) ;;
   if negb (truthy off) then ret 0
   else
     r <- scratch_ptr hartid ;;
     match r with
     | None => ret 0
     | Some d => ret (hd_init_count d)
     end)%sbi.

Definition sbi_hsm_hart_start (cur : Z) (dom : option nat) (hartid saddr smode priv : Z) : M machine Z :=
  (if negb (smode =? PRV_S) && negb (smode =? PRV_U) then ret SBI_EINVAL
   else
     ds <- gets m_domains ;;
     if (match dom with Some _ => negb (sbi_domain_is_assigned_hart ds dom hartid) | None => false end)
     then ret SBI_EINVAL
     else if (match dom with
              | Some _ => negb (sbi_domain_check_addr ds dom saddr smode SBI_DOMAIN_EXECUTE)
              | None => false
              end)
     then ret SBI_EINVALID_ADDR
     else
       rscratch <- scratch_ptr hartid ;;
       match rscratch with
       | None => ret SBI_EINVAL
       | Some _ =>
           hstate <- on_hart hartid
             (hsm_cell (atomic_cmpxchg SBI_HSM_STATE_STOPPED SBI_HSM_STATE_START_PENDING)) ;;
           if hstate =? SBI_HSM_STATE_STARTED then ret SBI_EALREADY
           else if negb (hstate =? SBI_HSM_STATE_STOPPED) then ret SBI_EINVAL
           else
             init_count <- sbi_init_count hartid ;;
             on_hart hartid (modify (hd_set_next priv saddr smode)) ;;;
             hotplug <- gets hsm_device_has_hart_hotplug ;;
             secondary <- gets hsm_device_has_hart_secondary_boot ;;
             if hotplug || (secondary && negb (truthy init_count)) then
               warmboot_addr <- on_hart cur (gets hd_warmboot_addr) ;;
               hsm_device_hart_start hartid warmboot_addr
             else
               sbi_ipi_raw_send hartid ;;;
               ret 0
       end)%sbi.

(** [exit] is sbi_exit on this hart. *)
Definition sbi_hsm_hart_stop (exit : M machine unit) (cur : Z) (exitnow : bool) : M machine Z :=
  (dom <- domain_ptr cur ;;
   match dom with
   | None => ret SBI_EFAIL
   | Some _ =>
       oldstate <- on_hart cur
         (hsm_cell (atomic_cmpxchg SBI_HSM_STATE_STARTED SBI_HSM_STATE_STOP_PENDING)) ;;
       if negb (oldstate =? SBI_HSM_STATE_STARTED) then ret SBI_EFAIL
       else
         (if exitnow then exit else ret tt) ;;;
         ret 0
   end)%sbi.

(** wfi may return at once. *)
Definition hsm_suspend_ret_default : M machine Z := ret 0.

Definition hsm_suspend_non_ret_save (cur : Z) : M machine unit :=
  (mie <- on_hart cur (hart_csr (csr_read CSR_MIE_)) ;;
   mip <- on_hart cur (hart_csr (csr_read CSR_MIP)) ;;
   on_hart cur (modify (hd_set_saved mie (Z.land mip (Z.lor MIP_SSIP MIP_STIP)))))%sbi.

Definition hsm_suspend_non_ret_restore (cur : Z) : M machine unit :=
  (mie <- on_hart cur (gets hd_saved_mie) ;;
   on_hart cur (hart_csr (csr_write CSR_MIE_ mie)) ;;;
   mip <- on_hart cur (gets hd_saved_mip) ;;
   on_hart cur (hart_csr (csr_write CSR_MIP (Z.land mip (Z.lor MIP_SSIP MIP_STIP)))))%sbi.

Definition hsm_suspend_non_ret_default : M machine Z := stop jump_warmboot.

Definition sbi_hsm_hart_resume_start (cur : Z) : M machine unit :=
  (oldstate <- on_hart cur
     (hsm_cell (atomic_cmpxchg SBI_HSM_STATE_SUSPENDED SBI_HSM_STATE_RESUME_PENDING)) ;;
   if negb (oldstate =? SBI_HSM_STATE_SUSPENDED) then stop hart_hang else ret tt)%sbi.

Definition sbi_hsm_hart_resume_finish (cur : Z) : M machine unit :=
  (oldstate <- on_hart cur
     (hsm_cell (atomic_cmpxchg SBI_HSM_STATE_RESUME_PENDING SBI_HSM_STATE_STARTED)) ;;
   if negb (oldstate =? SBI_HSM_STATE_RESUME_PENDING) then stop hart_hang
   else hsm_suspend_non_ret_restore cur)%sbi.

(** The checks that return before anything is written; [inl ret] leaves. *)
Definition suspend_guards (ds : domain_state) (dom : option nat) (suspend_type raddr rmode : Z) : Z + unit :=
  match dom with
  | None => inl SBI_EINVAL
  | Some _ =>
      if (SBI_HSM_SUSPEND_RET_DEFAULT <? suspend_type) && (suspend_type <? SBI_HSM_SUSPEND_RET_PLATFORM)
      then inl SBI_EINVAL
      else if (SBI_HSM_SUSPEND_NON_RET_DEFAULT <? suspend_type)
              && (suspend_type <? SBI_HSM_SUSPEND_NON_RET_PLATFORM)
      then inl SBI_EINVAL
      else if truthy (Z.land suspend_type SBI_HSM_SUSP_NON_RET_BIT) then
        if negb (rmode =? PRV_S) && negb (rmode =? PRV_U) then inl SBI_EINVAL
        else if negb (sbi_domain_check_addr ds dom raddr rmode SBI_DOMAIN_EXECUTE)
        then inl SBI_EINVALID_ADDR
        else inr tt
      else inr tt
  end.

(** From the save of the resume address to the entry into the SUSPENDED state:
    the old state. *)
Definition suspend_enter (cur raddr rmode priv : Z) : M machine Z :=
  (on_hart cur (modify (hd_set_next priv raddr rmode)) ;;;
   on_hart cur (hsm_cell (atomic_cmpxchg SBI_HSM_STATE_STARTED SBI_HSM_STATE_SUSPENDED)))%sbi.

(** The suspend proper. *)
Definition suspend_body (cur suspend_type : Z) : M machine Z :=
  (on_hart cur (modify (hd_set_suspend_type suspend_type)) ;;;
   (if truthy (Z.land suspend_type SBI_HSM_SUSP_NON_RET_BIT)
    then hsm_suspend_non_ret_save cur else ret tt) ;;;
   warmboot_addr <- on_hart cur (gets hd_warmboot_addr) ;;
   r <- hsm_device_hart_suspend suspend_type warmboot_addr ;;
   if r =? SBI_ENOTSUPP then
     if suspend_type =? SBI_HSM_SUSPEND_RET_DEFAULT then hsm_suspend_ret_default
     else if suspend_type =? SBI_HSM_SUSPEND_NON_RET_DEFAULT then hsm_suspend_non_ret_default
     else ret r
   else ret r)%sbi.

(** The part after the label [fail_restore_state]. *)
Definition suspend_restore_state (cur r : Z) : M machine Z :=
  (oldstate <- on_hart cur
     (hsm_cell (atomic_cmpxchg SBI_HSM_STATE_SUSPENDED SBI_HSM_STATE_STARTED)) ;;
   if negb (oldstate =? SBI_HSM_STATE_SUSPENDED) then stop hart_hang else ret r)%sbi.

Definition sbi_hsm_hart_suspend (cur suspend_type raddr rmode priv : Z) : M machine Z :=
  (dom <- domain_ptr cur ;;
   ds <- gets m_domains ;;
   match suspend_guards ds dom suspend_type raddr rmode with
   | inl e => ret e
   | inr _ =>
       oldstate <- suspend_enter cur raddr rmode priv ;;
       r <- (if negb (oldstate =? SBI_HSM_STATE_STARTED) then ret SBI_EDENIED
             else suspend_body cur suspend_type) ;;
       suspend_restore_state cur r
   end)%sbi.

(** ** Reasoning *)

(** The state word of hart [h]. *)
Definition hsm_state (m : machine) (h : Z) : option Z := hd_hsm_state <$> hart m h.

(** A run that leaves every state word and the registered device alone. *)
Definition keeps (m m' : machine) : Prop :=
  (forall h, hsm_state m' h = hsm_state m h) /\ m_hsm_dev m' = m_hsm_dev m.

Definition neutral {A} (c : M machine A) : Prop := forall m, keeps m (snd (c m)).

#[export] Instance keeps_preorder : PreOrder keeps.
Proof.
  split.
  - intros m. done.
  - intros m1 m2 m3 [H1 D1] [H2 D2]. split; [|congruence]. intros h. by rewrite H2.
Qed.

Lemma neutral_ret {A} (a : A) : neutral (ret a).
Proof. intros m. done. Qed.

Lemma neutral_stop {A} w : neutral (@stop machine A w).
Proof. intros m. done. Qed.

Lemma neutral_gets {A} (f : machine → A) : neutral (gets f).
Proof. intros m. done. Qed.

Lemma neutral_bind {A B} (c : M machine A) (k : A → M machine B) :
  neutral c -> (forall a, neutral (k a)) -> neutral (bind c k).
Proof.
  intros Hc Hk m. unfold bind. pose proof (Hc m) as H. destruct (c m) as [[a|w] m']; [|done].
  etrans; [exact H|apply Hk].
Qed.

Lemma hsm_state_put m h d' h' :
  is_Some (hart m h) -> hsm_state (put_hart h d' m) h' =
    if h' =? h then Some (hd_hsm_state d') else hsm_state m h'.
Proof.
  intros [d Hd]. unfold hsm_state. pose proof (hart_nonneg _ _ _ Hd).
  destruct (Z.eqb_spec h' h) as [->|Hne].
  - by erewrite hart_put_eq.
  - by rewrite hart_put_ne.
Qed.

Lemma neutral_on_hart {A} h (c : M hart_data A) :
  (forall d, hd_hsm_state (snd (c d)) = hd_hsm_state d) -> neutral (on_hart h c).
Proof.
  intros Hc m. unfold on_hart. destruct (hart m h) as [d|] eqn:Hd; [|done].
  specialize (Hc d). destruct (c d) as [o d']. split; [|done]. intros h'. cbn in *.
  rewrite hsm_state_put by (by eexists). destruct (Z.eqb_spec h' h) as [->|]; [|done].
  unfold hsm_state. rewrite Hd. cbn. by rewrite Hc.
Qed.

Lemma neutral_scratch_ptr h : neutral (scratch_ptr h).
Proof. intros m. unfold scratch_ptr. by case_if. Qed.

Lemma neutral_domain_ptr h : neutral (domain_ptr h).
Proof. apply neutral_gets. Qed.

Lemma neutral_raw_send t : neutral (sbi_ipi_raw_send t).
Proof. intros m. unfold sbi_ipi_raw_send. destruct (m_ipi_dev m) as [[[] ?]|]; done. Qed.

Lemma neutral_if {A} (b : bool) (c d : M machine A) : neutral c -> neutral d -> neutral (if b then c else d).
Proof. by destruct b. Qed.

#[export] Hint Resolve neutral_ret neutral_stop neutral_gets neutral_bind neutral_on_hart
  neutral_scratch_ptr neutral_domain_ptr neutral_raw_send neutral_if : sbi.

(** Compare-and-exchange on the state word of a hart. *)
Lemma cmpxchg_run h old new m d :
  hart m h = Some d ->
  on_hart h (hsm_cell (atomic_cmpxchg old new)) m =
  (Ret (hd_hsm_state d),
   put_hart h (hd_set_hsm_state (if hd_hsm_state d =? old then new else hd_hsm_state d) d) m).
Proof. intros H. by rewrite (on_hart_run _ _ _ _ H). Qed.

(** What [on_hart cur (cmpxchg a b); k] does to the state words: nothing when
    the state is not [a], the move from [a] to [b] otherwise. *)
Lemma cmpxchg_bind {A} h a b (k : Z → M machine A) m :
  (forall v, neutral (k v)) ->
  let m' := snd (bind (on_hart h (hsm_cell (atomic_cmpxchg a b))) k m) in
  m_hsm_dev m' = m_hsm_dev m /\
  forall h', hsm_state m' h' =
    if (h' =? h) && bool_decide (hsm_state m h = Some a) then Some b else hsm_state m h'.
Proof.
  intros Hk. cbv zeta.
  destruct (hart m h) as [d|] eqn:Hd; cycle 1.
  - rewrite bool_decide_false by (unfold hsm_state; by rewrite Hd).
    unfold bind, on_hart. rewrite Hd. cbn. split; [done|]. intros h'. by rewrite andb_false_r.
  - assert (Hs : hsm_state m h = Some (hd_hsm_state d)) by (unfold hsm_state; by rewrite Hd).
    rewrite (bind_Ret _ _ _ _ _ (cmpxchg_run h a b m d Hd)).
    destruct (Hk (hd_hsm_state d) (put_hart h
      (hd_set_hsm_state (if hd_hsm_state d =? a then b else hd_hsm_state d) d) m)) as [H D].
    split; [done|]. intros h'. rewrite H, hsm_state_put by (by eexists). cbn.
    destruct (Z.eqb_spec h' h) as [->|]; [|done].
    destruct (Z.eqb_spec (hd_hsm_state d) a) as [Heq|Hne].
    + by rewrite bool_decide_true by congruence.
    + rewrite bool_decide_false by (rewrite Hs; congruence). by rewrite Hs.
Qed.

(** A neutral computation before another one. *)
Lemma neutral_then {A B} (c : M machine A) (k : A → M machine B) m a m1 :
  neutral c -> c m = (Ret a, m1) -> keeps m m1 /\ bind c k m = k a m1.
Proof. intros H E. split; [by specialize (H m); rewrite E in H|by apply bind_Ret]. Qed.

(** ** Interleavings

    The atomic steps of the harts: every operation, with the suspend request cut
    where it is suspended, since other harts run in between. *)
Inductive hsm_op : Type :=
| DoStart (cur : Z) (dom : option nat) (hartid saddr smode priv : Z)
| DoWait (cur : Z)
| DoNextJump (cur : Z)
| DoStop (cur : Z)
| DoExit (cur : Z)
| DoSuspendEnter (cur raddr rmode priv : Z)
| DoSuspendBody (cur suspend_type : Z)
| DoSuspendRestore (cur r : Z)
| DoResumeStart (cur : Z)
| DoResumeFinish (cur : Z).

Definition hsm_exec (op : hsm_op) : M machine Z :=
  (match op with
   | DoStart cur dom hartid saddr smode priv => sbi_hsm_hart_start cur dom hartid saddr smode priv
   | DoWait cur => sbi_hsm_hart_wait cur ;;; ret 0
   | DoNextJump cur => sbi_hsm_prepare_next_jump cur ;;; ret 0
   | DoStop cur => sbi_hsm_hart_stop (ret tt) cur false
   | DoExit cur => sbi_hsm_exit cur ;;; ret 0
   | DoSuspendEnter cur raddr rmode priv => suspend_enter cur raddr rmode priv
   | DoSuspendBody cur t => suspend_body cur t
   | DoSuspendRestore cur r => suspend_restore_state cur r
   | DoResumeStart cur => sbi_hsm_hart_resume_start cur ;;; ret 0
   | DoResumeFinish cur => sbi_hsm_hart_resume_finish cur ;;; ret 0
   end)%sbi.

(** The hart whose state word the operation can move, and the move. *)
Definition op_move (op : hsm_op) : option (Z * Z * Z) :=
  match op with
  | DoStart _ _ h _ _ _ => Some (h, SBI_HSM_STATE_STOPPED, SBI_HSM_STATE_START_PENDING)
  | DoNextJump h => Some (h, SBI_HSM_STATE_START_PENDING, SBI_HSM_STATE_STARTED)
  | DoStop h => Some (h, SBI_HSM_STATE_STARTED, SBI_HSM_STATE_STOP_PENDING)
  | DoExit h => Some (h, SBI_HSM_STATE_STOP_PENDING, SBI_HSM_STATE_STOPPED)
  | DoSuspendEnter h _ _ _ => Some (h, SBI_HSM_STATE_STARTED, SBI_HSM_STATE_SUSPENDED)
  | DoSuspendRestore h _ => Some (h, SBI_HSM_STATE_SUSPENDED, SBI_HSM_STATE_STARTED)
  | DoResumeStart h => Some (h, SBI_HSM_STATE_SUSPENDED, SBI_HSM_STATE_RESUME_PENDING)
  | DoResumeFinish h => Some (h, SBI_HSM_STATE_RESUME_PENDING, SBI_HSM_STATE_STARTED)
  | DoWait _ | DoSuspendBody _ _ => None
  end.

(** The outcomes by which the caller knows that its operation took effect. *)
Definition succeeded (op : hsm_op) (o : outcome Z) : bool :=
  match op, o with
  | (DoStart _ _ _ _ _ _ | DoStop _), Ret r => r =? 0
  | (DoNextJump _ | DoSuspendRestore _ _ | DoResumeStart _ | DoResumeFinish _), Ret _ => true
  | DoSuspendEnter _ _ _ _, Ret r => r =? SBI_HSM_STATE_STARTED
  | DoExit _, Stop jump_warmboot => true
  | _, _ => false
  end.

Definition moved (h a b : Z) (m m' : machine) : Prop :=
  hsm_state m h = Some a /\ m_hsm_dev m' = m_hsm_dev m /\
  forall h', hsm_state m' h' = if h' =? h then Some b else hsm_state m h'.

Definition took_effect (op : hsm_op) (m m' : machine) : Prop :=
  match op_move op with Some (h, a, b) => moved h a b m m' | None => False end.

(** The edges of hart [h]'s state machine, each with the one operation that
    takes it. *)
Inductive hsm_edge (h : Z) : hsm_op → Z → Z → Prop :=
| edge_start cur dom saddr smode priv :
    hsm_edge h (DoStart cur dom h saddr smode priv) SBI_HSM_STATE_STOPPED SBI_HSM_STATE_START_PENDING
| edge_started : hsm_edge h (DoNextJump h) SBI_HSM_STATE_START_PENDING SBI_HSM_STATE_STARTED
| edge_stop : hsm_edge h (DoStop h) SBI_HSM_STATE_STARTED SBI_HSM_STATE_STOP_PENDING
| edge_stopped : hsm_edge h (DoExit h) SBI_HSM_STATE_STOP_PENDING SBI_HSM_STATE_STOPPED
| edge_suspend raddr rmode priv :
    hsm_edge h (DoSuspendEnter h raddr rmode priv) SBI_HSM_STATE_STARTED SBI_HSM_STATE_SUSPENDED
| edge_wake r : hsm_edge h (DoSuspendRestore h r) SBI_HSM_STATE_SUSPENDED SBI_HSM_STATE_STARTED
| edge_resume : hsm_edge h (DoResumeStart h) SBI_HSM_STATE_SUSPENDED SBI_HSM_STATE_RESUME_PENDING
| edge_resumed : hsm_edge h (DoResumeFinish h) SBI_HSM_STATE_RESUME_PENDING SBI_HSM_STATE_STARTED.

Definition op_actor (op : hsm_op) : Z :=
  match op with
  | DoStart c _ _ _ _ _ | DoWait c | DoNextJump c | DoStop c | DoExit c | DoSuspendEnter c _ _ _
  | DoSuspendBody c _ | DoSuspendRestore c _ | DoResumeStart c | DoResumeFinish c => c
  end.

Lemma op_move_edge op h a b : op_move op = Some (h, a, b) -> hsm_edge h op a b.
Proof. destruct op; cbn; intros [= <- <- <-]; constructor. Qed.

Lemma edge_op_move op h a b : hsm_edge h op a b -> op_move op = Some (h, a, b).
Proof. by destruct 1. Qed.

(** [does op c m]: the run of [c] from [m] took effect and says so, or it left
    the state words alone and does not say so (without a hart-state device). *)
Definition does (op : hsm_op) (c : M machine Z) (m : machine) : Prop :=
  let '(o, m') := c m in
  (keeps m m' /\ (m_hsm_dev m = None -> succeeded op o = false)) \/
  (took_effect op m m' /\ (m_hsm_dev m = None -> succeeded op o = true)).

Lemma does_neutral op c m :
  neutral c -> (m_hsm_dev m = None -> succeeded op (fst (c m)) = false) -> does op c m.
Proof.
  intros Hn Hf. unfold does. specialize (Hn m). destruct (c m) as [o m']. left. done.
Qed.

Lemma does_bind {A} op (c : M machine A) k m :
  neutral c -> (forall w, succeeded op (Stop w) = false) ->
  (forall a m1, c m = (Ret a, m1) -> keeps m m1 -> does op (k a) m1) -> does op (bind c k) m.
Proof.
  intros Hn Hs Hk. unfold does, bind. pose proof (Hn m) as Hm.
  destruct (c m) as [[a|w] m1]; [|by left].
  specialize (Hk a m1 eq_refl Hm). unfold does in Hk. cbn in Hm. destruct Hm as [Hst Hd].
  destruct (k a m1) as [o m']. rewrite Hd in Hk. destruct Hk as [[K F]|[K F]]; [left|right].
  - split; [|done]. by etrans; [|exact K].
  - split; [|done]. unfold took_effect in *. destruct (op_move op) as [[[h x] y]|]; [|done].
    destruct K as (E & D & St). split; [congruence|]. split; [congruence|].
    intros h'. by rewrite St, Hst.
Qed.

Lemma does_cmpxchg op h a b k m :
  op_move op = Some (h, a, b) -> (forall v, neutral (k v)) ->
  succeeded op (Stop wild_access) = false ->
  (forall v m1, v <> a -> succeeded op (fst (k v m1)) = false) ->
  (forall m1, m_hsm_dev m1 = None -> is_Some (hart m1 h) -> succeeded op (fst (k a m1)) = true) ->
  does op (bind (on_hart h (hsm_cell (atomic_cmpxchg a b))) k) m.
Proof.
  intros Ho Hk Hw Hf Ht. unfold does, took_effect. rewrite Ho.
  destruct (cmpxchg_bind h a b k m Hk) as [Hd Hs].
  destruct (hart m h) as [d|] eqn:E; cycle 1.
  - unfold bind, on_hart. rewrite E. by left.
  - assert (Hm : hsm_state m h = Some (hd_hsm_state d)) by (unfold hsm_state; by rewrite E).
    assert (Hr := bind_Ret _ k _ _ _ (cmpxchg_run h a b m d E)).
    rewrite Hr in Hd, Hs |- *.
    set (m1 := put_hart _ _ _) in *.
    destruct (k (hd_hsm_state d) m1) as [o m'] eqn:Ek. cbn in Hd, Hs.
    assert (Hd1 : m_hsm_dev m1 = m_hsm_dev m) by done.
    assert (H1 : is_Some (hart m1 h)) by (eexists; by eapply hart_put_eq).
    destruct (decide (hd_hsm_state d = a)) as [Heq|Hne].
    + right. split; [split; [congruence|]; split; [done|]|].
      * intros h'. rewrite Hs, bool_decide_true by congruence. by destruct (h' =? h).
      * intros Hn. rewrite <- Hd1 in Hn. specialize (Ht m1 Hn H1). by rewrite <- Heq, Ek in Ht.
    + left. split; [split; [|done]|].
      * intros h'. rewrite Hs, bool_decide_false by congruence. by rewrite andb_false_r.
      * intros _. specialize (Hf (hd_hsm_state d) m1 Hne). by rewrite Ek in Hf.
Qed.

Lemma does_assoc {A B} op (c : M machine A) (k : A → M machine B) k' m :
  does op (bind c (λ a, bind (k a) k')) m -> does op (bind (bind c k) k') m.
Proof. unfold does. by rewrite bind_assoc. Qed.

Lemma neutral_init_count h : neutral (sbi_init_count h).
Proof. unfold sbi_init_count. apply neutral_bind; [auto with sbi|]. intros off. case_if; [auto with sbi|].
  apply neutral_bind; [auto with sbi|]. intros []; auto with sbi. Qed.

Lemma neutral_device_start h a : neutral (hsm_device_hart_start h a).
Proof. intros m. unfold hsm_device_hart_start. destruct (m_hsm_dev m) as [d|] eqn:E; [|done].
  by destruct (hart_start_cb d). Qed.

Lemma neutral_device_stop : neutral hsm_device_hart_stop.
Proof. intros m. unfold hsm_device_hart_stop. by destruct (m_hsm_dev m) as [d|] eqn:E. Qed.

Lemma neutral_device_suspend t a : neutral (hsm_device_hart_suspend t a).
Proof. intros m. unfold hsm_device_hart_suspend. destruct (m_hsm_dev m) as [d|] eqn:E; [|done].
  by destruct (hart_suspend_cb d). Qed.

#[export] Hint Resolve neutral_init_count neutral_device_start neutral_device_stop
  neutral_device_suspend : sbi.

(** Neutrality of a straight-line computation. *)
Ltac neutrality :=
  repeat first
    [ apply neutral_bind; [|intros ?]
    | apply neutral_if
    | apply neutral_on_hart; intros ?; reflexivity
    | solve [auto with sbi]
    | match goal with |- neutral (match ?x with _ => _ end) => destruct x end ].

Lemma neutral_restore h : neutral (hsm_suspend_non_ret_restore h).
Proof. unfold hsm_suspend_non_ret_restore. neutrality. Qed.

Lemma neutral_suspend_body h t : neutral (suspend_body h t).
Proof. unfold suspend_body, hsm_suspend_non_ret_save, hsm_suspend_ret_default, hsm_suspend_non_ret_default.
  neutrality. Qed.

Lemma neutral_wait h : neutral (sbi_hsm_hart_wait h).
Proof. unfold sbi_hsm_hart_wait. neutrality. Qed.

(** A compare-and-exchange whose failure stops the caller. *)
Lemma does_gate op h a b (k : M machine Z) m :
  op_move op = Some (h, a, b) -> (forall w, w <> jump_warmboot -> succeeded op (Stop w) = false) ->
  neutral k ->
  (forall m1, m_hsm_dev m1 = None -> is_Some (hart m1 h) -> succeeded op (fst (k m1)) = true) ->
  does op (bind (on_hart h (hsm_cell (atomic_cmpxchg a b)))
             (λ v, if negb (v =? a) then stop hart_hang else k)) m.
Proof.
  intros Ho Hs Hn Hk. apply (does_cmpxchg op h a b); [done| |by apply Hs| |].
  - intros v. neutrality.
  - intros v m1 Hv. apply Z.eqb_neq in Hv. rewrite Hv. cbn. by apply Hs.
  - intros m1 Hd H1. rewrite Z.eqb_refl. cbn. by apply Hk.
Qed.

Lemma bind_if {S A B} (b : bool) (c d : M S A) (k : A → M S B) s :
  bind (if b then c else d) k s = (if b then bind c k else bind d k) s.
Proof. by destruct b. Qed.

Lemma does_ext op c c' m : c m = c' m -> does op c' m -> does op c m.
Proof. unfold does. by intros ->. Qed.

Lemma bind_ext {S A B} (c : M S A) (k k' : A → M S B) s :
  (forall a s', k a s' = k' a s') -> bind c k s = bind c k' s.
Proof. intros H. unfold bind. destruct (c s) as [[a|w] s']; [apply H|done]. Qed.

Lemma start_does cur dom h saddr smode priv m :
  does (DoStart cur dom h saddr smode priv) (sbi_hsm_hart_start cur dom h saddr smode priv) m.
Proof.
  unfold sbi_hsm_hart_start. case_if; [by apply does_neutral; [auto with sbi|]|].
  apply does_bind; [auto with sbi|done|]. intros ds m1 _ _.
  do 2 (case_if; [by apply does_neutral; [auto with sbi|]|]).
  apply does_bind; [auto with sbi|done|]. intros r m2 Hr _.
  assert (Hh : (0 <=? h) && (h <? SBI_HARTMASK_MAX_BITS) = true)
    by (unfold scratch_ptr in Hr; case_if_in Hr; [done|discriminate]).
  destruct r; [|by apply does_neutral; [auto with sbi|]].
  eapply does_cmpxchg; [done| |done| |].
  - intros v. neutrality.
  - intros v m3 Hv. case_if; [done|]. apply Z.eqb_neq in Hv. by rewrite Hv.
  - intros m3 Hd [d H3]. cbn -[on_hart sbi_init_count sbi_ipi_raw_send].
    unfold bind at 1.
    assert (Hi : exists c, sbi_init_count h m3 = (Ret c, m3)).
    { unfold sbi_init_count, bind, gets. case_if; [by eexists|]. unfold scratch_ptr. rewrite Hh, H3.
      by eexists. }
    destruct Hi as [c ->]. unfold bind at 1. rewrite (on_hart_run _ _ _ _ H3). cbn -[sbi_ipi_raw_send].
    unfold bind at 1. cbn -[sbi_ipi_raw_send]. unfold hsm_device_has_hart_hotplug, hsm_device_has_hart_secondary_boot.
    cbn -[sbi_ipi_raw_send]. unfold put_hart. cbn -[sbi_ipi_raw_send]. rewrite Hd. cbn.
    unfold sbi_ipi_raw_send, bind. cbn. by destruct (m_ipi_dev m3) as [[[] ?]|].
Qed.

Lemma does_gate_ret op h a b (k : M machine unit) m :
  op_move op = Some (h, a, b) -> (forall w, w <> jump_warmboot -> succeeded op (Stop w) = false) ->
  neutral k ->
  (forall m1, m_hsm_dev m1 = None -> is_Some (hart m1 h) ->
     succeeded op (fst ((k ;;; ret 0)%sbi m1)) = true) ->
  does op (bind (bind (on_hart h (hsm_cell (atomic_cmpxchg a b)))
             (λ v, if negb (v =? a) then stop hart_hang else k)) (λ _, ret 0)) m.
Proof.
  intros Ho Hs Hn Hk. apply does_assoc.
  eapply does_ext; [apply bind_ext; intros v s; apply bind_if|].
  apply (does_gate op h a b (bind k (λ _, ret 0))); [done|done| |done]. neutrality.
Qed.

Lemma hsm_exec_does op m : does op (hsm_exec op) m.
Proof.
  destruct op; cbn [hsm_exec].
  - apply start_does.
  - apply does_neutral; [|by destruct (fst _)]. apply neutral_bind; [apply neutral_wait|auto with sbi].
  - apply does_gate_ret; [done|done|auto with sbi|done].
  - unfold sbi_hsm_hart_stop. apply does_bind; [auto with sbi|done|]. intros [p|] m1 _ _; [|by apply does_neutral; [auto with sbi|]].
    eapply does_cmpxchg; [done| |done| |].
    + intros v. neutrality.
    + intros v m2 Hv. apply Z.eqb_neq in Hv. by rewrite Hv.
    + done.
  - eapply does_gate_ret; [done|by intros []| |].
    + neutrality.
    + intros m1 Hd _. unfold bind, gets, hsm_device_has_hart_hotplug. by rewrite Hd.
  - apply does_bind; [apply neutral_on_hart; done|done|]. intros _ m1 _ _.
    eapply (does_ext _ _ (bind _ ret)); [|eapply does_cmpxchg; [done| |done| |]].
    + unfold bind, ret. by destruct (on_hart _ _ m1) as [[|]].
    + auto with sbi.
    + intros v m2 Hv. by apply Z.eqb_neq.
    + done.
  - apply does_neutral; [apply neutral_suspend_body|by destruct (fst _)].
  - by apply does_gate.
  - apply does_gate_ret; [done|done|auto with sbi|done].
  - eapply does_gate_ret; [done|done|apply neutral_restore|].
    intros m1 _ [d H1]. unfold hsm_suspend_non_ret_restore.
    hart_steps. done.
Qed.

(** Execute a sequence of steps of any harts, recording the outcomes. *)
Fixpoint hsm_run (ops : list hsm_op) (m : machine) : list (hsm_op * outcome Z) * machine :=
  match ops with
  | [] => ([], m)
  | op :: ops' =>
      let '(o, m1) := hsm_exec op m in
      let '(l, m2) := hsm_run ops' m1 in
      ((op, o) :: l, m2)
  end.

(** What a sequence of steps, with their outcomes, does to the state of hart
    [h]: every step that reports success on [h] takes its edge, every other one
    leaves the state alone; and a step of [h]'s edges can only fail when its edge
    does not start at the state, unless it is a start or stop request, which can
    be refused for other reasons. *)
Definition refusable (op : hsm_op) : bool :=
  match op with DoStart _ _ _ _ _ _ | DoStop _ => true | _ => false end.

Inductive hsm_trace (h : Z) : list (hsm_op * outcome Z) → Z → Z → Prop :=
| trace_nil v : hsm_trace h [] v v
| trace_move op o l v w v' :
    succeeded op o = true -> hsm_edge h op v w -> hsm_trace h l w v' -> hsm_trace h ((op, o) :: l) v v'
| trace_elsewhere op o l v v' :
    (forall a b, ~ hsm_edge h op a b) -> hsm_trace h l v v' -> hsm_trace h ((op, o) :: l) v v'
| trace_refused op o l v v' :
    succeeded op o = false -> (refusable op = true \/ forall w, ~ hsm_edge h op v w) ->
    hsm_trace h l v v' -> hsm_trace h ((op, o) :: l) v v'.

(** The same without outcomes: whatever a step reports (a hart-state device may
    fail after the state has moved), the state stays or takes the edge of that
    step. *)
Inductive hsm_path (h : Z) : list hsm_op → Z → Z → Prop :=
| path_nil v : hsm_path h [] v v
| path_stay op ops v v' : hsm_path h ops v v' -> hsm_path h (op :: ops) v v'
| path_move op ops v w v' : hsm_edge h op v w -> hsm_path h ops w v' -> hsm_path h (op :: ops) v v'.

Lemma exec_state op m h v :
  hsm_state m h = Some v ->
  let '(o, m') := hsm_exec op m in
  exists v', hsm_state m' h = Some v' /\ m_hsm_dev m' = m_hsm_dev m /\
    ((hsm_edge h op v v' /\ (m_hsm_dev m = None -> succeeded op o = true)) \/
     (v' = v /\ (m_hsm_dev m = None -> (forall a b, ~ hsm_edge h op a b) \/ succeeded op o = false))).
Proof.
  intros Hv. pose proof (hsm_exec_does op m) as H. unfold does in H.
  destruct (hsm_exec op m) as [o m']. destruct H as [[[K D] F]|[H F]].
  - exists v. rewrite K. split; [done|]. split; [done|]. right. auto.
  - unfold took_effect in H. destruct (op_move op) as [[[h' a] b]|] eqn:E; [|done].
    destruct H as (Ha & D & Hs). rewrite Hs. destruct (Z.eqb_spec h h') as [->|Hne].
    + exists b. rewrite Ha in Hv. injection Hv as ->. split; [done|]. split; [done|]. left.
      split; [by apply op_move_edge|done].
    + exists v. split; [done|]. split; [done|]. right. split; [done|]. intros _. left.
      intros x y He%edge_op_move. rewrite E in He. injection He. auto.
Qed.

(** A step whose edge starts at the state of its hart takes it. *)
Lemma exec_enabled op m h v w :
  hsm_state m h = Some v -> hsm_edge h op v w -> refusable op = false -> m_hsm_dev m = None ->
  succeeded op (fst (hsm_exec op m)) = true.
Proof.
  unfold hsm_state. intros Hv He Hr Hn. destruct (hart m h) as [d|] eqn:Hd; [|done].
  cbn in Hv. injection Hv as Hv.
  assert (Hc : forall h' b m1 d1, hart m1 h' = Some d1 -> hart (put_hart h' (hd_set_hsm_state b d1) m1) h' =
      Some (hd_set_hsm_state b d1)) by (intros; by eapply hart_put_eq).
  destruct He; try done; cbn [hsm_exec];
    unfold sbi_hsm_prepare_next_jump, sbi_hsm_exit, suspend_enter, suspend_restore_state,
      sbi_hsm_hart_resume_start, sbi_hsm_hart_resume_finish, hsm_suspend_non_ret_restore, hart_csr;
    hart_steps; cbn [hd_hsm_state hd_set_next]; rewrite ?Hv; try reflexivity.
  - rewrite Z.eqb_refl. unfold bind, gets, hsm_device_has_hart_hotplug. cbn. by rewrite Hn.
  - rewrite (cmpxchg_run _ _ _ _ _ (hart_put_eq h d _ m Hd)). cbn. by rewrite Hv.
  - rewrite Z.eqb_refl. cbn [negb]. hart_steps. done.
Qed.

(** [C4] The hart state machine is respected in every interleaving: whatever the
    harts do, in whatever order, with whatever arguments and devices, the state
    of each hart stays or takes the edge that belongs to the operation performed
    (STOPPED to START_PENDING by a start request for it, START_PENDING to STARTED
    by its own jump to the next stage, STARTED to STOP_PENDING by its stop
    request, STOP_PENDING to STOPPED by its exit, and so on).  Without a
    hart-state device the successes tell the state exactly: a step that reports
    success has taken its edge, any other left the state alone, and none but
    start and stop requests is refused at the state its edge starts from.  A hart
    that does nothing itself is at most taken from STOPPED to START_PENDING by
    the others, so no other hart can disturb one that is running, suspended or
    stopping. *)
Theorem hsm_follows_state_machine (ops : list hsm_op) (m : machine) (h v : Z) :
  hsm_state m h = Some v ->
  let '(l, m') := hsm_run ops m in
  exists v', hsm_state m' h = Some v' /\ hsm_path h ops v v' /\
    (m_hsm_dev m = None -> hsm_trace h l v v') /\
    (Forall (λ op, op_actor op <> h) ops ->
     v' = v \/ (v = SBI_HSM_STATE_STOPPED /\ v' = SBI_HSM_STATE_START_PENDING)).
Proof.
  revert m v. induction ops as [|op ops IH]; intros m v Hv; cbn [hsm_run].
  { exists v. split; [done|]. split; [constructor|]. split; [intros _; constructor|auto]. }
  pose proof (exec_state op m h v Hv) as E. pose proof (exec_enabled op m h v) as En.
  destruct (hsm_exec op m) as [o m1]. destruct E as (v1 & H1 & D1 & E1). specialize (IH m1 v1 H1).
  destruct (hsm_run ops m1) as [l m2]. destruct IH as (v2 & H2 & P2 & T2 & O2). rewrite D1 in T2.
  exists v2. split; [done|]. split; [|split].
  - destruct E1 as [[E1 _]|[-> _]]; [by eapply path_move|by apply path_stay].
  - intros Hn. specialize (T2 Hn). destruct E1 as [[E1 S1]|[-> S1]]; [by eapply trace_move; auto|].
    destruct (S1 Hn) as [N1|F1]; [by apply trace_elsewhere|]. apply trace_refused; [done| |done].
    destruct (refusable op) eqn:Er; [by left|]. right. intros w He.
    specialize (En w Hv He eq_refl Hn). cbn in En. congruence.
  - intros Hf. inversion Hf as [|? ? Hne Hrest]; subst. specialize (O2 Hrest).
    destruct E1 as [[E1 _]|[-> _]]; [|done].
    destruct E1; cbn in Hne; try done. destruct O2 as [->|[? _]]; [by right|discriminate].
Qed.

(** ** Start requests and boots *)

Definition is_start (h : Z) (e : hsm_op * outcome Z) : bool :=
  match e with (DoStart _ _ h' _ _ _ as op, o) => (h' =? h) && succeeded op o | _ => false end.

Definition is_boot (h : Z) (e : hsm_op * outcome Z) : bool :=
  match e with (DoNextJump h' as op, o) => (h' =? h) && succeeded op o | _ => false end.

Definition is_exit (h : Z) (e : hsm_op * outcome Z) : bool :=
  match e with (DoExit h' as op, o) => (h' =? h) && succeeded op o | _ => false end.

Definition count (f : hsm_op * outcome Z → bool) (l : list (hsm_op * outcome Z)) : Z :=
  Z.of_nat (length (filter f l)).

Definition pending (v : option Z) : Z := if bool_decide (v = Some SBI_HSM_STATE_START_PENDING) then 1 else 0.
Definition stopped (v : option Z) : Z := if bool_decide (v = Some SBI_HSM_STATE_STOPPED) then 1 else 0.

Lemma count_cons f e l : count f (e :: l) = (if f e then 1 else 0) + count f l.
Proof. unfold count. rewrite filter_cons. destruct (decide (f e)) as [H|H]; cbn -[Z.of_nat];
  destruct (f e); cbn in H |- *; try done; lia. Qed.

Lemma exec_account op m h :
  m_hsm_dev m = None ->
  let '(o, m') := hsm_exec op m in
  m_hsm_dev m' = None /\
  (if is_start h (op, o) then 1 else 0) + pending (hsm_state m h)
    = (if is_boot h (op, o) then 1 else 0) + pending (hsm_state m' h) /\
  (if is_exit h (op, o) then 1 else 0) + stopped (hsm_state m h)
    = (if is_start h (op, o) then 1 else 0) + stopped (hsm_state m' h).
Proof.
  intros Hd. pose proof (hsm_exec_does op m) as H. unfold does in H.
  destruct (hsm_exec op m) as [o m']. destruct H as [[[K D] F]|[H F]]; specialize (F Hd).
  - split; [congruence|]. rewrite K. destruct op; cbn [is_start is_boot is_exit]; rewrite ?F, ?andb_false_r; lia.
  - unfold took_effect in H. destruct (op_move op) as [[[h' a] b]|] eqn:E; [|done].
    destruct H as (Ha & D & Hs). split; [congruence|]. rewrite Hs.
    destruct op; cbn in E; try discriminate E; injection E as -> <- <-; cbn [is_start is_boot is_exit];
      rewrite ?F, ?andb_true_r, ?(Z.eqb_sym h'); (destruct (Z.eqb_spec h h') as [->|]; [rewrite Ha|lia]); done.
Qed.

(** [C5] Start requests are neither lost nor doubled: with harts started by IPI
    (no hart-state device), in every interleaving of the steps of all harts, the
    start requests for a hart that were answered with success are exactly its
    boots, plus the one still pending; and between two accepted requests the
    hart has stopped once. *)
Theorem hsm_start_exactly_once (ops : list hsm_op) (m : machine) (h : Z) :
  m_hsm_dev m = None ->
  let '(l, m') := hsm_run ops m in
  count (is_start h) l + pending (hsm_state m h) = count (is_boot h) l + pending (hsm_state m' h) /\
  count (is_exit h) l + stopped (hsm_state m h) = count (is_start h) l + stopped (hsm_state m' h).
Proof.
  revert m. induction ops as [|op ops IH]; intros m Hd; cbn; [unfold count; cbn; lia|].
  pose proof (exec_account op m h Hd) as H. destruct (hsm_exec op m) as [o m1].
  destruct H as (Hd1 & Hs & Hb). specialize (IH m1 Hd1). destruct (hsm_run ops m1) as [l m2].
  rewrite !count_cons. lia.
Qed.

(** ** The interruptible harts *)

Lemma get_state_run m h :
  0 <= h < 128 ->
  hsm_hart_get_state h m = (Ret (default SBI_EINVAL (hsm_state m h)), m).
Proof.
  intros Hh. unfold hsm_hart_get_state, bind, scratch_ptr, hsm_state.
  change SBI_HARTMASK_MAX_BITS with 128.
  destruct (Z.leb_spec 0 h), (Z.ltb_spec h 128); try lia. cbn.
  destruct (hart m h) as [d|] eqn:E; [|done]. cbn.
  apply (on_hart_read _ _ _ d); [done|]. by destruct d.
Qed.

(** Hart [h] of [m] is one the others may interrupt. *)
Definition can_interrupt (m : machine) (h : Z) : bool :=
  interruptible (default SBI_EINVAL (hsm_state m h)).

Lemma land_bit_truthy x n : 0 <= n < 64 -> truthy (Z.land x (shl64 1 n)) = Z.testbit x n.
Proof.
  intros Hn. rewrite shl64_1 by done. destruct (Z.testbit x n) eqn:E.
  - apply truthy_true. intros H. assert (Z.testbit (Z.land x (2 ^ n)) n = true) as H'.
    { rewrite Z.land_spec, E, Z.pow2_bits_true by lia. done. }
    rewrite H, Z.bits_0 in H'. discriminate.
  - apply truthy_false. apply testbit_zero_ext. intros i Hi.
    rewrite Z.land_spec, Z.bits_0, Z.pow2_bits_eqb by lia.
    destruct (Z.eqb_spec n i) as [->|]; [by rewrite E|apply andb_false_r].
Qed.

Lemma interruptible_loop_run m hbase dmask l out :
  Forall (λ i, 0 <= i < 128 /\ 0 <= i - hbase < 64) l ->
  exists out', interruptible_loop hbase dmask l out m = (Ret out', m) /\
    forall j, 0 <= j -> Z.testbit out' j =
      Z.testbit out j || bool_decide (hbase + j ∈ l) && Z.testbit dmask j && can_interrupt m (hbase + j).
Proof.
  revert out. induction l as [|i l IH]; intros out Hl; cbn [interruptible_loop].
  - exists out. split; [done|]. intros j Hj. rewrite bool_decide_false by set_solver. by rewrite orb_false_r.
  - inversion Hl as [|? ? [Hi Hb] Hl']; subst. rewrite land_bit_truthy by done.
    assert (Hu : u32 i = i) by (apply Z.mod_small; lia).
    assert (Hcons : forall j, bool_decide (hbase + j ∈ i :: l) =
      (j =? i - hbase) || bool_decide (hbase + j ∈ l)).
    { intros j. apply eq_true_iff_eq. rewrite orb_true_iff, !bool_decide_eq_true, Z.eqb_eq.
      rewrite elem_of_cons. split; intros [?|?]; auto; left; lia. }
    destruct (Z.testbit dmask (i - hbase)) eqn:Ed.
    + rewrite (bind_Ret _ _ _ _ _ (get_state_run m (u32 i) ltac:(lia))). rewrite Hu.
      fold (can_interrupt m i). destruct (IH (if can_interrupt m i then Z.lor out (shl64 1 (i - hbase)) else out) Hl')
        as (out' & E & H). exists out'. split; [done|]. intros j Hj. rewrite H, Hcons by done.
      destruct (Z.eqb_spec j (i - hbase)) as [->|Hne].
      * replace (hbase + (i - hbase)) with i by lia. rewrite Ed.
        destruct (can_interrupt m i); cbn; rewrite ?andb_false_r, ?orb_false_r; [|done].
        rewrite Z.lor_spec, shl64_1, Z.pow2_bits_true by lia. rewrite !orb_true_r. done.
      * cbn. destruct (can_interrupt m i); [|done].
        rewrite Z.lor_spec, shl64_1, Z.pow2_bits_false by lia. by rewrite orb_false_r.
    + destruct (IH out Hl') as (out' & E & H). exists out'. split; [done|].
      intros j Hj. rewrite H, Hcons by done.
      destruct (Z.eqb_spec j (i - hbase)) as [->|Hne]; [|done].
      rewrite Ed, !andb_false_r. done.
Qed.

(** The harts of the machine, as far as the IPI paths rely on them. *)
Definition dom_harts (m : machine) (p : nat) : gset Z :=
  match domains (m_domains m) !! p with Some d => hartmask_set (assigned_harts d) | None => ∅ end.

Definition last_hart (m : machine) : Z := last_hartid_having_scratch (m_scratch m).

Record domain_ready (m : machine) (p : nat) : Prop := {
  dr_domain : exists d, domains (m_domains m) !! p = Some d /\ hartmask_wf (assigned_harts d);
  dr_last : 0 <= last_hart m < 128;
}.

Lemma interruptible_mask_run m p hbase :
  domain_ready m p -> 0 <= hbase ->
  exists rc out, sbi_hsm_hart_interruptible_mask (Some p) hbase m = (Ret (rc, out), m) /\
    (rc = if last_hart m <? hbase then SBI_EINVAL else 0) /\ is_u64 out /\
    forall j, 0 <= j -> Z.testbit out j = true <->
      j < 64 /\ hbase + j <= last_hart m /\ hbase + j ∈ dom_harts m p /\ can_interrupt m (hbase + j) = true.
Proof.
  intros [(d & Hd & Hw) Hl] Hb. unfold last_hart in *.
  unfold sbi_hsm_hart_interruptible_mask. rewrite bind_gets.
  set (last := last_hartid_having_scratch (m_scratch m)) in *. cbv zeta.
  assert (Hu : u32 (last + 1) = last + 1) by (apply Z.mod_small; lia). rewrite Hu.
  destruct (Z.ltb_spec last hbase).
  - destruct (Z.leb_spec (last + 1) hbase); [|lia]. exists SBI_EINVAL, 0.
    split; [done|]. split; [done|]. split; [unfold is_u64; lia|]. intros j Hj. rewrite Z.bits_0. split; [done|lia].
  - destruct (Z.leb_spec (last + 1) hbase); [lia|].
    destruct (get_assigned_hartmask_spec (m_domains m) p d hbase Hd Hw ltac:(lia)) as (r & Er & Hr & Hbits).
    assert (Ed : on_domains (sbi_domain_get_assigned_hartmask (Some p) hbase) m = (Ret r, m)).
    { unfold on_domains, zoom. rewrite Er. f_equal. by destruct m. }
    rewrite (bind_Ret _ _ _ _ _ Ed).
    set (hend := if 64 <? last + 1 - hbase then hbase + 64 else last + 1).
    assert (Hend : hend = Z.min (hbase + 64) (last + 1))
      by (unfold hend; destruct (Z.ltb_spec 64 (last + 1 - hbase)); lia).
    clearbody hend. subst hend.
    destruct (interruptible_loop_run m hbase r
      (seqZ hbase (Z.min (hbase + 64) (last + 1) - hbase)) 0) as (out & Eo & Ho).
    { apply Forall_forall. intros i Hi. apply list_elem_of_In, elem_of_seqZ in Hi. lia. }
    rewrite (bind_Ret _ _ _ _ _ Eo).
    assert (Hspec : forall j, 0 <= j -> Z.testbit out j = true <->
      j < 64 /\ hbase + j <= last /\ hbase + j ∈ dom_harts m p /\ can_interrupt m (hbase + j) = true).
    { intros j Hj. rewrite Ho, Z.bits_0 by done. cbn [orb]. unfold dom_harts. rewrite Hd.
      rewrite !andb_true_iff, bool_decide_eq_true, elem_of_seqZ. split.
      - intros [[Hin Ht] Hc]. rewrite Hbits in Ht by lia. apply bool_decide_eq_true in Ht. repeat split; try done; lia.
      - intros (H1 & H2 & H3 & H4). rewrite Hbits by lia. rewrite bool_decide_eq_true. repeat split; try done; lia. }
    exists 0, out. split; [done|]. split; [done|]. split; [|done].
    split.
    + apply Z.bits_iff_nonneg_ex. exists 64. intros j Hj.
      destruct (Z.testbit out j) eqn:E; [|done]. apply Hspec in E; lia.
    + destruct (Z.lt_ge_cases out (2 ^ 64)) as [|Hge]; [done|].
      assert (Hp : 0 < out) by lia.
      assert (64 <= Z.log2 out) by (apply Z.log2_le_pow2; lia).
      pose proof (Z.bit_log2 out Hp) as Hbl. apply Hspec in Hbl; lia.
Qed.

(** ** What a start request does *)

(** The conditions under which domain [p] may start hart [h], in state [d]. *)
Definition may_start (m : machine) (p : nat) (h saddr smode : Z) (d : hart_data) : Prop :=
  (smode = PRV_S \/ smode = PRV_U) /\ h ∈ dom_harts m p /\
  sbi_domain_check_addr (m_domains m) (Some p) saddr smode SBI_DOMAIN_EXECUTE = true /\
  hd_hsm_state d = SBI_HSM_STATE_STOPPED.

Lemma hd_set_state_same d : hd_set_hsm_state (hd_hsm_state d) d = d.
Proof. by destruct d. Qed.

Lemma init_count_run m h d :
  0 <= h < 128 -> hart m h = Some d -> exists c, sbi_init_count h m = (Ret c, m).
Proof.
  intros Hh H. unfold sbi_init_count, bind, gets, scratch_ptr. case_if; [by eexists|].
  change SBI_HARTMASK_MAX_BITS with 128.
  destruct (Z.leb_spec 0 h), (Z.ltb_spec h 128); try lia. cbn. rewrite H. by eexists.
Qed.

Lemma assigned_dom_harts m p h :
  domain_ready m p -> 0 <= h ->
  sbi_domain_is_assigned_hart (m_domains m) (Some p) h = bool_decide (h ∈ dom_harts m p).
Proof.
  intros [(d & Hd & _) _] Hh. rewrite (is_assigned_spec _ _ _ _ Hd Hh). unfold dom_harts. by rewrite Hd.
Qed.

(** After the compare-and-exchange succeeded: the rest of the start request. *)
Definition start_tail (cur h saddr smode priv : Z) : M machine Z :=
  (init_count <- sbi_init_count h ;;
   on_hart h (modify (hd_set_next priv saddr smode)) ;;;
   hotplug <- gets hsm_device_has_hart_hotplug ;;
   secondary <- gets hsm_device_has_hart_secondary_boot ;;
   if hotplug || (secondary && negb (truthy init_count)) then
     warmboot_addr <- on_hart cur (gets hd_warmboot_addr) ;;
     hsm_device_hart_start h warmboot_addr
   else
     sbi_ipi_raw_send h ;;;
     ret 0)%sbi.

Lemma start_tail_run cur h saddr smode priv m d dc :
  0 <= h < 128 -> hart m h = Some d -> hart m cur = Some dc ->
  exists r m', start_tail cur h saddr smode priv m = (Ret r, m') /\
    m_harts m' = m_harts (put_hart h (hd_set_next priv saddr smode d) m) /\
    (m_hsm_dev m = None -> r = 0 /\
       m_trace m' = m_trace m ++ (if match m_ipi_dev m with Some dv => has_ipi_send dv | None => false end
                                  then [EvIpiSend h] else [])).
Proof.
  intros Hh H Hc. unfold start_tail. destruct (init_count_run m h d Hh H) as [c Ec].
  rewrite (bind_Ret _ _ _ _ _ Ec). hart_steps. set (m1 := put_hart _ _ _).
  rewrite !bind_gets.
  assert (Hc1 : exists dc', hart m1 cur = Some dc').
  { destruct (Z.eq_dec cur h) as [->|Hne]; [by eexists; eapply hart_put_eq|].
    exists dc. subst m1. rewrite hart_put_ne by lia || done. done. }
  destruct Hc1 as [dc' Hc1].
  case_if.
  - rewrite (bind_Ret _ _ _ _ _ (on_hart_read cur (gets hd_warmboot_addr) _ _ _ Hc1 eq_refl)). unfold hsm_device_hart_start.
    destruct (m_hsm_dev m1) as [dv|] eqn:Ed.
    + assert (m_hsm_dev m <> None) by (change (m_hsm_dev m) with (m_hsm_dev m1); congruence).
      destruct (hart_start_cb dv); eexists _, _; (split; [done|]; split; [done|done]).
    + exfalso. unfold hsm_device_has_hart_hotplug, hsm_device_has_hart_secondary_boot in E.
      rewrite Ed in E. done.
  - unfold sbi_ipi_raw_send, bind. change (m_ipi_dev m1) with (m_ipi_dev m).
    destruct (m_ipi_dev m) as [[[] ?]|]; cbn;
      (eexists _, _; split; [reflexivity|]; split; [done|]; intros _; split; [done|]);
      by rewrite ?app_nil_r.
Qed.

Lemma hart_start_run (m : machine) (cur : Z) (p : nat) (h saddr smode priv : Z)
    (d dc : hart_data) :
  domain_ready m p -> 0 <= h < 128 -> hart m h = Some d -> hart m cur = Some dc ->
  exists r m', sbi_hsm_hart_start cur (Some p) h saddr smode priv m = (Ret r, m') /\
    (may_start m p h saddr smode d ->
       m_harts m' = m_harts (put_hart h (hd_set_next priv saddr smode
                               (hd_set_hsm_state SBI_HSM_STATE_START_PENDING d)) m) /\
       (m_hsm_dev m = None -> r = SBI_OK /\
          m_trace m' = m_trace m ++ (if match m_ipi_dev m with Some dv => has_ipi_send dv | None => false end
                                     then [EvIpiSend h] else []))) /\
    (~ may_start m p h saddr smode d -> m' = m /\ r < 0).
Proof.
  intros Hdr Hh H Hc. unfold may_start, sbi_hsm_hart_start.
  destruct (negb (smode =? PRV_S) && negb (smode =? PRV_U)) eqn:Em.
  { zbool. eexists _, _. split; [done|]. split; [intros [[?|?] _]; lia|by intros _]. }
  assert (Hmode : smode = PRV_S \/ smode = PRV_U).
  { apply andb_false_iff in Em as [Em|Em]; apply negb_false_iff, Z.eqb_eq in Em; auto. }
  rewrite bind_gets, (assigned_dom_harts m p h Hdr) by lia.
  case_bool_decide as Hin; cbn [negb]; cycle 1.
  { eexists _, _. split; [done|]. split; [intros (_ & ? & _); done|by intros _]. }
  destruct (sbi_domain_check_addr _ _ _ _ _) eqn:Ea; cbn [negb]; cycle 1.
  { eexists _, _. split; [done|]. split; [intros (_ & _ & ? & _); done|by intros _]. }
  assert (Esp : scratch_ptr h m = (Ret (Some d), m)).
  { unfold scratch_ptr. change SBI_HARTMASK_MAX_BITS with 128.
    destruct (Z.leb_spec 0 h), (Z.ltb_spec h 128); try lia. cbn. by rewrite H. }
  rewrite (bind_Ret _ _ _ _ _ Esp). rewrite (bind_Ret _ _ _ _ _ (cmpxchg_run _ _ _ _ _ H)).
  destruct (Z.eqb_spec (hd_hsm_state d) SBI_HSM_STATE_STOPPED) as [Hst|Hst]; cbn [negb]; cycle 1.
  { rewrite hd_set_state_same, put_hart_same by done.
    destruct (hd_hsm_state d =? SBI_HSM_STATE_STARTED);
      (eexists _, _; split; [done|]; split; [intros (_ & _ & _ & ?); done|by intros _]). }
  rewrite Hst. cbn [Z.eqb SBI_HSM_STATE_STARTED SBI_HSM_STATE_STOPPED].
  set (d1 := hd_set_hsm_state SBI_HSM_STATE_START_PENDING d).
  pose proof (hart_put_eq h d d1 m H) as H1.
  assert (Hc1 : exists dc', hart (put_hart h d1 m) cur = Some dc').
  { destruct (Z.eq_dec cur h) as [->|Hne]; [by eexists|].
    exists dc. rewrite hart_put_ne by (done || lia). done. }
  destruct Hc1 as [dc' Hc1].
  destruct (start_tail_run cur h saddr smode priv (put_hart h d1 m) d1 dc' Hh H1 Hc1) as (r & m' & Er & Hm' & Hd').
  exists r, m'. split; [exact Er|]. rewrite put_put_hart in Hm'. split; [done|].
  intros Hn. destruct Hn. done.
Qed.

(** [C28] A start request is accepted exactly when it should be, and changes only
    what it should: the target, stopped, assigned to the caller's domain and
    allowed by it to execute at the start address in the given mode, becomes
    START_PENDING with the address, mode and argument stored, and without a
    hart-state device the call succeeds and (with IPIs) one interrupt is sent;
    every other request leaves all harts and the devices untouched and returns
    an error code. *)
Theorem hsm_start_accepts_exactly (m : machine) (cur : Z) (p : nat) (h saddr smode priv : Z)
    (d dc : hart_data) :
  domain_ready m p -> 0 <= h < 128 -> hart m h = Some d -> hart m cur = Some dc ->
  exists r m', sbi_hsm_hart_start cur (Some p) h saddr smode priv m = (Ret r, m') /\
    (may_start m p h saddr smode d ->
       m_harts m' = m_harts (put_hart h (hd_set_next priv saddr smode
                               (hd_set_hsm_state SBI_HSM_STATE_START_PENDING d)) m) /\
       (m_hsm_dev m = None -> r = SBI_OK /\
          m_trace m' = m_trace m ++ (if match m_ipi_dev m with Some dv => has_ipi_send dv | None => false end
                                     then [EvIpiSend h] else []))) /\
    (~ may_start m p h saddr smode d -> m' = m /\ r < 0).
Proof. apply hart_start_run. Qed.

Lemma demo_ready : domain_ready demo_machine root.
Proof.
  split; [|cbn; lia]. eexists. split; [done|]. split; [done|].
  repeat constructor; unfold is_u64; lia.
Qed.

Lemma hsm_follows_state_machine_witness :
  let ops := [DoStart 0 (Some root) 1 0x80200000 PRV_S 0; DoNextJump 1; DoStop 1] in
  let '(l, m') := hsm_run ops demo_machine in
  exists v', hsm_state m' 1 = Some v' /\ hsm_path 1 ops SBI_HSM_STATE_STOPPED v' /\
    (m_hsm_dev demo_machine = None -> hsm_trace 1 l SBI_HSM_STATE_STOPPED v') /\
    (Forall (λ op, op_actor op <> 1) ops ->
     v' = SBI_HSM_STATE_STOPPED \/
     (SBI_HSM_STATE_STOPPED = SBI_HSM_STATE_STOPPED /\ v' = SBI_HSM_STATE_START_PENDING)).
Proof.
  apply (hsm_follows_state_machine
    [DoStart 0 (Some root) 1 0x80200000 PRV_S 0; DoNextJump 1; DoStop 1] demo_machine 1). vm_compute. reflexivity.
Defined.

Lemma hsm_start_exactly_once_witness :
  let ops := [DoStart 0 (Some root) 1 0x80200000 PRV_S 0; DoStart 2 (Some root) 1 0x80300000 PRV_S 7; DoNextJump 1] in
  let '(l, m') := hsm_run ops demo_machine in
  count (is_start 1) l + pending (hsm_state demo_machine 1) = count (is_boot 1) l + pending (hsm_state m' 1) /\
  count (is_exit 1) l + stopped (hsm_state demo_machine 1) = count (is_start 1) l + stopped (hsm_state m' 1).
Proof.
  apply (hsm_start_exactly_once
    [DoStart 0 (Some root) 1 0x80200000 PRV_S 0; DoStart 2 (Some root) 1 0x80300000 PRV_S 7; DoNextJump 1]
    demo_machine 1). reflexivity.
Defined.

Lemma hsm_start_accepts_exactly_witness :
  exists r m', sbi_hsm_hart_start 0 (Some root) 1 0x80200000 PRV_S 5 demo_machine = (Ret r, m') /\
    (may_start demo_machine root 1 0x80200000 PRV_S (demo_hart SBI_HSM_STATE_STOPPED) ->
       m_harts m' = m_harts (put_hart 1 (hd_set_next 5 0x80200000 PRV_S
                               (hd_set_hsm_state SBI_HSM_STATE_START_PENDING (demo_hart SBI_HSM_STATE_STOPPED)))
                               demo_machine) /\
       (m_hsm_dev demo_machine = None -> r = SBI_OK /\
          m_trace m' = m_trace demo_machine ++
            (if match m_ipi_dev demo_machine with Some dv => has_ipi_send dv | None => false end
             then [EvIpiSend 1] else []))) /\
    (~ may_start demo_machine root 1 0x80200000 PRV_S (demo_hart SBI_HSM_STATE_STOPPED) ->
     m' = demo_machine /\ r < 0).
Proof.
  apply (hsm_start_accepts_exactly demo_machine 0 root 1 0x80200000 PRV_S 5
    (demo_hart SBI_HSM_STATE_STOPPED) (demo_hart SBI_HSM_STATE_STARTED)); [apply demo_ready|lia|reflexivity|reflexivity].
Defined.

(** ** Two observations *)

(** The code sets SBI_EDENIED for a suspend request of a hart that is not
    STARTED, but hangs before it returns it. *)
Theorem suspend_denied_hangs (m : machine) (cur t raddr rmode priv : Z) (p : nat) (d : hart_data) :
  domain_ptr cur m = (Ret (Some p), m) -> hart m cur = Some d ->
  suspend_guards (m_domains m) (Some p) t raddr rmode = inr tt ->
  hd_hsm_state d <> SBI_HSM_STATE_STARTED -> hd_hsm_state d <> SBI_HSM_STATE_SUSPENDED ->
  fst (sbi_hsm_hart_suspend cur t raddr rmode priv m) = Stop hart_hang.
Proof.
  intros Hp H Hg H1 H2. unfold sbi_hsm_hart_suspend.
  rewrite (bind_Ret _ _ _ _ _ Hp), bind_gets, Hg. unfold suspend_enter, suspend_restore_state.
  apply Z.eqb_neq in H1, H2. hart_steps. cbn [hd_hsm_state hd_set_next]. rewrite H1. cbn [negb].
  rewrite bind_ret_l. hart_steps.
  cbn [hd_hsm_state hd_set_next hd_set_hsm_state]. by rewrite H2.
Qed.

(** When the start callback of a hart-state device fails, the target stays
    START_PENDING, and every later start request is refused. *)
Theorem start_failure_sticks :
  let m := set_hsm_dev (Some (HsmDevice (Some (λ _ _, SBI_EFAIL)) (Some (Stop hart_off)) None)) demo_machine in
  let '(o, m1) := sbi_hsm_hart_start 0 (Some root) 1 0x80200000 PRV_S 0 m in
  o = Ret SBI_EFAIL /\ hsm_state m1 1 = Some SBI_HSM_STATE_START_PENDING /\
  fst (sbi_hsm_hart_start 0 (Some root) 1 0x80200000 PRV_S 0 m1) = Ret SBI_EINVAL.
Proof. vm_compute. auto. Qed.
