(* ===== verification/Tlb.v ===== *)
(** * Remote TLB maintenance (lib/sbi/sbi_tlb.c)

    The flush functions a hart runs on itself, the queue of requests each hart
    keeps, and the merging of a new request with one already queued.  The
    request entry point, which goes through the IPI layer, is in System.v.

    A busy-wait loop polls; between two polls the other harts run, which is the
    parameter [world] of the section, and [polls] bounds the number of polls
    after which the loop counts as [spinning].

    The theorems: what the flush functions invalidate, against the addresses,
    ASID and VMID requested; that merging two queued requests loses no address
    and no waiting hart; and the behaviour of the queue processing. *)

From Stdlib Require Import ZArith Lia.
From stdpp Require Import base tactics list gmap numbers.
From S2P Require Import Prelude SbiDefs Bitops Locks Fifo Scratch Domain Csr Hart Pmu Machine Hsm.

Definition SBI_TLB_FLUSH_ALL : Z := u64_max.

Definition CSR_HGATP : Z := 0x680.
Definition HGATP_VMID_SHIFT : Z := 44.
Definition HGATP_VMID_MASK : Z := 0x03FFF00000000000.

Definition SBI_PMU_FW_SET_TIMER : Z := 5.
Definition SBI_PMU_FW_IPI_SENT : Z := 6.
Definition SBI_PMU_FW_IPI_RECVD : Z := 7.
Definition SBI_PMU_FW_FENCE_I_SENT : Z := 8.
Definition SBI_PMU_FW_FENCE_I_RECVD : Z := 9.
Definition SBI_PMU_FW_SFENCE_VMA_SENT : Z := 10.
Definition SBI_PMU_FW_SFENCE_VMA_RCVD : Z := 11.
Definition SBI_PMU_FW_SFENCE_VMA_ASID_SENT : Z := 12.
Definition SBI_PMU_FW_SFENCE_VMA_ASID_RCVD : Z := 13.
Definition SBI_PMU_FW_HFENCE_GVMA_SENT : Z := 14.
Definition SBI_PMU_FW_HFENCE_GVMA_RCVD : Z := 15.
Definition SBI_PMU_FW_HFENCE_GVMA_VMID_SENT : Z := 16.
Definition SBI_PMU_FW_HFENCE_GVMA_VMID_RCVD : Z := 17.
Definition SBI_PMU_FW_HFENCE_VVMA_SENT : Z := 18.
Definition SBI_PMU_FW_HFENCE_VVMA_RCVD : Z := 19.
Definition SBI_PMU_FW_HFENCE_VVMA_ASID_SENT : Z := 20.
Definition SBI_PMU_FW_HFENCE_VVMA_ASID_RCVD : Z := 21.

(** ** Local flushes *)

(** The values of [i] in [for (i = 0; i < size; i += PAGE_SIZE)]; when [size] is
    within a page of 2^64 the increment wraps to 0 and the loop has no end. *)
Definition page_offsets (size : Z) : option (list Z) :=
  if 2 ^ 64 - PAGE_SIZE <? size then None
  else Some (map (λ k, k * PAGE_SIZE) (seqZ 0 ((size + PAGE_SIZE - 1) / PAGE_SIZE))).

(** Execute fence [f i] for the offsets of the loop. *)
Definition for_pages (cur size : Z) (f : Z → fence) : M machine unit :=
  match page_offsets size with
  | None => stop spinning
  | Some l => mfor l (λ i, emit (EvFence cur (f i)))
  end.

Definition tlb_flush_all (cur : Z) : M machine unit := emit (EvFence cur F_sfence_vma_all).

Definition hgatp_of_vmid (vmid : Z) : Z := Z.land (shl64 vmid HGATP_VMID_SHIFT) HGATP_VMID_MASK.

Definition sbi_tlb_local_hfence_vvma (cur : Z) (t : sbi_tlb_info) : M machine unit :=
  (count_fw cur SBI_PMU_FW_HFENCE_VVMA_RCVD ;;;
   let g := hgatp_of_vmid (ti_vmid t) in
   hgatp <- on_hart cur (hart_csr (csr_exchange CSR_HGATP g)) ;;
   (if ((ti_start t =? 0) && (ti_size t =? 0)) || (ti_size t =? SBI_TLB_FLUSH_ALL)
    then emit (EvFence cur (F_hfence_vvma_all g))
    else for_pages cur (ti_size t) (λ i, F_hfence_vvma_va g (add64 (ti_start t) i))) ;;;
   on_hart cur (hart_csr (csr_write CSR_HGATP hgatp)))%sbi.

Definition sbi_tlb_local_hfence_gvma (cur : Z) (t : sbi_tlb_info) : M machine unit :=
  (count_fw cur SBI_PMU_FW_HFENCE_GVMA_RCVD ;;;
   if ((ti_start t =? 0) && (ti_size t =? 0)) || (ti_size t =? SBI_TLB_FLUSH_ALL)
   then emit (EvFence cur F_hfence_gvma_all)
   else for_pages cur (ti_size t) (λ i, F_hfence_gvma_gpa (shr64 (add64 (ti_start t) i) 2)))%sbi.

Definition sbi_tlb_local_sfence_vma (cur : Z) (t : sbi_tlb_info) : M machine unit :=
  (count_fw cur SBI_PMU_FW_SFENCE_VMA_RCVD ;;;
   if ((ti_start t =? 0) && (ti_size t =? 0)) || (ti_size t =? SBI_TLB_FLUSH_ALL)
   then tlb_flush_all cur
   else for_pages cur (ti_size t) (λ i, F_sfence_vma (add64 (ti_start t) i)))%sbi.

Definition sbi_tlb_local_hfence_vvma_asid (cur : Z) (t : sbi_tlb_info) : M machine unit :=
  (count_fw cur SBI_PMU_FW_HFENCE_VVMA_ASID_RCVD ;;;
   let g := hgatp_of_vmid (ti_vmid t) in
   hgatp <- on_hart cur (hart_csr (csr_exchange CSR_HGATP g)) ;;
   (if (ti_start t =? 0) && (ti_size t =? 0) then emit (EvFence cur (F_hfence_vvma_all g))
    else if ti_size t =? SBI_TLB_FLUSH_ALL then emit (EvFence cur (F_hfence_vvma_asid g (ti_asid t)))
    else for_pages cur (ti_size t) (λ i, F_hfence_vvma_asid_va g (add64 (ti_start t) i) (ti_asid t))) ;;;
   on_hart cur (hart_csr (csr_write CSR_HGATP hgatp)))%sbi.

Definition sbi_tlb_local_hfence_gvma_vmid (cur : Z) (t : sbi_tlb_info) : M machine unit :=
  (count_fw cur SBI_PMU_FW_HFENCE_GVMA_VMID_RCVD ;;;
   if (ti_start t =? 0) && (ti_size t =? 0) then emit (EvFence cur F_hfence_gvma_all)
   else if ti_size t =? SBI_TLB_FLUSH_ALL then emit (EvFence cur (F_hfence_gvma_vmid (ti_vmid t)))
   else for_pages cur (ti_size t)
          (λ i, F_hfence_gvma_vmid_gpa (shr64 (add64 (ti_start t) i) 2) (ti_vmid t)))%sbi.

Definition sbi_tlb_local_sfence_vma_asid (cur : Z) (t : sbi_tlb_info) : M machine unit :=
  (count_fw cur SBI_PMU_FW_SFENCE_VMA_ASID_RCVD ;;;
   if (ti_start t =? 0) && (ti_size t =? 0) then tlb_flush_all cur
   else if ti_size t =? SBI_TLB_FLUSH_ALL then emit (EvFence cur (F_sfence_vma_asid (ti_asid t)))
   else for_pages cur (ti_size t) (λ i, F_sfence_vma_va_asid (add64 (ti_start t) i) (ti_asid t)))%sbi.

Definition sbi_tlb_local_fence_i (cur : Z) (_ : sbi_tlb_info) : M machine unit :=
  (count_fw cur SBI_PMU_FW_FENCE_I_RECVD ;;; emit (EvFence cur F_fence_i))%sbi.

(** [tinfo->local_fn(tinfo)] *)
Definition call_local_fn (cur : Z) (t : sbi_tlb_info) : M machine unit :=
  match ti_local_fn t with
  | None => stop wild_access
  | Some local_hfence_vvma => sbi_tlb_local_hfence_vvma cur t
  | Some local_hfence_gvma => sbi_tlb_local_hfence_gvma cur t
  | Some local_sfence_vma => sbi_tlb_local_sfence_vma cur t
  | Some local_hfence_vvma_asid => sbi_tlb_local_hfence_vvma_asid cur t
  | Some local_hfence_gvma_vmid => sbi_tlb_local_hfence_gvma_vmid cur t
  | Some local_sfence_vma_asid => sbi_tlb_local_sfence_vma_asid cur t
  | Some local_fence_i => sbi_tlb_local_fence_i cur t
  end.

Definition tlb_pmu_incr_fw_ctr (cur : Z) (data : option sbi_tlb_info) : M machine unit :=
  match data with
  | None => ret tt
  | Some t =>
      match ti_local_fn t with
      | Some local_fence_i => count_fw cur SBI_PMU_FW_FENCE_I_SENT
      | Some local_sfence_vma => count_fw cur SBI_PMU_FW_SFENCE_VMA_SENT
      | Some local_sfence_vma_asid => count_fw cur SBI_PMU_FW_SFENCE_VMA_ASID_SENT
      | Some local_hfence_gvma => count_fw cur SBI_PMU_FW_HFENCE_GVMA_SENT
      | Some local_hfence_gvma_vmid => count_fw cur SBI_PMU_FW_HFENCE_GVMA_VMID_SENT
      | Some local_hfence_vvma => count_fw cur SBI_PMU_FW_HFENCE_VVMA_SENT
      | Some local_hfence_vvma_asid => count_fw cur SBI_PMU_FW_HFENCE_VVMA_ASID_SENT
      | None => ret tt
      end
  end.

(** ** Merging requests *)

(** The result and the updated [curr]. *)
Definition tlb_range_check (next curr : sbi_tlb_info) : Z * sbi_tlb_info :=
  let next_end := add64 (ti_start next) (ti_size next) in
  let curr_end := add64 (ti_start curr) (ti_size curr) in
  let smask := sbi_hartmask_or (ti_smask curr) (ti_smask curr) (ti_smask next) in
  if (ti_start next <=? ti_start curr) && (curr_end <? next_end) then
    (SBI_FIFO_UPDATED, TlbInfo (ti_start next) (ti_size next) (ti_asid curr) (ti_vmid curr) (ti_local_fn curr) smask)
  else if (ti_start curr <=? ti_start next) && (next_end <=? curr_end) then
    (SBI_FIFO_SKIP, TlbInfo (ti_start curr) (ti_size curr) (ti_asid curr) (ti_vmid curr) (ti_local_fn curr) smask)
  else (SBI_FIFO_UNCHANGED, curr).

Definition fn_is (t : sbi_tlb_info) (f : local_fn_name) : bool := bool_decide (ti_local_fn t = Some f).

Definition tlb_update_cb (next curr : sbi_tlb_info) : Z * sbi_tlb_info :=
  if fn_is next local_sfence_vma_asid && fn_is curr local_sfence_vma_asid then
    if ti_asid next =? ti_asid curr then tlb_range_check next curr else (SBI_FIFO_UNCHANGED, curr)
  else if fn_is next local_sfence_vma && fn_is curr local_sfence_vma then tlb_range_check next curr
  else (SBI_FIFO_UNCHANGED, curr).

(** ** The queue of a hart *)

(** A queue operation on the fifo of hart [h]. *)
Definition on_fifo {A} (h : Z) (c : M (option (sbi_fifo sbi_tlb_info)) A) : M machine A :=
  on_hart h (λ d,
    let '(o, f) := c (Some (hd_tlb_fifo d)) in
    (o, match f with Some f => hd_set_tlb_fifo f d | None => d end)).

Section Loops.
Context (world : machine → machine) (polls : nat).

(** [while (atomic_raw_xchg_ulong(rtlb_sync, 1)) ;] on the flag of hart [r]. *)
Fixpoint set_sync_loop (n : nat) (r : Z) : M machine unit :=
  match n with
  | O => stop spinning
  | S n' =>
      (old <- on_hart r (sync_cell (atomic_raw_xchg_ulong 1)) ;;
       if truthy old then modify world ;;; set_sync_loop n' r else ret tt)%sbi
  end.

Definition notify_waiter (r : Z) : M machine unit :=
  (rscratch <- scratch_ptr r ;;
   match rscratch with
   | None => ret tt
   | Some _ => set_sync_loop polls r
   end)%sbi.

Definition tlb_entry_process (cur : Z) (t : sbi_tlb_info) : M machine unit :=
  (call_local_fn cur t ;;;
   mfor (sbi_hartmask_for_each_hart (ti_smask t)) notify_waiter)%sbi.

(** The loop of tlb_process_count; [n] bounds its iterations. *)
Fixpoint process_count_loop (n : nat) (cur count deq_count : Z) : M machine unit :=
  match n with
  | O => stop spinning
  | S n' =>
      (r <- on_fifo cur (sbi_fifo_dequeue tlb_info_zero (Some tt)) ;;
       match r with
       | (rc, Some t) =>
           if truthy rc then ret tt
           else
             tlb_entry_process cur t ;;;
             let deq_count := u32 (deq_count + 1) in
             if count <? deq_count then ret tt else process_count_loop n' cur count deq_count
       | (_, None) => ret tt
       end)%sbi
  end.

Definition tlb_process_count (cur count : Z) : M machine unit :=
  process_count_loop (S (Z.to_nat count)) cur count 0.

(** The loop of tlb_process; the queue holds at most [n] entries. *)
Fixpoint process_loop (n : nat) (cur : Z) : M machine unit :=
  match n with
  | O => stop spinning
  | S n' =>
      (r <- on_fifo cur (sbi_fifo_dequeue tlb_info_zero (Some tt)) ;;
       match r with
       | (rc, Some t) =>
           if truthy rc then ret tt else tlb_entry_process cur t ;;; process_loop n' cur
       | (_, None) => ret tt
       end)%sbi
  end.

Definition tlb_process (cur : Z) : M machine unit := process_loop polls cur.

Fixpoint sync_loop (n : nat) (cur : Z) : M machine unit :=
  match n with
  | O => stop spinning
  | S n' =>
      (v <- on_hart cur (sync_cell (atomic_raw_xchg_ulong 0)) ;;
       if truthy v then ret tt
       else tlb_process_count cur 1 ;;; modify world ;;; sync_loop n' cur)%sbi
  end.

Definition tlb_sync (cur : Z) : M machine unit := sync_loop polls cur.

Fixpoint enqueue_loop (n : nat) (cur remote : Z) (t : sbi_tlb_info) : M machine unit :=
  match n with
  | O => stop spinning
  | S n' =>
      (rc <- on_fifo remote (sbi_fifo_enqueue (Some t)) ;;
       if rc <? 0 then tlb_process_count cur 1 ;;; modify world ;;; enqueue_loop n' cur remote t
       else ret tt)%sbi
  end.

(** The request is upgraded in the caller's object. *)
Definition upgrade (limit : Z) (t : sbi_tlb_info) : sbi_tlb_info :=
  if limit <? ti_size t
  then TlbInfo 0 SBI_TLB_FLUSH_ALL (ti_asid t) (ti_vmid t) (ti_local_fn t) (ti_smask t)
  else t.

(** The result and the caller's object, which may have been upgraded. *)
Definition tlb_update (cur remote : Z) (t : sbi_tlb_info) : M machine (Z * sbi_tlb_info) :=
  (limit <- gets m_tlb_range_flush_limit ;;
   let t := upgrade limit t in
   if remote =? cur then
     call_local_fn cur t ;;; ret (-1, t)
   else
     rc <- on_fifo remote (sbi_fifo_inplace_update tlb_info_zero (Some t) tlb_update_cb) ;;
     if negb (rc =? SBI_FIFO_UNCHANGED) then ret (1, t)
     else
       enqueue_loop polls cur remote t ;;;
       ret (0, t))%sbi.

End Loops.

(** ** What a fence invalidates *)

(** A cached translation, or the cached instructions. *)
Inductive tlb_entry : Type :=
| SEntry (va asid : Z)               (* single-stage, or HS-level *)
| VSEntry (vmid va asid : Z)         (* first stage of a guest *)
| GEntry (vmid gpa : Z)              (* second stage of a guest *)
| Insn.

Definition same_page (x y : Z) : bool := x / PAGE_SIZE =? y / PAGE_SIZE.

Definition hgatp_vmid (g : Z) : Z := Z.shiftr (Z.land g HGATP_VMID_MASK) HGATP_VMID_SHIFT.

(** The architecture's meaning of the fence instructions. *)
Definition invalidates (f : fence) (e : tlb_entry) : bool :=
  match f, e with
  | F_sfence_vma_all, SEntry _ _ => true
  | F_sfence_vma va, SEntry va' _ => same_page va va'
  | F_sfence_vma_asid asid, SEntry _ asid' => asid =? asid'
  | F_sfence_vma_va_asid va asid, SEntry va' asid' => same_page va va' && (asid =? asid')
  | F_hfence_vvma_all g, VSEntry vmid _ _ => hgatp_vmid g =? vmid
  | F_hfence_vvma_va g va, VSEntry vmid va' _ => (hgatp_vmid g =? vmid) && same_page va va'
  | F_hfence_vvma_asid g asid, VSEntry vmid _ asid' => (hgatp_vmid g =? vmid) && (asid =? asid')
  | F_hfence_vvma_asid_va g va asid, VSEntry vmid va' asid' =>
      (hgatp_vmid g =? vmid) && same_page va va' && (asid =? asid')
  | F_hfence_gvma_all, GEntry _ _ => true
  | F_hfence_gvma_gpa g, GEntry _ gpa => same_page (g * 4) gpa
  | F_hfence_gvma_vmid vmid, GEntry vmid' _ => vmid =? vmid'
  | F_hfence_gvma_vmid_gpa g vmid, GEntry vmid' gpa => same_page (g * 4) gpa && (vmid =? vmid')
  | F_fence_i, Insn => true
  | _, _ => false
  end.

Definition in_range (t : sbi_tlb_info) (a : Z) : Prop :=
  (ti_start t = 0 /\ ti_size t = 0) \/ ti_size t = SBI_TLB_FLUSH_ALL \/
  ti_start t <= a < ti_start t + ti_size t.

(** What a request asks to be invalidated. *)
Definition requested (t : sbi_tlb_info) (e : tlb_entry) : Prop :=
  match ti_local_fn t, e with
  | Some local_sfence_vma, SEntry va _ => in_range t va
  | Some local_sfence_vma_asid, SEntry va asid => in_range t va /\ asid = ti_asid t
  | Some local_hfence_gvma, GEntry _ gpa => in_range t gpa
  | Some local_hfence_gvma_vmid, GEntry vmid gpa => in_range t gpa /\ vmid = ti_vmid t
  | Some local_hfence_vvma, VSEntry vmid va _ => in_range t va /\ vmid = ti_vmid t
  | Some local_hfence_vvma_asid, VSEntry vmid va asid =>
      in_range t va /\ vmid = ti_vmid t /\ asid = ti_asid t
  | Some local_fence_i, Insn => True
  | _, _ => False
  end.

(** A request a supervisor may make: a page-aligned range that does not wrap
    (or everything), and a VMID that fits its field. *)
Definition range_ok (start size : Z) : Prop :=
  size = SBI_TLB_FLUSH_ALL \/
  (0 <= start /\ start mod PAGE_SIZE = 0 /\ 0 <= size <= 2 ^ 64 - PAGE_SIZE /\ start + size <= 2 ^ 64).

Definition request_ok (t : sbi_tlb_info) : Prop :=
  range_ok (ti_start t) (ti_size t) /\ 0 <= ti_vmid t < 2 ^ 14 /\ is_Some (ti_local_fn t).

(** *** The fences executed *)

Definition flush_fences (t : sbi_tlb_info) : list fence :=
  let g := hgatp_of_vmid (ti_vmid t) in
  let zero := (ti_start t =? 0) && (ti_size t =? 0) in
  let all := ti_size t =? SBI_TLB_FLUSH_ALL in
  let pages f := match page_offsets (ti_size t) with Some l => map f (map (add64 (ti_start t)) l) | None => [] end in
  match ti_local_fn t with
  | None => []
  | Some local_sfence_vma => if zero || all then [F_sfence_vma_all] else pages F_sfence_vma
  | Some local_sfence_vma_asid =>
      if zero then [F_sfence_vma_all] else if all then [F_sfence_vma_asid (ti_asid t)]
      else pages (λ a, F_sfence_vma_va_asid a (ti_asid t))
  | Some local_hfence_gvma =>
      if zero || all then [F_hfence_gvma_all] else pages (λ a, F_hfence_gvma_gpa (shr64 a 2))
  | Some local_hfence_gvma_vmid =>
      if zero then [F_hfence_gvma_all] else if all then [F_hfence_gvma_vmid (ti_vmid t)]
      else pages (λ a, F_hfence_gvma_vmid_gpa (shr64 a 2) (ti_vmid t))
  | Some local_hfence_vvma =>
      if zero || all then [F_hfence_vvma_all g] else pages (F_hfence_vvma_va g)
  | Some local_hfence_vvma_asid =>
      if zero then [F_hfence_vvma_all g] else if all then [F_hfence_vvma_asid g (ti_asid t)]
      else pages (λ a, F_hfence_vvma_asid_va g a (ti_asid t))
  | Some local_fence_i => [F_fence_i]
  end.

Lemma page_offsets_some size :
  0 <= size <= 2 ^ 64 - PAGE_SIZE -> is_Some (page_offsets size).
Proof. intros H. unfold page_offsets. destruct (Z.ltb_spec (2 ^ 64 - PAGE_SIZE) size); [lia|by eexists]. Qed.

(** Every address of the range lies in the page of one of the fenced addresses. *)
Lemma pages_cover start size l a :
  0 <= start -> start mod PAGE_SIZE = 0 -> start + size <= 2 ^ 64 -> page_offsets size = Some l ->
  start <= a < start + size ->
  exists b, b ∈ map (add64 start) l /\ same_page b a = true /\ b mod 4 = 0 /\ is_u64 b.
Proof.
  intros H0 Hal Hw Hp Ha. unfold page_offsets in Hp. case_if_in Hp; [discriminate|]. injection Hp as <-.
  unfold PAGE_SIZE in *. set (k := (a - start) / 4096).
  pose proof (Z.div_mod (a - start) 4096 ltac:(lia)) as Hk. fold k in Hk.
  pose proof (Z.mod_pos_bound (a - start) 4096 ltac:(lia)) as Hr.
  pose proof (Z.div_mod start 4096 ltac:(lia)) as Hs. rewrite Hal in Hs.
  assert (Hb : is_u64 (start + k * 4096)) by (unfold is_u64; lia).
  exists (start + k * 4096). split; [|split; [|split; [|done]]].
  - apply list_elem_of_fmap. exists (k * 4096). split; [unfold add64; by rewrite u64_small|].
    apply list_elem_of_fmap. exists k. split; [done|]. apply elem_of_seqZ.
    split; [lia|]. apply Z.div_lt_upper_bound; [lia|].
    pose proof (Z.div_mod (size + 4096 - 1) 4096 ltac:(lia)).
    pose proof (Z.mod_pos_bound (size + 4096 - 1) 4096 ltac:(lia)). lia.
  - unfold same_page, PAGE_SIZE. apply Z.eqb_eq.
    apply (Z.div_unique a 4096 _ ((a - start) mod 4096)); [lia|].
    rewrite (Z.div_add start k 4096) by lia. lia.
  - rewrite Hs. replace (4096 * (start / 4096) + 0 + k * 4096) with (((start / 4096) * 1024 + k * 1024) * 4) by lia.
    by rewrite Z.mod_mul.
Qed.

Lemma vmid_of_hgatp vmid : 0 <= vmid < 2 ^ 14 -> hgatp_vmid (hgatp_of_vmid vmid) = vmid.
Proof.
  intros H. unfold hgatp_vmid, hgatp_of_vmid, HGATP_VMID_SHIFT, shl64. rewrite Z.mod_small by lia.
  rewrite Z.shiftl_mul_pow2 by lia.
  rewrite u64_small by (unfold is_u64; lia).
  rewrite <- Z.land_assoc, Z.land_diag.
  assert (E : Z.land (vmid * 2 ^ 44) HGATP_VMID_MASK = vmid * 2 ^ 44).
  { apply Z.bits_inj'. intros i Hi. rewrite Z.land_spec.
    change HGATP_VMID_MASK with (Z.shiftl (Z.ones 14) 44).
    rewrite <- Z.shiftl_mul_pow2, !Z.shiftl_spec by lia.
    destruct (Z.lt_ge_cases i 44); [by rewrite !Z.testbit_neg_r by lia|].
    rewrite <- Z.land_spec, Z.land_ones by lia. by rewrite Z.mod_small by lia. }
  rewrite E, Z.shiftr_div_pow2 by lia. by rewrite Z.div_mul.
Qed.

Lemma shr2_mul4 b : is_u64 b -> b mod 4 = 0 -> shr64 b 2 * 4 = b.
Proof.
  intros Hb Hm. unfold shr64. change (2 mod 64) with 2. rewrite Z.shiftr_div_pow2 by lia.
  pose proof (Z.div_mod b 4 ltac:(lia)). change (2 ^ 2) with 4. lia.
Qed.

Lemma covers_pages (P : Z → fence) (t : sbi_tlb_info) (e : tlb_entry) a :
  range_ok (ti_start t) (ti_size t) -> ti_size t <> SBI_TLB_FLUSH_ALL ->
  ti_start t <= a < ti_start t + ti_size t ->
  (forall b, same_page b a = true -> b mod 4 = 0 -> is_u64 b -> invalidates (P b) e = true) ->
  exists f, f ∈ match page_offsets (ti_size t) with
                | Some l => map P (map (add64 (ti_start t)) l) | None => [] end /\
            invalidates f e = true.
Proof.
  intros [?|(H0 & Hal & Hs & Hw)] Hn Ha HP; [done|].
  destruct (page_offsets_some _ Hs) as [l El]. rewrite El.
  destruct (pages_cover _ _ _ a H0 Hal Hw El Ha) as (b & Hb & Hsp & H4 & Hu).
  exists (P b). split; [by apply list_elem_of_fmap; exists b|by apply HP].
Qed.

Ltac solve_fence :=
  first [ eexists; split; [apply list_elem_of_singleton; reflexivity|];
          cbn [invalidates]; rewrite ?vmid_of_hgatp by lia; by rewrite ?Z.eqb_refl
        | eapply covers_pages; [eassumption|eassumption|eassumption|];
          let b := fresh "b" in intros b ? ? ?; cbn [invalidates];
          rewrite ?vmid_of_hgatp by lia; rewrite ?shr2_mul4 by assumption; rewrite ?Z.eqb_refl, ?andb_true_r; assumption ].

(** The fences of a request invalidate everything the request asks for. *)
Lemma flush_covers t e :
  request_ok t -> requested t e -> exists f, f ∈ flush_fences t /\ invalidates f e = true.
Proof.
  intros (Hr & Hv & [fn Hfn]) Hq. unfold requested in Hq. unfold flush_fences. rewrite Hfn in *.
  assert (Hcase : ((ti_start t =? 0) && (ti_size t =? 0) = true) \/
    ((ti_start t =? 0) && (ti_size t =? 0) = false /\ ti_size t = SBI_TLB_FLUSH_ALL) \/
    ((ti_start t =? 0) && (ti_size t =? 0) = false /\ ti_size t <> SBI_TLB_FLUSH_ALL)).
  { destruct ((ti_start t =? 0) && (ti_size t =? 0)); [by left|right].
    destruct (Z.eq_dec (ti_size t) SBI_TLB_FLUSH_ALL); auto. }
  assert (Hin : forall a, in_range t a -> (ti_start t =? 0) && (ti_size t =? 0) = false ->
    ti_size t <> SBI_TLB_FLUSH_ALL -> ti_start t <= a < ti_start t + ti_size t).
  { intros a [[E1 E2]|[E|E]] Hz Hn; [|done|done]. rewrite E1, E2 in Hz. done. }
  destruct fn, e; try done; destruct_and?; subst;
    (destruct Hcase as [->|[[-> Hall]|[Hz Hn]]];
     [cbn [orb]; solve_fence
     |rewrite Hall, Z.eqb_refl; cbn [orb]; solve_fence
     |match goal with H : in_range t _ |- _ => specialize (Hin _ H Hz Hn) end; rewrite Hz; pose proof (proj2 (Z.eqb_neq _ _) Hn) as Hne; rewrite Hne; cbn [orb]; solve_fence])
    || (cbn [orb]; solve_fence).
Qed.

(** ** Running the flush functions *)

(** The firmware counters have their rows. *)
Definition fw_ready (m : machine) : Prop :=
  length (fw_event_map (m_pmu m)) = 128%nat /\ Forall (λ r, length r = 32%nat) (fw_event_map (m_pmu m)).

(** The machine without its trace, its firmware counters and its CSRs. *)
Definition forget (m : machine) : machine :=
  Machine (map (fmap (hd_set_csrs ∅)) (m_harts m)) (m_scratch m) (m_offs m) (m_domains m) pmu_initial
    (m_hsm_dev m) (m_ipi_dev m) (m_ipi_ops_array m) (m_ipi_smode_event m) (m_ipi_halt_event m)
    (m_tlb_event m) (m_tlb_range_flush_limit m) (m_timer_dev m) (m_get_time_val m) (m_mtime m)
    (m_reset_devs m) (m_console_dev m) (m_input m) (m_exts m) (m_impid m) (m_umem m) [].

(** What CSR [r] of hart [h] reads. *)
Definition csr_at (m : machine) (h r : Z) : Z :=
  match hart m h with Some d => default 0 (hd_csrs d !! r) | None => 0 end.

(** [quiet m m']: only the trace and the firmware counters differ (and the CSR
    files may differ in registers that read the same). *)
Record quiet (m m' : machine) : Prop := {
  q_same : forget m' = forget m;
  q_fw : fw_ready m -> fw_ready m';
  q_csrs : forall h r, csr_at m' h r = csr_at m h r;
}.

#[export] Instance quiet_preorder : PreOrder quiet.
Proof.
  split.
  - intros m. by constructor.
  - intros m1 m2 m3 [A1 A2 A3] [B1 B2 B3]. constructor; [congruence|auto|]. intros h r. by rewrite B3.
Qed.

Lemma quiet_emit m e : quiet m (add_event e m).
Proof. by constructor. Qed.

Lemma hart_forget m h : hart (forget m) h = hd_set_csrs ∅ <$> hart m h.
Proof.
  unfold hart. destruct (h <? 0); [done|]. cbn. rewrite list_lookup_fmap.
  by destruct (m_harts m !! Z.to_nat h) as [[]|].
Qed.

(** What a quiet run keeps of the data of a hart. *)
Lemma quiet_hart m m' h d :
  quiet m m' -> hart m h = Some d ->
  exists d', hart m' h = Some d' /\ hd_set_csrs ∅ d' = hd_set_csrs ∅ d.
Proof.
  intros [Q _ _] H. pose proof (hart_forget m h) as H1. pose proof (hart_forget m' h) as H2.
  rewrite Q in H2. rewrite H1, H in H2. cbn in H2. destruct (hart m' h) as [d'|]; [|discriminate].
  exists d'. split; [done|]. by apply (inj Some).
Qed.

Lemma quiet_none m m' h : quiet m m' -> hart m h = None -> hart m' h = None.
Proof.
  intros [Q _ _] H. pose proof (hart_forget m h) as H1. pose proof (hart_forget m' h) as H2.
  rewrite Q, H1, H in H2. by destruct (hart m' h).
Qed.

Lemma count_fw_run m cur id :
  fw_ready m -> 0 <= cur < 128 -> 0 <= id < 22 ->
  exists m', count_fw cur id m = (Ret tt, m') /\ quiet m m' /\ m_trace m' = m_trace m /\ m_harts m' = m_harts m.
Proof.
  intros [Hl Hf] Hc Hi. unfold count_fw, on_pmu, zoom, bind, sbi_pmu_ctr_incr_fw.
  destruct (Z.leb_spec SBI_PMU_FW_MAX id); [unfold SBI_PMU_FW_MAX in *; lia|].
  unfold bind, upd_fw, get_fw.
  destruct (lookup_lt_is_Some_2 (fw_event_map (m_pmu m)) (Z.to_nat cur)) as [row Er]; [lia|].
  pose proof (Forall_lookup_1 _ _ _ _ Hf Er) as Hr. cbn in Hr.
  destruct (lookup_lt_is_Some_2 row (Z.to_nat id)) as [v Ev]; [lia|].
  unfold bind. rewrite Er. cbn [mbind option_bind]. rewrite Ev. cbn.
  eexists. split; [reflexivity|]. split; [|done]. constructor; [done| |done].
  intros _. split; cbn; [by rewrite length_alter|].
  apply Forall_alter; [done|]. intros r Er' Hr'. by rewrite length_alter.
Qed.

Lemma mfor_emit {I} (f : I → event) l m :
  exists m', mfor l (λ i, emit (f i)) m = (Ret tt, m') /\ quiet m m' /\
    m_trace m' = m_trace m ++ map f l /\ m_harts m' = m_harts m.
Proof.
  revert m. induction l as [|i l IH]; intros m; cbn [mfor map].
  - exists m. split; [done|]. split; [reflexivity|]. by rewrite app_nil_r.
  - unfold bind at 1. cbn. destruct (IH (add_event (f i) m)) as (m' & E & Q & T & H).
    exists m'. split; [done|]. split; [by etrans; [apply quiet_emit|]|]. split; [|by rewrite H].
    rewrite T. cbn. by rewrite <- app_assoc.
Qed.

Lemma forget_put_csrs m cur d c :
  hart m cur = Some d -> forget (put_hart cur (hd_set_csrs c d) m) = forget m.
Proof.
  intros H. unfold forget, put_hart. cbn.
  assert (E : map (fmap (hd_set_csrs ∅)) (<[Z.to_nat cur:=Some (hd_set_csrs c d)]> (m_harts m)) =
              map (fmap (hd_set_csrs ∅)) (m_harts m)); [|by rewrite E].
  unfold hart in H. destruct (cur <? 0); [discriminate|].
  destruct (m_harts m !! Z.to_nat cur) as [o|] eqn:El; [|discriminate]. cbn in H. subst o.
  rewrite list_fmap_insert. apply list_insert_id. by rewrite list_lookup_fmap, El.
Qed.

(** HGATP is set for the duration of [body] and restored. *)
Lemma with_hgatp_run m cur d g (body : M machine unit) m2 :
  hart m cur = Some d ->
  let m1 := put_hart cur (hd_set_csrs (<[CSR_HGATP := g]> (hd_csrs d)) d) m in
  body m1 = (Ret tt, m2) -> quiet m1 m2 -> m_harts m2 = m_harts m1 ->
  exists m3,
    (hgatp <- on_hart cur (hart_csr (csr_exchange CSR_HGATP g)) ;;
     body ;;; on_hart cur (hart_csr (csr_write CSR_HGATP hgatp)))%sbi m = (Ret tt, m3) /\
    quiet m m3 /\ m_trace m3 = m_trace m2.
Proof.
  intros H m1 Hb Q Hh. set (old := default 0 (hd_csrs d !! CSR_HGATP)).
  rewrite (bind_on_hart cur _ _ m d old (hd_set_csrs (<[CSR_HGATP := g]> (hd_csrs d)) d) H eq_refl).
  fold m1. rewrite (bind_Ret _ _ _ _ _ Hb).
  assert (H2 : hart m2 cur = Some (hd_set_csrs (<[CSR_HGATP := g]> (hd_csrs d)) d)).
  { unfold hart. rewrite Hh. change (hart m1 cur = Some (hd_set_csrs (<[CSR_HGATP := g]> (hd_csrs d)) d)).
    by eapply hart_put_eq. }
  rewrite (on_hart_run _ _ _ _ H2). cbn. eexists. split; [done|]. split; [|done].
  pose proof (hart_nonneg _ _ _ H). destruct Q as [Q1 Q2 Q3].
  match goal with |- quiet m (put_hart cur ?d3 m2) => set (m3 := put_hart cur d3 m2) end.
  assert (F : forget m3 = forget m2) by (by apply forget_put_csrs).
  constructor.
  - rewrite F, Q1. by apply forget_put_csrs.
  - exact Q2.
  - intros h r. unfold csr_at. destruct (Z.eq_dec h cur) as [->|Hne].
    + subst m3. rewrite (hart_put_eq _ _ _ _ H2), H. cbn.
      destruct (decide (r = CSR_HGATP)) as [->|]; [by rewrite lookup_insert_eq|].
      by rewrite !lookup_insert_ne.
    + subst m3. rewrite hart_put_ne by (done || lia). unfold hart at 1. rewrite Hh.
      change (match hart m1 h with Some d0 => default 0 (hd_csrs d0 !! r) | None => 0 end = 
              match hart m h with Some d0 => default 0 (hd_csrs d0 !! r) | None => 0 end).
      subst m1. by rewrite hart_put_ne by (done || lia).
Qed.

Lemma for_pages_run m cur t (P : Z → fence) :
  range_ok (ti_start t) (ti_size t) -> ti_size t <> SBI_TLB_FLUSH_ALL ->
  exists m', for_pages cur (ti_size t) (λ i, P (add64 (ti_start t) i)) m = (Ret tt, m') /\
    quiet m m' /\ m_harts m' = m_harts m /\
    m_trace m' = m_trace m ++ map (EvFence cur)
      match page_offsets (ti_size t) with Some l => map P (map (add64 (ti_start t)) l) | None => [] end.
Proof.
  intros [?|(_ & _ & Hs & _)] Hn; [done|]. unfold for_pages.
  destruct (page_offsets_some _ Hs) as [l El]. rewrite El.
  destruct (mfor_emit (λ i, EvFence cur (P (add64 (ti_start t) i))) l m) as (m' & E & Q & T & H).
  exists m'. split; [done|]. split; [done|]. split; [done|]. rewrite T, !map_map. done.
Qed.

(** What the body of a flush function does: one fence, or one per page. *)
Lemma emit_run m cur f :
  exists m', emit (EvFence cur f) m = (Ret tt, m') /\ quiet m m' /\ m_harts m' = m_harts m /\
    m_trace m' = m_trace m ++ map (EvFence cur) [f].
Proof. eexists. split; [reflexivity|]. split; [apply quiet_emit|done]. Qed.

Lemma body_run m cur t (b1 b2 : bool) (f1 f2 : fence) P :
  range_ok (ti_start t) (ti_size t) ->
  (b1 = false -> b2 = false -> ti_size t <> SBI_TLB_FLUSH_ALL) ->
  exists m', (if b1 then emit (EvFence cur f1) else if b2 then emit (EvFence cur f2)
              else for_pages cur (ti_size t) (λ i, P (add64 (ti_start t) i))) m = (Ret tt, m') /\
    quiet m m' /\ m_harts m' = m_harts m /\
    m_trace m' = m_trace m ++ map (EvFence cur)
      (if b1 then [f1] else if b2 then [f2] else
       match page_offsets (ti_size t) with Some l => map P (map (add64 (ti_start t)) l) | None => [] end).
Proof.
  intros Hr Hn. destruct b1; [apply emit_run|]. destruct b2; [apply emit_run|]. by apply for_pages_run; auto.
Qed.

Lemma call_local_fn_run m cur d t :
  hart m cur = Some d -> fw_ready m -> 0 <= cur < 128 -> request_ok t ->
  exists m', call_local_fn cur t m = (Ret tt, m') /\ quiet m m' /\
    m_trace m' = m_trace m ++ map (EvFence cur) (flush_fences t).
Proof.
  intros H Hf Hc (Hr & Hv & [fn Hfn]).
  assert (Hcount : forall id, 0 <= id < 22 -> forall (k : M machine unit) (es : list fence),
    (forall m1 d1, m_trace m1 = m_trace m -> hart m1 cur = Some d1 ->
       exists m', k m1 = (Ret tt, m') /\ quiet m1 m' /\ m_trace m' = m_trace m1 ++ map (EvFence cur) es) ->
    exists m', (count_fw cur id ;;; k)%sbi m = (Ret tt, m') /\ quiet m m' /\
      m_trace m' = m_trace m ++ map (EvFence cur) es).
  { intros id Hi k es Hk. destruct (count_fw_run m cur id Hf Hc Hi) as (m1 & E1 & Q1 & T1 & H1).
    assert (Hd1 : hart m1 cur = Some d) by (unfold hart; rewrite H1; exact H).
    destruct (Hk m1 d T1 Hd1) as (m' & E & Q & T).
    exists m'. split; [by rewrite (bind_Ret _ _ _ _ _ E1)|]. split; [by etrans|congruence]. }
  assert (Hne : (ti_size t =? SBI_TLB_FLUSH_ALL) = false -> ti_size t <> SBI_TLB_FLUSH_ALL)
    by (by intros ?%Z.eqb_neq).
  assert (Hne2 : ((ti_start t =? 0) && (ti_size t =? 0)) || (ti_size t =? SBI_TLB_FLUSH_ALL) = false ->
    ti_size t <> SBI_TLB_FLUSH_ALL) by (intros [_ ?]%orb_false_iff; auto).
  unfold call_local_fn, flush_fences. rewrite Hfn.
  destruct fn; (eapply Hcount; [done|]; intros m1 d1 _ Hd1).
  - destruct (body_run (put_hart cur (hd_set_csrs (<[CSR_HGATP := hgatp_of_vmid (ti_vmid t)]> (hd_csrs d1)) d1) m1)
      cur t (((ti_start t =? 0) && (ti_size t =? 0)) || (ti_size t =? SBI_TLB_FLUSH_ALL)) false
      (F_hfence_vvma_all (hgatp_of_vmid (ti_vmid t))) F_fence_i (F_hfence_vvma_va (hgatp_of_vmid (ti_vmid t))) Hr)
      as (m2 & E2 & Q2 & Hh & T2); [auto|].
    destruct (with_hgatp_run m1 cur d1 _ _ m2 Hd1 E2 Q2 Hh) as (m3 & E3 & Q3 & T3).
    exists m3. split; [exact E3|]. split; [done|]. by rewrite T3, T2.
  - destruct (body_run m1 cur t (((ti_start t =? 0) && (ti_size t =? 0)) || (ti_size t =? SBI_TLB_FLUSH_ALL)) false
      F_hfence_gvma_all F_fence_i (λ a, F_hfence_gvma_gpa (shr64 a 2)) Hr) as (m2 & E2 & Q2 & Hh & T2); [auto|].
    by exists m2.
  - destruct (body_run m1 cur t (((ti_start t =? 0) && (ti_size t =? 0)) || (ti_size t =? SBI_TLB_FLUSH_ALL)) false
      F_sfence_vma_all F_fence_i F_sfence_vma Hr) as (m2 & E2 & Q2 & Hh & T2); [auto|]. by exists m2.
  - destruct (body_run (put_hart cur (hd_set_csrs (<[CSR_HGATP := hgatp_of_vmid (ti_vmid t)]> (hd_csrs d1)) d1) m1)
      cur t ((ti_start t =? 0) && (ti_size t =? 0)) (ti_size t =? SBI_TLB_FLUSH_ALL)
      (F_hfence_vvma_all (hgatp_of_vmid (ti_vmid t))) (F_hfence_vvma_asid (hgatp_of_vmid (ti_vmid t)) (ti_asid t))
      (λ a, F_hfence_vvma_asid_va (hgatp_of_vmid (ti_vmid t)) a (ti_asid t)) Hr)
      as (m2 & E2 & Q2 & Hh & T2); [auto|].
    destruct (with_hgatp_run m1 cur d1 _ _ m2 Hd1 E2 Q2 Hh) as (m3 & E3 & Q3 & T3).
    exists m3. split; [exact E3|]. split; [done|]. by rewrite T3, T2.
  - destruct (body_run m1 cur t ((ti_start t =? 0) && (ti_size t =? 0)) (ti_size t =? SBI_TLB_FLUSH_ALL)
      F_hfence_gvma_all (F_hfence_gvma_vmid (ti_vmid t)) (λ a, F_hfence_gvma_vmid_gpa (shr64 a 2) (ti_vmid t)) Hr)
      as (m2 & E2 & Q2 & Hh & T2); [auto|]. by exists m2.
  - destruct (body_run m1 cur t ((ti_start t =? 0) && (ti_size t =? 0)) (ti_size t =? SBI_TLB_FLUSH_ALL)
      F_sfence_vma_all (F_sfence_vma_asid (ti_asid t)) (λ a, F_sfence_vma_va_asid a (ti_asid t)) Hr)
      as (m2 & E2 & Q2 & Hh & T2); [auto|]. by exists m2.
  - destruct (emit_run m1 cur F_fence_i) as (m2 & E2 & Q2 & _ & T2). by exists m2.
Qed.

(** [C8] A hart that runs the flush function of a request invalidates everything
    the request asks for: for every kind of fence and every page-aligned range
    (or a full flush) the function returns, the fences it executes on this hart
    cover every requested translation, at the requested ASID and VMID, and the
    rest of the machine, HGATP included, is as before. *)
Theorem tlb_local_flush_complete (m : machine) (cur : Z) (d : hart_data) (t : sbi_tlb_info) :
  hart m cur = Some d -> fw_ready m -> 0 <= cur < 128 -> request_ok t ->
  exists m' es, call_local_fn cur t m = (Ret tt, m') /\ quiet m m' /\
    m_trace m' = m_trace m ++ map (EvFence cur) es /\
    forall e, requested t e -> exists f, f ∈ es /\ invalidates f e = true.
Proof.
  intros H Hf Hc Hr. destruct (call_local_fn_run m cur d t H Hf Hc Hr) as (m' & E & Q & T).
  exists m', (flush_fences t). split; [done|]. split; [done|]. split; [done|].
  intros e He. by apply flush_covers.
Qed.

Lemma tlb_local_flush_complete_witness :
  let t := TlbInfo 0x40000000 0x3000 0 5 (Some local_hfence_vvma) (Hartmask [2; 0]) in
  exists m' es, call_local_fn 0 t demo_machine = (Ret tt, m') /\ quiet demo_machine m' /\
    m_trace m' = m_trace demo_machine ++ map (EvFence 0) es /\
    forall e, requested t e -> exists f, f ∈ es /\ invalidates f e = true.
Proof.
  apply (tlb_local_flush_complete demo_machine 0 (demo_hart SBI_HSM_STATE_STARTED)
    (TlbInfo 0x40000000 0x3000 0 5 (Some local_hfence_vvma) (Hartmask [2; 0])));
    [reflexivity| |lia|].
  - split; [reflexivity|]. apply Forall_forall. intros r Hr.
    apply list_elem_of_In in Hr. apply list_elem_of_lookup in Hr as [i Hi].
    assert (Hall : forallb (λ r, Nat.eqb (length r) 32) (fw_event_map (m_pmu demo_machine)) = true)
      by (vm_compute; reflexivity).
    rewrite forallb_forall in Hall. apply Nat.eqb_eq, Hall, list_elem_of_In. by eapply list_elem_of_lookup_2.
  - split; [right; cbn; unfold PAGE_SIZE; repeat split; reflexivity || lia|]. split; [cbn; lia|by eexists].
Defined.

(** ** Merging is sound *)

(** The two kinds of request the queue merges; those of any other kind are only
    ever appended. *)
Definition mergeable (t : sbi_tlb_info) : bool := fn_is t local_sfence_vma || fn_is t local_sfence_vma_asid.

(** A queued request.  If it can be merged, its range must not reach the end of
    the address space and not be the empty range at 0, by which a supervisor may
    ask for a full flush: such requests can be lost ([merge_loses_last_page] and
    [merge_loses_full_flush] below).  The upgraded full flush is fine. *)
Definition queued_ok (t : sbi_tlb_info) : Prop :=
  is_u64 (ti_start t) /\ is_u64 (ti_size t) /\ hartmask_wf (ti_smask t) /\
  (mergeable t = true ->
   (ti_start t = 0 /\ ti_size t = SBI_TLB_FLUSH_ALL) \/
   ((ti_start t <> 0 \/ ti_size t <> 0) /\ ti_size t <> SBI_TLB_FLUSH_ALL /\ ti_start t + ti_size t < 2 ^ 64)).

(** What the queue [l] of a hart owes: the invalidation of [e], followed by a
    notification to hart [w]. *)
Definition owed (l : list sbi_tlb_info) (e : tlb_entry) (w : Z) : Prop :=
  exists t, t ∈ l /\ requested t e /\ w ∈ hartmask_set (ti_smask t).

(** The merged request [u] stands for both [a] and [b]. *)
Definition subsumes (u a : sbi_tlb_info) : Prop :=
  (forall e, requested a e -> requested u e) /\
  hartmask_set (ti_smask a) ⊆ hartmask_set (ti_smask u).

Lemma requested_mono a u :
  ti_local_fn u = ti_local_fn a -> ti_asid u = ti_asid a \/ ti_local_fn a = Some local_sfence_vma ->
  ti_local_fn a = Some local_sfence_vma \/ ti_local_fn a = Some local_sfence_vma_asid ->
  (forall x, in_range a x -> in_range u x) -> forall e, requested a e -> requested u e.
Proof.
  intros Hf Ha Hk Hr e He. unfold requested in *. rewrite Hf.
  destruct Hk as [Hk|Hk]; rewrite Hk in *; destruct e; try done; [by apply Hr|].
  destruct He as [He ->]. split; [by apply Hr|]. destruct Ha as [->|?]; [done|discriminate].
Qed.

Lemma mergeable_kind t :
  ti_local_fn t = Some local_sfence_vma \/ ti_local_fn t = Some local_sfence_vma_asid -> mergeable t = true.
Proof. unfold mergeable, fn_is. intros [-> | ->]; reflexivity. Qed.

(** The effective end of a range that can be merged. *)
Lemma queued_end t : queued_ok t -> mergeable t = true ->
  add64 (ti_start t) (ti_size t) = ti_start t + ti_size t /\ 0 <= ti_start t /\ 0 <= ti_size t /\
  ti_start t + ti_size t < 2 ^ 64 /\
  forall x, in_range t x <-> ti_size t = SBI_TLB_FLUSH_ALL \/ ti_start t <= x < ti_start t + ti_size t.
Proof.
  intros ([H0 H1] & [H2 H3] & _ & K) M. destruct (K M) as [[E1 E2]|(Hz & Hn & Hw)].
  - unfold in_range. rewrite E1, E2. unfold SBI_TLB_FLUSH_ALL, add64, u64_max. rewrite Z.add_0_l.
    rewrite u64_small by (unfold is_u64; lia). repeat split; try lia.
  - unfold add64. rewrite u64_small by (unfold is_u64; lia). repeat split; try lia; unfold in_range; try lia.
Qed.

Lemma smask_or curr next :
  queued_ok curr -> queued_ok next ->
  let s := sbi_hartmask_or (ti_smask curr) (ti_smask curr) (ti_smask next) in
  hartmask_wf s /\ hartmask_set s = hartmask_set (ti_smask curr) ∪ hartmask_set (ti_smask next).
Proof.
  intros (_ & _ & Wc & _) (_ & _ & Wn & _). by apply hartmask_or_spec.
Qed.

Lemma range_check_sound next curr :
  queued_ok next -> queued_ok curr -> ti_local_fn next = ti_local_fn curr ->
  ti_local_fn curr = Some local_sfence_vma \/
    (ti_local_fn curr = Some local_sfence_vma_asid /\ ti_asid next = ti_asid curr) ->
  let '(rv, u) := tlb_range_check next curr in
  (rv = SBI_FIFO_UNCHANGED /\ u = curr) \/
  ((rv = SBI_FIFO_SKIP \/ rv = SBI_FIFO_UPDATED) /\ queued_ok u /\ subsumes u curr /\ subsumes u next).
Proof.
  intros Qn Qc Hfn Hk.
  assert (Hkind : ti_local_fn curr = Some local_sfence_vma \/ ti_local_fn curr = Some local_sfence_vma_asid) by tauto.
  assert (Mc := mergeable_kind curr Hkind).
  assert (Mn : mergeable next = true) by (apply mergeable_kind; by rewrite Hfn).
  destruct (queued_end next Qn Mn) as (En & Hn0 & Hn1 & Hn2 & Rn).
  destruct (queued_end curr Qc Mc) as (Ec & Hc0 & Hc1 & Hc2 & Rc).
  destruct (smask_or curr next Qc Qn) as [Wu Su]. cbv zeta in Wu, Su.
  pose proof Qn as (Sn & Zn & Wn & Kn). pose proof Qc as (Sc & Zc & Wc & Kc). specialize (Kn Mn). specialize (Kc Mc).
  assert (Hsub : forall st sz, queued_ok (TlbInfo st sz (ti_asid curr) (ti_vmid curr) (ti_local_fn curr)
                    (sbi_hartmask_or (ti_smask curr) (ti_smask curr) (ti_smask next))) ->
    (forall x, in_range curr x -> sz = SBI_TLB_FLUSH_ALL \/ st <= x < st + sz) ->
    (forall x, in_range next x -> sz = SBI_TLB_FLUSH_ALL \/ st <= x < st + sz) ->
    let u := TlbInfo st sz (ti_asid curr) (ti_vmid curr) (ti_local_fn curr)
                    (sbi_hartmask_or (ti_smask curr) (ti_smask curr) (ti_smask next)) in
    subsumes u curr /\ subsumes u next).
  { intros st sz Qu Hc Hn u. destruct (queued_end u Qu Mc) as (_ & _ & _ & _ & Ru). split; split; cbn [ti_smask u].
    - apply requested_mono; [done|auto|done|]. intros x Hx. apply Ru, Hc, Hx.
    - rewrite Su. set_solver.
    - apply requested_mono; [by rewrite Hfn| |by rewrite Hfn|].
      + cbn. rewrite Hfn. destruct Hk as [?|[_ ->]]; auto.
      + intros x Hx. apply Ru, Hn, Hx.
    - rewrite Su. set_solver. }
  unfold tlb_range_check. rewrite En, Ec.
  destruct ((ti_start next <=? ti_start curr) && _) eqn:E1; zbool.
  { right. split; [by right|].
    assert (Qu : queued_ok (TlbInfo (ti_start next) (ti_size next) (ti_asid curr) (ti_vmid curr) (ti_local_fn curr)
                    (sbi_hartmask_or (ti_smask curr) (ti_smask curr) (ti_smask next)))).
    { split; [exact Sn|]. split; [exact Zn|]. split; [exact Wu|]. by intros _. }
    split; [exact Qu|]. apply Hsub; [exact Qu| |].
    - intros x [Hx|Hx]%Rc; [|right; lia]. exfalso.
      destruct Kc as [[Ks _]|(_ & ? & _)]; [|done]. unfold SBI_TLB_FLUSH_ALL, u64_max in Hx. lia.
    - intros x Hx. by apply Rn. }
  destruct ((ti_start curr <=? ti_start next) && _) eqn:E2; zbool.
  { right. split; [by left|].
    assert (Qu : queued_ok (TlbInfo (ti_start curr) (ti_size curr) (ti_asid curr) (ti_vmid curr) (ti_local_fn curr)
                    (sbi_hartmask_or (ti_smask curr) (ti_smask curr) (ti_smask next)))).
    { split; [exact Sc|]. split; [exact Zc|]. split; [exact Wu|]. by intros _. }
    split; [exact Qu|]. apply Hsub; [exact Qu| |].
    - intros x Hx. by apply Rc.
    - intros x [Hx|Hx]%Rn; [|right; lia]. left.
      destruct Kn as [[Ks _]|(_ & ? & _)]; [|done]. rewrite Ks, Hx in *.
      unfold SBI_TLB_FLUSH_ALL, u64_max in *. lia. }
  by left.
Qed.

Lemma update_cb_sound next curr :
  queued_ok next -> queued_ok curr ->
  let '(rv, u) := tlb_update_cb next curr in
  (rv = SBI_FIFO_UNCHANGED /\ u = curr) \/
  ((rv = SBI_FIFO_SKIP \/ rv = SBI_FIFO_UPDATED) /\ queued_ok u /\ subsumes u curr /\ subsumes u next).
Proof.
  intros Qn Qc. unfold tlb_update_cb, fn_is.
  case_bool_decide as H1; case_bool_decide as H2; cbn [andb].
  - destruct (Z.eqb_spec (ti_asid next) (ti_asid curr)); [|by left].
    apply range_check_sound; [done|done|congruence|auto].
  - case_bool_decide as H3; cbn [andb]; [congruence|by left].
  - case_bool_decide as H3; case_bool_decide as H4; cbn [andb]; try by left. congruence.
  - case_bool_decide as H3; case_bool_decide as H4; cbn [andb]; try by left.
    apply range_check_sound; [done|done|congruence|auto].
Qed.

(** The in-place update of a queue keeps what is owed; when it reports a merge
    it owes the new request too. *)
Lemma queue_update_sound next l :
  queued_ok next -> Forall queued_ok l ->
  let '(r, k) := update_spec tlb_update_cb next SBI_FIFO_UNCHANGED l in
  length k = length l /\ Forall queued_ok k /\ (forall e w, owed l e w -> owed k e w) /\
  ((r = SBI_FIFO_UNCHANGED /\ k = l) \/
   (r <> SBI_FIFO_UNCHANGED /\ forall e w, owed [next] e w -> owed k e w)).
Proof.
  intros Qn. induction l as [|x l IH]; intros Hl; cbn [update_spec].
  { split; [done|]. split; [done|]. split; [done|by left]. }
  inversion Hl as [|? ? Qx Hl']; subst. specialize (IH Hl').
  pose proof (update_cb_sound next x Qn Qx) as Hcb. destruct (tlb_update_cb next x) as [rv u].
  destruct Hcb as [[-> ->]|(Hrv & Qu & [Sc1 Sc2] & [Sn1 Sn2])].
  - cbn [orb Z.eqb SBI_FIFO_UNCHANGED SBI_FIFO_SKIP SBI_FIFO_UPDATED Pos.eqb].
    destruct (update_spec tlb_update_cb next SBI_FIFO_UNCHANGED l) as [r k].
    destruct IH as (Hlen & Hk & Ho & Hr). split; [cbn; congruence|]. split; [by constructor|]. split.
    + intros e w (t & [->|Ht]%elem_of_cons & Hq & Hw).
      * exists x. split; [by left|done].
      * destruct (Ho e w) as (t' & Ht' & ?); [by exists t|]. exists t'. split; [by right|done].
    + destruct Hr as [[-> ->]|[Hr Hn]]; [by left|right]. split; [done|].
      intros e w Hw. destruct (Hn e w Hw) as (t & ? & ?). exists t. split; [by right|done].
  - assert (E : (rv =? SBI_FIFO_SKIP) || (rv =? SBI_FIFO_UPDATED) = true) by (destruct Hrv as [->| ->]; done).
    rewrite E. split; [done|]. split; [by constructor|]. split.
    + intros e w (t & [->|Ht]%elem_of_cons & Hq & Hw).
      * exists u. split; [by left|]. split; [by apply Sc1|set_solver].
      * exists t. split; [by right|done].
    + right. split; [destruct Hrv as [->| ->]; discriminate|].
      intros e w (t & ->%list_elem_of_singleton & Hq & Hw). exists u. split; [by left|].
      split; [by apply Sn1|set_solver].
Qed.

(** ** Queueing a request *)

(** The requests queued at hart [h], oldest first. *)
Definition hart_queue (m : machine) (h : Z) : list sbi_tlb_info :=
  match hart m h with Some d => contents tlb_info_zero (hd_tlb_fifo d) | None => [] end.

(** The queue of hart [h] is in order, and no hart holds its lock. *)
Definition queue_ready (m : machine) (h : Z) : Prop :=
  exists d, hart m h = Some d /\ fifo_wf (hd_tlb_fifo d) /\ num_entries (hd_tlb_fifo d) = SBI_TLB_FIFO_NUM_ENTRIES /\
    Forall queued_ok (contents tlb_info_zero (hd_tlb_fifo d)).

Lemma on_fifo_run {A} h (c : M (option (sbi_fifo sbi_tlb_info)) A) m d o f' :
  hart m h = Some d -> c (Some (hd_tlb_fifo d)) = (o, Some f') ->
  on_fifo h c m = (o, put_hart h (hd_set_tlb_fifo f' d) m).
Proof. intros H E. unfold on_fifo, on_hart. by rewrite H, E. Qed.

Lemma hart_queue_eq m h d : hart m h = Some d -> hart_queue m h = contents tlb_info_zero (hd_tlb_fifo d).
Proof. unfold hart_queue. by intros ->. Qed.

Lemma upgrade_requested limit t e : requested t e -> requested (upgrade limit t) e.
Proof.
  unfold upgrade. destruct (limit <? ti_size t); [|done]. unfold requested, in_range. cbn.
  destruct (ti_local_fn t) as [[]|], e; try done; intuition auto.
Qed.

Lemma upgrade_smask limit t : ti_smask (upgrade limit t) = ti_smask t.
Proof. unfold upgrade. by destruct (limit <? ti_size t). Qed.

Lemma tlb_update_run (world : machine → machine) (polls : nat) (m : machine)
    (cur remote : Z) (t : sbi_tlb_info) :
  (0 < polls)%nat -> remote <> cur -> queue_ready m remote ->
  queued_ok (upgrade (m_tlb_range_flush_limit m) t) ->
  Z.of_nat (length (hart_queue m remote)) < SBI_TLB_FIFO_NUM_ENTRIES ->
  exists rc m', tlb_update world polls cur remote t m =
      (Ret (rc, upgrade (m_tlb_range_flush_limit m) t), m') /\ 0 <= rc /\
    queue_ready m' remote /\ (forall h, h <> remote -> hart m' h = hart m h) /\ m_trace m' = m_trace m /\
    (forall e w, owed (hart_queue m remote) e w -> owed (hart_queue m' remote) e w) /\
    (forall e w, requested t e -> w ∈ hartmask_set (ti_smask t) -> owed (hart_queue m' remote) e w).
Proof.
  intros Hp Hne (d & Hd & Hwf & Hn & Hq) Qt Hroom. unfold tlb_update. rewrite bind_gets.
  set (u := upgrade (m_tlb_range_flush_limit m) t) in *. cbv zeta.
  apply Z.eqb_neq in Hne as Hne'. rewrite Hne'.
  assert (Hu : forall e w, requested t e -> w ∈ hartmask_set (ti_smask t) -> owed [u] e w).
  { intros e w He Hw. exists u. split; [by left|]. split; [by apply upgrade_requested|]. subst u. by rewrite upgrade_smask. }
  pose proof (hart_nonneg _ _ _ Hd) as H0.
  assert (Hqm : hart_queue m remote = contents tlb_info_zero (hd_tlb_fifo d)) by (unfold hart_queue; by rewrite Hd).
  destruct (inplace_run tlb_info_zero tlb_update_cb u (hd_tlb_fifo d) Hwf) as (r & f1 & E1 & W1 & N1 & C1).
  rewrite (bind_Ret _ _ _ _ _ (on_fifo_run remote _ m d _ f1 Hd E1)).
  pose proof (queue_update_sound u _ Qt Hq) as Hs. rewrite <- C1 in Hs.
  destruct Hs as (Hlen & Hk & Ho & Hr).
  set (m1 := put_hart remote (hd_set_tlb_fifo f1 d) m).
  assert (H1 : hart m1 remote = Some (hd_set_tlb_fifo f1 d)) by (by eapply hart_put_eq).
  destruct Hr as [[-> Hsame]|[Hr Hnew]].
  - cbn [negb Z.eqb SBI_FIFO_UNCHANGED Pos.eqb]. destruct polls as [|polls]; [lia|]. cbn [enqueue_loop].
    destruct (enqueue_run tlb_info_zero f1 u W1) as (r2 & f2 & E2 & W2 & N2 & C2).
    rewrite Hsame in C2. rewrite decide_True in C2 by (rewrite N1, Hn, <- Hqm; exact Hroom).
    destruct C2 as [-> C2]. rewrite bind_assoc.
    rewrite (bind_Ret _ _ _ _ _ (on_fifo_run remote _ m1 _ _ f2 H1 E2)).
    cbn [Z.ltb Z.compare]. rewrite bind_ret_l.
    pose proof (hart_put_eq _ _ (hd_set_tlb_fifo f2 (hd_set_tlb_fifo f1 d)) _ H1) as H2.
    eexists _, _. split; [reflexivity|]. split; [lia|]. split; [|split; [|split; [done|]]].
    + eexists. split; [exact H2|]. cbn. split; [done|]. split; [congruence|]. rewrite C2.
      apply Forall_app. split; [done|]. by constructor.
    + intros h Hh. subst m1. by rewrite !hart_put_ne.
    + rewrite (hart_queue_eq _ _ _ H2). cbn. rewrite C2, Hqm. split.
      * intros e w (x & ? & ?). exists x. rewrite elem_of_app. auto.
      * intros e w He Hw. destruct (Hu e w He Hw) as (x & ? & ?). exists x. rewrite elem_of_app. auto.
  - apply Z.eqb_neq in Hr. rewrite Hr. cbn [negb].
    eexists _, _. split; [reflexivity|]. split; [lia|]. split; [|split; [|split; [done|]]].
    + eexists. split; [exact H1|]. cbn. split; [done|]. split; [congruence|done].
    + intros h Hh. subst m1. by rewrite hart_put_ne.
    + rewrite (hart_queue_eq _ _ _ H1), Hqm. cbn. split; [exact Ho|].
      intros e w He Hw. apply Hnew, Hu; done.
Qed.

(** [C7] Queueing a remote flush keeps what the queue owes, while the queue has
    room and merging is sound: if no mergeable request in it, nor the new one, is
    the empty range at 0 or reaches the end of the address space (those can be
    lost: [merge_loses_full_flush], [merge_loses_last_page]; requests other than
    the two kinds of SFENCE.VMA are not restricted), the request, upgraded or
    not, is merged into an entry of the remote queue or appended to it, and
    afterwards the queue owes everything it owed before (every invalidation, with
    every hart that waits for it) and everything the new request asks for. *)
Theorem tlb_update_keeps_promises (world : machine → machine) (polls : nat) (m : machine)
    (cur remote : Z) (t : sbi_tlb_info) :
  (0 < polls)%nat -> remote <> cur -> queue_ready m remote ->
  queued_ok (upgrade (m_tlb_range_flush_limit m) t) ->
  Z.of_nat (length (hart_queue m remote)) < SBI_TLB_FIFO_NUM_ENTRIES ->
  exists rc m', tlb_update world polls cur remote t m =
      (Ret (rc, upgrade (m_tlb_range_flush_limit m) t), m') /\ 0 <= rc /\
    queue_ready m' remote /\ (forall h, h <> remote -> hart m' h = hart m h) /\ m_trace m' = m_trace m /\
    (forall e w, owed (hart_queue m remote) e w -> owed (hart_queue m' remote) e w) /\
    (forall e w, requested t e -> w ∈ hartmask_set (ti_smask t) -> owed (hart_queue m' remote) e w).
Proof. apply tlb_update_run. Qed.

(** ** Processing the queue *)

(** What the other harts are relied on for: hart [cur] sees its own data
    untouched, and a hart that waits for a notification consumes it. *)
Record served (cur : Z) (m m' : machine) : Prop := {
  sv_cur : hart m' cur = hart m cur;
  sv_other : forall r, r <> cur -> hart m' r = hd_set_tlb_sync 0 <$> hart m r;
  sv_trace : m_trace m' = m_trace m;
  sv_pmu : m_pmu m' = m_pmu m;
}.

Class WaitersServed (world : machine → machine) (cur : Z) : Prop :=
  world_serves : forall m, served cur m (world m).

(** What notifying the waiters does to the rest, seen from [cur]. *)
Record bystander (cur : Z) (m m' : machine) : Prop := {
  by_cur : hart m' cur = hart m cur;
  by_trace : m_trace m' = m_trace m;
  by_pmu : m_pmu m' = m_pmu m;
}.

#[export] Instance bystander_preorder cur : PreOrder (bystander cur).
Proof.
  split; [done|]. intros m1 m2 m3 [A1 A2 A3] [B1 B2 B3]. constructor; congruence.
Qed.

Section Processing.
Context (world : machine → machine) (polls : nat) (cur : Z).
Context `{WaitersServed world cur} (Hpolls : (2 <= polls)%nat).

Lemma set_sync_run r m d :
  r <> cur -> hart m r = Some d ->
  exists m', set_sync_loop world polls r m = (Ret tt, m') /\ bystander cur m m'.
Proof using H Hpolls.
  intros Hne Hr. destruct polls as [|[|n]]; [lia|lia|]. cbn [set_sync_loop].
  pose proof (hart_nonneg _ _ _ Hr).
  set (m1 := put_hart r (hd_set_tlb_sync 1 d) m).
  rewrite (bind_on_hart r _ _ m d (hd_tlb_sync d) (hd_set_tlb_sync 1 d) Hr eq_refl). fold m1.
  assert (B1 : bystander cur m m1) by (constructor; [apply hart_put_ne; [done|congruence]|done|done]).
  case_if; [|by exists m1].
  unfold bind at 1. cbn -[on_hart bind]. destruct (world_serves m1) as [S1 S2 S3 S4].
  assert (Hr1 : hart (world m1) r = Some (hd_set_tlb_sync 0 (hd_set_tlb_sync 1 d))).
  { rewrite (S2 r Hne). subst m1. by rewrite (hart_put_eq _ _ _ _ Hr). }
  rewrite (bind_on_hart r _ _ _ _ 0 (hd_set_tlb_sync 1 (hd_set_tlb_sync 0 (hd_set_tlb_sync 1 d))) Hr1 eq_refl).
  cbn -[put_hart]. eexists. split; [reflexivity|]. etrans; [exact B1|].
  constructor; [|by rewrite <- S3|by rewrite <- S4]. rewrite <- S1. apply hart_put_ne; [done|congruence].
Qed.

Lemma notify_run r m :
  0 <= r < 128 -> r <> cur -> exists m', notify_waiter world polls r m = (Ret tt, m') /\ bystander cur m m'.
Proof using H Hpolls.
  intros Hr Hne. unfold notify_waiter, scratch_ptr. change SBI_HARTMASK_MAX_BITS with 128.
  unfold bind. destruct (Z.leb_spec 0 r), (Z.ltb_spec r 128); try lia. cbn [andb].
  destruct (hart m r) as [d|] eqn:E; [by eapply set_sync_run|by exists m].
Qed.

Lemma notify_all_run l m :
  Forall (λ r, 0 <= r < 128 /\ r <> cur) l ->
  exists m', mfor l (notify_waiter world polls) m = (Ret tt, m') /\ bystander cur m m'.
Proof using H Hpolls.
  revert m. induction l as [|r l IH]; intros m Hl; [by exists m|]. inversion Hl as [|? ? [Hr Hne] Hl']; subst.
  destruct (notify_run r m Hr Hne) as (m1 & E1 & B1). destruct (IH m1 Hl') as (m2 & E2 & B2).
  exists m2. cbn [mfor]. rewrite (bind_Ret _ _ _ _ _ E1). split; [done|by etrans].
Qed.

Lemma for_each_hart_elem s r : hartmask_wf s -> r ∈ sbi_hartmask_for_each_hart s <-> r ∈ hartmask_set s.
Proof.
  intros [Hl Hu]. unfold sbi_hartmask_for_each_hart.
  rewrite for_each_set_bit_filter by (done || (rewrite Hl; unfold SBI_HARTMASK_MAX_BITS; lia)).
  rewrite list_elem_of_filter, elem_of_hartmask_set, elem_of_seqZ.
  change (0 + SBI_HARTMASK_MAX_BITS) with SBI_HARTMASK_MAX_BITS. done.
Qed.

(** An entry whose waiters are other harts. *)
Definition entry_ok (t : sbi_tlb_info) : Prop :=
  request_ok t /\ hartmask_wf (ti_smask t) /\ cur ∉ hartmask_set (ti_smask t).

Lemma entry_process_run t m d :
  hart m cur = Some d -> fw_ready m -> 0 <= cur < 128 -> entry_ok t ->
  exists m' d', tlb_entry_process world polls cur t m = (Ret tt, m') /\
    hart m' cur = Some d' /\ hd_set_csrs ∅ d' = hd_set_csrs ∅ d /\ fw_ready m' /\
    m_trace m' = m_trace m ++ map (EvFence cur) (flush_fences t).
Proof using H Hpolls.
  intros Hd Hf Hc (Hr & Hw & Hn). unfold tlb_entry_process.
  destruct (call_local_fn_run m cur d t Hd Hf Hc Hr) as (m1 & E1 & Q1 & T1).
  destruct (quiet_hart m m1 cur d Q1 Hd) as (d1 & Hd1 & Hs1).
  destruct (notify_all_run (sbi_hartmask_for_each_hart (ti_smask t)) m1) as (m2 & E2 & [B1 B2 B3]).
  { apply Forall_forall. intros r Hin%list_elem_of_In. apply for_each_hart_elem in Hin; [|done].
    split; [by eapply hartmask_set_bound|]. intros ->. done. }
  exists m2, d1. rewrite (bind_Ret _ _ _ _ _ E1). split; [done|]. split; [congruence|]. split; [done|].
  split; [|congruence]. unfold fw_ready. rewrite B3. by apply Q1.
Qed.

Lemma process_loop_run n l m d :
  (length l < n)%nat -> hart m cur = Some d -> fifo_wf (hd_tlb_fifo d) ->
  contents tlb_info_zero (hd_tlb_fifo d) = l -> fw_ready m -> 0 <= cur < 128 -> Forall entry_ok l ->
  exists m' d', process_loop world polls n cur m = (Ret tt, m') /\ hart m' cur = Some d' /\
    fifo_wf (hd_tlb_fifo d') /\ contents tlb_info_zero (hd_tlb_fifo d') = [] /\
    m_trace m' = m_trace m ++ map (EvFence cur) (concat (map flush_fences l)).
Proof using H Hpolls.
  revert n m d. induction l as [|t l IH]; intros n m d Hn Hd Hw Hc Hf Hcur Hl;
    (destruct n as [|n]; [cbn in Hn; lia|]); cbn [process_loop];
    destruct (dequeue_run tlb_info_zero (hd_tlb_fifo d) Hw) as (r & o & f' & E & Wf & _ & Hres);
    rewrite Hc in Hres; destruct Hres as (-> & -> & Hc');
    rewrite (bind_Ret _ _ _ _ _ (on_fifo_run cur _ m d _ f' Hd E)).
  - cbn -[put_hart]. eexists _, _. split; [reflexivity|]. split; [by eapply hart_put_eq|].
    cbn. split; [done|]. split; [done|]. by rewrite app_nil_r.
  - cbn -[put_hart bind]. set (m1 := put_hart cur (hd_set_tlb_fifo f' d) m).
    assert (Hd1 : hart m1 cur = Some (hd_set_tlb_fifo f' d)) by (by eapply hart_put_eq).
    inversion Hl as [|? ? Ht Hl']; subst.
    destruct (entry_process_run t m1 _ Hd1 Hf Hcur Ht) as (m2 & d2 & E2 & Hd2 & Hs2 & Hf2 & T2).
    rewrite (bind_Ret _ _ _ _ _ E2).
    assert (Hq : hd_tlb_fifo d2 = f').
    { change (hd_tlb_fifo (hd_set_csrs ∅ d2) = f'). by rewrite Hs2. }
    destruct (IH n m2 d2) as (m' & d' & E' & H' & W' & C' & T'); try done; [cbn in Hn; lia|by rewrite Hq|by rewrite Hq|].
    exists m', d'. split; [done|]. split; [done|]. split; [done|]. split; [done|].
    rewrite T', T2. cbn [concat map]. by rewrite map_app, <- app_assoc.
Qed.

End Processing.


(** Every other hart consumes its notification. *)
Definition consume (cur : Z) (m : machine) : machine :=
  set_harts (imap (λ i o, if Z.of_nat i =? cur then o else hd_set_tlb_sync 0 <$> o) (m_harts m)) m.

#[export] Instance consume_serves cur : WaitersServed (consume cur) cur.
Proof.
  intros m. constructor; [| |done|done].
  - unfold hart. destruct (Z.ltb_spec cur 0); [done|]. cbn. rewrite list_lookup_imap.
    destruct (m_harts m !! Z.to_nat cur); cbn; [|done]. rewrite Z2Nat.id by lia. by rewrite Z.eqb_refl.
  - intros r Hr. unfold hart. destruct (Z.ltb_spec r 0); [done|]. cbn. rewrite list_lookup_imap.
    destruct (m_harts m !! Z.to_nat r) as [o|]; cbn; [|done]. rewrite Z2Nat.id by lia.
    apply Z.eqb_neq in Hr. by rewrite Hr.
Qed.

Definition demo_request : sbi_tlb_info :=
  TlbInfo 0x40000000 0x1000 0 0 (Some local_sfence_vma) (Hartmask [1; 0]).

Lemma fw_ready_demo : fw_ready demo_machine.
Proof.
  split; [reflexivity|].
  assert (Hall : forallb (λ r, Nat.eqb (length r) 32) (fw_event_map (m_pmu demo_machine)) = true)
    by (vm_compute; reflexivity).
  apply Forall_forall. intros r Hr. rewrite forallb_forall in Hall. by apply Nat.eqb_eq, Hall.
Qed.

Lemma demo_request_ok : queued_ok demo_request.
Proof.
  split; [unfold is_u64; cbn; lia|]. split; [unfold is_u64; cbn; lia|]. split.
  - split; [done|]. repeat constructor; unfold is_u64; lia.
  - intros _. right. cbn. unfold SBI_TLB_FLUSH_ALL, u64_max. lia.
Qed.

Lemma demo_request_entry : request_ok demo_request.
Proof.
  split; [right; cbn; unfold PAGE_SIZE; repeat split; reflexivity || lia|]. split; [cbn; lia|by eexists].
Qed.

Lemma demo_fifo_wf s : fifo_wf (hd_tlb_fifo (demo_hart s)).
Proof. split; [|apply lock_free_init]. constructor; cbn; unfold SBI_TLB_FIFO_NUM_ENTRIES; reflexivity || lia. Qed.

Lemma tlb_update_keeps_promises_witness :
  exists rc m', tlb_update (consume 0) 3 0 2 demo_request demo_machine =
      (Ret (rc, upgrade (m_tlb_range_flush_limit demo_machine) demo_request), m') /\ 0 <= rc /\
    queue_ready m' 2 /\ (forall h, h <> 2 -> hart m' h = hart demo_machine h) /\
    m_trace m' = m_trace demo_machine /\
    (forall e w, owed (hart_queue demo_machine 2) e w -> owed (hart_queue m' 2) e w) /\
    (forall e w, requested demo_request e -> w ∈ hartmask_set (ti_smask demo_request) ->
       owed (hart_queue m' 2) e w).
Proof.
  apply (tlb_update_keeps_promises (consume 0) 3 demo_machine 0 2 demo_request); [lia|lia| | |].
  - eexists. split; [reflexivity|]. split; [apply demo_fifo_wf|]. split; [done|]. cbn. constructor.
  - apply demo_request_ok.
  - vm_compute. reflexivity.
Defined.

(** Hart 2 with the request of hart 0 queued. *)
Definition demo_fifo : sbi_fifo sbi_tlb_info :=
  __sbi_fifo_enqueue demo_request (hd_tlb_fifo (demo_hart 0)).

Definition demo_queued : machine :=
  put_hart 2 (hd_set_tlb_fifo demo_fifo (demo_hart SBI_HSM_STATE_SUSPENDED)) demo_machine.

Lemma fw_ready_put m h d : fw_ready m -> fw_ready (put_hart h d m).
Proof. done. Qed.

Lemma demo_queued_hart :
  hart demo_queued 2 = Some (hd_set_tlb_fifo demo_fifo (demo_hart SBI_HSM_STATE_SUSPENDED)).
Proof. apply (hart_put_eq 2 (demo_hart SBI_HSM_STATE_SUSPENDED)). reflexivity. Qed.


(** ** Merges that lose requests *)

(** A flush of the last page of the address space: its end wraps to 0, so the
    next request for a lower range counts as covering it and replaces it. *)
Theorem merge_loses_last_page :
  let curr := TlbInfo (2 ^ 64 - 0x1000) 0x1000 0 0 (Some local_sfence_vma) (Hartmask [1; 0]) in
  let next := TlbInfo 0x1000 0x1000 0 0 (Some local_sfence_vma) (Hartmask [2; 0]) in
  let '(rv, u) := tlb_update_cb next curr in
  rv = SBI_FIFO_UPDATED /\ requested curr (SEntry (2 ^ 64 - 1) 0) /\ ~ requested u (SEntry (2 ^ 64 - 1) 0).
Proof.
  vm_compute. split; [done|]. split; [right; right; split; discriminate || reflexivity|].
  intros [[? ?]|[?|[? ?]]]; discriminate || done.
Qed.

(** The flush-everything request (start 0, size 0) counts as an empty range: a
    queued one is replaced by a range at 0, a new one is dropped. *)
Theorem merge_loses_full_flush :
  let all := TlbInfo 0 0 0 0 (Some local_sfence_vma) (Hartmask [1; 0]) in
  let page := TlbInfo 0 0x1000 0 0 (Some local_sfence_vma) (Hartmask [2; 0]) in
  requested all (SEntry 0x5000 0) /\
  (fst (tlb_update_cb page all) = SBI_FIFO_UPDATED /\ ~ requested (snd (tlb_update_cb page all)) (SEntry 0x5000 0)) /\
  (fst (tlb_update_cb all page) = SBI_FIFO_SKIP /\ ~ requested (snd (tlb_update_cb all page)) (SEntry 0x5000 0)).
Proof.
  vm_compute. split; [by left|].
  split; (split; [done|]); intros [[? ?]|[?|[? ?]]]; discriminate || done.
Qed.
