(* ===== verification/Ipi.v ===== *)
(** * Inter-processor interrupts (lib/sbi/sbi_ipi.c)

    The table of events, the delivery of an event to a set of harts and its
    processing on the receiving hart.  What an event does is the interface
    [EventHandlers]: the callbacks of struct sbi_ipi_event_ops; System.v gives
    the instance made of the supervisor, halt and TLB events.

    The theorems: the supervisor IPI reaches exactly the harts of the mask that
    are assigned to the domain and can be interrupted, each exactly once, and
    becomes a pending supervisor software interrupt there; processing runs the
    handler of each pending event once, in order, and leaves none pending; event
    numbers are allocated without conflict. *)

From Stdlib Require Import ZArith Lia.
From stdpp Require Import base tactics list gmap numbers.
From S2P Require Import Prelude SbiDefs Bitops Locks Fifo Scratch Domain Csr Hart Pmu Machine Hsm Tlb.

(** ** The callbacks of an event *)

(** The [data] pointer of a send: NULL, or the caller's TLB request. *)
Abbreviation ipi_data := (option sbi_tlb_info).

Class EventHandlers := {
  ev_update : event_ops → option (Z → Z → ipi_data → M machine (Z * ipi_data));
  ev_sync : event_ops → option (Z → M machine unit);
  ev_process : event_ops → option (Z → M machine unit);
}.

Section Ipi.
Context `{EventHandlers} (pl : sbi_platform_operations).

(** ** Sending *)

(** [ipi_ops_array[event]] when the event is in range and registered. *)
Definition event_lookup (m : machine) (event : Z) : option event_ops :=
  if (SBI_IPI_EVENT_MAX <=? event) then None else mjoin (m_ipi_ops_array m !! Z.to_nat event).

(** The result and the caller's data, which [update] may have changed.  The call
    of the device is that of [sbi_ipi_raw_send]. *)
Definition sbi_ipi_send (cur remote event : Z) (data : ipi_data) : M machine (Z * ipi_data) :=
  (ops <- gets (λ m, event_lookup m event) ;;
   match ops with
   | None => ret (SBI_EINVAL, data)
   | Some ops =>
       rscratch <- scratch_ptr remote ;;
       match rscratch with
       | None => ret (SBI_EINVAL, data)
       | Some _ =>
           r <- match ev_update ops with
                | Some update => update cur remote data
                | None => ret (0, data)
                end ;;
           let '(rc, data) := r in
           if rc <? 0 then ret (rc, data)
           else
             on_hart remote (ipi_cell (atomic_raw_set_bit event)) ;;;
             sbi_ipi_raw_send remote ;;;
             count_fw cur SBI_PMU_FW_IPI_SENT ;;;
             match ev_sync ops with
             | Some sync => sync cur
             | None => ret tt
             end ;;;
             ret (0, data)
       end
   end)%sbi.

(** [for (i = hbase; m; i++, m >>= 1)]; a word of 64 bits is empty after 64 rounds. *)
Fixpoint send_mask_loop (n : nat) (cur i mask event : Z) (data : ipi_data) : M machine ipi_data :=
  match n with
  | O => ret data
  | S n' =>
      (if truthy mask then
         data <- (if truthy (Z.land mask 1)
                  then r <- sbi_ipi_send cur (u32 i) event data ;; ret (snd r)
                  else ret data) ;;
         send_mask_loop n' cur (u64 (i + 1)) (shr64 mask 1) event data
       else ret data)%sbi
  end.

(** The broadcast loop: one window of 64 harts per round, [n] rounds at most. *)
Fixpoint send_all_loop (n : nat) (cur : Z) (dom : option nat) (hbase event : Z) (data : ipi_data)
    : M machine ipi_data :=
  match n with
  | O => stop spinning
  | S n' =>
      (r <- sbi_hsm_hart_interruptible_mask dom hbase ;;
       if truthy (fst r) then ret data
       else
         data <- send_mask_loop 64 cur hbase (snd r) event data ;;
         send_all_loop n' cur dom (u64 (hbase + 64)) event data)%sbi
  end.

(** Enough rounds to pass the last hart. *)
Definition broadcast_rounds (m : machine) : nat := Z.to_nat (u32 (last_hart m + 1) / 64 + 2).

Definition sbi_ipi_send_many (cur hmask hbase event : Z) (data : ipi_data) : M machine (Z * ipi_data) :=
  (dom <- domain_ptr cur ;;
   if negb (hbase =? u64_max) then
     r <- sbi_hsm_hart_interruptible_mask dom hbase ;;
     if truthy (fst r) then ret (fst r, data)
     else
       data <- send_mask_loop 64 cur hbase (Z.land (snd r) hmask) event data ;;
       ret (0, data)
   else
     rounds <- gets broadcast_rounds ;;
     data <- send_all_loop rounds cur dom 0 event data ;;
     ret (0, data))%sbi.

(** ** Events *)

(** The loop of sbi_ipi_event_create from index [i]: the first free slot. *)
Fixpoint free_slot (tbl : list (option event_ops)) (i : Z) : option Z :=
  match tbl with
  | [] => None
  | None :: _ => Some i
  | Some _ :: tbl' => free_slot tbl' (i + 1)
  end.

Definition sbi_ipi_event_create (ops : option event_ops) : M machine Z :=
  match ops with
  | None => ret SBI_EINVAL
  | Some o =>
      match ev_process o with
      | None => ret SBI_EINVAL
      | Some _ =>
          λ m, match free_slot (m_ipi_ops_array m) 0 with
               | Some i => (Ret i, set_ipi_ops_array (<[Z.to_nat i := ops]> (m_ipi_ops_array m)) m)
               | None => (Ret SBI_ENOSPC, m)
               end
      end
  end.

Definition sbi_ipi_event_destroy (event : Z) : M machine unit :=
  if SBI_IPI_EVENT_MAX <=? event then ret tt
  else modify (λ m, set_ipi_ops_array (<[Z.to_nat event := None]> (m_ipi_ops_array m)) m).

Definition sbi_ipi_process_smode (cur : Z) : M machine unit :=
  on_hart cur (hart_csr (csr_set CSR_MIP MIP_SSIP)).

Definition sbi_ipi_send_smode (cur hmask hbase : Z) : M machine Z :=
  (event <- gets m_ipi_smode_event ;;
   r <- sbi_ipi_send_many cur hmask hbase event None ;; ret (fst r))%sbi.

Definition sbi_ipi_clear_smode (cur : Z) : M machine unit :=
  on_hart cur (hart_csr (csr_clear CSR_MIP MIP_SSIP)).

(** [exit] is sbi_exit on this hart. *)
Definition sbi_ipi_process_halt (exit : M machine unit) (cur : Z) : M machine unit :=
  (sbi_hsm_hart_stop exit cur true ;;; ret tt)%sbi.

Definition sbi_ipi_send_halt (cur hmask hbase : Z) : M machine Z :=
  (event <- gets m_ipi_halt_event ;;
   r <- sbi_ipi_send_many cur hmask hbase event None ;; ret (fst r))%sbi.

(** ** Receiving *)

(** The handlers of the events whose bits are set in [ipi_type]. *)
Fixpoint process_events (n : nat) (cur ipi_type ipi_event : Z) : M machine unit :=
  match n with
  | O => ret tt
  | S n' =>
      (if truthy ipi_type then
         (if truthy (Z.land ipi_type 1) then
            ops <- gets (λ m, mjoin (m_ipi_ops_array m !! Z.to_nat ipi_event)) ;;
            match ops ≫= ev_process with
            | Some process => process cur
            | None => ret tt
            end
          else ret tt) ;;;
         process_events n' cur (shr64 ipi_type 1) (ipi_event + 1)
       else ret tt)%sbi
  end.

Definition ipi_dev_clear (target : Z) : M machine unit :=
  λ m, match m_ipi_dev m with
       | Some d => if has_ipi_clear d then emit (EvIpiClear target) m else ret tt m
       | None => ret tt m
       end.

Definition sbi_ipi_process (cur : Z) : M machine unit :=
  (count_fw cur SBI_PMU_FW_IPI_RECVD ;;;
   ipi_dev_clear cur ;;;
   ipi_type <- on_hart cur (ipi_cell (atomic_raw_xchg_ulong 0)) ;;
   process_events 64 cur ipi_type 0)%sbi.

(** ** Set-up *)

Definition sbi_ipi_get_device : M machine (option sbi_ipi_device) := gets m_ipi_dev.

Definition sbi_ipi_set_device (dev : option sbi_ipi_device) : M machine unit :=
  modify (λ m, match dev, m_ipi_dev m with
               | Some _, None => set_ipi_dev dev m
               | _, _ => m
               end).

Definition set_off_ipi (o : Z) (m : machine) : machine :=
  let f := m_offs m in
  set_offs (Offsets (off_hsm f) o (off_tlb_sync f) (off_tlb_fifo f) (off_tlb_mem f)
              (off_time_delta f) (off_init_count f)) m.

(** The cold-boot part, and the warm-boot checks; [inl] leaves with an error. *)
Definition ipi_init_events (cold_boot : bool) : M machine (Z + unit) :=
  (if cold_boot then
     off <- alloc_field 8 (hd_set_ipi_type 0) ;;
     modify (set_off_ipi off) ;;;
     if negb (truthy off) then ret (inl SBI_ENOMEM)
     else
       r <- sbi_ipi_event_create (Some IPI_SMODE) ;;
       if r <? 0 then ret (inl r)
       else
         modify (set_smode_event r) ;;;
         r <- sbi_ipi_event_create (Some IPI_HALT) ;;
         if r <? 0 then ret (inl r)
         else modify (set_halt_event r) ;;; ret (inr tt)
   else
     off <- gets (λ m, off_ipi (m_offs m)) ;;
     smode <- gets m_ipi_smode_event ;;
     halt <- gets m_ipi_halt_event ;;
     if negb (truthy off) then ret (inl SBI_ENOMEM)
     else if (SBI_IPI_EVENT_MAX <=? smode) || (SBI_IPI_EVENT_MAX <=? halt) then ret (inl SBI_ENOSPC)
     else ret (inr tt))%sbi.

Definition sbi_ipi_init (cur : Z) (cold_boot : bool) : M machine Z :=
  (r <- ipi_init_events cold_boot ;;
   match r with
   | inl e => ret e
   | inr _ =>
       on_hart cur (modify (hd_set_ipi_type 0)) ;;;
       rc <- sbi_platform_ipi_init pl cur cold_boot ;;
       if truthy rc then ret rc
       else
         on_hart cur (hart_csr (csr_set CSR_MIE_ MIP_MSIP)) ;;;
         ret 0
   end)%sbi.

Definition sbi_ipi_exit (cur : Z) : M machine unit :=
  (on_hart cur (hart_csr (csr_clear CSR_MIE_ MIP_MSIP)) ;;;
   sbi_ipi_process cur ;;;
   sbi_platform_ipi_exit pl cur)%sbi.

End Ipi.

(** ** Delivery *)

Lemma filter_ext_in {A} (P Q : A → Prop) `{!forall x, Decision (P x)} `{!forall x, Decision (Q x)} (l : list A) :
  (forall x, x ∈ l -> P x <-> Q x) -> filter P l = filter Q l.
Proof.
  induction l as [|x l IH]; intros Hx; [done|]. rewrite !filter_cons.
  rewrite IH by (intros y Hy; apply Hx; by right). pose proof (Hx x ltac:(by left)) as Hpq.
  destruct (decide (P x)), (decide (Q x)); tauto.
Qed.

Definition device_sends (m : machine) : bool :=
  match m_ipi_dev m with Some d => has_ipi_send d | None => false end.

(** What the delivery of [event] to hart [h] changes: the pending word and, with
    a device, one interrupt. *)
Definition deliver (event : Z) (m : machine) (h : Z) : machine :=
  match hart m h with
  | None => m
  | Some d =>
      let m := put_hart h (hd_set_ipi_type (Z.lor (hd_ipi_type d) (BIT (event mod 64))) d) m in
      if device_sends m then add_event (EvIpiSend h) m else m
  end.

(** Same machine up to the firmware counters. *)
Definition same_but_pmu (m m' : machine) : Prop := m' = set_m_pmu (m_pmu m') m /\ fw_ready m'.

Lemma set_pmu_same m : set_m_pmu (m_pmu m) m = m.
Proof. by destruct m. Qed.

Lemma deliver_set_pmu ev p m h : deliver ev (set_m_pmu p m) h = set_m_pmu p (deliver ev m h).
Proof. unfold deliver. change (hart (set_m_pmu p m) h) with (hart m h). destruct (hart m h); [|done].
  unfold device_sends. cbn. by destruct (m_ipi_dev m) as [[[] ?]|]. Qed.

Lemma fold_deliver_set_pmu ev p l m :
  foldl (deliver ev) (set_m_pmu p m) l = set_m_pmu p (foldl (deliver ev) m l).
Proof. revert m. induction l as [|h l IH]; intros m; cbn; [done|]. by rewrite deliver_set_pmu. Qed.

Lemma deliver_hart ev m h h' :
  hart (deliver ev m h) h' =
    if h' =? h then (λ d, hd_set_ipi_type (Z.lor (hd_ipi_type d) (BIT (ev mod 64))) d) <$> hart m h
    else hart m h'.
Proof.
  unfold deliver. destruct (hart m h) as [d|] eqn:E; cycle 1.
  { destruct (Z.eqb_spec h' h) as [->|]; [done|done]. }
  assert (Hh : hart (if device_sends m then add_event (EvIpiSend h) (put_hart h (hd_set_ipi_type (Z.lor (hd_ipi_type d) (BIT (ev mod 64))) d) m) else
    put_hart h (hd_set_ipi_type (Z.lor (hd_ipi_type d) (BIT (ev mod 64))) d) m) h' =
    hart (put_hart h (hd_set_ipi_type (Z.lor (hd_ipi_type d) (BIT (ev mod 64))) d) m) h') by (by destruct (device_sends m)).
  cbv zeta. change (device_sends (put_hart _ _ m)) with (device_sends m). rewrite Hh.
  pose proof (hart_nonneg _ _ _ E). destruct (Z.eqb_spec h' h) as [->|].
  - by rewrite (hart_put_eq _ _ _ _ E).
  - by rewrite hart_put_ne.
Qed.

Lemma deliver_same ev m h :
  m_ipi_ops_array (deliver ev m h) = m_ipi_ops_array m /\ m_pmu (deliver ev m h) = m_pmu m /\
  device_sends (deliver ev m h) = device_sends m /\
  m_trace (deliver ev m h) = m_trace m ++
    match hart m h with Some _ => if device_sends m then [EvIpiSend h] else [] | None => [] end.
Proof.
  unfold deliver. destruct (hart m h) as [d|]; [|by rewrite app_nil_r].
  cbv zeta. change (device_sends (put_hart _ _ m)) with (device_sends m).
  destruct (device_sends m) eqn:E; rewrite ?app_nil_r; done.
Qed.

Section Delivery.
Context `{EventHandlers}.

(** An event without update and sync callbacks. *)
Definition plain_event (m : machine) (event : Z) : Prop :=
  exists ops, event_lookup m event = Some ops /\ ev_update ops = None /\ ev_sync ops = None.

Lemma send_plain m cur remote event data :
  plain_event m event -> 0 <= remote < 128 -> 0 <= cur < 128 -> fw_ready m ->
  exists rc m', sbi_ipi_send cur remote event data m = (Ret (rc, data), m') /\
    same_but_pmu (deliver event m remote) m'.
Proof.
  intros (ops & Hl & Hu & Hs) Hr Hc Hf. unfold sbi_ipi_send. rewrite bind_gets, Hl.
  unfold bind at 1. unfold scratch_ptr. change SBI_HARTMASK_MAX_BITS with 128.
  destruct (Z.leb_spec 0 remote), (Z.ltb_spec remote 128); try lia. cbn [andb].
  unfold same_but_pmu, deliver.
  destruct (hart m remote) as [d|] eqn:E; cycle 1.
  { exists SBI_EINVAL, m. split; [done|]. by rewrite set_pmu_same. }
  rewrite Hu, Hs, bind_ret_l. cbn [Z.ltb Z.compare].
  rewrite (bind_on_hart remote _ _ m d (s32 (hd_ipi_type d))
    (hd_set_ipi_type (Z.lor (hd_ipi_type d) (BIT (event mod 64))) d) E eq_refl).
  set (m1 := put_hart remote _ m). cbv zeta. fold m1. 
  assert (Hsend : sbi_ipi_raw_send remote m1 = (Ret tt, if device_sends m1 then add_event (EvIpiSend remote) m1 else m1)).
  { unfold sbi_ipi_raw_send, device_sends. by destruct (m_ipi_dev m1) as [[[] ?]|]. }
  rewrite (bind_Ret _ _ _ _ _ Hsend). set (m2 := if device_sends m1 then _ else _).
  assert (Hf2 : fw_ready m2) by (subst m2; by destruct (device_sends m1)).
  destruct (count_fw_run m2 cur SBI_PMU_FW_IPI_SENT Hf2 Hc) as (m3 & E3 & Q3 & _ & _); [done|].
  rewrite (bind_Ret _ _ _ _ _ E3), bind_ret_l. exists 0, m3. split; [done|].
  split; [|by apply Q3].
  unfold count_fw, on_pmu, zoom, bind in E3.
  destruct (sbi_pmu_ctr_incr_fw cur SBI_PMU_FW_IPI_SENT (m_pmu m2)) as [[] p] eqn:Ep; [|discriminate].
  injection E3 as <-. done.
Qed.

(** The harts of the window [i, i + n) whose bit is set. *)
Definition targets (i mask : Z) (n : nat) : list Z :=
  filter (λ h, Z.testbit mask (h - i) = true) (seqZ i (Z.of_nat n)).

Lemma targets_cons i mask n :
  0 <= mask ->
  targets i mask (S n) = (if Z.testbit mask 0 then [i] else []) ++ targets (i + 1) (Z.shiftr mask 1) n.
Proof.
  intros Hm. unfold targets. rewrite seqZ_cons by lia.
  replace (Z.pred (Z.of_nat (S n))) with (Z.of_nat n) by lia. rewrite filter_cons.
  replace (i - i) with 0 by lia. change (Z.succ i) with (i + 1).
  assert (Ht : filter (λ h, Z.testbit mask (h - i) = true) (seqZ (i + 1) (Z.of_nat n)) =
               filter (λ h, Z.testbit (Z.shiftr mask 1) (h - (i + 1)) = true) (seqZ (i + 1) (Z.of_nat n))).
  { apply filter_ext_in. intros h Hh%elem_of_seqZ.
    rewrite Z.shiftr_spec by lia. by replace (h - (i + 1) + 1) with (h - i) by lia. }
  rewrite Ht. destruct (decide (Z.testbit mask 0 = true)) as [->|Hn]; [done|].
  apply not_true_is_false in Hn. by rewrite Hn.
Qed.

Lemma targets_zero i n : targets i 0 n = [].
Proof.
  unfold targets.
  induction (seqZ i (Z.of_nat n)) as [|x l IH]; [done|]. rewrite filter_cons, Z.bits_0.
  rewrite decide_False by done. exact IH.
Qed.

Lemma plain_same m m' ev :
  m_ipi_ops_array m' = m_ipi_ops_array m -> plain_event m ev -> plain_event m' ev.
Proof. intros E (ops & Hl & ?). exists ops. split; [|done]. unfold event_lookup in *. by rewrite E. Qed.

Lemma send_mask_loop_run n cur i mask event data m :
  plain_event m event -> 0 <= cur < 128 -> fw_ready m -> 0 <= i -> i + Z.of_nat n <= 2 ^ 32 ->
  0 <= mask < 2 ^ Z.of_nat n -> (n <= 64)%nat ->
  (forall h, h ∈ targets i mask n -> h < 128) ->
  exists m', send_mask_loop n cur i mask event data m = (Ret data, m') /\
    same_but_pmu (foldl (deliver event) m (targets i mask n)) m'.
Proof.
  revert i mask m. induction n as [|n IH]; intros i mask m Hp Hc Hf Hi Hin Hm Hn Ht; cbn [send_mask_loop].
  { exists m. split; [done|]. unfold targets. cbn. split; [by rewrite set_pmu_same|done]. }
  destruct (Z.eq_dec mask 0) as [->|Hne].
  { cbn. exists m. split; [done|]. rewrite targets_zero. cbn. split; [by rewrite set_pmu_same|done]. }
  rewrite (proj2 (truthy_true mask) Hne).
  rewrite targets_cons in Ht |- * by lia.
  assert (Hb : truthy (Z.land mask 1) = Z.testbit mask 0).
  { change 1 with (shl64 1 0) at 1. by rewrite land_bit_truthy. }
  assert (Hs : shr64 mask 1 = Z.shiftr mask 1) by done.
  assert (Hsm : 0 <= Z.shiftr mask 1 < 2 ^ Z.of_nat n).
  { rewrite Z.shiftr_div_pow2 by lia. split; [apply Z.div_pos; lia|].
    apply Z.div_lt_upper_bound; [lia|]. rewrite <- Z.pow_add_r by lia.
    replace (1 + Z.of_nat n) with (Z.of_nat (S n)) by lia. lia. }
  assert (Hu : u64 (i + 1) = i + 1) by (apply u64_small; unfold is_u64; lia).
  rewrite Hb, Hs, Hu. destruct (Z.testbit mask 0) eqn:E0; cbn [app foldl].
  - assert (Hi32 : u32 i = i) by (apply Z.mod_small; lia). rewrite Hi32.
    destruct (send_plain m cur i event data Hp) as (rc & m1 & E1 & [P1 F1]); [|done|done|].
    { split; [done|]. apply Ht. apply elem_of_app. left. by left. }
    rewrite bind_assoc, (bind_Ret _ _ _ _ _ E1), bind_ret_l. cbn [snd].
    destruct (deliver_same event m i) as (S1 & S2 & S3 & _).
    destruct (IH (i + 1) (Z.shiftr mask 1) m1) as (m' & E' & [P' F']); try done; [|lia|lia|lia| |].
    + eapply plain_same; [|exact Hp]. rewrite P1. done.
    + intros h Hh. apply Ht. by right.
    + exists m'. split; [done|]. split; [|done]. rewrite P', P1, fold_deliver_set_pmu. done.
  - rewrite bind_ret_l. destruct (IH (i + 1) (Z.shiftr mask 1) m) as (m' & E' & P'); try done; [lia|lia|lia|].
    by exists m'.
Qed.

End Delivery.

Lemma fold_deliver_state ev l m h : hsm_state (foldl (deliver ev) m l) h = hsm_state m h.
Proof.
  revert m. induction l as [|x l IH]; intros m; cbn; [done|]. rewrite IH. unfold hsm_state.
  rewrite deliver_hart. destruct (Z.eqb_spec h x) as [->|]; [|done]. by destruct (hart m x).
Qed.

Lemma fold_deliver_hart ev l m h :
  NoDup l ->
  hart (foldl (deliver ev) m l) h =
    if bool_decide (h ∈ l) then (λ d, hd_set_ipi_type (Z.lor (hd_ipi_type d) (BIT (ev mod 64))) d) <$> hart m h
    else hart m h.
Proof.
  revert m. induction l as [|x l IH]; intros m Hnd; cbn; [done|]. inversion Hnd as [|? ? Hx Hl]; subst.
  rewrite (IH _ Hl), deliver_hart. destruct (Z.eqb_spec h x) as [->|Hne].
  - rewrite bool_decide_false by done. by rewrite bool_decide_true by (by left).
  - destruct (decide (h ∈ l)) as [Hin|Hin].
    + rewrite !bool_decide_true by (done || by right). done.
    + rewrite !bool_decide_false by (done || (rewrite elem_of_cons; intros [?|?]; done)). done.
Qed.

Lemma fold_deliver_trace ev l m :
  (forall h, h ∈ l -> is_Some (hart m h)) -> NoDup l -> device_sends m = true ->
  m_trace (foldl (deliver ev) m l) = m_trace m ++ map EvIpiSend l.
Proof.
  revert m. induction l as [|x l IH]; intros m Hs Hnd Hd; cbn; [by rewrite app_nil_r|].
  inversion Hnd as [|? ? Hx Hl]; subst. destruct (deliver_same ev m x) as (_ & _ & D & T).
  rewrite IH; [|intros h Hh|done|congruence].
  - rewrite T, Hd. destruct (Hs x) as [d ->]; [by left|]. by rewrite <- app_assoc.
  - rewrite deliver_hart. destruct (Z.eqb_spec h x) as [->|]; [done|]. apply Hs. by right.
Qed.

(** The harts a request (hmask, hbase) of domain [p] reaches, in order. *)
Definition ipi_targets (m : machine) (p : nat) (hmask hbase : Z) : list Z :=
  filter (λ h, Z.testbit hmask (h - hbase) = true /\ h <= last_hart m /\ h ∈ dom_harts m p /\
               can_interrupt m h = true) (seqZ hbase 64).

Lemma can_interrupt_some m h : can_interrupt m h = true -> is_Some (hart m h).
Proof. unfold can_interrupt, hsm_state. destruct (hart m h); [by eexists|discriminate]. Qed.

Lemma mask_targets m p hmask hbase out :
  (forall j, 0 <= j -> Z.testbit out j = true <->
      j < 64 /\ hbase + j <= last_hart m /\ hbase + j ∈ dom_harts m p /\ can_interrupt m (hbase + j) = true) ->
  targets hbase (Z.land out hmask) 64 = ipi_targets m p hmask hbase.
Proof.
  intros Ho. unfold targets, ipi_targets. change (Z.of_nat 64) with 64.
  apply filter_ext_in. intros h Hh%elem_of_seqZ. rewrite Z.land_spec, andb_true_iff.
  specialize (Ho (h - hbase) ltac:(lia)). replace (hbase + (h - hbase)) with h in Ho by lia.
  rewrite Ho. intuition lia.
Qed.

Section Smode.
Context `{EventHandlers}.

Lemma ipi_targets_in m p hmask hbase h :
  h ∈ ipi_targets m p hmask hbase ->
  hbase <= h < hbase + 64 /\ Z.testbit hmask (h - hbase) = true /\ h <= last_hart m /\ h ∈ dom_harts m p /\
  can_interrupt m h = true.
Proof. unfold ipi_targets. rewrite list_elem_of_filter, elem_of_seqZ. tauto. Qed.

(** An event without update and sync, sent to (hmask, hbase). *)
Lemma send_many_run (m : machine) (cur : Z) (p : nat) (hmask hbase event : Z) data :
  domain_ptr cur m = (Ret (Some p), m) -> domain_ready m p -> fw_ready m ->
  plain_event m event -> 0 <= cur < 128 -> is_u64 hmask -> 0 <= hbase < u64_max ->
  (last_hart m < hbase -> sbi_ipi_send_many cur hmask hbase event data m = (Ret (SBI_EINVAL, data), m)) /\
  (hbase <= last_hart m -> exists m', sbi_ipi_send_many cur hmask hbase event data m = (Ret (0, data), m') /\
     same_but_pmu (foldl (deliver event) m (ipi_targets m p hmask hbase)) m').
Proof.
  intros Hdp Hdr Hf Hpl Hc Hm Hb. unfold sbi_ipi_send_many. rewrite (bind_Ret _ _ _ _ _ Hdp).
  destruct (Z.eqb_spec hbase u64_max); [lia|]. cbn [negb].
  destruct (interruptible_mask_run m p hbase Hdr ltac:(lia)) as (rc & out & E & Hrc & Hou & Ho).
  rewrite (bind_Ret _ _ _ _ _ E). cbn [fst snd].
  destruct (Z.ltb_spec (last_hart m) hbase); subst rc; [split; [done|lia]|split; [lia|]]. intros _.
  cbn [truthy Z.eqb negb].
  assert (Ht : targets hbase (Z.land out hmask) 64 = ipi_targets m p hmask hbase) by (by apply mask_targets).
  pose proof (dr_last _ _ Hdr) as Hl.
  assert (Hmask : 0 <= Z.land out hmask < 2 ^ Z.of_nat 64) by (apply land_u64; [done|]; apply Hm).
  assert (Hlow : forall h, h ∈ targets hbase (Z.land out hmask) 64 -> h < 128)
    by (intros h Hh; rewrite Ht in Hh; apply ipi_targets_in in Hh; lia).
  destruct (send_mask_loop_run 64 cur hbase (Z.land out hmask) event data m
    Hpl Hc Hf ltac:(lia) ltac:(lia) Hmask ltac:(lia) Hlow) as (m' & E' & P').
  rewrite Ht in P'. rewrite (bind_Ret _ _ _ _ _ E'). by exists m'.
Qed.

Lemma ipi_targets_nodup m p hmask hbase : NoDup (ipi_targets m p hmask hbase).
Proof. unfold ipi_targets. apply list.NoDup_filter, NoDup_seqZ. Qed.

(** [C9] A supervisor IPI reaches exactly the harts it is meant for: of the harts
    the mask names, those assigned to the caller's domain that are started or
    suspended get the event pending and one interrupt each, in ascending order;
    no other hart changes in any way; a base beyond the last hart is refused
    without any effect. *)
Theorem ipi_send_smode_exact (m : machine) (cur : Z) (p : nat) (hmask hbase : Z) :
  domain_ptr cur m = (Ret (Some p), m) -> domain_ready m p -> fw_ready m ->
  plain_event m (m_ipi_smode_event m) -> device_sends m = true -> 0 <= cur < 128 ->
  is_u64 hmask -> 0 <= hbase < u64_max ->
  exists rc m', sbi_ipi_send_smode cur hmask hbase m = (Ret rc, m') /\
    (last_hart m < hbase -> rc = SBI_EINVAL /\ m' = m) /\
    (hbase <= last_hart m -> rc = SBI_OK /\
       m_trace m' = m_trace m ++ map EvIpiSend (ipi_targets m p hmask hbase) /\
       forall h, hart m' h =
         if bool_decide (h ∈ ipi_targets m p hmask hbase)
         then (λ d, hd_set_ipi_type (Z.lor (hd_ipi_type d) (BIT (m_ipi_smode_event m mod 64))) d) <$> hart m h
         else hart m h).
Proof.
  intros Hdp Hdr Hf Hpl Hdev Hc Hm Hb. unfold sbi_ipi_send_smode. rewrite bind_gets.
  destruct (send_many_run m cur p hmask hbase (m_ipi_smode_event m) None Hdp Hdr Hf Hpl Hc Hm Hb) as [Hbad Hok].
  destruct (Z.lt_ge_cases (last_hart m) hbase) as [Hlt|Hge].
  { rewrite (bind_Ret _ _ _ _ _ (Hbad Hlt)). exists SBI_EINVAL, m. split; [done|]. split; [done|lia]. }
  destruct (Hok Hge) as (m' & E & [P' _]). rewrite (bind_Ret _ _ _ _ _ E).
  exists SBI_OK, m'. split; [done|]. split; [lia|]. intros _. split; [done|]. split.
  - rewrite P'. change (m_trace (set_m_pmu ?q ?x)) with (m_trace x).
    rewrite fold_deliver_trace; [done| |apply ipi_targets_nodup|done].
    intros h Hh%ipi_targets_in. apply can_interrupt_some. tauto.
  - intros h. rewrite P'. change (hart (set_m_pmu ?q ?x) h) with (hart x h).
    by rewrite fold_deliver_hart by apply ipi_targets_nodup.
Qed.

(** ** Processing *)

(** Run the handler of event [ev]. *)
Definition handle_event (cur ev : Z) : M machine unit :=
  (ops <- gets (λ m, mjoin (m_ipi_ops_array m !! Z.to_nat ev)) ;;
   match ops ≫= ev_process with
   | Some process => process cur
   | None => ret tt
   end)%sbi.

Lemma process_events_targets n cur t ev m :
  0 <= t < 2 ^ Z.of_nat n -> (n <= 64)%nat ->
  process_events n cur t ev m = mfor (targets ev t n) (handle_event cur) m.
Proof.
  revert t ev m. induction n as [|n IH]; intros t ev m Ht Hn; [done|]. cbn [process_events].
  destruct (Z.eq_dec t 0) as [->|Hne]; [by rewrite targets_zero|].
  rewrite (proj2 (truthy_true t) Hne), targets_cons by lia.
  assert (Hb : truthy (Z.land t 1) = Z.testbit t 0).
  { change 1 with (shl64 1 0) at 1. by rewrite land_bit_truthy. }
  assert (Hs : 0 <= Z.shiftr t 1 < 2 ^ Z.of_nat n).
  { rewrite Z.shiftr_div_pow2 by lia. split; [apply Z.div_pos; lia|].
    apply Z.div_lt_upper_bound; [lia|]. rewrite <- Z.pow_add_r by lia.
    replace (1 + Z.of_nat n) with (Z.of_nat (S n)) by lia. lia. }
  rewrite Hb. change (shr64 t 1) with (Z.shiftr t 1).
  destruct (Z.testbit t 0); cbn [app mfor]; [|rewrite bind_ret_l; apply IH; done || lia].
  apply bind_ext. intros _ m'. apply IH; done || lia.
Qed.

Lemma targets_from_0 t : targets 0 t 64 = filter (λ ev, Z.testbit t ev = true) (seqZ 0 64).
Proof.
  unfold targets. change (Z.of_nat 64) with 64. apply filter_ext_in. intros ev _.
  by replace (ev - 0) with ev by lia.
Qed.

(** Receiving an IPI runs the handler of every event that was pending, each
    exactly once and in ascending order of event number, after the pending word
    has been emptied: the bit-scanning loop is the plain iteration over the set
    of pending events. *)
Theorem ipi_process_each_once (m : machine) (cur : Z) (d : hart_data) :
  hart m cur = Some d -> is_u64 (hd_ipi_type d) -> fw_ready m -> 0 <= cur < 128 ->
  exists m1, quiet (put_hart cur (hd_set_ipi_type 0 d) m) m1 /\
    sbi_ipi_process cur m =
      mfor (filter (λ ev, Z.testbit (hd_ipi_type d) ev = true) (seqZ 0 64)) (handle_event cur) m1.
Proof.
  intros Hd Hu Hf Hc. unfold sbi_ipi_process.
  destruct (count_fw_run m cur SBI_PMU_FW_IPI_RECVD Hf Hc) as (m0 & E0 & Q0 & _ & H0); [done|].
  rewrite (bind_Ret _ _ _ _ _ E0).
  assert (Ec : exists m1, ipi_dev_clear cur m0 = (Ret tt, m1) /\ quiet m0 m1 /\ m_harts m1 = m_harts m0).
  { unfold ipi_dev_clear. destruct (m_ipi_dev m0) as [[? []]|]; (eexists; split; [reflexivity|]);
      (split; [|done]); [apply quiet_emit|reflexivity|reflexivity]. }
  destruct Ec as (m1 & E1 & Q1 & H1). rewrite (bind_Ret _ _ _ _ _ E1).
  assert (Hd1 : hart m1 cur = Some d) by (unfold hart; rewrite H1, H0; exact Hd).
  rewrite (bind_on_hart cur _ _ m1 d (hd_ipi_type d) (hd_set_ipi_type 0 d) Hd1 eq_refl).
  exists (put_hart cur (hd_set_ipi_type 0 d) m1). split.
  - assert (Q : quiet m m1) by (by etrans). destruct Q as [Q2 Q3 Q4]. pose proof (hart_nonneg _ _ _ Hd).
    assert (Hhs : m_harts m1 = m_harts m) by congruence.
    constructor; [|exact Q3|].
    + unfold forget, put_hart in *. cbn in *. rewrite Hhs. rewrite Hhs in Q2. by injection Q2 as -> -> -> -> -> -> -> -> -> -> -> -> -> -> -> -> -> -> ->.
    + intros h r. unfold csr_at, hart, put_hart. cbn. by rewrite Hhs.
  - rewrite process_events_targets by (done || lia). by rewrite targets_from_0.
Qed.

End Smode.

(** ** Allocation of events *)

Lemma free_slot_spec tbl i :
  match free_slot tbl i with
  | Some r => i <= r < i + Z.of_nat (length tbl) /\ tbl !! Z.to_nat (r - i) = Some None /\
              forall j, i <= j < r -> is_Some (mjoin (tbl !! Z.to_nat (j - i)))
  | None => Forall is_Some tbl
  end.
Proof.
  revert i. induction tbl as [|[o|] tbl IH]; intros i; cbn [free_slot]; [constructor| |].
  - specialize (IH (i + 1)). destruct (free_slot tbl (i + 1)) as [r|]; [|by constructor].
    destruct IH as (Hr & Hs & Hj). cbn [length]. split; [lia|].
    assert (Hsh : forall j, i < j -> Z.to_nat (j - i) = S (Z.to_nat (j - (i + 1)))) by lia. split.
    + rewrite Hsh by lia. exact Hs.
    + intros j Hij. destruct (Z.eq_dec j i) as [->|].
      * replace (Z.to_nat (i - i)) with 0%nat by lia. by eexists.
      * rewrite Hsh by lia. apply Hj. lia.
  - cbn [length]. split; [lia|]. replace (Z.to_nat (i - i)) with 0%nat by lia. split; [done|lia].
Qed.

(** Event numbers are allocated without conflict: creating an event returns
    a number below 64 whose slot was free and is now the new event's, the lowest
    such number, and changes no other slot; it fails only when all 64 are taken,
    and then changes nothing. *)
Theorem ipi_event_create_fresh `{EventHandlers} (o : event_ops) (m : machine) :
  is_Some (ev_process o) -> length (m_ipi_ops_array m) = 64%nat ->
  exists r m', sbi_ipi_event_create (Some o) m = (Ret r, m') /\
    ((0 <= r < SBI_IPI_EVENT_MAX /\ m_ipi_ops_array m !! Z.to_nat r = Some None /\
      event_lookup m' r = Some o /\
      (forall j, 0 <= j -> j <> r -> m_ipi_ops_array m' !! Z.to_nat j = m_ipi_ops_array m !! Z.to_nat j) /\
      (forall j, 0 <= j < r -> is_Some (event_lookup m j))) \/
     (r = SBI_ENOSPC /\ m' = m /\ Forall is_Some (m_ipi_ops_array m))).
Proof.
  intros [pr Hpr] Hlen. unfold sbi_ipi_event_create. rewrite Hpr.
  pose proof (free_slot_spec (m_ipi_ops_array m) 0) as Hs.
  destruct (free_slot (m_ipi_ops_array m) 0) as [r|]; [|eexists _, _; split; [done|]; by right].
  destruct Hs as (Hr & Hfree & Hlow). rewrite Z.sub_0_r in Hfree. rewrite Hlen in Hr.
  change (0 + Z.of_nat 64) with 64 in Hr. unfold SBI_IPI_EVENT_MAX, event_lookup.
  eexists _, _. split; [reflexivity|]. left. split; [lia|]. split; [done|]. cbn.
  destruct (Z.leb_spec SBI_IPI_EVENT_MAX r); [unfold SBI_IPI_EVENT_MAX in *; lia|]. split; [|split].
  - rewrite list_lookup_insert_eq; [done|lia].
  - intros j Hj Hne. by rewrite list_lookup_insert_ne by lia.
  - intros j Hj. destruct (Z.leb_spec SBI_IPI_EVENT_MAX j); [unfold SBI_IPI_EVENT_MAX in *; lia|].
    specialize (Hlow j ltac:(lia)). by rewrite Z.sub_0_r in Hlow.
Qed.

(** ** Evaluation on the machine of three harts *)

(** Handlers with the supervisor event only. *)
Definition smode_handlers : EventHandlers :=
  {| ev_update := λ _, None; ev_sync := λ _, None;
     ev_process := λ o, match o with IPI_SMODE => Some sbi_ipi_process_smode | _ => None end |}.

Lemma ipi_send_smode_exact_witness :
  exists rc m', @sbi_ipi_send_smode smode_handlers 0 6 0 demo_machine = (Ret rc, m') /\
    (last_hart demo_machine < 0 -> rc = SBI_EINVAL /\ m' = demo_machine) /\
    (0 <= last_hart demo_machine -> rc = SBI_OK /\
       m_trace m' = m_trace demo_machine ++ map EvIpiSend (ipi_targets demo_machine root 6 0) /\
       forall h, hart m' h =
         if bool_decide (h ∈ ipi_targets demo_machine root 6 0)
         then (λ d, hd_set_ipi_type (Z.lor (hd_ipi_type d) (BIT (m_ipi_smode_event demo_machine mod 64))) d)
                <$> hart demo_machine h
         else hart demo_machine h).
Proof.
  apply (@ipi_send_smode_exact smode_handlers demo_machine 0 root 6 0);
    [reflexivity|apply demo_ready|apply fw_ready_demo| |reflexivity|lia|unfold is_u64; lia|unfold u64_max; lia].
  exists IPI_SMODE. done.
Defined.

(** Of harts 1 (stopped) and 2 (suspended), only hart 2 is reached. *)
Example smode_targets : ipi_targets demo_machine root 6 0 = [2].
Proof. vm_compute. reflexivity. Qed.

Lemma ipi_process_each_once_witness :
  exists m1, quiet (put_hart 0 (hd_set_ipi_type 0 (demo_hart SBI_HSM_STATE_STARTED)) demo_machine) m1 /\
    @sbi_ipi_process smode_handlers 0 demo_machine =
      mfor (filter (λ ev, Z.testbit (hd_ipi_type (demo_hart SBI_HSM_STATE_STARTED)) ev = true) (seqZ 0 64))
        (@handle_event smode_handlers 0) m1.
Proof.
  apply (@ipi_process_each_once smode_handlers demo_machine 0 (demo_hart SBI_HSM_STATE_STARTED));
    [reflexivity|cbn; unfold is_u64; lia|apply fw_ready_demo|lia].
Defined.

Lemma ipi_event_create_fresh_witness :
  exists r m', @sbi_ipi_event_create smode_handlers (Some IPI_SMODE) demo_machine = (Ret r, m') /\
    ((0 <= r < SBI_IPI_EVENT_MAX /\ m_ipi_ops_array demo_machine !! Z.to_nat r = Some None /\
      event_lookup m' r = Some IPI_SMODE /\
      (forall j, 0 <= j -> j <> r ->
         m_ipi_ops_array m' !! Z.to_nat j = m_ipi_ops_array demo_machine !! Z.to_nat j) /\
      (forall j, 0 <= j < r -> is_Some (event_lookup demo_machine j))) \/
     (r = SBI_ENOSPC /\ m' = demo_machine /\ Forall is_Some (m_ipi_ops_array demo_machine))).
Proof.
  apply (@ipi_event_create_fresh smode_handlers IPI_SMODE demo_machine); [by eexists|reflexivity].
Defined.
