(* ===== verification/Timer.v ===== *)
(** * Timers (lib/sbi/sbi_timer.c) and the console characters (lib/sbi/sbi_console.c)

    The supervisor timer: arming it, the interrupt that fires, and the offset of
    the virtual time; and the delay loop, between whose polls the rest of the
    system ([world]) runs.

    The theorems: the timer interrupt is pending for the supervisor exactly
    between its expiry and the next arming, and machine timer interrupts are
    enabled exactly while it is armed; the delay loop returns, not before its
    time, as long as the clock advances. *)

From Stdlib Require Import ZArith Lia.
From stdpp Require Import base tactics list gmap numbers.
From S2P Require Import Prelude SbiDefs Bitops Scratch Domain Csr Hart Pmu Machine Hsm Tlb.

Section Timer.
Context (pl : sbi_platform_operations).

(** [get_time_val()], when there is a source. *)
Definition read_time (cur : Z) (s : time_source) : M machine Z :=
  match s with
  | get_ticks => on_hart cur (hart_csr (csr_read CSR_TIME))
  | get_platform_ticks => gets m_mtime
  end.

(** [while ((get_time_val() - start_val) < delta) delay_fn(opaque);]: [polls]
    bounds the iterations. *)
Fixpoint delay_loop (world : machine → machine) (polls : nat) (cur : Z) (s : time_source) (start_val delta : Z)
    (delay_fn : M machine unit) : M machine unit :=
  match polls with
  | O => stop spinning
  | S n =>
      (v <- read_time cur s ;;
       if sub64 v start_val <? delta
       then delay_fn ;;; modify world ;;; delay_loop world n cur s start_val delta delay_fn
       else ret tt)%sbi
  end.

Definition nop_delay_fn : M machine unit := ret tt.

Definition sbi_timer_delay_loop (world : machine → machine) (polls : nat) (cur units unit_freq : Z)
    (delay_fn : option (M machine unit)) : M machine unit :=
  (dev <- gets m_timer_dev ;;
   s <- gets m_get_time_val ;;
   match dev, s with
   | Some d, Some s =>
       start_val <- read_time cur s ;;
       let delta := u64 (timer_freq d * units) / unit_freq in
       delay_loop world polls cur s start_val delta (default nop_delay_fn delay_fn)
   | _, _ => ret tt
   end)%sbi.

Definition sbi_timer_mdelay (world : machine → machine) (polls : nat) (cur msecs : Z) : M machine unit :=
  sbi_timer_delay_loop world polls cur msecs 1000 None.
Definition sbi_timer_udelay (world : machine → machine) (polls : nat) (cur usecs : Z) : M machine unit :=
  sbi_timer_delay_loop world polls cur usecs 1000000 None.

Definition sbi_timer_value (cur : Z) : M machine Z :=
  (s <- gets m_get_time_val ;;
   match s with
   | Some s => read_time cur s
   | None => ret 0
   end)%sbi.

Definition sbi_timer_virt_value (cur : Z) : M machine Z :=
  (v <- sbi_timer_value cur ;;
   d <- on_hart cur (gets hd_time_delta) ;;
   ret (add64 v d))%sbi.

Definition sbi_timer_get_delta (cur : Z) : M machine Z := on_hart cur (gets hd_time_delta).

Definition sbi_timer_set_delta (cur delta : Z) : M machine unit :=
  on_hart cur (modify (hd_set_time_delta delta)).

Definition sbi_timer_set_delta_upper (cur delta_upper : Z) : M machine unit :=
  on_hart cur (modify (λ d,
    hd_set_time_delta (Z.lor (Z.land (hd_time_delta d) 0xffffffff) (shl64 delta_upper 32)) d)).

Definition sbi_timer_event_start (cur next_event : Z) : M machine unit :=
  (count_fw cur SBI_PMU_FW_SET_TIMER ;;;
   dev <- gets m_timer_dev ;;
   (if match dev with Some d => has_timer_event_start d | None => false end
    then emit (EvTimerStart cur next_event) else ret tt) ;;;
   on_hart cur (hart_csr (csr_clear CSR_MIP MIP_STIP)) ;;;
   on_hart cur (hart_csr (csr_set CSR_MIE_ MIP_MTIP)))%sbi.

Definition sbi_timer_process (cur : Z) : M machine unit :=
  (on_hart cur (hart_csr (csr_clear CSR_MIE_ MIP_MTIP)) ;;;
   on_hart cur (hart_csr (csr_set CSR_MIP MIP_STIP)))%sbi.

Definition sbi_timer_get_device : M machine (option sbi_timer_device) := gets m_timer_dev.

Definition sbi_timer_set_device (dev : option sbi_timer_device) : M machine unit :=
  modify (λ m,
    match dev, m_timer_dev m with
    | Some d, None =>
        let m := set_timer_dev dev m in
        match m_get_time_val m with
        | None => if has_timer_value d then set_get_time_val (Some get_platform_ticks) m else m
        | Some _ => m
        end
    | _, _ => m
    end).

Definition set_off_time (o : Z) (m : machine) : machine :=
  let f := m_offs m in
  set_offs (Offsets (off_hsm f) (off_ipi f) (off_tlb_sync f) (off_tlb_fifo f) (off_tlb_mem f)
              o (off_init_count f)) m.

Definition timer_init_rest (cur : Z) (cold_boot : bool) : M machine Z :=
  (on_hart cur (modify (hd_set_time_delta 0)) ;;;
   sbi_platform_timer_init pl cur cold_boot)%sbi.

Definition sbi_timer_init (cur : Z) (cold_boot : bool) : M machine Z :=
  (if cold_boot then
     off <- alloc_field 8 (hd_set_time_delta 0) ;;
     modify (set_off_time off) ;;;
     if negb (truthy off) then ret SBI_ENOMEM
     else
       hf <- on_hart cur (gets hd_features) ;;
       (if sbi_hart_has_feature hf SBI_HART_HAS_TIME
        then modify (set_get_time_val (Some get_ticks)) else ret tt) ;;;
       timer_init_rest cur cold_boot
   else
     off <- gets (λ m, off_time_delta (m_offs m)) ;;
     if negb (truthy off) then ret SBI_ENOMEM else timer_init_rest cur cold_boot)%sbi.

Definition sbi_timer_exit (cur : Z) : M machine unit :=
  (dev <- gets m_timer_dev ;;
   (if match dev with Some d => has_timer_event_stop d | None => false end
    then emit (EvTimerStop cur) else ret tt) ;;;
   on_hart cur (hart_csr (csr_clear CSR_MIP MIP_STIP)) ;;;
   on_hart cur (hart_csr (csr_clear CSR_MIE_ MIP_MTIP)) ;;;
   sbi_platform_timer_exit pl cur)%sbi.

End Timer.

(** ** Console characters *)

Definition console_has (f : sbi_console_device → bool) (m : machine) : bool :=
  match m_console_dev m with Some d => f d | None => false end.

(** The next character the device delivers, -1 when there is none. *)
Definition sbi_getc : M machine Z :=
  λ m, if console_has has_getc m then
         match m_input m with
         | c :: l => (Ret c, set_input l m)
         | [] => (Ret (-1), m)
         end
       else (Ret (-1), m).

(** A [char] is 8 bits; a newline is preceded by a carriage return. *)
Definition sbi_putc (ch : Z) : M machine unit :=
  λ m, if console_has has_putc m then
         let ch := wrap 8 ch in
         ((if ch =? 10 then emit (EvConsole 13) else ret tt) ;;; emit (EvConsole ch))%sbi m
       else (Ret tt, m).

Definition sbi_isprintable (c : Z) : bool :=
  ((31 <? c) && (c <? 127)) || (c =? 12) || (c =? 13) || (c =? 10) || (c =? 9).

(** ** The supervisor timer as a state machine *)

Inductive timer_op : Type :=
| TimerStart (next_event : Z)      (* the set-timer call *)
| TimerFire                        (* the machine timer interrupt *)
| TimerExit.                       (* the hart is stopped *)

Definition timer_exec (pl : sbi_platform_operations) (cur : Z) (op : timer_op) : M machine unit :=
  match op with
  | TimerStart e => sbi_timer_event_start cur e
  | TimerFire => sbi_timer_process cur
  | TimerExit => sbi_timer_exit pl cur
  end.

Fixpoint timer_run (pl : sbi_platform_operations) (cur : Z) (ops : list timer_op) : M machine unit :=
  match ops with
  | [] => ret tt
  | op :: ops' => (timer_exec pl cur op ;;; timer_run pl cur ops')%sbi
  end.

(** What the supervisor sees: whether the timer is armed, whether its interrupt
    is pending. *)
Definition timer_spec (op : timer_op) : bool * bool :=
  match op with
  | TimerStart _ => (true, false)
  | TimerFire => (false, true)
  | TimerExit => (false, false)
  end.

Definition timer_view (m : machine) (cur : Z) : bool * bool :=
  (Z.testbit (csr_at m cur CSR_MIE_) 7, Z.testbit (csr_at m cur CSR_MIP) 5).

(** The other interrupts: every other bit of the two registers. *)
Definition other_interrupts (m m' : machine) (cur : Z) : Prop :=
  (forall i, 0 <= i < 64 -> i <> 7 -> Z.testbit (csr_at m' cur CSR_MIE_) i = Z.testbit (csr_at m cur CSR_MIE_) i) /\
  (forall i, 0 <= i < 64 -> i <> 5 -> Z.testbit (csr_at m' cur CSR_MIP) i = Z.testbit (csr_at m cur CSR_MIP) i).

Definition timer_ready (m : machine) (cur : Z) : Prop :=
  fw_ready m /\ is_Some (hart m cur) /\ is_u64 (csr_at m cur CSR_MIE_) /\ is_u64 (csr_at m cur CSR_MIP).

Lemma csr_set_run m cur c mask :
  is_Some (hart m cur) ->
  exists m', on_hart cur (hart_csr (csr_set c mask)) m = (Ret tt, m') /\ m_pmu m' = m_pmu m /\ is_Some (hart m' cur) /\
    forall r, csr_at m' cur r = if r =? c then Z.lor (csr_at m cur c) mask else csr_at m cur r.
Proof.
  intros [d Hd]. rewrite (on_hart_run _ _ _ _ Hd). eexists. split; [reflexivity|]. split; [done|].
  cbn. unfold csr_at. rewrite (hart_put_eq _ _ _ _ Hd), Hd. split; [by eexists|]. intros r. cbn.
  destruct (Z.eqb_spec r c) as [->|]; [by rewrite lookup_insert_eq|by rewrite lookup_insert_ne].
Qed.

Lemma csr_clear_run m cur c mask :
  is_Some (hart m cur) ->
  exists m', on_hart cur (hart_csr (csr_clear c mask)) m = (Ret tt, m') /\ m_pmu m' = m_pmu m /\ is_Some (hart m' cur) /\
    forall r, csr_at m' cur r = if r =? c then Z.land (csr_at m cur c) (not64 mask) else csr_at m cur r.
Proof.
  intros [d Hd]. rewrite (on_hart_run _ _ _ _ Hd). eexists. split; [reflexivity|]. split; [done|].
  cbn. unfold csr_at. rewrite (hart_put_eq _ _ _ _ Hd), Hd. split; [by eexists|]. intros r. cbn.
  destruct (Z.eqb_spec r c) as [->|]; [by rewrite lookup_insert_eq|by rewrite lookup_insert_ne].
Qed.

Lemma testbit_set_clear x n i :
  is_u64 x -> 0 <= n < 64 -> 0 <= i < 64 ->
  Z.testbit (Z.lor x (2 ^ n)) i = (i =? n) || Z.testbit x i /\
  Z.testbit (Z.land x (not64 (2 ^ n))) i = negb (i =? n) && Z.testbit x i.
Proof.
  intros Hx Hn Hi. rewrite Z.lor_spec, Z.land_spec, Z.pow2_bits_eqb by lia.
  rewrite testbit_not64 by (lia || (destruct (pow2_64 n Hn); unfold is_u64; lia)).
  rewrite Z.pow2_bits_eqb, (Z.eqb_sym n i) by lia.
  destruct (i =? n), (Z.testbit x i); done.
Qed.

(** Two register updates, one on MIE and one on MIP. *)
Lemma two_bits_view m m' cur (a b : bool) :
  is_u64 (csr_at m cur CSR_MIE_) -> is_u64 (csr_at m cur CSR_MIP) ->
  csr_at m' cur CSR_MIE_ = (if a then Z.lor (csr_at m cur CSR_MIE_) MIP_MTIP
                            else Z.land (csr_at m cur CSR_MIE_) (not64 MIP_MTIP)) ->
  csr_at m' cur CSR_MIP = (if b then Z.lor (csr_at m cur CSR_MIP) MIP_STIP
                           else Z.land (csr_at m cur CSR_MIP) (not64 MIP_STIP)) ->
  timer_view m' cur = (a, b) /\ other_interrupts m m' cur /\
  is_u64 (csr_at m' cur CSR_MIE_) /\ is_u64 (csr_at m' cur CSR_MIP).
Proof.
  intros U1 U2 E1 E2. unfold timer_view, other_interrupts. rewrite E1, E2.
  change MIP_MTIP with (2 ^ 7). change MIP_STIP with (2 ^ 5).
  assert (M1 : is_u64 (2 ^ 7) /\ is_u64 (2 ^ 5)) by (unfold is_u64; lia). destruct M1.
  split; [|split; [split|]].
  - destruct (testbit_set_clear (csr_at m cur CSR_MIE_) 7 7 U1) as [A1 A2]; [lia|lia|].
    destruct (testbit_set_clear (csr_at m cur CSR_MIP) 5 5 U2) as [B1 B2]; [lia|lia|].
    f_equal; [destruct a; [by rewrite A1|by rewrite A2]|destruct b; [by rewrite B1|by rewrite B2]].
  - intros i Hi Hne. destruct (testbit_set_clear (csr_at m cur CSR_MIE_) 7 i U1) as [A1 A2]; [lia|done|].
    apply Z.eqb_neq in Hne. rewrite Hne in A1, A2. by destruct a.
  - intros i Hi Hne. destruct (testbit_set_clear (csr_at m cur CSR_MIP) 5 i U2) as [A1 A2]; [lia|done|].
    apply Z.eqb_neq in Hne. rewrite Hne in A1, A2. by destruct b.
  - destruct a, b; split; auto with sbi; apply land_u64; try done; apply not64_range; unfold is_u64; lia.
Qed.

Lemma quiet_csr_at m m' cur : quiet m m' -> is_Some (hart m cur) ->
  is_Some (hart m' cur) /\ forall r, csr_at m' cur r = csr_at m cur r.
Proof.
  intros Q [d Hd]. destruct (quiet_hart m m' cur d Q Hd) as (d' & Hd' & _). split; [by eexists|].
  intros r. apply Q.
Qed.

Lemma timer_step (cur : Z) pl op m :
  plat pl = None \/ timer_exit pl = None -> 0 <= cur < 128 -> timer_ready m cur ->
  exists m', timer_exec pl cur op m = (Ret tt, m') /\ timer_ready m' cur /\
    timer_view m' cur = timer_spec op /\ other_interrupts m m' cur.
Proof.
  intros Hpl Hc (Hf & Hh & U1 & U2).
  assert (Hfin : forall m1 m' a b, fw_ready m' -> is_Some (hart m' cur) ->
    (forall r, csr_at m1 cur r = csr_at m cur r) ->
    csr_at m' cur CSR_MIE_ = (if (a : bool) then Z.lor (csr_at m1 cur CSR_MIE_) MIP_MTIP
                              else Z.land (csr_at m1 cur CSR_MIE_) (not64 MIP_MTIP)) ->
    csr_at m' cur CSR_MIP = (if (b : bool) then Z.lor (csr_at m1 cur CSR_MIP) MIP_STIP
                             else Z.land (csr_at m1 cur CSR_MIP) (not64 MIP_STIP)) ->
    timer_ready m' cur /\ timer_view m' cur = (a, b) /\ other_interrupts m m' cur).
  { intros m1 m' a b F' H' Hr E1 E2. rewrite !Hr in *.
    destruct (two_bits_view m m' cur a b U1 U2 E1 E2) as (V & O & V1 & V2).
    split; [split; [done|]; split; [done|]; split; done|done]. }
  assert (Hpmu : forall m1 m', m_pmu m' = m_pmu m1 -> fw_ready m1 -> fw_ready m')
    by (unfold fw_ready; intros ? ? ->; done).
  destruct op; cbn [timer_exec timer_spec].
  - unfold sbi_timer_event_start.
    destruct (count_fw_run m cur SBI_PMU_FW_SET_TIMER Hf Hc) as (m1 & E1 & Q1 & _); [done|].
    rewrite (bind_Ret _ _ _ _ _ E1), bind_gets.
    assert (E2 : exists m2, (if match m_timer_dev m1 with Some d => has_timer_event_start d | None => false end
      then emit (EvTimerStart cur next_event) else ret tt) m1 = (Ret tt, m2) /\ quiet m1 m2).
    { case_if; eexists; (split; [reflexivity|]); [apply quiet_emit|reflexivity]. }
    destruct E2 as (m2 & E2 & Q2). rewrite (bind_Ret _ _ _ _ _ E2).
    assert (Q : quiet m m2) by (by etrans). destruct (quiet_csr_at m m2 cur Q Hh) as [H2 R2].
    destruct (csr_clear_run m2 cur CSR_MIP MIP_STIP H2) as (m3 & E3 & P3 & H3 & R3).
    rewrite (bind_Ret _ _ _ _ _ E3).
    destruct (csr_set_run m3 cur CSR_MIE_ MIP_MTIP H3) as (m4 & E4 & P4 & H4 & R4).
    exists m4. split; [done|]. apply (Hfin m2); [|done|done| |].
    + eapply Hpmu; [exact P4|]. eapply Hpmu; [exact P3|]. by apply Q.
    + by rewrite R4, !R3.
    + by rewrite R4, !R3.
  - unfold sbi_timer_process.
    destruct (csr_clear_run m cur CSR_MIE_ MIP_MTIP Hh) as (m3 & E3 & P3 & H3 & R3).
    rewrite (bind_Ret _ _ _ _ _ E3).
    destruct (csr_set_run m3 cur CSR_MIP MIP_STIP H3) as (m4 & E4 & P4 & H4 & R4).
    exists m4. split; [done|]. apply (Hfin m); [|done|done| |].
    + eapply Hpmu; [exact P4|]. by eapply Hpmu.
    + by rewrite R4, !R3.
    + by rewrite R4, !R3.
  - unfold sbi_timer_exit. rewrite bind_gets.
    assert (E2 : exists m2, (if match m_timer_dev m with Some d => has_timer_event_stop d | None => false end
      then emit (EvTimerStop cur) else ret tt) m = (Ret tt, m2) /\ quiet m m2).
    { case_if; eexists; (split; [reflexivity|]); [apply quiet_emit|reflexivity]. }
    destruct E2 as (m2 & E2 & Q). rewrite (bind_Ret _ _ _ _ _ E2).
    destruct (quiet_csr_at m m2 cur Q Hh) as [H2 R2].
    destruct (csr_clear_run m2 cur CSR_MIP MIP_STIP H2) as (m3 & E3 & P3 & H3 & R3).
    rewrite (bind_Ret _ _ _ _ _ E3).
    destruct (csr_clear_run m3 cur CSR_MIE_ MIP_MTIP H3) as (m4 & E4 & P4 & H4 & R4).
    rewrite (bind_Ret _ _ _ _ _ E4).
    assert (Ex : sbi_platform_timer_exit pl cur m4 = (Ret tt, m4)).
    { unfold sbi_platform_timer_exit, platform_exit. destruct Hpl as [->| ->]; [done|by destruct (plat pl)]. }
    exists m4. split; [exact Ex|]. apply (Hfin m2); [|done|done| |].
    + eapply Hpmu; [exact P4|]. eapply Hpmu; [exact P3|]. by apply Q.
    + by rewrite R4, !R3.
    + by rewrite R4, !R3.
Qed.

(** The supervisor timer is a two-bit state machine: after any sequence of
    arming calls, timer interrupts and exits, the machine timer interrupt is
    enabled exactly when the last of them armed the timer, the supervisor timer
    interrupt is pending exactly when the last of them was the interrupt, and no
    other interrupt enable or pending bit has been touched. *)
Theorem timer_follows_last_event (pl : sbi_platform_operations) (cur : Z) (ops : list timer_op)
    (op : timer_op) (m : machine) :
  plat pl = None \/ timer_exit pl = None -> 0 <= cur < 128 -> timer_ready m cur ->
  exists m', timer_run pl cur (ops ++ [op]) m = (Ret tt, m') /\
    timer_view m' cur = timer_spec op /\ other_interrupts m m' cur.
Proof.
  intros Hpl Hc. revert m. induction ops as [|o ops IH]; intros m Hr; cbn [app timer_run].
  - destruct (timer_step cur pl op m Hpl Hc Hr) as (m' & E & _ & V & O).
    rewrite (bind_Ret _ _ _ _ _ E). by exists m'.
  - destruct (timer_step cur pl o m Hpl Hc Hr) as (m1 & E1 & R1 & _ & O1).
    rewrite (bind_Ret _ _ _ _ _ E1). destruct (IH m1 R1) as (m' & E & V & O). exists m'.
    split; [done|]. split; [done|]. destruct O1 as [A1 A2], O as [B1 B2].
    split; intros i Hi Hne; [rewrite B1 by done; by apply A1|rewrite B2 by done; by apply A2].
Qed.

(** A platform without hooks. *)
Definition bare_platform : sbi_platform_operations :=
  PlatformOps None None None None None None None None None None None None None None None None None None None false.

Lemma timer_follows_last_event_witness :
  exists m', timer_run bare_platform 0 ([TimerStart 100; TimerFire] ++ [TimerStart 200]) demo_machine = (Ret tt, m') /\
    timer_view m' 0 = timer_spec (TimerStart 200) /\ other_interrupts demo_machine m' 0.
Proof.
  apply (timer_follows_last_event bare_platform 0 [TimerStart 100; TimerFire] (TimerStart 200) demo_machine);
    [by left|lia|]. split; [apply fw_ready_demo|]. split; [by eexists|]. unfold is_u64. vm_compute. done.
Defined.

(** ** The delay loop *)

(** Between two polls the platform clock advances, by at most [K] ticks. *)
Definition clock_runs (world : machine → machine) (K : Z) : Prop :=
  forall m, exists k, 1 <= k <= K /\ m_mtime (world m) = add64 (m_mtime m) k.

Lemma sub64_add64 a b x : sub64 (add64 a x) b = u64 (sub64 a b + x).
Proof.
  unfold sub64, add64, u64. rewrite Zminus_mod_idemp_l, Zplus_mod_idemp_l. f_equal. lia.
Qed.

Lemma delay_loop_returns world K polls cur start delta m :
  clock_runs world K -> delta + K <= 2 ^ 64 ->
  Z.max 0 (delta - sub64 (m_mtime m) start) < Z.of_nat polls ->
  exists m', delay_loop world polls cur get_platform_ticks start delta nop_delay_fn m = (Ret tt, m') /\
    delta <= sub64 (m_mtime m') start.
Proof.
  intros Hw HK. revert m. induction polls as [|n IH]; intros m Hp.
  - lia.
  - cbn [delay_loop read_time]. rewrite bind_gets. destruct (Z.ltb_spec (sub64 (m_mtime m) start) delta) as [Hlt|Hge].
    + unfold nop_delay_fn at 1. rewrite bind_ret_l. unfold bind. cbn [modify].
      destruct (Hw m) as (k & Hk & Ek). apply IH. rewrite Ek, sub64_add64.
      pose proof (u64_range (m_mtime m - start)) as Hr. fold (sub64 (m_mtime m) start) in Hr. unfold is_u64 in Hr.
      rewrite u64_small by (unfold is_u64; lia). lia.
    + exists m. split; [done|lia].
Qed.

(** The delay loop ends and waits long enough: when the platform clock runs
    (at most [K] ticks between two polls, so that it cannot jump over the whole
    interval), the loop returns within [delta + 1] polls, and at least [delta]
    ticks have passed, also when the 64-bit clock wraps around meanwhile. *)
Theorem delay_waits_long_enough world K polls cur units unit_freq d m :
  m_timer_dev m = Some d -> m_get_time_val m = Some get_platform_ticks ->
  0 < unit_freq -> clock_runs world K ->
  let delta := u64 (timer_freq d * units) / unit_freq in
  delta + K <= 2 ^ 64 -> delta < Z.of_nat polls ->
  exists m', sbi_timer_delay_loop world polls cur units unit_freq None m = (Ret tt, m') /\
    delta <= sub64 (m_mtime m') (m_mtime m).
Proof.
  intros Hd Hs Hu Hw delta HK Hp. unfold sbi_timer_delay_loop. rewrite !bind_gets, Hd, Hs. cbn [read_time].
  rewrite bind_gets. apply (delay_loop_returns world K); [done|done|].
  unfold sub64. rewrite Z.sub_diag. change (u64 0) with 0. rewrite Z.sub_0_r.
  assert (0 <= delta); [|lia]. apply Z.div_pos; [apply u64_range|done].
Qed.

(** One microsecond at 10 MHz, three ticks a poll, across the wrap of the clock. *)
Lemma delay_waits_long_enough_witness :
  exists m', sbi_timer_delay_loop (λ m, set_mtime (add64 (m_mtime m) 3) m) 11 0 1 1000000 None
      (set_mtime (2 ^ 64 - 5) demo_machine) = (Ret tt, m') /\
    10 <= sub64 (m_mtime m') (2 ^ 64 - 5).
Proof.
  apply (delay_waits_long_enough (λ m, set_mtime (add64 (m_mtime m) 3) m) 3 11 0 1 1000000
    (TimerDevice 10000000 true true true) (set_mtime (2 ^ 64 - 5) demo_machine)).
  - reflexivity.
  - reflexivity.
  - lia.
  - intros m. exists 3. split; [lia|reflexivity].
  - vm_compute. discriminate.
  - vm_compute. reflexivity.
Defined.
