(* ===== verification/Console.v ===== *)
(** * Console output (lib/sbi/sbi_console.c)

    The characters and strings of the console, and the formatted print into the
    console or into a buffer.  A C string is the list of its characters, a
    variable argument list the list of its 8-byte slots.  The digit buffer of
    printi has its 64 bytes: a write below it stops with [wild_access].

    The theorems: printi stays inside its buffer and prints a number that
    reads back as the number; every print emits as many characters as it
    returns; and where the code falls short: snprintf writes past the size it
    is given, "%ld" prints a spare d, an int before a "%ll" argument makes it
    skip one, and a format that ends in a flag or width runs past its end. *)

From Stdlib Require Import ZArith Lia Ascii String.
From stdpp Require Import base tactics list gmap numbers.
From S2P Require Import Prelude SbiDefs Locks Machine Timer.

Definition chr (a : ascii) : Z := Z.of_N (N_of_ascii a).

(** The characters of a literal. *)
Fixpoint chars (s : string) : list Z :=
  match s with
  | EmptyString => []
  | String a s' => chr a :: chars s'
  end.

(** ** State *)

(** The machine (for the console), the console lock, and for a print into a
    buffer the memory, [*out] and [*out_len]. *)
Record print_state : Type := PrintState {
  ps_machine : machine;
  ps_lock : Z;
  ps_mem : gmap Z Z;
  ps_out : Z;
  ps_len : Z;
}.

Definition set_ps_machine v (s : print_state) : print_state :=
  PrintState v (ps_lock s) (ps_mem s) (ps_out s) (ps_len s).
Definition set_ps_lock v (s : print_state) : print_state :=
  PrintState (ps_machine s) v (ps_mem s) (ps_out s) (ps_len s).
Definition set_ps_buffer (mem : gmap Z Z) (out len : Z) (s : print_state) : print_state :=
  PrintState (ps_machine s) (ps_lock s) mem out len.

Definition putc (ch : Z) : M print_state unit := zoom ps_machine set_ps_machine (sbi_putc ch).
Definition lock_console : M print_state unit := zoom ps_lock set_ps_lock spin_lock.
Definition unlock_console : M print_state unit := zoom ps_lock set_ps_lock spin_unlock.

(** ** Strings *)

Definition sbi_puts (str : list Z) : M print_state unit :=
  (lock_console ;;; mfor str putc ;;; unlock_console)%sbi.

(** The loop of sbi_gets: the characters it stores; [maxwidth] bounds it. *)
Fixpoint gets_loop (n : nat) (maxwidth endchar : Z) : M machine (list Z) :=
  match n with
  | O => ret []
  | S n' =>
      (ch <- sbi_getc ;;
       if negb (ch =? endchar) && (0 <=? ch) && (1 <? maxwidth)
       then l <- gets_loop n' (maxwidth - 1) endchar ;; ret (wrap 8 ch :: l)
       else ret [])%sbi
  end.

(** The bytes written at [s], the final zero included. *)
Definition sbi_gets (maxwidth endchar : Z) : M machine (list Z) :=
  (l <- gets_loop (Z.to_nat maxwidth + 1) maxwidth endchar ;; ret (l ++ [0]))%sbi.

(** ** Formatted output *)

Definition PAD_RIGHT : Z := 1.
Definition PAD_ZERO : Z := 2.
Definition PAD_ALTERNATE : Z := 4.
Definition PRINT_BUF_LEN : Z := 64.

(** Where a print goes: [out] and [out_len] are NULL or not. *)
Record target : Type := Target {
  has_out : bool;
  has_len : bool;
}.

Definition printc (t : target) (ch : Z) : M print_state unit :=
  if has_out t then
    modify (λ s,
      if truthy (ps_out s) then
        if has_len t && (0 <? ps_len s)
        then set_ps_buffer (<[ps_out s := ch]> (ps_mem s)) (add64 (ps_out s) 1) (u32 (ps_len s - 1)) s
        else set_ps_buffer (<[ps_out s := ch]> (ps_mem s)) (add64 (ps_out s) 1) (ps_len s) s
      else s)
  else putc ch.

(** [for (; width > 0; --width) { printc(padchar); ++pc; }] *)
Definition pad (t : target) (width padchar : Z) : M print_state Z :=
  (mfor (replicate (Z.to_nat width) padchar) (printc t) ;;; ret (Z.max 0 width))%sbi.

Definition prints (t : target) (str : list Z) (width flags : Z) : M print_state Z :=
  (let len := Z.of_nat (length str) in
   let padchar := if (0 <? width) && truthy (Z.land flags PAD_ZERO) then chr "0" else chr " " in
   let width := if 0 <? width then if width <=? len then 0 else width - len else width in
   let left := negb (truthy (Z.land flags PAD_RIGHT)) in
   pc1 <- (if left then pad t width padchar else ret 0) ;;
   mfor str (printc t) ;;;
   pc2 <- (if left then ret 0 else pad t width padchar) ;;
   ret (pc1 + len + pc2))%sbi.

(** [*--s = c]: [buf] is the string from [s] to the end of the buffer. *)
Definition push (c : Z) (buf : list Z) : M print_state (list Z) :=
  if Z.of_nat (length buf) <? PRINT_BUF_LEN - 1 then ret (wrap 8 c :: buf) else stop wild_access.

(** The digit loop; [n] bounds its iterations. *)
Fixpoint digits_loop (n : nat) (u b letbase : Z) (buf : list Z) : M print_state (list Z) :=
  match n with
  | O => ret buf
  | S n' =>
      (if truthy u then
         let t := u mod b in
         let t := if 10 <=? t then t + (letbase - chr "0" - 10) else t in
         buf <- push (t + chr "0") buf ;;
         digits_loop n' (u / b) b letbase buf
       else ret buf)%sbi
  end.

(** [i] is the long long, as a signed number. *)
Definition printi (t : target) (i b : Z) (sg : bool) (width flags letbase : Z) : M print_state Z :=
  (let neg := sg && (b =? 10) && (i <? 0) in
   let u := if neg then u64 (- i) else u64 i in
   s <- (if negb (truthy u) then push (chr "0") [] else digits_loop 64 u b letbase []) ;;
   s <- (if truthy (Z.land flags PAD_ALTERNATE) then
           s <- (if (b =? 16) && (letbase =? chr "A") then push (chr "X") s
                 else if (b =? 16) && (letbase =? chr "a") then push (chr "x") s else ret s) ;;
           push (chr "0") s
         else ret s) ;;
   p <- (if neg then
           if truthy width && truthy (Z.land flags PAD_ZERO)
           then printc t (chr "-") ;;; ret (s, 1, width - 1)
           else s <- push (chr "-") s ;; ret (s, 0, width)
         else ret (s, 0, width)) ;;
   let '(s, pc, width) := p in
   pc' <- prints t s width flags ;;
   ret (pc + pc'))%sbi.

(** An argument: a number in its 8-byte slot, or a string pointer. *)
Inductive argument : Type :=
| ANum (v : Z)
| AStr (s : option (list Z)).

(** [va_arg(args, ...)] for a number: reading past the end, or a pointer as a
    number, is an error of the caller. *)
Definition va_num (args : list argument) : M print_state (Z * list argument) :=
  match args with ANum v :: args' => ret (v, args') | _ => stop wild_access end.

Definition va_str (args : list argument) : M print_state (option (list Z) * list argument) :=
  match args with AStr s :: args' => ret (s, args') | _ => stop wild_access end.

(** [while (acnt & 7) { va_arg(args, int); acnt += sizeof(int); }] *)
Fixpoint align_args (n : nat) (acnt : Z) (args : list argument) : M print_state (Z * list argument) :=
  match n with
  | O => ret (acnt, args)
  | S n' =>
      (if truthy (Z.land acnt 7) then p <- va_num args ;; align_args n' (acnt + 4) (snd p)
       else ret (acnt, args))%sbi
  end.

(** Flags: [-], then [#], then any number of [0]. *)
Fixpoint skip_zeros (fmt : list Z) (flags : Z) : Z * list Z :=
  match fmt with
  | c :: fmt' => if c =? chr "0" then skip_zeros fmt' (Z.lor flags PAD_ZERO) else (flags, fmt)
  | [] => (flags, fmt)
  end.

Definition get_flags (fmt : list Z) : Z * list Z :=
  let '(flags, fmt) := match fmt with
                       | c :: fmt' => if c =? chr "-" then (PAD_RIGHT, fmt') else (0, fmt)
                       | [] => (0, fmt)
                       end in
  let '(flags, fmt) := match fmt with
                       | c :: fmt' => if c =? chr "#" then (Z.lor flags PAD_ALTERNATE, fmt') else (flags, fmt)
                       | [] => (flags, fmt)
                       end in
  skip_zeros fmt flags.

(** [width *= 10; width += *format - '0';] in a 32-bit int, which wraps. *)
Fixpoint get_width (fmt : list Z) (width : Z) : Z * list Z :=
  match fmt with
  | c :: fmt' =>
      if (chr "0" <=? c) && (c <=? chr "9") then get_width fmt' (s32 (s32 (width * 10) + (c - chr "0"))) else (width, fmt)
  | [] => (width, fmt)
  end.

(** [*format] and [*(format + n)]: the terminator is a zero. *)
Definition peek (fmt : list Z) (n : nat) : Z := default 0 (fmt !! n).

(** What a conversion leaves: the rest of the arguments, [acnt], the characters
    printed, and how far [format] has moved when the [for] loop steps over the
    next character. *)
Record conversion : Type := Conversion {
  cv_args : list argument;
  cv_acnt : Z;
  cv_pc : Z;
  cv_skip : nat;
}.

Definition int_of (v : Z) : Z := s32 v.
Definition uint_of (v : Z) : Z := u32 v.
Definition long_of (v : Z) : Z := let w := u64 v in if w <? 2 ^ 63 then w else w - 2 ^ 64.

Section Print.
Context (t : target).

Definition conv_num (read : Z → Z) (b : Z) (sg : bool) (letbase : Z) (add : Z) (skip : nat)
    (width flags acnt : Z) (args : list argument) : M print_state conversion :=
  (p <- va_num args ;;
   pc <- printi t (read (fst p)) b sg width flags letbase ;;
   ret (Conversion (snd p) (acnt + add) pc skip))%sbi.

(** The conversion at [format], after flags and width. *)
Definition convert (fmt : list Z) (width flags acnt : Z) (args : list argument) : M print_state conversion :=
  let c := peek fmt 0 in
  let c1 := peek fmt 1 in
  let c2 := peek fmt 2 in
  (if c =? chr "s" then
     p <- va_str args ;;
     pc <- prints t (default (chars "(null)") (fst p)) width flags ;;
     ret (Conversion (snd p) (acnt + 8) pc 0)
   else if (c =? chr "d") || (c =? chr "i") then conv_num int_of 10 true (chr "0") 4 0 width flags acnt args
   else if c =? chr "x" then conv_num uint_of 16 false (chr "a") 4 0 width flags acnt args
   else if c =? chr "X" then conv_num uint_of 16 false (chr "A") 4 0 width flags acnt args
   else if c =? chr "u" then conv_num uint_of 10 false (chr "a") 4 0 width flags acnt args
   else if c =? chr "p" then conv_num long_of 16 false (chr "a") 8 0 width flags acnt args
   else if c =? chr "P" then conv_num long_of 16 false (chr "A") 8 0 width flags acnt args
   else if (c =? chr "l") && (c1 =? chr "l") then
     q <- align_args 2 acnt args ;;
     let '(acnt, args) := q in
     if c2 =? chr "u" then conv_num long_of 10 false (chr "a") 8 2 width flags acnt args
     else if c2 =? chr "x" then conv_num long_of 16 false (chr "a") 8 2 width flags acnt args
     else if c2 =? chr "X" then conv_num long_of 16 false (chr "A") 8 2 width flags acnt args
     else conv_num long_of 10 true (chr "0") 8 1 width flags acnt args
   else if c =? chr "l" then
     if c1 =? chr "u" then conv_num long_of 10 false (chr "a") 0 1 width flags acnt args
     else if c1 =? chr "x" then conv_num long_of 16 false (chr "a") 8 1 width flags acnt args
     else if c1 =? chr "X" then conv_num long_of 16 false (chr "A") 8 1 width flags acnt args
     else conv_num long_of 10 true (chr "0") 8 0 width flags acnt args
   else if c =? chr "c" then
     p <- va_num args ;;
     let scr := wrap 8 (fst p) in
     pc <- prints t (if scr =? 0 then [] else [scr]) width flags ;;
     ret (Conversion (snd p) (acnt + 4) pc 0)
   else ret (Conversion args acnt 0 0))%sbi.

(** The [for] loop; [fuel] exceeds the length of [format], and [pc] is an int.  [++format] at the
    terminator leaves the string. *)
Fixpoint print_loop (fuel : nat) (fmt : list Z) (args : list argument) (acnt pc : Z) : M print_state Z :=
  match fuel with
  | O => stop spinning
  | S fuel' =>
      match fmt with
      | [] => ret pc
      | c :: fmt =>
          (if c =? chr "%" then
             match fmt with
             | [] => ret pc
             | c' :: fmt' =>
                 if c' =? chr "%" then printc t c' ;;; print_loop fuel' fmt' args acnt (s32 (pc + 1))
                 else
                   let '(flags, fmt1) := get_flags fmt in
                   let '(width, fmt2) := get_width fmt1 0 in
                   cv <- convert fmt2 width flags acnt args ;;
                   if (length fmt2 <=? cv_skip cv)%nat then stop wild_access
                   else print_loop fuel' (drop (S (cv_skip cv)) fmt2) (cv_args cv) (cv_acnt cv) (s32 (pc + cv_pc cv))
             end
           else printc t c ;;; print_loop fuel' fmt args acnt (s32 (pc + 1)))%sbi
      end
  end.

Definition print (fmt : list Z) (args : list argument) : M print_state Z :=
  (pc <- print_loop (S (length fmt)) fmt args 0 0 ;;
   (if has_out t then modify (λ s, set_ps_buffer (<[ps_out s := 0]> (ps_mem s)) (ps_out s) (ps_len s) s)
    else ret tt) ;;;
   ret pc)%sbi.

End Print.

Definition sbi_sprintf (out : Z) (fmt : list Z) (args : list argument) : M print_state Z :=
  (modify (λ s, set_ps_buffer (ps_mem s) out (ps_len s) s) ;;; print (Target true false) fmt args)%sbi.

Definition sbi_snprintf (out out_sz : Z) (fmt : list Z) (args : list argument) : M print_state Z :=
  (modify (λ s, set_ps_buffer (ps_mem s) out out_sz s) ;;; print (Target true true) fmt args)%sbi.

Definition sbi_printf (fmt : list Z) (args : list argument) : M print_state Z :=
  (lock_console ;;; pc <- print (Target false false) fmt args ;; unlock_console ;;; ret pc)%sbi.

Definition SBI_SCRATCH_DEBUG_PRINTS : Z := 2.

Definition sbi_dprintf (options : Z) (fmt : list Z) (args : list argument) : M print_state Z :=
  if truthy (Z.land options SBI_SCRATCH_DEBUG_PRINTS) then sbi_printf fmt args else ret 0.

(** ** The device *)

Definition sbi_console_get_device : M machine (option sbi_console_device) := gets m_console_dev.

Definition sbi_console_set_device (dev : option sbi_console_device) : M machine unit :=
  modify (λ m, match dev, m_console_dev m with
               | Some _, None => set_console_dev dev m
               | _, _ => m
               end).

Definition sbi_console_init (pl : sbi_platform_operations) : M machine Z := sbi_platform_console_init pl.

(** ** What is emitted *)

(** The state after the characters [l] have gone to the target. *)
Definition emitted (t : target) (l : list Z) (st : print_state) : print_state := snd (mfor l (printc t) st).

Lemma printc_run t ch st : printc t ch st = (Ret tt, snd (printc t ch st)).
Proof.
  unfold printc. destruct (has_out t); [done|]. unfold putc, zoom, sbi_putc.
  destruct (console_has has_putc (ps_machine st)); [|done]. by destruct (wrap 8 ch =? 10).
Qed.

Lemma mfor_printc t l st : mfor l (printc t) st = (Ret tt, emitted t l st).
Proof.
  unfold emitted. revert st. induction l as [|c l IH]; intros st; [done|]. cbn [mfor].
  rewrite (bind_Ret _ _ _ _ _ (printc_run t c st)). apply IH.
Qed.

Lemma emitted_cons t c l st : emitted t (c :: l) st = emitted t l (snd (printc t c st)).
Proof. unfold emitted at 1. cbn [mfor]. rewrite (bind_Ret _ _ _ _ _ (printc_run t c st)). done. Qed.

Lemma emitted_app t l l' st : emitted t (l ++ l') st = emitted t l' (emitted t l st).
Proof.
  revert st. induction l as [|c l IH]; intros st; [done|]. cbn [app]. by rewrite !emitted_cons, IH.
Qed.

(** [c] prints [text] and returns its length. *)
Definition prints_text (t : target) (c : M print_state Z) (st : print_state) (text : list Z) : Prop :=
  c st = (Ret (Z.of_nat (length text)), emitted t text st).

(** The padding of prints. *)
Definition padded (str : list Z) (width flags : Z) : list Z :=
  let padchar := if truthy (Z.land flags PAD_ZERO) then chr "0" else chr " " in
  let padding := replicate (Z.to_nat (width - Z.of_nat (length str))) padchar in
  if truthy (Z.land flags PAD_RIGHT) then str ++ padding else padding ++ str.

Lemma pad_run t w ch st :
  pad t w ch st = (Ret (Z.of_nat (Z.to_nat w)), emitted t (replicate (Z.to_nat w) ch) st).
Proof.
  unfold pad. rewrite (bind_Ret _ _ _ _ _ (mfor_printc _ _ _)). unfold ret. do 2 f_equal. lia.
Qed.

Lemma prints_run t str width flags st : prints_text t (prints t str width flags) st (padded str width flags).
Proof.
  unfold prints_text, prints, padded. cbv zeta.
  set (w := if 0 <? width then _ else _).
  assert (Ew : Z.to_nat w = Z.to_nat (width - Z.of_nat (length str))).
  { subst w. repeat case_if; zbool; lia. }
  set (ch := if truthy (Z.land flags PAD_ZERO) then _ else _).
  set (padchar := if (0 <? width) && _ then _ else _).
  assert (Ec : replicate (Z.to_nat w) padchar = replicate (Z.to_nat (width - Z.of_nat (length str))) ch).
  { rewrite Ew. subst padchar ch. destruct (Z.ltb_spec 0 width); [done|].
    by replace (Z.to_nat (width - Z.of_nat (length str))) with O by lia. }
  destruct (truthy (Z.land flags PAD_RIGHT)); cbn [negb].
  - rewrite bind_ret_l, (bind_Ret _ _ _ _ _ (mfor_printc _ _ _)), (bind_Ret _ _ _ _ _ (pad_run _ _ _ _)), Ec.
    unfold ret. rewrite emitted_app, length_app, length_replicate. do 2 f_equal. lia.
  - rewrite (bind_Ret _ _ _ _ _ (pad_run _ _ _ _)), (bind_Ret _ _ _ _ _ (mfor_printc _ _ _)), bind_ret_l, Ec.
    unfold ret. rewrite emitted_app, length_app, length_replicate. do 2 f_equal. lia.
Qed.

(** ** Numbers *)

(** Reading a number back. *)
Definition digit_value (letbase c : Z) : Z := if c <? chr "0" + 10 then c - chr "0" else c - letbase + 10.
Definition read_digits (b letbase : Z) (ds : list Z) : Z := foldl (λ v c, v * b + digit_value letbase c) 0 ds.
Definition read_number (b letbase : Z) (l : list Z) : Z :=
  match l with
  | c :: l' => if c =? chr "-" then - read_digits b letbase l' else read_digits b letbase l
  | [] => 0
  end.

(** The bases printi is called with. *)
Definition known_base (b letbase : Z) : Prop := b = 10 \/ (b = 16 /\ (letbase = chr "a" \/ letbase = chr "A")).

Definition digit_char (letbase t : Z) : Z := (if 10 <=? t then t + (letbase - chr "0" - 10) else t) + chr "0".

Lemma digit_char_value b letbase t :
  known_base b letbase -> 0 <= t < b ->
  wrap 8 (digit_char letbase t) = digit_char letbase t /\ digit_value letbase (digit_char letbase t) = t /\
  digit_char letbase t <> chr "-".
Proof.
  unfold known_base, digit_char, digit_value, wrap. change (chr "0") with 48. change (chr "a") with 97.
  change (chr "A") with 65. change (chr "-") with 45. intros Hb Ht.
  assert (Hl : 10 <= t -> b = 16 /\ (letbase = 97 \/ letbase = 65)) by lia.
  destruct (Z.leb_spec 10 t) as [H|H].
  - destruct (Hl H) as [-> Hlb]. rewrite Z.mod_small by (change (2 ^ 8) with 256; lia). split; [done|].
    split; [|lia]. destruct (Z.ltb_spec (t + (letbase - 48 - 10) + 48) (48 + 10)); lia.
  - rewrite Z.mod_small by (change (2 ^ 8) with 256; lia). split; [done|]. split; [|lia].
    destruct (Z.ltb_spec (t + 48) (48 + 10)); lia.
Qed.

Lemma read_digits_snoc b letbase ds c :
  read_digits b letbase (ds ++ [c]) = read_digits b letbase ds * b + digit_value letbase c.
Proof. unfold read_digits. by rewrite foldl_snoc. Qed.

Lemma push_run c buf st : (length buf < 63)%nat -> push c buf st = (Ret (wrap 8 c :: buf), st).
Proof. intros H. unfold push, PRINT_BUF_LEN. rewrite (proj2 (Z.ltb_lt _ _)) by lia. done. Qed.

Lemma digits_loop_run b letbase n k u buf st :
  known_base b letbase -> 0 <= u < b ^ Z.of_nat n -> (n <= k)%nat -> (n + length buf <= 63)%nat ->
  exists ds, digits_loop k u b letbase buf st = (Ret (ds ++ buf), st) /\ read_digits b letbase ds = u /\
    (length ds <= n)%nat /\ (chr "-" ∉ ds) /\ (u <> 0 -> ds <> []).
Proof.
  intros Hb. assert (2 <= b) by (destruct Hb as [->|[-> _]]; lia).
  revert k u buf. induction n as [|n IH]; intros k u buf Hu Hk Hl.
  { assert (u = 0) as -> by (cbn in Hu; lia). exists []. split; [by destruct k|]. split; [done|]. split; [done|].
    split; [by apply not_elem_of_nil|done]. }
  destruct (Z.eq_dec u 0) as [->|Hne].
  { exists []. split; [by destruct k|]. split; [done|]. split; [cbn; lia|]. split; [by apply not_elem_of_nil|done]. }
  destruct k as [|k]; [lia|]. cbn [digits_loop]. rewrite (proj2 (truthy_true u) Hne). cbv zeta. fold (digit_char letbase (u mod b)).
  destruct (digit_char_value b letbase (u mod b) Hb) as (E1 & E2 & E3); [apply Z.mod_pos_bound; lia|].
  rewrite (bind_Ret _ _ _ _ _ (push_run _ buf st ltac:(lia))), E1.
  rewrite Nat2Z.inj_succ, Z.pow_succ_r in Hu by lia.
  destruct (IH k (u / b) (digit_char letbase (u mod b) :: buf)) as (ds & E & Hr & Hd & Hm & _).
  { split; [apply Z.div_pos; lia|]. apply Z.div_lt_upper_bound; lia. }
  { lia. } { cbn [length]. lia. }
  exists (ds ++ [digit_char letbase (u mod b)]). rewrite E, <- app_assoc. split; [done|].
  rewrite read_digits_snoc, Hr, E2, length_app. cbn [length]. split; [pose proof (Z.div_mod u b); lia|]. split; [lia|].
  split; [|intros _ H0; by destruct ds]. rewrite elem_of_app, list_elem_of_singleton. intros [?|?]; [done|]. by apply E3.
Qed.

(** The digits of a 64-bit number. *)
Lemma number_run b letbase u st :
  known_base b letbase -> is_u64 u ->
  exists ds, (if negb (truthy u) then push (chr "0") [] else digits_loop 64 u b letbase []) st = (Ret ds, st) /\
    read_digits b letbase ds = u /\ (length ds <= 20)%nat /\ (chr "-" ∉ ds) /\ ds <> [].
Proof.
  intros Hb Hu. destruct (truthy u) eqn:E; cbn [negb].
  - apply truthy_true in E. destruct (digits_loop_run b letbase 20 64 u [] st Hb) as (ds & E1 & H1 & H2 & H3 & H4).
    + unfold is_u64 in Hu. split; [lia|]. change (Z.of_nat 20) with 20.
      assert (10 ^ 20 <= b ^ 20) by (apply Z.pow_le_mono_l; destruct Hb as [->|[-> _]]; lia).
      change (10 ^ 20) with 100000000000000000000 in *. lia.
    + lia.
    + cbn. lia.
    + exists ds. rewrite app_nil_r in E1. split_and!; auto.
  - apply truthy_false in E as ->. exists [chr "0"]. split; [by rewrite push_run by (cbn; lia)|].
    split; [done|]. split; [cbn; lia|]. split; [|done]. by rewrite list_elem_of_singleton.
Qed.

(** The prefix of the alternate form. *)
Lemma alternate_run b letbase flags ds st :
  (length ds <= 20)%nat ->
  exists pre, (if truthy (Z.land flags PAD_ALTERNATE) then
       bind (if (b =? 16) && (letbase =? chr "A") then push (chr "X") ds
             else if (b =? 16) && (letbase =? chr "a") then push (chr "x") ds else ret ds) (λ s, push (chr "0") s)
     else ret ds) st = (Ret (pre ++ ds), st) /\ (length pre <= 2)%nat /\
    (Z.land flags PAD_ALTERNATE = 0 -> pre = []).
Proof.
  intros Hl. destruct (truthy (Z.land flags PAD_ALTERNATE)) eqn:E; [|exists []; split_and!; [done|cbn; lia|done]].
  apply truthy_true in E.
  destruct ((b =? 16) && (letbase =? chr "A")); [|destruct ((b =? 16) && (letbase =? chr "a"))].
  - rewrite (bind_Ret _ _ _ _ _ (push_run (chr "X") ds st ltac:(lia))), push_run by (cbn; lia).
    exists [chr "0"; chr "X"]. split; [done|]. split; [cbn; lia|done].
  - rewrite (bind_Ret _ _ _ _ _ (push_run (chr "x") ds st ltac:(lia))), push_run by (cbn; lia).
    exists [chr "0"; chr "x"]. split; [done|]. split; [cbn; lia|done].
  - rewrite bind_ret_l, push_run by lia. exists [chr "0"]. split; [done|]. split; [cbn; lia|done].
Qed.

Lemma length_padded str width flags : width <= Z.of_nat (length (padded str width flags)).
Proof. unfold padded. case_if; rewrite length_app, length_replicate; lia. Qed.

Lemma padded_0 str flags : padded str 0 flags = str.
Proof.
  unfold padded. replace (Z.to_nat (0 - Z.of_nat (length str))) with O by lia. cbn [replicate].
  case_if; [apply app_nil_r|done].
Qed.

Lemma printi_run t i b sg width flags letbase st :
  known_base b letbase -> - 2 ^ 63 <= i < 2 ^ 63 ->
  exists text, prints_text t (printi t i b sg width flags letbase) st text /\
    width <= Z.of_nat (length text) /\
    (width = 0 -> Z.land flags PAD_ALTERNATE = 0 ->
     read_number b letbase text = if sg && (b =? 10) then i else u64 i).
Proof.
  intros Hb Hi. unfold printi, prints_text. cbv zeta. set (neg := sg && (b =? 10) && (i <? 0)).
  set (u := if neg then u64 (- i) else u64 i).
  assert (Hu : is_u64 u) by (subst u; destruct neg; apply u64_range).
  destruct (number_run b letbase u st Hb Hu) as (ds & E1 & Hr & Hl & Hm & Hne). rewrite (bind_Ret _ _ _ _ _ E1).
  destruct (alternate_run b letbase flags ds st Hl) as (pre & E2 & Hl2 & Hpre). rewrite (bind_Ret _ _ _ _ _ E2).
  assert (Hval : forall text, Z.land flags PAD_ALTERNATE = 0 ->
    text = (if neg then chr "-" :: pre ++ ds else pre ++ ds) ->
    read_number b letbase text = if sg && (b =? 10) then i else u64 i).
  { intros text Hf ->. rewrite (Hpre Hf). cbn [app]. subst u. destruct neg eqn:En; subst neg; cbn [read_number].
    - change (chr "-" =? chr "-") with true. cbv iota. zbool. rewrite Hr. rewrite H, (proj2 (Z.eqb_eq _ _) H1). cbn [andb].
      rewrite u64_small; [lia|]. unfold is_u64. lia.
    - destruct ds as [|c ds]; [done|]. cbn [read_number]. rewrite not_elem_of_cons in Hm.
      rewrite (proj2 (Z.eqb_neq c (chr "-"))) by (intros ->; tauto). rewrite Hr.
      destruct (sg && (b =? 10)); [|done]. cbn [andb] in En. zbool. apply u64_small. unfold is_u64. lia. }
  destruct neg.
  - destruct (truthy width && truthy (Z.land flags PAD_ZERO)) eqn:Ew.
    + rewrite bind_assoc, (bind_Ret _ _ _ _ _ (printc_run t (chr "-") st)), bind_ret_l.
      rewrite (bind_Ret _ _ _ _ _ (prints_run t (pre ++ ds) (width - 1) flags _)).
      exists (chr "-" :: padded (pre ++ ds) (width - 1) flags). rewrite emitted_cons. unfold ret. cbn [length].
      split; [do 2 f_equal; lia|]. split; [pose proof (length_padded (pre ++ ds) (width - 1) flags); lia|].
      intros ->. by cbn in Ew.
    + rewrite bind_assoc, (bind_Ret _ _ _ _ _ (push_run (chr "-") (pre ++ ds) st ltac:(rewrite length_app; lia))), bind_ret_l.
      change (wrap 8 (chr "-")) with (chr "-").
      rewrite (bind_Ret _ _ _ _ _ (prints_run t (chr "-" :: pre ++ ds) width flags st)).
      eexists. split; [reflexivity|]. split; [apply length_padded|]. intros -> Hf. apply Hval; [done|apply padded_0].
  - rewrite bind_ret_l, (bind_Ret _ _ _ _ _ (prints_run t (pre ++ ds) width flags st)).
    eexists. split; [reflexivity|]. split; [apply length_padded|]. intros -> Hf. apply Hval; [done|apply padded_0].
Qed.

Lemma printi_text t i b sg width flags letbase st :
  known_base b letbase -> - 2 ^ 63 <= i < 2 ^ 63 ->
  exists text, printi t i b sg width flags letbase st = (Ret (Z.of_nat (length text)), emitted t text st).
Proof. intros Hb Hi. destruct (printi_run t i b sg width flags letbase st Hb Hi) as (text & H & _). by exists text. Qed.

(** [C39] printi is right and stays inside its 64-byte buffer: in the bases it is
    called with, for every number, width and set of flags, it returns the number
    of characters it printed, at least the width; and what it prints plainly
    (no width, no prefix) reads back as the number: the signed value in signed
    decimal, the unsigned 64-bit value otherwise. *)
Theorem printi_reads_back t i b sg width flags letbase st :
  known_base b letbase -> - 2 ^ 63 <= i < 2 ^ 63 ->
  exists text, prints_text t (printi t i b sg width flags letbase) st text /\
    width <= Z.of_nat (length text) /\
    (width = 0 -> Z.land flags PAD_ALTERNATE = 0 ->
     read_number b letbase text = if sg && (b =? 10) then i else u64 i).
Proof. apply printi_run. Qed.

Definition demo_print : print_state := PrintState demo_machine SPIN_LOCK_INIT ∅ 0 0.

Lemma printi_reads_back_witness :
  exists text, prints_text (Target false false) (printi (Target false false) (-27) 10 true 0 0 (chr "0")) demo_print text /\
    read_number 10 (chr "0") text = -27.
Proof.
  destruct (printi_reads_back (Target false false) (-27) 10 true 0 0 (chr "0") demo_print) as (text & H1 & _ & H3);
    [by left|lia|]. exists text. split; [exact H1|]. exact (H3 eq_refl eq_refl).
Defined.

(** ** The format *)

(** A conversion prints what it counts, or the arguments were not there. *)
Definition converts (t : target) (c : M print_state conversion) (st : print_state) : Prop :=
  (exists cv text, c st = (Ret cv, emitted t text st) /\ cv_pc cv = Z.of_nat (length text)) \/
  (exists st', c st = (Stop wild_access, st')).

Lemma s32_range v : - 2 ^ 31 <= s32 v < 2 ^ 31.
Proof.
  unfold s32, u32. cbv zeta. pose proof (Z.mod_pos_bound v (2 ^ 32) ltac:(lia)).
  destruct (Z.ltb_spec (v mod 2 ^ 32) (2 ^ 31)); lia.
Qed.

Lemma s32_add a b : s32 (s32 a + b) = s32 (a + b).
Proof.
  assert (E : (s32 a + b) mod 2 ^ 32 = (a + b) mod 2 ^ 32).
  { rewrite <- (Zplus_mod_idemp_l (s32 a)), <- (Zplus_mod_idemp_l a). do 2 f_equal.
    unfold s32, u32. case_if; [apply Zmod_mod|].
    replace (a mod 2 ^ 32 - 2 ^ 32) with (a mod 2 ^ 32 + (-1) * 2 ^ 32) by lia. rewrite Z_mod_plus_full. apply Zmod_mod. }
  unfold s32 at 1 3. unfold u32. by rewrite E.
Qed.

Lemma s32_idemp a : s32 (s32 a) = s32 a.
Proof. apply s32_small, s32_range. Qed.

Definition long_range (read : Z → Z) : Prop := forall v, - 2 ^ 63 <= read v < 2 ^ 63.

Lemma int_long : long_range int_of.
Proof. intros v. pose proof (s32_range v). unfold int_of. lia. Qed.
Lemma uint_long : long_range uint_of.
Proof. intros v. unfold uint_of, u32. pose proof (Z.mod_pos_bound v (2 ^ 32) ltac:(lia)). lia. Qed.
Lemma long_long : long_range long_of.
Proof.
  intros v. unfold long_of, u64. cbv zeta. pose proof (Z.mod_pos_bound v (2 ^ 64) ltac:(lia)).
  destruct (Z.ltb_spec (v mod 2 ^ 64) (2 ^ 63)); lia.
Qed.

Lemma conv_num_converts t read b sg letbase add skip width flags acnt args st :
  known_base b letbase -> long_range read ->
  converts t (conv_num t read b sg letbase add skip width flags acnt args) st.
Proof.
  intros Hb Hr. unfold conv_num. destruct args as [|[v|s] args]; [right; by eexists| |right; by eexists].
  unfold va_num, converts. rewrite bind_ret_l. cbn [fst snd].
  assert (exists text, printi t (read v) b sg width flags letbase st = (Ret (Z.of_nat (length text)), emitted t text st))
    as (text & E) by (apply printi_text; auto).
  left. rewrite (bind_Ret _ _ _ _ _ E). by eexists _, text.
Qed.

#[local] Hint Resolve int_long uint_long long_long : sbi.

Lemma base_10 l : known_base 10 l.
Proof. by left. Qed.
Lemma base_16a : known_base 16 (chr "a").
Proof. right. auto. Qed.
Lemma base_16A : known_base 16 (chr "A").
Proof. right. auto. Qed.
#[local] Hint Resolve base_10 base_16a base_16A : sbi.

Lemma align_args_settles n acnt args st :
  (exists p, align_args n acnt args st = (Ret p, st)) \/ align_args n acnt args st = (Stop wild_access, st).
Proof.
  revert acnt args. induction n as [|n IH]; intros acnt args; cbn [align_args]; [left; by eexists|].
  case_if; [|left; by eexists]. destruct args as [|[v|s] args]; [by right| |by right].
  unfold va_num. rewrite bind_ret_l. apply IH.
Qed.

Lemma prints_converts t str width flags st (k : Z → conversion) :
  (forall pc, cv_pc (k pc) = pc) -> converts t (bind (prints t str width flags) (λ pc, ret (k pc))) st.
Proof.
  intros Hk. left. rewrite (bind_Ret _ _ _ _ _ (prints_run t str width flags st)).
  eexists _, _. split; [reflexivity|apply Hk].
Qed.

Lemma convert_converts t fmt width flags acnt args st : converts t (convert t fmt width flags acnt args) st.
Proof.
  unfold convert. cbv zeta.
  case_if.
  { destruct args as [|[v|s] args]; [right; by eexists|right; by eexists|]. unfold va_str.
    unfold converts. rewrite bind_ret_l. by apply (prints_converts t _ width flags st (λ pc, Conversion args (acnt + 8) pc 0)). }
  do 6 (case_if; [apply conv_num_converts; auto with sbi|]).
  case_if.
  { unfold converts. destruct (align_args_settles 2 acnt args st) as [((acnt' & args') & Ea)|Ea].
    - rewrite (bind_Ret _ _ _ _ _ Ea). repeat case_if; apply conv_num_converts; auto with sbi.
    - right. unfold bind. rewrite Ea. by eexists. }
  case_if; [repeat case_if; apply conv_num_converts; auto with sbi|].
  case_if.
  { destruct args as [|[v|s] args]; [right; by eexists| |right; by eexists]. unfold va_num.
    unfold converts. rewrite bind_ret_l. by apply (prints_converts t _ width flags st (λ pc, Conversion args (acnt + 4) pc 0)). }
  left. by exists (Conversion args acnt 0 0), [].
Qed.

Lemma get_flags_length fmt : (length (snd (get_flags fmt)) <= length fmt)%nat.
Proof.
  assert (Hz : forall l f, (length (snd (skip_zeros l f)) <= length l)%nat).
  { induction l as [|c l IH]; intros f; cbn; [lia|]. case_if; [|cbn; lia]. specialize (IH (Z.lor f PAD_ZERO)). lia. }
  unfold get_flags. destruct fmt as [|c fmt]; [apply Hz|].
  destruct (c =? chr "-").
  - destruct fmt as [|c' fmt]; [etrans; [apply Hz|cbn; lia]|].
    destruct (c' =? chr "#"); (etrans; [apply Hz|cbn; lia]).
  - destruct (c =? chr "#"); (etrans; [apply Hz|cbn; lia]).
Qed.

Lemma get_width_length fmt w : (length (snd (get_width fmt w)) <= length fmt)%nat.
Proof. revert w. induction fmt as [|c fmt IH]; intros w; cbn; [lia|]. case_if; [|cbn; lia]. etrans; [apply IH|lia]. Qed.

Lemma print_loop_settles t fuel fmt args acnt pc st :
  (length fmt < fuel)%nat -> s32 pc = pc ->
  (exists text, print_loop t fuel fmt args acnt pc st = (Ret (s32 (pc + Z.of_nat (length text))), emitted t text st)) \/
  (exists st', print_loop t fuel fmt args acnt pc st = (Stop wild_access, st')).
Proof.
  revert fmt args acnt pc st. induction fuel as [|fuel IH]; intros fmt args acnt pc st Hf Hw; [lia|].
  cbn [print_loop]. destruct fmt as [|c fmt].
  { left. exists []. cbn [length]. by rewrite Z.add_0_r, Hw. }
  cbn [length] in Hf.
  assert (Hchar : forall ch fmt' st, (length fmt' < fuel)%nat ->
    (exists text, (printc t ch ;;; print_loop t fuel fmt' args acnt (s32 (pc + 1)))%sbi st =
       (Ret (s32 (pc + Z.of_nat (length text))), emitted t text st)) \/
    (exists st', (printc t ch ;;; print_loop t fuel fmt' args acnt (s32 (pc + 1)))%sbi st = (Stop wild_access, st'))).
  { intros ch fmt' st1 Hl. rewrite (bind_Ret _ _ _ _ _ (printc_run t ch st1)).
    destruct (IH fmt' args acnt (s32 (pc + 1)) (snd (printc t ch st1)) Hl (s32_idemp _)) as [(text & E)|(st' & E)]; rewrite E.
    - left. exists (ch :: text). rewrite emitted_cons, s32_add. do 3 f_equal. cbn [length]. lia.
    - right. by eexists. }
  destruct (c =? chr "%"); [|apply Hchar; lia].
  destruct fmt as [|c' fmt']; [left; exists []; cbn [length]; by rewrite Z.add_0_r, Hw|].
  destruct (c' =? chr "%"); [apply Hchar; cbn in Hf; lia|].
  pose proof (get_flags_length (c' :: fmt')) as H1. destruct (get_flags (c' :: fmt')) as [flags fmt1]. cbn [snd] in H1.
  pose proof (get_width_length fmt1 0) as H2. destruct (get_width fmt1 0) as [width fmt2]. cbn [snd] in H2.
  destruct (convert_converts t fmt2 width flags acnt args st) as [(cv & text & E & Hpc)|(st' & E)].
  - rewrite (bind_Ret _ _ _ _ _ E). destruct (Nat.leb_spec (length fmt2) (cv_skip cv)); [right; by eexists|].
    destruct (IH (drop (S (cv_skip cv)) fmt2) (cv_args cv) (cv_acnt cv) (s32 (pc + cv_pc cv)) (emitted t text st))
      as [(text' & E')|(st' & E')]; [rewrite length_drop; lia|apply s32_idemp| |]; rewrite E'.
    + left. exists (text ++ text'). rewrite emitted_app, length_app, Hpc, s32_add. do 3 f_equal. lia.
    + right. by eexists.
  - right. unfold bind. rewrite E. by eexists.
Qed.

(** The formatted print always ends, for every format and every argument
    list: it returns the number of characters it printed, as an int (with the final zero
    after them in a buffer), or it stops because the format asked for an
    argument that is not there or ran past its own end. *)
Theorem print_terminates t fmt args st :
  (exists text, let st' := emitted t text st in
     print t fmt args st = (Ret (s32 (Z.of_nat (length text))),
       if has_out t then set_ps_buffer (<[ps_out st' := 0]> (ps_mem st')) (ps_out st') (ps_len st') st' else st')) \/
  (exists st', print t fmt args st = (Stop wild_access, st')).
Proof.
  unfold print. destruct (print_loop_settles t (S (length fmt)) fmt args 0 0 st ltac:(lia) eq_refl) as [(text & E)|(st' & E)].
  - left. exists text. rewrite (bind_Ret _ _ _ _ _ E). by destruct (has_out t).
  - right. unfold bind. rewrite E. by eexists.
Qed.

(** ** Where the print falls short *)

(** The characters a print sends to the console of the demonstration machine. *)
Definition console_text (fmt : string) (args : list argument) : list Z :=
  omap (λ e, match e with EvConsole c => Some c | _ => None end)
    (m_trace (ps_machine (snd (sbi_printf (chars fmt) args demo_print)))).

Example print_padded : console_text "hart%d: 0x%08lx|%-4s|" [ANum 3; ANum 0xbeef; AStr (Some (chars "ok"))] =
  chars "hart3: 0x0000beef|ok  |".
Proof. vm_compute. reflexivity. Qed.

(** "%ld" and "%lld" do not step over their last letter, which is printed too.
    See sbi_console.c:292 and 319. *)
Example long_prints_spare_letter :
  console_text "%ld!" [ANum 5] = chars "5d!" /\ console_text "%lld!" [ANum 5] = chars "5d!".
Proof. split; vm_compute; reflexivity. Qed.

(** Arguments take a slot of 8 bytes each, but an int counts 4: a "%ll"
    conversion after an odd number of ints skips an argument.  See
    sbi_console.c:263. *)
Example long_long_skips_argument : console_text "%d %llx" [ANum 1; ANum 2; ANum 3] = chars "1 3".
Proof. vm_compute. reflexivity. Qed.

(** A format that ends in a width (or flag) is read past its terminator. *)
Example width_runs_past_end : fst (print (Target false false) (chars "%5") [] demo_print) = Stop wild_access.
Proof. vm_compute. reflexivity. Qed.

Lemma print_loop_plain t fuel fmt args acnt pc st :
  chr "%" ∉ fmt -> (length fmt < fuel)%nat -> s32 pc = pc ->
  print_loop t fuel fmt args acnt pc st = (Ret (s32 (pc + Z.of_nat (length fmt))), emitted t fmt st).
Proof.
  revert fmt pc st. induction fuel as [|fuel IH]; intros fmt pc st Hp Hf Hw; [lia|]. cbn [print_loop].
  destruct fmt as [|c fmt]; [cbn [length]; by rewrite Z.add_0_r, Hw|]. rewrite not_elem_of_cons in Hp.
  rewrite (proj2 (Z.eqb_neq c (chr "%"))) by (intros ->; tauto).
  rewrite (bind_Ret _ _ _ _ _ (printc_run t c st)), IH, emitted_cons, s32_add by (tauto || (cbn in Hf; lia) || apply s32_idemp).
  do 3 f_equal. cbn [length]. lia.
Qed.

(** Characters into a buffer: whatever the size left, they land one after the other. *)
Lemma emitted_buffer l st out :
  ps_out st = out -> 0 < out -> out + Z.of_nat (length l) < 2 ^ 64 ->
  let st' := emitted (Target true true) l st in
  ps_out st' = out + Z.of_nat (length l) /\
  (forall a, a < out -> ps_mem st' !! a = ps_mem st !! a) /\
  forall i c, l !! i = Some c -> ps_mem st' !! (out + Z.of_nat i) = Some c.
Proof.
  revert st out. induction l as [|c l IH]; intros st out Ho Hp Hb st'; subst st'.
  { cbn. split; [lia|]. split; [done|]. intros i c Hi. by rewrite lookup_nil in Hi. }
  rewrite emitted_cons. set (st1 := snd (printc (Target true true) c st)).
  assert (E1 : ps_out st1 = out + 1 /\ ps_mem st1 = <[out := c]> (ps_mem st)).
  { subst st1. unfold printc. cbn [has_out has_len modify snd andb]. rewrite Ho. unfold truthy.
    rewrite (proj2 (Z.eqb_neq out 0)) by lia. cbn [negb length] in *.
    assert (add64 out 1 = out + 1) as -> by (apply u64_small; unfold is_u64; lia). by case_if. }
  destruct E1 as [E1 E2]. cbn [length] in *.
  destruct (IH st1 (out + 1) E1) as (H1 & H2 & H3); [lia|lia|]. split; [rewrite H1; lia|]. split.
  - intros a Ha. rewrite H2, E2, lookup_insert_ne by lia. done.
  - intros [|i] c' Hi; cbn in Hi.
    + injection Hi as <-. change (Z.of_nat 0) with 0. rewrite Z.add_0_r, H2, E2 by lia. apply lookup_insert_eq.
    + replace (out + Z.of_nat (S i)) with (out + 1 + Z.of_nat i) by lia. by apply H3.
Qed.

(** sbi_snprintf does not keep to its size: once the size is used up printc goes
    on writing, so a plain text is written in full, with its final zero, whatever
    [out_sz].  See sbi_console.c:84. *)
Theorem snprintf_ignores_size fmt out out_sz args st :
  chr "%" ∉ fmt -> 0 < out -> out + Z.of_nat (length fmt) < 2 ^ 64 ->
  exists st', sbi_snprintf out out_sz fmt args st = (Ret (s32 (Z.of_nat (length fmt))), st') /\
    (forall i c, fmt !! i = Some c -> ps_mem st' !! (out + Z.of_nat i) = Some c) /\
    ps_mem st' !! (out + Z.of_nat (length fmt)) = Some 0.
Proof.
  intros Hp Ho Hb. unfold sbi_snprintf, print. unfold bind at 1. cbn [modify].
  set (st0 := set_ps_buffer _ _ _ _).
  rewrite (bind_Ret _ _ _ _ _ (print_loop_plain (Target true true) (S (length fmt)) fmt args 0 0 st0 Hp ltac:(lia) eq_refl)).
  destruct (emitted_buffer fmt st0 out eq_refl Ho Hb) as (H1 & H2 & H3).
  set (st1 := emitted (Target true true) fmt st0) in *.
  eexists. split; [reflexivity|]. cbn [ps_mem set_ps_buffer]. split.
  - intros i c Hi. rewrite lookup_insert_ne; [by apply H3|]. rewrite H1. pose proof (lookup_lt_Some _ _ _ Hi). lia.
  - rewrite H1. apply lookup_insert_eq.
Qed.
