(* ===== verification/Format.v ===== *)
(** * What a formatted print writes (lib/sbi/sbi_console.c)

    The formatted print of Console.v moves characters one by one into the console
    or a buffer.  Here its text is a function of the format and the arguments
    alone ([formatted], the computation of the code without its state), and every
    print writes exactly that text; a print with a format that does not go with
    its arguments stops.  [sbi_printf_run] is the lemma for the console,
    [sbi_snprintf_run] the one for a buffer, and [writes] composes messages.

    What a format means is stated apart from the code: a format is a list of
    [item]s with their arguments ([shown], [arguments]), and [says_item] is the
    text of an item in terms of the number it stands for, its sign, prefix and
    padding.  The theorem [print_writes_format]: a print writes what its format
    means. *)

From Stdlib Require Import ZArith Lia Ascii String.
From stdpp Require Import base tactics list gmap numbers.
From S2P Require Import Prelude SbiDefs Locks Machine Timer Console.

(** ** Numbers *)

(** The digits of a number, as the source's loop finds them. *)
Fixpoint numeral (n : nat) (b letbase u : Z) : list Z :=
  match n with
  | O => []
  | S n' => if u =? 0 then [] else numeral n' b letbase (u / b) ++ [digit_char letbase (u mod b)]
  end.
Definition number_text (b letbase u : Z) : list Z := if u =? 0 then [chr "0"] else numeral 64 b letbase u.

Definition decimal (u : Z) : list Z := number_text 10 (chr "0") u.
Definition hexadecimal (u : Z) : list Z := number_text 16 (chr "a") u.

Lemma numeral_bound b letbase n k u : 2 <= b -> 0 <= u < b ^ Z.of_nat k -> (length (numeral n b letbase u) <= k)%nat.
Proof.
  intros Hb. revert k u. induction n as [|n IH]; intros k u Hu; cbn [numeral length]; [lia|].
  destruct (Z.eqb_spec u 0) as [->|Hne]; [cbn; lia|]. destruct k as [|k]; [cbn in Hu; lia|].
  rewrite Nat2Z.inj_succ, Z.pow_succ_r in Hu by lia. rewrite length_app. cbn [length].
  assert (0 <= u / b < b ^ Z.of_nat k) by (split; [apply Z.div_pos; lia|apply Z.div_lt_upper_bound; lia]).
  specialize (IH k (u / b) ltac:(done)). lia.
Qed.

Lemma number_text_bound b letbase k u : 2 <= b -> 0 <= u < b ^ Z.of_nat k -> (0 < k)%nat -> (length (number_text b letbase u) <= k)%nat.
Proof. intros Hb Hu Hk. unfold number_text. destruct (u =? 0); [cbn; lia|]. by apply numeral_bound. Qed.

Lemma digits_loop_numeral b letbase k u buf st :
  known_base b letbase -> 0 <= u -> (length (numeral k b letbase u) + length buf <= 63)%nat ->
  digits_loop k u b letbase buf st = (Ret (numeral k b letbase u ++ buf), st).
Proof.
  intros Hb. assert (2 <= b) by (destruct Hb as [->|[-> _]]; lia).
  revert u buf. induction k as [|k IH]; intros u buf Hu Hl; [done|]. cbn [digits_loop numeral] in *. unfold truthy.
  destruct (Z.eqb_spec u 0) as [->|Hne]; cbn [negb]; [done|]. cbv zeta. fold (digit_char letbase (u mod b)).
  rewrite length_app in Hl. cbn [length] in Hl.
  rewrite (bind_Ret _ _ _ _ _ (push_run _ buf st ltac:(lia))), (proj1 (digit_char_value b letbase (u mod b) Hb ltac:(apply Z.mod_pos_bound; lia))).
  rewrite IH; [by rewrite <- app_assoc|apply Z.div_pos; lia|cbn [length]; lia].
Qed.

(** The prefix of the alternate form. *)
Definition prefix_text (b letbase flags : Z) : list Z :=
  if truthy (Z.land flags PAD_ALTERNATE) then
    chr "0" :: (if (b =? 16) && (letbase =? chr "A") then [chr "X"]
                else if (b =? 16) && (letbase =? chr "a") then [chr "x"] else [])
  else [].

(** What printi prints. *)
Definition printi_text (i b : Z) (sg : bool) (width flags letbase : Z) : list Z :=
  let neg := sg && (b =? 10) && (i <? 0) in
  let s := prefix_text b letbase flags ++ number_text b letbase (if neg then u64 (- i) else u64 i) in
  if neg then
    if truthy width && truthy (Z.land flags PAD_ZERO) then chr "-" :: padded s (width - 1) flags
    else padded (chr "-" :: s) width flags
  else padded s width flags.

Lemma number_steps b letbase u st : known_base b letbase -> is_u64 u ->
  (if negb (truthy u) then push (chr "0") [] else digits_loop 64 u b letbase []) st = (Ret (number_text b letbase u), st) /\
  (length (number_text b letbase u) <= 20)%nat.
Proof.
  intros Hb Hu. unfold is_u64 in Hu. assert (10 <= b) by (destruct Hb as [->|[-> _]]; lia).
  assert (Hn : 0 <= u < b ^ Z.of_nat 20).
  { assert (10 ^ 20 <= b ^ 20) by (apply Z.pow_le_mono_l; lia). change (10 ^ 20) with 100000000000000000000 in *.
    change (Z.of_nat 20) with 20. lia. }
  split; [|apply number_text_bound; lia]. unfold number_text, truthy.
  destruct (Z.eqb_spec u 0) as [->|Hne]; cbn [negb]; [by rewrite push_run by (cbn; lia)|].
  assert (Hl := numeral_bound b letbase 64 20 u ltac:(lia) Hn).
  rewrite digits_loop_numeral, app_nil_r; [done|done|lia|cbn [length]; lia].
Qed.

Lemma prefix_steps b letbase flags s st : (length s <= 20)%nat ->
  (if truthy (Z.land flags PAD_ALTERNATE) then
     bind (if (b =? 16) && (letbase =? chr "A") then push (chr "X") s
           else if (b =? 16) && (letbase =? chr "a") then push (chr "x") s else ret s) (λ s, push (chr "0") s)
   else ret s) st = (Ret (prefix_text b letbase flags ++ s), st) /\ (length (prefix_text b letbase flags) <= 2)%nat.
Proof.
  intros Hl. unfold prefix_text. destruct (truthy _); [|split; [done|cbn; lia]].
  destruct ((b =? 16) && (letbase =? chr "A")); [|destruct ((b =? 16) && (letbase =? chr "a"))].
  - rewrite (bind_Ret _ _ _ _ _ (push_run (chr "X") s st ltac:(lia))), push_run by (cbn; lia). split; [done|cbn; lia].
  - rewrite (bind_Ret _ _ _ _ _ (push_run (chr "x") s st ltac:(lia))), push_run by (cbn; lia). split; [done|cbn; lia].
  - rewrite bind_ret_l, push_run by lia. split; [done|cbn; lia].
Qed.

Lemma printi_writes t i b sg width flags letbase st : known_base b letbase ->
  prints_text t (printi t i b sg width flags letbase) st (printi_text i b sg width flags letbase).
Proof.
  intros Hb. unfold printi, printi_text, prints_text. cbv zeta. set (neg := sg && (b =? 10) && (i <? 0)).
  set (u := if neg then u64 (- i) else u64 i).
  destruct (number_steps b letbase u st Hb) as [E1 L1]; [subst u; destruct neg; apply u64_range|].
  rewrite (bind_Ret _ _ _ _ _ E1). set (ds := number_text b letbase u) in *.
  destruct (prefix_steps b letbase flags ds st L1) as [E2 L2]. rewrite (bind_Ret _ _ _ _ _ E2). set (s := _ ++ ds) in *.
  assert (Hs : (length s <= 22)%nat) by (subst s; rewrite length_app; lia).
  destruct neg.
  - destruct (truthy width && truthy (Z.land flags PAD_ZERO)).
    + rewrite bind_assoc, (bind_Ret _ _ _ _ _ (printc_run t (chr "-") st)), bind_ret_l.
      rewrite (bind_Ret _ _ _ _ _ (prints_run t s (width - 1) flags _)), emitted_cons. unfold ret. cbn [length]. do 2 f_equal. lia.
    + rewrite bind_assoc, (bind_Ret _ _ _ _ _ (push_run (chr "-") s st ltac:(lia))), bind_ret_l.
      change (wrap 8 (chr "-")) with (chr "-"). by rewrite (bind_Ret _ _ _ _ _ (prints_run t (chr "-" :: s) width flags st)).
  - rewrite bind_ret_l. by rewrite (bind_Ret _ _ _ _ _ (prints_run t s width flags st)).
Qed.

(** Plain decimal and hexadecimal conversions print the number's digits. *)
Lemma printi_text_plain i b sg letbase : 0 <= i < 2 ^ 64 -> printi_text i b sg 0 0 letbase = number_text b letbase i.
Proof.
  intros Hi. unfold printi_text. rewrite (proj2 (Z.ltb_ge i 0)), andb_false_r by lia. cbv zeta.
  rewrite padded_0, u64_small by (unfold is_u64; lia). done.
Qed.

(** ** The text of a format, as the code finds it *)

(** A conversion: its text and what it leaves. *)
Definition num_text (read : Z → Z) (b : Z) (sg : bool) (letbase add : Z) (skip : nat)
    (width flags acnt : Z) (args : list argument) : option (list Z * conversion) :=
  match args with
  | ANum v :: args' =>
      let text := printi_text (read v) b sg width flags letbase in
      Some (text, Conversion args' (acnt + add) (Z.of_nat (length text)) skip)
  | _ => None
  end.

Definition str_text (str : list Z) (width flags : Z) (args : list argument) (acnt : Z) : option (list Z * conversion) :=
  let text := padded str width flags in Some (text, Conversion args acnt (Z.of_nat (length text)) 0).

Fixpoint aligned (n : nat) (acnt : Z) (args : list argument) : option (Z * list argument) :=
  match n with
  | O => Some (acnt, args)
  | S n' =>
      if truthy (Z.land acnt 7) then
        match args with ANum _ :: args' => aligned n' (acnt + 4) args' | _ => None end
      else Some (acnt, args)
  end.

Definition convert_text (fmt : list Z) (width flags acnt : Z) (args : list argument) : option (list Z * conversion) :=
  let c := peek fmt 0 in
  let c1 := peek fmt 1 in
  let c2 := peek fmt 2 in
  if c =? chr "s" then
    match args with AStr s :: args' => str_text (default (chars "(null)") s) width flags args' (acnt + 8) | _ => None end
  else if (c =? chr "d") || (c =? chr "i") then num_text int_of 10 true (chr "0") 4 0 width flags acnt args
  else if c =? chr "x" then num_text uint_of 16 false (chr "a") 4 0 width flags acnt args
  else if c =? chr "X" then num_text uint_of 16 false (chr "A") 4 0 width flags acnt args
  else if c =? chr "u" then num_text uint_of 10 false (chr "a") 4 0 width flags acnt args
  else if c =? chr "p" then num_text long_of 16 false (chr "a") 8 0 width flags acnt args
  else if c =? chr "P" then num_text long_of 16 false (chr "A") 8 0 width flags acnt args
  else if (c =? chr "l") && (c1 =? chr "l") then
    match aligned 2 acnt args with
    | None => None
    | Some (acnt, args) =>
        if c2 =? chr "u" then num_text long_of 10 false (chr "a") 8 2 width flags acnt args
        else if c2 =? chr "x" then num_text long_of 16 false (chr "a") 8 2 width flags acnt args
        else if c2 =? chr "X" then num_text long_of 16 false (chr "A") 8 2 width flags acnt args
        else num_text long_of 10 true (chr "0") 8 1 width flags acnt args
    end
  else if c =? chr "l" then
    if c1 =? chr "u" then num_text long_of 10 false (chr "a") 0 1 width flags acnt args
    else if c1 =? chr "x" then num_text long_of 16 false (chr "a") 8 1 width flags acnt args
    else if c1 =? chr "X" then num_text long_of 16 false (chr "A") 8 1 width flags acnt args
    else num_text long_of 10 true (chr "0") 8 0 width flags acnt args
  else if c =? chr "c" then
    match args with
    | ANum v :: args' => str_text (if wrap 8 v =? 0 then [] else [wrap 8 v]) width flags args' (acnt + 4)
    | _ => None
    end
  else Some ([], Conversion args acnt 0 0).

Fixpoint formatted_loop (fuel : nat) (fmt : list Z) (args : list argument) (acnt : Z) : option (list Z) :=
  match fuel with
  | O => None
  | S fuel' =>
      match fmt with
      | [] => Some []
      | c :: fmt =>
          if c =? chr "%" then
            match fmt with
            | [] => Some []
            | c' :: fmt' =>
                if c' =? chr "%" then cons c' <$> formatted_loop fuel' fmt' args acnt
                else
                  let '(flags, fmt1) := get_flags fmt in
                  let '(width, fmt2) := get_width fmt1 0 in
                  match convert_text fmt2 width flags acnt args with
                  | None => None
                  | Some (text, cv) =>
                      if (length fmt2 <=? cv_skip cv)%nat then None
                      else app text <$> formatted_loop fuel' (drop (S (cv_skip cv)) fmt2) (cv_args cv) (cv_acnt cv)
                  end
            end
          else cons c <$> formatted_loop fuel' fmt args acnt
      end
  end.

(** The text of a print; [None] when the format asks for what is not there. *)
Definition formatted (fmt : list Z) (args : list argument) : option (list Z) := formatted_loop (S (length fmt)) fmt args 0.

(** [c] prints the text, or stops when there is none. *)
Definition converts_to (t : target) (c : M print_state conversion) (st : print_state) (o : option (list Z * conversion)) : Prop :=
  match o with
  | Some (text, cv) => c st = (Ret cv, emitted t text st) /\ cv_pc cv = Z.of_nat (length text)
  | None => c st = (Stop wild_access, st)
  end.

Lemma num_text_run t read b sg letbase add skip width flags acnt args st : known_base b letbase ->
  converts_to t (conv_num t read b sg letbase add skip width flags acnt args) st
    (num_text read b sg letbase add skip width flags acnt args).
Proof.
  intros Hb. unfold conv_num, num_text. destruct args as [|[v|s] args]; [reflexivity| |reflexivity].
  unfold converts_to, va_num. rewrite bind_ret_l. cbn [fst snd].
  rewrite (bind_Ret _ _ _ _ _ (printi_writes t (read v) b sg width flags letbase st Hb)). by cbv zeta.
Qed.

Lemma str_text_run t str width flags args acnt st :
  converts_to t (bind (prints t str width flags) (λ pc, ret (Conversion args acnt pc 0))) st (str_text str width flags args acnt).
Proof. unfold converts_to, str_text. by rewrite (bind_Ret _ _ _ _ _ (prints_run t str width flags st)). Qed.

Lemma aligned_run n acnt args st :
  align_args n acnt args st = match aligned n acnt args with Some p => (Ret p, st) | None => (Stop wild_access, st) end.
Proof.
  revert acnt args. induction n as [|n IH]; intros acnt args; cbn [align_args aligned]; [done|].
  destruct (truthy _); [|done]. destruct args as [|[v|s] args]; [done| |done]. unfold va_num. rewrite bind_ret_l. apply IH.
Qed.

Lemma convert_text_run t fmt width flags acnt args st :
  converts_to t (convert t fmt width flags acnt args) st (convert_text fmt width flags acnt args).
Proof.
  assert (H10 : forall l, known_base 10 l) by (by left).
  assert (Ha : known_base 16 (chr "a")) by (right; auto). assert (HA : known_base 16 (chr "A")) by (right; auto).
  unfold convert, convert_text. cbv zeta. case_if.
  { destruct args as [|[v|s] args]; [done|done|]. unfold va_str. unfold converts_to at 1. rewrite bind_ret_l. apply (str_text_run t). }
  do 6 (case_if; [by apply num_text_run|]). case_if.
  { assert (Ea := aligned_run 2 acnt args st). destruct (aligned 2 acnt args) as [[acnt' args']|].
    - unfold converts_to at 1. rewrite (bind_Ret _ _ _ _ _ Ea). repeat case_if; by apply num_text_run.
    - unfold converts_to, bind. by rewrite Ea. }
  case_if; [repeat case_if; by apply num_text_run|]. case_if; [|done].
  destruct args as [|[v|s] args]; [done| |done]. unfold va_num. unfold converts_to at 1. rewrite bind_ret_l. apply (str_text_run t).
Qed.

Definition prints_or_stops (t : target) (c : M print_state Z) (pc : Z) (st : print_state) (o : option (list Z)) : Prop :=
  match o with
  | Some text => c st = (Ret (s32 (pc + Z.of_nat (length text))), emitted t text st)
  | None => exists st', c st = (Stop wild_access, st')
  end.

Lemma prints_char t c ch pc st o : prints_or_stops t c (s32 (pc + 1)) (snd (printc t ch st)) o ->
  prints_or_stops t (printc t ch ;;; c)%sbi pc st (cons ch <$> o).
Proof.
  unfold prints_or_stops. destruct o as [text|]; cbn; rewrite (bind_Ret _ _ _ _ _ (printc_run t ch st)); [|done].
  intros ->. rewrite emitted_cons, s32_add. do 3 f_equal. lia.
Qed.

Lemma print_loop_formats t fuel fmt args acnt pc st : (length fmt < fuel)%nat -> s32 pc = pc ->
  prints_or_stops t (print_loop t fuel fmt args acnt pc) pc st (formatted_loop fuel fmt args acnt).
Proof.
  revert fmt args acnt pc st. induction fuel as [|fuel IH]; intros fmt args acnt pc st Hf Hw; [lia|].
  cbn [print_loop formatted_loop]. destruct fmt as [|c fmt]; [cbn [prints_or_stops length]; by rewrite Z.add_0_r, Hw|]. cbn [length] in Hf.
  destruct (c =? chr "%"); [|apply prints_char, IH; [lia|apply s32_idemp]].
  destruct fmt as [|c' fmt']; [cbn [prints_or_stops length]; by rewrite Z.add_0_r, Hw|].
  destruct (c' =? chr "%"); [apply prints_char, IH; [cbn in Hf; lia|apply s32_idemp]|].
  assert (H1 := get_flags_length (c' :: fmt')). destruct (get_flags (c' :: fmt')) as [flags fmt1]. cbn [snd] in H1.
  assert (H2 := get_width_length fmt1 0). destruct (get_width fmt1 0) as [width fmt2]. cbn [snd] in H2.
  assert (Hc := convert_text_run t fmt2 width flags acnt args st). unfold converts_to in Hc.
  destruct (convert_text fmt2 width flags acnt args) as [[text cv]|]; [|unfold prints_or_stops, bind; rewrite Hc; by eexists].
  destruct Hc as [E Hpc]. destruct (Nat.leb_spec (length fmt2) (cv_skip cv)) as [Hl|Hl].
  { unfold prints_or_stops. rewrite (bind_Ret _ _ _ _ _ E), (proj2 (Nat.leb_le _ _) Hl). by eexists. }
  assert (Hr := IH (drop (S (cv_skip cv)) fmt2) (cv_args cv) (cv_acnt cv) (s32 (pc + cv_pc cv)) (emitted t text st)
    ltac:(rewrite length_drop; lia) (s32_idemp _)). unfold prints_or_stops in *.
  destruct (formatted_loop fuel _ _ _) as [text'|]; cbn [fmap option_fmap option_map];
    rewrite (bind_Ret _ _ _ _ _ E), (proj2 (Nat.leb_gt _ _) Hl); [|done].
  rewrite Hr, emitted_app, length_app, Hpc, s32_add. do 3 f_equal. lia.
Qed.

(** print writes exactly the text of the format and returns its length; when the
    format does not go with the arguments it stops. *)
Lemma print_formats_run t fmt args st :
  match formatted fmt args with
  | Some text => let st' := emitted t text st in
      print t fmt args st = (Ret (s32 (Z.of_nat (length text))),
        if has_out t then set_ps_buffer (<[ps_out st' := 0]> (ps_mem st')) (ps_out st') (ps_len st') st' else st')
  | None => exists st', print t fmt args st = (Stop wild_access, st')
  end.
Proof.
  assert (H := print_loop_formats t (S (length fmt)) fmt args 0 0 st ltac:(lia) eq_refl). unfold prints_or_stops in H. fold (formatted fmt args) in H.
  unfold print. destruct (formatted fmt args) as [text|].
  - rewrite (bind_Ret _ _ _ _ _ H). cbv zeta. by destruct (has_out t).
  - destruct H as (st' & E). exists st'. unfold bind. by rewrite E.
Qed.

(** The conversions of the messages: a signed decimal, and 16 hexadecimal digits. *)
Definition int_text (v : Z) : list Z := if s32 v <? 0 then chr "-" :: decimal (- s32 v) else decimal (s32 v).
Definition hex16 (v : Z) : list Z := padded (hexadecimal (u64 v)) 16 PAD_ZERO.

Lemma printi_text_int v : printi_text (int_of v) 10 true 0 0 (chr "0") = int_text v.
Proof.
  unfold printi_text, int_text, int_of, decimal. cbn [andb]. change (10 =? 10) with true. cbn [andb]. cbv zeta.
  change (prefix_text 10 (chr "0") 0) with (@nil Z). cbn [app]. change (truthy 0) with false. cbn [andb].
  assert (H := s32_range v). destruct (Z.ltb_spec (s32 v) 0); rewrite padded_0, u64_small by (unfold is_u64; lia); done.
Qed.

Lemma printi_text_hex16 v : printi_text (long_of v) 16 false 16 PAD_ZERO (chr "a") = hex16 v.
Proof.
  unfold printi_text, hex16, hexadecimal. cbn [andb]. cbv zeta. change (prefix_text 16 (chr "a") PAD_ZERO) with (@nil Z). cbn [app].
  do 2 f_equal. unfold long_of. cbv zeta. case_if; [by rewrite u64_idemp|]. unfold u64. rewrite Zminus_mod_idemp_l.
  change (2 ^ 64) with (1 * 2 ^ 64) at 1. by rewrite Z_mod_plus_full_r || (replace (v - 1 * 2 ^ 64) with (v + (-1) * 2 ^ 64) by lia; by rewrite Z_mod_plus_full).
Qed.

(** A format with every kind of conversion. *)
Example formatted_demo :
  formatted (chars "%s%4d|%-3d|%04x|%#X|%lu|%c%%") [AStr (Some (chars "n=")); ANum (-5); ANum 7; ANum 255; ANum 255; ANum (-1); ANum 33] =
  Some (chars "n=  -5|7  |00ff|0XFF|18446744073709551615|!%").
Proof. vm_compute. reflexivity. Qed.

(** ** To the console *)

(** What the console device receives: a carriage return before every newline. *)
Definition console_events (text : list Z) : list event :=
  flat_map (λ c, if wrap 8 c =? 10 then [EvConsole 13; EvConsole (wrap 8 c)] else [EvConsole (wrap 8 c)]) text.

(** The machine after the text, when it has a device for it. *)
Definition put_text (text : list Z) (m : machine) : machine :=
  if console_has has_putc m then foldl (λ m e, add_event e m) m (console_events text) else m.

Lemma putc_text ch m : sbi_putc ch m = (Ret tt, put_text [ch] m).
Proof. unfold sbi_putc, put_text. destruct (console_has has_putc m); [|done]. cbv zeta. cbn. by case_if. Qed.

(** What a text leaves alone: all but the trace. *)
Lemma put_text_frame {A} (f : machine → A) text m : (forall e m, f (add_event e m) = f m) -> f (put_text text m) = f m.
Proof.
  intros Hf. unfold put_text. destruct (console_has _ _); [|done]. generalize (console_events text) as l. intros l. revert m.
  induction l as [|e l IH]; intros m; [done|]. cbn [foldl]. by rewrite IH, Hf.
Qed.

Lemma put_text_device text m : m_console_dev (put_text text m) = m_console_dev m.
Proof. by apply put_text_frame. Qed.
Lemma put_text_hart text m h : hart (put_text text m) h = hart m h.
Proof. by apply (put_text_frame (λ m, hart m h)). Qed.
Lemma put_text_domains text m : m_domains (put_text text m) = m_domains m.
Proof. by apply put_text_frame. Qed.

Lemma put_text_app l l' m : put_text (l ++ l') m = put_text l' (put_text l m).
Proof.
  unfold put_text at 2. unfold console_has at 1. rewrite put_text_device. fold (console_has has_putc m).
  unfold put_text. destruct (console_has has_putc m); [|done]. unfold console_events. by rewrite flat_map_app, foldl_app.
Qed.

Lemma put_text_nil m : put_text [] m = m.
Proof. unfold put_text. by destruct (console_has _ _). Qed.

(** The trace in full. *)
Lemma put_text_trace text m : console_has has_putc m = true -> m_trace (put_text text m) = m_trace m ++ console_events text.
Proof.
  intros H. unfold put_text. rewrite H. clear H. generalize (console_events text) as l. intros l. revert m.
  induction l as [|e l IH]; intros m; cbn [foldl]; [by rewrite app_nil_r|]. rewrite IH. cbn [m_trace add_event]. by rewrite <- app_assoc.
Qed.

Lemma emitted_console text st : emitted (Target false false) text st = set_ps_machine (put_text text (ps_machine st)) st.
Proof.
  revert st. induction text as [|c text IH]; intros st.
  - rewrite put_text_nil. by destruct st.
  - rewrite emitted_cons, IH. change (c :: text) with ([c] ++ text). rewrite put_text_app. unfold printc, putc, zoom. cbn [has_out]. by rewrite putc_text.
Qed.

(** [c] returns and writes the text to the console; the lock is free again. *)
Definition writes {A} (c : M print_state A) (text : list Z) : Prop :=
  forall st, lock_free (ps_lock st) -> exists a w, lock_free w /\
    c st = (Ret a, set_ps_lock w (set_ps_machine (put_text text (ps_machine st)) st)).

Lemma sbi_printf_run fmt args text : formatted fmt args = Some text -> writes (sbi_printf fmt args) text.
Proof.
  intros Hf st Hl. destruct (spin_lock_free _ Hl) as (w & E & Hu). unfold sbi_printf, lock_console, unlock_console, zoom.
  unfold bind at 1. rewrite E. assert (P := print_formats_run (Target false false) fmt args (set_ps_lock w st)). rewrite Hf in P. cbv zeta in P.
  rewrite (bind_Ret _ _ _ _ _ P), emitted_console. exists (s32 (Z.of_nat (length text))), (snd (spin_unlock w)). split; [done|]. by destruct st.
Qed.

(** A message of the firmware, from a hart that does not wait for the console:
    other harts hold its lock only while they print. *)
Definition say {A} (c : M print_state A) : M machine A :=
  λ m, let '(r, st) := c (PrintState m SPIN_LOCK_INIT ∅ 0 0) in (r, ps_machine st).

Definition printf (fmt : string) (args : list argument) : M machine unit := (say (sbi_printf (chars fmt) args) ;;; ret tt)%sbi.

(** [c] writes the text to the console of the machine, returns [a] and does nothing else. *)
Definition says {A} (c : M machine A) (a : A) (text : list Z) : Prop := forall m, c m = (Ret a, put_text text m).

Lemma printf_says fmt args text : formatted (chars fmt) args = Some text -> says (printf fmt args) tt text.
Proof.
  intros Hf m. destruct (sbi_printf_run _ _ _ Hf (PrintState m SPIN_LOCK_INIT ∅ 0 0) lock_free_init) as (a & w & _ & E).
  unfold printf, say. unfold bind at 1. by rewrite E.
Qed.

Lemma says_ret {A} (a : A) : says (ret a) a [].
Proof. intros m. by rewrite put_text_nil. Qed.

Lemma says_bind {A B} (c : M machine A) (k : A → M machine B) a b l l' :
  says c a l -> says (k a) b l' -> says (bind c k) b (l ++ l').
Proof. intros Hc Hk m. rewrite (bind_Ret _ _ _ _ _ (Hc m)), Hk. by rewrite put_text_app. Qed.

Lemma says_if {A} (b : bool) (c d : M machine A) a l l' : says c a l -> says d a l' -> says (if b then c else d) a (if b then l else l').
Proof. by destruct b. Qed.

(** ** To a buffer *)

(** The characters at an address and after it. *)
Fixpoint put_chars (a : Z) (l : list Z) (mem : gmap Z Z) : gmap Z Z :=
  match l with
  | [] => mem
  | c :: l' => put_chars (a + 1) l' (<[a := c]> mem)
  end.

Lemma put_chars_app l l' a mem : put_chars a (l ++ l') mem = put_chars (a + Z.of_nat (length l)) l' (put_chars a l mem).
Proof.
  revert a mem. induction l as [|c l IH]; intros a mem; cbn [app put_chars length]; [by rewrite Z.add_0_r|].
  rewrite IH. f_equal. lia.
Qed.

Lemma put_chars_outside l a mem k : k < a \/ a + Z.of_nat (length l) <= k -> put_chars a l mem !! k = mem !! k.
Proof.
  revert a mem. induction l as [|c l IH]; intros a mem Hk; cbn [put_chars length] in *; [done|].
  rewrite IH by lia. by rewrite lookup_insert_ne by lia.
Qed.

Lemma put_chars_at l a mem i c : l !! i = Some c -> put_chars a l mem !! (a + Z.of_nat i) = Some c.
Proof.
  revert a mem i. induction l as [|c' l IH]; intros a mem i Hi; [by rewrite lookup_nil in Hi|]. cbn [put_chars].
  destruct i as [|i]; cbn in Hi.
  - injection Hi as ->. rewrite Z.add_0_r, put_chars_outside by lia. apply lookup_insert_eq.
  - replace (a + Z.of_nat (S i)) with (a + 1 + Z.of_nat i) by lia. by apply IH.
Qed.

Lemma emitted_put_chars l st : 0 < ps_out st -> ps_out st + Z.of_nat (length l) < 2 ^ 64 ->
  exists n, emitted (Target true true) l st = set_ps_buffer (put_chars (ps_out st) l (ps_mem st)) (ps_out st + Z.of_nat (length l)) n st.
Proof.
  revert st. induction l as [|c l IH]; intros st Hp Hb.
  - exists (ps_len st). cbn [put_chars length]. rewrite Z.add_0_r. by destruct st.
  - rewrite emitted_cons. cbn [length] in Hb. set (st1 := snd (printc (Target true true) c st)).
    assert (E1 : exists n, st1 = set_ps_buffer (<[ps_out st := c]> (ps_mem st)) (ps_out st + 1) n st).
    { subst st1. unfold printc. cbn [has_out has_len modify snd andb]. unfold truthy. rewrite (proj2 (Z.eqb_neq _ 0)) by lia. cbn [negb].
      assert (add64 (ps_out st) 1 = ps_out st + 1) as -> by (apply u64_small; unfold is_u64; lia). case_if; by eexists. }
    destruct E1 as [n1 ->]. cbn [set_ps_buffer] in *.
    destruct (IH (set_ps_buffer (<[ps_out st := c]> (ps_mem st)) (ps_out st + 1) n1 st)) as [n ->]; cbn; [lia|lia|].
    exists n. cbn [length put_chars]. unfold set_ps_buffer. cbn. f_equal. lia.
Qed.

Lemma sbi_snprintf_run out out_sz fmt args text st : formatted fmt args = Some text ->
  0 < out -> out + Z.of_nat (length text) < 2 ^ 64 ->
  exists n, sbi_snprintf out out_sz fmt args st = (Ret (s32 (Z.of_nat (length text))),
    set_ps_buffer (put_chars out (text ++ [0]) (ps_mem st)) (out + Z.of_nat (length text)) n st).
Proof.
  intros Hf Ho Hb. unfold sbi_snprintf. unfold bind at 1. cbn [modify]. set (st0 := set_ps_buffer _ _ _ _).
  assert (P := print_formats_run (Target true true) fmt args st0). rewrite Hf in P. cbv zeta in P. cbn [has_out] in P. rewrite P.
  destruct (emitted_put_chars text st0 Ho Hb) as [n ->]. exists n. subst st0. cbn. by rewrite put_chars_app.
Qed.

(** ** C strings in memory *)

(** The string at an address, if it ends within [n] bytes. *)
Fixpoint c_string (n : nat) (mem : gmap Z Z) (a : Z) : option (list Z) :=
  match n with
  | O => None
  | S n' =>
      match mem !! a with
      | None => None
      | Some c => if c =? 0 then Some [] else cons c <$> c_string n' mem (a + 1)
      end
  end.

Lemma c_string_text l : forall n mem a, Forall (λ c, c <> 0) l -> (length l < n)%nat ->
  (forall i c, l !! i = Some c -> mem !! (a + Z.of_nat i) = Some c) -> mem !! (a + Z.of_nat (length l)) = Some 0 ->
  c_string n mem a = Some l.
Proof.
  induction l as [|c l IH]; intros n mem a Hz Hn Hl H0; (destruct n as [|n]; [lia|]); cbn [c_string length] in *.
  - rewrite Z.add_0_r in H0. by rewrite H0.
  - apply Forall_cons_1 in Hz as [Hc Hz]. assert (H := Hl O c eq_refl). rewrite Z.add_0_r in H. rewrite H.
    rewrite (proj2 (Z.eqb_neq c 0)) by done. rewrite (IH n mem (a + 1)); [done|done|lia| |].
    + intros i c' Hi. specialize (Hl (S i) c' Hi). by replace (a + 1 + Z.of_nat i) with (a + Z.of_nat (S i)) by lia.
    + by replace (a + 1 + Z.of_nat (length l)) with (a + Z.of_nat (S (length l))) by lia.
Qed.

Lemma c_string_put n mem a l : Forall (λ c, c <> 0) l -> (length l < n)%nat -> c_string n (put_chars a (l ++ [0]) mem) a = Some l.
Proof.
  intros Hz Hn. apply c_string_text; [done|done| |].
  - intros i c Hi. apply put_chars_at. rewrite lookup_app_l; [done|by eapply lookup_lt_Some].
  - apply (put_chars_at (l ++ [0])). by apply list_lookup_middle.
Qed.

(** ** What a format means *)

(** The character of a digit. *)
Definition digit_sym (upper : bool) (d : Z) : Z :=
  nth (Z.to_nat d) (chars (if upper then "0123456789ABCDEF" else "0123456789abcdef")) 0.

(** The value of a list of digits, the first one the highest. *)
Definition digits_value (b : Z) (ds : list Z) : Z := foldl (λ v d, v * b + d) 0 ds.

(** [l] is the number [u] in base [b]: its digits, without leading zeros. *)
Definition numeral_of (b : Z) (upper : bool) (u : Z) (l : list Z) : Prop :=
  exists ds, l = map (digit_sym upper) ds /\ Forall (λ d, 0 <= d < b) ds /\ digits_value b ds = u /\
    ds <> [] /\ (head ds = Some 0 -> ds = [0]).

(** The conversions, with the values they print. *)
Inductive conv : Type :=
| CStr (s : option (list Z))      (* %s *)
| CChar (v : Z)                   (* %c *)
| CInt (v : Z)                    (* %d: an int *)
| CUnsigned (v : Z)               (* %u: an unsigned int *)
| CHex (upper : bool) (v : Z)     (* %x, %X *)
| CPtr (upper : bool) (v : Z)     (* %p, %P: an unsigned long *)
| CLong (v : Z)                   (* %lu *)
| CLongHex (upper : bool) (v : Z)     (* %lx, %lX *)
| CLongLong (v : Z)               (* %llu *)
| CLongLongHex (upper : bool) (v : Z).  (* %llx, %llX *)

(** The flags and the width, as its digits. *)
Record field_spec : Type := FieldSpec {
  fs_left : bool;
  fs_alternate : bool;
  fs_zero : bool;
  fs_width : list Z;
}.

Inductive item : Type :=
| Plain (c : Z)
| Percent
| Conv (f : field_spec) (c : conv).

(** How an item is written in a format, and the arguments that go with it. *)
Definition hex_letter (upper : bool) : list Z := chars (if upper then "X" else "x").
Definition letters (c : conv) : list Z :=
  match c with
  | CStr _ => chars "s"
  | CChar _ => chars "c"
  | CInt _ => chars "d"
  | CUnsigned _ => chars "u"
  | CHex upper _ => hex_letter upper
  | CPtr upper _ => chars (if upper then "P" else "p")
  | CLong _ => chars "lu"
  | CLongHex upper _ => chars "l" ++ hex_letter upper
  | CLongLong _ => chars "llu"
  | CLongLongHex upper _ => chars "ll" ++ hex_letter upper
  end.
Definition shown_field (f : field_spec) : list Z :=
  (if fs_left f then chars "-" else []) ++ (if fs_alternate f then chars "#" else []) ++
  (if fs_zero f then chars "0" else []) ++ map (digit_sym false) (fs_width f).
Definition shown_item (i : item) : list Z :=
  match i with
  | Plain c => [c]
  | Percent => chars "%%"
  | Conv f c => chars "%" ++ shown_field f ++ letters c
  end.
Definition shown (l : list item) : list Z := flat_map shown_item l.

Definition argument_of (c : conv) : argument :=
  match c with
  | CStr s => AStr s
  | CChar v | CInt v | CUnsigned v | CHex _ v | CPtr _ v | CLong v | CLongHex _ v | CLongLong v | CLongLongHex _ v => ANum v
  end.
Definition arguments (l : list item) : list argument :=
  flat_map (λ i, match i with Conv _ c => [argument_of c] | _ => [] end) l.

(** The number a conversion stands for, with its base and case: the low half of
    the argument's slot for the int-sized ones. *)
Definition number_of (c : conv) : option (Z * Z * bool) :=
  match c with
  | CStr _ | CChar _ => None
  | CInt v => Some (s32 v, 10, false)
  | CUnsigned v => Some (u32 v, 10, false)
  | CHex upper v => Some (u32 v, 16, upper)
  | CLong v | CLongLong v => Some (u64 v, 10, false)
  | CPtr upper v | CLongHex upper v | CLongLongHex upper v => Some (u64 v, 16, upper)
  end.

Definition spaces (n : Z) : list Z := replicate (Z.to_nat n) (chr " ").
Definition zeros (n : Z) : list Z := replicate (Z.to_nat n) (chr "0").
Definition zlen (l : list Z) : Z := Z.of_nat (length l).
Definition justified (left : bool) (width : Z) (l : list Z) : list Z :=
  if left then l ++ spaces (width - zlen l) else spaces (width - zlen l) ++ l.

(** The text of a number [z] in a field: its sign, its prefix and its digits,
    filled up with spaces or, after the sign, with zeros. *)
Definition says_number (f : field_spec) (z b : Z) (upper : bool) (text : list Z) : Prop :=
  let width := digits_value 10 (fs_width f) in
  let sign := if z <? 0 then chars "-" else [] in
  let prefix := if fs_alternate f then chars (if upper then "0X" else "0x") else [] in
  exists l, numeral_of b upper (Z.abs z) l /\
    text = if fs_zero f then sign ++ zeros (width - zlen sign - zlen l) ++ l
           else justified (fs_left f) width (sign ++ prefix ++ l).

(** The text of a conversion; a string is filled up with spaces. *)
Definition says_conv (f : field_spec) (c : conv) (text : list Z) : Prop :=
  let width := digits_value 10 (fs_width f) in
  match c, number_of c with
  | CStr s, _ => text = justified (fs_left f) width (default (chars "(null)") s)
  | CChar v, _ => text = justified (fs_left f) width [wrap 8 v]
  | _, Some (z, b, upper) => says_number f z b upper text
  | _, None => False
  end.
Definition says_item (i : item) (text : list Z) : Prop :=
  match i with
  | Plain c => text = [c]
  | Percent => text = chars "%"
  | Conv f c => says_conv f c text
  end.
Definition says_items (l : list item) (text : list Z) : Prop :=
  exists texts, Forall2 says_item l texts /\ text = concat texts.

(** The formats the code keeps to.  A width has no leading zero and is an int;
    zeros fill up numbers only, on the left and without a prefix; prefixes are
    for hexadecimal numbers. *)
Definition field_ok (f : field_spec) (c : conv) : Prop :=
  Forall (λ d, 0 <= d < 10) (fs_width f) /\ head (fs_width f) <> Some 0 /\ digits_value 10 (fs_width f) < 2 ^ 31 /\
  (fs_zero f = true -> fs_left f = false /\ fs_alternate f = false /\ number_of c <> None) /\
  (fs_alternate f = true -> exists z upper, number_of c = Some (z, 16, upper)).

Definition item_ok (i : item) : Prop :=
  match i with
  | Plain c => c <> chr "%"
  | Percent => True
  | Conv f c => field_ok f c /\ match c with CChar v => wrap 8 v <> 0 | _ => True end
  end.

(** A "%ll" conversion comes after an even number of int-sized ones. *)
Definition int_sized (c : conv) : bool :=
  match c with CChar _ | CInt _ | CUnsigned _ | CHex _ _ => true | _ => false end.
Fixpoint long_longs_ok (odd : bool) (l : list item) : Prop :=
  match l with
  | [] => True
  | Conv _ c :: l' =>
      match c with CLongLong _ | CLongLongHex _ _ => odd = false | _ => True end /\
      long_longs_ok (xorb odd (int_sized c)) l'
  | _ :: l' => long_longs_ok odd l'
  end.
Definition format_ok (l : list item) : Prop := Forall item_ok l /\ long_longs_ok false l.

(** ** The code writes what the format means *)

Definition letter_base (upper : bool) : Z := if upper then chr "A" else chr "a".

Lemma digit_sym_char b upper letbase d :
  0 <= d < b -> b = 10 \/ (b = 16 /\ letbase = letter_base upper) -> digit_char letbase d = digit_sym upper d.
Proof.
  intros Hd Hb. unfold digit_char, digit_sym.
  assert (C : d = 0 \/ d = 1 \/ d = 2 \/ d = 3 \/ d = 4 \/ d = 5 \/ d = 6 \/ d = 7 \/ d = 8 \/ d = 9 \/
              (b = 16 /\ (d = 10 \/ d = 11 \/ d = 12 \/ d = 13 \/ d = 14 \/ d = 15))) by lia.
  repeat destruct C as [-> | C]; try by destruct upper.
  destruct C as [-> C]. destruct Hb as [Hb|[_ ->]]; [done|].
  repeat destruct C as [-> | C]; try subst d; by destruct upper.
Qed.

(** Digits without a leading zero. *)
Definition canonical (b : Z) (ds : list Z) : Prop := Forall (λ d, 0 <= d < b) ds /\ head ds <> Some 0.

Lemma digits_value_snoc b ds d : digits_value b (ds ++ [d]) = digits_value b ds * b + d.
Proof. unfold digits_value. by rewrite foldl_snoc. Qed.

Lemma digits_value_range b ds : 2 <= b -> Forall (λ d, 0 <= d < b) ds -> 0 <= digits_value b ds.
Proof.
  intros Hb. induction ds as [|d ds IH] using rev_ind; intros Hd; [done|]. apply Forall_app in Hd as [Hd H1].
  apply Forall_cons_1 in H1 as [H1 _]. rewrite digits_value_snoc. specialize (IH Hd).
  assert (0 <= digits_value b ds * b) by (apply Z.mul_nonneg_nonneg; lia). lia.
Qed.

Lemma canonical_snoc b ds d : canonical b (ds ++ [d]) -> canonical b ds /\ 0 <= d < b.
Proof.
  intros [Hf Hh]. apply Forall_app in Hf as [H1 H2]. apply Forall_cons_1 in H2 as [H2 _]. split; [|done]. split; [done|].
  destruct ds; [done|exact Hh].
Qed.

Lemma canonical_positive b ds : 2 <= b -> canonical b ds -> ds <> [] -> 0 < digits_value b ds.
Proof.
  intros Hb. induction ds as [|d ds IH] using rev_ind; intros Hc Hne; [done|].
  destruct (canonical_snoc _ _ _ Hc) as [Hc' Hd]. rewrite digits_value_snoc. destruct ds as [|d' ds].
  - destruct Hc as [_ Hh]. cbn in Hh. unfold digits_value. cbn. assert (d <> 0) by congruence. lia.
  - specialize (IH Hc' ltac:(done)). nia.
Qed.

Lemma canonical_unique b ds ds' : 2 <= b -> canonical b ds -> canonical b ds' -> digits_value b ds = digits_value b ds' -> ds = ds'.
Proof.
  intros Hb. revert ds'. induction ds as [|d ds IH] using rev_ind; intros ds' Hc Hc' E.
  - destruct ds' as [|x l]; [done|]. assert (P := canonical_positive b (x :: l) Hb Hc' ltac:(done)). change (digits_value b []) with 0 in E. lia.
  - destruct ds' as [|x l _] using rev_ind.
    + assert (P := canonical_positive b (ds ++ [d]) Hb Hc ltac:(by destruct ds)). change (digits_value b []) with 0 in E. lia.
    + destruct (canonical_snoc _ _ _ Hc) as [C1 D1]. destruct (canonical_snoc _ _ _ Hc') as [C2 D2].
      rewrite !digits_value_snoc in E.
      assert (digits_value b ds = digits_value b l /\ d = x) as [E1 ->].
      { assert (digits_value b ds - digits_value b l = 0) by nia. lia. }
      by rewrite (IH l C1 C2 E1).
Qed.

Lemma numeral_unique b upper u l l' : 2 <= b -> numeral_of b upper u l -> numeral_of b upper u l' -> l = l'.
Proof.
  intros Hb (ds & -> & F1 & V1 & N1 & Z1) (ds' & -> & F2 & V2 & N2 & Z2). f_equal.
  assert (C : forall l, Forall (λ d, 0 <= d < b) l -> l <> [] -> (head l = Some 0 -> l = [0]) -> l = [0] \/ canonical b l).
  { intros l F _ Hz. destruct (decide (head l = Some 0)); [left; by apply Hz|right; by split]. }
  destruct (C ds F1 N1 Z1) as [-> | C1], (C ds' F2 N2 Z2) as [-> | C2].
  - done.
  - assert (P := canonical_positive b ds' Hb C2 N2). cbn in V1. lia.
  - assert (P := canonical_positive b ds Hb C1 N1). cbn in V2. lia.
  - apply (canonical_unique b); [done|done|done|congruence].
Qed.

(** The digits the code finds are the numeral. *)
Lemma numeral_canonical b upper letbase n u :
  b = 10 \/ (b = 16 /\ letbase = letter_base upper) -> 0 <= u < b ^ Z.of_nat n ->
  exists ds, numeral n b letbase u = map (digit_sym upper) ds /\ canonical b ds /\ digits_value b ds = u.
Proof.
  intros Hb. assert (2 <= b) by lia. revert u. induction n as [|n IH]; intros u Hu.
  - exists []. split; [done|]. split; [by split|]. cbn in Hu. unfold digits_value. cbn. lia.
  - cbn [numeral]. destruct (Z.eqb_spec u 0) as [->|Hne]; [exists []; by split_and!|].
    rewrite Nat2Z.inj_succ, Z.pow_succ_r in Hu by lia.
    assert (Hm := Z.mod_pos_bound u b ltac:(lia)). assert (Hd := Z.div_mod u b ltac:(lia)).
    destruct (IH (u / b)) as (ds & E & C & V); [split; [apply Z.div_pos; lia|apply Z.div_lt_upper_bound; lia]|].
    exists (ds ++ [u mod b]). rewrite map_app, E, digits_value_snoc, V. cbn [map].
    rewrite (digit_sym_char b upper letbase) by done. split; [done|]. split; [|lia]. destruct C as [C1 C2].
    split; [apply Forall_app; split; [done|by apply Forall_singleton]|]. destruct ds; [|done].
    cbn in V |- *. intros [= E0]. lia.
Qed.

Lemma number_text_numeral b upper letbase u :
  b = 10 \/ (b = 16 /\ letbase = letter_base upper) -> is_u64 u ->
  numeral_of b upper u (number_text b letbase u).
Proof.
  unfold is_u64. intros Hb Hu. unfold number_text. destruct (Z.eqb_spec u 0) as [->|Hne].
  { exists [0]. split; [by destruct upper|]. split; [apply Forall_singleton; lia|done]. }
  assert (2 ^ 64 <= b ^ 64) by (apply Z.pow_le_mono_l; lia).
  destruct (numeral_canonical b upper letbase 64 u Hb) as (ds & E & [C1 C2] & V); [change (Z.of_nat 64) with 64; lia|].
  exists ds. split; [done|]. split; [done|]. split; [done|]. split; [|intros Hh; by rewrite Hh in C2].
  intros ->. cbn in V. lia.
Qed.

(** The flags of a field. *)
Definition field_flags (f : field_spec) : Z :=
  (if fs_left f then 1 else 0) + (if fs_zero f then 2 else 0) + (if fs_alternate f then 4 else 0).

Lemma field_flags_bits f :
  truthy (Z.land (field_flags f) PAD_RIGHT) = fs_left f /\ truthy (Z.land (field_flags f) PAD_ZERO) = fs_zero f /\
  truthy (Z.land (field_flags f) PAD_ALTERNATE) = fs_alternate f.
Proof. by destruct f as [[] [] [] ds]. Qed.

Lemma padded_field str width f :
  (fs_zero f = true -> fs_left f = false) ->
  padded str width (field_flags f) =
  if fs_zero f then zeros (width - zlen str) ++ str else justified (fs_left f) width str.
Proof.
  intros Hz. unfold padded, justified, zeros, spaces, zlen. destruct (field_flags_bits f) as (-> & -> & _).
  destruct (fs_zero f); [by rewrite Hz|done].
Qed.

(** printi prints a number in its field. *)
Lemma printi_says f z b upper i sg letbase :
  Forall (λ d, 0 <= d < 10) (fs_width f) -> (fs_zero f = true -> fs_left f = false /\ fs_alternate f = false) ->
  (fs_alternate f = true -> b = 16) ->
  b = 10 \/ (b = 16 /\ letbase = letter_base upper) ->
  sg = true /\ b = 10 /\ i = z /\ - 2 ^ 31 <= z < 2 ^ 31 \/ sg = false /\ u64 i = z ->
  says_number f z b upper (printi_text i b sg (digits_value 10 (fs_width f)) (field_flags f) letbase).
Proof.
  intros Hw Hz Ha Hb Hi. assert (Hw0 := digits_value_range 10 _ ltac:(lia) Hw).
  unfold printi_text. set (neg := sg && (b =? 10) && (i <? 0)). set (width := digits_value 10 _) in *.
  assert (Eu : (if neg then u64 (- i) else u64 i) = Z.abs z /\ neg = (z <? 0)).
  { subst neg. destruct Hi as [(-> & -> & -> & Hr)|[-> <-]].
    - change (10 =? 10) with true. cbn [andb].
      destruct (Z.ltb_spec z 0); split; try done; rewrite u64_small by (unfold is_u64; lia); lia.
    - cbn [andb]. assert (R := u64_range i). unfold is_u64 in R. rewrite (proj2 (Z.ltb_ge _ _)) by lia. split; [lia|done]. }
  destruct Eu as [Eu En].
  assert (Hl : numeral_of b upper (Z.abs z) (number_text b letbase (Z.abs z))).
  { apply number_text_numeral; [done|]. rewrite <- Eu. destruct neg; apply u64_range. }
  assert (Ep : prefix_text b letbase (field_flags f) = if fs_alternate f then chars (if upper then "0X" else "0x") else []).
  { unfold prefix_text. destruct (field_flags_bits f) as (_ & _ & ->). destruct (fs_alternate f); [|done].
    rewrite Ha in Hb |- * by done. destruct Hb as [?|[_ ->]]; [done|]. by destruct upper. }
  assert (Hz' : fs_zero f = true -> fs_left f = false) by (intros E; by apply Hz).
  exists (number_text b letbase (Z.abs z)). split; [done|]. cbv zeta. rewrite Eu, Ep, En.
  destruct (field_flags_bits f) as (_ & -> & _). set (l := number_text _ _ _). clearbody l.
  destruct (z <? 0).
  2:{ rewrite padded_field by done. destruct (fs_zero f); [|done]. rewrite (proj2 (Hz eq_refl)). cbn [app].
      fold width. change (zlen (@nil Z)) with 0. rewrite Z.sub_0_r. reflexivity. }
  destruct (fs_zero f) eqn:Ez.
  - rewrite (proj2 (Hz eq_refl)). fold width. change (chars "-") with [chr "-"]. change (zlen [chr "-"]) with 1. cbn [app].
    destruct (truthy width) eqn:Et; cbn [andb].
    + by rewrite padded_field, Ez by (by rewrite Ez).
    + apply truthy_false in Et. rewrite Et, padded_0. unfold zeros, zlen.
      by replace (Z.to_nat (0 - 1 - Z.of_nat (length l))) with 0%nat by lia.
  - rewrite andb_false_r, padded_field, Ez by (by rewrite Ez). by destruct (fs_alternate f).
Qed.

(** The value of an unsigned long read as a long. *)
Lemma u64_long v : u64 (long_of v) = u64 v.
Proof.
  unfold long_of. cbv zeta. case_if; [apply u64_idemp|]. unfold u64.
  replace (v mod 2 ^ 64 - 2 ^ 64) with (v mod 2 ^ 64 + (-1) * 2 ^ 64) by lia. rewrite Z_mod_plus_full. apply Zmod_mod.
Qed.

Lemma u64_uint v : u64 (uint_of v) = u32 v.
Proof. unfold uint_of. apply u64_small. unfold is_u64, u32. assert (B := Z.mod_pos_bound v (2 ^ 32)). lia. Qed.

Definition long_long (c : conv) : bool := match c with CLongLong _ | CLongLongHex _ _ => true | _ => false end.

Section ConvText.
Context (f : field_spec) (c : conv) (Hok : field_ok f c).

Lemma field_string str : number_of c = None ->
  padded str (digits_value 10 (fs_width f)) (field_flags f) = justified (fs_left f) (digits_value 10 (fs_width f)) str.
Proof.
  destruct Hok as (_ & _ & _ & Hz & _). intros Hn.
  rewrite padded_field by (intros E; by destruct (Hz E)). destruct (fs_zero f); [|done]. by destruct (Hz eq_refl) as (_ & _ & ?).
Qed.

Lemma field_number read v z b upper sg letbase add skip acnt args :
  number_of c = Some (z, b, upper) -> b = 10 \/ (b = 16 /\ letbase = letter_base upper) ->
  sg = true /\ b = 10 /\ read v = z /\ - 2 ^ 31 <= z < 2 ^ 31 \/ sg = false /\ u64 (read v) = z ->
  exists text,
    num_text read b sg letbase add skip (digits_value 10 (fs_width f)) (field_flags f) acnt (ANum v :: args) =
      Some (text, Conversion args (acnt + add) (Z.of_nat (length text)) skip) /\ says_number f z b upper text.
Proof.
  destruct Hok as (Hw & _ & _ & Hz & Ha). intros Hn Hb Hi. eexists. split; [reflexivity|].
  apply printi_says; [done| | |done|done].
  - intros E. by destruct (Hz E) as (? & ? & _).
  - intros E. destruct (Ha E) as (? & ? & E'). congruence.
Qed.

End ConvText.

(** A conversion at the start of a format. *)
Lemma conv_text f c rest acnt args :
  item_ok (Conv f c) -> (long_long c = true -> Z.land acnt 7 = 0) ->
  exists text acnt', convert_text (letters c ++ rest) (digits_value 10 (fs_width f)) (field_flags f) acnt (argument_of c :: args) =
    Some (text, Conversion args acnt' (Z.of_nat (length text)) (length (letters c) - 1)) /\
    says_conv f c text /\ (exists k, acnt' = acnt + (if int_sized c then 4 else 0) + 8 * k).
Proof.
  intros [Hok Hc] Hl.
  assert (Hll : forall args, long_long c = true -> aligned 2 acnt args = Some (acnt, args))
    by (intros args' E; cbn [aligned]; by rewrite (Hl E)).
  destruct c as [s|v|v|v|up v|up v|v|up v|v|up v]; cbn [argument_of int_sized long_long] in *.
  - eexists _, _. split; [reflexivity|]. split; [by apply (field_string f (CStr s))|]. exists 1. lia.
  - eexists _, _. split; [reflexivity|]. split; [|exists 0; lia]. apply Z.eqb_neq in Hc. rewrite Hc.
    by apply (field_string f (CChar v)).
  - edestruct (field_number f (CInt v) Hok int_of v) as (text & E & S); [reflexivity|by left|left; split_and!; try done; apply s32_range|].
    eexists text, _. split; [exact E|]. split; [exact S|]. exists 0. lia.
  - edestruct (field_number f (CUnsigned v) Hok uint_of v) as (text & E & S); [reflexivity|by left|right; split; [reflexivity|apply u64_uint]|].
    eexists text, _. split; [exact E|]. split; [exact S|]. exists 0. lia.
  - edestruct (field_number f (CHex up v) Hok uint_of v) as (text & E & S); [reflexivity|right; split; reflexivity|right; split; [reflexivity|apply u64_uint]|].
    eexists text, _. split; [destruct up; exact E|]. split; [exact S|]. exists 0. lia.
  - edestruct (field_number f (CPtr up v) Hok long_of v) as (text & E & S); [reflexivity|right; split; reflexivity|right; split; [reflexivity|apply u64_long]|].
    eexists text, _. split; [destruct up; exact E|]. split; [exact S|]. exists 1. lia.
  - edestruct (field_number f (CLong v) Hok long_of v) as (text & E & S); [reflexivity|by left|right; split; [reflexivity|apply u64_long]|].
    eexists text, _. split; [exact E|]. split; [exact S|]. exists 0. lia.
  - edestruct (field_number f (CLongHex up v) Hok long_of v) as (text & E & S); [reflexivity|right; split; reflexivity|right; split; [reflexivity|apply u64_long]|].
    eexists text, _. split; [destruct up; exact E|]. split; [exact S|]. exists 1. lia.
  - edestruct (field_number f (CLongLong v) Hok long_of v) as (text & E & S); [reflexivity|by left|right; split; [reflexivity|apply u64_long]|].
    exists text, (acnt + 8). split; [|split; [exact S|exists 1; lia]].
    transitivity (match aligned 2 acnt (ANum v :: args) with
      | Some (a, ar) => num_text long_of 10 false (chr "a") 8 2 (digits_value 10 (fs_width f)) (field_flags f) a ar | None => None end);
      [done|].
    rewrite Hll by done. exact E.
  - edestruct (field_number f (CLongLongHex up v) Hok long_of v) as (text & E & S); [reflexivity|right; split; reflexivity|right; split; [reflexivity|apply u64_long]|].
    exists text, (acnt + 8). split; [|split; [exact S|exists 1; lia]].
    transitivity (match aligned 2 acnt (ANum v :: args) with
      | Some (a, ar) => num_text long_of 16 false (letter_base up) 8 2 (digits_value 10 (fs_width f)) (field_flags f) a ar | None => None end);
      [by destruct up|]. rewrite Hll by done. destruct up; exact E.
Qed.

(** ** Reading a format *)

Lemma width_sym d : 0 <= d < 10 -> digit_sym false d = chr "0" + d.
Proof.
  intros Hd. assert (C : d = 0 \/ d = 1 \/ d = 2 \/ d = 3 \/ d = 4 \/ d = 5 \/ d = 6 \/ d = 7 \/ d = 8 \/ d = 9) by lia.
  by repeat destruct C as [-> | C]; [..|subst d].
Qed.

Lemma width_grows ds : forall w, Forall (λ d, 0 <= d < 10) ds -> 0 <= w -> w <= foldl (λ v d, v * 10 + d) w ds.
Proof.
  induction ds as [|d ds IH]; intros w Hd Hw; cbn [foldl]; [done|]. apply Forall_cons_1 in Hd as [H1 Hd].
  specialize (IH (w * 10 + d) Hd). lia.
Qed.

(** What follows the width is no digit. *)
Definition no_digit (l : list Z) : Prop := match l with c :: _ => (chr "0" <=? c) && (c <=? chr "9") = false | [] => True end.

Lemma get_width_digits ds l : forall w, Forall (λ d, 0 <= d < 10) ds -> 0 <= w -> no_digit l ->
  foldl (λ v d, v * 10 + d) w ds < 2 ^ 31 ->
  get_width (map (digit_sym false) ds ++ l) w = (foldl (λ v d, v * 10 + d) w ds, l).
Proof.
  induction ds as [|d ds IH]; intros w Hd Hw Hl Hb; cbn [map app foldl] in *.
  - destruct l as [|c l]; [done|]. cbn [get_width]. cbn in Hl. by rewrite Hl.
  - apply Forall_cons_1 in Hd as [H1 Hd]. cbn [get_width]. rewrite width_sym by done. change (chr "0") with 48. change (chr "9") with 57.
    rewrite !(proj2 (Z.leb_le _ _)) by lia. cbn [andb].
    assert (G := width_grows ds (w * 10 + d) Hd ltac:(lia)).
    replace (48 + d - 48) with d by lia. rewrite (s32_small (w * 10)), s32_small by lia. by apply IH; [|lia|..].
Qed.

Lemma letters_head c rest : exists h t, letters c ++ rest = h :: t /\ no_digit (h :: t) /\
  h <> chr "-" /\ h <> chr "#" /\ h <> chr "0" /\ h <> chr "%".
Proof. destruct c; cbn [letters]; try destruct upper; eexists _, _; (split; [reflexivity|]); split_and!; done. Qed.

Section Field.
Context (f : field_spec) (c : conv) (rest : list Z) (Hok : field_ok f c).
Let body : list Z := map (digit_sym false) (fs_width f) ++ letters c ++ rest.

Lemma body_head : exists h t, body = h :: t /\ h <> chr "-" /\ h <> chr "#" /\ h <> chr "0" /\ h <> chr "%".
Proof.
  subst body. destruct Hok as (Hw & Hh & _). destruct (fs_width f) as [|d ds].
  - destruct (letters_head c rest) as (h & t & E & _ & H). by exists h, t.
  - apply Forall_cons_1 in Hw as [H1 _]. cbn [map app]. eexists _, _. split; [reflexivity|]. rewrite width_sym by done.
    change (chr "0") with 48. change (chr "-") with 45. change (chr "#") with 35. change (chr "%") with 37.
    assert (d <> 0) by (cbn in Hh; congruence). lia.
Qed.

Lemma skip_zeros_body fl : skip_zeros body fl = (fl, body).
Proof.
  destruct body_head as (h & t & -> & _ & _ & H & _). cbn [skip_zeros]. by rewrite (proj2 (Z.eqb_neq _ _) H).
Qed.

Lemma get_flags_field : get_flags (shown_field f ++ letters c ++ rest) = (field_flags f, body).
Proof.
  destruct body_head as (h & t & E & H1 & H2 & H3 & _).
  assert (Hb : shown_field f ++ letters c ++ rest =
    (if fs_left f then chars "-" else []) ++ (if fs_alternate f then chars "#" else []) ++ (if fs_zero f then chars "0" else []) ++ body)
    by (unfold shown_field; subst body; by rewrite <- !app_assoc).
  rewrite Hb. unfold get_flags, field_flags.
  assert (K1 : (chr "-" =? chr "-") = true /\ (chr "#" =? chr "#") = true /\ (chr "0" =? chr "0") = true) by done.
  assert (K2 : (chr "#" =? chr "-") = false /\ (chr "0" =? chr "-") = false /\ (chr "0" =? chr "#") = false) by done.
  destruct K1 as (K11 & K12 & K13), K2 as (K21 & K22 & K23). apply Z.eqb_neq in H1, H2.
  destruct (fs_left f), (fs_alternate f), (fs_zero f); cbn [chars app]; rewrite ?E;
    do 2 (rewrite ?K11, ?K12, ?K21, ?K22, ?K23, ?H1, ?H2; cbv iota beta); rewrite <- !E; cbn [skip_zeros];
    by rewrite ?K13, skip_zeros_body.
Qed.

Lemma get_width_field : get_width body 0 = (digits_value 10 (fs_width f), letters c ++ rest).
Proof.
  destruct Hok as (Hw & _ & Hb & _). apply get_width_digits; [done|done| |done].
  destruct (letters_head c rest) as (h & t & -> & H & _). exact H.
Qed.

Lemma field_head : exists h t, shown_field f ++ letters c ++ rest = h :: t /\ h <> chr "%".
Proof.
  destruct body_head as (h & t & E & _ & _ & _ & H).
  assert (Hb : shown_field f ++ letters c ++ rest =
    (if fs_left f then chars "-" else []) ++ (if fs_alternate f then chars "#" else []) ++ (if fs_zero f then chars "0" else []) ++ body)
    by (unfold shown_field; subst body; by rewrite <- !app_assoc).
  rewrite Hb, E. destruct (fs_left f), (fs_alternate f), (fs_zero f); by eexists _, _.
Qed.

End Field.

Lemma says_items_cons i l t text : says_item i t -> says_items l text -> says_items (i :: l) (t ++ text).
Proof. intros H1 (ts & H2 & ->). exists (t :: ts). split; [by constructor|done]. Qed.

(** The text of a list of items, as the code finds it. *)
Lemma formatted_items l : forall fuel acnt odd,
  Forall item_ok l -> long_longs_ok odd l -> (exists k, acnt = 8 * k + if odd then 4 else 0) ->
  (length (shown l) < fuel)%nat ->
  exists text, formatted_loop fuel (shown l) (arguments l) acnt = Some text /\ says_items l text.
Proof.
  induction l as [|i l IH]; intros fuel acnt odd Hok Hll Hk Hf; (destruct fuel as [|fuel]; [lia|]).
  { exists []. split; [done|]. exists []. by split; [constructor|]. }
  apply Forall_cons_1 in Hok as [Hi Hok]. change (shown (i :: l)) with (shown_item i ++ shown l) in *.
  rewrite length_app in Hf. destruct i as [c| |f c].
  - destruct (IH fuel acnt odd Hok Hll Hk) as (text & E & Hs); [cbn in Hf; lia|]. exists ([c] ++ text).
    split; [|by apply says_items_cons]. cbn [shown_item app formatted_loop]. cbn in Hi.
    rewrite (proj2 (Z.eqb_neq c (chr "%"))) by done. change (arguments (Plain c :: l)) with (arguments l). by rewrite E.
  - destruct (IH fuel acnt odd Hok Hll Hk) as (text & E & Hs); [cbn in Hf; lia|]. exists (chars "%" ++ text).
    split; [|by apply says_items_cons]. change (shown_item Percent ++ shown l) with (chr "%" :: chr "%" :: shown l).
    cbn [formatted_loop]. change (chr "%" =? chr "%") with true. cbv iota. change (arguments (Percent :: l)) with (arguments l). by rewrite E.
  - destruct Hll as [Hc Hll]. destruct Hk as [k ->].
    assert (Hok1 := Hi). destruct Hi as [Hfield _].
    destruct (conv_text f c (shown l) (8 * k + if odd then 4 else 0) (arguments l) Hok1) as (text & acnt' & Ec & Hs & k' & Ea).
    { intros Hl. assert (odd = false) as -> by (by destruct c). rewrite Z.add_0_r. change 7 with (2 ^ 3 - 1).
      rewrite land_ones_mod by lia. change (2 ^ 3) with 8. rewrite Z.mul_comm. apply Z.mod_mul. lia. }
    destruct (IH fuel acnt' (xorb odd (int_sized c)) Hok Hll) as (text' & E & S').
    { rewrite Ea. destruct odd, (int_sized c); cbn [xorb]; [exists (k + k' + 1)|exists (k + k')..]; lia. }
    { cbn [shown_item] in Hf. rewrite !length_app in Hf. change (length (chars "%")) with 1%nat in Hf. lia. }
    exists (text ++ text'). split; [|by apply says_items_cons].
    change (shown_item (Conv f c) ++ shown l) with (chr "%" :: (shown_field f ++ letters c) ++ shown l). rewrite <- app_assoc.
    change (arguments (Conv f c :: l)) with (argument_of c :: arguments l).
    destruct (field_head f c (shown l) Hfield) as (h & t & Eh & Hne). assert (Eg := get_flags_field f c (shown l) Hfield).
    rewrite Eh in Eg |- *. cbn [formatted_loop]. change (chr "%" =? chr "%") with true. cbv iota.
    rewrite (proj2 (Z.eqb_neq h (chr "%")) Hne), Eg, (get_width_field f c (shown l) Hfield), Ec.
    cbn [cv_skip cv_args cv_acnt].
    assert (Hlen : (1 <= length (letters c))%nat) by (destruct c; try destruct upper; cbn; lia).
    rewrite (proj2 (Nat.leb_gt _ _)) by (rewrite length_app; lia).
    replace (S (length (letters c) - 1)) with (length (letters c)) by lia. rewrite drop_app_length, E. done.
Qed.

(** An item has one text. *)
Lemma says_conv_unique f c t t' : says_conv f c t -> says_conv f c t' -> t = t'.
Proof.
  unfold says_conv. cbv zeta. destruct c; cbn [number_of]; try congruence;
    intros (l & H1 & ->) (l' & H2 & ->); (assert (l = l') as -> by (eapply numeral_unique; [|exact H1|exact H2]; lia)); done.
Qed.

Lemma says_items_unique l t t' : says_items l t -> says_items l t' -> t = t'.
Proof.
  intros (ts & F & ->) (ts' & F' & ->). f_equal. revert ts' F'. induction F as [|i x l ts Hx F IH]; intros ts' F'.
  - by inversion F'.
  - inversion F' as [|? y ? ts'' Hy F'']; subst. f_equal; [|by apply IH].
    destruct i; [cbn in Hx, Hy; congruence..|by eapply says_conv_unique].
Qed.

(** ** Properties *)

(** [C40] The formatted print writes what its format means.  For every format made of
    plain characters, "%%" and the conversions %s %c %d %u %x %X %p %P %lu %lx %lX
    %llu %llx %llX, with their flags and widths and with the arguments they ask
    for, there is exactly one text it means (each number in its base without
    leading zeros, with its sign and prefix, filled up to the width).  sbi_printf
    sends this text to the console's device, if it has one, with a carriage return
    before each newline, and frees the console's lock; sbi_snprintf, whatever size
    it is given, stores the text with its final zero from [out] on and returns its
    length, if the text ends below the top of memory and its length is an int.
    Not every format is of this kind: "%ld" and "%lld", "%ll" after an odd number
    of ints, and flags that contradict each other are left out. *)
Theorem print_writes_format l :
  format_ok l ->
  exists text, says_items l text /\ (forall text', says_items l text' -> text' = text) /\
    writes (sbi_printf (shown l) (arguments l)) text /\
    forall out out_sz st, 0 < out -> out + zlen text < 2 ^ 64 -> zlen text < 2 ^ 31 ->
      exists n, sbi_snprintf out out_sz (shown l) (arguments l) st =
        (Ret (zlen text), set_ps_buffer (put_chars out (text ++ [0]) (ps_mem st)) (out + zlen text) n st).
Proof.
  intros [Hok Hll].
  destruct (formatted_items l (S (length (shown l))) 0 false Hok Hll ltac:(by exists 0) ltac:(lia)) as (text & E & Hs).
  exists text. split; [done|]. split; [intros text' S'; by eapply says_items_unique|]. split; [by apply sbi_printf_run|].
  intros out out_sz st Ho Hb Hl. unfold zlen in *. destruct (sbi_snprintf_run out out_sz _ _ text st E Ho Hb) as (n & R).
  exists n. rewrite R. rewrite s32_small by lia. done.
Qed.

(** An example of every flag. *)
Definition demo_items : list item :=
  map Plain (chars "hart") ++ [Conv (FieldSpec false false false []) (CInt (-3))] ++ map Plain (chars ": 0x") ++
  [Conv (FieldSpec false false true [8]) (CLongHex false 0xbeef); Plain (chr "|");
   Conv (FieldSpec true false false [4]) (CStr (Some (chars "ok"))); Plain (chr "|");
   Conv (FieldSpec false true false []) (CHex true 255); Conv (FieldSpec false false false []) (CLongLong (-1))].

Example demo_shown : shown demo_items = chars "hart%d: 0x%08lx|%-4s|%#X%llu" /\
  formatted (shown demo_items) (arguments demo_items) = Some (chars "hart-3: 0x0000beef|ok  |0XFF18446744073709551615").
Proof. split; vm_compute; reflexivity. Qed.

Lemma print_writes_format_witness :
  exists text, says_items demo_items text /\ (forall text', says_items demo_items text' -> text' = text) /\
    writes (sbi_printf (shown demo_items) (arguments demo_items)) text /\
    forall out out_sz st, 0 < out -> out + zlen text < 2 ^ 64 -> zlen text < 2 ^ 31 ->
      exists n, sbi_snprintf out out_sz (shown demo_items) (arguments demo_items) st =
        (Ret (zlen text), set_ps_buffer (put_chars out (text ++ [0]) (ps_mem st)) (out + zlen text) n st).
Proof.
  apply print_writes_format. split.
  - assert (P : forall f c, Forall (λ d, 0 <= d < 10) (fs_width f) -> head (fs_width f) <> Some 0 -> digits_value 10 (fs_width f) < 2 ^ 31 ->
      (fs_zero f = true -> fs_left f = false /\ fs_alternate f = false /\ number_of c <> None) ->
      (fs_alternate f = true -> exists z upper, number_of c = Some (z, 16, upper)) ->
      match c with CChar v => wrap 8 v <> 0 | _ => True end -> item_ok (Conv f c)) by done.
    unfold demo_items. cbn [map chars app].
    repeat (apply List.Forall_cons; [first [by cbn|apply P; first [done|intros; by eexists _, _|repeat constructor; lia]]|]). done.
  - cbn. split_and!; done.
Defined.
