(* ===== verification/System.v ===== *)
(** * TLB requests, system reset and leaving the firmware
      (lib/sbi/sbi_tlb.c, lib/sbi/sbi_system.c, parts of lib/sbi/sbi_init.c)

    The components put together: the instance of the event handlers made of the
    supervisor, halt and TLB events; the TLB request and its initialisation; the
    system reset; and sbi_exit, which a halt event runs on the receiving hart.

    The theorems: a system reset halts every other running hart of the domain
    and hands over to the reset device of the highest priority; the shift of
    the halt loop is off for hart ids from 64 on. *)

From Stdlib Require Import ZArith Lia.
From stdpp Require Import base tactics list gmap numbers.
From S2P Require Import Prelude SbiDefs Bitops Locks Fifo Scratch Domain Csr Hart Pmu Machine Hsm Tlb Ipi Timer.

(** ** Reset devices *)

(** The loop of sbi_system_reset_get_device over the rest of the list. *)
Fixpoint reset_scan (l : list sbi_system_reset_device) (reset_type reset_reason priority : Z)
    (reset_dev : option sbi_system_reset_device) : option sbi_system_reset_device :=
  match l with
  | [] => reset_dev
  | dev :: l' =>
      match system_reset_check dev with
      | None => reset_scan l' reset_type reset_reason priority reset_dev
      | Some check =>
          let status := check reset_type reset_reason in
          if status =? 0 then reset_scan l' reset_type reset_reason priority reset_dev
          else if priority <? status then reset_scan l' reset_type reset_reason status (Some dev)
          else reset_scan l' reset_type reset_reason priority reset_dev
      end
  end.

Definition sbi_system_reset_get_device (reset_type reset_reason : Z)
    : M machine (option sbi_system_reset_device) :=
  gets (λ m, reset_scan (m_reset_devs m) reset_type reset_reason 0 None).

Definition sbi_system_reset_add_device (dev : option sbi_system_reset_device) : M machine unit :=
  match dev with
  | None => ret tt
  | Some d =>
      match system_reset_check d with
      | None => ret tt
      | Some _ => modify (λ m, set_reset_devs (d :: m_reset_devs m) m)
      end
  end.

Definition sbi_system_reset_supported (reset_type reset_reason : Z) : M machine bool :=
  (dev <- sbi_system_reset_get_device reset_type reset_reason ;;
   ret (match dev with Some _ => true | None => false end))%sbi.

(** [dev->system_reset]: the system goes down, or the call comes back. *)
Definition dev_system_reset (dev : sbi_system_reset_device) (reset_type reset_reason : Z) : M machine unit :=
  (emit (EvReset reset_type reset_reason) ;;;
   if system_reset_works dev then stop system_down else ret tt)%sbi.

Section System.
Context (world : machine → machine) (polls : nat) (pl : sbi_platform_operations).

(** ** The event handlers *)

Definition tlb_update_data (cur remote : Z) (data : ipi_data) : M machine (Z * ipi_data) :=
  match data with
  | None => stop wild_access
  | Some t => (r <- tlb_update world polls cur remote t ;; ret (fst r, Some (snd r)))%sbi
  end.

(** ipi_smode_ops, ipi_halt_ops and tlb_ops; [exit] is sbi_exit. *)
Definition sbi_handlers (exit : Z → M machine unit) : EventHandlers :=
  {| ev_update := λ o, match o with IPI_TLB => Some tlb_update_data | _ => None end;
     ev_sync := λ o, match o with IPI_TLB => Some (tlb_sync world polls) | _ => None end;
     ev_process := λ o,
       match o with
       | IPI_SMODE => Some sbi_ipi_process_smode
       | IPI_HALT => Some (λ cur, sbi_ipi_process_halt (exit cur) cur)
       | IPI_TLB => Some (tlb_process world polls)
       end |}.

(** ** Leaving the firmware *)

Definition thishart_features (cur : Z) : M machine hart_features := on_hart cur (gets hd_features).

(** sbi_exit processes the pending IPIs, a halt among them stops the hart again:
    [n] bounds that nesting. *)
Fixpoint sbi_exit (n : nat) (cur : Z) : M machine unit :=
  (if sbi_platform_hart_invalid (plat pl) cur then stop hart_hang
   else
     sbi_platform_early_exit pl cur ;;;
     hf <- thishart_features cur ;;
     on_hart_pmu cur (sbi_pmu_exit cur (sbi_hart_has_feature hf SBI_HART_HAS_MCOUNTINHIBIT)) ;;;
     sbi_timer_exit pl cur ;;;
     @sbi_ipi_exit (sbi_handlers (match n with O => λ _, stop spinning | S n' => sbi_exit n' end)) pl cur ;;;
     sbi_platform_irqchip_exit pl cur ;;;
     sbi_platform_final_exit pl cur ;;;
     sbi_hsm_exit cur)%sbi.

(** ** TLB requests *)

Context (depth : nat).
#[local] Instance handlers : EventHandlers := sbi_handlers (sbi_exit depth).

(** The result and the caller's request. *)
Definition sbi_tlb_request (cur hmask hbase : Z) (t : sbi_tlb_info) : M machine Z :=
  match ti_local_fn t with
  | None => ret SBI_EINVAL
  | Some _ =>
      (tlb_pmu_incr_fw_ctr cur (Some t) ;;;
       event <- gets m_tlb_event ;;
       r <- sbi_ipi_send_many cur hmask hbase event (Some t) ;;
       ret (fst r))%sbi
  end.

Definition set_off_tlb (sync fifo mem : Z) (m : machine) : machine :=
  let f := m_offs m in
  set_offs (Offsets (off_hsm f) (off_ipi f) sync fifo mem (off_time_delta f) (off_init_count f)) m.

Definition zero_fifo : sbi_fifo sbi_tlb_info := Fifo (replicate 8 tlb_info_zero) 0 0 0 0 0.

(** The cold-boot allocations; [inl] leaves with an error. *)
Definition tlb_init_cold : M machine (Z + unit) :=
  (sync <- alloc_field 8 (hd_set_tlb_sync 0) ;;
   modify (λ m, set_off_tlb sync (off_tlb_fifo (m_offs m)) (off_tlb_mem (m_offs m)) m) ;;;
   if negb (truthy sync) then ret (inl SBI_ENOMEM)
   else
     fifo <- alloc_field 24 (hd_set_tlb_fifo zero_fifo) ;;
     modify (λ m, set_off_tlb sync fifo (off_tlb_mem (m_offs m)) m) ;;;
     if negb (truthy fifo) then on_scratch (sbi_scratch_free_offset sync) ;;; ret (inl SBI_ENOMEM)
     else
       mem <- alloc_field (SBI_TLB_FIFO_NUM_ENTRIES * SBI_TLB_INFO_SIZE)
                (λ d, hd_set_tlb_fifo (set_queue (replicate 8 tlb_info_zero) (hd_tlb_fifo d)) d) ;;
       modify (set_off_tlb sync fifo mem) ;;;
       if negb (truthy mem) then
         on_scratch (sbi_scratch_free_offset fifo) ;;;
         on_scratch (sbi_scratch_free_offset sync) ;;; ret (inl SBI_ENOMEM)
       else
         r <- sbi_ipi_event_create (Some IPI_TLB) ;;
         if r <? 0 then
           on_scratch (sbi_scratch_free_offset mem) ;;;
           on_scratch (sbi_scratch_free_offset fifo) ;;;
           on_scratch (sbi_scratch_free_offset sync) ;;; ret (inl r)
         else
           modify (set_tlb_globals r (sbi_platform_tlbr_flush_limit pl)) ;;;
           ret (inr tt))%sbi.

Definition tlb_init_warm : M machine (Z + unit) :=
  (f <- gets m_offs ;;
   ev <- gets m_tlb_event ;;
   if negb (truthy (off_tlb_sync f)) || negb (truthy (off_tlb_fifo f)) || negb (truthy (off_tlb_mem f))
   then ret (inl SBI_ENOMEM)
   else if SBI_IPI_EVENT_MAX <=? ev then ret (inl SBI_ENOSPC)
   else ret (inr tt))%sbi.

Definition sbi_tlb_init (cur : Z) (cold_boot : bool) : M machine Z :=
  (r <- (if cold_boot then tlb_init_cold else tlb_init_warm) ;;
   match r with
   | inl e => ret e
   | inr _ =>
       on_hart cur (modify (hd_set_tlb_sync 0)) ;;;
       on_hart cur (modify (λ d, hd_set_tlb_fifo
         (sbi_fifo_init tlb_info_zero (queue (hd_tlb_fifo d)) SBI_TLB_FIFO_NUM_ENTRIES SBI_TLB_INFO_SIZE) d)) ;;;
       ret 0
   end)%sbi.

(** ** System reset *)

(** The loop that halts the other harts, one window of 64 harts per round. *)
Fixpoint halt_others_loop (n : nat) (cur : Z) (dom : option nat) (hbase : Z) : M machine unit :=
  match n with
  | O => stop spinning
  | S n' =>
      (r <- sbi_hsm_hart_interruptible_mask dom hbase ;;
       if truthy (fst r) then ret tt
       else
         let hmask := if hbase <=? cur then Z.land (snd r) (not64 (shl64 1 (cur - hbase))) else snd r in
         (if truthy hmask then sbi_ipi_send_halt cur hmask hbase ;;; ret tt else ret tt) ;;;
         halt_others_loop n' cur dom (u64 (hbase + 64)))%sbi
  end.

Definition sbi_system_reset (cur reset_type reset_reason : Z) : M machine unit :=
  (dom <- domain_ptr cur ;;
   rounds <- gets broadcast_rounds ;;
   halt_others_loop rounds cur dom 0 ;;;
   sbi_hsm_hart_stop (sbi_exit depth cur) cur false ;;;
   d <- gets (λ m, dom ≫= λ p, domains (m_domains m) !! p) ;;
   match d with
   | None => stop wild_access
   | Some d =>
       (if system_reset_allowed d then
          dev <- sbi_system_reset_get_device reset_type reset_reason ;;
          match dev with
          | Some dev => dev_system_reset dev reset_type reset_reason
          | None => ret tt
          end
        else ret tt) ;;;
       sbi_exit depth cur
   end)%sbi.

(** ** Resume from a non-retentive suspend *)

(** sbi_hart_reinit and sbi_hart_pmp_configure on this hart's CSRs. *)
Definition hart_reinit (cur : Z) : M machine Z :=
  (hf <- thishart_features cur ;;
   on_hart cur (hart_csr (sbi_hart_reinit (sbi_platform_misa_extension pl) hf (mfaults_delegation pl))))%sbi.

Definition hart_pmp_configure (cur : Z) : M machine Z :=
  (hf <- thishart_features cur ;;
   dom <- domain_ptr cur ;;
   ds <- gets m_domains ;;
   match dom ≫= λ p, domains ds !! p with
   | None => stop wild_access
   | Some d => on_hart cur (hart_csr (sbi_hart_pmp_configure hf (dom_regions ds d)))
   end)%sbi.

Definition init_warm_resume (cur : Z) : M machine unit :=
  (sbi_hsm_hart_resume_start cur ;;;
   rc <- hart_reinit cur ;;
   if truthy rc then stop hart_hang
   else
     rc <- hart_pmp_configure cur ;;
     if truthy rc then stop hart_hang
     else sbi_hsm_hart_resume_finish cur)%sbi.

End System.

(** ** Halting the other harts *)

(** What a delivery leaves alone. *)
Record static_same (m m' : machine) : Prop := {
  ss_domains : m_domains m' = m_domains m;
  ss_scratch : m_scratch m' = m_scratch m;
  ss_halt : m_ipi_halt_event m' = m_ipi_halt_event m;
  ss_ops : m_ipi_ops_array m' = m_ipi_ops_array m;
  ss_dev : m_ipi_dev m' = m_ipi_dev m;
  ss_reset : m_reset_devs m' = m_reset_devs m;
}.

#[local] Instance static_same_trans : Transitive static_same.
Proof. intros m1 m2 m3 [] []. constructor; congruence. Qed.

Lemma static_deliver ev l m : static_same m (foldl (deliver ev) m l).
Proof.
  revert m. induction l as [|h l IH]; intros m; cbn; [done|]. etrans; [|apply IH].
  unfold deliver. destruct (hart m h); [|done]. by destruct (device_sends _).
Qed.

Lemma static_same_but_pmu m m' : same_but_pmu m m' -> static_same m m'.
Proof. intros [-> _]. done. Qed.

Lemma static_facts m m' p cur :
  static_same m m' -> (forall h, hsm_state m' h = hsm_state m h) ->
  last_hart m' = last_hart m /\ dom_harts m' p = dom_harts m p /\
  (forall h, can_interrupt m' h = can_interrupt m h) /\ device_sends m' = device_sends m /\
  (domain_ready m p -> domain_ready m' p) /\
  (domain_ptr cur m = (Ret (Some p), m) -> domain_ptr cur m' = (Ret (Some p), m')).
Proof.
  intros [Hd Hs _ _ Hv _] Hst. unfold last_hart, dom_harts, can_interrupt, device_sends, domain_ptr, gets.
  rewrite Hd, Hs, Hv. repeat split; try done.
  - intros h. by rewrite Hst.
  - destruct H as [H _]. by rewrite Hd.
  - destruct H as [_ H]. unfold last_hart in *. rewrite Hs. lia.
  - destruct H as [_ H]. unfold last_hart in *. rewrite Hs. lia.
  - intros [= H]. by rewrite H.
Qed.

(** Deliveries in sequence. *)
Lemma same_but_pmu_deliver ev m m1 m2 l1 l2 :
  same_but_pmu (foldl (deliver ev) m l1) m1 -> same_but_pmu (foldl (deliver ev) m1 l2) m2 ->
  same_but_pmu (foldl (deliver ev) m (l1 ++ l2)) m2.
Proof.
  intros [E1 F1] [E2 F2]. split; [|done]. rewrite foldl_app, E2, E1, fold_deliver_set_pmu. done.
Qed.

(** The loop computes the bit of [cur] modulo 64 in every window up to its own. *)
Definition spared (cur h : Z) : bool := (h mod 64 =? cur mod 64) && (h <=? cur).

(** The harts from [hbase] on that the loop of hart [cur] halts. *)
Definition halted_from (m : machine) (p : nat) (cur hbase : Z) : list Z :=
  filter (λ h, h ∈ dom_harts m p /\ can_interrupt m h = true /\ spared cur h = false)
    (seqZ hbase (last_hart m + 1 - hbase)).

Definition window_mask (cur hbase out : Z) : Z :=
  if hbase <=? cur then Z.land out (not64 (shl64 1 (cur - hbase))) else out.

Lemma window_mask_bits cur hbase out j :
  is_u64 out -> hbase mod 64 = 0 -> 0 <= hbase -> 0 <= j < 64 ->
  Z.testbit (window_mask cur hbase out) j = Z.testbit out j && negb (spared cur (hbase + j)).
Proof.
  intros Hu Hb H0 Hj. unfold window_mask, spared.
  assert (Hm : (hbase + j) mod 64 = j).
  { rewrite Z.add_mod, Hb by lia. rewrite Z.add_0_l, Z.mod_mod by lia. apply Z.mod_small. lia. }
  rewrite Hm. destruct (Z.leb_spec hbase cur).
  - rewrite Z.land_spec, testbit_not64 by (apply shl64_range || lia). f_equal. f_equal.
    change (shl64 1 (cur - hbase)) with (BIT (cur - hbase)).
    assert (Hc : BIT (cur - hbase) = BIT (cur mod 64)).
    { unfold BIT, shl64. rewrite Zminus_mod, Hb, Z.sub_0_r, !Z.mod_mod by lia. done. }
    rewrite Hc, testbit_BIT by (pose proof (Z.mod_pos_bound cur 64); lia).
    destruct (Z.eqb_spec j (cur mod 64)) as [->|]; [|done]. cbn. symmetry. apply Z.leb_le.
    pose proof (Z.div_mod cur 64 ltac:(lia)). pose proof (Z.div_mod hbase 64 ltac:(lia)).
    pose proof (Z.div_le_mono hbase cur 64 ltac:(lia) ltac:(lia)). lia.
  - destruct (Z.leb_spec (hbase + j) cur); [lia|]. by rewrite andb_false_r, andb_true_r.
Qed.

Lemma window_mask_u64 cur hbase out : is_u64 out -> is_u64 (window_mask cur hbase out).
Proof. intros H. unfold window_mask. case_if; [|done]. apply land_u64; [done|]. apply not64_range, shl64_range. Qed.

(** A filter that keeps nothing. *)
Lemma filter_nil_in {A} (P : A → Prop) `{!forall x, Decision (P x)} (l : list A) :
  (forall x, x ∈ l -> ~ P x) -> filter P l = [].
Proof.
  induction l as [|x l IH]; intros Hx; [done|]. rewrite filter_cons, decide_False by (apply Hx; by left).
  apply IH. intros y Hy. apply Hx. by right.
Qed.

(** One window: the targets of the halt request. *)
Lemma window_targets m p cur hbase out :
  is_u64 out -> hbase mod 64 = 0 -> 0 <= hbase ->
  (forall j, 0 <= j -> Z.testbit out j = true <->
      j < 64 /\ hbase + j <= last_hart m /\ hbase + j ∈ dom_harts m p /\ can_interrupt m (hbase + j) = true) ->
  halted_from m p cur hbase =
  ipi_targets m p (window_mask cur hbase out) hbase ++ halted_from m p cur (hbase + 64).
Proof.
  intros Hu Hb H0 Ho. set (L := last_hart m) in *.
  assert (Hw : forall h, hbase <= h < hbase + 64 ->
    (Z.testbit (window_mask cur hbase out) (h - hbase) = true /\ h <= L /\ h ∈ dom_harts m p /\
     can_interrupt m h = true) <->
    h <= L /\ h ∈ dom_harts m p /\ can_interrupt m h = true /\ spared cur h = false).
  { intros h Hh. rewrite window_mask_bits by (done || lia).
    specialize (Ho (h - hbase) ltac:(lia)). replace (hbase + (h - hbase)) with h in * by lia.
    rewrite andb_true_iff, Ho, negb_true_iff. fold L. intuition lia. }
  unfold halted_from, ipi_targets. fold L.
  destruct (Z.le_gt_cases (hbase + 64) (L + 1)) as [Hge|Hlt].
  - replace (L + 1 - hbase) with (64 + (L + 1 - (hbase + 64))) by lia.
    rewrite seqZ_app, list.filter_app by lia. f_equal. apply filter_ext_in.
    intros h Hh%elem_of_seqZ. rewrite Hw by lia. intuition lia.
  - rewrite (seqZ_nil (hbase + 64)) by lia. cbn. rewrite app_nil_r.
    destruct (Z.le_gt_cases (L + 1) hbase).
    + rewrite seqZ_nil by lia. cbn. symmetry. apply filter_nil_in.
      intros h Hh%elem_of_seqZ. lia.
    + assert (Hs : seqZ hbase 64 =
        seqZ hbase (L + 1 - hbase) ++ seqZ (hbase + (L + 1 - hbase)) (64 - (L + 1 - hbase)))
        by (rewrite <- seqZ_app by lia; f_equal; lia).
      rewrite Hs, list.filter_app.
      rewrite (filter_nil_in _ (seqZ (hbase + (L + 1 - hbase)) _)); cycle 1.
      { intros h Hh%elem_of_seqZ. lia. }
      rewrite app_nil_r. apply filter_ext_in. intros h Hh%elem_of_seqZ. rewrite Hw by lia. intuition lia.
Qed.

Section Halting.
Context (world : machine → machine) (polls : nat) (pl : sbi_platform_operations) (depth : nat).
#[local] Abbreviation halt_loop := (halt_others_loop world polls pl depth).
#[local] Abbreviation send_halt := (@sbi_ipi_send_halt (handlers world polls pl depth)).

Lemma send_halt_run m cur p hmask hbase :
  domain_ptr cur m = (Ret (Some p), m) -> domain_ready m p -> fw_ready m ->
  event_lookup m (m_ipi_halt_event m) = Some IPI_HALT -> 0 <= cur < 128 -> is_u64 hmask ->
  0 <= hbase <= last_hart m ->
  exists m', send_halt cur hmask hbase m = (Ret 0, m') /\
    same_but_pmu (foldl (deliver (m_ipi_halt_event m)) m (ipi_targets m p hmask hbase)) m'.
Proof.
  intros Hdp Hdr Hf He Hc Hm Hb. unfold sbi_ipi_send_halt. rewrite bind_gets.
  destruct (@send_many_run (handlers world polls pl depth) m cur p hmask hbase (m_ipi_halt_event m) None Hdp Hdr Hf) as [_ Hok];
    [by exists IPI_HALT|done|done|pose proof (dr_last _ _ Hdr); unfold u64_max; lia|].
  destruct (Hok ltac:(lia)) as (m' & E & P). rewrite (bind_Ret _ _ _ _ _ E). by exists m'.
Qed.

Lemma halt_others_run n cur p hbase m :
  domain_ptr cur m = (Ret (Some p), m) -> domain_ready m p -> fw_ready m ->
  event_lookup m (m_ipi_halt_event m) = Some IPI_HALT -> 0 <= cur < 128 ->
  0 <= hbase -> hbase mod 64 = 0 -> last_hart m - hbase + 64 < 64 * Z.of_nat n -> hbase <= last_hart m + 64 ->
  exists m', halt_loop n cur (Some p) hbase m = (Ret tt, m') /\
    same_but_pmu (foldl (deliver (m_ipi_halt_event m)) m (halted_from m p cur hbase)) m'.
Proof.
  revert hbase m. induction n as [|n IH]; intros hbase m Hdp Hdr Hf He Hc H0 Hb Hn Hmax.
  { exfalso. lia. }
  cbn [halt_others_loop].
  destruct (interruptible_mask_run m p hbase Hdr H0) as (rc & out & E & Hrc & Hou & Ho).
  rewrite (bind_Ret _ _ _ _ _ E). cbn [fst snd].
  destruct (Z.ltb_spec (last_hart m) hbase) as [Hl|Hl]; subst rc; cbn [truthy Z.eqb negb].
  { exists m. split; [done|]. unfold halted_from. rewrite seqZ_nil by lia. cbn.
    split; [by rewrite set_pmu_same|done]. }
  fold (window_mask cur hbase out). set (hmask := window_mask cur hbase out). cbv zeta.
  assert (H1 : exists m1, bind (if truthy hmask then bind (send_halt cur hmask hbase) (λ _, ret tt) else ret tt)
    (λ _, halt_loop n cur (Some p) (u64 (hbase + 64))) m = halt_loop n cur (Some p) (u64 (hbase + 64)) m1 /\
    same_but_pmu (foldl (deliver (m_ipi_halt_event m)) m (ipi_targets m p hmask hbase)) m1).
  { destruct (truthy hmask) eqn:Et.
    - destruct (send_halt_run m cur p hmask hbase) as (m1 & E1 & P1); try done.
      { by apply window_mask_u64. }
      exists m1. split; [|done]. by rewrite bind_assoc, (bind_Ret _ _ _ _ _ E1), bind_ret_l.
    - apply truthy_false in Et. exists m. split; [done|].
      unfold ipi_targets. rewrite (filter_nil_in _ _); cycle 1.
      { intros h _ [Hh _]. by rewrite Et, Z.bits_0 in Hh. }
      split; [cbn; by rewrite set_pmu_same|done]. }
  destruct H1 as (m1 & E1 & P1). rewrite E1.
  assert (Hu : u64 (hbase + 64) = hbase + 64) by (apply u64_small; unfold is_u64; pose proof (dr_last _ _ Hdr); lia).
  rewrite Hu.
  assert (S1 : static_same m m1) by (etrans; [apply static_deliver|apply static_same_but_pmu; exact P1]).
  assert (Hst : forall h, hsm_state m1 h = hsm_state m h).
  { intros h. rewrite (proj1 P1). change (hsm_state (set_m_pmu ?q ?x) h) with (hsm_state x h). apply fold_deliver_state. }
  destruct (static_facts m m1 p cur S1 Hst) as (Fl & Fd & Fc & _ & Fr & Fp).
  destruct (IH (hbase + 64) m1) as (m' & E' & P'); [by apply Fp|by apply Fr|apply P1| |done|lia| |lia|lia|].
  { rewrite (ss_halt _ _ S1). unfold event_lookup. rewrite (ss_ops _ _ S1). exact He. }
  { by rewrite <- (Z.mod_add hbase 1 64) in Hb by lia. }
  exists m'. split; [done|].
  rewrite (window_targets m p cur hbase out Hou Hb H0 Ho). fold hmask.
  eapply same_but_pmu_deliver; [exact P1|].
  assert (Hh : halted_from m1 p cur (hbase + 64) = halted_from m p cur (hbase + 64)).
  { unfold halted_from. rewrite Fl, Fd. apply filter_ext_in. intros h _. by rewrite Fc. }
  rewrite Hh, (ss_halt _ _ S1) in P'. exact P'.
Qed.

End Halting.

(** ** The reset device *)

Definition reset_status (dev : sbi_system_reset_device) (t r : Z) : Z :=
  match system_reset_check dev with Some check => check t r | None => 0 end.

(** The scan keeps the device of the highest positive status seen so far. *)
Lemma reset_scan_best l t r prio best :
  0 <= prio ->
  match reset_scan l t r prio best with
  | Some dev =>
      (best = Some dev /\ Forall (λ d, reset_status d t r <= prio) l) \/
      (dev ∈ l /\ prio < reset_status dev t r /\ Forall (λ d, reset_status d t r <= reset_status dev t r) l)
  | None => best = None /\ Forall (λ d, reset_status d t r <= prio) l
  end.
Proof.
  revert prio best. induction l as [|d l IH]; intros prio best Hp; cbn [reset_scan].
  { destruct best; [left|]; by split. }
  assert (Hskip : reset_status d t r <= prio ->
    match reset_scan l t r prio best with
    | Some dev =>
        (best = Some dev /\ Forall (λ d, reset_status d t r <= prio) (d :: l)) \/
        (dev ∈ d :: l /\ prio < reset_status dev t r /\
         Forall (λ d, reset_status d t r <= reset_status dev t r) (d :: l))
    | None => best = None /\ Forall (λ d, reset_status d t r <= prio) (d :: l)
    end).
  { intros Hd. specialize (IH prio best Hp). destruct (reset_scan l t r prio best) as [dev|].
    - destruct IH as [[-> Hl]|(Hin & Hlt & Hl)]; [left|right].
      + split; [done|by constructor].
      + split; [by right|]. split; [done|]. constructor; [lia|done].
    - destruct IH as [-> Hl]. split; [done|by constructor]. }
  unfold reset_status in Hskip at 1. destruct (system_reset_check d) as [check|] eqn:Ed; [|apply Hskip; lia].
  destruct (Z.eqb_spec (check t r) 0); [apply Hskip; lia|].
  destruct (Z.ltb_spec prio (check t r)) as [Hlt|]; [|by apply Hskip].
  assert (Hs : reset_status d t r = check t r) by (unfold reset_status; by rewrite Ed).
  specialize (IH (check t r) (Some d) ltac:(lia)).
  destruct (reset_scan l t r (check t r) (Some d)) as [dev|]; [|by destruct IH].
  right. destruct IH as [[[= <-] Hl]|(Hin & Hlt' & Hl)].
  - split; [by left|]. rewrite Hs. split; [done|]. constructor; [lia|done].
  - split; [by right|]. split; [lia|]. constructor; [lia|done].
Qed.

(** The harts a system reset by [cur] halts: the others of its domain that run
    or are suspended. *)
Definition reset_targets (m : machine) (p : nat) (cur : Z) : list Z :=
  filter (λ h, h <> cur /\ h ∈ dom_harts m p /\ can_interrupt m h = true) (seqZ 0 (last_hart m + 1)).

Lemma halted_reset_targets m p cur : 0 <= cur < 64 -> halted_from m p cur 0 = reset_targets m p cur.
Proof.
  intros Hc. unfold halted_from, reset_targets. rewrite Z.sub_0_r. apply filter_ext_in.
  intros h Hh%elem_of_seqZ. unfold spared. rewrite (Z.mod_small cur) by lia.
  assert (Hs : (h mod 64 =? cur) && (h <=? cur) = false <-> h <> cur).
  { rewrite andb_false_iff, Z.eqb_neq, Z.leb_gt. split.
    - intros Ho ->. rewrite Z.mod_small in Ho by lia. lia.
    - intros Hne. destruct (Z.lt_ge_cases cur h); [by right|]. left. rewrite Z.mod_small by lia. lia. }
  rewrite Hs. tauto.
Qed.

Lemma rounds_enough m : 0 <= last_hart m < 128 -> last_hart m - 0 + 64 < 64 * Z.of_nat (broadcast_rounds m).
Proof.
  intros Hl. unfold broadcast_rounds, u32. rewrite (Z.mod_small (last_hart m + 1) (2 ^ 32)) by lia.
  pose proof (Z.div_mod (last_hart m + 1) 64 ltac:(lia)). pose proof (Z.mod_pos_bound (last_hart m + 1) 64 ltac:(lia)).
  rewrite Z2Nat.id by lia. lia.
Qed.

(** The halting phase of a reset. *)
Lemma halt_phase world polls pl depth m cur p :
  0 <= cur < 64 -> domain_ptr cur m = (Ret (Some p), m) -> domain_ready m p -> fw_ready m ->
  event_lookup m (m_ipi_halt_event m) = Some IPI_HALT -> device_sends m = true ->
  exists m1, halt_others_loop world polls pl depth (broadcast_rounds m) cur (Some p) 0 m = (Ret tt, m1) /\
    static_same m m1 /\ m_trace m1 = m_trace m ++ map EvIpiSend (reset_targets m p cur) /\
    forall h, hart m1 h = if bool_decide (h ∈ reset_targets m p cur)
      then (λ d, hd_set_ipi_type (Z.lor (hd_ipi_type d) (BIT (m_ipi_halt_event m mod 64))) d) <$> hart m h
      else hart m h.
Proof.
  intros Hc Hdp Hdr Hf He Hds. pose proof (dr_last _ _ Hdr) as Hlast.
  destruct (halt_others_run world polls pl depth (broadcast_rounds m) cur p 0 m) as (m1 & E1 & P1);
    try done; try lia; [by apply rounds_enough|].
  rewrite halted_reset_targets in P1 by done. exists m1. split; [done|]. split; [|split].
  - etrans; [apply static_deliver|apply static_same_but_pmu; exact P1].
  - rewrite (proj1 P1). change (m_trace (set_m_pmu ?q ?x)) with (m_trace x).
    apply fold_deliver_trace; [|apply list.NoDup_filter, NoDup_seqZ|done].
    intros h. unfold reset_targets. rewrite list_elem_of_filter. intros [(_ & _ & Hi) _]. by apply can_interrupt_some.
  - intros h. rewrite (proj1 P1). change (hart (set_m_pmu ?q ?x) h) with (hart x h).
    apply fold_deliver_hart, list.NoDup_filter, NoDup_seqZ.
Qed.

(** [C13] A system reset by a hart below 64 first takes every other hart of its
    domain out of service and then resets: each other hart of the domain that is
    started or suspended gets the halt event pending and one interrupt, no other
    hart is touched, the calling hart is marked as stopping, and only then the
    device is told to reset; the device chosen is the one that gave the highest
    priority to this type and reason. *)
Theorem system_reset_halts_others world polls pl depth m cur p d D dev (t r : Z) :
  hart m cur = Some d -> hd_hsm_state d = SBI_HSM_STATE_STARTED -> 0 <= cur < 64 ->
  domain_ptr cur m = (Ret (Some p), m) -> domain_ready m p -> fw_ready m ->
  event_lookup m (m_ipi_halt_event m) = Some IPI_HALT -> device_sends m = true ->
  domains (m_domains m) !! p = Some D -> system_reset_allowed D = true ->
  reset_scan (m_reset_devs m) t r 0 None = Some dev -> system_reset_works dev = true ->
  (exists m', sbi_system_reset world polls pl depth cur t r m = (Stop system_down, m') /\
     m_trace m' = m_trace m ++ map EvIpiSend (reset_targets m p cur) ++ [EvReset t r] /\
     forall h, hart m' h =
       if h =? cur then Some (hd_set_hsm_state SBI_HSM_STATE_STOP_PENDING d)
       else if bool_decide (h ∈ reset_targets m p cur)
       then (λ d, hd_set_ipi_type (Z.lor (hd_ipi_type d) (BIT (m_ipi_halt_event m mod 64))) d) <$> hart m h
       else hart m h) /\
  dev ∈ m_reset_devs m /\ 0 < reset_status dev t r /\
  Forall (λ d, reset_status d t r <= reset_status dev t r) (m_reset_devs m).
Proof.
  intros Hd Hst Hc Hdp Hdr Hf He Hds HD Hall Hscan Hw. split; cycle 1.
  { pose proof (reset_scan_best (m_reset_devs m) t r 0 None ltac:(lia)) as Hb. rewrite Hscan in Hb.
    destruct Hb as [[? _]|?]; [discriminate|done]. }
  unfold sbi_system_reset. rewrite (bind_Ret _ _ _ _ _ Hdp), bind_gets.
  destruct (halt_phase world polls pl depth m cur p Hc Hdp Hdr Hf He Hds) as (m1 & E1 & S1 & Ht1 & Hh1).
  rewrite (bind_Ret _ _ _ _ _ E1). set (T := reset_targets m p cur) in *. set (ev := m_ipi_halt_event m) in *.
  assert (HcT : cur ∉ T) by (unfold T, reset_targets; rewrite list_elem_of_filter; tauto).
  assert (Hd1 : hart m1 cur = Some d) by (rewrite Hh1; by rewrite bool_decide_false).
  assert (Hdp1 : domain_ptr cur m1 = (Ret (Some p), m1)).
  { unfold domain_ptr, gets in *. injection Hdp as Hdp. by rewrite (ss_domains _ _ S1), Hdp. }
  set (m2 := put_hart cur (hd_set_hsm_state SBI_HSM_STATE_STOP_PENDING d) m1).
  assert (E2 : sbi_hsm_hart_stop (sbi_exit world polls pl depth cur) cur false m1 = (Ret 0, m2)).
  { unfold sbi_hsm_hart_stop. rewrite (bind_Ret _ _ _ _ _ Hdp1).
    rewrite (bind_Ret _ _ _ _ _ (cmpxchg_run cur _ _ m1 d Hd1)), Hst. done. }
  rewrite (bind_Ret _ _ _ _ _ E2), bind_gets. cbn [mbind option_bind].
  change (m_domains m2) with (m_domains m1). rewrite (ss_domains _ _ S1), HD, Hall.
  unfold sbi_system_reset_get_device. rewrite !bind_assoc, bind_gets.
  change (m_reset_devs m2) with (m_reset_devs m1). rewrite (ss_reset _ _ S1), Hscan.
  unfold dev_system_reset. rewrite Hw. exists (add_event (EvReset t r) m2). split; [done|]. split.
  - change (m_trace (add_event (EvReset t r) m2)) with (m_trace m1 ++ [EvReset t r]). by rewrite Ht1, <- app_assoc.
  - intros h. change (hart (add_event (EvReset t r) m2) h) with (hart m2 h). unfold m2.
    destruct (Z.eqb_spec h cur) as [->|Hne].
    + by apply (hart_put_eq _ _ _ _ Hd1).
    + rewrite hart_put_ne by (done || lia). apply Hh1.
Qed.

Definition demo_reset_machine : machine :=
  set_reset_devs [ResetDevice (Some (λ _ _, 1)) true; ResetDevice (Some (λ _ _, 2)) true] demo_machine.

Lemma system_reset_halts_others_witness :
  let m := demo_reset_machine in
  let dev := ResetDevice (Some (λ _ _, 2)) true in
  (exists m', sbi_system_reset id 0 bare_platform 0 0 0 0 m = (Stop system_down, m') /\
     m_trace m' = m_trace m ++ map EvIpiSend (reset_targets m root 0) ++ [EvReset 0 0] /\
     forall h, hart m' h =
       if h =? 0 then Some (hd_set_hsm_state SBI_HSM_STATE_STOP_PENDING (demo_hart SBI_HSM_STATE_STARTED))
       else if bool_decide (h ∈ reset_targets m root 0)
       then (λ d, hd_set_ipi_type (Z.lor (hd_ipi_type d) (BIT (m_ipi_halt_event m mod 64))) d) <$> hart m h
       else hart m h) /\
  dev ∈ m_reset_devs m /\ 0 < reset_status dev 0 0 /\
  Forall (λ d, reset_status d 0 0 <= reset_status dev 0 0) (m_reset_devs m).
Proof.
  intros m dev.
  apply (system_reset_halts_others id 0 bare_platform 0 m 0 root (demo_hart SBI_HSM_STATE_STARTED)
    (Domain 0 (Hartmask [7; 0]) (Some RootHmask) (Some RootMemregs) 0 0 0x80200000 PRV_S true) dev 0 0);
    try reflexivity; [lia| |apply fw_ready_demo].
  destruct demo_ready. by split.
Defined.

(** Hart 2, which is suspended, is halted; hart 1, which is stopped, is not. *)
Example demo_reset_targets : reset_targets demo_reset_machine root 0 = [2].
Proof. vm_compute. reflexivity. Qed.

(** The loop of a hart beyond 63 spares a hart it should halt: hart 65 does not
    halt hart 1, since in the first window [1UL << (65 - 0)] is bit 1.  See
    sbi_system.c:75. *)
Theorem reset_spares_aliased_hart world polls pl depth m p :
  domain_ptr 65 m = (Ret (Some p), m) -> domain_ready m p -> fw_ready m ->
  event_lookup m (m_ipi_halt_event m) = Some IPI_HALT ->
  exists m', halt_others_loop world polls pl depth (broadcast_rounds m) 65 (Some p) 0 m = (Ret tt, m') /\
    hart m' 1 = hart m 1.
Proof.
  intros Hdp Hdr Hf He. pose proof (dr_last _ _ Hdr) as Hlast.
  destruct (halt_others_run world polls pl depth (broadcast_rounds m) 65 p 0 m) as (m1 & E1 & P1);
    try done; try lia; [by apply rounds_enough|].
  exists m1. split; [done|]. rewrite (proj1 P1). change (hart (set_m_pmu ?q ?x) 1) with (hart x 1).
  rewrite fold_deliver_hart by apply list.NoDup_filter, NoDup_seqZ.
  rewrite bool_decide_false; [done|]. unfold halted_from. rewrite list_elem_of_filter.
  intros [(_ & _ & Hs) _]. discriminate Hs.
Qed.
