(* ===== verification/Trap.v ===== *)
(** * Traps handed to the supervisor (lib/sbi/sbi_trap.c)

    The saved registers of the interrupted context and sbi_trap_redirect, which
    makes a trap taken in machine mode look as if the supervisor had taken it.
    The dispatcher sbi_trap_handler is in TrapHandler.v.

    The theorem: the redirected trap enters the supervisor's vector with the
    cause, address and pc of the trap, interrupts off, and the interrupted
    privilege mode and interrupt enable saved where [sret] takes them from. *)

From Stdlib Require Import ZArith Lia.
From stdpp Require Import base tactics list gmap numbers.
From S2P Require Import Prelude SbiDefs Bitops Csr Hart Machine.

Definition MSTATUS_SIE : Z := 0x2.
Definition MSTATUS_SPIE : Z := 0x20.
Definition MSTATUS_SPIE_SHIFT : Z := 5.
Definition MSTATUS_SPP : Z := 0x100.
Definition MSTATUS_SPP_SHIFT : Z := 8.
Definition MSTATUS_MPP_SHIFT : Z := 11.
Definition HSTATUS_SPVP : Z := 0x100.
Definition HSTATUS_SPV : Z := 0x80.
Definition CSR_SEPC : Z := 0x141.
Definition CSR_SCAUSE : Z := 0x142.
Definition CSR_STVAL : Z := 0x143.
Definition CSR_VSSTATUS : Z := 0x200.
Definition CSR_VSTVEC : Z := 0x205.
Definition CSR_VSEPC : Z := 0x241.
Definition CSR_VSCAUSE : Z := 0x242.
Definition CSR_VSTVAL : Z := 0x243.
Definition CSR_HSTATUS : Z := 0x600.
Definition CSR_HTVAL : Z := 0x643.
Definition CSR_HTINST : Z := 0x64a.

(** struct sbi_trap_regs: the general registers in order, mepc and mstatus. *)
Record sbi_trap_regs : Type := TrapRegs {
  gprs : list Z;
  r_mepc : Z;
  r_mstatus : Z;
}.

Definition reg (i : nat) (r : sbi_trap_regs) : Z := default 0 (gprs r !! i).
Definition set_reg (i : nat) (v : Z) (r : sbi_trap_regs) : sbi_trap_regs :=
  TrapRegs (<[i := v]> (gprs r)) (r_mepc r) (r_mstatus r).
Definition set_mepc (v : Z) (r : sbi_trap_regs) : sbi_trap_regs := TrapRegs (gprs r) v (r_mstatus r).
Definition set_mstatus (v : Z) (r : sbi_trap_regs) : sbi_trap_regs := TrapRegs (gprs r) (r_mepc r) v.

Definition a0 := reg 10.
Definition a1 := reg 11.
Definition a2 := reg 12.
Definition a3 := reg 13.
Definition a4 := reg 14.
Definition a6 := reg 16.
Definition a7 := reg 17.

(** struct sbi_trap_info *)
Record sbi_trap_info : Type := TrapInfo {
  t_epc : Z;
  t_cause : Z;
  t_tval : Z;
  t_tval2 : Z;
  t_tinst : Z;
}.

Section Redirect.
Variable platform_misa_extension : Z → Z.

(** Whether the trap goes to VS-mode. *)
Definition redirect_virt (has_h prev_virt : bool) (cause : Z) : bool :=
  has_h && prev_virt &&
  ((cause =? CAUSE_FETCH_PAGE_FAULT) || (cause =? CAUSE_LOAD_PAGE_FAULT) || (cause =? CAUSE_STORE_PAGE_FAULT)).

(** [x &= ~mask] and [x |= c ? mask : 0] *)
Definition clear_bits (mask x : Z) : Z := Z.land x (not64 mask).
Definition or_if (c : bool) (mask x : Z) : Z := if c then Z.lor x mask else Z.lor x 0.

(** The SPP, SPIE and SIE updates, on vsstatus or on mstatus. *)
Definition enter_supervisor (prev_mode status : Z) : Z :=
  let st := clear_bits MSTATUS_SPP status in
  let st := if prev_mode =? PRV_S then Z.lor st (shl64 1 MSTATUS_SPP_SHIFT) else st in
  let st := clear_bits MSTATUS_SPIE st in
  let st := if truthy (Z.land st MSTATUS_SIE) then Z.lor st (shl64 1 MSTATUS_SPIE_SHIFT) else st in
  clear_bits MSTATUS_SIE st.

Definition set_mpp_s (status : Z) : Z :=
  Z.lor (clear_bits MSTATUS_MPP status) (shl64 PRV_S MSTATUS_MPP_SHIFT).

Definition sbi_trap_redirect (trap : sbi_trap_info) (r : sbi_trap_regs) : M csr_file (Z * sbi_trap_regs) :=
  (let prev_virt := truthy (Z.land (r_mstatus r) MSTATUS_MPV) in
   let prev_mode := shr64 (Z.land (r_mstatus r) MSTATUS_MPP) MSTATUS_MPP_SHIFT in
   if negb (prev_mode =? PRV_S) && negb (prev_mode =? PRV_U) then ret (SBI_ENOTSUPP, r)
   else
     has_h <- misa_extension platform_misa_extension 72 ;;
     let next_virt := redirect_virt has_h prev_virt (t_cause trap) in
     let r := set_mstatus (or_if next_virt MSTATUS_MPV (clear_bits MSTATUS_MPV (r_mstatus r))) r in
     (if has_h && prev_virt && negb next_virt then
        hstatus <- csr_read CSR_HSTATUS ;;
        let hstatus := or_if (prev_mode =? PRV_S) HSTATUS_SPVP (clear_bits HSTATUS_SPVP hstatus) in
        let hstatus := or_if prev_virt HSTATUS_SPV (clear_bits HSTATUS_SPV hstatus) in
        csr_write CSR_HSTATUS hstatus ;;;
        csr_write CSR_HTVAL (t_tval2 trap) ;;;
        csr_write CSR_HTINST (t_tinst trap)
      else ret tt) ;;;
     if next_virt then
       csr_write CSR_VSTVAL (t_tval trap) ;;;
       csr_write CSR_VSEPC (t_epc trap) ;;;
       csr_write CSR_VSCAUSE (t_cause trap) ;;;
       mepc <- csr_read CSR_VSTVEC ;;
       vsstatus <- csr_read CSR_VSSTATUS ;;
       csr_write CSR_VSSTATUS (enter_supervisor prev_mode vsstatus) ;;;
       ret (0, set_mstatus (set_mpp_s (r_mstatus r)) (set_mepc mepc r))
     else
       csr_write CSR_STVAL (t_tval trap) ;;;
       csr_write CSR_SEPC (t_epc trap) ;;;
       csr_write CSR_SCAUSE (t_cause trap) ;;;
       mepc <- csr_read CSR_STVEC ;;
       ret (0, set_mstatus (enter_supervisor prev_mode (set_mpp_s (r_mstatus r))) (set_mepc mepc r)))%sbi.

End Redirect.

(** ** Bits of the status registers *)

Lemma testbit_clear_bits x mask i :
  is_u64 mask -> 0 <= i < 64 -> Z.testbit (clear_bits mask x) i = Z.testbit x i && negb (Z.testbit mask i).
Proof. intros Hm Hi. unfold clear_bits. by rewrite Z.land_spec, testbit_not64. Qed.

Lemma enter_supervisor_bits prev_mode status i :
  0 <= i < 64 ->
  Z.testbit (enter_supervisor prev_mode status) i =
    if i =? 8 then prev_mode =? PRV_S
    else if i =? 5 then Z.testbit status 1
    else if i =? 1 then false
    else Z.testbit status i.
Proof.
  intros Hi. unfold enter_supervisor.
  set (st1 := if prev_mode =? PRV_S then _ else _).
  assert (H1 : forall j, 0 <= j < 64 -> Z.testbit st1 j = if j =? 8 then prev_mode =? PRV_S else Z.testbit status j).
  { intros j Hj. subst st1. change MSTATUS_SPP with (2 ^ 8). change (shl64 1 MSTATUS_SPP_SHIFT) with (2 ^ 8).
    destruct (prev_mode =? PRV_S); rewrite ?Z.lor_spec, testbit_clear_bits, Z.pow2_bits_eqb by (unfold is_u64; lia);
      rewrite (Z.eqb_sym 8 j); by destruct (j =? 8), (Z.testbit status j). }
  clearbody st1. set (st2 := clear_bits MSTATUS_SPIE st1).
  assert (H2 : forall j, 0 <= j < 64 -> Z.testbit st2 j =
    if j =? 5 then false else if j =? 8 then prev_mode =? PRV_S else Z.testbit status j).
  { intros j Hj. subst st2. change MSTATUS_SPIE with (2 ^ 5).
    rewrite testbit_clear_bits, Z.pow2_bits_eqb, H1 by (unfold is_u64; lia).
    rewrite (Z.eqb_sym 5 j). destruct (Z.eqb_spec j 5) as [->|]; [by rewrite andb_false_r|by rewrite andb_true_r]. }
  clearbody st2. assert (Hs : truthy (Z.land st2 MSTATUS_SIE) = Z.testbit status 1).
  { change MSTATUS_SIE with (2 ^ 1).
    replace (Z.testbit status 1) with (Z.testbit st2 1) by (by rewrite H2 by lia).
    destruct (Z.testbit st2 1) eqn:E.
    - apply truthy_true. intros H0. assert (Z.testbit (Z.land st2 (2 ^ 1)) 1 = true) as H'
        by (rewrite Z.land_spec, E; done). rewrite H0, Z.bits_0 in H'. discriminate.
    - apply truthy_false, testbit_zero_ext. intros j Hj. rewrite Z.land_spec, Z.bits_0, Z.pow2_bits_eqb by lia.
      destruct (Z.eqb_spec 1 j) as [<-|]; [by rewrite E|apply andb_false_r]. }
  rewrite Hs. change MSTATUS_SIE with (2 ^ 1). change (shl64 1 MSTATUS_SPIE_SHIFT) with (2 ^ 5).
  rewrite testbit_clear_bits, Z.pow2_bits_eqb, (Z.eqb_sym 1 i) by (unfold is_u64; lia).
  destruct (Z.testbit status 1) eqn:E1; rewrite ?Z.lor_spec, ?Z.pow2_bits_eqb, H2, ?(Z.eqb_sym 5 i) by lia;
    destruct (Z.eqb_spec i 8) as [->|]; [by destruct (prev_mode =? PRV_S)| |by destruct (prev_mode =? PRV_S)|];
    destruct (Z.eqb_spec i 5) as [->|]; try done; destruct (Z.eqb_spec i 1) as [->|]; cbn;
    rewrite ?andb_false_r, ?andb_true_r, ?orb_false_r; done.
Qed.

Lemma set_mpp_bits status i :
  0 <= i < 64 ->
  Z.testbit (set_mpp_s status) i = if i =? 11 then true else if i =? 12 then false else Z.testbit status i.
Proof.
  intros Hi. unfold set_mpp_s. change (shl64 PRV_S MSTATUS_MPP_SHIFT) with (2 ^ 11).
  rewrite Z.lor_spec, testbit_clear_bits, Z.pow2_bits_eqb by (unfold is_u64, MSTATUS_MPP; lia).
  change MSTATUS_MPP with (Z.shiftl (Z.ones 2) 11). rewrite Z.shiftl_spec by lia.
  destruct (Z.eqb_spec i 11) as [->|]; [cbn; by rewrite orb_true_r|].
  destruct (Z.eqb_spec i 12) as [->|]; [cbn; by rewrite andb_false_r|].
  replace (11 =? i) with false by (symmetry; apply Z.eqb_neq; lia). rewrite orb_false_r.
  destruct (Z.lt_ge_cases i 11); [rewrite (Z.testbit_neg_r _ (i - 11)) by lia|rewrite Z.ones_spec_high by lia];
    by rewrite andb_true_r.
Qed.

(** ** The redirected trap *)

Definition cval (c : csr_file) (r : Z) : Z := default 0 (c !! r).

(** The run of sbi_trap_redirect without the hypervisor extension. *)
Lemma trap_redirect_run (plat_misa : Z → Z) (trap : sbi_trap_info) (r : sbi_trap_regs)
    (c : csr_file) :
  is_u64 (r_mstatus r) ->
  misa_extension plat_misa 72 c = (Ret false, c) ->
  exists rc r' c', sbi_trap_redirect plat_misa trap r c = (Ret (rc, r'), c') /\
    let mode := Z.land (Z.shiftr (r_mstatus r) 11) 3 in
    ((mode <> PRV_S /\ mode <> PRV_U) -> rc = SBI_ENOTSUPP /\ r' = r /\ c' = c) /\
    (mode = PRV_S \/ mode = PRV_U ->
       rc = 0 /\ gprs r' = gprs r /\ r_mepc r' = cval c CSR_STVEC /\
       cval c' CSR_STVAL = t_tval trap /\ cval c' CSR_SEPC = t_epc trap /\ cval c' CSR_SCAUSE = t_cause trap /\
       (forall k, k <> CSR_STVAL -> k <> CSR_SEPC -> k <> CSR_SCAUSE -> c' !! k = c !! k) /\
       forall i, 0 <= i < 64 -> Z.testbit (r_mstatus r') i =
         if i =? 8 then mode =? PRV_S
         else if i =? 5 then Z.testbit (r_mstatus r) 1
         else if i =? 1 then false
         else if i =? 11 then true
         else if i =? 12 then false
         else if i =? 39 then false
         else Z.testbit (r_mstatus r) i).
Proof.
  intros Hu Hh. unfold sbi_trap_redirect.
  assert (Hmode : shr64 (Z.land (r_mstatus r) MSTATUS_MPP) MSTATUS_MPP_SHIFT = Z.land (Z.shiftr (r_mstatus r) 11) 3).
  { unfold shr64. change (MSTATUS_MPP_SHIFT mod 64) with 11. rewrite Z.shiftr_land. done. }
  cbv zeta. rewrite Hmode. set (mode := Z.land (Z.shiftr (r_mstatus r) 11) 3).
  destruct (negb (mode =? PRV_S) && negb (mode =? PRV_U)) eqn:Em.
  { zbool. exists SBI_ENOTSUPP, r, c. split; [done|]. split; [done|]. intros [?|?]; done. }
  assert (Hok : mode = PRV_S \/ mode = PRV_U).
  { apply andb_false_iff in Em as [Em|Em]; apply negb_false_iff, Z.eqb_eq in Em; auto. }
  rewrite (bind_Ret _ _ _ _ _ Hh). unfold redirect_virt. cbn [andb]. rewrite bind_ret_l.
  eexists _, _, _. split; [reflexivity|]. split; [intros [? ?]; by destruct Hok|]. intros _.
  cbn [gprs r_mepc r_mstatus set_mstatus set_mepc]. unfold cval.
  split; [done|]. split; [done|]. split; [by rewrite !lookup_insert_ne|].
  split; [rewrite 2!lookup_insert_ne by done; by rewrite lookup_insert_eq|].
  split; [rewrite lookup_insert_ne by done; by rewrite lookup_insert_eq|].
  split; [by rewrite lookup_insert_eq|]. split.
  - intros k H1 H2 H3. by rewrite !lookup_insert_ne.
  - intros i Hi. rewrite enter_supervisor_bits, !set_mpp_bits by lia. unfold or_if.
    rewrite !Z.lor_0_r. change MSTATUS_MPV with (2 ^ 39).
    rewrite !testbit_clear_bits, !Z.pow2_bits_eqb, (Z.eqb_sym 39 i) by (unfold is_u64; lia).
    destruct (i =? 8); [done|]. destruct (i =? 5); [cbn; by rewrite andb_true_r|].
    destruct (i =? 1), (i =? 11), (i =? 12); try done.
    destruct (i =? 39); [by rewrite andb_false_r|by rewrite andb_true_r].
Qed.

(** A trap redirected from S- or U-mode (with no hypervisor extension) is
    the trap the supervisor would have taken itself: it enters the vector of
    stvec in S-mode with the cause, value and pc of the trap in the supervisor's
    registers; the interrupted mode and interrupt enable are saved in SPP and
    SPIE, interrupts are off, and every other status bit and every general
    register is as the interrupted program left it.  A trap from M-mode is
    refused and nothing changes. *)
Theorem trap_redirect_enters_supervisor (plat_misa : Z → Z) (trap : sbi_trap_info) (r : sbi_trap_regs)
    (c : csr_file) :
  is_u64 (r_mstatus r) ->
  misa_extension plat_misa 72 c = (Ret false, c) ->
  exists rc r' c', sbi_trap_redirect plat_misa trap r c = (Ret (rc, r'), c') /\
    let mode := Z.land (Z.shiftr (r_mstatus r) 11) 3 in
    ((mode <> PRV_S /\ mode <> PRV_U) -> rc = SBI_ENOTSUPP /\ r' = r /\ c' = c) /\
    (mode = PRV_S \/ mode = PRV_U ->
       rc = 0 /\ gprs r' = gprs r /\ r_mepc r' = cval c CSR_STVEC /\
       cval c' CSR_STVAL = t_tval trap /\ cval c' CSR_SEPC = t_epc trap /\ cval c' CSR_SCAUSE = t_cause trap /\
       (forall k, k <> CSR_STVAL -> k <> CSR_SEPC -> k <> CSR_SCAUSE -> c' !! k = c !! k) /\
       forall i, 0 <= i < 64 -> Z.testbit (r_mstatus r') i =
         if i =? 8 then mode =? PRV_S
         else if i =? 5 then Z.testbit (r_mstatus r) 1
         else if i =? 1 then false
         else if i =? 11 then true
         else if i =? 12 then false
         else if i =? 39 then false
         else Z.testbit (r_mstatus r) i).
Proof. apply trap_redirect_run. Qed.

Lemma trap_redirect_enters_supervisor_witness :
  let r := TrapRegs (replicate 32 7) 0x80201000 0x802 in
  let c := (<[CSR_MISA := 0x8000000000000104]> (<[CSR_STVEC := 0xffff0000]> ∅)) : csr_file in
  exists rc r' c', sbi_trap_redirect (λ _, 0) (TrapInfo 0x80201000 2 0 0 0) r c = (Ret (rc, r'), c') /\
    let mode := Z.land (Z.shiftr (r_mstatus r) 11) 3 in
    ((mode <> PRV_S /\ mode <> PRV_U) -> rc = SBI_ENOTSUPP /\ r' = r /\ c' = c) /\
    (mode = PRV_S \/ mode = PRV_U ->
       rc = 0 /\ gprs r' = gprs r /\ r_mepc r' = cval c CSR_STVEC /\
       cval c' CSR_STVAL = 0 /\ cval c' CSR_SEPC = 0x80201000 /\ cval c' CSR_SCAUSE = 2 /\
       (forall k, k <> CSR_STVAL -> k <> CSR_SEPC -> k <> CSR_SCAUSE -> c' !! k = c !! k) /\
       forall i, 0 <= i < 64 -> Z.testbit (r_mstatus r') i =
         if i =? 8 then mode =? PRV_S
         else if i =? 5 then Z.testbit (r_mstatus r) 1
         else if i =? 1 then false
         else if i =? 11 then true
         else if i =? 12 then false
         else if i =? 39 then false
         else Z.testbit (r_mstatus r) i).
Proof.
  apply (trap_redirect_enters_supervisor (λ _, 0) (TrapInfo 0x80201000 2 0 0 0)
    (TrapRegs (replicate 32 7) 0x80201000 0x802)
    (<[CSR_MISA := 0x8000000000000104]> (<[CSR_STVEC := 0xffff0000]> ∅))).
  - unfold is_u64. cbn. lia.
  - vm_compute. reflexivity.
Defined.

(** ** Delivered traps *)

(** The supervisor finds the trap in its CSRs and starts at its vector. *)
Record delivered (trap : sbi_trap_info) (r r' : sbi_trap_regs) (c c' : csr_file) : Prop := {
  dl_gprs : gprs r' = gprs r;
  dl_pc : r_mepc r' = cval c CSR_STVEC;
  dl_cause : cval c' CSR_SCAUSE = t_cause trap;
  dl_tval : cval c' CSR_STVAL = t_tval trap;
  dl_epc : cval c' CSR_SEPC = t_epc trap;
  dl_mode : Z.land (Z.shiftr (r_mstatus r') 11) 3 = PRV_S;
  dl_frame : forall k, k <> CSR_STVAL -> k <> CSR_SEPC -> k <> CSR_SCAUSE -> c' !! k = c !! k;
}.

(** The trap was taken from S- or U-mode of a hart without the hypervisor
    extension. *)
Record redirectable (plat_misa : Z → Z) (r : sbi_trap_regs) (c : csr_file) : Prop := {
  rd_word : is_u64 (r_mstatus r);
  rd_no_h : misa_extension plat_misa 72 c = (Ret false, c);
  rd_mode : Z.land (Z.shiftr (r_mstatus r) 11) 3 = PRV_S \/ Z.land (Z.shiftr (r_mstatus r) 11) 3 = PRV_U;
}.

Lemma redirect_delivers plat_misa trap r c :
  redirectable plat_misa r c ->
  exists r' c', sbi_trap_redirect plat_misa trap r c = (Ret (0, r'), c') /\ delivered trap r r' c c'.
Proof.
  intros [Hu Hh Hm]. destruct (trap_redirect_run plat_misa trap r c Hu Hh) as (rc & r' & c' & E & _ & H).
  destruct (H Hm) as (-> & H1 & H2 & H3 & H4 & H5 & H6 & H7). exists r', c'. split; [done|].
  constructor; try done. apply Z.bits_inj'. intros i Hi. rewrite Z.land_spec, Z.shiftr_spec by lia.
  change 3 with (Z.ones 2). destruct (Z.lt_ge_cases i 2).
  - rewrite H7 by lia. assert (i = 0 \/ i = 1) as [->| ->] by lia; done.
  - rewrite Z.ones_spec_high, andb_false_r by lia. symmetry. apply Z.bits_above_log2; [done|]. cbn. lia.
Qed.
