(* ===== verification/Unpriv.v ===== *)
(** * Unprivileged accesses (lib/sbi/sbi_unpriv.c)

    Loads and stores the firmware makes with the privilege and translation of
    the interrupted mode, and the fetch of the instruction at [mepc].  A fault
    comes back as a value: the expected-trap handler of sbi_expected_trap.S
    records it and skips the access.  The asm blocks put mtvec and mstatus back;
    a fault also overwrites mepc, mcause and mtval, which no caller reads
    afterwards and which the model leaves alone.

    The theorem: the fetch returns the 16- or 32-bit little-endian parcel at
    [mepc], and a fault on it is reported as the fetch fault at [mepc],
    whatever the instruction register held before. *)

From Stdlib Require Import ZArith Lia.
From stdpp Require Import base tactics list gmap numbers.
From S2P Require Import Prelude SbiDefs Bitops Csr Hart Machine Trap.

Definition CAUSE_FETCH_ACCESS : Z := 0x1.
Definition CAUSE_ILLEGAL_INSTRUCTION : Z := 0x2.
Definition CAUSE_MISALIGNED_LOAD : Z := 0x4.
Definition CAUSE_LOAD_ACCESS : Z := 0x5.
Definition CAUSE_MISALIGNED_STORE : Z := 0x6.
Definition CAUSE_STORE_ACCESS : Z := 0x7.

(** ** Bytes *)

Definition byte_at (u : user_view) (a : Z) : Z := default 0 (u_bytes u !! a).

(** The [n] bytes from [a] on, least significant first, as a number. *)
Fixpoint le_value (u : user_view) (n : nat) (a : Z) : Z :=
  match n with
  | O => 0
  | S n' => byte_at u a + 256 * le_value u n' (add64 a 1)
  end.

(** The low [n] bytes of [v], from [a] on. *)
Fixpoint put_bytes (n : nat) (a v : Z) (bs : gmap Z Z) : gmap Z Z :=
  match n with
  | O => bs
  | S n' => put_bytes n' (add64 a 1) (v / 256) (<[a := v mod 256]> bs)
  end.

Definition set_bytes (bs : gmap Z Z) (u : user_view) : user_view :=
  UserView bs (u_load_fault u) (u_store_fault u) (u_fregs u).

(** The fault a load or store raises; cause 0 in the trap info means none. *)
Definition real_fault (f : option access_fault) : option access_fault :=
  match f with Some f' => if truthy (f_cause f') then Some f' else None | None => None end.

(** What the load instruction of [n] bytes at [a] delivers. *)
Definition load_insn (u : user_view) (mxr : bool) (n : nat) (a : Z) : Z + access_fault :=
  match real_fault (u_load_fault u mxr a (Z.of_nat n)) with
  | Some f => inr f
  | None => inl (le_value u n a)
  end.

Definition store_insn (u : user_view) (n : nat) (a v : Z) : user_view + access_fault :=
  match real_fault (u_store_fault u a (Z.of_nat n)) with
  | Some f => inr f
  | None => inl (set_bytes (put_bytes n a v (u_bytes u)) u)
  end.

(** ** The access functions *)

Definition sign_extend (w x : Z) : Z := if x <? 2 ^ (w - 1) then x else x - 2 ^ w.

Definition unpriv_load (n : nat) (addr : Z) : M machine (Z + access_fault) :=
  gets (λ m, load_insn (m_umem m) false n addr).

Definition unpriv_load_signed (n : nat) (addr : Z) : M machine (Z + access_fault) :=
  gets (λ m, match load_insn (m_umem m) false n addr with
             | inl v => inl (sign_extend (8 * Z.of_nat n) v)
             | inr f => inr f
             end).

Definition unpriv_store (n : nat) (addr val : Z) : M machine (option access_fault) :=
  λ m, match store_insn (m_umem m) n addr val with
       | inl u => (Ret None, set_umem u m)
       | inr f => (Ret (Some f), m)
       end.

Definition sbi_load_u8 := unpriv_load 1.
Definition sbi_load_u16 := unpriv_load 2.
Definition sbi_load_s8 := unpriv_load_signed 1.
Definition sbi_load_s16 := unpriv_load_signed 2.
Definition sbi_load_s32 := unpriv_load_signed 4.
Definition sbi_store_u8 := unpriv_store 1.
Definition sbi_store_u16 := unpriv_store 2.
Definition sbi_store_u32 := unpriv_store 4.
Definition sbi_load_u32 := unpriv_load 4.
Definition sbi_load_u64 := unpriv_load 8.
Definition sbi_store_u64 := unpriv_store 8.
Definition sbi_load_ulong := unpriv_load 8.

(** ** The trapped instruction *)

(** The load faults of a fetch, as fetch faults at [mepc]. *)
Definition fetch_fault (mepc : Z) (f : access_fault) : access_fault :=
  if f_cause f =? CAUSE_LOAD_ACCESS then Fault CAUSE_FETCH_ACCESS mepc (f_tval2 f) (f_tinst f)
  else if f_cause f =? CAUSE_LOAD_PAGE_FAULT then Fault CAUSE_FETCH_PAGE_FAULT mepc (f_tval2 f) (f_tinst f)
  else if f_cause f =? CAUSE_LOAD_GUEST_PAGE_FAULT then
    Fault CAUSE_FETCH_GUEST_PAGE_FAULT mepc (f_tval2 f) (f_tinst f)
  else f.

(** The asm block: [junk] is what the register of [insn] holds before, which a
    skipped load leaves there. *)
Definition get_insn_asm (u : user_view) (junk mepc : Z) : Z * option access_fault :=
  let '(insn, trap) := match load_insn u true 2 mepc with
                       | inl v => (v, None)
                       | inr f => (junk, Some f)
                       end in
  if Z.land insn 3 - 3 =? 0 then
    match load_insn u true 2 (add64 mepc 2) with
    | inl v => (add64 insn (shl64 v 16), trap)
    | inr f => (insn, Some f)
    end
  else (insn, trap).

Definition sbi_get_insn (junk mepc : Z) : M machine (Z * option access_fault) :=
  gets (λ m, let '(insn, trap) := get_insn_asm (m_umem m) junk mepc in (insn, fetch_fault mepc <$> trap)).

(** ** Redirection from a handler *)

Section Redirection.
Context (pl : sbi_platform_operations) (cur : Z).

(** sbi_trap_redirect on the hart that runs the handler. *)
Definition trap_redirect (trap : sbi_trap_info) (r : sbi_trap_regs) : M machine (Z * sbi_trap_regs) :=
  on_hart cur (hart_csr (sbi_trap_redirect (sbi_platform_misa_extension pl) trap r)).

(** [uptrap.epc = regs->mepc; return sbi_trap_redirect(regs, &uptrap);] *)
Definition redirect_fault (f : access_fault) (r : sbi_trap_regs) : M machine (Z * sbi_trap_regs) :=
  trap_redirect (TrapInfo (r_mepc r) (f_cause f) (f_tval f) (f_tval2 f) (f_tinst f)) r.

End Redirection.

(** ** Lemmas on bytes *)

(** Every byte of the memory is one. *)
Definition bytes_wf (u : user_view) : Prop := forall a v, u_bytes u !! a = Some v -> 0 <= v < 256.

Lemma byte_at_range u a : bytes_wf u -> 0 <= byte_at u a < 256.
Proof. intros W. unfold byte_at. destruct (u_bytes u !! a) eqn:E; cbn; [by apply W in E|lia]. Qed.

Lemma pow256 n : 0 <= n -> 256 ^ n = 2 ^ (8 * n).
Proof. intros H. change 256 with (2 ^ 8). rewrite <- Z.pow_mul_r by lia. done. Qed.

Lemma le_value_range u n a : bytes_wf u -> 0 <= le_value u n a < 256 ^ Z.of_nat n.
Proof.
  intros W. revert a. induction n as [|n IH]; intros a; cbn [le_value]; [cbn; lia|].
  rewrite Nat2Z.inj_succ, Z.pow_succ_r by lia. pose proof (byte_at_range u a W).
  specialize (IH (add64 a 1)). lia.
Qed.

(** The most significant byte last. *)
Lemma le_value_snoc u n a :
  is_u64 a -> le_value u (S n) a = le_value u n a + 256 ^ Z.of_nat n * byte_at u (add64 a (Z.of_nat n)).
Proof.
  revert a. induction n as [|n IH]; intros a Ha.
  - cbn [le_value]. change (Z.of_nat 0) with 0. rewrite add64_0 by done. cbn. lia.
  - change (le_value u (S (S n)) a) with (byte_at u a + 256 * le_value u (S n) (add64 a 1)).
    rewrite IH by apply u64_range. rewrite add64_assoc.
    change (le_value u (S n) a) with (byte_at u a + 256 * le_value u n (add64 a 1)).
    replace (1 + Z.of_nat n) with (Z.of_nat (S n)) by lia.
    rewrite (Nat2Z.inj_succ n) at 2. rewrite Z.pow_succ_r by lia. lia.
Qed.

Lemma put_bytes_snoc n a v bs :
  is_u64 a ->
  put_bytes (S n) a v bs = <[add64 a (Z.of_nat n) := v / 256 ^ Z.of_nat n mod 256]> (put_bytes n a v bs).
Proof.
  revert a v bs. induction n as [|n IH]; intros a v bs Ha.
  - cbn [put_bytes]. change (Z.of_nat 0) with 0. rewrite add64_0 by done. by rewrite Z.pow_0_r, Z.div_1_r.
  - change (put_bytes (S (S n)) a v bs) with (put_bytes (S n) (add64 a 1) (v / 256) (<[a := v mod 256]> bs)).
    rewrite IH by apply u64_range. rewrite add64_assoc. rewrite Nat2Z.inj_succ.
    replace (1 + Z.of_nat n) with (Z.succ (Z.of_nat n)) by lia.
    rewrite Z.pow_succ_r, <- Z.div_div by lia. done.
Qed.

(** Fewer than [2 ^ 64] consecutive addresses are distinct. *)
Lemma add64_distinct a x y :
  0 <= x < 2 ^ 64 -> 0 <= y < 2 ^ 64 -> add64 a x = add64 a y -> x = y.
Proof.
  unfold add64, u64. intros Hx Hy E. apply (f_equal (λ z, (z - a) mod 2 ^ 64)) in E.
  rewrite !Zminus_mod_idemp_l in E. replace (a + x - a) with x in E by lia.
  replace (a + y - a) with y in E by lia. by rewrite !Z.mod_small in E.
Qed.

Lemma put_bytes_other n a v bs b :
  is_u64 a -> (forall i, 0 <= i < Z.of_nat n -> b <> add64 a i) -> put_bytes n a v bs !! b = bs !! b.
Proof.
  intros Ha. induction n as [|n IH]; intros Hb; [done|].
  rewrite put_bytes_snoc by done. rewrite lookup_insert_ne; [|intros E; apply (Hb (Z.of_nat n)); [lia|done]].
  apply IH. intros i Hi. apply Hb. lia.
Qed.

Lemma put_bytes_lookup n a v bs i :
  is_u64 a -> Z.of_nat n <= 2 ^ 64 -> 0 <= i < Z.of_nat n ->
  put_bytes n a v bs !! add64 a i = Some (v / 256 ^ i mod 256).
Proof.
  intros Ha. induction n as [|n IH]; intros Hn Hi; [lia|]. rewrite put_bytes_snoc by done.
  destruct (Z.eq_dec i (Z.of_nat n)) as [->|Hne]; [by rewrite lookup_insert_eq|].
  rewrite lookup_insert_ne; [apply IH; lia|].
  intros E. apply add64_distinct in E; lia.
Qed.

Lemma le_value_ext u u' n a :
  is_u64 a -> (forall i, 0 <= i < Z.of_nat n -> byte_at u (add64 a i) = byte_at u' (add64 a i)) ->
  le_value u n a = le_value u' n a.
Proof.
  intros Ha. induction n as [|n IH]; intros H; [done|]. rewrite !le_value_snoc by done.
  rewrite H by lia. rewrite IH; [done|]. intros i Hi. apply H. lia.
Qed.

(** What was stored is what is loaded. *)
Lemma le_value_put_bytes u n a v :
  is_u64 a -> Z.of_nat n <= 2 ^ 64 ->
  le_value (set_bytes (put_bytes n a v (u_bytes u)) u) n a = v mod 256 ^ Z.of_nat n.
Proof.
  intros Ha Hn.
  assert (G : forall k, (k <= n)%nat ->
    le_value (set_bytes (put_bytes n a v (u_bytes u)) u) k a = v mod 256 ^ Z.of_nat k); [|by apply G].
  induction k as [|k IH]; intros Hk; [cbn; by rewrite Z.mod_1_r|].
  rewrite le_value_snoc, IH by (done || lia). unfold byte_at. cbn [set_bytes u_bytes].
  rewrite put_bytes_lookup by (done || lia). cbn [default].
  rewrite Nat2Z.inj_succ, Z.pow_succ_r, (Z.mul_comm 256) by lia.
  rewrite Z.rem_mul_r by (try apply Z.pow_nonzero; lia). done.
Qed.

Lemma put_bytes_wf u n a v : bytes_wf u -> bytes_wf (set_bytes (put_bytes n a v (u_bytes u)) u).
Proof.
  intros W. unfold bytes_wf. cbn [set_bytes u_bytes]. assert (G : forall bs, map_Forall (λ _ x, 0 <= x < 256) bs ->
    map_Forall (λ _ x, 0 <= x < 256) (put_bytes n a v bs)).
  { clear W. revert a v. induction n as [|n IH]; intros a v bs H; cbn; [done|]. apply IH.
    apply map_Forall_insert_2; [apply Z.mod_pos_bound; lia|done]. }
  intros b x. apply G. intros b' x'. apply W.
Qed.

(** ** The fetch *)

(** The instruction parcel at [a]: 32 bits when its two low bits are set. *)
Definition parcel (u : user_view) (a : Z) : Z :=
  if Z.land (le_value u 2 a) 3 =? 3 then le_value u 4 a else le_value u 2 a.

Lemma le_value_4 u a : is_u64 a -> le_value u 4 a = le_value u 2 a + 65536 * le_value u 2 (add64 a 2).
Proof.
  intros Ha. cbn [le_value]. rewrite !add64_assoc.
  change (1 + (1 + 1)) with 3. change (1 + 1) with 2. change (1 + 2) with 3. change (2 + 1) with 3. lia.
Qed.

Lemma get_insn_reads u junk mepc :
  bytes_wf u -> is_u64 mepc ->
  real_fault (u_load_fault u true mepc 2) = None ->
  (Z.land (le_value u 2 mepc) 3 = 3 -> real_fault (u_load_fault u true (add64 mepc 2) 2) = None) ->
  get_insn_asm u junk mepc = (parcel u mepc, None).
Proof.
  intros W Ha H1 H2. unfold get_insn_asm, load_insn, parcel. change (Z.of_nat 2) with 2. rewrite H1.
  pose proof (le_value_range u 2 mepc W). pose proof (le_value_range u 2 (add64 mepc 2) W).
  change (256 ^ Z.of_nat 2) with 65536 in *.
  destruct (Z.eqb_spec (Z.land (le_value u 2 mepc) 3) 3) as [E|E].
  - rewrite E. cbn [Z.sub Z.eqb Z.add Z.opp Z.pos_sub Pos.eqb]. rewrite H2 by done. rewrite le_value_4 by done. f_equal.
    generalize dependent (le_value u 2 (add64 mepc 2)). intros hi Hhi.
    unfold add64, shl64. change (16 mod 64) with 16. rewrite Z.shiftl_mul_pow2 by lia.
    rewrite (u64_small (hi * 2 ^ 16)), u64_small by (unfold is_u64; lia). lia.
  - rewrite (proj2 (Z.eqb_neq (Z.land (le_value u 2 mepc) 3 - 3) 0)) by lia. done.
Qed.

(** A fault on the first half is the fault of the fetch, whatever [junk] makes
    of the second half, as long as that does not fault in another way. *)
Lemma get_insn_faults u junk mepc f :
  load_insn u true 2 mepc = inr f ->
  (forall f', load_insn u true 2 (add64 mepc 2) = inr f' -> fetch_fault mepc f' = fetch_fault mepc f) ->
  fetch_fault mepc <$> snd (get_insn_asm u junk mepc) = Some (fetch_fault mepc f).
Proof.
  intros H1 H2. unfold get_insn_asm. rewrite H1. case_if; [|done].
  destruct (load_insn u true 2 (add64 mepc 2)) as [v|f'] eqn:E2; cbn; [done|]. f_equal. by apply H2.
Qed.

(** ** Redirection delivers the trap *)

Lemma trap_redirect_delivers pl cur trap r m d :
  hart m cur = Some d -> redirectable (sbi_platform_misa_extension pl) r (hd_csrs d) ->
  exists r' c', trap_redirect pl cur trap r m = (Ret (0, r'), put_hart cur (hd_set_csrs c' d) m) /\
    delivered trap r r' (hd_csrs d) c'.
Proof.
  intros Hd Hr. destruct (redirect_delivers _ trap r (hd_csrs d) Hr) as (r' & c' & E & D).
  exists r', c'. split; [|done]. unfold trap_redirect. rewrite (on_hart_run _ _ _ _ Hd).
  unfold hart_csr, zoom. rewrite E. done.
Qed.
