(* ===== verification/Misaligned.v ===== *)
(** * Emulation of misaligned accesses (lib/sbi/sbi_misaligned_ldst.c)

    The handlers decode the trapped load or store, make the access byte by byte
    with the privilege of the interrupted mode, and step over the instruction.

    The theorems: the decoder is the RISC-V load and store tables (integer,
    floating point and compressed), but for the compressed stack stores with a
    zero in the bits of a load's destination; a load delivers the sign- or
    zero-extended little-endian value to its destination register; a store
    followed by a load gives the value back; a fault on a byte is handed to the
    supervisor and the instruction is not stepped over. *)

From Stdlib Require Import ZArith Lia.
From stdpp Require Import base tactics list gmap numbers.
From S2P Require Import Prelude SbiDefs Bitops Csr Hart Pmu Machine Tlb Ipi Timer Trap Unpriv.

(** ** Instruction words (include/sbi/riscv_encoding.h) *)

Definition INSN_MATCH_LH : Z := 0x1003.
Definition INSN_MATCH_LW : Z := 0x2003.
Definition INSN_MATCH_LD : Z := 0x3003.
Definition INSN_MATCH_LHU : Z := 0x5003.
Definition INSN_MATCH_LWU : Z := 0x6003.
Definition INSN_MATCH_SH : Z := 0x1023.
Definition INSN_MATCH_SW : Z := 0x2023.
Definition INSN_MATCH_SD : Z := 0x3023.
Definition INSN_MATCH_FLW : Z := 0x2007.
Definition INSN_MATCH_FLD : Z := 0x3007.
Definition INSN_MATCH_FSW : Z := 0x2027.
Definition INSN_MATCH_FSD : Z := 0x3027.
Definition INSN_MATCH_C_LD : Z := 0x6000.
Definition INSN_MATCH_C_SD : Z := 0xe000.
Definition INSN_MATCH_C_LW : Z := 0x4000.
Definition INSN_MATCH_C_SW : Z := 0xc000.
Definition INSN_MATCH_C_LDSP : Z := 0x6002.
Definition INSN_MATCH_C_SDSP : Z := 0xe002.
Definition INSN_MATCH_C_LWSP : Z := 0x4002.
Definition INSN_MATCH_C_SWSP : Z := 0xc002.
Definition INSN_MATCH_C_FLD : Z := 0x2000.
Definition INSN_MATCH_C_FSD : Z := 0xa000.
Definition INSN_MATCH_C_FLDSP : Z := 0x2002.
Definition INSN_MATCH_C_FSDSP : Z := 0xa002.

(** INSN_MASK_LH and the other 32-bit loads and stores; INSN_MASK_C_LD and the
    other compressed ones. *)
Definition INSN_MASK_LDST : Z := 0x707f.
Definition INSN_MASK_C_LDST : Z := 0xe003.
Definition INSN_16BIT_MASK : Z := 0x3.

Definition INSN_IS_16BIT (insn : Z) : bool := negb (Z.land insn INSN_16BIT_MASK =? INSN_16BIT_MASK).
Definition INSN_LEN (insn : Z) : Z := if INSN_IS_16BIT insn then 2 else 4.

Definition LOG_REGBYTES : Z := 3.
Definition SH_RD : Z := 7.
Definition SH_RS1 : Z := 15.
Definition SH_RS2 : Z := 20.
Definition SH_RS2C : Z := 2.

Definition RV_X (x s n : Z) : Z := Z.land (shr64 x s) (Z.shiftl 1 n - 1).
Definition RVC_RS2S (insn : Z) : Z := 8 + RV_X insn SH_RS2C 3.

Definition SHIFT_RIGHT (x y : Z) : Z := if y <? 0 then shl64 x (- y) else shr64 x y.
Definition REG_MASK : Z := Z.shiftl 1 (5 + LOG_REGBYTES) - Z.shiftl 1 LOG_REGBYTES.
Definition REG_OFFSET (insn pos : Z) : Z := Z.land (SHIFT_RIGHT insn (pos - LOG_REGBYTES)) REG_MASK.

(** [*REG_PTR(insn, pos, regs)]: the general registers head the structure, eight
    bytes each. *)
Definition REG_INDEX (insn pos : Z) : nat := Z.to_nat (REG_OFFSET insn pos / 8).

Definition GET_RM (insn : Z) : Z := Z.land (shr64 insn 12) 7.
Definition GET_RS1 (insn : Z) (r : sbi_trap_regs) : Z := reg (REG_INDEX insn SH_RS1) r.
Definition GET_RS2 (insn : Z) (r : sbi_trap_regs) : Z := reg (REG_INDEX insn SH_RS2) r.
Definition GET_RS2S (insn : Z) (r : sbi_trap_regs) : Z := reg (REG_INDEX (RVC_RS2S insn) 0) r.
Definition GET_RS2C (insn : Z) (r : sbi_trap_regs) : Z := reg (REG_INDEX insn SH_RS2C) r.
Definition SET_RD (insn val : Z) (r : sbi_trap_regs) : sbi_trap_regs := set_reg (REG_INDEX insn SH_RD) val r.

(** ** Floating-point registers (include/sbi/riscv_fp.h) *)

Definition freg (u : user_view) (cur : Z) (i : nat) : Z := default 0 (u_fregs u !! (cur, Z.of_nat i)).
Definition set_freg (cur : Z) (i : nat) (v : Z) (u : user_view) : user_view :=
  UserView (u_bytes u) (u_load_fault u) (u_store_fault u) (<[(cur, Z.of_nat i) := v]> (u_fregs u)).

(** The table of get_f64_reg, put_f64_reg and the like has 8 bytes an entry. *)
Definition FREG_INDEX (insn pos : Z) : nat := Z.to_nat (Z.land (SHIFT_RIGHT insn (pos - 3)) 0xf8 / 8).

Definition GET_F64_REG (cur insn pos : Z) (u : user_view) : Z := freg u cur (FREG_INDEX insn pos).

(** fmv.x.w: the low half, sign-extended. *)
Definition GET_F32_REG (cur insn pos : Z) (u : user_view) : Z := u64 (s32 (freg u cur (FREG_INDEX insn pos))).

Definition SET_F64_REG (cur insn pos val : Z) (u : user_view) : user_view :=
  set_freg cur (FREG_INDEX insn pos) val u.

(** fmv.w.x: the low half of the register; the upper half becomes all ones. *)
Definition SET_F32_REG (cur insn pos val : Z) (u : user_view) : user_view :=
  set_freg cur (FREG_INDEX insn pos) (2 ^ 64 - 2 ^ 32 + u32 val) u.

(** ** Decoding *)

Definition insn_is (insn mask matched : Z) : bool := Z.land insn mask =? matched.

(** What the [if] chain of the load handler leaves in [fp], [shift], [len] and
    [insn]; [None] is the final [else]. *)
Record load_shape : Type := LoadShape {
  ls_fp : bool;
  ls_shift : Z;
  ls_len : Z;
  ls_insn : Z;
}.

(** [8 * (sizeof(ulong) - len)] *)
Definition sign_shift (len : Z) : Z := 8 * (8 - len).

Definition decode_load (insn : Z) : option load_shape :=
  let rd_used := truthy (Z.land (shr64 insn SH_RD) 0x1f) in
  let rvc_rd := shl64 (RVC_RS2S insn) SH_RD in
  if insn_is insn INSN_MASK_LDST INSN_MATCH_LW then Some (LoadShape false (sign_shift 4) 4 insn)
  else if insn_is insn INSN_MASK_LDST INSN_MATCH_LD then Some (LoadShape false (sign_shift 8) 8 insn)
  else if insn_is insn INSN_MASK_LDST INSN_MATCH_LWU then Some (LoadShape false 0 4 insn)
  else if insn_is insn INSN_MASK_LDST INSN_MATCH_FLD then Some (LoadShape true 0 8 insn)
  else if insn_is insn INSN_MASK_LDST INSN_MATCH_FLW then Some (LoadShape true 0 4 insn)
  else if insn_is insn INSN_MASK_LDST INSN_MATCH_LH then Some (LoadShape false (sign_shift 2) 2 insn)
  else if insn_is insn INSN_MASK_LDST INSN_MATCH_LHU then Some (LoadShape false 0 2 insn)
  else if insn_is insn INSN_MASK_C_LDST INSN_MATCH_C_LD then Some (LoadShape false (sign_shift 8) 8 rvc_rd)
  else if insn_is insn INSN_MASK_C_LDST INSN_MATCH_C_LDSP && rd_used then
    Some (LoadShape false (sign_shift 8) 8 insn)
  else if insn_is insn INSN_MASK_C_LDST INSN_MATCH_C_LW then Some (LoadShape false (sign_shift 4) 4 rvc_rd)
  else if insn_is insn INSN_MASK_C_LDST INSN_MATCH_C_LWSP && rd_used then
    Some (LoadShape false (sign_shift 4) 4 insn)
  else if insn_is insn INSN_MASK_C_LDST INSN_MATCH_C_FLD then Some (LoadShape true 0 8 rvc_rd)
  else if insn_is insn INSN_MASK_C_LDST INSN_MATCH_C_FLDSP then Some (LoadShape true 0 8 insn)
  else None.

(** The [if] chain of the store handler: the length and the value. *)
Definition decode_store (cur insn : Z) (r : sbi_trap_regs) (u : user_view) : option (Z * Z) :=
  let rd_used := truthy (Z.land (shr64 insn SH_RD) 0x1f) in
  let val := GET_RS2 insn r in
  if insn_is insn INSN_MASK_LDST INSN_MATCH_SW then Some (4, val)
  else if insn_is insn INSN_MASK_LDST INSN_MATCH_SD then Some (8, val)
  else if insn_is insn INSN_MASK_LDST INSN_MATCH_FSD then Some (8, GET_F64_REG cur insn 20 u)
  else if insn_is insn INSN_MASK_LDST INSN_MATCH_FSW then Some (4, GET_F32_REG cur insn 20 u)
  else if insn_is insn INSN_MASK_LDST INSN_MATCH_SH then Some (2, val)
  else if insn_is insn INSN_MASK_C_LDST INSN_MATCH_C_SD then Some (8, GET_RS2S insn r)
  else if insn_is insn INSN_MASK_C_LDST INSN_MATCH_C_SDSP && rd_used then Some (8, GET_RS2C insn r)
  else if insn_is insn INSN_MASK_C_LDST INSN_MATCH_C_SW then Some (4, GET_RS2S insn r)
  else if insn_is insn INSN_MASK_C_LDST INSN_MATCH_C_SWSP && rd_used then Some (4, GET_RS2C insn r)
  else if insn_is insn INSN_MASK_C_LDST INSN_MATCH_C_FSD then Some (8, GET_F64_REG cur (RVC_RS2S insn) 0 u)
  else if insn_is insn INSN_MASK_C_LDST INSN_MATCH_C_FSDSP then Some (8, GET_F64_REG cur insn 2 u)
  else None.

(** ** The handlers *)

Definition SBI_PMU_FW_MISALIGNED_LOAD : Z := 0.
Definition SBI_PMU_FW_MISALIGNED_STORE : Z := 1.

(** [val.data_bytes[i] = b] on the union seen as a word. *)
Definition set_byte (i b val : Z) : Z :=
  Z.lor (Z.land val (not64 (shl64 0xff (8 * i)))) (shl64 b (8 * i)).

(** [val.data_bytes[i]] *)
Definition get_byte (i val : Z) : Z := Z.land (shr64 val (8 * i)) 0xff.

(** [((long)(val << shift)) >> shift] *)
Definition extend (shift val : Z) : Z := u64 (Z.shiftr (sign_extend 64 (shl64 val shift)) shift).

Section Handlers.
Context (pl : sbi_platform_operations) (cur junk : Z).

(** The instruction and its length: from [tinst] when it holds a transformed
    instruction, else from memory. *)
Definition trapped_insn (tinst : Z) (r : sbi_trap_regs) : M machine (Z * Z + access_fault) :=
  (if truthy (Z.land tinst 1) then
     let insn := Z.lor tinst INSN_16BIT_MASK in
     ret (inl (insn, if truthy (Z.land tinst 2) then INSN_LEN insn else 2))
   else
     p <- sbi_get_insn junk (r_mepc r) ;;
     match snd p with
     | Some f => ret (inr f)
     | None => ret (inl (fst p, INSN_LEN (fst p)))
     end)%sbi.

(** The loop from byte [i] on, [n] bytes to go. *)
Fixpoint load_loop (n : nat) (i addr val : Z) : M machine (Z + access_fault) :=
  match n with
  | O => ret (inl val)
  | S n' =>
      (w <- sbi_load_u8 (add64 addr i) ;;
       match w with
       | inl b => load_loop n' (i + 1) addr (set_byte i b val)
       | inr f => ret (inr f)
       end)%sbi
  end.

Fixpoint store_loop (n : nat) (i addr val : Z) : M machine (option access_fault) :=
  match n with
  | O => ret None
  | S n' =>
      (w <- sbi_store_u8 (add64 addr i) (get_byte i val) ;;
       match w with
       | None => store_loop n' (i + 1) addr val
       | Some f => ret (Some f)
       end)%sbi
  end.

(** The destination of a load. *)
Definition write_back (s : load_shape) (val : Z) (r : sbi_trap_regs) : M machine sbi_trap_regs :=
  (if negb (ls_fp s) then ret (SET_RD (ls_insn s) (extend (ls_shift s) val) r)
   else if ls_len s =? 8 then
     modify (λ m, set_umem (SET_F64_REG cur (ls_insn s) 7 val (m_umem m)) m) ;;; ret r
   else
     modify (λ m, set_umem (SET_F32_REG cur (ls_insn s) 7 val (m_umem m)) m) ;;; ret r)%sbi.

Definition sbi_misaligned_load_handler (addr tval2 tinst : Z) (r : sbi_trap_regs)
    : M machine (Z * sbi_trap_regs) :=
  (count_fw cur SBI_PMU_FW_MISALIGNED_LOAD ;;;
   t <- trapped_insn tinst r ;;
   match t with
   | inr f => redirect_fault pl cur f r
   | inl (insn, insn_len) =>
       match decode_load insn with
       | None => redirect_fault pl cur (Fault CAUSE_MISALIGNED_LOAD addr tval2 tinst) r
       | Some s =>
           w <- load_loop (Z.to_nat (ls_len s)) 0 addr 0 ;;
           match w with
           | inr f => redirect_fault pl cur f r
           | inl val =>
               r' <- write_back s val r ;;
               ret (0, set_mepc (add64 (r_mepc r') insn_len) r')
           end
       end
   end)%sbi.

Definition sbi_misaligned_store_handler (addr tval2 tinst : Z) (r : sbi_trap_regs)
    : M machine (Z * sbi_trap_regs) :=
  (count_fw cur SBI_PMU_FW_MISALIGNED_STORE ;;;
   t <- trapped_insn tinst r ;;
   match t with
   | inr f => redirect_fault pl cur f r
   | inl (insn, insn_len) =>
       u <- gets m_umem ;;
       match decode_store cur insn r u with
       | None => redirect_fault pl cur (Fault CAUSE_MISALIGNED_STORE addr tval2 tinst) r
       | Some (len, val) =>
           w <- store_loop (Z.to_nat len) 0 addr val ;;
           match w with
           | Some f => redirect_fault pl cur f r
           | None => ret (0, set_mepc (add64 (r_mepc r) insn_len) r)
           end
       end
   end)%sbi.

End Handlers.

(** ** The loads and stores of the instruction set

    The tables of the RISC-V manual, on the fields of the instruction. *)

(** Bits [lo] to [lo + n - 1]. *)
Definition field (insn lo n : Z) : Z := insn / 2 ^ lo mod 2 ^ n.

Inductive register : Type :=
| X (i : nat)
| F (i : nat).

Record isa_access : Type := IsaAccess {
  ia_reg : register;
  ia_bytes : Z;
  ia_signed : bool;
}.

Definition OP_LOAD : Z := 3.
Definition OP_LOAD_FP : Z := 7.
Definition OP_STORE : Z := 35.
Definition OP_STORE_FP : Z := 39.

(** The loads of more than one byte. *)
Definition isa_load (insn : Z) : option isa_access :=
  let op := field insn 0 7 in
  let f3 := field insn 12 3 in
  let rd := Z.to_nat (field insn 7 5) in
  let c3 := field insn 13 3 in
  let rd' := Z.to_nat (8 + field insn 2 3) in
  match field insn 0 2 with
  | 3 =>
      if op =? OP_LOAD then
        if (1 <=? f3) && (f3 <=? 3) then Some (IsaAccess (X rd) (2 ^ f3) true)
        else if (f3 =? 5) || (f3 =? 6) then Some (IsaAccess (X rd) (2 ^ (f3 - 4)) false)
        else None
      else if (op =? OP_LOAD_FP) && ((f3 =? 2) || (f3 =? 3)) then Some (IsaAccess (F rd) (2 ^ f3) false)
      else None
  | 0 =>
      match c3 with
      | 1 => Some (IsaAccess (F rd') 8 false)
      | 2 => Some (IsaAccess (X rd') 4 true)
      | 3 => Some (IsaAccess (X rd') 8 true)
      | _ => None
      end
  | 2 =>
      match c3 with
      | 1 => Some (IsaAccess (F rd) 8 false)
      | 2 => if field insn 7 5 =? 0 then None else Some (IsaAccess (X rd) 4 true)
      | 3 => if field insn 7 5 =? 0 then None else Some (IsaAccess (X rd) 8 true)
      | _ => None
      end
  | _ => None
  end.

(** The stores of more than one byte. *)
Definition isa_store (insn : Z) : option isa_access :=
  let op := field insn 0 7 in
  let f3 := field insn 12 3 in
  let rs2 := Z.to_nat (field insn 20 5) in
  let c3 := field insn 13 3 in
  let rs2' := Z.to_nat (8 + field insn 2 3) in
  let rs2c := Z.to_nat (field insn 2 5) in
  match field insn 0 2 with
  | 3 =>
      if (op =? OP_STORE) && ((1 <=? f3) && (f3 <=? 3)) then Some (IsaAccess (X rs2) (2 ^ f3) false)
      else if (op =? OP_STORE_FP) && ((f3 =? 2) || (f3 =? 3)) then Some (IsaAccess (F rs2) (2 ^ f3) false)
      else None
  | 0 =>
      match c3 with
      | 5 => Some (IsaAccess (F rs2') 8 false)
      | 6 => Some (IsaAccess (X rs2') 4 false)
      | 7 => Some (IsaAccess (X rs2') 8 false)
      | _ => None
      end
  | 2 =>
      match c3 with
      | 5 => Some (IsaAccess (F rs2c) 8 false)
      | 6 => Some (IsaAccess (X rs2c) 4 false)
      | 7 => Some (IsaAccess (X rs2c) 8 false)
      | _ => None
      end
  | _ => None
  end.

(** ** Fields of an instruction *)

Lemma field_shiftr x lo n : 0 <= lo -> 0 <= n -> Z.land (Z.shiftr x lo) (2 ^ n - 1) = field x lo n.
Proof. intros Hl Hn. unfold field. by rewrite land_ones_mod, Z.shiftr_div_pow2 by lia. Qed.

Lemma field_range x lo n : 0 <= n -> 0 <= field x lo n < 2 ^ n.
Proof. intros Hn. apply Z.mod_pos_bound. apply Z.pow_pos_nonneg; lia. Qed.

(** A field above the bits of [a]. *)
Lemma lor_disjoint a b lo : 0 <= lo -> 0 <= a < 2 ^ lo -> Z.lor a (Z.shiftl b lo) = a + 2 ^ lo * b.
Proof. intros Hlo Ha. rewrite Z.shiftl_mul_pow2, Z.lor_comm, lor_low by lia. lia. Qed.

(** The bits of two separate fields. *)
Lemma land_two_fields x n lo k :
  0 <= n <= lo -> 0 <= k ->
  Z.land x ((2 ^ n - 1) + 2 ^ lo * (2 ^ k - 1)) = field x 0 n + 2 ^ lo * field x lo k.
Proof.
  intros Hn Hk.
  assert (0 < 2 ^ n <= 2 ^ lo) by (split; [apply Z.pow_pos_nonneg|apply Z.pow_le_mono_r]; lia).
  pose proof (field_range x 0 n ltac:(lia)). rewrite <- !lor_disjoint by lia.
  rewrite Z.land_lor_distr_r. f_equal.
  - rewrite land_ones_mod by lia. unfold field. by rewrite Z.pow_0_r, Z.div_1_r.
  - rewrite <- field_shiftr by lia. apply Z.bits_inj'. intros i Hi. rewrite Z.land_spec, !Z.shiftl_spec by lia.
    destruct (Z.lt_ge_cases i lo); [rewrite !(Z.testbit_neg_r _ (i - lo)) by lia; by rewrite andb_false_r|].
    rewrite Z.land_spec, Z.shiftr_spec by lia. do 2 f_equal. lia.
Qed.

Lemma insn_is_32 insn op f3 :
  0 <= op < 128 -> 0 <= f3 < 8 ->
  insn_is insn INSN_MASK_LDST (f3 * 4096 + op) = (field insn 0 7 =? op) && (field insn 12 3 =? f3).
Proof.
  intros Ho Hf. unfold insn_is. change INSN_MASK_LDST with ((2 ^ 7 - 1) + 2 ^ 12 * (2 ^ 3 - 1)).
  rewrite land_two_fields by lia. change (2 ^ 12) with 4096.
  pose proof (field_range insn 0 7 ltac:(lia)). pose proof (field_range insn 12 3 ltac:(lia)).
  change (2 ^ 7) with 128 in *. change (2 ^ 3) with 8 in *.
  apply eq_true_iff_eq. rewrite andb_true_iff, !Z.eqb_eq. lia.
Qed.

Lemma insn_is_16 insn q c3 :
  0 <= q < 4 -> 0 <= c3 < 8 ->
  insn_is insn INSN_MASK_C_LDST (c3 * 8192 + q) = (field insn 0 2 =? q) && (field insn 13 3 =? c3).
Proof.
  intros Ho Hf. unfold insn_is. change INSN_MASK_C_LDST with ((2 ^ 2 - 1) + 2 ^ 13 * (2 ^ 3 - 1)).
  rewrite land_two_fields by lia. change (2 ^ 13) with 8192.
  pose proof (field_range insn 0 2 ltac:(lia)). pose proof (field_range insn 13 3 ltac:(lia)).
  change (2 ^ 2) with 4 in *. change (2 ^ 3) with 8 in *.
  apply eq_true_iff_eq. rewrite andb_true_iff, !Z.eqb_eq. lia.
Qed.

Lemma field_quadrant insn : field insn 0 7 mod 4 = field insn 0 2.
Proof.
  unfold field. rewrite Z.pow_0_r, Z.div_1_r. change (2 ^ 7) with (4 * 32).
  change (2 ^ 2) with 4. rewrite Z.rem_mul_r by lia. rewrite Z.mul_comm, Z_mod_plus_full, Zmod_mod. done.
Qed.

(** ** Register numbers *)

Lemma land_f8 x : Z.land x 0xf8 / 8 = Z.land (Z.shiftr x 3) 31.
Proof.
  change 8 with (2 ^ 3). rewrite <- Z.shiftr_div_pow2 by lia. rewrite Z.shiftr_land. done.
Qed.

Lemma shift_right_3 insn pos :
  is_u64 insn -> 0 <= pos < 59 ->
  Z.land (Z.shiftr (SHIFT_RIGHT insn (pos - 3)) 3) 31 = field insn pos 5.
Proof.
  intros Hu Hp. rewrite <- field_shiftr by lia. change (2 ^ 5 - 1) with 31. unfold SHIFT_RIGHT.
  destruct (Z.ltb_spec (pos - 3) 0).
  - apply Z.bits_inj'. intros i Hi. rewrite !Z.land_spec, !Z.shiftr_spec by lia.
    change 31 with (Z.ones 5). destruct (Z.lt_ge_cases i 5); [|rewrite Z.ones_spec_high by lia; by rewrite !andb_false_r].
    rewrite testbit_shl64 by lia. do 2 f_equal. lia.
  - unfold shr64. rewrite (Z.mod_small (pos - 3)) by lia. rewrite Z.shiftr_shiftr by lia. do 3 f_equal. lia.
Qed.

Lemma reg_index_field insn pos :
  is_u64 insn -> 0 <= pos < 59 -> REG_INDEX insn pos = Z.to_nat (field insn pos 5).
Proof.
  intros Hu Hp. unfold REG_INDEX, REG_OFFSET. change REG_MASK with 0xf8. change LOG_REGBYTES with 3.
  by rewrite land_f8, shift_right_3.
Qed.

Lemma freg_index_field insn pos :
  is_u64 insn -> 0 <= pos < 59 -> FREG_INDEX insn pos = Z.to_nat (field insn pos 5).
Proof. intros Hu Hp. unfold FREG_INDEX. by rewrite land_f8, shift_right_3. Qed.

Lemma rvc_rs2s insn : is_u64 insn -> RVC_RS2S insn = 8 + field insn 2 3.
Proof.
  intros Hu. unfold RVC_RS2S, RV_X. change (Z.shiftl 1 3 - 1) with (2 ^ 3 - 1).
  unfold shr64. change (SH_RS2C mod 64) with 2. by rewrite field_shiftr by lia.
Qed.

(** The register number moved to where [SET_RD] looks for it. *)
Lemma field_shl64 x pos n : 0 <= x < 2 ^ n -> 0 <= pos -> 0 <= n -> pos + n < 64 -> field (shl64 x pos) pos n = x.
Proof.
  intros Hx Hp Hn Hs. unfold field, shl64. rewrite (Z.mod_small pos) by lia. rewrite Z.shiftl_mul_pow2 by lia.
  assert (2 ^ n * 2 ^ pos <= 2 ^ 63) by (rewrite <- Z.pow_add_r by lia; apply Z.pow_le_mono_r; lia).
  assert (0 < 2 ^ pos) by (apply Z.pow_pos_nonneg; lia).
  rewrite u64_small by (unfold is_u64; nia). rewrite Z.div_mul by lia. by apply Z.mod_small.
Qed.

Lemma rd_used_field insn : is_u64 insn -> truthy (Z.land (shr64 insn SH_RD) 0x1f) = negb (field insn 7 5 =? 0).
Proof.
  intros Hu. unfold truthy, shr64. change (SH_RD mod 64) with 7. change 0x1f with (2 ^ 5 - 1).
  by rewrite field_shiftr by lia.
Qed.

(** ** The decoder is the table *)

Ltac insn_test lem :=
  match goal with |- insn_is ?i _ _ = (_ =? ?op) && (_ =? ?f3) => apply (lem i op f3); lia end.

(** The tests of the chains, on fields. *)
Lemma load_tests insn :
  insn_is insn INSN_MASK_LDST INSN_MATCH_LW = (field insn 0 7 =? 3) && (field insn 12 3 =? 2) /\
  insn_is insn INSN_MASK_LDST INSN_MATCH_LD = (field insn 0 7 =? 3) && (field insn 12 3 =? 3) /\
  insn_is insn INSN_MASK_LDST INSN_MATCH_LWU = (field insn 0 7 =? 3) && (field insn 12 3 =? 6) /\
  insn_is insn INSN_MASK_LDST INSN_MATCH_FLD = (field insn 0 7 =? 7) && (field insn 12 3 =? 3) /\
  insn_is insn INSN_MASK_LDST INSN_MATCH_FLW = (field insn 0 7 =? 7) && (field insn 12 3 =? 2) /\
  insn_is insn INSN_MASK_LDST INSN_MATCH_LH = (field insn 0 7 =? 3) && (field insn 12 3 =? 1) /\
  insn_is insn INSN_MASK_LDST INSN_MATCH_LHU = (field insn 0 7 =? 3) && (field insn 12 3 =? 5).
Proof. repeat split; insn_test insn_is_32. Qed.

Lemma c_load_tests insn :
  insn_is insn INSN_MASK_C_LDST INSN_MATCH_C_LD = (field insn 0 2 =? 0) && (field insn 13 3 =? 3) /\
  insn_is insn INSN_MASK_C_LDST INSN_MATCH_C_LDSP = (field insn 0 2 =? 2) && (field insn 13 3 =? 3) /\
  insn_is insn INSN_MASK_C_LDST INSN_MATCH_C_LW = (field insn 0 2 =? 0) && (field insn 13 3 =? 2) /\
  insn_is insn INSN_MASK_C_LDST INSN_MATCH_C_LWSP = (field insn 0 2 =? 2) && (field insn 13 3 =? 2) /\
  insn_is insn INSN_MASK_C_LDST INSN_MATCH_C_FLD = (field insn 0 2 =? 0) && (field insn 13 3 =? 1) /\
  insn_is insn INSN_MASK_C_LDST INSN_MATCH_C_FLDSP = (field insn 0 2 =? 2) && (field insn 13 3 =? 1).
Proof. repeat split; insn_test insn_is_16. Qed.

Lemma store_tests insn :
  insn_is insn INSN_MASK_LDST INSN_MATCH_SW = (field insn 0 7 =? 35) && (field insn 12 3 =? 2) /\
  insn_is insn INSN_MASK_LDST INSN_MATCH_SD = (field insn 0 7 =? 35) && (field insn 12 3 =? 3) /\
  insn_is insn INSN_MASK_LDST INSN_MATCH_FSD = (field insn 0 7 =? 39) && (field insn 12 3 =? 3) /\
  insn_is insn INSN_MASK_LDST INSN_MATCH_FSW = (field insn 0 7 =? 39) && (field insn 12 3 =? 2) /\
  insn_is insn INSN_MASK_LDST INSN_MATCH_SH = (field insn 0 7 =? 35) && (field insn 12 3 =? 1).
Proof. repeat split; insn_test insn_is_32. Qed.

Lemma c_store_tests insn :
  insn_is insn INSN_MASK_C_LDST INSN_MATCH_C_SD = (field insn 0 2 =? 0) && (field insn 13 3 =? 7) /\
  insn_is insn INSN_MASK_C_LDST INSN_MATCH_C_SDSP = (field insn 0 2 =? 2) && (field insn 13 3 =? 7) /\
  insn_is insn INSN_MASK_C_LDST INSN_MATCH_C_SW = (field insn 0 2 =? 0) && (field insn 13 3 =? 6) /\
  insn_is insn INSN_MASK_C_LDST INSN_MATCH_C_SWSP = (field insn 0 2 =? 2) && (field insn 13 3 =? 6) /\
  insn_is insn INSN_MASK_C_LDST INSN_MATCH_C_FSD = (field insn 0 2 =? 0) && (field insn 13 3 =? 5) /\
  insn_is insn INSN_MASK_C_LDST INSN_MATCH_C_FSDSP = (field insn 0 2 =? 2) && (field insn 13 3 =? 5).
Proof. repeat split; insn_test insn_is_16. Qed.

(** The shape [s] makes the access [a]. *)
Definition load_agrees (s : load_shape) (a : isa_access) : Prop :=
  ls_len s = ia_bytes a /\
  ls_shift s = (if ia_signed a then 64 - 8 * ia_bytes a else 0) /\
  match ia_reg a with
  | X i => ls_fp s = false /\ REG_INDEX (ls_insn s) SH_RD = i
  | F i => ls_fp s = true /\ FREG_INDEX (ls_insn s) 7 = i
  end.

Lemma small_cases x n : 0 <= x < n -> x ∈ seqZ 0 n.
Proof. intros H. apply elem_of_seqZ. lia. Qed.

(** Split on the value of a small field. *)
Ltac field_cases H :=
  apply small_cases in H; cbv [seqZ seq Z.to_nat Pos.to_nat Pos.iter_op Nat.add map fmap list_fmap Z.add] in H;
  repeat (apply elem_of_cons in H as [H|H]); [..|by apply elem_of_nil in H];
  match type of H with _ = ?v => let v' := eval vm_compute in v in change v with v' in H end.

(** Where the destination of a compressed load ends up. *)
Lemma rvc_rd_index insn : is_u64 insn -> field (shl64 (RVC_RS2S insn) SH_RD) 7 5 = 8 + field insn 2 3.
Proof.
  intros Hu. rewrite rvc_rs2s by done. pose proof (field_range insn 2 3 ltac:(lia)). change (2 ^ 3) with 8 in *.
  apply field_shl64; lia.
Qed.

Lemma decode_load_32 insn :
  is_u64 insn -> field insn 0 2 = 3 -> option_Forall2 load_agrees (decode_load insn) (isa_load insn).
Proof.
  intros Hu Hq. destruct (load_tests insn) as (T1 & T2 & T3 & T4 & T5 & T6 & T7).
  destruct (c_load_tests insn) as (U1 & U2 & U3 & U4 & U5 & U6).
  pose proof (field_range insn 12 3 ltac:(lia)) as Hf. change (2 ^ 3) with 8 in Hf.
  unfold decode_load, isa_load. rewrite T1, T2, T3, T4, T5, T6, T7, U1, U2, U3, U4, U5, U6, Hq.
  unfold OP_LOAD, OP_LOAD_FP.
  clear T1 T2 T3 T4 T5 T6 T7 U1 U2 U3 U4 U5 U6.
  destruct (Z.eqb_spec (field insn 0 7) 3) as [E|_];
    [rewrite E|destruct (Z.eqb_spec (field insn 0 7) 7) as [E|_]; [|by constructor]];
  field_cases Hf; rewrite Hf; cbn -[field shl64 RVC_RS2S]; constructor; (split; [done|split; [done|]]); cbn -[field REG_INDEX FREG_INDEX];
    (split; [done|]); (apply reg_index_field || apply freg_index_field); done || (unfold SH_RD; lia).
Qed.

(** An instruction of the compressed quadrants passes no test of a 32-bit one. *)
Lemma not_op_32 insn op : op mod 4 = 3 -> field insn 0 2 <> 3 -> (field insn 0 7 =? op) = false.
Proof. intros Ho Hq. apply Z.eqb_neq. intros E. apply Hq. by rewrite <- field_quadrant, E. Qed.

Lemma decode_load_16 insn :
  is_u64 insn -> field insn 0 2 <> 3 -> option_Forall2 load_agrees (decode_load insn) (isa_load insn).
Proof.
  intros Hu Hq. destruct (load_tests insn) as (T1 & T2 & T3 & T4 & T5 & T6 & T7).
  destruct (c_load_tests insn) as (U1 & U2 & U3 & U4 & U5 & U6).
  pose proof (field_range insn 13 3 ltac:(lia)) as Hf. change (2 ^ 3) with 8 in Hf.
  pose proof (field_range insn 0 2 ltac:(lia)) as Hf2. change (2 ^ 2) with 4 in Hf2.
  unfold decode_load, isa_load. rewrite T1, T2, T3, T4, T5, T6, T7, U1, U2, U3, U4, U5, U6.
  rewrite !(not_op_32 insn 3), !(not_op_32 insn 7), rd_used_field by done. cbn [andb].
  clear T1 T2 T3 T4 T5 T6 T7 U1 U2 U3 U4 U5 U6.
  assert (Hr : forall x, is_u64 x -> REG_INDEX x SH_RD = Z.to_nat (field x 7 5)) by (intros; by apply reg_index_field).
  assert (Hfr : forall x, is_u64 x -> FREG_INDEX x 7 = Z.to_nat (field x 7 5)) by (intros; by apply freg_index_field).
  field_cases Hf2; rewrite Hf2; field_cases Hf; rewrite Hf; cbn -[field shl64 RVC_RS2S];
    try destruct (field insn 7 5 =? 0); cbn -[field shl64 RVC_RS2S]; first [by constructor|done|idtac];
    constructor; (split; [done|split; [done|]]); cbn -[field shl64 RVC_RS2S];
    (split; [done|]); rewrite ?Hr, ?Hfr, ?rvc_rd_index by (done || apply shl64_range); done.
Qed.

Lemma decode_load_isa insn :
  is_u64 insn -> option_Forall2 load_agrees (decode_load insn) (isa_load insn).
Proof.
  intros Hu. destruct (Z.eq_dec (field insn 0 2) 3); [by apply decode_load_32|by apply decode_load_16].
Qed.

(** The value a store takes from its source register. *)
Definition source_value (cur : Z) (a : isa_access) (r : sbi_trap_regs) (u : user_view) : Z :=
  match ia_reg a with
  | X i => reg i r
  | F i => if ia_bytes a =? 8 then freg u cur i else u64 (s32 (freg u cur i))
  end.

(** C.SWSP and C.SDSP carry immediate bits where a load has its destination;
    the handler takes a zero there for a reserved encoding. *)
Definition rejected_store (insn : Z) : bool :=
  (field insn 0 2 =? 2) && ((field insn 13 3 =? 6) || (field insn 13 3 =? 7)) && (field insn 7 5 =? 0).

Lemma decode_store_32 cur insn r u :
  is_u64 insn -> field insn 0 2 = 3 ->
  decode_store cur insn r u = (λ a, (ia_bytes a, source_value cur a r u)) <$> isa_store insn.
Proof.
  intros Hu Hq. destruct (store_tests insn) as (T1 & T2 & T3 & T4 & T5).
  destruct (c_store_tests insn) as (U1 & U2 & U3 & U4 & U5 & U6).
  pose proof (field_range insn 12 3 ltac:(lia)) as Hf. change (2 ^ 3) with 8 in Hf.
  unfold decode_store, isa_store. rewrite T1, T2, T3, T4, T5, U1, U2, U3, U4, U5, U6, Hq.
  clear T1 T2 T3 T4 T5 U1 U2 U3 U4 U5 U6. unfold OP_STORE, OP_STORE_FP.
  unfold GET_RS2, GET_F64_REG, GET_F32_REG.
  rewrite reg_index_field, freg_index_field by (done || (unfold SH_RS2; lia)).
  destruct (Z.eqb_spec (field insn 0 7) 35) as [E|_];
    [rewrite E|destruct (Z.eqb_spec (field insn 0 7) 39) as [E|_]; [|done]];
  field_cases Hf; rewrite Hf; done.
Qed.

Lemma decode_store_16 cur insn r u :
  is_u64 insn -> field insn 0 2 <> 3 ->
  decode_store cur insn r u =
    if rejected_store insn then None else (λ a, (ia_bytes a, source_value cur a r u)) <$> isa_store insn.
Proof.
  intros Hu Hq. destruct (store_tests insn) as (T1 & T2 & T3 & T4 & T5).
  destruct (c_store_tests insn) as (U1 & U2 & U3 & U4 & U5 & U6).
  pose proof (field_range insn 13 3 ltac:(lia)) as Hf. change (2 ^ 3) with 8 in Hf.
  pose proof (field_range insn 0 2 ltac:(lia)) as Hf2. change (2 ^ 2) with 4 in Hf2.
  unfold decode_store, isa_store, rejected_store. rewrite T1, T2, T3, T4, T5, U1, U2, U3, U4, U5, U6.
  rewrite !(not_op_32 insn 35), !(not_op_32 insn 39), rd_used_field by done. cbn [andb].
  clear T1 T2 T3 T4 T5 U1 U2 U3 U4 U5 U6.
  pose proof (field_range insn 2 3 ltac:(lia)) as Hs. change (2 ^ 3) with 8 in Hs.
  assert (H0 : field (RVC_RS2S insn) 0 5 = 8 + field insn 2 3).
  { rewrite rvc_rs2s by done. unfold field at 1. rewrite Z.pow_0_r, Z.div_1_r. apply Z.mod_small. lia. }
  assert (Hw : is_u64 (RVC_RS2S insn)) by (rewrite rvc_rs2s by done; unfold is_u64; lia).
  unfold GET_RS2S, GET_RS2C, GET_F64_REG.
  rewrite !(reg_index_field (RVC_RS2S insn)), ?(freg_index_field (RVC_RS2S insn)), H0 by (done || lia).
  rewrite !(reg_index_field insn SH_RS2C), ?(freg_index_field insn 2) by (done || (unfold SH_RS2C; lia)).
  field_cases Hf2; rewrite Hf2; field_cases Hf; rewrite Hf; cbn -[field];
    try destruct (field insn 7 5 =? 0); done.
Qed.

Lemma decode_store_isa cur insn r u :
  is_u64 insn ->
  decode_store cur insn r u =
    if rejected_store insn then None else (λ a, (ia_bytes a, source_value cur a r u)) <$> isa_store insn.
Proof.
  intros Hu. destruct (Z.eq_dec (field insn 0 2) 3) as [E|E]; [|by apply decode_store_16].
  rewrite decode_store_32 by done. unfold rejected_store. by rewrite E.
Qed.

(** ** Bytes of the register union *)

Lemma set_byte_next i b val :
  0 <= i < 8 -> 0 <= b < 256 -> 0 <= val < 256 ^ i -> set_byte i b val = val + 256 ^ i * b.
Proof.
  intros Hi Hb Hv. rewrite pow256 in * by lia. unfold set_byte.
  assert (Hp : 2 ^ (8 * i) * 256 <= 2 ^ 64).
  { change 256 with (2 ^ 8). rewrite <- Z.pow_add_r by lia. apply Z.pow_le_mono_r; lia. }
  assert (Hs : forall x, 0 <= x < 256 -> shl64 x (8 * i) = Z.shiftl x (8 * i)).
  { intros x Hx. unfold shl64. rewrite Z.mod_small by lia. apply u64_small. rewrite Z.shiftl_mul_pow2 by lia.
    unfold is_u64. nia. }
  rewrite !Hs by lia.
  replace (Z.land val (not64 (Z.shiftl 0xff (8 * i)))) with val; [apply lor_disjoint; lia|].
  apply Z.bits_inj'. intros j Hj. rewrite Z.land_spec.
  assert (Hu : is_u64 (Z.shiftl 255 (8 * i))) by (rewrite <- Hs by lia; apply shl64_range).
  destruct (Z.lt_ge_cases j (8 * i)).
  - rewrite testbit_not64 by (done || lia). rewrite Z.shiftl_spec_low by lia. by rewrite andb_true_r.
  - destruct (Z.eq_dec val 0) as [->|]; [by rewrite Z.bits_0|]. rewrite (Z.bits_above_log2 val j); [done|lia|].
    apply Z.lt_le_trans with (8 * i); [apply Z.log2_lt_pow2; lia|lia].
Qed.

Lemma get_byte_value i val : 0 <= i < 8 -> get_byte i val = val / 256 ^ i mod 256.
Proof.
  intros Hi. unfold get_byte, shr64. rewrite Z.mod_small, Z.shiftr_div_pow2, <- pow256 by lia.
  change 0xff with (2 ^ 8 - 1). by rewrite land_ones_mod by lia.
Qed.

Lemma extend_signed w v : 0 < w <= 64 -> 0 <= v < 2 ^ w -> extend (64 - w) v = u64 (sign_extend w v).
Proof.
  intros Hw Hv. unfold extend. f_equal. set (s := 64 - w).
  assert (Hp : 2 ^ w * 2 ^ s = 2 ^ 64) by (rewrite <- Z.pow_add_r by lia; f_equal; lia).
  assert (Hp' : 2 ^ (w - 1) * 2 ^ s = 2 ^ 63) by (rewrite <- Z.pow_add_r by lia; f_equal; lia).
  assert (0 < 2 ^ s) by (apply Z.pow_pos_nonneg; lia).
  assert (Es : shl64 v s = v * 2 ^ s).
  { unfold shl64. rewrite Z.mod_small, Z.shiftl_mul_pow2 by lia. apply u64_small. unfold is_u64. nia. }
  rewrite Es. unfold sign_extend. change (2 ^ (64 - 1)) with (2 ^ 63).
  destruct (Z.ltb_spec v (2 ^ (w - 1))) as [H1|H1]; destruct (Z.ltb_spec (v * 2 ^ s) (2 ^ 63)); try nia.
  - rewrite Z.shiftr_div_pow2 by lia. by rewrite Z.div_mul by lia.
  - rewrite Z.shiftr_div_pow2, <- Hp by lia. rewrite <- Z.mul_sub_distr_r. by rewrite Z.div_mul by lia.
Qed.

Lemma extend_0 v : is_u64 v -> extend 0 v = v.
Proof.
  intros Hv. replace 0 with (64 - 64) by lia. rewrite extend_signed by (done || lia).
  unfold sign_extend, is_u64, u64 in *. case_if; zbool.
  - by apply Z.mod_small.
  - rewrite <- (Z.mod_add (v - 2 ^ 64) 1) by lia. rewrite Z.mod_small; lia.
Qed.

(** ** The byte loops *)

Definition loadable (u : user_view) (addr : Z) (lo hi : Z) : Prop :=
  forall i, lo <= i < hi -> real_fault (u_load_fault u false (add64 addr i) 1) = None.
Definition storable (u : user_view) (addr : Z) (lo hi : Z) : Prop :=
  forall i, lo <= i < hi -> real_fault (u_store_fault u (add64 addr i) 1) = None.

Lemma load_loop_step n i addr m :
  bytes_wf (m_umem m) -> is_u64 addr -> Z.of_nat i < 8 ->
  real_fault (u_load_fault (m_umem m) false (add64 addr (Z.of_nat i)) 1) = None ->
  load_loop (S n) (Z.of_nat i) addr (le_value (m_umem m) i addr) m =
    load_loop n (Z.of_nat (S i)) addr (le_value (m_umem m) (S i) addr) m.
Proof.
  intros W Ha Hi Hf. cbn [load_loop]. unfold sbi_load_u8, unpriv_load. rewrite bind_gets. unfold load_insn.
  change (Z.of_nat 1) with 1. rewrite Hf. pose proof (byte_at_range (m_umem m) (add64 addr (Z.of_nat i)) W).
  cbn [le_value]. rewrite Z.mul_0_r, Z.add_0_r.
  rewrite set_byte_next by (try apply le_value_range; done || lia).
  rewrite <- le_value_snoc by done. f_equal. lia.
Qed.

Lemma load_loop_run n i addr m :
  bytes_wf (m_umem m) -> is_u64 addr -> (i + n <= 8)%nat ->
  loadable (m_umem m) addr (Z.of_nat i) (Z.of_nat (i + n)) ->
  load_loop n (Z.of_nat i) addr (le_value (m_umem m) i addr) m =
    (Ret (inl (le_value (m_umem m) (i + n) addr)), m).
Proof.
  intros W Ha. revert i. induction n as [|n IH]; intros i Hi Hl; [by rewrite Nat.add_0_r|].
  rewrite load_loop_step by (done || lia || (apply Hl; lia)).
  rewrite IH; [by rewrite Nat.add_succ_comm|lia|]. intros j Hj. apply Hl. lia.
Qed.

(** The first byte that faults ends the loop. *)
Lemma load_loop_fault n i addr m k f :
  bytes_wf (m_umem m) -> is_u64 addr -> (i + n <= 8)%nat -> (i <= k < i + n)%nat ->
  loadable (m_umem m) addr (Z.of_nat i) (Z.of_nat k) ->
  real_fault (u_load_fault (m_umem m) false (add64 addr (Z.of_nat k)) 1) = Some f ->
  load_loop n (Z.of_nat i) addr (le_value (m_umem m) i addr) m = (Ret (inr f), m).
Proof.
  intros W Ha. revert i. induction n as [|n IH]; intros i Hi Hk Hl Hf; [lia|].
  destruct (Nat.eq_dec i k) as [->|Hne].
  - cbn [load_loop]. unfold sbi_load_u8, unpriv_load. rewrite bind_gets. unfold load_insn.
    change (Z.of_nat 1) with 1. by rewrite Hf.
  - rewrite load_loop_step by (done || lia || (apply Hl; lia)). apply IH; [lia|lia| |done].
    intros j Hj. apply Hl. lia.
Qed.

(** The memory after the first [n] bytes of [v] have been stored. *)
Definition stored (n : nat) (addr v : Z) (u : user_view) : user_view :=
  set_bytes (put_bytes n addr v (u_bytes u)) u.

Lemma store_loop_step n i addr val u m :
  is_u64 addr -> Z.of_nat i < 8 ->
  real_fault (u_store_fault u (add64 addr (Z.of_nat i)) 1) = None ->
  store_loop (S n) (Z.of_nat i) addr val (set_umem (stored i addr val u) m) =
    store_loop n (Z.of_nat (S i)) addr val (set_umem (stored (S i) addr val u) m).
Proof.
  intros Ha Hi Hf. cbn [store_loop]. unfold sbi_store_u8.
  assert (E : unpriv_store 1 (add64 addr (Z.of_nat i)) (get_byte (Z.of_nat i) val) (set_umem (stored i addr val u) m) =
    (Ret None, set_umem (stored (S i) addr val u) m)).
  { unfold unpriv_store, store_insn. change (u_store_fault (m_umem (set_umem (stored i addr val u) m))) with (u_store_fault u).
    change (Z.of_nat 1) with 1. rewrite Hf. unfold stored. rewrite (put_bytes_snoc i addr) by done.
    cbn [put_bytes]. rewrite get_byte_value, Zmod_mod by lia. done. }
  rewrite (bind_Ret _ _ _ _ _ E). f_equal. lia.
Qed.

Lemma store_loop_run n i addr val u m :
  is_u64 addr -> (i + n <= 8)%nat -> storable u addr (Z.of_nat i) (Z.of_nat (i + n)) ->
  store_loop n (Z.of_nat i) addr val (set_umem (stored i addr val u) m) =
    (Ret None, set_umem (stored (i + n) addr val u) m).
Proof.
  intros Ha. revert i. induction n as [|n IH]; intros i Hi Hl; [by rewrite Nat.add_0_r|].
  rewrite store_loop_step by (done || lia || (apply Hl; lia)).
  rewrite IH; [by rewrite Nat.add_succ_comm|lia|]. intros j Hj. apply Hl. lia.
Qed.

Lemma store_loop_fault n i addr val u m k f :
  is_u64 addr -> (i + n <= 8)%nat -> (i <= k < i + n)%nat -> storable u addr (Z.of_nat i) (Z.of_nat k) ->
  real_fault (u_store_fault u (add64 addr (Z.of_nat k)) 1) = Some f ->
  store_loop n (Z.of_nat i) addr val (set_umem (stored i addr val u) m) =
    (Ret (Some f), set_umem (stored k addr val u) m).
Proof.
  intros Ha. revert i. induction n as [|n IH]; intros i Hi Hk Hl Hf; [lia|].
  destruct (Nat.eq_dec i k) as [->|Hne].
  - cbn [store_loop]. unfold sbi_store_u8. unfold bind, unpriv_store, store_insn.
    change (u_store_fault (m_umem (set_umem (stored k addr val u) m))) with (u_store_fault u).
    change (Z.of_nat 1) with 1. by rewrite Hf.
  - rewrite store_loop_step by (done || lia || (apply Hl; lia)). apply IH; [lia|lia| |done].
    intros j Hj. apply Hl. lia.
Qed.

(** ** The trapped instruction *)

Lemma truthy_land_bit x k : 0 <= k -> truthy (Z.land x (2 ^ k)) = Z.testbit x k.
Proof.
  intros Hk. destruct (Z.testbit x k) eqn:E.
  - apply truthy_true. intros H. assert (Z.testbit (Z.land x (2 ^ k)) k = true) as H'
      by (rewrite Z.land_spec, E, Z.pow2_bits_true by lia; done). rewrite H, Z.bits_0 in H'. discriminate.
  - apply truthy_false, Z.bits_inj'. intros j Hj. rewrite Z.land_spec, Z.bits_0, Z.pow2_bits_eqb by lia.
    destruct (Z.eqb_spec k j) as [<-|]; [by rewrite E|apply andb_false_r].
Qed.

Lemma count_fw_pmu m cur id :
  fw_ready m -> 0 <= cur < 128 -> 0 <= id < 22 -> exists p, count_fw cur id m = (Ret tt, set_m_pmu p m) /\ fw_ready (set_m_pmu p m).
Proof.
  intros Hf Hc Hi. destruct (count_fw_run m cur id Hf Hc Hi) as (m' & E & Q & _).
  unfold count_fw, on_pmu, zoom, bind in *. destruct (sbi_pmu_ctr_incr_fw cur id (m_pmu m)) as [[] p]; [|discriminate].
  injection E as <-. exists p. split; [done|by apply Q].
Qed.

Record fetchable (u : user_view) (mepc : Z) : Prop := {
  ft_addr : is_u64 mepc;
  ft_low : real_fault (u_load_fault u true mepc 2) = None;
  ft_high : Z.land (le_value u 2 mepc) 3 = 3 -> real_fault (u_load_fault u true (add64 mepc 2) 2) = None;
}.

(** The hart trapped on the instruction [insn] of [len] bytes: the one of the
    trap-instruction register when there is one, else the one in memory. *)
Definition trapped_on (u : user_view) (mepc tinst insn len : Z) : Prop :=
  if Z.testbit tinst 0
  then is_u64 tinst /\ insn = Z.lor tinst 3 /\ len = (if Z.testbit tinst 1 then 4 else 2)
  else fetchable u mepc /\ insn = parcel u mepc /\ len = (if field insn 0 2 =? 3 then 4 else 2).

Lemma insn_len_field insn : INSN_LEN insn = if field insn 0 2 =? 3 then 4 else 2.
Proof.
  unfold INSN_LEN, INSN_IS_16BIT, INSN_16BIT_MASK. replace (Z.land insn 3) with (field insn 0 2).
  - by destruct (field insn 0 2 =? 3).
  - rewrite <- field_shiftr by lia. by rewrite Z.shiftr_0_r.
Qed.

Lemma parcel_range u a : bytes_wf u -> 0 <= parcel u a < 2 ^ 32.
Proof.
  intros W. unfold parcel. pose proof (le_value_range u 2 a W). pose proof (le_value_range u 4 a W).
  change (256 ^ Z.of_nat 2) with (2 ^ 16) in *. change (256 ^ Z.of_nat 4) with (2 ^ 32) in *.
  case_if; lia.
Qed.

Lemma trapped_insn_run junk tinst r m insn len :
  bytes_wf (m_umem m) -> trapped_on (m_umem m) (r_mepc r) tinst insn len ->
  trapped_insn junk tinst r m = (Ret (inl (insn, len)), m) /\ is_u64 insn.
Proof.
  intros W. unfold trapped_on, trapped_insn.
  change (Z.land tinst 1) with (Z.land tinst (2 ^ 0)). change (Z.land tinst 2) with (Z.land tinst (2 ^ 1)).
  rewrite !truthy_land_bit by lia. destruct (Z.testbit tinst 0).
  - intros (Hu & -> & ->). change INSN_16BIT_MASK with 3. split; [|by apply lor_u64; [|unfold is_u64; lia]].
    rewrite insn_len_field. replace (field (Z.lor tinst 3) 0 2) with 3; [done|].
    rewrite <- field_shiftr by lia. rewrite Z.shiftr_0_r. change (2 ^ 2 - 1) with 3.
    rewrite Z.land_lor_distr_l. apply Z.bits_inj'. intros i Hi. rewrite Z.lor_spec, !Z.land_spec.
    by destruct (Z.testbit tinst i), (Z.testbit 3 i).
  - intros ([H1 H2 H3] & -> & ->). unfold sbi_get_insn. rewrite bind_gets.
    rewrite (get_insn_reads _ junk _ W H1 H2 H3). cbn [fst snd fmap option_fmap option_map]. split.
    + by rewrite insn_len_field.
    + pose proof (parcel_range (m_umem m) (r_mepc r) W). unfold is_u64. lia.
Qed.

(** ** What the handlers do *)

(** The value a load delivers, from the bytes it read. *)
Definition load_value (a : isa_access) (v : Z) : Z :=
  if ia_signed a then u64 (sign_extend (8 * ia_bytes a) v) else v.

(** The registers and the rest of the context after the load of [v]. *)
Definition load_regs (a : isa_access) (v len : Z) (r : sbi_trap_regs) : sbi_trap_regs :=
  set_mepc (add64 (r_mepc r) len)
    (match ia_reg a with X i => set_reg i (load_value a v) r | F _ => r end).

Definition load_view (cur : Z) (a : isa_access) (v : Z) (u : user_view) : user_view :=
  match ia_reg a with
  | X _ => u
  | F i => set_freg cur i (if ia_bytes a =? 8 then v else 2 ^ 64 - 2 ^ 32 + v) u
  end.

Lemma isa_load_bytes insn a : isa_load insn = Some a -> ia_bytes a = 2 \/ ia_bytes a = 4 \/ ia_bytes a = 8.
Proof.
  pose proof (field_range insn 12 3 ltac:(lia)) as Hf. change (2 ^ 3) with 8 in Hf. unfold isa_load.
  repeat case_match; intros [= <-]; auto; cbn [ia_bytes]; field_cases Hf; rewrite Hf in *; cbn in *; auto; rewrite ?andb_false_r in *; congruence.
Qed.

Lemma isa_store_bytes insn a : isa_store insn = Some a -> ia_bytes a = 2 \/ ia_bytes a = 4 \/ ia_bytes a = 8.
Proof.
  pose proof (field_range insn 12 3 ltac:(lia)) as Hf. change (2 ^ 3) with 8 in Hf. unfold isa_store.
  repeat case_match; intros [= <-]; auto; cbn [ia_bytes]; field_cases Hf; rewrite Hf in *; cbn in *; auto; rewrite ?andb_false_r in *; congruence.
Qed.

Lemma set_umem_same m : set_umem (m_umem m) m = m.
Proof. by destruct m. Qed.

Lemma write_back_run cur s a v r m :
  load_agrees s a -> ia_bytes a = 2 \/ ia_bytes a = 4 \/ ia_bytes a = 8 -> 0 <= v < 256 ^ ia_bytes a ->
  write_back cur s v r m =
    (Ret (match ia_reg a with X i => set_reg i (load_value a v) r | F _ => r end),
     set_umem (load_view cur a v (m_umem m)) m).
Proof.
  intros (Hl & Hs & Hr) Hb Hv. unfold write_back, load_view, load_value.
  assert (Hp : 256 ^ ia_bytes a <= 2 ^ 64) by (rewrite pow256 by lia; apply Z.pow_le_mono_r; lia).
  destruct (ia_reg a) as [i|i], Hr as [-> <-]; cbn [negb].
  - rewrite Hs, set_umem_same. unfold SET_RD. destruct (ia_signed a).
    + rewrite extend_signed by (rewrite <- ?pow256; lia). done.
    + rewrite extend_0 by (unfold is_u64; lia). done.
  - rewrite Hl. destruct (Z.eqb_spec (ia_bytes a) 8); [done|]. unfold SET_F32_REG, bind, modify, ret.
    unfold u32. rewrite (Z.mod_small v); [done|]. assert (256 ^ ia_bytes a <= 2 ^ 32); [|lia].
    rewrite pow256 by lia. apply Z.pow_le_mono_r; lia.
Qed.

Lemma stored_none addr v p m : set_umem (stored 0 addr v (m_umem m)) (set_m_pmu p m) = set_m_pmu p m.
Proof. destruct m as [? ? ? ? ? ? ? ? ? ? ? ? ? ? ? ? ? ? ? ? [? ? ? ?] ?]. reflexivity. Qed.

Section Emulation.
Context (pl : sbi_platform_operations) (cur junk : Z) (Hcur : 0 <= cur < 128).

Lemma load_handler_run addr tval2 tinst r m insn len a :
  fw_ready m -> bytes_wf (m_umem m) -> is_u64 addr ->
  trapped_on (m_umem m) (r_mepc r) tinst insn len -> isa_load insn = Some a ->
  loadable (m_umem m) addr 0 (ia_bytes a) ->
  let v := le_value (m_umem m) (Z.to_nat (ia_bytes a)) addr in
  exists p, sbi_misaligned_load_handler pl cur junk addr tval2 tinst r m =
    (Ret (0, load_regs a v len r), set_umem (load_view cur a v (m_umem m)) (set_m_pmu p m)).
Proof.
  intros Hf W Ha Ht Hi Hl v. unfold sbi_misaligned_load_handler.
  destruct (count_fw_pmu m cur SBI_PMU_FW_MISALIGNED_LOAD Hf Hcur) as (p & E & Hf'); [done|].
  rewrite (bind_Ret _ _ _ _ _ E). exists p.
  destruct (trapped_insn_run junk tinst r (set_m_pmu p m) insn len W Ht) as (Et & Hu).
  rewrite (bind_Ret _ _ _ _ _ Et). pose proof (decode_load_isa insn Hu) as Hd. rewrite Hi in Hd.
  destruct (decode_load insn) as [s|]; inversion Hd as [? ? Hag|]; subst.
  pose proof (isa_load_bytes _ _ Hi) as Hb. rewrite (proj1 Hag).
  pose proof (load_loop_run (Z.to_nat (ia_bytes a)) 0 addr (set_m_pmu p m) W Ha ltac:(lia)) as El.
  rewrite Nat.add_0_l, Z2Nat.id in El by lia. specialize (El Hl).
  change (le_value (m_umem (set_m_pmu p m)) 0 addr) with 0 in El. change (Z.of_nat 0) with 0 in El.
  rewrite (bind_Ret _ _ _ _ _ El).
  pose proof (le_value_range (m_umem m) (Z.to_nat (ia_bytes a)) addr W) as Hv. rewrite Z2Nat.id in Hv by lia.
  rewrite (bind_Ret _ _ _ _ _ (write_back_run cur s a _ r (set_m_pmu p m) Hag Hb Hv)).
  unfold load_regs, v. change (m_umem (set_m_pmu p m)) with (m_umem m). unfold ret.
  destruct (ia_reg a); reflexivity.
Qed.

Lemma store_handler_run addr tval2 tinst r m insn len a :
  fw_ready m -> bytes_wf (m_umem m) -> is_u64 addr ->
  trapped_on (m_umem m) (r_mepc r) tinst insn len -> isa_store insn = Some a -> rejected_store insn = false ->
  storable (m_umem m) addr 0 (ia_bytes a) ->
  let v := source_value cur a r (m_umem m) in
  exists p, sbi_misaligned_store_handler pl cur junk addr tval2 tinst r m =
    (Ret (0, set_mepc (add64 (r_mepc r) len) r),
     set_umem (stored (Z.to_nat (ia_bytes a)) addr v (m_umem m)) (set_m_pmu p m)) /\ fw_ready (set_m_pmu p m).
Proof.
  intros Hf W Ha Ht Hi Hrej Hl v. unfold sbi_misaligned_store_handler.
  destruct (count_fw_pmu m cur SBI_PMU_FW_MISALIGNED_STORE Hf Hcur) as (p & E & Hf'); [done|].
  rewrite (bind_Ret _ _ _ _ _ E). exists p. split; [|done].
  destruct (trapped_insn_run junk tinst r (set_m_pmu p m) insn len W Ht) as (Et & Hu).
  rewrite (bind_Ret _ _ _ _ _ Et), bind_gets. rewrite decode_store_isa, Hrej, Hi by done. cbn [fmap option_fmap option_map].
  pose proof (isa_store_bytes _ _ Hi) as Hb. change (m_umem (set_m_pmu p m)) with (m_umem m). fold v.
  pose proof (store_loop_run (Z.to_nat (ia_bytes a)) 0 addr v (m_umem m) (set_m_pmu p m) Ha ltac:(lia)) as El.
  rewrite Nat.add_0_l, Z2Nat.id in El by lia. specialize (El Hl). change (Z.of_nat 0) with 0 in El.
  rewrite stored_none in El.
  rewrite (bind_Ret _ _ _ _ _ El). reflexivity.
Qed.

End Emulation.

Lemma le_value_stored n addr v u :
  is_u64 addr -> Z.of_nat n <= 2 ^ 64 -> le_value (stored n addr v u) n addr = v mod 256 ^ Z.of_nat n.
Proof. apply le_value_put_bytes. Qed.

(** [C29] A misaligned load is emulated exactly: for every instruction the
    RISC-V tables call a load of more than one byte (integer, floating point or
    compressed), whether it comes from the trap-instruction register or from
    memory, the handler returns success with the little-endian value of the
    bytes at the address, sign- or zero-extended, in the destination register
    of the instruction, mepc moved past it, and nothing else changed but the
    firmware counter. *)
Theorem misaligned_load_emulates pl cur junk addr tval2 tinst r m insn len a :
  0 <= cur < 128 -> fw_ready m -> bytes_wf (m_umem m) -> is_u64 addr ->
  trapped_on (m_umem m) (r_mepc r) tinst insn len -> isa_load insn = Some a ->
  loadable (m_umem m) addr 0 (ia_bytes a) ->
  let v := le_value (m_umem m) (Z.to_nat (ia_bytes a)) addr in
  exists p, sbi_misaligned_load_handler pl cur junk addr tval2 tinst r m =
    (Ret (0, load_regs a v len r), set_umem (load_view cur a v (m_umem m)) (set_m_pmu p m)).
Proof. intros Hc. by apply load_handler_run. Qed.

(** A context with the instruction [lh a5, 0(a4)] at 0x1000 and the bytes
    0x34 0xf2 at 0x2001. *)
Definition demo_view : user_view :=
  UserView (list_to_map [(0x1000, 0x83); (0x1001, 0x17); (0x1002, 0x07); (0x1003, 0x00); (0x2001, 0x34); (0x2002, 0xf2)])
    (λ _ _ _, None) (λ _ _, None) ∅.
Definition demo_user : machine := set_umem demo_view demo_machine.
Definition demo_regs : sbi_trap_regs := TrapRegs (replicate 32 7) 0x1000 0x800.

Lemma demo_bytes_wf : bytes_wf demo_view.
Proof.
  intros a v. cbn. rewrite !lookup_insert_Some, lookup_empty. intros H. naive_solver lia.
Qed.

Lemma demo_trapped : trapped_on demo_view 0x1000 0 0x71783 4.
Proof. split; [|done]. constructor; done. Qed.

Lemma misaligned_load_emulates_witness :
  exists p, sbi_misaligned_load_handler bare_platform 0 0 0x2001 0 0 demo_regs demo_user =
    (Ret (0, TrapRegs (<[15%nat := 0xfffffffffffff234]> (replicate 32 7)) 0x1004 0x800),
     set_umem demo_view (set_m_pmu p demo_user)).
Proof.
  exact (misaligned_load_emulates bare_platform 0 0 0x2001 0 0 demo_regs demo_user 0x71783 4
    (IsaAccess (X 15) 2 true) ltac:(lia) fw_ready_demo demo_bytes_wf ltac:(unfold is_u64; lia)
    demo_trapped eq_refl (λ _ _, eq_refl)).
Defined.

(** [C30] Misaligned stores and loads fit together: the emulation of a store
    (any store of the tables but the ones the decoder turns down) writes the
    low bytes of the source register at the address, least significant first,
    leaves every other byte of memory alone and steps over the instruction;
    and a later emulated load of the same width from that address delivers the
    value that was stored, extended the way that load extends. *)
Theorem misaligned_store_load_roundtrip pl cur junk addr tval2 tinst r m insn len a :
  0 <= cur < 128 -> fw_ready m -> bytes_wf (m_umem m) -> is_u64 addr ->
  trapped_on (m_umem m) (r_mepc r) tinst insn len -> isa_store insn = Some a -> rejected_store insn = false ->
  storable (m_umem m) addr 0 (ia_bytes a) ->
  let v := source_value cur a r (m_umem m) in
  exists m1, sbi_misaligned_store_handler pl cur junk addr tval2 tinst r m =
      (Ret (0, set_mepc (add64 (r_mepc r) len) r), m1) /\
    (forall b, (forall i, 0 <= i < ia_bytes a -> b <> add64 addr i) -> byte_at (m_umem m1) b = byte_at (m_umem m) b) /\
    forall junk' tval2' tinst' r' insn' len' a',
      trapped_on (m_umem m1) (r_mepc r') tinst' insn' len' -> isa_load insn' = Some a' ->
      ia_bytes a' = ia_bytes a -> loadable (m_umem m1) addr 0 (ia_bytes a) ->
      exists m2, sbi_misaligned_load_handler pl cur junk' addr tval2' tinst' r' m1 =
          (Ret (0, load_regs a' (v mod 256 ^ ia_bytes a) len' r'), m2) /\
        m_umem m2 = load_view cur a' (v mod 256 ^ ia_bytes a) (m_umem m1).
Proof.
  intros Hc Hf W Ha Ht Hi Hrej Hs v. pose proof (isa_store_bytes _ _ Hi) as Hb.
  destruct (store_handler_run pl cur junk Hc addr tval2 tinst r m insn len a Hf W Ha Ht Hi Hrej Hs) as (p & E & Hf1).
  fold v in E. eexists. split; [exact E|]. cbn [set_umem m_umem]. split.
  - intros b Hn. unfold byte_at, stored. cbn [set_bytes u_bytes]. rewrite put_bytes_other; [done|done|].
    intros i Hi'. apply Hn. rewrite Z2Nat.id in Hi' by lia. done.
  - intros junk' tval2' tinst' r' insn' len' a' Ht' Hi' Hw Hl.
    destruct (load_handler_run pl cur junk' Hc addr tval2' tinst' r'
      (set_umem (stored (Z.to_nat (ia_bytes a)) addr v (m_umem m)) (set_m_pmu p m)) insn' len' a' Hf1
      (put_bytes_wf _ _ _ _ W) Ha Ht' Hi') as (p' & E'); [by rewrite Hw|].
    rewrite Hw in E'. cbn [m_umem set_umem] in E'.
    rewrite !le_value_stored in E' by (done || lia). rewrite Z2Nat.id in E' by lia.
    eexists. split; [exact E'|]. done.
Qed.

(** The instruction [sw a5, 0(a4)] stores 7 at 0x2001; [lw a5, 0(a4)] would read
    it back. *)
Lemma misaligned_store_load_roundtrip_witness :
  exists m1, sbi_misaligned_store_handler bare_platform 0 0 0x2001 0 0xf72023 demo_regs demo_user =
      (Ret (0, TrapRegs (replicate 32 7) 0x1004 0x800), m1) /\
    byte_at (m_umem m1) 0x2002 = 0 /\
    exists m2, sbi_misaligned_load_handler bare_platform 0 0 0x2001 0 0x72783 demo_regs m1 =
      (Ret (0, TrapRegs (<[15%nat := 7]> (replicate 32 7)) 0x1004 0x800), m2).
Proof.
  destruct (misaligned_store_load_roundtrip bare_platform 0 0 0x2001 0 0xf72023 demo_regs demo_user 0xf72023 4
    (IsaAccess (X 15) 4 false) ltac:(lia) fw_ready_demo demo_bytes_wf ltac:(unfold is_u64; lia)
    ltac:(split; [unfold is_u64; lia|done]) eq_refl eq_refl (λ _ _, eq_refl)) as (m1 & E & _ & H).
  exists m1. split; [exact E|].
  destruct (store_handler_run bare_platform 0 0 ltac:(lia) 0x2001 0 0xf72023 demo_regs demo_user 0xf72023 4
    (IsaAccess (X 15) 4 false) fw_ready_demo demo_bytes_wf ltac:(unfold is_u64; lia)
    ltac:(split; [unfold is_u64; lia|done]) eq_refl eq_refl (λ _ _, eq_refl)) as (p & E' & _).
  assert (Hm : m_umem m1 = stored 4 0x2001 7 demo_view).
  { rewrite E' in E. injection E as <-. reflexivity. }
  split; [by rewrite Hm|]. destruct (H 0 0 0x72783 demo_regs 0x72783 4 (IsaAccess (X 15) 4 true)) as (m2 & E2 & _).
  - rewrite Hm. split; [unfold is_u64; lia|done].
  - reflexivity.
  - reflexivity.
  - rewrite Hm. by intros ? ?.
  - exists m2. exact E2.
Defined.

(** ** Faults *)

(** The handler ends with the trap of [cause] and [tval] in the supervisor's
    registers; [u] is what the context looks like. *)
Definition handed_over (cur cause tval : Z) (r : sbi_trap_regs) (d : hart_data)
    (u : user_view) (o : outcome (Z * sbi_trap_regs) * machine) : Prop :=
  exists r' c' m', o = (Ret (0, r'), m') /\ hart m' cur = Some (hd_set_csrs c' d) /\ m_umem m' = u /\
    exists trap, t_cause trap = cause /\ t_tval trap = tval /\ t_epc trap = r_mepc r /\
      delivered trap r r' (hd_csrs d) c'.

Lemma redirect_handed_over pl cur f r m d :
  hart m cur = Some d -> redirectable (sbi_platform_misa_extension pl) r (hd_csrs d) ->
  handed_over cur (f_cause f) (f_tval f) r d (m_umem m) (redirect_fault pl cur f r m).
Proof.
  intros Hd Hr. unfold redirect_fault.
  destruct (trap_redirect_delivers pl cur (TrapInfo (r_mepc r) (f_cause f) (f_tval f) (f_tval2 f) (f_tinst f)) r m d Hd Hr)
    as (r' & c' & E & D). rewrite E. exists r', c', (put_hart cur (hd_set_csrs c' d) m). split; [done|].
  split; [by apply (hart_put_eq _ _ _ _ Hd)|]. split; [done|]. eexists. split; [|split; [|split; [|exact D]]]; done.
Qed.

(** [C38] When a byte of a misaligned access cannot be accessed, the supervisor
    gets that fault: for the first byte that faults, the trap is redirected
    with its cause and address and the pc of the instruction, so the
    instruction runs again once the fault is handled; no register changes.  A
    load has changed no memory; a store has written the bytes before the
    faulting one and no other. *)
Theorem misaligned_fault_redirects pl cur junk addr tval2 tinst r m d insn len a k f :
  0 <= cur < 128 -> fw_ready m -> bytes_wf (m_umem m) -> is_u64 addr -> hart m cur = Some d ->
  redirectable (sbi_platform_misa_extension pl) r (hd_csrs d) ->
  trapped_on (m_umem m) (r_mepc r) tinst insn len -> 0 <= k < ia_bytes a ->
  (isa_load insn = Some a -> loadable (m_umem m) addr 0 k ->
   real_fault (u_load_fault (m_umem m) false (add64 addr k) 1) = Some f ->
   handed_over cur (f_cause f) (f_tval f) r d (m_umem m)
     (sbi_misaligned_load_handler pl cur junk addr tval2 tinst r m)) /\
  (isa_store insn = Some a -> rejected_store insn = false -> storable (m_umem m) addr 0 k ->
   real_fault (u_store_fault (m_umem m) (add64 addr k) 1) = Some f ->
   handed_over cur (f_cause f) (f_tval f) r d
     (stored (Z.to_nat k) addr (source_value cur a r (m_umem m)) (m_umem m))
     (sbi_misaligned_store_handler pl cur junk addr tval2 tinst r m)).
Proof.
  intros Hc Hf W Ha Hd Hr Ht Hk. split.
  - intros Hi Hl Hfl. unfold sbi_misaligned_load_handler.
    destruct (count_fw_pmu m cur SBI_PMU_FW_MISALIGNED_LOAD Hf Hc) as (p & E & _); [done|].
    rewrite (bind_Ret _ _ _ _ _ E).
    destruct (trapped_insn_run junk tinst r (set_m_pmu p m) insn len W Ht) as (Et & Hu).
    rewrite (bind_Ret _ _ _ _ _ Et). pose proof (decode_load_isa insn Hu) as Hag. rewrite Hi in Hag.
    destruct (decode_load insn) as [s|]; inversion Hag as [? ? Hag'|]; subst.
    pose proof (isa_load_bytes _ _ Hi) as Hb. rewrite (proj1 Hag').
    pose proof (load_loop_fault (Z.to_nat (ia_bytes a)) 0 addr (set_m_pmu p m) (Z.to_nat k) f W Ha
      ltac:(lia) ltac:(lia)) as El. rewrite Z2Nat.id in El by lia. specialize (El Hl Hfl).
    change (le_value (m_umem (set_m_pmu p m)) 0 addr) with 0 in El. change (Z.of_nat 0) with 0 in El.
    rewrite (bind_Ret _ _ _ _ _ El). by apply (redirect_handed_over pl cur f r (set_m_pmu p m) d).
  - intros Hi Hrej Hl Hfl. unfold sbi_misaligned_store_handler.
    destruct (count_fw_pmu m cur SBI_PMU_FW_MISALIGNED_STORE Hf Hc) as (p & E & _); [done|].
    rewrite (bind_Ret _ _ _ _ _ E).
    destruct (trapped_insn_run junk tinst r (set_m_pmu p m) insn len W Ht) as (Et & Hu).
    rewrite (bind_Ret _ _ _ _ _ Et), bind_gets, decode_store_isa, Hrej, Hi by done.
    cbn [fmap option_fmap option_map]. pose proof (isa_store_bytes _ _ Hi) as Hb.
    change (m_umem (set_m_pmu p m)) with (m_umem m). set (v := source_value cur a r (m_umem m)).
    pose proof (store_loop_fault (Z.to_nat (ia_bytes a)) 0 addr v (m_umem m) (set_m_pmu p m) (Z.to_nat k) f Ha
      ltac:(lia) ltac:(lia)) as El. rewrite Z2Nat.id in El by lia. specialize (El Hl Hfl).
    rewrite stored_none in El. rewrite (bind_Ret _ _ _ _ _ El).
    by apply (redirect_handed_over pl cur f r (set_umem (stored (Z.to_nat k) addr v (m_umem m)) (set_m_pmu p m)) d).
Qed.

(** A context that cannot read 0x2002. *)
Definition demo_hole : user_view :=
  UserView (u_bytes demo_view) (λ mxr a _, if a =? 0x2002 then Some (Fault 13 0x2002 0 0) else None) (λ _ _, None) ∅.

Lemma misaligned_fault_redirects_witness :
  handed_over 0 13 0x2002 demo_regs (demo_hart SBI_HSM_STATE_STARTED) demo_hole
    (sbi_misaligned_load_handler bare_platform 0 0 0x2001 0 0 demo_regs (set_umem demo_hole demo_machine)).
Proof.
  destruct (misaligned_fault_redirects bare_platform 0 0 0x2001 0 0 demo_regs (set_umem demo_hole demo_machine)
    (demo_hart SBI_HSM_STATE_STARTED) 0x71783 4 (IsaAccess (X 15) 2 true) 1 (Fault 13 0x2002 0 0)) as [H _].
  - lia.
  - apply fw_ready_demo.
  - exact demo_bytes_wf.
  - unfold is_u64. lia.
  - reflexivity.
  - constructor; [unfold is_u64; cbn; lia|reflexivity|by left].
  - split; [constructor; done|done].
  - cbn. lia.
  - apply H; [reflexivity| |reflexivity]. intros i Hi. assert (i = 0) as -> by lia. reflexivity.
Defined.

(** The compressed stack stores C.SWSP and C.SDSP with a zero in bits 7 to 11
    (immediate bits of these stores) are valid instructions, but the handler
    does not emulate them: the supervisor gets a misaligned store.  See
    sbi_misaligned_ldst.c:199 and 207. *)
Theorem stack_store_not_emulated pl cur junk addr tval2 tinst r m d insn len a :
  0 <= cur < 128 -> fw_ready m -> bytes_wf (m_umem m) -> hart m cur = Some d ->
  redirectable (sbi_platform_misa_extension pl) r (hd_csrs d) ->
  trapped_on (m_umem m) (r_mepc r) tinst insn len -> isa_store insn = Some a -> rejected_store insn = true ->
  handed_over cur CAUSE_MISALIGNED_STORE addr r d (m_umem m)
    (sbi_misaligned_store_handler pl cur junk addr tval2 tinst r m).
Proof.
  intros Hc Hf W Hd Hr Ht Hi Hrej. unfold sbi_misaligned_store_handler.
  destruct (count_fw_pmu m cur SBI_PMU_FW_MISALIGNED_STORE Hf Hc) as (p & E & _); [done|].
  rewrite (bind_Ret _ _ _ _ _ E).
  destruct (trapped_insn_run junk tinst r (set_m_pmu p m) insn len W Ht) as (Et & Hu).
  rewrite (bind_Ret _ _ _ _ _ Et), bind_gets, decode_store_isa, Hrej by done.
  by apply (redirect_handed_over pl cur (Fault CAUSE_MISALIGNED_STORE addr tval2 tinst) r (set_m_pmu p m) d).
Qed.

(** [sdsp a5, 0(sp)] is such an instruction. *)
Example sdsp_zero_rejected : isa_store 0xe03e = Some (IsaAccess (X 15) 8 false) /\ rejected_store 0xe03e = true.
Proof. done. Qed.
