(* ===== verification/Emulate.v ===== *)
(** * Emulation of CSR instructions (lib/sbi/sbi_emulate_csr.c, lib/sbi/sbi_illegal_insn.c)

    An illegal-instruction trap ends here: the CSR instructions on counters and
    timers the hart does not have are emulated, everything else goes back to
    the supervisor.

    The theorems: a counter is readable exactly when the counter-enable
    registers of every mode above the reader let it; an emulated instruction
    reads the old value, writes the new one and steps over; what is not
    emulated is delivered as an illegal instruction. *)

From Stdlib Require Import ZArith Lia.
From stdpp Require Import base tactics list gmap numbers.
From S2P Require Import Prelude SbiDefs Bitops Csr Hart Pmu Machine Tlb Ipi Timer System Trap Unpriv Misaligned.

Definition CSR_HTIMEDELTA : Z := 0x605.
Definition CSR_HCOUNTEREN : Z := 0x606.
Definition CSR_CYCLE : Z := 0xc00.
Definition CSR_INSTRET : Z := 0xc02.
Definition CSR_HPMCOUNTER3 : Z := 0xc03.
Definition CSR_HPMCOUNTER31 : Z := 0xc1f.
Definition CSR_MINSTRET : Z := 0xb02.
Definition SBI_PMU_FW_ILLEGAL_INSN : Z := 4.

Section Emulate.
Context (pl : sbi_platform_operations) (cur junk : Z).

Definition this_read (c : Z) : M machine Z := on_hart cur (hart_csr (csr_read c)).

Definition hpm_allowed (hpm_num prev_mode : Z) (virt : bool) : M machine bool :=
  (hf <- thishart_features cur ;;
   cen <- (if prev_mode <=? PRV_S then
             if sbi_hart_has_feature hf SBI_HART_HAS_MCOUNTEREN then
               mcen <- this_read CSR_MCOUNTEREN ;;
               if virt then
                 hcen <- this_read CSR_HCOUNTEREN ;; ret (Z.land (Z.land u64_max mcen) hcen)
               else ret (Z.land u64_max mcen)
             else ret 0
           else ret u64_max) ;;
   cen <- (if prev_mode =? PRV_U then
             if sbi_hart_has_feature hf SBI_HART_HAS_SCOUNTEREN then
               scen <- this_read CSR_SCOUNTEREN ;; ret (Z.land cen scen)
             else ret 0
           else ret cen) ;;
   ret (truthy (Z.land (shr64 cen hpm_num) 1)))%sbi.

Definition prev_mode (r : sbi_trap_regs) : Z := shr64 (Z.land (r_mstatus r) MSTATUS_MPP) MSTATUS_MPP_SHIFT.
Definition prev_virt (r : sbi_trap_regs) : bool := truthy (Z.land (r_mstatus r) MSTATUS_MPV).

(** An error, or the value stored in [*csr_val]. *)
Definition sbi_emulate_csr_read (csr_num : Z) (r : sbi_trap_regs) : M machine (Z + Z) :=
  (let mode := prev_mode r in
   let virt := prev_virt r in
   if csr_num =? CSR_HTIMEDELTA then
     if (mode =? PRV_S) && negb virt then v <- sbi_timer_get_delta cur ;; ret (inr v)
     else ret (inl SBI_ENOTSUPP)
   else if csr_num =? CSR_CYCLE then
     ok <- hpm_allowed (csr_num - CSR_CYCLE) mode virt ;;
     if negb ok then ret (inl SBI_ENOTSUPP) else v <- this_read CSR_MCYCLE ;; ret (inr v)
   else if csr_num =? CSR_TIME then
     v <- (if virt then sbi_timer_virt_value cur else sbi_timer_value cur) ;; ret (inr v)
   else if csr_num =? CSR_INSTRET then
     ok <- hpm_allowed (csr_num - CSR_CYCLE) mode virt ;;
     if negb ok then ret (inl SBI_ENOTSUPP) else v <- this_read CSR_MINSTRET ;; ret (inr v)
   else if (CSR_HPMCOUNTER3 <=? csr_num) && (csr_num <=? CSR_HPMCOUNTER31) then
     hf <- thishart_features cur ;;
     if mhpm_count hf + 3 <=? csr_num - CSR_CYCLE then ret (inl SBI_ENOTSUPP)
     else
       ok <- hpm_allowed (csr_num - CSR_CYCLE) mode virt ;;
       if negb ok then ret (inl SBI_ENOTSUPP)
       else v <- this_read (CSR_MCYCLE + csr_num - CSR_CYCLE) ;; ret (inr v)
   else ret (inl SBI_ENOTSUPP))%sbi.

Definition sbi_emulate_csr_write (csr_num : Z) (r : sbi_trap_regs) (csr_val : Z) : M machine Z :=
  (if csr_num =? CSR_HTIMEDELTA then
     if (prev_mode r =? PRV_S) && negb (prev_virt r) then sbi_timer_set_delta cur csr_val ;;; ret 0
     else ret SBI_ENOTSUPP
   else ret SBI_ENOTSUPP)%sbi.

(** ** Illegal instructions *)

Definition truly_illegal_insn (insn : Z) (r : sbi_trap_regs) : M machine (Z * sbi_trap_regs) :=
  trap_redirect pl cur (TrapInfo (r_mepc r) CAUSE_ILLEGAL_INSTRUCTION insn 0 0) r.

(** The [switch] on the function: the new value and [do_write]. *)
Definition csr_update (insn rs1_num rs1_val csr_val : Z) : option (Z * bool) :=
  match GET_RM insn with
  | 1 => Some (rs1_val, true)
  | 2 => Some (Z.lor csr_val rs1_val, truthy rs1_num)
  | 3 => Some (Z.land csr_val (not64 rs1_val), truthy rs1_num)
  | 5 => Some (rs1_num, true)
  | 6 => Some (Z.lor csr_val rs1_num, truthy rs1_num)
  | 7 => Some (Z.land csr_val (not64 rs1_num), truthy rs1_num)
  | _ => None
  end.

Definition system_opcode_insn (insn : Z) (r : sbi_trap_regs) : M machine (Z * sbi_trap_regs) :=
  (let rs1_num := Z.land (shr64 insn 15) 0x1f in
   let rs1_val := GET_RS1 insn r in
   let csr_num := Z.shiftr (u32 insn) 20 in
   c <- sbi_emulate_csr_read csr_num r ;;
   match c with
   | inl _ => truly_illegal_insn insn r
   | inr csr_val =>
       match csr_update insn rs1_num rs1_val csr_val with
       | None => truly_illegal_insn insn r
       | Some (new_csr_val, do_write) =>
           rc <- (if do_write then sbi_emulate_csr_write csr_num r new_csr_val else ret 0) ;;
           if truthy rc then truly_illegal_insn insn r
           else
             let r := SET_RD insn csr_val r in
             ret (0, set_mepc (add64 (r_mepc r) 4) r)
       end
   end)%sbi.

Definition illegal_insn_table : list (Z → sbi_trap_regs → M machine (Z * sbi_trap_regs)) :=
  replicate 28 truly_illegal_insn ++ [system_opcode_insn] ++ replicate 3 truly_illegal_insn.

Definition call_illegal_insn (insn : Z) (r : sbi_trap_regs) : M machine (Z * sbi_trap_regs) :=
  match illegal_insn_table !! Z.to_nat (shr64 (Z.land insn 0x7c) 2) with
  | Some f => f insn r
  | None => stop wild_access
  end.

Definition sbi_illegal_insn_handler (insn : Z) (r : sbi_trap_regs) : M machine (Z * sbi_trap_regs) :=
  (count_fw cur SBI_PMU_FW_ILLEGAL_INSN ;;;
   if negb (Z.land insn 3 =? 3) then
     p <- sbi_get_insn junk (r_mepc r) ;;
     match snd p with
     | Some f => redirect_fault pl cur f r
     | None =>
         let insn := fst p in
         if negb (Z.land insn 3 =? 3) then truly_illegal_insn insn r else call_illegal_insn insn r
     end
   else call_illegal_insn insn r)%sbi.

End Emulate.

(** ** What is emulated *)

(** Counter [k] is open to the mode: mcounteren lets the modes below M have it,
    hcounteren a guest, scounteren U-mode. *)
Definition counter_open (d : hart_data) (mode : Z) (virt : bool) (k : Z) : bool :=
  let bit c := Z.testbit (cval (hd_csrs d) c) k in
  ((PRV_S <? mode) ||
   (sbi_hart_has_feature (hd_features d) SBI_HART_HAS_MCOUNTEREN && bit CSR_MCOUNTEREN &&
    (negb virt || bit CSR_HCOUNTEREN))) &&
  (negb (mode =? PRV_U) ||
   (sbi_hart_has_feature (hd_features d) SBI_HART_HAS_SCOUNTEREN && bit CSR_SCOUNTEREN)).

(** The time the platform gives. *)
Definition time_now (m : machine) (d : hart_data) : Z :=
  match m_get_time_val m with
  | None => 0
  | Some get_ticks => cval (hd_csrs d) CSR_TIME
  | Some get_platform_ticks => m_mtime m
  end.

(** The value the emulation gives to a CSR, when it has one. *)
Definition emulated_csr (m : machine) (d : hart_data) (mode : Z) (virt : bool) (csr : Z) : option Z :=
  let k := csr - 0xc00 in
  if csr =? CSR_HTIMEDELTA then if (mode =? PRV_S) && negb virt then Some (hd_time_delta d) else None
  else if csr =? CSR_TIME then Some (if virt then add64 (time_now m d) (hd_time_delta d) else time_now m d)
  else if (0 <=? k) && (k <? 32) && (k <? Z.max 3 (mhpm_count (hd_features d) + 3)) && counter_open d mode virt k
  then Some (cval (hd_csrs d) (0xb00 + k))
  else None.

(** The CSR instructions of the manual: read-write, set and clear, with a
    register or with an immediate; set and clear of nothing do not write. *)
Definition csr_op (f3 rs1 val old : Z) : option (Z * bool) :=
  let arg := if 4 <=? f3 then rs1 else val in
  let op := f3 mod 4 in
  if op =? 0 then None
  else Some (if op =? 1 then arg else if op =? 2 then Z.lor old arg else Z.land old (not64 arg),
             (op =? 1) || negb (rs1 =? 0)).

Lemma shr_bit x k : 0 <= k < 64 -> truthy (Z.land (shr64 x k) 1) = Z.testbit x k.
Proof.
  intros Hk. change 1 with (2 ^ 0). rewrite truthy_land_bit by lia. unfold shr64.
  by rewrite Z.mod_small, Z.shiftr_spec by lia.
Qed.

Lemma testbit_u64_max k : 0 <= k < 64 -> Z.testbit u64_max k = true.
Proof. intros Hk. change u64_max with (Z.ones 64). apply Z.ones_spec_low. lia. Qed.

Lemma this_read_run cur c m d :
  hart m cur = Some d -> this_read cur c m = (Ret (cval (hd_csrs d) c), m).
Proof.
  intros Hd. apply (on_hart_read _ _ _ d); [done|]. unfold hart_csr, zoom, csr_read, gets. by destruct d.
Qed.

Lemma hpm_allowed_run cur k mode virt m d :
  hart m cur = Some d -> 0 <= k < 64 ->
  hpm_allowed cur k mode virt m = (Ret (counter_open d mode virt k), m).
Proof.
  intros Hd Hk. unfold hpm_allowed, counter_open, thishart_features.
  rewrite (bind_Ret _ _ _ _ _ (on_hart_read cur (gets hd_features) m d _ Hd eq_refl)).
  pose proof (λ c, this_read_run cur c m d Hd) as Hr.
  destruct (Z.leb_spec mode PRV_S); destruct (Z.ltb_spec PRV_S mode); try lia; cbn [orb andb negb].
  - destruct (sbi_hart_has_feature (hd_features d) SBI_HART_HAS_MCOUNTEREN);
      [|rewrite bind_ret_l; cbn [andb]; destruct (mode =? PRV_U);
        [destruct (sbi_hart_has_feature _ _); [rewrite bind_assoc, (bind_Ret _ _ _ _ _ (Hr _))|]|];
        rewrite bind_ret_l; unfold ret; by rewrite shr_bit, ?Z.land_0_l, Z.bits_0 by lia].
    rewrite bind_assoc, (bind_Ret _ _ _ _ _ (Hr _)). destruct virt; cbn [negb orb andb];
      [rewrite bind_assoc, (bind_Ret _ _ _ _ _ (Hr _))|]; rewrite bind_ret_l;
      (destruct (mode =? PRV_U); cbn [negb orb andb];
        [destruct (sbi_hart_has_feature _ _); cbn [andb]; [rewrite bind_assoc, (bind_Ret _ _ _ _ _ (Hr _))|]|]);
      rewrite bind_ret_l; unfold ret; rewrite shr_bit by lia;
      rewrite ?Z.land_spec, ?testbit_u64_max, ?Z.bits_0, ?andb_true_r, ?andb_false_r by lia; done.
  - rewrite bind_ret_l. replace (mode =? PRV_U) with false by (symmetry; apply Z.eqb_neq; unfold PRV_U, PRV_S in *; lia).
    rewrite bind_ret_l. unfold ret. by rewrite shr_bit, testbit_u64_max by lia.
Qed.

Lemma csr_read_emulated cur csr r m d :
  hart m cur = Some d ->
  sbi_emulate_csr_read cur csr r m =
    (Ret (match emulated_csr m d (prev_mode r) (prev_virt r) csr with Some v => inr v | None => inl SBI_ENOTSUPP end), m).
Proof.
  intros Hd. unfold sbi_emulate_csr_read, emulated_csr. cbv zeta.
  pose proof (λ c, this_read_run cur c m d Hd) as Hr.
  destruct (Z.eqb_spec csr CSR_HTIMEDELTA) as [->|].
  { case_if; [|done]. unfold sbi_timer_get_delta.
    by rewrite (bind_Ret _ _ _ _ _ (on_hart_read cur (gets hd_time_delta) m d _ Hd eq_refl)). }
  assert (Htv : sbi_timer_value cur m = (Ret (time_now m d), m)).
  { unfold sbi_timer_value, time_now. rewrite bind_gets. destruct (m_get_time_val m) as [[]|]; [|done|done]. apply Hr. }
  assert (Hopen : forall k, 0 <= k < 64 -> hpm_allowed cur k (prev_mode r) (prev_virt r) m =
    (Ret (counter_open d (prev_mode r) (prev_virt r) k), m)) by (intros; by apply hpm_allowed_run).
  destruct (Z.eqb_spec csr CSR_CYCLE) as [->|].
  { rewrite (bind_Ret _ _ _ _ _ (Hopen (CSR_CYCLE - CSR_CYCLE) ltac:(unfold CSR_CYCLE; lia))).
    change (CSR_CYCLE - CSR_CYCLE) with 0. change (CSR_CYCLE - 0xc00) with 0. change (CSR_CYCLE =? CSR_TIME) with false.
    cbn [andb Z.leb Z.ltb Z.compare]. replace (0 <? Z.max 3 (mhpm_count (hd_features d) + 3)) with true
      by (symmetry; apply Z.ltb_lt; lia).
    cbn [andb]. destruct (counter_open _ _ _ 0); [|done]. cbn [negb]. by rewrite (bind_Ret _ _ _ _ _ (Hr _)). }
  destruct (Z.eqb_spec csr CSR_TIME) as [->|].
  { destruct (prev_virt r); [|by rewrite (bind_Ret _ _ _ _ _ Htv)]. unfold sbi_timer_virt_value.
    rewrite bind_assoc, (bind_Ret _ _ _ _ _ Htv), bind_assoc.
    by rewrite (bind_Ret _ _ _ _ _ (on_hart_read cur (gets hd_time_delta) m d _ Hd eq_refl)). }
  destruct (Z.eqb_spec csr CSR_INSTRET) as [->|].
  { rewrite (bind_Ret _ _ _ _ _ (Hopen (CSR_INSTRET - CSR_CYCLE) ltac:(unfold CSR_CYCLE, CSR_INSTRET; lia))).
    change (CSR_INSTRET - CSR_CYCLE) with 2. change (CSR_INSTRET - 0xc00) with 2.
    cbn [andb Z.leb Z.ltb Z.compare Pos.compare Pos.compare_cont].
    replace (2 <? Z.max 3 (mhpm_count (hd_features d) + 3)) with true by (symmetry; apply Z.ltb_lt; lia).
    cbn [andb]. destruct (counter_open _ _ _ 2); [|done]. cbn [negb]. by rewrite (bind_Ret _ _ _ _ _ (Hr _)). }
  unfold CSR_CYCLE, CSR_TIME, CSR_INSTRET, CSR_HPMCOUNTER3, CSR_HPMCOUNTER31 in *.
  destruct ((0xc03 <=? csr) && (csr <=? 0xc1f)) eqn:Eb; zbool.
  - unfold thishart_features.
    rewrite (bind_Ret _ _ _ _ _ (on_hart_read cur (gets hd_features) m d _ Hd eq_refl)).
    replace ((0 <=? csr - 3072) && (csr - 3072 <? 32)) with true
      by (symmetry; rewrite andb_true_iff, Z.leb_le, Z.ltb_lt; lia). cbn [andb].
    destruct (Z.leb_spec (mhpm_count (hd_features d) + 3) (csr - 3072));
      destruct (Z.ltb_spec (csr - 3072) (Z.max 3 (mhpm_count (hd_features d) + 3))); try lia; [done|]. cbn [andb].
    rewrite (bind_Ret _ _ _ _ _ (Hopen (csr - 3072) ltac:(lia))). destruct (counter_open _ _ _ _); [|done]. cbn [negb].
    rewrite (bind_Ret _ _ _ _ _ (Hr _)). unfold ret. do 4 f_equal. change CSR_MCYCLE with 0xb00. lia.
  - replace ((0 <=? csr - 3072) && (csr - 3072 <? 32)) with false; [done|]. symmetry. apply not_true_iff_false.
    intros Hx. zbool. apply andb_false_iff in Eb as [Eb|Eb]; zbool; lia.
Qed.

(** ** The instruction *)

Lemma prev_mode_field r : prev_mode r = Z.land (Z.shiftr (r_mstatus r) 11) 3.
Proof. unfold prev_mode, shr64. change (MSTATUS_MPP_SHIFT mod 64) with 11. by rewrite Z.shiftr_land. Qed.

Lemma get_rm_field insn : GET_RM insn = field insn 12 3.
Proof. unfold GET_RM, shr64. change (12 mod 64) with 12. change 7 with (2 ^ 3 - 1). by rewrite field_shiftr by lia. Qed.

Lemma csr_update_op insn rs1 val old :
  csr_update insn rs1 val old = csr_op (field insn 12 3) rs1 val old.
Proof.
  unfold csr_update, csr_op. rewrite get_rm_field. pose proof (field_range insn 12 3 ltac:(lia)) as Hf.
  change (2 ^ 3) with 8 in Hf. field_cases Hf; rewrite Hf; done.
Qed.

Lemma csr_num_field insn : Z.shiftr (u32 insn) 20 = field insn 20 12.
Proof.
  unfold u32. rewrite <- (field_shiftr insn) by lia. rewrite <- (land_ones_mod insn 32) by lia.
  rewrite Z.shiftr_land. done.
Qed.

(** The opcode of the CSR instructions. *)
Definition OP_SYSTEM : Z := 0x73.

Lemma table_index insn : shr64 (Z.land insn 0x7c) 2 = field insn 2 5.
Proof.
  unfold shr64. change (2 mod 64) with 2. rewrite Z.shiftr_land. change (Z.shiftr 0x7c 2) with (2 ^ 5 - 1).
  by rewrite field_shiftr by lia.
Qed.

Lemma field_split insn : field insn 0 7 = field insn 0 2 + 4 * field insn 2 5.
Proof.
  unfold field. rewrite Z.pow_0_r, Z.div_1_r. change (2 ^ 7) with (4 * 32). change (2 ^ 2) with 4. change (2 ^ 5) with 32.
  by rewrite Z.rem_mul_r by lia.
Qed.

Lemma call_illegal_dispatch pl cur insn r :
  field insn 0 2 = 3 ->
  call_illegal_insn pl cur insn r =
    if field insn 0 7 =? OP_SYSTEM then system_opcode_insn pl cur insn r else truly_illegal_insn pl cur insn r.
Proof.
  intros Hq. unfold call_illegal_insn. rewrite table_index, (field_split insn), Hq.
  pose proof (field_range insn 2 5 ltac:(lia)) as Hf. change (2 ^ 5) with 32 in Hf.
  field_cases Hf; rewrite Hf; reflexivity.
Qed.

(** The handler is entered with [w] (the trapped instruction, or something that
    cannot be one) for the 32-bit instruction [insn]. *)
Definition illegal_on (u : user_view) (mepc w insn : Z) : Prop :=
  field insn 0 2 = 3 /\
  if field w 0 2 =? 3 then w = insn else fetchable u mepc /\ insn = parcel u mepc.

Lemma land_3_field x : Z.land x 3 = field x 0 2.
Proof. rewrite <- field_shiftr by lia. by rewrite Z.shiftr_0_r. Qed.

Lemma illegal_handler_run pl cur junk w insn r m :
  0 <= cur < 128 -> fw_ready m -> bytes_wf (m_umem m) -> illegal_on (m_umem m) (r_mepc r) w insn ->
  exists p, sbi_illegal_insn_handler pl cur junk w r m = call_illegal_insn pl cur insn r (set_m_pmu p m).
Proof.
  intros Hc Hf W [Hq Hw]. unfold sbi_illegal_insn_handler.
  destruct (count_fw_pmu m cur SBI_PMU_FW_ILLEGAL_INSN Hf Hc) as (p & E & _); [done|].
  rewrite (bind_Ret _ _ _ _ _ E). exists p. rewrite land_3_field.
  destruct (field w 0 2 =? 3); [by subst|]. destruct Hw as [[H1 H2 H3] ->]. cbn [negb].
  unfold sbi_get_insn. rewrite bind_gets. change (m_umem (set_m_pmu p m)) with (m_umem m).
  rewrite (get_insn_reads _ junk _ W H1 H2 H3). cbn [fst snd fmap option_fmap option_map].
  by rewrite land_3_field, Hq.
Qed.

Lemma truly_illegal_handed_over pl cur insn r m d :
  hart m cur = Some d -> redirectable (sbi_platform_misa_extension pl) r (hd_csrs d) ->
  handed_over cur CAUSE_ILLEGAL_INSTRUCTION insn r d (m_umem m) (truly_illegal_insn pl cur insn r m).
Proof. intros Hd Hr. by apply (redirect_handed_over pl cur (Fault CAUSE_ILLEGAL_INSTRUCTION insn 0 0)). Qed.

Lemma csr_write_emulated cur csr r v m d :
  hart m cur = Some d ->
  sbi_emulate_csr_write cur csr r v m =
    if (csr =? CSR_HTIMEDELTA) && ((prev_mode r =? PRV_S) && negb (prev_virt r))
    then (Ret 0, put_hart cur (hd_set_time_delta v d) m) else (Ret SBI_ENOTSUPP, m).
Proof.
  intros Hd. unfold sbi_emulate_csr_write. destruct (csr =? CSR_HTIMEDELTA); [|done]. cbn [andb].
  case_if; [|done]. unfold sbi_timer_set_delta. by rewrite (bind_on_hart cur _ _ m d tt (hd_set_time_delta v d) Hd eq_refl).
Qed.

(** [C31] The emulation of CSR instructions follows the manual: an illegal
    instruction trap for a CSR instruction, found in mtval or fetched, on a CSR
    the emulation gives a value (the time, an open counter, the time delta for
    HS-mode) puts the old value in the destination register and steps over the
    instruction; when the instruction writes, the time delta gets the written,
    set or cleared value, and a write to any other CSR is delivered to the
    supervisor as an illegal instruction, as is any other use of the opcode. *)
Theorem csr_insn_emulated pl cur junk w insn r m d :
  0 <= cur < 128 -> fw_ready m -> bytes_wf (m_umem m) -> hart m cur = Some d ->
  redirectable (sbi_platform_misa_extension pl) r (hd_csrs d) ->
  is_u64 insn -> illegal_on (m_umem m) (r_mepc r) w insn -> field insn 0 7 = OP_SYSTEM ->
  let csr := field insn 20 12 in
  let rs1 := field insn 15 5 in
  let o := sbi_illegal_insn_handler pl cur junk w r m in
  let illegal := handed_over cur CAUSE_ILLEGAL_INSTRUCTION insn r d (m_umem m) o in
  match emulated_csr m d (prev_mode r) (prev_virt r) csr with
  | None => illegal
  | Some old =>
      match csr_op (field insn 12 3) rs1 (reg (Z.to_nat rs1) r) old with
      | None => illegal
      | Some (new, write) =>
          if write && negb (csr =? CSR_HTIMEDELTA) then illegal
          else exists p,
            o = (Ret (0, set_mepc (add64 (r_mepc r) 4) (set_reg (Z.to_nat (field insn 7 5)) old r)),
                 if write then put_hart cur (hd_set_time_delta new d) (set_m_pmu p m) else set_m_pmu p m)
      end
  end.
Proof.
  intros Hc Hf W Hd Hr Hu Ho Hop csr rs1 o illegal.
  destruct (illegal_handler_run pl cur junk w insn r m Hc Hf W Ho) as (p & E). destruct Ho as [Hq _].
  subst illegal o. rewrite E, call_illegal_dispatch, Hop by done. clear E. change (OP_SYSTEM =? OP_SYSTEM) with true. cbv iota.
  pose proof (λ x, truly_illegal_handed_over pl cur x r (set_m_pmu p m) d Hd Hr) as Hill.
  change (m_umem (set_m_pmu p m)) with (m_umem m) in Hill.
  unfold system_opcode_insn. rewrite csr_num_field. fold csr.
  rewrite (bind_Ret _ _ _ _ _ (csr_read_emulated cur csr r (set_m_pmu p m) d Hd)).
  change (emulated_csr (set_m_pmu p m) d) with (emulated_csr m d).
  destruct (emulated_csr m d (prev_mode r) (prev_virt r) csr) as [old|] eqn:Ev; [|apply Hill].
  assert (Ers : Z.land (shr64 insn 15) 0x1f = rs1).
  { unfold shr64. change (15 mod 64) with 15. change 0x1f with (2 ^ 5 - 1). apply field_shiftr; lia. }
  assert (Erv : GET_RS1 insn r = reg (Z.to_nat rs1) r).
  { unfold GET_RS1. rewrite reg_index_field by (done || (unfold SH_RS1; lia)). done. }
  rewrite Ers, Erv, csr_update_op.
  destruct (csr_op (field insn 12 3) rs1 (reg (Z.to_nat rs1) r) old) as [[new write]|]; [|apply Hill].
  assert (Erd : SET_RD insn old r = set_reg (Z.to_nat (field insn 7 5)) old r).
  { unfold SET_RD. rewrite reg_index_field by (done || (unfold SH_RD; lia)). done. }
  destruct write; cbn [andb].
  - destruct (Z.eqb_spec csr CSR_HTIMEDELTA) as [Ec|Ec]; cbn [negb].
    + assert (Hm : (prev_mode r =? PRV_S) && negb (prev_virt r) = true).
      { unfold emulated_csr in Ev. rewrite Ec in Ev. change (CSR_HTIMEDELTA =? CSR_HTIMEDELTA) with true in Ev. cbv iota in Ev.
        by destruct ((prev_mode r =? PRV_S) && negb (prev_virt r)). }
      exists p. pose proof (csr_write_emulated cur csr r new (set_m_pmu p m) d Hd) as Ew.
      rewrite Ec, Hm in Ew. change (CSR_HTIMEDELTA =? CSR_HTIMEDELTA) with true in Ew. cbn [andb] in Ew. rewrite Ec.
      rewrite (bind_Ret _ _ _ _ _ Ew). cbn [truthy Z.eqb negb]. by rewrite Erd.
    + pose proof (csr_write_emulated cur csr r new (set_m_pmu p m) d Hd) as Ew.
      rewrite (proj2 (Z.eqb_neq _ _) Ec) in Ew. cbn [andb] in Ew. rewrite (bind_Ret _ _ _ _ _ Ew). apply Hill.
  - exists p. rewrite bind_ret_l. cbn [truthy Z.eqb negb]. by rewrite Erd.
Qed.

(** [rdtime a5] on the demonstration machine, from the instruction in mtval. *)
Lemma csr_insn_emulated_witness :
  exists p, sbi_illegal_insn_handler bare_platform 0 0 0xc01027f3 demo_regs demo_user =
    (Ret (0, TrapRegs (<[15%nat := 0]> (replicate 32 7)) 0x1004 0x800), set_m_pmu p demo_user).
Proof.
  exact (csr_insn_emulated bare_platform 0 0 0xc01027f3 0xc01027f3 demo_regs demo_user (demo_hart SBI_HSM_STATE_STARTED)
    ltac:(lia) fw_ready_demo demo_bytes_wf eq_refl
    ltac:(constructor; [unfold is_u64; cbn; lia|reflexivity|by left]) ltac:(unfold is_u64; lia)
    (conj eq_refl eq_refl) eq_refl).
Defined.

(** Every other instruction of 32 bits goes back to the supervisor. *)
Lemma other_insn_illegal pl cur junk w insn r m d :
  0 <= cur < 128 -> fw_ready m -> bytes_wf (m_umem m) -> hart m cur = Some d ->
  redirectable (sbi_platform_misa_extension pl) r (hd_csrs d) ->
  illegal_on (m_umem m) (r_mepc r) w insn -> field insn 0 7 <> OP_SYSTEM ->
  handed_over cur CAUSE_ILLEGAL_INSTRUCTION insn r d (m_umem m) (sbi_illegal_insn_handler pl cur junk w r m).
Proof.
  intros Hc Hf W Hd Hr Ho Hop. destruct (illegal_handler_run pl cur junk w insn r m Hc Hf W Ho) as (p & E).
  rewrite E, call_illegal_dispatch, (proj2 (Z.eqb_neq _ _) Hop) by apply Ho.
  by apply (truly_illegal_handed_over pl cur insn r (set_m_pmu p m)).
Qed.
