(* ===== verification/Ecall.v ===== *)
(** * The supervisor call interface (lib/sbi/sbi_ecall*.c)

    The table of extensions, the dispatcher, and the handler of every extension
    of the tree: base, time, IPI, rfence, HSM, system reset, PMU, the legacy
    calls and the vendor range.

    The theorems: the registered ranges never overlap, so at most one extension
    answers a call; a call returns to the instruction after the ecall with its
    result in a0 and a1, every other register as it was, and an error code of
    the specification; a call of an unknown extension has no effect but
    "not supported". *)

From Stdlib Require Import ZArith Lia.
From stdpp Require Import base tactics list gmap numbers.
From S2P Require Import Prelude SbiDefs Bitops Locks Fifo Scratch Domain Csr Hart Pmu Machine Hsm Tlb Ipi Timer System Trap Unpriv.

(** ** Numbers of the interface (include/sbi/sbi_ecall_interface.h) *)

Definition SBI_EXT_0_1_SET_TIMER : Z := 0.
Definition SBI_EXT_0_1_CONSOLE_PUTCHAR : Z := 1.
Definition SBI_EXT_0_1_CONSOLE_GETCHAR : Z := 2.
Definition SBI_EXT_0_1_CLEAR_IPI : Z := 3.
Definition SBI_EXT_0_1_SEND_IPI : Z := 4.
Definition SBI_EXT_0_1_REMOTE_FENCE_I : Z := 5.
Definition SBI_EXT_0_1_REMOTE_SFENCE_VMA : Z := 6.
Definition SBI_EXT_0_1_REMOTE_SFENCE_VMA_ASID : Z := 7.
Definition SBI_EXT_0_1_SHUTDOWN : Z := 8.
Definition SBI_EXT_BASE : Z := 0x10.
Definition SBI_EXT_TIME : Z := 0x54494D45.
Definition SBI_EXT_IPI : Z := 0x735049.
Definition SBI_EXT_RFENCE : Z := 0x52464E43.
Definition SBI_EXT_HSM : Z := 0x48534D.
Definition SBI_EXT_SRST : Z := 0x53525354.
Definition SBI_EXT_PMU : Z := 0x504D55.
Definition SBI_EXT_VENDOR_START : Z := 0x09000000.
Definition SBI_EXT_VENDOR_END : Z := 0x09FFFFFF.

Definition SBI_ECALL_VERSION_MAJOR : Z := 0.
Definition SBI_ECALL_VERSION_MINOR : Z := 3.
Definition OPENSBI_VERSION : Z := 9.
Definition CSR_MVENDORID : Z := 0xf11.
Definition CSR_MARCHID : Z := 0xf12.
Definition CSR_MIMPID : Z := 0xf13.
Definition SBI_SRST_RESET_TYPE_LAST : Z := 2.

(** ** The static extension objects *)

Definition ecall_time := EcallExt 0 SBI_EXT_TIME SBI_EXT_TIME (Some ecall_time_fn) None.
Definition ecall_rfence := EcallExt 1 SBI_EXT_RFENCE SBI_EXT_RFENCE (Some ecall_rfence_fn) None.
Definition ecall_ipi := EcallExt 2 SBI_EXT_IPI SBI_EXT_IPI (Some ecall_ipi_fn) None.
Definition ecall_base := EcallExt 3 SBI_EXT_BASE SBI_EXT_BASE (Some ecall_base_fn) None.
Definition ecall_hsm := EcallExt 4 SBI_EXT_HSM SBI_EXT_HSM (Some ecall_hsm_fn) None.
Definition ecall_srst := EcallExt 5 SBI_EXT_SRST SBI_EXT_SRST (Some ecall_srst_fn) (Some ecall_srst_fn).
Definition ecall_pmu := EcallExt 6 SBI_EXT_PMU SBI_EXT_PMU (Some ecall_pmu_fn) (Some ecall_pmu_fn).
Definition ecall_legacy :=
  EcallExt 7 SBI_EXT_0_1_SET_TIMER SBI_EXT_0_1_SHUTDOWN (Some ecall_legacy_fn) None.
Definition ecall_vendor :=
  EcallExt 8 SBI_EXT_VENDOR_START SBI_EXT_VENDOR_END (Some ecall_vendor_fn) (Some ecall_vendor_fn).

(** ** The table *)

Definition sbi_ecall_get_impid : M machine Z := gets m_impid.

Definition sbi_ecall_set_impid (impid : Z) : M machine unit := modify (set_impid impid).

Definition ext_has (extid : Z) (t : sbi_ecall_extension) : bool :=
  (extid_start t <=? extid) && (extid <=? extid_end t).

Fixpoint find_ext (l : list sbi_ecall_extension) (extid : Z) : option sbi_ecall_extension :=
  match l with
  | [] => None
  | t :: l' => if ext_has extid t then Some t else find_ext l' extid
  end.

Definition sbi_ecall_find_extension (extid : Z) : M machine (option sbi_ecall_extension) :=
  gets (λ m, find_ext (m_exts m) extid).

(** The test of the registration loop. *)
Definition no_overlap (ext t : sbi_ecall_extension) : bool :=
  (extid_end t <? extid_start ext) || (extid_end ext <? extid_start t).

Definition sbi_ecall_register_extension (ext : option sbi_ecall_extension) : M machine Z :=
  λ m, match ext with
       | None => (Ret SBI_EINVAL, m)
       | Some e =>
           if (extid_end e <? extid_start e) || (match ext_handle e with None => true | Some _ => false end)
           then (Ret SBI_EINVAL, m)
           else if forallb (no_overlap e) (m_exts m) then (Ret 0, set_exts (m_exts m ++ [e]) m)
           else (Ret SBI_EINVAL, m)
       end.

Definition same_obj (a b : sbi_ecall_extension) : bool := Nat.eqb (ext_obj a) (ext_obj b).

(** Remove the object from the list, when it is there. *)
Fixpoint remove_obj (e : sbi_ecall_extension) (l : list sbi_ecall_extension) : list sbi_ecall_extension :=
  match l with
  | [] => []
  | t :: l' => if same_obj t e then l' else t :: remove_obj e l'
  end.

Definition sbi_ecall_unregister_extension (ext : option sbi_ecall_extension) : M machine unit :=
  match ext with
  | None => ret tt
  | Some e => modify (λ m, set_exts (remove_obj e (m_exts m)) m)
  end.

(** Register in order, stopping at the first error. *)
Fixpoint register_all (l : list sbi_ecall_extension) : M machine Z :=
  match l with
  | [] => ret 0
  | e :: l' =>
      (r <- sbi_ecall_register_extension (Some e) ;;
       if truthy r then ret r else register_all l')%sbi
  end.

Definition all_extensions : list sbi_ecall_extension :=
  [ecall_time; ecall_rfence; ecall_ipi; ecall_base; ecall_hsm; ecall_srst; ecall_pmu; ecall_legacy; ecall_vendor].

Definition sbi_ecall_init : M machine Z := register_all all_extensions.

(** ** Handlers

    A handler returns its code, the value stored in [*out_val] (when it stores
    one) and the trap stored in [*out_trap] (all but its epc). *)
Record ecall_result : Type := EcallResult {
  res_code : Z;
  res_out : option Z;
  res_trap : option access_fault;
}.

Definition code (r : Z) : ecall_result := EcallResult r None None.
Definition value (v : Z) : ecall_result := EcallResult 0 (Some v) None.

(** [if (ret >= 0) { *out_val = ret; ret = 0; }] *)
Definition value_or_error (r : Z) : ecall_result := if 0 <=? r then value r else code r.

Section Handlers.
Context (world : machine → machine) (polls : nat) (pl : sbi_platform_operations) (depth : nat).
Context (cur : Z).

#[local] Instance ecall_handlers : EventHandlers := sbi_handlers world polls (sbi_exit world polls pl depth).

Definition this_csr {A} (c : M csr_file A) : M machine A := on_hart cur (hart_csr c).

Definition this_misa (letter : Z) : M machine bool :=
  this_csr (misa_extension (sbi_platform_misa_extension pl) letter).

(** *** Time *)

Definition sbi_ecall_time_handler (funcid : Z) (r : sbi_trap_regs) : M machine ecall_result :=
  (if funcid =? 0 then sbi_timer_event_start cur (a0 r) ;;; ret (code 0)
   else ret (code SBI_ENOTSUPP))%sbi.

(** *** IPI *)

Definition sbi_ecall_ipi_handler (funcid : Z) (r : sbi_trap_regs) : M machine ecall_result :=
  (if funcid =? 0 then rc <- sbi_ipi_send_smode cur (a0 r) (a1 r) ;; ret (code rc)
   else ret (code SBI_ENOTSUPP))%sbi.

(** *** Remote fences *)

(** SBI_TLB_INFO_INIT with this hart as the source. *)
Definition tlb_info_init (start size asid vmid : Z) (fn : local_fn_name) : sbi_tlb_info :=
  TlbInfo start size asid vmid (Some fn) (SBI_HARTMASK_INIT_EXCEPT cur).

Definition rfence (r : sbi_trap_regs) (t : sbi_tlb_info) : M machine ecall_result :=
  (rc <- sbi_tlb_request world polls pl depth cur (a0 r) (a1 r) t ;; ret (code rc))%sbi.

(** The VMID of the hgatp register. *)
Definition current_vmid : M machine Z :=
  (g <- this_csr (csr_read CSR_HGATP) ;;
   ret (shr64 (Z.land g HGATP_VMID_MASK) HGATP_VMID_SHIFT))%sbi.

Definition sbi_ecall_rfence_handler (funcid : Z) (r : sbi_trap_regs) : M machine ecall_result :=
  (h <- (if (3 <=? funcid) && (funcid <=? 6) then this_misa 72 else ret true) ;;
   if negb h then ret (code SBI_ENOTSUPP)
   else if funcid =? 0 then rfence r (tlb_info_init 0 0 0 0 local_fence_i)
   else if funcid =? 4 then rfence r (tlb_info_init (a2 r) (a3 r) 0 0 local_hfence_gvma)
   else if funcid =? 3 then rfence r (tlb_info_init (a2 r) (a3 r) 0 (a4 r) local_hfence_gvma_vmid)
   else if funcid =? 6 then
     vmid <- current_vmid ;; rfence r (tlb_info_init (a2 r) (a3 r) 0 vmid local_hfence_vvma)
   else if funcid =? 5 then
     vmid <- current_vmid ;; rfence r (tlb_info_init (a2 r) (a3 r) (a4 r) vmid local_hfence_vvma_asid)
   else if funcid =? 1 then rfence r (tlb_info_init (a2 r) (a3 r) 0 0 local_sfence_vma)
   else if funcid =? 2 then rfence r (tlb_info_init (a2 r) (a3 r) (a4 r) 0 local_sfence_vma_asid)
   else ret (code SBI_ENOTSUPP))%sbi.

(** *** Hart state management *)

Definition sbi_ecall_hsm_handler (funcid : Z) (r : sbi_trap_regs) : M machine ecall_result :=
  (mstatus <- this_csr (csr_read CSR_MSTATUS) ;;
   let smode := shr64 (Z.land mstatus MSTATUS_MPP) MSTATUS_MPP_SHIFT in
   dom <- domain_ptr cur ;;
   rc <- (if funcid =? 0 then sbi_hsm_hart_start cur dom (u32 (a0 r)) (a1 r) smode (a2 r)
          else if funcid =? 1 then sbi_hsm_hart_stop (sbi_exit world polls pl depth cur) cur true
          else if funcid =? 2 then sbi_hsm_hart_get_state dom (u32 (a0 r))
          else if funcid =? 3 then sbi_hsm_hart_suspend cur (u32 (a0 r)) (a1 r) smode (a2 r)
          else ret SBI_ENOTSUPP) ;;
   ret (value_or_error rc))%sbi.

(** *** System reset *)

Definition sbi_ecall_srst_handler (funcid : Z) (r : sbi_trap_regs) : M machine ecall_result :=
  (if funcid =? 0 then
     if (2 ^ 32 - 1 <=? a0 r) || (2 ^ 32 - 1 <=? a1 r) then ret (code SBI_EINVAL)
     else if negb ((a0 r =? 0) || (a0 r =? 1) || (a0 r =? 2)) then ret (code SBI_EINVAL)
     else if negb ((a1 r =? 0) || (a1 r =? 1)) then ret (code SBI_EINVAL)
     else
       supported <- sbi_system_reset_supported (a0 r) (a1 r) ;;
       (if supported : bool then sbi_system_reset world polls pl depth cur (a0 r) (a1 r) else ret tt) ;;;
       ret (code SBI_ENOTSUPP)
   else ret (code SBI_ENOTSUPP))%sbi.

(** The number of supported reset types among those of the list. *)
Fixpoint srst_count (types : list Z) (count : Z) : M machine Z :=
  match types with
  | [] => ret count
  | t :: types' =>
      (s <- sbi_system_reset_supported t 0 ;;
       srst_count types' (if (s : bool) then u32 (count + 1) else count))%sbi
  end.

Definition sbi_ecall_srst_probe : M machine ecall_result :=
  (count <- srst_count (seqZ 0 (SBI_SRST_RESET_TYPE_LAST + 1)) 0 ;;
   ret (value (if truthy count then 1 else 0)))%sbi.

(** *** Performance counters *)

Definition sbi_ecall_pmu_handler (funcid : Z) (r : sbi_trap_regs) : M machine ecall_result :=
  (hf <- thishart_features cur ;;
   let xlate := sbi_platform_pmu_xlate_to_mhpmevent pl in
   if funcid =? 0 then rc <- on_pmu sbi_pmu_num_ctr ;; ret (value_or_error (s32 rc))
   else if funcid =? 1 then
     p <- on_hart_pmu cur (sbi_pmu_ctr_get_info (mhpm_bits hf) (u32 (a0 r))) ;; ret (EcallResult (fst p) (snd p) None)
   else if funcid =? 2 then
     rc <- on_hart_pmu cur (sbi_pmu_ctr_cfg_match cur xlate (a0 r) (a1 r) (a2 r) (a3 r) (a4 r)) ;;
     ret (value_or_error rc)
   else if funcid =? 5 then
     p <- on_hart_pmu cur (sbi_pmu_ctr_read cur (u32 (a0 r))) ;; ret (EcallResult (fst p) (snd p) None)
   else if funcid =? 3 then
     rc <- on_hart_pmu cur (sbi_pmu_ctr_start cur (a0 r) (a1 r) (a2 r) (a3 r)) ;; ret (code rc)
   else if funcid =? 4 then
     rc <- on_hart_pmu cur (sbi_pmu_ctr_stop cur (a0 r) (a1 r) (a2 r)) ;; ret (code rc)
   else ret (code SBI_ENOTSUPP))%sbi.

Definition sbi_ecall_pmu_probe : M machine ecall_result :=
  (hf <- thishart_features cur ;;
   ret (value (if sbi_hart_has_feature hf SBI_HART_HAS_MCOUNTINHIBIT then 1 else 0)))%sbi.

(** *** Legacy calls *)

(** The mask, or the fault. *)
Definition sbi_load_hart_mask_unpriv (pmask : Z) : M machine (Z + access_fault) :=
  (if truthy pmask then
     w <- sbi_load_ulong pmask ;;
     ret w
   else
     dom <- domain_ptr cur ;;
     p <- sbi_hsm_hart_interruptible_mask dom 0 ;; ret (inl (snd p)))%sbi.

(** Load the mask, then act on it. *)
Definition with_hart_mask (r : sbi_trap_regs) (f : Z → M machine Z) : M machine ecall_result :=
  (w <- sbi_load_hart_mask_unpriv (a0 r) ;;
   match w with
   | inr trap => ret (EcallResult SBI_ETRAP None (Some trap))
   | inl hmask => rc <- f hmask ;; ret (code rc)
   end)%sbi.

Definition sbi_ecall_legacy_handler (extid : Z) (r : sbi_trap_regs) : M machine ecall_result :=
  (if extid =? SBI_EXT_0_1_SET_TIMER then sbi_timer_event_start cur (a0 r) ;;; ret (code 0)
   else if extid =? SBI_EXT_0_1_CONSOLE_PUTCHAR then sbi_putc (a0 r) ;;; ret (code 0)
   else if extid =? SBI_EXT_0_1_CONSOLE_GETCHAR then c <- sbi_getc ;; ret (code c)
   else if extid =? SBI_EXT_0_1_CLEAR_IPI then sbi_ipi_clear_smode cur ;;; ret (code 0)
   else if extid =? SBI_EXT_0_1_SEND_IPI then
     with_hart_mask r (λ hmask, sbi_ipi_send_smode cur hmask 0)
   else if extid =? SBI_EXT_0_1_REMOTE_FENCE_I then
     with_hart_mask r (λ hmask,
       sbi_tlb_request world polls pl depth cur hmask 0 (tlb_info_init 0 0 0 0 local_fence_i))
   else if extid =? SBI_EXT_0_1_REMOTE_SFENCE_VMA then
     with_hart_mask r (λ hmask,
       sbi_tlb_request world polls pl depth cur hmask 0 (tlb_info_init (a1 r) (a2 r) 0 0 local_sfence_vma))
   else if extid =? SBI_EXT_0_1_REMOTE_SFENCE_VMA_ASID then
     with_hart_mask r (λ hmask,
       sbi_tlb_request world polls pl depth cur hmask 0 (tlb_info_init (a1 r) (a2 r) (a3 r) 0 local_sfence_vma_asid))
   else if extid =? SBI_EXT_0_1_SHUTDOWN then
     sbi_system_reset world polls pl depth cur 0 0 ;;; ret (code 0)
   else ret (code SBI_ENOTSUPP))%sbi.

(** *** Vendor range *)

Definition sbi_ecall_vendor_probe (extid : Z) : M machine ecall_result :=
  ret (value (sbi_platform_vendor_ext_check pl extid)).

Definition sbi_ecall_vendor_handler (extid funcid : Z) (r : sbi_trap_regs) : M machine ecall_result :=
  match plat pl, vendor_ext_provider pl with
  | Some _, Some f =>
      let '(rc, out, trap) := f extid funcid (gprs r) in ret (EcallResult rc out trap)
  | _, _ => ret (code SBI_ENOTSUPP)
  end.

(** *** Base *)

(** [ext->probe(extid, out_val)] *)
Definition call_probe (f : ecall_fn) (extid : Z) : M machine ecall_result :=
  match f with
  | ecall_srst_fn => sbi_ecall_srst_probe
  | ecall_pmu_fn => sbi_ecall_pmu_probe
  | ecall_vendor_fn => sbi_ecall_vendor_probe extid
  | _ => stop wild_access
  end.

Definition sbi_ecall_base_probe (extid : Z) : M machine ecall_result :=
  (ext <- sbi_ecall_find_extension extid ;;
   match ext with
   | None => ret (value 0)
   | Some e =>
       match ext_probe e with
       | Some f => call_probe f extid
       | None => ret (value 1)
       end
   end)%sbi.

Definition sbi_spec_version : Z :=
  Z.lor (Z.land (Z.shiftl SBI_ECALL_VERSION_MAJOR 24) (Z.shiftl 0x7f 24)) SBI_ECALL_VERSION_MINOR.

Definition sbi_ecall_base_handler (funcid : Z) (r : sbi_trap_regs) : M machine ecall_result :=
  (if funcid =? 0 then ret (value sbi_spec_version)
   else if funcid =? 1 then v <- sbi_ecall_get_impid ;; ret (value v)
   else if funcid =? 2 then ret (value OPENSBI_VERSION)
   else if funcid =? 4 then v <- this_csr (csr_read CSR_MVENDORID) ;; ret (value v)
   else if funcid =? 5 then v <- this_csr (csr_read CSR_MARCHID) ;; ret (value v)
   else if funcid =? 6 then v <- this_csr (csr_read CSR_MIMPID) ;; ret (value v)
   else if funcid =? 3 then sbi_ecall_base_probe (a0 r)
   else ret (code SBI_ENOTSUPP))%sbi.

(** ** The dispatcher *)

(** [ext->handle(extension_id, func_id, regs, &out_val, &trap)] *)
Definition call_handle (f : ecall_fn) (extid funcid : Z) (r : sbi_trap_regs) : M machine ecall_result :=
  match f with
  | ecall_time_fn => sbi_ecall_time_handler funcid r
  | ecall_rfence_fn => sbi_ecall_rfence_handler funcid r
  | ecall_ipi_fn => sbi_ecall_ipi_handler funcid r
  | ecall_base_fn => sbi_ecall_base_handler funcid r
  | ecall_hsm_fn => sbi_ecall_hsm_handler funcid r
  | ecall_srst_fn => sbi_ecall_srst_handler funcid r
  | ecall_pmu_fn => sbi_ecall_pmu_handler funcid r
  | ecall_legacy_fn => sbi_ecall_legacy_handler extid r
  | ecall_vendor_fn => sbi_ecall_vendor_handler extid funcid r
  end.

Definition is_legacy (extid : Z) : bool :=
  (SBI_EXT_0_1_SET_TIMER <=? extid) && (extid <=? SBI_EXT_0_1_SHUTDOWN).

(** The registers after a call that did not trap. *)
Definition ecall_return (is_0_1_spec : bool) (rc out_val : Z) (r : sbi_trap_regs) : sbi_trap_regs :=
  let rc := if rc <? SBI_LAST_ERR then SBI_EFAIL else rc in
  let r := set_reg 10 (u64 rc) (set_mepc (add64 (r_mepc r) 4) r) in
  if is_0_1_spec then r else set_reg 11 out_val r.

Definition sbi_ecall_handler (r : sbi_trap_regs) : M machine (Z * sbi_trap_regs) :=
  (let extension_id := a7 r in
   let func_id := a6 r in
   ext <- sbi_ecall_find_extension extension_id ;;
   p <- match ext ≫= ext_handle with
        | Some f =>
            res <- call_handle f extension_id func_id r ;; ret (res, is_legacy extension_id)
        | None => ret (code SBI_ENOTSUPP, false)
        end ;;
   let '(res, is_0_1_spec) := p in
   if res_code res =? SBI_ETRAP then
     let f := default (Fault 0 0 0 0) (res_trap res) in
     let trap := TrapInfo (r_mepc r) (f_cause f) (f_tval f) (f_tval2 f) (f_tinst f) in
     q <- this_csr (sbi_trap_redirect (sbi_platform_misa_extension pl) trap r) ;;
     ret (0, snd q)
   else ret (0, ecall_return is_0_1_spec (res_code res) (default 0 (res_out res)) r))%sbi.

End Handlers.

(** ** The table is unambiguous *)

Definition ext_ok (e : sbi_ecall_extension) : Prop :=
  extid_start e <= extid_end e /\ is_Some (ext_handle e).

Fixpoint disjoint_exts (l : list sbi_ecall_extension) : Prop :=
  match l with
  | [] => True
  | e :: l' => Forall (λ t, no_overlap t e = true) l' /\ disjoint_exts l'
  end.

Definition table_ok (l : list sbi_ecall_extension) : Prop := Forall ext_ok l /\ disjoint_exts l.

Inductive table_op : Type :=
| TRegister (e : option sbi_ecall_extension)
| TUnregister (e : option sbi_ecall_extension).

Definition table_exec (op : table_op) : M machine Z :=
  match op with
  | TRegister e => sbi_ecall_register_extension e
  | TUnregister e => (sbi_ecall_unregister_extension e ;;; ret 0)%sbi
  end.

Fixpoint table_run (ops : list table_op) : M machine unit :=
  match ops with
  | [] => ret tt
  | op :: ops' => (table_exec op ;;; table_run ops')%sbi
  end.

Lemma disjoint_app l e :
  disjoint_exts l -> forallb (no_overlap e) l = true -> disjoint_exts (l ++ [e]).
Proof.
  induction l as [|t l IH]; cbn; [done|]. intros [Ht Hl] [H1 H2]%andb_true_iff. split; [|by apply IH].
  apply Forall_app. split; [done|]. by constructor.
Qed.

Lemma remove_obj_sub e l P : Forall P l -> Forall P (remove_obj e l).
Proof.
  induction l as [|t l IH]; cbn; [done|]. intros H. inversion H; subst.
  case_if; [done|]. constructor; auto.
Qed.

Lemma disjoint_remove e l : disjoint_exts l -> disjoint_exts (remove_obj e l).
Proof.
  induction l as [|t l IH]; cbn; [done|]. intros [Ht Hl]. case_if; [done|]. split; [by apply remove_obj_sub|auto].
Qed.

Lemma table_step op m : table_ok (m_exts m) ->
  exists rc m', table_exec op m = (Ret rc, m') /\ table_ok (m_exts m').
Proof.
  intros [Ho Hd]. destruct op as [[e|]|[e|]]; cbn [table_exec].
  - unfold sbi_ecall_register_extension. case_if; [by eexists _, _|]. zbool.
    case_if; [|by eexists _, _]. eexists _, _. split; [done|]. cbn. split; [|by apply disjoint_app].
    apply Forall_app. split; [done|]. constructor; [|constructor]. split; [lia|].
    by destruct (ext_handle e).
  - by eexists _, _.
  - eexists _, _. split; [done|]. cbn. split; [by apply remove_obj_sub|by apply disjoint_remove].
  - by eexists _, _.
Qed.

Lemma find_ext_spec l extid :
  disjoint_exts l ->
  match find_ext l extid with
  | Some e => e ∈ l /\ ext_has extid e = true /\ forall t, t ∈ l -> ext_has extid t = true -> t = e
  | None => forall t, t ∈ l -> ext_has extid t = false
  end.
Proof.
  induction l as [|e l IH]; cbn; [intros _ t Ht; by apply elem_of_nil in Ht|]. intros [He Hl].
  destruct (ext_has extid e) eqn:E.
  - split; [by left|]. split; [done|]. intros t [->|Ht]%elem_of_cons Hh; [done|]. exfalso.
    pose proof (proj1 (Forall_forall _ _) He t ltac:(by apply list_elem_of_In)) as Hno.
    unfold no_overlap, ext_has in *. zbool. apply orb_true_iff in Hno as [?|?]; zbool; lia.
  - specialize (IH Hl). destruct (find_ext l extid) as [e'|].
    + destruct IH as (H1 & H2 & H3). split; [by right|]. split; [done|].
      intros t [->|Ht]%elem_of_cons Hh; [congruence|auto].
    + intros t [->|Ht]%elem_of_cons; [done|auto].
Qed.

(** The extension table is never ambiguous: whatever objects are registered
    and unregistered, in whatever order, the identifier ranges in the table stay
    disjoint, so that a call has at most one extension that answers it, and the
    lookup finds it whenever there is one. *)
Theorem ecall_table_unambiguous (ops : list table_op) (m : machine) (extid : Z) :
  table_ok (m_exts m) ->
  exists m' o, table_run ops m = (Ret tt, m') /\ sbi_ecall_find_extension extid m' = (Ret o, m') /\
    table_ok (m_exts m') /\
    match o with
    | Some e => e ∈ m_exts m' /\ ext_has extid e = true /\ is_Some (ext_handle e) /\
        forall t, t ∈ m_exts m' -> ext_has extid t = true -> t = e
    | None => forall t, t ∈ m_exts m' -> ext_has extid t = false
    end.
Proof.
  revert m. induction ops as [|op ops IH]; intros m Hm; cbn [table_run].
  - exists m, (find_ext (m_exts m) extid). split; [done|]. split; [done|]. split; [done|].
    pose proof (find_ext_spec (m_exts m) extid (proj2 Hm)) as Hf.
    destruct (find_ext (m_exts m) extid) as [e|]; [|done]. destruct Hf as (H1 & H2 & H3).
    split; [done|]. split; [done|]. split; [|done].
    by apply (proj1 (Forall_forall _ _) (proj1 Hm) e), list_elem_of_In.
  - destruct (table_step op m Hm) as (rc & m1 & E1 & H1). rewrite (bind_Ret _ _ _ _ _ E1). by apply IH.
Qed.

Lemma ecall_table_unambiguous_witness :
  let ops := map (λ e, TRegister (Some e)) all_extensions ++ [TRegister (Some (EcallExt 9 4 20 (Some ecall_time_fn) None));
    TUnregister (Some ecall_ipi)] in
  exists m' o, table_run ops demo_machine = (Ret tt, m') /\
    sbi_ecall_find_extension SBI_EXT_HSM m' = (Ret o, m') /\ table_ok (m_exts m') /\
    match o with
    | Some e => e ∈ m_exts m' /\ ext_has SBI_EXT_HSM e = true /\ is_Some (ext_handle e) /\
        forall t, t ∈ m_exts m' -> ext_has SBI_EXT_HSM t = true -> t = e
    | None => forall t, t ∈ m_exts m' -> ext_has SBI_EXT_HSM t = false
    end.
Proof.
  apply (ecall_table_unambiguous
    (map (λ e, TRegister (Some e)) all_extensions ++
     [TRegister (Some (EcallExt 9 4 20 (Some ecall_time_fn) None)); TUnregister (Some ecall_ipi)]) demo_machine).
  split; [constructor|done].
Defined.

(** The registrations at boot all succeed. *)
Example ecall_init_ok :
  fst (sbi_ecall_init demo_machine) = Ret 0 /\ m_exts (snd (sbi_ecall_init demo_machine)) = all_extensions.
Proof. vm_compute. done. Qed.

(** ** The calling convention *)

Section Convention.
Context (world : machine → machine) (polls : nat) (pl : sbi_platform_operations) (depth : nat) (cur : Z).

(** What a caller sees after a call that is not turned into a trap. *)
Record returned (extid : Z) (r r' : sbi_trap_regs) : Prop := {
  ret_pc : r_mepc r' = add64 (r_mepc r) 4;
  ret_status : r_mstatus r' = r_mstatus r;
  ret_others : forall i, i <> 10%nat -> i <> 11%nat -> gprs r' !! i = gprs r !! i;
  ret_legacy : is_legacy extid = true -> a1 r' = a1 r;
  ret_code : is_u64 (a0 r') /\ (a0 r' < 2 ^ 31 \/ 2 ^ 64 - 8 <= a0 r');
}.

Lemma ecall_return_spec extid (b : bool) rc out r :
  length (gprs r) = 32%nat -> - 2 ^ 31 <= rc < 2 ^ 31 -> (is_legacy extid = true -> b = true) ->
  returned extid r (ecall_return b rc out r).
Proof.
  intros Hl Hr Hb. unfold ecall_return.
  set (rc' := if rc <? SBI_LAST_ERR then SBI_EFAIL else rc).
  assert (Hrc : -8 <= rc' < 2 ^ 31).
  { subst rc'. unfold SBI_LAST_ERR, SBI_EALREADY_STOPPED, SBI_EFAIL.
    destruct (Z.ltb_spec rc (-8)); lia. }
  assert (Hu : u64 rc' = if rc' <? 0 then rc' + 2 ^ 64 else rc').
  { unfold u64. destruct (Z.ltb_spec rc' 0).
    - symmetry. apply (Z.mod_unique_pos _ _ (-1)); lia.
    - apply Z.mod_small. lia. }
  assert (Ha0 : is_u64 (u64 rc') /\ (u64 rc' < 2 ^ 31 \/ 2 ^ 64 - 8 <= u64 rc')).
  { rewrite Hu. unfold is_u64. destruct (Z.ltb_spec rc' 0); lia. }
  destruct b; constructor; cbn [r_mepc r_mstatus gprs set_reg set_mepc].
  - done.
  - done.
  - intros i H1 _. by rewrite list_lookup_insert_ne.
  - intros _. unfold a1, reg. cbn. by rewrite list_lookup_insert_ne.
  - unfold a0, reg. cbn. rewrite list_lookup_insert_eq by lia. done.
  - done.
  - done.
  - intros i H1 H2. by rewrite !list_lookup_insert_ne.
  - intros H. by specialize (Hb H).
  - unfold a0, reg. cbn. rewrite list_lookup_insert_ne, list_lookup_insert_eq by (done || lia). done.
Qed.

(** A call to an extension that is not registered is answered, always, with
    "not supported": it returns to the next instruction with that code in a0 and
    0 in a1, and changes nothing else in the registers and nothing at all in the
    machine. *)
Theorem ecall_unknown_extension (r : sbi_trap_regs) (m : machine) :
  find_ext (m_exts m) (a7 r) = None -> length (gprs r) = 32%nat ->
  exists r', sbi_ecall_handler world polls pl depth cur r m = (Ret (0, r'), m) /\
    r_mepc r' = add64 (r_mepc r) 4 /\ r_mstatus r' = r_mstatus r /\
    a0 r' = 2 ^ 64 + SBI_ENOTSUPP /\ a1 r' = 0 /\
    forall i, i <> 10%nat -> i <> 11%nat -> gprs r' !! i = gprs r !! i.
Proof.
  intros Hf Hl. unfold sbi_ecall_handler, sbi_ecall_find_extension. cbv zeta. rewrite bind_gets, Hf.
  cbn [mbind option_bind]. rewrite bind_ret_l. eexists. split; [reflexivity|].
  split; [done|]. split; [done|]. unfold a0, a1, reg. cbn.
  rewrite list_lookup_insert_ne, !list_lookup_insert_eq by (done || (rewrite ?length_insert; lia)).
  split; [done|]. split; [done|]. intros i H1 H2. by rewrite !list_lookup_insert_ne.
Qed.

(** The calling convention: when the handler of a registered extension
    returns a code and a value, the call returns to the instruction after the
    ecall with every register but a0 and a1 as the caller left it; a0 holds the
    code, or the generic failure for codes outside the specification; a1 holds
    the value, except for legacy calls, which keep a1. *)
Theorem ecall_calling_convention (r : sbi_trap_regs) (m m1 : machine) (e : sbi_ecall_extension)
    (f : ecall_fn) (res : ecall_result) :
  find_ext (m_exts m) (a7 r) = Some e -> ext_handle e = Some f ->
  call_handle world polls pl depth cur f (a7 r) (a6 r) r m = (Ret res, m1) ->
  - 2 ^ 31 <= res_code res < 2 ^ 31 -> res_code res <> SBI_ETRAP -> length (gprs r) = 32%nat ->
  exists r', sbi_ecall_handler world polls pl depth cur r m = (Ret (0, r'), m1) /\
    returned (a7 r) r r' /\
    a0 r' = u64 (if res_code res <? SBI_LAST_ERR then SBI_EFAIL else res_code res) /\
    (is_legacy (a7 r) = false -> a1 r' = default 0 (res_out res)).
Proof.
  intros Hf Hh Hc Hi Ht Hl. unfold sbi_ecall_handler, sbi_ecall_find_extension. cbv zeta.
  rewrite bind_gets, Hf. cbn [mbind option_bind]. rewrite Hh, bind_assoc, (bind_Ret _ _ _ _ _ Hc), bind_ret_l.
  apply Z.eqb_neq in Ht. rewrite Ht. eexists. split; [reflexivity|].
  split; [by apply ecall_return_spec|]. unfold ecall_return. split.
  - unfold a0, reg. destruct (is_legacy (a7 r)); cbn; rewrite ?list_lookup_insert_ne by done;
      by rewrite list_lookup_insert_eq by lia.
  - intros ->. unfold a1, reg. cbn. by rewrite list_lookup_insert_eq by (rewrite length_insert; lia).
Qed.

(** The calls of the base extension and what they report. *)
Definition base_value (m : machine) (d : hart_data) (funcid probed : Z) : option Z :=
  if funcid =? 0 then Some 3
  else if funcid =? 1 then Some (m_impid m)
  else if funcid =? 2 then Some 9
  else if funcid =? 3 then
    match find_ext (m_exts m) probed with
    | None => Some 0
    | Some e => match ext_probe e with None => Some 1 | Some _ => None end
    end
  else if funcid =? 4 then Some (default 0 (hd_csrs d !! CSR_MVENDORID))
  else if funcid =? 5 then Some (default 0 (hd_csrs d !! CSR_MARCHID))
  else if funcid =? 6 then Some (default 0 (hd_csrs d !! CSR_MIMPID))
  else None.

(** The base extension reports what it should: version 0.3 of the
    specification, the implementation's identity and version, the identity
    registers of the hart, and whether an extension is there; it always returns,
    with success, and leaves the machine as it was. *)
Theorem ecall_base_reports (r : sbi_trap_regs) (m : machine) (d : hart_data) (v : Z) :
  find_ext (m_exts m) (a7 r) = Some ecall_base -> hart m cur = Some d -> length (gprs r) = 32%nat ->
  base_value m d (a6 r) (a0 r) = Some v -> a7 r = SBI_EXT_BASE ->
  exists r', sbi_ecall_handler world polls pl depth cur r m = (Ret (0, r'), m) /\
    returned SBI_EXT_BASE r r' /\ a0 r' = 0 /\ a1 r' = v.
Proof.
  intros Hf Hd Hl Hv H7. unfold sbi_ecall_handler, sbi_ecall_find_extension. cbv zeta.
  rewrite bind_gets, Hf, H7. cbn [mbind option_bind ext_handle ecall_base call_handle].
  assert (Hcsr : forall c, this_csr cur (csr_read c) m = (Ret (default 0 (hd_csrs d !! c)), m)).
  { intros c. apply (on_hart_read _ _ _ d); [done|]. by destruct d. }
  assert (Hb : sbi_ecall_base_handler pl cur (a6 r) r m = (Ret (value v), m)).
  { unfold base_value in Hv. unfold sbi_ecall_base_handler.
    destruct (a6 r =? 0); [by injection Hv as <-|]. destruct (a6 r =? 1); [by injection Hv as <-|].
    destruct (a6 r =? 2); [by injection Hv as <-|]. destruct (Z.eqb_spec (a6 r) 3) as [E3|E3].
    { rewrite E3. cbn [Z.eqb Pos.eqb]. unfold sbi_ecall_base_probe, sbi_ecall_find_extension. rewrite bind_gets.
      destruct (find_ext (m_exts m) (a0 r)) as [e|]; [|by injection Hv as <-].
      destruct (ext_probe e); [discriminate|by injection Hv as <-]. }
    destruct (a6 r =? 4); [by injection Hv as <-; rewrite (bind_Ret _ _ _ _ _ (Hcsr _))|].
    destruct (a6 r =? 5); [by injection Hv as <-; rewrite (bind_Ret _ _ _ _ _ (Hcsr _))|].
    destruct (a6 r =? 6); [by injection Hv as <-; rewrite (bind_Ret _ _ _ _ _ (Hcsr _))|discriminate]. }
  rewrite bind_assoc, (bind_Ret _ _ _ _ _ Hb), bind_ret_l. eexists. split; [reflexivity|].
  split; [by apply ecall_return_spec; [|cbn; lia|]|]. unfold ecall_return, a0, a1, reg. cbn.
  rewrite list_lookup_insert_ne, !list_lookup_insert_eq by (done || (rewrite ?length_insert; lia)). done.
Qed.

End Convention.

(** ** Evaluation *)

Definition booted_machine : machine := snd (sbi_ecall_init demo_machine).

(** The registers of a call: extension, function and first argument. *)
Definition call_regs (ext func arg0 : Z) : sbi_trap_regs :=
  set_reg 10 arg0 (set_reg 16 func (set_reg 17 ext (TrapRegs (replicate 32 7) 0x80201000 0x800))).

Lemma ecall_unknown_extension_witness :
  exists r', sbi_ecall_handler (consume 0) 3 bare_platform 1 0 (call_regs 0xabc 0 0) booted_machine = (Ret (0, r'), booted_machine) /\
    r_mepc r' = add64 0x80201000 4 /\ r_mstatus r' = 0x800 /\
    a0 r' = 2 ^ 64 + SBI_ENOTSUPP /\ a1 r' = 0 /\
    forall i, i <> 10%nat -> i <> 11%nat -> gprs r' !! i = gprs (call_regs 0xabc 0 0) !! i.
Proof.
  apply (ecall_unknown_extension (consume 0) 3 bare_platform 1 0 (call_regs 0xabc 0 0) booted_machine);
    vm_compute; reflexivity.
Defined.

Lemma ecall_calling_convention_witness :
  exists r', sbi_ecall_handler (consume 0) 3 bare_platform 1 0 (call_regs SBI_EXT_HSM 2 1) booted_machine
      = (Ret (0, r'), booted_machine) /\
    returned (a7 (call_regs SBI_EXT_HSM 2 1)) (call_regs SBI_EXT_HSM 2 1) r' /\
    a0 r' = u64 (if res_code (value 1) <? SBI_LAST_ERR then SBI_EFAIL else res_code (value 1)) /\
    (is_legacy (a7 (call_regs SBI_EXT_HSM 2 1)) = false -> a1 r' = default 0 (res_out (value 1))).
Proof.
  apply (ecall_calling_convention (consume 0) 3 bare_platform 1 0 (call_regs SBI_EXT_HSM 2 1) booted_machine
    booted_machine ecall_hsm ecall_hsm_fn (value 1)).
  - vm_compute. reflexivity.
  - reflexivity.
  - vm_compute. reflexivity.
  - cbn. lia.
  - discriminate.
  - reflexivity.
Defined.

Lemma ecall_base_reports_witness :
  exists r', sbi_ecall_handler (consume 0) 3 bare_platform 1 0 (call_regs SBI_EXT_BASE 3 SBI_EXT_RFENCE) booted_machine
      = (Ret (0, r'), booted_machine) /\
    returned SBI_EXT_BASE (call_regs SBI_EXT_BASE 3 SBI_EXT_RFENCE) r' /\ a0 r' = 0 /\ a1 r' = 1.
Proof.
  apply (ecall_base_reports (consume 0) 3 bare_platform 1 0 (call_regs SBI_EXT_BASE 3 SBI_EXT_RFENCE) booted_machine
    (demo_hart SBI_HSM_STATE_STARTED) 1); vm_compute; reflexivity.
Defined.
