(* ===== verification/Report.v ===== *)
(** * What the firmware reports (lib/sbi/sbi_init.c, sbi_domain.c, sbi_hart.c,
    sbi_platform.c)

    The report of the cold boot: the banner, the platform and its devices, the
    domains and the boot hart, with the feature strings of the platform and of a
    hart.

    Parameters: the names and texts that the records of the library leave out, in
    a record [board_info].  What the messages say is in ReportText.v. *)

From Stdlib Require Import ZArith Lia Ascii String.
From stdpp Require Import base tactics list gmap numbers.
From S2P Require Import Prelude SbiDefs Bitops Locks Strings Scratch Domain Csr Hart Machine Hsm Ipi Timer Console Format System Ecall.

(** Names of the platform's objects, facts of the build, and where the local
    buffer [char str[128]] lies. *)
Record board_info : Type := BoardInfo {
  bi_platform_name : list Z;
  misa_get_xlen : option Z;          (* the platform's hook, for a misa that reads as zero *)
  bi_domain_name : nat → list Z;
  bi_ipi_name : list Z;
  bi_timer_name : list Z;
  bi_console_name : list Z;
  bi_hsm_name : list Z;
  bi_reset_name : sbi_system_reset_device → list Z;
  bi_version_git : option (list Z);
  bi_build_time : option (list Z);
  bi_build_compiler : option (list Z);
  bi_str : Z;
}.

Definition sbi_platform_name (bi : board_info) (pl : sbi_platform_operations) : list Z :=
  match plat pl with Some _ => bi_platform_name bi | None => chars "Unknown" end.
Definition sbi_platform_hart_count (pl : sbi_platform_operations) : Z :=
  match plat pl with Some p => hart_count p | None => 0 end.
Definition sbi_platform_misa_xlen (bi : board_info) (pl : sbi_platform_operations) : Z :=
  match plat pl, misa_get_xlen bi with Some _, Some x => x | _, _ => -1 end.

(** An argument that is a literal. *)
Definition AText (s : string) : argument := AStr (Some (chars s)).

(** ** Feature strings *)

Definition SBI_PLATFORM_HAS_MFAULTS_DELEGATION : Z := 2.
Definition SBI_PLATFORM_HAS_LAST_FEATURE : Z := SBI_PLATFORM_HAS_MFAULTS_DELEGATION.
Definition SBI_HART_HAS_LAST_FEATURE : Z := SBI_HART_HAS_TIME.

Definition sbi_platform_feature_id2string (feature : Z) : option (list Z) :=
  if negb (truthy feature) then None
  else if feature =? SBI_PLATFORM_HAS_MFAULTS_DELEGATION then Some (chars "medeleg") else None.

Definition sbi_hart_feature_id2string (feature : Z) : option (list Z) :=
  if negb (truthy feature) then None
  else if feature =? SBI_HART_HAS_SCOUNTEREN then Some (chars "scounteren")
  else if feature =? SBI_HART_HAS_MCOUNTEREN then Some (chars "mcounteren")
  else if feature =? SBI_HART_HAS_MCOUNTINHIBIT then Some (chars "mcountinhibit")
  else if feature =? SBI_HART_HAS_TIME then Some (chars "time") else None.

(** Stores to the memory of the print state. *)
Definition on_mem (f : gmap Z Z → gmap Z Z) : M print_state unit :=
  modify (λ st, set_ps_buffer (f (ps_mem st)) (ps_out st) (ps_len st) st).

(** sbi_strncpy from a literal. *)
Definition strncpy_text (dest : Z) (l : list Z) (count : Z) : M print_state unit := on_mem (put_chars dest (take (Z.to_nat count) l)).

(** The [done:] of both functions. *)
Definition features_done (features_str nfstr offset : Z) : M print_state unit :=
  if truthy offset then on_mem (insert (features_str + offset - 1) 0) else strncpy_text features_str (chars "none") nfstr.

(** The [do] loop of sbi_platform_get_features_str; [n] exceeds its iterations. *)
Fixpoint platform_features_loop (n : nat) (features feat offset features_str nfstr : Z) : M print_state Z :=
  match n with
  | O => stop spinning
  | S n' =>
      (r <- (match (if truthy (Z.land features feat) then sbi_platform_feature_id2string feat else None) with
             | Some temp =>
                 len <- sbi_snprintf (features_str + offset) (nfstr - offset) (chars "%s,") [AStr (Some temp)] ;;
                 ret (if len <? 0 then (offset, true)
                      else if nfstr <=? offset + len then (nfstr, true) else (offset + len, false))
             | None => ret (offset, false)
             end) ;;
       if snd r : bool then ret (fst r)
       else
         let feat := shl64 feat 1 in
         if feat <=? SBI_PLATFORM_HAS_LAST_FEATURE
         then platform_features_loop n' features feat (fst r) features_str nfstr else ret (fst r))%sbi
  end.

Definition sbi_platform_get_features (pl : sbi_platform_operations) : Z :=
  match plat pl with
  | Some _ => if mfaults_delegation pl then SBI_PLATFORM_HAS_MFAULTS_DELEGATION else 0
  | None => 0
  end.

Definition sbi_platform_get_features_str (pl : sbi_platform_operations) (features_str nfstr : Z) : M print_state unit :=
  match plat pl with
  | None => ret tt
  | Some _ =>
      if negb (truthy features_str) || negb (truthy nfstr) then ret tt
      else
        (on_mem (sbi_memset features_str 0 nfstr) ;;;
         let features := sbi_platform_get_features pl in
         offset <- (if truthy features then platform_features_loop 64 features 1 0 features_str nfstr else ret 0) ;;
         features_done features_str nfstr offset)%sbi
  end.

(** The [do] loop of sbi_hart_get_features_str. *)
Fixpoint hart_features_loop (n : nat) (features feat offset features_str nfstr : Z) : M print_state Z :=
  match n with
  | O => stop spinning
  | S n' =>
      (offset <- (match (if truthy (Z.land features feat) then sbi_hart_feature_id2string feat else None) with
                  | Some temp =>
                      sbi_snprintf (features_str + offset) nfstr (chars "%s,") [AStr (Some temp)] ;;;
                      ret (offset + Z.of_nat (length temp) + 1)
                  | None => ret offset
                  end) ;;
       let feat := shl64 feat 1 in
       if feat <=? SBI_HART_HAS_LAST_FEATURE
       then hart_features_loop n' features feat offset features_str nfstr else ret offset)%sbi
  end.

Definition sbi_hart_get_features_str (hf : hart_features) (features_str nfstr : Z) : M print_state unit :=
  if negb (truthy features_str) || (nfstr <=? 0) then ret tt
  else
    (on_mem (sbi_memset features_str 0 nfstr) ;;;
     offset <- (if truthy (features hf) then hart_features_loop 64 (features hf) 1 0 features_str nfstr else ret 0) ;;
     features_done features_str nfstr offset)%sbi.

(** [char str[128]; c(str, sizeof(str));] and the string it leaves. *)
Definition with_str (bi : board_info) (c : Z → Z → M print_state unit) : M machine (list Z) :=
  say (c (bi_str bi) 128 ;;;
       mem <- gets ps_mem ;;
       match c_string 128 mem (bi_str bi) with Some l => ret l | None => stop wild_access end)%sbi.

(** ** Domains *)

(** A format that ends in a newline. *)
Definition line (s : string) : string := s ++ String "010" EmptyString.

(** The loop over the harts; [k] counts them. *)
Fixpoint dump_harts (s : domain_state) (dom : nat) (l : list Z) (k : Z) : M machine unit :=
  match l with
  | [] => ret tt
  | i :: l' =>
      (printf "%s%d%s" [AText (if truthy k then "," else ""); ANum i; AText (if sbi_domain_is_assigned_hart s (Some dom) i then "*" else "")] ;;;
       dump_harts s dom l' (u32 (k + 1)))%sbi
  end.

(** One flag of a region: its letter, when it is set; [k] counts the flags. *)
Definition dump_flag (flags flag : Z) (fmt : string) (k : Z) : M machine Z :=
  (if truthy (Z.land flags flag)
   then printf fmt [ANum (if truthy k then chr "," else chr "(")] ;;; ret (u32 (k + 1)) else ret k)%sbi.

Definition dump_flags (flags : Z) : M machine unit :=
  (k <- dump_flag flags SBI_DOMAIN_MEMREGION_MMODE "%cM" 0 ;;
   k <- dump_flag flags SBI_DOMAIN_MEMREGION_MMIO "%cI" k ;;
   k <- dump_flag flags SBI_DOMAIN_MEMREGION_READABLE "%cR" k ;;
   k <- dump_flag flags SBI_DOMAIN_MEMREGION_WRITEABLE "%cW" k ;;
   k <- dump_flag flags SBI_DOMAIN_MEMREGION_EXECUTABLE "%cX" k ;;
   printf (line "%s") [AText (if truthy k then ")" else "()")])%sbi.

(** The loop over the regions; [i] counts them. *)
Fixpoint dump_regions (index : Z) (suffix : list Z) (l : list sbi_domain_memregion) (i : Z) : M machine unit :=
  match l with
  | [] => ret tt
  | reg :: l' =>
      (printf "Domain%d Region%02d    %s: 0x%016lx-0x%016lx "
         [ANum index; ANum i; AStr (Some suffix); ANum (reg_base reg); ANum (region_end reg)] ;;;
       dump_flags (reg_flags reg) ;;;
       dump_regions index suffix l' (u32 (i + 1)))%sbi
  end.

Section Report.
Context (bi : board_info) (pl : sbi_platform_operations).

Definition dump_mode (mode : Z) : M machine unit :=
  if mode =? PRV_M then printf (line "M-mode") []
  else if mode =? PRV_S then printf (line "S-mode") []
  else if mode =? PRV_U then printf (line "U-mode") []
  else printf (line "Unknown") [].

(** sbi_domain_dump on the domain [d] at [p]; [hm] are its possible harts. *)
Definition dump_domain (s : domain_state) (p : nat) (d : sbi_domain) (hm : sbi_hartmask) (suffix : list Z) : M machine unit :=
  (let index := ANum (dom_index d) in
   let suffix' := AStr (Some suffix) in
   printf (line "Domain%d Name        %s: %s") [index; suffix'; AStr (Some (bi_domain_name bi p))] ;;;
   printf (line "Domain%d Boot HART   %s: %d") [index; suffix'; ANum (boot_hartid d)] ;;;
   printf "Domain%d HARTs       %s: " [index; suffix'] ;;;
   dump_harts s p (sbi_hartmask_for_each_hart hm) 0 ;;;
   printf (line "") [] ;;;
   dump_regions (dom_index d) suffix (memregions (dom_regions s d)) 0 ;;;
   printf (line "Domain%d Next Address%s: 0x%016lx") [index; suffix'; ANum (next_addr d)] ;;;
   printf (line "Domain%d Next Arg1   %s: 0x%016lx") [index; suffix'; ANum (next_arg1 d)] ;;;
   printf "Domain%d Next Mode   %s: " [index; suffix'] ;;;
   dump_mode (next_mode d) ;;;
   printf (line "Domain%d SysReset    %s: %s") [index; suffix'; AText (if system_reset_allowed d then "yes" else "no")])%sbi.

Definition sbi_domain_dump (p : nat) (suffix : list Z) : M machine unit :=
  (s <- gets m_domains ;;
   match domains s !! p with
   | None => stop wild_access
   | Some d =>
       match possible_harts d with
       | None => stop wild_access
       | Some hm => dump_domain s p d (deref_hmask s hm) suffix
       end
   end)%sbi.

Definition sbi_domain_dump_all (suffix : list Z) : M machine unit :=
  (doms <- gets (λ m, sbi_domain_for_each (domidx_to_domain_table (m_domains m))) ;;
   match doms with
   | Stop w => stop w
   | Ret l => mfor l (λ p, sbi_domain_dump p suffix ;;; printf (line "") [])
   end)%sbi.

(** ** The boot hart *)

Definition sbi_hart_delegation_dump (cur : Z) (prefix suffix : list Z) : M machine unit :=
  (s <- this_misa pl cur 83 ;;
   if negb s : bool then ret tt
   else
     mideleg <- on_hart cur (hart_csr (csr_read CSR_MIDELEG)) ;;
     printf (line "%sMIDELEG%s: 0x%016lx") [AStr (Some prefix); AStr (Some suffix); ANum mideleg] ;;;
     medeleg <- on_hart cur (hart_csr (csr_read CSR_MEDELEG)) ;;
     printf (line "%sMEDELEG%s: 0x%016lx") [AStr (Some prefix); AStr (Some suffix); ANum medeleg])%sbi.

(** ** The report of the cold boot *)

Definition SBI_SCRATCH_NO_BOOT_PRINTS : Z := 1.

(** [if (scratch->options & SBI_SCRATCH_NO_BOOT_PRINTS) return;] *)
Definition unless_silent (options : Z) (c : M machine unit) : M machine unit :=
  if truthy (Z.land options SBI_SCRATCH_NO_BOOT_PRINTS) then ret tt else c.

Definition BANNER : string :=
  line "   ____                    _____ ____ _____" ++
  line "  / __ \                  / ____|  _ \_   _|" ++
  line " | |  | |_ __   ___ _ __ | (___ | |_) || |" ++
  line " | |  | | '_ \ / _ \ '_ \ \___ \|  _ < | |" ++
  line " | |__| | |_) |  __/ | | |____) | |_) || |_" ++
  line "  \____/| .__/ \___|_| |_|_____/|____/_____|" ++
  line "        | |" ++
  line (line "        |_|").

Definition OPENSBI_VERSION_MAJOR : Z := 0.
Definition OPENSBI_VERSION_MINOR : Z := 9.

Definition newline : string := line "".

Definition sbi_boot_print_banner (options : Z) : M machine unit :=
  unless_silent options
    (match bi_version_git bi with
     | Some v => printf (newline ++ line "OpenSBI %s") [AStr (Some v)]
     | None => printf (newline ++ line "OpenSBI v%d.%d") [ANum OPENSBI_VERSION_MAJOR; ANum OPENSBI_VERSION_MINOR]
     end ;;;
     match bi_build_time bi with Some v => printf (line "Build time: %s") [AStr (Some v)] | None => ret tt end ;;;
     match bi_build_compiler bi with Some v => printf (line "Build compiler: %s") [AStr (Some v)] | None => ret tt end ;;;
     printf BANNER [])%sbi.

(** [(dev) ? dev->name : "---"] *)
Definition name_of {D} (dev : option D) (name : D → list Z) : argument :=
  AStr (Some (match dev with Some d => name d | None => chars "---" end)).

Definition SBI_SRST_RESET_TYPE_SHUTDOWN : Z := 0.
Definition SBI_SRST_RESET_TYPE_COLD_REBOOT : Z := 1.

Definition sbi_boot_print_general (options fw_start fw_size : Z) : M machine unit :=
  unless_silent options
    (printf (line "Platform Name             : %s") [AStr (Some (sbi_platform_name bi pl))] ;;;
     str <- with_str bi (sbi_platform_get_features_str pl) ;;
     printf (line "Platform Features         : %s") [AStr (Some str)] ;;;
     printf (line "Platform HART Count       : %u") [ANum (sbi_platform_hart_count pl)] ;;;
     idev <- sbi_ipi_get_device ;;
     printf (line "Platform IPI Device       : %s") [name_of idev (λ _, bi_ipi_name bi)] ;;;
     tdev <- sbi_timer_get_device ;;
     printf (line "Platform Timer Device     : %s @ %luHz")
       [name_of tdev (λ _, bi_timer_name bi); ANum (match tdev with Some d => timer_freq d | None => 0 end)] ;;;
     cdev <- sbi_console_get_device ;;
     printf (line "Platform Console Device   : %s") [name_of cdev (λ _, bi_console_name bi)] ;;;
     hdev <- sbi_hsm_get_device ;;
     printf (line "Platform HSM Device       : %s") [name_of hdev (λ _, bi_hsm_name bi)] ;;;
     srdev <- sbi_system_reset_get_device SBI_SRST_RESET_TYPE_COLD_REBOOT 0 ;;
     printf (line "Platform Reboot Device    : %s") [name_of srdev (bi_reset_name bi)] ;;;
     srdev <- sbi_system_reset_get_device SBI_SRST_RESET_TYPE_SHUTDOWN 0 ;;
     printf (line "Platform Shutdown Device  : %s") [name_of srdev (bi_reset_name bi)] ;;;
     printf (line "Firmware Base             : 0x%lx") [ANum fw_start] ;;;
     printf (line "Firmware Size             : %d KB") [ANum (u32 (fw_size / 1024))] ;;;
     printf (line "Runtime SBI Version       : %d.%d") [ANum SBI_ECALL_VERSION_MAJOR; ANum SBI_ECALL_VERSION_MINOR] ;;;
     printf newline [])%sbi.

Definition sbi_boot_print_domains (options : Z) : M machine unit :=
  unless_silent options (sbi_domain_dump_all (chars "      ")).

(** The string in the bytes that misa_string leaves. *)
Fixpoint string_of (l : list Z) : option (list Z) :=
  match l with
  | [] => None
  | c :: l' => if c =? 0 then Some [] else cons c <$> string_of l'
  end.

Definition sbi_boot_print_hart (options hartid : Z) : M machine unit :=
  (dom <- domain_ptr hartid ;;
   unless_silent options
     (xlen <- on_hart hartid (hart_csr (misa_xlen (sbi_platform_misa_xlen bi pl))) ;;
      (if xlen <? 1 then printf (line "Error %d getting MISA XLEN") [ANum xlen] ;;; stop hart_hang else ret tt) ;;;
      printf (line "Boot HART ID              : %u") [ANum hartid] ;;;
      (match dom with
       | None => stop wild_access
       | Some p => printf (line "Boot HART Domain          : %s") [AStr (Some (bi_domain_name bi p))]
       end) ;;;
      isa <- on_hart hartid (hart_csr (misa_string (sbi_platform_misa_extension pl) xlen 128)) ;;
      (match string_of isa with
       | None => stop wild_access
       | Some str => printf (line "Boot HART ISA             : %s") [AStr (Some str)]
       end) ;;;
      hf <- thishart_features hartid ;;
      str <- with_str bi (sbi_hart_get_features_str hf) ;;
      printf (line "Boot HART Features        : %s") [AStr (Some str)] ;;;
      printf (line "Boot HART PMP Count       : %d") [ANum (pmp_count hf)] ;;;
      printf (line "Boot HART PMP Granularity : %lu") [ANum (pmp_gran hf)] ;;;
      printf (line "Boot HART PMP Address Bits: %d") [ANum (pmp_addr_bits hf)] ;;;
      printf (line "Boot HART MHPM Count      : %d") [ANum (mhpm_count hf)] ;;;
      sbi_hart_delegation_dump hartid (chars "Boot HART ") (chars "         ")))%sbi.

End Report.
