(* ===== verification/ReportText.v ===== *)
(** * What the report says (lib/sbi/sbi_init.c, sbi_domain.c, sbi_hart.c,
    sbi_platform.c)

    The messages of Report.v as texts: [says] for an operation that writes a text
    and does nothing else, [talks] for one whose text depends on the state.

    The theorems: the dump of a domain is the text [domain_text]; a feature string
    is the comma-separated list of the names of the features, or "none"; the
    report of the cold boot changes nothing but the console; and where the code
    falls short: the feature string of a hart ignores the size of its buffer. *)

From Stdlib Require Import ZArith Lia Ascii String.
From stdpp Require Import base tactics list gmap numbers.
From S2P Require Import Prelude SbiDefs Bitops Locks Strings Scratch Domain Csr Hart Machine Hsm Ipi Timer Console Format System Ecall Report.

(** ** What the dump of a domain says *)

Definition join (sep : list Z) (l : list (list Z)) : list Z :=
  match l with
  | [] => []
  | x :: l' => x ++ flat_map (λ y, sep ++ y) l'
  end.

(** The names of the set flags. *)
Definition flag_letters (flags : Z) : list (list Z) :=
  omap (λ p : Z * string, if truthy (Z.land flags (fst p)) then Some (chars (snd p)) else None)
    [(SBI_DOMAIN_MEMREGION_MMODE, "M"%string); (SBI_DOMAIN_MEMREGION_MMIO, "I"%string); (SBI_DOMAIN_MEMREGION_READABLE, "R"%string);
     (SBI_DOMAIN_MEMREGION_WRITEABLE, "W"%string); (SBI_DOMAIN_MEMREGION_EXECUTABLE, "X"%string)].

Definition two_digits (i : Z) : list Z := padded (decimal i) 2 PAD_ZERO.
Definition nl : list Z := [10].

Definition hart_text (s : domain_state) (p : nat) (i : Z) : list Z :=
  int_text i ++ (if sbi_domain_is_assigned_hart s (Some p) i then chars "*" else []).

Definition region_text (index : Z) (suffix : list Z) (i : Z) (reg : sbi_domain_memregion) : list Z :=
  chars "Domain" ++ int_text index ++ chars " Region" ++ two_digits i ++ chars "    " ++ suffix ++ chars ": 0x" ++
  hex16 (reg_base reg) ++ chars "-0x" ++ hex16 (region_end reg) ++ chars " (" ++ join (chars ",") (flag_letters (reg_flags reg)) ++
  chars ")" ++ nl.

Definition regions_text (index : Z) (suffix : list Z) (l : list sbi_domain_memregion) (i : Z) : list Z :=
  concat (imap (λ k reg, region_text index suffix (i + Z.of_nat k) reg) l).

Definition mode_name (mode : Z) : list Z :=
  chars (if mode =? PRV_M then "M-mode" else if mode =? PRV_S then "S-mode" else if mode =? PRV_U then "U-mode" else "Unknown").

Section DomainText.
Context (bi : board_info).

Definition domain_text (s : domain_state) (p : nat) (d : sbi_domain) (hm : sbi_hartmask) (suffix : list Z) : list Z :=
  let item name value := chars "Domain" ++ int_text (dom_index d) ++ chars name ++ suffix ++ chars ": " ++ value ++ nl in
  item " Name        "%string (bi_domain_name bi p) ++
  item " Boot HART   "%string (int_text (boot_hartid d)) ++
  item " HARTs       "%string (join (chars ",") (map (hart_text s p) (sbi_hartmask_for_each_hart hm))) ++
  regions_text (dom_index d) suffix (memregions (dom_regions s d)) 0 ++
  item " Next Address"%string (chars "0x" ++ hex16 (next_addr d)) ++
  item " Next Arg1   "%string (chars "0x" ++ hex16 (next_arg1 d)) ++
  item " Next Mode   "%string (mode_name (next_mode d)) ++
  item " SysReset    "%string (chars (if system_reset_allowed d then "yes" else "no")).

End DomainText.

(** The text of a message, by evaluation of its format. *)
Ltac say_text :=
  apply printf_says; unfold formatted;
  lazy -[printi_text padded int_of uint_of long_of int_text hex16 app];
  rewrite ?printi_text_int, ?printi_text_hex16, ?padded_0; try reflexivity.

Lemma says_eq {A} (c : M machine A) a l l' : says c a l -> l = l' -> says c a l'.
Proof. by intros H <-. Qed.

Lemma hart_says s p i k : says
  (printf "%s%d%s" [AText (if truthy k then "," else ""); ANum i; AText (if sbi_domain_is_assigned_hart s (Some p) i then "*" else "")]) tt
  ((if truthy k then chars "," else []) ++ hart_text s p i).
Proof. unfold hart_text. destruct (truthy k), (sbi_domain_is_assigned_hart s (Some p) i); say_text. Qed.

Lemma dump_harts_says s p l k : 0 <= k -> k + Z.of_nat (length l) < 2 ^ 32 ->
  says (dump_harts s p l k) tt
    (if truthy k then flat_map (λ y, chars "," ++ y) (map (hart_text s p) l) else join (chars ",") (map (hart_text s p) l)).
Proof.
  revert k. induction l as [|i l IH]; intros k Hk Hl; cbn [dump_harts map join flat_map length] in *.
  { eapply says_eq; [apply says_ret|]. by destruct (truthy k). }
  eapply says_eq; [eapply says_bind; [apply hart_says|]|].
  - cbv beta. rewrite u32_small by lia. apply IH; lia.
  - rewrite (proj2 (truthy_true (k + 1))) by lia. destruct (truthy k); cbn [app]; [|done]. by rewrite <- app_assoc.
Qed.

(** Every flag but the first is after a comma. *)
Lemma dump_flag_says flags flag fmt name k : 0 <= k < 5 ->
  (forall c, formatted (chars fmt) [ANum c] = Some (padded (if wrap 8 c =? 0 then [] else [wrap 8 c]) 0 0 ++ chars name)) ->
  says (dump_flag flags flag fmt k) (if truthy (Z.land flags flag) then k + 1 else k)
    (if truthy (Z.land flags flag) then (if truthy k then chars "," else chars "(") ++ chars name else []).
Proof.
  intros Hk Hf. unfold dump_flag. destruct (truthy (Z.land flags flag)); [|apply says_ret].
  eapply says_eq; [eapply says_bind; [apply printf_says, Hf|rewrite u32_small by lia; apply says_ret]|].
  rewrite padded_0, app_nil_r. by destruct (truthy k).
Qed.

#[local] Ltac flag_step fmt name :=
  eapply says_bind; [apply (dump_flag_says _ _ fmt name); [repeat case_if; lia|intros c; reflexivity]|].

Lemma dump_flags_says flags : says (dump_flags flags) tt (chars "(" ++ join (chars ",") (flag_letters flags) ++ chars ")" ++ nl).
Proof.
  unfold dump_flags, flag_letters. cbn [omap list_omap fst snd].
  assert (E : forall k : Z, says (printf (line "%s") [AText (if truthy k then ")" else "()")]) tt (if truthy k then chars ")" ++ nl else chars "()" ++ nl))
    by (intros k; destruct (truthy k); say_text).
  eapply says_eq.
  { flag_step "%cM"%string "M"%string. flag_step "%cI"%string "I"%string. flag_step "%cR"%string "R"%string. flag_step "%cW"%string "W"%string. flag_step "%cX"%string "X"%string. apply E. }
  by destruct (truthy (Z.land flags SBI_DOMAIN_MEMREGION_MMODE)), (truthy (Z.land flags SBI_DOMAIN_MEMREGION_MMIO)),
    (truthy (Z.land flags SBI_DOMAIN_MEMREGION_READABLE)), (truthy (Z.land flags SBI_DOMAIN_MEMREGION_WRITEABLE)),
    (truthy (Z.land flags SBI_DOMAIN_MEMREGION_EXECUTABLE)).
Qed.

Lemma printi_text_2 i : 0 <= i < 2 ^ 31 -> printi_text (int_of i) 10 true 2 PAD_ZERO (chr "0") = two_digits i.
Proof.
  intros Hi. unfold printi_text, two_digits, int_of. rewrite s32_small by lia. rewrite (proj2 (Z.ltb_ge i 0)) by lia. cbn [andb].
  rewrite andb_false_r. cbv zeta. by rewrite u64_small by (unfold is_u64; lia).
Qed.

Lemma dump_regions_says index suffix l i : 0 <= i -> i + Z.of_nat (length l) < 2 ^ 31 ->
  says (dump_regions index suffix l i) tt (regions_text index suffix l i).
Proof.
  revert i. induction l as [|reg l IH]; intros i Hi Hl; cbn [dump_regions length] in *; [apply says_ret|].
  eapply says_eq; [eapply says_bind; [|eapply says_bind; [apply dump_flags_says|rewrite u32_small by lia; apply IH; lia]]|].
  - apply printf_says.
    instantiate (1 := chars "Domain" ++ int_text index ++ chars " Region" ++ two_digits i ++ chars "    " ++ suffix ++ chars ": 0x" ++
      hex16 (reg_base reg) ++ chars "-0x" ++ hex16 (region_end reg) ++ chars " ").
    rewrite <- printi_text_2 by lia. unfold formatted. lazy -[printi_text padded int_of uint_of long_of int_text hex16 app region_end reg_base].
    by rewrite printi_text_int, !printi_text_hex16, padded_0.
  - unfold regions_text. cbn [imap concat]. rewrite Z.add_0_r.
    assert (E : imap (λ k reg, region_text index suffix (i + 1 + Z.of_nat k) reg) l =
      imap ((λ k reg, region_text index suffix (i + Z.of_nat k) reg) ∘ S) l) by (apply imap_ext; intros k x _; unfold compose; f_equal; lia).
    rewrite E. generalize (concat (imap ((λ k reg, region_text index suffix (i + Z.of_nat k) reg) ∘ S) l)). intros rest.
    unfold region_text. by rewrite <- !app_assoc.
Qed.

(** ** The dump of a domain *)

Lemma dump_mode_says mode : says (dump_mode mode) tt (mode_name mode ++ nl).
Proof. unfold dump_mode, mode_name. repeat case_if; say_text. Qed.

Lemma dump_domain_says bi s p d hm suffix :
  Z.of_nat (length (sbi_hartmask_for_each_hart hm)) < 2 ^ 32 -> Z.of_nat (length (memregions (dom_regions s d))) < 2 ^ 31 ->
  says (dump_domain bi s p d hm suffix) tt (domain_text bi s p d hm suffix).
Proof.
  intros Hh Hr. unfold dump_domain. cbv zeta.
  assert (Hi : forall name value fmt args,
    formatted (chars fmt) args = Some (chars "Domain" ++ printi_text (int_of (dom_index d)) 10 true 0 0 (chr "0") ++ chars name ++
      padded suffix 0 0 ++ chars ": " ++ value) ->
    says (printf fmt args) tt (chars "Domain" ++ int_text (dom_index d) ++ chars name ++ suffix ++ chars ": " ++ value)).
  { intros name value fmt args H. apply printf_says. by rewrite H, printi_text_int, padded_0. }
  eapply says_eq.
  - eapply says_bind; [apply (Hi " Name        "%string (padded (bi_domain_name bi p) 0 0 ++ nl)); reflexivity|].
    eapply says_bind; [apply (Hi " Boot HART   "%string (printi_text (int_of (boot_hartid d)) 10 true 0 0 (chr "0") ++ nl)); reflexivity|].
    eapply says_bind; [apply (Hi " HARTs       "%string []); reflexivity|].
    eapply says_bind; [apply dump_harts_says; lia|].
    eapply says_bind; [apply (printf_says newline [] nl); reflexivity|].
    eapply says_bind; [apply dump_regions_says; lia|].
    eapply says_bind; [apply (Hi " Next Address"%string (chars "0x" ++ printi_text (long_of (next_addr d)) 16 false 16 PAD_ZERO (chr "a") ++ nl)); reflexivity|].
    eapply says_bind; [apply (Hi " Next Arg1   "%string (chars "0x" ++ printi_text (long_of (next_arg1 d)) 16 false 16 PAD_ZERO (chr "a") ++ nl)); reflexivity|].
    eapply says_bind; [apply (Hi " Next Mode   "%string []); reflexivity|].
    eapply says_bind; [apply dump_mode_says|].
    apply (Hi " SysReset    "%string (padded (chars (if system_reset_allowed d then "yes" else "no")) 0 0 ++ nl)). by destruct (system_reset_allowed d).
  - unfold domain_text. cbv zeta. rewrite !printi_text_hex16, printi_text_int, !padded_0. change (truthy 0) with false. cbv iota.
    rewrite ?app_nil_r, <- ?app_assoc. done.
Qed.

Lemma hart_list_length hm : hartmask_wf hm -> (length (sbi_hartmask_for_each_hart hm) <= 128)%nat.
Proof.
  intros W. rewrite hartmask_for_each_spec by done. etrans; [apply length_filter|]. by rewrite length_seqZ.
Qed.

(** The dump of a domain says what the domain is: sbi_domain_dump writes to the
    console its name, boot hart, possible harts (those assigned to it starred),
    regions in order with their first and last address and the letters of their
    flags, and where and how it starts; it changes nothing else. *)
Theorem domain_dump_text bi m p d hm suffix :
  domains (m_domains m) !! p = Some d -> possible_harts d = Some hm -> hartmask_wf (deref_hmask (m_domains m) hm) ->
  Z.of_nat (length (memregions (dom_regions (m_domains m) d))) < 2 ^ 31 ->
  sbi_domain_dump bi p suffix m =
    (Ret tt, put_text (domain_text bi (m_domains m) p d (deref_hmask (m_domains m) hm) suffix) m).
Proof.
  intros Hd Hh W Hr. unfold sbi_domain_dump. rewrite bind_gets, Hd, Hh.
  apply dump_domain_says; [|done]. assert (H := hart_list_length _ W). lia.
Qed.

(** ** Feature strings *)

Definition feature_names (name : Z → option (list Z)) (features : Z) (bits : list Z) : list (list Z) :=
  omap (λ feat, if truthy (Z.land features feat) then name feat else None) bits.

(** The names after one another, each with its comma. *)
Definition listed (names : list (list Z)) : list Z := flat_map (λ n, n ++ chars ",") names.

Definition features_text (names : list (list Z)) : list Z := match names with [] => chars "none" | _ => join (chars ",") names end.

Lemma put_chars_over a l c mem : l <> [] -> put_chars a l (<[a := c]> mem) = put_chars a l mem.
Proof. destruct l as [|c' l]; [done|]. intros _. cbn. by rewrite insert_insert_eq. Qed.

(** Another name at the end. *)
Lemma feature_step str sz acc name st mem1 :
  ps_mem st = put_chars str (acc ++ [0]) mem1 -> 0 < str -> str + Z.of_nat (length (acc ++ name)) + 1 < 2 ^ 64 -> (length name <= 20)%nat ->
  exists out n, sbi_snprintf (str + Z.of_nat (length acc)) sz (chars "%s,") [AStr (Some name)] st =
    (Ret (Z.of_nat (length name) + 1), set_ps_buffer (put_chars str (acc ++ (name ++ chars ",") ++ [0]) mem1) out n st).
Proof.
  intros Hm Hs Hb Hn. rewrite length_app in Hb.
  assert (Hf : formatted (chars "%s,") [AStr (Some name)] = Some (name ++ chars ",")).
  { change (formatted _ _) with (Some (padded name 0 0 ++ chars ",")). by rewrite padded_0. }
  destruct (sbi_snprintf_run (str + Z.of_nat (length acc)) sz _ _ _ st Hf) as [n E].
  - lia.
  - rewrite length_app. change (length (chars ",")) with 1%nat. lia.
  - eexists _, n. rewrite E. rewrite length_app at 1. change (length (chars ",")) with 1%nat. rewrite s32_small by lia. f_equal; [f_equal; lia|].
    rewrite Hm, (put_chars_app acc [0]), (put_chars_app acc). change (put_chars ?a [0] ?m) with (<[a := 0]> m).
    rewrite put_chars_over; [done|by destruct name].
Qed.

Lemma memset_lookup n s c mem a : 0 <= s -> s + Z.of_nat n < 2 ^ 64 ->
  memset_loop n s c mem !! a = if (s <=? a) && (a <? s + Z.of_nat n) then Some (to_char c) else mem !! a.
Proof.
  revert s mem. induction n as [|n IH]; intros s mem Hs Hb; cbn [memset_loop].
  { rewrite Z.add_0_r. destruct (Z.leb_spec s a), (Z.ltb_spec a s); (lia || done). }
  assert (add64 s 1 = s + 1) as -> by (apply u64_small; unfold is_u64; lia). rewrite IH by lia.
  destruct (Z.leb_spec s a), (Z.ltb_spec a (s + Z.of_nat (S n))), (Z.leb_spec (s + 1) a), (Z.ltb_spec a (s + 1 + Z.of_nat n)); cbn [andb];
    try lia; try done; try (rewrite lookup_insert_ne by lia; done).
  replace s with a by lia. apply lookup_insert_eq.
Qed.

Lemma listed_join names : names <> [] -> listed names = join (chars ",") names ++ chars ",".
Proof.
  destruct names as [|x names]; [done|]. intros _. unfold listed. cbn [flat_map join]. rewrite <- !app_assoc. f_equal.
  induction names as [|y names IH]; [done|]. cbn [flat_map]. rewrite <- !app_assoc, <- IH. done.
Qed.

(** A loop step appends the name of its feature. *)
Definition same_console (st st' : print_state) : Prop := ps_machine st' = ps_machine st /\ ps_lock st' = ps_lock st.

Lemma hart_feature_name feat name : sbi_hart_feature_id2string feat = Some name -> (length name <= 13)%nat /\ Forall (λ c, c <> 0) name.
Proof.
  unfold sbi_hart_feature_id2string. repeat case_if; try done; intros [= <-]; (split; [vm_compute; lia|repeat constructor; done]).
Qed.

Lemma hart_step n features feat str sz acc st mem1 :
  ps_mem st = put_chars str (acc ++ [0]) mem1 -> 0 < str -> str + Z.of_nat (length acc) + 16 < 2 ^ 64 ->
  let acc' := acc ++ listed (feature_names sbi_hart_feature_id2string features [feat]) in
  exists st', same_console st st' /\ ps_mem st' = put_chars str (acc' ++ [0]) mem1 /\
    hart_features_loop (S n) features feat (Z.of_nat (length acc)) str sz st =
      (if shl64 feat 1 <=? SBI_HART_HAS_LAST_FEATURE
       then hart_features_loop n features (shl64 feat 1) (Z.of_nat (length acc')) str sz else ret (Z.of_nat (length acc'))) st'.
Proof.
  intros Hm Hs Hb acc'. cbn [hart_features_loop]. subst acc'. unfold feature_names. cbn [omap list_omap].
  destruct (if truthy (Z.land features feat) then _ else None) as [name|] eqn:En.
  - assert (Hn : (length name <= 13)%nat) by (destruct (truthy (Z.land features feat)); [by eapply hart_feature_name|done]).
    destruct (feature_step str sz acc name st mem1 Hm Hs ltac:(rewrite length_app; lia) ltac:(lia)) as (out & k & E).
    eexists (set_ps_buffer _ _ _ st). split; [|split; [|rewrite bind_assoc, (bind_Ret _ _ _ _ _ E), bind_ret_l; cbv zeta]].
    + done.
    + unfold listed. cbn [flat_map]. rewrite app_nil_r, <- app_assoc. done.
    + unfold listed. cbn [flat_map]. rewrite app_nil_r, !length_app. change (length (chars ",")) with 1%nat.
      replace (Z.of_nat (length acc + (length name + 1))) with (Z.of_nat (length acc) + Z.of_nat (length name) + 1) by lia. done.
  - exists st. unfold listed. cbn [flat_map]. rewrite app_nil_r. split; [done|]. split; [done|]. rewrite bind_ret_l. done.
Qed.

Definition hart_feature_bits : list Z := [SBI_HART_HAS_SCOUNTEREN; SBI_HART_HAS_MCOUNTEREN; SBI_HART_HAS_MCOUNTINHIBIT; SBI_HART_HAS_TIME].

Lemma hart_loop_run features str sz st mem1 :
  ps_mem st = put_chars str [0] mem1 -> 0 < str -> str + 128 < 2 ^ 64 ->
  let acc := listed (feature_names sbi_hart_feature_id2string features hart_feature_bits) in
  exists st', same_console st st' /\ ps_mem st' = put_chars str (acc ++ [0]) mem1 /\
    hart_features_loop 64 features 1 0 str sz st = (Ret (Z.of_nat (length acc)), st').
Proof.
  intros Hm Hs Hb acc.
  assert (Hl : forall feat, (length (listed (feature_names sbi_hart_feature_id2string features [feat])) <= 14)%nat).
  { intros feat. unfold feature_names. cbn [omap list_omap]. destruct (truthy _); [|cbn; lia].
    destruct (sbi_hart_feature_id2string feat) as [name|] eqn:En; [|cbn; lia]. apply hart_feature_name in En as [En _].
    unfold listed. cbn [flat_map]. rewrite app_nil_r, length_app. change (length (chars ",")) with 1%nat. lia. }
  pose proof (Hl 1) as L1. pose proof (Hl 2) as L2. pose proof (Hl 4) as L3.
  destruct (hart_step 63 features 1 str sz [] st mem1 Hm Hs ltac:(cbn; lia)) as (st1 & C1 & M1 & E1). cbn [app] in *.
  change (Z.of_nat (length [])) with 0 in E1. rewrite E1.
  change (shl64 1 1 <=? SBI_HART_HAS_LAST_FEATURE) with true. cbv iota. change (shl64 1 1) with 2.
  destruct (hart_step 62 features 2 str sz _ st1 mem1 M1 Hs ltac:(lia)) as (st2 & C2 & M2 & E2). rewrite E2.
  change (shl64 2 1 <=? SBI_HART_HAS_LAST_FEATURE) with true. cbv iota. change (shl64 2 1) with 4.
  destruct (hart_step 61 features 4 str sz _ st2 mem1 M2 Hs ltac:(rewrite length_app; lia)) as (st3 & C3 & M3 & E3). rewrite E3.
  change (shl64 4 1 <=? SBI_HART_HAS_LAST_FEATURE) with true. cbv iota. change (shl64 4 1) with 8.
  destruct (hart_step 60 features 8 str sz _ st3 mem1 M3 Hs ltac:(rewrite !length_app; lia)) as (st4 & C4 & M4 & E4). rewrite E4.
  change (shl64 8 1 <=? SBI_HART_HAS_LAST_FEATURE) with false. cbv iota.
  assert (Ea : acc = ((listed (feature_names sbi_hart_feature_id2string features [1]) ++ listed (feature_names sbi_hart_feature_id2string features [2]))
    ++ listed (feature_names sbi_hart_feature_id2string features [4])) ++ listed (feature_names sbi_hart_feature_id2string features [8])).
  { subst acc. unfold listed, feature_names, hart_feature_bits. rewrite <- !flat_map_app, <- !omap_app. done. }
  exists st4. rewrite Ea. split; [|split; [exact M4|done]]. unfold same_console in *. intuition congruence.
Qed.

Lemma features_done_run names str nfstr st mem1 :
  let acc := listed names in
  ps_mem st = put_chars str (acc ++ [0]) mem1 -> (forall a, str <= a < str + nfstr -> mem1 !! a = Some 0) ->
  Forall (Forall (λ c, c <> 0)) names -> Z.of_nat (length acc) < nfstr -> 5 <= nfstr ->
  exists st', features_done str nfstr (Z.of_nat (length acc)) st = (Ret tt, st') /\ same_console st st' /\
    c_string (Z.to_nat nfstr) (ps_mem st') str = Some (features_text names) /\
    forall a, a < str \/ str + nfstr <= a -> ps_mem st' !! a = mem1 !! a.
Proof.
  intros acc Hm H0 Hz Hl Hn. unfold features_done. destruct (decide (names = [])) as [->|Hne].
  - subst acc. change (truthy _) with false. cbv iota. cbn [listed flat_map app put_chars] in Hm. eexists. split; [reflexivity|]. split; [done|].
    cbn [ps_mem set_ps_buffer on_mem]. rewrite Hm. rewrite insert_id by (apply H0; lia).
    assert (Ht : take (Z.to_nat nfstr) (chars "none") = chars "none").
    { apply take_ge. change (length (chars "none")) with 4%nat. lia. }
    rewrite Ht. assert (L4 : length (chars "none") = 4%nat) by reflexivity. change (features_text []) with (chars "none"). split.
    + apply c_string_text; [repeat constructor; done|lia|intros i c Hi; by apply put_chars_at|].
      rewrite put_chars_outside by lia. apply H0. lia.
    + intros a Ha. apply put_chars_outside. lia.
  - assert (Ej := listed_join names Hne). fold acc in Ej.
    set (text := join (chars ",") names) in *.
    assert (La : length acc = (length text + 1)%nat) by (by rewrite Ej, length_app).
    rewrite (proj2 (truthy_true _)) by lia. eexists. split; [reflexivity|]. split; [done|]. cbn [ps_mem set_ps_buffer on_mem].
    replace (features_text names) with text by (by destruct names). rewrite Hm. replace (str + Z.of_nat (length acc) - 1) with (str + Z.of_nat (length text)) by lia. split.
    + apply c_string_text; [|lia| |].
      * subst text. clear -Hz Hne. destruct names as [|name names']; [done|]. cbn [join]. apply Forall_cons_1 in Hz as [H1 H2]. apply Forall_app. split; [done|].
        clear -H2. induction names' as [|y l IH]; [constructor|]. apply Forall_cons_1 in H2 as [H2 H3]. cbn [flat_map].
        apply Forall_app. split; [|by apply IH]. by constructor.
      * intros i c Hi. assert (Hlt := lookup_lt_Some _ _ _ Hi). rewrite lookup_insert_ne by lia. apply put_chars_at. rewrite Ej, <- app_assoc.
        by rewrite lookup_app_l.
      * apply lookup_insert_eq.
    + intros a Ha. rewrite lookup_insert_ne by lia. apply put_chars_outside. rewrite length_app. cbn [length]. lia.
Qed.

(** The feature string of a hart: in a buffer of at least 42 bytes,
    sbi_hart_get_features_str leaves the names of the hart's features separated
    by commas, or "none", and touches nothing outside the buffer. *)
Theorem hart_features_listed hf str nfstr st :
  42 <= nfstr -> 0 < str -> str + nfstr + 128 < 2 ^ 64 ->
  exists st', sbi_hart_get_features_str hf str nfstr st = (Ret tt, st') /\ same_console st st' /\
    c_string (Z.to_nat nfstr) (ps_mem st') str =
      Some (features_text (feature_names sbi_hart_feature_id2string (features hf) hart_feature_bits)) /\
    forall a, a < str \/ str + nfstr <= a -> ps_mem st' !! a = ps_mem st !! a.
Proof.
  intros Hn Hs Hb. unfold sbi_hart_get_features_str. rewrite (proj2 (truthy_true str)), (proj2 (Z.leb_gt _ _)) by lia. cbn [negb orb].
  set (mem1 := sbi_memset str 0 nfstr (ps_mem st)).
  assert (Hmem : forall a, mem1 !! a = if (str <=? a) && (a <? str + nfstr) then Some 0 else ps_mem st !! a).
  { intros a. subst mem1. unfold sbi_memset. rewrite memset_lookup by lia. rewrite Z2Nat.id by lia. done. }
  assert (H0 : forall a, str <= a < str + nfstr -> mem1 !! a = Some 0).
  { intros a Ha. by rewrite Hmem, (proj2 (Z.leb_le _ _)), (proj2 (Z.ltb_lt _ _)) by lia. }
  set (st1 := set_ps_buffer mem1 (ps_out st) (ps_len st) st).
  assert (E1 : on_mem (sbi_memset str 0 nfstr) st = (Ret tt, st1)) by done. rewrite (bind_Ret _ _ _ _ _ E1).
  assert (M1 : ps_mem st1 = put_chars str [0] mem1) by (cbn; by rewrite insert_id by (apply H0; lia)).
  set (names := feature_names _ _ _).
  assert (Hr : exists st2, (if truthy (features hf) then hart_features_loop 64 (features hf) 1 0 str nfstr else ret 0) st1 =
    (Ret (Z.of_nat (length (listed names))), st2) /\ same_console st1 st2 /\ ps_mem st2 = put_chars str (listed names ++ [0]) mem1).
  { destruct (truthy (features hf)) eqn:Ef.
    - destruct (hart_loop_run (features hf) str nfstr st1 mem1) as (st2 & C & M & E); [done|lia|lia|by exists st2].
    - apply truthy_false in Ef. exists st1. subst names. rewrite Ef. split; [done|]. by split. }
  destruct Hr as (st2 & E2 & C2 & M2). rewrite (bind_Ret _ _ _ _ _ E2).
  assert (Hnames : Forall (Forall (λ c, c <> 0)) names /\ (length (listed names) <= 41)%nat).
  { subst names. unfold feature_names, hart_feature_bits. cbn [omap list_omap].
    destruct (truthy (Z.land (features hf) SBI_HART_HAS_SCOUNTEREN)), (truthy (Z.land (features hf) SBI_HART_HAS_MCOUNTEREN)),
      (truthy (Z.land (features hf) SBI_HART_HAS_MCOUNTINHIBIT)), (truthy (Z.land (features hf) SBI_HART_HAS_TIME));
      (split; [|vm_compute; lia]); cbn; repeat constructor; done. }
  destruct (features_done_run names str nfstr st2 mem1 M2 H0) as (st3 & E3 & C3 & S3 & F3); [apply Hnames|destruct Hnames; lia|lia|].
  exists st3. split; [exact E3|]. split; [|split; [exact S3|]].
  - unfold same_console in *. cbn in C2. intuition congruence.
  - intros a Ha. rewrite F3, Hmem by done. destruct (Z.leb_spec str a), (Z.ltb_spec a (str + nfstr)); (done || lia).
Qed.

Lemma platform_features_listed pl str nfstr st :
  is_Some (plat pl) -> 9 <= nfstr -> 0 < str -> str + nfstr + 128 < 2 ^ 64 ->
  exists st', sbi_platform_get_features_str pl str nfstr st = (Ret tt, st') /\ same_console st st' /\
    c_string (Z.to_nat nfstr) (ps_mem st') str = Some (chars (if mfaults_delegation pl then "medeleg" else "none")).
Proof.
  intros [p Hp] Hn Hs Hb. unfold sbi_platform_get_features_str, sbi_platform_get_features. rewrite Hp, !(proj2 (truthy_true _)) by lia. cbn [negb orb].
  set (mem1 := sbi_memset str 0 nfstr (ps_mem st)). set (st1 := set_ps_buffer mem1 (ps_out st) (ps_len st) st).
  assert (E1 : on_mem (sbi_memset str 0 nfstr) st = (Ret tt, st1)) by done. rewrite (bind_Ret _ _ _ _ _ E1). cbv zeta.
  assert (H0 : forall a, str <= a < str + nfstr -> mem1 !! a = Some 0).
  { intros a Ha. subst mem1. unfold sbi_memset. rewrite memset_lookup by lia. rewrite Z2Nat.id by lia.
    by rewrite (proj2 (Z.leb_le _ _)), (proj2 (Z.ltb_lt _ _)) by lia. }
  assert (M1 : ps_mem st1 = put_chars str ([] ++ [0]) mem1) by (cbn; by rewrite insert_id by (apply H0; lia)).
  set (names := if mfaults_delegation pl then [chars "medeleg"] else []).
  assert (Hr : exists st2, (if truthy (if mfaults_delegation pl then SBI_PLATFORM_HAS_MFAULTS_DELEGATION else 0)
      then platform_features_loop 64 (if mfaults_delegation pl then SBI_PLATFORM_HAS_MFAULTS_DELEGATION else 0) 1 0 str nfstr else ret 0) st1 =
    (Ret (Z.of_nat (length (listed names))), st2) /\ same_console st1 st2 /\ ps_mem st2 = put_chars str (listed names ++ [0]) mem1).
  { subst names. destruct (mfaults_delegation pl); [|by exists st1]. change (truthy _) with true. cbv iota.
    destruct (feature_step str (nfstr - 0) [] (chars "medeleg") st1 mem1 M1 Hs ltac:(cbn; lia) ltac:(cbn; lia)) as (out & n & E).
    change (Z.of_nat (length [])) with 0 in E. exists (set_ps_buffer (put_chars str ([] ++ (chars "medeleg" ++ chars ",") ++ [0]) mem1) out n st1).
    split; [|done]. cbn [platform_features_loop]. change (truthy (Z.land SBI_PLATFORM_HAS_MFAULTS_DELEGATION 1)) with false. cbv iota.
    rewrite bind_ret_l. cbn [snd fst]. change (shl64 1 1) with 2. change (2 <=? SBI_PLATFORM_HAS_LAST_FEATURE) with true. cbv iota zeta.
    change (truthy (Z.land SBI_PLATFORM_HAS_MFAULTS_DELEGATION 2)) with true. cbv iota.
    change (sbi_platform_feature_id2string 2) with (Some (chars "medeleg")). cbv iota. rewrite bind_assoc, (bind_Ret _ _ _ _ _ E), bind_ret_l.
    change (Z.of_nat (length (chars "medeleg")) + 1) with 8. change (8 <? 0) with false. cbv iota. rewrite (proj2 (Z.leb_gt _ _)) by lia. done. }
  destruct Hr as (st2 & E2 & C2 & M2). rewrite (bind_Ret _ _ _ _ _ E2).
  destruct (features_done_run names str nfstr st2 mem1 M2 H0) as (st3 & E3 & C3 & S3 & _).
  { subst names. destruct (mfaults_delegation pl); repeat constructor; done. }
  { subst names. destruct (mfaults_delegation pl); cbn; lia. }
  { lia. }
  exists st3. split; [exact E3|]. split; [unfold same_console in *; cbn in C2; intuition congruence|].
  rewrite S3. subst names. by destruct (mfaults_delegation pl).
Qed.

(** ** The report does not disturb the boot *)

(** Whatever holds of the machine but for its trace. *)
Definition silent (P : machine → Prop) : Prop := forall text m, P m -> P (put_text text m).

(** From every state of [P], [c] returns something that satisfies [R], and all
    it changes is the console. *)
Definition talks {A} (P : machine → Prop) (c : M machine A) (R : A → Prop) : Prop :=
  forall m, P m -> exists a text, c m = (Ret a, put_text text m) /\ R a.

Lemma talks_bind {A B} P (c : M machine A) (k : A → M machine B) R R' :
  silent P -> talks P c R -> (forall a, R a -> talks P (k a) R') -> talks P (bind c k) R'.
Proof.
  intros HP Hc Hk m Hm. destruct (Hc m Hm) as (a & l & E & Ha). destruct (Hk a Ha _ (HP l m Hm)) as (b & l' & E' & Hb).
  exists b, (l ++ l'). rewrite (bind_Ret _ _ _ _ _ E), E', put_text_app. done.
Qed.

Lemma talks_says {A} P (c : M machine A) a l : says c a l -> talks P c (λ x, x = a).
Proof. intros H m _. exists a, l. by rewrite H. Qed.

Lemma talks_read {A} (P : machine → Prop) (c : M machine A) (R : A → Prop) :
  (forall m, P m -> exists a, c m = (Ret a, m) /\ R a) -> talks P c R.
Proof. intros H m Hm. destruct (H m Hm) as (a & E & Ha). exists a, []. by rewrite put_text_nil. Qed.

Lemma talks_ret {A} P (a : A) (R : A → Prop) : R a -> talks P (ret a) R.
Proof. intros Ha. apply talks_read. intros m _. by exists a. Qed.

Lemma talks_weaken {A} P (c : M machine A) (R R' : A → Prop) : talks P c R -> (forall a, R a -> R' a) -> talks P c R'.
Proof. intros H HR m Hm. destruct (H m Hm) as (a & l & E & Ha). eauto. Qed.

Lemma talks_printf P fmt args : is_Some (formatted (chars fmt) args) -> talks P (printf fmt args) (λ _, True).
Proof. intros [text Hf]. eapply talks_weaken; [eapply talks_says, printf_says, Hf|done]. Qed.

Lemma talks_mfor {I} P (l : list I) body : silent P -> (forall i, i ∈ l -> talks P (body i) (λ _, True)) -> talks P (mfor l body) (λ _, True).
Proof.
  intros HP. induction l as [|i l IH]; intros H; cbn [mfor]; [by apply talks_ret|].
  eapply talks_bind; [done|apply H; by left|]. intros _ _. apply IH. intros j Hj. apply H. by right.
Qed.

(** The same for what stops in the end. *)
Definition stops {A} (P : machine → Prop) (c : M machine A) (w : noreturn) : Prop :=
  forall m, P m -> exists m', c m = (Stop w, m') /\ P m'.

Lemma stops_stop {A} P w : stops (A:=A) P (stop w) w.
Proof. intros m Hm. by exists m. Qed.

Lemma stops_bind {A B} P (c : M machine A) (k : A → M machine B) R w :
  silent P -> talks P c R -> (forall a, R a -> stops P (k a) w) -> stops P (bind c k) w.
Proof.
  intros HP Hc Hk m Hm. destruct (Hc m Hm) as (a & l & E & Ha). destruct (Hk a Ha _ (HP l m Hm)) as (m' & E' & Hm').
  exists m'. by rewrite (bind_Ret _ _ _ _ _ E).
Qed.

Lemma talks_str (P : machine → Prop) bi c : (forall st, exists st' l, c (bi_str bi) 128 st = (Ret tt, st') /\ same_console st st' /\ c_string 128 (ps_mem st') (bi_str bi) = Some l) ->
  talks P (with_str bi c) (λ _, True).
Proof.
  intros H. apply talks_read. intros m _. unfold with_str, say. destruct (H (PrintState m SPIN_LOCK_INIT ∅ 0 0)) as (st' & l & E & [C _] & Hl).
  exists l. rewrite (bind_Ret _ _ _ _ _ E), bind_gets, Hl. split; [|done]. cbn. by rewrite C.
Qed.

Lemma string_of_zero l : 0 ∈ l -> is_Some (string_of l).
Proof.
  induction l as [|c l IH]; [by rewrite elem_of_nil|]. cbn [string_of]. rewrite elem_of_cons. destruct (Z.eqb_spec c 0); [done|].
  intros [H|H]; [done|]. destruct (IH H) as [x ->]. by eexists.
Qed.

Lemma misa_string_ends pe xlen m : 1 <= xlen <= 3 -> exists r, misa_string pe xlen 128 m = (Ret r, m) /\ is_Some (string_of r).
Proof.
  intros Hx. assert (Hl : forall l out, exists r, misa_letters pe l 128 out m = (Ret r, m) /\ (length r <= length out + length l)%nat).
  { induction l as [|c l IH]; intros out; cbn [misa_letters length]; [exists out; split; [done|lia]|].
    case_if; [|exists out; split; [done|lia]]. unfold bind at 1. unfold misa_extension_imp, bind, csr_read, gets, ret.
    match goal with |- exists r, misa_letters _ _ _ ?o _ = _ /\ _ => destruct (IH o) as (r & Er & H) end. exists r. split; [exact Er|].
    etrans; [exact H|]. case_if; [rewrite length_app; cbn|]; lia. }
  unfold misa_string. change (5 <=? 128) with true. cbv iota.
  assert (Hpre : exists p, (if xlen =? 1 then ret [114; 118; 51; 50] else if xlen =? 2 then ret [114; 118; 54; 52]
      else if xlen =? 3 then ret [114; 118; 49; 50; 56] else stop hart_hang) m = (Ret p, m) /\ (length p <= 5)%nat).
  { assert (xlen = 1 \/ xlen = 2 \/ xlen = 3) as [->|[->| ->]] by lia; (eexists; split; [done|cbn; lia]). }
  destruct Hpre as (p & E & Hp). rewrite (bind_Ret _ _ _ _ _ E). destruct (Hl valid_isa_order p) as (r & E' & Hr).
  rewrite (bind_Ret _ _ _ _ _ E'). change (length valid_isa_order) with 27%nat in Hr. rewrite (proj2 (Z.ltb_lt _ _)) by lia.
  eexists. split; [done|]. apply string_of_zero. rewrite elem_of_app. right. by left.
Qed.

(** What the report reads: the boot hart with its XLEN and domain, and domains
    that are complete. *)
Record reportable (bi : board_info) (pl : sbi_platform_operations) (cur : Z) (m : machine) : Prop := {
  rp_plat : is_Some (plat pl);
  rp_str : 0 < bi_str bi < 2 ^ 64 - 256;
  rp_hart : exists d xlen, hart m cur = Some d /\ misa_xlen (sbi_platform_misa_xlen bi pl) (hd_csrs d) = (Ret xlen, hd_csrs d) /\ 1 <= xlen <= 3;
  rp_domain : is_Some (mjoin (hartid_to_domain_table (m_domains m) !! Z.to_nat cur));
  rp_domains : exists l, sbi_domain_for_each (domidx_to_domain_table (m_domains m)) = Ret l /\
    forall p, p ∈ l -> exists d hm, domains (m_domains m) !! p = Some d /\ possible_harts d = Some hm /\
      hartmask_wf (deref_hmask (m_domains m) hm) /\ Z.of_nat (length (memregions (dom_regions (m_domains m) d))) < 2 ^ 31;
}.

Lemma reportable_silent bi pl cur : silent (reportable bi pl cur).
Proof. intros text m [H1 H2 H3 H4 H5]. split; [done|done|by rewrite put_text_hart|by rewrite put_text_domains|by rewrite put_text_domains]. Qed.

Section Quiet.
Context (bi : board_info) (pl : sbi_platform_operations) (cur : Z).

#[local] Ltac next := eapply talks_bind; [apply reportable_silent| |intros ? ?; cbv beta].
#[local] Ltac message := apply talks_printf; unfold formatted; lazy -[printi_text padded int_of uint_of long_of s32 u32 Z.div app]; by eexists.
#[local] Ltac reads := apply (talks_read _ _ (λ _, True)); intros ? ?; by eexists.

Lemma talks_silently options c : talks (reportable bi pl cur) c (λ _, True) -> talks (reportable bi pl cur) (unless_silent options c) (λ _, True).
Proof. intros H. unfold unless_silent. case_if; [by apply talks_ret|done]. Qed.

Lemma banner_talks options : talks (reportable bi pl cur) (sbi_boot_print_banner bi options) (λ _, True).
Proof.
  apply talks_silently. next; [destruct (bi_version_git bi); message|].
  next; [destruct (bi_build_time bi); [message|by apply talks_ret]|].
  next; [destruct (bi_build_compiler bi); [message|by apply talks_ret]|]. message.
Qed.

Lemma general_talks options fw_start fw_size : is_Some (plat pl) -> 0 < bi_str bi < 2 ^ 64 - 256 ->
  talks (reportable bi pl cur) (sbi_boot_print_general bi pl options fw_start fw_size) (λ _, True).
Proof.
  intros Hp Hs. apply talks_silently. next; [message|]. next.
  { apply talks_str. intros st. destruct (platform_features_listed pl (bi_str bi) 128 st Hp) as (st' & E & C & S); [lia|lia|lia|].
    exists st'; eexists. split; [exact E|]. split; [exact C|exact S]. }
  do 2 (next; [message|]). do 6 (next; [reads|]; next; [message|]). do 3 (next; [message|]). message.
Qed.

Lemma domain_dump_talks suffix p :
  talks (λ m, reportable bi pl cur m /\ exists l, sbi_domain_for_each (domidx_to_domain_table (m_domains m)) = Ret l /\ p ∈ l)
    (sbi_domain_dump bi p suffix) (λ _, True).
Proof.
  intros m [[_ _ _ _ (l' & El' & H)] (l & El & Hp)]. rewrite El in El'. injection El' as <-.
  destruct (H p Hp) as (d & hm & Hd & Hh & W & Hr). eexists tt, _. split; [|done]. by apply domain_dump_text.
Qed.

Lemma domains_talk options : talks (reportable bi pl cur) (sbi_boot_print_domains bi options) (λ _, True).
Proof.
  apply talks_silently. intros m Hm. destruct (rp_domains _ _ _ _ Hm) as (l & El & _).
  unfold sbi_domain_dump_all. rewrite bind_gets, El.
  set (P := λ m, reportable bi pl cur m /\ sbi_domain_for_each (domidx_to_domain_table (m_domains m)) = Ret l).
  assert (HP : silent P) by (intros text m' [H1 H2]; split; [by apply reportable_silent|by rewrite put_text_domains]).
  apply (talks_mfor P l _ HP); [|by split]. intros p Hp. eapply talks_bind; [done| |intros ? ?; message].
  intros m' [H1 H2]. apply domain_dump_talks. split; [done|]. by exists l.
Qed.

Lemma boot_hart_talks options : 0 < bi_str bi < 2 ^ 64 - 256 ->
  talks (reportable bi pl cur) (sbi_boot_print_hart bi pl options cur) (λ _, True).
Proof.
  intros Hs. unfold sbi_boot_print_hart.
  eapply talks_bind; [apply reportable_silent|apply (talks_read _ _ is_Some); intros m Hm; eexists; split; [done|apply Hm]|].
  intros dom [p ->]. apply talks_silently.
  eapply talks_bind; [apply reportable_silent|apply (talks_read _ _ (λ x, 1 <= x <= 3))|].
  { intros m Hm. destruct (rp_hart _ _ _ _ Hm) as (d & xlen & Hd & Hx & Hr). exists xlen. split; [|done].
    apply (on_hart_read _ _ _ d); [done|]. unfold hart_csr, zoom. rewrite Hx. by destruct d. }
  intros xlen Hx. cbv beta in Hx. rewrite (proj2 (Z.ltb_ge _ _)) by lia. next; [by apply (talks_ret _ _ (λ _, True))|]. next; [message|]. next; [message|].
  eapply talks_bind; [apply reportable_silent|apply (talks_read _ _ (λ r, is_Some (string_of r)))|].
  { intros m Hm. destruct (rp_hart _ _ _ _ Hm) as (d & _ & Hd & _).
    destruct (misa_string_ends (sbi_platform_misa_extension pl) xlen (hd_csrs d) Hx) as (r & E & Hr). exists r. split; [|done].
    apply (on_hart_read _ _ _ d); [done|]. unfold hart_csr, zoom. rewrite E. by destruct d. }
  intros isa [text ->]. next; [message|].
  eapply talks_bind; [apply reportable_silent|apply (talks_read _ _ (λ _, True))|].
  { intros m Hm. destruct (rp_hart _ _ _ _ Hm) as (d & _ & Hd & _). exists (hd_features d). split; [|done]. by apply (on_hart_read _ _ _ d). }
  intros hf _. next.
  { apply talks_str. intros st. destruct (hart_features_listed hf (bi_str bi) 128 st) as (st' & E & C & S & _); [lia|lia|lia|].
    exists st'; eexists. split; [exact E|]. split; [exact C|exact S]. }
  do 5 (next; [message|]). unfold sbi_hart_delegation_dump. next.
  { apply (talks_read _ _ (λ _, True)). intros m Hm. destruct (rp_hart _ _ _ _ Hm) as (d & _ & Hd & _). eexists. split; [|done].
    unfold this_misa, this_csr. apply (on_hart_read _ _ _ d); [done|]. unfold hart_csr, zoom. rewrite misa_has_run. by destruct d. }
  case_if; [by apply talks_ret|].
  assert (Hr : forall c, talks (reportable bi pl cur) (on_hart cur (hart_csr (csr_read c))) (λ _, True)).
  { intros c. apply (talks_read _ _ (λ _, True)). intros m Hm. destruct (rp_hart _ _ _ _ Hm) as (d & _ & Hd & _). eexists. split; [|done].
    apply (on_hart_read _ _ _ d); [done|]. unfold hart_csr, zoom, csr_read, gets. by destruct d. }
  next; [apply Hr|]. next; [message|]. next; [apply Hr|]. message.
Qed.

End Quiet.

(** The report of the cold boot only talks: on a platform, with complete domains
    and a known XLEN, the banner, the platform, the domains and the boot hart are
    printed in full, no message asks for an argument that is not there and no
    string overruns its buffer; the machine is as it was but for the console. *)
Theorem boot_report_only_talks bi pl cur options fw_start fw_size m :
  reportable bi pl cur m ->
  exists text, (sbi_boot_print_banner bi options ;;; sbi_boot_print_general bi pl options fw_start fw_size ;;;
                sbi_boot_print_domains bi options ;;; sbi_boot_print_hart bi pl options cur)%sbi m = (Ret tt, put_text text m).
Proof.
  intros Hm. assert (HP := reportable_silent bi pl cur).
  assert (H : talks (reportable bi pl cur) (sbi_boot_print_banner bi options ;;; sbi_boot_print_general bi pl options fw_start fw_size ;;;
    sbi_boot_print_domains bi options ;;; sbi_boot_print_hart bi pl options cur)%sbi (λ _, True)).
  { eapply talks_bind; [done|apply banner_talks|intros _ _]. eapply talks_bind; [done|apply general_talks; apply Hm|intros _ _].
    eapply talks_bind; [done|apply domains_talk|intros _ _]. apply boot_hart_talks. apply Hm. }
  destruct (H m Hm) as ([] & text & E & _). by exists text.
Qed.

(** The demonstration machine, on a platform that says RV64. *)
Definition demo_info : board_info :=
  BoardInfo (chars "Demo") (Some 2) (λ _, chars "root") (chars "clint") (chars "clint") (chars "uart") (chars "hsm") (λ _, chars "reset") None None None 0x1000.

Definition demo_platform : sbi_platform_operations :=
  PlatformOps (Some (Platform 3 None)) None None None None None None None None None None None None None None None None None None true.

Lemma demo_reportable : reportable demo_info demo_platform 0 demo_machine.
Proof.
  split; [by eexists|cbn; lia| |by eexists|].
  - exists (demo_hart SBI_HSM_STATE_STARTED), 2. split; [reflexivity|]. split; [reflexivity|lia].
  - exists [root]. split; [reflexivity|]. intros p Hp%list_elem_of_singleton. subst p. eexists _, RootHmask. split; [reflexivity|].
    split; [reflexivity|]. split; [split; [reflexivity|repeat constructor; unfold is_u64; lia]|]. vm_compute. reflexivity.
Qed.

Lemma boot_report_only_talks_witness : exists text,
  (sbi_boot_print_banner demo_info 0 ;;; sbi_boot_print_general demo_info demo_platform 0 0x80000000 0x20000 ;;;
   sbi_boot_print_domains demo_info 0 ;;; sbi_boot_print_hart demo_info demo_platform 0 0)%sbi demo_machine =
    (Ret tt, put_text text demo_machine).
Proof. apply (boot_report_only_talks demo_info demo_platform 0). apply demo_reportable. Defined.

Example demo_domain_dump : domain_text demo_info demo_domains root (default root_static (domains demo_domains !! root)) (Hartmask [7; 0]) (chars "  ") =
  chars (line "Domain0 Name          : root" ++ line "Domain0 Boot HART     : 0" ++ line "Domain0 HARTs         : 0*,1*,2*" ++
    line "Domain0 Region00      : 0x0000000000000000-0xffffffffffffffff (R,W,X)" ++
    line "Domain0 Next Address  : 0x0000000080200000" ++ line "Domain0 Next Arg1     : 0x0000000000000000" ++
    line "Domain0 Next Mode     : S-mode" ++ line "Domain0 SysReset      : yes").
Proof. vm_compute. reflexivity. Qed.

(** ** Where the report falls short *)

(** The feature string of a hart ignores the size of its buffer: each name is
    written whatever is left, and the position of the last comma may be beyond
    the end.  Eight bytes are given, 41 are written.  See sbi_hart.c:322. *)
Theorem hart_features_overrun :
  let st := snd (sbi_hart_get_features_str (HartFeatures 15 0 0 0 0 0) 0x1000 8 demo_print) in
  ps_mem demo_print !! (0x1000 + 39) = None /\ ps_mem st !! (0x1000 + 39) = Some (chr "e") /\ ps_mem st !! (0x1000 + 40) = Some 0.
Proof. vm_compute. repeat split; reflexivity. Qed.
