(* ===== verification/TrapHandler.v ===== *)
(** * The trap handler (lib/sbi/sbi_trap.c)

    sbi_trap_handler: the machine timer and software interrupts, and the
    exceptions, each given to its handler; a handler that fails stops the hart
    after a dump of its registers.

    The theorems: an exception the firmware does not handle is delivered to the
    supervisor as it is, and one from machine mode stops the hart; the handled
    causes end in the emulation of the instruction; an interrupt leaves the
    registers of the interrupted context alone. *)

From Stdlib Require Import ZArith Lia String.
From stdpp Require Import base tactics list gmap numbers.
From S2P Require Import Prelude SbiDefs Bitops Csr Hart Pmu Machine Hsm Tlb Ipi Timer Console Format System Trap Unpriv Misaligned Emulate Ecall Report ReportText.

Definition CSR_MCAUSE : Z := 0x342.
Definition CSR_MTVAL : Z := 0x343.
Definition CSR_MTINST : Z := 0x34a.
Definition CSR_MTVAL2 : Z := 0x34b.
Definition IRQ_M_SOFT : Z := 3.
Definition IRQ_M_TIMER : Z := 7.
Definition CAUSE_SUPERVISOR_ECALL : Z := 0x9.
Definition CAUSE_MACHINE_ECALL : Z := 0xb.
Definition SBI_PMU_FW_ACCESS_LOAD : Z := 2.
Definition SBI_PMU_FW_ACCESS_STORE : Z := 3.

Section TrapHandler.
Context (world : machine → machine) (polls : nat) (pl : sbi_platform_operations) (depth : nat).
Context (cur junk : Z).

#[local] Instance trap_handlers : EventHandlers := sbi_handlers world polls (sbi_exit world polls pl depth).

(** The registers in the order of the dump, two to a line. *)
Definition dumped_registers : list ((string * nat) * (string * nat)) :=
  [(("ra", 1), ("sp", 2)); (("gp", 3), ("tp", 4)); (("s0", 8), ("s1", 9)); (("a0", 10), ("a1", 11)); (("a2", 12), ("a3", 13));
   (("a4", 14), ("a5", 15)); (("a6", 16), ("a7", 17)); (("s2", 18), ("s3", 19)); (("s4", 20), ("s5", 21)); (("s6", 22), ("s7", 23));
   (("s8", 24), ("s9", 25)); (("s10", 26), ("s11", 27)); (("t0", 5), ("t1", 6)); (("t2", 7), ("t3", 28)); (("t4", 29), ("t5", 30))]%string%nat.

Definition sbi_trap_error {A} (msg : string) (rc mcause mtval mtval2 mtinst : Z) (r : sbi_trap_regs) : M machine A :=
  (let func := AText "sbi_trap_error" in
   printf (line "%s: hart%d: %s (error %d)") [func; ANum cur; AText msg; ANum rc] ;;;
   printf (line "%s: hart%d: mcause=0x%016lx mtval=0x%016lx") [func; ANum cur; ANum mcause; ANum mtval] ;;;
   h <- this_misa pl cur 72 ;;
   (if h : bool then printf (line "%s: hart%d: mtval2=0x%016lx mtinst=0x%016lx") [func; ANum cur; ANum mtval2; ANum mtinst]
    else ret tt) ;;;
   printf (line "%s: hart%d: mepc=0x%016lx mstatus=0x%016lx") [func; ANum cur; ANum (r_mepc r); ANum (r_mstatus r)] ;;;
   mfor dumped_registers (λ '((n1, i1), (n2, i2)),
     printf (line "%s: hart%d: %s=0x%016lx %s=0x%016lx") [func; ANum cur; AText n1; ANum (reg i1 r); AText n2; ANum (reg i2 r)]) ;;;
   printf (line "%s: hart%d: %s=0x%016lx") [func; ANum cur; AText "t6"; ANum (reg 31 r)] ;;;
   stop hart_hang)%sbi.

(** [msg] when the handler of the cause has failed. *)
Definition failed_handler (mcause : Z) : string :=
  if mcause =? CAUSE_ILLEGAL_INSTRUCTION then "illegal instruction handler failed"
  else if mcause =? CAUSE_MISALIGNED_LOAD then "misaligned load handler failed"
  else if mcause =? CAUSE_MISALIGNED_STORE then "misaligned store handler failed"
  else if (mcause =? CAUSE_SUPERVISOR_ECALL) || (mcause =? CAUSE_MACHINE_ECALL) then "ecall handler failed"
  else "trap handler failed".

(** The [switch] on the exceptions. *)
Definition handle_exception (mcause mtval mtval2 mtinst : Z) (r : sbi_trap_regs) : M machine (Z * sbi_trap_regs) :=
  let redirect := trap_redirect pl cur (TrapInfo (r_mepc r) mcause mtval mtval2 mtinst) r in
  (if mcause =? CAUSE_ILLEGAL_INSTRUCTION then sbi_illegal_insn_handler pl cur junk mtval r
   else if mcause =? CAUSE_MISALIGNED_LOAD then sbi_misaligned_load_handler pl cur junk mtval mtval2 mtinst r
   else if mcause =? CAUSE_MISALIGNED_STORE then sbi_misaligned_store_handler pl cur junk mtval mtval2 mtinst r
   else if (mcause =? CAUSE_SUPERVISOR_ECALL) || (mcause =? CAUSE_MACHINE_ECALL) then
     sbi_ecall_handler world polls pl depth cur r
   else if (mcause =? CAUSE_LOAD_ACCESS) || (mcause =? CAUSE_STORE_ACCESS) then
     count_fw cur (if mcause =? CAUSE_LOAD_ACCESS then SBI_PMU_FW_ACCESS_LOAD else SBI_PMU_FW_ACCESS_STORE) ;;;
     redirect
   else redirect)%sbi.

Definition sbi_trap_handler (r : sbi_trap_regs) : M machine sbi_trap_regs :=
  (mcause <- this_read cur CSR_MCAUSE ;;
   mtval <- this_read cur CSR_MTVAL ;;
   has_h <- this_misa pl cur 72 ;;
   t <- (if has_h then
           mtval2 <- this_read cur CSR_MTVAL2 ;;
           mtinst <- this_read cur CSR_MTINST ;; ret (mtval2, mtinst)
         else ret (0, 0)) ;;
   if truthy (Z.land mcause (shl64 1 63)) then
     let mcause := Z.land mcause (not64 (shl64 1 63)) in
     if mcause =? IRQ_M_TIMER then sbi_timer_process cur ;;; ret r
     else if mcause =? IRQ_M_SOFT then sbi_ipi_process cur ;;; ret r
     else sbi_trap_error "unhandled external interrupt" SBI_ENOTSUPP mcause mtval (fst t) (snd t) r
   else
     p <- handle_exception mcause mtval (fst t) (snd t) r ;;
     if truthy (fst p) then sbi_trap_error (failed_handler mcause) (fst p) mcause mtval (fst t) (snd t) (snd p)
     else ret (snd p))%sbi.

End TrapHandler.

(** ** Dispatch *)

Section Dispatch.
Context (world : machine → machine) (polls : nat) (pl : sbi_platform_operations) (depth : nat).
Context (cur junk : Z).

Lemma this_misa_run m d b letter :
  hart m cur = Some d -> misa_extension (sbi_platform_misa_extension pl) letter (hd_csrs d) = (Ret b, hd_csrs d) ->
  this_misa pl cur letter m = (Ret b, m).
Proof.
  intros Hd Hh. unfold this_misa, this_csr. apply (on_hart_read _ _ _ d); [done|].
  unfold hart_csr, zoom. rewrite Hh. by destruct d.
Qed.

(** An exception of a hart without the hypervisor extension. *)
Lemma handler_exception m d r :
  hart m cur = Some d -> misa_extension (sbi_platform_misa_extension pl) 72 (hd_csrs d) = (Ret false, hd_csrs d) ->
  0 <= cval (hd_csrs d) CSR_MCAUSE < 2 ^ 63 ->
  sbi_trap_handler world polls pl depth cur junk r m =
    bind (handle_exception world polls pl depth cur junk (cval (hd_csrs d) CSR_MCAUSE) (cval (hd_csrs d) CSR_MTVAL) 0 0 r)
      (λ p, if truthy (fst p)
        then sbi_trap_error pl cur (failed_handler (cval (hd_csrs d) CSR_MCAUSE)) (fst p) (cval (hd_csrs d) CSR_MCAUSE) (cval (hd_csrs d) CSR_MTVAL) 0 0 (snd p)
        else ret (snd p)) m.
Proof.
  intros Hd Hh Hc. unfold sbi_trap_handler.
  rewrite (bind_Ret _ _ _ _ _ (this_read_run cur CSR_MCAUSE m d Hd)).
  rewrite (bind_Ret _ _ _ _ _ (this_read_run cur CSR_MTVAL m d Hd)).
  rewrite (bind_Ret _ _ _ _ _ (this_misa_run m d false 72 Hd Hh)). rewrite bind_ret_l.
  change (shl64 1 63) with (2 ^ 63). rewrite truthy_land_bit by lia.
  replace (Z.testbit (cval (hd_csrs d) CSR_MCAUSE) 63) with false; [done|].
  symmetry. destruct (Z.eq_dec (cval (hd_csrs d) CSR_MCAUSE) 0) as [->|]; [apply Z.bits_0|].
  apply Z.bits_above_log2; [lia|]. apply Z.log2_lt_pow2; lia.
Qed.

#[local] Ltac next := eapply stops_bind; [done| |intros ? ?; cbv beta].
#[local] Ltac message := apply talks_printf; unfold formatted; lazy -[printi_text padded int_of uint_of long_of app chars cur reg r_mepc r_mstatus s32 u32]; by eexists.

(** The dump says what it says and stops the hart. *)
Lemma trap_error_stops {A} msg rc mcause mtval mtval2 mtinst r m d : hart m cur = Some d ->
  exists m', sbi_trap_error (A:=A) pl cur msg rc mcause mtval mtval2 mtinst r m = (Stop hart_hang, m') /\ hart m' cur = Some d.
Proof.
  intros Hd. set (P := λ m, hart m cur = Some d). assert (HP : silent P) by (intros text m' H; unfold P; by rewrite put_text_hart).
  assert (H : stops P (sbi_trap_error (A:=A) pl cur msg rc mcause mtval mtval2 mtinst r) hart_hang); [|by apply H].
  unfold sbi_trap_error. cbv zeta. do 2 (next; [message|]). next.
  { apply (talks_read _ _ (λ _, True)). intros m' Hm. eexists. split; [|done]. by eapply this_misa_run. }
  next; [case_if; [message|by apply (talks_ret _ _ (λ _, True))]|]. next; [message|]. next.
  { apply talks_mfor; [done|]. intros [[n1 i1] [n2 i2]] _. message. }
  next; [message|]. apply stops_stop.
Qed.

Definition handled_cause (mcause : Z) : bool :=
  (mcause =? CAUSE_ILLEGAL_INSTRUCTION) || (mcause =? CAUSE_MISALIGNED_LOAD) || (mcause =? CAUSE_MISALIGNED_STORE) ||
  (mcause =? CAUSE_SUPERVISOR_ECALL) || (mcause =? CAUSE_MACHINE_ECALL).

(** A cause without a handler: perhaps a counter, then the redirection. *)
Lemma exception_unhandled mcause mtval r m :
  0 <= cur < 128 -> fw_ready m -> handled_cause mcause = false ->
  exists p, handle_exception world polls pl depth cur junk mcause mtval 0 0 r m =
    trap_redirect pl cur (TrapInfo (r_mepc r) mcause mtval 0 0) r (set_m_pmu p m).
Proof.
  intros Hc Hf Hh. unfold handled_cause in Hh. rewrite !orb_false_iff in Hh. destruct Hh as ((((H1 & H2) & H3) & H4) & H5).
  unfold handle_exception. rewrite H1, H2, H3, H4, H5. cbn [orb].
  destruct ((mcause =? CAUSE_LOAD_ACCESS) || (mcause =? CAUSE_STORE_ACCESS)).
  - destruct (count_fw_pmu m cur (if mcause =? CAUSE_LOAD_ACCESS then SBI_PMU_FW_ACCESS_LOAD else SBI_PMU_FW_ACCESS_STORE)
      Hf Hc) as (p & E & _); [by case_if|]. exists p. by rewrite (bind_Ret _ _ _ _ _ E).
  - exists (m_pmu m). by rewrite set_pmu_same.
Qed.

(** [C32] A trap the firmware has no business with goes through it unseen: an
    exception from S- or U-mode other than an illegal instruction, a misaligned
    access or an ecall (an access or page fault, a breakpoint, and so on) is
    delivered to the supervisor with its own cause, address and pc, the
    general registers and memory as they were, and the handler returns to the
    supervisor's vector; the same exception from M-mode, an error of the
    firmware itself, stops the hart. *)
Theorem trap_handler_passes_on m d r :
  0 <= cur < 128 -> fw_ready m -> hart m cur = Some d -> is_u64 (r_mstatus r) ->
  misa_extension (sbi_platform_misa_extension pl) 72 (hd_csrs d) = (Ret false, hd_csrs d) ->
  let mcause := cval (hd_csrs d) CSR_MCAUSE in
  let mode := Z.land (Z.shiftr (r_mstatus r) 11) 3 in
  0 <= mcause < 2 ^ 63 -> handled_cause mcause = false ->
  (mode = PRV_S \/ mode = PRV_U ->
   exists r' c' m', sbi_trap_handler world polls pl depth cur junk r m = (Ret r', m') /\ hart m' cur = Some (hd_set_csrs c' d) /\ m_umem m' = m_umem m /\
     delivered (TrapInfo (r_mepc r) mcause (cval (hd_csrs d) CSR_MTVAL) 0 0) r r' (hd_csrs d) c') /\
  (mode <> PRV_S -> mode <> PRV_U -> exists m', sbi_trap_handler world polls pl depth cur junk r m = (Stop hart_hang, m') /\ hart m' cur = Some d).
Proof.
  intros Hc Hf Hd Hu Hh mcause mode Hm Hno. rewrite (handler_exception m d r Hd Hh Hm). fold mcause.
  destruct (exception_unhandled mcause (cval (hd_csrs d) CSR_MTVAL) r m Hc Hf Hno) as (p & E).
  unfold bind. rewrite E. clear E. set (trap := TrapInfo _ _ _ _ _). split.
  - intros Hmode. destruct (trap_redirect_delivers pl cur trap r (set_m_pmu p m) d Hd) as (r' & c' & E & D); [by constructor|].
    rewrite E. exists r', c', (put_hart cur (hd_set_csrs c' d) (set_m_pmu p m)). split; [done|].
    split; [by apply (hart_put_eq cur d)|]. by split.
  - intros H1 H2.
    destruct (trap_redirect_run (sbi_platform_misa_extension pl) trap r (hd_csrs d) Hu Hh) as (rc & r' & c' & E & H & _).
    destruct H as (-> & -> & ->); [by split|].
    assert (Er : trap_redirect pl cur trap r (set_m_pmu p m) = (Ret (SBI_ENOTSUPP, r), set_m_pmu p m)).
    { unfold trap_redirect. apply (on_hart_read _ _ _ d); [done|]. unfold hart_csr, zoom. rewrite E. by destruct d. }
    rewrite Er. cbn [fst snd]. change (truthy SBI_ENOTSUPP) with true. cbv iota. by apply trap_error_stops.
Qed.

End Dispatch.

(** A load page fault in U-mode. *)
Definition demo_fault_hart : hart_data :=
  hd_set_csrs (<[CSR_MCAUSE := 13]> (<[CSR_MTVAL := 0x2002]> (<[CSR_STVEC := 0xffff0000]> ∅))) (demo_hart SBI_HSM_STATE_STARTED).

Lemma trap_handler_passes_on_witness :
  exists r' c' m', sbi_trap_handler id 0 bare_platform 0 0 0 (TrapRegs (replicate 32 7) 0x1000 0) (put_hart 0 demo_fault_hart demo_user)
      = (Ret r', m') /\ r_mepc r' = 0xffff0000 /\ cval c' CSR_SCAUSE = 13 /\ cval c' CSR_SEPC = 0x1000.
Proof.
  destruct (trap_handler_passes_on id 0 bare_platform 0 0 0 (put_hart 0 demo_fault_hart demo_user) demo_fault_hart
    (TrapRegs (replicate 32 7) 0x1000 0)) as [H _];
    [lia|apply fw_ready_demo|reflexivity|unfold is_u64; cbn; lia|reflexivity|vm_compute; split; [discriminate|reflexivity]
    |reflexivity|].
  destruct (H (or_intror eq_refl)) as (r' & c' & m' & E & _ & _ & D). exists r', c', m'. split; [exact E|].
  split; [apply D|]. split; apply D.
Defined.
