(* ===== verification/Init.v ===== *)
(** * Boot (lib/sbi/sbi_init.c, sbi_domain_finalize, sbi_hart_init)

    How a hart comes out of reset: the lottery that elects the cold-boot hart,
    the cold boot that sets every component up in order and wakes the waiting
    harts, the warm boot of the others, and the resume of a suspended hart.  The
    report of the cold boot and its error messages are those of Report.v.

    Parameters: the platform's hooks, the firmware's hart-to-scratch function,
    which CSRs each hart implements, and the names to print.

    The theorems: a hart that suspends non-retentively and is woken comes back
    exactly where it asked to; a hart that another hart started boots into the
    address, mode and argument of the request, inside the protection of its
    domain; exactly one hart wins the lottery, and no waiting hart misses the
    end of the cold boot. *)

From Stdlib Require Import ZArith Lia String.
From stdpp Require Import base tactics list gmap numbers.
From S2P Require Import Prelude SbiDefs Bitops Locks Fifo Scratch Domain Csr Hart Pmu Machine Hsm Tlb Ipi Timer Console Format System Ecall Report.

(** The machine with the variables of sbi_init.c and sbi_hart.c. *)
Record boot_state : Type := BootState {
  b_machine : machine;
  coldboot_lock : Z;
  coldboot_wait_hmask : sbi_hartmask;
  coldboot_done : Z;
  coldboot_lottery : Z;
  hart_features_offset : Z;
}.

Definition set_machine v (b : boot_state) : boot_state :=
  BootState v (coldboot_lock b) (coldboot_wait_hmask b) (coldboot_done b) (coldboot_lottery b)
    (hart_features_offset b).
Definition set_coldboot_lock v (b : boot_state) : boot_state :=
  BootState (b_machine b) v (coldboot_wait_hmask b) (coldboot_done b) (coldboot_lottery b)
    (hart_features_offset b).
Definition set_wait_hmask v (b : boot_state) : boot_state :=
  BootState (b_machine b) (coldboot_lock b) v (coldboot_done b) (coldboot_lottery b)
    (hart_features_offset b).
Definition set_coldboot_done v (b : boot_state) : boot_state :=
  BootState (b_machine b) (coldboot_lock b) (coldboot_wait_hmask b) v (coldboot_lottery b)
    (hart_features_offset b).
Definition set_lottery v (b : boot_state) : boot_state :=
  BootState (b_machine b) (coldboot_lock b) (coldboot_wait_hmask b) (coldboot_done b) v
    (hart_features_offset b).
Definition set_features_offset v (b : boot_state) : boot_state :=
  BootState (b_machine b) (coldboot_lock b) (coldboot_wait_hmask b) (coldboot_done b) (coldboot_lottery b) v.

Definition on_machine {A} : M machine A → M boot_state A := zoom b_machine set_machine.

(** [if (rc) sbi_hart_hang();] *)
Definition or_hang {S} (c : M S Z) : M S unit := (rc <- c ;; if truthy rc then stop hart_hang else ret tt)%sbi.

Section Init.
Context (world : machine → machine) (polls depth : nat) (pl : sbi_platform_operations).
Context (csr_impl : Z → Z → option Z) (h2s : Z → Z → option (list Z)) (fw_base fw_len : Z).
Context (bi : board_info) (options : Z).   (* the names to print; [scratch->options] *)

(** ** Waiting for the cold boot *)

Definition wait_mark (hartid : Z) : M boot_state unit :=
  (zoom coldboot_lock set_coldboot_lock spin_lock ;;;
   modify (λ b, set_wait_hmask (sbi_hartmask_set_hart hartid (coldboot_wait_hmask b)) b) ;;;
   zoom coldboot_lock set_coldboot_lock spin_unlock)%sbi.

Definition wait_unmark (hartid : Z) : M boot_state unit :=
  (zoom coldboot_lock set_coldboot_lock spin_lock ;;;
   modify (λ b, set_wait_hmask (sbi_hartmask_clear_hart hartid (coldboot_wait_hmask b)) b) ;;;
   zoom coldboot_lock set_coldboot_lock spin_unlock)%sbi.

(** The wait itself; [spinning] when this hart alone cannot end it. *)
Definition wait_for_coldboot (hartid : Z) : M boot_state unit :=
  (saved_mie <- on_machine (on_hart hartid (hart_csr (csr_read CSR_MIE_))) ;;
   on_machine (on_hart hartid (hart_csr (csr_set CSR_MIE_ MIP_MSIP))) ;;;
   wait_mark hartid ;;;
   done <- gets coldboot_done ;;
   (if truthy done then ret tt else stop spinning) ;;;
   wait_unmark hartid ;;;
   on_machine (on_hart hartid (hart_csr (csr_write CSR_MIE_ saved_mie))))%sbi.

(** One iteration of the loop that wakes the waiting harts. *)
Definition wake_body (hartid i : Z) : M boot_state unit :=
  (hm <- gets coldboot_wait_hmask ;;
   if negb (i =? hartid) && truthy (sbi_hartmask_test_hart i hm)
   then on_machine (sbi_ipi_raw_send i) else ret tt)%sbi.

(** The critical section that wakes them. *)
Definition wake_all (hartid : Z) : M boot_state unit :=
  (zoom coldboot_lock set_coldboot_lock spin_lock ;;;
   last <- gets (λ b, last_hart (b_machine b)) ;;
   mfor (seqZ 0 (last + 1)) (wake_body hartid) ;;;
   zoom coldboot_lock set_coldboot_lock spin_unlock)%sbi.

Definition wake_coldboot_harts (hartid : Z) : M boot_state unit :=
  (modify (set_coldboot_done 1) ;;; wake_all hartid)%sbi.

(** ** The parts of other files the boot calls *)

Definition SIZEOF_HART_FEATURES : Z := 32.

Definition sbi_hart_init (cur : Z) (cold_boot : bool) : M boot_state Z :=
  (r <- (if cold_boot then
           off <- on_machine (alloc_field SIZEOF_HART_FEATURES (hd_set_features (HartFeatures 0 0 0 0 0 0))) ;;
           modify (set_features_offset off) ;;;
           ret off
         else ret 1) ;;
   if negb (truthy r) then ret SBI_ENOMEM
   else on_machine
     (hf <- thishart_features cur ;;
      hf' <- on_hart cur (hart_csr (hart_detect_features (csr_impl cur) hf)) ;;
      on_hart cur (modify (hd_set_features hf')) ;;;
      hart_reinit pl cur))%sbi.

Definition hart_pmu_init (cur : Z) (cold_boot : bool) : M machine Z :=
  (hf <- thishart_features cur ;;
   on_pmu (sbi_pmu_init cur (sbi_hart_has_feature hf SBI_HART_HAS_MCOUNTINHIBIT)
             (sbi_platform_pmu_init pl) (mhpm_count hf) cold_boot))%sbi.

(** The boot hart of domain [p] is one the domain can use. *)
Definition boot_hart_usable (ds : domain_state) (p : nat) (d : sbi_domain) : bool :=
  (boot_hartid d <? SBI_HARTMASK_MAX_BITS) &&
  match possible_harts d with
  | Some hm => truthy (sbi_hartmask_test_hart (boot_hartid d) (deref_hmask ds hm))
  | None => false
  end &&
  bool_decide (mjoin (hartid_to_domain_table ds !! Z.to_nat (boot_hartid d)) = Some p) &&
  truthy (sbi_hartmask_test_hart (boot_hartid d) (assigned_harts d)).

(** The loop of sbi_domain_finalize over the domains [l]. *)
Fixpoint finalize_loop (cold_hartid : Z) (l : list nat) : M machine Z :=
  match l with
  | [] => ret 0
  | p :: l' =>
      (ds <- gets m_domains ;;
       match domains ds !! p with
       | None => stop wild_access
       | Some d =>
           if negb (boot_hart_usable ds p d) then finalize_loop cold_hartid l'
           else if boot_hartid d =? cold_hartid then
             on_hart cold_hartid (modify (hd_set_next (next_arg1 d) (next_addr d) (next_mode d))) ;;;
             finalize_loop cold_hartid l'
           else
             rc <- sbi_hsm_hart_start cold_hartid None (boot_hartid d) (next_addr d) (next_mode d) (next_arg1 d) ;;
             if truthy rc then ret rc else finalize_loop cold_hartid l'
       end)%sbi
  end.

Definition set_domain_finalized (v : bool) (s : domain_state) : domain_state :=
  DomainState (hartid_to_domain_table s) (domidx_to_domain_table s) (domain_count s) v (root_hmask s)
    (root_memregs_count s) (root_fw_region s) (root_memregs s) (domains s).

Definition sbi_domain_finalize (cold_hartid : Z) : M machine Z :=
  (rc <- sbi_platform_domains_init pl ;;
   if truthy rc then ret rc
   else
     doms <- gets (λ m, sbi_domain_for_each (domidx_to_domain_table (m_domains m))) ;;
     match doms with
     | Stop w => stop w
     | Ret l =>
         rc <- finalize_loop cold_hartid l ;;
         if truthy rc then ret rc
         else on_domains (modify (set_domain_finalized true)) ;;; ret 0
     end)%sbi.

(** The words of the scratch space the root domain is set up from. *)
Definition scratch_words (d : hart_data) : boot_scratch :=
  BootScratch fw_base fw_len (hd_next_arg1 d) (hd_next_addr d) (hd_next_mode d).

Definition set_off_init_count (o : Z) (m : machine) : machine :=
  let f := m_offs m in
  set_offs (Offsets (off_hsm f) (off_ipi f) (off_tlb_sync f) (off_tlb_fifo f) (off_tlb_mem f)
              (off_time_delta f) o) m.

Definition count_boot (hartid : Z) : M machine unit :=
  on_hart hartid (modify (λ d, hd_set_init_count (u64 (hd_init_count d + 1)) d)).

(** sbi_hart_switch_mode with what the scratch space says: a0 and a1. *)
Definition switch_to_next (hartid : Z) : M machine (Z * Z) :=
  on_hart hartid
    (arg1 <- gets hd_next_arg1 ;; addr <- gets hd_next_addr ;; mode <- gets hd_next_mode ;;
     hart_csr (sbi_hart_switch_mode (sbi_platform_misa_extension pl) hartid arg1 addr mode false))%sbi.

(** ** The boot sequences *)

(** A step of the cold boot: when it fails, the message and sbi_hart_hang. *)
Definition or_hang_saying (what : string) (c : M machine Z) : M boot_state unit :=
  or_hang (on_machine
    (rc <- c ;;
     (if truthy rc then printf (line ("%s: " ++ what ++ " failed (error %d)")) [AText "init_coldboot"; ANum rc] else ret tt) ;;;
     ret rc))%sbi.

#[local] Instance boot_handlers : EventHandlers := sbi_handlers world polls (sbi_exit world polls pl depth).

Definition init_coldboot (hartid : Z) : M boot_state (Z * Z) :=
  (or_hang (on_machine (on_scratch (sbi_scratch_init (plat pl) h2s))) ;;;
   d <- on_machine (on_hart hartid (gets id)) ;;
   or_hang (on_machine (on_domains (sbi_domain_init (plat pl) (scratch_words d) hartid))) ;;;
   off <- on_machine (alloc_field SIZEOF_POINTER (hd_set_init_count 0)) ;;
   on_machine (modify (set_off_init_count off)) ;;;
   (if truthy off then ret tt else stop hart_hang) ;;;
   or_hang (on_machine (sbi_hsm_init hartid true)) ;;;
   or_hang (on_machine (sbi_platform_early_init pl hartid true)) ;;;
   or_hang (sbi_hart_init hartid true) ;;;
   or_hang (on_machine (sbi_platform_console_init pl)) ;;;
   or_hang (on_machine (hart_pmu_init hartid true)) ;;;
   on_machine (sbi_boot_print_banner bi options) ;;;
   or_hang_saying "platform irqchip init" (sbi_platform_irqchip_init pl hartid true) ;;;
   or_hang_saying "ipi init" (sbi_ipi_init pl hartid true) ;;;
   or_hang_saying "tlb init" (sbi_tlb_init world polls pl depth hartid true) ;;;
   or_hang_saying "timer init" (sbi_timer_init pl hartid true) ;;;
   or_hang_saying "ecall init" sbi_ecall_init ;;;
   or_hang_saying "domain finalize" (sbi_domain_finalize hartid) ;;;
   or_hang_saying "PMP configure" (hart_pmp_configure hartid) ;;;
   or_hang_saying "platform final init" (sbi_platform_final_init pl hartid true) ;;;
   on_machine (sbi_boot_print_general bi pl options fw_base fw_len) ;;;
   on_machine (sbi_boot_print_domains bi options) ;;;
   on_machine (sbi_boot_print_hart bi pl options hartid) ;;;
   wake_coldboot_harts hartid ;;;
   on_machine (count_boot hartid) ;;;
   on_machine (sbi_hsm_prepare_next_jump hartid) ;;;
   on_machine (switch_to_next hartid))%sbi.

Definition init_warm_startup (hartid : Z) : M boot_state unit :=
  (off <- gets (λ b, off_init_count (m_offs (b_machine b))) ;;
   (if truthy off then ret tt else stop hart_hang) ;;;
   or_hang (on_machine (sbi_hsm_init hartid false)) ;;;
   or_hang (on_machine (sbi_platform_early_init pl hartid false)) ;;;
   or_hang (sbi_hart_init hartid false) ;;;
   or_hang (on_machine (hart_pmu_init hartid false)) ;;;
   or_hang (on_machine (sbi_platform_irqchip_init pl hartid false)) ;;;
   or_hang (on_machine (sbi_ipi_init pl hartid false)) ;;;
   or_hang (on_machine (sbi_tlb_init world polls pl depth hartid false)) ;;;
   or_hang (on_machine (sbi_timer_init pl hartid false)) ;;;
   or_hang (on_machine (hart_pmp_configure hartid)) ;;;
   or_hang (on_machine (sbi_platform_final_init pl hartid false)) ;;;
   on_machine (count_boot hartid) ;;;
   on_machine (sbi_hsm_prepare_next_jump hartid))%sbi.

Definition init_warmboot (hartid : Z) : M boot_state (Z * Z) :=
  (wait_for_coldboot hartid ;;;
   dom <- on_machine (domain_ptr hartid) ;;
   hstate <- on_machine (sbi_hsm_hart_get_state dom hartid) ;;
   (if hstate <? 0 then stop hart_hang else ret tt) ;;;
   (if hstate =? SBI_HSM_STATE_SUSPENDED then on_machine (init_warm_resume pl hartid)
    else init_warm_startup hartid) ;;;
   on_machine (switch_to_next hartid))%sbi.

(** The test of the next mode, up to the lottery: is this the cold-boot hart? *)
Definition coldboot_elect (hartid : Z) : M boot_state bool :=
  (mode <- on_machine (on_hart hartid (gets hd_next_mode)) ;;
   supported <- on_machine (on_hart hartid (hart_csr
     (if mode =? PRV_M then ret true
      else if mode =? PRV_S then misa_extension (sbi_platform_misa_extension pl) 83
      else if mode =? PRV_U then misa_extension (sbi_platform_misa_extension pl) 85
      else stop hart_hang))) ;;
   if (supported : bool) then
     old <- zoom coldboot_lottery set_lottery (atomic_xchg 1) ;; ret (old =? 0)
   else ret false)%sbi.

Definition sbi_init (hartid : Z) : M boot_state (Z * Z) :=
  if (SBI_HARTMASK_MAX_BITS <=? hartid) || sbi_platform_hart_invalid (plat pl) hartid then stop hart_hang
  else
    (coldboot <- coldboot_elect hartid ;;
     if (coldboot : bool) then init_coldboot hartid else init_warmboot hartid)%sbi.

End Init.

(** ** Suspend and resume *)

(** What a non-retentive suspend leaves in the scratch space. *)
Definition suspended_data (raddr rmode priv : Z) (d : hart_data) : hart_data :=
  hd_set_saved (default 0 (hd_csrs d !! CSR_MIE_))
    (Z.land (default 0 (hd_csrs d !! CSR_MIP)) (Z.lor MIP_SSIP MIP_STIP))
    (hd_set_suspend_type SBI_HSM_SUSPEND_NON_RET_DEFAULT
       (hd_set_hsm_state SBI_HSM_STATE_SUSPENDED (hd_set_next priv raddr rmode d))).

(** No device that could suspend the hart. *)
Definition no_suspend_device (m : machine) : Prop :=
  match m_hsm_dev m with Some dv => hart_suspend_cb dv = None | None => True end.

Lemma suspend_non_ret_run m cur p d raddr rmode priv :
  hart m cur = Some d -> hd_hsm_state d = SBI_HSM_STATE_STARTED ->
  domain_ptr cur m = (Ret (Some p), m) -> no_suspend_device m ->
  suspend_guards (m_domains m) (Some p) SBI_HSM_SUSPEND_NON_RET_DEFAULT raddr rmode = inr tt ->
  sbi_hsm_hart_suspend cur SBI_HSM_SUSPEND_NON_RET_DEFAULT raddr rmode priv m =
    (Stop jump_warmboot, put_hart cur (suspended_data raddr rmode priv d) m).
Proof.
  intros Hd Hs Hp Hdev Hg. unfold sbi_hsm_hart_suspend. rewrite (bind_Ret _ _ _ _ _ Hp), bind_gets, Hg.
  unfold suspend_enter. rewrite bind_assoc.
  erewrite bind_on_hart by (exact Hd || reflexivity).
  rewrite (bind_on_hart cur _ _ _ _ SBI_HSM_STATE_STARTED
    (hd_set_hsm_state SBI_HSM_STATE_SUSPENDED (hd_set_next priv raddr rmode d))
    (hart_put_eq _ _ _ _ Hd)); cycle 1.
  { unfold hsm_cell, zoom, atomic_cmpxchg. cbn [hd_hsm_state hd_set_next]. by rewrite Hs. }
  rewrite put_put_hart. change (negb (SBI_HSM_STATE_STARTED =? SBI_HSM_STATE_STARTED)) with false. cbv iota.
  unfold suspend_body. hart_steps.
  change (truthy (Z.land SBI_HSM_SUSPEND_NON_RET_DEFAULT SBI_HSM_SUSP_NON_RET_BIT)) with true. cbv iota.
  unfold hsm_suspend_non_ret_save. hart_steps.
  set (m1 := put_hart _ _ _).
  assert (Hsus : forall w, hsm_device_hart_suspend SBI_HSM_SUSPEND_NON_RET_DEFAULT w m1 = (Ret SBI_ENOTSUPP, m1)).
  { intros w. unfold hsm_device_hart_suspend. change (m_hsm_dev m1) with (m_hsm_dev m). unfold no_suspend_device in Hdev.
    destruct (m_hsm_dev m); [by rewrite Hdev|done]. }
  rewrite (bind_Ret _ _ _ _ _ (Hsus _)). reflexivity.
Qed.

(** The PMP is off, as after a reset of the hart. *)
Definition pmp_off (c : csr_file) : Prop := forall n, 0 <= n < 64 -> Z.land (pmp_cfg c n) PMP_A = 0.

(** The PMP lets S- and U-mode do exactly what the domain allows. *)
Definition pmp_enforces (c : csr_file) (regs : list sbi_domain_memregion) : Prop :=
  forall addr mode acc, is_u64 addr -> mode = PRV_S \/ mode = PRV_U ->
    pmp_check c (seqZ 0 64) addr (access_rwx acc) =
    check_regions (memregions regs) addr mode (access_rwx acc) false.

Lemma pmp_entries : Forall (λ n, 0 <= n < 64) (seqZ 0 64).
Proof. apply Forall_forall. intros n Hn%list_elem_of_In%elem_of_seqZ. lia. Qed.

Lemma pmp_enforces_frame c c' regs :
  (forall r, 0x3a0 <= r -> c' !! r = c !! r) -> pmp_enforces c regs -> pmp_enforces c' regs.
Proof.
  intros Hf H addr mode acc Ha Hm. rewrite (pmp_check_frame c c' _ _ _ Hf pmp_entries). by apply H.
Qed.

Lemma pmp_off_frame c c' : (forall r, 0x3a0 <= r -> c' !! r = c !! r) -> pmp_off c -> pmp_off c'.
Proof.
  intros Hf H n Hn. specialize (H n Hn). pose proof (pmpcfg_csr_eq n Hn). pose proof (div_mod_8 n Hn).
  unfold pmp_cfg in *. by rewrite Hf by lia.
Qed.

Lemma setup_csrs_low r : 0x342 <= r -> r ∉ setup_csrs.
Proof. unfold setup_csrs. rewrite !elem_of_cons, elem_of_nil. intros Hr H. repeat destruct H as [H|H]; vm_compute in H; lia || done. Qed.

(** The part of a domain's regions that a hart's PMP holds. *)
Record hart_protectable (m : machine) (p : nat) (d : hart_data) : Prop := {
  hp_domain : exists D, domains (m_domains m) !! p = Some D /\
    pmp_room (hd_features d) (memregions (dom_regions (m_domains m) D));
}.

Definition domain_regions (m : machine) (p : nat) : list sbi_domain_memregion :=
  match domains (m_domains m) !! p with Some D => dom_regions (m_domains m) D | None => [] end.

Section Reinit.
Context (pl : sbi_platform_operations).

Lemma hart_reinit_run m cur d :
  hart m cur = Some d -> csr_wf (hd_csrs d) ->
  exists c, hart_reinit pl cur m = (Ret 0, put_hart cur (hd_set_csrs c d) m) /\ csr_wf c /\
    c !! CSR_MISA = hd_csrs d !! CSR_MISA /\ forall r, 0x342 <= r -> c !! r = hd_csrs d !! r.
Proof.
  intros Hd W. unfold hart_reinit, thishart_features.
  rewrite (bind_on_hart cur (gets hd_features) _ m d (hd_features d) d Hd eq_refl), (put_hart_same _ _ _ Hd).
  destruct (reinit_run (sbi_platform_misa_extension pl) (hd_features d) (mfaults_delegation pl) (hd_csrs d)) as (c & E).
  exists c. rewrite (on_hart_run _ _ _ _ Hd). unfold hart_csr, zoom. rewrite E. split; [done|].
  split; [by apply (preserves_run _ _ _ _ _ (reinit_wf _ _ _) E)|].
  assert (Hf : forall r, r ∉ setup_csrs -> c !! r = hd_csrs d !! r).
  { intros r Hr. exact (preserves_run _ _ _ _ _ (reinit_frame _ _ _ r (hd_csrs d !! r) Hr) E eq_refl). }
  split; [|intros r Hr; by apply Hf, setup_csrs_low].
  apply Hf. unfold setup_csrs. rewrite !not_elem_of_cons. repeat split; try discriminate. apply not_elem_of_nil.
Qed.

Lemma hart_pmp_run m cur p d :
  hart m cur = Some d -> csr_wf (hd_csrs d) -> pmp_off (hd_csrs d) ->
  domain_ptr cur m = (Ret (Some p), m) -> hart_protectable m p d ->
  exists c, hart_pmp_configure cur m = (Ret 0, put_hart cur (hd_set_csrs c d) m) /\ csr_wf c /\
    pmp_enforces c (domain_regions m p) /\ forall r, r < 0x3a0 -> c !! r = hd_csrs d !! r.
Proof.
  intros Hd W Hoff Hp [(D & HD & Hroom)]. unfold hart_pmp_configure, thishart_features.
  rewrite (bind_on_hart cur (gets hd_features) _ m d (hd_features d) d Hd eq_refl), (put_hart_same _ _ _ Hd).
  rewrite (bind_Ret _ _ _ _ _ Hp), bind_gets. cbn [mbind option_bind]. rewrite HD.
  destruct (pmp_configure_run (hd_features d) (dom_regions (m_domains m) D) (hd_csrs d) W Hoff Hroom)
    as (c & E & W' & Hc).
  exists c. rewrite (on_hart_run _ _ _ _ Hd). unfold hart_csr, zoom. rewrite E. split; [done|]. split; [done|].
  unfold domain_regions. rewrite HD. split; [exact Hc|]. intros r Hr.
  assert (Hcnt : pmp_count (hd_features d) <= 64) by (destruct (room_count _ _ Hroom); lia).
  exact (preserves_run _ _ _ _ _ (pmp_configure_frame _ _ r (hd_csrs d !! r) Hcnt Hr) E eq_refl).
Qed.

Lemma resume_run m cur p d :
  hart m cur = Some d -> hd_hsm_state d = SBI_HSM_STATE_SUSPENDED -> csr_wf (hd_csrs d) -> pmp_off (hd_csrs d) ->
  domain_ptr cur m = (Ret (Some p), m) -> hart_protectable m p d ->
  is_u64 (hd_saved_mie d) -> is_u64 (hd_saved_mip d) ->
  exists c, init_warm_resume pl cur m =
      (Ret tt, put_hart cur (hd_set_csrs c (hd_set_hsm_state SBI_HSM_STATE_STARTED d)) m) /\
    csr_wf c /\ pmp_enforces c (domain_regions m p) /\
    c !! CSR_MIE_ = Some (hd_saved_mie d) /\
    c !! CSR_MIP = Some (Z.land (hd_saved_mip d) (Z.lor MIP_SSIP MIP_STIP)) /\
    c !! CSR_MISA = hd_csrs d !! CSR_MISA.
Proof.
  intros Hd Hs W Hoff Hp Hpr Ue Up. unfold init_warm_resume, sbi_hsm_hart_resume_start.
  rewrite bind_assoc, (bind_Ret _ _ _ _ _ (cmpxchg_run cur _ _ m d Hd)), Hs.
  change (SBI_HSM_STATE_SUSPENDED =? SBI_HSM_STATE_SUSPENDED) with true. cbn [negb]. rewrite bind_ret_l.
  set (d1 := hd_set_hsm_state SBI_HSM_STATE_RESUME_PENDING d). set (m1 := put_hart cur d1 m).
  assert (Hd1 : hart m1 cur = Some d1) by (by apply (hart_put_eq _ _ _ _ Hd)).
  destruct (hart_reinit_run m1 cur d1 Hd1 W) as (c1 & E1 & W1 & M1 & F1).
  rewrite (bind_Ret _ _ _ _ _ E1). cbn [truthy Z.eqb negb].
  set (d2 := hd_set_csrs c1 d1) in *. unfold m1. rewrite put_put_hart. set (m2 := put_hart cur d2 m).
  assert (Hd2 : hart m2 cur = Some d2) by (by apply (hart_put_eq _ _ _ _ Hd)).
  destruct (hart_pmp_run m2 cur p d2) as (c2 & E2 & W2 & P2 & F2); try done.
  { apply (pmp_off_frame (hd_csrs d1)); [|done]. intros r Hr. apply F1. lia. }
  { unfold domain_ptr, gets in *. by injection Hp as <-. }
  { destruct Hpr as [Hpr]. by constructor. }
  rewrite (bind_Ret _ _ _ _ _ E2). cbn [truthy Z.eqb negb]. unfold m2. rewrite put_put_hart.
  set (d3 := hd_set_csrs c2 d2) in *. unfold sbi_hsm_hart_resume_finish.
  assert (Hd3 : hart (put_hart cur d3 m) cur = Some d3) by (by apply (hart_put_eq _ _ _ _ Hd)).
  rewrite (bind_Ret _ _ _ _ _ (cmpxchg_run cur _ _ _ d3 Hd3)), put_put_hart.
  change (hd_hsm_state d3) with SBI_HSM_STATE_RESUME_PENDING.
  change (SBI_HSM_STATE_RESUME_PENDING =? SBI_HSM_STATE_RESUME_PENDING) with true. cbn [negb].
  unfold hsm_suspend_non_ret_restore. hart_steps.
  erewrite on_hart_run by (eapply hart_put_eq; exact Hd). rewrite put_put_hart.
  exists (<[CSR_MIP := Z.land (hd_saved_mip d) (Z.lor MIP_SSIP MIP_STIP)]> (<[CSR_MIE_ := hd_saved_mie d]> c2)).
  split; [reflexivity|]. split.
  { apply csr_wf_insert; [by apply csr_wf_insert|]. apply land_u64; [done|]. by vm_compute. }
  split; [|split; [|split]].
  - eapply pmp_enforces_frame; [|exact P2]. intros r Hr. rewrite !lookup_insert_ne by (unfold CSR_MIP, CSR_MIE_; lia). done.
  - by csr_lookup.
  - by csr_lookup.
  - csr_lookup. rewrite F2 by (unfold CSR_MISA; lia). exact M1.
Qed.

End Reinit.

(** ** Running on the boot state *)

Lemma bind_on_machine {A B} (c : M machine A) (k : A → M boot_state B) b a m' :
  c (b_machine b) = (Ret a, m') -> bind (on_machine c) k b = k a (set_machine m' b).
Proof. intros E. apply bind_Ret. unfold on_machine, zoom. by rewrite E. Qed.

Lemma on_machine_run {A} (c : M machine A) b r m' :
  c (b_machine b) = (r, m') -> on_machine c b = (r, set_machine m' b).
Proof. intros E. unfold on_machine, zoom. by rewrite E. Qed.

(** Two boot states that differ in the bookkeeping of the cold boot only. *)
Record same_boot (b b' : boot_state) : Prop := {
  sb_machine : b_machine b' = b_machine b;
  sb_done : coldboot_done b' = coldboot_done b;
  sb_lock : lock_free (coldboot_lock b');
}.

Lemma locked_update (f : boot_state → boot_state) b :
  lock_free (coldboot_lock b) ->
  (forall b', coldboot_lock (f b') = coldboot_lock b' /\ b_machine (f b') = b_machine b' /\
              coldboot_done (f b') = coldboot_done b') ->
  exists b', (zoom coldboot_lock set_coldboot_lock spin_lock ;;; modify f ;;;
              zoom coldboot_lock set_coldboot_lock spin_unlock)%sbi b = (Ret tt, b') /\ same_boot b b'.
Proof.
  intros Hl Hf. destruct (spin_lock_free _ Hl) as (w & E & Hu).
  unfold bind, zoom. rewrite E. cbn -[spin_unlock].
  destruct (Hf (set_coldboot_lock w b)) as (F1 & F2 & F3). rewrite F1. cbn.
  eexists. split; [reflexivity|]. constructor; cbn; [by rewrite F2|by rewrite F3|exact Hu].
Qed.

Lemma wait_for_coldboot_run cur b d :
  hart (b_machine b) cur = Some d -> csr_wf (hd_csrs d) -> lock_free (coldboot_lock b) -> coldboot_done b <> 0 ->
  exists b' c, wait_for_coldboot cur b = (Ret tt, b') /\
    b_machine b' = put_hart cur (hd_set_csrs c d) (b_machine b) /\ csr_wf c /\
    forall r, r <> CSR_MIE_ -> c !! r = hd_csrs d !! r.
Proof.
  intros Hd W Hl Hdone. unfold wait_for_coldboot.
  set (mie := default 0 (hd_csrs d !! CSR_MIE_)).
  assert (E0 : on_hart cur (hart_csr (csr_read CSR_MIE_)) (b_machine b) = (Ret mie, b_machine b)).
  { apply (on_hart_read _ _ _ d); [done|]. unfold hart_csr, zoom, csr_read, gets. by destruct d. }
  rewrite (bind_on_machine _ _ _ _ _ E0).
  set (c1 := <[CSR_MIE_ := Z.lor mie MIP_MSIP]> (hd_csrs d)).
  assert (E1 : on_hart cur (hart_csr (csr_set CSR_MIE_ MIP_MSIP)) (b_machine b) =
    (Ret tt, put_hart cur (hd_set_csrs c1 d) (b_machine b))) by (by rewrite (on_hart_run _ _ _ _ Hd)).
  change (b_machine b) with (b_machine (set_machine (b_machine b) b)) in E1 at 1.
  rewrite (bind_on_machine _ _ _ _ _ E1). set (b1 := set_machine _ _).
  destruct (locked_update (λ b, set_wait_hmask (sbi_hartmask_set_hart cur (coldboot_wait_hmask b)) b) b1)
    as (b2 & E2 & S2); [done|done|].
  fold (wait_mark cur) in E2. rewrite (bind_Ret _ _ _ _ _ E2), bind_gets, (sb_done _ _ S2).
  change (coldboot_done b1) with (coldboot_done b). rewrite (proj2 (truthy_true _) Hdone), bind_ret_l.
  destruct (locked_update (λ b, set_wait_hmask (sbi_hartmask_clear_hart cur (coldboot_wait_hmask b)) b) b2)
    as (b3 & E3 & S3); [apply S2|done|].
  fold (wait_unmark cur) in E3. rewrite (bind_Ret _ _ _ _ _ E3).
  assert (Hm3 : b_machine b3 = put_hart cur (hd_set_csrs c1 d) (b_machine b)) by (by rewrite (sb_machine _ _ S3), (sb_machine _ _ S2)).
  assert (Hd3 : hart (b_machine b3) cur = Some (hd_set_csrs c1 d)) by (rewrite Hm3; by apply (hart_put_eq _ _ _ _ Hd)).
  erewrite on_machine_run by (rewrite (on_hart_run _ _ _ _ Hd3), Hm3, put_put_hart; reflexivity).
  exists (set_machine (put_hart cur (hd_set_csrs (<[CSR_MIE_ := mie]> c1) d) (b_machine b)) b3), (<[CSR_MIE_ := mie]> c1).
  split; [reflexivity|]. split; [reflexivity|]. split.
  - assert (is_u64 mie) by (by apply csr_value_wf).
    apply csr_wf_insert; [|done]. apply csr_wf_insert; [done|]. apply lor_u64; [done|]. unfold is_u64, MIP_MSIP. lia.
  - intros r Hr. unfold c1. by rewrite !lookup_insert_ne.
Qed.

Lemma switch_to_next_run pl m cur d :
  hart m cur = Some d -> csr_wf (hd_csrs d) ->
  mode_supported (sbi_platform_misa_extension pl) (hd_csrs d) (hd_next_mode d) = true ->
  exists c, switch_to_next pl cur m = (Ret (cur, hd_next_arg1 d), put_hart cur (hd_set_csrs c d) m) /\
    entered c (hd_next_addr d) (hd_next_mode d) /\ forall r, 0x342 <= r -> c !! r = hd_csrs d !! r.
Proof.
  intros Hd W Hs. unfold switch_to_next. rewrite (on_hart_run _ _ _ _ Hd), !bind_gets. unfold hart_csr, zoom.
  destruct (switch_mode_run (sbi_platform_misa_extension pl) cur (hd_next_arg1 d) (hd_next_addr d) (hd_next_mode d)
    false (hd_csrs d) W Hs) as (c & E & En). rewrite E. exists c. split; [done|]. split; [done|].
  intros r Hr. exact (preserves_run _ _ _ _ _ (switch_mode_frame _ _ _ _ _ _ r (hd_csrs d !! r) Hr) E eq_refl).
Qed.

(** What survives of a suspended hart's scratch space until it resumes: others
    may have sent it events meanwhile, and its CSRs may be anything. *)
Record still_suspended (d1 d2 : hart_data) : Prop := {
  sus_arg1 : hd_next_arg1 d2 = hd_next_arg1 d1;
  sus_addr : hd_next_addr d2 = hd_next_addr d1;
  sus_mode : hd_next_mode d2 = hd_next_mode d1;
  sus_state : hd_hsm_state d2 = hd_hsm_state d1;
  sus_mie : hd_saved_mie d2 = hd_saved_mie d1;
  sus_mip : hd_saved_mip d2 = hd_saved_mip d1;
  sus_features : hd_features d2 = hd_features d1;
}.

Lemma domain_ptr_same cur m m' o :
  m_domains m' = m_domains m -> domain_ptr cur m = (Ret o, m) -> domain_ptr cur m' = (Ret o, m').
Proof. intros E. unfold domain_ptr, gets. rewrite E. by intros [= ->]. Qed.

(** The state a warm boot finds. *)
Lemma boot_state_run m cur p d :
  hart m cur = Some d -> domain_ready m p -> cur ∈ dom_harts m p -> 0 <= cur < 128 ->
  sbi_hsm_hart_get_state (Some p) cur m = (Ret (hd_hsm_state d), m).
Proof.
  intros Hd Hr Hin Hc. unfold sbi_hsm_hart_get_state. rewrite bind_gets, (assigned_dom_harts m p cur Hr) by lia.
  rewrite bool_decide_true by done. rewrite get_state_run by done. unfold hsm_state. by rewrite Hd.
Qed.

Lemma mode_supported_ext pe c c' mode :
  c' !! CSR_MISA = c !! CSR_MISA -> mode_supported pe c' mode = mode_supported pe c mode.
Proof. intros E. unfold mode_supported. by rewrite !(misa_has_ext pe _ c c' E). Qed.

(** The common beginning of the warm boots. *)
Lemma warmboot_enter world polls depth pl csr_impl b cur p d :
  hart (b_machine b) cur = Some d -> 0 <= hd_hsm_state d ->
  domain_ptr cur (b_machine b) = (Ret (Some p), b_machine b) -> domain_ready (b_machine b) p ->
  cur ∈ dom_harts (b_machine b) p -> 0 <= cur < 128 -> csr_wf (hd_csrs d) ->
  coldboot_done b <> 0 -> lock_free (coldboot_lock b) ->
  exists b1 c1, init_warmboot world polls depth pl csr_impl cur b =
      ((if hd_hsm_state d =? SBI_HSM_STATE_SUSPENDED then on_machine (init_warm_resume pl cur)
        else init_warm_startup world polls depth pl csr_impl cur) ;;; on_machine (switch_to_next pl cur))%sbi b1 /\
    b_machine b1 = put_hart cur (hd_set_csrs c1 d) (b_machine b) /\ csr_wf c1 /\
    forall r, r <> CSR_MIE_ -> c1 !! r = hd_csrs d !! r.
Proof.
  intros Hd Hs Hp Hr Hin Hc W Hdone Hl. unfold init_warmboot.
  destruct (wait_for_coldboot_run cur b d Hd W Hl Hdone) as (b1 & c1 & E1 & M1 & W1 & F1).
  rewrite (bind_Ret _ _ _ _ _ E1). set (d1 := hd_set_csrs c1 d) in *. set (m := b_machine b) in *.
  set (m1 := b_machine b1) in *.
  assert (Hd1 : hart m1 cur = Some d1) by (rewrite M1; by apply (hart_put_eq _ _ _ _ Hd)).
  assert (Hp1 : domain_ptr cur m1 = (Ret (Some p), m1)) by (apply (domain_ptr_same _ m); [by rewrite M1|done]).
  rewrite (bind_on_machine _ _ _ _ _ Hp1).
  assert (Eg : sbi_hsm_hart_get_state (Some p) cur m1 = (Ret (hd_hsm_state d), m1)).
  { change (hd_hsm_state d) with (hd_hsm_state d1). apply (boot_state_run m1 cur p d1); try done; rewrite M1; [|done].
    destruct Hr. by constructor. }
  rewrite (bind_on_machine _ _ (set_machine m1 b1) _ _ Eg), (proj2 (Z.ltb_ge _ _) Hs), bind_ret_l.
  by exists (set_machine m1 (set_machine m1 b1)), c1.
Qed.

(** The warm boot of a suspended hart. *)
Lemma warmboot_resume_run world polls depth pl csr_impl b cur p d :
  hart (b_machine b) cur = Some d -> hd_hsm_state d = SBI_HSM_STATE_SUSPENDED ->
  domain_ptr cur (b_machine b) = (Ret (Some p), b_machine b) -> domain_ready (b_machine b) p ->
  cur ∈ dom_harts (b_machine b) p -> 0 <= cur < 128 -> hart_protectable (b_machine b) p d ->
  csr_wf (hd_csrs d) -> pmp_off (hd_csrs d) -> is_u64 (hd_saved_mie d) -> is_u64 (hd_saved_mip d) ->
  mode_supported (sbi_platform_misa_extension pl) (hd_csrs d) (hd_next_mode d) = true ->
  coldboot_done b <> 0 -> lock_free (coldboot_lock b) ->
  exists b' d', init_warmboot world polls depth pl csr_impl cur b = (Ret (cur, hd_next_arg1 d), b') /\
    hart (b_machine b') cur = Some d' /\ hd_hsm_state d' = SBI_HSM_STATE_STARTED /\
    entered (hd_csrs d') (hd_next_addr d) (hd_next_mode d) /\
    pmp_enforces (hd_csrs d') (domain_regions (b_machine b) p) /\
    hd_csrs d' !! CSR_MIP = Some (Z.land (hd_saved_mip d) (Z.lor MIP_SSIP MIP_STIP)).
Proof.
  intros Hd Hs Hp Hr Hin Hc Hpr W Hoff Ue Up Hsup Hdone Hl.
  destruct (warmboot_enter world polls depth pl csr_impl b cur p d) as (b1 & c1 & -> & M1 & W1 & F1);
    try done; [by rewrite Hs|].
  rewrite Hs. change (SBI_HSM_STATE_SUSPENDED =? SBI_HSM_STATE_SUSPENDED) with true. cbv iota.
  set (d1 := hd_set_csrs c1 d) in *. set (m := b_machine b) in *. set (m1 := b_machine b1) in *.
  assert (Hd1 : hart m1 cur = Some d1) by (rewrite M1; by apply (hart_put_eq _ _ _ _ Hd)).
  assert (Hp1 : domain_ptr cur m1 = (Ret (Some p), m1)) by (apply (domain_ptr_same _ m); [by rewrite M1|done]).
  destruct (resume_run pl m1 cur p d1) as (c2 & E2 & W2 & P2 & _ & Mp & Mi); try done.
  { apply (pmp_off_frame (hd_csrs d)); [|done]. intros r Hr'. apply F1. unfold CSR_MIE_. lia. }
  { rewrite M1. by constructor; destruct Hpr. }
  rewrite (bind_on_machine _ _ b1 _ _ E2).
  set (d4 := hd_set_csrs c2 _). set (m4 := put_hart cur d4 m1).
  assert (Hd4 : hart m4 cur = Some d4) by (by apply (hart_put_eq _ _ _ _ Hd1)).
  destruct (switch_to_next_run pl m4 cur d4 Hd4 W2) as (c5 & E5 & En & F5).
  { rewrite <- Hsup. apply mode_supported_ext. change (hd_csrs d4) with c2. rewrite Mi. by apply F1. }
  erewrite on_machine_run by exact E5.
  eexists _, (hd_set_csrs c5 d4). split; [reflexivity|]. split; [by apply (hart_put_eq _ _ _ _ Hd4)|].
  split; [done|]. change (hd_csrs (hd_set_csrs c5 d4)) with c5. split; [exact En|]. split.
  - eapply pmp_enforces_frame; [|rewrite M1 in P2; exact P2]. intros r Hr'. apply F5. lia.
  - rewrite F5 by (unfold CSR_MIP; lia). exact Mp.
Qed.

(** [C10] Suspend and resume make a round trip: when a started hart asks for the
    default non-retentive suspend with a resume address its domain may execute,
    it leaves through the warm-boot entry in state SUSPENDED; and whenever it
    comes out of reset after that, with any contents of its CSRs as long as the
    PMP is off, the warm boot finishes, marks it STARTED, gives the PMP the
    regions of its domain, restores the pending supervisor software and timer
    interrupts, and enters the requested mode at the requested address with the
    hart id in a0 and the private argument in a1. *)
Theorem suspend_resume_roundtrip world polls depth pl csr_impl m cur p d raddr rmode priv :
  hart m cur = Some d -> hd_hsm_state d = SBI_HSM_STATE_STARTED -> csr_wf (hd_csrs d) ->
  domain_ptr cur m = (Ret (Some p), m) -> domain_ready m p -> cur ∈ dom_harts m p -> 0 <= cur < 128 ->
  hart_protectable m p d -> no_suspend_device m ->
  suspend_guards (m_domains m) (Some p) SBI_HSM_SUSPEND_NON_RET_DEFAULT raddr rmode = inr tt ->
  exists m1 d1, sbi_hsm_hart_suspend cur SBI_HSM_SUSPEND_NON_RET_DEFAULT raddr rmode priv m =
      (Stop jump_warmboot, m1) /\
    hart m1 cur = Some d1 /\ hd_hsm_state d1 = SBI_HSM_STATE_SUSPENDED /\
    forall b d2, hart (b_machine b) cur = Some d2 -> still_suspended d1 d2 ->
      m_domains (b_machine b) = m_domains m -> last_hart (b_machine b) = last_hart m ->
      csr_wf (hd_csrs d2) -> pmp_off (hd_csrs d2) ->
      mode_supported (sbi_platform_misa_extension pl) (hd_csrs d2) rmode = true ->
      coldboot_done b <> 0 -> lock_free (coldboot_lock b) ->
      exists b' d', init_warmboot world polls depth pl csr_impl cur b = (Ret (cur, priv), b') /\
        hart (b_machine b') cur = Some d' /\ hd_hsm_state d' = SBI_HSM_STATE_STARTED /\
        entered (hd_csrs d') raddr rmode /\ pmp_enforces (hd_csrs d') (domain_regions m p) /\
        hd_csrs d' !! CSR_MIP =
          Some (Z.land (default 0 (hd_csrs d !! CSR_MIP)) (Z.lor MIP_SSIP MIP_STIP)).
Proof.
  intros Hd Hs W Hp Hr Hin Hc Hpr Hdev Hg. set (d1 := suspended_data raddr rmode priv d).
  exists (put_hart cur d1 m), d1.
  split; [by apply (suspend_non_ret_run m cur p)|]. split; [by apply (hart_put_eq _ _ _ _ Hd)|]. split; [done|].
  intros b d2 Hd2 [S1 S2 S3 S4 S5 S6 S7] Hdom Hlast W2 Hoff Hsup Hdone Hl.
  change (hd_next_mode d1) with rmode in S3.
  destruct (warmboot_resume_run world polls depth pl csr_impl b cur p d2) as (b' & d' & E & Hd' & Hs' & En & P & Mp);
    try done; rewrite ?S3, ?S5, ?S6; try done.
  - by apply (domain_ptr_same _ m).
  - destruct Hr as [Hr1 Hr2]. split; [by rewrite Hdom|by rewrite Hlast].
  - unfold dom_harts. by rewrite Hdom.
  - destruct Hpr as [(D & HD & Hroom)]. constructor. exists D. rewrite Hdom, S7. done.
  - by apply csr_value_wf.
  - apply land_u64; [by apply csr_value_wf|]. by vm_compute.
  - rewrite S1 in E. rewrite S2, S3 in En. rewrite S6 in Mp. exists b', d'. split; [exact E|]. split; [done|].
    split; [done|]. split; [exact En|]. split.
    + unfold domain_regions in *. by rewrite Hdom in P.
    + rewrite Mp. cbn [hd_saved_mip d1 suspended_data hd_set_saved]. by rewrite <- Z.land_assoc.
Qed.

(** Hart 0 of the demonstration machine suspends, and comes back with cleared
    CSRs but misa. *)
Definition demo_suspended : hart_data :=
  suspended_data 0x80400000 PRV_S 7 (demo_hart SBI_HSM_STATE_STARTED).

Definition demo_wake_boot : boot_state :=
  BootState (put_hart 0 (hd_set_csrs {[ CSR_MISA := 0x8000000000141129 ]} demo_suspended) demo_machine)
    SPIN_LOCK_INIT (Hartmask [0; 0]) 1 1 32.

Lemma demo_protectable : hart_protectable demo_machine root (demo_hart SBI_HSM_STATE_STARTED).
Proof.
  constructor. eexists. split; [reflexivity|].
  change (memregions (dom_regions _ _)) with [MemRegion 64 0 7]. constructor.
  - cbn. lia.
  - repeat constructor; cbn; try lia; discriminate.
  - repeat constructor.
  - repeat constructor.
Qed.

Lemma csr_wf_empty : csr_wf ∅.
Proof. intros r v H. by rewrite lookup_empty in H. Qed.

Lemma csr_wf_singleton r v : is_u64 v -> csr_wf {[ r := v ]}.
Proof. intros Hv r' v' H. by apply lookup_singleton_Some in H as [_ <-]. Qed.

Lemma pmp_off_clear c : (forall r, 0x3a0 <= r -> c !! r = None) -> pmp_off c.
Proof.
  intros Hn. apply (pmp_off_frame ∅); [intros r Hr; by rewrite Hn, lookup_empty|].
  intros n Hi. unfold pmp_cfg, cfg_byte. rewrite lookup_empty. cbn [default]. by rewrite Z.shiftr_0_l.
Qed.

Lemma suspend_resume_roundtrip_witness :
  exists m1, sbi_hsm_hart_suspend 0 SBI_HSM_SUSPEND_NON_RET_DEFAULT 0x80400000 PRV_S 7 demo_machine =
      (Stop jump_warmboot, m1) /\
    exists b' d', init_warmboot id 0 0 bare_platform (λ _ _, None) 0 demo_wake_boot = (Ret (0, 7), b') /\
      hart (b_machine b') 0 = Some d' /\ hd_hsm_state d' = SBI_HSM_STATE_STARTED /\
      entered (hd_csrs d') 0x80400000 PRV_S /\ pmp_enforces (hd_csrs d') (domain_regions demo_machine root).
Proof.
  destruct (suspend_resume_roundtrip id 0 0 bare_platform (λ _ _, None) demo_machine 0 root
    (demo_hart SBI_HSM_STATE_STARTED) 0x80400000 PRV_S 7) as (m1 & d1 & E & Hd1 & Hs & Hb);
    first [reflexivity|apply csr_wf_empty|apply demo_ready|apply demo_protectable|lia|exact I
          |apply (bool_decide_unpack _); vm_compute; exact I|idtac].
  exists m1. split; [exact E|].
  assert (E' := suspend_non_ret_run demo_machine 0 root (demo_hart SBI_HSM_STATE_STARTED) 0x80400000 PRV_S 7
    eq_refl eq_refl eq_refl I eq_refl).
  rewrite E' in E. injection E as <-. change (hart _ 0) with (Some demo_suspended) in Hd1. injection Hd1 as <-.
  destruct (Hb demo_wake_boot (hd_set_csrs {[ CSR_MISA := 0x8000000000141129 ]} demo_suspended))
    as (b' & d' & R & H1 & H2 & H3 & H4 & _);
    [reflexivity|constructor; reflexivity|reflexivity|reflexivity| | |vm_compute; reflexivity|discriminate| |].
  - apply csr_wf_singleton. unfold is_u64. lia.
  - apply pmp_off_clear. intros r Hr. apply lookup_singleton_None. unfold CSR_MISA. lia.
  - apply lock_free_init.
  - exists b', d'. exact (conj R (conj H1 (conj H2 (conj H3 H4)))).
Defined.

(** ** Booting a started hart *)

(** Hooks that succeed without touching what the library keeps. *)
Record quiet_hooks (pl : sbi_platform_operations) : Prop := {
  qh_early : forall h c m, sbi_platform_early_init pl h c m = (Ret 0, m);
  qh_final : forall h c m, sbi_platform_final_init pl h c m = (Ret 0, m);
  qh_irqchip : forall h c m, sbi_platform_irqchip_init pl h c m = (Ret 0, m);
  qh_ipi : forall h c m, sbi_platform_ipi_init pl h c m = (Ret 0, m);
  qh_timer : forall h c m, sbi_platform_timer_init pl h c m = (Ret 0, m);
}.

(** The cold boot has set the components up. *)
Record booted (m : machine) (cur : Z) : Prop := {
  bd_offs : off_init_count (m_offs m) <> 0 /\ off_ipi (m_offs m) <> 0 /\ off_tlb_sync (m_offs m) <> 0 /\
    off_tlb_fifo (m_offs m) <> 0 /\ off_tlb_mem (m_offs m) <> 0 /\ off_time_delta (m_offs m) <> 0;
  bd_events : m_ipi_smode_event m < SBI_IPI_EVENT_MAX /\ m_ipi_halt_event m < SBI_IPI_EVENT_MAX /\
    m_tlb_event m < SBI_IPI_EVENT_MAX;
  bd_pmu : exists hw, pmu_dims cur hw (m_pmu m) /\ total_ctrs (m_pmu m) <= 48;
}.

(** The data of hart [cur] as the boot keeps it: the request in the scratch
    space, its features, and CSRs that are words with the PMP still off. *)
Record boot_course (d0 d : hart_data) (hf : hart_features) : Prop := {
  bc_arg1 : hd_next_arg1 d = hd_next_arg1 d0;
  bc_addr : hd_next_addr d = hd_next_addr d0;
  bc_mode : hd_next_mode d = hd_next_mode d0;
  bc_state : hd_hsm_state d = hd_hsm_state d0;
  bc_features : hd_features d = hf;
  bc_wf : csr_wf (hd_csrs d);
  bc_misa : hd_csrs d !! CSR_MISA = hd_csrs d0 !! CSR_MISA;
  bc_pmp : pmp_off (hd_csrs d);
}.

Record booting (cur : Z) (m0 : machine) (d0 : hart_data) (hf : hart_features) (m : machine) : Prop := {
  bt_domains : m_domains m = m_domains m0;
  bt_booted : booted m cur;
  bt_hart : exists d, hart m cur = Some d /\ boot_course d0 d hf;
}.

Lemma booting_put cur m0 d0 hf1 hf m d d' :
  booting cur m0 d0 hf1 m -> hart m cur = Some d -> boot_course d0 d' hf -> booting cur m0 d0 hf (put_hart cur d' m).
Proof.
  intros [H1 [H2 H3 H4] _] Hd Hc. split; [done|by constructor|]. exists d'. split; [|done].
  by apply (hart_put_eq _ _ _ _ Hd).
Qed.

Lemma course_csrs d0 d hf c' :
  boot_course d0 d hf -> csr_wf c' -> c' !! CSR_MISA = hd_csrs d !! CSR_MISA ->
  (forall r, 0x3a0 <= r < 0x3b0 -> c' !! r = hd_csrs d !! r) -> boot_course d0 (hd_set_csrs c' d) hf.
Proof.
  intros [B1 B2 B3 B4 B5 B6 B7 B8] W Hm Hp. constructor; try done.
  - change (hd_csrs (hd_set_csrs c' d)) with c'. congruence.
  - intros n Hn. specialize (B8 n Hn). unfold pmp_cfg in *. change (hd_csrs (hd_set_csrs c' d)) with c'.
    rewrite Hp; [done|]. rewrite pmpcfg_csr_eq by done. pose proof (div_mod_8 n Hn). lia.
Qed.

Lemma or_hang_run {S} (c : M S Z) s s' : c s = (Ret 0, s') -> or_hang c s = (Ret tt, s').
Proof. intros E. unfold or_hang. by rewrite (bind_Ret _ _ _ _ _ E). Qed.

Section Startup.
Context (world : machine → machine) (polls depth : nat) (pl : sbi_platform_operations).
Context (csr_impl : Z → Z → option Z) (Q : quiet_hooks pl).
Context (cur : Z) (m0 : machine) (d0 : hart_data).

Definition P (hf : hart_features) : machine → Prop := booting cur m0 d0 hf.

Lemma step_wait hf m :
  hd_hsm_state d0 = SBI_HSM_STATE_START_PENDING -> P hf m ->
  exists m', sbi_hsm_init cur false m = (Ret 0, m') /\ P hf m'.
Proof.
  intros Hs HP. destruct (bt_hart _ _ _ _ _ HP) as (d & Hd & C).
  unfold sbi_hsm_init, sbi_hsm_hart_wait. hart_steps.
  change (hd_hsm_state _) with (hd_hsm_state d) at 1. rewrite (bc_state _ _ _ C), Hs.
  change (negb (SBI_HSM_STATE_START_PENDING =? SBI_HSM_STATE_START_PENDING)) with false. cbv iota.
  rewrite bind_ret_l. hart_steps. eexists. split; [reflexivity|].
  eapply booting_put; [exact HP|exact Hd|].
  pose proof (csr_value_wf _ CSR_MIE_ (bc_wf _ _ _ C)) as Hv.
  match goal with |- boot_course d0 ?x hf => replace x with
    (hd_set_csrs (<[CSR_MIE_ := default 0 (hd_csrs d !! CSR_MIE_)]>
       (<[CSR_MIE_ := Z.lor (default 0 (hd_csrs d !! CSR_MIE_)) MIP_MSIP]> (hd_csrs d))) d) by (by destruct d) end.
  apply course_csrs; [done| | |].
  - apply csr_wf_insert; [apply csr_wf_insert; [apply C|]|done]. apply lor_u64; [done|]. unfold is_u64, MIP_MSIP. lia.
  - by csr_lookup.
  - intros r Hr. rewrite !lookup_insert_ne by (unfold CSR_MIE_; lia). done.
Qed.

Lemma step_hook hf (c : M machine Z) m : (forall m, c m = (Ret 0, m)) -> P hf m -> exists m', c m = (Ret 0, m') /\ P hf m'.
Proof. intros H HP. exists m. split; [apply H|done]. Qed.

Lemma step_pmu hf m : P hf m -> exists m', hart_pmu_init pl cur false m = (Ret 0, m') /\ P hf m'.
Proof.
  intros HP. destruct (bt_hart _ _ _ _ _ HP) as (d & Hd & C). unfold hart_pmu_init, thishart_features.
  rewrite (bind_on_hart cur (gets hd_features) _ m d (hd_features d) d Hd eq_refl), (put_hart_same _ _ _ Hd).
  destruct (bd_pmu _ _ (bt_booted _ _ _ _ _ HP)) as (hw & D & T). unfold on_pmu, zoom.
  destruct (pmu_init_warm_run cur hw (sbi_hart_has_feature (hd_features d) SBI_HART_HAS_MCOUNTINHIBIT)
    (sbi_platform_pmu_init pl) (mhpm_count (hd_features d)) (m_pmu m) D T) as (s' & E & D' & T').
  rewrite E. eexists. split; [reflexivity|]. destruct HP as [H1 [H2 H3 _] H4]. split; [done| |done].
  constructor; [done|done|]. exists hw. cbn. split; [done|]. by rewrite T'.
Qed.

Lemma step_ipi hf m :
  P hf m -> exists m', @sbi_ipi_init (sbi_handlers world polls (sbi_exit world polls pl depth)) pl cur false m = (Ret 0, m') /\ P hf m'.
Proof.
  intros HP. destruct (bt_hart _ _ _ _ _ HP) as (d & Hd & C).
  destruct (bd_offs _ _ (bt_booted _ _ _ _ _ HP)) as (_ & Ho & _).
  destruct (bd_events _ _ (bt_booted _ _ _ _ _ HP)) as (He1 & He2 & _).
  unfold sbi_ipi_init, ipi_init_events. rewrite !bind_assoc, !bind_gets, bind_assoc, bind_gets, bind_assoc, bind_gets.
  rewrite (proj2 (truthy_true _) Ho). cbn [negb].
  rewrite (proj2 (Z.leb_gt _ _) He1), (proj2 (Z.leb_gt _ _) He2). cbn [orb]. rewrite bind_ret_l.
  hart_steps. rewrite (bind_Ret _ _ _ _ _ (qh_ipi _ Q _ _ _)). cbn [truthy Z.eqb negb]. hart_steps.
  eexists. split; [reflexivity|]. eapply booting_put; [exact HP|exact Hd|].
  pose proof (csr_value_wf _ CSR_MIE_ (bc_wf _ _ _ C)) as Hv.
  apply (course_csrs d0 (hd_set_ipi_type 0 d)); cbn.
  - by destruct C.
  - apply csr_wf_insert; [apply C|]. apply lor_u64; [done|]. unfold is_u64, MIP_MSIP. lia.
  - by csr_lookup.
  - intros r Hr. rewrite lookup_insert_ne by (unfold CSR_MIE_; lia). done.
Qed.

Lemma step_tlb hf m : P hf m -> exists m', sbi_tlb_init world polls pl depth cur false m = (Ret 0, m') /\ P hf m'.
Proof.
  intros HP. destruct (bt_hart _ _ _ _ _ HP) as (d & Hd & C).
  destruct (bd_offs _ _ (bt_booted _ _ _ _ _ HP)) as (_ & _ & H1 & H2 & H3 & _).
  destruct (bd_events _ _ (bt_booted _ _ _ _ _ HP)) as (_ & _ & He).
  unfold sbi_tlb_init, tlb_init_warm. rewrite !bind_assoc, bind_gets, bind_assoc, bind_gets.
  rewrite (proj2 (truthy_true _) H1), (proj2 (truthy_true _) H2), (proj2 (truthy_true _) H3). cbn [negb orb].
  rewrite (proj2 (Z.leb_gt _ _) He). rewrite bind_ret_l. hart_steps.
  eexists. split; [reflexivity|]. eapply booting_put; [exact HP|exact Hd|]. by destruct C.
Qed.

Lemma step_timer hf m : P hf m -> exists m', sbi_timer_init pl cur false m = (Ret 0, m') /\ P hf m'.
Proof.
  intros HP. destruct (bt_hart _ _ _ _ _ HP) as (d & Hd & C).
  destruct (bd_offs _ _ (bt_booted _ _ _ _ _ HP)) as (_ & _ & _ & _ & _ & Ho).
  unfold sbi_timer_init. rewrite bind_gets, (proj2 (truthy_true _) Ho). cbn [negb]. unfold timer_init_rest. hart_steps.
  rewrite (qh_timer _ Q). eexists. split; [reflexivity|]. eapply booting_put; [exact HP|exact Hd|]. by destruct C.
Qed.

(** The detection replaces the features. *)
Lemma step_hart hf b :
  impl_wf (csr_impl cur) -> P hf (b_machine b) ->
  exists hf' b' c c', sbi_hart_init pl csr_impl cur false b = (Ret 0, b') /\ P hf' (b_machine b') /\
    csr_wf c /\ hart_detect_features (csr_impl cur) hf c = (Ret hf', c').
Proof.
  intros I HP. destruct (bt_hart _ _ _ _ _ HP) as (d & Hd & C). unfold sbi_hart_init. rewrite bind_ret_l.
  cbn [truthy Z.eqb negb]. unfold thishart_features.
  destruct (detect_wf (csr_impl cur) I (hd_features d) (hd_csrs d) (bc_wf _ _ _ C)) as (hf' & c' & E & W & _).
  set (m := b_machine b) in *.
  set (d1 := hd_set_csrs c' d). set (d2 := hd_set_features hf' d1).
  assert (C2 : boot_course d0 d2 hf').
  { assert (C1 : boot_course d0 d1 hf).
    { apply course_csrs; [done|done| |].
      - exact (preserves_run _ _ _ _ _ (detect_frame _ _ CSR_MISA (hd_csrs d !! CSR_MISA) eq_refl) E eq_refl).
      - intros r Hr. refine (preserves_run _ _ _ _ _ (detect_frame _ _ r (hd_csrs d !! r) _) E eq_refl).
        unfold probed, csr_block, CSR_PMPADDR0, CSR_MHPMCOUNTER3, CSR_SCOUNTEREN, CSR_MCOUNTEREN, CSR_MCOUNTINHIBIT.
        rewrite !orb_false_iff, !andb_false_iff, !Z.leb_gt, !Z.ltb_ge, !Z.eqb_neq. lia. }
    by destruct C1. }
  assert (Hd2 : hart (put_hart cur d2 m) cur = Some d2) by (by apply (hart_put_eq _ _ _ _ Hd)).
  destruct (hart_reinit_run pl (put_hart cur d2 m) cur d2 Hd2 (bc_wf _ _ _ C2)) as (c3 & E3 & W3 & M3 & F3).
  erewrite on_machine_run; cycle 1.
  { fold m. rewrite (bind_on_hart cur (gets hd_features) _ m d (hd_features d) d Hd eq_refl), (put_hart_same _ _ _ Hd).
    rewrite (bind_on_hart cur _ _ m d hf' d1 Hd); [|unfold hart_csr, zoom; by rewrite E].
    rewrite (bind_on_hart cur _ _ _ d1 tt d2 (hart_put_eq _ _ _ _ Hd) eq_refl), put_put_hart.
    rewrite E3, put_put_hart. reflexivity. }
  eexists hf', _, (hd_csrs d), c'. split; [reflexivity|]. split; [|split; [apply C|by rewrite (bc_features _ _ _ C) in E]].
  cbn [b_machine set_machine]. eapply booting_put; [exact HP|exact Hd|].
  apply course_csrs; [done|done|done|]. intros r Hr. apply F3. lia.
Qed.

(** A step of the boot on the whole state. *)
Lemma chain {A} hf (c : M machine Z) (k : unit → M boot_state A) b :
  P hf (b_machine b) -> (exists m', c (b_machine b) = (Ret 0, m') /\ P hf m') ->
  exists b', bind (or_hang (on_machine c)) k b = k tt b' /\ P hf (b_machine b').
Proof.
  intros _ (m' & E & HP). exists (set_machine m' b). split; [|done].
  apply bind_Ret, or_hang_run. by apply on_machine_run.
Qed.

(** Take the step at the head of the goal, by lemma [t]. *)
Ltac boot_next hf t :=
  match goal with
  | H : P hf (b_machine ?b) |- context [bind (or_hang (on_machine ?c)) ?k ?b] =>
      let b' := fresh "b" in let E := fresh "E" in let H' := fresh "H" in
      destruct (chain hf c k b H ltac:(t)) as (b' & E & H'); rewrite E; clear E H
  end.

(** The start-up of a hart that was started, up to the PMP. *)
Lemma startup_run hf b :
  hd_hsm_state d0 = SBI_HSM_STATE_START_PENDING -> impl_wf (csr_impl cur) -> P hf (b_machine b) ->
  exists hf' b' c c', init_warm_startup world polls depth pl csr_impl cur b =
      (or_hang (on_machine (hart_pmp_configure cur)) ;;;
       or_hang (on_machine (sbi_platform_final_init pl cur false)) ;;;
       on_machine (count_boot cur) ;;; on_machine (sbi_hsm_prepare_next_jump cur))%sbi b' /\
    P hf' (b_machine b') /\ csr_wf c /\ hart_detect_features (csr_impl cur) hf c = (Ret hf', c').
Proof.
  intros Hs I HP. unfold init_warm_startup. rewrite bind_gets.
  destruct (bd_offs _ _ (bt_booted _ _ _ _ _ HP)) as (Ho & _). rewrite (proj2 (truthy_true _) Ho), bind_ret_l.
  boot_next hf ltac:(by apply step_wait).
  boot_next hf ltac:(by apply step_hook; [apply Q|]).
  match goal with H : P hf (b_machine ?b2) |- _ =>
    destruct (step_hart hf b2 I H) as (hf' & b3 & c & c' & E3 & H3 & W & D) end.
  rewrite (bind_Ret _ _ _ _ _ (or_hang_run _ _ _ E3)).
  boot_next hf' ltac:(by apply step_pmu).
  boot_next hf' ltac:(by apply step_hook; [apply Q|]).
  boot_next hf' ltac:(by apply step_ipi).
  boot_next hf' ltac:(by apply step_tlb).
  boot_next hf' ltac:(by apply step_timer).
  by eexists hf', _, c, c'.
Qed.

End Startup.

(** The request as the started hart will find it. *)
Record still_pending (priv saddr smode : Z) (d : hart_data) : Prop := {
  pend_arg1 : hd_next_arg1 d = priv;
  pend_addr : hd_next_addr d = saddr;
  pend_mode : hd_next_mode d = smode;
  pend_state : hd_hsm_state d = SBI_HSM_STATE_START_PENDING;
}.

(** Whatever features the hart turns out to have, its PMP holds the regions. *)
Definition detects_room (impl : Z → option Z) (regs : list sbi_domain_memregion) : Prop :=
  forall hf c hf' c', csr_wf c -> hart_detect_features impl hf c = (Ret hf', c') -> pmp_room hf' (memregions regs).

Lemma count_and_jump_run m cur d :
  hart m cur = Some d -> hd_hsm_state d = SBI_HSM_STATE_START_PENDING ->
  exists n, (count_boot cur ;;; sbi_hsm_prepare_next_jump cur)%sbi m =
    (Ret tt, put_hart cur (hd_set_hsm_state SBI_HSM_STATE_STARTED (hd_set_init_count n d)) m).
Proof.
  intros Hd Hs. exists (u64 (hd_init_count d + 1)). unfold count_boot, sbi_hsm_prepare_next_jump.
  erewrite bind_on_hart by (exact Hd || reflexivity).
  rewrite (bind_Ret _ _ _ _ _ (cmpxchg_run cur _ _ _ _ (hart_put_eq _ _ _ _ Hd))), put_put_hart.
  change (hd_hsm_state (hd_set_init_count ?n d)) with (hd_hsm_state d). rewrite Hs. reflexivity.
Qed.

Lemma bind_on_machine2 {A B} (c : M machine unit) (c' : M machine A) (k : A → M boot_state B) b a m' :
  (c ;;; c')%sbi (b_machine b) = (Ret a, m') ->
  bind (bind (on_machine c) (λ _, on_machine c')) k b = k a (set_machine m' b).
Proof.
  unfold bind, on_machine, zoom. destruct (c (b_machine b)) as [[u|w] m1]; [|discriminate].
  cbn. intros ->. done.
Qed.

Lemma bind_run_eq {S A B} (c c' : M S A) (k : A → M S B) s s' : c s = c' s' -> bind c k s = bind c' k s'.
Proof. unfold bind. by intros ->. Qed.

(** The warm boot of a hart that was started. *)
Lemma warmboot_start_run world polls depth pl csr_impl b cur p d :
  hart (b_machine b) cur = Some d -> hd_hsm_state d = SBI_HSM_STATE_START_PENDING ->
  domain_ptr cur (b_machine b) = (Ret (Some p), b_machine b) -> domain_ready (b_machine b) p ->
  cur ∈ dom_harts (b_machine b) p -> 0 <= cur < 128 -> booted (b_machine b) cur -> quiet_hooks pl ->
  impl_wf (csr_impl cur) -> detects_room (csr_impl cur) (domain_regions (b_machine b) p) ->
  csr_wf (hd_csrs d) -> pmp_off (hd_csrs d) ->
  mode_supported (sbi_platform_misa_extension pl) (hd_csrs d) (hd_next_mode d) = true ->
  coldboot_done b <> 0 -> lock_free (coldboot_lock b) ->
  exists b' d', init_warmboot world polls depth pl csr_impl cur b = (Ret (cur, hd_next_arg1 d), b') /\
    hart (b_machine b') cur = Some d' /\ hd_hsm_state d' = SBI_HSM_STATE_STARTED /\
    entered (hd_csrs d') (hd_next_addr d) (hd_next_mode d) /\
    pmp_enforces (hd_csrs d') (domain_regions (b_machine b) p).
Proof.
  intros Hd Hs Hp Hr Hin Hc Hbd Q I Hroom W Hoff Hsup Hdone Hl.
  destruct (warmboot_enter world polls depth pl csr_impl b cur p d) as (b2 & c1 & -> & M1 & W1 & F1);
    try done; [by rewrite Hs|].
  rewrite Hs. change (SBI_HSM_STATE_START_PENDING =? SBI_HSM_STATE_SUSPENDED) with false. cbv iota.
  set (d1 := hd_set_csrs c1 d) in *. set (m := b_machine b) in *.
  assert (Hd1 : hart (b_machine b2) cur = Some d1) by (rewrite M1; by apply (hart_put_eq _ _ _ _ Hd)).
  assert (Pb : booting cur m d1 (hd_features d1) (b_machine b2)).
  { split; [by rewrite M1|rewrite M1; destruct Hbd; by constructor|]. exists d1. split; [done|].
    constructor; try done. apply (pmp_off_frame (hd_csrs d)); [|done]. intros r Hr'. apply F1. unfold CSR_MIE_. lia. }
  destruct (startup_run world polls depth pl csr_impl Q cur m d1 (hd_features d1) b2 Hs I Pb)
    as (hf' & b3 & c & c' & E3 & [D3 _ (d3 & Hd3 & C3)] & Wc & Ed).
  rewrite (bind_run_eq _ _ _ _ _ E3), !bind_assoc.
  destruct (hart_pmp_run (b_machine b3) cur p d3 Hd3 (bc_wf _ _ _ C3) (bc_pmp _ _ _ C3)) as (c4 & E4 & W4 & P4 & F4).
  { by apply (domain_ptr_same _ m). }
  { destruct Hr as [(D & HD & _) _]. fold m in HD. constructor. exists D. rewrite D3, (bc_features _ _ _ C3). split; [done|].
    specialize (Hroom _ _ _ _ Wc Ed). unfold domain_regions in Hroom. fold m in Hroom. by rewrite HD in Hroom. }
  rewrite (bind_Ret _ _ _ _ _ (or_hang_run _ _ _ (on_machine_run _ b3 _ _ E4))).
  set (d4 := hd_set_csrs c4 d3). set (m4 := put_hart cur d4 (b_machine b3)). rewrite bind_assoc.
  rewrite (bind_Ret _ _ _ _ _ (or_hang_run _ _ _ (on_machine_run _ (set_machine m4 b3) _ _ (qh_final _ Q _ _ _)))).
  cbn [b_machine set_machine].
  assert (Hd4 : hart m4 cur = Some d4) by (by apply (hart_put_eq _ _ _ _ Hd3)).
  destruct (count_and_jump_run m4 cur d4 Hd4) as (n & E5); [change (hd_hsm_state d4) with (hd_hsm_state d3); by rewrite (bc_state _ _ _ C3)|].
  set (b5 := set_machine m4 (set_machine m4 b3)).
  rewrite (bind_on_machine2 _ _ _ b5 tt _ E5).
  set (d5 := hd_set_hsm_state _ _). set (m5 := put_hart cur d5 m4).
  assert (Hd5 : hart m5 cur = Some d5) by (by apply (hart_put_eq _ _ _ _ Hd4)).
  destruct (switch_to_next_run pl m5 cur d5 Hd5 W4) as (c6 & E6 & En & F6).
  { change (hd_next_mode d5) with (hd_next_mode d3). rewrite (bc_mode _ _ _ C3). change (hd_next_mode d1) with (hd_next_mode d).
    rewrite <- Hsup. apply mode_supported_ext. change (hd_csrs d5) with c4.
    rewrite F4 by (unfold CSR_MISA; lia). rewrite (bc_misa _ _ _ C3). by apply F1. }
  erewrite on_machine_run by exact E6.
  change (hd_next_arg1 d5) with (hd_next_arg1 d3). rewrite (bc_arg1 _ _ _ C3).
  eexists _, (hd_set_csrs c6 d5). split; [reflexivity|]. split; [by apply (hart_put_eq _ _ _ _ Hd5)|]. split; [done|].
  change (hd_csrs (hd_set_csrs c6 d5)) with c6. split.
  - change (hd_next_addr d5) with (hd_next_addr d3) in En. change (hd_next_mode d5) with (hd_next_mode d3) in En.
    by rewrite (bc_addr _ _ _ C3), (bc_mode _ _ _ C3) in En.
  - unfold domain_regions in *. rewrite D3 in P4. eapply pmp_enforces_frame; [|exact P4]. intros r Hr'. apply F6. lia.
Qed.

(** [C11] A hart that is started boots into what was asked for: when a hart of a
    domain starts another, stopped hart of the domain at an address the domain may
    execute, the request succeeds, and the warm boot of that hart finishes in
    state STARTED, with the PMP holding the regions of the domain, entering the
    requested mode at the requested address with its hart id in a0 and the
    private argument in a1 -- whatever its CSRs held, as long as the PMP was off,
    the platform's hooks do nothing else, and its PMP has room for the domain. *)
Theorem started_hart_boots world polls depth pl csr_impl m cur p h d dc saddr smode priv :
  domain_ready m p -> 0 <= h < 128 -> hart m h = Some d -> hart m cur = Some dc ->
  may_start m p h saddr smode d -> m_hsm_dev m = None -> domain_ptr h m = (Ret (Some p), m) ->
  quiet_hooks pl -> impl_wf (csr_impl h) -> detects_room (csr_impl h) (domain_regions m p) ->
  exists m1 d1, sbi_hsm_hart_start cur (Some p) h saddr smode priv m = (Ret SBI_OK, m1) /\
    hart m1 h = Some d1 /\ still_pending priv saddr smode d1 /\
    forall b d2, hart (b_machine b) h = Some d2 -> still_pending priv saddr smode d2 ->
      m_domains (b_machine b) = m_domains m -> last_hart (b_machine b) = last_hart m -> booted (b_machine b) h ->
      csr_wf (hd_csrs d2) -> pmp_off (hd_csrs d2) ->
      mode_supported (sbi_platform_misa_extension pl) (hd_csrs d2) smode = true ->
      coldboot_done b <> 0 -> lock_free (coldboot_lock b) ->
      exists b' d', init_warmboot world polls depth pl csr_impl h b = (Ret (h, priv), b') /\
        hart (b_machine b') h = Some d' /\ hd_hsm_state d' = SBI_HSM_STATE_STARTED /\
        entered (hd_csrs d') saddr smode /\ pmp_enforces (hd_csrs d') (domain_regions m p).
Proof.
  intros Hr Hh Hd Hc Hms Hdev Hp Q I Hroom.
  destruct (hart_start_run m cur p h saddr smode priv d dc Hr Hh Hd Hc) as (r & m1 & E & Hok & _).
  destruct (Hok Hms) as [Hm1 Hr1]. destruct (Hr1 Hdev) as [-> _].
  set (d1 := hd_set_next priv saddr smode (hd_set_hsm_state SBI_HSM_STATE_START_PENDING d)) in *.
  exists m1, d1. split; [done|]. split.
  { unfold hart at 1. rewrite Hm1. exact (hart_put_eq _ _ _ _ Hd). }
  split; [done|]. intros b d2 Hd2 [S1 S2 S3 S4] Hdom Hlast Hbd W Hoff Hsup Hdone Hl.
  destruct (warmboot_start_run world polls depth pl csr_impl b h p d2) as (b' & d' & R & H1 & H2 & H3 & H4); try done.
  - by apply (domain_ptr_same _ m).
  - destruct Hr as [? ?]. split; [by rewrite Hdom|by rewrite Hlast].
  - unfold dom_harts. rewrite Hdom. apply Hms.
  - unfold domain_regions. by rewrite Hdom.
  - by rewrite S3.
  - rewrite S1 in R. rewrite S2, S3 in H3. exists b', d'. unfold domain_regions in *. rewrite Hdom in H4. done.
Qed.

(** Hart 0 of the demonstration machine starts hart 1, which has sixteen PMP
    entries. *)
Definition demo_impl (h c : Z) : option Z := if csr_block CSR_PMPADDR0 16 c then Some u64_max else None.

Lemma demo_impl_wf h : impl_wf (demo_impl h).
Proof. intros c mask. unfold demo_impl. destruct (csr_block _ _ _); [|discriminate]. intros [= <-]. unfold is_u64, u64_max. lia. Qed.

Lemma demo_detects_room h : detects_room (demo_impl h) (domain_regions demo_machine root).
Proof.
  intros hf c hf' c' W E.
  assert (Hb : forall i, 0 <= i -> csr_block CSR_PMPADDR0 16 (CSR_PMPADDR0 + i) = (i <? 16)).
  { intros i Hi. unfold csr_block, CSR_PMPADDR0. apply eq_true_iff_eq. rewrite andb_true_iff, Z.leb_le, !Z.ltb_lt. lia. }
  destruct (detect_run (demo_impl h) hf c u64_max 16 W (demo_impl_wf h)) as (hf2 & c2 & E2 & Hn & v & Hv & Hbits & Hgran).
  - reflexivity.
  - discriminate.
  - lia.
  - intros i Hi. unfold demo_impl. rewrite Hb, (proj2 (Z.ltb_lt _ _)) by lia. by eexists.
  - intros _. reflexivity.
  - rewrite E in E2. injection E2 as <- <-. rewrite Hv in Hbits, Hgran by reflexivity.
    change (memregions (domain_regions demo_machine root)) with [MemRegion 64 0 7]. constructor.
    + cbn. lia.
    + repeat constructor; cbn; try lia; discriminate.
    + repeat constructor. unfold pmp_fits, pmp_addr_max. by rewrite Hbits, Hgran.
    + repeat constructor.
Qed.

Lemma bare_quiet : quiet_hooks bare_platform.
Proof. constructor; reflexivity. Qed.

Definition demo_start_boot : boot_state :=
  BootState (put_hart 1 (hd_set_csrs {[ CSR_MISA := 0x8000000000141129 ]}
    (hd_set_next 7 0x80400000 PRV_S (demo_hart SBI_HSM_STATE_START_PENDING))) demo_machine)
    SPIN_LOCK_INIT (Hartmask [0; 0]) 1 1 32.

Lemma demo_booted : booted (b_machine demo_start_boot) 1.
Proof.
  constructor; [repeat split; discriminate|repeat split|]. exists 31. split; [|vm_compute; discriminate].
  constructor; [lia| | | |].
  - eexists. split; vm_compute; reflexivity.
  - eexists. split; vm_compute; reflexivity.
  - split; [vm_compute; split; discriminate|vm_compute; reflexivity].
  - assert (En : num_hw_events (m_pmu (b_machine demo_start_boot)) = 0) by (vm_compute; reflexivity).
    rewrite En. constructor.
Qed.

Lemma started_hart_boots_witness :
  exists m1, sbi_hsm_hart_start 0 (Some root) 1 0x80400000 PRV_S 7 demo_machine = (Ret SBI_OK, m1) /\
    exists b' d', init_warmboot id 0 0 bare_platform demo_impl 1 demo_start_boot = (Ret (1, 7), b') /\
      hart (b_machine b') 1 = Some d' /\ hd_hsm_state d' = SBI_HSM_STATE_STARTED /\
      entered (hd_csrs d') 0x80400000 PRV_S /\ pmp_enforces (hd_csrs d') (domain_regions demo_machine root).
Proof.
  destruct (started_hart_boots id 0 0 bare_platform demo_impl demo_machine 0 root 1
    (demo_hart SBI_HSM_STATE_STOPPED) (demo_hart SBI_HSM_STATE_STARTED) 0x80400000 PRV_S 7)
    as (m1 & d1 & E & _ & _ & Hb);
    [apply demo_ready|lia|reflexivity|reflexivity| |reflexivity|reflexivity|apply bare_quiet|apply demo_impl_wf
    |apply demo_detects_room|].
  { split; [by left|]. split; [apply (bool_decide_unpack _); vm_compute; exact I|]. split; vm_compute; reflexivity. }
  exists m1. split; [exact E|].
  apply (Hb demo_start_boot (hd_set_csrs {[ CSR_MISA := 0x8000000000141129 ]}
    (hd_set_next 7 0x80400000 PRV_S (demo_hart SBI_HSM_STATE_START_PENDING))));
    [apply (hart_put_eq 1 (demo_hart SBI_HSM_STATE_STOPPED)); reflexivity|constructor; reflexivity|reflexivity|reflexivity|apply demo_booted| | |vm_compute; reflexivity|discriminate|].
  - apply csr_wf_singleton. unfold is_u64. lia.
  - apply pmp_off_clear. intros r Hr. apply lookup_singleton_None. unfold CSR_MISA. lia.
  - apply lock_free_init.
Defined.

(** ** The election and the wake-up, in every interleaving

    Where a hart is in sbi_init; the critical sections under coldboot_lock are
    one step each, which Locks.v justifies. *)
Inductive boot_pc : Type :=
| BElect          (* before the lottery *)
| BEnter          (* lost: before it marks itself as waiting *)
| BPoll           (* marked: before it reads coldboot_done *)
| BBlocked        (* in the wfi loop *)
| BLeaving        (* has seen coldboot_done: before it unmarks itself *)
| BWarm           (* past wait_for_coldboot *)
| BCold           (* won: in the cold boot *)
| BWaking         (* coldboot_done stored: before the wake-up loop *)
| BColdDone.      (* past wake_coldboot_harts *)

Record boot_world : Type := BootWorld {
  bw_state : boot_state;
  bw_pcs : gmap Z boot_pc;
}.

Definition bw_at (w : boot_world) (h : Z) (p : boot_pc) : Prop := bw_pcs w !! h = Some p.

Definition bw_go (h : Z) (p : boot_pc) (b : boot_state) (w : boot_world) : boot_world :=
  BootWorld b (<[h := p]> (bw_pcs w)).

Section Wakeup.
Context (pl : sbi_platform_operations).

Inductive boot_move (h : Z) : boot_world → boot_world → Prop :=
| bm_elect w r b :
    bw_at w h BElect -> coldboot_elect pl h (bw_state w) = (Ret r, b) ->
    boot_move h w (bw_go h (if r : bool then BCold else BEnter) b w)
| bm_mark w b :
    bw_at w h BEnter -> wait_mark h (bw_state w) = (Ret tt, b) -> boot_move h w (bw_go h BPoll b w)
| bm_poll w :
    bw_at w h BPoll ->
    boot_move h w (bw_go h (if truthy (coldboot_done (bw_state w)) then BLeaving else BBlocked) (bw_state w) w)
| bm_interrupt w :
    bw_at w h BBlocked -> EvIpiSend h ∈ m_trace (b_machine (bw_state w)) ->
    boot_move h w (bw_go h BPoll (bw_state w) w)
| bm_unmark w b :
    bw_at w h BLeaving -> wait_unmark h (bw_state w) = (Ret tt, b) -> boot_move h w (bw_go h BWarm b w)
| bm_done w :
    bw_at w h BCold -> boot_move h w (bw_go h BWaking (set_coldboot_done 1 (bw_state w)) w)
| bm_wake w b :
    bw_at w h BWaking -> wake_all h (bw_state w) = (Ret tt, b) -> boot_move h w (bw_go h BColdDone b w).

Definition boot_reach (w w' : boot_world) : Prop := rtc (λ w w', exists h, boot_move h w w') w w'.

(** All harts at the start of sbi_init. *)
Record boot_start (w : boot_world) : Prop := {
  st_pcs : forall h p, bw_at w h p -> p = BElect /\ 0 <= h <= last_hart (b_machine (bw_state w)) /\ h < 128 /\
    is_Some (hart (b_machine (bw_state w)) h);
  st_done : coldboot_done (bw_state w) = 0;
  st_lottery : coldboot_lottery (bw_state w) = 0;
  st_lock : lock_free (coldboot_lock (bw_state w));
  st_mask : hartmask_wf (coldboot_wait_hmask (bw_state w));
  st_dev : device_sends (b_machine (bw_state w)) = true;
}.

Definition waiting (p : boot_pc) : bool := match p with BPoll | BBlocked | BLeaving => true | _ => false end.
Definition elected (p : boot_pc) : bool := match p with BCold | BWaking | BColdDone => true | _ => false end.

Record boot_inv (w : boot_world) : Prop := {
  iv_harts : forall h p, bw_at w h p -> 0 <= h <= last_hart (b_machine (bw_state w)) /\ h < 128 /\
    is_Some (hart (b_machine (bw_state w)) h);
  iv_lock : lock_free (coldboot_lock (bw_state w));
  iv_mask : hartmask_wf (coldboot_wait_hmask (bw_state w));
  iv_dev : device_sends (b_machine (bw_state w)) = true;
  iv_marked : forall h p, bw_at w h p -> waiting p = true -> h ∈ hartmask_set (coldboot_wait_hmask (bw_state w));
  iv_done : forall h p, bw_at w h p -> p = BWaking \/ p = BColdDone -> coldboot_done (bw_state w) <> 0;
  iv_leaving : forall h p, bw_at w h p -> p = BLeaving \/ p = BWarm -> coldboot_done (bw_state w) <> 0;
  iv_finished : coldboot_done (bw_state w) <> 0 -> exists c p, bw_at w c p /\ (p = BWaking \/ p = BColdDone);
  iv_lottery : forall h p, bw_at w h p -> elected p = true -> coldboot_lottery (bw_state w) = 1;
  iv_some : coldboot_lottery (bw_state w) <> 0 -> exists c p, bw_at w c p /\ elected p = true;
  iv_unique : forall h h' p p', bw_at w h p -> bw_at w h' p' -> elected p = true -> elected p' = true -> h = h';
  iv_woken : forall h c, bw_at w h BBlocked -> bw_at w c BColdDone -> EvIpiSend h ∈ m_trace (b_machine (bw_state w));
}.

(** *** The operations *)

Lemma locked_mask f b :
  lock_free (coldboot_lock b) ->
  exists l, (zoom coldboot_lock set_coldboot_lock spin_lock ;;;
             modify (λ b, set_wait_hmask (f (coldboot_wait_hmask b)) b) ;;;
             zoom coldboot_lock set_coldboot_lock spin_unlock)%sbi b =
    (Ret tt, set_coldboot_lock l (set_wait_hmask (f (coldboot_wait_hmask b)) b)) /\ lock_free l.
Proof.
  intros Hl. destruct (spin_lock_free _ Hl) as (w & E & Hu). eexists. split; [|exact Hu].
  unfold bind, zoom. rewrite E. reflexivity.
Qed.

Lemma elect_run h b d r b' :
  hart (b_machine b) h = Some d -> coldboot_elect pl h b = (Ret r, b') ->
  (r = false /\ b' = b) \/ (r = (coldboot_lottery b =? 0) /\ b' = set_lottery 1 b).
Proof.
  intros Hd. unfold coldboot_elect.
  assert (E1 : on_hart h (gets hd_next_mode) (b_machine b) = (Ret (hd_next_mode d), b_machine b))
    by (by apply (on_hart_read _ _ _ d)).
  rewrite (bind_on_machine _ _ _ _ _ E1).
  set (c := if hd_next_mode d =? PRV_M then _ else _).
  assert (Hc : (exists s, c (hd_csrs d) = (Ret s, hd_csrs d)) \/ c (hd_csrs d) = (Stop hart_hang, hd_csrs d)).
  { unfold c. repeat case_if; rewrite ?misa_has_run; eauto. }
  assert (Hsm : forall b0, b_machine b0 = b_machine b -> set_machine (b_machine b) b0 = b0) by (intros []; cbn; by intros ->).
  destruct Hc as [[s Es]|Es].
  - assert (E2 : on_hart h (hart_csr c) (b_machine b) = (Ret s, b_machine b)).
    { apply (on_hart_read _ _ _ d); [done|]. unfold hart_csr, zoom. rewrite Es. by destruct d. }
    rewrite (Hsm b eq_refl), (bind_on_machine _ _ b _ _ E2), (Hsm b eq_refl).
    destruct s; cbn; intros [= <- <-]; [right|left]; done.
  - intros E. unfold bind in E at 1. unfold on_machine, zoom in E. cbn [b_machine set_machine] in E.
    rewrite (on_hart_run _ _ _ _ Hd) in E. unfold hart_csr, zoom in E. rewrite Es in E. discriminate.
Qed.

(** A machine that differs in its trace only, which grew. *)
Record traced (m m' : machine) : Prop := {
  tr_harts : m_harts m' = m_harts m;
  tr_scratch : m_scratch m' = m_scratch m;
  tr_dev : m_ipi_dev m' = m_ipi_dev m;
  tr_mono : forall e, e ∈ m_trace m -> e ∈ m_trace m';
}.

#[local] Instance traced_preorder : PreOrder traced.
Proof.
  split; [by intros m|]. intros m1 m2 m3 [A1 A2 A3 A4] [B1 B2 B3 B4]. split; try congruence. auto.
Qed.

Lemma wake_loop_run h l b :
  device_sends (b_machine b) = true -> Forall (λ i, 0 <= i) l ->
  exists m', mfor l (wake_body h) b = (Ret tt, set_machine m' b) /\ traced (b_machine b) m' /\
    forall i, i ∈ l -> i <> h -> i ∈ hartmask_set (coldboot_wait_hmask b) -> EvIpiSend i ∈ m_trace m'.
Proof.
  intros Hdev Hl. revert b Hdev. induction Hl as [|i l Hi Hl IH]; intros b Hdev; cbn [mfor].
  { exists (b_machine b). split; [by destruct b|]. split; [done|]. set_solver. }
  assert (H1 : exists m1, wake_body h i b = (Ret tt, set_machine m1 b) /\ traced (b_machine b) m1 /\
    (i <> h -> i ∈ hartmask_set (coldboot_wait_hmask b) -> EvIpiSend i ∈ m_trace m1)).
  { unfold wake_body. rewrite bind_gets, hartmask_test_hart_spec by done.
    destruct (negb (i =? h) && truthy _) eqn:Ec.
    - exists (add_event (EvIpiSend i) (b_machine b)).
      assert (Es : sbi_ipi_raw_send i (b_machine b) = (Ret tt, add_event (EvIpiSend i) (b_machine b))).
      { unfold sbi_ipi_raw_send. unfold device_sends in Hdev. destruct (m_ipi_dev (b_machine b)) as [[[] ?]|]; done. }
      rewrite (on_machine_run _ _ _ _ Es). split; [done|].
      split; [split; try done; intros e He; cbn; set_solver|]. intros _ _. cbn. set_solver.
    - exists (b_machine b). split; [by destruct b|]. split; [done|]. intros Hne Hin. exfalso.
      rewrite decide_True, (proj2 (Z.eqb_neq _ _)) in Ec by done. discriminate. }
  destruct H1 as (m1 & E1 & T1 & S1). rewrite (bind_Ret _ _ _ _ _ E1).
  destruct (IH (set_machine m1 b)) as (m2 & E2 & T2 & S2).
  { unfold device_sends in *. cbn. by rewrite (tr_dev _ _ T1). }
  exists m2. split; [exact E2|]. split; [etrans; [exact T1|exact T2]|].
  intros j Hj Hne Hin. apply elem_of_cons in Hj as [->|Hj]; [|by apply S2].
  apply T2. by apply S1.
Qed.

Lemma wake_all_run h b :
  device_sends (b_machine b) = true -> lock_free (coldboot_lock b) ->
  exists m' l, wake_all h b = (Ret tt, set_coldboot_lock l (set_machine m' b)) /\ lock_free l /\
    traced (b_machine b) m' /\
    forall i, 0 <= i <= last_hart (b_machine b) -> i <> h -> i ∈ hartmask_set (coldboot_wait_hmask b) ->
      EvIpiSend i ∈ m_trace m'.
Proof.
  intros Hdev Hl. destruct (spin_lock_free _ Hl) as (w & E & Hu). unfold wake_all.
  assert (E1 : zoom coldboot_lock set_coldboot_lock spin_lock b = (Ret tt, set_coldboot_lock w b))
    by (unfold zoom; by rewrite E).
  rewrite (bind_Ret _ _ _ _ _ E1), bind_gets.
  destruct (wake_loop_run h (seqZ 0 (last_hart (b_machine b) + 1)) (set_coldboot_lock w b)) as (m' & E2 & T & Hs); [done| |].
  { apply Forall_forall. intros i Hi%list_elem_of_In%elem_of_seqZ. lia. }
  cbn [b_machine set_coldboot_lock]. rewrite (bind_Ret _ _ _ _ _ E2).
  exists m', (snd (spin_unlock w)). split; [done|]. split; [done|]. split; [done|].
  intros i Hi Hne Hin. apply Hs; [|done|done]. apply elem_of_seqZ. lia.
Qed.

(** *** The invariant *)

Lemma bw_at_go h p b w h' p' :
  bw_at (bw_go h p b w) h' p' <-> (h' = h /\ p' = p) \/ (h' <> h /\ bw_at w h' p').
Proof.
  unfold bw_at, bw_go. cbn. destruct (decide (h' = h)) as [->|Hne].
  - rewrite lookup_insert_eq. split; [intros [= <-]; by left|intros [[_ ->]|[? _]]; done].
  - rewrite lookup_insert_ne by done. split; [by right|intros [[? _]|[_ ?]]; done].
Qed.

(** What a move of hart [h] from [p0] to [p] must satisfy. *)
Record move_ok (w : boot_world) (h : Z) (p0 p : boot_pc) (b : boot_state) : Prop := {
  mo_machine : traced (b_machine (bw_state w)) (b_machine b);
  mo_lock : lock_free (coldboot_lock b);
  mo_mask : hartmask_wf (coldboot_wait_hmask b);
  mo_marks : forall h', h' <> h -> h' ∈ hartmask_set (coldboot_wait_hmask (bw_state w)) ->
    h' ∈ hartmask_set (coldboot_wait_hmask b);
  mo_mark : waiting p = true -> h ∈ hartmask_set (coldboot_wait_hmask b);
  mo_done : coldboot_done (bw_state w) <> 0 -> coldboot_done b <> 0;
  mo_done_new : coldboot_done b <> 0 -> coldboot_done (bw_state w) <> 0 \/ p = BWaking;
  mo_past : p = BWaking \/ p = BColdDone \/ p = BLeaving \/ p = BWarm -> coldboot_done b <> 0;
  mo_cold : (p0 = BWaking -> p = BColdDone) /\ p0 <> BColdDone;
  mo_lottery : coldboot_lottery b = coldboot_lottery (bw_state w) \/ coldboot_lottery b = 1;
  mo_elected : elected p = true -> coldboot_lottery b = 1 /\ (elected p0 = true \/ coldboot_lottery (bw_state w) = 0);
  mo_keeps : elected p0 = true -> elected p = true;
  mo_lottery_new : coldboot_lottery b <> 0 -> coldboot_lottery (bw_state w) <> 0 \/ elected p = true;
  mo_blocked : p = BBlocked -> coldboot_done (bw_state w) = 0;
  mo_woken : p = BColdDone -> forall h', bw_at w h' BBlocked -> EvIpiSend h' ∈ m_trace (b_machine b);
}.

Lemma move_ok_inv w h p0 p b : boot_inv w -> bw_at w h p0 -> move_ok w h p0 p b -> boot_inv (bw_go h p b w).
Proof.
  intros I Hat O. pose proof (mo_machine _ _ _ _ _ O) as T.
  assert (Hl : last_hart (b_machine b) = last_hart (b_machine (bw_state w))) by (unfold last_hart; by rewrite (tr_scratch _ _ T)).
  assert (Hh : forall h, hart (b_machine b) h = hart (b_machine (bw_state w)) h) by (intros; unfold hart; by rewrite (tr_harts _ _ T)).
  split; cbn [bw_state bw_go].
  - intros h' p' Ha%bw_at_go. rewrite Hl, Hh. destruct Ha as [[-> _]|[_ Ha]]; by eapply (iv_harts _ I).
  - apply O.
  - apply O.
  - unfold device_sends. rewrite (tr_dev _ _ T). apply (iv_dev _ I).
  - intros h' p' Ha%bw_at_go Hw. destruct Ha as [[-> ->]|[Hne Ha]]; [by apply (mo_mark _ _ _ _ _ O)|].
    apply (mo_marks _ _ _ _ _ O); [done|]. by eapply (iv_marked _ I).
  - intros h' p' Ha%bw_at_go Hp. destruct Ha as [[-> ->]|[Hne Ha]]; [apply (mo_past _ _ _ _ _ O); tauto|].
    apply (mo_done _ _ _ _ _ O). by eapply (iv_done _ I).
  - intros h' p' Ha%bw_at_go Hp. destruct Ha as [[-> ->]|[Hne Ha]]; [apply (mo_past _ _ _ _ _ O); tauto|].
    apply (mo_done _ _ _ _ _ O). by eapply (iv_leaving _ I).
  - intros Hd. destruct (mo_done_new _ _ _ _ _ O Hd) as [Ho| ->]; [|exists h, BWaking; rewrite bw_at_go; auto].
    destruct (iv_finished _ I Ho) as (c & pc & Ha & Hp). destruct (decide (c = h)) as [->|Hne].
    + assert (pc = p0) as -> by (unfold bw_at in *; congruence). destruct (mo_cold _ _ _ _ _ O) as [H1 H2].
      exists h, p. rewrite bw_at_go. split; [auto|]. destruct Hp as [->|?]; [right; auto|done].
    + exists c, pc. rewrite bw_at_go. auto.
  - intros h' p' Ha%bw_at_go Hp. destruct Ha as [[-> ->]|[Hne Ha]]; [by apply (mo_elected _ _ _ _ _ O)|].
    pose proof (iv_lottery _ I h' p' Ha Hp). destruct (mo_lottery _ _ _ _ _ O); congruence.
  - intros Hd. destruct (mo_lottery_new _ _ _ _ _ O Hd) as [Ho|Hp]; [|exists h, p; rewrite bw_at_go; auto].
    destruct (iv_some _ I Ho) as (c & pc & Ha & Hp). destruct (decide (c = h)) as [->|Hne].
    + assert (pc = p0) as -> by (unfold bw_at in *; congruence). exists h, p. rewrite bw_at_go.
      split; [auto|by apply (mo_keeps _ _ _ _ _ O)].
    + exists c, pc. rewrite bw_at_go. auto.
  - assert (Hx : forall h' p', h' <> h -> bw_at w h' p' -> elected p' = true -> elected p = true -> False).
    { intros h' p' Hne Ha Hp' Hp. destruct (mo_elected _ _ _ _ _ O Hp) as [_ [H0|H0]].
      - apply Hne. by eapply (iv_unique _ I).
      - pose proof (iv_lottery _ I h' p' Ha Hp'). lia. }
    intros h1 h2 p1 p2 A1%bw_at_go A2%bw_at_go E1 E2.
    destruct A1 as [[-> ->]|[N1 A1]], A2 as [[-> ->]|[N2 A2]]; [done|exfalso; eauto|exfalso; eauto|].
    by eapply (iv_unique _ I).
  - intros h1 c A1%bw_at_go A2%bw_at_go. destruct A1 as [[-> <-]|[N1 A1]], A2 as [[-> E2]|[N2 A2]].
    + discriminate.
    + exfalso. apply (iv_done _ I c BColdDone A2); [auto|]. by apply (mo_blocked _ _ _ _ _ O).
    + by apply (mo_woken _ _ _ _ _ O).
    + apply T. by eapply (iv_woken _ I).
Qed.

Lemma boot_move_inv h w w' : boot_inv w -> boot_move h w w' -> boot_inv w'.
Proof.
  intros I Hm. destruct Hm as [w r b Ha E|w b Ha E|w Ha|w Ha Hi|w b Ha E|w Ha|w b Ha E];
    destruct (iv_harts _ I _ _ Ha) as (Hr & Hlt & [d Hd]); (eapply move_ok_inv; [exact I|exact Ha|]).
  - destruct (elect_run h _ d r b Hd E) as [[-> ->]|[-> ->]].
    + split; try done; try apply I; naive_solver.
    + destruct (Z.eqb_spec (coldboot_lottery (bw_state w)) 0) as [Hz|Hz];
        (split; cbn; try done; try apply I; try naive_solver; auto).
  - destruct (locked_mask (sbi_hartmask_set_hart h) _ (iv_lock _ I)) as (l & E' & Hl).
    unfold wait_mark in E. rewrite E' in E. injection E as <-.
    destruct (hartmask_set_hart_spec (coldboot_wait_hmask (bw_state w)) h (iv_mask _ I)) as [W S];
      [unfold SBI_HARTMASK_MAX_BITS; lia|].
    split; cbn; try done; rewrite ?S; auto; try set_solver; try apply I; naive_solver.
  - pose proof (iv_marked _ I h BPoll Ha eq_refl).
    destruct (truthy (coldboot_done (bw_state w))) eqn:Et; [apply truthy_true in Et|apply truthy_false in Et];
      (split; try done; try apply I; auto; naive_solver).
  - pose proof (iv_marked _ I h BBlocked Ha eq_refl).
    split; try done; try apply I; auto; naive_solver.
  - destruct (locked_mask (sbi_hartmask_clear_hart h) _ (iv_lock _ I)) as (l & E' & Hl).
    unfold wait_unmark in E. rewrite E' in E. injection E as <-.
    pose proof (iv_leaving _ I h BLeaving Ha (or_introl eq_refl)).
    destruct (hartmask_clear_hart_spec (coldboot_wait_hmask (bw_state w)) h (iv_mask _ I)) as [W S];
      [unfold SBI_HARTMASK_MAX_BITS; lia|].
    split; cbn; try done; rewrite ?S; auto; try set_solver; try apply I.
  - pose proof (iv_lottery _ I h BCold Ha eq_refl) as Hl.
    split; cbn; try done; try apply I; auto.
  - destruct (wake_all_run h _ (iv_dev _ I) (iv_lock _ I)) as (m' & l & E' & Hl & T & Hs).
    rewrite E' in E. injection E as <-. pose proof (iv_lottery _ I h BWaking Ha eq_refl) as Hlot.
    pose proof (iv_done _ I h BWaking Ha (or_introl eq_refl)).
    split; cbn; try done; try apply I; auto.
    intros _ h' Hb. apply Hs; [by eapply (iv_harts _ I)| |by eapply (iv_marked _ I)].
    intros ->. unfold bw_at in *. congruence.
Qed.

Lemma boot_reach_inv w0 w : boot_start w0 -> boot_reach w0 w -> boot_inv w.
Proof.
  intros St. assert (I0 : boot_inv w0).
  { assert (Hp : forall h p, bw_at w0 h p -> p = BElect) by (intros h p H; by destruct (st_pcs _ St h p H)).
    destruct St as [S1 S2 S3 S4 S5 S6]. split; try done.
    - intros h p Ha. by destruct (S1 h p Ha) as (_ & ? & ? & ?).
    - intros h p Ha Hw. by rewrite (Hp _ _ Ha) in Hw.
    - intros h p Ha Hw. rewrite (Hp _ _ Ha) in Hw. by destruct Hw.
    - intros h p Ha Hw. rewrite (Hp _ _ Ha) in Hw. by destruct Hw.
    - intros h p Ha Hw. by rewrite (Hp _ _ Ha) in Hw.
    - intros h h' p p' A1 A2 E1. by rewrite (Hp _ _ A1) in E1.
    - intros h c Ha. by specialize (Hp _ _ Ha). }
  clear St. intros Hr. revert I0. induction Hr as [|w1 w2 w3 [h Hm] _ IH]; [done|].
  intros I1. apply IH. by apply (boot_move_inv h w1).
Qed.

(** [C12] In every interleaving of the harts' ways through sbi_init: at most one
    hart becomes the cold-boot hart, and one does as soon as a hart has drawn; no
    hart passes the wait before the cold boot has signalled its end; and once the
    cold-boot hart has sent its wake-ups no waiting hart is stuck -- none missed
    the signal between looking at the flag and going to sleep. *)
Theorem coldboot_wakeup_not_lost w0 w :
  boot_start w0 -> boot_reach w0 w ->
  (forall h h' p p', bw_at w h p -> bw_at w h' p' -> elected p = true -> elected p' = true -> h = h') /\
  (coldboot_lottery (bw_state w) <> 0 -> exists c p, bw_at w c p /\ elected p = true) /\
  (forall h, bw_at w h BWarm -> exists c p, bw_at w c p /\ (p = BWaking \/ p = BColdDone)) /\
  (forall c h p, bw_at w c BColdDone -> bw_at w h p -> waiting p = true -> exists w', boot_move h w w').
Proof.
  intros St Hr. pose proof (boot_reach_inv w0 w St Hr) as I. split; [|split; [|split]].
  - apply (iv_unique _ I).
  - apply (iv_some _ I).
  - intros h Ha. apply (iv_finished _ I). apply (iv_leaving _ I h BWarm Ha). by right.
  - intros c h p Hc Hh Hw. destruct p; try discriminate.
    + eexists. by apply bm_poll.
    + eexists. apply bm_interrupt; [done|]. by apply (iv_woken _ I h c).
    + destruct (locked_mask (sbi_hartmask_clear_hart h) _ (iv_lock _ I)) as (l & E & _).
      eexists. by apply bm_unmark.
Qed.

End Wakeup.

(** The wait looks neither at the counters nor into the scratch areas. *)
Definition no_counters : pmu_state := PmuState [] [] [] 0 0 0 ∅.

Definition demo_boot_world : boot_world :=
  BootWorld (BootState (put_hart 0 (hd_set_csrs {[ CSR_MISA := 0x8000000000141129 ]}
      (demo_hart SBI_HSM_STATE_STARTED)) (set_scratch (ScratchState 2 [] SPIN_LOCK_INIT 1024) (set_m_pmu no_counters demo_machine))) SPIN_LOCK_INIT (Hartmask [0; 0]) 0 0 0) {[ 0 := BElect; 1 := BElect ]}.

(** Hart 0 wins, hart 1 marks itself and goes to sleep, and hart 0 finishes. *)
Lemma demo_wakeup_run :
  exists w, boot_reach bare_platform demo_boot_world w /\ bw_at w 0 BColdDone /\ bw_at w 1 BBlocked.
Proof.
  eexists. split; [|split].
  - eapply rtc_l; [exists 0; apply bm_elect; [reflexivity|vm_compute; reflexivity]|].
    eapply rtc_l; [exists 1; apply bm_elect; [reflexivity|vm_compute; reflexivity]|].
    eapply rtc_l; [exists 1; apply bm_mark; [reflexivity|vm_compute; reflexivity]|].
    eapply rtc_l; [exists 1; apply bm_poll; reflexivity|].
    eapply rtc_l; [exists 0; apply bm_done; reflexivity|].
    eapply rtc_l; [exists 0; apply bm_wake; [reflexivity|vm_compute; reflexivity]|]. apply rtc_refl.
  - reflexivity.
  - reflexivity.
Qed.

Lemma coldboot_wakeup_not_lost_witness :
  exists w, boot_reach bare_platform demo_boot_world w /\ bw_at w 0 BColdDone /\ bw_at w 1 BBlocked /\
    exists w', boot_move bare_platform 1 w w'.
Proof.
  assert (St : boot_start demo_boot_world).
  { split; try reflexivity.
    - intros h p H. unfold bw_at, demo_boot_world in H. cbn [bw_pcs] in H.
      apply lookup_insert_Some in H as [[<- <-]|[_ [<- <-]%lookup_singleton_Some]];
        (split; [done|]; split; [cbn; lia|]; split; [lia|by eexists]).
    - apply lock_free_init.
    - repeat constructor; unfold is_u64; lia. }
  destruct demo_wakeup_run as (w & Hr & H0 & H1). exists w. split; [exact Hr|]. split; [exact H0|]. split; [exact H1|].
  destruct (coldboot_wakeup_not_lost bare_platform demo_boot_world w St Hr) as (_ & _ & _ & Hs).
  apply (Hs 0 1 BBlocked H0 H1 eq_refl).
Defined.
