(* ===== verification/Mmio.v ===== *)
(** * Memory-mapped devices and the CLINT of the SoC

    Models include/sbi/riscv_io.h and, from the hardware side,
    src/modules/cva6/corev_apu/clint/clint.sv with the store alignment of the
    core (ariane_pkg.sv).  What the drivers see of the hardware is the interface
    [Bus]: loads and stores of 1, 2, 4 or 8 bytes at an address.  The barriers
    of the accessors order the accesses of one hart, which are in order here.

    [soc] is the instance for this SoC: the CLINT, whose timer may tick any
    number of times before each access, and the other devices, whose answers are
    arbitrary and whose writes are recorded.  The theorems say what one access
    does to the CLINT registers. *)

From Stdlib Require Import ZArith Lia.
From stdpp Require Import base tactics list numbers.
From S2P Require Import Prelude.

Class Bus (D : Type) : Type := {
  bus_read : Z → Z → D → Z * D;      (* width in bytes, address *)
  bus_write : Z → Z → Z → D → D;     (* width, address, value of the register *)
}.

(** ** Accessors (riscv_io.h) *)

Section Accessors.
Context {D : Type} `{Bus D}.

Definition mmio_read (width addr : Z) : M D Z :=
  λ d, let '(v, d) := bus_read width addr d in (Ret (v mod 2 ^ (8 * width)), d).
Definition mmio_write (width val addr : Z) : M D unit :=
  λ d, (Ret tt, bus_write width addr val d).

Definition __raw_readb : Z → M D Z := mmio_read 1.
Definition __raw_readw : Z → M D Z := mmio_read 2.
Definition __raw_readl : Z → M D Z := mmio_read 4.
Definition __raw_readq : Z → M D Z := mmio_read 8.
Definition __raw_writeb : Z → Z → M D unit := mmio_write 1.
Definition __raw_writew : Z → Z → M D unit := mmio_write 2.
Definition __raw_writel : Z → Z → M D unit := mmio_write 4.
Definition __raw_writeq : Z → Z → M D unit := mmio_write 8.

Definition readb := __raw_readb.
Definition readw := __raw_readw.
Definition readl := __raw_readl.
Definition writeb := __raw_writeb.
Definition writew := __raw_writew.
Definition writel := __raw_writel.
Definition readl_relaxed := __raw_readl.
Definition writel_relaxed := __raw_writel.
Definition readq_relaxed := __raw_readq.
Definition writeq_relaxed := __raw_writeq.

End Accessors.

(** ** The CLINT (clint.sv, XLEN = 64) *)

Definition MSIP_BASE : Z := 0x0.
Definition MTIMECMP_BASE : Z := 0x4000.
Definition MTIME_BASE : Z := 0xbff8.

(** The registers; the number of cores is the length of the lists. *)
Record clint : Type := Clint {
  mtime_q : Z;
  mtimecmp_q : list Z;
  msip_q : list bool;
}.

Definition NR_CORES (c : clint) : Z := Z.of_nat (length (msip_q c)).

Definition AddrSelWidth (n : Z) : Z := if n =? 1 then 1 else Z.log2_up n.

(** [address[AddrSelWidth-1+lo : lo]], the index of a register. *)
Definition address_sel (n lo address : Z) : nat :=
  Z.to_nat (Z.shiftr address lo mod 2 ^ AddrSelWidth n).

Definition in_range (lo hi a : Z) : bool := (lo <=? a) && (a <=? hi).

(** A write: of an index outside a register array, the write has no effect. *)
Definition clint_write (address wdata : Z) (c : clint) : clint :=
  let register_address := address mod 2 ^ 16 in
  let n := NR_CORES c in
  if in_range MSIP_BASE (MSIP_BASE + 4 * n) register_address then
    Clint (mtime_q c) (mtimecmp_q c)
      (<[address_sel n 2 address := Z.testbit wdata (if Z.testbit address 2 then 32 else 0)]> (msip_q c))
  else if in_range MTIMECMP_BASE (MTIMECMP_BASE + 8 * n) register_address then
    Clint (mtime_q c) (<[address_sel n 3 address := wdata]> (mtimecmp_q c)) (msip_q c)
  else if in_range MTIME_BASE (MTIME_BASE + 4) register_address then
    Clint wdata (mtimecmp_q c) (msip_q c)
  else c.

Definition clint_read (address : Z) (c : clint) : Z :=
  let register_address := address mod 2 ^ 16 in
  let n := NR_CORES c in
  if in_range MSIP_BASE (MSIP_BASE + 4 * n) register_address then
    if default false (msip_q c !! address_sel n 2 address) then 1 else 0
  else if in_range MTIMECMP_BASE (MTIMECMP_BASE + 8 * n) register_address then
    default 0 (mtimecmp_q c !! address_sel n 3 address)
  else if in_range MTIME_BASE (MTIME_BASE + 4) register_address then mtime_q c
  else 0.

(** [increase_timer]. *)
Definition clint_tick (c : clint) : clint :=
  Clint (u64 (mtime_q c + 1)) (mtimecmp_q c) (msip_q c).

Definition clint_ticks (k : nat) (c : clint) : clint := Nat.iter k clint_tick c.

Definition timer_irq_o (c : clint) (i : Z) : bool :=
  match mtimecmp_q c !! Z.to_nat i with Some cmp => cmp <=? mtime_q c | None => false end.
Definition ipi_o (c : clint) (i : Z) : bool := default false (msip_q c !! Z.to_nat i).

(** ** The SoC as a bus *)

Definition CLINTBase : Z := 0x2000000.
Definition CLINTLength : Z := 0xC0000.

(** data_align of ariane_pkg.sv: the register is rotated to the byte lane. *)
Definition data_align (addr data : Z) : Z :=
  let sh := 8 * (addr mod 8) in Z.lor (u64 (Z.shiftl data sh)) (Z.shiftr data (64 - sh)).

(** A [u32] in a register is sign-extended. *)
Definition sext32 (v : Z) : Z := u64 (s32 v).

Record soc : Type := Soc {
  soc_clint : clint;
  soc_writes : list (Z * Z * Z);     (* to the other devices: width, address, value *)
  soc_count : nat;                   (* accesses so far *)
  soc_ticks : nat → nat;             (* timer ticks before each access *)
  soc_input : nat → Z → Z;           (* what each access to another device reads *)
}.

Definition soc_decodes (addr : Z) : bool :=
  (CLINTBase <=? addr) && (addr <? CLINTBase + CLINTLength).

Definition soc_read (width addr : Z) (s : soc) : Z * soc :=
  let c := clint_ticks (soc_ticks s (soc_count s)) (soc_clint s) in
  let s' := Soc c (soc_writes s) (S (soc_count s)) (soc_ticks s) (soc_input s) in
  if soc_decodes addr
  then (Z.shiftr (clint_read addr c) (8 * (addr mod 8)) mod 2 ^ (8 * width), s')
  else (soc_input s (soc_count s) addr, s').

Definition soc_write (width addr val : Z) (s : soc) : soc :=
  let c := clint_ticks (soc_ticks s (soc_count s)) (soc_clint s) in
  if soc_decodes addr then
    let data := data_align addr (if width =? 4 then sext32 val else val) in
    Soc (clint_write addr data c) (soc_writes s) (S (soc_count s)) (soc_ticks s) (soc_input s)
  else
    Soc c (soc_writes s ++ [(width, addr, val mod 2 ^ (8 * width))]) (S (soc_count s))
        (soc_ticks s) (soc_input s).

#[export] Instance soc_bus : Bus soc := {| bus_read := soc_read; bus_write := soc_write |}.

(** ** Lemmas *)

(** A CLINT of [n] cores. *)
Definition clint_of (n : Z) (c : clint) : Prop :=
  1 <= n <= 1024 /\ length (msip_q c) = Z.to_nat n /\ length (mtimecmp_q c) = Z.to_nat n.

Lemma clint_of_cores n c : clint_of n c -> NR_CORES c = n.
Proof. intros (H1 & H2 & _). unfold NR_CORES. rewrite H2. lia. Qed.

Lemma clint_ticks_regs k c :
  mtimecmp_q (clint_ticks k c) = mtimecmp_q c /\ msip_q (clint_ticks k c) = msip_q c.
Proof. induction k as [|k IH]; [done|]. exact IH. Qed.

Lemma clint_ticks_of n k c : clint_of n c -> clint_of n (clint_ticks k c).
Proof. unfold clint_of. by destruct (clint_ticks_regs k c) as [-> ->]. Qed.

Lemma clint_ticks_mtime k c :
  is_u64 (mtime_q c) -> mtime_q (clint_ticks k c) = u64 (mtime_q c + Z.of_nat k).
Proof.
  intros H. induction k as [|k IH].
  - cbn. rewrite Z.add_0_r. by rewrite u64_small.
  - change (clint_ticks (S k) c) with (clint_tick (clint_ticks k c)). cbn [clint_tick mtime_q]. rewrite IH.
    unfold u64. rewrite Zplus_mod_idemp_l. f_equal. lia.
Qed.

Lemma addr_sel_width n h : 1 <= n <= 1024 -> 0 <= h < n -> h < 2 ^ AddrSelWidth n /\ 0 <= AddrSelWidth n <= 10.
Proof.
  intros Hn Hh. unfold AddrSelWidth. destruct (Z.eqb_spec n 1) as [->|]; [change (2 ^ 1) with 2; lia|].
  destruct (Z.log2_up_spec n ltac:(lia)) as [_ Hu].
  assert (Z.log2_up n <= Z.log2_up (2 ^ 10)) by (apply Z.log2_up_le_mono; lia).
  rewrite Z.log2_up_pow2 in * by lia. assert (0 <= Z.log2_up n) by apply Z.log2_up_nonneg. lia.
Qed.

(** The register selected by an address of an array that starts at a multiple
    of 2^14. *)
Lemma address_sel_spec n lo b h r :
  1 <= n <= 1024 -> 0 <= h < n -> 0 <= lo <= 3 -> 0 <= r < 2 ^ lo ->
  address_sel n lo (b * 2 ^ 14 + h * 2 ^ lo + r) = Z.to_nat h.
Proof.
  intros Hn Hh Hlo Hr. unfold address_sel. destruct (addr_sel_width n h Hn Hh) as [H1 H2].
  set (w := AddrSelWidth n) in *. f_equal. rewrite Z.shiftr_div_pow2 by lia.
  assert (0 < 2 ^ lo) by (apply Z.pow_pos_nonneg; lia).
  assert (E : b * 2 ^ 14 + h * 2 ^ lo + r = (b * 2 ^ (14 - lo) + h) * 2 ^ lo + r).
  { rewrite Z.mul_add_distr_r, <- Z.mul_assoc, <- Z.pow_add_r by lia.
    replace (14 - lo + lo) with 14 by lia. lia. }
  rewrite E, Z.add_comm, Z.div_add, Z.div_small, Z.add_0_l by lia.
  replace (b * 2 ^ (14 - lo)) with ((b * 2 ^ (14 - lo - w)) * 2 ^ w).
  - rewrite Z.add_comm, Z_mod_plus_full. apply Z.mod_small. lia.
  - rewrite <- Z.mul_assoc, <- Z.pow_add_r by lia. do 2 f_equal. lia.
Qed.

Lemma addr_mod_window a : 0 <= a < 2 ^ 16 -> (CLINTBase + a) mod 2 ^ 16 = a.
Proof.
  intros H. unfold CLINTBase. change 0x2000000 with (512 * 2 ^ 16).
  rewrite Z.add_comm, Z_mod_plus_full. by apply Z.mod_small.
Qed.

Lemma soc_decodes_clint a : 0 <= a < 2 ^ 16 -> soc_decodes (CLINTBase + a) = true.
Proof.
  intros H. unfold soc_decodes, CLINTBase, CLINTLength. apply andb_true_iff. rewrite Z.leb_le, Z.ltb_lt. lia.
Qed.

Lemma testbit_s32_low v i : 0 <= i < 32 -> Z.testbit (s32 v) i = Z.testbit v i.
Proof.
  intros Hi. unfold s32, u32.
  assert (E : Z.testbit (v mod 2 ^ 32) i = Z.testbit v i) by (apply Z.mod_pow2_bits_low; lia).
  case_if; [done|]. rewrite <- E. rewrite <- (Z.mod_pow2_bits_low _ 32 i) by lia.
  rewrite <- (Z.mod_pow2_bits_low (v mod 2 ^ 32) 32 i) by lia. f_equal.
  replace (v mod 2 ^ 32 - 2 ^ 32) with (v mod 2 ^ 32 + (-1) * 2 ^ 32) by lia.
  apply Z_mod_plus_full.
Qed.

(** The lowest bit of a stored word ends in the lane of its address. *)
Lemma data_align_word addr v :
  addr mod 4 = 0 ->
  Z.testbit (data_align addr (sext32 v)) (if Z.testbit addr 2 then 32 else 0) = Z.testbit v 0.
Proof.
  intros Ha. unfold data_align, sext32.
  assert (E : addr mod 8 = if Z.testbit addr 2 then 4 else 0).
  { change 8 with (2 ^ 3). rewrite Z.testbit_eqb by lia. change (2 ^ 2) with 4. change (2 ^ 3) with (4 * 2).
    rewrite Z.rem_mul_r by lia. rewrite Ha. assert (0 <= addr / 4 mod 2 < 2) by (apply Z.mod_pos_bound; lia).
    destruct (Z.eqb_spec (addr / 4 mod 2) 1); lia. }
  rewrite E. destruct (Z.testbit addr 2); cbn [Z.mul Pos.mul].
  - rewrite Z.lor_spec. unfold u64. rewrite Z.mod_pow2_bits_low, Z.shiftl_spec by lia.
    rewrite Z.shiftr_spec by lia. change (32 + (64 - 32)) with 64. change (32 - 32) with 0.
    rewrite (testbit_u64_high _ 64) by (lia || apply u64_range). rewrite orb_false_r.
    rewrite Z.mod_pow2_bits_low by lia. apply testbit_s32_low. lia.
  - rewrite Z.lor_spec. unfold u64. rewrite Z.mod_pow2_bits_low, Z.shiftl_spec by lia.
    rewrite Z.shiftr_spec by lia. change (0 + (64 - 0)) with 64. change (0 - 0) with 0.
    rewrite (testbit_u64_high _ 64) by (lia || apply u64_range). rewrite orb_false_r.
    rewrite Z.mod_pow2_bits_low by lia. apply testbit_s32_low. lia.
Qed.

Lemma data_align_dword addr v : addr mod 8 = 0 -> is_u64 v -> data_align addr v = v.
Proof.
  intros Ha Hv. unfold data_align. rewrite Ha. change (8 * 0) with 0. rewrite Z.shiftl_0_r.
  rewrite u64_small by done. rewrite Z.shiftr_div_pow2 by lia. unfold is_u64 in Hv.
  rewrite (Z.div_small v) by (change (64 - 0) with 64; lia). apply Z.lor_0_r.
Qed.

(** What a store of a word to the MSIP array does. *)
Lemma msip_write n c h v :
  clint_of n c -> 0 <= h < n ->
  clint_write (CLINTBase + 4 * h) (data_align (CLINTBase + 4 * h) (sext32 v)) c =
  Clint (mtime_q c) (mtimecmp_q c) (<[Z.to_nat h := Z.testbit v 0]> (msip_q c)).
Proof.
  intros Hc Hh. destruct (Hc) as (Hn & _). unfold clint_write. cbv zeta. rewrite (clint_of_cores n c Hc).
  rewrite addr_mod_window by lia. unfold in_range at 1, MSIP_BASE.
  rewrite (proj2 (Z.leb_le 0 (4 * h))), (proj2 (Z.leb_le (4 * h) (0 + 4 * n))) by lia.
  cbn [andb]. f_equal.
  replace (address_sel n 2 (CLINTBase + 4 * h)) with (Z.to_nat h).
  - rewrite data_align_word; [done|]. unfold CLINTBase. change 0x2000000 with (0x800000 * 4).
    rewrite (Z.mul_comm 4 h), <- Z.mul_add_distr_r. apply Z_mod_mult.
  - rewrite <- (address_sel_spec n 2 2048 h 0) by lia. f_equal. unfold CLINTBase. lia.
Qed.

(** A store of a double word to the MTIMECMP array. *)
Lemma mtimecmp_write n c h v :
  clint_of n c -> 0 <= h < n -> is_u64 v ->
  clint_write (CLINTBase + MTIMECMP_BASE + 8 * h) (data_align (CLINTBase + MTIMECMP_BASE + 8 * h) v) c =
  Clint (mtime_q c) (<[Z.to_nat h := v]> (mtimecmp_q c)) (msip_q c).
Proof.
  intros Hc Hh Hv. destruct (Hc) as (Hn & _). unfold clint_write. cbv zeta. rewrite (clint_of_cores n c Hc).
  rewrite <- Z.add_assoc, addr_mod_window by (unfold MTIMECMP_BASE; lia).
  unfold in_range, MSIP_BASE, MTIMECMP_BASE.
  rewrite (proj2 (Z.leb_gt (0x4000 + 8 * h) (0 + 4 * n))) by lia. rewrite andb_false_r.
  rewrite (proj2 (Z.leb_le 0x4000 (0x4000 + 8 * h))), (proj2 (Z.leb_le (0x4000 + 8 * h) (0x4000 + 8 * n))) by lia.
  cbn [andb]. f_equal.
  replace (address_sel n 3 (CLINTBase + (0x4000 + 8 * h))) with (Z.to_nat h).
  - rewrite data_align_dword; [done| |done]. unfold CLINTBase. change 0x2000000 with (0x400000 * 8).
    change 0x4000 with (0x800 * 8).
    rewrite (Z.mul_comm 8 h), <- !Z.mul_add_distr_r. apply Z_mod_mult.
  - rewrite <- (address_sel_spec n 3 2049 h 0) by lia. f_equal. unfold CLINTBase. lia.
Qed.

(** A load of a double word from MTIME. *)
Lemma mtime_read n c :
  clint_of n c -> is_u64 (mtime_q c) ->
  Z.shiftr (clint_read (CLINTBase + MTIME_BASE) c) (8 * ((CLINTBase + MTIME_BASE) mod 8)) mod 2 ^ (8 * 8) =
  mtime_q c.
Proof.
  intros Hc Ht. destruct (Hc) as (Hn & _). unfold clint_read. cbv zeta. rewrite (clint_of_cores n c Hc).
  rewrite addr_mod_window by (unfold MTIME_BASE; lia).
  unfold in_range, MSIP_BASE, MTIMECMP_BASE, MTIME_BASE.
  rewrite (proj2 (Z.leb_gt 0xbff8 (0 + 4 * n))), (proj2 (Z.leb_gt 0xbff8 (0x4000 + 8 * n))) by lia.
  rewrite !andb_false_r. change ((0xbff8 <=? 0xbff8) && (0xbff8 <=? 0xbff8 + 4)) with true. cbv iota.
  change ((CLINTBase + 0xbff8) mod 8) with 0. rewrite Z.shiftr_0_r. by apply Z.mod_small.
Qed.
