(* ===== verification/Aclint.v ===== *)
(** * The timer and inter-processor interrupt drivers

    Models lib/utils/timer/aclint_mtimer.c and lib/utils/ipi/aclint_mswi.c.
    The drivers keep a table from hart ids to the device that serves the hart;
    devices are objects behind pointers (indices into a list), and the hardware
    is reached through the interface [Bus] of Mmio.v.  A NULL dereference or a
    table access out of bounds stops with [wild_access].

    The theorems: on the CLINT of the SoC, running the drivers over a trace of
    the effects that Machine.v records leaves exactly the interrupt wires the
    trace asks for; the two-halves read of the clock is a value the clock had;
    the two-halves write of a deadline raises no interrupt neither deadline
    asks for; and the two tables can be overrun. *)

From Stdlib Require Import ZArith Lia.
From stdpp Require Import base tactics list numbers.
From S2P Require Import Prelude SbiDefs Bitops Scratch Domain Machine Ipi Timer Mmio.

Definition ACLINT_MTIMER_ALIGN : Z := 0x8.
Definition ACLINT_MTIMER_MAX_HARTS : Z := 4095.
Definition ACLINT_DEFAULT_MTIME_OFFSET : Z := 0x7ff8.
Definition ACLINT_DEFAULT_MTIME_SIZE : Z := 0x8.
Definition ACLINT_DEFAULT_MTIMECMP_OFFSET : Z := 0x0000.
Definition ACLINT_DEFAULT_MTIMECMP_SIZE : Z := 0x7ff8.
Definition CLINT_MTIMER_OFFSET : Z := 0x4000.
Definition MTIMER_ADD_REGION_ALIGN : Z := 0x1000.
Definition ACLINT_MSWI_ALIGN : Z := 0x1000.
Definition ACLINT_MSWI_SIZE : Z := 0x4000.
Definition ACLINT_MSWI_MAX_HARTS : Z := 4095.
Definition CLINT_MSWI_OFFSET : Z := 0x0000.

(** ** Data *)

(** What [time_rd] and [time_wr] can designate. *)
Inductive time_access : Type := time32 | time64.

Record aclint_mtimer_data : Type := MtimerData {
  mtime_freq : Z;
  mtime_addr : Z;
  mtime_size : Z;
  mtimecmp_addr : Z;
  mtimecmp_size : Z;
  mt_first_hartid : Z;
  mt_hart_count : Z;
  has_64bit_mmio : bool;
  has_shared_mtime : bool;
  time_delta_reference : option nat;
  time_delta_computed : Z;
  time_rd : option time_access;
  time_wr : option time_access;
}.

Definition mt_set_reference r (mt : aclint_mtimer_data) : aclint_mtimer_data :=
  MtimerData (mtime_freq mt) (mtime_addr mt) (mtime_size mt) (mtimecmp_addr mt) (mtimecmp_size mt)
    (mt_first_hartid mt) (mt_hart_count mt) (has_64bit_mmio mt) (has_shared_mtime mt)
    (Some r) 0 (time_rd mt) (time_wr mt).
Definition mt_set_computed c (mt : aclint_mtimer_data) : aclint_mtimer_data :=
  MtimerData (mtime_freq mt) (mtime_addr mt) (mtime_size mt) (mtimecmp_addr mt) (mtimecmp_size mt)
    (mt_first_hartid mt) (mt_hart_count mt) (has_64bit_mmio mt) (has_shared_mtime mt)
    (time_delta_reference mt) c (time_rd mt) (time_wr mt).
Definition mt_set_access a (mt : aclint_mtimer_data) : aclint_mtimer_data :=
  MtimerData (mtime_freq mt) (mtime_addr mt) (mtime_size mt) (mtimecmp_addr mt) (mtimecmp_size mt)
    (mt_first_hartid mt) (mt_hart_count mt) (has_64bit_mmio mt) (has_shared_mtime mt)
    (time_delta_reference mt) (time_delta_computed mt) (Some a) (Some a).
Definition mt_set_freq f (mt : aclint_mtimer_data) : aclint_mtimer_data :=
  MtimerData f (mtime_addr mt) (mtime_size mt) (mtimecmp_addr mt) (mtimecmp_size mt)
    (mt_first_hartid mt) (mt_hart_count mt) (has_64bit_mmio mt) (has_shared_mtime mt)
    (time_delta_reference mt) (time_delta_computed mt) (time_rd mt) (time_wr mt).

Record aclint_mswi_data : Type := MswiData {
  mswi_addr : Z;
  mswi_size : Z;
  mswi_first_hartid : Z;
  mswi_hart_count : Z;
}.

(** The static data of the drivers, beside the rest of the firmware.
    [dr_mtimer_registered]: the timer device of the firmware is [mtimer]. *)
Record drivers (D : Type) : Type := Drivers {
  dr_bus : D;
  dr_machine : machine;
  dr_mtimers : list aclint_mtimer_data;
  mtimer_hartid2data : list (option nat);
  dr_mtimer_registered : bool;
  dr_mswis : list aclint_mswi_data;
  mswi_hartid2data : list (option nat);
}.
Arguments Drivers {D}.
Arguments dr_bus {D}.
Arguments dr_machine {D}.
Arguments dr_mtimers {D}.
Arguments mtimer_hartid2data {D}.
Arguments dr_mtimer_registered {D}.
Arguments dr_mswis {D}.
Arguments mswi_hartid2data {D}.

Section Drivers.
Context {D : Type} `{Bus D} (polls : nat) (plat : option sbi_platform).

Definition set_bus b (s : drivers D) : drivers D :=
  Drivers b (dr_machine s) (dr_mtimers s) (mtimer_hartid2data s) (dr_mtimer_registered s)
    (dr_mswis s) (mswi_hartid2data s).
Definition set_machine m (s : drivers D) : drivers D :=
  Drivers (dr_bus s) m (dr_mtimers s) (mtimer_hartid2data s) (dr_mtimer_registered s)
    (dr_mswis s) (mswi_hartid2data s).
Definition set_mtimers l (s : drivers D) : drivers D :=
  Drivers (dr_bus s) (dr_machine s) l (mtimer_hartid2data s) (dr_mtimer_registered s)
    (dr_mswis s) (mswi_hartid2data s).
Definition set_mtimer_table t (s : drivers D) : drivers D :=
  Drivers (dr_bus s) (dr_machine s) (dr_mtimers s) t (dr_mtimer_registered s)
    (dr_mswis s) (mswi_hartid2data s).
Definition set_mtimer_registered b (s : drivers D) : drivers D :=
  Drivers (dr_bus s) (dr_machine s) (dr_mtimers s) (mtimer_hartid2data s) b
    (dr_mswis s) (mswi_hartid2data s).
Definition set_mswi_table t (s : drivers D) : drivers D :=
  Drivers (dr_bus s) (dr_machine s) (dr_mtimers s) (mtimer_hartid2data s) (dr_mtimer_registered s)
    (dr_mswis s) t.

Definition on_bus {A} (c : M D A) : M (drivers D) A := zoom dr_bus set_bus c.
Definition on_firmware {A} (c : M machine A) : M (drivers D) A := zoom dr_machine set_machine c.

(** The timer object a pointer designates. *)
Definition mtimer_at (p : nat) : M (drivers D) aclint_mtimer_data :=
  λ s, match dr_mtimers s !! p with Some mt => (Ret mt, s) | None => (Stop wild_access, s) end.
Definition upd_mtimer (p : nat) (f : aclint_mtimer_data → aclint_mtimer_data) : M (drivers D) unit :=
  modify (λ s, set_mtimers (alter f p (dr_mtimers s)) s).

(** An entry of the table of timers. *)
Definition mtimer_entry (hartid : Z) : M (drivers D) (option nat) :=
  λ s, match mtimer_hartid2data s !! Z.to_nat hartid with
       | Some e => (Ret e, s)
       | None => (Stop wild_access, s)
       end.

(** ** aclint_mtimer.c *)

Definition mtimer_time_rd64 (addr : Z) : M D Z := readq_relaxed addr.

Definition mtimer_time_wr64 (timecmp : bool) (value addr : Z) : M D unit := writeq_relaxed value addr.

(** The [do ... while (hi != ...)] loop. *)
Fixpoint mtimer_time_rd32 (fuel : nat) (addr : Z) : M D Z :=
  match fuel with
  | O => stop spinning
  | S n =>
      (hi <- readl_relaxed (add64 addr 4) ;;
       lo <- readl_relaxed addr ;;
       hi' <- readl_relaxed (add64 addr 4) ;;
       if hi =? hi' then ret (Z.lor (shl64 hi 32) lo) else mtimer_time_rd32 n addr)%sbi
  end.

Definition mtimer_time_wr32 (timecmp : bool) (value addr : Z) : M D unit :=
  (writel_relaxed (if timecmp then u32 (-1) else 0) addr ;;;
   writel_relaxed (u32 (shr64 value 32)) (add64 addr 4) ;;;
   writel_relaxed (u32 value) addr)%sbi.

(** Calls through the two function pointers. *)
Definition call_time_rd (mt : aclint_mtimer_data) (addr : Z) : M D Z :=
  match time_rd mt with
  | Some time32 => mtimer_time_rd32 polls addr
  | Some time64 => mtimer_time_rd64 addr
  | None => stop wild_access
  end.
Definition call_time_wr (mt : aclint_mtimer_data) (timecmp : bool) (value addr : Z) : M D unit :=
  match time_wr mt with
  | Some time32 => mtimer_time_wr32 timecmp value addr
  | Some time64 => mtimer_time_wr64 timecmp value addr
  | None => stop wild_access
  end.

(** [&time_cmp[target_hart - mt->first_hartid]]. *)
Definition time_cmp_addr (mt : aclint_mtimer_data) (target_hart : Z) : Z :=
  add64 (mtimecmp_addr mt) (8 * u32 (target_hart - mt_first_hartid mt)).

(** The device of a hart, dereferenced. *)
Definition mtimer_of (hartid : Z) : M (drivers D) aclint_mtimer_data :=
  (e <- mtimer_entry hartid ;;
   match e with Some p => mtimer_at p | None => stop wild_access end)%sbi.

Definition mtimer_value (cur : Z) : M (drivers D) Z :=
  (mt <- mtimer_of cur ;; on_bus (call_time_rd mt (mtime_addr mt)))%sbi.

Definition mtimer_event_stop (cur : Z) : M (drivers D) unit :=
  (mt <- mtimer_of cur ;; on_bus (call_time_wr mt true u64_max (time_cmp_addr mt cur)))%sbi.

Definition mtimer_event_start (cur next_event : Z) : M (drivers D) unit :=
  (mt <- mtimer_of cur ;; on_bus (call_time_wr mt true next_event (time_cmp_addr mt cur)))%sbi.

Definition aclint_mtimer_sync (p : nat) : M (drivers D) unit :=
  (mt <- mtimer_at p ;;
   match has_shared_mtime mt, time_delta_reference mt with
   | false, Some rp =>
       reference <- mtimer_at rp ;;
       upd_mtimer p (mt_set_computed 1) ;;;
       if truthy (time_delta_computed mt) then ret tt
       else
         v1 <- on_bus (call_time_rd mt (mtime_addr mt)) ;;
         mv <- on_bus (call_time_rd reference (mtime_addr reference)) ;;
         v2 <- on_bus (call_time_rd mt (mtime_addr mt)) ;;
         let delta := sub64 mv (v1 / 2 + v2 / 2) in
         v <- on_bus (call_time_rd mt (mtime_addr mt)) ;;
         on_bus (call_time_wr mt false (add64 v delta) (mtime_addr mt))
   | _, _ => ret tt
   end)%sbi.

Definition aclint_mtimer_set_reference (mt ref : option nat) : M (drivers D) unit :=
  match mt, ref with
  | Some p, Some r => if decide (p = r) then ret tt else upd_mtimer p (mt_set_reference r)
  | _, _ => ret tt
  end.

Definition aclint_mtimer_warm_init (cur : Z) : M (drivers D) Z :=
  (e <- mtimer_entry cur ;;
   match e with
   | None => ret SBI_ENODEV
   | Some p =>
       aclint_mtimer_sync p ;;;
       mt <- mtimer_at p ;;
       on_bus (call_time_wr mt true u64_max (time_cmp_addr mt cur)) ;;;
       ret 0
   end)%sbi.

Definition add_region (addr size flags : Z) : M (drivers D) Z :=
  on_firmware (zoom m_domains set_m_domains
    (sbi_domain_root_add_memregion plat (Some (sbi_domain_memregion_init addr size flags)))).

(** The size of the next region: up to the next page, at most to the end. *)
Definition region_step (pos end_ : Z) : Z :=
  if truthy (Z.land pos (MTIMER_ADD_REGION_ALIGN - 1)) then shl64 1 (__ffs pos)
  else if sub64 end_ pos <? MTIMER_ADD_REGION_ALIGN then sub64 end_ pos else MTIMER_ADD_REGION_ALIGN.

Fixpoint add_regions_loop (fuel : nat) (pos end_ : Z) : M (drivers D) Z :=
  match fuel with
  | O => stop spinning
  | S n =>
      if pos <? end_ then
        (let rsize := region_step pos end_ in
         rc <- add_region pos rsize SBI_DOMAIN_MEMREGION_MMIO ;;
         if truthy rc then ret rc else add_regions_loop n (add64 pos rsize) end_)%sbi
      else ret 0
  end.

(** Every round moves on by 8 bytes at least when addr and size are multiples
    of 8. *)
Definition aclint_mtimer_add_regions (addr size : Z) : M (drivers D) Z :=
  add_regions_loop (S (Z.to_nat (size / 8))) addr (add64 addr size).

(** Fill a range of a table of 128 entries. *)
Definition table_fill (set : list (option nat) → drivers D → drivers D)
    (get : drivers D → list (option nat)) (p : nat) (first count : Z) : M (drivers D) unit :=
  mfor (seqZ 0 count) (λ i s,
    let k := Z.to_nat (u32 (first + i)) in
    if decide (k < length (get s))%nat then (Ret tt, set (<[k := Some p]> (get s)) s)
    else (Stop wild_access, s)).

Definition mtimer_bad (mt : aclint_mtimer_data) : bool :=
  negb (truthy (mtime_size mt)) || (truthy (mt_hart_count mt) && negb (truthy (mtimecmp_size mt))) ||
  truthy (Z.land (mtime_addr mt) (ACLINT_MTIMER_ALIGN - 1)) ||
  truthy (Z.land (mtime_size mt) (ACLINT_MTIMER_ALIGN - 1)) ||
  truthy (Z.land (mtimecmp_addr mt) (ACLINT_MTIMER_ALIGN - 1)) ||
  truthy (Z.land (mtimecmp_size mt) (ACLINT_MTIMER_ALIGN - 1)) ||
  (SBI_HARTMASK_MAX_BITS <=? mt_first_hartid mt) || (ACLINT_MTIMER_MAX_HARTS <? mt_hart_count mt).

(** [mtimer.timer_freq = f; sbi_timer_set_device(&mtimer);] *)
Definition register_mtimer (f : Z) : M (drivers D) unit :=
  λ s,
    let dev := TimerDevice f true true true in
    if dr_mtimer_registered s then (Ret tt, set_machine (set_timer_dev (Some dev) (dr_machine s)) s)
    else
      let free := match m_timer_dev (dr_machine s) with None => true | Some _ => false end in
      on_firmware (sbi_timer_set_device (Some dev)) (set_mtimer_registered free s).

Definition mtimer_regions (mt : aclint_mtimer_data) : M (drivers D) Z :=
  (if mtime_addr mt =? add64 (mtimecmp_addr mt) (mtimecmp_size mt) then
     aclint_mtimer_add_regions (mtimecmp_addr mt) (add64 (mtime_size mt) (mtimecmp_size mt))
   else if mtimecmp_addr mt =? add64 (mtime_addr mt) (mtime_size mt) then
     aclint_mtimer_add_regions (mtime_addr mt) (add64 (mtime_size mt) (mtimecmp_size mt))
   else
     rc <- aclint_mtimer_add_regions (mtime_addr mt) (mtime_size mt) ;;
     if truthy rc then ret rc
     else aclint_mtimer_add_regions (mtimecmp_addr mt) (mtimecmp_size mt))%sbi.

Definition aclint_mtimer_cold_init (mt reference : option nat) : M (drivers D) Z :=
  (match mt with
   | None => ret SBI_EINVAL
   | Some p =>
       d <- mtimer_at p ;;
       if mtimer_bad d then ret SBI_EINVAL
       else
         other_freq <- match reference with
                       | Some rp => r <- mtimer_at rp ;; ret (negb (mtime_freq d =? mtime_freq r))
                       | None => ret false
                       end ;;
         if other_freq then ret SBI_EINVAL
         else
           aclint_mtimer_set_reference mt reference ;;;
           upd_mtimer p (mt_set_access (if has_64bit_mmio d then time64 else time32)) ;;;
           table_fill set_mtimer_table mtimer_hartid2data p (mt_first_hartid d) (mt_hart_count d) ;;;
           rc <- mtimer_regions d ;;
           if truthy rc then ret rc
           else register_mtimer (mtime_freq d) ;;; ret 0
   end)%sbi.

(** ** aclint_mswi.c *)

Definition mswi_at (p : nat) : M (drivers D) aclint_mswi_data :=
  λ s, match dr_mswis s !! p with Some mswi => (Ret mswi, s) | None => (Stop wild_access, s) end.

(** [&msip[target_hart - mswi->first_hartid]]. *)
Definition msip_addr (mswi : aclint_mswi_data) (target_hart : Z) : Z :=
  add64 (mswi_addr mswi) (4 * u32 (target_hart - mswi_first_hartid mswi)).

Definition mswi_write (val target_hart : Z) : M (drivers D) unit :=
  (if SBI_HARTMASK_MAX_BITS <=? target_hart then ret tt
   else
     e <- gets (λ s, mjoin (mswi_hartid2data s !! Z.to_nat target_hart)) ;;
     match e with
     | None => ret tt
     | Some p => mswi <- mswi_at p ;; on_bus (writel val (msip_addr mswi target_hart))
     end)%sbi.

Definition mswi_ipi_send (target_hart : Z) : M (drivers D) unit := mswi_write 1 target_hart.

Definition mswi_ipi_clear (target_hart : Z) : M (drivers D) unit := mswi_write 0 target_hart.

Definition aclint_mswi_warm_init (cur : Z) : M (drivers D) Z :=
  (mswi_ipi_clear cur ;;; ret 0)%sbi.

Fixpoint mswi_regions_loop (fuel : nat) (mswi : aclint_mswi_data) (pos : Z) : M (drivers D) Z :=
  match fuel with
  | O => stop spinning
  | S n =>
      if pos <? mswi_size mswi then
        (let region_size := if sub64 (mswi_size mswi) pos <? ACLINT_MSWI_ALIGN
                            then sub64 (mswi_size mswi) pos else ACLINT_MSWI_ALIGN in
         rc <- add_region (add64 (mswi_addr mswi) pos) region_size SBI_DOMAIN_MEMREGION_MMIO ;;
         if truthy rc then ret rc else mswi_regions_loop n mswi (add64 pos ACLINT_MSWI_ALIGN))%sbi
      else ret 0
  end.

Definition mswi_bad (mswi : aclint_mswi_data) : bool :=
  truthy (Z.land (mswi_addr mswi) (ACLINT_MSWI_ALIGN - 1)) || (mswi_size mswi <? ACLINT_MSWI_SIZE) ||
  (SBI_HARTMASK_MAX_BITS <=? mswi_first_hartid mswi) || (ACLINT_MSWI_MAX_HARTS <? mswi_hart_count mswi).

Definition aclint_mswi_cold_init (mswi : option nat) : M (drivers D) Z :=
  (match mswi with
   | None => ret SBI_EINVAL
   | Some p =>
       d <- mswi_at p ;;
       if mswi_bad d then ret SBI_EINVAL
       else
         table_fill set_mswi_table mswi_hartid2data p (mswi_first_hartid d) (mswi_hart_count d) ;;;
         rc <- mswi_regions_loop (S (Z.to_nat (mswi_size d / ACLINT_MSWI_ALIGN + 1))) d 0 ;;
         if truthy rc then ret rc
         else on_firmware (sbi_ipi_set_device (Some (IpiDevice true true))) ;;; ret 0
   end)%sbi.

End Drivers.

(** ** The drivers on the CLINT of the SoC *)

(** Driver data that serve the first [n] harts through the CLINT, as the cold
    initialisation leaves them. *)
Record clint_served (n : Z) (s : drivers soc) : Prop := {
  served_clint : clint_of n (soc_clint (dr_bus s));
  served_time : is_u64 (mtime_q (soc_clint (dr_bus s)));
  served_harts : n <= SBI_HARTMASK_MAX_BITS;
  served_mtimer : forall h, 0 <= h < n -> exists p mt,
    mtimer_hartid2data s !! Z.to_nat h = Some (Some p) /\ dr_mtimers s !! p = Some mt /\
    mtimecmp_addr mt = CLINTBase + MTIMECMP_BASE /\ mtime_addr mt = CLINTBase + MTIME_BASE /\
    mt_first_hartid mt = 0 /\ time_rd mt = Some time64 /\ time_wr mt = Some time64;
  served_mswi : forall h, 0 <= h < n -> exists p w,
    mswi_hartid2data s !! Z.to_nat h = Some (Some p) /\ dr_mswis s !! p = Some w /\
    mswi_addr w = CLINTBase /\ mswi_first_hartid w = 0;
}.

(** What the drivers do for one recorded effect. *)
Definition drive_event (e : event) : M (drivers soc) unit :=
  match e with
  | EvIpiSend target => mswi_ipi_send target
  | EvIpiClear target => mswi_ipi_clear target
  | EvTimerStart hart deadline => mtimer_event_start hart deadline
  | EvTimerStop hart => mtimer_event_stop hart
  | _ => ret tt
  end.

Definition event_for (n : Z) (e : event) : Prop :=
  match e with
  | EvIpiSend h | EvIpiClear h | EvTimerStop h => 0 <= h < n
  | EvTimerStart h deadline => 0 <= h < n /\ is_u64 deadline
  | _ => True
  end.

(** The state of the wires of hart [h] after a trace: whether its software
    interrupt is raised, and its deadline. *)
Definition ipi_after (h : Z) (e : event) (b : bool) : bool :=
  match e with
  | EvIpiSend t => if t =? h then true else b
  | EvIpiClear t => if t =? h then false else b
  | _ => b
  end.
Definition deadline_after (h : Z) (e : event) (d : Z) : Z :=
  match e with
  | EvTimerStart t deadline => if t =? h then deadline else d
  | EvTimerStop t => if t =? h then u64_max else d
  | _ => d
  end.

Definition deadline_of (c : clint) (h : Z) : Z := default 0 (mtimecmp_q c !! Z.to_nat h).

Lemma timer_irq_deadline n c h k :
  clint_of n c -> 0 <= h < n -> is_u64 (mtime_q c) ->
  timer_irq_o (clint_ticks k c) h = (deadline_of c h <=? u64 (mtime_q c + Z.of_nat k)).
Proof.
  intros (Hn & _ & Hl) Hh Ht. unfold timer_irq_o, deadline_of.
  destruct (clint_ticks_regs k c) as [-> _]. rewrite clint_ticks_mtime by done.
  destruct (mtimecmp_q c !! Z.to_nat h) eqn:E; [done|]. apply lookup_ge_None in E. lia.
Qed.

Lemma served_put n s c k w i :
  clint_served n s -> clint_of n c -> is_u64 (mtime_q c) ->
  clint_served n (set_bus (Soc c w (S k) (soc_ticks (dr_bus s)) i) s).
Proof. intros [H1 H2 H3 H4 H5] Hc Ht. by split. Qed.

(** The bus state after one store to the CLINT. *)
Definition soc_after (f : clint → clint) (b : soc) : soc :=
  Soc (f (clint_ticks (soc_ticks b (soc_count b)) (soc_clint b))) (soc_writes b) (S (soc_count b))
    (soc_ticks b) (soc_input b).

Lemma mtimecmp_store n s h v mt :
  clint_of n (soc_clint (dr_bus s)) -> 0 <= h < n -> is_u64 v ->
  mtimecmp_addr mt = CLINTBase + MTIMECMP_BASE -> mt_first_hartid mt = 0 -> time_wr mt = Some time64 ->
  on_bus (call_time_wr mt true v (time_cmp_addr mt h)) s =
  (Ret tt, set_bus (soc_after (λ c, Clint (mtime_q c) (<[Z.to_nat h := v]> (mtimecmp_q c)) (msip_q c))
                     (dr_bus s)) s).
Proof.
  intros Hc Hh Hv Ha Hf Hw. destruct (Hc) as (Hn & _).
  unfold on_bus, zoom, call_time_wr. rewrite Hw. unfold mtimer_time_wr64, writeq_relaxed, __raw_writeq, mmio_write.
  cbn [bus_write soc_bus]. unfold soc_write, time_cmp_addr. rewrite Ha, Hf, Z.sub_0_r.
  unfold u32. rewrite (Z.mod_small h) by lia.
  unfold add64. rewrite u64_small by (unfold is_u64, CLINTBase, MTIMECMP_BASE; lia).
  rewrite <- Z.add_assoc at 1. rewrite soc_decodes_clint by (unfold MTIMECMP_BASE; lia).
  change (8 =? 4) with false. cbv iota.
  rewrite (mtimecmp_write n) by (done || by apply clint_ticks_of). done.
Qed.

Lemma msip_store n s h b w :
  clint_of n (soc_clint (dr_bus s)) -> 0 <= h < n ->
  mswi_addr w = CLINTBase -> mswi_first_hartid w = 0 ->
  on_bus (writel (Z.b2z b) (msip_addr w h)) s =
  (Ret tt, set_bus (soc_after (λ c, Clint (mtime_q c) (mtimecmp_q c) (<[Z.to_nat h := b]> (msip_q c)))
                     (dr_bus s)) s).
Proof.
  intros Hc Hh Ha Hf. destruct (Hc) as (Hn & _).
  unfold on_bus, zoom, writel, __raw_writel, mmio_write.
  cbn [bus_write soc_bus]. unfold soc_write, msip_addr. rewrite Ha, Hf, Z.sub_0_r.
  unfold u32. rewrite (Z.mod_small h) by lia.
  unfold add64. rewrite u64_small by (unfold is_u64, CLINTBase; lia).
  rewrite soc_decodes_clint by lia. change (4 =? 4) with true. cbv iota.
  rewrite (msip_write n) by (done || by apply clint_ticks_of).
  replace (Z.testbit (Z.b2z b) 0) with b by (by destruct b). done.
Qed.

Lemma soc_after_served n s f :
  clint_served n s ->
  (forall c, clint_of n c -> clint_of n (f c) /\ mtime_q (f c) = mtime_q c) ->
  clint_served n (set_bus (soc_after f (dr_bus s)) s).
Proof.
  intros S Hf. destruct (S) as [H1 H2 H3 H4 H5].
  destruct (Hf (clint_ticks (soc_ticks (dr_bus s) (soc_count (dr_bus s))) (soc_clint (dr_bus s)))) as [A B].
  { by apply clint_ticks_of. }
  split; cbn [dr_bus set_bus soc_after soc_clint]; [done| |done|done|done].
  rewrite B, clint_ticks_mtime by done. apply u64_range.
Qed.

(** A store that changes the register arrays with [fc] and [fm]. *)
Lemma soc_after_regs n s fc fm :
  clint_served n s ->
  (forall l, length (fc l) = length l) -> (forall l, length (fm l) = length l) ->
  let b := soc_after (λ c, Clint (mtime_q c) (fc (mtimecmp_q c)) (fm (msip_q c))) (dr_bus s) in
  clint_served n (set_bus b s) /\
  mtimecmp_q (soc_clint b) = fc (mtimecmp_q (soc_clint (dr_bus s))) /\
  msip_q (soc_clint b) = fm (msip_q (soc_clint (dr_bus s))).
Proof.
  intros S Hc Hm. cbv zeta. split.
  - apply soc_after_served; [done|]. intros c (C1 & C2 & C3). split; [|done].
    split; [done|]. cbn. by rewrite Hc, Hm.
  - cbn [soc_after soc_clint mtimecmp_q msip_q].
    by destruct (clint_ticks_regs (soc_ticks (dr_bus s) (soc_count (dr_bus s))) (soc_clint (dr_bus s)))
      as [-> ->].
Qed.

Lemma insert_lookup_if {A} (l : list A) (t h : Z) (v : A) :
  0 <= t -> 0 <= h < Z.of_nat (length l) ->
  <[Z.to_nat t := v]> l !! Z.to_nat h = if t =? h then Some v else l !! Z.to_nat h.
Proof.
  intros Ht Hh. destruct (Z.eqb_spec t h) as [->|Hne].
  - apply list_lookup_insert_eq. lia.
  - apply list_lookup_insert_ne. lia.
Qed.

Lemma deadline_effect n s t v mt :
  clint_served n s -> 0 <= t < n -> is_u64 v ->
  mtimecmp_addr mt = CLINTBase + MTIMECMP_BASE -> mt_first_hartid mt = 0 -> time_wr mt = Some time64 ->
  exists s', on_bus (call_time_wr mt true v (time_cmp_addr mt t)) s = (Ret tt, s') /\ clint_served n s' /\
    forall h, 0 <= h < n ->
      ipi_o (soc_clint (dr_bus s')) h = ipi_o (soc_clint (dr_bus s)) h /\
      deadline_of (soc_clint (dr_bus s')) h = if t =? h then v else deadline_of (soc_clint (dr_bus s)) h.
Proof.
  intros S Ht Hv Ha Hf Hw. destruct (served_clint _ _ S) as (C1 & C2 & C3).
  rewrite (mtimecmp_store n) by (done || apply S). eexists. split; [reflexivity|].
  destruct (soc_after_regs n s (λ l, <[Z.to_nat t := v]> l) id S) as (S' & E1 & E2);
    [intros l; apply length_insert|done|].
  unfold id in *. split; [exact S'|]. intros h Hh. cbn [dr_bus set_bus]. unfold ipi_o, deadline_of.
  rewrite E1, E2, insert_lookup_if by lia. split; [done|]. by destruct (t =? h).
Qed.

Lemma ipi_effect n s t b :
  clint_served n s -> 0 <= t < n ->
  exists s', mswi_write (Z.b2z b) t s = (Ret tt, s') /\ clint_served n s' /\
    forall h, 0 <= h < n ->
      ipi_o (soc_clint (dr_bus s')) h = (if t =? h then b else ipi_o (soc_clint (dr_bus s)) h) /\
      deadline_of (soc_clint (dr_bus s')) h = deadline_of (soc_clint (dr_bus s)) h.
Proof.
  intros S Ht. destruct (served_clint _ _ S) as (C1 & C2 & C3).
  destruct (served_mswi _ _ S t Ht) as (p & w & E1 & E2 & Ha & Hf).
  assert (Hn := served_harts _ _ S). unfold mswi_write.
  rewrite (proj2 (Z.leb_gt SBI_HARTMASK_MAX_BITS t)) by lia.
  rewrite bind_gets, E1. cbn [mjoin option_join].
  erewrite bind_Ret by (unfold mswi_at; by rewrite E2).
  rewrite (msip_store n) by (done || apply S). eexists. split; [reflexivity|].
  destruct (soc_after_regs n s id (λ l, <[Z.to_nat t := b]> l) S) as (S' & F1 & F2);
    [done|intros l; apply length_insert|].
  unfold id in *. split; [exact S'|]. intros h Hh. cbn [dr_bus set_bus]. unfold ipi_o, deadline_of.
  rewrite F1, F2, insert_lookup_if by lia. split; [|done]. by destruct (t =? h).
Qed.

Lemma mtimer_of_served n s t :
  clint_served n s -> 0 <= t < n ->
  exists mt, mtimer_of t s = (Ret mt, s) /\
    mtimecmp_addr mt = CLINTBase + MTIMECMP_BASE /\ mtime_addr mt = CLINTBase + MTIME_BASE /\
    mt_first_hartid mt = 0 /\ time_rd mt = Some time64 /\ time_wr mt = Some time64.
Proof.
  intros S Ht. destruct (served_mtimer _ _ S t Ht) as (p & mt & E1 & E2 & H). exists mt. split; [|exact H].
  unfold mtimer_of. erewrite bind_Ret by (unfold mtimer_entry; by rewrite E1).
  unfold mtimer_at. by rewrite E2.
Qed.

Lemma drive_event_spec n s e :
  clint_served n s -> event_for n e ->
  exists s', drive_event e s = (Ret tt, s') /\ clint_served n s' /\
    forall h, 0 <= h < n ->
      ipi_o (soc_clint (dr_bus s')) h = ipi_after h e (ipi_o (soc_clint (dr_bus s)) h) /\
      deadline_of (soc_clint (dr_bus s')) h = deadline_after h e (deadline_of (soc_clint (dr_bus s)) h).
Proof.
  intros S He.
  destruct e as [hf f|t|t|a b|a b|a|t d|t]; cbn [event_for] in He; cbn [drive_event ipi_after deadline_after];
    try (eexists; split; [reflexivity|]; by split).
  - apply (ipi_effect n s t true S He).
  - apply (ipi_effect n s t false S He).
  - destruct He as [Hr Hd]. destruct (mtimer_of_served n s t S Hr) as (mt & E & Ha & _ & Hf & _ & Hw).
    unfold mtimer_event_start. erewrite bind_Ret by exact E. by apply deadline_effect.
  - destruct (mtimer_of_served n s t S He) as (mt & E & Ha & _ & Hf & _ & Hw).
    unfold mtimer_event_stop. erewrite bind_Ret by exact E.
    by apply deadline_effect.
Qed.

(** Running the drivers over a trace. *)
Lemma drive_trace_spec n tr s :
  clint_served n s -> Forall (event_for n) tr ->
  exists s', mfor tr drive_event s = (Ret tt, s') /\ clint_served n s' /\
    forall h, 0 <= h < n ->
      ipi_o (soc_clint (dr_bus s')) h =
        foldl (λ b e, ipi_after h e b) (ipi_o (soc_clint (dr_bus s)) h) tr /\
      deadline_of (soc_clint (dr_bus s')) h =
        foldl (λ d e, deadline_after h e d) (deadline_of (soc_clint (dr_bus s)) h) tr.
Proof.
  intros S Htr. revert s S. induction Htr as [|e tr He Htr IH]; intros s S.
  - exists s. by split.
  - destruct (drive_event_spec n s e S He) as (s1 & E & S1 & H1).
    destruct (IH s1 S1) as (s2 & E2 & S2 & H2). exists s2. split; [|split; [done|]].
    + cbn [mfor]. by erewrite bind_Ret by exact E.
    + intros h Hh. destruct (H1 h Hh) as [A1 A2]. destruct (H2 h Hh) as [B1 B2].
      cbn [foldl]. by rewrite <- A1, <- A2.
Qed.

(** ** The clock in two halves *)

(** A device whose 64-bit clock is read in 32-bit halves at [addr] and
    [addr + 4]: each access takes some time, less than 2^29 ticks. *)
Class HalfClock (D : Type) `{Bus D} (addr : Z) : Type := {
  clock : D → Z;
  clock_range : forall d, is_u64 (clock d);
  clock_low : forall d, fst (bus_read 4 addr d) mod 2 ^ 32 = clock d mod 2 ^ 32;
  clock_high : forall d, fst (bus_read 4 (add64 addr 4) d) mod 2 ^ 32 = clock d / 2 ^ 32;
  clock_runs : forall a d, clock d <= clock (snd (bus_read 4 a d)) < clock d + 2 ^ 29;
}.

Section HalfClock.
Context {D : Type} `{HalfClock D addr}.

Lemma readl_run a (d : D) :
  readl_relaxed a d = (Ret (fst (bus_read 4 a d) mod 2 ^ 32), snd (bus_read 4 a d)).
Proof. unfold readl_relaxed, __raw_readl, mmio_read. by destruct (bus_read 4 a d). Qed.

Lemma halves_join x y : is_u64 x -> x / 2 ^ 32 = y -> Z.lor (shl64 y 32) (x mod 2 ^ 32) = x.
Proof.
  intros Hx <-. unfold is_u64 in Hx. unfold shl64. change (32 mod 64) with 32.
  rewrite Z.shiftl_mul_pow2 by lia.
  assert (Hm : 0 <= x mod 2 ^ 32 < 2 ^ 32) by (apply Z.mod_pos_bound; lia).
  assert (Hd := Z.div_mod x (2 ^ 32) ltac:(lia)).
  rewrite u64_small by (unfold is_u64; lia).
  rewrite lor_low by lia. lia.
Qed.

End HalfClock.

Section ReadHalves.
Context {D : Type} {B : Bus D} {addr : Z} {C : HalfClock D addr}.

(** One round of the loop: when the two high halves agree, the result is what
    the clock was at the low read. *)
Lemma rd32_round n (d : D) :
  let d1 := snd (bus_read 4 (add64 addr 4) d) in
  let d2 := snd (bus_read 4 addr d1) in
  let d3 := snd (bus_read 4 (add64 addr 4) d2) in
  mtimer_time_rd32 (S n) addr d =
  if clock d / 2 ^ 32 =? clock d2 / 2 ^ 32 then (Ret (clock d1), d3) else mtimer_time_rd32 n addr d3.
Proof.
  cbv zeta. cbn [mtimer_time_rd32].
  set (d1 := snd (bus_read 4 (add64 addr 4) d)). set (d2 := snd (bus_read 4 addr d1)).
  set (d3 := snd (bus_read 4 (add64 addr 4) d2)).
  erewrite bind_Ret by apply readl_run. erewrite bind_Ret by apply readl_run.
  erewrite bind_Ret by apply readl_run. fold d1. fold d2. fold d3.
  rewrite !clock_high, clock_low. destruct (Z.eqb_spec (clock d / 2 ^ 32) (clock d2 / 2 ^ 32)) as [E|E]; [|done].
  assert (R1 := clock_runs (add64 addr 4) d). assert (R2 := clock_runs addr d1). fold d1 in R1. fold d2 in R2.
  unfold ret. rewrite halves_join; [done|apply clock_range|].
  assert (clock d / 2 ^ 32 <= clock d1 / 2 ^ 32) by (apply Z.div_le_mono; lia).
  assert (clock d1 / 2 ^ 32 <= clock d2 / 2 ^ 32) by (apply Z.div_le_mono; lia). lia.
Qed.

Lemma rd32_between n (d : D) :
  (2 <= n)%nat ->
  exists v d', mtimer_time_rd32 n addr d = (Ret v, d') /\ clock d <= v <= clock d'.
Proof.
  intros Hn. destruct n as [|[|n]]; [lia|lia|]. rewrite rd32_round.
  set (d1 := snd (bus_read 4 (add64 addr 4) d)). set (d2 := snd (bus_read 4 addr d1)).
  set (d3 := snd (bus_read 4 (add64 addr 4) d2)).
  assert (R1 := clock_runs (add64 addr 4) d). assert (R2 := clock_runs addr d1).
  assert (R3 := clock_runs (add64 addr 4) d2). fold d1 in R1. fold d2 in R2. fold d3 in R3.
  destruct (Z.eqb_spec (clock d / 2 ^ 32) (clock d2 / 2 ^ 32)) as [E|E]; [eexists _, _; split; [done|lia]|].
  rewrite rd32_round.
  set (d4 := snd (bus_read 4 (add64 addr 4) d3)). set (d5 := snd (bus_read 4 addr d4)).
  set (d6 := snd (bus_read 4 (add64 addr 4) d5)).
  assert (R4 := clock_runs (add64 addr 4) d3). assert (R5 := clock_runs addr d4).
  assert (R6 := clock_runs (add64 addr 4) d5). fold d4 in R4. fold d5 in R5. fold d6 in R6.
  destruct (Z.eqb_spec (clock d3 / 2 ^ 32) (clock d5 / 2 ^ 32)) as [E'|E']; [eexists _, _; split; [done|lia]|].
  exfalso. assert (P := Z.div_mod (clock d) (2 ^ 32)). assert (P2 := Z.div_mod (clock d2) (2 ^ 32)).
  assert (P3 := Z.div_mod (clock d3) (2 ^ 32)). assert (P5 := Z.div_mod (clock d5) (2 ^ 32)).
  assert (M0 := Z.mod_pos_bound (clock d) (2 ^ 32)). assert (M2 := Z.mod_pos_bound (clock d2) (2 ^ 32)).
  assert (M3 := Z.mod_pos_bound (clock d3) (2 ^ 32)). assert (M5 := Z.mod_pos_bound (clock d5) (2 ^ 32)).
  lia.
Qed.

End ReadHalves.

(** A 64-bit compare register written in 32-bit halves. *)
Class HalfCompare (D : Type) `{Bus D} (addr : Z) : Type := {
  compare : D → Z;
  compare_range : forall d, is_u64 (compare d);
  compare_low : forall v d, compare (bus_write 4 addr v d) = compare d / 2 ^ 32 * 2 ^ 32 + v mod 2 ^ 32;
  compare_high : forall v d,
    compare (bus_write 4 (add64 addr 4) v d) = v mod 2 ^ 32 * 2 ^ 32 + compare d mod 2 ^ 32;
}.

(** ** Concrete half-width devices *)

(** A clock that advances by one at every read, up to its last value. *)
Definition tick_clock (d : Z) : Z := Z.max 0 (Z.min d u64_max).
#[export] Instance tick_bus : Bus Z := {|
  bus_read _ a d := (if a =? 0x1000 then tick_clock d mod 2 ^ 32 else tick_clock d / 2 ^ 32, d + 1);
  bus_write _ _ _ d := d |}.

#[export] Instance tick_half_clock : HalfClock Z 0x1000.
Proof.
  refine {| clock := tick_clock |}; unfold tick_clock, is_u64, u64_max; intros; cbn [bus_read tick_bus fst snd].
  - lia.
  - change (0x1000 =? 0x1000) with true. cbv iota. apply Zmod_mod.
  - change (add64 0x1000 4 =? 0x1000) with false. cbv iota. unfold tick_clock, u64_max. apply Z.mod_small.
    split; [apply Z.div_pos; lia|apply Z.div_lt_upper_bound; lia].
  - lia.
Defined.

(** A pair of 32-bit registers at 0x4000 and 0x4004. *)
Record halves : Type := Halves { half_low : Z; half_high : Z }.
#[export] Instance halves_bus : Bus halves := {|
  bus_read _ a d := (if a =? 0x4000 then half_low d else half_high d, d);
  bus_write _ a v d := if a =? 0x4000 then Halves v (half_high d) else Halves (half_low d) v |}.

#[export] Instance halves_compare : HalfCompare halves 0x4000.
Proof.
  refine {| compare d := half_high d mod 2 ^ 32 * 2 ^ 32 + half_low d mod 2 ^ 32 |};
    intros; cbn [bus_write halves_bus].
  - unfold is_u64. assert (H1 := Z.mod_pos_bound (half_low d) (2 ^ 32)).
    assert (H2 := Z.mod_pos_bound (half_high d) (2 ^ 32)). lia.
  - change (0x4000 =? 0x4000) with true. cbn [half_low half_high].
    rewrite Z.div_add_l, (Z.div_small (half_low d mod _)) by (try apply Z.mod_pos_bound; lia). lia.
  - change (add64 0x4000 4 =? 0x4000) with false. cbn [half_low half_high].
    rewrite (Z.add_comm (half_high d mod _ * _)), Z_mod_plus_full, Zmod_mod. done.
Defined.

(** ** Properties *)

(** The clock of an ACLINT timer without 64-bit access, read in two halves
    while it runs: the loop ends after at most two rounds, and its result lies
    between the value the clock had at the call and the one it has at the
    return, also when the low half wraps around in between. *)
Theorem mtimer_halves_read_clock (D : Type) `{HalfClock D addr} fuel (d : D) :
  (2 <= fuel)%nat ->
  exists v d', mtimer_time_rd32 fuel addr d = (Ret v, d') /\ clock d <= v <= clock d'.
Proof. apply rd32_between. Qed.

Lemma mtimer_halves_read_clock_witness :
  mtimer_time_rd32 2 0x1000 (2 ^ 33 - 2) = (Ret (2 ^ 33 + 2), 2 ^ 33 + 4) /\
  exists v d', mtimer_time_rd32 2 0x1000 (2 ^ 33 - 2) = (Ret v, d') /\
               clock (2 ^ 33 - 2) <= v <= clock d'.
Proof.
  split; [vm_compute; reflexivity|].
  apply (mtimer_halves_read_clock Z 2 (2 ^ 33 - 2)). lia.
Defined.

(** Programming a deadline in two halves: the three writes of
    mtimer_time_wr32 leave the compare register at the new deadline, and at no
    moment in between is the timer interrupt pending at a time at which neither
    the old nor the new deadline has passed. *)
Theorem mtimer_halves_no_early_interrupt (D : Type) `{HalfCompare D addr} value (d : D) :
  is_u64 value ->
  exists d1 d2 d3,
    d1 = bus_write 4 addr (u32 (-1)) d /\ d2 = bus_write 4 (add64 addr 4) (u32 (shr64 value 32)) d1 /\
    mtimer_time_wr32 true value addr d = (Ret tt, d3) /\ compare d3 = value /\
    forall time, compare d1 <= time \/ compare d2 <= time -> compare d <= time \/ value <= time.
Proof.
  intros Hv. eexists _, _, _. split; [reflexivity|]. split; [reflexivity|]. split; [reflexivity|].
  assert (Hc := compare_range d). unfold is_u64 in *.
  assert (Dv := Z.div_mod value (2 ^ 32)). assert (Mv := Z.mod_pos_bound value (2 ^ 32)).
  assert (Dc := Z.div_mod (compare d) (2 ^ 32)). assert (Mc := Z.mod_pos_bound (compare d) (2 ^ 32)).
  assert (Hh : u32 (shr64 value 32) = value / 2 ^ 32).
  { unfold u32, shr64. change (32 mod 64) with 32. rewrite Z.shiftr_div_pow2 by lia. apply Z.mod_small.
    split; [apply Z.div_pos; lia|apply Z.div_lt_upper_bound; lia]. }
  assert (Hb : 0 <= value / 2 ^ 32 < 2 ^ 32) by (split; [apply Z.div_pos; lia|apply Z.div_lt_upper_bound; lia]).
  rewrite !compare_low, !compare_high, Hh. rewrite compare_low.
  change (u32 (-1) mod 2 ^ 32) with (2 ^ 32 - 1).
  rewrite (Z.mod_small (value / 2 ^ 32)) by lia.
  assert (E1 : (compare d / 2 ^ 32 * 2 ^ 32 + (2 ^ 32 - 1)) mod 2 ^ 32 = 2 ^ 32 - 1).
  { rewrite Z.add_comm, Z_mod_plus_full. by apply Z.mod_small. }
  rewrite E1. split.
  - rewrite Z.div_add_l, (Z.div_small (2 ^ 32 - 1)) by lia. unfold u32. rewrite Zmod_mod. lia.
  - lia.
Qed.

Lemma mtimer_halves_no_early_interrupt_witness :
  let d := Halves 0x10 0x1 in
  exists d1 d2 d3,
    d1 = bus_write 4 0x4000 (u32 (-1)) d /\ d2 = bus_write 4 (add64 0x4000 4) (u32 (shr64 0x200000005 32)) d1 /\
    mtimer_time_wr32 true 0x200000005 0x4000 d = (Ret tt, d3) /\ compare d3 = 0x200000005 /\
    forall time, compare d1 <= time \/ compare d2 <= time -> compare d <= time \/ 0x200000005 <= time.
Proof. intros d. apply (mtimer_halves_no_early_interrupt halves 0x200000005 d). unfold is_u64. lia. Defined.

(** [C23] The drivers implement, on the CLINT of the SoC, the device effects the
    firmware's model records.  Running mswi_ipi_send, mswi_ipi_clear,
    mtimer_event_start and mtimer_event_stop for any trace, with the timer
    ticking in between, returns and leaves the software interrupt wire of each
    hart as its last send or clear says, and its timer interrupt wire, now and
    after any number of further ticks, raised exactly when the time has reached
    the last deadline programmed for it. *)
Theorem clint_drivers_refine_trace n tr s :
  clint_served n s -> Forall (event_for n) tr ->
  exists s', mfor tr drive_event s = (Ret tt, s') /\
    forall h, 0 <= h < n ->
      let c := soc_clint (dr_bus s') in
      let deadline := foldl (λ d e, deadline_after h e d) (deadline_of (soc_clint (dr_bus s)) h) tr in
      ipi_o c h = foldl (λ b e, ipi_after h e b) (ipi_o (soc_clint (dr_bus s)) h) tr /\
      forall k, timer_irq_o (clint_ticks k c) h = (deadline <=? u64 (mtime_q c + Z.of_nat k)).
Proof.
  intros S Htr. destruct (drive_trace_spec n tr s S Htr) as (s' & E & S' & H). exists s'. split; [done|].
  intros h Hh c deadline. destruct (H h Hh) as [H1 H2]. split; [exact H1|]. intros k.
  rewrite (timer_irq_deadline n) by (done || apply S'). unfold deadline, c. by rewrite H2.
Qed.

(** Drivers that serve the two harts of the SoC, the timer ticking three times
    before each access. *)
Definition two_harts : drivers soc :=
  Drivers (Soc (Clint 100 [0; 0] [true; false]) [] 0 (λ _, 3%nat) (λ _ _, 0)) demo_machine
    [MtimerData 1000000 (CLINTBase + MTIME_BASE) 8 (CLINTBase + MTIMECMP_BASE) 0x7ff8 0 2 true false
       None 0 (Some time64) (Some time64)]
    (replicate 2 (Some 0%nat) ++ replicate 126 None) true
    [MswiData CLINTBase 0x4000 0 2] (replicate 2 (Some 0%nat) ++ replicate 126 None).

Lemma two_harts_served : clint_served 2 two_harts.
Proof.
  split.
  - split; [lia|done].
  - vm_compute. by split.
  - unfold SBI_HARTMASK_MAX_BITS. lia.
  - intros h Hh. eexists 0%nat, _. split; [|done]. assert (Hc : h = 0 \/ h = 1) by lia. by destruct Hc as [->| ->].
  - intros h Hh. eexists 0%nat, _. split; [|done]. assert (Hc : h = 0 \/ h = 1) by lia. by destruct Hc as [->| ->].
Qed.

Lemma clint_drivers_refine_trace_witness :
  let tr := [EvIpiClear 0; EvTimerStart 1 500; EvIpiSend 1; EvTimerStop 0] in
  exists s', mfor tr drive_event two_harts = (Ret tt, s') /\
    forall h, 0 <= h < 2 ->
      let c := soc_clint (dr_bus s') in
      let deadline := foldl (λ d e, deadline_after h e d) (deadline_of (soc_clint (dr_bus two_harts)) h) tr in
      ipi_o c h = foldl (λ b e, ipi_after h e b) (ipi_o (soc_clint (dr_bus two_harts)) h) tr /\
      forall k, timer_irq_o (clint_ticks k c) h = (deadline <=? u64 (mtime_q c + Z.of_nat k)).
Proof.
  intros tr. apply (clint_drivers_refine_trace 2 tr two_harts two_harts_served).
  unfold tr. repeat constructor; try lia; unfold is_u64; lia.
Defined.

(** The value a hart reads is what the clock of the CLINT is at the read. *)
Theorem mtimer_value_reads_clock polls n s h :
  clint_served n s -> 0 <= h < n ->
  exists s', mtimer_value polls h s = (Ret (mtime_q (soc_clint (dr_bus s'))), s') /\ clint_served n s'.
Proof.
  intros S Hh. destruct (mtimer_of_served n s h S Hh) as (mt & E & _ & Ha & _ & Hr & _).
  assert (Hc := served_clint _ _ S). assert (Ht := served_time _ _ S).
  unfold mtimer_value. erewrite bind_Ret by exact E. unfold on_bus, zoom, call_time_rd. rewrite Hr, Ha.
  unfold mtimer_time_rd64, readq_relaxed, __raw_readq, mmio_read. cbn [bus_read soc_bus]. unfold soc_read.
  rewrite soc_decodes_clint by (unfold MTIME_BASE; lia).
  set (c := clint_ticks _ _). assert (Hc' : clint_of n c) by by apply clint_ticks_of.
  assert (Ht' : is_u64 (mtime_q c)) by (unfold c; rewrite clint_ticks_mtime by done; apply u64_range).
  exists (set_bus (Soc c (soc_writes (dr_bus s)) (Datatypes.S (soc_count (dr_bus s)))
                    (soc_ticks (dr_bus s)) (soc_input (dr_bus s))) s). split.
  - cbv beta iota. rewrite (mtime_read n) by done. by rewrite (Z.mod_small (mtime_q c)) by exact Ht'.
  - by apply served_put.
Qed.

(** The sanity checks bound the first hart id and the number of harts one by
    one, not their sum: the table of 128 entries is overrun. *)
Theorem mswi_table_overrun :
  fst (aclint_mswi_cold_init None (Some 0%nat)
         (Drivers (dr_bus two_harts) demo_machine [] (replicate 128 None) false
            [MswiData CLINTBase 0x4000 127 2] (replicate 128 None))) = Stop wild_access.
Proof. vm_compute. reflexivity. Qed.

Theorem mtimer_table_overrun :
  fst (aclint_mtimer_cold_init None (Some 0%nat) None
         (Drivers (dr_bus two_harts) demo_machine
            [MtimerData 1000000 (CLINTBase + MTIME_BASE) 8 (CLINTBase + MTIMECMP_BASE) 0x7ff8 127 2
               true false None 0 None None] (replicate 128 None) false [] (replicate 128 None))) =
  Stop wild_access.
Proof. vm_compute. reflexivity. Qed.
