(* ===== verification/Plic.v ===== *)
(** * The interrupt controller

    Models lib/utils/irqchip/plic.c and, from the hardware side, the registers
    and the interrupt decision of src/modules/cva6/corev_apu/rv_plic
    (plic_regmap.sv, plic_top.sv, rv_plic_target.sv) with the parameters of the
    SoC: 30 sources, 4 contexts, 3 bits of priority.

    The driver writes words; the registers of the controller are what the
    recorded writes of the bus leave.  The theorems: after the initialisation
    none of the two contexts of a hart is interrupted, whatever is pending; and
    the threshold the driver writes to mask a context masks nothing on this
    controller, whose comparison wraps. *)

From Stdlib Require Import ZArith Lia.
From stdpp Require Import base tactics list numbers.
From S2P Require Import Prelude SbiDefs Mmio.

Definition PLIC_PRIORITY_BASE : Z := 0x0.
Definition PLIC_PENDING_BASE : Z := 0x1000.
Definition PLIC_ENABLE_BASE : Z := 0x2000.
Definition PLIC_ENABLE_STRIDE : Z := 0x80.
Definition PLIC_CONTEXT_BASE : Z := 0x200000.
Definition PLIC_CONTEXT_STRIDE : Z := 0x1000.

Record plic_data : Type := PlicData {
  plic_addr : Z;
  num_src : Z;
}.

(** ** plic.c *)

Section Driver.
Context {D : Type} `{Bus D}.

Definition plic_set_priority (plic : plic_data) (source val : Z) : M D unit :=
  writel val (add64 (add64 (plic_addr plic) PLIC_PRIORITY_BASE) (u32 (4 * source))).

Definition plic_set_thresh (plic : option plic_data) (cntxid val : Z) : M D unit :=
  match plic with
  | None => ret tt
  | Some plic =>
      writel val (add64 (add64 (plic_addr plic) PLIC_CONTEXT_BASE) (u32 (PLIC_CONTEXT_STRIDE * cntxid)))
  end.

Definition plic_set_ie (plic : option plic_data) (cntxid word_index val : Z) : M D unit :=
  match plic with
  | None => ret tt
  | Some plic =>
      writel val (add64 (add64 (add64 (plic_addr plic) PLIC_ENABLE_BASE)
                           (u32 (PLIC_ENABLE_STRIDE * cntxid))) (u32 (word_index * 4)))
  end.

(** [if (cntx > -1) for (i = 0; i < ie_words; i++) plic_set_ie(..)]. *)
Definition set_ie_words (plic : option plic_data) (cntx ie_words val : Z) : M D unit :=
  if -1 <? cntx then mfor (seqZ 0 ie_words) (λ i, plic_set_ie plic cntx (u32 i) val) else ret tt.

Definition set_thresh_if (plic : option plic_data) (cntx val : Z) : M D unit :=
  if -1 <? cntx then plic_set_thresh plic cntx val else ret tt.

Definition plic_warm_irqchip_init (plic : option plic_data) (m_cntx_id s_cntx_id : Z) : M D Z :=
  (match plic with
   | None => ret SBI_EINVAL
   | Some p =>
       let ie_words := num_src p / 32 + 1 in
       set_ie_words plic m_cntx_id ie_words 0 ;;;
       set_ie_words plic s_cntx_id ie_words 0 ;;;
       set_thresh_if plic m_cntx_id 0x7 ;;;
       set_thresh_if plic s_cntx_id 0x7 ;;;
       ret 0
   end)%sbi.

Definition plic_cold_irqchip_init (plic : option plic_data) : M D Z :=
  (match plic with
   | None => ret SBI_EINVAL
   | Some p => mfor (seqZ 1 (num_src p)) (λ i, plic_set_priority p i 0) ;;; ret 0
   end)%sbi.

End Driver.

(** ** The controller *)

Definition PLICBase : Z := 0xc000000.
Definition N_SOURCE : Z := 30.
Definition N_TARGET : Z := 4.
Definition PRIOW : Z := 3.

(** Bit [i] of an enable or pending word, and entry [i] of the priorities, is
    source [i + 1]. *)
Record plic_regs : Type := PlicRegs {
  prio_q : list Z;
  ie_q : list Z;
  threshold_q : list Z;
}.

(** A write through plic_regmap.sv and plic_top.sv; source 0 is left out. *)
Definition plic_reg_write (addr wdata : Z) (r : plic_regs) : plic_regs :=
  if in_range PLICBase (PLICBase + 4 * N_SOURCE) addr && (addr mod 4 =? 0) then
    let i := (addr - PLICBase) / 4 in
    if i =? 0 then r
    else PlicRegs (<[Z.to_nat (i - 1) := wdata mod 2 ^ PRIOW]> (prio_q r)) (ie_q r) (threshold_q r)
  else if in_range (PLICBase + 0x2000) (PLICBase + 0x2180) addr && (addr mod 0x80 =? 0) then
    let t := (addr - (PLICBase + 0x2000)) / 0x80 in
    PlicRegs (prio_q r) (<[Z.to_nat t := wdata mod 2 ^ (N_SOURCE + 1) / 2]> (ie_q r)) (threshold_q r)
  else if in_range (PLICBase + 0x200000) (PLICBase + 0x203000) addr && (addr mod 0x1000 =? 0) then
    let t := (addr - (PLICBase + 0x200000)) / 0x1000 in
    PlicRegs (prio_q r) (ie_q r) (<[Z.to_nat t := wdata mod 2 ^ PRIOW]> (threshold_q r))
  else r.

(** The loop of rv_plic_target.sv over the sources, from the last to the first:
    the running maximum and the interrupt line. *)
Definition target_scan (ip ie : Z) (prio : list Z) (threshold : Z) : Z * bool :=
  foldr (λ i '(max_prio, irq),
           let p := default 0 (prio !! Z.to_nat i) in
           if Z.testbit (Z.land ip ie) i && (max_prio <=? p) then (p, true) else (max_prio, irq))
        ((threshold + 1) mod 2 ^ PRIOW, false) (seqZ 0 N_SOURCE).

(** The interrupt line of a context when the sources [ip] are pending. *)
Definition eip_target (r : plic_regs) (t ip : Z) : bool :=
  snd (target_scan ip (default 0 (ie_q r !! Z.to_nat t)) (prio_q r)
         (default 0 (threshold_q r !! Z.to_nat t))).

(** The registers after the word writes recorded on the bus. *)
Definition plic_after (r : plic_regs) (writes : list (Z * Z * Z)) : plic_regs :=
  foldl (λ r '(_, addr, v), plic_reg_write addr v r) r writes.

(** ** Lemmas *)

Lemma target_scan_masked ip prio threshold : snd (target_scan ip 0 prio threshold) = false.
Proof.
  unfold target_scan. induction (seqZ 0 N_SOURCE) as [|i l IH]; [done|]. cbn [foldr].
  destruct (foldr _ _ l) as [mp irq]. rewrite Z.land_0_r, Z.bits_0. exact IH.
Qed.

Lemma plic_after_app r w1 w2 : plic_after r (w1 ++ w2) = plic_after (plic_after r w1) w2.
Proof. apply foldl_app. Qed.

(** The registers a bus has left the controller in. *)
Definition plic_of (r0 : plic_regs) (b : soc) : plic_regs := plic_after r0 (soc_writes b).

(** Nothing has been written to the CLINT since; its timer ticks. *)
Definition clint_later (b b' : soc) : Prop := exists k, soc_clint b' = clint_ticks k (soc_clint b).

Lemma clint_later_refl b : clint_later b b.
Proof. by exists O. Qed.

Lemma clint_later_trans b1 b2 b3 : clint_later b1 b2 -> clint_later b2 b3 -> clint_later b1 b3.
Proof.
  intros [j Hj] [k Hk]. exists (k + j)%nat. rewrite Hk, Hj. unfold clint_ticks. by rewrite Nat.iter_add.
Qed.

(** A driver routine that ends with [v] and turns the registers into [f] of them. *)
Definition plic_does {A} (r0 : plic_regs) (c : M soc A) (v : A) (f : plic_regs → plic_regs) : Prop :=
  forall b, exists b', c b = (Ret v, b') /\ clint_later b b' /\ plic_of r0 b' = f (plic_of r0 b).

Section Does.
Context (r0 : plic_regs).

Lemma does_ret {A} (v : A) : plic_does r0 (ret v) v id.
Proof. intros b. exists b. split; [done|]. split; [apply clint_later_refl|done]. Qed.

Lemma plic_does_bind {A B} (c : M soc A) (k : A → M soc B) v w f g :
  plic_does r0 c v f -> plic_does r0 (k v) w g -> plic_does r0 (bind c k) w (λ r, g (f r)).
Proof.
  intros H1 H2 b. destruct (H1 b) as (b1 & E1 & L1 & F1). destruct (H2 b1) as (b2 & E2 & L2 & F2).
  exists b2. split; [by erewrite bind_Ret by exact E1|]. split; [by eapply clint_later_trans|]. by rewrite F2, F1.
Qed.

Lemma does_writel v a :
  soc_decodes a = false -> plic_does r0 (writel v a) tt (plic_reg_write a (v mod 2 ^ 32)).
Proof.
  intros Ha b. unfold writel, __raw_writel, mmio_write. cbn [bus_write soc_bus]. unfold soc_write. rewrite Ha.
  eexists. split; [reflexivity|]. split; [by eexists|]. unfold plic_of. cbn [soc_writes]. by rewrite plic_after_app.
Qed.

Lemma plic_address k : 0 <= k < 2 ^ 26 -> add64 PLICBase k = PLICBase + k /\ soc_decodes (PLICBase + k) = false.
Proof.
  intros Hk. unfold add64. rewrite u64_small by (unfold is_u64, PLICBase; lia). split; [done|].
  unfold soc_decodes, CLINTBase, CLINTLength, PLICBase. apply andb_false_iff. right. apply Z.ltb_ge. lia.
Qed.

(** An in-range test of an address written as base plus offset. *)
Lemma in_range_offset lo hi b k : in_range (b + lo) (b + hi) (b + k) = in_range lo hi k.
Proof. unfold in_range. apply eq_true_iff_eq. rewrite !andb_true_iff, !Z.leb_le. lia. Qed.

Lemma does_set_ie t v n :
  0 <= t < N_TARGET -> 0 <= v < 2 ^ 32 ->
  plic_does r0 (plic_set_ie (Some (PlicData PLICBase n)) t 0 v) tt
    (λ r, PlicRegs (prio_q r) (<[Z.to_nat t := v mod 2 ^ (N_SOURCE + 1) / 2]> (ie_q r)) (threshold_q r)).
Proof.
  unfold N_TARGET. intros Ht Hv. unfold plic_set_ie. cbn [plic_addr].
  unfold PLIC_ENABLE_BASE, PLIC_ENABLE_STRIDE, u32. rewrite !Z.mod_small by lia.
  rewrite (proj1 (plic_address 0x2000 ltac:(lia))).
  assert (E : add64 (add64 (PLICBase + 0x2000) (0x80 * t)) (0 * 4) = PLICBase + (0x2000 + 0x80 * t)).
  { unfold add64. unfold PLICBase. rewrite !u64_small by (unfold is_u64; rewrite ?u64_small by (unfold is_u64; lia); lia).
    lia. }
  rewrite E. destruct (plic_address (0x2000 + 0x80 * t) ltac:(lia)) as [_ Hd].
  intros b. destruct (does_writel v _ Hd b) as (b' & E1 & L & E2). exists b'. split; [exact E1|]. split; [exact L|]. rewrite E2.
  rewrite (Z.mod_small v) by lia. set (r := plic_of r0 b). unfold plic_reg_write.
  replace PLICBase with (PLICBase + 0) at 1 by lia. rewrite in_range_offset.
  unfold in_range at 1. rewrite (proj2 (Z.leb_gt (0x2000 + 0x80 * t) (4 * N_SOURCE))) by (unfold N_SOURCE; lia).
  rewrite andb_false_r. cbn [andb].
  rewrite in_range_offset. unfold in_range. rewrite !(proj2 (Z.leb_le _ _)) by lia. cbn [andb].
  replace ((PLICBase + (0x2000 + 0x80 * t)) mod 0x80) with 0.
  - change (0 =? 0) with true. cbv iota. do 3 f_equal.
    replace (PLICBase + (0x2000 + 0x80 * t) - (PLICBase + 0x2000)) with (t * 0x80) by lia. by rewrite Z.div_mul.
  - unfold PLICBase. replace (0xc000000 + (0x2000 + 0x80 * t)) with (0 + (t + 0x180040) * 0x80) by lia.
    by rewrite Z_mod_plus_full.
Qed.

Lemma does_set_thresh t v n :
  0 <= t < N_TARGET -> 0 <= v < 2 ^ 32 ->
  plic_does r0 (plic_set_thresh (Some (PlicData PLICBase n)) t v) tt
    (λ r, PlicRegs (prio_q r) (ie_q r) (<[Z.to_nat t := v mod 2 ^ PRIOW]> (threshold_q r))).
Proof.
  unfold N_TARGET. intros Ht Hv. unfold plic_set_thresh. cbn [plic_addr].
  unfold PLIC_CONTEXT_BASE, PLIC_CONTEXT_STRIDE, u32. rewrite Z.mod_small by lia.
  rewrite (proj1 (plic_address 0x200000 ltac:(lia))).
  assert (E : add64 (PLICBase + 0x200000) (0x1000 * t) = PLICBase + (0x200000 + 0x1000 * t)).
  { unfold add64. rewrite u64_small by (unfold is_u64, PLICBase; lia). lia. }
  rewrite E. destruct (plic_address (0x200000 + 0x1000 * t) ltac:(lia)) as [_ Hd].
  intros b. destruct (does_writel v _ Hd b) as (b' & E1 & L & E2). exists b'. split; [exact E1|]. split; [exact L|]. rewrite E2.
  rewrite (Z.mod_small v) by lia. set (r := plic_of r0 b). unfold plic_reg_write.
  replace PLICBase with (PLICBase + 0) at 1 by lia. rewrite !in_range_offset.
  unfold in_range. rewrite (proj2 (Z.leb_gt (0x200000 + 0x1000 * t) (4 * N_SOURCE))) by (unfold N_SOURCE; lia).
  rewrite (proj2 (Z.leb_gt (0x200000 + 0x1000 * t) 0x2180)) by lia.
  rewrite !andb_false_r. cbn [andb]. rewrite !(proj2 (Z.leb_le _ _)) by lia. cbn [andb].
  replace ((PLICBase + (0x200000 + 0x1000 * t)) mod 0x1000) with 0.
  - change (0 =? 0) with true. cbv iota. do 3 f_equal.
    replace (PLICBase + (0x200000 + 0x1000 * t) - (PLICBase + 0x200000)) with (t * 0x1000) by lia.
    by rewrite Z.div_mul.
  - unfold PLICBase. replace (0xc000000 + (0x200000 + 0x1000 * t)) with (0 + (t + 0xc200) * 0x1000) by lia.
    by rewrite Z_mod_plus_full.
Qed.

End Does.

Lemma does_set_priority r0 i v n :
  1 <= i <= N_SOURCE -> 0 <= v < 2 ^ 32 ->
  plic_does r0 (plic_set_priority (PlicData PLICBase n) i v) tt
    (λ r, PlicRegs (<[Z.to_nat (i - 1) := v mod 2 ^ PRIOW]> (prio_q r)) (ie_q r) (threshold_q r)).
Proof.
  unfold N_SOURCE. intros Hi Hv. unfold plic_set_priority. cbn [plic_addr].
  unfold PLIC_PRIORITY_BASE, u32. rewrite Z.mod_small by lia.
  rewrite (proj1 (plic_address 0 ltac:(lia))), Z.add_0_r.
  destruct (plic_address (4 * i) ltac:(lia)) as [E Hd]. rewrite E.
  intros b. destruct (does_writel r0 v _ Hd b) as (b' & E1 & L & E2). exists b'. split; [exact E1|]. split; [exact L|]. rewrite E2.
  rewrite (Z.mod_small v) by lia. set (r := plic_of r0 b). unfold plic_reg_write.
  replace PLICBase with (PLICBase + 0) at 1 by lia. rewrite in_range_offset.
  unfold in_range at 1. rewrite !(proj2 (Z.leb_le _ _)) by (unfold N_SOURCE; lia).
  replace ((PLICBase + 4 * i) mod 4) with 0.
  - change (true && true && (0 =? 0)) with true. cbv iota.
    replace ((PLICBase + 4 * i - PLICBase) / 4) with i.
    + by rewrite (proj2 (Z.eqb_neq i 0)) by lia.
    + replace (PLICBase + 4 * i - PLICBase) with (i * 4) by lia. by rewrite Z.div_mul.
  - unfold PLICBase. replace (0xc000000 + 4 * i) with (0 + (i + 0x3000000) * 4) by lia. by rewrite Z_mod_plus_full.
Qed.

Lemma plic_does_ext {A} r0 (c : M soc A) v f g :
  plic_does r0 c v f -> (forall r, f r = g r) -> plic_does r0 c v g.
Proof. intros H E b. destruct (H b) as (b' & H1 & H2 & H3). exists b'. by rewrite <- E. Qed.

(** One word of enables covers the sources. *)
Lemma does_set_ie_words r0 cntx v n :
  0 <= cntx < N_TARGET -> 0 <= v < 2 ^ 32 ->
  plic_does r0 (set_ie_words (Some (PlicData PLICBase n)) cntx 1 v) tt
    (λ r, PlicRegs (prio_q r) (<[Z.to_nat cntx := v mod 2 ^ (N_SOURCE + 1) / 2]> (ie_q r)) (threshold_q r)).
Proof.
  intros Hc Hv. unfold set_ie_words. rewrite (proj2 (Z.ltb_lt (-1) cntx)) by lia.
  change (seqZ 0 1) with [0]. cbn [mfor].
  eapply plic_does_ext; [eapply plic_does_bind; [by apply does_set_ie|apply does_ret]|done].
Qed.

Lemma does_set_thresh_if r0 cntx v n :
  0 <= cntx < N_TARGET -> 0 <= v < 2 ^ 32 ->
  plic_does r0 (set_thresh_if (Some (PlicData PLICBase n)) cntx v) tt
    (λ r, PlicRegs (prio_q r) (ie_q r) (<[Z.to_nat cntx := v mod 2 ^ PRIOW]> (threshold_q r))).
Proof.
  intros Hc Hv. unfold set_thresh_if. rewrite (proj2 (Z.ltb_lt (-1) cntx)) by lia. by apply does_set_thresh.
Qed.

(** The priorities of the sources [1..n] become zero. *)
Lemma does_priorities r0 n l :
  Forall (λ i, 1 <= i <= N_SOURCE) l ->
  plic_does r0 (mfor l (λ i, plic_set_priority (PlicData PLICBase n) i 0)) tt
    (λ r, PlicRegs (foldl (λ p i, <[Z.to_nat (i - 1) := 0]> p) (prio_q r) l) (ie_q r) (threshold_q r)).
Proof.
  induction 1 as [|i l Hi Hl IH]; cbn [mfor foldl].
  - eapply plic_does_ext; [apply does_ret|by intros []].
  - eapply plic_does_ext; [eapply plic_does_bind; [apply does_set_priority; [done|lia]|exact IH]|done].
Qed.

(** The decision of a context: some pending and enabled source has a priority
    above the threshold, as long as the comparison does not wrap. *)
Lemma target_scan_decides ip ie prio threshold l :
  Forall (λ p, 0 <= p < 2 ^ PRIOW) prio -> 0 <= threshold < 2 ^ PRIOW ->
  let start := (threshold + 1) mod 2 ^ PRIOW in
  let r := foldr (λ i '(max_prio, irq),
             let p := default 0 (prio !! Z.to_nat i) in
             if Z.testbit (Z.land ip ie) i && (max_prio <=? p) then (p, true) else (max_prio, irq))
             (start, false) l in
  start <= fst r /\
  snd r = existsb (λ i, Z.testbit (Z.land ip ie) i && (start <=? default 0 (prio !! Z.to_nat i))) l /\
  (snd r = false -> fst r = start).
Proof.
  intros Hp Ht start. induction l as [|i l IH]; [split; [done|by split]|]. cbn [foldr existsb] in IH |- *.
  destruct (foldr _ _ l) as [mp irq]. cbn [fst snd] in IH. destruct IH as (H1 & H2 & H3).
  set (p := default 0 (prio !! Z.to_nat i)).
  destruct (Z.testbit (Z.land ip ie) i) eqn:Eb; cbn [andb].
  - destruct (Z.leb_spec mp p) as [Hle|Hgt]; cbn [fst snd].
    + split; [lia|]. split; [|done]. by rewrite (proj2 (Z.leb_le start p)) by lia.
    + split; [done|]. split; [|done]. rewrite H2. destruct (Z.leb_spec start p) as [Hs|]; [|done].
      destruct irq; [by rewrite orb_comm; rewrite <- H2|]. rewrite H3 in Hgt by done. lia.
  - split; [done|]. split; [|done]. by rewrite H2.
Qed.

(** Registers in range: 30 priorities, 4 contexts. *)
Definition plic_wf (r : plic_regs) : Prop :=
  length (prio_q r) = Z.to_nat N_SOURCE /\ Forall (λ p, 0 <= p < 2 ^ PRIOW) (prio_q r) /\
  length (ie_q r) = Z.to_nat N_TARGET /\
  length (threshold_q r) = Z.to_nat N_TARGET /\ Forall (λ p, 0 <= p < 2 ^ PRIOW) (threshold_q r).

Lemma eip_target_no_enable r t ip : default 0 (ie_q r !! Z.to_nat t) = 0 -> eip_target r t ip = false.
Proof. intros E. unfold eip_target. rewrite E. apply target_scan_masked. Qed.

Lemma default_insert_zero (l : list Z) k j v :
  default 0 (<[k := v]> l !! j) = 0 \/ k <> j \/ v <> 0.
Proof.
  destruct (decide (k = j)) as [->|]; [|by right; left]. destruct (Z.eq_dec v 0) as [->|]; [|by right; right].
  left. destruct (decide (j < length l)%nat); [by rewrite list_lookup_insert_eq|].
  by rewrite list_insert_ge, lookup_ge_None_2 by lia.
Qed.

Lemma clear_insert (l : list Z) k j :
  default 0 (<[k := 0]> l !! j) = if decide (k = j) then 0 else default 0 (l !! j).
Proof.
  destruct (decide (k = j)) as [->|Hne]; [|by rewrite list_lookup_insert_ne].
  by destruct (default_insert_zero l j j 0) as [E|[E|E]].
Qed.

(** The two initialisations together, on the registers. *)
Lemma plic_init_does r0 n m s :
  0 <= n <= N_SOURCE -> 0 <= m < N_TARGET -> 0 <= s < N_TARGET ->
  plic_does r0
    (plic_cold_irqchip_init (Some (PlicData PLICBase n)) ;;;
     plic_warm_irqchip_init (Some (PlicData PLICBase n)) m s)%sbi 0
    (λ r, PlicRegs (foldl (λ p i, <[Z.to_nat (i - 1) := 0]> p) (prio_q r) (seqZ 1 n))
            (<[Z.to_nat s := 0]> (<[Z.to_nat m := 0]> (ie_q r)))
            (<[Z.to_nat s := 7]> (<[Z.to_nat m := 7]> (threshold_q r)))).
Proof.
  intros Hn Hm Hs. unfold plic_cold_irqchip_init, plic_warm_irqchip_init. cbn [num_src].
  replace (n / 32 + 1) with 1 by (unfold N_SOURCE in Hn; rewrite Z.div_small by lia; lia).
  eapply plic_does_ext.
  - eapply plic_does_bind; [eapply plic_does_bind; [apply does_priorities|apply does_ret]|].
    { apply Forall_forall. intros i Hi. apply list_elem_of_In, elem_of_seqZ in Hi. lia. }
    eapply plic_does_bind; [apply does_set_ie_words; [done|lia]|].
    eapply plic_does_bind; [apply does_set_ie_words; [done|lia]|].
    eapply plic_does_bind; [apply does_set_thresh_if; [done|lia]|].
    eapply plic_does_bind; [apply does_set_thresh_if; [done|lia]|]. apply does_ret.
  - reflexivity.
Qed.

Lemma zeroed_priority (i : Z) (js l : list Z) :
  default 0 (l !! Z.to_nat (i - 1)) = 0 \/ i ∈ js ->
  default 0 (foldl (λ p i, <[Z.to_nat (i - 1) := 0]> p) l js !! Z.to_nat (i - 1)) = 0.
Proof.
  revert l. induction js as [|j js IH]; intros l Hl; cbn [foldl].
  - destruct Hl as [Hl|Hl]; [done|]. by apply elem_of_nil in Hl.
  - apply IH. destruct Hl as [Hl|Hl].
    + left. rewrite clear_insert. by destruct (decide _).
    + apply elem_of_cons in Hl as [<-|Hl]; [|by right]. left. rewrite clear_insert.
      by rewrite decide_True.
Qed.

(** ** Properties *)

(** [C26] Initialised by plic_cold_irqchip_init and plic_warm_irqchip_init, the
    interrupt controller of the SoC interrupts neither context of the hart,
    whatever sources are pending and whatever its registers held before, and
    the priorities of the platform's sources are zero. *)
Theorem plic_init_masks r0 n m s b :
  0 <= n <= N_SOURCE -> 0 <= m < N_TARGET -> 0 <= s < N_TARGET ->
  exists b',
    (plic_cold_irqchip_init (Some (PlicData PLICBase n)) ;;;
     plic_warm_irqchip_init (Some (PlicData PLICBase n)) m s)%sbi b = (Ret 0, b') /\
    let r := plic_of r0 b' in
    (forall ip, eip_target r m ip = false /\ eip_target r s ip = false) /\
    (forall i, 1 <= i <= n -> default 0 (prio_q r !! Z.to_nat (i - 1)) = 0).
Proof.
  intros Hn Hm Hs. destruct (plic_init_does r0 n m s Hn Hm Hs b) as (b' & E & _ & F).
  exists b'. split; [exact E|]. cbv zeta. rewrite F.
  split; [intros ip; split; apply eip_target_no_enable|intros i Hi]; cbn [ie_q prio_q].
  - rewrite !clear_insert. by repeat destruct (decide _).
  - rewrite !clear_insert. by rewrite decide_True.
  - apply zeroed_priority. right. apply elem_of_seqZ. lia.
Qed.

Lemma plic_init_masks_witness :
  let r0 := PlicRegs (replicate 30 5) (replicate 4 0x3fffffff) (replicate 4 0) in
  let b := Soc (Clint 0 [0; 0] [false; false]) [] 0 (λ _, 0%nat) (λ _ _, 0) in
  exists b',
    (plic_cold_irqchip_init (Some (PlicData PLICBase 3)) ;;;
     plic_warm_irqchip_init (Some (PlicData PLICBase 3)) 2 3)%sbi b = (Ret 0, b') /\
    let r := plic_of r0 b' in
    (forall ip, eip_target r 2 ip = false /\ eip_target r 3 ip = false) /\
    (forall i, 1 <= i <= 3 -> default 0 (prio_q r !! Z.to_nat (i - 1)) = 0).
Proof. intros r0 b. apply (plic_init_masks r0 3 2 3 b); unfold N_SOURCE, N_TARGET; lia. Defined.

(** The controller interrupts a context exactly when an enabled pending source
    has at least the priority [(threshold + 1) mod 8]; with the threshold 7 that
    is every source, so the value the driver writes to mask a context masks
    nothing: only the cleared enables do. *)
Theorem plic_threshold_wraps r t ip th :
  plic_wf r -> 0 <= t < N_TARGET -> threshold_q r !! Z.to_nat t = Some th ->
  let ie := default 0 (ie_q r !! Z.to_nat t) in
  eip_target r t ip =
  existsb (λ i, Z.testbit (Z.land ip ie) i && ((th + 1) mod 8 <=? default 0 (prio_q r !! Z.to_nat i)))
          (seqZ 0 N_SOURCE).
Proof.
  intros (_ & Hp & _ & _ & Hth) Ht E ie. unfold eip_target. rewrite E. cbn [default].
  assert (Hr : 0 <= th < 2 ^ PRIOW) by (eapply Forall_lookup_1 in Hth; [exact Hth|exact E]).
  by destruct (target_scan_decides ip ie (prio_q r) th (seqZ 0 N_SOURCE) Hp Hr) as (_ & H & _).
Qed.
