(* ===== verification/Uart.v ===== *)
(** * The serial port

    Models lib/utils/serial/uart8250.c, the serial part of the boot ROM
    (src/modules/cva6/corev_apu/fpga/src/bootrom/src/uart.c) and, from the
    hardware side, the registers and the transmit queue of
    src/modules/cva6/corev_apu/fpga/src/apb_uart/src/apb_uart.vhd.

    [uart_hw] is the serial port as a bus: before each access it sends any
    number of queued characters and receives any.  The theorems: both drivers
    program the divisor the frequency and baud rate ask for, on lines of eight
    bits; and a character, or a string, that the drivers write is queued after
    all earlier ones, none lost, however slowly the port drains. *)

From Stdlib Require Import ZArith Lia.
From stdpp Require Import base tactics list numbers strings.
From S2P Require Import Prelude SbiDefs Machine Console Mmio.

Definition UART_RBR_OFFSET : Z := 0.
Definition UART_THR_OFFSET : Z := 0.
Definition UART_DLL_OFFSET : Z := 0.
Definition UART_IER_OFFSET : Z := 1.
Definition UART_DLM_OFFSET : Z := 1.
Definition UART_FCR_OFFSET : Z := 2.
Definition UART_LCR_OFFSET : Z := 3.
Definition UART_MCR_OFFSET : Z := 4.
Definition UART_LSR_OFFSET : Z := 5.
Definition UART_SCR_OFFSET : Z := 7.
Definition UART_LSR_THRE : Z := 0x20.
Definition UART_LSR_DR : Z := 0x01.

(** ** uart8250.c *)

(** The static variables of the driver, with the bus and the firmware. *)
Record serial (D : Type) : Type := Serial {
  sr_bus : D;
  sr_machine : machine;
  uart8250_base : Z;
  uart8250_in_freq : Z;
  uart8250_baudrate : Z;
  uart8250_reg_width : Z;
  uart8250_reg_shift : Z;
}.
Arguments Serial {D}.
Arguments sr_bus {D}.
Arguments sr_machine {D}.
Arguments uart8250_base {D}.
Arguments uart8250_in_freq {D}.
Arguments uart8250_baudrate {D}.
Arguments uart8250_reg_width {D}.
Arguments uart8250_reg_shift {D}.

(** Division of two [u32]s: by zero it is undefined in C, and all ones with the
    divuw instruction. *)
Definition udiv32 (a b : Z) : Z := if b =? 0 then 2 ^ 32 - 1 else a / b.

Section Driver.
Context {D : Type} `{Bus D} (polls : nat).

Definition sr_set_bus b (s : serial D) : serial D :=
  Serial b (sr_machine s) (uart8250_base s) (uart8250_in_freq s) (uart8250_baudrate s)
    (uart8250_reg_width s) (uart8250_reg_shift s).
Definition sr_set_machine m (s : serial D) : serial D :=
  Serial (sr_bus s) m (uart8250_base s) (uart8250_in_freq s) (uart8250_baudrate s)
    (uart8250_reg_width s) (uart8250_reg_shift s).

(** [uart8250_base + (num << uart8250_reg_shift)]; the shift of a [u32] takes
    its count modulo 32 on RISC-V. *)
Definition reg_addr (num : Z) (s : serial D) : Z :=
  add64 (uart8250_base s) (u32 (Z.shiftl num (uart8250_reg_shift s mod 32))).

Definition get_reg (num : Z) : M (serial D) Z :=
  λ s, zoom sr_bus sr_set_bus
         (if uart8250_reg_width s =? 1 then readb (reg_addr num s)
          else if uart8250_reg_width s =? 2 then readw (reg_addr num s)
          else readl (reg_addr num s)) s.

Definition set_reg (num val : Z) : M (serial D) unit :=
  λ s, zoom sr_bus sr_set_bus
         (if uart8250_reg_width s =? 1 then writeb val (reg_addr num s)
          else if uart8250_reg_width s =? 2 then writew val (reg_addr num s)
          else writel val (reg_addr num s)) s.

(** [while ((get_reg(UART_LSR_OFFSET) & UART_LSR_THRE) == 0) ;] *)
Fixpoint wait_thre (fuel : nat) : M (serial D) unit :=
  match fuel with
  | O => stop spinning
  | S n =>
      (lsr <- get_reg UART_LSR_OFFSET ;;
       if Z.land lsr UART_LSR_THRE =? 0 then wait_thre n else ret tt)%sbi
  end.

Definition uart8250_putc (ch : Z) : M (serial D) unit :=
  (wait_thre polls ;;; set_reg UART_THR_OFFSET ch)%sbi.

Definition uart8250_getc : M (serial D) Z :=
  (lsr <- get_reg UART_LSR_OFFSET ;;
   if truthy (Z.land lsr UART_LSR_DR) then v <- get_reg UART_RBR_OFFSET ;; ret (s32 v)
   else ret (-1))%sbi.

Definition uart8250_init (base in_freq baudrate reg_shift reg_width : Z) : M (serial D) Z :=
  (modify (λ s, Serial (sr_bus s) (sr_machine s) base in_freq baudrate reg_width reg_shift) ;;;
   let bdiv := u16 (udiv32 in_freq (u32 (16 * baudrate))) in
   set_reg UART_IER_OFFSET 0x00 ;;;
   set_reg UART_LCR_OFFSET 0x80 ;;;
   (if truthy bdiv then
      set_reg UART_DLL_OFFSET (Z.land bdiv 0xff) ;;;
      set_reg UART_DLM_OFFSET (Z.land (shr64 bdiv 8) 0xff)
    else ret tt) ;;;
   set_reg UART_LCR_OFFSET 0x03 ;;;
   set_reg UART_FCR_OFFSET 0x01 ;;;
   set_reg UART_MCR_OFFSET 0x00 ;;;
   get_reg UART_LSR_OFFSET ;;;
   get_reg UART_RBR_OFFSET ;;;
   set_reg UART_SCR_OFFSET 0x00 ;;;
   zoom sr_machine sr_set_machine (sbi_console_set_device (Some (ConsoleDevice true true))) ;;;
   ret 0)%sbi.

(** ** uart.c of the boot ROM *)

Definition UART_BASE : Z := 0x10000000.
Definition UART_THR : Z := UART_BASE + 0.
Definition UART_INTERRUPT_ENABLE : Z := UART_BASE + 4.
Definition UART_FIFO_CONTROL : Z := UART_BASE + 8.
Definition UART_LINE_CONTROL : Z := UART_BASE + 12.
Definition UART_MODEM_CONTROL : Z := UART_BASE + 16.
Definition UART_LINE_STATUS : Z := UART_BASE + 20.
Definition UART_DLAB_LSB : Z := UART_BASE + 0.
Definition UART_DLAB_MSB : Z := UART_BASE + 4.

Definition write_reg_u8 (addr value : Z) : M D unit := mmio_write 1 value addr.
Definition read_reg_u8 (addr : Z) : M D Z := mmio_read 1 addr.

Definition is_transmit_empty : M D Z := (v <- read_reg_u8 UART_LINE_STATUS ;; ret (Z.land v 0x20))%sbi.

Fixpoint wait_transmit_empty (fuel : nat) : M D unit :=
  match fuel with
  | O => stop spinning
  | S n => (e <- is_transmit_empty ;; if e =? 0 then wait_transmit_empty n else ret tt)%sbi
  end.

Definition write_serial (a : Z) : M D unit :=
  (wait_transmit_empty polls ;;; write_reg_u8 UART_THR a)%sbi.

Definition init_uart (freq baud : Z) : M D unit :=
  (let divisor := udiv32 freq (u32 (Z.shiftl baud 4)) in
   write_reg_u8 UART_INTERRUPT_ENABLE 0x00 ;;;
   write_reg_u8 UART_LINE_CONTROL 0x80 ;;;
   write_reg_u8 UART_DLAB_LSB (divisor mod 256) ;;;
   write_reg_u8 UART_DLAB_MSB (Z.land (Z.shiftr divisor 8) 0xFF) ;;;
   write_reg_u8 UART_LINE_CONTROL 0x03 ;;;
   write_reg_u8 UART_FIFO_CONTROL 0xC7 ;;;
   write_reg_u8 UART_MODEM_CONTROL 0x20)%sbi.

(** A string is its characters before the final zero. *)
Definition chars (s : string) : list Z := map (λ a, Z.of_N (Ascii.N_of_ascii a)) (String.list_ascii_of_string s).
Definition crlf : list Z := [13; 10].
Definition tab : list Z := [9].

Definition print_uart (str : list Z) : M D unit := mfor str write_serial.

Definition bin_to_hex_table : list Z :=
  [48; 49; 50; 51; 52; 53; 54; 55; 56; 57; 65; 66; 67; 68; 69; 70].

(** The two characters: [res[0]], [res[1]]. *)
Definition bin_to_hex (inp : Z) : Z * Z :=
  (nth (Z.to_nat (Z.land (Z.shiftr inp 4) 0xf)) bin_to_hex_table 0,
   nth (Z.to_nat (Z.land inp 0xf)) bin_to_hex_table 0).

Definition print_uart_byte (byte : Z) : M D unit :=
  (let hex := bin_to_hex byte in write_serial (fst hex) ;;; write_serial (snd hex))%sbi.

(** The loop body of the two functions below is print_uart_byte written out. *)
Definition print_uart_int (addr : Z) : M D unit :=
  mfor [3; 2; 1; 0] (λ i, print_uart_byte (Z.land (Z.shiftr addr (i * 8)) 0xff)).

Definition print_uart_addr (addr : Z) : M D unit :=
  mfor [7; 6; 5; 4; 3; 2; 1; 0] (λ i, print_uart_byte (Z.land (Z.shiftr addr (i * 8)) 0xff)).

End Driver.

(** ** The port (apb_uart.vhd) *)

Record uart_hw : Type := UartHw {
  iIER : Z;
  iDLL : Z;
  iDLM : Z;
  iLCR : Z;
  iFCR_FIFOEnable : bool;
  iFCR_FIFO64E : bool;
  iMCR : Z;
  iSCR : Z;
  tx_fifo : list Z;
  tx_sent : list Z;              (* what went out on the line *)
  rx_fifo : list Z;
  uart_count : nat;              (* accesses so far *)
  uart_drain : nat → nat;        (* characters sent before each access *)
  uart_arrive : nat → list Z;    (* characters received before each access *)
  uart_other : nat → Z;          (* bits of registers and line status not modelled *)
}.

Definition iLCR_DLAB (u : uart_hw) : bool := Z.testbit (iLCR u) 7.

(** [iTXFIFOUsage(4)], or the full queue of 64. *)
Definition iTXFIFOFull (u : uart_hw) : bool :=
  let usage := Z.of_nat (length (tx_fifo u)) in
  if iFCR_FIFO64E u then usage =? 64 else Z.testbit usage 4.

(** The queue takes a character; also bit 5 of the line status. *)
Definition iLSR_THRNF (u : uart_hw) : bool :=
  if iFCR_FIFOEnable u then negb (iTXFIFOFull u) else bool_decide (tx_fifo u = []).

(** Time passes before an access. *)
Definition uart_pass (u : uart_hw) : uart_hw :=
  let k := uart_drain u (uart_count u) in
  UartHw (iIER u) (iDLL u) (iDLM u) (iLCR u) (iFCR_FIFOEnable u) (iFCR_FIFO64E u) (iMCR u) (iSCR u)
    (drop k (tx_fifo u)) (tx_sent u ++ take k (tx_fifo u))
    (rx_fifo u ++ uart_arrive u (uart_count u)) (S (uart_count u))
    (uart_drain u) (uart_arrive u) (uart_other u).

Definition with_tx l (u : uart_hw) : uart_hw :=
  UartHw (iIER u) (iDLL u) (iDLM u) (iLCR u) (iFCR_FIFOEnable u) (iFCR_FIFO64E u) (iMCR u) (iSCR u)
    l (tx_sent u) (rx_fifo u) (uart_count u) (uart_drain u) (uart_arrive u) (uart_other u).
Definition with_rx l (u : uart_hw) : uart_hw :=
  UartHw (iIER u) (iDLL u) (iDLM u) (iLCR u) (iFCR_FIFOEnable u) (iFCR_FIFO64E u) (iMCR u) (iSCR u)
    (tx_fifo u) (tx_sent u) l (uart_count u) (uart_drain u) (uart_arrive u) (uart_other u).
(** The registers: IER, DLL, DLM, LCR, MCR, SCR. *)
Definition with_regs ier dll dlm lcr mcr scr (u : uart_hw) : uart_hw :=
  UartHw ier dll dlm lcr (iFCR_FIFOEnable u) (iFCR_FIFO64E u) mcr scr
    (tx_fifo u) (tx_sent u) (rx_fifo u) (uart_count u) (uart_drain u) (uart_arrive u) (uart_other u).
Definition with_fcr enable fifo64 (u : uart_hw) : uart_hw :=
  UartHw (iIER u) (iDLL u) (iDLM u) (iLCR u) enable fifo64 (iMCR u) (iSCR u)
    (tx_fifo u) (tx_sent u) (rx_fifo u) (uart_count u) (uart_drain u) (uart_arrive u) (uart_other u).

(** The write of [data] to register [paddr]. *)
Definition uart_reg_write (paddr data : Z) (u : uart_hw) : uart_hw :=
  let b := data mod 256 in
  if paddr =? 0 then
    if iLCR_DLAB u then with_regs (iIER u) b (iDLM u) (iLCR u) (iMCR u) (iSCR u) u
    else if iLSR_THRNF u then with_tx (tx_fifo u ++ [b]) u else u
  else if paddr =? 1 then
    if iLCR_DLAB u then with_regs (iIER u) (iDLL u) b (iLCR u) (iMCR u) (iSCR u) u
    else with_regs (b mod 16) (iDLL u) (iDLM u) (iLCR u) (iMCR u) (iSCR u) u
  else if paddr =? 2 then
    let enable := Z.testbit b 0 in
    let toggled := xorb enable (iFCR_FIFOEnable u) in
    let u' := with_fcr enable (if iLCR_DLAB u then Z.testbit b 5 else iFCR_FIFO64E u) u in
    let u' := if Z.testbit b 1 || toggled then with_rx [] u' else u' in
    if Z.testbit b 2 || toggled then with_tx [] u' else u'
  else if paddr =? 3 then with_regs (iIER u) (iDLL u) (iDLM u) b (iMCR u) (iSCR u) u
  else if paddr =? 4 then with_regs (iIER u) (iDLL u) (iDLM u) (iLCR u) (b mod 64) (iSCR u) u
  else if paddr =? 7 then with_regs (iIER u) (iDLL u) (iDLM u) (iLCR u) (iMCR u) b u
  else u.

Definition line_status (u : uart_hw) : Z :=
  Z.lor (Z.land (uart_other u (uart_count u)) 0xde)
    ((if iLSR_THRNF u then 0x20 else 0) + (if bool_decide (rx_fifo u = []) then 0 else 1)).

(** The read of register [paddr]; reading the receive register takes from its
    queue. *)
Definition uart_reg_read (paddr : Z) (u : uart_hw) : Z * uart_hw :=
  if (paddr =? 0) && iLCR_DLAB u then (iDLL u, u)
  else if paddr =? 0 then
    match rx_fifo u with c :: l => (c, with_rx l u) | [] => (uart_other u (uart_count u), u) end
  else if paddr =? 1 then (if iLCR_DLAB u then iDLM u else iIER u, u)
  else if paddr =? 3 then (iLCR u, u)
  else if paddr =? 4 then (iMCR u, u)
  else if paddr =? 5 then (line_status u, u)
  else if paddr =? 7 then (iSCR u, u)
  else (uart_other u (uart_count u), u).

(** [uart_paddr[4:2]]. *)
Definition uart_paddr (addr : Z) : Z := Z.shiftr addr 2 mod 8.

#[export] Instance uart_bus : Bus uart_hw := {|
  bus_read _ addr u := uart_reg_read (uart_paddr addr) (uart_pass u);
  bus_write _ addr v u := uart_reg_write (uart_paddr addr) v (uart_pass u) |}.

(** The baud rate generator: one clock cycle (uart_baudgen.vhd, with CE = '1'
    and CLEAR = '0'); the counter and the tick. *)
Definition baudgen_step (divider counter : Z) : Z * bool :=
  if counter =? divider then (0, true) else ((counter + 1) mod 2 ^ 16, false).

(** The number of cycles from counter [c] to the next tick, up to [fuel]. *)
Fixpoint cycles_to_tick (fuel : nat) (divider counter : Z) : Z :=
  match fuel with
  | O => 0
  | S n => let '(c, tick) := baudgen_step divider counter in
           if tick then 1 else 1 + cycles_to_tick n divider c
  end.

(** ** Lemmas *)

(** Every character the port has taken. *)
Definition uart_out (u : uart_hw) : list Z := tx_sent u ++ tx_fifo u.

(** Normal operation: 16-character queue, divisor latch closed. *)
Definition uart_ok (u : uart_hw) : Prop :=
  iFCR_FIFO64E u = false /\ (length (tx_fifo u) <= 16)%nat /\ iLCR_DLAB u = false.

(** The port empties its queue at least once in any [polls] accesses. *)
Definition uart_drains (polls : nat) (u : uart_hw) : Prop :=
  forall n, exists k, (k < polls)%nat /\ (16 <= uart_drain u (n + k))%nat.

Lemma uart_pass_out u : uart_out (uart_pass u) = uart_out u.
Proof. unfold uart_out, uart_pass. cbn. by rewrite <- app_assoc, take_drop. Qed.

Lemma uart_pass_ok u : uart_ok u -> uart_ok (uart_pass u).
Proof.
  intros (H1 & H2 & H3). split; [done|]. split; [|done]. cbn. rewrite length_drop. lia.
Qed.

(** Room for a character: the queue shorter than 16. *)
Lemma thrnf_room u : uart_ok u -> iLSR_THRNF u = true -> (length (tx_fifo u) < 16)%nat.
Proof.
  intros (H1 & H2 & _). unfold iLSR_THRNF, iTXFIFOFull. rewrite H1. destruct (iFCR_FIFOEnable u).
  - intros H. apply negb_true_iff in H. destruct (Nat.eq_dec (length (tx_fifo u)) 16%nat) as [E|]; [|lia].
    by rewrite E in H.
  - intros H. apply bool_decide_eq_true in H. rewrite H. cbn. lia.
Qed.

Lemma thrnf_short (u : uart_hw) (l : list Z) :
  iFCR_FIFO64E u = false -> iLSR_THRNF u = true -> (length (tx_fifo u) < 16)%nat ->
  l `suffix_of` tx_fifo u -> iLSR_THRNF (with_tx l u) = true.
Proof.
  intros H1 H2 H3 [p Hp]. unfold iLSR_THRNF, iTXFIFOFull in *.
  cbn [iFCR_FIFO64E iFCR_FIFOEnable tx_fifo with_tx]. rewrite H1 in *.
  destruct (iFCR_FIFOEnable u).
  - apply negb_true_iff. rewrite Hp, length_app in H3.
    assert (Hl : Z.of_nat (length l) < 2 ^ 4) by (change (2 ^ 4) with 16; lia).
    destruct (Z.eq_dec (Z.of_nat (length l)) 0) as [->|]; [done|].
    apply Z.bits_above_log2; [lia|]. apply Z.log2_lt_pow2; lia.
  - apply bool_decide_eq_true in H2. rewrite H2 in Hp. symmetry in Hp. apply app_nil in Hp as [_ ->].
    by apply bool_decide_eq_true.
Qed.

(** Room stays while time passes. *)
Lemma thrnf_pass u : uart_ok u -> iLSR_THRNF u = true -> iLSR_THRNF (uart_pass u) = true.
Proof.
  intros Hu H. assert (Hr := thrnf_room u Hu H). destruct Hu as (H1 & _).
  change (iLSR_THRNF (uart_pass u)) with
    (iLSR_THRNF (with_tx (drop (uart_drain u (uart_count u)) (tx_fifo u)) u)).
  apply thrnf_short; try done. apply suffix_drop.
Qed.

(** A full drain makes room. *)
Lemma thrnf_drained u : uart_ok u -> (16 <= uart_drain u (uart_count u))%nat -> iLSR_THRNF (uart_pass u) = true.
Proof.
  intros (H1 & H2 & _) Hd. unfold iLSR_THRNF, iTXFIFOFull. cbn. rewrite drop_ge by lia. rewrite H1.
  by destruct (iFCR_FIFOEnable u).
Qed.

(** The line status as the drivers read it. *)
Lemma line_status_thre u : Z.land (line_status u) 0x20 = if iLSR_THRNF u then 0x20 else 0.
Proof.
  unfold line_status. rewrite Z.land_lor_distr_l, <- Z.land_assoc. change (Z.land 0xde 0x20) with 0.
  rewrite Z.land_0_r, Z.lor_0_l. by destruct (iLSR_THRNF u), (bool_decide _).
Qed.

Lemma land_mod_low x c n : 0 <= n -> 0 <= c < 2 ^ n -> Z.land (x mod 2 ^ n) c = Z.land x c.
Proof.
  intros Hn Hc. rewrite <- Z.land_ones by lia. rewrite <- Z.land_assoc. f_equal.
  rewrite Z.land_comm, Z.land_ones by lia. by apply Z.mod_small.
Qed.

Lemma read_line_status (w : Z) (u : uart_hw) :
  1 <= w ->
  exists v, mmio_read w UART_LINE_STATUS u = (Ret v, uart_pass u) /\
    Z.land v 0x20 = if iLSR_THRNF (uart_pass u) then 0x20 else 0.
Proof.
  intros Hw. exists (line_status (uart_pass u) mod 2 ^ (8 * w)). split; [done|].
  rewrite land_mod_low by (assert (2 ^ 8 <= 2 ^ (8 * w)) by (apply Z.pow_le_mono_r; lia);
                           change (2 ^ 8) with 256 in *; lia).
  apply line_status_thre.
Qed.

Lemma wait_transmit_spec fuel u :
  uart_ok u -> (exists k, (k < fuel)%nat /\ (16 <= uart_drain u (uart_count u + k))%nat) ->
  exists u', wait_transmit_empty fuel u = (Ret tt, u') /\ uart_ok u' /\ iLSR_THRNF u' = true /\
    uart_out u' = uart_out u /\ uart_drain u' = uart_drain u.
Proof.
  revert u. induction fuel as [|n IH]; intros u Hu (k & Hk & Hd); [lia|]. cbn [wait_transmit_empty].
  unfold is_transmit_empty, read_reg_u8. destruct (read_line_status 1 u ltac:(lia)) as (v & E & Ev).
  rewrite bind_assoc. erewrite bind_Ret by exact E. rewrite bind_ret_l, Ev.
  destruct (iLSR_THRNF (uart_pass u)) eqn:Et.
  - change (0x20 =? 0) with false. cbv iota. exists (uart_pass u). split; [done|].
    split; [by apply uart_pass_ok|]. split; [done|]. split; [apply uart_pass_out|done].
  - change (0 =? 0) with true. cbv iota. destruct k as [|k].
    + rewrite Nat.add_0_r in Hd. rewrite thrnf_drained in Et by done. discriminate.
    + destruct (IH (uart_pass u)) as (u' & E' & H1 & H2 & H3 & H4); [by apply uart_pass_ok| |].
      * exists k. split; [lia|]. cbn [uart_drain uart_pass uart_count].
        replace (S (uart_count u) + k)%nat with (uart_count u + S k)%nat by lia. done.
      * exists u'. split; [done|]. split; [done|]. split; [done|]. split; [|by rewrite H4].
        by rewrite H3, uart_pass_out.
Qed.

(** A character written while there is room. *)
Lemma write_thr w c u :
  uart_ok u -> iLSR_THRNF u = true ->
  exists u', mmio_write w c UART_THR u = (Ret tt, u') /\ uart_ok u' /\
    uart_out u' = uart_out u ++ [c mod 256] /\ uart_drain u' = uart_drain u.
Proof.
  intros Hu Ht. eexists. split; [reflexivity|].
  change (bus_write w UART_THR c u) with (uart_reg_write 0 c (uart_pass u)).
  assert (Hp := uart_pass_ok u Hu). assert (Htp := thrnf_pass u Hu Ht).
  assert (Hr := thrnf_room _ Hp Htp). destruct (Hp) as (P1 & P2 & P3).
  unfold uart_reg_write. change (0 =? 0) with true. cbv zeta iota. rewrite P3, Htp. split; [|split; [|done]].
  - split; [done|]. split; [|done]. cbn [tx_fifo with_tx]. rewrite length_app. cbn [length]. lia.
  - unfold uart_out. cbn [tx_sent tx_fifo with_tx]. rewrite app_assoc.
    change (tx_sent (uart_pass u) ++ tx_fifo (uart_pass u)) with (uart_out (uart_pass u)).
    by rewrite uart_pass_out.
Qed.

Lemma write_serial_spec polls c u :
  uart_ok u -> uart_drains polls u ->
  exists u', write_serial polls c u = (Ret tt, u') /\ uart_ok u' /\ uart_drains polls u' /\
    uart_out u' = uart_out u ++ [c mod 256].
Proof.
  intros Hu Hd. destruct (wait_transmit_spec polls u Hu (Hd (uart_count u))) as (u1 & E1 & H1 & T1 & O1 & D1).
  destruct (write_thr 1 c u1 H1 T1) as (u2 & E2 & H2 & O2 & D2). exists u2.
  split; [|split; [done|split; [|by rewrite O2, O1]]].
  - unfold write_serial. erewrite bind_Ret by exact E1. exact E2.
  - unfold uart_drains. by rewrite D2, D1.
Qed.

(** The firmware's driver, configured for this port, does what the boot ROM's
    does. *)
Definition serial_configured (s : serial uart_hw) : Prop :=
  uart8250_base s = UART_BASE /\ uart8250_reg_shift s = 2 /\
  (uart8250_reg_width s = 1 \/ uart8250_reg_width s = 4).

Lemma serial_get_lsr s :
  serial_configured s ->
  exists v, get_reg UART_LSR_OFFSET s = (Ret v, sr_set_bus (uart_pass (sr_bus s)) s) /\
    Z.land v UART_LSR_THRE = if iLSR_THRNF (uart_pass (sr_bus s)) then 0x20 else 0.
Proof.
  intros (Hb & Hs & Hw). unfold get_reg, zoom, reg_addr. rewrite Hb, Hs.
  change (add64 UART_BASE (u32 (Z.shiftl UART_LSR_OFFSET (2 mod 32)))) with UART_LINE_STATUS.
  destruct Hw as [-> | ->].
  - destruct (read_line_status 1 (sr_bus s) ltac:(lia)) as (v & E & Ev). exists v.
    change (1 =? 1) with true. cbv iota. unfold readb, __raw_readb. by rewrite E.
  - destruct (read_line_status 4 (sr_bus s) ltac:(lia)) as (v & E & Ev). exists v.
    change (4 =? 1) with false. change (4 =? 2) with false. cbv iota. unfold readl, __raw_readl. by rewrite E.
Qed.

Lemma wait_thre_as_rom fuel s :
  serial_configured s ->
  wait_thre fuel s = (fst (wait_transmit_empty fuel (sr_bus s)),
                      sr_set_bus (snd (wait_transmit_empty fuel (sr_bus s))) s).
Proof.
  revert s. induction fuel as [|n IH]; intros s Hs; [by destruct s|].
  cbn [wait_thre wait_transmit_empty]. destruct (serial_get_lsr s Hs) as (v & E & Ev).
  erewrite bind_Ret by exact E. rewrite Ev. unfold is_transmit_empty, read_reg_u8. rewrite bind_assoc.
  destruct (read_line_status 1 (sr_bus s) ltac:(lia)) as (v' & E' & Ev').
  erewrite bind_Ret by exact E'. rewrite bind_ret_l, Ev'.
  destruct (iLSR_THRNF (uart_pass (sr_bus s))); [done|]. change (0 =? 0) with true. cbv iota.
  rewrite IH by done. done.
Qed.

Lemma uart8250_putc_spec polls c s :
  serial_configured s -> uart_ok (sr_bus s) -> uart_drains polls (sr_bus s) ->
  exists u', uart8250_putc polls c s = (Ret tt, sr_set_bus u' s) /\ uart_ok u' /\ uart_drains polls u' /\
    uart_out u' = uart_out (sr_bus s) ++ [c mod 256].
Proof.
  intros Hs Hu Hd.
  destruct (wait_transmit_spec polls _ Hu (Hd (uart_count (sr_bus s)))) as (u1 & E1 & H1 & T1 & O1 & D1).
  unfold uart8250_putc. erewrite bind_Ret by (rewrite wait_thre_as_rom, E1 by done; reflexivity).
  destruct (Hs) as (Hb & Hsh & Hw). unfold set_reg, zoom, reg_addr.
  cbn [snd sr_bus sr_set_bus uart8250_base uart8250_reg_shift uart8250_reg_width]. rewrite Hb, Hsh.
  change (add64 UART_BASE (u32 (Z.shiftl UART_THR_OFFSET (2 mod 32)))) with UART_THR.
  destruct Hw as [-> | ->].
  - change (1 =? 1) with true. cbv iota. destruct (write_thr 1 c u1 H1 T1) as (u2 & E2 & H2 & O2 & D2).
    exists u2. unfold writeb, __raw_writeb. rewrite E2. split; [done|]. split; [done|].
    split; [unfold uart_drains; by rewrite D2, D1|by rewrite O2, O1].
  - change (4 =? 1) with false. change (4 =? 2) with false. cbv iota.
    destruct (write_thr 4 c u1 H1 T1) as (u2 & E2 & H2 & O2 & D2).
    exists u2. unfold writel, __raw_writel. rewrite E2. split; [done|]. split; [done|].
    split; [unfold uart_drains; by rewrite D2, D1|by rewrite O2, O1].
Qed.

Lemma print_uart_spec polls str u :
  uart_ok u -> uart_drains polls u ->
  exists u', print_uart polls str u = (Ret tt, u') /\ uart_ok u' /\ uart_drains polls u' /\
    uart_out u' = uart_out u ++ map (λ c, c mod 256) str.
Proof.
  unfold print_uart. revert u. induction str as [|c str IH]; intros u Hu Hd.
  - exists u. by rewrite app_nil_r.
  - destruct (write_serial_spec polls c u Hu Hd) as (u1 & E1 & H1 & D1 & O1).
    destruct (IH u1 H1 D1) as (u2 & E2 & H2 & D2 & O2). exists u2.
    split; [cbn [mfor]; by erewrite bind_Ret by exact E1|]. split; [done|]. split; [done|].
    rewrite O2, O1. cbn [map]. by rewrite <- app_assoc.
Qed.

(** The registers a routine leaves: divisor, line control, interrupt enable. *)
Definition uart_setup (u : uart_hw) : Z * Z * Z * bool :=
  (iDLM u * 256 + iDLL u, iLCR u, iIER u, iFCR_FIFOEnable u).

Lemma byte_split x : 0 <= x < 2 ^ 16 -> Z.land (shr64 x 8) 0xff mod 256 * 256 + Z.land x 0xff mod 256 = x.
Proof.
  intros Hx. change 0xff with (2 ^ 8 - 1). rewrite !land_ones_mod by lia. unfold shr64.
  change (8 mod 64) with 8. rewrite Z.shiftr_div_pow2 by lia. change 256 with (2 ^ 8).
  rewrite !Zmod_mod. assert (D := Z.div_mod x (2 ^ 8) ltac:(lia)).
  rewrite (Z.mod_small (x / 2 ^ 8)); [lia|].
  split; [apply Z.div_pos; lia|apply Z.div_lt_upper_bound; lia].
Qed.

(** One register access of the two drivers. *)
Lemma set_reg_run num v s :
  uart8250_base s = UART_BASE -> uart8250_reg_shift s = 2 -> uart8250_reg_width s = 4 -> 0 <= num < 8 ->
  set_reg num v s = (Ret tt, sr_set_bus (uart_reg_write num v (uart_pass (sr_bus s))) s).
Proof.
  intros Hb Hs Hw Hn. unfold set_reg, zoom, reg_addr. rewrite Hb, Hs, Hw.
  assert (C : num = 0 \/ num = 1 \/ num = 2 \/ num = 3 \/ num = 4 \/ num = 5 \/ num = 6 \/ num = 7) by lia.
  by repeat destruct C as [-> | C]; [..|subst num].
Qed.

Lemma get_reg_run num s :
  uart8250_base s = UART_BASE -> uart8250_reg_shift s = 2 -> uart8250_reg_width s = 4 -> 0 <= num < 8 ->
  exists v, get_reg num s = (Ret v, sr_set_bus (snd (uart_reg_read num (uart_pass (sr_bus s)))) s).
Proof.
  intros Hb Hs Hw Hn. unfold get_reg, zoom, reg_addr. rewrite Hb, Hs, Hw.
  change (4 =? 1) with false. change (4 =? 2) with false. cbv iota.
  unfold readl, __raw_readl, mmio_read. cbn [bus_read uart_bus].
  replace (uart_paddr (add64 UART_BASE (u32 (Z.shiftl num (2 mod 32))))) with num.
  - destruct (uart_reg_read num (uart_pass (sr_bus s))). by eexists.
  - assert (C : num = 0 \/ num = 1 \/ num = 2 \/ num = 3 \/ num = 4 \/ num = 5 \/ num = 6 \/ num = 7) by lia.
    by repeat destruct C as [-> | C]; [..|subst num].
Qed.

(** ** Properties *)

(** [C25] Nothing the drivers write to the serial port is lost: a string printed
    by the boot ROM, and one written character by character by the firmware's
    driver, returns and ends up on the line or in the queue, in order, after
    everything written before -- for any port that empties its queue at least
    once in any [polls] accesses, however it drains otherwise. *)
Theorem serial_output_in_order polls str u s :
  uart_ok u -> uart_drains polls u -> sr_bus s = u -> serial_configured s ->
  (exists u', print_uart polls str u = (Ret tt, u') /\
     uart_out u' = uart_out u ++ map (λ c, c mod 256) str) /\
  (exists s', mfor str (uart8250_putc polls) s = (Ret tt, s') /\
     uart_out (sr_bus s') = uart_out u ++ map (λ c, c mod 256) str).
Proof.
  intros Hu Hd Hb Hs. split.
  - destruct (print_uart_spec polls str u Hu Hd) as (u' & E & _ & _ & O). by exists u'.
  - subst u. revert s Hs Hu Hd. induction str as [|c str IH]; intros s Hs Hu Hd.
    + exists s. by rewrite app_nil_r.
    + destruct (uart8250_putc_spec polls c s Hs Hu Hd) as (u1 & E1 & H1 & D1 & O1).
      destruct (IH (sr_set_bus u1 s)) as (s2 & E2 & O2); [exact Hs|exact H1|exact D1|].
      exists s2. split; [cbn [mfor]; by erewrite bind_Ret by exact E1|].
      rewrite O2. cbn [sr_bus sr_set_bus]. rewrite O1. cbn [map]. by rewrite <- app_assoc.
Qed.

(** A port that sends one character before most accesses and all of them before
    every third. *)
Definition demo_port : uart_hw :=
  UartHw 0 27 0 3 true false 0 0 [33; 33] [] [] 0
    (λ n, if (n mod 3 =? 0)%nat then 16%nat else 1%nat) (λ _, []) (λ _, 0).

Lemma serial_output_in_order_witness :
  let s := Serial demo_port demo_machine UART_BASE 50000000 115200 4 2 in
  (exists u', print_uart 3 [72; 101; 108; 108; 111] demo_port = (Ret tt, u') /\
     uart_out u' = uart_out demo_port ++ map (λ c, c mod 256) [72; 101; 108; 108; 111]) /\
  (exists s', mfor [72; 101; 108; 108; 111] (uart8250_putc 3) s = (Ret tt, s') /\
     uart_out (sr_bus s') = uart_out demo_port ++ map (λ c, c mod 256) [72; 101; 108; 108; 111]).
Proof.
  intros s. apply (serial_output_in_order 3 [72; 101; 108; 108; 111] demo_port s).
  - split; [done|]. split; [cbn; lia|done].
  - intros n. exists ((3 - n mod 3) mod 3)%nat. split; [apply Nat.mod_upper_bound; lia|].
    cbn [uart_drain demo_port].
    replace ((n + (3 - n mod 3) mod 3) mod 3)%nat with 0%nat; [cbn; lia|].
    assert (D := Nat.div_mod n 3 ltac:(lia)). assert (B := Nat.mod_upper_bound n 3 ltac:(lia)).
    destruct (n mod 3)%nat as [|[|[|r]]]; [| | |lia].
    + change ((3 - 0) mod 3)%nat with 0%nat. replace (n + 0)%nat with (n / 3 * 3)%nat by lia.
      by rewrite Nat.Div0.mod_mul.
    + change ((3 - 1) mod 3)%nat with 2%nat. replace (n + 2)%nat with ((n / 3 + 1) * 3)%nat by lia.
      by rewrite Nat.Div0.mod_mul.
    + change ((3 - 2) mod 3)%nat with 1%nat. replace (n + 1)%nat with ((n / 3 + 1) * 3)%nat by lia.
      by rewrite Nat.Div0.mod_mul.
  - done.
  - split; [done|]. split; [done|by right].
Defined.


(** The registers the set-up is about, and what a write does to them. *)
Definition port_view (u : uart_hw) : Z * Z * Z * Z * bool :=
  (iDLL u, iDLM u, iLCR u, iIER u, iFCR_FIFOEnable u).

Definition view_write (num data : Z) (v : Z * Z * Z * Z * bool) : Z * Z * Z * Z * bool :=
  let '(dll, dlm, lcr, ier, fe) := v in
  let b := data mod 256 in
  let dlab := Z.testbit lcr 7 in
  if num =? 0 then (if dlab then b else dll, dlm, lcr, ier, fe)
  else if num =? 1 then if dlab then (dll, b, lcr, ier, fe) else (dll, dlm, lcr, b mod 16, fe)
  else if num =? 2 then (dll, dlm, lcr, ier, Z.testbit b 0)
  else if num =? 3 then (dll, dlm, b, ier, fe)
  else v.

Lemma view_write_reg num data u :
  port_view (uart_reg_write num data u) = view_write num data (port_view u).
Proof.
  unfold uart_reg_write, view_write, port_view, iLCR_DLAB.
  by repeat (case_if; try reflexivity).
Qed.

Lemma view_write_spec num data u :
  port_view (uart_reg_write num data (uart_pass u)) = view_write num data (port_view u).
Proof. apply (view_write_reg num data (uart_pass u)). Qed.

(** A routine that keeps the configuration and turns the view into [f] of it. *)
Definition firmware_port (s : serial uart_hw) : Prop :=
  uart8250_base s = UART_BASE /\ uart8250_reg_shift s = 2 /\ uart8250_reg_width s = 4.

Definition port_does {A} (Q : A → Prop) (c : M (serial uart_hw) A)
    (f : Z * Z * Z * Z * bool → Z * Z * Z * Z * bool) : Prop :=
  forall s, firmware_port s -> exists a s', c s = (Ret a, s') /\ Q a /\ firmware_port s' /\
    port_view (sr_bus s') = f (port_view (sr_bus s)).

Lemma port_set num v : 0 <= num < 8 -> port_does (eq tt) (set_reg num v) (view_write num v).
Proof.
  intros Hn s (Hb & Hs & Hw). eexists tt, _. split; [by apply set_reg_run|]. split; [done|]. split; [done|].
  cbn [sr_bus sr_set_bus]. apply view_write_spec.
Qed.

Lemma port_get num : 0 <= num < 8 -> port_does (λ _, True) (get_reg num) id.
Proof.
  intros Hn s (Hb & Hs & Hw). destruct (get_reg_run num s Hb Hs Hw Hn) as (v & E). eexists v, _.
  split; [exact E|]. split; [done|]. split; [done|]. cbn [sr_bus sr_set_bus id]. unfold uart_reg_read, port_view.
  by repeat case_match.
Qed.

Lemma port_seq {A B} Q R (c : M (serial uart_hw) A) (k : M (serial uart_hw) B) f g :
  port_does Q c f -> port_does R k g -> port_does R (c ;;; k)%sbi (λ v, g (f v)).
Proof.
  intros H1 H2 s Hs. destruct (H1 s Hs) as (a & s1 & E1 & _ & C1 & V1).
  destruct (H2 s1 C1) as (b & s2 & E2 & Q2 & C2 & V2).
  exists b, s2. split; [by erewrite bind_Ret by exact E1|]. split; [done|]. split; [done|]. by rewrite V2, V1.
Qed.

Lemma port_ret {A} (a : A) : port_does (eq a) (ret a) id.
Proof. intros s Hs. by exists a, s. Qed.

Lemma port_quiet (c : M machine unit) :
  (forall m, fst (c m) = Ret tt) -> port_does (eq tt) (zoom sr_machine sr_set_machine c) id.
Proof.
  intros Hc s Hs. unfold zoom. specialize (Hc (sr_machine s)). destruct (c (sr_machine s)) as [o m].
  cbn [fst] in Hc. subst o. by eexists tt, _.
Qed.

Lemma port_ext {A} Q (c : M (serial uart_hw) A) f g :
  port_does Q c f -> (forall v, f v = g v) -> port_does Q c g.
Proof.
  intros H E s Hs. destruct (H s Hs) as (a & s' & H1 & H2 & H3 & H4). exists a, s'. by rewrite <- E.
Qed.

(** The latches written between the two writes of the line control register. *)
Definition view_init (bdiv : Z) (v : Z * Z * Z * Z * bool) : Z * Z * Z * Z * bool :=
  let v := view_write 3 0x80 (view_write 1 0 v) in
  let v := if truthy bdiv
           then view_write 1 (Z.land (shr64 bdiv 8) 0xff) (view_write 0 (Z.land bdiv 0xff) v) else v in
  view_write 7 0 (view_write 4 0 (view_write 2 1 (view_write 3 3 v))).

Lemma view_init_spec bdiv dll dlm lcr ier fe :
  Z.testbit lcr 7 = false ->
  view_init bdiv (dll, dlm, lcr, ier, fe) =
  (if bdiv =? 0 then dll else Z.land bdiv 0xff mod 256,
   if bdiv =? 0 then dlm else Z.land (shr64 bdiv 8) 0xff mod 256, 3, 0, true).
Proof.
  intros Hl. unfold view_init. cbn [view_write Z.eqb Pos.eqb]. rewrite Hl.
  unfold truthy. by destruct (bdiv =? 0).
Qed.

Definition init_rest (bdiv : Z) : M (serial uart_hw) Z :=
  (set_reg UART_IER_OFFSET 0x00 ;;;
   set_reg UART_LCR_OFFSET 0x80 ;;;
   (if truthy bdiv then
      set_reg UART_DLL_OFFSET (Z.land bdiv 0xff) ;;;
      set_reg UART_DLM_OFFSET (Z.land (shr64 bdiv 8) 0xff)
    else ret tt) ;;;
   set_reg UART_LCR_OFFSET 0x03 ;;;
   set_reg UART_FCR_OFFSET 0x01 ;;;
   set_reg UART_MCR_OFFSET 0x00 ;;;
   get_reg UART_LSR_OFFSET ;;;
   get_reg UART_RBR_OFFSET ;;;
   set_reg UART_SCR_OFFSET 0x00 ;;;
   zoom sr_machine sr_set_machine (sbi_console_set_device (Some (ConsoleDevice true true))) ;;;
   ret 0)%sbi.

Lemma port_init_rest bdiv : port_does (eq 0) (init_rest bdiv) (view_init bdiv).
Proof.
  unfold init_rest. eapply port_ext.
  - do 2 (eapply port_seq; [by apply port_set|]).
    eapply (port_seq (eq tt) _ _ _ (λ v, if truthy bdiv then view_write 1 (Z.land (shr64 bdiv 8) 0xff)
                                 (view_write 0 (Z.land bdiv 0xff) v) else v)).
    { destruct (truthy bdiv); [|apply port_ret].
      apply (port_seq (eq tt) _ _ _ (view_write 0 (Z.land bdiv 0xff)) (view_write 1 (Z.land (shr64 bdiv 8) 0xff)));
        by apply port_set. }
    do 3 (eapply port_seq; [by apply port_set|]). do 2 (eapply port_seq; [by apply port_get|]).
    eapply port_seq; [by apply port_set|]. eapply port_seq; [by apply port_quiet|]. apply port_ret.
  - reflexivity.
Qed.

(** The same for the boot ROM. *)
Lemma rom_write_run num v u :
  0 <= num < 8 ->
  write_reg_u8 (UART_BASE + 4 * num) v u = (Ret tt, uart_reg_write num v (uart_pass u)).
Proof.
  intros Hn. unfold write_reg_u8, mmio_write. cbn [bus_write uart_bus]. do 2 f_equal.
  assert (C : num = 0 \/ num = 1 \/ num = 2 \/ num = 3 \/ num = 4 \/ num = 5 \/ num = 6 \/ num = 7) by lia.
  by repeat destruct C as [-> | C]; [..|subst num].
Qed.

Lemma init_uart_view freq baud u :
  exists u', init_uart freq baud u = (Ret tt, u') /\
    let d := udiv32 freq (u32 (Z.shiftl baud 4)) in
    port_view u' = view_write 4 0x20 (view_write 2 0xC7 (view_write 3 0x03
      (view_write 1 (Z.land (Z.shiftr d 8) 0xFF) (view_write 0 (d mod 256)
        (view_write 3 0x80 (view_write 1 0 (port_view u))))))).
Proof.
  eexists. split.
  - unfold init_uart. cbv zeta.
    erewrite bind_Ret by apply (rom_write_run 1 _ _ ltac:(lia)).
    erewrite bind_Ret by apply (rom_write_run 3 _ _ ltac:(lia)).
    erewrite bind_Ret by apply (rom_write_run 0 _ _ ltac:(lia)).
    erewrite bind_Ret by apply (rom_write_run 1 _ _ ltac:(lia)).
    erewrite bind_Ret by apply (rom_write_run 3 _ _ ltac:(lia)).
    erewrite bind_Ret by apply (rom_write_run 2 _ _ ltac:(lia)).
    apply (rom_write_run 4 _ _ ltac:(lia)).
  - cbv zeta. by rewrite !view_write_spec.
Qed.

Lemma divisor_value freq baud :
  0 <= freq < 2 ^ 32 -> 0 < baud < 2 ^ 28 ->
  udiv32 freq (u32 (16 * baud)) = freq / (16 * baud) /\
  udiv32 freq (u32 (Z.shiftl baud 4)) = freq / (16 * baud) /\ 0 <= freq / (16 * baud).
Proof.
  intros Hf Hb. rewrite Z.shiftl_mul_pow2, (Z.mul_comm baud) by lia. change (2 ^ 4) with 16.
  assert (E : udiv32 freq (u32 (16 * baud)) = freq / (16 * baud)).
  { unfold udiv32, u32. rewrite Z.mod_small by lia. by rewrite (proj2 (Z.eqb_neq _ _)) by lia. }
  split; [exact E|]. split; [exact E|]. apply Z.div_pos; lia.
Qed.

(** Whatever the registers of the port hold, as long as the divisor latch
    is closed, uart8250_init and the boot ROM's init_uart leave it with the
    divisor [frequency / (16 * baud rate)] in the two halves of the latch, the
    latch closed, 8 data bits without parity and one stop bit, interrupts off
    and the queues on.  A zero divisor is not written by uart8250_init. *)
Theorem serial_init_programs_divisor freq baud s :
  0 <= freq < 2 ^ 32 -> 0 < baud < 2 ^ 28 -> freq / (16 * baud) < 2 ^ 16 ->
  iLCR_DLAB (sr_bus s) = false ->
  let div := freq / (16 * baud) in
  (exists s', uart8250_init UART_BASE freq baud 2 4 s = (Ret 0, s') /\ firmware_port s' /\
     uart_setup (sr_bus s') =
       (if div =? 0 then iDLM (sr_bus s) * 256 + iDLL (sr_bus s) else div, 3, 0, true)) /\
  (exists u', init_uart freq baud (sr_bus s) = (Ret tt, u') /\ uart_setup u' = (div, 3, 0, true)).
Proof.
  intros Hf Hb Hd Hl div. destruct (divisor_value freq baud Hf Hb) as (E1 & E2 & Hp). fold div in E1, E2, Hp, Hd.
  unfold iLCR_DLAB in Hl. assert (Hs := byte_split div (conj Hp Hd)). split.
  - unfold uart8250_init. erewrite bind_Ret by reflexivity. rewrite E1. cbv zeta.
    unfold u16. rewrite (Z.mod_small div) by lia. fold (init_rest div).
    destruct (port_init_rest div (Serial (sr_bus s) (sr_machine s) UART_BASE freq baud 4 2))
      as (a & s' & E & <- & C & V); [done|].
    cbn [sr_bus] in V. unfold port_view in V at 2. rewrite view_init_spec in V by exact Hl.
    injection V as V1 V2 V3 V4 V5. exists s'. split; [exact E|]. split; [exact C|].
    unfold uart_setup. rewrite V1, V2, V3, V4, V5. by destruct (div =? 0); [|rewrite Hs].
  - destruct (init_uart_view freq baud (sr_bus s)) as (u' & E & V). exists u'. split; [exact E|].
    cbv zeta in V. rewrite E2 in V. unfold port_view in V at 2. cbn [view_write Z.eqb Pos.eqb] in V. rewrite Hl in V.
    injection V as V1 V2 V3 V4 V5. unfold uart_setup. rewrite V1, V2, V3, V4, V5. f_equal. f_equal. f_equal.
    rewrite <- Hs at 3. f_equal. change 0xff with (2 ^ 8 - 1). by rewrite land_ones_mod by lia.
Qed.

Lemma serial_init_programs_divisor_witness :
  let s := Serial (UartHw 5 0 0 0 false false 0 0 [] [] [] 0 (λ _, 16%nat) (λ _, []) (λ _, 0))
             demo_machine 0 0 0 0 0 in
  let div := 50000000 / (16 * 115200) in
  (exists s', uart8250_init UART_BASE 50000000 115200 2 4 s = (Ret 0, s') /\ firmware_port s' /\
     uart_setup (sr_bus s') =
       (if div =? 0 then iDLM (sr_bus s) * 256 + iDLL (sr_bus s) else div, 3, 0, true)) /\
  (exists u', init_uart 50000000 115200 (sr_bus s) = (Ret tt, u') /\ uart_setup u' = (div, 3, 0, true)).
Proof. intros s. apply (serial_init_programs_divisor 50000000 115200 s); done. Defined.

(** The generator ticks every [divider + 1] cycles, one more than the drivers
    count on. *)
Theorem baudgen_period divider :
  0 <= divider < 2 ^ 16 -> cycles_to_tick (S (Z.to_nat divider)) divider 0 = divider + 1.
Proof.
  intros Hd.
  assert (H : forall n c, 0 <= c <= divider -> divider - c < Z.of_nat n ->
    cycles_to_tick n divider c = divider - c + 1).
  { induction n as [|n IH]; intros c Hc Hn; [lia|]. cbn [cycles_to_tick]. unfold baudgen_step.
    destruct (Z.eqb_spec c divider) as [->|Hne]; [lia|].
    rewrite Z.mod_small by lia. rewrite IH by lia. lia. }
  rewrite H by lia. lia.
Qed.
