(* ===== verification/Spi.v ===== *)
(** * The boot ROM's serial bus to the memory card

    Models spi.c of src/modules/cva6/corev_apu/fpga/src/bootrom/src.  The
    controller behind the registers is a vendor core (axi_quad_spi, with FIFOs of
    256 bytes) and the card is outside the chip: they are the interface [SpiBus].
    Its laws are the documented behaviour of the registers, with the bits of the
    control register as u-boot's driver for the core has them (xilinx_spi.c): the
    FIFO resets, the master inhibit, and a transfer that runs by itself while the
    core is an enabled, uninhibited master with a selected slave.

    The driver sets the inhibit bit after each transfer: it starts the transfer by
    writing the bytes and gives it a number of nops to finish.  So the interface
    has a clock, and says how long a byte takes at most ([spi_timing]).

    The state is the bus and the memory the ROM writes to, a map from addresses
    to bytes.  The theorems: exchanging one byte, or up to 64, returns exactly
    the replies of the card, and leaves the controller idle. *)

From Stdlib Require Import ZArith Lia.
From stdpp Require Import base tactics list gmap numbers strings.
From S2P Require Import Prelude Mmio Uart.

Definition SPI_BASE : Z := 0x20000000.
Definition SPI_RESET_REG : Z := SPI_BASE + 0x40.
Definition SPI_CONTROL_REG : Z := SPI_BASE + 0x60.
Definition SPI_STATUS_REG : Z := SPI_BASE + 0x64.
Definition SPI_TRANSMIT_REG : Z := SPI_BASE + 0x68.
Definition SPI_RECEIVE_REG : Z := SPI_BASE + 0x6C.
Definition SPI_SLAVE_SELECT_REG : Z := SPI_BASE + 0x70.

(** ** spi.c *)

Record rom (D : Type) : Type := Rom {
  rom_bus : D;
  rom_mem : gmap Z Z;
}.
Arguments Rom {D}.
Arguments rom_bus {D}.
Arguments rom_mem {D}.

(** What a [nop] of the core does to the devices: time passes. *)
Class Clocked (D : Type) : Type := { nop : D → D }.

Section Driver.
Context {D : Type} `{Bus D, Clocked D} (polls : nat).

Definition rom_set_bus b (s : rom D) : rom D := Rom b (rom_mem s).
Definition rom_io {A} (c : M D A) : M (rom D) A := zoom rom_bus rom_set_bus c.

Definition rom_load (a : Z) : M (rom D) Z := gets (λ s, default 0 (rom_mem s !! a)).
Definition rom_store (a v : Z) : M (rom D) unit := modify (λ s, Rom (rom_bus s) (<[a := v]> (rom_mem s))).

Definition write_reg (addr value : Z) : M D unit := mmio_write 4 value addr.
Definition read_reg (addr : Z) : M D Z := mmio_read 4 addr.

Definition print_msg (str : list Z) : M (rom D) unit := rom_io (print_uart polls str).

Definition print_num (n : Z) : M (rom D) unit := rom_io (print_uart_addr polls n).

(** The status register, printed. *)
Definition print_spi_status : M (rom D) unit :=
  (status <- rom_io (read_reg SPI_STATUS_REG) ;;
   print_msg (chars "status: 0x") ;;; print_num status ;;; print_msg crlf)%sbi.

(** [for (int i = 0; i < n; i++) __asm__ volatile("nop");] *)
Definition nops (n : nat) : M (rom D) unit := rom_io (mfor (seq 0 n) (λ _, modify nop)).

Definition spi_init : M (rom D) unit :=
  (print_msg (chars "init SPI" ++ crlf) ;;;
   rom_io (write_reg SPI_RESET_REG 0x0a) ;;;
   nops 10 ;;;
   rom_io (write_reg SPI_CONTROL_REG 0x104) ;;;
   print_spi_status ;;;
   rom_io (write_reg SPI_CONTROL_REG 0x166) ;;;
   print_spi_status ;;;
   rom_io (write_reg SPI_CONTROL_REG 0x06) ;;;
   print_msg (chars "SPI initialized!" ++ crlf))%sbi.

(** [while ((read_reg(SPI_STATUS_REG) & 0x1) == 0x1) ;] *)
Fixpoint wait_rx (fuel : nat) : M D unit :=
  match fuel with
  | O => stop spinning
  | S n =>
      (status <- read_reg SPI_STATUS_REG ;;
       if Z.land status 0x1 =? 0x1 then wait_rx n else ret tt)%sbi
  end.

Definition spi_txrx (byte : Z) : M (rom D) Z :=
  (rom_io (write_reg SPI_SLAVE_SELECT_REG 0xfffffffe) ;;;
   rom_io (write_reg SPI_TRANSMIT_REG byte) ;;;
   nops 100 ;;;
   rom_io (write_reg SPI_CONTROL_REG 0x106) ;;;
   rom_io (wait_rx polls) ;;;
   result <- rom_io (read_reg SPI_RECEIVE_REG) ;;
   status <- rom_io (read_reg SPI_STATUS_REG) ;;
   (if negb (Z.land status 0x1 =? 0x1) then
      print_msg (chars "rx fifo not empty?? ") ;;;
      status <- rom_io (read_reg SPI_STATUS_REG) ;;
      print_num status ;;; print_msg crlf
    else ret tt) ;;;
   rom_io (write_reg SPI_SLAVE_SELECT_REG 0xffffffff) ;;;
   rom_io (write_reg SPI_CONTROL_REG 0x06) ;;;
   ret (result mod 256))%sbi.

(** [for (int i = 0; i < len;) { ... ret[i++] = read_reg(SPI_RECEIVE_REG); }] *)
Fixpoint rx_loop (fuel : nat) (i len dst : Z) : M (rom D) unit :=
  if i <? len then
    match fuel with
    | O => stop spinning
    | S n =>
        (status <- rom_io (read_reg SPI_STATUS_REG) ;;
         if negb (Z.land status 0x1 =? 0x1) then
           v <- rom_io (read_reg SPI_RECEIVE_REG) ;;
           rom_store (add64 dst i) (v mod 256) ;;;
           rx_loop n (i + 1) len dst
         else rx_loop n i len dst)%sbi
    end
  else ret tt.

Definition spi_write_bytes (bytes : list Z) (dst : Z) : M (rom D) Z :=
  (let len := Z.of_nat (length bytes) in
   if 256 <? len then ret (-1)
   else
     rom_io (write_reg SPI_SLAVE_SELECT_REG 0xfffffffe) ;;;
     rom_io (mfor bytes (λ b, write_reg SPI_TRANSMIT_REG (Z.land b 0xff))) ;;;
     nops 50 ;;;
     rom_io (write_reg SPI_CONTROL_REG 0x106) ;;;
     rom_io (wait_rx polls) ;;;
     rx_loop (polls * length bytes) 0 len dst ;;;
     rom_io (write_reg SPI_SLAVE_SELECT_REG 0xffffffff) ;;;
     rom_io (write_reg SPI_CONTROL_REG 0x06) ;;;
     ret 0)%sbi.

End Driver.

(** ** The controller and the card *)

(** A card: it answers every byte with a byte. *)
Class Card (C : Type) : Type := {
  exchange : C → Z → Z * C;
  exchange_byte : forall c b, 0 <= fst (exchange c b) < 256;
}.

(** The bytes waiting to go out, those that came in, and the card. *)
Record spi_view (C : Type) : Type := SpiView {
  spi_tx : list Z;
  spi_rx : list Z;
  spi_card : C;
}.
Arguments SpiView {C}.
Arguments spi_tx {C}.
Arguments spi_rx {C}.
Arguments spi_card {C}.

Section View.
Context {C : Type} `{Card C}.

(** One byte goes out and its reply comes in. *)
Definition shift_one (v : spi_view C) : spi_view C :=
  match spi_tx v with
  | [] => v
  | b :: tx => SpiView tx (spi_rx v ++ [fst (exchange (spi_card v) b)]) (snd (exchange (spi_card v) b))
  end.

Definition shift_out (k : nat) (v : spi_view C) : spi_view C := Nat.iter k shift_one v.

(** The replies to a sequence of bytes, and the card afterwards. *)
Fixpoint replies (c : C) (bytes : list Z) : list Z :=
  match bytes with
  | [] => []
  | b :: l => fst (exchange c b) :: replies (snd (exchange c b)) l
  end.
Fixpoint card_after (c : C) (bytes : list Z) : C :=
  match bytes with
  | [] => c
  | b :: l => card_after (snd (exchange c b)) l
  end.

(** What will have come in when all is out, and the card then. *)
Definition settled (v : spi_view C) : list Z * C :=
  (spi_rx v ++ replies (spi_card v) (spi_tx v), card_after (spi_card v) (spi_tx v)).

Lemma replies_app c l1 l2 : replies c (l1 ++ l2) = replies c l1 ++ replies (card_after c l1) l2.
Proof. revert c. induction l1 as [|b l1 IH]; intros c; cbn; [done|]. by rewrite IH. Qed.

Lemma card_after_app c l1 l2 : card_after c (l1 ++ l2) = card_after (card_after c l1) l2.
Proof. revert c. induction l1 as [|b l1 IH]; intros c; cbn; [done|]. by rewrite IH. Qed.

Lemma replies_length c l : length (replies c l) = length l.
Proof. revert c. induction l as [|b l IH]; intros c; cbn; [done|]. by rewrite IH. Qed.

Lemma replies_byte c l : Forall (λ r, 0 <= r < 256) (replies c l).
Proof. revert c. induction l as [|b l IH]; intros c; cbn; constructor; [apply exchange_byte|apply IH]. Qed.

Lemma shift_one_settled v : settled (shift_one v) = settled v.
Proof.
  unfold settled, shift_one. destruct (spi_tx v) as [|b tx] eqn:E; [by rewrite E|].
  cbn. by rewrite <- app_assoc.
Qed.

Lemma shift_settled k v : settled (shift_out k v) = settled v.
Proof. induction k as [|k IH]; [done|].
  change (shift_out (S k) v) with (shift_one (shift_out k v)). by rewrite shift_one_settled. Qed.

(** The two queues together keep their size. *)
Lemma shift_length k v :
  (length (spi_tx (shift_out k v)) + length (spi_rx (shift_out k v)) = length (spi_tx v) + length (spi_rx v))%nat.
Proof.
  induction k as [|k IH]; [done|]. change (shift_out (S k) v) with (shift_one (shift_out k v)). rewrite <- IH.
  unfold shift_one. destruct (spi_tx (shift_out k v)) as [|b tx] eqn:E; [by rewrite E|].
  cbn [spi_tx spi_rx]. rewrite length_app. cbn [length]. lia.
Qed.

Lemma shift_done k v : spi_tx v = [] -> shift_out k v = v.
Proof.
  intros E. induction k as [|k IH]; [done|].
  change (shift_one (shift_out k v) = v). rewrite IH. unfold shift_one. by rewrite E.
Qed.

(** When all is out, what has come in is settled. *)
Lemma settled_done v rs c : settled v = (rs, c) -> spi_tx v = [] -> v = SpiView [] rs c.
Proof.
  unfold settled. intros E Ht. destruct v as [tx rx c']. cbn [spi_tx spi_rx spi_card] in *. subst tx.
  cbn in E. rewrite app_nil_r in E. by injection E as -> ->.
Qed.

End View.

(** The controller: its queues and the card, its control register, the slave
    select it was last given, and how many nops a running transfer still takes. *)
Record spi_core (C : Type) : Type := SpiCore {
  core_view : spi_view C;
  core_control : Z;
  core_select : Z;
  core_busy : nat;
}.
Arguments SpiCore {C}.
Arguments core_view {C}.
Arguments core_control {C}.
Arguments core_select {C}.
Arguments core_busy {C}.

Section Core.
Context {C : Type} `{Card C}.

(** Bytes go out: the core is enabled (bit 1), a master (bit 2), not inhibited
    (bit 8), with nothing else set, and the slave 0 is selected. *)
Definition live (s : spi_core C) : Prop := core_control s = 0x06 /\ core_select s = 0xfffffffe.

(** Time passes; only a live core exchanges bytes. *)
Definition passes (s s' : spi_core C) : Prop :=
  core_control s' = core_control s /\ core_select s' = core_select s /\ (core_busy s' <= core_busy s)%nat /\
  exists k, core_view s' = shift_out k (core_view s) /\ (~ live s -> k = 0%nat).

Lemma passes_done s s' : passes s s' -> spi_tx (core_view s) = [] -> core_view s' = core_view s.
Proof. intros (_ & _ & _ & k & E & _) Ht. by rewrite E, shift_done. Qed.

Lemma passes_settled s s' : passes s s' -> settled (core_view s') = settled (core_view s).
Proof. intros (_ & _ & _ & k & E & _). by rewrite E, shift_settled. Qed.

Lemma passes_live s s' : passes s s' -> live s -> live s'.
Proof. intros (E1 & E2 & _) [L1 L2]. split; congruence. Qed.

End Core.

(** The bits of the control register that clear a queue and go back to zero. *)
Definition SPICR_TXFIFO_RESET : Z := 5.
Definition SPICR_RXFIFO_RESET : Z := 6.

(** The controller on a bus.  Control, select and reset are only written when
    nothing is going out.  A byte is out [spi_byte_time] nops after it is written
    if nothing is before it, and a store to the transmit register takes at least
    as long as [spi_store_time] nops.  The serial port shares the bus, and has
    room for another character within [polls] reads of its status. *)
Class SpiBus (D C : Type) `{Bus D, Clocked D, Card C} (polls : nat) : Type := {
  spi_state : D → spi_core C;
  spi_byte_time : nat;
  spi_store_time : nat;
  spi_timing : (spi_byte_time + 63 * (spi_byte_time - spi_store_time) <= 50)%nat;
  spi_drained : forall d, spi_tx (core_view (spi_state d)) = [] <-> core_busy (spi_state d) = 0%nat;
  spi_nop : forall d, passes (spi_state d) (spi_state (nop d)) /\
    (live (spi_state d) -> core_busy (spi_state (nop d)) <= pred (core_busy (spi_state d)))%nat;
  spi_write_select : forall v d, let s := spi_state d in
    spi_tx (core_view s) = [] -> let s' := spi_state (bus_write 4 SPI_SLAVE_SELECT_REG v d) in
    core_view s' = core_view s /\ core_control s' = core_control s /\ core_select s' = v;
  spi_write_reset : forall d, let s := spi_state d in
    spi_tx (core_view s) = [] -> let s' := spi_state (bus_write 4 SPI_RESET_REG 0x0a d) in
    core_view s' = SpiView [] [] (spi_card (core_view s)) /\ core_control s' = 0x180;
  spi_write_control : forall v d, let s := spi_state d in
    spi_tx (core_view s) = [] -> let s' := spi_state (bus_write 4 SPI_CONTROL_REG v d) in
    core_view s' = SpiView [] (if Z.testbit v SPICR_RXFIFO_RESET then [] else spi_rx (core_view s)) (spi_card (core_view s)) /\
    core_control s' = Z.clearbit (Z.clearbit v SPICR_TXFIFO_RESET) SPICR_RXFIFO_RESET /\
    core_select s' = core_select s;
  spi_write_transmit : forall b d, let s := spi_state d in
    live s -> 0 <= b < 256 -> (length (spi_tx (core_view s)) + length (spi_rx (core_view s)) < 256)%nat ->
    let s' := spi_state (bus_write 4 SPI_TRANSMIT_REG b d) in
    live s' /\ (core_busy s' <= core_busy s - spi_store_time + spi_byte_time)%nat /\
    exists k, core_view s' =
      shift_out k (SpiView (spi_tx (core_view s) ++ [b]) (spi_rx (core_view s)) (spi_card (core_view s)));
  spi_read_status : forall d, let '(v, d') := bus_read 4 SPI_STATUS_REG d in
    passes (spi_state d) (spi_state d') /\ Z.testbit v 0 = bool_decide (spi_rx (core_view (spi_state d')) = []);
  spi_read_receive : forall d r rx, let s := spi_state d in
    spi_tx (core_view s) = [] -> spi_rx (core_view s) = r :: rx ->
    let '(v, d') := bus_read 4 SPI_RECEIVE_REG d in
    v mod 256 = r /\ core_view (spi_state d') = SpiView [] rx (spi_card (core_view s)) /\
    core_control (spi_state d') = core_control s;
  spi_uart_status : forall d, passes (spi_state d) (spi_state (snd (bus_read 1 UART_LINE_STATUS d)));
  spi_uart_write : forall a v d, UART_BASE <= a < UART_BASE + 32 -> passes (spi_state d) (spi_state (bus_write 1 a v d));
  spi_uart_room : forall d, exists k, (k < polls)%nat /\
    Z.testbit (fst (bus_read 1 UART_LINE_STATUS
                      (Nat.iter k (λ d, snd (bus_read 1 UART_LINE_STATUS d)) d))) 5 = true;
}.

(** ** Lemmas *)

Section Spi.
Context {D C : Type} `{SpiBus D C polls}.

Definition spi_of (d : D) : spi_view C := core_view (spi_state d).
Definition spi_control (d : D) : Z := core_control (spi_state d).

(** Nothing waits on either side; and the controller as spi_init leaves it. *)
Definition spi_idle (c : C) (d : D) : Prop := spi_of d = SpiView [] [] c.
Definition spi_ready (c : C) (d : D) : Prop := spi_idle c d /\ spi_control d = 0x06.

Lemma polls_positive : D → (0 < polls)%nat.
Proof. intros d. destruct (spi_uart_room d) as (k & Hk & _). lia. Qed.

(** The transfer is over: all replies are there. *)
Definition spi_over (rs : list Z) (c : C) (d : D) : Prop := spi_of d = SpiView [] rs c.

Lemma over_passes rs c d d' :
  passes (spi_state d) (spi_state d') -> spi_over rs c d -> spi_over rs c d' /\ spi_control d' = spi_control d.
Proof.
  intros P E. unfold spi_over, spi_of in *. split; [|apply P].
  rewrite (passes_done _ _ P) by (by rewrite E). exact E.
Qed.

Lemma over_select rs c v d : spi_over rs c d ->
  let d' := bus_write 4 SPI_SLAVE_SELECT_REG v d in
  spi_over rs c d' /\ spi_control d' = spi_control d /\ core_select (spi_state d') = v.
Proof.
  intros E. destruct (spi_write_select v d) as (E1 & E2 & E3); [unfold spi_over, spi_of in E; by rewrite E|].
  unfold spi_over, spi_of, spi_control in *. by rewrite E1.
Qed.

Lemma over_control rs c v d : spi_over rs c d ->
  let d' := bus_write 4 SPI_CONTROL_REG v d in
  spi_over (if Z.testbit v SPICR_RXFIFO_RESET then [] else rs) c d' /\
  spi_control d' = Z.clearbit (Z.clearbit v SPICR_TXFIFO_RESET) SPICR_RXFIFO_RESET.
Proof.
  intros E. destruct (spi_write_control v d) as (E1 & E2 & _); [unfold spi_over, spi_of in E; by rewrite E|].
  unfold spi_over, spi_of, spi_control in *. by rewrite E1, E.
Qed.

(** A read of the status register, as the driver sees it. *)
Lemma read_status_run rs c (d : D) : spi_over rs c d -> exists v d',
  read_reg SPI_STATUS_REG d = (Ret v, d') /\ spi_over rs c d' /\ spi_control d' = spi_control d /\
  Z.land v 0x1 = (if bool_decide (rs = []) then 1 else 0).
Proof.
  intros E. assert (K := spi_read_status d). unfold read_reg, mmio_read.
  destruct (bus_read 4 SPI_STATUS_REG d) as [v d'] eqn:Er. destruct K as (K1 & K2).
  destruct (over_passes rs c d d' K1 E) as [E' Ec].
  exists (v mod 2 ^ (8 * 4)), d'. split; [done|]. split; [done|]. split; [done|].
  fold (spi_of d') in K2. unfold spi_over in E'. rewrite E' in K2. cbn [spi_rx] in K2. rewrite <- K2.
  rewrite land_mod_low by lia. change 1 with (2 ^ 1 - 1) at 1. rewrite land_ones_mod by lia.
  rewrite Z.bit0_odd. change (2 ^ 1) with 2. rewrite (Zmod_odd v). by destruct (Z.odd v).
Qed.

(** Waiting for the first reply, which is there. *)
Lemma wait_rx_run n r rs c d :
  (0 < n)%nat -> spi_over (r :: rs) c d -> exists d', wait_rx n d = (Ret tt, d') /\ spi_over (r :: rs) c d'.
Proof.
  intros Hn E. destruct n as [|n]; [lia|]. cbn [wait_rx].
  destruct (read_status_run _ _ _ E) as (v & d' & E1 & O1 & _ & V1). erewrite bind_Ret by exact E1.
  rewrite V1. rewrite bool_decide_eq_false_2 by done. by exists d'.
Qed.

(** Taking the first reply. *)
Lemma read_receive_run d r rs c :
  spi_over (r :: rs) c d ->
  exists v d', read_reg SPI_RECEIVE_REG d = (Ret v, d') /\ v mod 256 = r /\ spi_over rs c d'.
Proof.
  intros E. unfold spi_over, spi_of in E. assert (K := spi_read_receive d r rs). cbv zeta in K. rewrite E in K.
  specialize (K eq_refl eq_refl). unfold read_reg, mmio_read.
  destruct (bus_read 4 SPI_RECEIVE_REG d) as [v d'] eqn:Er. destruct K as (K1 & K2 & _).
  eexists _, d'. split; [reflexivity|]. split; [|exact K2].
  rewrite <- K1. change 256 with (2 ^ 8). change (2 ^ (8 * 4)) with (2 ^ 8 * 2 ^ 24).
  rewrite Z.rem_mul_r by lia. rewrite Z.mul_comm, Z_mod_plus_full. apply Zmod_mod.
Qed.

(** Enough nops, and the transfer is over. *)
Lemma nops_drain n rs c d :
  live (spi_state d) -> settled (spi_of d) = (rs, c) -> (core_busy (spi_state d) <= n)%nat ->
  spi_over rs c (Nat.iter n nop d).
Proof.
  revert d. induction n as [|n IH]; intros d Hl Hs Hb.
  - apply settled_done; [exact Hs|]. apply spi_drained. cbn [Nat.iter nat_rect] in *. lia.
  - rewrite Nat.iter_succ_r. destruct (spi_nop d) as [P B]. specialize (B Hl). apply IH.
    + by eapply passes_live.
    + unfold spi_of. by rewrite (passes_settled _ _ P).
    + lia.
Qed.

(** A byte put into the transmit queue. *)
Lemma transmit_run b d rs c :
  live (spi_state d) -> 0 <= b < 256 -> settled (spi_of d) = (rs, c) ->
  (length (spi_tx (spi_of d)) + length (spi_rx (spi_of d)) < 256)%nat ->
  let d' := bus_write 4 SPI_TRANSMIT_REG b d in
  live (spi_state d') /\
  (core_busy (spi_state d') <= core_busy (spi_state d) - spi_store_time + spi_byte_time)%nat /\
  settled (spi_of d') = (rs ++ [fst (exchange c b)], snd (exchange c b)) /\
  (length (spi_tx (spi_of d')) + length (spi_rx (spi_of d')) =
   S (length (spi_tx (spi_of d)) + length (spi_rx (spi_of d))))%nat.
Proof.
  intros Hl Hb Hs Hn d'. destruct (spi_write_transmit b d Hl Hb Hn) as (L & B & k & E). fold d' in L, B, E.
  fold (spi_of d') (spi_of d) in E. split; [done|]. split; [done|]. rewrite E, shift_settled, shift_length. split.
  - unfold settled in *. cbn [spi_rx spi_card spi_tx]. rewrite replies_app, card_after_app.
    injection Hs as <- <-. cbn [replies card_after]. by rewrite app_assoc.
  - cbn [spi_rx spi_tx]. rewrite length_app. cbn [length]. lia.
Qed.

End Spi.

(** Bytes stored one after the other, from index [i] of [dst]. *)
Fixpoint store_from (dst i : Z) (l : list Z) (m : gmap Z Z) : gmap Z Z :=
  match l with
  | [] => m
  | b :: l' => store_from dst (i + 1) l' (<[add64 dst i := b]> m)
  end.

Section Exchange.
Context {D C : Type} `{SpiBus D C polls}.

Lemma rom_io_run {A} (c : M D A) d m o d' : c d = (o, d') -> rom_io c (Rom d m) = (o, Rom d' m).
Proof. intros E. unfold rom_io, zoom. cbn [rom_bus]. by rewrite E. Qed.

Lemma write_reg_run a v (d : D) m : rom_io (write_reg a v) (Rom d m) = (Ret tt, Rom (bus_write 4 a v d) m).
Proof. done. Qed.

Lemma nops_run n (d : D) m : nops n (Rom d m) = (Ret tt, Rom (Nat.iter n nop d) m).
Proof.
  unfold nops. apply rom_io_run. generalize 0%nat as i. revert d. induction n as [|n IH]; intros d i; [done|].
  cbn [seq mfor]. erewrite bind_Ret by reflexivity. rewrite IH. by rewrite Nat.iter_succ_r.
Qed.

Lemma land_byte_mod b : Z.land b 0xff = b mod 256.
Proof. change 0xff with (2 ^ 8 - 1). by rewrite land_ones_mod by lia. Qed.

(** The slave is selected: bytes go out. *)
Lemma select_live c d :
  spi_ready c d -> let d' := bus_write 4 SPI_SLAVE_SELECT_REG 0xfffffffe d in
  live (spi_state d') /\ spi_idle c d' /\ core_busy (spi_state d') = 0%nat.
Proof.
  intros [Hi Hc] d'. destruct (over_select [] c 0xfffffffe d Hi) as (O & C1 & S1). fold d' in O, C1, S1.
  split; [split; [unfold spi_control in *; congruence|done]|]. split; [exact O|].
  apply spi_drained. unfold spi_over, spi_of in O. by rewrite O.
Qed.

(** The end of an exchange. *)
Lemma release_run c (d : D) m A (k : M (rom D) A) :
  spi_idle c d ->
  exists d', spi_ready c d' /\
    (rom_io (write_reg SPI_SLAVE_SELECT_REG 0xffffffff) ;;;
     rom_io (write_reg SPI_CONTROL_REG 0x06) ;;; k)%sbi (Rom d m) = k (Rom d' m).
Proof.
  intros Hi. exists (bus_write 4 SPI_CONTROL_REG 0x06 (bus_write 4 SPI_SLAVE_SELECT_REG 0xffffffff d)).
  destruct (over_select [] c 0xffffffff d Hi) as (O1 & _). destruct (over_control [] c 0x06 _ O1) as [O2 C2].
  split; [by split|]. by rewrite !(bind_Ret _ _ _ _ _ (write_reg_run _ _ _ _)).
Qed.

Lemma spi_txrx_run c d m b :
  spi_ready c d -> 0 <= b < 256 ->
  exists d', spi_txrx polls b (Rom d m) = (Ret (fst (exchange c b)), Rom d' m) /\
    spi_ready (snd (exchange c b)) d'.
Proof.
  intros Hr Hb. unfold spi_txrx. rewrite (bind_Ret _ _ _ _ _ (write_reg_run _ _ _ _)).
  destruct (select_live c d Hr) as (L1 & I1 & B1). set (d1 := bus_write 4 SPI_SLAVE_SELECT_REG _ d) in *.
  destruct (transmit_run b d1 [] c L1 Hb) as (L2 & B2 & S2 & _);
    [unfold spi_idle in I1; by rewrite I1|unfold spi_idle in I1; rewrite I1; cbn; lia|].
  rewrite (bind_Ret _ _ _ _ _ (write_reg_run _ _ _ _)). set (d2 := bus_write 4 SPI_TRANSMIT_REG b d1) in *.
  cbn [app] in S2. set (r := fst (exchange c b)) in *. set (c' := snd (exchange c b)) in *.
  rewrite (bind_Ret _ _ _ _ _ (nops_run 100 d2 m)).
  assert (O3 := nops_drain 100 [r] c' d2 L2 S2 ltac:(assert (T := spi_timing); lia)).
  set (d3 := Nat.iter 100 nop d2) in *.
  rewrite (bind_Ret _ _ _ _ _ (write_reg_run _ _ _ _)). destruct (over_control [r] c' 0x106 d3 O3) as [O4 _].
  destruct (wait_rx_run polls r [] c' _ (polls_positive d) O4) as (d5 & E5 & O5).
  erewrite bind_Ret by (apply rom_io_run; exact E5).
  destruct (read_receive_run d5 r [] c' O5) as (v & d6 & E6 & V6 & O6).
  erewrite bind_Ret by (apply rom_io_run; exact E6).
  destruct (read_status_run _ _ _ O6) as (st & d7 & E7 & O7 & _ & B7).
  erewrite bind_Ret by (apply rom_io_run; exact E7). cbv beta. rewrite B7.
  rewrite bool_decide_eq_true_2 by done. change (negb (1 =? 1)) with false. cbv iota. rewrite bind_ret_l.
  destruct (release_run c' d7 m Z (ret (v mod 256)) O7) as (d8 & I8 & E8). rewrite E8.
  exists d8. split; [|done]. unfold ret. by rewrite V6.
Qed.

End Exchange.

Section Transfer.
Context {D C : Type} `{SpiBus D C polls}.

(** The loop that collects the replies, which are all there. *)
Lemma rx_loop_spec fuel i dst rs c d m :
  spi_over rs c d -> (length rs <= fuel)%nat ->
  exists d', rx_loop fuel i (i + Z.of_nat (length rs)) dst (Rom d m) = (Ret tt, Rom d' (store_from dst i rs m)) /\
    spi_idle c d'.
Proof.
  revert i rs d m. induction fuel as [|n IH]; intros i rs d m Ho Hf; (destruct rs as [|r rs];
    [exists d; cbn [rx_loop length]; rewrite Z.add_0_r, Z.ltb_irrefl; by split|]); cbn [length] in *; [lia|].
  cbn [rx_loop]. rewrite (proj2 (Z.ltb_lt i _)) by lia.
  destruct (read_status_run _ _ _ Ho) as (v & d1 & E1 & O1 & _ & B1).
  erewrite bind_Ret by (apply rom_io_run; exact E1). cbv beta. rewrite B1, bool_decide_eq_false_2 by done.
  change (negb (0 =? 1)) with true. cbv iota.
  destruct (read_receive_run d1 r rs c O1) as (v2 & d2 & E2 & V2 & O2).
  erewrite bind_Ret by (apply rom_io_run; exact E2). cbv beta. rewrite V2.
  erewrite bind_Ret by reflexivity. cbn [rom_bus rom_mem].
  replace (i + Z.of_nat (S (length rs))) with (i + 1 + Z.of_nat (length rs)) by lia.
  destruct (IH (i + 1) rs d2 (<[add64 dst i := r]> m) O2 ltac:(lia)) as (d' & E' & I'). by exists d'.
Qed.

(** The bytes of a transfer, written one after the other, [j] of them already. *)
Lemma transmit_all bytes j d rs c :
  Forall (λ b, 0 <= b < 256) bytes -> live (spi_state d) -> settled (spi_of d) = (rs, c) ->
  (length (spi_tx (spi_of d)) + length (spi_rx (spi_of d)) = j)%nat -> (j + length bytes <= 64)%nat ->
  (core_busy (spi_state d) - spi_store_time <= j * (spi_byte_time - spi_store_time))%nat ->
  (core_busy (spi_state d) <= 50)%nat ->
  exists d', mfor bytes (λ b, write_reg SPI_TRANSMIT_REG (Z.land b 0xff)) d = (Ret tt, d') /\
    live (spi_state d') /\ settled (spi_of d') = (rs ++ replies c bytes, card_after c bytes) /\
    (core_busy (spi_state d') <= 50)%nat.
Proof.
  intros Hb. revert j d rs c. induction Hb as [|b bytes Hb Hbs IH]; intros j d rs c Hl Hs Hj Hn Ht Ht'.
  - exists d. cbn. by rewrite app_nil_r.
  - cbn [length] in Hn. cbn [mfor]. rewrite land_byte_mod, Z.mod_small by lia.
    destruct (transmit_run b d rs c Hl Hb Hs ltac:(lia)) as (L1 & B1 & S1 & N1).
    erewrite bind_Ret by reflexivity. set (d1 := bus_write 4 SPI_TRANSMIT_REG b d) in *.
    assert (T := spi_timing). set (g := (spi_byte_time - spi_store_time)%nat) in *.
    assert (Hg : (j * g <= 63 * g)%nat) by (apply Nat.mul_le_mono_r; lia).
    assert (Hg0 : (spi_byte_time <= spi_store_time)%nat -> g = 0%nat) by lia.
    destruct (IH (S j) d1 _ _ L1 S1) as (d2 & E2 & L2 & S2 & B2); [lia|lia| |lia|].
    + cbn [Nat.mul]. destruct (Nat.le_ge_cases spi_byte_time spi_store_time) as [Hle|Hge]; [|lia].
      rewrite (Hg0 Hle) in *. lia.
    + exists d2. split; [exact E2|]. split; [done|]. split; [|done].
      rewrite S2. cbn [replies card_after]. by rewrite <- app_assoc.
Qed.

Lemma spi_write_bytes_run bytes dst c d m :
  spi_ready c d -> Forall (λ b, 0 <= b < 256) bytes -> (0 < length bytes <= 64)%nat ->
  exists d', spi_write_bytes polls bytes dst (Rom d m) =
    (Ret 0, Rom d' (store_from dst 0 (replies c bytes) m)) /\ spi_ready (card_after c bytes) d'.
Proof.
  intros Hr Hb Hl. unfold spi_write_bytes. cbv zeta.
  rewrite (proj2 (Z.ltb_ge 256 (Z.of_nat (length bytes)))) by lia.
  rewrite (bind_Ret _ _ _ _ _ (write_reg_run _ _ _ _)).
  destruct (select_live c d Hr) as (L1 & I1 & B1). set (d1 := bus_write 4 SPI_SLAVE_SELECT_REG _ d) in *.
  destruct (transmit_all bytes 0 d1 [] c Hb L1) as (d2 & E2 & L2 & S2 & B2);
    [unfold spi_idle in I1; by rewrite I1|unfold spi_idle in I1; by rewrite I1|lia|lia|lia|].
  erewrite bind_Ret by (apply rom_io_run; exact E2).
  rewrite (bind_Ret _ _ _ _ _ (nops_run 50 d2 m)).
  cbn [app] in S2. assert (O3 := nops_drain 50 _ _ d2 L2 S2 B2). set (d3 := Nat.iter 50 nop d2) in *.
  rewrite (bind_Ret _ _ _ _ _ (write_reg_run _ _ _ _)).
  set (rs := replies c bytes) in *. set (c' := card_after c bytes) in *.
  assert (Hrs : length rs = length bytes) by apply replies_length.
  destruct (over_control rs c' 0x106 d3 O3) as [O4 _].
  change (Z.testbit 0x106 SPICR_RXFIFO_RESET) with false in O4. cbv iota in O4.
  destruct rs as [|r rs'] eqn:Er; [cbn in Hrs; lia|].
  destruct (wait_rx_run polls r rs' c' _ (polls_positive d) O4) as (d5 & E5 & O5). rewrite <- Er in *.
  erewrite bind_Ret by (apply rom_io_run; exact E5).
  assert (Hp := polls_positive d).
  destruct (rx_loop_spec (polls * length bytes) 0 dst rs c' d5 m O5) as (d6 & E6 & I6); [rewrite Hrs; nia|].
  rewrite Hrs in E6. rewrite Z.add_0_l in E6. erewrite bind_Ret by exact E6.
  destruct (release_run c' d6 (store_from dst 0 rs m) Z (ret 0) I6) as (d7 & I7 & E7). rewrite E7.
  by exists d7.
Qed.

(** Output to the serial port: it returns and leaves an idle controller idle,
    with its control register. *)
Definition quiet (io : M D unit) : Prop :=
  forall c d, spi_idle c d -> exists d', io d = (Ret tt, d') /\ spi_idle c d' /\ spi_control d' = spi_control d.

Lemma wait_transmit_idle n k c d :
  (k < n)%nat -> spi_idle c d ->
  Z.testbit (fst (bus_read 1 UART_LINE_STATUS
                    (Nat.iter k (λ d, snd (bus_read 1 UART_LINE_STATUS d)) d))) 5 = true ->
  exists d', wait_transmit_empty n d = (Ret tt, d') /\ spi_idle c d' /\ spi_control d' = spi_control d.
Proof.
  revert k d. induction n as [|n IH]; intros k d Hk Hi Hb; [lia|]. cbn [wait_transmit_empty].
  destruct (over_passes [] c d _ (spi_uart_status d) Hi) as [I1 C1].
  unfold is_transmit_empty, read_reg_u8, mmio_read. rewrite bind_assoc.
  destruct (bus_read 1 UART_LINE_STATUS d) as [v d1] eqn:E. cbn [snd] in I1, C1.
  erewrite bind_Ret by (cbv beta; rewrite E; reflexivity). rewrite bind_ret_l.
  rewrite land_mod_low by lia. destruct (Z.land v 0x20 =? 0) eqn:Ev; [|by exists d1].
  destruct k as [|k].
  - exfalso. change (Z.testbit (fst (bus_read 1 UART_LINE_STATUS d)) 5 = true) in Hb.
    rewrite E in Hb. cbn [fst] in Hb. apply Z.eqb_eq in Ev.
    assert (F : Z.testbit (Z.land v 0x20) 5 = true) by (by rewrite Z.land_spec, Hb).
    by rewrite Ev in F.
  - rewrite Nat.iter_succ_r, E in Hb. destruct (IH k d1 ltac:(lia) I1 Hb) as (d2 & E2 & I2 & C2).
    exists d2. split; [done|]. split; [done|congruence].
Qed.

Lemma quiet_write a v : UART_BASE <= a < UART_BASE + 32 -> quiet (write_reg_u8 a v).
Proof.
  intros Ha c d Hi. exists (bus_write 1 a v d). split; [done|]. exact (over_passes [] c d _ (spi_uart_write a v d Ha) Hi).
Qed.

Lemma quiet_seq m1 m2 : quiet m1 -> quiet m2 -> quiet (m1 ;;; m2)%sbi.
Proof.
  intros Q1 Q2 c d Hi. destruct (Q1 c d Hi) as (d1 & E1 & I1 & C1). destruct (Q2 c d1 I1) as (d2 & E2 & I2 & C2).
  exists d2. split; [by erewrite bind_Ret by exact E1|]. split; [done|congruence].
Qed.

Lemma quiet_serial ch : quiet (write_serial polls ch).
Proof.
  apply quiet_seq; [|by apply quiet_write]. intros c d Hi. destruct (spi_uart_room d) as (k & Hk & Hb).
  exact (wait_transmit_idle polls k c d Hk Hi Hb).
Qed.

Lemma quiet_mfor {I} (l : list I) (body : I → M D unit) : (forall i, quiet (body i)) -> quiet (mfor l body).
Proof.
  intros Hb. induction l as [|i l IH]; [intros c d Hi; by exists d|]. cbn [mfor]. by apply quiet_seq.
Qed.

Lemma quiet_byte v : quiet (print_uart_byte polls v).
Proof. apply quiet_seq; apply quiet_serial. Qed.

End Transfer.
