(* ===== verification/SdCard.v ===== *)
(** * The boot ROM: the memory card

    Models sd.c of src/modules/cva6/corev_apu/fpga/src/bootrom/src: the commands
    sent to the card, its initialisation and the copy of blocks, checksums
    included.  [polls] bounds the busy-wait loops.

    The card is the interface [MemoryCard]: the part of the SPI mode of the SD
    specification the ROM relies on.  [rom_run] states what a computation of the
    ROM returns and does to the card and to memory; the theorems: the checksum is
    CRC-16-CCITT, and a copy stores exactly what the card sends. *)

From Stdlib Require Import ZArith Lia.
From stdpp Require Import base tactics list gmap numbers strings.
From S2P Require Import Prelude Mmio Uart Spi.

Definition SD_CMD_STOP_TRANSMISSION : Z := 12.
Definition SD_CMD_READ_BLOCK_MULTIPLE : Z := 18.
Definition SD_DATA_TOKEN : Z := 0xfe.
Definition SD_COPY_ERROR_CMD18 : Z := -1.
Definition SD_COPY_ERROR_CMD18_CRC : Z := -2.
Definition SD_INIT_ERROR_CMD0 : Z := -1.
Definition SD_INIT_ERROR_CMD8 : Z := -2.
Definition SD_INIT_ERROR_ACMD41 : Z := -3.

(** ** sd.c *)

(** [uint8_t] arithmetic, with the shift of a promoted [int]. *)
Definition crc7 (prev inp : Z) : Z :=
  let remainder := Z.land prev inp in
  let remainder := Z.lxor remainder (Z.lxor (Z.shiftr remainder 4) (Z.shiftr remainder 7)) mod 256 in
  let remainder := Z.lxor remainder (Z.shiftl remainder 4) mod 256 in
  Z.land remainder 0x7f.

Definition crc16 (crc data : Z) : Z :=
  let crc := u16 (Z.lor (Z.shiftr crc 8 mod 256) (Z.shiftl crc 8)) in
  let crc := Z.lxor crc data in
  let crc := Z.lxor crc (Z.land (Z.shiftr crc 4 mod 256) 0xf) in
  let crc := u16 (Z.lxor crc (Z.shiftl crc 12)) in
  u16 (Z.lxor crc (Z.shiftl (Z.land crc 0xff) 5)).

Section Rom.
Context {D : Type} `{Bus D, Clocked D} (polls : nat).

Definition sd_dummy : M (rom D) Z := spi_txrx polls 0xFF.

(** [do { r = sd_dummy(); if (!(r & 0x80)) break; } while (--n > 0);] *)
Fixpoint response_loop (n : nat) : M (rom D) Z :=
  match n with
  | O => ret 0
  | S n' =>
      (r <- sd_dummy ;;
       if negb (truthy (Z.land r 0x80)) then ret r
       else match n' with O => ret r | S _ => response_loop n' end)%sbi
  end.

Definition sd_cmd (cmd arg crc : Z) : M (rom D) Z :=
  (sd_dummy ;;;
   spi_txrx polls (Z.lor 0x40 cmd) ;;;
   spi_txrx polls (Z.shiftr arg 24 mod 256) ;;;
   spi_txrx polls (Z.shiftr arg 16 mod 256) ;;;
   spi_txrx polls (Z.shiftr arg 8 mod 256) ;;;
   spi_txrx polls (arg mod 256) ;;;
   spi_txrx polls crc ;;;
   response_loop 100)%sbi.

Definition print_byte (v : Z) : M (rom D) unit := rom_io (print_uart_byte polls v).
Definition print_int (v : Z) : M (rom D) unit := rom_io (print_uart_int polls v).

Definition print_status (cmd : list Z) (response : Z) : M (rom D) unit :=
  (print_msg polls (chars "SD command ") ;;;
   print_msg polls cmd ;;;
   print_msg polls (chars " " ++ tab ++ chars "response : ") ;;;
   print_byte response ;;;
   print_msg polls crlf)%sbi.

(** [counter] times [cmd0]: [counter--; if (counter <= 0) return 1 == 0;] is
    tested before the answer. *)
Fixpoint cmd0_loop (counter : nat) : M (rom D) (option Z) :=
  match counter with
  | O => ret None
  | S n =>
      (r <- sd_cmd 0 0 0x95 ;;
       sd_dummy ;;;
       match n with
       | O => ret None
       | S _ => if negb (r =? 0x1) then cmd0_loop n else ret (Some r)
       end)%sbi
  end.

Definition sd_cmd0 : M (rom D) bool :=
  (res <- cmd0_loop (Z.to_nat 10000) ;;
   match res with
   | None => ret false
   | Some r => print_status (chars "cmd0") r ;;; ret (r =? 0x1)
   end)%sbi.

Definition sd_cmd8 : M (rom D) bool :=
  (r1 <- sd_cmd 8 0x1aa 0x87 ;;
   sd_dummy ;;;
   sd_dummy ;;;
   r4 <- sd_dummy ;;
   r5 <- sd_dummy ;;
   sd_dummy ;;;
   sd_dummy ;;;
   ret ((r1 =? 0x1) && (Z.land r4 0xf =? 0x1) && (r5 =? 0xaa)))%sbi.

Definition sd_cmd55 : M (rom D) bool :=
  (r <- sd_cmd 55 0x0 0x65 ;;
   sd_dummy ;;;
   print_status (chars "cmd55") r ;;;
   ret (r =? 0x1))%sbi.

Fixpoint acmd41_loop (fuel : nat) : M (rom D) Z :=
  match fuel with
  | O => stop spinning
  | S n =>
      (sd_cmd55 ;;;
       r <- sd_cmd 41 0x40000000 0x77 ;;
       print_status (chars "cmd41") r ;;;
       sd_dummy ;;;
       if r =? 0x1 then acmd41_loop n else ret r)%sbi
  end.

Definition sd_acmd41 : M (rom D) bool :=
  (r <- acmd41_loop polls ;; ret (r =? 0x00))%sbi.

Definition init_sd : M (rom D) Z :=
  (spi_init polls ;;;
   print_msg polls (chars "initializing SD... " ++ crlf) ;;;
   mfor (seq 0 10) (λ _, sd_dummy ;;; ret tt) ;;;
   ok0 <- sd_cmd0 ;;
   if negb ok0 then ret SD_INIT_ERROR_CMD0
   else
     ok8 <- sd_cmd8 ;;
     if negb ok8 then ret SD_INIT_ERROR_CMD8
     else
       ok41 <- sd_acmd41 ;;
       if negb ok41 then ret SD_INIT_ERROR_ACMD41
       else ret 0)%sbi.

(** [while (sd_dummy() != SD_DATA_TOKEN) ;] *)
Fixpoint wait_token (fuel : nat) : M (rom D) unit :=
  match fuel with
  | O => stop spinning
  | S n => (r <- sd_dummy ;; if negb (r =? SD_DATA_TOKEN) then wait_token n else ret tt)%sbi
  end.

(** [for (i = 0; i < n; i++) crc = crc16(crc, p[i]);] *)
Fixpoint crc_loop (n : nat) (p i crc : Z) : M (rom D) Z :=
  match n with
  | O => ret crc
  | S n' => (b <- rom_load (add64 p i) ;; crc_loop n' p (i + 1) (crc16 crc b))%sbi
  end.

(** [n] transfers of 64 bytes; the new [p] and [crc]. *)
Fixpoint transfer_loop (n : nat) (p crc : Z) : M (rom D) (Z * Z) :=
  match n with
  | O => ret (p, crc)
  | S n' =>
      (spi_write_bytes polls (replicate 64 0xff) p ;;;
       crc' <- crc_loop 64 p 0 crc ;;
       transfer_loop n' (add64 p 64) crc')%sbi
  end.

(** [do { ... } while (--i > 0);], [blocks] rounds in all, the first with
    counter [i]. *)
Fixpoint block_loop (blocks : nat) (i p : Z) : M (rom D) Z :=
  match blocks with
  | O => ret 0
  | S n =>
      (wait_token polls ;;;
       pc <- transfer_loop 8 p 0 ;;
       let '(p', crc) := pc in
       hi <- sd_dummy ;;
       lo <- sd_dummy ;;
       let crc_exp := Z.lor (u16 (Z.shiftl hi 8)) lo in
       if negb (crc =? crc_exp) then ret SD_COPY_ERROR_CMD18_CRC
       else
         (if i mod 1000 =? 0 then print_msg polls (chars ".") else ret tt) ;;;
         block_loop n (i - 1) p')%sbi
  end.

(** The checksum sent with the read command. *)
Definition read_crc (src_lba : Z) : Z :=
  let crc := crc7 0 (Z.lor 0x40 SD_CMD_READ_BLOCK_MULTIPLE) in
  let crc := crc7 crc (Z.land (Z.shiftr src_lba 24) 0xff) in
  let crc := crc7 crc (Z.land (Z.shiftr src_lba 16) 0xff) in
  let crc := crc7 crc (Z.land (Z.shiftr src_lba 8) 0xff) in
  let crc := crc7 crc (Z.land src_lba 0xff) in
  Z.lor (Z.shiftl crc 1) 1 mod 256.

(** The rounds of the loop: one even when [size] is zero. *)
Definition copy_rounds (size : Z) : nat := Z.to_nat (Z.max 1 size).

Definition sd_copy (dst src_lba size : Z) : M (rom D) Z :=
  (r <- sd_cmd 18 src_lba (read_crc src_lba) ;;
   if negb (r =? 0x00) then
     mfor (seq 0 8) (λ _, sd_dummy ;;; ret tt) ;;;
     print_msg polls (chars "could not read SD block" ++ crlf) ;;;
     ret SD_COPY_ERROR_CMD18
   else
     rc <- block_loop (copy_rounds size) size dst ;;
     sd_cmd SD_CMD_STOP_TRANSMISSION 0 0x01 ;;;
     sd_dummy ;;;
     ret rc)%sbi.

End Rom.

(** ** The checksum *)

(** CRC-16-CCITT, bit by bit: the remainder of the message, high bit first,
    modulo [x^16 + x^12 + x^5 + 1]. *)
Definition ccitt_bit (crc : Z) : Z :=
  Z.lxor (u16 (2 * crc)) (if Z.testbit crc 15 then 0x1021 else 0).
Definition ccitt_byte (crc data : Z) : Z := Nat.iter 8 ccitt_bit (Z.lxor crc (data * 256)).
Definition ccitt (l : list Z) : Z := fold_left ccitt_byte l 0.

(** Functions linear over the exclusive or. *)
Definition linear (f : Z → Z) : Prop := forall x y, f (Z.lxor x y) = Z.lxor (f x) (f y).

Lemma lxor_exchange a b c d : Z.lxor (Z.lxor a b) (Z.lxor c d) = Z.lxor (Z.lxor a c) (Z.lxor b d).
Proof. rewrite !Z.lxor_assoc. f_equal. rewrite <- !Z.lxor_assoc. f_equal. apply Z.lxor_comm. Qed.

Lemma linear_id : linear (λ x, x).
Proof. by intros x y. Qed.

Lemma linear_lxor f g : linear f -> linear g -> linear (λ x, Z.lxor (f x) (g x)).
Proof. intros Hf Hg x y. rewrite Hf, Hg. apply lxor_exchange. Qed.

Lemma linear_comp f g : linear f -> linear g -> linear (λ x, f (g x)).
Proof. intros Hf Hg x y. by rewrite Hg, Hf. Qed.

Lemma linear_iter f n : linear f -> linear (Nat.iter n f).
Proof. intros Hf. induction n as [|n IH]; [apply linear_id|]. intros x y.
  change (f (Nat.iter n f (Z.lxor x y)) = Z.lxor (f (Nat.iter n f x)) (f (Nat.iter n f y))).
  by rewrite IH, Hf. Qed.

Lemma linear_shiftr k : linear (λ x, Z.shiftr x k).
Proof. intros x y. apply Z.shiftr_lxor. Qed.

Lemma linear_shiftl k : linear (λ x, Z.shiftl x k).
Proof. intros x y. apply Z.shiftl_lxor. Qed.

Lemma linear_mod k : 0 <= k -> linear (λ x, x mod 2 ^ k).
Proof.
  intros Hk x y. apply Z.bits_inj'. intros i Hi. rewrite Z.lxor_spec. destruct (Z.lt_ge_cases i k).
  - by rewrite !Z.mod_pow2_bits_low, Z.lxor_spec by lia.
  - by rewrite !Z.mod_pow2_bits_high by lia.
Qed.

Lemma linear_land c : linear (λ x, Z.land x c).
Proof.
  intros x y. apply Z.bits_inj'. intros i Hi. rewrite !Z.lxor_spec, !Z.land_spec, Z.lxor_spec.
  by destruct (Z.testbit x i), (Z.testbit y i), (Z.testbit c i).
Qed.

Lemma linear_bit k c : linear (λ x, if Z.testbit x k then c else 0).
Proof.
  intros x y. rewrite Z.lxor_spec. destruct (Z.testbit x k), (Z.testbit y k); cbn [xorb].
  - by rewrite Z.lxor_nilpotent.
  - by rewrite Z.lxor_0_r.
  - by rewrite Z.lxor_0_l.
  - done.
Qed.

Create HintDb linear.
#[local] Hint Resolve linear_id linear_lxor linear_shiftr linear_shiftl linear_land linear_bit linear_iter : linear.

(** [crc16] with the data already folded into the checksum. *)
Definition crc16_fold (w : Z) : Z :=
  let crc := Z.lxor (Z.shiftr w 8) (u16 (Z.shiftl w 8)) in
  let crc := Z.lxor crc (Z.land (Z.shiftr crc 4) 0xf) in
  let crc := Z.lxor crc (u16 (Z.shiftl crc 12)) in
  Z.lxor crc (u16 (Z.shiftl (Z.land crc 0xff) 5)).

Lemma ccitt_bit_linear : linear ccitt_bit.
Proof.
  apply linear_lxor; [|apply linear_bit]. apply (linear_comp u16 (λ x, 2 * x)).
  - by apply linear_mod.
  - intros x y. rewrite !(Z.mul_comm 2). change 2 with (2 ^ 1).
    rewrite <- !Z.shiftl_mul_pow2 by lia. apply linear_shiftl.
Qed.

Lemma crc16_fold_linear : linear crc16_fold.
Proof.
  assert (L : forall f g, linear g -> linear f -> linear (λ x, f (Z.lxor x (g x)))).
  { intros f g Hg Hf. apply (linear_comp f); [done|]. apply linear_lxor; [apply linear_id|done]. }
  assert (U : linear u16) by (by apply linear_mod).
  unfold crc16_fold. cbv zeta.
  apply (linear_comp (λ crc, (λ crc, (λ crc, Z.lxor crc (u16 (Z.shiftl (Z.land crc 0xff) 5)))
           (Z.lxor crc (u16 (Z.shiftl crc 12)))) (Z.lxor crc (Z.land (Z.shiftr crc 4) 0xf)))
           (λ w, Z.lxor (Z.shiftr w 8) (u16 (Z.shiftl w 8)))).
  - apply (L (λ crc, (λ crc, Z.lxor crc (u16 (Z.shiftl (Z.land crc 0xff) 5))) (Z.lxor crc (u16 (Z.shiftl crc 12))))
             (λ crc, Z.land (Z.shiftr crc 4) 0xf)).
    + apply (linear_comp (λ x, Z.land x 0xf)); auto with linear.
    + apply (L (λ crc, Z.lxor crc (u16 (Z.shiftl (Z.land crc 0xff) 5))) (λ crc, u16 (Z.shiftl crc 12))).
      * apply (linear_comp u16); auto with linear.
      * apply linear_lxor; [apply linear_id|]. apply (linear_comp u16); [done|].
        apply (linear_comp (λ x, Z.shiftl x 5)); auto with linear.
  - apply linear_lxor; [apply linear_shiftr|]. apply (linear_comp u16); auto with linear.
Qed.

Lemma crc16_fold_spec w : 0 <= w < 2 ^ 16 -> crc16_fold w = Nat.iter 8 ccitt_bit w.
Proof.
  intros Hw.
  assert (Hb : forall k b, k = 1 \/ k = 256 -> 0 <= b < 256 ->
    crc16_fold (b * k) = Nat.iter 8 ccitt_bit (b * k)).
  { intros k b Hk Hb.
    assert (A : forallb (λ n, (crc16_fold (Z.of_nat n * 1) =? Nat.iter 8 ccitt_bit (Z.of_nat n * 1)) &&
      (crc16_fold (Z.of_nat n * 256) =? Nat.iter 8 ccitt_bit (Z.of_nat n * 256))) (seq 0 256) = true)
      by by vm_compute.
    rewrite forallb_forall in A. specialize (A (Z.to_nat b)). rewrite Z2Nat.id in A by lia.
    rewrite andb_true_iff, !Z.eqb_eq in A. destruct A as [A1 A2]; [apply in_seq; lia|].
    by destruct Hk as [-> | ->]. }
  assert (Hq : 0 <= w / 256 < 256) by (split; [apply Z.div_pos|apply Z.div_lt_upper_bound]; lia).
  assert (Hr : 0 <= w mod 256 < 256) by (apply Z.mod_pos_bound; lia).
  assert (E : w = Z.lxor (w / 256 * 256) (w mod 256 * 1)).
  { rewrite Z.mul_1_r. rewrite Z.lxor_lor.
    - change 256 with (2 ^ 8). rewrite lor_low by (change (2 ^ 8) with 256; lia).
      rewrite Z.mul_comm. apply Z.div_mod. lia.
    - change 256 with (2 ^ 8). apply land_high_low; [done|]. change (2 ^ 8) with 256. lia. }
  rewrite E, crc16_fold_linear, (linear_iter _ 8 ccitt_bit_linear), !Hb; auto.
Qed.

Lemma u16_linear : linear u16.
Proof. by apply linear_mod. Qed.

Lemma u16_small x : 0 <= x < 2 ^ 16 -> u16 x = x.
Proof. apply Z.mod_small. Qed.

Lemma u16_idemp x : u16 (u16 x) = u16 x.
Proof. apply Zmod_mod. Qed.

(** The checksum of a byte is the reference's. *)
Lemma crc16_step c d : 0 <= c < 2 ^ 16 -> 0 <= d < 256 -> crc16 c d = ccitt_byte c d.
Proof.
  intros Hc Hd. unfold ccitt_byte. rewrite <- crc16_fold_spec.
  2:{ rewrite <- (u16_small c), <- (u16_small (d * 256)), <- u16_linear by lia. apply Z.mod_pos_bound. lia. }
  set (w := Z.lxor c (d * 256)).
  assert (Hs : Z.shiftl d 8 = d * 256) by (rewrite Z.shiftl_mul_pow2 by lia; done).
  assert (Hh : 0 <= Z.shiftr c 8 < 2 ^ 8).
  { rewrite Z.shiftr_div_pow2 by lia. split; [apply Z.div_pos|apply Z.div_lt_upper_bound]; lia. }
  assert (E1 : Z.lxor (u16 (Z.lor (Z.shiftr c 8 mod 256) (Z.shiftl c 8))) d =
               Z.lxor (Z.shiftr w 8) (u16 (Z.shiftl w 8))).
  { change 256 with (2 ^ 8). rewrite (Z.mod_small _ (2 ^ 8)) by lia.
    rewrite Z.lor_comm, <- Z.lxor_lor by (rewrite Z.shiftl_mul_pow2 by lia; by apply land_high_low).
    unfold w. rewrite Z.shiftr_lxor, Z.shiftl_lxor, !u16_linear, <- Hs.
    rewrite (u16_small (Z.shiftr c 8)) by lia. rewrite Z.shiftr_shiftl_l, Z.shiftl_shiftl by lia.
    change (8 - 8) with 0. rewrite Z.shiftl_0_r. change (8 + 8) with 16.
    replace (u16 (Z.shiftl d 16)) with 0 by (unfold u16; rewrite Z.shiftl_mul_pow2, Z.mod_mul by lia; done).
    rewrite Z.lxor_0_r. rewrite !Z.lxor_assoc. rewrite (Z.lxor_comm (u16 _)), !Z.lxor_assoc. done. }
  unfold crc16, crc16_fold. cbv zeta. rewrite E1. set (x := Z.lxor (Z.shiftr w 8) (u16 (Z.shiftl w 8))).
  assert (Hx : u16 x = x).
  { unfold x. rewrite <- E1, u16_linear, u16_idemp, (u16_small d) by lia. done. }
  assert (E2 : Z.land (Z.shiftr x 4 mod 256) 0xf = Z.land (Z.shiftr x 4) 0xf).
  { change 256 with (2 ^ 8). apply land_mod_low; lia. }
  rewrite E2. set (y := Z.lxor x (Z.land (Z.shiftr x 4) 0xf)).
  assert (Hy : u16 y = y).
  { unfold y. rewrite u16_linear, Hx, (u16_small (Z.land _ _)); [done|].
    change 0xf with (2 ^ 4 - 1). rewrite land_ones_mod by lia.
    assert (B := Z.mod_pos_bound (Z.shiftr x 4) (2 ^ 4) ltac:(lia)). lia. }
  assert (E3 : u16 (Z.lxor y (Z.shiftl y 12)) = Z.lxor y (u16 (Z.shiftl y 12))) by by rewrite u16_linear, Hy.
  rewrite E3. rewrite <- E3 at 1. rewrite u16_linear, u16_idemp. by rewrite E3.
Qed.

Lemma ccitt_byte_range c d : 0 <= ccitt_byte c d < 2 ^ 16.
Proof.
  unfold ccitt_byte. generalize (Z.lxor c (d * 256)). intros x.
  rewrite (Nat.iter_succ 7). generalize (Nat.iter 7 ccitt_bit x). intros z.
  assert (E : u16 (ccitt_bit z) = ccitt_bit z).
  { unfold ccitt_bit. rewrite u16_linear, u16_idemp. by destruct (Z.testbit z 15). }
  rewrite <- E. apply Z.mod_pos_bound. lia.
Qed.

(** Two folds that agree under an invariant of the accumulator. *)
Lemma fold_left_agree {A B} (P : A → Prop) (Q : B → Prop) (f g : A → B → A) l a :
  (forall x b, P x -> Q b -> f x b = g x b /\ P (g x b)) ->
  P a -> Forall Q l -> fold_left f l a = fold_left g l a /\ P (fold_left g l a).
Proof.
  intros Hfg Ha Hl. revert a Ha. induction Hl as [|b l Hb Hl IH]; intros a Ha; [by split|].
  cbn [fold_left]. destruct (Hfg a b Ha Hb) as [-> Hp]. by apply IH.
Qed.

Lemma crc16_list c l :
  0 <= c < 2 ^ 16 -> Forall (λ b, 0 <= b < 256) l ->
  fold_left crc16 l c = fold_left ccitt_byte l c /\ 0 <= fold_left ccitt_byte l c < 2 ^ 16.
Proof.
  intros Hc Hl. apply (fold_left_agree (λ c, 0 <= c < 2 ^ 16) (λ b, 0 <= b < 256)); [|exact Hc|exact Hl].
  intros x b Hx Hb. split; [exact (crc16_step x b Hx Hb)|exact (ccitt_byte_range x b)].
Qed.

(** ** The card, byte by byte *)

Section Wire.
Context {C : Type} `{Card C} (polls : nat).

(** The card's answer to an idle byte. *)
Definition clock (c : C) : Z * C := exchange c 0xff.
Definition dummies (n : nat) (c : C) : C := card_after c (replicate n 0xff).

(** Repeat [step] until its answer satisfies [fin], at most [n] times. *)
Fixpoint until (step : C → Z * C) (fin : Z → bool) (n : nat) (c : C) : option (Z * C) :=
  match n with
  | O => None
  | S n' => let '(r, c') := step c in if fin r then Some (r, c') else until step fin n' c'
  end.

(** A command, and the first answer with bit 7 clear among the next [n] bytes
    (the last one if there is none). *)
Definition command_bytes (cmd arg crc : Z) : list Z :=
  [0xff; Z.lor 0x40 cmd; Z.shiftr arg 24 mod 256; Z.shiftr arg 16 mod 256; Z.shiftr arg 8 mod 256;
   arg mod 256; crc].
Fixpoint response (n : nat) (c : C) : Z * C :=
  match n with
  | O => (0, c)
  | S n' => let '(r, c') := clock c in
            if Z.land r 0x80 =? 0 then (r, c')
            else match n' with O => (r, c') | S _ => response n' c' end
  end.
Definition command (cmd arg crc : Z) (c : C) : Z * C :=
  response 100 (card_after c (command_bytes cmd arg crc)).

(** A block: the start token, 512 bytes, and whether the two bytes that follow
    are their checksum. *)
Definition read_block (c : C) : option (list Z * bool * C) :=
  match until clock (Z.eqb SD_DATA_TOKEN) polls c with
  | None => None
  | Some (_, c1) =>
      let data := replies c1 (replicate 512 0xff) in
      let '(hi, c2) := clock (dummies 512 c1) in
      let '(lo, c3) := clock c2 in
      Some (data, ccitt data =? hi * 256 + lo, c3)
  end.

(** Up to [n] blocks, stopping after one with a wrong checksum. *)
Fixpoint read_blocks (n : nat) (c : C) : option (list Z * Z * C) :=
  match n with
  | O => Some ([], 0, c)
  | S n' =>
      match read_block c with
      | None => None
      | Some (data, false, c1) => Some (data, SD_COPY_ERROR_CMD18_CRC, c1)
      | Some (data, true, c1) =>
          match read_blocks n' c1 with
          | None => None
          | Some (l, rc, c2) => Some (data ++ l, rc, c2)
          end
      end
  end.

(** The rounds of the initialisation. *)
Definition cmd0_round (c : C) : Z * C :=
  let '(r, c1) := command 0 0 0x95 c in (r, snd (clock c1)).
Definition acmd41_round (c : C) : Z * C :=
  let '(r, c1) := command 41 0x40000000 0x77 (snd (clock (snd (command 55 0 0x65 c)))) in
  (r, snd (clock c1)).

End Wire.

(** A memory card in SPI mode, as far as the ROM relies on it: [disk] is its
    contents, [blocks] the number of its blocks.  A powered card tolerates
    clocks, resets within 9,999 commands, accepts the voltage, leaves its idle
    state within [polls] rounds, and serves multiple-block reads, each block
    starting within [polls] bytes, until it is told to stop. *)
Class MemoryCard (C : Type) `{Card C} (polls : nat) (disk : Z → list Z) (blocks : Z) : Type := {
  sd_powered : C → Prop;
  sd_idle : C → Prop;
  sd_ready : C → Prop;
  sd_sending : Z → C → Prop;
  sd_capacity : blocks <= 2 ^ 32;
  disk_block : forall lba, length (disk lba) = 512%nat /\ Forall (λ b, 0 <= b < 256) (disk lba);
  card_clocks : forall c, sd_powered c -> sd_powered (snd (clock c));
  card_resets : forall c, sd_powered c -> exists c',
    until cmd0_round (Z.eqb 1) (Z.to_nat 9999) c = Some (1, c') /\ sd_idle c';
  card_voltage : forall c, sd_idle c -> exists c1 v w x y z,
    command 8 0x1aa 0x87 c = (1, c1) /\ replies c1 (replicate 6 0xff) = [v; w; x; 0xaa; y; z] /\
    Z.land x 0xf = 1 /\ sd_idle (dummies 6 c1);
  card_starts : forall c, sd_idle c -> exists c',
    until acmd41_round (λ r, negb (r =? 1)) polls c = Some (0, c') /\ sd_ready c';
  card_reads : forall c lba crc, sd_ready c -> 0 <= lba < blocks -> 0 <= crc < 256 -> exists c',
    command 18 lba crc c = (0, c') /\ sd_sending lba c';
  card_sends : forall c lba, sd_sending lba c -> 0 <= lba < blocks -> exists c1,
    until clock (Z.eqb SD_DATA_TOKEN) polls c = Some (SD_DATA_TOKEN, c1) /\
    replies c1 (replicate 514 0xff) = disk lba ++ [ccitt (disk lba) / 256; ccitt (disk lba) mod 256] /\
    sd_sending (lba + 1) (dummies 514 c1);
  card_stops : forall c lba, sd_sending lba c -> sd_ready (snd (clock (snd (command 12 0 0x01 c))));
}.

(** ** Lemmas *)

Section Runs.
Context {D C : Type} `{SpiBus D C polls}.

(** With the controller initialised and idle and the card [c], the computation
    returns [a] with the card and memory as given, and the controller as before. *)
Definition rom_run {A} (c : C) (m : gmap Z Z) (f : M (rom D) A) (a : A) (c' : C) (m' : gmap Z Z) : Prop :=
  forall d, spi_ready c d -> exists d', f (Rom d m) = (Ret a, Rom d' m') /\ spi_ready c' d'.

Lemma run_ret {A} c m (a : A) : rom_run c m (ret a) a c m.
Proof. intros d Hi. by exists d. Qed.

Lemma run_bind {A B} c m (f : M (rom D) A) (k : A → M (rom D) B) a c1 m1 b c2 m2 :
  rom_run c m f a c1 m1 -> rom_run c1 m1 (k a) b c2 m2 -> rom_run c m (bind f k) b c2 m2.
Proof.
  intros R1 R2 d Hi. destruct (R1 d Hi) as (d1 & E1 & I1). destruct (R2 d1 I1) as (d2 & E2 & I2).
  exists d2. split; [by erewrite bind_Ret by exact E1|done].
Qed.

Lemma run_quiet c m io : quiet (polls := polls) io -> rom_run c m (rom_io io) tt c m.
Proof.
  intros Hq d [Hi Hc]. destruct (Hq c d Hi) as (d' & E & I' & C'). exists d'. split; [by apply rom_io_run|].
  split; [done|congruence].
Qed.

Lemma run_print c m str : rom_run c m (print_msg polls str) tt c m.
Proof. apply run_quiet. unfold print_uart. apply quiet_mfor. intros. apply quiet_serial. Qed.

Lemma run_print_num c m n : rom_run c m (print_num polls n) tt c m.
Proof. apply run_quiet. apply quiet_mfor. intros. apply quiet_byte. Qed.

Lemma run_print_int c m n : rom_run c m (print_int polls n) tt c m.
Proof. apply run_quiet. apply quiet_mfor. intros. apply quiet_byte. Qed.

Lemma run_print_byte c m n : rom_run c m (print_byte polls n) tt c m.
Proof. apply run_quiet, quiet_byte. Qed.

Lemma run_load c m a : rom_run c m (rom_load a) (default 0 (m !! a)) c m.
Proof. intros d Hi. by exists d. Qed.

Lemma run_mfor {I} c m (l : list I) body :
  (forall i, rom_run c m (body i) tt c m) -> rom_run c m (mfor l body) tt c m.
Proof.
  intros Hb. induction l as [|i l IH]; [apply run_ret|]. cbn [mfor]. by eapply run_bind.
Qed.

Lemma run_txrx c m b :
  0 <= b < 256 -> rom_run c m (spi_txrx polls b) (fst (exchange c b)) (snd (exchange c b)) m.
Proof. intros Hb d Hi. by apply spi_txrx_run. Qed.

Lemma run_dummy c m : rom_run c m (sd_dummy polls) (fst (clock c)) (snd (clock c)) m.
Proof. by apply run_txrx. Qed.

Lemma run_write_bytes c m bytes dst :
  Forall (λ b, 0 <= b < 256) bytes -> (0 < length bytes <= 64)%nat ->
  rom_run c m (spi_write_bytes polls bytes dst) 0 (card_after c bytes) (store_from dst 0 (replies c bytes) m).
Proof. intros Hb Hl d Hi. by apply spi_write_bytes_run. Qed.

Lemma run_response n c m :
  rom_run c m (response_loop polls n) (fst (response n c)) (snd (response n c)) m.
Proof.
  revert c. induction n as [|n IH]; intros c; [apply run_ret|]. cbn [response_loop response].
  eapply run_bind; [apply run_dummy|]. destruct (clock c) as [r c1]. cbn [fst snd].
  unfold truthy. rewrite negb_involutive. destruct (Z.land r 0x80 =? 0); [apply run_ret|].
  destruct n as [|n]; [apply run_ret|apply IH].
Qed.

Lemma run_cmd cmd arg crc c m :
  0 <= Z.lor 0x40 cmd < 256 -> 0 <= crc < 256 ->
  rom_run c m (sd_cmd polls cmd arg crc) (fst (command cmd arg crc c)) (snd (command cmd arg crc c)) m.
Proof.
  intros Hcmd Hcrc. unfold sd_cmd, command, command_bytes. cbn [card_after].
  eapply run_bind; [apply run_dummy|]. unfold clock.
  repeat (eapply run_bind; [apply run_txrx; first [exact Hcmd|exact Hcrc|apply Z.mod_pos_bound; lia]|]).
  apply run_response.
Qed.

Lemma run_status c m cmd r : rom_run c m (print_status polls cmd r) tt c m.
Proof.
  unfold print_status. repeat (eapply run_bind; [first [apply run_print|apply run_print_byte]|]). apply run_print.
Qed.

(** Clocks whose answers are not looked at. *)
Lemma run_dummies n c m : rom_run c m (mfor (seq 0 n) (λ _, sd_dummy polls ;;; ret tt)%sbi) tt (dummies n c) m.
Proof.
  generalize 0%nat as i. revert c. induction n as [|n IH]; intros c i; [apply run_ret|]. cbn [seq mfor].
  eapply run_bind; [eapply run_bind; [apply run_dummy|apply run_ret]|]. apply IH.
Qed.

(** ** Waiting *)

Lemma run_wait_token n c r c1 m :
  until clock (Z.eqb SD_DATA_TOKEN) n c = Some (r, c1) -> rom_run c m (wait_token polls n) tt c1 m.
Proof.
  revert c. induction n as [|n IH]; intros c; [done|]. cbn [until wait_token]. intros E.
  eapply run_bind; [apply run_dummy|]. destruct (clock c) as [v c2]. cbn [fst snd].
  rewrite Z.eqb_sym. destruct (SD_DATA_TOKEN =? v); cbn [negb].
  - injection E as -> ->. apply run_ret.
  - by apply IH.
Qed.

Lemma run_cmd0_loop n c c' m :
  until cmd0_round (Z.eqb 1) n c = Some (1, c') -> rom_run c m (cmd0_loop polls (S n)) (Some 1) c' m.
Proof.
  revert c. induction n as [|n IH]; intros c; [done|]. cbn [until]. intros E.
  change (cmd0_loop polls (S (S n))) with
    (r <- sd_cmd polls 0 0 0x95 ;; sd_dummy polls ;;;
     if negb (r =? 0x1) then cmd0_loop polls (S n) else ret (Some r))%sbi.
  unfold cmd0_round in E.
  eapply run_bind; [by apply run_cmd|]. destruct (command 0 0 149 c) as [r c1]. cbn [fst snd].
  eapply run_bind; [apply run_dummy|]. rewrite Z.eqb_sym. destruct (1 =? r); cbn [negb].
  - injection E as -> ->. apply run_ret.
  - by apply IH.
Qed.

Lemma run_acmd41_loop n c r c' m :
  until acmd41_round (λ r, negb (r =? 1)) n c = Some (r, c') -> rom_run c m (acmd41_loop polls n) r c' m.
Proof.
  revert c. induction n as [|n IH]; intros c; [done|]. cbn [until acmd41_loop]. intros E.
  unfold acmd41_round in E. unfold sd_cmd55. eapply run_bind.
  { eapply run_bind; [by apply run_cmd|]. eapply run_bind; [apply run_dummy|].
    eapply run_bind; [apply run_status|]. apply run_ret. }
  eapply run_bind; [by apply run_cmd|]. eapply run_bind; [apply run_status|].
  eapply run_bind; [apply run_dummy|].
  destruct (command 41 0x40000000 0x77 _) as [v c2]. cbn [fst snd]. destruct (v =? 1); cbn [negb] in E.
  - by apply IH.
  - injection E as -> ->. apply run_ret.
Qed.

End Runs.

(** ** Memory *)

Lemma add64_inj a i j : 0 <= i < 2 ^ 64 -> 0 <= j < 2 ^ 64 -> add64 a i = add64 a j -> i = j.
Proof.
  unfold add64, u64. intros Hi Hj E.
  assert (E' : (i - j) mod 2 ^ 64 = 0).
  { replace (i - j) with (a + i - (a + j)) by lia. by rewrite Zminus_mod, E, Z.sub_diag. }
  apply Z.mod_divide in E'; [|lia]. destruct E' as [q E']. nia.
Qed.

Lemma store_from_app dst i l1 l2 m :
  store_from dst i (l1 ++ l2) m = store_from dst (i + Z.of_nat (length l1)) l2 (store_from dst i l1 m).
Proof.
  revert i m. induction l1 as [|b l1 IH]; intros i m; cbn [app store_from length]; [by rewrite Z.add_0_r|].
  rewrite IH. f_equal. lia.
Qed.

Lemma store_from_shift dst k i l m : store_from (add64 dst k) i l m = store_from dst (k + i) l m.
Proof.
  revert i m. induction l as [|b l IH]; intros i m; [done|]. cbn [store_from].
  rewrite IH, add64_assoc. f_equal. lia.
Qed.

Lemma store_from_below dst i j l m :
  0 <= j < i -> i + Z.of_nat (length l) <= 2 ^ 64 -> store_from dst i l m !! add64 dst j = m !! add64 dst j.
Proof.
  revert i m. induction l as [|b l IH]; intros i m Hj Hl; [done|]. cbn [store_from length] in *.
  rewrite IH by lia. apply lookup_insert_ne. intros E. apply add64_inj in E; lia.
Qed.

Lemma store_from_lookup dst i l m j b :
  0 <= i -> i + Z.of_nat (length l) <= 2 ^ 64 -> l !! j = Some b ->
  store_from dst i l m !! add64 dst (i + Z.of_nat j) = Some b.
Proof.
  revert i m j. induction l as [|x l IH]; intros i m j Hi Hl Hj; [done|]. cbn [store_from length] in *.
  destruct j as [|j].
  - cbn in Hj. injection Hj as ->. rewrite Z.add_0_r, store_from_below by lia. by rewrite lookup_insert_eq.
  - cbn in Hj. replace (i + Z.of_nat (S j)) with (i + 1 + Z.of_nat j) by lia. apply IH; [lia|lia|done].
Qed.

(** ** Reading blocks *)

Section Blocks.
Context {D C : Type} `{SpiBus D C polls}.

Lemma run_crc_loop c m l n p i crc :
  length l = n ->
  (forall j b, l !! j = Some b -> m !! add64 p (i + Z.of_nat j) = Some b) ->
  rom_run c m (crc_loop n p i crc : M (rom D) Z) (fold_left crc16 l crc) c m.
Proof.
  intros <-. revert i crc. induction l as [|b l IH]; intros i crc Hm; [apply run_ret|]. cbn [length crc_loop fold_left].
  eapply run_bind; [apply run_load|].
  assert (E := Hm 0%nat b eq_refl). rewrite Z.add_0_r in E. rewrite E. cbn [default].
  apply IH. intros j x Hj. rewrite <- (Hm (S j) x Hj). do 2 f_equal. lia.
Qed.

Lemma replicate_byte n : Forall (λ b, 0 <= b < 256) (replicate n 0xff).
Proof. apply Forall_replicate. lia. Qed.

Lemma run_transfer_loop n c m dst off crc :
  0 <= off -> off + 64 * Z.of_nat n <= 2 ^ 64 ->
  let data := replies c (replicate (64 * n) 0xff) in
  rom_run c m (transfer_loop polls n (add64 dst off) crc)
    (add64 dst (off + 64 * Z.of_nat n), fold_left crc16 data crc)
    (dummies (64 * n) c) (store_from dst off data m).
Proof.
  cbv zeta. revert c m off crc. induction n as [|n IH]; intros c m off crc Ho Hn.
  - cbn. rewrite Z.add_0_r. apply run_ret.
  - replace (64 * S n)%nat with (64 + 64 * n)%nat by lia. unfold dummies.
    rewrite replicate_add, replies_app, card_after_app, fold_left_app, store_from_app.
    set (first := replies c (replicate 64 0xff)).
    assert (Hf : length first = 64%nat) by (unfold first; by rewrite replies_length, length_replicate).
    change (transfer_loop polls (S n) (add64 dst off) crc) with
      (spi_write_bytes polls (replicate 64 0xff) (add64 dst off) ;;;
       crc' <- crc_loop 64 (add64 dst off) 0 crc ;;
       transfer_loop polls n (add64 (add64 dst off) 64) crc')%sbi.
    eapply run_bind; [apply run_write_bytes; [apply replicate_byte|rewrite length_replicate; lia]|].
    fold first. rewrite store_from_shift, Z.add_0_r. eapply run_bind; [apply (run_crc_loop _ _ first); [exact Hf|]|].
    + intros j b Hj. rewrite add64_assoc. change (0 + Z.of_nat j) with (Z.of_nat j).
      apply store_from_lookup; [done|rewrite Hf; lia|done].
    + rewrite add64_assoc, Hf.
      replace (off + 64 * Z.of_nat (S n)) with (off + 64 + 64 * Z.of_nat n) by lia.
      apply IH; lia.
Qed.

Lemma crc_matches l hi lo :
  Forall (λ b, 0 <= b < 256) l -> 0 <= hi < 256 -> 0 <= lo < 256 ->
  (fold_left crc16 l 0 =? Z.lor (u16 (Z.shiftl hi 8)) lo) = (ccitt l =? hi * 256 + lo).
Proof.
  intros Hl Hhi Hlo. destruct (crc16_list 0 l ltac:(lia) Hl) as [E _]. rewrite E. fold (ccitt l).
  rewrite Z.shiftl_mul_pow2 by lia. rewrite u16_small by (change (2 ^ 8) with 256; lia).
  by rewrite (lor_low hi 8 lo).
Qed.

(** The loop over the blocks stores what the card sends, up to the end or to the
    first block with a wrong checksum. *)
Lemma run_block_loop n c data rc c' m i dst off :
  read_blocks polls n c = Some (data, rc, c') -> 0 <= off -> off + 512 * Z.of_nat n <= 2 ^ 64 ->
  rom_run c m (block_loop polls n i (add64 dst off)) rc c' (store_from dst off data m).
Proof.
  revert c data rc c' m i off. induction n as [|n IH]; intros c data rc c' m i off E Ho Hn.
  - injection E as <- <- <-. apply run_ret.
  - cbn [read_blocks] in E. unfold read_block in E.
    destruct (until clock (Z.eqb SD_DATA_TOKEN) polls c) as [[r c1]|] eqn:Et; [|done].
    remember (replies c1 (replicate 512 0xff)) as block eqn:Hblk.
    assert (Hb : length block = 512%nat) by (by rewrite Hblk, replies_length, length_replicate).
    assert (Hby := replies_byte c1 (replicate 512 0xff)). rewrite <- Hblk in Hby.
    cbn [block_loop]. eapply run_bind; [by eapply run_wait_token|].
    eapply run_bind; [apply (run_transfer_loop 8); lia|]. cbv iota beta.
    rewrite (eq_refl : (64 * 8 = 512)%nat), <- Hblk.
    destruct (clock (dummies 512 c1)) as [hi c2] eqn:E2. destruct (clock c2) as [lo c3] eqn:E3.
    eapply run_bind; [apply run_dummy|]. rewrite E2. cbn [fst snd].
    eapply run_bind; [apply run_dummy|]. rewrite E3. cbn [fst snd]. cbv zeta.
    assert (Hhi := exchange_byte (dummies 512 c1) 0xff). fold (clock (dummies 512 c1)) in Hhi. rewrite E2 in Hhi.
    assert (Hlo := exchange_byte c2 0xff). fold (clock c2) in Hlo. rewrite E3 in Hlo. cbn [fst] in Hhi, Hlo.
    rewrite (crc_matches block hi lo) by done. destruct (ccitt block =? hi * 256 + lo); cbn [negb].
    + destruct (read_blocks polls n c3) as [[[l rc'] c4]|] eqn:Er; [|done]. injection E as <- <- <-.
      eapply run_bind; [destruct (i mod 1000 =? 0); [apply run_print|apply run_ret]|].
      rewrite store_from_app, Hb. change (64 * Z.of_nat 8) with 512. apply IH; [exact Er|lia|lia].
    + injection E as <- <- <-. apply run_ret.
Qed.

Lemma read_crc_byte lba : 0 <= read_crc lba < 256.
Proof. apply Z.mod_pos_bound. lia. Qed.

Lemma run_sd_copy dst lba size c r c1 data rc c2 m :
  is_u64 dst -> size < 2 ^ 32 ->
  command 18 lba (read_crc lba) c = (r, c1) ->
  r = 0 -> read_blocks polls (copy_rounds size) c1 = Some (data, rc, c2) ->
  rom_run c m (sd_copy polls dst lba size) rc (snd (clock (snd (command 12 0 0x01 c2))))
    (store_from dst 0 data m).
Proof.
  intros Hd Hs E -> Er. unfold sd_copy.
  eapply run_bind; [apply run_cmd; [done|apply read_crc_byte]|]. rewrite E. cbn [fst snd].
  change (negb (0 =? 0)) with false. cbv iota.
  rewrite <- (add64_0 dst Hd) at 1.
  eapply run_bind; [eapply run_block_loop; [exact Er|done|unfold copy_rounds; lia]|].
  eapply run_bind; [by apply run_cmd|]. eapply run_bind; [apply run_dummy|]. apply run_ret.
Qed.

Lemma run_sd_copy_refused dst lba size c r c1 m :
  command 18 lba (read_crc lba) c = (r, c1) -> r <> 0 ->
  rom_run c m (sd_copy polls dst lba size) (-1) (dummies 8 c1) m.
Proof.
  intros E Hr. unfold sd_copy.
  eapply run_bind; [apply run_cmd; [done|apply read_crc_byte]|]. rewrite E. cbn [fst snd].
  rewrite (proj2 (Z.eqb_neq r 0)) by done. cbn [negb].
  eapply run_bind; [apply run_dummies|]. eapply run_bind; [apply run_print|]. apply run_ret.
Qed.

End Blocks.

(** The blocks of a transfer. *)
Fixpoint disk_blocks (disk : Z → list Z) (lba : Z) (n : nat) : list Z :=
  match n with
  | O => []
  | S n' => disk lba ++ disk_blocks disk (lba + 1) n'
  end.

(** ** Initialisation *)

Section Init.
Context {D C : Type} `{SpiBus D C polls}.

(** The initialisation of the controller, from an idle one: a step that keeps it
    idle and leaves the control register as [f] says. *)
Definition idles {A} (f : Z → Z) (io : M (rom D) A) : Prop :=
  forall c d m, spi_idle c d -> exists a d', io (Rom d m) = (Ret a, Rom d' m) /\ spi_idle c d' /\
    spi_control d' = f (spi_control d).

Lemma idles_seq {A B} f g (io : M (rom D) A) (k : A → M (rom D) B) :
  idles f io -> (forall a, idles g (k a)) -> idles (λ x, g (f x)) (bind io k).
Proof.
  intros I1 I2 c d m Hi. destruct (I1 c d m Hi) as (a & d1 & E1 & J1 & C1).
  destruct (I2 a c d1 m J1) as (b & d2 & E2 & J2 & C2). exists b, d2.
  split; [by erewrite bind_Ret by exact E1|]. split; [done|]. by rewrite C2, C1.
Qed.

Lemma idles_quiet io : quiet (polls := polls) io -> idles id (rom_io io).
Proof. intros Q c d m Hi. destruct (Q c d Hi) as (d' & E & I & C'). exists tt, d'. split; [by apply rom_io_run|done]. Qed.

Lemma idles_print str : idles id (print_msg polls str).
Proof. apply idles_quiet, quiet_mfor. intros. apply quiet_serial. Qed.

Lemma idles_print_num n : idles id (print_num polls n).
Proof. apply idles_quiet, quiet_mfor. intros. apply quiet_byte. Qed.

Lemma idles_control v :
  idles (λ _, Z.clearbit (Z.clearbit v SPICR_TXFIFO_RESET) SPICR_RXFIFO_RESET) (rom_io (write_reg SPI_CONTROL_REG v)).
Proof.
  intros c d m Hi. exists tt, (bus_write 4 SPI_CONTROL_REG v d). split; [done|].
  destruct (over_control [] c v d Hi) as [O E]. by destruct (Z.testbit v SPICR_RXFIFO_RESET).
Qed.

Lemma idles_reset : idles (λ _, 0x180) (rom_io (write_reg SPI_RESET_REG 0x0a)).
Proof.
  intros c d m Hi. exists tt, (bus_write 4 SPI_RESET_REG 0x0a d). split; [done|]. unfold spi_idle, spi_of in *.
  destruct (spi_write_reset d) as [E1 E2]; [by rewrite Hi|]. split; [|done]. by rewrite E1, Hi.
Qed.

Lemma idles_nops n : idles id (nops n).
Proof.
  intros c d m Hi. exists tt, (Nat.iter n nop d). rewrite nops_run. split; [done|].
  induction n as [|n [I E]]; [done|]. cbn [Nat.iter nat_rect].
  destruct (over_passes [] c _ _ (proj1 (spi_nop (Nat.iter n nop d))) I) as [I' E']. split; [done|]. by rewrite <- E.
Qed.

Lemma idles_status : idles id (print_spi_status polls).
Proof.
  eapply (idles_seq id id).
  - intros c d m Hi. destruct (read_status_run [] c d Hi) as (v & d' & E & O & C' & _). exists v, d'.
    split; [by apply rom_io_run|done].
  - intros v. apply (idles_seq id id); [apply idles_print|]. intros _.
    apply (idles_seq id id); [apply idles_print_num|]. intros _. apply idles_print.
Qed.

Lemma idles_spi_init : idles (λ _, 0x06) (spi_init polls).
Proof.
  unfold spi_init.
  apply (idles_seq id (λ _, 0x06)); [apply idles_print|intros _].
  apply (idles_seq _ (λ _, 0x06) _ _ idles_reset); intros _.
  apply (idles_seq id (λ _, 0x06)); [apply idles_nops|intros _].
  apply (idles_seq _ (λ _, 0x06) _ _ (idles_control 0x104)); intros _.
  apply (idles_seq id (λ _, 0x06)); [apply idles_status|intros _].
  apply (idles_seq _ (λ _, 0x06) _ _ (idles_control 0x166)); intros _.
  apply (idles_seq id (λ _, 0x06)); [apply idles_status|intros _].
  apply (idles_seq _ id _ _ (idles_control 0x06)); intros _. apply idles_print.
Qed.

(** What follows the initialisation starts from a controller that is ready. *)
Lemma init_run {B} c d m (k : M (rom D) B) :
  spi_idle c d -> exists d', spi_ready c d' /\ (spi_init polls ;;; k)%sbi (Rom d m) = k (Rom d' m).
Proof.
  intros Hi. destruct (idles_spi_init c d m Hi) as ([] & d' & E & I & C'). exists d'. split; [by split|].
  by erewrite bind_Ret by exact E.
Qed.

Context {disk : Z → list Z} {blocks : Z} `{!MemoryCard C polls disk blocks}.

Lemma run_cmd0 c m : sd_powered c -> exists c', rom_run c m (sd_cmd0 polls) true c' m /\ sd_idle c'.
Proof.
  intros Hc. destruct (card_resets c Hc) as (c' & E & Hc'). exists c'. split; [|done].
  unfold sd_cmd0. replace (Z.to_nat 10000) with (S (Z.to_nat 9999)) by lia.
  eapply run_bind; [by apply run_cmd0_loop|]. eapply run_bind; [apply run_status|]. apply run_ret.
Qed.

Lemma run_cmd8 c m : sd_idle c -> exists c', rom_run c m (sd_cmd8 polls) true c' m /\ sd_idle c'.
Proof.
  intros Hc. destruct (card_voltage c Hc) as (c1 & v & w & x & y & z & E & R & Hx & Hc').
  exists (dummies 6 c1). split; [|done]. unfold sd_cmd8.
  eapply run_bind; [by apply run_cmd|]. rewrite E. cbn [fst snd].
  do 6 (eapply run_bind; [apply run_dummy|]).
  cbn [replicate replies] in R. injection R as _ _ E4 E5 _ _. unfold clock. rewrite E4, E5, Hx. apply run_ret.
Qed.

Lemma run_acmd41 c m : sd_idle c -> exists c', rom_run c m (sd_acmd41 polls) true c' m /\ sd_ready c'.
Proof.
  intros Hc. destruct (card_starts c Hc) as (c' & E & Hc'). exists c'. split; [|done].
  unfold sd_acmd41. eapply run_bind; [by apply run_acmd41_loop|]. apply run_ret.
Qed.

Lemma powered_clocks n c : sd_powered c -> sd_powered (dummies n c).
Proof.
  revert c. induction n as [|n IH]; intros c Hc; [done|]. apply IH. by apply card_clocks.
Qed.

(** [init_sd] after [spi_init]. *)
Definition init_card : M (rom D) Z :=
  (print_msg polls (chars "initializing SD... " ++ crlf) ;;;
   mfor (seq 0 10) (λ _, sd_dummy polls ;;; ret tt) ;;;
   ok0 <- sd_cmd0 polls ;;
   if negb ok0 then ret SD_INIT_ERROR_CMD0
   else
     ok8 <- sd_cmd8 polls ;;
     if negb ok8 then ret SD_INIT_ERROR_CMD8
     else
       ok41 <- sd_acmd41 polls ;;
       if negb ok41 then ret SD_INIT_ERROR_ACMD41
       else ret 0)%sbi.

Lemma run_init_card c m : sd_powered c -> exists c', rom_run c m init_card 0 c' m /\ sd_ready c'.
Proof.
  intros Hc. destruct (run_cmd0 _ m (powered_clocks 10 c Hc)) as (c1 & R1 & H1').
  destruct (run_cmd8 c1 m H1') as (c2 & R2 & H2'). destruct (run_acmd41 c2 m H2') as (c3 & R3 & H3').
  exists c3. split; [|done]. unfold init_card. eapply run_bind; [apply run_print|].
  eapply run_bind; [apply run_dummies|]. eapply run_bind; [exact R1|]. cbn [negb].
  eapply run_bind; [exact R2|]. cbn [negb]. eapply run_bind; [exact R3|]. apply run_ret.
Qed.

Lemma init_sd_run c d m : sd_powered c -> spi_idle c d ->
  exists d' c', init_sd polls (Rom d m) = (Ret 0, Rom d' m) /\ spi_ready c' d' /\ sd_ready c'.
Proof.
  intros Hc Hi. destruct (run_init_card c m Hc) as (c' & R & Hc').
  destruct (init_run c d m init_card Hi) as (d1 & J1 & E1). destruct (R d1 J1) as (d2 & E2 & J2).
  exists d2, c'. split; [|done]. unfold init_sd. fold init_card. by rewrite E1.
Qed.

Lemma disk_blocks_1 lba : disk_blocks disk lba 1 = disk lba.
Proof. apply app_nil_r. Qed.

Lemma disk_blocks_length lba n : length (disk_blocks disk lba n) = (512 * n)%nat.
Proof.
  revert lba. induction n as [|n IH]; intros lba; [done|].
  cbn [disk_blocks]. rewrite length_app, IH, (proj1 (disk_block lba)). lia.
Qed.

Lemma read_block_disk c lba :
  sd_sending lba c -> 0 <= lba < blocks ->
  exists c', read_block polls c = Some (disk lba, true, c') /\ sd_sending (lba + 1) c'.
Proof.
  intros Hc Hl. destruct (card_sends c lba Hc Hl) as (c1 & E & R & Hc'). destruct (disk_block lba) as [Hn Hb].
  exists (dummies 514 c1). split; [|done]. unfold read_block. rewrite E.
  assert (S2 : replicate 514 0xff = replicate 512 0xff ++ [0xff; 0xff]) by exact (replicate_add 512 2 0xff).
  unfold dummies. rewrite S2, replies_app in R. rewrite S2, card_after_app.
  apply app_inj_1 in R as [R1 R2]; [|by rewrite replies_length, length_replicate, Hn].
  rewrite R1. cbn [replies] in R2. cbn [card_after]. unfold clock.
  destruct (exchange (card_after c1 (replicate 512 255)) 255) as [hi c2].
  cbn [fst snd] in *. destruct (exchange c2 255) as [lo c3]. cbn [fst snd] in *.
  injection R2 as -> ->. rewrite (Z.mul_comm (_ / _)), <- Z.div_mod by lia. by rewrite Z.eqb_refl.
Qed.

Lemma read_blocks_disk n c lba :
  sd_sending lba c -> 0 <= lba -> lba + Z.of_nat n <= blocks ->
  exists c', read_blocks polls n c = Some (disk_blocks disk lba n, 0, c') /\ sd_sending (lba + Z.of_nat n) c'.
Proof.
  revert c lba. induction n as [|n IH]; intros c lba Hc H0' Hn.
  - exists c. rewrite Z.add_0_r. by split.
  - destruct (read_block_disk c lba Hc ltac:(lia)) as (c1 & E1 & H1').
    destruct (IH c1 (lba + 1) H1' ltac:(lia) ltac:(lia)) as (c2 & E2 & H2').
    exists c2. cbn [read_blocks]. rewrite E1, E2.
    replace (lba + Z.of_nat (S n)) with (lba + 1 + Z.of_nat n) by lia. by split.
Qed.

Lemma run_copy_disk dst lba size c m :
  is_u64 dst -> size < 2 ^ 32 -> sd_ready c -> 0 <= lba -> lba + Z.of_nat (copy_rounds size) <= blocks ->
  exists c', rom_run c m (sd_copy polls dst lba size) 0 c' (store_from dst 0 (disk_blocks disk lba (copy_rounds size)) m) /\
    sd_ready c'.
Proof.
  intros Hd Hs Hc Hl Hb.
  assert (Hr : lba < blocks) by (unfold copy_rounds in Hb; lia).
  destruct (card_reads c lba (read_crc lba) Hc ltac:(lia) (read_crc_byte lba)) as (c1 & E1 & H1').
  destruct (read_blocks_disk _ c1 lba H1' Hl Hb) as (c2 & E2 & H2').
  eexists. split; [by eapply run_sd_copy|]. by eapply card_stops.
Qed.

End Init.

(** ** A card, a controller and a port *)

(** A card in SPI mode: the bytes of the command it is receiving, those it has to
    send, and the next block of the transfer under way. *)
Record demo_card : Type := DemoCard {
  dc_in : list Z;
  dc_out : list Z;
  dc_next : option Z;
}.

(** The disk: the partition entries in block 2, the first partition in blocks 3
    and 4, filled with sevens and eights. *)
Definition demo_disk (lba : Z) : list Z :=
  if lba =? 1 then replicate 72 0 ++ [2] ++ replicate 439 0
  else if lba =? 2 then replicate 32 0 ++ [3] ++ replicate 7 0 ++ [4] ++ replicate 471 0
  else if lba =? 3 then replicate 512 7
  else replicate 512 8.

Definition packet (lba : Z) : list Z :=
  SD_DATA_TOKEN :: demo_disk lba ++ [ccitt (demo_disk lba) / 256; ccitt (demo_disk lba) mod 256].

(** A command of six bytes. *)
Definition demo_exec (cmd : list Z) : demo_card :=
  match cmd with
  | [n; a3; a2; a1; a0; _] =>
      if n =? 0x40 then DemoCard [] [1] None
      else if n =? 0x48 then DemoCard [] [1; 0; 0; 1; 0xaa] None
      else if n =? 0x77 then DemoCard [] [1] None
      else if n =? 0x52 then DemoCard [] [0] (Some (((a3 * 256 + a2) * 256 + a1) * 256 + a0))
      else DemoCard [] [0] None
  | _ => DemoCard [] [] None
  end.

(** What is left to send after one byte. *)
Definition demo_rest (c : demo_card) : list Z * option Z :=
  match tail (dc_out c), dc_next c with
  | [], Some lba => (packet lba, Some (lba + 1))
  | l, o => (l, o)
  end.

Definition demo_exchange (c : demo_card) (b : Z) : Z * demo_card :=
  (hd 0xff (dc_out c) mod 256,
   if (length (dc_in c) =? 5)%nat then demo_exec (dc_in c ++ [b])
   else
     DemoCard (if bool_decide (dc_in c = []) && negb (Z.land b 0xc0 =? 0x40) then [] else dc_in c ++ [b])
       (fst (demo_rest c)) (snd (demo_rest c))).

#[export] Instance demo_card_card : Card demo_card.
Proof. refine {| exchange := demo_exchange |}. intros c b. apply Z.mod_pos_bound. lia. Defined.

Lemma demo_disk_block lba : length (demo_disk lba) = 512%nat /\ Forall (λ b, 0 <= b < 256) (demo_disk lba).
Proof.
  unfold demo_disk. repeat case_if; (split; [reflexivity|]);
    repeat first [apply Forall_app; split | apply Forall_replicate; lia | apply Forall_cons; split; [lia|] | apply Forall_nil; done].
Qed.

(** Sending what is queued. *)
Lemma demo_drain l x o n :
  Forall (λ b, 0 <= b < 256) l ->
  replies (DemoCard [] (l ++ x :: o) n) (replicate (length l) 0xff) = l /\
  dummies (length l) (DemoCard [] (l ++ x :: o) n) = DemoCard [] (x :: o) n.
Proof.
  unfold dummies. intros Hl. induction Hl as [|b l Hb Hl IH]; [by split|].
  cbn [length replicate replies card_after].
  assert (E : exchange (DemoCard [] ((b :: l) ++ x :: o) n) 0xff = (b, DemoCard [] (l ++ x :: o) n)).
  { cbn [exchange demo_card_card]. unfold demo_exchange, demo_rest. cbn [dc_in dc_out dc_next length hd tail app].
    rewrite Z.mod_small by lia. cbn. by destruct l. }
  rewrite E. cbn [fst snd]. destruct IH as [-> ->]. by split.
Qed.

Definition demo_sending (lba : Z) (c : demo_card) : Prop := c = DemoCard [] (packet lba) (Some (lba + 1)).

(** One byte towards a command. *)
Lemma demo_take inn o n b :
  (length inn < 5)%nat -> exists o' n', snd (exchange (DemoCard inn o n) b) =
    DemoCard (if bool_decide (inn = []) && negb (Z.land b 0xc0 =? 0x40) then [] else inn ++ [b]) o' n'.
Proof.
  intros Hl. cbn [exchange demo_card_card]. unfold demo_exchange. cbn [dc_in snd].
  rewrite (proj2 (Nat.eqb_neq _ 5)) by lia. by eexists _, _.
Qed.

(** A command to a card between commands: whatever it was sending is dropped. *)
Lemma demo_command cmd arg crc o n r c' :
  Z.land (Z.lor 0x40 cmd) 0xc0 = 0x40 ->
  clock (demo_exec [Z.lor 0x40 cmd; Z.shiftr arg 24 mod 256; Z.shiftr arg 16 mod 256; Z.shiftr arg 8 mod 256;
     arg mod 256; crc]) = (r, c') ->
  Z.land r 0x80 = 0 ->
  command cmd arg crc (DemoCard [] o n) = (r, c').
Proof.
  intros Hc E Hr. unfold command.
  replace (card_after (DemoCard [] o n) (command_bytes cmd arg crc)) with
    (demo_exec [Z.lor 0x40 cmd; Z.shiftr arg 24 mod 256; Z.shiftr arg 16 mod 256; Z.shiftr arg 8 mod 256;
       arg mod 256; crc]).
  - change (response 100 ?c) with (let '(r, c') := clock c in
      if Z.land r 0x80 =? 0 then (r, c') else response 99 c'). rewrite E. by rewrite Hr.
  - unfold command_bytes. cbn [card_after].
    destruct (demo_take [] o n 0xff) as (o1 & n1 & ->); [cbn; lia|].
    change (bool_decide ([] = []) && negb (Z.land 255 192 =? 64)) with true. cbv iota.
    destruct (demo_take [] o1 n1 (Z.lor 0x40 cmd)) as (o2 & n2 & ->); [cbn; lia|].
    rewrite Hc. change (bool_decide ([] = []) && negb (64 =? 64)) with false. cbv iota.
    do 4 (match goal with |- context [snd (exchange (DemoCard ?i ?o ?n) ?b)] =>
      destruct (demo_take i o n b) as (? & ? & ->); [cbn; lia|];
      rewrite bool_decide_eq_false_2 by done; cbn [andb] end).
    reflexivity.
Qed.

Lemma arg_bytes x : 0 <= x < 2 ^ 32 ->
  ((Z.shiftr x 24 mod 256 * 256 + Z.shiftr x 16 mod 256) * 256 + Z.shiftr x 8 mod 256) * 256 + x mod 256 = x.
Proof.
  intros Hx. rewrite !Z.shiftr_div_pow2 by lia.
  change (2 ^ 24) with (256 * 256 * 256). change (2 ^ 16) with (256 * 256). change (2 ^ 8) with 256.
  rewrite <- !Z.div_div by lia.
  assert (D1 := Z.div_mod x 256 ltac:(lia)). assert (D2 := Z.div_mod (x / 256) 256 ltac:(lia)).
  assert (D3 := Z.div_mod (x / 256 / 256) 256 ltac:(lia)).
  rewrite (Z.mod_small (x / 256 / 256 / 256)); [lia|].
  rewrite !Z.div_div by lia. split; [apply Z.div_pos; lia|apply Z.div_lt_upper_bound; lia].
Qed.

Definition demo_fresh : demo_card := DemoCard [] [] None.

(** The start token. *)
Lemma demo_token x l n :
  until clock (Z.eqb SD_DATA_TOKEN) 2 (DemoCard [] (SD_DATA_TOKEN :: x :: l) n) =
  Some (SD_DATA_TOKEN, DemoCard [] (x :: l) n).
Proof. reflexivity. Qed.

(** The last byte of a packet, after which the next one is ready. *)
Lemma demo_last x k :
  0 <= x < 256 -> clock (DemoCard [] [x] (Some k)) = (x, DemoCard [] (packet k) (Some (k + 1))).
Proof.
  intros Hx. transitivity (x mod 256, DemoCard [] (packet k) (Some (k + 1))); [reflexivity|].
  by rewrite Z.mod_small.
Qed.

Lemma demo_packet l x k :
  Forall (λ b, 0 <= b < 256) l -> 0 <= x < 256 ->
  replies (DemoCard [] (l ++ [x]) (Some k)) (replicate (length l + 1) 0xff) = l ++ [x] /\
  dummies (length l + 1) (DemoCard [] (l ++ [x]) (Some k)) = DemoCard [] (packet k) (Some (k + 1)).
Proof.
  intros Hl Hx. destruct (demo_drain l x [] (Some k) Hl) as [E1 E2]. unfold dummies in *.
  rewrite replicate_add, replies_app, card_after_app, E1, E2. cbn [replicate replies card_after].
  fold (clock (DemoCard [] [x] (Some k))). by rewrite demo_last.
Qed.

Lemma demo_sends c lba :
  demo_sending lba c -> exists c1,
    until clock (Z.eqb SD_DATA_TOKEN) 2 c = Some (SD_DATA_TOKEN, c1) /\
    replies c1 (replicate 514 0xff) =
      demo_disk lba ++ [ccitt (demo_disk lba) / 256; ccitt (demo_disk lba) mod 256] /\
    demo_sending (lba + 1) (dummies 514 c1).
Proof.
  unfold demo_sending, packet at 1. intros ->.
  destruct (demo_disk_block lba) as [Hn Hb]. destruct (crc16_list 0 (demo_disk lba) ltac:(lia) Hb) as [_ Hc].
  fold (ccitt (demo_disk lba)) in Hc. generalize dependent (ccitt (demo_disk lba)). intros crc Hc.
  generalize dependent (demo_disk lba). intros l Hn Hb.
  assert (Hq : 0 <= crc / 256 < 256) by (split; [apply Z.div_pos; lia|apply Z.div_lt_upper_bound; lia]).
  assert (Hr := Z.mod_pos_bound crc 256 ltac:(lia)).
  destruct (demo_packet (l ++ [crc / 256]) (crc mod 256) (lba + 1)) as [E1 E2];
    [apply Forall_app; split; [exact Hb|by apply Forall_singleton]|exact Hr|].
  rewrite length_app, Hn, <- app_assoc in E1, E2. cbn [app] in E1, E2.
  exists (DemoCard [] (l ++ [crc / 256; crc mod 256]) (Some (lba + 1))). split.
  - destruct l as [|x l]; [done|]. apply demo_token.
  - split; [exact E1|exact E2].
Qed.

Lemma demo_resets c : c = demo_fresh -> exists c',
  until cmd0_round (Z.eqb 1) (Z.to_nat 9999) c = Some (1, c') /\ c' = demo_fresh.
Proof.
  intros ->. exists demo_fresh. split; [|done].
  assert (E : cmd0_round demo_fresh = (1, demo_fresh)) by by vm_compute.
  replace (Z.to_nat 9999) with (S (Z.to_nat 9998)) by lia. generalize (Z.to_nat 9998). intros n.
  cbn [until]. by rewrite E.
Qed.

Lemma demo_voltage c : c = demo_fresh -> exists c1 v w x y z,
  command 8 0x1aa 0x87 c = (1, c1) /\ replies c1 (replicate 6 0xff) = [v; w; x; 0xaa; y; z] /\
  Z.land x 0xf = 1 /\ dummies 6 c1 = demo_fresh.
Proof. intros ->. exists (DemoCard [] [0; 0; 1; 0xaa] None), 0, 0, 1, 0xff, 0xff. by vm_compute. Qed.

Lemma demo_starts c : c = demo_fresh -> exists c',
  until acmd41_round (λ r, negb (r =? 1)) 2 c = Some (0, c') /\ c' = demo_fresh.
Proof. intros ->. exists demo_fresh. by vm_compute. Qed.

Lemma demo_reads c lba crc :
  c = demo_fresh -> 0 <= lba < 5 -> 0 <= crc < 256 -> exists c',
  command 18 lba crc c = (0, c') /\ demo_sending lba c'.
Proof.
  intros -> Hl _. exists (DemoCard [] (packet lba) (Some (lba + 1))). split; [|done].
  apply demo_command; [done| |done].
  change (demo_exec ?l) with (DemoCard [] [0]
    (Some (((Z.shiftr lba 24 mod 256 * 256 + Z.shiftr lba 16 mod 256) * 256 + Z.shiftr lba 8 mod 256) * 256 + lba mod 256))).
  rewrite arg_bytes by lia. by apply demo_last.
Qed.

Lemma demo_stops c lba : demo_sending lba c -> snd (clock (snd (command 12 0 0x01 c))) = demo_fresh.
Proof. intros ->. by rewrite (demo_command 12 0 0x01 (packet lba) (Some (lba + 1)) 0 demo_fresh). Qed.

#[export] Instance demo_memory_card : MemoryCard demo_card 2 demo_disk 5.
Proof.
  refine {| sd_powered c := c = demo_fresh; sd_idle c := c = demo_fresh; sd_ready c := c = demo_fresh;
            sd_sending := demo_sending; sd_capacity := _; disk_block := demo_disk_block; card_clocks := _;
            card_resets := demo_resets; card_voltage := demo_voltage; card_starts := demo_starts;
            card_reads := demo_reads; card_sends c lba Hc _ := demo_sends c lba Hc; card_stops := demo_stops |}.
  - lia.
  - by intros c ->.
Defined.

(** A controller that exchanges one byte at each nop, with room for another one
    at each store, and a port that is always ready. *)
Record demo_bus : Type := DemoBus {
  demo_queues : spi_view demo_card;
  demo_control : Z;
  demo_select : Z;
}.

(** The receive queue holds bytes. *)
Definition demo_view (v : spi_view demo_card) : spi_view demo_card :=
  SpiView (spi_tx v) (map (λ r, r mod 256) (spi_rx v)) (spi_card v).

Lemma demo_view_shift v : demo_view (shift_one v) = shift_one (demo_view v).
Proof.
  unfold demo_view, shift_one. destruct (spi_tx v) as [|b tx] eqn:E; cbn [spi_tx spi_rx spi_card].
  - by rewrite E.
  - rewrite map_app. cbn [map]. rewrite (Z.mod_small (fst _)) by apply exchange_byte. done.
Qed.

Definition demo_state (d : demo_bus) : spi_core demo_card :=
  SpiCore (demo_view (demo_queues d)) (demo_control d) (demo_select d) (length (spi_tx (demo_queues d))).

Definition demo_live (d : demo_bus) : bool := (demo_control d =? 0x06) && (demo_select d =? 0xfffffffe).

Lemma demo_live_spec d : demo_live d = true <-> live (demo_state d).
Proof. unfold demo_live, live. cbn. by rewrite andb_true_iff, !Z.eqb_eq. Qed.

Definition with_queues (v : spi_view demo_card) (d : demo_bus) : demo_bus := DemoBus v (demo_control d) (demo_select d).

Definition demo_step (d : demo_bus) : demo_bus := if demo_live d then with_queues (shift_one (demo_queues d)) d else d.

Definition demo_read (w addr : Z) (d : demo_bus) : Z * demo_bus :=
  if addr =? SPI_STATUS_REG then (if bool_decide (spi_rx (demo_queues d) = []) then 1 else 0, d)
  else if addr =? SPI_RECEIVE_REG then
    match spi_rx (demo_queues d) with
    | r :: rx => (r mod 256, with_queues (SpiView (spi_tx (demo_queues d)) rx (spi_card (demo_queues d))) d)
    | [] => (0, d)
    end
  else (0x20, d).

Definition demo_write (w addr v : Z) (d : demo_bus) : demo_bus :=
  let q := demo_queues d in
  if addr =? SPI_TRANSMIT_REG then
    let d := demo_step d in let q := demo_queues d in
    with_queues (SpiView (spi_tx q ++ [v]) (spi_rx q) (spi_card q)) d
  else if addr =? SPI_RESET_REG then DemoBus (SpiView [] [] (spi_card q)) 0x180 0xffffffff
  else if addr =? SPI_SLAVE_SELECT_REG then DemoBus q (demo_control d) v
  else if addr =? SPI_CONTROL_REG then
    DemoBus (SpiView (if Z.testbit v SPICR_TXFIFO_RESET then [] else spi_tx q)
               (if Z.testbit v SPICR_RXFIFO_RESET then [] else spi_rx q) (spi_card q))
      (Z.clearbit (Z.clearbit v SPICR_TXFIFO_RESET) SPICR_RXFIFO_RESET) (demo_select d)
  else d.

#[export] Instance demo_bus_bus : Bus demo_bus := {| bus_read := demo_read; bus_write := demo_write |}.
#[export] Instance demo_clocked : Clocked demo_bus := {| nop := demo_step |}.

Lemma demo_passes d : passes (demo_state d) (demo_state d).
Proof. split; [done|]. split; [done|]. split; [done|]. by exists 0%nat. Qed.

Lemma demo_shift_busy v : length (spi_tx (shift_one v)) = pred (length (spi_tx v)).
Proof. unfold shift_one. destruct (spi_tx v) as [|b tx] eqn:E; [by rewrite E|done]. Qed.

Lemma demo_step_passes d :
  passes (demo_state d) (demo_state (demo_step d)) /\
  (live (demo_state d) -> core_busy (demo_state (demo_step d)) <= pred (core_busy (demo_state d)))%nat.
Proof.
  unfold demo_step. destruct (demo_live d) eqn:E.
  - apply demo_live_spec in E. assert (L := demo_shift_busy (demo_queues d)).
    change (core_busy (demo_state (with_queues ?v d))) with (length (spi_tx v)). split; [|intros _; by rewrite L].
    split; [done|]. split; [done|]. split.
    + change (core_busy (demo_state (with_queues ?v d))) with (length (spi_tx v)). rewrite L. cbn. lia.
    + exists 1%nat. split; [exact (demo_view_shift (demo_queues d))|done].
  - split; [apply demo_passes|]. intros Hl. apply demo_live_spec in Hl. congruence.
Qed.

Lemma demo_uart_write a v d : UART_BASE <= a < UART_BASE + 32 -> bus_write 1 a v d = d.
Proof.
  unfold UART_BASE. intros Ha. cbn [bus_write demo_bus_bus].
  unfold demo_write, SPI_TRANSMIT_REG, SPI_RESET_REG, SPI_SLAVE_SELECT_REG, SPI_CONTROL_REG, SPI_BASE.
  rewrite !(proj2 (Z.eqb_neq a _)) by lia. done.
Qed.

Lemma demo_transmit b d :
  live (demo_state d) -> let s := demo_state d in let s' := demo_state (bus_write 4 SPI_TRANSMIT_REG b d) in
  live s' /\ (core_busy s' <= core_busy s - 1 + 1)%nat /\
  exists k, core_view s' =
    shift_out k (SpiView (spi_tx (core_view s) ++ [b]) (spi_rx (core_view s)) (spi_card (core_view s))).
Proof.
  intros Hl s s'. assert (E := Hl). apply demo_live_spec in E.
  change (bus_write 4 SPI_TRANSMIT_REG b d) with
    (with_queues (SpiView (spi_tx (demo_queues (demo_step d)) ++ [b]) (spi_rx (demo_queues (demo_step d)))
       (spi_card (demo_queues (demo_step d)))) (demo_step d)) in s'.
  unfold s', demo_step. rewrite E. split; [exact Hl|]. split.
  - change (length (spi_tx (shift_one (demo_queues d)) ++ [b]) <= length (spi_tx (demo_queues d)) - 1 + 1)%nat.
    rewrite length_app, demo_shift_busy. cbn. lia.
  - change (exists k, demo_view (SpiView (spi_tx (shift_one (demo_queues d)) ++ [b]) (spi_rx (shift_one (demo_queues d)))
              (spi_card (shift_one (demo_queues d)))) =
      shift_out k (SpiView (spi_tx (demo_queues d) ++ [b]) (map (λ r, r mod 256) (spi_rx (demo_queues d))) (spi_card (demo_queues d)))).
    destruct (demo_queues d) as [[|x tx] rx c]; [by exists 0%nat|]. exists 1%nat.
    exact (demo_view_shift (SpiView ((x :: tx) ++ [b]) rx c)).
Qed.

Lemma demo_receive d r rx :
  spi_tx (core_view (demo_state d)) = [] -> spi_rx (core_view (demo_state d)) = r :: rx ->
  let '(v, d') := bus_read 4 SPI_RECEIVE_REG d in
  v mod 256 = r /\ core_view (demo_state d') = SpiView [] rx (spi_card (core_view (demo_state d))) /\
  core_control (demo_state d') = core_control (demo_state d).
Proof.
  change (bus_read 4 SPI_RECEIVE_REG d) with
    (match spi_rx (demo_queues d) with
     | r :: rx => (r mod 256, with_queues (SpiView (spi_tx (demo_queues d)) rx (spi_card (demo_queues d))) d)
     | [] => (0, d) end).
  destruct d as [[tx [|r' rx'] c] ctl sel]; cbn; [done|]. intros -> E. injection E as <- <-.
  split; [by rewrite Z.mod_mod|by split].
Qed.

#[export] Instance demo_spi : SpiBus demo_bus demo_card 2.
Proof.
  refine {| spi_state := demo_state; spi_byte_time := 1; spi_store_time := 1 |}.
  - cbn. lia.
  - intros d. cbn [demo_state core_view core_busy demo_view spi_tx]. split; [by intros ->|apply nil_length_inv].
  - apply demo_step_passes.
  - done.
  - done.
  - intros v [[tx rx c] ctl sel]. cbn -[Z.testbit Z.clearbit]. intros ->. unfold demo_view. cbn -[Z.testbit Z.clearbit].
    change (demo_write 4 SPI_CONTROL_REG v (DemoBus ?q ctl sel)) with
      (DemoBus (SpiView (if Z.testbit v SPICR_TXFIFO_RESET then [] else spi_tx q)
                  (if Z.testbit v SPICR_RXFIFO_RESET then [] else spi_rx q) (spi_card q))
         (Z.clearbit (Z.clearbit v SPICR_TXFIFO_RESET) SPICR_RXFIFO_RESET) sel).
    cbn [demo_queues demo_control demo_select spi_tx spi_rx spi_card].
    split; [|done]. by destruct (Z.testbit v SPICR_TXFIFO_RESET), (Z.testbit v SPICR_RXFIFO_RESET).
  - intros b d s Hl _ _. by apply demo_transmit.
  - intros d. change (bus_read 4 SPI_STATUS_REG d) with
      (if bool_decide (spi_rx (demo_queues d) = []) then 1 else 0, d). split; [apply demo_passes|].
    cbn [demo_state core_view demo_view spi_rx]. by destruct (spi_rx (demo_queues d)).
  - intros d r rx. apply demo_receive.
  - intros d. apply demo_passes.
  - intros a v d Ha. rewrite demo_uart_write by done. apply demo_passes.
  - intros d. exists 0%nat. split; [lia|done].
Defined.

Definition demo_power_on : demo_bus := DemoBus (SpiView [] [] demo_fresh) 0x180 0xffffffff.

(** ** Properties *)

(** [C27] The checksum sd_copy computes over the bytes of a block, four shifts and
    exclusive ors per byte, is CRC-16-CCITT as the SD specification defines it:
    the remainder of the message, bit by bit, modulo x^16 + x^12 + x^5 + 1. *)
Theorem crc16_is_ccitt l :
  Forall (λ b, 0 <= b < 256) l -> fold_left crc16 l 0 = ccitt l /\ 0 <= ccitt l < 2 ^ 16.
Proof. intros Hl. apply crc16_list; [lia|exact Hl]. Qed.

Lemma crc16_is_ccitt_witness :
  fold_left crc16 [49; 50; 51; 52; 53; 54; 55; 56; 57] 0 = ccitt [49; 50; 51; 52; 53; 54; 55; 56; 57] /\
  0 <= ccitt [49; 50; 51; 52; 53; 54; 55; 56; 57] < 2 ^ 16.
Proof. apply (crc16_is_ccitt [49; 50; 51; 52; 53; 54; 55; 56; 57]). repeat constructor; lia. Defined.

(** The check value of the catalogue of checksums for this one. *)
Example ccitt_check_value : ccitt [49; 50; 51; 52; 53; 54; 55; 56; 57] = 0x31C3.
Proof. reflexivity. Qed.

(** [C24] sd_copy with any card on the other end of the bus and the controller as
    spi_init leaves it.  If the card refuses the read command, nothing is stored
    and -1 is returned.  If it accepts, and each block it sends starts within
    [polls] bytes, what is stored, from [dst] on, is exactly the data of the
    blocks it sends; the result is 0 if every block came with its CRC-16-CCITT,
    and -2 if one did not, in which case that block is the last one stored; and
    the card has then been sent the command that stops the transmission.  In all
    cases the controller is ready for the next exchange afterwards. *)
Theorem sd_copy_receives {D C : Type} `{SpiBus D C polls} dst lba size c r c1 m d :
  is_u64 dst -> size < 2 ^ 32 -> spi_ready c d ->
  command 18 lba (read_crc lba) c = (r, c1) ->
  (r <> 0 -> exists d',
     sd_copy polls dst lba size (Rom d m) = (Ret (-1), Rom d' m) /\ spi_ready (dummies 8 c1) d') /\
  (r = 0 -> forall data rc c2, read_blocks polls (copy_rounds size) c1 = Some (data, rc, c2) -> exists d',
     sd_copy polls dst lba size (Rom d m) = (Ret rc, Rom d' (store_from dst 0 data m)) /\
     spi_ready (snd (clock (snd (command 12 0 0x01 c2)))) d').
Proof.
  intros Hd Hs Hi E. split.
  - intros Hr. exact (run_sd_copy_refused dst lba size c r c1 m E Hr d Hi).
  - intros Hr data rc c2 Er. exact (run_sd_copy dst lba size c r c1 data rc c2 m Hd Hs E Hr Er d Hi).
Qed.

(** Reading both blocks of the example partition. *)
Definition demo_sent : demo_card := DemoCard [] (packet 3) (Some 4).
Definition demo_both : list Z := replicate 512 7 ++ replicate 512 8.

Lemma demo_accepts : command 18 3 (read_crc 3) demo_fresh = (0, demo_sent).
Proof. by apply demo_command. Qed.

Lemma demo_blocks :
  read_blocks 2 (copy_rounds 2) demo_sent = Some (demo_both, 0, DemoCard [] (packet 5) (Some 6)).
Proof. by vm_compute. Qed.

Definition demo_initialised : demo_bus := DemoBus (SpiView [] [] demo_fresh) 0x06 0xffffffff.

Lemma sd_copy_receives_witness :
  exists d',
    sd_copy 2 0x80000000 3 2 (Rom demo_initialised ∅) = (Ret 0, Rom d' (store_from 0x80000000 0 demo_both ∅)) /\
    spi_ready (snd (clock (snd (command 12 0 0x01 (DemoCard [] (packet 5) (Some 6)))))) d'.
Proof.
  refine (proj2 (sd_copy_receives 0x80000000 3 2 demo_fresh 0 demo_sent ∅ demo_initialised _ _ _ demo_accepts)
            eq_refl demo_both 0 (DemoCard [] (packet 5) (Some 6)) demo_blocks).
  - unfold is_u64. lia.
  - lia.
  - by split.
Defined.

(** The checksum sent with the read command is always the same: crc7 takes the
    [&] of the remainder and the next byte, where the polynomial division takes
    their exclusive or. *)
Theorem read_crc_constant lba : read_crc lba = 1.
Proof.
  assert (Z0 : forall b, crc7 0 b = 0) by (intros b; unfold crc7; by rewrite Z.land_0_l).
  unfold read_crc. cbv zeta. by rewrite !Z0.
Qed.

(** Asked for no block, sd_copy copies one. *)
Theorem copy_of_nothing_copies_one : copy_rounds 0 = 1%nat.
Proof. reflexivity. Qed.
