(* ===== verification/Bootrom.v ===== *)
(** * The boot ROM: the partition table and main

    Models gpt.c and main.c of
    src/modules/cva6/corev_apu/fpga/src/bootrom/src, the first program the SoC
    runs: it reads the partition table of the memory card and copies the first
    partition, the firmware, to the start of memory.

    The local buffers of gpt_find_boot_partition are memory at the addresses
    [lba1_buf] and [lba2_buf]; [polls] bounds the busy-wait loops.  The theorem:
    with a working card, memory holds the blocks of the first partition when
    main returns.  A concrete controller and card show that the interfaces can be
    implemented. *)

From Stdlib Require Import ZArith Lia.
From stdpp Require Import base tactics list gmap numbers strings.
From S2P Require Import Prelude Mmio Uart Spi SdCard.

Section Rom.
Context {D : Type} `{Bus D, Clocked D} (polls : nat).

(** ** gpt.c *)

(** Fields of a structure in memory: little-endian. *)
Fixpoint load_le (n : nat) (a : Z) : M (rom D) Z :=
  match n with
  | O => ret 0
  | S n' => (b <- rom_load a ;; r <- load_le n' (add64 a 1) ;; ret (b + 256 * r))%sbi
  end.
Definition load_field (n : nat) (base off : Z) : M (rom D) Z := load_le n (add64 base off).

(** [gpt_pth_t] and [partition_entries_t]: the offsets of the fields used. *)
Definition pth_signature : Z := 0.
Definition pth_revision : Z := 8.
Definition pth_header_size : Z := 12.
Definition pth_crc_header : Z := 16.
Definition pth_reserved : Z := 20.
Definition pth_current_lba : Z := 24.
Definition pth_backup_lba : Z := 32.
Definition pth_partition_entries_lba : Z := 72.
Definition pth_nr_partition_entries : Z := 80.
Definition pth_size_partition_entry : Z := 84.
Definition part_type_guid : Z := 0.
Definition part_guid : Z := 16.
Definition part_first_lba : Z := 32.
Definition part_last_lba : Z := 40.
Definition part_attributes : Z := 48.
Definition part_name : Z := 56.

(** The print of one field. *)
Definition show_addr (label : list Z) (base off : Z) : M (rom D) unit :=
  (print_msg polls label ;;; v <- load_field 8 base off ;; print_num polls v)%sbi.
Definition show_int (label : list Z) (base off : Z) : M (rom D) unit :=
  (print_msg polls label ;;; v <- load_field 4 base off ;; print_int polls v)%sbi.
Definition show_bytes (label : list Z) (n : nat) (base off : Z) : M (rom D) unit :=
  (print_msg polls label ;;;
   mfor (seq 0 n) (λ j, v <- rom_load (add64 (add64 base off) (Z.of_nat j)) ;; print_byte polls v))%sbi.

(** A new line, an indented label, and tabs. *)
Definition label (s : string) (tabs : nat) : list Z := crlf ++ tab ++ chars s ++ concat (replicate tabs tab).

Definition print_header (lba1 : Z) : M (rom D) unit :=
  (print_msg polls (chars "gpt partition table header:") ;;;
   show_addr (label "signature:" 1) lba1 pth_signature ;;;
   show_int (label "revision:" 1) lba1 pth_revision ;;;
   show_int (label "size:" 2) lba1 pth_header_size ;;;
   show_int (label "crc_header:" 1) lba1 pth_crc_header ;;;
   show_int (label "reserved:" 1) lba1 pth_reserved ;;;
   show_addr (label "current lba:" 1) lba1 pth_current_lba ;;;
   show_addr (label "backup lda:" 1) lba1 pth_backup_lba ;;;
   show_addr (label "partition entries lba:   " 1) lba1 pth_partition_entries_lba ;;;
   show_int (label "number partition entries:" 1) lba1 pth_nr_partition_entries ;;;
   show_int (label "size partition entries:  " 1) lba1 pth_size_partition_entry ;;;
   print_msg polls crlf)%sbi.

Definition print_entry (lba2 : Z) (i : nat) : M (rom D) unit :=
  (let part_entry := add64 lba2 (Z.of_nat i * 128) in
   print_msg polls (chars "gpt partition entry ") ;;;
   print_byte polls (Z.of_nat i) ;;;
   show_bytes (label "partition type guid:" 1) 16 part_entry part_type_guid ;;;
   show_bytes (label "partition guid:     " 1) 16 part_entry part_guid ;;;
   show_addr (label "first lba:" 1) part_entry part_first_lba ;;;
   show_addr (label "last lba:" 1) part_entry part_last_lba ;;;
   show_addr (label "attributes:" 1) part_entry part_attributes ;;;
   show_bytes (label "name:" 1) 72 part_entry part_name ;;;
   print_msg polls crlf)%sbi.

Definition card_failed (res : Z) : M (rom D) Z :=
  (print_msg polls (chars "SD card failed!" ++ crlf) ;;;
   print_msg polls (chars "sd copy return value: ") ;;;
   print_num polls (u64 res) ;;;
   print_msg polls crlf ;;;
   ret (-2))%sbi.

(** [size] is not used. *)
Definition gpt_find_boot_partition (lba1_buf lba2_buf dest size : Z) : M (rom D) Z :=
  (res <- init_sd polls ;;
   if negb (res =? 0) then
     print_msg polls (chars "could not initialize sd... exiting" ++ crlf) ;;; ret (-1)
   else
     print_msg polls (chars "sd initialized!" ++ crlf) ;;;
     res <- sd_copy polls lba1_buf 1 1 ;;
     if negb (res =? 0) then card_failed res
     else
       print_header lba1_buf ;;;
       entries <- load_field 8 lba1_buf pth_partition_entries_lba ;;
       res <- sd_copy polls lba2_buf (u32 entries) 1 ;;
       if negb (res =? 0) then card_failed res
       else
         mfor (seq 0 4) (print_entry lba2_buf) ;;;
         print_msg polls (chars "copying boot image ") ;;;
         first <- load_field 8 lba2_buf part_first_lba ;;
         last <- load_field 8 lba2_buf part_last_lba ;;
         res <- sd_copy polls dest (u32 first) (u32 (last - first + 1)) ;;
         if negb (res =? 0) then card_failed res
         else
           print_msg polls (chars " done!" ++ crlf) ;;; ret 0)%sbi.

(** ** main.c *)

Definition main (lba1_buf lba2_buf : Z) : M (rom D) Z :=
  (rom_io (init_uart 50000000 115200) ;;;
   print_msg polls (chars "Hello World!" ++ crlf) ;;;
   gpt_find_boot_partition lba1_buf lba2_buf 0x80000000 (2 * 16384) ;;;
   ret 0)%sbi.

End Rom.

(** ** Lemmas *)

(** A little-endian number, and a field of a block. *)
Fixpoint le_number (l : list Z) : Z :=
  match l with
  | [] => 0
  | b :: l' => b + 256 * le_number l'
  end.
Definition field (n off : nat) (block : list Z) : Z := le_number (take n (drop off block)).

Section Gpt.
Context {D C : Type} `{SpiBus D C polls}.

Lemma run_load_le_any n a c m : exists v, rom_run c m (load_le n a : M (rom D) Z) v c m.
Proof.
  revert a. induction n as [|n IH]; intros a; [exists 0; apply run_ret|].
  destruct (IH (add64 a 1)) as [v R]. eexists. cbn [load_le].
  eapply run_bind; [apply run_load|]. eapply run_bind; [exact R|]. apply run_ret.
Qed.

Lemma run_load_le l base off c m :
  (forall j b, l !! j = Some b -> m !! add64 base (off + Z.of_nat j) = Some b) ->
  rom_run c m (load_le (length l) (add64 base off) : M (rom D) Z) (le_number l) c m.
Proof.
  revert off. induction l as [|b l IH]; intros off Hm; [apply run_ret|]. cbn [length load_le le_number].
  eapply run_bind; [apply run_load|].
  assert (E := Hm 0%nat b eq_refl). rewrite Z.add_0_r in E. rewrite E. cbn [default].
  eapply run_bind.
  - rewrite add64_assoc. apply IH. intros j x Hj. rewrite <- (Hm (S j) x Hj). do 2 f_equal. lia.
  - apply run_ret.
Qed.

(** A field of a block in memory. *)
Lemma run_field n off block base c m :
  length block = 512%nat -> (off + n <= 512)%nat ->
  rom_run c (store_from base 0 block m) (load_field n base (Z.of_nat off) : M (rom D) Z) (field n off block)
    c (store_from base 0 block m).
Proof.
  intros Hl Hn. unfold load_field, field.
  assert (E : length (take n (drop off block)) = n) by (rewrite length_take, length_drop; lia).
  rewrite <- E at 1. apply run_load_le. intros j b Hj.
  apply lookup_take_Some in Hj as [Hj Hlt]. rewrite lookup_drop in Hj.
  rewrite <- (store_from_lookup base 0 block m (off + j) b); [f_equal; f_equal; lia|lia|rewrite Hl; lia|exact Hj].
Qed.

Lemma run_show_addr label base off c m : rom_run c m (show_addr polls label base off) tt c m.
Proof.
  destruct (run_load_le_any 8 (add64 base off) c m) as [v R].
  eapply run_bind; [apply run_print|]. eapply run_bind; [exact R|]. apply run_print_num.
Qed.

Lemma run_show_int label base off c m : rom_run c m (show_int polls label base off) tt c m.
Proof.
  destruct (run_load_le_any 4 (add64 base off) c m) as [v R].
  eapply run_bind; [apply run_print|]. eapply run_bind; [exact R|]. apply run_print_int.
Qed.

Lemma run_show_bytes label n base off c m : rom_run c m (show_bytes polls label n base off) tt c m.
Proof.
  eapply run_bind; [apply run_print|]. apply run_mfor. intros j.
  eapply run_bind; [apply run_load|]. apply run_print_byte.
Qed.

(** One step of output. *)
Ltac rom_output :=
  lazymatch goal with
  | |- rom_run _ _ (bind (print_msg _ _) _) _ _ _ => eapply run_bind; [apply run_print|]
  | |- rom_run _ _ (bind (print_byte _ _) _) _ _ _ => eapply run_bind; [apply run_print_byte|]
  | |- rom_run _ _ (bind (show_addr _ _ _ _) _) _ _ _ => eapply run_bind; [apply run_show_addr|]
  | |- rom_run _ _ (bind (show_int _ _ _ _) _) _ _ _ => eapply run_bind; [apply run_show_int|]
  | |- rom_run _ _ (bind (show_bytes _ _ _ _ _) _) _ _ _ => eapply run_bind; [apply run_show_bytes|]
  | |- rom_run _ _ (print_msg _ _) _ _ _ => apply run_print
  end.

Lemma run_print_header base c m : rom_run c m (print_header polls base) tt c m.
Proof. unfold print_header. repeat rom_output. Qed.

Lemma run_print_entry base i c m : rom_run c m (print_entry polls base i) tt c m.
Proof. unfold print_entry. cbv zeta. repeat rom_output. Qed.

Context {disk : Z → list Z} {blocks : Z} `{!MemoryCard C polls disk blocks}.

(** The partition table on the card: the first block of the partition entries,
    and the first and last block of the first partition. *)
Definition entries_lba : Z := field 8 72 (disk 1).
Definition boot_first : Z := field 8 32 (disk entries_lba).
Definition boot_last : Z := field 8 40 (disk entries_lba).
Definition boot_image : list Z := disk_blocks disk boot_first (Z.to_nat (boot_last - boot_first + 1)).

(** Everything lies on the card, and no partition starts in block 0. *)
Definition table_readable : Prop :=
  1 < blocks /\ 0 <= entries_lba < blocks /\ 1 <= boot_first <= boot_last /\ boot_last < blocks.

(** [gpt_find_boot_partition] after [init_sd]. *)
Lemma run_gpt lba1_buf lba2_buf dest c m :
  is_u64 lba1_buf -> is_u64 lba2_buf -> is_u64 dest -> sd_ready c -> table_readable ->
  exists c', rom_run c m
    (print_msg polls (chars "sd initialized!" ++ crlf) ;;;
     res <- sd_copy polls lba1_buf 1 1 ;;
     if negb (res =? 0) then card_failed polls res
     else
       print_header polls lba1_buf ;;;
       entries <- load_field 8 lba1_buf pth_partition_entries_lba ;;
       res <- sd_copy polls lba2_buf (u32 entries) 1 ;;
       if negb (res =? 0) then card_failed polls res
       else
         mfor (seq 0 4) (print_entry polls lba2_buf) ;;;
         print_msg polls (chars "copying boot image ") ;;;
         first <- load_field 8 lba2_buf part_first_lba ;;
         last <- load_field 8 lba2_buf part_last_lba ;;
         res <- sd_copy polls dest (u32 first) (u32 (last - first + 1)) ;;
         if negb (res =? 0) then card_failed polls res
         else
           print_msg polls (chars " done!" ++ crlf) ;;; ret 0)%sbi 0 c'
    (store_from dest 0 boot_image (store_from lba2_buf 0 (disk entries_lba) (store_from lba1_buf 0 (disk 1) m))) /\
    sd_ready c'.
Proof.
  intros Hb1 Hb2 Hd C1 (T1 & T2 & T3 & T4). assert (Hcap := sd_capacity).
  destruct (run_copy_disk lba1_buf 1 1 c m Hb1 ltac:(lia) C1 ltac:(lia) ltac:(change (copy_rounds 1) with 1%nat; lia)) as (c2 & R2 & C2).
  change (copy_rounds 1) with 1%nat in R2. rewrite disk_blocks_1 in R2. set (m2 := store_from lba1_buf 0 (disk 1) m) in *.
  destruct (run_copy_disk lba2_buf entries_lba 1 c2 m2 Hb2 ltac:(lia) C2 ltac:(lia) ltac:(change (copy_rounds 1) with 1%nat; lia)) as (c3 & R3 & C3).
  change (copy_rounds 1) with 1%nat in R3. rewrite disk_blocks_1 in R3.
  set (m3 := store_from lba2_buf 0 (disk entries_lba) m2) in *.
  assert (Er : copy_rounds (boot_last - boot_first + 1) = Z.to_nat (boot_last - boot_first + 1))
    by (unfold copy_rounds; lia).
  destruct (run_copy_disk dest boot_first (boot_last - boot_first + 1) c3 m3 Hd ltac:(lia) C3 ltac:(lia)
              ltac:(rewrite Er; lia)) as (c4 & R4 & C4).
  rewrite Er in R4. exists c4. split; [|done].
  eapply run_bind; [apply run_print|]. eapply run_bind; [exact R2|]. cbn [Z.eqb negb].
  eapply run_bind; [apply run_print_header|].
  eapply run_bind; [apply (run_field 8 72 (disk 1)); [apply disk_block|lia]|]. fold entries_lba.
  unfold u32. rewrite (Z.mod_small entries_lba) by lia.
  eapply run_bind; [exact R3|]. cbn [Z.eqb negb].
  eapply run_bind; [apply run_mfor; intros i; apply run_print_entry|]. eapply run_bind; [apply run_print|].
  eapply run_bind; [apply (run_field 8 32 (disk entries_lba)); [apply disk_block|lia]|].
  eapply run_bind; [apply (run_field 8 40 (disk entries_lba)); [apply disk_block|lia]|].
  fold boot_first boot_last. rewrite !Z.mod_small by lia.
  eapply run_bind; [exact R4|]. cbn [Z.eqb negb].
  eapply run_bind; [apply run_print|]. apply run_ret.
Qed.

Lemma main_run lba1_buf lba2_buf c d m :
  is_u64 lba1_buf -> is_u64 lba2_buf -> sd_powered c -> spi_idle c d -> table_readable ->
  exists d', main polls lba1_buf lba2_buf (Rom d m) = (Ret 0, Rom d'
    (store_from 0x80000000 0 boot_image
      (store_from lba2_buf 0 (disk entries_lba) (store_from lba1_buf 0 (disk 1) m)))).
Proof.
  intros Hb1 Hb2 Hc Hi Ht.
  assert (Q : quiet (D := D) (init_uart 50000000 115200)).
  { unfold init_uart. cbv zeta. repeat (apply quiet_seq; [by apply quiet_write|]). by apply quiet_write. }
  destruct (Q c d Hi) as (d1 & E1 & I1 & _).
  destruct (idles_print (chars "Hello World!" ++ crlf) c d1 m I1) as ([] & d2 & E2 & I2 & _).
  destruct (init_sd_run c d2 m Hc I2) as (d3 & c3 & E3 & J3 & Hc3).
  destruct (run_gpt lba1_buf lba2_buf 0x80000000 c3 m Hb1 Hb2 ltac:(unfold is_u64; lia) Hc3 Ht) as (c' & R & _).
  destruct (R d3 J3) as (d' & E & _). exists d'. unfold main.
  erewrite bind_Ret by (apply rom_io_run; exact E1). erewrite bind_Ret by exact E2.
  unfold gpt_find_boot_partition. rewrite bind_assoc. erewrite bind_Ret by exact E3. cbn [Z.eqb negb].
  by erewrite bind_Ret by exact E.
Qed.

End Gpt.

(** ** Properties *)


(** The size limit main passes is not looked at: the partition is copied whole. *)
Theorem gpt_ignores_size {D : Type} `{Bus D, Clocked D} polls lba1_buf lba2_buf dest size size' (s : rom D) :
  gpt_find_boot_partition polls lba1_buf lba2_buf dest size s =
  gpt_find_boot_partition polls lba1_buf lba2_buf dest size' s.
Proof. reflexivity. Qed.


(** The image of the example. *)
Example demo_image : boot_image (disk := demo_disk) = replicate 512 7 ++ replicate 512 8.
Proof. by vm_compute. Qed.
