(* ===== verification/Fdt.v ===== *)
(** * Flattened device trees: the blob and its tags

    Models lib/utils/libfdt/fdt.c with the header accessors of libfdt.h and
    libfdt_internal.h (paths relative to src/cva6-sdk/opensbi).  No assumption of
    [can_assume] is enabled.

    A blob is its address and its bytes; a pointer into it is an offset from its
    start, and a read outside the bytes stops ([wild_access]).  Offsets of type
    [int] are signed 32-bit integers.  [fuel] bounds the loops over the blob; a
    loop that exhausts it does not end ([spinning]). *)

From Stdlib Require Import ZArith Lia.
From stdpp Require Import base tactics list numbers strings.
From S2P Require Import Prelude.

Definition FDT_MAGIC : Z := 0xd00dfeed.
Definition FDT_SW_MAGIC : Z := 2 ^ 32 - 1 - FDT_MAGIC.
Definition FDT_TAGSIZE : Z := 4.
Definition FDT_BEGIN_NODE : Z := 0x1.
Definition FDT_END_NODE : Z := 0x2.
Definition FDT_PROP : Z := 0x3.
Definition FDT_NOP : Z := 0x4.
Definition FDT_END : Z := 0x9.
Definition FDT_V1_SIZE : Z := 7 * 4.
Definition FDT_V2_SIZE : Z := FDT_V1_SIZE + 4.
Definition FDT_V3_SIZE : Z := FDT_V2_SIZE + 4.
Definition FDT_V16_SIZE : Z := FDT_V3_SIZE.
Definition FDT_V17_SIZE : Z := FDT_V16_SIZE + 4.
Definition FDT_FIRST_SUPPORTED_VERSION : Z := 0x02.
Definition FDT_LAST_SUPPORTED_VERSION : Z := 0x11.
Definition INT_MAX : Z := 2 ^ 31 - 1.

Definition FDT_ERR_NOTFOUND : Z := 1.
Definition FDT_ERR_NOSPACE : Z := 3.
Definition FDT_ERR_BADOFFSET : Z := 4.
Definition FDT_ERR_BADPATH : Z := 5.
Definition FDT_ERR_BADPHANDLE : Z := 6.
Definition FDT_ERR_BADSTATE : Z := 7.
Definition FDT_ERR_TRUNCATED : Z := 8.
Definition FDT_ERR_BADMAGIC : Z := 9.
Definition FDT_ERR_BADVERSION : Z := 10.
Definition FDT_ERR_BADSTRUCTURE : Z := 11.
Definition FDT_ERR_INTERNAL : Z := 13.
Definition FDT_ERR_BADNCELLS : Z := 14.
Definition FDT_ERR_BADVALUE : Z := 15.
Definition FDT_ERR_NOPHANDLES : Z := 17.
Definition FDT_ERR_ALIGNMENT : Z := 19.

(** [sizeof(struct fdt_property)] *)
Definition sizeof_fdt_property : Z := 12.

Definition FDT_TAGALIGN (x : Z) : Z := s32 (Z.land (u64 (x + FDT_TAGSIZE - 1)) (not64 (FDT_TAGSIZE - 1))).

(** ** The blob *)

Record dtb : Type := Dtb {
  dt_addr : Z;
  dt_bytes : list Z;
}.

Definition load (o : Z) : M dtb Z :=
  λ s, match (if o <? 0 then None else dt_bytes s !! Z.to_nat o) with
       | Some b => (Ret b, s)
       | None => (Stop wild_access, s)
       end.

(** Big-endian words. *)
Definition fdt32_ld (o : Z) : M dtb Z :=
  (b0 <- load o ;; b1 <- load (o + 1) ;; b2 <- load (o + 2) ;; b3 <- load (o + 3) ;;
   ret (((b0 * 256 + b1) * 256 + b2) * 256 + b3))%sbi.
Definition fdt64_ld (o : Z) : M dtb Z :=
  (hi <- fdt32_ld o ;; lo <- fdt32_ld (o + 4) ;; ret (hi * 2 ^ 32 + lo))%sbi.

Definition fdt_magic : M dtb Z := fdt32_ld 0.
Definition fdt_totalsize : M dtb Z := fdt32_ld 4.
Definition fdt_off_dt_struct : M dtb Z := fdt32_ld 8.
Definition fdt_off_dt_strings : M dtb Z := fdt32_ld 12.
Definition fdt_off_mem_rsvmap : M dtb Z := fdt32_ld 16.
Definition fdt_version : M dtb Z := fdt32_ld 20.
Definition fdt_last_comp_version : M dtb Z := fdt32_ld 24.
Definition fdt_size_dt_strings : M dtb Z := fdt32_ld 32.
Definition fdt_size_dt_struct : M dtb Z := fdt32_ld 36.

(** ** fdt.c *)

Definition fdt_ro_probe_ : M dtb Z :=
  (totalsize <- fdt_totalsize ;;
   addr <- gets dt_addr ;;
   let sized := ret (if totalsize <? INT_MAX then totalsize else - FDT_ERR_TRUNCATED) in
   if truthy (Z.land addr 7) then ret (- FDT_ERR_ALIGNMENT)
   else
     magic <- fdt_magic ;;
     if magic =? FDT_MAGIC then
       version <- fdt_version ;;
       if version <? FDT_FIRST_SUPPORTED_VERSION then ret (- FDT_ERR_BADVERSION)
       else
         last <- fdt_last_comp_version ;;
         if FDT_LAST_SUPPORTED_VERSION <? last then ret (- FDT_ERR_BADVERSION) else sized
     else if magic =? FDT_SW_MAGIC then
       size <- fdt_size_dt_struct ;;
       if size =? 0 then ret (- FDT_ERR_BADSTATE) else sized
     else ret (- FDT_ERR_BADMAGIC))%sbi.

Definition check_off_ (hdrsize totalsize off : Z) : bool := (hdrsize <=? off) && (off <=? totalsize).

Definition check_block_ (hdrsize totalsize base size : Z) : bool :=
  if negb (check_off_ hdrsize totalsize base) then false
  else if u32 (base + size) <? base then false
  else check_off_ hdrsize totalsize (u32 (base + size)).

Definition fdt_header_size_ (version : Z) : Z :=
  if version <=? 1 then FDT_V1_SIZE
  else if version <=? 2 then FDT_V2_SIZE
  else if version <=? 3 then FDT_V3_SIZE
  else if version <=? 16 then FDT_V16_SIZE
  else FDT_V17_SIZE.

Definition fdt_header_size : M dtb Z := (version <- fdt_version ;; ret (fdt_header_size_ version))%sbi.

Definition fdt_check_header : M dtb Z :=
  (addr <- gets dt_addr ;;
   if truthy (Z.land addr 7) then ret (- FDT_ERR_ALIGNMENT)
   else
     magic <- fdt_magic ;;
     if negb (magic =? FDT_MAGIC) then ret (- FDT_ERR_BADMAGIC)
     else
       version <- fdt_version ;;
       last <- fdt_last_comp_version ;;
       if (version <? FDT_FIRST_SUPPORTED_VERSION) || (FDT_LAST_SUPPORTED_VERSION <? last)
       then ret (- FDT_ERR_BADVERSION)
       else if version <? last then ret (- FDT_ERR_BADVERSION)
       else
         hdrsize <- fdt_header_size ;;
         totalsize <- fdt_totalsize ;;
         if (totalsize <? hdrsize) || (INT_MAX <? totalsize) then ret (- FDT_ERR_TRUNCATED)
         else
           rsvmap <- fdt_off_mem_rsvmap ;;
           if negb (check_off_ hdrsize totalsize rsvmap) then ret (- FDT_ERR_TRUNCATED)
           else
             off_struct <- fdt_off_dt_struct ;;
             ok <- (if version <? 17 then ret (check_off_ hdrsize totalsize off_struct)
                    else size <- fdt_size_dt_struct ;; ret (check_block_ hdrsize totalsize off_struct size)) ;;
             if negb ok then ret (- FDT_ERR_TRUNCATED)
             else
               off_strings <- fdt_off_dt_strings ;;
               size <- fdt_size_dt_strings ;;
               if negb (check_block_ hdrsize totalsize off_strings size) then ret (- FDT_ERR_TRUNCATED)
               else ret 0)%sbi.

Definition fdt_offset_ptr_ (offset : Z) : M dtb Z :=
  (off_struct <- fdt_off_dt_struct ;; ret (off_struct + offset))%sbi.

(** NULL is [None]. *)
Definition fdt_offset_ptr (offset len : Z) : M dtb (option Z) :=
  (let uoffset := u32 offset in
   off_struct <- fdt_off_dt_struct ;;
   let absoffset := u32 (offset + off_struct) in
   if offset <? 0 then ret None
   else
     totalsize <- fdt_totalsize ;;
     if (absoffset <? uoffset) || (u32 (absoffset + len) <? absoffset) || (totalsize <? u32 (absoffset + len))
     then ret None
     else
       version <- fdt_version ;;
       ok <- (if 0x11 <=? version then
                size <- fdt_size_dt_struct ;;
                ret (negb ((u32 (uoffset + len) <? uoffset) || (size <? u32 (offset + len))))
              else ret true) ;;
       if ok : bool then p <- fdt_offset_ptr_ offset ;; ret (Some p) else ret None)%sbi.

Section Loops.
Context (fuel : nat).

(** [do { p = fdt_offset_ptr(fdt, offset++, 1); } while (p && ( *p != 0));] *)
Fixpoint skip_name (n : nat) (offset : Z) : M dtb (option Z * Z) :=
  match n with
  | O => stop spinning
  | S n' =>
      (p <- fdt_offset_ptr offset 1 ;;
       let offset := s32 (offset + 1) in
       match p with
       | None => ret (None, offset)
       | Some a => b <- load a ;; if negb (b =? 0) then skip_name n' offset else ret (p, offset)
       end)%sbi
  end.

(** The offset after the tag and what belongs to it; [None] is a premature end. *)
Definition tag_end (tag offset : Z) : M dtb (option Z) :=
  (if tag =? FDT_BEGIN_NODE then
     r <- skip_name fuel offset ;;
     match fst r with None => ret None | Some _ => ret (Some (snd r)) end
   else if tag =? FDT_PROP then
     lenp <- fdt_offset_ptr offset 4 ;;
     match lenp with
     | None => ret None
     | Some p =>
         len <- fdt32_ld p ;;
         let offset := s32 (offset + (sizeof_fdt_property - FDT_TAGSIZE + len)) in
         version <- fdt_version ;;
         ret (Some (if (version <? 0x10) && (8 <=? len) && negb (u32 (offset - len) mod 8 =? 0)
                    then s32 (offset + 4) else offset))
     end
   else if (tag =? FDT_END) || (tag =? FDT_END_NODE) || (tag =? FDT_NOP) then ret (Some offset)
   else ret None)%sbi.

(** The tag and [*nextoffset]. *)
Definition fdt_next_tag (startoffset : Z) : M dtb (Z * Z) :=
  (tagp <- fdt_offset_ptr startoffset FDT_TAGSIZE ;;
   match tagp with
   | None => ret (FDT_END, - FDT_ERR_TRUNCATED)
   | Some p =>
       tag <- fdt32_ld p ;;
       e <- tag_end tag (s32 (startoffset + FDT_TAGSIZE)) ;;
       match e with
       | None => ret (FDT_END, - FDT_ERR_BADSTRUCTURE)
       | Some offset =>
           q <- fdt_offset_ptr startoffset (u32 (offset - startoffset)) ;;
           match q with
           | None => ret (FDT_END, - FDT_ERR_BADSTRUCTURE)
           | Some _ => ret (tag, FDT_TAGALIGN offset)
           end
       end
   end)%sbi.

Definition bad_offset (offset : Z) : bool := (offset <? 0) || negb (offset mod FDT_TAGSIZE =? 0).

Definition fdt_check_node_offset_ (offset : Z) : M dtb Z :=
  (if bad_offset offset then ret (- FDT_ERR_BADOFFSET)
   else
     t <- fdt_next_tag offset ;;
     if negb (fst t =? FDT_BEGIN_NODE) then ret (- FDT_ERR_BADOFFSET) else ret (snd t))%sbi.

Definition fdt_check_prop_offset_ (offset : Z) : M dtb Z :=
  (if bad_offset offset then ret (- FDT_ERR_BADOFFSET)
   else
     t <- fdt_next_tag offset ;;
     if negb (fst t =? FDT_PROP) then ret (- FDT_ERR_BADOFFSET) else ret (snd t))%sbi.

(** The loop of fdt_next_node: the result and the depth, [None] without a
    pointer to it. *)
Fixpoint next_node_loop (n : nat) (nextoffset : Z) (depth : option Z) : M dtb (Z * option Z) :=
  match n with
  | O => stop spinning
  | S n' =>
      (let offset := nextoffset in
       t <- fdt_next_tag offset ;;
       let '(tag, nextoffset) := t in
       if tag =? FDT_BEGIN_NODE then ret (offset, (λ d, s32 (d + 1)) <$> depth)
       else if tag =? FDT_END_NODE then
         let depth := (λ d, s32 (d - 1)) <$> depth in
         if (match depth with Some d => d <? 0 | None => false end) then ret (nextoffset, depth)
         else next_node_loop n' nextoffset depth
       else if tag =? FDT_END then
         if (0 <=? nextoffset) ||
            ((nextoffset =? - FDT_ERR_TRUNCATED) && match depth with None => true | Some _ => false end)
         then ret (- FDT_ERR_NOTFOUND, depth)
         else ret (nextoffset, depth)
       else next_node_loop n' nextoffset depth)%sbi
  end.

Definition fdt_next_node (offset : Z) (depth : option Z) : M dtb (Z * option Z) :=
  (if 0 <=? offset then
     nextoffset <- fdt_check_node_offset_ offset ;;
     if nextoffset <? 0 then ret (nextoffset, depth) else next_node_loop fuel nextoffset depth
   else next_node_loop fuel 0 depth)%sbi.

(** The depth behind a pointer. *)
Definition depth_of (d : option Z) : Z := default 0 d.

Definition fdt_first_subnode (offset : Z) : M dtb Z :=
  (r <- fdt_next_node offset (Some 0) ;;
   if (fst r <? 0) || negb (depth_of (snd r) =? 1) then ret (- FDT_ERR_NOTFOUND) else ret (fst r))%sbi.

Fixpoint next_subnode_loop (n : nat) (offset depth : Z) : M dtb Z :=
  match n with
  | O => stop spinning
  | S n' =>
      (r <- fdt_next_node offset (Some depth) ;;
       let offset := fst r in
       let depth := depth_of (snd r) in
       if (offset <? 0) || (depth <? 1) then ret (- FDT_ERR_NOTFOUND)
       else if 1 <? depth then next_subnode_loop n' offset depth
       else ret offset)%sbi
  end.

Definition fdt_next_subnode (offset : Z) : M dtb Z := next_subnode_loop fuel offset 1.

End Loops.

(** ** Well-formed blobs *)

(** The tags of the structure block, before its end tag. *)
Inductive token : Type :=
| BeginNode (name : list Z)
| EndNode
| Prop_ (nameoff : Z) (value : list Z)
| Nop.

Definition be32 (v : Z) : list Z := [v / 2 ^ 24 mod 256; v / 2 ^ 16 mod 256; v / 2 ^ 8 mod 256; v mod 256].

(** Filled with zeros to a multiple of four. *)
Definition padded4 (l : list Z) : list Z := l ++ replicate (Z.to_nat (- Z.of_nat (length l) mod 4)) 0.

Definition encode (t : token) : list Z :=
  match t with
  | BeginNode name => be32 FDT_BEGIN_NODE ++ padded4 (name ++ [0])
  | EndNode => be32 FDT_END_NODE
  | Prop_ nameoff value =>
      be32 FDT_PROP ++ be32 (Z.of_nat (length value)) ++ be32 nameoff ++ padded4 value
  | Nop => be32 FDT_NOP
  end.

Definition token_tag (t : token) : Z :=
  match t with
  | BeginNode _ => FDT_BEGIN_NODE
  | EndNode => FDT_END_NODE
  | Prop_ _ _ => FDT_PROP
  | Nop => FDT_NOP
  end.

Definition is_byte (b : Z) : Prop := 0 <= b < 256.

Definition token_ok (t : token) : Prop :=
  match t with
  | BeginNode name => Forall (λ b, is_byte b /\ b <> 0) name
  | Prop_ nameoff value => 0 <= nameoff < 2 ^ 31 /\ Forall is_byte value
  | _ => True
  end.

Definition encode_all (l : list token) : list Z := concat (map encode l).
Definition size_of (l : list token) : Z := Z.of_nat (length (encode_all l)).

(** [bytes] lie at offset [o]. *)
Definition at_offset (s : dtb) (o : Z) (bytes : list Z) : Prop :=
  0 <= o /\ forall i b, bytes !! i = Some b -> dt_bytes s !! (Z.to_nat o + i)%nat = Some b.

(** A blob of version 17 with the given structure and strings blocks, at the
    offsets [ds] and [dn], and of total size [total]. *)
Record blob (s : dtb) (tokens : list token) (strings : list Z) (ds dn total : Z) : Prop := {
  blob_aligned : Z.land (dt_addr s) 7 = 0;
  blob_magic : at_offset s 0 (be32 FDT_MAGIC);
  blob_totalsize : at_offset s 4 (be32 total);
  blob_off_struct : at_offset s 8 (be32 ds);
  blob_off_strings : at_offset s 12 (be32 dn);
  blob_version : at_offset s 20 (be32 17);
  blob_last : at_offset s 24 (be32 16);
  blob_size_strings : at_offset s 32 (be32 (Z.of_nat (length strings)));
  blob_size_struct : at_offset s 36 (be32 (size_of tokens + 4));
  blob_small : total < INT_MAX;
  blob_struct_in : FDT_V17_SIZE <= ds /\ ds + size_of tokens + 4 <= total;
  blob_strings_in : 0 <= dn /\ dn + Z.of_nat (length strings) <= total;
  blob_struct : at_offset s ds (encode_all tokens ++ be32 FDT_END);
  blob_strings : at_offset s dn strings;
  blob_tokens : Forall token_ok tokens;
}.

(** ** Lemmas *)

(** A computation that only looks. *)
Definition reads {A} (s : dtb) (c : M dtb A) (a : A) : Prop := c s = (Ret a, s).

Lemma reads_ret {A} s (a : A) : reads s (ret a) a.
Proof. done. Qed.

Lemma reads_bind {A B} s (c : M dtb A) (k : A → M dtb B) a b :
  reads s c a -> reads s (k a) b -> reads s (bind c k) b.
Proof. unfold reads. intros E1 E2. by erewrite bind_Ret. Qed.

Lemma reads_bind_eq {A B} s (c : M dtb A) (k : A → M dtb B) a : reads s c a -> bind c k s = k a s.
Proof. unfold reads. intros E. by erewrite bind_Ret. Qed.

Lemma bind_Stop {S A B} (c : M S A) (k : A → M S B) s w s' : c s = (Stop w, s') -> bind c k s = (Stop w, s').
Proof. unfold bind. by intros ->. Qed.

(** Bytes. *)
Lemma load_at s o l i b : at_offset s o l -> l !! i = Some b -> reads s (load (o + Z.of_nat i)) b.
Proof.
  intros [Ho Hl] Hi. unfold reads, load. rewrite (proj2 (Z.ltb_ge _ 0)) by lia.
  replace (Z.to_nat (o + Z.of_nat i)) with (Z.to_nat o + i)%nat by lia. by rewrite (Hl i b Hi).
Qed.

Lemma at_offset_app s o l1 l2 :
  at_offset s o (l1 ++ l2) -> at_offset s o l1 /\ at_offset s (o + Z.of_nat (length l1)) l2.
Proof.
  intros [Ho Hl]. split; (split; [lia|]); intros i b Hi.
  - apply Hl. by apply lookup_app_l_Some.
  - replace (Z.to_nat (o + Z.of_nat (length l1)) + i)%nat with (Z.to_nat o + (length l1 + i))%nat by lia.
    apply Hl. rewrite lookup_app_r by lia. by replace (length l1 + i - length l1)%nat with i by lia.
Qed.

Lemma be32_value v : 0 <= v < 2 ^ 32 ->
  ((v / 2 ^ 24 mod 256 * 256 + v / 2 ^ 16 mod 256) * 256 + v / 2 ^ 8 mod 256) * 256 + v mod 256 = v.
Proof.
  intros Hv. change (2 ^ 24) with (256 * 256 * 256). change (2 ^ 16) with (256 * 256). change (2 ^ 8) with 256.
  rewrite <- !Z.div_div by lia.
  assert (D1 := Z.div_mod v 256 ltac:(lia)). assert (D2 := Z.div_mod (v / 256) 256 ltac:(lia)).
  assert (D3 := Z.div_mod (v / 256 / 256) 256 ltac:(lia)).
  rewrite (Z.mod_small (v / 256 / 256 / 256)); [lia|].
  rewrite !Z.div_div by lia. split; [apply Z.div_pos; lia|apply Z.div_lt_upper_bound; lia].
Qed.

Lemma fdt32_at s o v : at_offset s o (be32 v) -> 0 <= v < 2 ^ 32 -> reads s (fdt32_ld o) v.
Proof.
  intros Ha Hv. unfold fdt32_ld. rewrite <- (be32_value v Hv) at 1. unfold be32 in Ha.
  eapply reads_bind; [replace o with (o + Z.of_nat 0) by lia; by eapply load_at|].
  eapply reads_bind; [by eapply (load_at s o _ 1)|]. eapply reads_bind; [by eapply (load_at s o _ 2)|].
  eapply reads_bind; [by eapply (load_at s o _ 3)|]. apply reads_ret.
Qed.

Lemma be32_length v : length (be32 v) = 4%nat.
Proof. done. Qed.

(** Sizes. *)
Lemma padded4_length l : exists k, Z.of_nat (length (padded4 l)) = 4 * k /\ 4 * k - 3 <= Z.of_nat (length l) <= 4 * k.
Proof.
  unfold padded4. rewrite length_app, length_replicate, Nat2Z.inj_add, Z2Nat.id by (apply Z.mod_pos_bound; lia).
  set (n := Z.of_nat (length l)).
  assert (D := Z.div_mod (- n) 4 ltac:(lia)). assert (B := Z.mod_pos_bound (- n) 4 ltac:(lia)).
  exists (- (- n / 4)). lia.
Qed.

Lemma encode_size t : exists k, Z.of_nat (length (encode t)) = 4 * k /\ 1 <= k.
Proof.
  destruct t as [name| |nameoff value|]; cbn [encode]; rewrite ?length_app, ?be32_length.
  - destruct (padded4_length (name ++ [0])) as (k & E & _). exists (k + 1). lia.
  - exists 1. lia.
  - destruct (padded4_length value) as (k & E & _). exists (k + 3). lia.
  - exists 1. lia.
Qed.

Lemma size_of_app l1 l2 : size_of (l1 ++ l2) = size_of l1 + size_of l2.
Proof. unfold size_of, encode_all. rewrite map_app, concat_app, length_app. lia. Qed.

Lemma size_of_cons t l : size_of (t :: l) = Z.of_nat (length (encode t)) + size_of l.
Proof. unfold size_of, encode_all. cbn [map concat]. rewrite length_app. lia. Qed.

Lemma size_of_nonneg l : 0 <= size_of l.
Proof. unfold size_of. lia. Qed.

Lemma size_of_mod4 l : size_of l mod 4 = 0.
Proof.
  induction l as [|t l IH]; [done|]. rewrite size_of_cons. destruct (encode_size t) as (k & -> & _).
  rewrite Z.mul_comm, Z.add_comm, Z_mod_plus_full. exact IH.
Qed.

Lemma size_of_snoc l t : size_of (l ++ [t]) = size_of l + Z.of_nat (length (encode t)).
Proof. rewrite size_of_app, size_of_cons. change (size_of []) with 0. lia. Qed.

Lemma length_size l : Z.of_nat (length l) <= size_of l.
Proof.
  induction l as [|t l IH]; [done|]. rewrite size_of_cons. destruct (encode_size t) as (k & -> & Hk).
  cbn [length]. lia.
Qed.

Lemma size_grows l t : size_of l + 4 <= size_of (l ++ [t]).
Proof. rewrite size_of_snoc. destruct (encode_size t) as (k & -> & Hk). lia. Qed.

Lemma tagalign_nonneg x : 0 <= x < 2 ^ 31 - 4 -> FDT_TAGALIGN x = (x + 3) / 4 * 4.
Proof.
  intros Hx. unfold FDT_TAGALIGN. change (FDT_TAGSIZE - 1) with (2 ^ 2 - 1).
  replace (x + FDT_TAGSIZE - 1) with (x + 3) by (unfold FDT_TAGSIZE; lia).
  rewrite u64_small by (unfold is_u64; lia). rewrite land_not_ones by (unfold is_u64; lia).
  change (2 ^ 2) with 4. assert (D := Z.div_mod (x + 3) 4 ltac:(lia)).
  assert (B := Z.mod_pos_bound (x + 3) 4 ltac:(lia)). apply s32_small. lia.
Qed.

(** ** Reading a well-formed blob *)

Section Blob.
Context {s : dtb} {tokens : list token} {strings : list Z} {ds dn total : Z}.
Context (B : blob s tokens strings ds dn total).

Lemma blob_total_range : 0 <= total < 2 ^ 31 - 1.
Proof.
  assert (H1 := blob_small _ _ _ _ _ _ B). assert (H2 := blob_struct_in _ _ _ _ _ _ B).
  assert (H3 := size_of_nonneg tokens). unfold INT_MAX in H1. unfold FDT_V17_SIZE, FDT_V16_SIZE, FDT_V3_SIZE, FDT_V2_SIZE, FDT_V1_SIZE in H2. lia.
Qed.

Lemma blob_struct_range : 32 <= ds < 2 ^ 31 /\ ds + size_of tokens + 4 <= total /\ total < 2 ^ 31 - 1 /\ 0 <= size_of tokens.
Proof.
  assert (H1 := blob_total_range). assert (H2 := blob_struct_in _ _ _ _ _ _ B).
  assert (H3 := size_of_nonneg tokens).
  unfold FDT_V17_SIZE, FDT_V16_SIZE, FDT_V3_SIZE, FDT_V2_SIZE, FDT_V1_SIZE in H2. lia.
Qed.

Lemma blob_strings_range : 0 <= dn /\ dn + Z.of_nat (length strings) <= total /\ total < 2 ^ 31 - 1.
Proof. assert (H1 := blob_total_range). assert (H2 := blob_strings_in _ _ _ _ _ _ B). lia. Qed.

Lemma reads_magic : reads s fdt_magic FDT_MAGIC.
Proof. by apply fdt32_at; [apply (blob_magic _ _ _ _ _ _ B)|]. Qed.

Lemma reads_totalsize : reads s fdt_totalsize total.
Proof. assert (H1 := blob_total_range). apply fdt32_at; [apply (blob_totalsize _ _ _ _ _ _ B)|lia]. Qed.

Lemma reads_off_struct : reads s fdt_off_dt_struct ds.
Proof. assert (H1 := blob_struct_range). apply fdt32_at; [apply (blob_off_struct _ _ _ _ _ _ B)|lia]. Qed.

Lemma reads_off_strings : reads s fdt_off_dt_strings dn.
Proof. assert (H1 := blob_strings_range). apply fdt32_at; [apply (blob_off_strings _ _ _ _ _ _ B)|lia]. Qed.

Lemma reads_version : reads s fdt_version 17.
Proof. by apply fdt32_at; [apply (blob_version _ _ _ _ _ _ B)|]. Qed.

Lemma reads_last : reads s fdt_last_comp_version 16.
Proof. by apply fdt32_at; [apply (blob_last _ _ _ _ _ _ B)|]. Qed.

Lemma reads_size_strings : reads s fdt_size_dt_strings (Z.of_nat (length strings)).
Proof.
  assert (H1 := blob_strings_range). apply fdt32_at; [apply (blob_size_strings _ _ _ _ _ _ B)|lia].
Qed.

Lemma reads_size_struct : reads s fdt_size_dt_struct (size_of tokens + 4).
Proof.
  assert (H1 := blob_struct_range). apply fdt32_at; [apply (blob_size_struct _ _ _ _ _ _ B)|lia].
Qed.

(** The probe accepts the blob. *)
Lemma reads_probe : reads s fdt_ro_probe_ total.
Proof.
  assert (H1 := blob_total_range). unfold fdt_ro_probe_.
  eapply reads_bind; [apply reads_totalsize|]. eapply reads_bind; [reflexivity|]. cbv zeta.
  rewrite (blob_aligned _ _ _ _ _ _ B). cbn [truthy Z.eqb negb].
  eapply reads_bind; [apply reads_magic|]. rewrite Z.eqb_refl.
  eapply reads_bind; [apply reads_version|]. cbn [Z.ltb Z.compare Pos.compare Pos.compare_cont FDT_FIRST_SUPPORTED_VERSION].
  eapply reads_bind; [apply reads_last|]. change (FDT_LAST_SUPPORTED_VERSION <? 16) with false. cbv iota.
  rewrite (proj2 (Z.ltb_lt total INT_MAX)) by (unfold INT_MAX; lia). apply reads_ret.
Qed.

(** A range within the structure block. *)
Lemma reads_offset_ptr off len :
  0 <= off -> 0 <= len -> off + len <= size_of tokens + 4 -> reads s (fdt_offset_ptr off len) (Some (ds + off)).
Proof.
  intros Ho Hl Hs. assert (H1 := blob_struct_range). unfold fdt_offset_ptr. cbv zeta.
  eapply reads_bind; [apply reads_off_struct|]. rewrite (proj2 (Z.ltb_ge off 0)) by lia.
  eapply reads_bind; [apply reads_totalsize|].
  rewrite (u32_small (off + ds)), (u32_small off), (u32_small (off + ds + len)) by lia.
  rewrite !(proj2 (Z.ltb_ge _ _)) by lia. cbn [orb].
  eapply reads_bind; [apply reads_version|]. change (17 <=? 17) with true. cbv iota.
  eapply reads_bind.
  { eapply reads_bind; [apply reads_size_struct|]. rewrite (u32_small (off + len)) by lia.
    rewrite !(proj2 (Z.ltb_ge _ _)) by lia. apply reads_ret. }
  cbn [orb negb]. eapply reads_bind; [|apply reads_ret].
  unfold fdt_offset_ptr_. eapply reads_bind; [apply reads_off_struct|]. apply reads_ret.
Qed.

(** Where a token lies. *)
Lemma token_at pre t post :
  tokens = pre ++ t :: post ->
  at_offset s (ds + size_of pre) (encode t) /\ 0 <= size_of pre /\
  size_of pre + Z.of_nat (length (encode t)) <= size_of tokens /\ token_ok t.
Proof.
  intros E. assert (H1 := blob_struct _ _ _ _ _ _ B). assert (H2 := blob_tokens _ _ _ _ _ _ B).
  rewrite E, size_of_app, size_of_cons. rewrite E in H2. apply Forall_app in H2 as [_ H2]. apply Forall_cons in H2 as [H2 _].
  assert (H3 := size_of_nonneg pre). assert (H4 := size_of_nonneg post).
  split; [|split; [lia|split; [lia|exact H2]]].
  rewrite E in H1. unfold encode_all in H1. rewrite map_app, concat_app in H1. cbn [map concat] in H1.
  rewrite <- !app_assoc in H1. apply at_offset_app in H1 as [_ H1]. apply at_offset_app in H1 as [H1 _]. exact H1.
Qed.

Lemma end_at : at_offset s (ds + size_of tokens) (be32 FDT_END).
Proof. exact (proj2 (at_offset_app _ _ _ _ (blob_struct _ _ _ _ _ _ B))). Qed.

Lemma reads_skip_name name n off rest :
  at_offset s (ds + off) (name ++ 0 :: rest) -> Forall (λ b, is_byte b /\ b <> 0) name ->
  0 <= off -> off + Z.of_nat (length name) + 1 <= size_of tokens -> (length name < n)%nat ->
  exists p, reads s (skip_name n off) (Some p, off + Z.of_nat (length name) + 1).
Proof.
  assert (H1 := blob_struct_range).
  revert off n. induction name as [|c name IH]; intros off n Ha Hn Ho Hs Hf;
    (destruct n as [|n]; [cbn [length] in Hf; lia|]); cbn [length] in Hs |- *; cbn [skip_name].
  - exists (ds + off). eapply reads_bind; [apply reads_offset_ptr; lia|]. cbv zeta.
    eapply reads_bind; [replace (ds + off) with (ds + off + Z.of_nat 0) by lia; by eapply load_at|].
    cbn [Z.eqb negb]. rewrite s32_small by lia. replace (off + Z.of_nat 0 + 1) with (off + 1) by lia. apply reads_ret.
  - apply Forall_cons in Hn as [[_ Hc] Hn]. destruct (at_offset_app s (ds + off) [c] (name ++ 0 :: rest) Ha) as [H2 H3].
    cbn [length] in H3, Hf.
    destruct (IH (off + 1) n) as [p R]; [by replace (ds + (off + 1)) with (ds + off + Z.of_nat 1) by lia|done|lia|lia|lia|].
    exists p. eapply reads_bind; [apply reads_offset_ptr; lia|]. cbv zeta.
    eapply reads_bind; [replace (ds + off) with (ds + off + Z.of_nat 0) by lia; by eapply load_at|].
    rewrite (proj2 (Z.eqb_neq c 0)) by done. cbn [negb]. rewrite s32_small by lia.
    replace (off + Z.of_nat (S (length name)) + 1) with (off + 1 + Z.of_nat (length name) + 1) by lia. exact R.
Qed.

End Blob.

(** Rounding up to the next tag. *)
Lemma tagalign_end p n k :
  p mod 4 = 0 -> 0 <= p -> 0 <= n -> p + 4 * k < 2 ^ 31 - 4 -> 4 * k - 3 <= n <= 4 * k ->
  FDT_TAGALIGN (p + n) = p + 4 * k.
Proof.
  intros Hp H0 Hn Hk Hb. rewrite tagalign_nonneg by lia.
  assert (D := Z.div_mod p 4 ltac:(lia)). rewrite Hp in D.
  replace (p + n + 3) with (n + 3 + p / 4 * 4) by lia. rewrite Z_div_plus_full by lia.
  assert (E : (n + 3) / 4 = k) by (symmetry; apply (Z.div_unique_pos _ _ _ (n + 3 - 4 * k)); lia).
  rewrite E. lia.
Qed.

Section Tags.
Context {s : dtb} {tokens : list token} {strings : list Z} {ds dn total : Z}.
Context (B : blob s tokens strings ds dn total).
Context (fuel : nat) (Hfuel : size_of tokens < Z.of_nat fuel).

(** Where the contents of a tag end, before rounding. *)
Definition content_end (t : token) : Z :=
  match t with
  | BeginNode name => 4 + Z.of_nat (length name) + 1
  | Prop_ _ value => 12 + Z.of_nat (length value)
  | _ => 4
  end.

Lemma content_bound t : exists k, Z.of_nat (length (encode t)) = 4 * k /\ 4 * k - 3 <= content_end t <= 4 * k /\ 4 <= content_end t.
Proof.
  destruct t as [name| |nameoff value|]; cbn [encode content_end]; rewrite ?length_app, ?be32_length.
  - destruct (padded4_length (name ++ [0])) as (k & E & Hk). rewrite length_app in Hk. cbn [length] in Hk.
    exists (k + 1). lia.
  - exists 1. lia.
  - destruct (padded4_length value) as (k & E & Hk). exists (k + 3). lia.
  - exists 1. lia.
Qed.

Lemma reads_tag_end pre t post :
  tokens = pre ++ t :: post ->
  reads s (tag_end fuel (token_tag t) (size_of pre + 4)) (Some (size_of pre + content_end t)).
Proof.
  intros E. destruct (token_at B pre t post E) as (Ha & Hp & Hs & Hok). assert (H1 := blob_struct_range B).
  destruct t as [name| |nameoff value|]; cbn [encode token_tag content_end] in *; unfold tag_end.
  - change (FDT_BEGIN_NODE =? FDT_BEGIN_NODE) with true. cbv iota.
    destruct (padded4_length (name ++ [0])) as (k & El & Hk). rewrite length_app, be32_length in Hs.
    rewrite length_app in Hk. cbn [length] in Hk.
    apply at_offset_app in Ha as [_ Ha]. unfold padded4 in Ha. rewrite <- app_assoc in Ha. cbn [app] in Ha.
    rewrite <- Z.add_assoc, be32_length in Ha. change (Z.of_nat 4) with 4 in Ha.
    destruct (reads_skip_name B name fuel (size_of pre + 4) _ Ha Hok) as [p R]; [lia|lia|lia|].
    eapply reads_bind; [exact R|]. cbn [fst snd].
    replace (size_of pre + (4 + Z.of_nat (length name) + 1)) with (size_of pre + 4 + Z.of_nat (length name) + 1) by lia.
    apply reads_ret.
  - apply reads_ret.
  - change (FDT_PROP =? FDT_BEGIN_NODE) with false. change (FDT_PROP =? FDT_PROP) with true. cbv iota.
    destruct (padded4_length value) as (k & El & Hk). rewrite !length_app, !be32_length in Hs.
    eapply reads_bind; [apply (reads_offset_ptr B); lia|].
    apply at_offset_app in Ha as [_ Ha]. apply at_offset_app in Ha as [Ha _].
    rewrite be32_length, <- Z.add_assoc in Ha. change (Z.of_nat 4) with 4 in Ha.
    eapply reads_bind; [apply fdt32_at; [exact Ha|lia]|]. cbv zeta.
    eapply reads_bind; [apply (reads_version B)|]. change (17 <? 16) with false. cbn [andb].
    unfold sizeof_fdt_property, FDT_TAGSIZE. rewrite s32_small by lia.
    replace (size_of pre + (12 + Z.of_nat (length value))) with (size_of pre + 4 + (12 - 4 + Z.of_nat (length value))) by lia.
    apply reads_ret.
  - apply reads_ret.
Qed.

(** One tag of the block. *)
Lemma reads_next_tag pre t post :
  tokens = pre ++ t :: post ->
  reads s (fdt_next_tag fuel (size_of pre)) (token_tag t, size_of (pre ++ [t])).
Proof.
  intros E. destruct (token_at B pre t post E) as (Ha & Hp & Hs & Hok). assert (H1 := blob_struct_range B).
  destruct (content_bound t) as (k & Ek & Hk & Hk4). unfold fdt_next_tag.
  eapply reads_bind; [apply (reads_offset_ptr B); unfold FDT_TAGSIZE; lia|].
  eapply reads_bind.
  { apply (fdt32_at s _ (token_tag t)); [|by destruct t].
    destruct t; cbn [encode token_tag] in *; first [exact Ha|exact (proj1 (at_offset_app _ _ _ _ Ha))]. }
  rewrite s32_small by (unfold FDT_TAGSIZE; lia). unfold FDT_TAGSIZE at 1.
  eapply reads_bind; [by eapply reads_tag_end|]. cbv iota.
  rewrite u32_small by lia.
  eapply reads_bind; [apply (reads_offset_ptr B); lia|]. cbv iota.
  rewrite (tagalign_end _ _ k), <- Ek, <- size_of_snoc by (try apply size_of_mod4; lia). apply reads_ret.
Qed.

(** The end of the block. *)
Lemma reads_next_tag_end : reads s (fdt_next_tag fuel (size_of tokens)) (FDT_END, size_of tokens + 4).
Proof.
  assert (H1 := blob_struct_range B). unfold fdt_next_tag.
  eapply reads_bind; [apply (reads_offset_ptr B); unfold FDT_TAGSIZE; lia|].
  eapply reads_bind; [apply fdt32_at; [apply (end_at B)|done]|].
  rewrite s32_small by (unfold FDT_TAGSIZE; lia). unfold FDT_TAGSIZE at 1.
  eapply reads_bind; [reflexivity|]. cbv iota. rewrite u32_small by lia.
  eapply reads_bind; [apply (reads_offset_ptr B); lia|]. cbv iota.
  rewrite (tagalign_end _ 4 1) by (try apply size_of_mod4; lia). apply reads_ret.
Qed.

Lemma bad_offset_size pre : bad_offset (size_of pre) = false.
Proof.
  unfold bad_offset, FDT_TAGSIZE. rewrite size_of_mod4, (proj2 (Z.ltb_ge _ 0)) by apply size_of_nonneg. done.
Qed.

Lemma reads_check_node pre name post :
  tokens = pre ++ BeginNode name :: post ->
  reads s (fdt_check_node_offset_ fuel (size_of pre)) (size_of (pre ++ [BeginNode name])).
Proof.
  intros E. unfold fdt_check_node_offset_. rewrite bad_offset_size.
  eapply reads_bind; [by eapply reads_next_tag|]. apply reads_ret.
Qed.

Lemma reads_check_prop pre nameoff value post :
  tokens = pre ++ Prop_ nameoff value :: post ->
  reads s (fdt_check_prop_offset_ fuel (size_of pre)) (size_of (pre ++ [Prop_ nameoff value])).
Proof.
  intros E. unfold fdt_check_prop_offset_. rewrite bad_offset_size.
  eapply reads_bind; [by eapply reads_next_tag|]. apply reads_ret.
Qed.

(** What fdt_next_node looks for, on the tags that follow: the result, the new
    depth, and, if it is a node, the split at it. *)
Fixpoint next_node_spec (pre post : list token) (depth : option Z) : Z * option Z :=
  match post with
  | [] => (- FDT_ERR_NOTFOUND, depth)
  | BeginNode name :: post' => (size_of pre, (λ d, d + 1) <$> depth)
  | EndNode :: post' =>
      let depth := (λ d, d - 1) <$> depth in
      if (match depth with Some d => d <? 0 | None => false end) then (size_of (pre ++ [EndNode]), depth)
      else next_node_spec (pre ++ [EndNode]) post' depth
  | t :: post' => next_node_spec (pre ++ [t]) post' depth
  end.

Definition depth_ok (depth : option Z) : Prop := forall d, depth = Some d -> 0 <= d < 2 ^ 30.

(** The depth stays small as long as it counts tags of the blob. *)
Lemma reads_next_node_loop pre post n depth :
  tokens = pre ++ post -> (length post < n)%nat ->
  (forall d, depth = Some d -> 0 <= d <= size_of pre) ->
  reads s (next_node_loop fuel n (size_of pre) depth) (next_node_spec pre post depth).
Proof.
  intros E Hn Hd. assert (H1 := blob_struct_range B). revert pre n depth E Hn Hd.
  induction post as [|t post IH]; intros pre n depth E Hn Hd; (destruct n as [|n]; [cbn in Hn; lia|]); cbn [next_node_loop].
  - rewrite app_nil_r in E. rewrite <- E.
    eapply reads_bind; [apply reads_next_tag_end|]. cbv beta iota.
    change (FDT_END =? FDT_BEGIN_NODE) with false. change (FDT_END =? FDT_END_NODE) with false.
    change (FDT_END =? FDT_END) with true. cbv iota.
    rewrite (proj2 (Z.leb_le 0 _)) by lia. apply reads_ret.
  - eapply reads_bind; [by eapply reads_next_tag|]. cbv beta iota. cbn [length] in Hn.
    assert (E' : tokens = (pre ++ [t]) ++ post) by (by rewrite <- app_assoc).
    destruct (token_at B pre t post E) as (_ & Hp & Hs & _).
    destruct (encode_size t) as (k & Ek & Hk).
    assert (Hsn := size_of_snoc pre t).
    destruct t as [name| |nameoff value|]; cbn [token_tag next_node_spec].
    + change (FDT_BEGIN_NODE =? FDT_BEGIN_NODE) with true. cbv iota.
      destruct depth as [d|]; cbn; [|done]. specialize (Hd d eq_refl). by rewrite s32_small by lia.
    + change (FDT_END_NODE =? FDT_BEGIN_NODE) with false. change (FDT_END_NODE =? FDT_END_NODE) with true. cbv iota zeta.
      destruct depth as [d|]; cbn [fmap option_fmap option_map].
      * specialize (Hd d eq_refl). rewrite s32_small by lia. destruct (Z.ltb_spec (d - 1) 0); [done|].
        apply IH; [done|lia|]. intros d' [= <-]. lia.
      * apply IH; [done|lia|done].
    + change (FDT_PROP =? FDT_BEGIN_NODE) with false. change (FDT_PROP =? FDT_END_NODE) with false.
      change (FDT_PROP =? FDT_END) with false. cbv iota. apply IH; [done|lia|]. intros d Ed. specialize (Hd d Ed). lia.
    + change (FDT_NOP =? FDT_BEGIN_NODE) with false. change (FDT_NOP =? FDT_END_NODE) with false.
      change (FDT_NOP =? FDT_END) with false. cbv iota. apply IH; [done|lia|]. intros d Ed. specialize (Hd d Ed). lia.
Qed.

Lemma post_fuel pre post : tokens = pre ++ post -> (length post < fuel)%nat.
Proof.
  intros E. assert (H1 := length_size post). assert (H2 := size_of_nonneg pre).
  rewrite E, size_of_app in Hfuel. lia.
Qed.

(** fdt_next_node from a node, and from before the first one. *)
Lemma reads_next_node pre name post depth :
  tokens = pre ++ BeginNode name :: post -> (forall d, depth = Some d -> 0 <= d <= size_of pre) ->
  reads s (fdt_next_node fuel (size_of pre) depth) (next_node_spec (pre ++ [BeginNode name]) post depth).
Proof.
  intros E Hd. assert (E' : tokens = (pre ++ [BeginNode name]) ++ post) by (by rewrite <- app_assoc).
  assert (Hp := size_of_nonneg pre). assert (Hp' := size_of_nonneg (pre ++ [BeginNode name])).
  assert (Hsn := size_of_snoc pre (BeginNode name)).
  unfold fdt_next_node. rewrite (proj2 (Z.leb_le 0 _)) by lia.
  eapply reads_bind; [by eapply reads_check_node|]. rewrite (proj2 (Z.ltb_ge _ 0)) by lia.
  apply reads_next_node_loop; [done|by eapply post_fuel|]. intros d Ed. specialize (Hd d Ed). lia.
Qed.

Lemma reads_first_node off depth :
  off < 0 -> (forall d, depth = Some d -> d = 0) ->
  reads s (fdt_next_node fuel off depth) (next_node_spec [] tokens depth).
Proof.
  intros Ho Hd. unfold fdt_next_node. rewrite (proj2 (Z.leb_gt 0 off)) by lia.
  change 0 with (size_of []) at 1. apply reads_next_node_loop; [done|by eapply (post_fuel [])|].
  intros d Ed. rewrite (Hd d Ed). done.
Qed.

End Tags.

(** ** Any blob *)

(** A computation that only looks, never outside the blob, and whose result
    satisfies [Q] if it ends. *)
Definition safe {A} (s : dtb) (c : M dtb A) (Q : A → Prop) : Prop :=
  match c s with
  | (Ret a, s') => s' = s /\ Q a
  | (Stop w, s') => s' = s /\ w = spinning
  end.

Lemma safe_ret {A} s (a : A) (Q : A → Prop) : Q a -> safe s (ret a) Q.
Proof. by split. Qed.

Lemma safe_bind {A B} s (c : M dtb A) (k : A → M dtb B) Q R :
  safe s c Q -> (forall a, Q a -> safe s (k a) R) -> safe s (bind c k) R.
Proof.
  unfold safe, bind. destruct (c s) as [[a|w] s']; [|done]. intros [-> Ha] Hk. by apply Hk.
Qed.

Lemma safe_weaken {A} s (c : M dtb A) (Q R : A → Prop) : safe s c Q -> (forall a, Q a -> R a) -> safe s c R.
Proof. unfold safe. destruct (c s) as [[a|w] s']; [|done]. intros [-> Ha] H. eauto. Qed.

Lemma safe_reads {A} s (c : M dtb A) a Q : safe s c Q -> c s = (Ret a, s) -> Q a.
Proof. unfold safe. intros H E. rewrite E in H. apply H. Qed.

(** Bytes, with a complete header, and as many of them as the header says. *)
Definition header_total (s : dtb) : Z :=
  match fdt_totalsize s with (Ret t, _) => t | _ => 0 end.

Record readable (s : dtb) : Prop := {
  readable_header : 40 <= Z.of_nat (length (dt_bytes s));
  readable_bytes : Forall is_byte (dt_bytes s);
  readable_total : header_total s <= Z.of_nat (length (dt_bytes s));
}.

Section Safe.
Context {s : dtb} (R : readable s).
#[local] Abbreviation size := (Z.of_nat (length (dt_bytes s))).

Lemma safe_load o : 0 <= o < size -> safe s (load o) is_byte.
Proof.
  intros Ho. unfold safe, load. rewrite (proj2 (Z.ltb_ge o 0)) by lia.
  destruct (lookup_lt_is_Some_2 (dt_bytes s) (Z.to_nat o) ltac:(lia)) as [b E]. rewrite E. split; [done|].
  exact (Forall_lookup_1 _ _ _ _ (readable_bytes s R) E).
Qed.

Definition word (v : Z) : Prop := 0 <= v < 2 ^ 32.

Lemma safe_fdt32 o : 0 <= o -> o + 4 <= size -> safe s (fdt32_ld o) word.
Proof.
  intros H0 H4. unfold fdt32_ld, word.
  eapply safe_bind; [apply safe_load; lia|]. intros b0 B0. eapply safe_bind; [apply safe_load; lia|]. intros b1 B1.
  eapply safe_bind; [apply safe_load; lia|]. intros b2 B2. eapply safe_bind; [apply safe_load; lia|]. intros b3 B3.
  apply safe_ret. unfold is_byte in *. lia.
Qed.

(** What the header holds. *)
Definition header_at (o : Z) : Z := match fdt32_ld o s with (Ret v, _) => v | _ => 0 end.

Lemma safe_header o : 0 <= o <= 36 -> safe s (fdt32_ld o) (λ v, v = header_at o /\ word v).
Proof.
  intros Ho. assert (H := readable_header s R). assert (Hs := safe_fdt32 o ltac:(lia) ltac:(lia)).
  unfold safe, header_at in *. destruct (fdt32_ld o s) as [[v|w] s']; naive_solver.
Qed.

Lemma safe_totalsize : safe s fdt_totalsize (λ t, word t /\ t = header_at 4 /\ t <= size).
Proof.
  eapply safe_weaken; [apply (safe_header 4); lia|]. intros t [-> Hw]. split; [done|split; [done|]].
  exact (readable_total s R).
Qed.

(** A pointer given out covers what was asked for. *)
Definition covers (len : Z) (p : option Z) : Prop := forall a, p = Some a -> 0 <= a /\ a + len <= size.

Lemma u32_range x : 0 <= u32 x < 2 ^ 32.
Proof. apply Z.mod_pos_bound. lia. Qed.

(** 32-bit sums that do not wrap. *)
Lemma u32_sum a b : 0 <= a < 2 ^ 32 -> 0 <= b < 2 ^ 32 -> a <= u32 (a + b) -> u32 (a + b) = a + b.
Proof.
  intros Ha Hb H. unfold u32 in *. destruct (Z.lt_ge_cases (a + b) (2 ^ 32)); [by apply Z.mod_small; lia|].
  replace ((a + b) mod 2 ^ 32) with (a + b - 2 ^ 32) in H; [lia|].
  rewrite <- (Z_mod_plus_full _ (-1)). rewrite Z.mod_small; lia.
Qed.

Lemma safe_offset_ptr offset len :
  offset < 2 ^ 31 -> word len ->
  safe s (fdt_offset_ptr offset len) (λ p, covers len p /\ forall a, p = Some a -> 0 <= offset /\ offset <= a).
Proof.
  intros Ho Hl. unfold fdt_offset_ptr. cbv zeta. unfold word in Hl.
  eapply safe_bind; [apply safe_header; lia|]. intros ds [Eds Hds]. unfold word in Hds.
  destruct (Z.ltb_spec offset 0); [apply safe_ret; split; by intros a Ha|].
  eapply safe_bind; [apply safe_totalsize|]. intros t (_ & _ & Ht).
  destruct ((u32 (offset + ds) <? u32 offset) || (u32 (u32 (offset + ds) + len) <? u32 (offset + ds)) ||
            (t <? u32 (u32 (offset + ds) + len))) eqn:E; [apply safe_ret; split; by intros a Ha|]. zbool.
  rewrite (u32_small offset) in * by lia.
  assert (E1 : u32 (offset + ds) = offset + ds) by (apply u32_sum; lia).
  assert (Hr := u32_range (offset + ds)). rewrite E1 in *.
  assert (E2 : u32 (offset + ds + len) = offset + ds + len) by (apply u32_sum; lia).
  rewrite E2 in *.
  eapply safe_bind; [apply safe_header; lia|]. intros v _.
  eapply (safe_bind s _ _ (λ _, True)).
  { destruct (17 <=? v); [|by apply safe_ret]. eapply safe_bind; [apply safe_header; lia|]. intros sz _. by apply safe_ret. }
  intros ok _. destruct ok; [|apply safe_ret; split; by intros a Ha].
  eapply (safe_bind s _ _ (λ p, p = ds + offset)).
  { eapply safe_bind; [apply safe_header; lia|]. intros ds' [-> _]. rewrite <- Eds. by apply safe_ret. }
  intros p ->. apply safe_ret. split; intros a [= <-]; lia.
Qed.

Definition int (v : Z) : Prop := - 2 ^ 31 <= v < 2 ^ 31.

Lemma s32_int x : int (s32 x).
Proof. unfold int, s32. assert (H := u32_range x). destruct (Z.ltb_spec (u32 x) (2 ^ 31)); lia. Qed.

Lemma tagalign_int x : int (FDT_TAGALIGN x).
Proof. apply s32_int. Qed.

Context (fuel : nat).

Lemma safe_skip_name n offset : int offset -> safe s (skip_name n offset) (λ r, int (snd r)).
Proof.
  revert offset. induction n as [|n IH]; intros offset Ho; [by split|]. cbn [skip_name].
  eapply safe_bind; [apply safe_offset_ptr; unfold int, word in *; lia|]. intros p [Hp _]. cbv zeta.
  assert (Hi := s32_int (offset + 1)). destruct p as [a|]; [|by apply safe_ret].
  destruct (Hp a eq_refl). eapply safe_bind; [apply safe_load; lia|]. intros b _.
  destruct (b =? 0); [by apply safe_ret|by apply IH].
Qed.

Lemma safe_tag_end tag offset : int offset -> safe s (tag_end fuel tag offset) (λ r, forall o, r = Some o -> int o).
Proof.
  intros Ho. unfold tag_end. destruct (tag =? FDT_BEGIN_NODE).
  { eapply safe_bind; [by apply safe_skip_name|]. intros [p o] H. destruct p; apply safe_ret; intros o' [= <-]; exact H. }
  destruct (tag =? FDT_PROP).
  { eapply safe_bind; [apply safe_offset_ptr; unfold int, word in *; lia|]. intros p [Hp _].
    destruct p as [a|]; [|by apply safe_ret]. destruct (Hp a eq_refl).
    eapply safe_bind; [apply safe_fdt32; lia|]. intros len _. cbv zeta.
    eapply safe_bind; [apply safe_header; lia|]. intros v _.
    apply safe_ret. intros o [= <-]. case_match; apply s32_int. }
  case_match; apply safe_ret; [|done]. intros o [= <-]. done.
Qed.

Lemma safe_next_tag offset : int offset -> safe s (fdt_next_tag fuel offset) (λ t, int (snd t)).
Proof.
  intros Ho. unfold fdt_next_tag.
  eapply safe_bind; [apply safe_offset_ptr; unfold int, word, FDT_TAGSIZE in *; lia|]. intros p [Hp _].
  destruct p as [a|]; [|by apply safe_ret]. destruct (Hp a eq_refl) as [Ha Ha4].
  eapply safe_bind; [apply safe_fdt32; unfold FDT_TAGSIZE in *; lia|]. intros tag _.
  eapply safe_bind; [apply safe_tag_end, s32_int|]. intros [o|] He; [|by apply safe_ret].
  eapply safe_bind; [apply safe_offset_ptr; [unfold int in *; lia|apply u32_range]|]. intros [q|] _; apply safe_ret; [|done].
  apply tagalign_int.
Qed.

Lemma safe_check_tag tag offset : int offset ->
  safe s (if bad_offset offset then ret (- FDT_ERR_BADOFFSET)
          else t <- fdt_next_tag fuel offset ;;
               if negb (fst t =? tag) then ret (- FDT_ERR_BADOFFSET) else ret (snd t))%sbi int.
Proof.
  intros Ho. destruct (bad_offset offset); [by apply safe_ret|].
  eapply safe_bind; [by apply safe_next_tag|]. intros t Ht. case_match; by apply safe_ret.
Qed.

Lemma safe_check_node offset : int offset -> safe s (fdt_check_node_offset_ fuel offset) int.
Proof. apply safe_check_tag. Qed.

Lemma safe_check_prop offset : int offset -> safe s (fdt_check_prop_offset_ fuel offset) int.
Proof. apply safe_check_tag. Qed.

Lemma safe_next_node_loop n offset depth :
  int offset -> safe s (next_node_loop fuel n offset depth) (λ r, int (fst r)).
Proof.
  revert offset depth. induction n as [|n IH]; intros offset depth Ho; [by split|]. cbn [next_node_loop].
  eapply safe_bind; [by apply safe_next_tag|]. intros [tag next] Ht. cbn [snd] in Ht.
  repeat (case_match; try (by apply safe_ret); try (by apply IH)).
Qed.

Lemma safe_next_node offset depth : int offset -> safe s (fdt_next_node fuel offset depth) (λ r, int (fst r)).
Proof.
  intros Ho. unfold fdt_next_node. destruct (0 <=? offset); [|by apply safe_next_node_loop].
  eapply safe_bind; [by apply safe_check_node|]. intros next Hn.
  case_match; [by apply safe_ret|by apply safe_next_node_loop].
Qed.

Lemma safe_first_subnode offset : int offset -> safe s (fdt_first_subnode fuel offset) int.
Proof.
  intros Ho. unfold fdt_first_subnode. eapply safe_bind; [by apply safe_next_node|]. intros r Hr.
  case_match; by apply safe_ret.
Qed.

Lemma safe_next_subnode offset : int offset -> safe s (fdt_next_subnode fuel offset) int.
Proof.
  unfold fdt_next_subnode. generalize 1 as depth, fuel at 2 as n. intros depth n. revert offset depth.
  induction n as [|n IH]; intros offset depth Ho; [by split|]. cbn [next_subnode_loop].
  eapply safe_bind; [by apply safe_next_node|]. intros r Hr. repeat case_match; try (by apply safe_ret). by apply IH.
Qed.

Lemma safe_probe : safe s fdt_ro_probe_ (λ r, int r).
Proof.
  unfold fdt_ro_probe_. eapply safe_bind; [apply safe_totalsize|]. intros t (Hw & _ & Ht).
  eapply (safe_bind s (gets dt_addr) _ (λ _, True)); [by split|]. intros addr _. cbv zeta.
  assert (Hs : safe s (ret (if t <? INT_MAX then t else - FDT_ERR_TRUNCATED)) int).
  { apply safe_ret. unfold word, int, INT_MAX in *. destruct (Z.ltb_spec t (2 ^ 31 - 1)); [lia|done]. }
  destruct (truthy _); [by apply safe_ret|].
  eapply safe_bind; [apply safe_header; lia|]. intros magic _.
  destruct (magic =? FDT_MAGIC).
  - eapply safe_bind; [apply safe_header; lia|]. intros v _. destruct (v <? _); [by apply safe_ret|].
    eapply safe_bind; [apply safe_header; lia|]. intros l _. destruct (_ <? l); [by apply safe_ret|exact Hs].
  - destruct (magic =? FDT_SW_MAGIC); [|by apply safe_ret].
    eapply safe_bind; [apply safe_header; lia|]. intros v _. destruct (v =? 0); [by apply safe_ret|exact Hs].
Qed.

End Safe.

(** ** Safety *)

Definition all_bytes (l : list Z) : bool := forallb (λ b, (0 <=? b) && (b <? 256)) l.

Lemma all_bytes_ok l : all_bytes l = true -> Forall is_byte l.
Proof.
  intros H. apply List.Forall_forall. intros b Hb. assert (H1 := proj1 (forallb_forall _ _) H b Hb). unfold is_byte. cbn in H1. lia.
Qed.

(** [C21] Walking a device tree never leaves it: on any blob that is as long as its
    header says, whatever its contents, the probe and the walks over tags, nodes
    and subnodes read only bytes of the blob and change nothing, from any offset;
    they return an offset or an error in an [int], or do not end. *)
Theorem walks_stay_inside s fuel offset depth :
  readable s -> int offset ->
  safe s fdt_ro_probe_ int /\
  safe s (fdt_next_tag fuel offset) (λ t, int (snd t)) /\
  safe s (fdt_next_node fuel offset depth) (λ r, int (fst r)) /\
  safe s (fdt_first_subnode fuel offset) int /\
  safe s (fdt_next_subnode fuel offset) int.
Proof.
  intros R Ho. split; [by apply safe_probe|]. split; [by apply safe_next_tag|]. split; [by apply safe_next_node|].
  split; [by apply safe_first_subnode|by apply safe_next_subnode].
Qed.

(** A blob whose root has a property of length -12. *)
Definition stuck_blob : dtb :=
  Dtb 8 (be32 FDT_MAGIC ++ be32 80 ++ be32 56 ++ be32 80 ++ be32 40 ++ be32 17 ++ be32 16 ++ be32 0 ++ be32 0 ++ be32 24 ++
         replicate 16 0 ++ be32 FDT_BEGIN_NODE ++ be32 0 ++ be32 FDT_PROP ++ be32 0xfffffff4 ++ be32 0 ++ be32 FDT_END_NODE).

Lemma walks_stay_inside_witness :
  readable stuck_blob /\ int 0 /\ safe stuck_blob (fdt_next_node 3 0 (Some 0)) (λ r, int (fst r)).
Proof.
  assert (R : readable stuck_blob).
  { split; [vm_compute; discriminate|apply all_bytes_ok; vm_compute; reflexivity|vm_compute; discriminate]. }
  assert (I : int 0) by done.
  split; [exact R|split; [exact I|]]. exact (proj1 (proj2 (proj2 (walks_stay_inside stuck_blob 3 0 (Some 0) R I)))).
Defined.

(** The header check accepts it, and the walk over its nodes never ends: the sum
    of the offset and the length wraps around, so that the next tag is the
    property again. *)
Lemma stuck_tag fuel : reads stuck_blob (fdt_next_tag fuel 8) (FDT_PROP, 8).
Proof. vm_compute. reflexivity. Qed.

Lemma stuck_loop fuel n depth : next_node_loop fuel n 8 depth stuck_blob = (Stop spinning, stuck_blob).
Proof.
  induction n as [|n IH]; [done|]. cbn [next_node_loop]. erewrite reads_bind_eq by apply stuck_tag. exact IH.
Qed.

Theorem negative_length_never_ends fuel depth :
  fdt_check_header stuck_blob = (Ret 0, stuck_blob) /\
  fdt_next_node fuel 0 depth stuck_blob = (Stop spinning, stuck_blob).
Proof.
  split; [vm_compute; reflexivity|]. destruct fuel as [|fuel]; [vm_compute; reflexivity|].
  unfold fdt_next_node. change (0 <=? 0) with true. cbv iota.
  assert (R : reads stuck_blob (fdt_check_node_offset_ (S fuel) 0) 8) by (vm_compute; reflexivity).
  erewrite reads_bind_eq by exact R. change (8 <? 0) with false. cbv iota. apply stuck_loop.
Qed.
