(* ===== verification/FdtRo.v ===== *)
(** * Flattened device trees: reading nodes, properties and paths

    Models lib/utils/libfdt/fdt_ro.c and the cell counts of fdt_addresses.c
    (paths relative to src/cva6-sdk/opensbi).

    A string is read where it lies: in the blob ([At], an offset) or in a
    constant of the code ([Cst], its characters and a position; the final zero
    follows them).  The string functions are those of lib/sbi/sbi_string.c on
    such strings.  A pointer and the [int] behind [lenp] are returned together;
    NULL is [None].  [fuel] bounds every loop, and the recursion of
    [fdt_path_offset] through aliases. *)

From Stdlib Require Import ZArith Lia String Ascii.
From stdpp Require Import base tactics list numbers strings.
From S2P Require Import Prelude Fdt.

Definition FDT_MAX_PHANDLE : Z := 0xfffffffe.
Definition FDT_MAX_NCELLS : Z := 4.

(** ** Strings *)

Inductive ptr : Type :=
| Cst (chars : list Z) (o : Z)
| At (o : Z).

Definition deref (p : ptr) : M dtb Z :=
  match p with
  | Cst chars o =>
      if o =? Z.of_nat (length chars) then ret 0
      else match (if o <? 0 then None else chars !! Z.to_nat o) with Some c => ret c | None => stop wild_access end
  | At o => load o
  end.

Definition padd (p : ptr) (n : Z) : ptr :=
  match p with Cst chars o => Cst chars (o + n) | At o => At (o + n) end.

Definition chars (s : string) : list Z := map (λ c, Z.of_nat (nat_of_ascii c)) (list_ascii_of_string s).
Definition lit (s : string) : ptr := Cst (chars s) 0.

Fixpoint strlen_from (n : nat) (p : ptr) (len : Z) : M dtb Z :=
  match n with
  | O => stop spinning
  | S n' => (c <- deref p ;; if c =? 0 then ret len else strlen_from n' (padd p 1) (len + 1))%sbi
  end.

Fixpoint strnlen_from (n : nat) (p : ptr) (len count : Z) : M dtb Z :=
  match n with
  | O => stop spinning
  | S n' =>
      (c <- deref p ;;
       if negb (c =? 0) && (len <? count) then strnlen_from n' (padd p 1) (len + 1) (sub64 count 1) else ret len)%sbi
  end.

Fixpoint memcmp_loop (n : nat) (p q : ptr) : M dtb Z :=
  match n with
  | O => ret 0
  | S n' =>
      (a <- deref p ;; b <- deref q ;;
       if a =? b then memcmp_loop n' (padd p 1) (padd q 1) else ret (a - b))%sbi
  end.
Definition memcmp (p q : ptr) (count : Z) : M dtb Z := memcmp_loop (Z.to_nat count) p q.

Fixpoint strncmp_loop (n : nat) (p q : ptr) : M dtb Z :=
  match n with
  | O => ret 0
  | S n' =>
      (a <- deref p ;; b <- deref q ;;
       if (a =? b) && negb (a =? 0) then strncmp_loop n' (padd p 1) (padd q 1) else ret (a - b))%sbi
  end.
Definition strncmp (p q : ptr) (count : Z) : M dtb Z := strncmp_loop (Z.to_nat count) p q.

(** How far the character lies. *)
Fixpoint memchr_loop (n : nat) (p : ptr) (c i : Z) : M dtb (option Z) :=
  match n with
  | O => ret None
  | S n' => (b <- deref p ;; if c =? b then ret (Some i) else memchr_loop n' (padd p 1) c (i + 1))%sbi
  end.
Definition memchr (p : ptr) (c count : Z) : M dtb (option Z) := memchr_loop (Z.to_nat count) p c 0.

(** [while (last > s && *last != c) last--], [last] being [s + i]. *)
Fixpoint strrchr_back (i : nat) (s : ptr) (c : Z) : M dtb nat :=
  match i with
  | O => ret O
  | S i' => (b <- deref (padd s (Z.of_nat i)) ;; if b =? c then ret i else strrchr_back i' s c)%sbi
  end.

Definition slash : Z := 47.
Definition at_sign : Z := 64.

Section Ro.
Context (fuel : nat).

Definition strlen (p : ptr) : M dtb Z := strlen_from fuel p 0.
Definition strnlen (p : ptr) (count : Z) : M dtb Z := strnlen_from fuel p 0 count.

Definition strrchr (s : ptr) (c : Z) : M dtb (option Z) :=
  (len <- strlen s ;;
   i <- strrchr_back (Z.to_nat len) s c ;;
   b <- deref (padd s (Z.of_nat i)) ;;
   if b =? c then ret (Some (Z.of_nat i)) else ret None)%sbi.

(** ** Names and strings *)

Definition fdt_get_name (nodeoffset : Z) : M dtb (option Z * Z) :=
  (nh <- fdt_offset_ptr_ nodeoffset ;;
   err <- fdt_ro_probe_ ;;
   if err <? 0 then ret (None, err)
   else
     err <- fdt_check_node_offset_ fuel nodeoffset ;;
     if err <? 0 then ret (None, err)
     else
       let nameptr := nh + FDT_TAGSIZE in
       version <- fdt_version ;;
       if version <? 0x10 then
         leaf <- strrchr (At nameptr) slash ;;
         match leaf with
         | None => ret (None, - FDT_ERR_BADSTRUCTURE)
         | Some i => len <- strlen (At (nameptr + i + 1)) ;; ret (Some (nameptr + i + 1), s32 len)
         end
       else len <- strlen (At nameptr) ;; ret (Some nameptr, s32 len))%sbi.

Definition fdt_nodename_eq_ (offset : Z) (s : ptr) (len : Z) : M dtb bool :=
  (r <- fdt_get_name offset ;;
   match fst r with
   | None => ret false
   | Some p =>
       if snd r <? len then ret false
       else
         c <- memcmp (At p) s (u64 len) ;;
         if negb (c =? 0) then ret false
         else
           b <- load (p + len) ;;
           if b =? 0 then ret true
           else
             unit <- memchr s at_sign (u64 len) ;;
             match unit with
             | Some _ => ret false
             | None => b <- load (p + len) ;; ret (b =? at_sign)
             end
   end)%sbi.

Definition fdt_get_string (stroffset : Z) : M dtb (option Z * Z) :=
  (totalsize <- fdt_ro_probe_ ;;
   if totalsize <? 0 then ret (None, totalsize)
   else
     off_strings <- fdt_off_dt_strings ;;
     let absoffset := u32 (stroffset + off_strings) in
     if totalsize <=? absoffset then ret (None, - FDT_ERR_BADOFFSET)
     else
       let len := totalsize - absoffset in
       magic <- fdt_magic ;;
       limit <- (if magic =? FDT_MAGIC then
                   if stroffset <? 0 then ret (inl (- FDT_ERR_BADOFFSET))
                   else
                     version <- fdt_version ;;
                     if 17 <=? version then
                       size <- fdt_size_dt_strings ;;
                       if size <=? stroffset then ret (inl (- FDT_ERR_BADOFFSET))
                       else ret (inr (if u32 (size - stroffset) <? len then u32 (size - stroffset) else len))
                     else ret (inr len)
                 else if magic =? FDT_SW_MAGIC then
                   let sw_stroffset := u32 (- stroffset) in
                   size <- fdt_size_dt_strings ;;
                   if (0 <=? stroffset) || (size <? sw_stroffset) then ret (inl (- FDT_ERR_BADOFFSET))
                   else ret (inr (if sw_stroffset <? len then sw_stroffset else len))
                 else ret (inl (- FDT_ERR_INTERNAL))) ;;
       match limit with
       | inl err => ret (None, err)
       | inr len =>
           n <- memchr (At absoffset) 0 len ;;
           match n with
           | None => ret (None, - FDT_ERR_TRUNCATED)
           | Some i => ret (Some absoffset, s32 i)
           end
       end)%sbi.

Definition fdt_string (stroffset : Z) : M dtb (option Z) := (r <- fdt_get_string stroffset ;; ret (fst r))%sbi.

Definition fdt_string_eq_ (stroffset : Z) (s : ptr) (len : Z) : M dtb bool :=
  (r <- fdt_get_string stroffset ;;
   match fst r with
   | None => ret false
   | Some p => if snd r =? len then c <- memcmp (At p) s (u64 len) ;; ret (c =? 0) else ret false
   end)%sbi.

(** ** Properties *)

Fixpoint nextprop_loop (n : nat) (offset : Z) : M dtb Z :=
  match n with
  | O => stop spinning
  | S n' =>
      (t <- fdt_next_tag fuel offset ;;
       let '(tag, nextoffset) := t in
       if tag =? FDT_END then ret (if 0 <=? nextoffset then - FDT_ERR_BADSTRUCTURE else nextoffset)
       else if tag =? FDT_PROP then ret offset
       else if tag =? FDT_NOP then nextprop_loop n' nextoffset
       else ret (- FDT_ERR_NOTFOUND))%sbi
  end.
Definition nextprop_ (offset : Z) : M dtb Z := nextprop_loop fuel offset.

Definition fdt_first_property_offset (nodeoffset : Z) : M dtb Z :=
  (offset <- fdt_check_node_offset_ fuel nodeoffset ;;
   if offset <? 0 then ret offset else nextprop_ offset)%sbi.

Definition fdt_next_property_offset (offset : Z) : M dtb Z :=
  (offset <- fdt_check_prop_offset_ fuel offset ;;
   if offset <? 0 then ret offset else nextprop_ offset)%sbi.

(** The fields of [struct fdt_property]. *)
Definition prop_len (prop : Z) : Z := prop + 4.
Definition prop_nameoff (prop : Z) : Z := prop + 8.
Definition prop_data (prop : Z) : Z := prop + 12.

Definition fdt_get_property_by_offset_ (offset : Z) : M dtb (option Z * Z) :=
  (err <- fdt_check_prop_offset_ fuel offset ;;
   if err <? 0 then ret (None, err)
   else
     prop <- fdt_offset_ptr_ offset ;;
     len <- fdt32_ld (prop_len prop) ;;
     ret (Some prop, s32 len))%sbi.

Definition fdt_get_property_by_offset (offset : Z) : M dtb (option Z * Z) :=
  (version <- fdt_version ;;
   if version <? 0x10 then ret (None, - FDT_ERR_BADVERSION) else fdt_get_property_by_offset_ offset)%sbi.

(** The property, the length or the error, and its offset. *)
Fixpoint get_property_loop (n : nat) (offset : Z) (name : ptr) (namelen : Z) : M dtb (option Z * Z * Z) :=
  match n with
  | O => stop spinning
  | S n' =>
      (if 0 <=? offset then
         r <- fdt_get_property_by_offset_ offset ;;
         match fst r with
         | None => ret (None, - FDT_ERR_INTERNAL, offset)
         | Some prop =>
             nameoff <- fdt32_ld (prop_nameoff prop) ;;
             eq <- fdt_string_eq_ (s32 nameoff) name namelen ;;
             if eq : bool then ret (Some prop, snd r, offset)
             else offset <- fdt_next_property_offset offset ;; get_property_loop n' offset name namelen
         end
       else ret (None, offset, offset))%sbi
  end.

Definition fdt_get_property_namelen_ (offset : Z) (name : ptr) (namelen : Z) : M dtb (option Z * Z * Z) :=
  (offset <- fdt_first_property_offset offset ;; get_property_loop fuel offset name namelen)%sbi.

Definition fdt_get_property_namelen (offset : Z) (name : ptr) (namelen : Z) : M dtb (option Z * Z) :=
  (version <- fdt_version ;;
   if version <? 0x10 then ret (None, - FDT_ERR_BADVERSION)
   else r <- fdt_get_property_namelen_ offset name namelen ;; ret (fst r))%sbi.

Definition fdt_get_property (nodeoffset : Z) (name : ptr) : M dtb (option Z * Z) :=
  (len <- strlen name ;; fdt_get_property_namelen nodeoffset name (s32 len))%sbi.

(** [prop->data], realigned before version 16. *)
Definition realigned (prop offset : Z) : M dtb Z :=
  (version <- fdt_version ;;
   if (version <? 0x10) && truthy (u64 (offset + sizeof_fdt_property) mod 8)
   then len <- fdt32_ld (prop_len prop) ;;
        ret (if 8 <=? len then prop_data prop + 4 else prop_data prop)
   else ret (prop_data prop))%sbi.

Definition fdt_getprop_namelen (nodeoffset : Z) (name : ptr) (namelen : Z) : M dtb (option Z * Z) :=
  (r <- fdt_get_property_namelen_ nodeoffset name namelen ;;
   let '(prop, len, poffset) := r in
   match prop with
   | None => ret (None, len)
   | Some prop => data <- realigned prop poffset ;; ret (Some data, len)
   end)%sbi.

(** With [namep]: the value, the length, the name. *)
Definition fdt_getprop_by_offset (offset : Z) (namep : bool) : M dtb (option Z * Z * option Z) :=
  (r <- fdt_get_property_by_offset_ offset ;;
   match fst r with
   | None => ret (None, snd r, None)
   | Some prop =>
       name <- (if namep then
                  nameoff <- fdt32_ld (prop_nameoff prop) ;;
                  s <- fdt_get_string (s32 nameoff) ;;
                  ret (match fst s with None => inl (snd s) | Some p => inr (Some p) end)
                else ret (inr None)) ;;
       match name with
       | inl namelen => ret (None, namelen, None)
       | inr name => data <- realigned prop offset ;; ret (Some data, snd r, name)
       end
   end)%sbi.

Definition fdt_getprop (nodeoffset : Z) (name : ptr) : M dtb (option Z * Z) :=
  (len <- strlen name ;; fdt_getprop_namelen nodeoffset name (s32 len))%sbi.

(** A value of four bytes. *)
Definition word_prop (r : option Z * Z) : option Z := if snd r =? 4 then fst r else None.

Definition fdt_get_phandle (nodeoffset : Z) : M dtb Z :=
  (r <- fdt_getprop nodeoffset (lit "phandle") ;;
   php <- (match word_prop r with
           | Some php => ret (Some php)
           | None => r <- fdt_getprop nodeoffset (lit "linux,phandle") ;; ret (word_prop r)
           end) ;;
   match php with None => ret 0 | Some php => fdt32_ld php end)%sbi.

(** ** Paths *)

Fixpoint subnode_loop (n : nat) (offset depth : Z) (name : ptr) (namelen : Z) : M dtb Z :=
  match n with
  | O => stop spinning
  | S n' =>
      (if (0 <=? offset) && (0 <=? depth) then
         eq <- (if depth =? 1 then fdt_nodename_eq_ offset name namelen else ret false) ;;
         if eq : bool then ret offset
         else
           r <- fdt_next_node fuel offset (Some depth) ;;
           subnode_loop n' (fst r) (depth_of (snd r)) name namelen
       else ret (if depth <? 0 then - FDT_ERR_NOTFOUND else offset))%sbi
  end.

(** FDT_RO_PROBE *)
Definition ro_probed {A} (fail : Z → A) (c : M dtb A) : M dtb A :=
  (totalsize <- fdt_ro_probe_ ;; if totalsize <? 0 then ret (fail totalsize) else c)%sbi.

Definition fdt_subnode_offset_namelen (offset : Z) (name : ptr) (namelen : Z) : M dtb Z :=
  ro_probed id (subnode_loop fuel offset 0 name namelen).

Definition fdt_subnode_offset (parentoffset : Z) (name : ptr) : M dtb Z :=
  (len <- strlen name ;; fdt_subnode_offset_namelen parentoffset name (s32 len))%sbi.

(** [while ( *p == '/') { p++; if (p == end) return offset; }], [i] being
    [p - path]; [None] when the end is reached. *)
Fixpoint skip_slashes (n : nat) (path : ptr) (i len : Z) : M dtb (option Z) :=
  match n with
  | O => stop spinning
  | S n' =>
      (c <- deref (padd path i) ;;
       if c =? slash then
         if i + 1 =? len then ret None else skip_slashes n' path (i + 1) len
       else ret (Some i))%sbi
  end.

(** [while (p < end)]: component by component. *)
Fixpoint path_loop (n : nat) (path : ptr) (i len offset : Z) : M dtb Z :=
  match n with
  | O => stop spinning
  | S n' =>
      (if i <? len then
         j <- skip_slashes fuel path i len ;;
         match j with
         | None => ret offset
         | Some i =>
             q <- memchr (padd path i) slash (len - i) ;;
             let q := default (len - i) q in
             offset <- fdt_subnode_offset_namelen offset (padd path i) q ;;
             if offset <? 0 then ret offset else path_loop n' path (i + q) len offset
         end
       else ret offset)%sbi
  end.

Definition alias_of (path_offset : ptr → Z → M dtb Z) (name : ptr) (namelen : Z) : M dtb (option Z) :=
  (len <- strlen (lit "/aliases") ;;
   aliasoffset <- path_offset (lit "/aliases") (s32 len) ;;
   if aliasoffset <? 0 then ret None
   else r <- fdt_getprop_namelen aliasoffset name namelen ;; ret (fst r))%sbi.

Fixpoint path_offset_namelen (n : nat) (path : ptr) (namelen : Z) : M dtb Z :=
  match n with
  | O => stop spinning
  | S n' =>
      ro_probed id
        (c <- deref path ;;
         if c =? slash then path_loop fuel path 0 namelen 0
         else
           q <- memchr path slash (u64 namelen) ;;
           let q := default namelen q in
           p <- alias_of (path_offset_namelen n') path q ;;
           match p with
           | None => ret (- FDT_ERR_BADPATH)
           | Some p =>
               len <- strlen (At p) ;;
               offset <- path_offset_namelen n' (At p) (s32 len) ;;
               path_loop fuel path q namelen offset
           end)%sbi
  end.

Definition fdt_path_offset_namelen : ptr → Z → M dtb Z := path_offset_namelen fuel.
Definition fdt_path_offset (path : ptr) : M dtb Z :=
  (len <- strlen path ;; fdt_path_offset_namelen path (s32 len))%sbi.

Definition fdt_get_alias_namelen (name : ptr) (namelen : Z) : M dtb (option Z) :=
  alias_of fdt_path_offset_namelen name namelen.
Definition fdt_get_alias (name : ptr) : M dtb (option Z) :=
  (len <- strlen name ;; fdt_get_alias_namelen name (s32 len))%sbi.

(** ** Depths and parents *)

(** The result and what is written to [*nodedepth]. *)
Fixpoint supernode_loop (n : nat) (offset depth nodeoffset supernodedepth supernodeoffset : Z) : M dtb (Z * option Z) :=
  match n with
  | O => stop spinning
  | S n' =>
      (if (0 <=? offset) && (offset <=? nodeoffset) then
         let supernodeoffset := if depth =? supernodedepth then offset else supernodeoffset in
         if offset =? nodeoffset then
           ret (if depth <? supernodedepth then - FDT_ERR_NOTFOUND else supernodeoffset, Some depth)
         else
           r <- fdt_next_node fuel offset (Some depth) ;;
           supernode_loop n' (fst r) (depth_of (snd r)) nodeoffset supernodedepth supernodeoffset
       else if (offset =? - FDT_ERR_NOTFOUND) || (0 <=? offset) then ret (- FDT_ERR_BADOFFSET, None)
       else if offset =? - FDT_ERR_BADOFFSET then ret (- FDT_ERR_BADSTRUCTURE, None)
       else ret (offset, None))%sbi
  end.

Definition fdt_supernode_atdepth_offset (nodeoffset supernodedepth : Z) : M dtb (Z * option Z) :=
  ro_probed (λ e, (e, None))
    (if supernodedepth <? 0 then ret (- FDT_ERR_NOTFOUND, None)
     else supernode_loop fuel 0 0 nodeoffset supernodedepth (- FDT_ERR_INTERNAL)).

Definition fdt_node_depth (nodeoffset : Z) : M dtb Z :=
  (r <- fdt_supernode_atdepth_offset nodeoffset 0 ;;
   let '(err, nodedepth) := r in
   if truthy err then ret (if err <? 0 then err else - FDT_ERR_INTERNAL)
   else match nodedepth with Some d => ret d | None => stop wild_access end)%sbi.

Definition fdt_parent_offset (nodeoffset : Z) : M dtb Z :=
  (nodedepth <- fdt_node_depth nodeoffset ;;
   if nodedepth <? 0 then ret nodedepth
   else r <- fdt_supernode_atdepth_offset nodeoffset (nodedepth - 1) ;; ret (fst r))%sbi.

(** ** Searches over all nodes *)

(** [for (offset = fdt_next_node(...); offset >= 0; ...)]: the first node whose
    test gives a result, or the error that ends the walk. *)
Fixpoint scan_nodes (n : nat) (offset : Z) (test : Z → M dtb (option Z)) : M dtb Z :=
  match n with
  | O => stop spinning
  | S n' =>
      (r <- fdt_next_node fuel offset None ;;
       let offset := fst r in
       if 0 <=? offset then
         t <- test offset ;;
         match t with Some v => ret v | None => scan_nodes n' offset test end
       else ret offset)%sbi
  end.

Definition fdt_node_offset_by_prop_value (startoffset : Z) (propname propval : ptr) (proplen : Z) : M dtb Z :=
  ro_probed id (scan_nodes fuel startoffset (λ offset,
    (r <- fdt_getprop offset propname ;;
     match r with
     | (Some val, len) =>
         if len =? proplen then
           c <- memcmp (At val) propval (u64 len) ;; ret (if c =? 0 then Some offset else None)
         else ret None
     | (None, _) => ret None
     end)%sbi)).

Definition fdt_node_offset_by_phandle (phandle : Z) : M dtb Z :=
  if (phandle =? 0) || (phandle =? 2 ^ 32 - 1) then ret (- FDT_ERR_BADPHANDLE)
  else
    ro_probed id (scan_nodes fuel (-1) (λ offset,
      (ph <- fdt_get_phandle offset ;; ret (if ph =? phandle then Some offset else None))%sbi)).

Fixpoint max_phandle_loop (n : nat) (offset max : Z) : M dtb (Z * Z) :=
  match n with
  | O => stop spinning
  | S n' =>
      (r <- fdt_next_node fuel offset None ;;
       let offset := fst r in
       if offset <? 0 then ret (if offset =? - FDT_ERR_NOTFOUND then 0 else offset, max)
       else
         value <- fdt_get_phandle offset ;;
         max_phandle_loop n' offset (if max <? value then value else max))%sbi
  end.

(** The result and [*phandle], left alone on an error. *)
Definition fdt_find_max_phandle : M dtb (Z * option Z) :=
  (r <- max_phandle_loop fuel (-1) 0 ;; ret (fst r, if fst r =? 0 then Some (snd r) else None))%sbi.

Definition fdt_generate_phandle : M dtb (Z * option Z) :=
  (r <- fdt_find_max_phandle ;;
   let '(err, max) := r in
   if err <? 0 then ret (err, None)
   else if bool_decide (max = Some FDT_MAX_PHANDLE) then ret (- FDT_ERR_NOPHANDLES, None)
   else ret (0, (λ m, u32 (m + 1)) <$> max))%sbi.

(** ** Lists of strings *)

(** [list] is the value's offset, [listlen] what is left of it. *)
Fixpoint stringlist_loop (n : nat) (strlist listlen : Z) (str : ptr) (len : Z) : M dtb bool :=
  match n with
  | O => stop spinning
  | S n' =>
      (if len <=? listlen then
         c <- memcmp str (At strlist) (len + 1) ;;
         if c =? 0 then ret true
         else
           p <- memchr (At strlist) 0 (u64 listlen) ;;
           match p with
           | None => ret false
           | Some i => stringlist_loop n' (strlist + i + 1) (s32 (listlen - (i + 1))) str len
           end
       else ret false)%sbi
  end.

Definition fdt_stringlist_contains (strlist listlen : Z) (str : ptr) : M dtb bool :=
  (len <- strlen str ;; stringlist_loop fuel strlist listlen str (s32 len))%sbi.

(** The loops over the strings of a value, up to [end]; each step sees a string's
    offset and its length with the zero. *)
Fixpoint strings_loop {A} (n : nat) (lst end_ : Z) (idx : Z) (bad : A) (finish : Z → A)
    (test : Z → Z → Z → M dtb (option A)) : M dtb A :=
  match n with
  | O => stop spinning
  | S n' =>
      (if lst <? end_ then
         len <- strnlen (At lst) (end_ - lst) ;;
         let length := s32 (len + 1) in
         if end_ <? lst + length then ret bad
         else
           t <- test lst length idx ;;
           match t with
           | Some r => ret r
           | None => strings_loop n' (lst + length) end_ (idx + 1) bad finish test
           end
       else ret (finish idx))%sbi
  end.

Definition fdt_stringlist_count (nodeoffset : Z) (property : ptr) : M dtb Z :=
  (r <- fdt_getprop nodeoffset property ;;
   match r with
   | (None, length) => ret length
   | (Some lst, length) =>
       strings_loop fuel lst (lst + length) 0 (- FDT_ERR_BADVALUE) id (λ _ _ _, ret None)
   end)%sbi.

Definition fdt_stringlist_search (nodeoffset : Z) (property string : ptr) : M dtb Z :=
  (r <- fdt_getprop nodeoffset property ;;
   match r with
   | (None, length) => ret length
   | (Some lst, length) =>
       len <- strlen string ;;
       let len := s32 (len + 1) in
       strings_loop fuel lst (lst + length) 0 (- FDT_ERR_BADVALUE) (λ _, - FDT_ERR_NOTFOUND)
         (λ lst length idx,
            if length =? len then c <- memcmp (At lst) string (u64 length) ;; ret (if c =? 0 then Some idx else None)
            else ret None)
   end)%sbi.

Definition fdt_stringlist_get (nodeoffset : Z) (property : ptr) (idx : Z) : M dtb (option Z * Z) :=
  (r <- fdt_getprop nodeoffset property ;;
   match r with
   | (None, length) => ret (None, length)
   | (Some lst, length) =>
       strings_loop fuel lst (lst + length) 0 (None, - FDT_ERR_BADVALUE) (λ _, (None, - FDT_ERR_NOTFOUND))
         (λ lst length i, ret (if i =? idx then Some (Some lst, length - 1) else None))
   end)%sbi.

Definition fdt_node_check_compatible (nodeoffset : Z) (compatible : ptr) : M dtb Z :=
  (r <- fdt_getprop nodeoffset (lit "compatible") ;;
   match r with
   | (None, len) => ret len
   | (Some prop, len) => b <- fdt_stringlist_contains prop len compatible ;; ret (if b : bool then 0 else 1)
   end)%sbi.

Definition fdt_node_offset_by_compatible (startoffset : Z) (compatible : ptr) : M dtb Z :=
  ro_probed id (scan_nodes fuel startoffset (λ offset,
    (err <- fdt_node_check_compatible offset compatible ;;
     ret (if (err <? 0) && negb (err =? - FDT_ERR_NOTFOUND) then Some err
          else if err =? 0 then Some offset else None))%sbi)).

(** ** The path of a node *)

(** A buffer of the caller; what is outside it must not be touched. *)
Definition buf_get (buf : list Z) (i : Z) : M dtb Z :=
  match (if i <? 0 then None else buf !! Z.to_nat i) with Some c => ret c | None => stop wild_access end.
Definition buf_put (buf : list Z) (i c : Z) : M dtb (list Z) :=
  if (0 <=? i) && (i <? Z.of_nat (length buf)) then ret (<[Z.to_nat i := c]> buf) else stop wild_access.

(** [do { p--; } while (buf[p-1] != '/');] *)
Fixpoint pop_component (n : nat) (buf : list Z) (p : Z) : M dtb Z :=
  match n with
  | O => stop spinning
  | S n' => (c <- buf_get buf (p - 1 - 1) ;; if c =? slash then ret (p - 1) else pop_component n' buf (p - 1))%sbi
  end.

Fixpoint pop_to_depth (n : nat) (buf : list Z) (p pdepth depth : Z) : M dtb (Z * Z) :=
  match n with
  | O => stop spinning
  | S n' =>
      if depth <? pdepth then (p <- pop_component fuel buf p ;; pop_to_depth n' buf p (pdepth - 1) depth)%sbi
      else ret (p, pdepth)
  end.

Fixpoint copy_name (n : nat) (name p : Z) (buf : list Z) : M dtb (list Z) :=
  match n with
  | O => ret buf
  | S n' => (c <- load name ;; buf <- buf_put buf p c ;; copy_name n' (name + 1) (p + 1) buf)%sbi
  end.

(** The result and the buffer. *)
Fixpoint get_path_loop (n : nat) (nodeoffset buflen offset depth p pdepth : Z) (buf : list Z) : M dtb (Z * list Z) :=
  match n with
  | O => stop spinning
  | S n' =>
      (if (0 <=? offset) && (offset <=? nodeoffset) then
         r <- pop_to_depth fuel buf p pdepth depth ;;
         let '(p, pdepth) := r in
         r <- (if depth <=? pdepth then
                 nm <- fdt_get_name offset ;;
                 match nm with
                 | (None, namelen) => ret (inl namelen)
                 | (Some name, namelen) =>
                     if p + namelen + 1 <=? buflen then
                       buf <- copy_name (Z.to_nat namelen) name p buf ;;
                       buf <- buf_put buf (p + namelen) slash ;;
                       ret (inr (p + namelen + 1, pdepth + 1, buf))
                     else ret (inr (p, pdepth, buf))
                 end
               else ret (inr (p, pdepth, buf))) ;;
         match r with
         | inl err => ret (err, buf)
         | inr (p, pdepth, buf) =>
             if offset =? nodeoffset then
               if pdepth <? depth + 1 then ret (- FDT_ERR_NOSPACE, buf)
               else buf <- buf_put buf (if 1 <? p then p - 1 else p) 0 ;; ret (0, buf)
             else
               r <- fdt_next_node fuel offset (Some depth) ;;
               get_path_loop n' nodeoffset buflen (fst r) (depth_of (snd r)) p pdepth buf
         end
       else if (offset =? - FDT_ERR_NOTFOUND) || (0 <=? offset) then ret (- FDT_ERR_BADOFFSET, buf)
       else if offset =? - FDT_ERR_BADOFFSET then ret (- FDT_ERR_BADSTRUCTURE, buf)
       else ret (offset, buf))%sbi
  end.

Definition fdt_get_path (nodeoffset : Z) (buf : list Z) (buflen : Z) : M dtb (Z * list Z) :=
  ro_probed (λ e, (e, buf))
    (if buflen <? 2 then ret (- FDT_ERR_NOSPACE, buf) else get_path_loop fuel nodeoffset buflen 0 0 0 0 buf).

(** ** A string of a table, and a copy of the blob (fdt.c) *)

Fixpoint find_string_loop (n : nat) (p last : Z) (s : ptr) (len : Z) : M dtb (option Z) :=
  match n with
  | O => stop spinning
  | S n' =>
      if p <=? last then
        (c <- memcmp (At p) s (u64 len) ;; if c =? 0 then ret (Some p) else find_string_loop n' (p + 1) last s len)%sbi
      else ret None
  end.
Definition fdt_find_string_ (strtab tabsize : Z) (s : ptr) : M dtb (option Z) :=
  (len <- strlen s ;;
   let len := s32 (len + 1) in
   find_string_loop fuel strtab (strtab + tabsize - len) s len)%sbi.

(** The result and what the buffer starts with afterwards. *)
Definition fdt_move (bufsize : Z) : M dtb (Z * option (list Z)) :=
  if bufsize <? 0 then ret (- FDT_ERR_NOSPACE, None)
  else
    ro_probed (λ e, (e, None))
      (totalsize <- fdt_totalsize ;;
       if bufsize <? totalsize then ret (- FDT_ERR_NOSPACE, None)
       else
         bytes <- gets dt_bytes ;;
         if Z.of_nat (length bytes) <? totalsize then stop wild_access
         else ret (0, Some (take (Z.to_nat totalsize) bytes)))%sbi.

(** ** Memory reservations *)

Definition fdt_mem_rsv (n : Z) : M dtb (option Z) :=
  (off_mem_rsvmap <- fdt_off_mem_rsvmap ;;
   let absoffset := u32 (off_mem_rsvmap + u32 (n * 16)) in
   if absoffset <? off_mem_rsvmap then ret None
   else
     totalsize <- fdt_totalsize ;;
     if u64 (totalsize - 16) <? absoffset then ret None
     else ret (Some (off_mem_rsvmap + n * 16)))%sbi.

Definition fdt_get_mem_rsv (n : Z) : M dtb (Z * option (Z * Z)) :=
  ro_probed (λ e, (e, None))
    (re <- fdt_mem_rsv n ;;
     match re with
     | None => ret (- FDT_ERR_BADOFFSET, None)
     | Some re => address <- fdt64_ld re ;; size <- fdt64_ld (re + 8) ;; ret (0, Some (address, size))
     end)%sbi.

Fixpoint num_mem_rsv_loop (n : nat) (i : Z) : M dtb Z :=
  match n with
  | O => stop spinning
  | S n' =>
      (re <- fdt_mem_rsv i ;;
       match re with
       | None => ret (- FDT_ERR_TRUNCATED)
       | Some re => size <- fdt64_ld (re + 8) ;; if size =? 0 then ret i else num_mem_rsv_loop n' (s32 (i + 1))
       end)%sbi
  end.
Definition fdt_num_mem_rsv : M dtb Z := num_mem_rsv_loop fuel 0.

(** ** Cell counts (fdt_addresses.c) *)

Definition fdt_cells (nodeoffset : Z) (name : ptr) : M dtb Z :=
  (r <- fdt_getprop nodeoffset name ;;
   match r with
   | (None, len) => ret len
   | (Some c, len) =>
       if negb (len =? 4) then ret (- FDT_ERR_BADNCELLS)
       else val <- fdt32_ld c ;; if FDT_MAX_NCELLS <? val then ret (- FDT_ERR_BADNCELLS) else ret val
   end)%sbi.

Definition fdt_address_cells (nodeoffset : Z) : M dtb Z :=
  (val <- fdt_cells nodeoffset (lit "#address-cells") ;;
   ret (if val =? 0 then - FDT_ERR_BADNCELLS else if val =? - FDT_ERR_NOTFOUND then 2 else val))%sbi.

Definition fdt_size_cells (nodeoffset : Z) : M dtb Z :=
  (val <- fdt_cells nodeoffset (lit "#size-cells") ;;
   ret (if val =? - FDT_ERR_NOTFOUND then 1 else val))%sbi.

End Ro.

(** ** Strings that can be read *)

(** The characters [l] lie at [p]. *)
Definition holds (s : dtb) (p : ptr) (l : list Z) : Prop :=
  forall i b, l !! i = Some b -> reads s (deref (padd p (Z.of_nat i))) b.

Lemma padd_padd p n m : padd (padd p n) m = padd p (n + m).
Proof. destruct p; cbn [padd]; f_equal; lia. Qed.

Lemma padd_0 p : padd p 0 = p.
Proof. destruct p; cbn [padd]; f_equal; lia. Qed.

Lemma str_head s p c l : holds s p (c :: l) -> reads s (deref p) c.
Proof. intros H. rewrite <- (padd_0 p). by apply (H O). Qed.

Lemma str_tail s p c l : holds s p (c :: l) -> holds s (padd p 1) l.
Proof.
  intros H i b Hi. rewrite padd_padd. replace (1 + Z.of_nat i) with (Z.of_nat (S i)) by lia. by apply (H (S i)).
Qed.

Lemma holds_app_l s p l1 l2 : holds s p (l1 ++ l2) -> holds s p l1.
Proof. intros H i b Hi. apply H. by apply lookup_app_l_Some. Qed.

Lemma holds_drop s p l n : holds s p l -> holds s (padd p (Z.of_nat n)) (drop n l).
Proof.
  intros H i b Hi. rewrite padd_padd, <- Nat2Z.inj_add. apply H. by rewrite lookup_drop in Hi.
Qed.

Lemma holds_take s p l n : holds s p l -> holds s p (take n l).
Proof. intros H i b Hi. apply H. apply lookup_take_Some in Hi. tauto. Qed.

Lemma holds_at s o l : at_offset s o l -> holds s (At o) l.
Proof. intros H i b Hi. by eapply load_at. Qed.

Lemma holds_cst s l : holds s (Cst l 0) (l ++ [0]).
Proof.
  intros i b Hi. cbn [padd deref]. rewrite Z.add_0_l. apply lookup_app_Some in Hi as [Hi|[Hl Hi]].
  - assert (Hlt := lookup_lt_Some _ _ _ Hi). rewrite (proj2 (Z.eqb_neq _ _)), (proj2 (Z.ltb_ge _ 0)), Nat2Z.id, Hi by lia.
    apply reads_ret.
  - apply list_lookup_singleton_Some in Hi as [Hi <-].
    rewrite (proj2 (Z.eqb_eq _ _)) by lia. apply reads_ret.
Qed.

Definition nonzero (l : list Z) : Prop := Forall (λ c, c <> 0) l.

Lemma reads_strlen_from s n p l k : holds s p (l ++ [0]) -> nonzero l -> (length l < n)%nat ->
  reads s (strlen_from n p k) (k + Z.of_nat (length l)).
Proof.
  revert n p k. induction l as [|c l IH]; intros n p k H Hn Hf; (destruct n as [|n]; [cbn in Hf; lia|]); cbn [strlen_from];
    (eapply reads_bind; [by eapply str_head|]).
  - rewrite Z.add_0_r. apply reads_ret.
  - apply Forall_cons in Hn as [Hc Hn]. rewrite (proj2 (Z.eqb_neq c 0)) by done. cbn [length] in *.
    rewrite Nat2Z.inj_succ, <- Z.add_1_l, Z.add_assoc. apply IH; [by eapply str_tail|done|lia].
Qed.

Lemma reads_strlen s fuel p l : holds s p (l ++ [0]) -> nonzero l -> (length l < fuel)%nat ->
  reads s (strlen fuel p) (Z.of_nat (length l)).
Proof. intros H Hn Hf. exact (reads_strlen_from s fuel p l 0 H Hn Hf). Qed.

(** The first difference. *)
Fixpoint cmp (l1 l2 : list Z) : Z :=
  match l1, l2 with
  | a :: l1', b :: l2' => if a =? b then cmp l1' l2' else a - b
  | _, _ => 0
  end.

Lemma cmp_eq l1 l2 : length l1 = length l2 -> (cmp l1 l2 =? 0) = bool_decide (l1 = l2).
Proof.
  revert l2. induction l1 as [|a l1 IH]; intros [|b l2] E; try done. injection E as E. cbn [cmp].
  destruct (Z.eqb_spec a b) as [->|Hab].
  - rewrite IH by done. apply bool_decide_ext. split; [by intros ->|by intros [= ->]].
  - rewrite bool_decide_eq_false_2 by naive_solver. apply Z.eqb_neq. lia.
Qed.

Lemma reads_memcmp_loop s l1 l2 p q : holds s p l1 -> holds s q l2 -> length l1 = length l2 ->
  reads s (memcmp_loop (length l1) p q) (cmp l1 l2).
Proof.
  revert l2 p q. induction l1 as [|a l1 IH]; intros [|b l2] p q H1 H2 E; try done. injection E as E. cbn [length memcmp_loop cmp].
  eapply reads_bind; [by eapply str_head|]. eapply reads_bind; [by eapply str_head|].
  destruct (a =? b); [|apply reads_ret]. apply IH; [by eapply str_tail|by eapply str_tail|done].
Qed.

Lemma reads_memcmp s l1 l2 p q n : holds s p l1 -> holds s q l2 -> n = Z.of_nat (length l1) -> length l1 = length l2 ->
  reads s (memcmp p q n) (cmp l1 l2).
Proof. intros H1 H2 -> E. unfold memcmp. rewrite Nat2Z.id. by apply reads_memcmp_loop. Qed.

(** The first place of a character. *)
Fixpoint position (c : Z) (l : list Z) : option nat :=
  match l with
  | [] => None
  | b :: l' => if c =? b then Some O else S <$> position c l'
  end.

Lemma reads_memchr_loop s c l p i : holds s p l ->
  reads s (memchr_loop (length l) p c i) ((λ n, i + Z.of_nat n) <$> position c l).
Proof.
  revert p i. induction l as [|b l IH]; intros p i H; [done|]. cbn [length memchr_loop position].
  eapply reads_bind; [by eapply str_head|]. destruct (c =? b).
  - cbn. rewrite Z.add_0_r. apply reads_ret.
  - replace ((λ n, i + Z.of_nat n) <$> (S <$> position c l)) with ((λ n, i + 1 + Z.of_nat n) <$> position c l).
    { apply IH. by eapply str_tail. }
    destruct (position c l); cbn; [f_equal; lia|done].
Qed.

Lemma reads_memchr s c l p n : holds s p l -> n = Z.of_nat (length l) ->
  reads s (memchr p c n) (Z.of_nat <$> position c l).
Proof.
  intros H ->. unfold memchr. rewrite Nat2Z.id.
  replace (Z.of_nat <$> position c l) with ((λ n, 0 + Z.of_nat n) <$> position c l) by (by destruct (position c l)).
  by apply reads_memchr_loop.
Qed.

Lemma position_none c l : position c l = None <-> ~ In c l.
Proof.
  induction l as [|b l IH]; [naive_solver|]. cbn [position In]. destruct (Z.eqb_spec c b) as [->|Hb]; [naive_solver|].
  destruct (position c l); cbn; naive_solver.
Qed.

Lemma position_some c l n : position c l = Some n -> l !! n = Some c /\ ~ In c (take n l) /\ (n < length l)%nat.
Proof.
  revert n. induction l as [|b l IH]; intros n; [done|]. cbn [position length].
  destruct (Z.eqb_spec c b) as [->|Hb]; [intros [= <-]; cbn; split; [done|split; [tauto|lia]]|].
  destruct (position c l) as [k|]; [|done]. intros [= <-]. destruct (IH k eq_refl) as (H1 & H2 & H3).
  cbn. split; [done|split; [naive_solver|lia]].
Qed.

Lemma position_app c l1 l2 : ~ In c l1 -> position c (l1 ++ c :: l2) = Some (length l1).
Proof.
  induction l1 as [|b l1 IH]; cbn [app position length In]; intros H.
  - by rewrite Z.eqb_refl.
  - rewrite (proj2 (Z.eqb_neq c b)) by naive_solver. rewrite IH by naive_solver. done.
Qed.

(** ** Reading a well-formed blob *)

(** The string at an offset of the strings block, before its zero. *)
Definition string_at (strings : list Z) (off : Z) : option (list Z) :=
  if off <? 0 then None
  else
    let l := drop (Z.to_nat off) strings in
    match position 0 l with Some n => Some (take n l) | None => None end.

(** A node's name answers to [s]: the name itself, or the name before its unit address. *)
Definition node_named (s name : list Z) : bool :=
  bool_decide (take (length s) name = s) &&
  (bool_decide (length name = length s) ||
   (bool_decide (position at_sign s = None) && bool_decide (name !! length s = Some at_sign))).

Section Reading.
Context {s : dtb} {tokens : list token} {strings : list Z} {ds dn total : Z}.
Context (B : blob s tokens strings ds dn total).

Lemma reads_probed {A} fail (c : M dtb A) a : reads s c a -> reads s (ro_probed fail c) a.
Proof.
  intros H. unfold ro_probed. eapply reads_bind; [apply (reads_probe B)|].
  assert (Ht := blob_total_range B). rewrite (proj2 (Z.ltb_ge total 0)) by lia. exact H.
Qed.

Lemma name_at pre name post :
  tokens = pre ++ BeginNode name :: post ->
  holds s (At (ds + size_of pre + 4)) (name ++ [0]) /\ Forall (λ b, is_byte b /\ b <> 0) name /\
  0 <= size_of pre /\ size_of pre + 4 + Z.of_nat (length name) + 1 <= size_of tokens.
Proof.
  intros E. destruct (token_at B pre _ post E) as (Ha & Hp & Hs & Hok). cbn [encode token_ok] in *.
  apply at_offset_app in Ha as [_ Ha]. unfold padded4 in Ha. apply at_offset_app in Ha as [Ha _].
  split; [by apply holds_at|]. split; [done|]. split; [done|].
  destruct (padded4_length (name ++ [0])) as (k & El & Hk). rewrite length_app in Hk. cbn [length] in Hk.
  rewrite length_app, be32_length in Hs. lia.
Qed.

Lemma reads_offset_ptr_ off : reads s (fdt_offset_ptr_ off) (ds + off).
Proof. unfold fdt_offset_ptr_. eapply reads_bind; [apply (reads_off_struct B)|apply reads_ret]. Qed.

(** A string of the strings block. *)
Lemma reads_get_string off : off < 2 ^ 31 ->
  exists err, reads s (fdt_get_string off)
    match string_at strings off with
    | Some str => (Some (dn + off), Z.of_nat (length str))
    | None => (None, err)
    end.
Proof.
  intros Ho. assert (H1 := blob_strings_range B). unfold fdt_get_string, string_at.
  assert (Hr := blob_strings _ _ _ _ _ _ B).
  destruct (Z.ltb_spec off 0) as [Hneg|Hpos].
  { destruct (total <=? u32 (off + dn)) eqn:Et; eexists; (eapply reads_bind; [apply (reads_probe B)|]);
      rewrite (proj2 (Z.ltb_ge total 0)) by lia; (eapply reads_bind; [apply (reads_off_strings B)|]); cbv zeta; rewrite Et;
      [apply reads_ret|].
    eapply reads_bind; [apply (reads_magic B)|]. rewrite Z.eqb_refl.
    eapply reads_bind; [apply reads_ret|]. apply reads_ret. }
  destruct (Z.leb_spec total (off + dn)) as [Ht|Ht].
  { rewrite drop_ge by lia. eexists. eapply reads_bind; [apply (reads_probe B)|].
    rewrite (proj2 (Z.ltb_ge total 0)) by lia. eapply reads_bind; [apply (reads_off_strings B)|]. cbv zeta.
    rewrite (u32_small (off + dn)) by lia. rewrite (proj2 (Z.leb_le total _)) by lia. apply reads_ret. }
  exists (if Z.of_nat (length strings) <=? off then - FDT_ERR_BADOFFSET else - FDT_ERR_TRUNCATED).
  eapply reads_bind; [apply (reads_probe B)|].
  rewrite (proj2 (Z.ltb_ge total 0)) by lia. eapply reads_bind; [apply (reads_off_strings B)|]. cbv zeta.
  rewrite (u32_small (off + dn)) by lia. rewrite (proj2 (Z.leb_gt total _)) by lia.
  eapply reads_bind; [apply (reads_magic B)|]. rewrite Z.eqb_refl.
  eapply (reads_bind s _ _ (if Z.of_nat (length strings) <=? off then inl (- FDT_ERR_BADOFFSET)
                            else inr (Z.of_nat (length strings) - off))).
  { eapply reads_bind; [apply (reads_version B)|]. change (17 <=? 17) with true. cbv iota.
    eapply reads_bind; [apply (reads_size_strings B)|].
    destruct (Z.leb_spec (Z.of_nat (length strings)) off); [apply reads_ret|].
    rewrite u32_small by lia. unfold reads, ret. do 3 f_equal.
    destruct (Z.ltb_spec (Z.of_nat (length strings) - off) (total - (off + dn))); lia. }
  destruct (Z.leb_spec (Z.of_nat (length strings)) off) as [Hl|Hl].
  { rewrite drop_ge by lia. apply reads_ret. }
  assert (Hl' : Z.of_nat (length (drop (Z.to_nat off) strings)) = Z.of_nat (length strings) - off) by (rewrite length_drop; lia).
  eapply reads_bind.
  { apply (reads_memchr s 0 (drop (Z.to_nat off) strings)); [|lia].
    replace (At (off + dn)) with (padd (At dn) (Z.of_nat (Z.to_nat off))) by (cbn [padd]; f_equal; lia).
    by apply holds_drop, holds_at. }
  destruct (position 0 (drop (Z.to_nat off) strings)) as [n|] eqn:En; cbn; [|apply reads_ret].
  apply position_some in En as (_ & _ & En). rewrite length_take, Nat.min_l, s32_small by lia.
  rewrite (Z.add_comm dn). apply reads_ret.
Qed.

Context (fuel : nat) (Hfuel : total < Z.of_nat fuel).

#[local] Abbreviation get_name := (fdt_get_name fuel).

Lemma struct_fuel : size_of tokens < Z.of_nat fuel.
Proof. assert (H := blob_struct_range B). lia. Qed.

Lemma reads_get_name pre name post :
  tokens = pre ++ BeginNode name :: post ->
  reads s (get_name (size_of pre)) (Some (ds + size_of pre + 4), Z.of_nat (length name)).
Proof.
  intros E. destruct (name_at pre name post E) as (Hh & Hn & Hp & Hs).
  assert (H1 := blob_struct_range B). unfold fdt_get_name.
  eapply reads_bind; [apply reads_offset_ptr_|]. eapply reads_bind; [apply (reads_probe B)|].
  rewrite (proj2 (Z.ltb_ge total 0)) by lia.
  eapply reads_bind; [eapply (reads_check_node B fuel struct_fuel); exact E|].
  rewrite (proj2 (Z.ltb_ge _ 0)) by apply size_of_nonneg. cbv zeta.
  eapply reads_bind; [apply (reads_version B)|]. change (17 <? 16) with false. cbv iota.
  eapply reads_bind.
  { apply reads_strlen; [exact Hh|by eapply Forall_impl; [exact Hn|naive_solver]|lia]. }
  rewrite s32_small by lia. apply reads_ret.
Qed.

Lemma reads_nodename_eq pre name post q str :
  tokens = pre ++ BeginNode name :: post -> holds s q str ->
  reads s (fdt_nodename_eq_ fuel (size_of pre) q (Z.of_nat (length str))) (node_named str name).
Proof.
  intros E Hq. destruct (name_at pre name post E) as (Hh & Hn & Hp & Hs).
  assert (H1 := blob_struct_range B). unfold fdt_nodename_eq_, node_named.
  eapply reads_bind; [by eapply reads_get_name|]. cbn [fst snd].
  destruct (Z.ltb_spec (Z.of_nat (length name)) (Z.of_nat (length str))) as [Hlt|Hge].
  { rewrite bool_decide_eq_false_2; [apply reads_ret|]. intros Et. apply (f_equal length) in Et.
    rewrite length_take in Et. lia. }
  rewrite u64_small by (unfold is_u64; lia).
  assert (Ht : length (take (length str) name) = length str) by (rewrite length_take; lia).
  eapply reads_bind.
  { apply (reads_memcmp s (take (length str) name) str); [|exact Hq|lia|lia].
    eapply holds_take, holds_app_l. exact Hh. }
  rewrite cmp_eq by done. destruct (bool_decide_reflect (take (length str) name = str)) as [Et|Et]; [|apply reads_ret].
  cbn [negb andb].
  assert (Hb : reads s (load (ds + size_of pre + 4 + Z.of_nat (length str)))
    (default 0 (name !! length str))).
  { change (reads s (deref (padd (At (ds + size_of pre + 4)) (Z.of_nat (length str)))) (default 0 (name !! length str))).
    apply Hh. destruct (decide (length str < length name)%nat) as [Hl|Hl].
    - rewrite lookup_app_l by done. destruct (name !! length str) eqn:E1; [done|]. apply lookup_ge_None in E1. lia.
    - rewrite (lookup_ge_None_2 name) by lia. rewrite lookup_app_r by lia.
      replace (length str - length name)%nat with O by lia. done. }
  eapply reads_bind; [exact Hb|].
  destruct (decide (length name = length str)) as [El|El].
  { rewrite lookup_ge_None_2 by lia. change (default 0 None =? 0) with true. cbv iota. rewrite bool_decide_eq_true_2 by done. apply reads_ret. }
  destruct (lookup_lt_is_Some_2 name (length str)) as [c Ec]; [lia|]. rewrite Ec in *. change (default 0 (Some c)) with c in *.
  rewrite (proj2 (Z.eqb_neq c 0)) by exact (proj2 (Forall_lookup_1 _ _ _ _ Hn Ec)).
  rewrite (bool_decide_eq_false_2 (length name = length str)) by done. cbn [orb].
  eapply reads_bind; [by apply reads_memchr|].
  destruct (position at_sign str); cbn; [apply reads_ret|]. eapply reads_bind; [exact Hb|].
  destruct (Z.eqb_spec c at_sign) as [->|Hc]; [apply reads_ret|].
  rewrite bool_decide_eq_false_2 by congruence. apply reads_ret.
Qed.

End Reading.

(** The properties of a node: what [nextprop_] finds, and the first one of a name. *)
Fixpoint next_prop_spec (pre post : list token) : Z :=
  match post with
  | [] => - FDT_ERR_BADSTRUCTURE
  | Prop_ _ _ :: _ => size_of pre
  | Nop :: post' => next_prop_spec (pre ++ [Nop]) post'
  | _ => - FDT_ERR_NOTFOUND
  end.

Fixpoint find_prop (strings name : list Z) (pre post : list token) : Z + Z * list Z :=
  match post with
  | [] => inl (- FDT_ERR_BADSTRUCTURE)
  | Prop_ nameoff value :: post' =>
      if bool_decide (string_at strings nameoff = Some name) then inr (size_of pre, value)
      else find_prop strings name (pre ++ [Prop_ nameoff value]) post'
  | Nop :: post' => find_prop strings name (pre ++ [Nop]) post'
  | _ => inl (- FDT_ERR_NOTFOUND)
  end.

Lemma find_prop_split strings name pre post o v :
  find_prop strings name pre post = inr (o, v) ->
  exists mid nameoff post', post = mid ++ Prop_ nameoff v :: post' /\ o = size_of (pre ++ mid).
Proof.
  revert pre. induction post as [|t post IH]; intros pre; [done|]. cbn [find_prop].
  destruct t as [name'| |nameoff v'|]; try done.
  - destruct (bool_decide _).
    + intros [= <- <-]. exists [], nameoff, post. by rewrite app_nil_r.
    + intros H. destruct (IH _ H) as (mid & n' & post' & -> & ->).
      exists (Prop_ nameoff v' :: mid), n', post'. by rewrite <- app_assoc.
  - intros H. destruct (IH _ H) as (mid & n' & post' & -> & ->).
    exists (Nop :: mid), n', post'. by rewrite <- app_assoc.
Qed.

Lemma find_prop_inl strings name pre post e : find_prop strings name pre post = inl e -> e < 0.
Proof.
  revert pre. induction post as [|t post IH]; intros pre; [by intros [= <-]|]. cbn [find_prop].
  destruct t; try (intros [= <-]; done); [|apply IH]. destruct (bool_decide _); [done|apply IH].
Qed.

Section Properties.
Context {s : dtb} {tokens : list token} {strings : list Z} {ds dn total : Z}.
Context (B : blob s tokens strings ds dn total).
Context (fuel : nat) (Hfuel : total < Z.of_nat fuel).

Lemma reads_string_eq off q name :
  holds s q name -> off < 2 ^ 31 -> Z.of_nat (length name) < 2 ^ 31 ->
  reads s (fdt_string_eq_ off q (Z.of_nat (length name))) (bool_decide (string_at strings off = Some name)).
Proof.
  intros Hq Ho Hl. destruct (reads_get_string B off Ho) as [err R]. unfold fdt_string_eq_.
  eapply reads_bind; [exact R|]. destruct (string_at strings off) as [str|] eqn:E; cbn [fst snd].
  2: { rewrite bool_decide_eq_false_2 by done. apply reads_ret. }
  destruct (Z.eqb_spec (Z.of_nat (length str)) (Z.of_nat (length name))) as [El|El].
  2: { rewrite bool_decide_eq_false_2; [apply reads_ret|]. intros [= ->]. done. }
  rewrite u64_small by (unfold is_u64; lia).
  eapply reads_bind.
  { apply (reads_memcmp s str name); [|exact Hq|lia|lia]. unfold string_at in E.
    destruct (off <? 0) eqn:E0; [done|]. zbool. destruct (position 0 _) as [n|]; [|done]. injection E as <-.
    replace (At (dn + off)) with (padd (At dn) (Z.of_nat (Z.to_nat off))) by (cbn [padd]; f_equal; lia).
    apply holds_take, holds_drop, holds_at, (blob_strings _ _ _ _ _ _ B). }
  rewrite cmp_eq by lia. replace (bool_decide (str = name)) with (bool_decide (Some str = Some name));
    [apply reads_ret|]. apply bool_decide_ext. naive_solver.
Qed.

#[local] Abbreviation SF := (struct_fuel B fuel Hfuel).

Lemma reads_nextprop_loop pre post n :
  tokens = pre ++ post -> (length post < n)%nat ->
  reads s (nextprop_loop fuel n (size_of pre)) (next_prop_spec pre post).
Proof.
  revert pre n. induction post as [|t post IH]; intros pre n E Hn; (destruct n as [|n]; [cbn in Hn; lia|]); cbn [nextprop_loop].
  - rewrite app_nil_r in E. rewrite <- E. eapply reads_bind; [apply (reads_next_tag_end B fuel)|]. cbv beta iota.
    rewrite Z.eqb_refl. rewrite (proj2 (Z.leb_le 0 _)) by (assert (H := size_of_nonneg tokens); lia). apply reads_ret.
  - eapply reads_bind; [by eapply (reads_next_tag B fuel SF)|]. cbv beta iota. cbn [length] in Hn.
    destruct t as [name| |nameoff v|]; cbn [token_tag next_prop_spec]; try apply reads_ret.
    apply IH; [by rewrite <- app_assoc|lia].
Qed.

Lemma reads_nextprop pre post : tokens = pre ++ post -> reads s (nextprop_ fuel (size_of pre)) (next_prop_spec pre post).
Proof. intros E. apply reads_nextprop_loop; [done|by eapply post_fuel; [exact SF|]]. Qed.

Lemma prop_at pre nameoff v post :
  tokens = pre ++ Prop_ nameoff v :: post ->
  at_offset s (ds + size_of pre + 4) (be32 (Z.of_nat (length v))) /\
  at_offset s (ds + size_of pre + 8) (be32 nameoff) /\ at_offset s (ds + size_of pre + 12) v /\
  0 <= size_of pre /\ size_of pre + 12 + Z.of_nat (length v) <= size_of tokens /\ 0 <= nameoff < 2 ^ 31 /\ Forall is_byte v.
Proof.
  intros E. destruct (token_at B pre _ post E) as (Ha & Hp & Hs & Hok & Hv). cbn [encode] in *.
  rewrite !length_app, !be32_length in Hs. destruct (padded4_length v) as (k & El & Hk).
  apply at_offset_app in Ha as [_ Ha]. apply at_offset_app in Ha as [H1 Ha]. apply at_offset_app in Ha as [H2 H3].
  unfold padded4 in H3. apply at_offset_app in H3 as [H3 _]. rewrite !be32_length, <- ?Z.add_assoc in *.
  split; [exact H1|split; [exact H2|split; [exact H3|]]]. split; [done|split; [lia|done]].
Qed.

Lemma reads_property_by_offset pre nameoff v post :
  tokens = pre ++ Prop_ nameoff v :: post ->
  reads s (fdt_get_property_by_offset_ fuel (size_of pre)) (Some (ds + size_of pre), Z.of_nat (length v)).
Proof.
  intros E. destruct (prop_at _ _ _ _ E) as (H1 & _ & _ & Hp & Hs & _). assert (Hr := blob_struct_range B).
  unfold fdt_get_property_by_offset_. eapply reads_bind; [by eapply (reads_check_prop B fuel SF)|].
  rewrite (proj2 (Z.ltb_ge _ 0)) by apply size_of_nonneg.
  eapply reads_bind; [apply (reads_offset_ptr_ B)|].
  eapply reads_bind; [apply fdt32_at; [exact H1|lia]|]. rewrite s32_small by lia. apply reads_ret.
Qed.


Lemma reads_get_property_loop q name pre post n :
  holds s q name -> Z.of_nat (length name) < 2 ^ 31 -> tokens = pre ++ post -> (length post < n)%nat ->
  reads s (get_property_loop fuel n (next_prop_spec pre post) q (Z.of_nat (length name)))
    match find_prop strings name pre post with
    | inr (o, v) => (Some (ds + o), Z.of_nat (length v), o)
    | inl e => (None, e, e)
    end.
Proof.
  intros Hq Hl. revert pre n. induction post as [|t post IH]; intros pre n E Hn.
  - destruct n as [|n]; [cbn in Hn; lia|]. apply reads_ret.
  - cbn [length] in Hn. assert (E' : tokens = (pre ++ [t]) ++ post) by (by rewrite <- app_assoc).
    destruct t as [name'| |nameoff v|]; cbn [next_prop_spec find_prop].
    + destruct n as [|n]; [lia|]. apply reads_ret.
    + destruct n as [|n]; [lia|]. apply reads_ret.
    + destruct n as [|n]; [lia|]. cbn [get_property_loop].
      destruct (prop_at _ _ _ _ E) as (_ & H2 & _ & Hp & Hs & Hno & _). assert (Hr := blob_struct_range B).
      rewrite (proj2 (Z.leb_le 0 _)) by lia.
      eapply reads_bind; [by eapply reads_property_by_offset|]. cbn [fst snd].
      eapply reads_bind; [apply fdt32_at; [exact H2|lia]|].
      rewrite s32_small by lia. eapply reads_bind; [apply reads_string_eq; [exact Hq|lia|done]|].
      destruct (bool_decide _); [apply reads_ret|].
      eapply reads_bind; [|apply IH; [exact E'|lia]].
      unfold fdt_next_property_offset. eapply reads_bind; [by eapply (reads_check_prop B fuel SF)|].
      rewrite (proj2 (Z.ltb_ge _ 0)) by apply size_of_nonneg. by apply reads_nextprop.
    + apply IH; [exact E'|lia].
Qed.

(** A property of the node. *)
Lemma reads_getprop_namelen pre nname post q name :
  tokens = pre ++ BeginNode nname :: post -> holds s q name -> Z.of_nat (length name) < 2 ^ 31 ->
  reads s (fdt_getprop_namelen fuel (size_of pre) q (Z.of_nat (length name)))
    match find_prop strings name (pre ++ [BeginNode nname]) post with
    | inr (o, v) => (Some (ds + o + 12), Z.of_nat (length v))
    | inl e => (None, e)
    end.
Proof.
  intros E Hq Hl. assert (E' : tokens = (pre ++ [BeginNode nname]) ++ post) by (by rewrite <- app_assoc).
  unfold fdt_getprop_namelen, fdt_get_property_namelen_.
  eapply reads_bind.
  { eapply reads_bind.
    { unfold fdt_first_property_offset. eapply reads_bind; [by eapply (reads_check_node B fuel SF)|].
      rewrite (proj2 (Z.ltb_ge _ 0)) by apply size_of_nonneg. by apply reads_nextprop. }
    apply (reads_get_property_loop q name _ post); [done|done|done|by eapply post_fuel; [exact SF|]]. }
  destruct (find_prop _ _ _ _) as [e|[o v]]; [apply reads_ret|]. cbv beta iota.
  eapply reads_bind; [|apply reads_ret]. unfold realigned.
  eapply reads_bind; [apply (reads_version B)|]. change (17 <? 16) with false. cbn [andb]. apply reads_ret.
Qed.

Lemma reads_lit_strlen name : nonzero name -> Z.of_nat (length name) <= total ->
  reads s (strlen fuel (Cst name 0)) (Z.of_nat (length name)).
Proof. intros Hn Hl. apply reads_strlen; [apply holds_cst|done|lia]. Qed.

Lemma reads_getprop pre nname post name :
  tokens = pre ++ BeginNode nname :: post -> nonzero name -> Z.of_nat (length name) <= total ->
  reads s (fdt_getprop fuel (size_of pre) (Cst name 0))
    match find_prop strings name (pre ++ [BeginNode nname]) post with
    | inr (o, v) => (Some (ds + o + 12), Z.of_nat (length v))
    | inl e => (None, e)
    end.
Proof.
  intros E Hn Hl. assert (Ht := blob_total_range B). unfold fdt_getprop.
  eapply reads_bind; [by apply reads_lit_strlen|]. rewrite s32_small by lia.
  apply reads_getprop_namelen; [done|by eapply holds_app_l, holds_cst|lia].
Qed.

(** The bytes of a property that was found. *)
Lemma found_value pre post name o v :
  tokens = pre ++ post -> find_prop strings name pre post = inr (o, v) ->
  at_offset s (ds + o + 12) v /\ Forall is_byte v /\ o + 12 + Z.of_nat (length v) <= size_of tokens /\ 0 <= o.
Proof.
  intros E H. destruct (find_prop_split _ _ _ _ _ _ H) as (mid & nameoff & post' & -> & ->).
  rewrite app_assoc in E. destruct (prop_at _ _ _ _ E) as (_ & _ & H3 & Hp & Hs & _ & Hv).
  split; [exact H3|split; [exact Hv|split; lia]].
Qed.

End Properties.

(** ** Subnodes *)

(** The first node, among those one level below, whose name satisfies [p];
    [d] nodes are open besides the parent. *)
Fixpoint find_child (p : list Z → bool) (pre post : list token) (d : Z) : Z :=
  match post with
  | [] => - FDT_ERR_NOTFOUND
  | BeginNode name :: post' =>
      if (d =? 0) && p name then size_of pre else find_child p (pre ++ [BeginNode name]) post' (d + 1)
  | EndNode :: post' =>
      if d =? 0 then - FDT_ERR_NOTFOUND else find_child p (pre ++ [EndNode]) post' (d - 1)
  | t :: post' => find_child p (pre ++ [t]) post' d
  end.

Section Subnodes.
Context {s : dtb} {tokens : list token} {strings : list Z} {ds dn total : Z}.
Context (B : blob s tokens strings ds dn total).
Context (fuel : nat) (Hfuel : total < Z.of_nat fuel).
#[local] Abbreviation SF := (struct_fuel B fuel Hfuel).

(** A step of a loop over nodes: fdt_next_node from a node at the offset. *)
Lemma reads_step pre name post d :
  tokens = pre ++ BeginNode name :: post -> 0 <= d <= size_of pre ->
  reads s (fdt_next_node fuel (size_of pre) (Some d)) (next_node_spec (pre ++ [BeginNode name]) post (Some d)).
Proof. intros E Hd. eapply (reads_next_node B fuel SF); [exact E|]. by intros d' [= <-]. Qed.

Lemma reads_subnode_loop q str pre post n d :
  holds s q str -> tokens = pre ++ post -> (length post < n)%nat -> 0 <= d -> d + 1 <= size_of pre ->
  reads s (subnode_loop fuel n (fst (next_node_spec pre post (Some d)))
             (depth_of (snd (next_node_spec pre post (Some d)))) q (Z.of_nat (length str)))
    (find_child (node_named str) pre post d).
Proof.
  intros Hq. revert pre n d. induction post as [|t post IH]; intros pre n d E Hn H0 Hd;
    (destruct n as [|n]; [cbn in Hn; lia|]); cbn [length] in Hn.
  - cbn [next_node_spec find_child fst snd]. change (depth_of (Some d)) with d. cbn [subnode_loop].
    change (0 <=? - FDT_ERR_NOTFOUND) with false. cbn [andb]. rewrite (proj2 (Z.ltb_ge d 0)) by lia. apply reads_ret.
  - assert (E' : tokens = (pre ++ [t]) ++ post) by (by rewrite <- app_assoc).
    assert (Hg := size_grows pre t).
    destruct t as [name| |nameoff v|]; cbn [next_node_spec find_child].
    + cbn [fst snd fmap option_fmap option_map]. change (depth_of (Some (d + 1))) with (d + 1). cbn [subnode_loop].
      rewrite (proj2 (Z.leb_le 0 _)), (proj2 (Z.leb_le 0 (d + 1))) by (try apply size_of_nonneg; lia). cbn [andb].
      replace (d + 1 =? 1) with (d =? 0) by lia.
      destruct (Z.eqb_spec d 0) as [->|Hne]; cbn [andb].
      * eapply reads_bind; [by eapply (reads_nodename_eq B fuel Hfuel)|].
        destruct (node_named str name); [apply reads_ret|].
        eapply reads_bind; [apply (reads_step _ _ _ _ E); lia|]. apply IH; [done|lia|lia|lia].
      * eapply reads_bind; [apply reads_ret|]. cbv iota.
        eapply reads_bind; [apply (reads_step _ _ _ _ E); lia|]. apply IH; [done|lia|lia|lia].
    + cbn [fmap option_fmap option_map]. destruct (Z.eqb_spec d 0) as [->|Hne].
      * change (0 - 1 <? 0) with true. cbn [fst snd subnode_loop]. change (depth_of (Some (0 - 1))) with (-1).
        rewrite andb_false_r. apply reads_ret.
      * rewrite (proj2 (Z.ltb_ge (d - 1) 0)) by lia. apply IH; [done|lia|lia|lia].
    + apply IH; [done|lia|lia|lia].
    + apply IH; [done|lia|lia|lia].
Qed.

Lemma reads_subnode_offset pre name post q str :
  tokens = pre ++ BeginNode name :: post -> holds s q str ->
  reads s (fdt_subnode_offset_namelen fuel (size_of pre) q (Z.of_nat (length str)))
    (find_child (node_named str) (pre ++ [BeginNode name]) post 0).
Proof.
  intros E Hq. unfold fdt_subnode_offset_namelen. apply (reads_probed B).
  assert (Hf := post_fuel fuel SF _ _ E). cbn [length] in Hf. assert (Hp := size_of_nonneg pre).
  assert (Hg := size_grows pre (BeginNode name)).
  assert (exists n, fuel = S n) as [n En] by (destruct fuel; [lia|eauto]). rewrite En at 2. cbn [subnode_loop].
  rewrite (proj2 (Z.leb_le 0 _)) by lia. cbn [Z.leb Z.compare andb Z.eqb].
  eapply reads_bind; [apply reads_ret|]. cbv iota. eapply reads_bind; [apply (reads_step _ _ _ _ E); lia|].
  apply reads_subnode_loop; [done|by rewrite <- app_assoc|lia|lia|lia].
Qed.

(** The walk over the children. *)
Lemma first_child_spec pre post :
  (let r := next_node_spec pre post (Some 0) in
   if (fst r <? 0) || negb (depth_of (snd r) =? 1) then - FDT_ERR_NOTFOUND else fst r) =
  find_child (λ _, true) pre post 0.
Proof.
  revert pre. induction post as [|t post IH]; intros pre; [done|]. destruct t as [name| |nameoff v|]; cbn [next_node_spec find_child].
  - cbn. rewrite (proj2 (Z.ltb_ge _ 0)) by apply size_of_nonneg. done.
  - cbn. by rewrite orb_true_r.
  - apply IH.
  - apply IH.
Qed.

Lemma reads_first_subnode pre name post :
  tokens = pre ++ BeginNode name :: post ->
  reads s (fdt_first_subnode fuel (size_of pre)) (find_child (λ _, true) (pre ++ [BeginNode name]) post 0).
Proof.
  intros E. unfold fdt_first_subnode. assert (Hp := size_of_nonneg pre).
  eapply reads_bind; [apply (reads_step _ _ _ _ E); lia|].
  rewrite <- first_child_spec. cbv zeta. destruct (_ || _); apply reads_ret.
Qed.

Lemma reads_next_subnode_loop pre post n d :
  tokens = pre ++ post -> (length post < n)%nat -> 0 <= d -> d + 1 <= size_of pre ->
  reads s
    (let r := next_node_spec pre post (Some d) in
     if (fst r <? 0) || (depth_of (snd r) <? 1) then ret (- FDT_ERR_NOTFOUND)
     else if 1 <? depth_of (snd r) then next_subnode_loop fuel n (fst r) (depth_of (snd r)) else ret (fst r))
    (find_child (λ _, true) pre post d).
Proof.
  revert pre n d. induction post as [|t post IH]; intros pre n d E Hn H0 Hd; cbn [length] in Hn; [apply reads_ret|].
  assert (E' : tokens = (pre ++ [t]) ++ post) by (by rewrite <- app_assoc).
  assert (Hg := size_grows pre t).
  destruct t as [name| |nameoff v|]; cbn [next_node_spec find_child].
  - cbn [fst snd fmap option_fmap option_map]. cbv zeta. change (depth_of (Some (d + 1))) with (d + 1).
    rewrite (proj2 (Z.ltb_ge _ 0)), (proj2 (Z.ltb_ge (d + 1) 1)) by (try apply size_of_nonneg; lia). cbn [orb].
    destruct (Z.eqb_spec d 0) as [->|Hne]; cbn [andb]; [apply reads_ret|].
    rewrite (proj2 (Z.ltb_lt 1 _)) by lia. destruct n as [|n]; [lia|]. cbn [next_subnode_loop].
    eapply reads_bind; [apply (reads_step _ _ _ _ E); lia|]. apply IH; [done|lia|lia|lia].
  - cbn [fmap option_fmap option_map]. destruct (Z.eqb_spec d 0) as [->|Hne].
    + change (0 - 1 <? 0) with true. cbn [fst snd]. cbv zeta. rewrite orb_true_r. apply reads_ret.
    + rewrite (proj2 (Z.ltb_ge (d - 1) 0)) by lia. apply IH; [done|lia|lia|lia].
  - apply IH; [done|lia|lia|lia].
  - apply IH; [done|lia|lia|lia].
Qed.

(** From a node that is not the root to its next sibling. *)
Lemma reads_next_subnode pre name post :
  tokens = pre ++ BeginNode name :: post -> 0 < size_of pre ->
  reads s (fdt_next_subnode fuel (size_of pre)) (find_child (λ _, true) (pre ++ [BeginNode name]) post 1).
Proof.
  intros E Hp. unfold fdt_next_subnode. assert (Hg := size_grows pre (BeginNode name)).
  assert (Hf := post_fuel fuel SF _ _ E). cbn [length] in Hf.
  assert (exists n, fuel = S n) as [n En] by (destruct fuel; [lia|eauto]). rewrite En at 2. cbn [next_subnode_loop].
  eapply reads_bind; [apply (reads_step _ _ _ _ E); lia|].
  apply (reads_next_subnode_loop _ _ n 1); [by rewrite <- app_assoc|lia|lia|lia].
Qed.

End Subnodes.

(** ** Where the code falls short *)

(** A value without its final zero still matches a string, when the byte after
    the value happens to be zero: the comparison looks one byte past it. *)
Theorem unterminated_value_matches :
  fdt_stringlist_contains 10 0 3 (lit "abc") (Dtb 8 (chars "abc" ++ [0])) = (Ret true, Dtb 8 (chars "abc" ++ [0])) /\
  fdt_stringlist_contains 10 0 3 (lit "abc") (Dtb 8 (chars "abc")) = (Stop wild_access, Dtb 8 (chars "abc")).
Proof. split; vm_compute; reflexivity. Qed.

(** A blob as long as its header says, which ends in a property of length -12
    without a name. *)
Definition cut_blob : dtb :=
  Dtb 8 (be32 FDT_MAGIC ++ be32 72 ++ be32 56 ++ be32 72 ++ be32 40 ++ be32 17 ++ be32 16 ++ be32 0 ++ be32 0 ++ be32 16 ++
         replicate 16 0 ++ be32 FDT_BEGIN_NODE ++ be32 0 ++ be32 FDT_PROP ++ be32 0xfffffff4).

(** Looking for a property reads the name's offset past the end of the blob. *)
Theorem getprop_reads_past_end :
  readable cut_blob /\ fdt_check_header cut_blob = (Ret 0, cut_blob) /\
  fdt_getprop 10 0 (lit "x") cut_blob = (Stop wild_access, cut_blob).
Proof.
  split; [|split; vm_compute; reflexivity].
  split; [vm_compute; discriminate|apply all_bytes_ok; vm_compute; reflexivity|vm_compute; discriminate].
Qed.
