(* ===== verification/FdtTree.v ===== *)
(** * Flattened device trees as trees

    The specification of lib/utils/libfdt (Fdt.v, FdtRo.v): a device tree is a
    [tree], written into the structure block by [flat]; a node is known to the
    code by its offset, and [node_at] says which node an offset stands for.  The
    reading functions are shown to compute the tree's own operations. *)

From Stdlib Require Import ZArith Lia String Ascii.
From stdpp Require Import base tactics list numbers strings.
From S2P Require Import Prelude Fdt FdtRo.

(** ** Trees *)

(** A node's attributes are its properties and the gaps between them. *)
#[warnings="-register-all"]
Inductive tree : Type :=
| Node (name : list Z) (attrs : list token) (children : list tree).

Definition tree_name (t : tree) : list Z := match t with Node name _ _ => name end.
Definition tree_attrs (t : tree) : list token := match t with Node _ attrs _ => attrs end.
Definition tree_children (t : tree) : list tree := match t with Node _ _ children => children end.

Fixpoint flat (t : tree) : list token :=
  match t with
  | Node name attrs children => BeginNode name :: attrs ++ concat (map flat children) ++ [EndNode]
  end.
Definition flat_all (l : list tree) : list token := concat (map flat l).

Definition is_attr (t : token) : bool := match t with Prop_ _ _ | Nop => true | _ => false end.

Fixpoint tree_ok (t : tree) : bool :=
  match t with Node _ attrs children => forallb is_attr attrs && forallb tree_ok children end.

(** The value of a property. *)
Fixpoint attr_value (strings name : list Z) (attrs : list token) : option (list Z) :=
  match attrs with
  | Prop_ nameoff value :: attrs' =>
      if bool_decide (string_at strings nameoff = Some name) then Some value else attr_value strings name attrs'
  | _ :: attrs' => attr_value strings name attrs'
  | [] => None
  end.

(** The first of the trees, laid out from offset [o], whose name satisfies [p]. *)
Fixpoint child_at (p : list Z → bool) (o : Z) (l : list tree) : option (Z * tree) :=
  match l with
  | [] => None
  | t :: l' => if p (tree_name t) then Some (o, t) else child_at p (o + size_of (flat t)) l'
  end.

(** Where a node's children start. *)
Definition header (t : tree) : list token := BeginNode (tree_name t) :: tree_attrs t.
Definition children_offset (o : Z) (t : tree) : Z := o + size_of (header t).

(** The node of a path, from the node [t] at [o]. *)
Fixpoint resolve (o : Z) (t : tree) (path : list (list Z)) : option (Z * tree) :=
  match path with
  | [] => Some (o, t)
  | c :: path' =>
      match child_at (node_named c) (children_offset o t) (tree_children t) with
      | Some (o', t') => resolve o' t' path'
      | None => None
      end
  end.

(** The absolute path with these components. *)
Definition path_text (path : list (list Z)) : list Z := concat (map (λ c, slash :: c) path).

Definition component (c : list Z) : Prop := c <> [] /\ Forall (λ b, b <> 0 /\ b <> slash) c.

Definition offset_of (r : option (Z * tree)) : Z := match r with Some (o, _) => o | None => - FDT_ERR_NOTFOUND end.

(** The node [t] is the one at offset [o]. *)
Definition node_at (tokens : list token) (o : Z) (t : tree) : Prop :=
  exists pre post, tokens = pre ++ flat t ++ post /\ o = size_of pre /\ tree_ok t = true.

(** ** Lemmas on trees *)

Lemma tree_induction (P : tree → Prop) :
  (forall name attrs children, Forall P children -> P (Node name attrs children)) -> forall t, P t.
Proof.
  intros HP. fix IH 1. intros [name attrs children]. apply HP.
  induction children as [|c l IHl]; constructor; [apply IH|exact IHl].
Qed.

Lemma flat_node t : flat t = header t ++ flat_all (tree_children t) ++ [EndNode].
Proof. destruct t as [name attrs children]. reflexivity. Qed.

Lemma tree_ok_node t : tree_ok t = forallb is_attr (tree_attrs t) && forallb tree_ok (tree_children t).
Proof. by destruct t. Qed.

Lemma attrs_ok t : tree_ok t = true -> forallb is_attr (tree_attrs t) = true.
Proof. rewrite tree_ok_node. by intros [H _]%andb_true_iff. Qed.

Lemma children_ok t : tree_ok t = true -> forallb tree_ok (tree_children t) = true.
Proof. rewrite tree_ok_node. by intros [_ H]%andb_true_iff. Qed.

(** Walking over attributes, whole trees and forests. *)
Section Skip.
Context (p : list Z → bool).

Lemma skip_attrs attrs pre post d : forallb is_attr attrs = true ->
  find_child p pre (attrs ++ post) d = find_child p (pre ++ attrs) post d.
Proof.
  revert pre. induction attrs as [|t attrs IH]; intros pre H; [by rewrite app_nil_r|].
  cbn [forallb] in H. apply andb_true_iff in H as [Ht H]. rewrite cons_middle, app_assoc, <- IH by done.
  by destruct t.
Qed.

Lemma skip_tree t : tree_ok t = true -> forall pre post d, 0 < d ->
  find_child p pre (flat t ++ post) d = find_child p (pre ++ flat t) post d.
Proof.
  induction t as [name attrs children IH] using tree_induction. intros Hok pre post d Hd.
  assert (Ha := attrs_ok _ Hok). assert (Hc := children_ok _ Hok). cbn [tree_attrs tree_children] in Ha, Hc. clear Hok.
  assert (Hf : forall pre post, find_child p pre (flat_all children ++ post) (d + 1) =
                           find_child p (pre ++ flat_all children) post (d + 1)).
  { induction children as [|c l IHl]; intros pre' post'; [by rewrite app_nil_r|].
    apply Forall_cons in IH as [IHc IH]. cbn [forallb] in Hc. apply andb_true_iff in Hc as [Hc1 Hc2].
    unfold flat_all. cbn [map concat]. rewrite <- app_assoc, IHc by (done || lia). rewrite app_assoc. by apply IHl. }
  cbn [flat app]. fold (flat_all children). cbn [find_child]. rewrite (proj2 (Z.eqb_neq d 0)) by lia. cbn [andb].
  rewrite <- !app_assoc, skip_attrs, Hf by done. cbn [app find_child].
  rewrite (proj2 (Z.eqb_neq (d + 1) 0)) by lia. replace (d + 1 - 1) with d by lia.
  f_equal. by rewrite <- !app_assoc.
Qed.

Lemma skip_first t pre post : tree_ok t = true ->
  find_child p pre (flat t ++ post) 0 = if p (tree_name t) then size_of pre else find_child p (pre ++ flat t) post 0.
Proof.
  destruct t as [name attrs children]. intros Hok.
  assert (Ha := attrs_ok _ Hok). assert (Hc := children_ok _ Hok). cbn [tree_attrs tree_children tree_name] in *.
  cbn [flat app]. fold (flat_all children). cbn [find_child]. rewrite Z.eqb_refl. cbn [andb].
  destruct (p name); [done|]. rewrite <- !app_assoc, skip_attrs by done.
  assert (Hf : forall pre post, find_child p pre (flat_all children ++ post) 1 =
                           find_child p (pre ++ flat_all children) post 1).
  { clear Hok. induction children as [|c l IHl]; intros pre' post'; [by rewrite app_nil_r|].
    cbn [forallb] in Hc. apply andb_true_iff in Hc as [Hc1 Hc2].
    unfold flat_all. cbn [map concat]. rewrite <- app_assoc, skip_tree by (done || lia). rewrite app_assoc. by apply IHl. }
  rewrite Hf. cbn [app find_child]. change (1 - 1) with 0. cbn [Z.eqb]. f_equal. by rewrite <- !app_assoc.
Qed.

(** The first child, at the offset the tree gives it. *)
Lemma find_child_at l pre post : forallb tree_ok l = true ->
  find_child p pre (flat_all l ++ EndNode :: post) 0 = offset_of (child_at p (size_of pre) l).
Proof.
  revert pre. induction l as [|t l IH]; intros pre H; [done|]. cbn [forallb] in H. apply andb_true_iff in H as [Ht H].
  unfold flat_all. cbn [map concat child_at]. rewrite <- app_assoc, skip_first by done.
  destruct (p (tree_name t)); [done|]. rewrite <- size_of_app. by apply IH.
Qed.
End Skip.

Lemma find_prop_attrs strings name attrs pre post :
  forallb is_attr attrs = true -> (match post with Prop_ _ _ :: _ | Nop :: _ | [] => False | _ => True end) ->
  match attr_value strings name attrs with
  | Some v => exists o, find_prop strings name pre (attrs ++ post) = inr (o, v)
  | None => find_prop strings name pre (attrs ++ post) = inl (- FDT_ERR_NOTFOUND)
  end.
Proof.
  intros H Hp. revert pre. induction attrs as [|t attrs IH]; intros pre.
  { destruct post as [|[] post]; done. }
  cbn [forallb] in H. apply andb_true_iff in H as [Ht H]. cbn [app attr_value find_prop].
  destruct t as [n| |nameoff v|]; try done; [|by apply IH]. destruct (bool_decide _); [by eexists|by apply IH].
Qed.

(** ** Nodes and their offsets *)

Section NodeAt.
Context {tokens : list token}.

Lemma node_at_split o t : node_at tokens o t ->
  exists pre post, tokens = pre ++ BeginNode (tree_name t) :: (tree_attrs t ++ flat_all (tree_children t) ++ EndNode :: post) /\ o = size_of pre.
Proof.
  intros (pre & post & E & Eo & _). exists pre, post. split; [|done]. rewrite E, flat_node. unfold header.
  cbn [app]. by rewrite <- !app_assoc.
Qed.

Lemma child_node_at pre l post p o t : tokens = pre ++ flat_all l ++ post -> forallb tree_ok l = true ->
  child_at p (size_of pre) l = Some (o, t) -> node_at tokens o t /\ p (tree_name t) = true /\ In t l.
Proof.
  revert pre. induction l as [|c l IH]; intros pre E H; [done|]. cbn [forallb] in H. apply andb_true_iff in H as [Hc H].
  unfold flat_all in E. cbn [map concat] in E. rewrite <- app_assoc in E. cbn [child_at].
  destruct (p (tree_name c)) eqn:Ep.
  - intros [= <- <-]. split; [by exists pre, (flat_all l ++ post)|]. cbn; auto.
  - rewrite <- size_of_app. intros Hr. destruct (IH (pre ++ flat c)) as (H1 & H2 & H3); [by rewrite <- app_assoc|done|done|].
    split; [done|split; [done|by right]].
Qed.

Lemma child_of_node o t p o' c : node_at tokens o t ->
  child_at p (children_offset o t) (tree_children t) = Some (o', c) -> node_at tokens o' c.
Proof.
  intros (pre & post & E & -> & Hok) H. unfold children_offset in H. rewrite <- size_of_app in H.
  refine (proj1 (child_node_at (pre ++ header t) (tree_children t) (EndNode :: post) p o' c _ (children_ok _ Hok) H)).
  rewrite E, flat_node. by rewrite <- !app_assoc.
Qed.

Lemma node_at_nonneg o t : node_at tokens o t -> 0 <= o.
Proof. intros (pre & post & _ & -> & _). apply size_of_nonneg. Qed.
End NodeAt.

(** ** What the code computes on a tree *)

Section Reads.
Context {s : dtb} {tokens : list token} {strings : list Z} {ds dn total : Z}.
Context (B : blob s tokens strings ds dn total).
Context (fuel : nat) (Hfuel : total < Z.of_nat fuel).

(** A property by name: where its value lies, or the error. *)
Lemma reads_attr o t q name :
  node_at tokens o t -> holds s q name -> Z.of_nat (length name) < 2 ^ 31 ->
  match attr_value strings name (tree_attrs t) with
  | Some v => exists data, reads s (fdt_getprop_namelen fuel o q (Z.of_nat (length name))) (Some data, Z.of_nat (length v)) /\
                       at_offset s data v /\ Forall is_byte v /\ Z.of_nat (length v) < total
  | None => reads s (fdt_getprop_namelen fuel o q (Z.of_nat (length name))) (None, - FDT_ERR_NOTFOUND)
  end.
Proof.
  intros Hn Hq Hl. assert (Hok := Hn). destruct Hok as (pre0 & post0 & _ & _ & Hok). apply attrs_ok in Hok.
  destruct (node_at_split _ _ Hn) as (pre & post & E & ->). assert (Hr := blob_struct_range B).
  assert (R := reads_getprop_namelen B fuel Hfuel pre _ _ q name E Hq Hl).
  assert (F := find_prop_attrs strings name (tree_attrs t) (pre ++ [BeginNode (tree_name t)]) (flat_all (tree_children t) ++ EndNode :: post) Hok).
  assert (Ef : tokens = (pre ++ [BeginNode (tree_name t)]) ++ (tree_attrs t ++ flat_all (tree_children t) ++ EndNode :: post))
    by (by rewrite <- app_assoc).
  destruct (attr_value strings name (tree_attrs t)) as [v|].
  - destruct F as [o F]; [by destruct (tree_children t) as [|[]]|]. rewrite F in R. exists (ds + o + 12).
    destruct (found_value B fuel _ _ name o v Ef F) as (H1 & H2 & H3 & H4). split; [exact R|split; [done|split; [done|lia]]].
  - rewrite F in R; [exact R|]. by destruct (tree_children t) as [|[]].
Qed.

(** With the name a constant of the code. *)
Lemma reads_attr_lit o t name :
  node_at tokens o t -> nonzero name -> Z.of_nat (length name) <= total ->
  match attr_value strings name (tree_attrs t) with
  | Some v => exists data, reads s (fdt_getprop fuel o (Cst name 0)) (Some data, Z.of_nat (length v)) /\
                       at_offset s data v /\ Forall is_byte v /\ Z.of_nat (length v) < total
  | None => reads s (fdt_getprop fuel o (Cst name 0)) (None, - FDT_ERR_NOTFOUND)
  end.
Proof.
  intros Hn Hz Hl. assert (Ht := blob_total_range B).
  assert (Hs : forall r, reads s (fdt_getprop_namelen fuel o (Cst name 0) (Z.of_nat (length name))) r -> reads s (fdt_getprop fuel o (Cst name 0)) r).
  { intros r H. unfold fdt_getprop. eapply reads_bind; [by apply (reads_lit_strlen fuel Hfuel)|].
    rewrite s32_small by lia. exact H. }
  assert (R := reads_attr o t (Cst name 0) name Hn ltac:(by eapply holds_app_l, holds_cst) ltac:(lia)).
  destruct (attr_value strings name (tree_attrs t)) as [v|]; [|by apply Hs].
  destruct R as (data & R & H). exists data. split; [by apply Hs|done].
Qed.

(** A child by name. *)
Lemma reads_child o t q str :
  node_at tokens o t -> holds s q str ->
  reads s (fdt_subnode_offset_namelen fuel o q (Z.of_nat (length str)))
    (offset_of (child_at (node_named str) (children_offset o t) (tree_children t))).
Proof.
  intros Hn Hq. assert (Hok := Hn). destruct Hok as (pre0 & post0 & _ & _ & Hok).
  destruct (node_at_split _ _ Hn) as (pre & post & E & ->).
  assert (R := reads_subnode_offset B fuel Hfuel pre _ _ q str E Hq).
  rewrite skip_attrs, find_child_at in R by (by first [apply attrs_ok|apply children_ok]).
  unfold children_offset, header. rewrite <- size_of_app. rewrite <- app_assoc in R. exact R.
Qed.

(** The components of a path, one by one. *)
Lemma component_text c path : component c -> Forall component path ->
  position slash (c ++ path_text path) = match path with [] => None | _ => Some (length c) end.
Proof.
  intros [_ Hc] Hp. assert (Hn : ~ In slash c).
  { intros H. apply (proj1 (List.Forall_forall _ _) Hc) in H as [_ H]. done. }
  destruct path as [|c' path].
  - unfold path_text. cbn. rewrite app_nil_r. by apply position_none.
  - unfold path_text. cbn [map concat app]. by apply position_app.
Qed.

Lemma reads_path_loop path : forall n q i o t,
  Forall component path -> holds s (padd q i) (path_text path) -> node_at tokens o t -> 0 <= i ->
  (length path < n)%nat -> 
  reads s (path_loop fuel n q i (i + Z.of_nat (length (path_text path))) o) (offset_of (resolve o t path)).
Proof.
  assert (Hr := blob_struct_range B). assert (Hf : (2 < fuel)%nat) by lia.
  induction path as [|c path IH]; intros n q i o t Hp Hq Hn Hi Hl; (destruct n as [|n]; [cbn in Hl; lia|]); cbn [path_loop].
  - change (path_text []) with (@nil Z). cbn [length]. rewrite Z.add_0_r, (proj2 (Z.ltb_ge i i)) by lia. apply reads_ret.
  - apply Forall_cons in Hp as [Hc Hp]. cbn [length] in Hl.
    assert (Et : path_text (c :: path) = slash :: c ++ path_text path) by done. rewrite Et in *. clear Et.
    assert (Hc1 := proj1 Hc). destruct c as [|c0 c]; [done|]. clear Hc1.
    assert (Hc0 : c0 <> slash) by (destruct Hc as [_ Hc]; apply Forall_cons in Hc as [[_ ?] _]; done).
    set (text := path_text path) in *. cbn [length]. rewrite length_app.
    rewrite (proj2 (Z.ltb_lt i _)) by lia.
    eapply reads_bind.
    { assert (exists m, fuel = S (S m)) as [m Em] by (destruct fuel as [|[|m]]; [lia|lia|by exists m]). rewrite Em. cbn [skip_slashes].
      eapply reads_bind; [by eapply str_head|]. rewrite Z.eqb_refl. cbn [length].
      rewrite (proj2 (Z.eqb_neq (i + 1) _)) by lia.
      eapply reads_bind; [rewrite <- padd_padd; by eapply str_head, str_tail|].
      rewrite (proj2 (Z.eqb_neq c0 slash)) by done. apply reads_ret. }
    cbv beta iota. apply str_tail in Hq. rewrite padd_padd in Hq.
    eapply reads_bind; [apply (reads_memchr s slash ((c0 :: c) ++ text)); [exact Hq|rewrite length_app; lia]|].
    assert (Ep := component_text (c0 :: c) path Hc Hp). fold text in Ep. rewrite Ep. cbv beta zeta.
    match goal with |- context [default ?a ?b] => replace (default a b) with (Z.of_nat (length (c0 :: c))) end.
    2: { destruct path as [|c' path]; cbn; [unfold text; cbn; lia|done]. }
    cbn [resolve].
    eapply reads_bind; [apply (reads_child o t); [done|by eapply holds_app_l]|].
    destruct (child_at (node_named (c0 :: c)) (children_offset o t) (tree_children t)) as [[o' t']|] eqn:Ec; [|apply reads_ret].
    cbn [offset_of]. assert (Hn' := child_of_node _ _ _ _ _ Hn Ec).
    rewrite (proj2 (Z.ltb_ge o' 0)) by exact (node_at_nonneg _ _ Hn').
    replace (i + Z.of_nat (S (length (c0 :: c) + length text))) with (i + 1 + Z.of_nat (length (c0 :: c)) + Z.of_nat (length text)) by lia.
    apply IH; [done| |done|lia|lia].
    rewrite <- padd_padd. assert (Hd := holds_drop _ _ _ (length (c0 :: c)) Hq). by rewrite drop_app_length in Hd.
Qed.

Lemma path_text_length path : Forall component path -> (length path <= length (path_text path))%nat.
Proof.
  induction 1 as [|c path [Hc _] Hp IH]; [done|]. unfold path_text in *. cbn [map concat length]. rewrite length_app. cbn [length]. lia.
Qed.

Lemma path_text_nonzero path : Forall component path -> nonzero (path_text path).
Proof.
  induction 1 as [|c path [_ Hc] Hp IH]; [constructor|]. unfold path_text in *. cbn [map concat]. apply Forall_cons.
  split; [done|]. apply Forall_app. split; [|done]. eapply Forall_impl; [exact Hc|]. naive_solver.
Qed.

(** The node of an absolute path. *)
Lemma reads_path_offset root path :
  tokens = flat root -> tree_ok root = true -> path <> [] -> Forall component path ->
  Z.of_nat (length (path_text path)) <= total ->
  reads s (fdt_path_offset fuel (Cst (path_text path) 0)) (offset_of (resolve 0 root path)).
Proof.
  intros E Hok Hne Hp Hl. assert (Ht := blob_total_range B). unfold fdt_path_offset.
  eapply reads_bind; [apply (reads_lit_strlen fuel Hfuel); [by apply path_text_nonzero|done]|].
  rewrite s32_small by lia. unfold fdt_path_offset_namelen.
  assert (exists m, fuel = S m) as [m Em] by (destruct fuel; [lia|eauto]). rewrite Em at 2. cbn [path_offset_namelen].
  apply (reads_probed B).
  assert (Hh : holds s (Cst (path_text path) 0) (path_text path)) by (by eapply holds_app_l, holds_cst).
  eapply (reads_bind s _ _ slash).
  { destruct path as [|c path]; [done|]. exact (str_head _ _ slash (c ++ path_text path) Hh). }
  rewrite Z.eqb_refl. replace (Z.of_nat (length (path_text path))) with (0 + Z.of_nat (length (path_text path))) by lia.
  apply reads_path_loop; [done|by rewrite padd_0| |lia|].
  - exists [], []. rewrite app_nil_r. done.
  - assert (H := path_text_length path Hp). lia.
Qed.

End Reads.

(** ** Depths and parents *)

(** The walk of [fdt_supernode_atdepth_offset] after a node of depth [d], when
    it reaches its target: [sup] is the last node of depth [sd] so far. *)
Fixpoint super_spec (pre post : list token) (d target sd sup : Z) : option (Z * Z) :=
  match post with
  | [] => None
  | BeginNode name :: post' =>
      let sup := if d + 1 =? sd then size_of pre else sup in
      if size_of pre =? target then Some (if d + 1 <? sd then - FDT_ERR_NOTFOUND else sup, d + 1)
      else super_spec (pre ++ [BeginNode name]) post' (d + 1) target sd sup
  | EndNode :: post' =>
      if d =? 0 then None else super_spec (pre ++ [EndNode]) post' (d - 1) target sd sup
  | t :: post' => super_spec (pre ++ [t]) post' d target sd sup
  end.

(** The node [c] at [o'] is one of the children of [t] at [o]. *)
Definition child_of (o : Z) (t : tree) (o' : Z) (c : tree) : Prop :=
  exists l r, tree_children t = l ++ c :: r /\ o' = children_offset o t + size_of (flat_all l).

(** [c] at [o'] lies [k] levels below [t] at [o]. *)
Inductive below (o : Z) (t : tree) : Z → Z → tree → Prop :=
| below_here : below o t 0 o t
| below_child k o1 t1 o2 t2 : below o t k o1 t1 -> child_of o1 t1 o2 t2 -> below o t (k + 1) o2 t2.

Lemma flat_all_app l1 l2 : flat_all (l1 ++ l2) = flat_all l1 ++ flat_all l2.
Proof. unfold flat_all. by rewrite map_app, concat_app. Qed.

Lemma flat_all_cons t l : flat_all (t :: l) = flat t ++ flat_all l.
Proof. done. Qed.

Lemma size_flat_pos t : 4 <= size_of (flat t).
Proof.
  rewrite flat_node. unfold header. cbn [app]. rewrite size_of_cons. destruct (encode_size (BeginNode (tree_name t))) as (k & -> & Hk).
  assert (H := size_of_nonneg (tree_attrs t ++ flat_all (tree_children t) ++ [EndNode])). lia.
Qed.

Section Super.
Context (target sd : Z).

Lemma super_attrs attrs pre post d sup : forallb is_attr attrs = true ->
  super_spec pre (attrs ++ post) d target sd sup = super_spec (pre ++ attrs) post d target sd sup.
Proof.
  revert pre. induction attrs as [|t attrs IH]; intros pre H; [by rewrite app_nil_r|].
  cbn [forallb] in H. apply andb_true_iff in H as [Ht H]. rewrite cons_middle, app_assoc, <- IH by done.
  by destruct t.
Qed.

(** Passing by a tree before the target: only nodes deeper than [d] are seen. *)
Definition passes (t : tree) : Prop :=
  forall pre post d sup, 0 <= d -> size_of (pre ++ flat t) <= target ->
  exists sup', super_spec pre (flat t ++ post) d target sd sup = super_spec (pre ++ flat t) post d target sd sup' /\
          (sd <= d -> sup' = sup).

Lemma super_forest l : Forall passes l -> forall pre post d sup, 0 <= d -> size_of (pre ++ flat_all l) <= target ->
  exists sup', super_spec pre (flat_all l ++ post) d target sd sup = super_spec (pre ++ flat_all l) post d target sd sup' /\
          (sd <= d -> sup' = sup).
Proof.
  induction 1 as [|t l Ht Hl IH]; intros pre post d sup Hd Hs.
  - exists sup. by rewrite app_nil_r.
  - rewrite flat_all_cons, <- app_assoc. rewrite flat_all_cons, app_assoc in Hs.
    destruct (Ht pre (flat_all l ++ post) d sup Hd) as (s1 & -> & H1).
    { rewrite size_of_app in Hs. assert (H := size_of_nonneg (flat_all l)). lia. }
    destruct (IH (pre ++ flat t) post d s1 Hd Hs) as (s2 & -> & H2).
    exists s2. split; [by rewrite <- app_assoc|]. intros H. rewrite H2, H1; done.
Qed.

Lemma super_tree t : tree_ok t = true -> passes t.
Proof.
  induction t as [name attrs children IH] using tree_induction. intros Hok pre post d sup Hd Hs.
  assert (Ha := attrs_ok _ Hok). assert (Hc := children_ok _ Hok). cbn [tree_attrs tree_children] in *. clear Hok.
  assert (Hf : Forall passes children).
  { clear Hs. induction children as [|c l IHl]; constructor; apply Forall_cons in IH as [IHc IH];
      cbn [forallb] in Hc; apply andb_true_iff in Hc as [Hc1 Hc2]; auto. }
  rewrite flat_node in Hs |- *. unfold header in *. cbn [tree_name tree_attrs tree_children app] in *.
  assert (Hpre : size_of pre < target).
  { rewrite size_of_app, size_of_cons, size_of_app in Hs. assert (H1 := size_of_nonneg attrs).
    assert (H2 := size_of_nonneg (flat_all children ++ [EndNode])). destruct (encode_size (BeginNode name)) as (k & Ek & Hk). lia. }
  cbn [super_spec]. rewrite (proj2 (Z.eqb_neq (size_of pre) target)) by lia. cbv zeta.
  rewrite <- !app_assoc, super_attrs by done.
  destruct (super_forest children Hf ((pre ++ [BeginNode name]) ++ attrs) (EndNode :: post) (d + 1)
              (if d + 1 =? sd then size_of pre else sup)) as (s1 & E1 & H1); [lia| |].
  { rewrite cons_middle in Hs. rewrite !app_assoc in Hs. rewrite size_of_snoc in Hs.
    destruct (encode_size EndNode) as (k & Ek & Hk). lia. }
  exists s1. cbn [app] in *. rewrite E1. cbn [super_spec]. rewrite (proj2 (Z.eqb_neq (d + 1) 0)) by lia.
  replace (d + 1 - 1) with d by lia. split; [f_equal; by rewrite <- !app_assoc|].
  intros H. rewrite H1 by lia. by rewrite (proj2 (Z.eqb_neq (d + 1) sd)) by lia.
Qed.

(** Inside the node [c] at [o'], found by going down from [t] at [o]: the
    walk gets there, with the node itself as [sup] when its depth is asked for. *)
Definition inside (o : Z) (c : tree) (rest : list token) (pre' post' : list token) : Prop :=
  exists pre, o = size_of pre /\ pre' = pre ++ [BeginNode (tree_name c)] /\
         post' = tree_attrs c ++ flat_all (tree_children c) ++ EndNode :: rest.

Lemma super_into_child o t pre' post' rest d sup o' c :
  inside o t rest pre' post' -> tree_ok t = true -> child_of o t o' c -> 0 <= d -> o' <= target ->
  exists pre rest' sup1,
    o' = size_of pre /\ tree_ok c = true /\ pre' ++ post' = pre ++ flat c ++ rest' /\ (sd <= d -> sup1 = sup) /\
    super_spec pre' post' d target sd sup = super_spec pre (flat c ++ rest') d target sd sup1.
Proof.
  intros (pre0 & -> & -> & ->) Hok (l & r & El & ->) Hd Ho.
  assert (Ha := attrs_ok _ Hok). assert (Hc := children_ok _ Hok). rewrite El, forallb_app in Hc.
  apply andb_true_iff in Hc as [Hl Hc]. cbn [forallb] in Hc. apply andb_true_iff in Hc as [Hc Hr].
  assert (Hf : Forall passes l).
  { clear - Hl. induction l as [|x l IH]; constructor; cbn [forallb] in Hl; apply andb_true_iff in Hl as [H1 H2];
      [by apply super_tree|by apply IH]. }
  rewrite El, flat_all_app, flat_all_cons, super_attrs by done. rewrite <- !app_assoc.
  destruct (super_forest l Hf ((pre0 ++ [BeginNode (tree_name t)]) ++ tree_attrs t) (flat c ++ flat_all r ++ EndNode :: rest) d sup Hd)
    as (s1 & E1 & H1).
  { unfold children_offset, header in Ho. rewrite !size_of_app in *. rewrite size_of_cons in Ho.
    rewrite size_of_cons. change (size_of []) with 0. lia. }
  exists (((pre0 ++ [BeginNode (tree_name t)]) ++ tree_attrs t) ++ flat_all l), (flat_all r ++ EndNode :: rest), s1.
  rewrite <- !app_assoc in *. cbn [app] in *.
  split. { unfold children_offset, header. rewrite !size_of_app, !size_of_cons, size_of_app. lia. }
  split; [done|]. split; [by rewrite <- ?app_assoc|]. split; [done|]. by rewrite E1, <- ?app_assoc.
Qed.

End Super.

Lemma child_of_later o t o' c : child_of o t o' c -> o + 4 <= o'.
Proof.
  intros (l & r & _ & ->). unfold children_offset, header. rewrite size_of_cons.
  destruct (encode_size (BeginNode (tree_name t))) as (k & -> & Hk).
  assert (H1 := size_of_nonneg (tree_attrs t)). assert (H2 := size_of_nonneg (flat_all l)). lia.
Qed.

Lemma below_depth o t k o' t' : below o t k o' t' -> 0 <= k /\ o <= o'.
Proof. induction 1 as [|k o1 t1 o2 t2 _ IH H]; [lia|]. apply child_of_later in H. lia. Qed.

Lemma child_of_node_at tokens o t o' c : node_at tokens o t -> child_of o t o' c -> node_at tokens o' c.
Proof.
  intros (pre & post & -> & -> & Hok) (l & r & El & ->).
  exists (pre ++ header t ++ flat_all l), (flat_all r ++ EndNode :: post).
  assert (Hc := children_ok _ Hok). rewrite El, forallb_app in Hc. apply andb_true_iff in Hc as [_ Hc]. cbn [forallb] in Hc.
  apply andb_true_iff in Hc as [Hc _]. rewrite flat_node, El, flat_all_app, flat_all_cons, <- !app_assoc.
  split; [done|split; [|done]]. unfold children_offset. rewrite !size_of_app. lia.
Qed.

Lemma below_node_at tokens o t k o' t' : node_at tokens o t -> below o t k o' t' -> node_at tokens o' t'.
Proof. intros Hn. induction 1; [done|]. by eapply child_of_node_at. Qed.

(** What [resolve] finds lies below. *)
Lemma child_at_child_of p l1 l2 o t o' c : tree_children t = l1 ++ l2 ->
  child_at p (children_offset o t + size_of (flat_all l1)) l2 = Some (o', c) -> child_of o t o' c.
Proof.
  revert l1. induction l2 as [|x l2 IH]; intros l1 E; [done|]. cbn [child_at]. destruct (p (tree_name x)).
  - intros [= <- <-]. by exists l1, l2.
  - rewrite <- Z.add_assoc, <- size_of_app. intros H. apply (IH (l1 ++ [x])); [by rewrite <- app_assoc|].
    by rewrite flat_all_app, flat_all_cons, app_nil_r.
Qed.

Lemma resolve_below o0 t0 k o t path o' t' :
  below o0 t0 k o t -> resolve o t path = Some (o', t') -> below o0 t0 (k + Z.of_nat (length path)) o' t'.
Proof.
  revert k o t. induction path as [|c path IH]; intros k o t Hb; cbn [resolve].
  - intros [= <- <-]. by rewrite Z.add_0_r.
  - destruct (child_at _ _ _) as [[o1 t1]|] eqn:E; [|done]. intros H.
    replace (k + Z.of_nat (length (c :: path))) with (k + 1 + Z.of_nat (length path)) by (cbn [length]; lia).
    eapply IH; [|exact H]. eapply below_child; [exact Hb|]. apply (child_at_child_of (node_named c) [] (tree_children t)); [done|].
    change (size_of (flat_all [])) with 0. by rewrite Z.add_0_r.
Qed.

Section Parents.
Context {root : tree} (Hroot : tree_ok root = true).

Lemma super_below target sd sup k o t : below 0 root k o t -> o < target ->
  exists pre post rest sup',
    inside o t rest pre post /\ flat root = pre ++ post /\ tree_ok t = true /\
    super_spec [BeginNode (tree_name root)] (tree_attrs root ++ flat_all (tree_children root) ++ [EndNode]) 0 target sd sup =
    super_spec pre post k target sd sup' /\
    (0 < k -> k = sd -> sup' = o) /\ (sd <= 0 -> sup' = sup) /\ (k = 0 -> sup' = sup).
Proof.
  induction 1 as [|k o1 t1 o2 t2 Hb IH Hc]; intros Ht.
  - exists [BeginNode (tree_name root)], (tree_attrs root ++ flat_all (tree_children root) ++ [EndNode]), [], sup.
    split; [by exists []|]. split; [rewrite flat_node; unfold header; by rewrite <- ?app_assoc|]. split; [done|]. split; [done|].
    split; [lia|done].
  - destruct (below_depth _ _ _ _ _ Hb) as [Hk _]. assert (Hl := child_of_later _ _ _ _ Hc).
    destruct (IH ltac:(lia)) as (pre & post & rest & s1 & Hi & Ef & Hok & Es & _ & Hs2 & _).
    destruct (super_into_child target sd o1 t1 pre post rest k s1 o2 t2 Hi Hok Hc Hk ltac:(lia)) as (pre2 & rest2 & s2 & Eo & Hok2 & Ep & Hs & E2).
    exists (pre2 ++ [BeginNode (tree_name t2)]), (tree_attrs t2 ++ flat_all (tree_children t2) ++ EndNode :: rest2), rest2,
      (if k + 1 =? sd then o2 else s2).
    assert (Ex : flat t2 ++ rest2 = BeginNode (tree_name t2) :: tree_attrs t2 ++ flat_all (tree_children t2) ++ EndNode :: rest2).
    { rewrite flat_node. unfold header. cbn [app]. by rewrite <- !app_assoc. }
    split; [by exists pre2|]. split; [rewrite Ef, Ep, Ex, <- app_assoc; done|]. split; [done|].
    split. { rewrite Es, E2, Ex. cbn [super_spec]. rewrite <- Eo, (proj2 (Z.eqb_neq o2 target)) by lia. done. }
    split; [intros _ ->; by rewrite Z.eqb_refl|]. split; [|lia].
    intros H0. rewrite (proj2 (Z.eqb_neq (k + 1) sd)), Hs by lia. auto.
Qed.

(** The target reached. *)
Lemma super_child sd sup k o t o' c : below 0 root k o t -> child_of o t o' c -> sd <= k ->
  exists sup',
    super_spec [BeginNode (tree_name root)] (tree_attrs root ++ flat_all (tree_children root) ++ [EndNode]) 0 o' sd sup =
    Some (sup', k + 1) /\ (0 < k -> k = sd -> sup' = o) /\ (sd <= 0 -> sup' = sup) /\ (k = 0 -> sup' = sup).
Proof.
  intros Hb Hc Hsd. assert (Hl := child_of_later _ _ _ _ Hc). destruct (below_depth _ _ _ _ _ Hb) as [Hk _].
  destruct (super_below o' sd sup k o t Hb ltac:(lia)) as (pre & post & rest & s1 & Hi & Ef & Hok & Es & H1 & H2 & H3).
  destruct (super_into_child o' sd o t pre post rest k s1 o' c Hi Hok Hc Hk ltac:(lia)) as (pre2 & rest2 & s2 & Eo & Hok2 & Ep & Hs & E2).
  exists s2. rewrite Es, E2, flat_node. unfold header. cbn [app super_spec]. rewrite <- Eo, Z.eqb_refl.
  rewrite (proj2 (Z.eqb_neq (k + 1) sd)), (proj2 (Z.ltb_ge (k + 1) sd)) by lia.
  rewrite Hs by lia. done.
Qed.

Context {s : dtb} {strings : list Z} {ds dn total : Z}.
Context (B : blob s (flat root) strings ds dn total).
Context (fuel : nat) (Hfuel : total < Z.of_nat fuel).
#[local] Abbreviation SF := (struct_fuel B fuel Hfuel).

Lemma super_spec_later pre post d target sd sup r : super_spec pre post d target sd sup = Some r -> size_of pre <= target.
Proof.
  revert pre d sup. induction post as [|t post IH]; intros pre d sup; [done|]. cbn [super_spec].
  assert (Hg : size_of pre <= size_of (pre ++ [t])) by (rewrite size_of_snoc; lia).
  destruct t as [name| |nameoff v|].
  - destruct (Z.eqb_spec (size_of pre) target); [lia|]. intros H%IH. lia.
  - destruct (d =? 0); [done|]. intros H%IH. lia.
  - intros H%IH. lia.
  - intros H%IH. lia.
Qed.

Lemma reads_supernode_loop pre post n d target sd sup r dep :
  flat root = pre ++ post -> (length post < n)%nat -> 0 <= d -> d + 1 <= size_of pre ->
  super_spec pre post d target sd sup = Some (r, dep) ->
  reads s (supernode_loop fuel n (fst (next_node_spec pre post (Some d)))
             (depth_of (snd (next_node_spec pre post (Some d)))) target sd sup) (r, Some dep).
Proof.
  revert pre n d sup. induction post as [|t post IH]; intros pre n d sup E Hn H0 Hd; [done|]. cbn [length] in Hn.
  assert (E' : flat root = (pre ++ [t]) ++ post) by (by rewrite <- app_assoc).
  assert (Hg := size_grows pre t). intros Hs. assert (Ht := super_spec_later _ _ _ _ _ _ _ Hs).
  destruct t as [name| |nameoff v|]; cbn [next_node_spec super_spec] in Hs |- *.
  - destruct n as [|n]; [lia|].
    cbn [fst snd fmap option_fmap option_map]. change (depth_of (Some (d + 1))) with (d + 1). cbn [supernode_loop].
    rewrite (proj2 (Z.leb_le 0 _)), (proj2 (Z.leb_le _ target)) by (try apply size_of_nonneg; lia). cbn [andb].
    cbv zeta. destruct (Z.eqb_spec (size_of pre) target) as [Et|Et].
    + injection Hs as <- <-. apply reads_ret.
    + eapply reads_bind; [apply (reads_step B fuel Hfuel _ _ _ _ E); lia|]. apply IH; [done|lia|lia|lia|done].
  - destruct (Z.eqb_spec d 0) as [->|Hne]; [done|]. cbn [fmap option_fmap option_map].
    rewrite (proj2 (Z.ltb_ge (d - 1) 0)) by lia. apply IH; [done|lia|lia|lia|done].
  - apply IH; [done|lia|lia|lia|done].
  - apply IH; [done|lia|lia|lia|done].
Qed.

(** Above a child of [t], [k] levels below the root. *)
Lemma reads_supernode k o t o' c sd : below 0 root k o t -> child_of o t o' c -> 0 <= sd <= k ->
  exists sup', reads s (fdt_supernode_atdepth_offset fuel o' sd) (sup', Some (k + 1)) /\ (k = sd -> sup' = o) /\ (sd = 0 -> sup' = 0).
Proof.
  intros Hb Hc Hsd. assert (Hl := child_of_later _ _ _ _ Hc). destruct (below_depth _ _ _ _ _ Hb) as [Hk Ho].
  assert (E0 : flat root = [] ++ BeginNode (tree_name root) :: (tree_attrs root ++ flat_all (tree_children root) ++ [EndNode]))
    by apply flat_node.
  assert (Hf := post_fuel fuel SF _ _ E0). cbn [length] in Hf. assert (Hg := size_grows [] (BeginNode (tree_name root))).
  destruct (super_child sd (if 0 =? sd then 0 else - FDT_ERR_INTERNAL) k o t o' c Hb Hc ltac:(lia)) as (sup' & Es & H1 & H2 & H3).
  exists sup'. split.
  - unfold fdt_supernode_atdepth_offset. apply (reads_probed B). rewrite (proj2 (Z.ltb_ge sd 0)) by lia.
    assert (exists n, fuel = S n) as [n En] by (destruct fuel; [lia|eauto]). rewrite En at 2. cbn [supernode_loop].
    cbn [Z.leb Z.compare andb]. rewrite (proj2 (Z.leb_le 0 o')), (proj2 (Z.eqb_neq 0 o')) by lia. cbv zeta.
    eapply reads_bind; [apply (reads_step B fuel Hfuel [] _ _ 0 E0); change (size_of []) with 0; lia|].
    eapply reads_supernode_loop; [exact E0|lia|lia|change (size_of []) with 0 in Hg; lia|exact Es].
  - destruct (decide (k = 0)) as [->|Hk0].
    + inversion Hb as [|k' ? ? ? ? Hb' Hc']; subst.
      * split; [intros <-|intros ->]; by rewrite H3.
      * destruct (below_depth _ _ _ _ _ Hb'). lia.
    + split; [intros; apply H1; lia|]. intros ->. by rewrite H2.
Qed.

Lemma reads_node_depth k o t o' c : below 0 root k o t -> child_of o t o' c ->
  reads s (fdt_node_depth fuel o') (k + 1).
Proof.
  intros Hb Hc. destruct (below_depth _ _ _ _ _ Hb) as [Hk _].
  destruct (reads_supernode k o t o' c 0 Hb Hc ltac:(lia)) as (sup' & R & _ & H). rewrite H in R by done.
  unfold fdt_node_depth. eapply reads_bind; [exact R|]. cbv beta iota. cbn [truthy Z.eqb negb]. apply reads_ret.
Qed.

Lemma reads_parent_offset k o t o' c : below 0 root k o t -> child_of o t o' c ->
  reads s (fdt_parent_offset fuel o') o.
Proof.
  intros Hb Hc. destruct (below_depth _ _ _ _ _ Hb) as [Hk _].
  destruct (reads_supernode k o t o' c k Hb Hc ltac:(lia)) as (sup' & R & H & _). rewrite H in R by done.
  unfold fdt_parent_offset. eapply reads_bind; [by eapply reads_node_depth|].
  rewrite (proj2 (Z.ltb_ge (k + 1) 0)) by lia. replace (k + 1 - 1) with k by lia.
  eapply reads_bind; [exact R|]. apply reads_ret.
Qed.

(** The root has none. *)
Lemma reads_parent_root : reads s (fdt_parent_offset fuel 0) (- FDT_ERR_NOTFOUND).
Proof.
  assert (Ht := blob_total_range B). assert (exists n, fuel = S n) as [n En] by (destruct fuel; [lia|eauto]).
  unfold fdt_parent_offset, fdt_node_depth, fdt_supernode_atdepth_offset.
  eapply reads_bind.
  { eapply reads_bind; [apply (reads_probed B); change (0 <? 0) with false; cbv iota; rewrite En at 2; apply reads_ret|].
    apply reads_ret. }
  change (0 <? 0) with false. cbv iota.
  eapply reads_bind; [apply (reads_probed B); apply reads_ret|]. apply reads_ret.
Qed.

End Parents.

(** ** Searches in document order *)

Fixpoint preorder (t : tree) (o : Z) : list (Z * tree) :=
  (o, t) ::
  match t with
  | Node name attrs children =>
      (fix go (l : list tree) (o : Z) : list (Z * tree) :=
         match l with [] => [] | c :: l' => preorder c o ++ go l' (o + size_of (flat c)) end)
        children (o + size_of (BeginNode name :: attrs))
  end.

Fixpoint preorder_all (l : list tree) (o : Z) : list (Z * tree) :=
  match l with [] => [] | c :: l' => preorder c o ++ preorder_all l' (o + size_of (flat c)) end.

Lemma preorder_node t o : preorder t o = (o, t) :: preorder_all (tree_children t) (children_offset o t).
Proof. destruct t as [name attrs children]. reflexivity. Qed.

(** The offsets of the nodes that begin among the tags. *)
Fixpoint begins (pre post : list token) : list Z :=
  match post with
  | [] => []
  | BeginNode name :: post' => size_of pre :: begins (pre ++ [BeginNode name]) post'
  | t :: post' => begins (pre ++ [t]) post'
  end.

Lemma begins_attrs attrs pre post : forallb is_attr attrs = true -> begins pre (attrs ++ post) = begins (pre ++ attrs) post.
Proof.
  revert pre. induction attrs as [|t attrs IH]; intros pre H; [by rewrite app_nil_r|].
  cbn [forallb] in H. apply andb_true_iff in H as [Ht H]. rewrite cons_middle, app_assoc, <- IH by done.
  by destruct t.
Qed.

Lemma begins_tree t : tree_ok t = true -> forall pre post,
  begins pre (flat t ++ post) = map fst (preorder t (size_of pre)) ++ begins (pre ++ flat t) post.
Proof.
  induction t as [name attrs children IH] using tree_induction. intros Hok pre post.
  assert (Ha := attrs_ok _ Hok). assert (Hc := children_ok _ Hok). cbn [tree_attrs tree_children] in *. clear Hok.
  assert (Hf : forall pre post, begins pre (flat_all children ++ post) =
                 map fst (preorder_all children (size_of pre)) ++ begins (pre ++ flat_all children) post).
  { induction children as [|c l IHl]; intros pre' post'; [by rewrite app_nil_r|].
    apply Forall_cons in IH as [IHc IH]. cbn [forallb] in Hc. apply andb_true_iff in Hc as [Hc1 Hc2].
    rewrite flat_all_cons, <- app_assoc, IHc by done. cbn [preorder_all]. rewrite map_app, IHl, size_of_app by done.
    by rewrite <- !app_assoc. }
  rewrite flat_node, preorder_node. unfold header, children_offset. cbn [tree_name tree_attrs tree_children app begins map fst].
  f_equal. rewrite <- !app_assoc, begins_attrs, Hf by done. cbn [app begins]. unfold header. cbn [tree_name tree_attrs].
  rewrite !size_of_app, !size_of_cons. change (size_of []) with 0. rewrite Z.add_0_r, <- Z.add_assoc.
  do 2 f_equal. by rewrite <- !app_assoc.
Qed.

(** Every node of the order lies below the root. *)
Lemma below_trans o t k o1 t1 k2 o2 t2 : below o t k o1 t1 -> below o1 t1 k2 o2 t2 -> below o t (k + k2) o2 t2.
Proof.
  intros H. induction 1 as [|k3 o3 t3 o4 t4 _ IH Hc]; [by rewrite Z.add_0_r|].
  rewrite Z.add_assoc. by eapply below_child.
Qed.

Lemma preorder_below t : forall o o' t', In (o', t') (preorder t o) -> exists k, below o t k o' t'.
Proof.
  induction t as [name attrs children IH] using tree_induction. intros o o' t'. rewrite preorder_node.
  set (p := Node name attrs children). intros [[= <- <-]|H]; [exists 0; constructor|].
  assert (G : forall l1 l2, children = l1 ++ l2 -> In (o', t') (preorder_all l2 (children_offset o p + size_of (flat_all l1))) ->
          exists k, below o p k o' t').
  { intros l1 l2. revert l1. induction l2 as [|c l2 IHl]; intros l1 E Hi; [done|]. cbn [preorder_all] in Hi.
    apply in_app_iff in Hi as [Hi|Hi].
    - rewrite E in IH. apply Forall_app in IH as [_ IH]. apply Forall_cons in IH as [IHc _].
      destruct (IHc _ _ _ Hi) as [k Hk]. exists (0 + 1 + k). eapply below_trans; [|exact Hk].
      eapply below_child; [constructor|]. by exists l1, l2.
    - rewrite <- Z.add_assoc, <- size_of_app in Hi. apply (IHl (l1 ++ [c])); [by rewrite <- app_assoc|].
      by rewrite flat_all_app, flat_all_cons, app_nil_r. }
  apply (G [] children); [done|]. change (size_of (flat_all [])) with 0. by rewrite Z.add_0_r.
Qed.

Section Scan.
Context {root : tree} (Hroot : tree_ok root = true).
Context {s : dtb} {strings : list Z} {ds dn total : Z}.
Context (B : blob s (flat root) strings ds dn total).
Context (fuel : nat) (Hfuel : total < Z.of_nat fuel).
#[local] Abbreviation SF := (struct_fuel B fuel Hfuel).

Lemma root_at : node_at (flat root) 0 root.
Proof. exists [], []. by rewrite app_nil_r. Qed.

(** The first node with a result. *)
Fixpoint scan_result (f : Z → tree → option Z) (nodes : list (Z * tree)) : Z :=
  match nodes with
  | [] => - FDT_ERR_NOTFOUND
  | (o, t) :: nodes' => match f o t with Some v => v | None => scan_result f nodes' end
  end.

Lemma reads_scan_loop test f nodes pre post n :
  (forall o t, In (o, t) nodes -> reads s (test o) (f o t)) ->
  flat root = pre ++ post -> map fst nodes = begins pre post -> (length post < n)%nat ->
  reads s
    (let r := next_node_spec pre post None in
     if 0 <=? fst r then
       t <- test (fst r) ;; match t with Some v => ret v | None => scan_nodes fuel n (fst r) test end
     else ret (fst r))%sbi
    (scan_result f nodes).
Proof.
  revert nodes pre n. induction post as [|t post IH]; intros nodes pre n Hf E Hm Hn; cbn [length] in Hn.
  { destruct nodes; [apply reads_ret|done]. }
  assert (E' : flat root = (pre ++ [t]) ++ post) by (by rewrite <- app_assoc).
  destruct t as [name| |nameoff v|]; cbn [next_node_spec begins] in *; [|apply IH; [done|done|done|lia]..].
  cbn [fst fmap option_fmap option_map]. cbv zeta. rewrite (proj2 (Z.leb_le 0 _)) by apply size_of_nonneg.
  destruct nodes as [|[o t] nodes]; [done|]. cbn [map fst] in Hm. injection Hm as -> Hm. cbn [scan_result].
  eapply reads_bind; [apply Hf; by left|].
  destruct (f (size_of pre) t) as [v|]; [apply reads_ret|]. destruct n as [|n]; [lia|]. cbn [scan_nodes].
  eapply reads_bind; [by eapply (reads_next_node B fuel SF)|].
  apply IH; [intros; apply Hf; by right|done|done|lia].
Qed.

(** A search over the whole tree. *)
Lemma reads_scan test f start :
  start < 0 ->
  (forall o t, In (o, t) (preorder root 0) -> node_at (flat root) o t -> reads s (test o) (f o t)) ->
  reads s (scan_nodes fuel fuel start test) (scan_result f (preorder root 0)).
Proof.
  intros Hs Hf. assert (Ht := blob_total_range B).
  assert (exists n, fuel = S n) as [n En] by (destruct fuel; [lia|eauto]). rewrite En at 2. cbn [scan_nodes].
  eapply reads_bind; [by apply (reads_first_node B fuel SF)|].
  apply (reads_scan_loop test f (preorder root 0) [] (flat root) n); [|done| |].
  - intros o t H. apply Hf; [done|]. destruct (preorder_below _ _ _ _ H) as [k Hk]. eapply below_node_at; [apply root_at|exact Hk].
  - assert (H := begins_tree root Hroot [] []). rewrite app_nil_r in H. rewrite H. cbn [begins]. by rewrite app_nil_r.
  - assert (H1 := post_fuel fuel SF [] (flat root) eq_refl). assert (H2 := length_size (flat root)).
    assert (H3 := blob_struct_range B). lia.
Qed.

End Scan.

(** ** Cells, phandles and compatible strings *)

(** The [i]-th big-endian word of a value. *)
Definition cell (v : list Z) (i : nat) : Z :=
  match drop (4 * i) v with
  | b0 :: b1 :: b2 :: b3 :: _ => ((b0 * 256 + b1) * 256 + b2) * 256 + b3
  | _ => 0
  end.

Lemma reads_cell s data v i : at_offset s data v -> (4 * i + 4 <= length v)%nat ->
  reads s (fdt32_ld (data + 4 * Z.of_nat i)) (cell v i).
Proof.
  intros Ha Hl. assert (Hd := length_drop v (4 * i)).
  assert (Hb : forall j b, drop (4 * i) v !! j = Some b -> reads s (load (data + 4 * Z.of_nat i + Z.of_nat j)) b).
  { intros j b Hj. rewrite lookup_drop in Hj.
    replace (data + 4 * Z.of_nat i + Z.of_nat j) with (data + Z.of_nat (4 * i + j)) by lia. by eapply load_at. }
  unfold cell. destruct (drop (4 * i) v) as [|b0 [|b1 [|b2 [|b3 l]]]]; cbn [length] in Hd; try lia.
  unfold fdt32_ld. eapply reads_bind; [rewrite <- (Z.add_0_r (data + _)); by apply (Hb O)|].
  eapply reads_bind; [by apply (Hb 1%nat)|]. eapply reads_bind; [by apply (Hb 2%nat)|].
  eapply reads_bind; [by apply (Hb 3%nat)|]. apply reads_ret.
Qed.

Lemma cell_range v i : Forall is_byte v -> 0 <= cell v i < 2 ^ 32.
Proof.
  intros H. unfold cell. assert (Hd := Forall_drop _ (4 * i) _ H).
  destruct (drop (4 * i) v) as [|b0 [|b1 [|b2 [|b3 l]]]]; try lia.
  rewrite !Forall_cons in Hd. destruct Hd as (H0 & H1 & H2 & H3 & _). unfold is_byte in *. lia.
Qed.

(** A property that holds one cell. *)
Definition one_cell (strings name : list Z) (t : tree) : option Z :=
  match attr_value strings name (tree_attrs t) with
  | Some v => if (length v =? 4)%nat then Some (cell v 0) else None
  | None => None
  end.

Definition phandle_of (strings : list Z) (t : tree) : Z :=
  match one_cell strings (chars "phandle") t with
  | Some c => c
  | None => default 0 (one_cell strings (chars "linux,phandle") t)
  end.

(** A list of strings, as a property holds it. *)
Definition string_list (l : list (list Z)) : list Z := concat (map (λ x, x ++ [0]) l).

(** The strings of a value; what follows the last zero is left out. *)
Fixpoint split_strings (n : nat) (v : list Z) : list (list Z) :=
  match n with
  | O => []
  | S n' => match position 0 v with Some i => take i v :: split_strings n' (drop (S i) v) | None => [] end
  end.

Section Lists.
Context (s : dtb).

Lemma reads_memcmp_step n p q a b l1 l2 c :
  holds s p (a :: l1) -> holds s q (b :: l2) ->
  (if a =? b then reads s (memcmp_loop n (padd p 1) (padd q 1)) c else c = a - b) ->
  reads s (memcmp_loop (S n) p q) c.
Proof.
  intros Hp Hq H. cbn [memcmp_loop]. eapply reads_bind; [exact (str_head _ _ _ _ Hp)|].
  eapply reads_bind; [exact (str_head _ _ _ _ Hq)|]. destruct (a =? b); [exact H|]. rewrite H. apply reads_ret.
Qed.

(** Two strings up to their zeros. *)
Lemma reads_memcmp_strings l1 l2 p q :
  nonzero l1 -> nonzero l2 -> holds s p (l1 ++ [0]) -> holds s q (l2 ++ [0]) ->
  exists c, reads s (memcmp_loop (S (length l1)) p q) c /\ (c =? 0) = bool_decide (l1 = l2).
Proof.
  revert l2 p q. induction l1 as [|a l1 IH]; intros [|b l2] p q H1 H2 Hp Hq; cbn [app length] in *.
  - exists 0. split; [|done]. by apply (reads_memcmp_step _ _ _ 0 0 [] [] _ Hp Hq).
  - apply Forall_cons in H2 as [Hb _]. exists (0 - b). split.
    + apply (reads_memcmp_step _ _ _ _ _ _ _ _ Hp Hq). by rewrite (proj2 (Z.eqb_neq 0 b)).
    + rewrite bool_decide_eq_false_2 by done. apply Z.eqb_neq. lia.
  - apply Forall_cons in H1 as [Ha _]. exists (a - 0). split.
    + apply (reads_memcmp_step _ _ _ _ _ _ _ _ Hp Hq). by rewrite (proj2 (Z.eqb_neq a 0)).
    + rewrite bool_decide_eq_false_2 by done. apply Z.eqb_neq. lia.
  - apply Forall_cons in H1 as [Ha H1]. apply Forall_cons in H2 as [Hb H2]. destruct (Z.eqb_spec a b) as [->|Hab].
    + destruct (IH l2 (padd p 1) (padd q 1) H1 H2 (str_tail _ _ _ _ Hp) (str_tail _ _ _ _ Hq)) as (c & R & Ec).
      exists c. split; [apply (reads_memcmp_step _ _ _ _ _ _ _ _ Hp Hq); by rewrite Z.eqb_refl|].
      rewrite Ec. apply bool_decide_ext. split; [by intros ->|by intros [= ->]].
    + exists (a - b). split; [apply (reads_memcmp_step _ _ _ _ _ _ _ _ Hp Hq); by rewrite (proj2 (Z.eqb_neq a b))|].
      rewrite bool_decide_eq_false_2 by naive_solver. apply Z.eqb_neq. lia.
Qed.

Lemma holds_string_list p x l : holds s p (string_list (x :: l)) ->
  holds s p (x ++ [0]) /\ holds s (padd p (Z.of_nat (S (length x)))) (string_list l).
Proof.
  unfold string_list. cbn [map concat]. intros H. split; [by eapply holds_app_l|].
  assert (Hd := holds_drop _ _ _ (S (length x)) H). replace (S (length x)) with (length (x ++ [0])) in Hd at 2 by (rewrite length_app; cbn; lia).
  by rewrite drop_app_length in Hd.
Qed.

Lemma position_string x l : nonzero x -> position 0 (string_list (x :: l)) = Some (length x).
Proof.
  intros H. unfold string_list. cbn [map concat]. rewrite <- app_assoc. cbn [app]. apply position_app.
  intros Hi. by apply (proj1 (List.Forall_forall _ _) H) in Hi.
Qed.

(** The search of a list of strings; every string of it is looked at only up to
    its own zero. *)
Lemma reads_stringlist_loop l str q p n :
  Forall nonzero l -> nonzero str -> str <> [] -> holds s (At p) (string_list l) -> holds s q (str ++ [0]) ->
  Z.of_nat (length (string_list l)) < 2 ^ 31 -> (length l < n)%nat ->
  reads s (stringlist_loop n p (Z.of_nat (length (string_list l))) q (Z.of_nat (length str))) (bool_decide (str ∈ l)).
Proof.
  intros Hl Hs Hne. revert p n. induction Hl as [|x l Hx Hl IH]; intros p n Hp Hq Hb Hn;
    (destruct n as [|n]; [cbn in Hn; lia|]); cbn [stringlist_loop].
  - change (string_list []) with (@nil Z). cbn [length]. destruct str as [|c str]; [done|].
    cbn [length]. rewrite (proj2 (Z.leb_gt _ (Z.of_nat 0))) by lia. apply reads_ret.
  - destruct (holds_string_list _ _ _ Hp) as [Hp1 Hp2].
    assert (El : length (string_list (x :: l)) = (S (length x) + length (string_list l))%nat).
    { unfold string_list. cbn [map concat]. rewrite !length_app. cbn. lia. }
    destruct (Z.leb_spec (Z.of_nat (length str)) (Z.of_nat (length (string_list (x :: l))))) as [Hle|Hgt].
    + destruct (reads_memcmp_strings str x q (At p) Hs Hx Hq Hp1) as (c & R & Ec).
      eapply reads_bind.
      { unfold memcmp. replace (Z.to_nat (Z.of_nat (length str) + 1)) with (S (length str)) by lia. exact R. }
      rewrite Ec. destruct (bool_decide_reflect (str = x)) as [->|Hxs].
      * rewrite bool_decide_eq_true_2 by left. apply reads_ret.
      * rewrite u64_small by (unfold is_u64; lia).
        eapply reads_bind; [apply (reads_memchr s 0 (string_list (x :: l))); [exact Hp|done]|]. rewrite position_string by done. cbn [fmap option_fmap option_map].
        replace (Z.of_nat (length (string_list (x :: l))) - (Z.of_nat (length x) + 1)) with (Z.of_nat (length (string_list l))) by lia.
        rewrite s32_small by lia.
        replace (bool_decide (str ∈ x :: l)) with (bool_decide (str ∈ l)) by (apply bool_decide_ext; rewrite elem_of_cons; naive_solver).
        apply IH; [|done|lia|cbn in Hn; lia].
        cbn [padd] in Hp2. by replace (p + Z.of_nat (length x) + 1) with (p + Z.of_nat (S (length x))) by lia.
    + rewrite bool_decide_eq_false_2; [apply reads_ret|]. intros H. apply list_elem_of_split in H as (l1 & l2 & E).
      rewrite E in Hgt. unfold string_list in Hgt. rewrite map_app, concat_app, length_app in Hgt. cbn [map concat] in Hgt.
      rewrite !length_app in Hgt. lia.
Qed.

End Lists.

(** The strings of a list that ends with a zero. *)
Definition strings_of (v : list Z) : list (list Z) := split_strings (length v) v.

Lemma split_strings_nonzero n v : Forall nonzero (split_strings n v).
Proof.
  revert v. induction n as [|n IH]; intros v; cbn [split_strings]; [constructor|].
  destruct (position 0 v) as [i|] eqn:E; constructor; [|apply IH].
  apply position_some in E as (_ & Hn & _). apply List.Forall_forall. intros c Hc ->. contradiction.
Qed.

Definition compatible_list (strings : list Z) (t : tree) : option (list (list Z)) :=
  strings_of <$> attr_value strings (chars "compatible") (tree_attrs t).

(** The node answers to a compatible string. *)
Definition compatible_with (strings c : list Z) (t : tree) : bool :=
  match compatible_list strings t with Some l => bool_decide (c ∈ l) | None => false end.

(** Its [compatible] property, if any, is a list of strings. *)
Definition compatible_ok (strings : list Z) (t : tree) : bool :=
  match attr_value strings (chars "compatible") (tree_attrs t) with
  | Some v => bool_decide (string_list (strings_of v) = v)
  | None => true
  end.

(** A string that code asks for. *)
Definition text_ok (total : Z) (l : list Z) : Prop := nonzero l /\ Z.of_nat (length l) <= total.

Lemma chars_nonzero str : Forall (λ a, nat_of_ascii a <> O) (list_ascii_of_string str) -> nonzero (chars str).
Proof. unfold chars, nonzero. rewrite Forall_map. intros H. eapply Forall_impl; [exact H|]. cbn. lia. Qed.

Lemma string_list_length l : (length l <= length (string_list l))%nat.
Proof. induction l as [|x l IH]; [done|]. unfold string_list in *. cbn [map concat length]. rewrite !length_app. cbn. lia. Qed.

Section Searches.
Context {root : tree} (Hroot : tree_ok root = true).
Context {s : dtb} {strings : list Z} {ds dn total : Z}.
Context (B : blob s (flat root) strings ds dn total).

(** The names the code looks for fit into the blob: its header alone has 40 bytes. *)
Lemma total_36 : 36 <= total.
Proof. assert (H := blob_struct_range B). lia. Qed.

Context (fuel : nat) (Hfuel : total < Z.of_nat fuel).

Lemma reads_one_cell o t name : node_at (flat root) o t -> nonzero name -> Z.of_nat (length name) <= total ->
  exists r, reads s (fdt_getprop fuel o (Cst name 0)) r /\
  match word_prop r with
  | Some php => exists c, one_cell strings name t = Some c /\ reads s (fdt32_ld php) c
  | None => one_cell strings name t = None
  end.
Proof.
  intros Hn Hz Hl. assert (R := reads_attr_lit B fuel Hfuel o t name Hn Hz Hl). unfold one_cell.
  destruct (attr_value strings name (tree_attrs t)) as [v|]; [|by eexists].
  destruct R as (data & R & Ha & Hv & _). exists (Some data, Z.of_nat (length v)). split; [exact R|].
  unfold word_prop. cbn [fst snd]. destruct (Nat.eqb_spec (length v) 4) as [El|Hne].
  - rewrite El. exists (cell v 0). split; [done|]. rewrite <- (Z.add_0_r data). change 0 with (4 * Z.of_nat 0) at 1.
    apply reads_cell; [exact Ha|lia].
  - rewrite (proj2 (Z.eqb_neq _ 4)) by lia. done.
Qed.

Lemma reads_get_phandle o t : node_at (flat root) o t -> reads s (fdt_get_phandle fuel o) (phandle_of strings t).
Proof.
  intros Hn. assert (H36 := total_36). unfold fdt_get_phandle, phandle_of.
  destruct (reads_one_cell o t (chars "phandle") Hn ltac:(by apply chars_nonzero; repeat constructor) ltac:(cbn; lia)) as (r & R & H1).
  eapply reads_bind; [exact R|]. destruct (word_prop r) as [php|].
  - destruct H1 as (c & -> & R1). eapply reads_bind; [apply reads_ret|]. exact R1.
  - rewrite H1.
    destruct (reads_one_cell o t (chars "linux,phandle") Hn ltac:(by apply chars_nonzero; repeat constructor) ltac:(cbn; lia)) as (r2 & R2 & H2).
    eapply reads_bind; [eapply reads_bind; [exact R2|apply reads_ret]|].
    destruct (word_prop r2) as [php|]; [destruct H2 as (c & -> & R3); exact R3|rewrite H2; apply reads_ret].
Qed.

(** The node with a phandle. *)
Lemma reads_by_phandle ph : 0 < ph < 2 ^ 32 - 1 ->
  reads s (fdt_node_offset_by_phandle fuel ph)
    (scan_result (λ o t, if phandle_of strings t =? ph then Some o else None) (preorder root 0)).
Proof.
  intros Hp. unfold fdt_node_offset_by_phandle.
  rewrite (proj2 (Z.eqb_neq ph 0)), (proj2 (Z.eqb_neq ph (2 ^ 32 - 1))) by lia. cbn [orb].
  apply (reads_probed B), (reads_scan Hroot B fuel Hfuel); [done|]. intros o t Hi Hn.
  eapply reads_bind; [by apply reads_get_phandle|]. apply reads_ret.
Qed.

(** A node that answers to a compatible string. *)
Lemma reads_check_compatible o t c : node_at (flat root) o t -> compatible_ok strings t = true ->
  text_ok total c -> c <> [] ->
  reads s (fdt_node_check_compatible fuel o (Cst c 0))
    (match compatible_list strings t with
     | Some l => if bool_decide (c ∈ l) then 0 else 1
     | None => - FDT_ERR_NOTFOUND
     end).
Proof.
  intros Hn Hok [Hz Hl] Hne. assert (H36 := total_36). assert (Ht := blob_total_range B).
  assert (R := reads_attr_lit B fuel Hfuel o t (chars "compatible") Hn ltac:(by apply chars_nonzero; repeat constructor) ltac:(cbn; lia)).
  unfold fdt_node_check_compatible, compatible_list, compatible_ok in *.
  destruct (attr_value strings (chars "compatible") (tree_attrs t)) as [v|]; cbn [fmap option_fmap option_map].
  - apply bool_decide_eq_true_1 in Hok. destruct R as (data & R & Ha & _ & Hv). eapply reads_bind; [exact R|].
    assert (Hs : reads s (fdt_stringlist_contains fuel data (Z.of_nat (length v)) (Cst c 0)) (bool_decide (c ∈ strings_of v))).
    { unfold fdt_stringlist_contains. eapply reads_bind; [by apply (reads_lit_strlen fuel Hfuel)|].
      rewrite s32_small by lia. rewrite <- Hok at 1.
      apply (reads_stringlist_loop s (strings_of v) c (Cst c 0)).
      - apply split_strings_nonzero.
      - done.
      - done.
      - rewrite Hok. by apply holds_at.
      - apply holds_cst.
      - rewrite Hok. lia.
      - assert (H := string_list_length (strings_of v)). rewrite Hok in H. lia. }
    eapply reads_bind; [exact Hs|]. destruct (bool_decide _); apply reads_ret.
  - eapply reads_bind; [exact R|]. apply reads_ret.
Qed.

Lemma reads_by_compatible c : text_ok total c -> c <> [] ->
  forallb (λ n, compatible_ok strings (snd n)) (preorder root 0) = true ->
  reads s (fdt_node_offset_by_compatible fuel (-1) (Cst c 0))
    (scan_result (λ o t, if compatible_with strings c t then Some o else None) (preorder root 0)).
Proof.
  intros Hc Hne Hok. apply (reads_probed B), (reads_scan Hroot B fuel Hfuel); [done|]. intros o t Hi Hn.
  eapply reads_bind; [apply (reads_check_compatible o t); [done| |done|done]; exact (proj1 (forallb_forall _ _) Hok _ Hi)|].
  unfold compatible_with. destruct (compatible_list strings t) as [l|]; [destruct (bool_decide _)|]; apply reads_ret.
Qed.

End Searches.

(** ** Lines of ancestors *)

(** From the parent up to the root. *)
Inductive lineage (root : tree) : Z → tree → list (Z * tree) → Prop :=
| lineage_root : lineage root 0 root []
| lineage_child o t up o' c : lineage root o t up -> child_of o t o' c -> lineage root o' c ((o, t) :: up).

Lemma lineage_below root o t up : lineage root o t up -> below 0 root (Z.of_nat (length up)) o t.
Proof.
  induction 1 as [|o t up o' c _ IH Hc]; [constructor|]. cbn [length].
  replace (Z.of_nat (S (length up))) with (Z.of_nat (length up) + 1) by lia. by eapply below_child.
Qed.

Lemma lineage_size root o t up : lineage root o t up -> 4 * Z.of_nat (length up) <= o.
Proof. induction 1 as [|o t up o' c _ IH Hc]; [done|]. apply child_of_later in Hc. cbn [length]. lia. Qed.

(** All nodes in document order, with their ancestors. *)
Fixpoint lineages (t : tree) (o : Z) (up : list (Z * tree)) : list (Z * tree * list (Z * tree)) :=
  (o, t, up) ::
  match t with
  | Node name attrs children =>
      (fix go (l : list tree) (o1 : Z) : list (Z * tree * list (Z * tree)) :=
         match l with [] => [] | c :: l' => lineages c o1 ((o, t) :: up) ++ go l' (o1 + size_of (flat c)) end)
        children (o + size_of (BeginNode name :: attrs))
  end.

Definition lineages_all (up : list (Z * tree)) : list tree → Z → list (Z * tree * list (Z * tree)) :=
  fix go l o1 := match l with [] => [] | c :: l' => lineages c o1 up ++ go l' (o1 + size_of (flat c)) end.

Lemma lineages_node t o up : lineages t o up = (o, t, up) :: lineages_all ((o, t) :: up) (tree_children t) (children_offset o t).
Proof. destruct t as [name attrs children]. reflexivity. Qed.

Lemma lineages_preorder t : forall o up, map fst (lineages t o up) = preorder t o.
Proof.
  induction t as [name attrs children IH] using tree_induction. intros o up. rewrite lineages_node, preorder_node. cbn [map fst].
  f_equal. cbn [tree_children]. generalize (children_offset o (Node name attrs children)), ((o, Node name attrs children) :: up).
  induction IH as [|c l Hc _ IHl]; intros o1 up1; [done|]. cbn [lineages_all preorder_all]. by rewrite map_app, Hc, IHl.
Qed.

Lemma lineages_ok root t : forall o up, lineage root o t up -> Forall (λ n, lineage root (fst (fst n)) (snd (fst n)) (snd n)) (lineages t o up).
Proof.
  induction t as [name attrs children IH] using tree_induction. intros o up Hl. rewrite lineages_node. constructor; [exact Hl|].
  set (p := Node name attrs children) in *.
  assert (G : forall l1 l2, children = l1 ++ l2 ->
    Forall (λ n, lineage root (fst (fst n)) (snd (fst n)) (snd n)) (lineages_all ((o, p) :: up) l2 (children_offset o p + size_of (flat_all l1)))).
  { intros l1 l2. revert l1. induction l2 as [|c l2 IHl]; intros l1 E; cbn [lineages_all]; [constructor|].
    apply Forall_app. split.
    - rewrite E in IH. apply Forall_app in IH as [_ IH]. apply Forall_cons in IH as [IHc _]. apply IHc.
      eapply lineage_child; [exact Hl|]. by exists l1, l2.
    - rewrite <- Z.add_assoc, <- size_of_app.
      assert (H := IHl (l1 ++ [c])). rewrite flat_all_app, flat_all_cons, app_nil_r in H. apply H. by rewrite <- app_assoc. }
  assert (H := G [] children eq_refl). change (size_of (flat_all [])) with 0 in H. by rewrite Z.add_0_r in H.
Qed.

(** The first node with a property. *)
Definition find_node (f : tree → bool) (root : tree) : option (Z * tree * list (Z * tree)) :=
  snd <$> list_find (λ n, f (snd (fst n)) = true) (lineages root 0 []).

Lemma find_node_lineage f root o t up : find_node f root = Some (o, t, up) -> lineage root o t up /\ f t = true.
Proof.
  unfold find_node. destruct (list_find _ _) as [[i n]|] eqn:E; [|done]. intros [= ->].
  apply list_find_Some in E as (E & Hf & _). split; [|done].
  exact (Forall_lookup_1 _ _ _ _ (lineages_ok root root 0 [] (lineage_root root)) E).
Qed.

Lemma find_node_scan (f : tree → bool) (root : tree) :
  scan_result (λ o t, if f t then Some o else None) (preorder root 0) =
  match find_node f root with Some (o, _, _) => o | None => - FDT_ERR_NOTFOUND end.
Proof.
  unfold find_node. rewrite <- (lineages_preorder root 0 []). induction (lineages root 0 []) as [|[[o t] up] l IH]; [done|].
  cbn [map fst snd scan_result]. rewrite IH. clear IH. destruct (f t) eqn:Ef.
  - cbn. destruct (decide _) as [H|H]; [done|]. cbn in H. congruence.
  - cbn. destruct (decide _) as [H|H]; [cbn in H; congruence|].
    destruct (list_find _ l) as [[i [[o' t'] up']]|]; done.
Qed.

(** ** Writing a blob *)

(** A blob of version 17: the header, an empty memory reservation map, the
    structure block and the strings. *)
Definition build_bytes (tokens : list token) (strings : list Z) : list Z :=
  let size := size_of tokens + 4 in
  be32 FDT_MAGIC ++ be32 (56 + size + Z.of_nat (length strings)) ++ be32 56 ++ be32 (56 + size) ++ be32 40 ++
  be32 17 ++ be32 16 ++ be32 0 ++ be32 (Z.of_nat (length strings)) ++ be32 size ++ replicate 16 0 ++
  (encode_all tokens ++ be32 FDT_END) ++ strings.

Definition build (addr : Z) (tokens : list token) (strings : list Z) : dtb := Dtb addr (build_bytes tokens strings).

Lemma at_offset_middle s l1 l l2 o : dt_bytes s = l1 ++ l ++ l2 -> o = Z.of_nat (length l1) -> at_offset s o l.
Proof.
  intros E ->. split; [lia|]. intros i b Hi. rewrite E, Nat2Z.id. rewrite lookup_app_r by lia.
  replace (length l1 + i - length l1)%nat with i by lia. by apply lookup_app_l_Some.
Qed.

(** What is written is well-formed. *)
Lemma build_blob addr tokens strings :
  Z.land addr 7 = 0 -> Forall token_ok tokens -> 60 + size_of tokens + Z.of_nat (length strings) < INT_MAX ->
  blob (build addr tokens strings) tokens strings 56 (60 + size_of tokens) (60 + size_of tokens + Z.of_nat (length strings)).
Proof.
  intros Ha Ht Hs. assert (Hn := size_of_nonneg tokens).
  assert (E1 : 56 + (size_of tokens + 4) = 60 + size_of tokens) by lia.
  set (s := build addr tokens strings).
  assert (Eb : dt_bytes s = build_bytes tokens strings) by done. unfold build_bytes in Eb. cbv zeta in Eb. rewrite E1 in Eb.
  assert (Eb' : exists hd, length hd = 56%nat /\ dt_bytes s = hd ++ (encode_all tokens ++ be32 FDT_END) ++ strings /\
    exists f1 f2 f3, hd = be32 FDT_MAGIC ++ be32 (60 + size_of tokens + Z.of_nat (length strings)) ++ be32 56 ++ be32 (60 + size_of tokens) ++ f1 ++
      be32 17 ++ be32 16 ++ f2 ++ be32 (Z.of_nat (length strings)) ++ be32 (size_of tokens + 4) ++ f3 /\ length f1 = 4%nat /\ length f2 = 4%nat).
  { eexists (be32 FDT_MAGIC ++ be32 (60 + size_of tokens + Z.of_nat (length strings)) ++ be32 56 ++ be32 (60 + size_of tokens) ++ be32 40 ++
      be32 17 ++ be32 16 ++ be32 0 ++ be32 (Z.of_nat (length strings)) ++ be32 (size_of tokens + 4) ++ replicate 16 0).
    split; [by rewrite !length_app|]. split; [rewrite Eb; by rewrite <- !app_assoc|].
    by eexists (be32 40), (be32 0), (replicate 16 0). }
  clear Eb. destruct Eb' as (hd & Hl & Eb & f1 & f2 & f3 & Eh & L1 & L2).
  set (total := 60 + size_of tokens + Z.of_nat (length strings)) in *.
  assert (Hh : forall l1 l l2 o, hd = l1 ++ l ++ l2 -> o = Z.of_nat (length l1) -> at_offset s o l).
  { intros l1 l l2 o E Eo. eapply (at_offset_middle s l1 l (l2 ++ _)); [|exact Eo]. rewrite Eb, E, <- !app_assoc. done. }
  assert (L4 : forall v, length (be32 v) = 4%nat) by done.
  split; try done.
  - by eapply (Hh []).
  - eapply (Hh (be32 FDT_MAGIC)); [exact Eh|done].
  - eapply (Hh (be32 FDT_MAGIC ++ be32 total)); [rewrite Eh, <- !app_assoc; done|by rewrite length_app].
  - eapply (Hh (be32 FDT_MAGIC ++ be32 total ++ be32 56)); [rewrite Eh, <- !app_assoc; done|by rewrite !length_app].
  - eapply (Hh (be32 FDT_MAGIC ++ be32 total ++ be32 56 ++ be32 (60 + size_of tokens) ++ f1)); [rewrite Eh, <- !app_assoc; done|by rewrite !length_app, L1].
  - eapply (Hh (be32 FDT_MAGIC ++ be32 total ++ be32 56 ++ be32 (60 + size_of tokens) ++ f1 ++ be32 17)); [rewrite Eh, <- !app_assoc; done|by rewrite !length_app, L1].
  - eapply (Hh (be32 FDT_MAGIC ++ be32 total ++ be32 56 ++ be32 (60 + size_of tokens) ++ f1 ++ be32 17 ++ be32 16 ++ f2)); [rewrite Eh, <- !app_assoc; done|by rewrite !length_app, L1, L2].
  - eapply (Hh (be32 FDT_MAGIC ++ be32 total ++ be32 56 ++ be32 (60 + size_of tokens) ++ f1 ++ be32 17 ++ be32 16 ++ f2 ++ be32 (Z.of_nat (length strings)))); [rewrite Eh, <- !app_assoc; done|by rewrite !length_app, L1, L2].
  - unfold FDT_V17_SIZE, FDT_V16_SIZE, FDT_V3_SIZE, FDT_V2_SIZE, FDT_V1_SIZE. lia.
  - lia.
  - eapply at_offset_middle; [exact Eb|by rewrite Hl].
  - eapply (at_offset_middle s (hd ++ encode_all tokens ++ be32 FDT_END) strings []).
    + rewrite app_nil_r, Eb, <- !app_assoc. done.
    + rewrite !length_app, Hl, L4. unfold size_of. lia.
Qed.

(** ** Deciding that a tree can be written *)

Definition token_okb (t : token) : bool :=
  match t with
  | BeginNode name => forallb (λ b, (1 <=? b) && (b <? 256)) name
  | Prop_ nameoff value => (0 <=? nameoff) && (nameoff <? 2 ^ 31) && all_bytes value
  | _ => true
  end.

Lemma token_okb_ok t : token_okb t = true -> token_ok t.
Proof.
  destruct t as [name| |nameoff value|]; cbn [token_okb token_ok]; [| done| |done]; intros H.
  - apply List.Forall_forall. intros b Hb. assert (H1 := proj1 (forallb_forall _ _) H b Hb). unfold is_byte. cbn in H1. lia.
  - apply andb_true_iff in H as [H1 H2]. split; [lia|by apply all_bytes_ok].
Qed.

Lemma tokens_ok l : forallb token_okb l = true -> Forall token_ok l.
Proof. intros H. apply List.Forall_forall. intros t Ht. apply token_okb_ok. exact (proj1 (forallb_forall _ _) H t Ht). Qed.

(** ** Paths *)

(** [C19] A path finds the node that the tree has under it: on the blob of a tree,
    fdt_path_offset of an absolute path returns the offset of the node reached by
    going, component by component, to the first child of that name (a component
    without unit address also names a child that has one), and -FDT_ERR_NOTFOUND
    when some component has no such child. *)
Theorem path_offset_finds_node root s strings ds dn total fuel path :
  blob s (flat root) strings ds dn total -> tree_ok root = true -> total < Z.of_nat fuel ->
  path <> [] -> Forall component path -> Z.of_nat (length (path_text path)) <= total ->
  reads s (fdt_path_offset fuel (Cst (path_text path) 0)) (offset_of (resolve 0 root path)).
Proof. intros B Hok Hf Hne Hp Hl. by apply (reads_path_offset B fuel Hf root path). Qed.

(** A tree with a bus, a device behind it, and an alias to itself. *)
Definition demo_names : list Z := string_list (map chars ["a"; "reg"; "ranges"; "#address-cells"; "#size-cells"]%string).
Definition demo_tree : tree :=
  Node [] []
    [Node (chars "aliases") [Prop_ 0 (chars "a" ++ [0])] [];
     Node (chars "bus@1000") [Prop_ 6 (be32 0x2000 ++ be32 0x9000 ++ be32 0x100); Nop; Prop_ 13 (be32 1); Prop_ 28 (be32 1)]
       [Node (chars "dev") [Prop_ 2 (be32 0x1000 ++ be32 0x20)] [];
        Node (chars "dev@5000") [Prop_ 2 (be32 0x5000 ++ be32 0x20)] []]].
Definition demo_blob : dtb := build 8 (flat demo_tree) demo_names.

Lemma demo_is_blob :
  blob demo_blob (flat demo_tree) demo_names 56 (60 + size_of (flat demo_tree)) (60 + size_of (flat demo_tree) + Z.of_nat (length demo_names)).
Proof. apply build_blob; [done|apply tokens_ok; vm_compute; reflexivity|vm_compute; reflexivity]. Qed.

Definition demo_path : list (list Z) := [chars "bus"; chars "dev@5000"]%string.

Lemma demo_path_ok : Forall component demo_path.
Proof. repeat (constructor; [split; [discriminate|by repeat constructor]|]). constructor. Qed.

Lemma path_offset_finds_node_witness :
  path_text demo_path = chars "/bus/dev@5000" /\ reads demo_blob (fdt_path_offset 600 (Cst (chars "/bus/dev@5000") 0)) 148.
Proof.
  split; [reflexivity|].
  exact (path_offset_finds_node demo_tree demo_blob demo_names _ _ _ 600 demo_path demo_is_blob eq_refl eq_refl
           ltac:(discriminate) demo_path_ok ltac:(vm_compute; discriminate)).
Defined.

(** An alias that names itself is looked up for ever: the recursion through
    fdt_get_alias_namelen has no bound. *)
Section Alias.
Context {root : tree} (Hroot : tree_ok root = true).
Context {s : dtb} {strings : list Z} {ds dn total : Z}.
Context (B : blob s (flat root) strings ds dn total).
Context (fuel : nat) (Hfuel : total < Z.of_nat fuel).

Lemma reads_aliases n :
  reads s (path_offset_namelen fuel (S n) (lit "/aliases") 8) (offset_of (resolve 0 root [chars "aliases"])).
Proof.
  assert (H36 := total_36 B). cbn [path_offset_namelen]. apply (reads_probed B).
  assert (Hc : Forall component [chars "aliases"]) by (constructor; [split; [discriminate|by repeat constructor]|constructor]).
  assert (Hh : holds s (lit "/aliases") (path_text [chars "aliases"])) by (eapply holds_app_l, holds_cst).
  eapply reads_bind; [exact (str_head _ _ slash (chars "aliases") Hh)|]. rewrite Z.eqb_refl.
  apply (reads_path_loop B fuel Hfuel [chars "aliases"] fuel (lit "/aliases") 0 0 root Hc); [by rewrite padd_0|by apply root_at|lia|cbn; lia].
Qed.

Lemma alias_to_itself n o t name p :
  resolve 0 root [chars "aliases"] = Some (o, t) -> attr_value strings name (tree_attrs t) = Some (name ++ [0]) ->
  name <> [] -> nonzero name -> ~ In slash name -> holds s p (name ++ [0]) ->
  path_offset_namelen fuel n p (Z.of_nat (length name)) s = (Stop spinning, s).
Proof.
  intros Er Ea Hne Hz Hs. assert (Ht := blob_total_range B). assert (H36 := total_36 B).
  assert (Hn : node_at (flat root) o t).
  { eapply below_node_at; [by apply root_at|]. eapply resolve_below; [constructor|exact Er]. }
  assert (Hlen : Z.of_nat (length name) < 2 ^ 31 /\ (length name < fuel)%nat).
  { assert (R := reads_attr B fuel Hfuel o t (Cst [] 0) [] Hn).
    destruct (node_at_split _ _ Hn) as (pre & post & E & ->).
    assert (Hb := blob_struct_range B).
    assert (Hx : exists o', find_prop strings name (pre ++ [BeginNode (tree_name t)]) (tree_attrs t ++ flat_all (tree_children t) ++ EndNode :: post) = inr (o', name ++ [0])).
    { destruct Hn as (? & ? & _ & _ & Hok). assert (F := find_prop_attrs strings name (tree_attrs t) (pre ++ [BeginNode (tree_name t)]) (flat_all (tree_children t) ++ EndNode :: post) (attrs_ok _ Hok)).
      rewrite Ea in F. apply F. by destruct (tree_children t) as [|[]]. }
    destruct Hx as [o' Hx].
    destruct (found_value B fuel (pre ++ [BeginNode (tree_name t)]) (tree_attrs t ++ flat_all (tree_children t) ++ EndNode :: post) name o' _ ltac:(by rewrite <- app_assoc) Hx) as (_ & _ & H1 & H2).
    rewrite length_app in H1. cbn [length] in H1. lia. }
  destruct Hlen as [Hl1 Hl2].
  revert p. induction n as [|n IH]; intros p Hp; [done|]. cbn [path_offset_namelen]. unfold ro_probed.
  erewrite reads_bind_eq by apply (reads_probe B). rewrite (proj2 (Z.ltb_ge total 0)) by lia.
  destruct name as [|c0 name]; [done|]. cbn [app] in Hp.
  erewrite reads_bind_eq by exact (str_head _ _ _ _ Hp).
  rewrite (proj2 (Z.eqb_neq c0 slash)) by (intros ->; apply Hs; by left).
  assert (Hp' : holds s p (c0 :: name)) by (eapply holds_app_l; exact Hp).
  erewrite reads_bind_eq by (apply (reads_memchr s slash (c0 :: name)); [exact Hp'|rewrite u64_small by (unfold is_u64; lia); done]).
  rewrite (proj2 (position_none slash (c0 :: name)) Hs). cbv zeta. change (default ?d (Z.of_nat <$> None)) with d.
  unfold alias_of.
  assert (Rl : reads s (strlen fuel (lit "/aliases")) 8).
  { apply (reads_lit_strlen fuel Hfuel (chars "/aliases")); [by apply chars_nonzero; repeat constructor|cbn; lia]. }
  destruct n as [|n].
  { erewrite bind_Stop; [reflexivity|]. erewrite reads_bind_eq by exact Rl. reflexivity. }
  assert (Ral := reads_aliases n). rewrite Er in Ral. cbn [offset_of] in Ral.
  assert (R := reads_attr B fuel Hfuel o t p (c0 :: name) Hn Hp' Hl1). rewrite Ea in R. destruct R as (data & R & Hd & _).
  erewrite reads_bind_eq.
  2: { eapply reads_bind; [exact Rl|]. rewrite s32_small by lia. eapply reads_bind; [exact Ral|].
       rewrite (proj2 (Z.ltb_ge o 0)) by exact (node_at_nonneg _ _ Hn). eapply reads_bind; [exact R|]. apply reads_ret. }
  cbv iota beta. cbn [fst].
  assert (Hd' : holds s (At data) ((c0 :: name) ++ [0])) by (by apply holds_at).
  erewrite reads_bind_eq by (apply reads_strlen; [exact Hd'|exact Hz|exact Hl2]).
  rewrite s32_small by lia. erewrite bind_Stop; [reflexivity|]. apply IH. exact Hd'.
Qed.

End Alias.

(** The demo tree has such an alias. *)
Theorem alias_recursion_never_ends fuel : (600 <= fuel)%nat ->
  fdt_path_offset fuel (lit "a") demo_blob = (Stop spinning, demo_blob).
Proof.
  intros Hf. unfold fdt_path_offset, fdt_path_offset_namelen.
  assert (Ht : 60 + size_of (flat demo_tree) + Z.of_nat (length demo_names) = 296) by (vm_compute; reflexivity).
  erewrite reads_bind_eq by (apply reads_strlen; [apply holds_cst|by apply chars_nonzero; repeat constructor|cbn; lia]).
  change (s32 (Z.of_nat (length (chars "a")))) with (Z.of_nat (length (chars "a"))).
  assert (Hr : exists o t, resolve 0 demo_tree [chars "aliases"] = Some (o, t) /\ attr_value demo_names (chars "a") (tree_attrs t) = Some (chars "a" ++ [0]))
    by (vm_compute; eauto).
  destruct Hr as (o & t & Er & Ea).
  apply (alias_to_itself (root := demo_tree) eq_refl demo_is_blob fuel ltac:(rewrite Ht; lia) fuel o t (chars "a") (lit "a") Er Ea);
    [discriminate|by apply chars_nonzero; repeat constructor|cbn; intros [?|[]]; done|apply holds_cst].
Qed.

(** The way back: the path of the device that [demo_path] leads to. *)
Lemma demo_get_path :
  fdt_get_path 600 148 (replicate 32 0xff) 32 demo_blob =
  (Ret (0, chars "/bus@1000/dev@5000" ++ [0; 0xff] ++ replicate 12 0xff), demo_blob) /\
  fdt_get_path 600 148 (replicate 32 0xff) 10 demo_blob = (Ret (- FDT_ERR_NOSPACE, chars "/bus@1000/" ++ replicate 22 0xff), demo_blob).
Proof. split; vm_compute; reflexivity. Qed.

(** The functions that step through the strings of a value trust strnlen, which
    stops half way (Strings.strnlen_stops_half_way): one string is seen as
    several. *)
Definition one_string_tree : tree := Node [] [Prop_ 0 (chars "uart@10000000" ++ [0])] [].
Theorem stringlist_splits_string :
  fst (fdt_stringlist_count 200 0 (lit "a") (build 8 (flat one_string_tree) (chars "a" ++ [0]))) = Ret 3 /\
  fst (fdt_stringlist_search 200 0 (lit "a") (lit "uart@10000000") (build 8 (flat one_string_tree) (chars "a" ++ [0]))) =
    Ret (- FDT_ERR_NOTFOUND).
Proof. split; vm_compute; reflexivity. Qed.
