(* ===== verification/FdtRw.v ===== *)
(** * Flattened device trees: editing in place

    Models lib/utils/libfdt/fdt_rw.c and fdt_wip.c, the setters of libfdt.h they
    use and fdt_appendprop_addrrange of fdt_addresses.c (paths relative to
    src/cva6-sdk/opensbi).

    A write outside the bytes of the blob stops like a read does ([wild_access]);
    the bytes may reach beyond the total size, into the memory that
    fdt_open_into may take over.  Every caller of fdt_open_into opens a blob
    where it lies, and so does the model.  What a property is set to are bytes of
    the caller; an access beyond them stops too. *)

From Stdlib Require Import ZArith Lia String Ascii.
From stdpp Require Import base tactics list numbers strings.
From S2P Require Import Prelude Fdt FdtRo.

Definition FDT_ERR_EXISTS : Z := 2.
Definition FDT_ERR_BADLAYOUT : Z := 12.

(** ** Memory *)

Definition inside_blob (o n : Z) (bytes : list Z) : bool := (0 <=? o) && (o + n <=? Z.of_nat (length bytes)).

Definition overwrite (o : nat) (l bytes : list Z) : list Z := take o bytes ++ l ++ drop (o + length l) bytes.

(** Nothing is accessed when there are no bytes. *)
Definition read_bytes (o n : Z) : M dtb (list Z) :=
  λ s, if n =? 0 then (Ret [], s)
       else if inside_blob o n (dt_bytes s) then (Ret (take (Z.to_nat n) (drop (Z.to_nat o) (dt_bytes s))), s)
       else (Stop wild_access, s).

Definition write_bytes (o : Z) (l : list Z) : M dtb unit :=
  λ s, match l with
       | [] => (Ret tt, s)
       | _ => if inside_blob o (Z.of_nat (length l)) (dt_bytes s)
              then (Ret tt, Dtb (dt_addr s) (overwrite (Z.to_nat o) l (dt_bytes s)))
              else (Stop wild_access, s)
       end.

(** [size_t] lengths. *)
Definition memmove (dst src n : Z) : M dtb unit := (l <- read_bytes src (u64 n) ;; write_bytes dst l)%sbi.

Fixpoint read_chars (n : nat) (p : ptr) : M dtb (list Z) :=
  match n with
  | O => ret []
  | S n' => (c <- deref p ;; l <- read_chars n' (padd p 1) ;; ret (c :: l))%sbi
  end.
Definition memcpy_str (dst : Z) (p : ptr) (n : Z) : M dtb unit :=
  (l <- read_chars (Z.to_nat (u64 n)) p ;; write_bytes dst l)%sbi.

(** From the caller's bytes. *)
Definition memcpy_val (dst : Z) (val : list Z) (n : Z) : M dtb unit :=
  if Z.of_nat (length val) <? u64 n then stop wild_access else write_bytes dst (take (Z.to_nat (u64 n)) val).

Definition memset0 (dst n : Z) : M dtb unit :=
  λ s, if n =? 0 then (Ret tt, s)
       else if inside_blob dst n (dt_bytes s) then write_bytes dst (replicate (Z.to_nat n) 0) s
       else (Stop wild_access, s).

Definition be64 (v : Z) : list Z := be32 (v / 2 ^ 32) ++ be32 v.
Definition fdt32_st (o v : Z) : M dtb unit := write_bytes o (be32 v).
Definition fdt64_st (o v : Z) : M dtb unit := write_bytes o (be64 v).

(** The setters of the header, for the blob that starts at [base]. *)
Definition fdt_set_magic (base v : Z) : M dtb unit := fdt32_st base v.
Definition fdt_set_totalsize (base v : Z) : M dtb unit := fdt32_st (base + 4) v.
Definition fdt_set_off_dt_struct (base v : Z) : M dtb unit := fdt32_st (base + 8) v.
Definition fdt_set_off_dt_strings (base v : Z) : M dtb unit := fdt32_st (base + 12) v.
Definition fdt_set_off_mem_rsvmap (base v : Z) : M dtb unit := fdt32_st (base + 16) v.
Definition fdt_set_version (base v : Z) : M dtb unit := fdt32_st (base + 20) v.
Definition fdt_set_last_comp_version (base v : Z) : M dtb unit := fdt32_st (base + 24) v.
Definition fdt_set_boot_cpuid_phys (base v : Z) : M dtb unit := fdt32_st (base + 28) v.
Definition fdt_set_size_dt_strings (base v : Z) : M dtb unit := fdt32_st (base + 32) v.
Definition fdt_set_size_dt_struct (base v : Z) : M dtb unit := fdt32_st (base + 36) v.
Definition fdt_boot_cpuid_phys : M dtb Z := fdt32_ld 28.

Definition sizeof_fdt_reserve_entry : Z := 16.
(** [FDT_ALIGN(sizeof(struct fdt_header), 8)] *)
Definition header_aligned : Z := 40.

Section Rw.
Context (fuel : nat).

(** ** Checks *)

Definition fdt_blocks_misordered_ (mem_rsv_size struct_size : Z) : M dtb bool :=
  (off_mem_rsvmap <- fdt_off_mem_rsvmap ;;
   if off_mem_rsvmap <? header_aligned then ret true
   else
     off_dt_struct <- fdt_off_dt_struct ;;
     if off_dt_struct <? u32 (off_mem_rsvmap + mem_rsv_size) then ret true
     else
       off_dt_strings <- fdt_off_dt_strings ;;
       if off_dt_strings <? u32 (off_dt_struct + struct_size) then ret true
       else
         totalsize <- fdt_totalsize ;;
         size_dt_strings <- fdt_size_dt_strings ;;
         ret (totalsize <? u32 (off_dt_strings + size_dt_strings)))%sbi.

Definition fdt_rw_probe_ : M dtb Z :=
  ro_probed id
    (version <- fdt_version ;;
     if version <? 17 then ret (- FDT_ERR_BADVERSION)
     else
       size_dt_struct <- fdt_size_dt_struct ;;
       bad <- fdt_blocks_misordered_ sizeof_fdt_reserve_entry (s32 size_dt_struct) ;;
       if bad : bool then ret (- FDT_ERR_BADLAYOUT)
       else (if 17 <? version then fdt_set_version 0 17 else ret tt) ;;; ret 0)%sbi.

(** FDT_RW_PROBE *)
Definition rw_probed {A} (fail : Z → A) (c : M dtb A) : M dtb A :=
  (err <- fdt_rw_probe_ ;; if truthy err then ret (fail err) else c)%sbi.

Definition fdt_data_size_ : M dtb Z :=
  (off <- fdt_off_dt_strings ;; size <- fdt_size_dt_strings ;; ret (u32 (off + size)))%sbi.

(** ** Making room *)

Definition fdt_splice_ (p oldlen newlen : Z) : M dtb Z :=
  (dsize <- fdt_data_size_ ;;
   let soff := u64 p in
   if (oldlen <? 0) || (u64 (soff + oldlen) <? soff) || (dsize <? u64 (soff + oldlen)) then ret (- FDT_ERR_BADOFFSET)
   else if (p <? 0) || (u32 (dsize + newlen) <? u32 oldlen) then ret (- FDT_ERR_BADOFFSET)
   else
     totalsize <- fdt_totalsize ;;
     if totalsize <? u32 (dsize - oldlen + newlen) then ret (- FDT_ERR_NOSPACE)
     else memmove (p + newlen) (p + oldlen) (dsize - (p + oldlen)) ;;; ret 0)%sbi.

(** Go on unless there is an error. *)
Definition unless_err (m k : M dtb Z) : M dtb Z := (err <- m ;; if truthy err then ret err else k)%sbi.

(** A header field is increased. *)
Definition add_to (get : M dtb Z) (set : Z → M dtb unit) (delta : Z) : M dtb unit := (v <- get ;; set (u32 (v + delta)))%sbi.

Definition fdt_splice_mem_rsv_ (p oldn newn : Z) : M dtb Z :=
  let delta := s32 ((newn - oldn) * sizeof_fdt_reserve_entry) in
  unless_err (fdt_splice_ p (s32 (oldn * sizeof_fdt_reserve_entry)) (s32 (newn * sizeof_fdt_reserve_entry)))
    (add_to fdt_off_dt_struct (fdt_set_off_dt_struct 0) delta ;;;
     add_to fdt_off_dt_strings (fdt_set_off_dt_strings 0) delta ;;; ret 0)%sbi.

Definition fdt_splice_struct_ (p oldlen newlen : Z) : M dtb Z :=
  let delta := s32 (newlen - oldlen) in
  unless_err (fdt_splice_ p oldlen newlen)
    (add_to fdt_size_dt_struct (fdt_set_size_dt_struct 0) delta ;;;
     add_to fdt_off_dt_strings (fdt_set_off_dt_strings 0) delta ;;; ret 0)%sbi.

Definition fdt_del_last_string_ (name : ptr) : M dtb unit :=
  (len <- strlen fuel name ;; add_to fdt_size_dt_strings (fdt_set_size_dt_strings 0) (- s32 (len + 1)))%sbi.

Definition fdt_splice_string_ (newlen : Z) : M dtb Z :=
  (off <- fdt_off_dt_strings ;;
   size <- fdt_size_dt_strings ;;
   unless_err (fdt_splice_ (off + size) 0 newlen)
     (add_to fdt_size_dt_strings (fdt_set_size_dt_strings 0) newlen ;;; ret 0))%sbi.

(** The offset of the string and [*allocated]. *)
Definition fdt_find_add_string_ (name : ptr) : M dtb (Z * bool) :=
  (strtab <- fdt_off_dt_strings ;;
   len <- strlen fuel name ;;
   let len := s32 (len + 1) in
   size <- fdt_size_dt_strings ;;
   p <- fdt_find_string_ fuel strtab (s32 size) name ;;
   match p with
   | Some p => ret (s32 (p - strtab), false)
   | None =>
       size <- fdt_size_dt_strings ;;
       let new := strtab + size in
       err <- fdt_splice_string_ len ;;
       if truthy err then ret (err, false)
       else memcpy_str new name len ;;; ret (s32 (new - strtab), true)
   end)%sbi.

(** ** Memory reservations *)

Definition fdt_mem_rsv_w_ (n : Z) : M dtb Z := (off <- fdt_off_mem_rsvmap ;; ret (off + n * sizeof_fdt_reserve_entry))%sbi.

Definition fdt_add_mem_rsv (address size : Z) : M dtb Z :=
  rw_probed id
    (n <- fdt_num_mem_rsv fuel ;;
     re <- fdt_mem_rsv_w_ n ;;
     unless_err (fdt_splice_mem_rsv_ re 0 1)
       (fdt64_st re address ;;; fdt64_st (re + 8) size ;;; ret 0))%sbi.

Definition fdt_del_mem_rsv (n : Z) : M dtb Z :=
  (re <- fdt_mem_rsv_w_ n ;;
   rw_probed id
     (num <- fdt_num_mem_rsv fuel ;;
      if num <=? n then ret (- FDT_ERR_NOTFOUND) else fdt_splice_mem_rsv_ re 1 0))%sbi.

(** ** Properties *)

(** The error and [*prop]. *)
Definition fdt_resize_property_ (nodeoffset : Z) (name : ptr) (len : Z) : M dtb (Z * option Z) :=
  (r <- fdt_get_property fuel nodeoffset name ;;
   match r with
   | (None, oldlen) => ret (oldlen, None)
   | (Some prop, oldlen) =>
       err <- unless_err (fdt_splice_struct_ (prop_data prop) (FDT_TAGALIGN oldlen) (FDT_TAGALIGN len))
                (fdt32_st (prop_len prop) (u32 len) ;;; ret 0) ;;
       ret (err, Some prop)
   end)%sbi.

Definition fdt_add_property_ (nodeoffset : Z) (name : ptr) (len : Z) : M dtb (Z * option Z) :=
  (nextoffset <- fdt_check_node_offset_ fuel nodeoffset ;;
   if nextoffset <? 0 then ret (nextoffset, None)
   else
     r <- fdt_find_add_string_ name ;;
     let '(namestroff, allocated) := r in
     if namestroff <? 0 then ret (namestroff, None)
     else
       prop <- fdt_offset_ptr_ nextoffset ;;
       let proplen := s32 (sizeof_fdt_property + FDT_TAGALIGN len) in
       err <- fdt_splice_struct_ prop 0 proplen ;;
       if truthy err then
         (if allocated : bool then fdt_del_last_string_ name else ret tt) ;;; ret (err, Some prop)
       else
         fdt32_st prop FDT_PROP ;;;
         fdt32_st (prop_nameoff prop) namestroff ;;;
         fdt32_st (prop_len prop) (u32 len) ;;;
         ret (0, Some prop))%sbi.

Definition fdt_set_name (nodeoffset : Z) (name : ptr) : M dtb Z :=
  rw_probed id
    (r <- fdt_get_name fuel nodeoffset ;;
     match r with
     | (None, oldlen) => ret oldlen
     | (Some namep, oldlen) =>
         len <- strlen fuel name ;;
         let newlen := s32 len in
         unless_err (fdt_splice_struct_ namep (FDT_TAGALIGN (s32 (oldlen + 1))) (FDT_TAGALIGN (s32 (newlen + 1))))
           (memcpy_str namep name (s32 (newlen + 1)) ;;; ret 0)
     end)%sbi.

(** The error and [*prop_data]. *)
Definition fdt_setprop_placeholder (nodeoffset : Z) (name : ptr) (len : Z) : M dtb (Z * option Z) :=
  rw_probed (λ e, (e, None))
    (r <- fdt_resize_property_ nodeoffset name len ;;
     r <- (if fst r =? - FDT_ERR_NOTFOUND then fdt_add_property_ nodeoffset name len else ret r) ;;
     ret (fst r, if truthy (fst r) then None else prop_data <$> snd r))%sbi.

Definition fdt_setprop (nodeoffset : Z) (name : ptr) (val : list Z) (len : Z) : M dtb Z :=
  (r <- fdt_setprop_placeholder nodeoffset name len ;;
   match r with
   | (err, None) => ret err
   | (_, Some prop_data) => (if truthy len then memcpy_val prop_data val len else ret tt) ;;; ret 0
   end)%sbi.

Definition fdt_setprop_u32 (nodeoffset : Z) (name : ptr) (val : Z) : M dtb Z := fdt_setprop nodeoffset name (be32 val) 4.
Definition fdt_setprop_u64 (nodeoffset : Z) (name : ptr) (val : Z) : M dtb Z := fdt_setprop nodeoffset name (be64 val) 8.
Definition fdt_setprop_cell : Z → ptr → Z → M dtb Z := fdt_setprop_u32.
Definition fdt_setprop_string (nodeoffset : Z) (name : ptr) (str : list Z) : M dtb Z :=
  fdt_setprop nodeoffset name (str ++ [0]) (s32 (Z.of_nat (length str) + 1)).
Definition fdt_setprop_empty (nodeoffset : Z) (name : ptr) : M dtb Z := fdt_setprop nodeoffset name [] 0.

Definition fdt_appendprop (nodeoffset : Z) (name : ptr) (val : list Z) (len : Z) : M dtb Z :=
  rw_probed id
    (r <- fdt_get_property fuel nodeoffset name ;;
     match r with
     | (Some prop, oldlen) =>
         let newlen := s32 (len + oldlen) in
         unless_err (fdt_splice_struct_ (prop_data prop) (FDT_TAGALIGN oldlen) (FDT_TAGALIGN newlen))
           (fdt32_st (prop_len prop) (u32 newlen) ;;; memcpy_val (prop_data prop + oldlen) val len ;;; ret 0)
     | (None, _) =>
         r <- fdt_add_property_ nodeoffset name len ;;
         match r with
         | (err, None) => ret err
         | (err, Some prop) => if truthy err then ret err else memcpy_val (prop_data prop) val len ;;; ret 0
         end
     end)%sbi.

Definition fdt_appendprop_u32 (nodeoffset : Z) (name : ptr) (val : Z) : M dtb Z := fdt_appendprop nodeoffset name (be32 val) 4.
Definition fdt_appendprop_u64 (nodeoffset : Z) (name : ptr) (val : Z) : M dtb Z := fdt_appendprop nodeoffset name (be64 val) 8.
Definition fdt_appendprop_cell : Z → ptr → Z → M dtb Z := fdt_appendprop_u32.

Definition fdt_delprop (nodeoffset : Z) (name : ptr) : M dtb Z :=
  rw_probed id
    (r <- fdt_get_property fuel nodeoffset name ;;
     match r with
     | (None, len) => ret len
     | (Some prop, len) => fdt_splice_struct_ prop (s32 (sizeof_fdt_property + FDT_TAGALIGN len)) 0
     end)%sbi.

(** Of type [unsigned int]: the sum [UINT32_MAX + 1] wraps. *)
Definition UINT32_MAX : Z := 2 ^ 32 - 1.

Definition fdt_appendprop_addrrange (parent nodeoffset : Z) (name : ptr) (addr size : Z) : M dtb Z :=
  (addr_cells <- fdt_address_cells fuel parent ;;
   if addr_cells <? 0 then ret addr_cells
   else
     size_cells <- fdt_size_cells fuel parent ;;
     if size_cells <? 0 then ret size_cells
     else if (addr_cells =? 1) && ((UINT32_MAX <? addr) || (u64 (u32 (UINT32_MAX + 1) - addr) <? size)) then ret (- FDT_ERR_BADVALUE)
     else if negb ((addr_cells =? 1) || (addr_cells =? 2)) then ret (- FDT_ERR_BADNCELLS)
     else if (size_cells =? 1) && (UINT32_MAX <? size) then ret (- FDT_ERR_BADVALUE)
     else if negb ((size_cells =? 1) || (size_cells =? 2)) then ret (- FDT_ERR_BADNCELLS)
     else
       let data := (if addr_cells =? 1 then be32 addr else be64 addr) ++ (if size_cells =? 1 then be32 size else be64 size) in
       fdt_appendprop nodeoffset name data ((addr_cells + size_cells) * 4))%sbi.

(** ** Nodes *)

(** [while ((offset >= 0) && (depth >= 0)) offset = fdt_next_node(...);] *)
Fixpoint node_end_loop (n : nat) (offset depth : Z) : M dtb Z :=
  match n with
  | O => stop spinning
  | S n' =>
      (if (0 <=? offset) && (0 <=? depth) then
         r <- fdt_next_node fuel offset (Some depth) ;; node_end_loop n' (fst r) (depth_of (snd r))
       else ret offset)%sbi
  end.
Definition fdt_node_end_offset_ (offset : Z) : M dtb Z := node_end_loop fuel offset 0.

(** [do { offset = nextoffset; tag = fdt_next_tag(...); } while (...);] *)
Fixpoint after_props (n : nat) (nextoffset : Z) : M dtb Z :=
  match n with
  | O => stop spinning
  | S n' =>
      (let offset := nextoffset in
       t <- fdt_next_tag fuel offset ;;
       if (fst t =? FDT_PROP) || (fst t =? FDT_NOP) then after_props n' (snd t) else ret offset)%sbi
  end.

Definition fdt_add_subnode_namelen (parentoffset : Z) (name : ptr) (namelen : Z) : M dtb Z :=
  rw_probed id
    (offset <- fdt_subnode_offset_namelen fuel parentoffset name namelen ;;
     if 0 <=? offset then ret (- FDT_ERR_EXISTS)
     else if negb (offset =? - FDT_ERR_NOTFOUND) then ret offset
     else
       t <- fdt_next_tag fuel parentoffset ;;
       if negb (fst t =? FDT_BEGIN_NODE) then ret (- FDT_ERR_INTERNAL)
       else
         offset <- after_props fuel (snd t) ;;
         nh <- fdt_offset_ptr_ offset ;;
         let namesize := FDT_TAGALIGN (s32 (namelen + 1)) in
         let nodelen := s32 (FDT_TAGSIZE + namesize + FDT_TAGSIZE) in
         unless_err (fdt_splice_struct_ nh 0 nodelen)
           (fdt32_st nh FDT_BEGIN_NODE ;;;
            memset0 (nh + FDT_TAGSIZE) (u64 namesize) ;;;
            memcpy_str (nh + FDT_TAGSIZE) name namelen ;;;
            fdt32_st (nh + nodelen - FDT_TAGSIZE) FDT_END_NODE ;;;
            ret offset))%sbi.

Definition fdt_add_subnode (parentoffset : Z) (name : ptr) : M dtb Z :=
  (len <- strlen fuel name ;; fdt_add_subnode_namelen parentoffset name (s32 len))%sbi.

Definition fdt_del_node (nodeoffset : Z) : M dtb Z :=
  rw_probed id
    (endoffset <- fdt_node_end_offset_ nodeoffset ;;
     if endoffset <? 0 then ret endoffset
     else p <- fdt_offset_ptr_ nodeoffset ;; fdt_splice_struct_ p (s32 (endoffset - nodeoffset)) 0)%sbi.

(** ** The whole blob *)

(** [new] is where the packed blob starts. *)
Definition fdt_packblocks_ (new mem_rsv_size struct_size strings_size : Z) : M dtb unit :=
  (let mem_rsv_off := header_aligned in
   let struct_off := s32 (mem_rsv_off + mem_rsv_size) in
   let strings_off := s32 (struct_off + struct_size) in
   off <- fdt_off_mem_rsvmap ;;
   memmove (new + mem_rsv_off) off mem_rsv_size ;;;
   fdt_set_off_mem_rsvmap new mem_rsv_off ;;;
   off <- fdt_off_dt_struct ;;
   memmove (new + struct_off) off struct_size ;;;
   fdt_set_off_dt_struct new (u32 struct_off) ;;;
   fdt_set_size_dt_struct new (u32 struct_size) ;;;
   off <- fdt_off_dt_strings ;;
   memmove (new + strings_off) off strings_size ;;;
   fdt_set_off_dt_strings new (u32 strings_off) ;;;
   size <- fdt_size_dt_strings ;;
   fdt_set_size_dt_strings new size)%sbi.

(** [while (fdt_next_tag(fdt, struct_size, &struct_size) != FDT_END) ;] *)
Fixpoint struct_size_loop (n : nat) (struct_size : Z) : M dtb Z :=
  match n with
  | O => stop spinning
  | S n' =>
      (t <- fdt_next_tag fuel struct_size ;;
       if negb (fst t =? FDT_END) then struct_size_loop n' (snd t) else ret (snd t))%sbi
  end.

(** In place: [buf] is [fdt]. *)
Definition fdt_open_into (bufsize : Z) : M dtb Z :=
  (fdtend <- fdt_totalsize ;;
   ro_probed id
     (num <- fdt_num_mem_rsv fuel ;;
      let mem_rsv_size := s32 (s32 (num + 1) * sizeof_fdt_reserve_entry) in
      version <- fdt_version ;;
      size <- (if 17 <=? version then size <- fdt_size_dt_struct ;; ret (inr (s32 size))
               else if version =? 16 then
                 size <- struct_size_loop fuel 0 ;; ret (if size <? 0 then inl size else inr size)
               else ret (inl (- FDT_ERR_BADVERSION))) ;;
      match size with
      | inl err => ret err
      | inr struct_size =>
          bad <- fdt_blocks_misordered_ mem_rsv_size struct_size ;;
          if negb bad then
            r <- fdt_move bufsize ;;
            if truthy (fst r) then ret (fst r)
            else
              write_bytes 0 (default [] (snd r)) ;;;
              fdt_set_version 0 17 ;;;
              fdt_set_size_dt_struct 0 (u32 struct_size) ;;;
              fdt_set_totalsize 0 (u32 bufsize) ;;;
              ret 0
          else
            strings_size <- fdt_size_dt_strings ;;
            let newsize := s32 (header_aligned + mem_rsv_size + struct_size + strings_size) in
            if bufsize <? newsize then ret (- FDT_ERR_NOSPACE)
            else
              let overlap := (0 <? newsize) && (0 <? fdtend) in
              let tmp := if overlap then fdtend else 0 in
              if overlap && (bufsize <? tmp + newsize) then ret (- FDT_ERR_NOSPACE)
              else
                size <- fdt_size_dt_strings ;;
                fdt_packblocks_ tmp mem_rsv_size struct_size (s32 size) ;;;
                memmove 0 tmp newsize ;;;
                fdt_set_magic 0 FDT_MAGIC ;;;
                fdt_set_totalsize 0 (u32 bufsize) ;;;
                fdt_set_version 0 17 ;;;
                fdt_set_last_comp_version 0 16 ;;;
                cpu <- fdt_boot_cpuid_phys ;;
                fdt_set_boot_cpuid_phys 0 cpu ;;;
                ret 0
      end))%sbi.

Definition fdt_pack : M dtb Z :=
  rw_probed id
    (num <- fdt_num_mem_rsv fuel ;;
     let mem_rsv_size := s32 (s32 (num + 1) * sizeof_fdt_reserve_entry) in
     struct_size <- fdt_size_dt_struct ;;
     strings_size <- fdt_size_dt_strings ;;
     fdt_packblocks_ 0 mem_rsv_size (s32 struct_size) (s32 strings_size) ;;;
     size <- fdt_data_size_ ;;
     fdt_set_totalsize 0 size ;;;
     ret 0)%sbi.

(** ** Edits that keep every offset (fdt_wip.c) *)

Definition fdt_setprop_inplace_namelen_partial (nodeoffset : Z) (name : ptr) (namelen idx : Z) (val : list Z) (len : Z) : M dtb Z :=
  (r <- fdt_getprop_namelen fuel nodeoffset name namelen ;;
   match r with
   | (None, proplen) => ret proplen
   | (Some propval, proplen) =>
       if u32 proplen <? u32 (len + idx) then ret (- FDT_ERR_NOSPACE)
       else memcpy_val (propval + idx) val len ;;; ret 0
   end)%sbi.

Definition fdt_setprop_inplace (nodeoffset : Z) (name : ptr) (val : list Z) (len : Z) : M dtb Z :=
  (r <- fdt_getprop fuel nodeoffset name ;;
   match r with
   | (None, proplen) => ret proplen
   | (Some _, proplen) =>
       if negb (proplen =? len) then ret (- FDT_ERR_NOSPACE)
       else namelen <- strlen fuel name ;; fdt_setprop_inplace_namelen_partial nodeoffset name (s32 namelen) 0 val len
   end)%sbi.

Definition fdt_setprop_inplace_u32 (nodeoffset : Z) (name : ptr) (val : Z) : M dtb Z :=
  fdt_setprop_inplace nodeoffset name (be32 val) 4.
Definition fdt_setprop_inplace_u64 (nodeoffset : Z) (name : ptr) (val : Z) : M dtb Z :=
  fdt_setprop_inplace nodeoffset name (be64 val) 8.

(** [for (p = start; p < start + len; p++) *p = ...], [i] bytes done. *)
Fixpoint nop_region_loop (n : nat) (start i len : Z) : M dtb unit :=
  match n with
  | O => stop spinning
  | S n' =>
      (if i <? len then fdt32_st (start + i) FDT_NOP ;;; nop_region_loop n' start (i + 4) len else ret tt)%sbi
  end.
Definition fdt_nop_region_ (start len : Z) : M dtb unit := nop_region_loop fuel start 0 len.

Definition fdt_nop_property (nodeoffset : Z) (name : ptr) : M dtb Z :=
  (r <- fdt_get_property fuel nodeoffset name ;;
   match r with
   | (None, len) => ret len
   | (Some prop, len) => fdt_nop_region_ prop (s32 (len + sizeof_fdt_property)) ;;; ret 0
   end)%sbi.

Definition fdt_nop_node (nodeoffset : Z) : M dtb Z :=
  (endoffset <- fdt_node_end_offset_ nodeoffset ;;
   if endoffset <? 0 then ret endoffset
   else
     p <- fdt_offset_ptr nodeoffset 0 ;;
     match p with
     | None => stop wild_access
     | Some start => fdt_nop_region_ start (s32 (endoffset - nodeoffset)) ;;; ret 0
     end)%sbi.

End Rw.
