(* ===== verification/FdtLayout.v ===== *)
(** * Flattened device trees: blobs that can be edited

    The blobs that lib/utils/libfdt/fdt_rw.c works on (FdtRw.v): header, memory
    reservations, structure block and strings one after the other, then unused
    bytes up to the total size, then memory that does not belong to the blob.
    The lemmas say what the primitives of fdt_rw.c do to such a [layout]. *)

From Stdlib Require Import ZArith Lia String Ascii.
From stdpp Require Import base tactics list numbers strings.
From S2P Require Import Prelude Fdt FdtRo FdtTree FdtRw.

(** ** Bytes in place *)

Lemma overwrite_middle a m l b : length m = length l -> overwrite (length a) l (a ++ m ++ b) = a ++ l ++ b.
Proof.
  intros E. unfold overwrite. rewrite take_app_length. f_equal. f_equal.
  rewrite drop_app_ge by lia. rewrite drop_app_ge by lia. replace (_ - _ - _)%nat with O by lia. done.
Qed.

Lemma inside_middle a m b n : Z.of_nat (length m) = n -> inside_blob (Z.of_nat (length a)) n (a ++ m ++ b) = true.
Proof. intros E. unfold inside_blob. rewrite !length_app. apply andb_true_iff. split; apply Z.leb_le; lia. Qed.

Lemma write_middle addr a m b o l : o = Z.of_nat (length a) -> length m = length l ->
  write_bytes o l (Dtb addr (a ++ m ++ b)) = (Ret tt, Dtb addr (a ++ l ++ b)).
Proof.
  intros -> E. unfold write_bytes. cbn [dt_bytes dt_addr]. destruct l as [|c l].
  { by destruct m. }
  rewrite inside_middle, Nat2Z.id, overwrite_middle by lia. done.
Qed.

Lemma read_middle addr a m b o n : o = Z.of_nat (length a) -> n = Z.of_nat (length m) ->
  reads (Dtb addr (a ++ m ++ b)) (read_bytes o n) m.
Proof.
  intros -> ->. unfold reads, read_bytes. destruct (Z.eqb_spec (Z.of_nat (length m)) 0) as [E|E].
  { by destruct m. }
  cbn [dt_bytes]. rewrite inside_middle, !Nat2Z.id, drop_app_length, take_app_length by lia. done.
Qed.

(** A block slides to [length d] bytes after [a]. *)
Lemma slide addr a old c slack beyond (new : Z) :
  0 <= new <= Z.of_nat (length old + length slack) ->
  Z.of_nat (length (a ++ old ++ c ++ slack)) < 2 ^ 63 ->
  exists junk slack', Z.of_nat (length junk) = new /\ (length junk + length slack' = length old + length slack)%nat /\
    memmove (Z.of_nat (length a) + new) (Z.of_nat (length a) + Z.of_nat (length old)) (Z.of_nat (length c))
      (Dtb addr (a ++ old ++ c ++ slack ++ beyond)) = (Ret tt, Dtb addr (a ++ junk ++ c ++ slack' ++ beyond)).
Proof.
  intros Hn Hs. rewrite !length_app in Hs. set (x := old ++ c ++ slack).
  assert (Hx : length x = (length old + length c + length slack)%nat) by (subst x; rewrite !length_app; lia).
  exists (take (Z.to_nat new) x), (drop (Z.to_nat new + length c) x).
  rewrite length_take, length_drop. split; [lia|]. split; [lia|].
  unfold memmove. rewrite u64_small by (unfold is_u64; lia).
  replace (a ++ old ++ c ++ slack ++ beyond) with ((a ++ old) ++ c ++ (slack ++ beyond)) by (by rewrite <- !app_assoc).
  rewrite (reads_bind_eq _ _ _ c) by (apply read_middle; [rewrite length_app; lia|done]).
  replace ((a ++ old) ++ c ++ slack ++ beyond) with
    ((a ++ take (Z.to_nat new) x) ++ take (length c) (drop (Z.to_nat new) x) ++ (drop (Z.to_nat new + length c) x ++ beyond)).
  - rewrite write_middle; [|rewrite length_app, length_take; lia|rewrite length_take, length_drop; zify; lia].
    by rewrite <- !app_assoc.
  - rewrite <- drop_drop, <- !app_assoc. f_equal. rewrite (app_assoc (take (length c) _)), take_drop.
    rewrite (app_assoc (take (Z.to_nat new) x)), take_drop. subst x. by rewrite <- !app_assoc.
Qed.

(** ** The header *)

Definition words_bytes (ws : list Z) : list Z := concat (map be32 ws).

Lemma words_bytes_length ws : length (words_bytes ws) = (4 * length ws)%nat.
Proof. induction ws as [|w ws IH]; [done|]. unfold words_bytes in *. cbn [map concat length]. rewrite length_app, be32_length. lia. Qed.

Lemma words_bytes_split ws k w : ws !! k = Some w ->
  words_bytes ws = words_bytes (take k ws) ++ be32 w ++ words_bytes (drop (S k) ws).
Proof.
  intros E. rewrite <- (take_drop_middle ws k w E) at 1. unfold words_bytes. rewrite map_app, concat_app. done.
Qed.

Lemma reads_word addr ws rest k w o : ws !! k = Some w -> 0 <= w < 2 ^ 32 -> o = 4 * Z.of_nat k ->
  reads (Dtb addr (words_bytes ws ++ rest)) (fdt32_ld o) w.
Proof.
  intros E Hw ->. apply fdt32_at; [|done]. assert (Hk := lookup_lt_Some _ _ _ E).
  apply (at_offset_middle _ (words_bytes (take k ws)) _ (words_bytes (drop (S k) ws) ++ rest)).
  - cbn [dt_bytes]. rewrite (words_bytes_split ws k w E), <- !app_assoc. done.
  - rewrite words_bytes_length, length_take. lia.
Qed.

Lemma write_word addr ws rest k v o : (k < length ws)%nat -> o = 4 * Z.of_nat k ->
  fdt32_st o v (Dtb addr (words_bytes ws ++ rest)) = (Ret tt, Dtb addr (words_bytes (<[k:=v]> ws) ++ rest)).
Proof.
  intros Hk ->. destruct (lookup_lt_is_Some_2 ws k Hk) as [w E]. unfold fdt32_st.
  rewrite (words_bytes_split ws k w E), (words_bytes_split (<[k:=v]> ws) k v) by (by apply list_lookup_insert_eq).
  rewrite take_insert_ge, drop_insert_lt, <- !app_assoc by lia.
  apply write_middle; [|done]. rewrite words_bytes_length, length_take. lia.
Qed.

(** ** Layouts *)

Record layout : Type := Layout {
  ly_cpu : Z;
  ly_rsv : list (Z * Z);
  ly_struct : list Z;
  ly_strings : list Z;
  ly_slack : list Z;
  ly_beyond : list Z;
}.

Definition rsv_entry (e : Z * Z) : list Z := be64 (fst e) ++ be64 (snd e).
Definition rsv_bytes (l : list (Z * Z)) : list Z := concat (map rsv_entry l) ++ replicate 16 0.

Definition ly_ds (ly : layout) : Z := 40 + Z.of_nat (length (rsv_bytes (ly_rsv ly))).
Definition ly_dn (ly : layout) : Z := ly_ds ly + Z.of_nat (length (ly_struct ly)).
Definition ly_data (ly : layout) : Z := ly_dn ly + Z.of_nat (length (ly_strings ly)).
Definition ly_total (ly : layout) : Z := ly_data ly + Z.of_nat (length (ly_slack ly)).

Definition ly_words (ly : layout) : list Z :=
  [FDT_MAGIC; ly_total ly; ly_ds ly; ly_dn ly; 40; 17; 16; ly_cpu ly;
   Z.of_nat (length (ly_strings ly)); Z.of_nat (length (ly_struct ly))].
Definition ly_rest (ly : layout) : list Z :=
  rsv_bytes (ly_rsv ly) ++ ly_struct ly ++ ly_strings ly ++ ly_slack ly ++ ly_beyond ly.
Definition ly_bytes (ly : layout) : list Z := words_bytes (ly_words ly) ++ ly_rest ly.

(** The blob at an address. *)
Definition blob_of (addr : Z) (ly : layout) : dtb := Dtb addr (ly_bytes ly).

Definition entry_ok (e : Z * Z) : Prop := 0 <= fst e < 2 ^ 64 /\ 0 < snd e < 2 ^ 64.

Record layout_ok (addr : Z) (ly : layout) : Prop := {
  lo_aligned : Z.land addr 7 = 0;
  lo_small : ly_total ly < INT_MAX;
  lo_cpu : 0 <= ly_cpu ly < 2 ^ 32;
  lo_rsv : Forall entry_ok (ly_rsv ly);
}.

Definition with_struct (b : list Z) (slack : list Z) (ly : layout) : layout :=
  Layout (ly_cpu ly) (ly_rsv ly) b (ly_strings ly) slack (ly_beyond ly).
Definition with_strings (b : list Z) (slack : list Z) (ly : layout) : layout :=
  Layout (ly_cpu ly) (ly_rsv ly) (ly_struct ly) b slack (ly_beyond ly).

Definition with_slack (slack beyond : list Z) (ly : layout) : layout :=
  Layout (ly_cpu ly) (ly_rsv ly) (ly_struct ly) (ly_strings ly) slack beyond.
Definition with_rsv (rsv : list (Z * Z)) (slack : list Z) (ly : layout) : layout :=
  Layout (ly_cpu ly) rsv (ly_struct ly) (ly_strings ly) slack (ly_beyond ly).

Section Layouts.
Context {addr : Z} {ly : layout} (O : layout_ok addr ly).

Lemma ly_range : 40 <= ly_ds ly /\ ly_ds ly + Z.of_nat (length (ly_struct ly)) = ly_dn ly /\
  ly_dn ly + Z.of_nat (length (ly_strings ly)) = ly_data ly /\
  ly_data ly + Z.of_nat (length (ly_slack ly)) = ly_total ly /\ ly_total ly < 2 ^ 31 - 1.
Proof. assert (H := lo_small _ _ O). unfold INT_MAX in H. unfold ly_total, ly_data, ly_dn, ly_ds in *. lia. Qed.

Lemma ly_reads k w o : ly_words ly !! k = Some w -> 0 <= w < 2 ^ 32 -> o = 4 * Z.of_nat k -> reads (blob_of addr ly) (fdt32_ld o) w.
Proof. apply reads_word. Qed.

Lemma ly_reads_magic : reads (blob_of addr ly) fdt_magic FDT_MAGIC.
Proof. by apply (ly_reads 0). Qed.
Lemma ly_reads_totalsize : reads (blob_of addr ly) fdt_totalsize (ly_total ly).
Proof. assert (H := ly_range). apply (ly_reads 1); [done|lia|done]. Qed.
Lemma ly_reads_off_struct : reads (blob_of addr ly) fdt_off_dt_struct (ly_ds ly).
Proof. assert (H := ly_range). apply (ly_reads 2); [done|lia|done]. Qed.
Lemma ly_reads_off_strings : reads (blob_of addr ly) fdt_off_dt_strings (ly_dn ly).
Proof. assert (H := ly_range). apply (ly_reads 3); [done|lia|done]. Qed.
Lemma ly_reads_off_rsv : reads (blob_of addr ly) fdt_off_mem_rsvmap 40.
Proof. by apply (ly_reads 4). Qed.
Lemma ly_reads_version : reads (blob_of addr ly) fdt_version 17.
Proof. by apply (ly_reads 5). Qed.
Lemma ly_reads_last : reads (blob_of addr ly) fdt_last_comp_version 16.
Proof. by apply (ly_reads 6). Qed.
Lemma ly_reads_size_strings : reads (blob_of addr ly) fdt_size_dt_strings (Z.of_nat (length (ly_strings ly))).
Proof. assert (H := ly_range). apply (ly_reads 8); [done|lia|done]. Qed.
Lemma ly_reads_size_struct : reads (blob_of addr ly) fdt_size_dt_struct (Z.of_nat (length (ly_struct ly))).
Proof. assert (H := ly_range). apply (ly_reads 9); [done|lia|done]. Qed.

Lemma ly_reads_data_size : reads (blob_of addr ly) fdt_data_size_ (ly_data ly).
Proof.
  assert (H := ly_range). unfold fdt_data_size_. eapply reads_bind; [apply ly_reads_off_strings|].
  eapply reads_bind; [apply ly_reads_size_strings|]. rewrite u32_small by lia. unfold ly_data. apply reads_ret.
Qed.

(** The probes accept it. *)
Lemma ly_reads_probe : reads (blob_of addr ly) fdt_ro_probe_ (ly_total ly).
Proof.
  assert (H := ly_range). unfold fdt_ro_probe_.
  eapply reads_bind; [apply ly_reads_totalsize|]. eapply reads_bind; [reflexivity|]. cbv zeta.
  cbn [blob_of dt_addr]. rewrite (lo_aligned _ _ O). cbn [truthy Z.eqb negb].
  eapply reads_bind; [apply ly_reads_magic|]. rewrite Z.eqb_refl.
  eapply reads_bind; [apply ly_reads_version|]. change (17 <? FDT_FIRST_SUPPORTED_VERSION) with false. cbv iota.
  eapply reads_bind; [apply ly_reads_last|]. change (FDT_LAST_SUPPORTED_VERSION <? 16) with false. cbv iota.
  rewrite (proj2 (Z.ltb_lt (ly_total ly) INT_MAX)) by (unfold INT_MAX; lia). apply reads_ret.
Qed.

Lemma ly_reads_ordered n : 0 <= n <= ly_ds ly - 40 ->
  reads (blob_of addr ly) (fdt_blocks_misordered_ n (Z.of_nat (length (ly_struct ly)))) false.
Proof.
  intros Hn. assert (H := ly_range). unfold fdt_blocks_misordered_.
  eapply reads_bind; [apply ly_reads_off_rsv|]. change (40 <? header_aligned) with false. cbv iota.
  eapply reads_bind; [apply ly_reads_off_struct|]. rewrite u32_small by lia. rewrite (proj2 (Z.ltb_ge _ _)) by lia.
  eapply reads_bind; [apply ly_reads_off_strings|]. rewrite u32_small by lia. rewrite (proj2 (Z.ltb_ge _ _)) by lia.
  eapply reads_bind; [apply ly_reads_totalsize|]. eapply reads_bind; [apply ly_reads_size_strings|].
  rewrite u32_small by lia. rewrite (proj2 (Z.ltb_ge _ _)) by lia. apply reads_ret.
Qed.

Lemma ly_reads_rw_probe : reads (blob_of addr ly) fdt_rw_probe_ 0.
Proof.
  assert (H := ly_range). unfold fdt_rw_probe_, ro_probed. eapply reads_bind; [apply ly_reads_probe|].
  rewrite (proj2 (Z.ltb_ge _ 0)) by lia. eapply reads_bind; [apply ly_reads_version|].
  change (17 <? 17) with false. cbv iota. eapply reads_bind; [apply ly_reads_size_struct|].
  rewrite s32_small by lia. eapply reads_bind.
  { apply ly_reads_ordered. unfold ly_ds, rsv_bytes, sizeof_fdt_reserve_entry. rewrite length_app, length_replicate. lia. }
  cbv iota. eapply reads_bind; apply reads_ret.
Qed.

Lemma rw_probed_run {A} fail (c : M dtb A) : rw_probed fail c (blob_of addr ly) = c (blob_of addr ly).
Proof. unfold rw_probed. by rewrite (reads_bind_eq _ _ _ _ ly_reads_rw_probe). Qed.

Lemma ro_probed_run {A} fail (c : M dtb A) : ro_probed fail c (blob_of addr ly) = c (blob_of addr ly).
Proof.
  assert (H := ly_range). unfold ro_probed. rewrite (reads_bind_eq _ _ _ _ ly_reads_probe).
  by rewrite (proj2 (Z.ltb_ge _ 0)) by lia.
Qed.

End Layouts.

Lemma add_word addr ws rest k w o delta : ws !! k = Some w -> 0 <= w < 2 ^ 32 -> o = 4 * Z.of_nat k ->
  add_to (fdt32_ld o) (fdt32_st o) delta (Dtb addr (words_bytes ws ++ rest)) =
  (Ret tt, Dtb addr (words_bytes (<[k:=u32 (w + delta)]> ws) ++ rest)).
Proof.
  intros E Hw Ho. unfold add_to. rewrite (reads_bind_eq _ _ _ _ (reads_word addr ws rest k w o E Hw Ho)).
  apply write_word; [by eapply lookup_lt_Some|done].
Qed.

(** ** Making room *)

Section Splice.
Context {addr : Z} {ly : layout} (O : layout_ok addr ly).

Lemma splice_checks old new p : 0 <= old -> 0 <= p -> p + old <= ly_data ly -> 0 <= new < 2 ^ 31 ->
  ((old <? 0) || (u64 (u64 p + old) <? u64 p) || (ly_data ly <? u64 (u64 p + old))) = false /\
  ((p <? 0) || (u32 (ly_data ly + new) <? u32 old)) = (ly_data ly + new <? old) /\
  u32 (ly_data ly - old + new) = ly_data ly - old + new.
Proof.
  intros Ho Hp Hd Hn. assert (H := ly_range O). rewrite (u64_small p) by (unfold is_u64; lia).
  rewrite !(u64_small (p + old)) by (unfold is_u64; lia). rewrite !u32_small by lia.
  rewrite !(proj2 (Z.ltb_ge _ _)) by lia. done.
Qed.

(** Of [old ++ c] up to the end of the strings, [old] becomes [new] bytes. *)
Lemma splice_run a old c new :
  ly_bytes ly = a ++ old ++ c ++ ly_slack ly ++ ly_beyond ly ->
  Z.of_nat (length (a ++ old ++ c)) = ly_data ly ->
  0 <= new <= Z.of_nat (length old + length (ly_slack ly)) ->
  exists junk slack', Z.of_nat (length junk) = new /\ (length junk + length slack' = length old + length (ly_slack ly))%nat /\
    fdt_splice_ (Z.of_nat (length a)) (Z.of_nat (length old)) new (blob_of addr ly) =
    (Ret 0, Dtb addr (a ++ junk ++ c ++ slack' ++ ly_beyond ly)).
Proof.
  intros E Hd Hn. assert (H := ly_range O). rewrite !length_app in Hd.
  destruct (slide addr a old c (ly_slack ly) (ly_beyond ly) new Hn) as (junk & slack' & L1 & L2 & R).
  { rewrite !length_app. lia. }
  exists junk, slack'. split; [done|]. split; [done|]. unfold fdt_splice_.
  rewrite (reads_bind_eq _ _ _ _ (ly_reads_data_size O)).
  destruct (splice_checks (Z.of_nat (length old)) new (Z.of_nat (length a))) as (C1 & C2 & C3); [lia..|].
  rewrite C1, C2, (proj2 (Z.ltb_ge _ _)) by lia. rewrite (reads_bind_eq _ _ _ _ (ly_reads_totalsize O)).
  rewrite C3, (proj2 (Z.ltb_ge _ _)) by lia. unfold blob_of. rewrite E.
  replace (ly_data ly - (Z.of_nat (length a) + Z.of_nat (length old))) with (Z.of_nat (length c)) by lia.
  by rewrite (bind_Ret _ _ _ _ _ R).
Qed.

Lemma splice_full p old new : 0 <= old -> 0 <= p -> p + old <= ly_data ly ->
  old + Z.of_nat (length (ly_slack ly)) < new < 2 ^ 31 ->
  fdt_splice_ p old new (blob_of addr ly) = (Ret (- FDT_ERR_NOSPACE), blob_of addr ly).
Proof.
  intros Ho Hp Hd Hn. assert (H := ly_range O). unfold fdt_splice_.
  rewrite (reads_bind_eq _ _ _ _ (ly_reads_data_size O)).
  destruct (splice_checks old new p) as (C1 & C2 & C3); [lia..|].
  rewrite C1, C2, (proj2 (Z.ltb_ge _ _)) by lia. rewrite (reads_bind_eq _ _ _ _ (ly_reads_totalsize O)).
  by rewrite C3, (proj2 (Z.ltb_lt _ _)) by lia.
Qed.

(** The header of the same blob with other blocks. *)
Lemma struct_words b slack' d :
  Z.of_nat (length b) = Z.of_nat (length (ly_struct ly)) + d -> Z.of_nat (length slack') = Z.of_nat (length (ly_slack ly)) - d ->
  ly_words (with_struct b slack' ly) =
  [FDT_MAGIC; ly_total ly; ly_ds ly; u32 (ly_dn ly + d); 40; 17; 16; ly_cpu ly;
   Z.of_nat (length (ly_strings ly)); u32 (Z.of_nat (length (ly_struct ly)) + d)].
Proof.
  intros E1 E2. assert (H := ly_range O). rewrite !u32_small by lia. unfold ly_words.
  assert (Et : ly_total (with_struct b slack' ly) = ly_total ly).
  { unfold ly_total, ly_data, ly_dn, ly_ds. cbn [with_struct ly_rsv ly_struct ly_strings ly_slack]. lia. }
  assert (En : ly_dn (with_struct b slack' ly) = ly_dn ly + d).
  { unfold ly_dn, ly_ds. cbn [with_struct ly_rsv ly_struct]. lia. }
  rewrite Et, En. cbn [with_struct ly_cpu ly_strings ly_struct]. rewrite E1. done.
Qed.

(** In the structure block. *)
Lemma splice_struct_run A old C new :
  ly_struct ly = A ++ old ++ C -> 0 <= new <= Z.of_nat (length old + length (ly_slack ly)) ->
  exists junk slack', Z.of_nat (length junk) = new /\ (length junk + length slack' = length old + length (ly_slack ly))%nat /\
    fdt_splice_struct_ (ly_ds ly + Z.of_nat (length A)) (Z.of_nat (length old)) new (blob_of addr ly) =
    (Ret 0, blob_of addr (with_struct (A ++ junk ++ C) slack' ly)).
Proof.
  intros E Hn. assert (H := ly_range O). rewrite E, !length_app in H.
  set (a := words_bytes (ly_words ly) ++ rsv_bytes (ly_rsv ly) ++ A).
  assert (La : ly_ds ly + Z.of_nat (length A) = Z.of_nat (length a)).
  { subst a. rewrite !length_app, words_bytes_length. unfold ly_ds. cbn [length ly_words]. lia. }
  destruct (splice_run a old (C ++ ly_strings ly) new) as (junk & slack' & L1 & L2 & R).
  { unfold ly_bytes, ly_rest, a. rewrite E, <- !app_assoc. done. }
  { rewrite !length_app. lia. }
  { done. }
  exists junk, slack'. split; [done|]. split; [done|]. unfold fdt_splice_struct_, unless_err.
  rewrite La, (bind_Ret _ _ _ _ _ R). cbn [truthy Z.eqb negb]. unfold a. rewrite <- !app_assoc.
  rewrite s32_small by lia.
  erewrite bind_Ret by (eapply (add_word addr _ _ 9); [reflexivity|rewrite E, !length_app; lia|reflexivity]).
  erewrite bind_Ret by (eapply (add_word addr _ _ 3); [reflexivity|lia|reflexivity]).
  unfold ret, blob_of, ly_bytes. do 2 f_equal. unfold ly_rest.
  rewrite (struct_words (A ++ junk ++ C) slack' (new - Z.of_nat (length old))) by (rewrite ?E, ?length_app; lia).
  cbn [with_struct ly_rsv ly_struct ly_strings ly_slack ly_beyond]. by rewrite <- !app_assoc.
Qed.

Lemma splice_struct_full A old C new :
  ly_struct ly = A ++ old ++ C -> Z.of_nat (length old + length (ly_slack ly)) < new < 2 ^ 31 ->
  fdt_splice_struct_ (ly_ds ly + Z.of_nat (length A)) (Z.of_nat (length old)) new (blob_of addr ly) =
  (Ret (- FDT_ERR_NOSPACE), blob_of addr ly).
Proof.
  intros E Hn. assert (H := ly_range O). rewrite E, !length_app in H. unfold fdt_splice_struct_, unless_err.
  by rewrite (bind_Ret _ _ _ _ _ (splice_full (ly_ds ly + Z.of_nat (length A)) (Z.of_nat (length old)) new ltac:(lia) ltac:(lia) ltac:(lia) ltac:(lia))).
Qed.

(** A field of the structure block. *)
Lemma write_struct A m C l slack o :
  ly_struct ly = A ++ m ++ C -> length m = length l -> o = ly_ds ly + Z.of_nat (length A) -> ly_slack ly = slack ->
  write_bytes o l (blob_of addr ly) = (Ret tt, blob_of addr (with_struct (A ++ l ++ C) slack ly)).
Proof.
  intros E El -> <-. unfold blob_of, ly_bytes.
  assert (Ew : ly_words (with_struct (A ++ l ++ C) (ly_slack ly) ly) = ly_words ly).
  { unfold ly_words, ly_total, ly_data, ly_dn, ly_ds. cbn [with_struct ly_cpu ly_rsv ly_struct ly_strings ly_slack].
    rewrite E, !length_app, El. done. }
  rewrite Ew. unfold ly_rest. cbn [with_struct ly_rsv ly_struct ly_strings ly_slack ly_beyond]. rewrite E, <- !app_assoc.
  rewrite !(app_assoc (words_bytes _)), !(app_assoc (_ ++ rsv_bytes _)). apply write_middle; [|done].
  rewrite !length_app, words_bytes_length. unfold ly_ds. cbn [ly_words length]. lia.
Qed.

(** At the end of the strings. *)
Lemma splice_string_run new :
  0 <= new <= Z.of_nat (length (ly_slack ly)) ->
  exists junk slack', Z.of_nat (length junk) = new /\ (length junk + length slack' = length (ly_slack ly))%nat /\
    fdt_splice_string_ new (blob_of addr ly) = (Ret 0, blob_of addr (with_strings (ly_strings ly ++ junk) slack' ly)).
Proof.
  intros Hn. assert (H := ly_range O).
  set (a := words_bytes (ly_words ly) ++ rsv_bytes (ly_rsv ly) ++ ly_struct ly ++ ly_strings ly).
  assert (La : ly_dn ly + Z.of_nat (length (ly_strings ly)) = Z.of_nat (length a)).
  { subst a. rewrite !length_app, words_bytes_length. unfold ly_dn, ly_ds. cbn [length ly_words]. lia. }
  destruct (splice_run a [] [] new) as (junk & slack' & L1 & L2 & R).
  { unfold ly_bytes, ly_rest, a. rewrite <- !app_assoc. done. }
  { cbn [app]. rewrite app_nil_r. unfold ly_data. lia. }
  { done. }
  exists junk, slack'. split; [done|]. split; [done|]. unfold fdt_splice_string_, unless_err.
  rewrite (reads_bind_eq _ _ _ _ (ly_reads_off_strings O)), (reads_bind_eq _ _ _ _ (ly_reads_size_strings O)).
  rewrite La, (bind_Ret _ _ _ _ _ R). cbn [truthy Z.eqb negb app length] in *. unfold a. rewrite <- !app_assoc.
  erewrite bind_Ret by (eapply (add_word addr _ _ 8); [reflexivity|lia|reflexivity]).
  unfold ret, blob_of, ly_bytes. do 2 f_equal. unfold ly_rest.
  cbn [with_strings ly_rsv ly_struct ly_strings ly_slack ly_beyond]. rewrite <- !app_assoc. f_equal. f_equal.
  rewrite u32_small by lia. unfold ly_words, ly_total, ly_data, ly_dn, ly_ds.
  cbn [with_strings ly_cpu ly_rsv ly_struct ly_strings ly_slack insert list_insert]. rewrite length_app.
  repeat first [reflexivity|lia|f_equal].
Qed.

Lemma write_string A m l slack o :
  ly_strings ly = A ++ m -> length m = length l -> o = ly_dn ly + Z.of_nat (length A) -> ly_slack ly = slack ->
  write_bytes o l (blob_of addr ly) = (Ret tt, blob_of addr (with_strings (A ++ l) slack ly)).
Proof.
  intros E El -> <-. unfold blob_of, ly_bytes.
  assert (Ew : ly_words (with_strings (A ++ l) (ly_slack ly) ly) = ly_words ly).
  { unfold ly_words, ly_total, ly_data, ly_dn, ly_ds. cbn [with_strings ly_cpu ly_rsv ly_struct ly_strings ly_slack].
    rewrite E, !length_app, El. done. }
  rewrite Ew. unfold ly_rest. cbn [with_strings ly_rsv ly_struct ly_strings ly_slack ly_beyond]. rewrite E, <- !app_assoc.
  rewrite !(app_assoc (words_bytes _)), !(app_assoc (_ ++ rsv_bytes _)), !(app_assoc (_ ++ ly_struct _)).
  apply write_middle; [|done]. rewrite !length_app, words_bytes_length. unfold ly_dn, ly_ds. cbn [ly_words length]. lia.
Qed.

(** A string given back: its bytes stay behind as unused ones. *)
Lemma drop_string A m k :
  ly_strings ly = A ++ m -> k = Z.of_nat (length m) ->
  add_to fdt_size_dt_strings (fdt_set_size_dt_strings 0) (- k) (blob_of addr ly) =
  (Ret tt, blob_of addr (with_strings A (m ++ ly_slack ly) ly)).
Proof.
  intros E ->. assert (H := ly_range O). unfold blob_of, ly_bytes.
  rewrite (add_word addr _ _ 8 (Z.of_nat (length (ly_strings ly))) 32) by (first [reflexivity|lia]).
  unfold ly_rest. cbn [with_strings ly_rsv ly_struct ly_strings ly_slack ly_beyond]. rewrite E, <- !app_assoc. do 2 f_equal.
  rewrite E, length_app in H. rewrite length_app, u32_small by lia. f_equal.
  unfold ly_words, ly_total, ly_data, ly_dn, ly_ds.
  cbn [with_strings ly_cpu ly_rsv ly_struct ly_strings ly_slack insert list_insert]. rewrite E, !length_app.
  repeat first [reflexivity|lia|f_equal].
Qed.

(** ** Memory reservations *)

Lemma fdt64_at s o v : at_offset s o (be64 v) -> 0 <= v < 2 ^ 64 -> reads s (fdt64_ld o) v.
Proof.
  intros Ha Hv. apply at_offset_app in Ha as [H1 H2]. unfold fdt64_ld.
  assert (D := Z.div_mod v (2 ^ 32) ltac:(lia)). assert (B := Z.mod_pos_bound v (2 ^ 32) ltac:(lia)).
  eapply reads_bind; [apply fdt32_at; [exact H1|]|].
  { split; [apply Z.div_pos; lia|apply Z.div_lt_upper_bound; lia]. }
  assert (Eb : be32 v = be32 (v mod 2 ^ 32)).
  { unfold be32. assert (Em : forall a, 0 <= a <= 24 -> v mod 2 ^ 32 / 2 ^ a mod 2 ^ 8 = v / 2 ^ a mod 2 ^ 8).
    { intros a Hl. apply Z.bits_inj'. intros i Hi. destruct (Z.lt_ge_cases i 8).
      - rewrite !Z.mod_pow2_bits_low, !Z.div_pow2_bits, Z.mod_pow2_bits_low by lia. done.
      - rewrite !Z.mod_pow2_bits_high by lia. done. }
    change 256 with (2 ^ 8). rewrite !Em by lia. f_equal. f_equal. f_equal. f_equal.
    assert (E0 := Em 0 ltac:(lia)). change (2 ^ 0) with 1 in E0. rewrite !Z.div_1_r in E0. by rewrite E0. }
  rewrite Eb in H2. eapply reads_bind; [apply fdt32_at; [exact H2|lia]|].
  replace (v / 2 ^ 32 * 2 ^ 32 + v mod 2 ^ 32) with v by lia. apply reads_ret.
Qed.

Lemma rsv_entry_length e : length (rsv_entry e) = 16%nat.
Proof. done. Qed.

Lemma rsv_entries_length l : length (concat (map rsv_entry l)) = (16 * length l)%nat.
Proof. induction l as [|e l IH]; [done|]. cbn [map concat length]. rewrite length_app, rsv_entry_length. lia. Qed.

Lemma ly_ds_entries : ly_ds ly = 40 + 16 * (Z.of_nat (length (ly_rsv ly)) + 1).
Proof. unfold ly_ds, rsv_bytes. rewrite length_app, rsv_entries_length, length_replicate. lia. Qed.

Lemma rsv_at : at_offset (blob_of addr ly) 40 (rsv_bytes (ly_rsv ly)).
Proof. by apply (at_offset_middle _ (words_bytes (ly_words ly)) _ (ly_struct ly ++ ly_strings ly ++ ly_slack ly ++ ly_beyond ly)). Qed.

Lemma reads_mem_rsv i : 0 <= i <= Z.of_nat (length (ly_rsv ly)) -> reads (blob_of addr ly) (fdt_mem_rsv i) (Some (40 + i * 16)).
Proof.
  intros Hi. assert (H := ly_range O). assert (E := ly_ds_entries). unfold fdt_mem_rsv.
  eapply reads_bind; [apply (ly_reads_off_rsv (addr := addr))|]. cbv zeta.
  rewrite !u32_small by (rewrite ?u32_small; lia). rewrite (proj2 (Z.ltb_ge _ 40)) by lia.
  eapply reads_bind; [apply (ly_reads_totalsize O)|].
  rewrite u64_small by (unfold is_u64; lia). rewrite (proj2 (Z.ltb_ge _ _)) by lia. apply reads_ret.
Qed.

Context (fuel : nat) (Hfuel : ly_total ly < Z.of_nat fuel).

Lemma reads_num_mem_rsv : reads (blob_of addr ly) (fdt_num_mem_rsv fuel) (Z.of_nat (length (ly_rsv ly))).
Proof.
  assert (H := ly_range O). assert (E := ly_ds_entries). assert (Ha := rsv_at).
  assert (L : forall l seen n, ly_rsv ly = seen ++ l -> (length l < n)%nat ->
            reads (blob_of addr ly) (num_mem_rsv_loop n (Z.of_nat (length seen))) (Z.of_nat (length (ly_rsv ly)))).
  { induction l as [|e l IH]; intros seen n Es Hn; (destruct n as [|n]; [cbn in Hn; lia|]); cbn [num_mem_rsv_loop].
    - eapply reads_bind; [apply reads_mem_rsv; rewrite Es, length_app; cbn [length]; lia|]. cbv iota.
      rewrite Es, app_nil_r in *. apply at_offset_app in Ha as [_ Ha]. rewrite rsv_entries_length in Ha.
      apply (at_offset_app _ _ (replicate 8 0) (be64 0)) in Ha as [_ Ha]. rewrite length_replicate in Ha.
      eapply reads_bind; [apply (fdt64_at _ _ 0); [|lia]|].
      { replace (40 + Z.of_nat (length seen) * 16 + 8) with (40 + Z.of_nat (16 * length seen) + Z.of_nat 8) by lia. exact Ha. }
      apply reads_ret.
    - assert (He : entry_ok e).
      { assert (F := lo_rsv _ _ O). rewrite Es in F. apply Forall_app in F as [_ F]. by apply Forall_cons in F as [F _]. }
      eapply reads_bind; [apply reads_mem_rsv; rewrite Es, length_app; cbn [length]; lia|]. cbv iota.
      assert (Hs : at_offset (blob_of addr ly) (40 + Z.of_nat (length seen) * 16 + 8) (be64 (snd e))).
      { rewrite Es in Ha. unfold rsv_bytes in Ha. rewrite map_app, concat_app, <- app_assoc in Ha.
        apply at_offset_app in Ha as [_ Ha]. rewrite rsv_entries_length in Ha. cbn [map concat] in Ha. unfold rsv_entry at 1 in Ha.
        rewrite <- !app_assoc in Ha. apply at_offset_app in Ha as [_ Ha]. apply at_offset_app in Ha as [Ha _].
        change (Z.of_nat (length (be64 (fst e)))) with 8 in Ha.
        replace (40 + Z.of_nat (length seen) * 16 + 8) with (40 + Z.of_nat (16 * length seen) + 8) by lia. exact Ha. }
      destruct He as [_ He]. eapply reads_bind; [apply (fdt64_at _ _ _ Hs); lia|].
      rewrite (proj2 (Z.eqb_neq _ 0)) by lia. rewrite Es, length_app in E. cbn [length] in E. rewrite s32_small by lia.
      replace (Z.of_nat (length seen) + 1) with (Z.of_nat (length (seen ++ [e]))) by (rewrite length_app; cbn [length]; lia).
      apply IH; [by rewrite <- app_assoc|cbn [length] in Hn; lia]. }
  apply (L (ly_rsv ly) []); [done|lia].
Qed.

(** ** Opening and packing *)

Lemma slack_words slack beyond :
  ly_words (with_slack slack beyond ly) = <[1%nat := ly_data ly + Z.of_nat (length slack)]> (ly_words ly).
Proof. done. Qed.

(** The blocks are in order: the blob is moved onto itself. *)
Lemma open_into_moves n :
  fdt_open_into fuel n (blob_of addr ly) =
  (r <- fdt_move n ;;
   if truthy (fst r) then ret (fst r)
   else
     write_bytes 0 (default [] (snd r)) ;;;
     fdt_set_version 0 17 ;;;
     fdt_set_size_dt_struct 0 (Z.of_nat (length (ly_struct ly))) ;;;
     fdt_set_totalsize 0 (u32 n) ;;;
     ret 0)%sbi (blob_of addr ly).
Proof.
  assert (H := ly_range O). assert (E := ly_ds_entries). unfold fdt_open_into.
  rewrite (reads_bind_eq _ _ _ _ (ly_reads_totalsize O)), (ro_probed_run O), (reads_bind_eq _ _ _ _ reads_num_mem_rsv).
  cbv zeta. rewrite (reads_bind_eq _ _ _ _ (ly_reads_version (addr := addr))). change (17 <=? 17) with true. cbv iota.
  rewrite (reads_bind_eq _ _ _ (inr (Z.of_nat (length (ly_struct ly))))).
  2: { eapply reads_bind; [apply (ly_reads_size_struct O)|]. rewrite s32_small by lia. apply reads_ret. }
  unfold sizeof_fdt_reserve_entry. rewrite !s32_small by (rewrite ?s32_small; lia).
  rewrite (reads_bind_eq _ _ _ false) by (apply (ly_reads_ordered O); lia). cbn [negb].
  by rewrite (u32_small (Z.of_nat _)) by lia.
Qed.

Lemma reads_move n : 0 <= n ->
  reads (blob_of addr ly) (fdt_move n)
    (if n <? ly_total ly then (- FDT_ERR_NOSPACE, None) else (0, Some (take (Z.to_nat (ly_total ly)) (ly_bytes ly)))).
Proof.
  intros Hn. assert (H := ly_range O). unfold reads, fdt_move.
  rewrite (proj2 (Z.ltb_ge _ 0)), (ro_probed_run O), (reads_bind_eq _ _ _ _ (ly_reads_totalsize O)) by lia.
  case_if; [done|]. unfold bind, gets. cbn [blob_of dt_bytes]. rewrite (proj2 (Z.ltb_ge _ _)); [done|].
  unfold ly_bytes, ly_rest. rewrite !length_app, words_bytes_length. cbn [ly_words length].
  unfold ly_total, ly_data, ly_dn, ly_ds in *. lia.
Qed.

(** The memory after the blob becomes unused bytes of it. *)
Lemma open_into_run ext beyond :
  ly_beyond ly = ext ++ beyond -> ly_total ly + Z.of_nat (length ext) < INT_MAX ->
  fdt_open_into fuel (ly_total ly + Z.of_nat (length ext)) (blob_of addr ly) =
  (Ret 0, blob_of addr (with_slack (ly_slack ly ++ ext) beyond ly)).
Proof.
  intros Eb Hb. unfold INT_MAX in Hb. assert (H := ly_range O). rewrite open_into_moves.
  rewrite (reads_bind_eq _ _ _ _ (reads_move (ly_total ly + Z.of_nat (length ext)) ltac:(lia))), (proj2 (Z.ltb_ge _ _)) by lia.
  cbn [fst snd truthy Z.eqb negb default]. erewrite bind_Ret.
  2: { unfold blob_of. rewrite <- (take_drop (Z.to_nat (ly_total ly)) (ly_bytes ly)) at 2. by apply (write_middle addr []). }
  cbn [app id]. rewrite take_drop. unfold ly_bytes at 1.
  unfold fdt_set_version, fdt_set_size_dt_struct, fdt_set_totalsize.
  erewrite bind_Ret by (apply (write_word addr _ _ 5); [cbn; lia|reflexivity]).
  erewrite bind_Ret by (apply (write_word addr _ _ 9); [rewrite length_insert; cbn; lia|reflexivity]).
  erewrite bind_Ret by (apply (write_word addr _ _ 1); [rewrite !length_insert; cbn; lia|reflexivity]).
  unfold ret, blob_of, ly_bytes. do 2 f_equal. unfold ly_rest at 2. cbn [with_slack ly_rsv ly_struct ly_strings ly_slack ly_beyond].
  rewrite slack_words, length_app. unfold ly_rest. rewrite Eb, <- !app_assoc. f_equal. f_equal.
  rewrite !u32_small by lia. unfold ly_words. cbn [insert list_insert].
  replace (ly_data ly + Z.of_nat (length (ly_slack ly) + length ext)) with (ly_total ly + Z.of_nat (length ext)) by lia. done.
Qed.

Lemma open_into_too_small n : n < ly_total ly ->
  fdt_open_into fuel n (blob_of addr ly) = (Ret (- FDT_ERR_NOSPACE), blob_of addr ly).
Proof.
  intros Hb. rewrite open_into_moves. destruct (Z.lt_ge_cases n 0).
  - erewrite reads_bind_eq; [|unfold reads, fdt_move; by rewrite (proj2 (Z.ltb_lt n 0)) by lia]. done.
  - rewrite (reads_bind_eq _ _ _ _ (reads_move n ltac:(lia))), (proj2 (Z.ltb_lt _ _)) by lia. done.
Qed.

Lemma move_self a m b o n :
  o = Z.of_nat (length a) -> n = Z.of_nat (length m) -> n < 2 ^ 63 ->
  memmove o o n (Dtb addr (a ++ m ++ b)) = (Ret tt, Dtb addr (a ++ m ++ b)).
Proof.
  intros Eo En Hn. unfold memmove. rewrite u64_small by (unfold is_u64; lia).
  rewrite (reads_bind_eq _ _ _ m) by (by apply read_middle). by apply write_middle.
Qed.

(** The unused bytes leave the blob. *)
Lemma pack_run : fdt_pack fuel (blob_of addr ly) = (Ret 0, blob_of addr (with_slack [] (ly_slack ly ++ ly_beyond ly) ly)).
Proof.
  assert (H := ly_range O). assert (E := ly_ds_entries). unfold fdt_pack.
  rewrite (rw_probed_run O), (reads_bind_eq _ _ _ _ reads_num_mem_rsv). cbv zeta.
  rewrite (reads_bind_eq _ _ _ _ (ly_reads_size_struct O)), (reads_bind_eq _ _ _ _ (ly_reads_size_strings O)).
  unfold sizeof_fdt_reserve_entry. rewrite !s32_small by (rewrite ?s32_small; lia).
  assert (Ep : fdt_packblocks_ 0 ((Z.of_nat (length (ly_rsv ly)) + 1) * 16) (Z.of_nat (length (ly_struct ly)))
                 (Z.of_nat (length (ly_strings ly))) (blob_of addr ly) = (Ret tt, blob_of addr ly)).
  { unfold fdt_packblocks_, header_aligned. cbv zeta. rewrite !s32_small by (rewrite ?s32_small; lia).
    rewrite !Z.add_0_l, !u32_small by lia.
    assert (Ew : forall k v o, ly_words ly !! k = Some v -> o = 4 * Z.of_nat k -> fdt32_st o v (blob_of addr ly) = (Ret tt, blob_of addr ly)).
    { intros k v o Ek ->. unfold blob_of, ly_bytes. rewrite (write_word addr _ _ k) by (by eapply lookup_lt_Some || done).
      by rewrite list_insert_id. }
    assert (Em : forall a m b o n, ly_bytes ly = a ++ m ++ b -> o = Z.of_nat (length a) -> n = Z.of_nat (length m) -> n < 2 ^ 63 ->
              memmove o o n (blob_of addr ly) = (Ret tt, blob_of addr ly)).
    { intros a m b o n Eb Eo En Hn. unfold blob_of. rewrite Eb. by apply move_self. }
    assert (Er : Z.of_nat (length (rsv_bytes (ly_rsv ly))) = (Z.of_nat (length (ly_rsv ly)) + 1) * 16) by (unfold ly_ds in E; lia).
    rewrite (reads_bind_eq _ _ _ _ (ly_reads_off_rsv (addr := addr))).
    erewrite bind_Ret by (eapply (Em (words_bytes (ly_words ly)) (rsv_bytes (ly_rsv ly))); [reflexivity|reflexivity|lia|lia]).
    erewrite bind_Ret by (by apply (Ew 4%nat)).
    rewrite (reads_bind_eq _ _ _ _ (ly_reads_off_struct O)).
    replace (40 + (Z.of_nat (length (ly_rsv ly)) + 1) * 16) with (ly_ds ly) by lia.
    erewrite bind_Ret.
    2: { eapply (Em (words_bytes (ly_words ly) ++ rsv_bytes (ly_rsv ly)) (ly_struct ly)); [unfold ly_bytes, ly_rest; by rewrite <- !app_assoc| |lia|lia].
         rewrite length_app, words_bytes_length. unfold ly_ds. cbn [ly_words length]. lia. }
    erewrite bind_Ret by (by apply (Ew 2%nat)). erewrite bind_Ret by (by apply (Ew 9%nat)).
    rewrite (reads_bind_eq _ _ _ _ (ly_reads_off_strings O)).
    replace (ly_ds ly + Z.of_nat (length (ly_struct ly))) with (ly_dn ly) by lia.
    erewrite bind_Ret.
    2: { eapply (Em (words_bytes (ly_words ly) ++ rsv_bytes (ly_rsv ly) ++ ly_struct ly) (ly_strings ly));
           [unfold ly_bytes, ly_rest; by rewrite <- !app_assoc| |lia|lia].
         rewrite !length_app, words_bytes_length. unfold ly_dn, ly_ds. cbn [ly_words length]. lia. }
    erewrite bind_Ret by (by apply (Ew 3%nat)).
    rewrite (reads_bind_eq _ _ _ _ (ly_reads_size_strings O)). by apply (Ew 8%nat). }
  rewrite (bind_Ret _ _ _ _ _ Ep), (reads_bind_eq _ _ _ _ (ly_reads_data_size O)).
  unfold fdt_set_totalsize. erewrite bind_Ret by (apply (write_word addr _ _ 1); [cbn; lia|reflexivity]).
  unfold ret, blob_of, ly_bytes. do 2 f_equal. rewrite slack_words. cbn [length]. rewrite Z.add_0_r. f_equal.
Qed.


(** ** Changing the reservations *)

Lemma rsv_words rsv slack' d :
  Z.of_nat (length rsv) = Z.of_nat (length (ly_rsv ly)) + d -> Z.of_nat (length slack') = Z.of_nat (length (ly_slack ly)) - 16 * d ->
  ly_words (with_rsv rsv slack' ly) =
  <[3%nat := u32 (ly_dn ly + 16 * d)]> (<[2%nat := u32 (ly_ds ly + 16 * d)]> (ly_words ly)).
Proof.
  intros E1 E2. assert (H := ly_range O).
  assert (L : Z.of_nat (length (rsv_bytes rsv)) = Z.of_nat (length (rsv_bytes (ly_rsv ly))) + 16 * d).
  { unfold rsv_bytes. rewrite !length_app, !rsv_entries_length, length_replicate. lia. }
  unfold ly_words at 1. cbn [insert list_insert with_rsv ly_cpu ly_strings ly_struct].
  assert (Es : ly_ds (with_rsv rsv slack' ly) = ly_ds ly + 16 * d) by (unfold ly_ds; cbn [with_rsv ly_rsv]; lia).
  assert (En : ly_dn (with_rsv rsv slack' ly) = ly_dn ly + 16 * d) by (unfold ly_dn; rewrite Es; cbn [with_rsv ly_struct]; lia).
  assert (Et : ly_total (with_rsv rsv slack' ly) = ly_total ly).
  { unfold ly_total, ly_data. rewrite En. cbn [with_rsv ly_strings ly_slack]. lia. }
  rewrite Es, En, Et.
  assert (Hp : 40 <= ly_ds ly + 16 * d) by (unfold ly_ds; lia).
  assert (Hd : ly_dn ly + 16 * d + Z.of_nat (length (ly_strings ly)) <= ly_total ly).
  { rewrite <- En, <- Et. unfold ly_total, ly_data. cbn [with_rsv ly_strings]. lia. }
  rewrite !u32_small by lia. done.
Qed.

Lemma splice_rsv_run A old C oldn newn :
  rsv_bytes (ly_rsv ly) = A ++ old ++ C -> Z.of_nat (length old) = 16 * oldn -> 0 <= oldn -> 0 <= newn ->
  16 * newn <= 16 * oldn + Z.of_nat (length (ly_slack ly)) ->
  exists junk slack', Z.of_nat (length junk) = 16 * newn /\
    Z.of_nat (length slack') = Z.of_nat (length (ly_slack ly)) - 16 * (newn - oldn) /\
    fdt_splice_mem_rsv_ (40 + Z.of_nat (length A)) oldn newn (blob_of addr ly) =
    (Ret 0, Dtb addr (words_bytes (<[3%nat := u32 (ly_dn ly + 16 * (newn - oldn))]> (<[2%nat := u32 (ly_ds ly + 16 * (newn - oldn))]> (ly_words ly))) ++
       (A ++ junk ++ C) ++ ly_struct ly ++ ly_strings ly ++ slack' ++ ly_beyond ly)).
Proof.
  intros E Lo Ho Hn Hr. assert (H := ly_range O). assert (Hd := ly_ds_entries).
  assert (Lr : Z.of_nat (length (rsv_bytes (ly_rsv ly))) = Z.of_nat (length A) + Z.of_nat (length old) + Z.of_nat (length C))
    by (rewrite E, !length_app; lia).
  assert (Hds : ly_ds ly = 40 + Z.of_nat (length (rsv_bytes (ly_rsv ly)))) by done.
  destruct (splice_run (words_bytes (ly_words ly) ++ A) old (C ++ ly_struct ly ++ ly_strings ly) (16 * newn)) as (junk & slack' & L1 & L2 & R).
  { unfold ly_bytes, ly_rest. rewrite E, <- !app_assoc. done. }
  { rewrite !length_app, words_bytes_length. cbn [ly_words length]. lia. }
  { lia. }
  exists junk, slack'. split; [done|]. split; [lia|]. unfold fdt_splice_mem_rsv_, unless_err, sizeof_fdt_reserve_entry.
  rewrite !s32_small by lia.
  replace (40 + Z.of_nat (length A)) with (Z.of_nat (length (words_bytes (ly_words ly) ++ A))) by (rewrite length_app, words_bytes_length; cbn [ly_words length]; lia).
  replace (oldn * 16) with (Z.of_nat (length old)) by lia. replace (newn * 16) with (16 * newn) by lia.
  rewrite (bind_Ret _ _ _ _ _ R). cbn [truthy Z.eqb negb]. rewrite <- !app_assoc.
  replace ((newn - oldn) * 16) with (16 * (newn - oldn)) by lia.
  erewrite bind_Ret by (eapply (add_word addr _ _ 2); [reflexivity|lia|reflexivity]).
  erewrite bind_Ret by (eapply (add_word addr _ _ 3); [reflexivity|lia|reflexivity]). done.
Qed.

(** Room for one more. *)
Lemma add_mem_rsv_run address size :
  0 <= address < 2 ^ 64 -> 0 < size < 2 ^ 64 -> 16 <= Z.of_nat (length (ly_slack ly)) ->
  exists slack', Z.of_nat (length slack') = Z.of_nat (length (ly_slack ly)) - 16 /\
    fdt_add_mem_rsv fuel address size (blob_of addr ly) =
    (Ret 0, blob_of addr (with_rsv (ly_rsv ly ++ [(address, size)]) slack' ly)).
Proof.
  intros Ha Hs Hr. assert (H := ly_range O). assert (Hd := ly_ds_entries).
  destruct (splice_rsv_run (concat (map rsv_entry (ly_rsv ly))) [] (replicate 16 0) 0 1) as (junk & slack' & L1 & L2 & R); [done|done|lia..|].
  exists slack'. split; [lia|]. unfold fdt_add_mem_rsv. rewrite (rw_probed_run O), (reads_bind_eq _ _ _ _ reads_num_mem_rsv).
  unfold fdt_mem_rsv_w_, sizeof_fdt_reserve_entry. erewrite (bind_Ret _ _ _ (40 + Z.of_nat (length (ly_rsv ly)) * 16)).
  2: { by rewrite (reads_bind_eq _ _ _ _ (ly_reads_off_rsv (addr := addr))). }
  rewrite rsv_entries_length in R. replace (Z.of_nat (16 * length (ly_rsv ly))) with (Z.of_nat (length (ly_rsv ly)) * 16) in R by lia.
  change (1 - 0) with 1 in R. unfold unless_err. rewrite (bind_Ret _ _ _ _ _ R). cbn [truthy Z.eqb negb]. clear R.
  rewrite <- (rsv_words (ly_rsv ly ++ [(address, size)]) slack' 1) by (rewrite ?length_app; cbn [length]; lia).
  set (ws := ly_words _). assert (Lw : length (words_bytes ws) = 40%nat) by (by rewrite words_bytes_length).
  set (A := concat _). assert (LA : Z.of_nat (length A) = Z.of_nat (length (ly_rsv ly)) * 16) by (subst A; rewrite rsv_entries_length; lia).
  rewrite <- (take_drop 8 junk). assert (Lj : length junk = 16%nat) by lia.
  rewrite <- !app_assoc. unfold fdt64_st.
  erewrite bind_Ret.
  2: { rewrite (app_assoc (words_bytes ws)). apply write_middle; [rewrite length_app; lia|rewrite length_take; by rewrite Lj]. }
  erewrite bind_Ret.
  2: { rewrite (app_assoc _ (be64 address)). apply write_middle; [rewrite !length_app; change (length (be64 address)) with 8%nat; lia|rewrite length_drop; by rewrite Lj]. }
  unfold ret, blob_of, ly_bytes. do 2 f_equal. fold ws. unfold ly_rest. cbn [with_rsv ly_rsv ly_struct ly_strings ly_slack ly_beyond].
  unfold rsv_bytes. rewrite map_app, concat_app. cbn [map concat]. unfold rsv_entry at 2. cbn [fst snd].
  rewrite app_nil_r, <- !app_assoc. done.
Qed.

Lemma del_mem_rsv_run l1 e l2 :
  ly_rsv ly = l1 ++ e :: l2 ->
  exists slack', Z.of_nat (length slack') = Z.of_nat (length (ly_slack ly)) + 16 /\
    fdt_del_mem_rsv fuel (Z.of_nat (length l1)) (blob_of addr ly) = (Ret 0, blob_of addr (with_rsv (l1 ++ l2) slack' ly)).
Proof.
  intros E. assert (H := ly_range O).
  destruct (splice_rsv_run (concat (map rsv_entry l1)) (rsv_entry e) (rsv_bytes l2) 1 0) as (junk & slack' & L1 & L2 & R).
  { rewrite E. unfold rsv_bytes. rewrite map_app, concat_app. cbn [map concat]. by rewrite <- !app_assoc. }
  { done. } { lia. } { lia. } { lia. }
  exists slack'. split; [lia|]. unfold fdt_del_mem_rsv, fdt_mem_rsv_w_, sizeof_fdt_reserve_entry.
  erewrite (bind_Ret _ _ _ (40 + Z.of_nat (length l1) * 16)).
  2: { by rewrite (reads_bind_eq _ _ _ _ (ly_reads_off_rsv (addr := addr))). }
  rewrite (rw_probed_run O), (reads_bind_eq _ _ _ _ reads_num_mem_rsv).
  rewrite (proj2 (Z.leb_gt _ _)) by (rewrite E, length_app; cbn [length]; lia).
  rewrite rsv_entries_length in R. replace (Z.of_nat (16 * length l1)) with (Z.of_nat (length l1) * 16) in R by lia.
  change (0 - 1) with (-1) in R. rewrite R, <- (rsv_words (l1 ++ l2) slack' (-1)) by (rewrite ?E, ?length_app; cbn [length]; lia).
  destruct junk; [|cbn [length] in L1; lia]. unfold blob_of, ly_bytes, ly_rest. cbn [with_rsv ly_rsv ly_struct ly_strings ly_slack ly_beyond].
  unfold rsv_bytes. rewrite map_app, concat_app, <- !app_assoc. done.
Qed.

End Splice.
