(* ===== verification/FdtEdit.v ===== *)
(** * Flattened device trees: edits as edits of the tree

    What the operations of lib/utils/libfdt/fdt_rw.c and fdt_wip.c (FdtRw.v) do to
    a blob whose structure block is a list of tags: setting and deleting a
    property, adding and deleting a node, turning either into gaps, each as the
    same change of the tree (FdtTree.v). *)

From Stdlib Require Import ZArith Lia String Ascii.
From stdpp Require Import base tactics list numbers strings.
From S2P Require Import Prelude Fdt FdtRo FdtTree FdtRw FdtLayout.

(** A layout whose structure block holds these tags. *)
Record editable (addr : Z) (ly : layout) (tokens : list token) : Prop := {
  ed_ok : layout_ok addr ly;
  ed_struct : ly_struct ly = encode_all tokens ++ be32 FDT_END;
  ed_tokens : Forall token_ok tokens;
}.

(** ** The strings block *)

(** Where a text first occurs. *)
Fixpoint find_text (text strings : list Z) : option nat :=
  if bool_decide (take (length text) strings = text) then Some O
  else match strings with [] => None | _ :: strings' => S <$> find_text text strings' end.

(** The offset of a string, and the block with it. *)
Definition intern (name strings : list Z) : Z * list Z :=
  match find_text (name ++ [0]) strings with
  | Some i => (Z.of_nat i, strings)
  | None => (Z.of_nat (length strings), strings ++ name ++ [0])
  end.

(** ** Edits of a node *)

(** The first property of the name, and what is before and after it. *)
Fixpoint split_attr (strings name : list Z) (attrs : list token) : option (list token * (Z * list Z) * list token) :=
  match attrs with
  | [] => None
  | t :: attrs' =>
      let later := (λ r, (t :: fst (fst r), snd (fst r), snd r)) <$> split_attr strings name attrs' in
      match t with
      | Prop_ off v => if bool_decide (string_at strings off = Some name) then Some ([], (off, v), attrs') else later
      | _ => later
      end
  end.

(** A property gets a value; a new one comes first.  The attributes and the
    strings block. *)
Definition set_attr (strings name value : list Z) (attrs : list token) : list token * list Z :=
  match split_attr strings name attrs with
  | Some (a1, (off, _), a2) => (a1 ++ Prop_ off value :: a2, strings)
  | None => let '(off, strings') := intern name strings in (Prop_ off value :: attrs, strings')
  end.

Definition delete_attr (strings name : list Z) (attrs : list token) : option (list token) :=
  (λ r, fst (fst r) ++ snd r) <$> split_attr strings name attrs.

Definition with_attrs (attrs : list token) (t : tree) : tree := Node (tree_name t) attrs (tree_children t).
Definition add_child (c t : tree) : tree := Node (tree_name t) (tree_attrs t) (c :: tree_children t).

(** ** Lemmas on the strings block *)

Lemma find_text_some text strings i : find_text text strings = Some i ->
  exists rest, drop i strings = text ++ rest /\ (i <= length strings)%nat.
Proof.
  revert i. induction strings as [|c strings IH]; intros i; cbn [find_text].
  - destruct (bool_decide_reflect (take (length text) [] = text)) as [E|]; [|done]. intros [= <-].
    exists []. rewrite take_nil in E. by rewrite <- E.
  - destruct (bool_decide_reflect (take (length text) (c :: strings) = text)) as [E|].
    + intros [= <-]. exists (drop (length text) (c :: strings)). cbn [drop]. split; [|cbn; lia].
      rewrite <- E at 1. by rewrite take_drop.
    + destruct (find_text text strings) as [k|]; [|done]. intros [= <-]. destruct (IH k eq_refl) as (rest & E & Hk).
      exists rest. cbn [drop length]. split; [done|lia].
Qed.

Lemma string_at_text strings i name rest : nonzero name -> drop i strings = name ++ 0 :: rest ->
  string_at strings (Z.of_nat i) = Some name.
Proof.
  intros Hn E. unfold string_at. rewrite (proj2 (Z.ltb_ge _ 0)), Nat2Z.id, E by lia. cbv zeta.
  rewrite position_app, take_app_length; [done|]. intros H. exact (proj1 (List.Forall_forall _ _) Hn 0 H eq_refl).
Qed.

(** The name is where [intern] says, and every string is where it was. *)
Lemma intern_names name strings : nonzero name -> string_at (snd (intern name strings)) (fst (intern name strings)) = Some name.
Proof.
  intros Hn. unfold intern. destruct (find_text (name ++ [0]) strings) as [i|] eqn:E; cbn [fst snd].
  - destruct (find_text_some _ _ _ E) as (rest & Ed & _). rewrite <- app_assoc in Ed. by eapply string_at_text.
  - eapply string_at_text; [done|]. by rewrite drop_app_length.
Qed.

Lemma string_at_grows strings more off x : string_at strings off = Some x -> string_at (strings ++ more) off = Some x.
Proof.
  unfold string_at. destruct (off <? 0); [done|]. cbv zeta.
  destruct (position 0 (drop (Z.to_nat off) strings)) as [n|] eqn:E; [|done]. intros [= <-].
  destruct (position_some _ _ _ E) as (H1 & H2 & H3).
  assert (Hd : (Z.to_nat off <= length strings)%nat).
  { rewrite length_drop in H3. lia. }
  rewrite drop_app_le by done.
  assert (Es : drop (Z.to_nat off) strings = take n (drop (Z.to_nat off) strings) ++ 0 :: drop (S n) (drop (Z.to_nat off) strings)).
  { symmetry. by apply take_drop_middle. }
  rewrite Es at 1. rewrite <- app_assoc. cbn [app]. rewrite position_app by done.
  rewrite length_take, Nat.min_l by lia. f_equal. rewrite take_app_le by lia. done.
Qed.

Lemma intern_keeps name strings off x : string_at strings off = Some x -> string_at (snd (intern name strings)) off = Some x.
Proof. intros H. unfold intern. destruct (find_text _ _); [done|]. cbn [snd]. by apply string_at_grows. Qed.

Lemma intern_range name strings : 0 <= fst (intern name strings) <= Z.of_nat (length strings).
Proof.
  unfold intern. destruct (find_text _ _) as [i|] eqn:E; cbn [fst]; [|lia].
  destruct (find_text_some _ _ _ E) as (rest & _ & H). lia.
Qed.

Lemma intern_length name strings :
  Z.of_nat (length strings) <= Z.of_nat (length (snd (intern name strings))) <= Z.of_nat (length strings) + Z.of_nat (length name) + 1.
Proof. unfold intern. destruct (find_text _ _); cbn [snd]; rewrite ?length_app; cbn [length]; lia. Qed.

(** ** The tree of a blob *)

Lemma encode_all_app l1 l2 : encode_all (l1 ++ l2) = encode_all l1 ++ encode_all l2.
Proof. unfold encode_all. by rewrite map_app, concat_app. Qed.

Lemma encode_all_cons t l : encode_all (t :: l) = encode t ++ encode_all l.
Proof. done. Qed.

Lemma size_length l : Z.of_nat (length (encode_all l)) = size_of l.
Proof. done. Qed.

Section Editable.
Context {addr : Z} {ly : layout} {tokens : list token} (E : editable addr ly tokens).

Lemma ed_struct_length : Z.of_nat (length (ly_struct ly)) = size_of tokens + 4.
Proof. rewrite (ed_struct _ _ _ E), length_app, be32_length. unfold size_of. lia. Qed.

Lemma ed_range : 40 <= ly_ds ly /\ ly_ds ly + size_of tokens + 4 = ly_dn ly /\
  ly_dn ly + Z.of_nat (length (ly_strings ly)) + Z.of_nat (length (ly_slack ly)) = ly_total ly /\ ly_total ly < 2 ^ 31 - 1 /\ 0 <= size_of tokens.
Proof.
  assert (H := ly_range (ed_ok _ _ _ E)). rewrite ed_struct_length in H. assert (H1 := size_of_nonneg tokens). lia.
Qed.

Lemma ly_word_at k w o : ly_words ly !! k = Some w -> o = 4 * Z.of_nat k -> at_offset (blob_of addr ly) o (be32 w).
Proof.
  intros Ek ->. apply (at_offset_middle _ (words_bytes (take k (ly_words ly))) _ (words_bytes (drop (S k) (ly_words ly)) ++ ly_rest ly)).
  - cbn [blob_of dt_bytes]. unfold ly_bytes. rewrite (words_bytes_split (ly_words ly) k w Ek), <- !app_assoc. done.
  - assert (H := lookup_lt_Some _ _ _ Ek). rewrite words_bytes_length, length_take. lia.
Qed.

Lemma editable_blob : blob (blob_of addr ly) tokens (ly_strings ly) (ly_ds ly) (ly_dn ly) (ly_total ly).
Proof.
  assert (H := ed_range). assert (Hs := size_length tokens).
  split; try exact (ed_tokens _ _ _ E); try (by apply (ly_word_at 0)); try (by apply (ly_word_at 1)); try (by apply (ly_word_at 2));
    try (by apply (ly_word_at 3)); try (by apply (ly_word_at 5)); try (by apply (ly_word_at 6)); try (by apply (ly_word_at 8)).
  - exact (lo_aligned _ _ (ed_ok _ _ _ E)).
  - apply (ly_word_at 9); [cbn [ly_words lookup list_lookup]; by rewrite ed_struct_length|done].
  - exact (lo_small _ _ (ed_ok _ _ _ E)).
  - unfold FDT_V17_SIZE, FDT_V16_SIZE, FDT_V3_SIZE, FDT_V2_SIZE, FDT_V1_SIZE. lia.
  - lia.
  - rewrite <- (ed_struct _ _ _ E).
    apply (at_offset_middle _ (words_bytes (ly_words ly) ++ rsv_bytes (ly_rsv ly)) _ (ly_strings ly ++ ly_slack ly ++ ly_beyond ly)).
    + cbn [blob_of dt_bytes]. unfold ly_bytes, ly_rest. by rewrite <- !app_assoc.
    + rewrite length_app, words_bytes_length. unfold ly_ds. cbn [ly_words length]. lia.
  - apply (at_offset_middle _ (words_bytes (ly_words ly) ++ rsv_bytes (ly_rsv ly) ++ ly_struct ly) _ (ly_slack ly ++ ly_beyond ly)).
    + cbn [blob_of dt_bytes]. unfold ly_bytes, ly_rest. by rewrite <- !app_assoc.
    + rewrite !length_app, words_bytes_length. unfold ly_dn, ly_ds. cbn [ly_words length]. lia.
Qed.

End Editable.

Lemma find_text_short text strings : (length strings < length text)%nat -> find_text text strings = None.
Proof.
  induction strings as [|c strings IH]; cbn [find_text length]; intros H.
  - rewrite bool_decide_eq_false_2; [done|]. rewrite take_nil. intros <-. cbn in H. lia.
  - rewrite bool_decide_eq_false_2.
    + rewrite IH by lia. done.
    + intros Et. rewrite <- Et, length_take in H. cbn [length] in H. lia.
Qed.

Lemma reads_read_chars s n p l : holds s p l -> (n <= length l)%nat -> reads s (read_chars n p) (take n l).
Proof.
  revert p l. induction n as [|n IH]; intros p l H Hn; [apply reads_ret|]. destruct l as [|c l]; [cbn in Hn; lia|].
  cbn [read_chars take]. eapply reads_bind; [by eapply str_head|].
  eapply reads_bind; [apply IH; [by eapply str_tail|cbn in Hn; lia]|]. apply reads_ret.
Qed.

(** Copying a constant with its zero. *)
Lemma memcpy_str_run s dst name n : n = Z.of_nat (length name) + 1 -> n < 2 ^ 31 ->
  memcpy_str dst (Cst name 0) n s = write_bytes dst (name ++ [0]) s.
Proof.
  intros -> Hn. unfold memcpy_str. rewrite u64_small by (unfold is_u64; lia).
  rewrite (reads_bind_eq _ _ _ (name ++ [0])); [done|].
  set (n := Z.to_nat _). assert (Hn' : n = length (name ++ [0])) by (rewrite length_app; cbn [length]; lia).
  assert (R := reads_read_chars s n (Cst name 0) (name ++ [0]) (holds_cst s name) ltac:(lia)). rewrite take_ge in R by lia. exact R.
Qed.

(** ** Strings *)

Section Strings.
Context {addr : Z} {ly : layout} {tokens : list token} (E : editable addr ly tokens).
Context (fuel : nat) (Hfuel : ly_total ly < Z.of_nat fuel).
#[local] Abbreviation O := (ed_ok _ _ _ E).
#[local] Abbreviation B := (editable_blob E).

Lemma reads_find_string name : nonzero name -> Z.of_nat (length name) <= ly_total ly ->
  reads (blob_of addr ly) (fdt_find_string_ fuel (ly_dn ly) (Z.of_nat (length (ly_strings ly))) (Cst name 0))
    ((λ i, ly_dn ly + Z.of_nat i) <$> find_text (name ++ [0]) (ly_strings ly)).
Proof.
  intros Hn Hl. assert (H := ed_range E). unfold fdt_find_string_.
  eapply reads_bind; [apply (reads_lit_strlen fuel Hfuel); [done|done]|]. cbv zeta. rewrite s32_small by lia.
  set (text := name ++ [0]). assert (Lt : length text = S (length name)) by (subst text; rewrite length_app; cbn [length]; lia).
  replace (Z.of_nat (length name) + 1) with (Z.of_nat (length text)) by lia.
  assert (L : forall l seen n, ly_strings ly = seen ++ l -> (length l < n)%nat ->
    reads (blob_of addr ly) (find_string_loop n (ly_dn ly + Z.of_nat (length seen))
      (ly_dn ly + Z.of_nat (length (ly_strings ly)) - Z.of_nat (length text)) (Cst name 0) (Z.of_nat (length text)))
      ((λ i, ly_dn ly + Z.of_nat (length seen) + Z.of_nat i) <$> find_text text l)).
  { induction l as [|c l IH]; intros seen n Es Hf; (destruct n as [|n]; [cbn in Hf; lia|]); cbn [find_string_loop];
      rewrite Es, length_app in *; cbn [length] in *.
    - rewrite (proj2 (Z.leb_gt _ _)) by lia. rewrite find_text_short by (cbn; lia). apply reads_ret.
    - destruct (Z.leb_spec (ly_dn ly + Z.of_nat (length seen)) (ly_dn ly + Z.of_nat (length seen + S (length l)) - Z.of_nat (length text))) as [Hle|Hgt].
      2: { rewrite find_text_short by (cbn [length]; lia). apply reads_ret. }
      assert (Hs := blob_strings _ _ _ _ _ _ B). rewrite Es in Hs. apply at_offset_app in Hs as [_ Hs].
      eapply reads_bind.
      { apply (reads_memcmp _ (take (length text) (c :: l)) text); [apply holds_take; by apply holds_at|apply holds_cst| |];
          rewrite length_take; cbn [length]; [rewrite u64_small by (unfold is_u64; lia); lia|lia]. }
      rewrite cmp_eq by (rewrite length_take; cbn [length]; lia). cbn [find_text].
      destruct (bool_decide _); [cbn; rewrite Z.add_0_r; apply reads_ret|].
      assert (R := IH (seen ++ [c]) n). rewrite length_app in R. cbn [length] in R.
      replace (Z.of_nat (length seen + 1)) with (Z.of_nat (length seen) + 1) in R by lia.
      rewrite Z.add_assoc, <- (app_assoc seen) in R. cbn [app] in R.
      destruct (find_text text l) as [i|]; cbn in R |- *.
      + replace (ly_dn ly + Z.of_nat (length seen) + Z.of_nat (S i)) with (ly_dn ly + Z.of_nat (length seen) + 1 + Z.of_nat i) by lia.
        apply R; [done|lia].
      + apply R; [done|lia]. }
  assert (R := L (ly_strings ly) [] fuel eq_refl ltac:(lia)). cbn [length] in R. rewrite !Z.add_0_r in R. exact R.
Qed.

(** The string is in the block afterwards, or there is no room. *)
Lemma find_add_string_run name : nonzero name -> Z.of_nat (length name) <= ly_total ly ->
  let r := intern name (ly_strings ly) in
  let more := Z.of_nat (length (snd r)) - Z.of_nat (length (ly_strings ly)) in
  (more <= Z.of_nat (length (ly_slack ly)) ->
   exists slack' (allocated : bool), Z.of_nat (length slack') = Z.of_nat (length (ly_slack ly)) - more /\
     fdt_find_add_string_ fuel (Cst name 0) (blob_of addr ly) = (Ret (fst r, allocated), blob_of addr (with_strings (snd r) slack' ly)) /\
     (if allocated then snd r = ly_strings ly ++ name ++ [0] else snd r = ly_strings ly)) /\
  (Z.of_nat (length (ly_slack ly)) < more ->
   fdt_find_add_string_ fuel (Cst name 0) (blob_of addr ly) = (Ret (- FDT_ERR_NOSPACE, false), blob_of addr ly)).
Proof.
  intros Hn Hl r more. assert (H := ed_range E). assert (Hi := intern_range name (ly_strings ly)).
  assert (R0 : fdt_find_add_string_ fuel (Cst name 0) (blob_of addr ly) =
    match find_text (name ++ [0]) (ly_strings ly) with
    | Some i => (Ret (Z.of_nat i, false), blob_of addr ly)
    | None => (err <- fdt_splice_string_ (Z.of_nat (length name) + 1) ;;
               if truthy err then ret (err, false)
               else memcpy_str (ly_dn ly + Z.of_nat (length (ly_strings ly))) (Cst name 0) (Z.of_nat (length name) + 1) ;;;
                    ret (Z.of_nat (length (ly_strings ly)), true))%sbi (blob_of addr ly)
    end).
  { unfold fdt_find_add_string_. rewrite (reads_bind_eq _ _ _ _ (ly_reads_off_strings O)).
    rewrite (reads_bind_eq _ _ _ _ (reads_lit_strlen fuel Hfuel name Hn Hl)). cbv zeta.
    rewrite (reads_bind_eq _ _ _ _ (ly_reads_size_strings O)), !s32_small by lia.
    rewrite (reads_bind_eq _ _ _ _ (reads_find_string name Hn Hl)). unfold r, intern in Hi.
    destruct (find_text _ _) as [i|]; cbn [fmap option_fmap option_map].
    - cbn [fst] in Hi. replace (ly_dn ly + Z.of_nat i - ly_dn ly) with (Z.of_nat i) by lia. by rewrite s32_small by lia.
    - rewrite (reads_bind_eq _ _ _ _ (ly_reads_size_strings O)).
      replace (ly_dn ly + Z.of_nat (length (ly_strings ly)) - ly_dn ly) with (Z.of_nat (length (ly_strings ly))) by lia.
      by rewrite s32_small by lia. }
  rewrite R0. unfold more, r, intern. destruct (find_text _ _) as [i|]; cbn [fst snd].
  - split; [|lia]. intros _. exists (ly_slack ly), false. split; [lia|]. split; [by destruct ly|done].
  - rewrite !length_app. cbn [length]. split; intros Hs.
    + destruct (splice_string_run O (Z.of_nat (length name) + 1)) as (junk & slack' & L1 & L2 & R); [lia|].
      exists slack', true. split; [lia|]. split; [|done]. rewrite (bind_Ret _ _ _ _ _ R). cbn [truthy Z.eqb negb].
      assert (Ew := write_string (addr := addr) (ly := with_strings (ly_strings ly ++ junk) slack' ly) (ly_strings ly) junk (name ++ [0]) slack'
        (ly_dn ly + Z.of_nat (length (ly_strings ly))) eq_refl ltac:(rewrite length_app; cbn [length]; lia) eq_refl eq_refl).
      erewrite bind_Ret; [reflexivity|]. rewrite memcpy_str_run by lia. exact Ew.
    + unfold fdt_splice_string_, unless_err. unfold bind at 1.
      rewrite (reads_bind_eq _ _ _ _ (ly_reads_off_strings O)), (reads_bind_eq _ _ _ _ (ly_reads_size_strings O)).
      erewrite bind_Ret by (apply (splice_full O); unfold ly_data; lia). done.
Qed.

End Strings.

Lemma ed_with_strings addr ly tokens strings slack :
  editable addr ly tokens -> Z.of_nat (length strings) + Z.of_nat (length slack) = Z.of_nat (length (ly_strings ly)) + Z.of_nat (length (ly_slack ly)) ->
  editable addr (with_strings strings slack ly) tokens /\ ly_total (with_strings strings slack ly) = ly_total ly.
Proof.
  intros E L.
  assert (Et : ly_total (with_strings strings slack ly) = ly_total ly).
  { unfold ly_total, ly_data, ly_dn, ly_ds. cbn [with_strings ly_rsv ly_struct ly_strings ly_slack]. lia. }
  split; [|done]. destruct E as [[H1 H2 H3 H4] Es Ht]. split; [|done|done]. split; [done|by rewrite Et|done|done].
Qed.

Lemma ed_with_struct addr ly tokens tokens' slack :
  editable addr ly tokens -> size_of tokens' + Z.of_nat (length slack) = size_of tokens + Z.of_nat (length (ly_slack ly)) ->
  Forall token_ok tokens' ->
  editable addr (with_struct (encode_all tokens' ++ be32 FDT_END) slack ly) tokens' /\
  ly_total (with_struct (encode_all tokens' ++ be32 FDT_END) slack ly) = ly_total ly.
Proof.
  intros E L Ht.
  assert (Et : ly_total (with_struct (encode_all tokens' ++ be32 FDT_END) slack ly) = ly_total ly).
  { assert (Ls := ed_struct_length E). unfold size_of in *. unfold ly_total, ly_data, ly_dn, ly_ds.
    cbn [with_struct ly_rsv ly_struct ly_strings ly_slack]. rewrite length_app, be32_length. lia. }
  split; [|done]. destruct E as [[H1 H2 H3 H4] Es _]. split; [|done|done]. split; [done|by rewrite Et|done|done].
Qed.

Lemma split_at_length {A} (l : list A) (n m : nat) : length l = (n + m)%nat ->
  exists l1 l2, l = l1 ++ l2 /\ length l1 = n /\ length l2 = m.
Proof.
  intros H. exists (take n l), (drop n l). rewrite take_drop, length_take, length_drop. split; [done|lia].
Qed.

Lemma tagalign_padded v : Z.of_nat (length v) < 2 ^ 31 - 4 -> FDT_TAGALIGN (Z.of_nat (length v)) = Z.of_nat (length (padded4 v)).
Proof.
  intros Hv. destruct (padded4_length v) as (k & -> & Hk). rewrite tagalign_nonneg by lia.
  assert (D := Z.div_mod (Z.of_nat (length v) + 3) 4 ltac:(lia)). assert (B := Z.mod_pos_bound (Z.of_nat (length v) + 3) 4 ltac:(lia)). lia.
Qed.

Lemma padded4_id v : Z.of_nat (length v) mod 4 = 0 -> padded4 v = v.
Proof.
  intros H. unfold padded4. rewrite Z_mod_zero_opp_full by done. cbn [Z.to_nat replicate]. apply app_nil_r.
Qed.

Lemma be32_u32 v : 0 <= v < 2 ^ 31 -> be32 (u32 v) = be32 v.
Proof. intros H. by rewrite u32_small by lia. Qed.

(** ** Properties *)

Section Properties.
Context {addr : Z} {ly : layout} {tokens : list token} (E : editable addr ly tokens).
Context (fuel : nat) (Hfuel : ly_total ly < Z.of_nat fuel).

Lemma ly_dn_same b slack (ly0 : layout) : ly_ds (with_struct b slack ly0) = ly_ds ly0.
Proof. done. Qed.

(** The three words in front of a value. *)
Lemma prop_words_run (ly0 : layout) A j1 j2 j3 v C prop off len :
  layout_ok addr ly0 -> ly_struct ly0 = A ++ (j1 ++ j2 ++ j3 ++ v) ++ C ->
  length j1 = 4%nat -> length j2 = 4%nat -> length j3 = 4%nat -> prop = ly_ds ly0 + Z.of_nat (length A) ->
  (fdt32_st prop FDT_PROP ;;; fdt32_st (prop_nameoff prop) off ;;; fdt32_st (prop_len prop) len ;;; ret (0, Some prop))%sbi (blob_of addr ly0) =
  (Ret (0, Some prop), blob_of addr (with_struct (A ++ (be32 FDT_PROP ++ be32 len ++ be32 off ++ v) ++ C) (ly_slack ly0) ly0)).
Proof.
  intros HO Es L1 L2 L3 ->. unfold fdt32_st, prop_nameoff, prop_len.
  erewrite bind_Ret.
  2: { apply (write_struct (addr := addr) (ly := ly0) A j1 (j2 ++ j3 ++ v ++ C) _ (ly_slack ly0)); [rewrite Es, <- !app_assoc; done|done|lia|done]. }
  erewrite bind_Ret.
  2: { apply (write_struct (addr := addr) (A ++ be32 FDT_PROP ++ j2) j3 (v ++ C) _ (ly_slack ly0));
         [cbn [with_struct ly_struct]; rewrite <- !app_assoc; done|done|rewrite ly_dn_same, !length_app, be32_length; lia|done]. }
  erewrite bind_Ret.
  2: { apply (write_struct (addr := addr) (A ++ be32 FDT_PROP) j2 (be32 off ++ v ++ C) _ (ly_slack ly0));
         [cbn [with_struct ly_struct]; rewrite <- !app_assoc; done|done|rewrite !ly_dn_same, !length_app, be32_length; lia|done]. }
  unfold ret. rewrite <- !app_assoc. done.
Qed.

Lemma add_property_run pre nm post name len :
  tokens = pre ++ BeginNode nm :: post -> nonzero name -> Z.of_nat (length name) <= ly_total ly -> 0 <= len < 2 ^ 30 ->
  let r := intern name (ly_strings ly) in
  let need := Z.of_nat (length (snd r)) - Z.of_nat (length (ly_strings ly)) + 12 + FDT_TAGALIGN len in
  let prop := ly_ds ly + size_of (pre ++ [BeginNode nm]) in
  (need <= Z.of_nat (length (ly_slack ly)) ->
   exists slack' junk, Z.of_nat (length junk) = FDT_TAGALIGN len /\ Z.of_nat (length slack') = Z.of_nat (length (ly_slack ly)) - need /\
     fdt_add_property_ fuel (size_of pre) (Cst name 0) len (blob_of addr ly) =
     (Ret (0, Some prop), blob_of addr (Layout (ly_cpu ly) (ly_rsv ly)
        (encode_all (pre ++ [BeginNode nm]) ++ (be32 FDT_PROP ++ be32 len ++ be32 (fst r) ++ junk) ++ encode_all post ++ be32 FDT_END)
        (snd r) slack' (ly_beyond ly)))) /\
  (Z.of_nat (length (ly_slack ly)) < need ->
   exists slack' p, length slack' = length (ly_slack ly) /\
     fdt_add_property_ fuel (size_of pre) (Cst name 0) len (blob_of addr ly) =
     (Ret (- FDT_ERR_NOSPACE, p), blob_of addr (with_slack slack' (ly_beyond ly) ly))).
Proof.
  intros Et Hn Hl Hlen r need prop. assert (H := ed_range E). assert (B := editable_blob E).
  assert (SF := struct_fuel B fuel Hfuel). assert (Hi := intern_range name (ly_strings ly)).
  assert (Hil := intern_length name (ly_strings ly)). fold r in Hi, Hil.
  assert (Hal : 0 <= FDT_TAGALIGN len < 2 ^ 30 + 4).
  { rewrite tagalign_nonneg by lia. assert (D := Z.div_mod (len + 3) 4 ltac:(lia)). assert (Bm := Z.mod_pos_bound (len + 3) 4 ltac:(lia)). lia. }
  destruct (find_add_string_run E fuel Hfuel name Hn Hl) as [F1 F2]. fold r in F1, F2. unfold need in *. clear need.
  set (more := Z.of_nat (length (snd r)) - Z.of_nat (length (ly_strings ly))) in *.
  assert (Hcheck := reads_check_node B fuel SF pre nm post Et).
  assert (Hgo : forall k, (nextoffset <- fdt_check_node_offset_ fuel (size_of pre) ;; k nextoffset)%sbi (blob_of addr ly) =
                     (k (size_of (pre ++ [BeginNode nm])) : M dtb (Z * option Z)) (blob_of addr ly)).
  { intros k. by rewrite (reads_bind_eq _ _ _ _ Hcheck). }
  unfold fdt_add_property_. rewrite Hgo. rewrite (proj2 (Z.ltb_ge _ 0)) by apply size_of_nonneg.
  destruct (Z.le_gt_cases more (Z.of_nat (length (ly_slack ly)))) as [Hm|Hm].
  2: { split; [lia|]. intros _. exists (ly_slack ly), None. split; [done|]. rewrite (bind_Ret _ _ _ _ _ (F2 Hm)). by destruct ly. }
  destruct (F1 Hm) as (slack1 & allocated & L1 & R1 & Ha). rewrite (bind_Ret _ _ _ _ _ R1). cbv beta iota.
  rewrite (proj2 (Z.ltb_ge _ 0)) by lia.
  destruct (ed_with_strings addr ly tokens (snd r) slack1 E ltac:(lia)) as [E1 Et1]. set (ly1 := with_strings (snd r) slack1 ly) in *.
  rewrite (reads_bind_eq _ _ _ _ (reads_offset_ptr_ (editable_blob E1) _)). change (ly_ds ly1) with (ly_ds ly). fold prop. cbv zeta.
  unfold sizeof_fdt_property. rewrite s32_small by lia.
  assert (Es : ly_struct ly1 = encode_all (pre ++ [BeginNode nm]) ++ [] ++ encode_all post ++ be32 FDT_END).
  { change (ly_struct ly1) with (ly_struct ly). rewrite (ed_struct _ _ _ E), Et, (encode_all_app pre [_]), encode_all_app, encode_all_cons.
    rewrite <- !app_assoc. unfold encode_all at 4. cbn [map concat]. by rewrite app_nil_r. }
  assert (Ep : prop = ly_ds ly1 + Z.of_nat (length (encode_all (pre ++ [BeginNode nm])))) by done.
  split; intros Hs.
  - destruct (splice_struct_run (ed_ok _ _ _ E1) _ _ _ (12 + FDT_TAGALIGN len) Es) as (junk & slack' & L2 & L3 & R2).
    { cbn [length ly1 with_strings ly_slack]. lia. }
    cbn [length ly1 with_strings ly_slack] in L3.
    destruct (split_at_length junk 4 (Z.to_nat (8 + FDT_TAGALIGN len)) ltac:(lia)) as (j1 & junk1 & -> & Lj1 & Lr1).
    destruct (split_at_length junk1 4 (Z.to_nat (4 + FDT_TAGALIGN len)) ltac:(lia)) as (j2 & junk2 & -> & Lj2 & Lr2).
    destruct (split_at_length junk2 4 (Z.to_nat (FDT_TAGALIGN len)) ltac:(lia)) as (j3 & v & -> & Lj3 & Lr3).
    exists slack', v. split; [lia|]. split; [lia|]. rewrite Ep at 1. cbn [length] in R2. rewrite (bind_Ret _ _ _ _ _ R2).
    cbn [truthy Z.eqb negb].
    set (ly2 := with_struct _ slack' ly1) in *.
    assert (O2 : layout_ok addr ly2).
    { destruct (ed_ok _ _ _ E1) as [H1 H2 H3 H4]. split; [done| |done|done].
      replace (ly_total ly2) with (ly_total ly1); [done|]. unfold ly_total, ly_data, ly_dn, ly_ds, ly2.
      cbn [with_struct ly_rsv ly_struct ly_strings ly_slack]. rewrite Es, !length_app in *. cbn [length ly1 with_strings ly_slack ly_strings]. lia. }
    rewrite (prop_words_run ly2 (encode_all (pre ++ [BeginNode nm])) j1 j2 j3 v (encode_all post ++ be32 FDT_END) prop (fst r) (u32 len) O2); [|done|done|done|done|done].
    rewrite u32_small by lia. done.
  - erewrite bind_Ret.
    2: { rewrite Ep at 1. exact (splice_struct_full (ed_ok _ _ _ E1) _ [] _ (12 + FDT_TAGALIGN len) Es ltac:(cbn [length ly1 with_strings ly_slack]; lia)). }
    change (truthy (- FDT_ERR_NOSPACE)) with true. cbv iota. destruct allocated.
    + unfold fdt_del_last_string_. exists ((name ++ [0]) ++ slack1), (Some prop).
      assert (Lm : more = Z.of_nat (length name) + 1) by (unfold more; rewrite Ha, !length_app; cbn [length]; lia).
      split; [rewrite !length_app; cbn [length]; lia|].
      erewrite bind_Ret; [reflexivity|].
      assert (Hl1 : Z.of_nat (length name) <= ly_total ly1) by (rewrite Et1; done).
      rewrite (reads_bind_eq _ _ _ _ (reads_lit_strlen (s := blob_of addr ly1) fuel (eq_ind_r (λ t, t < Z.of_nat fuel) Hfuel Et1) name Hn Hl1)).
      rewrite s32_small by (cbn [length] in *; lia).
      rewrite (drop_string (ed_ok _ _ _ E1) (ly_strings ly) (name ++ [0])); [done| |rewrite length_app; cbn [length]; lia].
      done.
    + exists slack1, (Some prop). assert (Lm : more = 0) by (unfold more; rewrite Ha; lia).
      split; [lia|]. rewrite bind_ret_l. unfold ret, ly1. by rewrite Ha.
Qed.

Lemma reads_get_property pre nname post name :
  tokens = pre ++ BeginNode nname :: post -> nonzero name -> Z.of_nat (length name) <= ly_total ly ->
  reads (blob_of addr ly) (fdt_get_property fuel (size_of pre) (Cst name 0))
    match find_prop (ly_strings ly) name (pre ++ [BeginNode nname]) post with
    | inr (o, v) => (Some (ly_ds ly + o), Z.of_nat (length v))
    | inl e => (None, e)
    end.
Proof.
  intros Et Hn Hl. assert (H := ed_range E). assert (B := editable_blob E). assert (SF := struct_fuel B fuel Hfuel).
  assert (E' : tokens = (pre ++ [BeginNode nname]) ++ post) by (by rewrite <- app_assoc).
  unfold fdt_get_property. eapply reads_bind; [by apply (reads_lit_strlen fuel Hfuel)|]. rewrite s32_small by lia.
  unfold fdt_get_property_namelen. eapply reads_bind; [apply (reads_version B)|]. change (17 <? 16) with false. cbv iota.
  eapply reads_bind.
  { unfold fdt_get_property_namelen_. eapply reads_bind.
    { unfold fdt_first_property_offset. eapply reads_bind; [by eapply (reads_check_node B fuel SF)|].
      rewrite (proj2 (Z.ltb_ge _ 0)) by apply size_of_nonneg. by apply (reads_nextprop B fuel Hfuel). }
    apply (reads_get_property_loop B fuel Hfuel (Cst name 0) name _ post); [by eapply holds_app_l, holds_cst|lia|done|by eapply post_fuel; [exact SF|]]. }
  destruct (find_prop _ _ _ _) as [e|[o v]]; apply reads_ret.
Qed.

End Properties.

(** A layout with other tags and strings. *)
Definition edited (tokens : list token) (strings slack : list Z) (ly : layout) : layout :=
  Layout (ly_cpu ly) (ly_rsv ly) (encode_all tokens ++ be32 FDT_END) strings slack (ly_beyond ly).

Lemma ed_edited addr ly tokens tokens' strings slack :
  editable addr ly tokens ->
  size_of tokens' + Z.of_nat (length strings) + Z.of_nat (length slack) =
    size_of tokens + Z.of_nat (length (ly_strings ly)) + Z.of_nat (length (ly_slack ly)) ->
  Forall token_ok tokens' ->
  editable addr (edited tokens' strings slack ly) tokens' /\ ly_total (edited tokens' strings slack ly) = ly_total ly.
Proof.
  intros E L Ht.
  assert (Et : ly_total (edited tokens' strings slack ly) = ly_total ly).
  { assert (Ls := ed_struct_length E). unfold size_of in *. unfold ly_total, ly_data, ly_dn, ly_ds.
    cbn [edited ly_rsv ly_struct ly_strings ly_slack]. rewrite length_app, be32_length. lia. }
  split; [|done]. destruct E as [[H1 H2 H3 H4] Es _]. split; [|done|done]. split; [done|by rewrite Et|done|done].
Qed.

(** What follows the attributes of a node. *)
Definition ends_attrs (post : list token) : Prop :=
  match post with Prop_ _ _ :: _ | Nop :: _ | [] => False | _ => True end.

Lemma split_find strings name attrs pre post :
  forallb is_attr attrs = true -> ends_attrs post ->
  match find_prop strings name pre (attrs ++ post) with
  | inr (o, v) => exists a1 off a2, split_attr strings name attrs = Some (a1, (off, v), a2) /\ attrs = a1 ++ Prop_ off v :: a2 /\ o = size_of (pre ++ a1)
  | inl e => e = - FDT_ERR_NOTFOUND /\ split_attr strings name attrs = None
  end.
Proof.
  intros H Hp. revert pre. induction attrs as [|t attrs IH]; intros pre.
  { destruct post as [|[] post]; done. }
  cbn [forallb] in H. apply andb_true_iff in H as [Ht H]. specialize (IH H (pre ++ [t])).
  destruct t as [n| |nameoff v|]; try done; cbn [app split_attr find_prop]; [destruct (bool_decide _)|].
  { exists [], nameoff, attrs. by rewrite app_nil_r. }
  all: destruct (find_prop _ _ _ _) as [e|[o v']]; [by destruct IH as [-> ->]|];
    destruct IH as (a1 & off & a2 & -> & -> & ->); cbn [fmap option_fmap option_map fst snd];
    eexists (_ :: a1), off, a2; by rewrite <- app_assoc.
Qed.

(** Filling in a value. *)
Lemma fill_value addr (ly0 : layout) A junk C value o :
  ly_struct ly0 = A ++ junk ++ C -> length junk = length value -> Z.of_nat (length value) < 2 ^ 30 -> o = ly_ds ly0 + Z.of_nat (length A) ->
  ((if truthy (Z.of_nat (length value)) then memcpy_val o value (Z.of_nat (length value)) else ret tt) ;;; ret 0)%sbi (blob_of addr ly0) =
  (Ret 0, blob_of addr (with_struct (A ++ value ++ C) (ly_slack ly0) ly0)).
Proof.
  intros Es El Hl ->. destruct value as [|b value].
  - destruct junk; [|done]. change (truthy (Z.of_nat (length (@nil Z)))) with false. cbv iota. unfold bind, ret, with_struct. cbn [app] in *.
    rewrite <- Es. by destruct ly0.
  - unfold truthy. rewrite (proj2 (Z.eqb_neq _ 0)) by (cbn [length]; lia). cbn [negb]. unfold memcpy_val.
    rewrite u64_small by (unfold is_u64; lia). rewrite (proj2 (Z.ltb_ge _ _)), Nat2Z.id, take_ge by lia.
    erewrite bind_Ret; [reflexivity|]. by apply (write_struct (addr := addr) A junk C).
Qed.

Section Setprop.
Context {addr : Z} {ly : layout} {tokens : list token} (E : editable addr ly tokens).

(** The value of a property becomes another one. *)
Lemma resize_run pre off v post (value : list Z) :
  tokens = pre ++ Prop_ off v :: post -> Z.of_nat (length value) mod 4 = 0 -> Z.of_nat (length value) < 2 ^ 30 ->
  let prop := ly_ds ly + size_of pre in
  let need := Z.of_nat (length value) - Z.of_nat (length (padded4 v)) in
  let c := unless_err (fdt_splice_struct_ (prop_data prop) (FDT_TAGALIGN (Z.of_nat (length v))) (FDT_TAGALIGN (Z.of_nat (length value))))
             (fdt32_st (prop_len prop) (u32 (Z.of_nat (length value))) ;;; ret 0)%sbi in
  (need <= Z.of_nat (length (ly_slack ly)) ->
   exists (slack' junk : list Z), length junk = length value /\ Z.of_nat (length slack') = Z.of_nat (length (ly_slack ly)) - need /\
     c (blob_of addr ly) = (Ret 0, blob_of addr (with_struct
       (encode_all pre ++ (be32 FDT_PROP ++ be32 (Z.of_nat (length value)) ++ be32 off ++ junk) ++ encode_all post ++ be32 FDT_END) slack' ly))) /\
  (Z.of_nat (length (ly_slack ly)) < need -> c (blob_of addr ly) = (Ret (- FDT_ERR_NOSPACE), blob_of addr ly)).
Proof.
  intros Et Hv4 Hv prop need c. assert (H := ed_range E).
  set (A := encode_all pre ++ be32 FDT_PROP ++ be32 (Z.of_nat (length v)) ++ be32 off).
  assert (Es : ly_struct ly = A ++ padded4 v ++ encode_all post ++ be32 FDT_END).
  { rewrite (ed_struct _ _ _ E), Et, encode_all_app, encode_all_cons. cbn [encode]. subst A. by rewrite <- !app_assoc. }
  assert (Lp : prop_data prop = ly_ds ly + Z.of_nat (length A)).
  { subst A prop. unfold prop_data. rewrite !length_app, !be32_length. unfold size_of. lia. }
  assert (Hs : Z.of_nat (length (padded4 v)) + Z.of_nat (length (ly_slack ly)) + 40 <= ly_total ly).
  { assert (Ls := ed_struct_length E). rewrite Es, !length_app in Ls. lia. }
  destruct (padded4_length v) as (k & Ek & Hk).
  subst c. rewrite !tagalign_padded, Lp by lia. rewrite (padded4_id value) by done.
  assert (O := ed_ok _ _ _ E). split; intros Hn; subst need.
  - destruct (splice_struct_run O A (padded4 v) (encode_all post ++ be32 FDT_END) (Z.of_nat (length value)) Es) as (junk & slack' & L1 & L2 & R); [lia|].
    exists slack', junk. split; [lia|]. split; [lia|]. unfold unless_err. rewrite (bind_Ret _ _ _ _ _ R). cbn [truthy Z.eqb negb].
    rewrite u32_small by lia. unfold fdt32_st, prop_len.
    erewrite bind_Ret.
    2: { apply (write_struct (addr := addr) (encode_all pre ++ be32 FDT_PROP) (be32 (Z.of_nat (length v))) (be32 off ++ junk ++ encode_all post ++ be32 FDT_END) _ slack');
           [cbn [with_struct ly_struct]; subst A; rewrite <- !app_assoc; done|done| |done].
         rewrite ly_dn_same. subst prop. rewrite length_app, be32_length. unfold size_of. lia. }
    unfold ret. rewrite <- !app_assoc. done.
  - unfold unless_err. rewrite (bind_Ret _ _ _ _ _ (splice_struct_full O A (padded4 v) _ (Z.of_nat (length value)) Es ltac:(lia))). done.
Qed.

End Setprop.

Lemma with_slack_id ly : with_slack (ly_slack ly) (ly_beyond ly) ly = ly.
Proof. by destruct ly. Qed.

Section Setting.
Context {addr : Z} {ly : layout} {tokens : list token} (E : editable addr ly tokens).
Context (fuel : nat) (Hfuel : ly_total ly < Z.of_nat fuel).

(** Room that an edit takes. *)
Definition growth (tokens' : list token) (strings : list Z) : Z :=
  size_of tokens' - size_of tokens + Z.of_nat (length strings) - Z.of_nat (length (ly_strings ly)).

(** An operation that makes this edit: it succeeds when there is room for it, and
    fails otherwise, leaving the tree as it was. *)
Definition makes_edit {A} (c : M dtb A) (ok full : A) (tokens' : list token) (strings : list Z) : Prop :=
  (growth tokens' strings <= Z.of_nat (length (ly_slack ly)) ->
   exists slack', Z.of_nat (length slack') = Z.of_nat (length (ly_slack ly)) - growth tokens' strings /\
     c (blob_of addr ly) = (Ret ok, blob_of addr (edited tokens' strings slack' ly))) /\
  (Z.of_nat (length (ly_slack ly)) < growth tokens' strings ->
   exists slack', length slack' = length (ly_slack ly) /\
     c (blob_of addr ly) = (Ret full, blob_of addr (with_slack slack' (ly_beyond ly) ly))).

(** fdt_setprop once the property has been resized or added. *)
Definition finish_setprop (value : list Z) (len : Z) (r : Z * option Z) : M dtb Z :=
  match (if truthy (fst r) then None else prop_data <$> snd r) with
  | None => ret (fst r)
  | Some data => ((if truthy len then memcpy_val data value len else ret tt) ;;; ret 0)%sbi
  end.

Lemma setprop_steps nodeoffset name value len :
  fdt_setprop fuel nodeoffset name value len (blob_of addr ly) =
  (r <- fdt_resize_property_ fuel nodeoffset name len ;;
   if fst r =? - FDT_ERR_NOTFOUND then r <- fdt_add_property_ fuel nodeoffset name len ;; finish_setprop value len r
   else finish_setprop value len r)%sbi (blob_of addr ly).
Proof.
  unfold fdt_setprop, fdt_setprop_placeholder, finish_setprop. unfold bind at 1. rewrite (rw_probed_run (ed_ok _ _ _ E)).
  unfold bind. destruct (fdt_resize_property_ _ _ _ _ _) as [[r|w] s1]; [|done].
  destruct (fst r =? - FDT_ERR_NOTFOUND).
  - destruct (fdt_add_property_ _ _ _ _ s1) as [[r1|w] s2]; [|done]. unfold ret. by destruct (truthy (fst r1)), (snd r1).
  - unfold ret. by destruct (truthy (fst r)), (snd r).
Qed.

Lemma setprop_run pre nm attrs post name value :
  tokens = pre ++ BeginNode nm :: attrs ++ post -> forallb is_attr attrs = true -> ends_attrs post ->
  nonzero name -> Z.of_nat (length name) <= ly_total ly ->
  Z.of_nat (length value) mod 4 = 0 -> Z.of_nat (length value) < 2 ^ 30 ->
  let r := set_attr (ly_strings ly) name value attrs in
  makes_edit (fdt_setprop fuel (size_of pre) (Cst name 0) value (Z.of_nat (length value))) 0 (- FDT_ERR_NOSPACE)
    (pre ++ BeginNode nm :: fst r ++ post) (snd r).
Proof.
  intros Et Hattrs Hpost Hn Hl Hv4 Hv r. assert (H := ed_range E). assert (O := ed_ok _ _ _ E).
  assert (F := split_find (ly_strings ly) name attrs (pre ++ [BeginNode nm]) post Hattrs Hpost).
  assert (G := reads_get_property E fuel Hfuel pre nm (attrs ++ post) name Et Hn Hl).
  unfold makes_edit, growth. rewrite setprop_steps. subst r. unfold set_attr.
  destruct (find_prop _ _ _ _) as [e|[o v]].
  - destruct F as [-> ->].
    assert (R0 : fdt_resize_property_ fuel (size_of pre) (Cst name 0) (Z.of_nat (length value)) (blob_of addr ly) = (Ret (- FDT_ERR_NOTFOUND, None), blob_of addr ly)).
    { unfold fdt_resize_property_. by rewrite (reads_bind_eq _ _ _ _ G). }
    rewrite (bind_Ret _ _ _ _ _ R0). cbn [fst]. rewrite Z.eqb_refl.
    destruct (add_property_run E fuel Hfuel pre nm (attrs ++ post) name (Z.of_nat (length value)) Et Hn Hl ltac:(lia)) as [A1 A2].
    destruct (intern name (ly_strings ly)) as [off strings'] eqn:Ei. cbn [fst snd] in *.
    rewrite tagalign_padded, (padded4_id value) in * by first [done|lia].
    replace (pre ++ BeginNode nm :: (Prop_ off value :: attrs) ++ post) with ((pre ++ [BeginNode nm]) ++ Prop_ off value :: (attrs ++ post)) by (rewrite <- !app_assoc; done).
    assert (Eg : size_of ((pre ++ [BeginNode nm]) ++ Prop_ off value :: (attrs ++ post)) - size_of tokens = 12 + Z.of_nat (length value)).
    { rewrite Et, !size_of_app, !size_of_cons, !size_of_app. cbn [encode]. rewrite (padded4_id value), !length_app, !be32_length by done.
      change (size_of []) with 0. lia. }
    split; intros Hs.
    + destruct A1 as (slack' & junk & L1 & L2 & R); [lia|]. exists slack'. split; [lia|].
      rewrite (bind_Ret _ _ _ _ _ R). unfold finish_setprop. cbn [fst snd truthy Z.eqb negb fmap option_fmap option_map].
      erewrite (fill_value addr _ (encode_all (pre ++ [BeginNode nm]) ++ be32 FDT_PROP ++ be32 (Z.of_nat (length value)) ++ be32 off) junk
                  (encode_all (attrs ++ post) ++ be32 FDT_END) value);
        [|cbn [ly_struct]; rewrite <- !app_assoc; done|lia|lia|].
      2: { unfold prop_data. rewrite !length_app, !be32_length. unfold size_of. cbn [ly_ds ly_rsv]. unfold ly_ds. cbn [ly_rsv]. lia. }
      unfold edited, with_struct. cbn [ly_cpu ly_rsv ly_strings ly_slack ly_beyond].
      rewrite (encode_all_app (pre ++ [_]) (Prop_ _ _ :: _)), encode_all_cons. cbn [encode]. rewrite (padded4_id value), <- !app_assoc by done. done.
    + destruct A2 as (slack' & p & L1 & R); [lia|]. exists slack'. split; [done|]. by rewrite (bind_Ret _ _ _ _ _ R).
  - destruct F as (a1 & off & a2 & -> & -> & ->). cbn [fst snd].
    assert (Et' : tokens = ((pre ++ [BeginNode nm]) ++ a1) ++ Prop_ off v :: a2 ++ post) by (rewrite Et, <- !app_assoc; done).
    destruct (resize_run E _ _ _ _ value Et' Hv4 Hv) as [A1 A2].
    replace (pre ++ BeginNode nm :: (a1 ++ Prop_ off value :: a2) ++ post) with (((pre ++ [BeginNode nm]) ++ a1) ++ Prop_ off value :: (a2 ++ post)) by (rewrite <- !app_assoc; done).
    assert (Eg : size_of (((pre ++ [BeginNode nm]) ++ a1) ++ Prop_ off value :: (a2 ++ post)) - size_of tokens = Z.of_nat (length value) - Z.of_nat (length (padded4 v))).
    { rewrite Et', !size_of_app, !size_of_cons, !size_of_app. cbn [encode]. rewrite (padded4_id value), !length_app, !be32_length by done. lia. }
    set (prop := ly_ds ly + size_of ((pre ++ [BeginNode nm]) ++ a1)) in *.
    assert (R0 : forall err s', unless_err (fdt_splice_struct_ (prop_data prop) (FDT_TAGALIGN (Z.of_nat (length v))) (FDT_TAGALIGN (Z.of_nat (length value))))
             (fdt32_st (prop_len prop) (u32 (Z.of_nat (length value))) ;;; ret 0)%sbi (blob_of addr ly) = (Ret err, s') ->
             fdt_resize_property_ fuel (size_of pre) (Cst name 0) (Z.of_nat (length value)) (blob_of addr ly) = (Ret (err, Some prop), s')).
    { intros err s' R. unfold fdt_resize_property_. rewrite (reads_bind_eq _ _ _ _ G). by rewrite (bind_Ret _ _ _ _ _ R). }
    split; intros Hs.
    + destruct A1 as (slack' & junk & L1 & L2 & R); [lia|]. exists slack'. split; [lia|].
      rewrite (bind_Ret _ _ _ _ _ (R0 _ _ R)). cbn [fst]. change (0 =? - FDT_ERR_NOTFOUND) with false. cbv iota.
      unfold finish_setprop. cbn [fst snd truthy Z.eqb negb fmap option_fmap option_map].
      erewrite (fill_value addr _ (encode_all ((pre ++ [BeginNode nm]) ++ a1) ++ be32 FDT_PROP ++ be32 (Z.of_nat (length value)) ++ be32 off) junk
                  (encode_all (a2 ++ post) ++ be32 FDT_END) value);
        [|cbn [with_struct ly_struct]; rewrite <- !app_assoc; done|lia|lia|].
      2: { subst prop. unfold prop_data. rewrite ly_dn_same, !length_app, !be32_length. unfold size_of. lia. }
      unfold edited, with_struct. cbn [ly_cpu ly_rsv ly_strings ly_slack ly_beyond].
      rewrite (encode_all_app (_ ++ a1) (Prop_ _ _ :: _)), encode_all_cons. cbn [encode]. rewrite (padded4_id value), <- !app_assoc by done. done.
    + exists (ly_slack ly). split; [done|]. rewrite (bind_Ret _ _ _ _ _ (R0 _ _ (A2 ltac:(lia)))). cbn [fst].
      change (- FDT_ERR_NOSPACE =? - FDT_ERR_NOTFOUND) with false. by rewrite with_slack_id.
Qed.

(** A change of the structure block alone. *)
Lemma struct_edit (c : M dtb Z) ok tokens' :
  (size_of tokens' - size_of tokens <= Z.of_nat (length (ly_slack ly)) ->
   exists slack', Z.of_nat (length slack') = Z.of_nat (length (ly_slack ly)) - (size_of tokens' - size_of tokens) /\
     c (blob_of addr ly) = (Ret ok, blob_of addr (with_struct (encode_all tokens' ++ be32 FDT_END) slack' ly))) ->
  (Z.of_nat (length (ly_slack ly)) < size_of tokens' - size_of tokens -> c (blob_of addr ly) = (Ret (- FDT_ERR_NOSPACE), blob_of addr ly)) ->
  makes_edit c ok (- FDT_ERR_NOSPACE) tokens' (ly_strings ly).
Proof.
  intros H1 H2. unfold makes_edit, growth.
  replace (size_of tokens' - size_of tokens + Z.of_nat (length (ly_strings ly)) - Z.of_nat (length (ly_strings ly))) with (size_of tokens' - size_of tokens) by lia.
  split; intros Hs; [exact (H1 Hs)|]. exists (ly_slack ly). split; [done|]. by rewrite with_slack_id, (H2 Hs).
Qed.

(** ** Nodes *)

Lemma reads_after_props pre attrs post n :
  tokens = pre ++ attrs ++ post -> forallb is_attr attrs = true -> ends_attrs post -> (length attrs < n)%nat ->
  reads (blob_of addr ly) (after_props fuel n (size_of pre)) (size_of (pre ++ attrs)).
Proof.
  assert (B := editable_blob E). assert (SF := struct_fuel B fuel Hfuel).
  revert pre n. induction attrs as [|t attrs IH]; intros pre n Et Ha Hp Hn; (destruct n as [|n]; [cbn in Hn; lia|]); cbn [after_props].
  - destruct post as [|t post]; [done|]. rewrite app_nil_r. eapply reads_bind; [by eapply (reads_next_tag B fuel SF pre t post)|].
    cbn [fst snd]. destruct t; try done; apply reads_ret.
  - cbn [forallb] in Ha. apply andb_true_iff in Ha as [Ht Ha]. cbn [length] in Hn.
    eapply reads_bind; [by eapply (reads_next_tag B fuel SF pre t (attrs ++ post))|]. cbn [fst snd].
    assert (R := IH (pre ++ [t]) n ltac:(by rewrite <- app_assoc) Ha Hp ltac:(lia)). rewrite <- app_assoc in R. cbn [app] in R.
    by destruct t.
Qed.

Definition empty_node (name : list Z) : list token := [BeginNode name; EndNode].

Lemma empty_node_encode name :
  encode_all (empty_node name) = be32 FDT_BEGIN_NODE ++ padded4 (name ++ [0]) ++ be32 FDT_END_NODE.
Proof. unfold empty_node, encode_all. cbn [map concat encode]. by rewrite app_nil_r, <- app_assoc. Qed.

Lemma memset_struct (ly0 : layout) A m C n o :
  ly_struct ly0 = A ++ m ++ C -> Z.of_nat (length m) = n -> 0 < n -> o = ly_ds ly0 + Z.of_nat (length A) ->
  memset0 o n (blob_of addr ly0) = (Ret tt, blob_of addr (with_struct (A ++ replicate (length m) 0 ++ C) (ly_slack ly0) ly0)).
Proof.
  intros Es <- Hn ->. unfold memset0. rewrite (proj2 (Z.eqb_neq _ 0)), Nat2Z.id by lia.
  assert (Hin : inside_blob (ly_ds ly0 + Z.of_nat (length A)) (Z.of_nat (length m)) (dt_bytes (blob_of addr ly0)) = true).
  { cbn [blob_of dt_bytes]. unfold ly_bytes, ly_rest, inside_blob, ly_ds. rewrite Es, !length_app, words_bytes_length.
    cbn [ly_words length]. apply andb_true_iff. split; apply Z.leb_le; lia. }
  rewrite Hin. apply (write_struct (addr := addr) A m C); [done|by rewrite length_replicate|done|done].
Qed.

(** A name over zeros. *)
Lemma padded_name name :
  name ++ replicate (length (padded4 (name ++ [0])) - length name) 0 = padded4 (name ++ [0]).
Proof.
  unfold padded4 at 2. rewrite <- app_assoc. f_equal.
  assert (E0 : forall k, [0] ++ replicate k 0 = replicate (S k) (0 : Z)) by done. rewrite E0. f_equal.
  unfold padded4. rewrite !length_app, length_replicate. cbn [length]. lia.
Qed.

(** The bytes of the new node, over what was there. *)
Lemma node_words_run (ly0 : layout) A j1 j2 j3 C nh name r :
  ly_struct ly0 = A ++ (j1 ++ j2 ++ j3) ++ C -> nh = ly_ds ly0 + Z.of_nat (length A) ->
  length j1 = 4%nat -> length j2 = length (padded4 (name ++ [0])) -> length j3 = 4%nat -> Z.of_nat (length name) < 2 ^ 30 ->
  (fdt32_st nh FDT_BEGIN_NODE ;;;
   memset0 (nh + FDT_TAGSIZE) (Z.of_nat (length (padded4 (name ++ [0])))) ;;;
   memcpy_str (nh + FDT_TAGSIZE) (Cst name 0) (Z.of_nat (length name)) ;;;
   fdt32_st (nh + (8 + Z.of_nat (length (padded4 (name ++ [0])))) - FDT_TAGSIZE) FDT_END_NODE ;;; ret r)%sbi (blob_of addr ly0) =
  (Ret r : outcome Z, blob_of addr (with_struct (A ++ encode_all (empty_node name) ++ C) (ly_slack ly0) ly0)).
Proof.
  intros Es -> L1 L2 L3 Hl. unfold fdt32_st, FDT_TAGSIZE. rewrite empty_node_encode.
  assert (Hp : (length name < length (padded4 (name ++ [0%Z])))%nat) by (unfold padded4; rewrite !length_app; cbn [length]; lia).
  erewrite bind_Ret.
  2: { apply (write_struct (addr := addr) (ly := ly0) A j1 (j2 ++ j3 ++ C) _ (ly_slack ly0)); [rewrite Es, <- !app_assoc; done|done|lia|done]. }
  erewrite bind_Ret.
  2: { apply (memset_struct _ (A ++ be32 FDT_BEGIN_NODE) j2 (j3 ++ C));
         [cbn [with_struct ly_struct]; rewrite <- !app_assoc; done|by rewrite L2|lia|].
       rewrite ly_dn_same, length_app, be32_length. lia. }
  assert (Ez : replicate (length j2) 0 = replicate (length name) 0 ++ replicate (length (padded4 (name ++ [0])) - length name) 0).
  { rewrite <- replicate_add, L2. f_equal. lia. }
  erewrite bind_Ret.
  2: { unfold memcpy_str. rewrite u64_small by (unfold is_u64; lia). rewrite Nat2Z.id.
       rewrite (reads_bind_eq _ _ _ _ (reads_read_chars _ (length name) (Cst name 0) (name ++ [0]) (holds_cst _ name) ltac:(rewrite length_app; lia))).
       rewrite take_app_length.
       apply (write_struct (addr := addr) (A ++ be32 FDT_BEGIN_NODE) (replicate (length name) 0)
         (replicate (length (padded4 (name ++ [0])) - length name) 0 ++ j3 ++ C) name (ly_slack ly0));
         [cbn [with_struct ly_struct]; rewrite Ez, <- !app_assoc; done|by rewrite length_replicate| |done].
       rewrite !ly_dn_same, length_app, be32_length. lia. }
  erewrite bind_Ret.
  2: { apply (write_struct (addr := addr) (A ++ be32 FDT_BEGIN_NODE ++ padded4 (name ++ [0])) j3 C _ (ly_slack ly0));
         [cbn [with_struct ly_struct]; rewrite <- !app_assoc, (app_assoc name), padded_name; done|done| |done].
       rewrite !ly_dn_same, !length_app, be32_length. lia. }
  unfold ret. rewrite <- !app_assoc. done.
Qed.

Lemma add_subnode_run pre nm attrs post name :
  tokens = pre ++ BeginNode nm :: attrs ++ post -> forallb is_attr attrs = true -> ends_attrs post ->
  nonzero name -> Z.of_nat (length name) <= ly_total ly -> Z.of_nat (length name) < 2 ^ 30 ->
  find_child (node_named name) (pre ++ [BeginNode nm]) (attrs ++ post) 0 = - FDT_ERR_NOTFOUND ->
  makes_edit (fdt_add_subnode fuel (size_of pre) (Cst name 0)) (size_of (pre ++ BeginNode nm :: attrs)) (- FDT_ERR_NOSPACE)
    (pre ++ BeginNode nm :: attrs ++ empty_node name ++ post) (ly_strings ly).
Proof.
  intros Et Ha Hp Hn Hl Hl30 Hnew. assert (H := ed_range E). assert (O := ed_ok _ _ _ E).
  assert (B := editable_blob E). assert (SF := struct_fuel B fuel Hfuel).
  assert (Rp := reads_after_props (pre ++ [BeginNode nm]) attrs post fuel ltac:(by rewrite <- app_assoc) Ha Hp).
  set (before := pre ++ BeginNode nm :: attrs). rewrite <- app_assoc in Rp. cbn [app] in Rp. fold before in Rp.
  replace (pre ++ BeginNode nm :: attrs ++ empty_node name ++ post) with (before ++ empty_node name ++ post) by (subst before; by rewrite <- app_assoc).
  assert (Eb : tokens = before ++ post) by (subst before; by rewrite <- app_assoc).
  set (padlen := Z.of_nat (length (padded4 (name ++ [0])))).
  assert (Hpl : 4 <= padlen < 2 ^ 30 + 8).
  { destruct (padded4_length (name ++ [0])) as (k & Ek & Hk). rewrite length_app in Hk. cbn [length] in Hk. subst padlen. lia. }
  assert (Eg : size_of (before ++ empty_node name ++ post) - size_of tokens = 8 + padlen).
  { rewrite Eb, !size_of_app. unfold size_of at 2. rewrite empty_node_encode, !length_app, !be32_length. subst padlen. lia. }
  assert (Es : ly_struct ly = encode_all before ++ [] ++ encode_all post ++ be32 FDT_END).
  { rewrite (ed_struct _ _ _ E), Eb, encode_all_app, <- app_assoc. done. }
  assert (R0 : fdt_add_subnode fuel (size_of pre) (Cst name 0) (blob_of addr ly) =
    (let nh := ly_ds ly + size_of before in
     unless_err (fdt_splice_struct_ nh 0 (8 + padlen))
       (fdt32_st nh FDT_BEGIN_NODE ;;;
        memset0 (nh + FDT_TAGSIZE) padlen ;;;
        memcpy_str (nh + FDT_TAGSIZE) (Cst name 0) (Z.of_nat (length name)) ;;;
        fdt32_st (nh + (8 + padlen) - FDT_TAGSIZE) FDT_END_NODE ;;;
        ret (size_of before)))%sbi (blob_of addr ly)).
  { unfold fdt_add_subnode, fdt_add_subnode_namelen. rewrite (reads_bind_eq _ _ _ _ (reads_lit_strlen fuel Hfuel name Hn Hl)), s32_small by lia.
    rewrite (rw_probed_run O).
    rewrite (reads_bind_eq _ _ _ _ (reads_subnode_offset B fuel Hfuel pre nm (attrs ++ post) (Cst name 0) name Et ltac:(by eapply holds_app_l, holds_cst))), Hnew.
    change (0 <=? - FDT_ERR_NOTFOUND) with false. change (negb (- FDT_ERR_NOTFOUND =? - FDT_ERR_NOTFOUND)) with false. cbv iota.
    rewrite (reads_bind_eq _ _ _ _ (reads_next_tag B fuel SF pre _ _ Et)). cbn [fst snd token_tag].
    change (negb (FDT_BEGIN_NODE =? FDT_BEGIN_NODE)) with false. cbv iota.
    rewrite (reads_bind_eq _ _ _ _ (Rp ltac:(assert (Hx := post_fuel fuel SF _ _ Et); cbn [length] in Hx; rewrite length_app in Hx; lia))).
    rewrite (reads_bind_eq _ _ _ _ (reads_offset_ptr_ B _)). cbv zeta. rewrite (s32_small (Z.of_nat (length name) + 1)) by lia.
    replace (FDT_TAGALIGN (Z.of_nat (length name) + 1)) with padlen.
    2: { subst padlen. rewrite <- tagalign_padded by (rewrite length_app; cbn [length]; lia). f_equal. rewrite length_app. cbn [length]. lia. }
    unfold FDT_TAGSIZE. rewrite s32_small, u64_small by (unfold is_u64; lia). replace (4 + padlen + 4) with (8 + padlen) by lia. done. }
  assert (Lb : size_of before = Z.of_nat (length (encode_all before))) by done.
  apply struct_edit; intros Hs; rewrite R0; cbv zeta; unfold unless_err.
  - rewrite Eg in *. destruct (splice_struct_run O _ _ _ (8 + padlen) Es) as (junk & slack' & L1 & L2 & R); [cbn [length]; lia|].
    exists slack'. split; [cbn [length] in L2; lia|]. cbn [length] in R. rewrite Lb at 1. rewrite (bind_Ret _ _ _ _ _ R). cbn [truthy Z.eqb negb].
    destruct (split_at_length junk 4 (Z.to_nat (padlen + 4)) ltac:(lia)) as (j1 & junk1 & -> & Lj1 & Lr1).
    destruct (split_at_length junk1 (Z.to_nat padlen) 4 ltac:(lia)) as (j2 & j3 & -> & Lj2 & Lj3).
    subst padlen. rewrite (node_words_run (with_struct (encode_all before ++ (j1 ++ j2 ++ j3) ++ encode_all post ++ be32 FDT_END) slack' ly)
               (encode_all before) j1 j2 j3 (encode_all post ++ be32 FDT_END)); [|done|done|done|lia|lia|done].
    rewrite (encode_all_app before (empty_node name ++ post)), (encode_all_app (empty_node name) post), <- !app_assoc. done.
  - rewrite Eg in *. rewrite Lb at 1.
    assert (R := splice_struct_full O _ _ _ (8 + padlen) Es ltac:(cbn [length]; lia)). cbn [length] in R.
    rewrite (bind_Ret _ _ _ _ _ R). done.
Qed.

(** ** Deleting *)

(** Part of the structure block is cut out. *)
Lemma cut_run pre mid post :
  tokens = pre ++ mid ++ post ->
  exists slack', Z.of_nat (length slack') = Z.of_nat (length (ly_slack ly)) + size_of mid /\
    fdt_splice_struct_ (ly_ds ly + size_of pre) (size_of mid) 0 (blob_of addr ly) =
    (Ret 0, blob_of addr (edited (pre ++ post) (ly_strings ly) slack' ly)).
Proof.
  intros Et. assert (O := ed_ok _ _ _ E).
  assert (Es : ly_struct ly = encode_all pre ++ encode_all mid ++ encode_all post ++ be32 FDT_END).
  { rewrite (ed_struct _ _ _ E), Et, !encode_all_app, <- !app_assoc. done. }
  destruct (splice_struct_run O _ _ _ 0 Es) as (junk & slack' & L1 & L2 & R); [lia|].
  destruct junk; [|cbn [length] in L1; lia]. exists slack'. cbn [length] in L2. unfold size_of at 1. split; [lia|].
  rewrite size_length in R. rewrite size_length in R. rewrite R. unfold edited. rewrite encode_all_app, <- app_assoc. done.
Qed.

(** Where a node ends: after its end tag. *)
Fixpoint node_end_spec (pre post : list token) (d : Z) : Z :=
  match post with
  | [] => - FDT_ERR_NOTFOUND
  | BeginNode name :: post' => node_end_spec (pre ++ [BeginNode name]) post' (d + 1)
  | EndNode :: post' => if d =? 0 then size_of (pre ++ [EndNode]) else node_end_spec (pre ++ [EndNode]) post' (d - 1)
  | t :: post' => node_end_spec (pre ++ [t]) post' d
  end.

Lemma reads_node_end_loop pre post n d :
  tokens = pre ++ post -> (length post < n)%nat -> 0 <= d -> d + 1 <= size_of pre ->
  reads (blob_of addr ly) (node_end_loop fuel n (fst (next_node_spec pre post (Some d))) (depth_of (snd (next_node_spec pre post (Some d)))))
    (node_end_spec pre post d).
Proof.
  assert (B := editable_blob E).
  revert pre n d. induction post as [|t post IH]; intros pre n d Et Hn H0 Hd; (destruct n as [|n]; [cbn in Hn; lia|]); cbn [length] in Hn.
  - apply reads_ret.
  - assert (E' : tokens = (pre ++ [t]) ++ post) by (by rewrite <- app_assoc). assert (Hg := size_grows pre t).
    destruct t as [name| |nameoff v|]; cbn [next_node_spec node_end_spec].
    + cbn [fst snd fmap option_fmap option_map node_end_loop]. change (depth_of (Some (d + 1))) with (d + 1).
      rewrite (proj2 (Z.leb_le 0 _)), (proj2 (Z.leb_le 0 (d + 1))) by (try apply size_of_nonneg; lia). cbn [andb].
      eapply reads_bind; [apply (reads_step B fuel Hfuel _ _ _ _ Et); lia|]. apply IH; [done|lia|lia|lia].
    + cbn [fmap option_fmap option_map]. destruct (Z.eqb_spec d 0) as [->|Hne].
      * change (0 - 1 <? 0) with true. cbn [fst snd node_end_loop]. change (depth_of (Some (0 - 1))) with (-1).
        rewrite andb_false_r. apply reads_ret.
      * rewrite (proj2 (Z.ltb_ge (d - 1) 0)) by lia. apply IH; [done|lia|lia|lia].
    + apply IH; [done|lia|lia|lia].
    + apply IH; [done|lia|lia|lia].
Qed.

Lemma node_end_attrs attrs pre post d : forallb is_attr attrs = true ->
  node_end_spec pre (attrs ++ post) d = node_end_spec (pre ++ attrs) post d.
Proof.
  revert pre. induction attrs as [|t attrs IH]; intros pre H; [by rewrite app_nil_r|].
  cbn [forallb] in H. apply andb_true_iff in H as [Ht H]. rewrite cons_middle, app_assoc, <- IH by done. by destruct t.
Qed.

Lemma node_end_forest l :
  Forall (λ t, tree_ok t = true -> forall pre post d, 0 <= d -> node_end_spec pre (flat t ++ post) d = node_end_spec (pre ++ flat t) post d) l ->
  forallb tree_ok l = true -> forall pre post d, 0 <= d -> node_end_spec pre (flat_all l ++ post) d = node_end_spec (pre ++ flat_all l) post d.
Proof.
  induction 1 as [|c l Hc Hl IH]; intros Hok pre post d Hd; [by rewrite app_nil_r|].
  cbn [forallb] in Hok. apply andb_true_iff in Hok as [H1 H2].
  unfold flat_all. cbn [map concat]. rewrite <- app_assoc, Hc by done. rewrite app_assoc. by apply IH.
Qed.

Lemma node_end_tree t : tree_ok t = true -> forall pre post d, 0 <= d ->
  node_end_spec pre (flat t ++ post) d = node_end_spec (pre ++ flat t) post d.
Proof.
  induction t as [name attrs children IH] using tree_induction. intros Hok pre post d Hd.
  assert (Ha := attrs_ok _ Hok). assert (Hc := children_ok _ Hok). cbn [tree_attrs tree_children] in Ha, Hc.
  rewrite flat_node. unfold header. cbn [tree_name tree_attrs tree_children app node_end_spec].
  rewrite <- !app_assoc, node_end_attrs, (node_end_forest children IH Hc) by (done || lia). cbn [app node_end_spec].
  rewrite (proj2 (Z.eqb_neq _ 0)) by lia. rewrite <- !app_assoc. f_equal. lia.
Qed.

Lemma node_end_all l : forallb tree_ok l = true -> forall pre post d, 0 <= d ->
  node_end_spec pre (flat_all l ++ post) d = node_end_spec (pre ++ flat_all l) post d.
Proof. apply node_end_forest. apply List.Forall_forall. intros c _. apply node_end_tree. Qed.

Lemma reads_node_end pre t post :
  tokens = pre ++ flat t ++ post -> tree_ok t = true ->
  reads (blob_of addr ly) (fdt_node_end_offset_ fuel (size_of pre)) (size_of (pre ++ flat t)).
Proof.
  intros Et Hok. assert (B := editable_blob E). assert (SF := struct_fuel B fuel Hfuel).
  rewrite flat_node in Et. unfold header in Et. cbn [app] in Et. rewrite <- !app_assoc in Et.
  assert (Hf := post_fuel fuel SF _ _ Et). cbn [length] in Hf. assert (Hp := size_of_nonneg pre).
  assert (Hg := size_grows pre (BeginNode (tree_name t))).
  unfold fdt_node_end_offset_. assert (exists n, fuel = S n) as [n En] by (destruct fuel; [lia|eauto]). rewrite En at 2. cbn [node_end_loop].
  rewrite (proj2 (Z.leb_le 0 _)) by lia. cbn [Z.leb Z.compare andb].
  eapply reads_bind; [apply (reads_step B fuel Hfuel _ _ _ _ Et); lia|].
  assert (R := reads_node_end_loop (pre ++ [BeginNode (tree_name t)]) _ n 0 ltac:(rewrite <- app_assoc; exact Et) ltac:(lia) ltac:(lia) ltac:(lia)).
  rewrite node_end_attrs, node_end_all in R by first [by apply attrs_ok|by apply children_ok|lia].
  cbn [app node_end_spec] in R. rewrite Z.eqb_refl in R. rewrite flat_node. unfold header. cbn [app].
  rewrite <- !app_assoc in R. exact R.
Qed.

Lemma del_node_run pre t post :
  tokens = pre ++ flat t ++ post -> tree_ok t = true ->
  exists slack', Z.of_nat (length slack') = Z.of_nat (length (ly_slack ly)) + size_of (flat t) /\
    fdt_del_node fuel (size_of pre) (blob_of addr ly) = (Ret 0, blob_of addr (edited (pre ++ post) (ly_strings ly) slack' ly)).
Proof.
  intros Et Hok. destruct (cut_run pre (flat t) post Et) as (slack' & L & R). exists slack'. split; [done|].
  assert (H := ed_range E). unfold fdt_del_node. rewrite (rw_probed_run (ed_ok _ _ _ E)), (reads_bind_eq _ _ _ _ (reads_node_end pre t post Et Hok)).
  rewrite (proj2 (Z.ltb_ge _ 0)) by apply size_of_nonneg. rewrite (reads_bind_eq _ _ _ _ (reads_offset_ptr_ (editable_blob E) _)).
  rewrite size_of_app. replace (size_of pre + size_of (flat t) - size_of pre) with (size_of (flat t)) by lia.
  rewrite s32_small; [exact R|]. rewrite Et, !size_of_app in H. assert (H1 := size_of_nonneg pre). assert (H2 := size_of_nonneg post).
  assert (H3 := size_of_nonneg (flat t)). lia.
Qed.

Lemma delprop_run pre nm attrs post name :
  tokens = pre ++ BeginNode nm :: attrs ++ post -> forallb is_attr attrs = true -> ends_attrs post ->
  nonzero name -> Z.of_nat (length name) <= ly_total ly ->
  match delete_attr (ly_strings ly) name attrs with
  | Some attrs' =>
      exists slack', fdt_delprop fuel (size_of pre) (Cst name 0) (blob_of addr ly) =
        (Ret 0, blob_of addr (edited (pre ++ BeginNode nm :: attrs' ++ post) (ly_strings ly) slack' ly)) /\
        Z.of_nat (length slack') = Z.of_nat (length (ly_slack ly)) + size_of attrs - size_of attrs'
  | None => fdt_delprop fuel (size_of pre) (Cst name 0) (blob_of addr ly) = (Ret (- FDT_ERR_NOTFOUND), blob_of addr ly)
  end.
Proof.
  intros Et Ha Hp Hn Hl. assert (H := ed_range E).
  unfold delete_attr. assert (F := split_find (ly_strings ly) name attrs (pre ++ [BeginNode nm]) post Ha Hp).
  assert (G := reads_get_property E fuel Hfuel pre nm (attrs ++ post) name Et Hn Hl).
  unfold fdt_delprop. rewrite (rw_probed_run (ed_ok _ _ _ E)), (reads_bind_eq _ _ _ _ G). clear G.
  destruct (find_prop _ _ _ _) as [e|[o v]].
  - destruct F as [-> ->]. done.
  - destruct F as (a1 & off & a2 & -> & -> & ->). cbn [fmap option_fmap option_map fst snd].
    destruct (cut_run ((pre ++ [BeginNode nm]) ++ a1) [Prop_ off v] (a2 ++ post)) as (slack' & L & R); [rewrite Et, <- !app_assoc; done|].
    assert (Lp : size_of [Prop_ off v] = 12 + Z.of_nat (length (padded4 v))).
    { rewrite size_of_cons. cbn [encode]. rewrite !length_app, !be32_length. change (size_of []) with 0. lia. }
    assert (Hs : size_of tokens = size_of ((pre ++ [BeginNode nm]) ++ a1) + size_of [Prop_ off v] + size_of (a2 ++ post)).
    { rewrite Et, <- !size_of_app. f_equal. rewrite <- !app_assoc. done. }
    assert (H1 := size_of_nonneg ((pre ++ [BeginNode nm]) ++ a1)). assert (H2 := size_of_nonneg (a2 ++ post)).
    destruct (padded4_length v) as (k & Ek & Hk).
    exists slack'. rewrite tagalign_padded by lia. unfold sizeof_fdt_property. rewrite s32_small, <- Lp, R by lia.
    split; [by rewrite <- !app_assoc|]. rewrite !size_of_app, (size_of_cons (Prop_ off v) a2). rewrite size_of_cons in L. change (size_of []) with 0 in L. lia.
Qed.

(** ** Gaps *)

Lemma nop_region_run (ly0 : layout) C k : forall n A m i len start,
  ly_struct ly0 = A ++ m ++ C -> length m = (4 * k)%nat -> (k < n)%nat ->
  start + i = ly_ds ly0 + Z.of_nat (length A) -> i + 4 * Z.of_nat k - 4 < len <= i + 4 * Z.of_nat k ->
  nop_region_loop n start i len (blob_of addr ly0) =
  (Ret tt, blob_of addr (with_struct (A ++ encode_all (replicate k Nop) ++ C) (ly_slack ly0) ly0)).
Proof.
  clear E Hfuel. revert ly0. induction k as [|k IH]; intros ly0 n A m i len start Es Lm Hn Hs Hl;
    (destruct n as [|n]; [lia|]); cbn [nop_region_loop].
  - destruct m; [|done]. rewrite (proj2 (Z.ltb_ge i len)) by lia. unfold ret, with_struct. cbn [replicate encode_all map concat app] in *.
    unfold encode_all. cbn [map concat app]. rewrite <- Es. by destruct ly0.
  - rewrite (proj2 (Z.ltb_lt i len)) by lia. destruct (split_at_length m 4 (4 * k) ltac:(lia)) as (m1 & m2 & -> & L1 & L2).
    unfold fdt32_st. erewrite bind_Ret.
    2: { apply (write_struct (addr := addr) (ly := ly0) A m1 (m2 ++ C) _ (ly_slack ly0)); [rewrite Es, <- !app_assoc; done|done|lia|done]. }
    erewrite (IH _ n (A ++ be32 FDT_NOP) m2 (i + 4) len start).
    + cbn [replicate]. rewrite encode_all_cons. cbn [encode]. rewrite <- !app_assoc. done.
    + cbn [with_struct ly_struct]. by rewrite <- !app_assoc.
    + done.
    + lia.
    + rewrite ly_dn_same, length_app, be32_length. lia.
    + lia.
Qed.

(** Tags become gaps of the same size. *)
Lemma nop_run pre mid post k len :
  tokens = pre ++ mid ++ post -> size_of mid = 4 * Z.of_nat k -> 4 * Z.of_nat k - 4 < len <= 4 * Z.of_nat k ->
  fdt_nop_region_ fuel (ly_ds ly + size_of pre) len (blob_of addr ly) =
  (Ret tt, blob_of addr (edited (pre ++ replicate k Nop ++ post) (ly_strings ly) (ly_slack ly) ly)).
Proof.
  intros Et Hk Hl. assert (H := ed_range E). unfold fdt_nop_region_.
  assert (H1 := size_of_nonneg pre). assert (H2 := size_of_nonneg post).
  assert (Hsz : size_of tokens = size_of pre + size_of mid + size_of post) by (rewrite Et, !size_of_app; lia).
  rewrite (nop_region_run ly (encode_all post ++ be32 FDT_END) k fuel (encode_all pre) (encode_all mid) 0 len).
  - unfold edited. rewrite !encode_all_app, <- !app_assoc. done.
  - rewrite (ed_struct _ _ _ E), Et, !encode_all_app, <- !app_assoc. done.
  - unfold size_of in Hk. lia.
  - lia.
  - unfold size_of. lia.
  - lia.
Qed.

Lemma nop_node_run pre t post :
  tokens = pre ++ flat t ++ post -> tree_ok t = true ->
  exists k, 4 * Z.of_nat k = size_of (flat t) /\
    fdt_nop_node fuel (size_of pre) (blob_of addr ly) =
    (Ret 0, blob_of addr (edited (pre ++ replicate k Nop ++ post) (ly_strings ly) (ly_slack ly) ly)).
Proof.
  intros Et Hok. assert (H := ed_range E). assert (H1 := size_of_nonneg pre). assert (H2 := size_of_nonneg post).
  assert (H3 := size_of_nonneg (flat t)). assert (H4 := size_of_mod4 (flat t)).
  assert (D := Z.div_mod (size_of (flat t)) 4 ltac:(lia)).
  assert (Hsz : size_of tokens = size_of pre + size_of (flat t) + size_of post) by (rewrite Et, !size_of_app; lia).
  exists (Z.to_nat (size_of (flat t) / 4)). split; [lia|].
  unfold fdt_nop_node. rewrite (reads_bind_eq _ _ _ _ (reads_node_end pre t post Et Hok)).
  rewrite (proj2 (Z.ltb_ge _ 0)) by apply size_of_nonneg.
  rewrite (reads_bind_eq _ _ _ _ (reads_offset_ptr (editable_blob E) (size_of pre) 0 ltac:(lia) ltac:(lia) ltac:(lia))).
  rewrite size_of_app, s32_small by lia. erewrite bind_Ret; [reflexivity|]. apply (nop_run pre (flat t) post); [done|lia|lia].
Qed.

Lemma nop_property_run pre nm attrs post name :
  tokens = pre ++ BeginNode nm :: attrs ++ post -> forallb is_attr attrs = true -> ends_attrs post ->
  nonzero name -> Z.of_nat (length name) <= ly_total ly ->
  match split_attr (ly_strings ly) name attrs with
  | Some (a1, (off, v), a2) =>
      exists k, 4 * Z.of_nat k = size_of [Prop_ off v] /\
        fdt_nop_property fuel (size_of pre) (Cst name 0) (blob_of addr ly) =
        (Ret 0, blob_of addr (edited (pre ++ BeginNode nm :: (a1 ++ replicate k Nop ++ a2) ++ post) (ly_strings ly) (ly_slack ly) ly))
  | None => fdt_nop_property fuel (size_of pre) (Cst name 0) (blob_of addr ly) = (Ret (- FDT_ERR_NOTFOUND), blob_of addr ly)
  end.
Proof.
  intros Et Ha Hp Hn Hl. assert (H := ed_range E).
  assert (F := split_find (ly_strings ly) name attrs (pre ++ [BeginNode nm]) post Ha Hp).
  assert (G := reads_get_property E fuel Hfuel pre nm (attrs ++ post) name Et Hn Hl).
  unfold fdt_nop_property. rewrite (reads_bind_eq _ _ _ _ G). clear G.
  destruct (find_prop _ _ _ _) as [e|[o v]].
  - destruct F as [-> ->]. done.
  - destruct F as (a1 & off & a2 & -> & -> & ->).
    assert (Lp : size_of [Prop_ off v] = 12 + Z.of_nat (length (padded4 v))).
    { rewrite size_of_cons. cbn [encode]. rewrite !length_app, !be32_length. change (size_of []) with 0. lia. }
    assert (Hs : size_of tokens = size_of ((pre ++ [BeginNode nm]) ++ a1) + size_of [Prop_ off v] + size_of (a2 ++ post)).
    { rewrite Et, <- !size_of_app. f_equal. rewrite <- !app_assoc. done. }
    assert (H1 := size_of_nonneg ((pre ++ [BeginNode nm]) ++ a1)). assert (H2 := size_of_nonneg (a2 ++ post)).
    destruct (padded4_length v) as (k & Ek & Hk). exists (Z.to_nat (k + 3)). split; [lia|].
    unfold sizeof_fdt_property. rewrite s32_small by lia. erewrite bind_Ret.
    2: { apply (nop_run _ [Prop_ off v] (a2 ++ post) (Z.to_nat (k + 3))); [rewrite Et, <- !app_assoc; done|lia|lia]. }
    unfold ret. rewrite <- !app_assoc. done.
Qed.

(** ** Values in place *)

Lemma setprop_inplace_run pre nm a1 off v a2 post name value :
  tokens = pre ++ BeginNode nm :: (a1 ++ Prop_ off v :: a2) ++ post -> forallb is_attr (a1 ++ Prop_ off v :: a2) = true -> ends_attrs post ->
  nonzero name -> Z.of_nat (length name) <= ly_total ly ->
  split_attr (ly_strings ly) name (a1 ++ Prop_ off v :: a2) = Some (a1, (off, v), a2) ->
  length value = length v ->
  fdt_setprop_inplace fuel (size_of pre) (Cst name 0) value (Z.of_nat (length value)) (blob_of addr ly) =
  (Ret 0, blob_of addr (edited (pre ++ BeginNode nm :: (a1 ++ Prop_ off value :: a2) ++ post) (ly_strings ly) (ly_slack ly) ly)).
Proof.
  intros Et Ha Hp Hn Hl Hsplit Lv. assert (H := ed_range E). assert (B := editable_blob E).
  assert (F := split_find (ly_strings ly) name _ (pre ++ [BeginNode nm]) post Ha Hp).
  assert (G := reads_getprop B fuel Hfuel pre nm _ name Et Hn Hl). 
  assert (G' := reads_getprop_namelen B fuel Hfuel pre nm _ (Cst name 0) name Et ltac:(by eapply holds_app_l, holds_cst) ltac:(lia)).
  destruct (find_prop _ _ _ _) as [e|[o v']].
  { destruct F as [_ F]. rewrite F in Hsplit. done. }
  destruct F as (b1 & off' & b2 & F & _ & ->). rewrite F in Hsplit. injection Hsplit as -> -> -> ->.
  assert (Et' : tokens = ((pre ++ [BeginNode nm]) ++ a1) ++ Prop_ off v :: (a2 ++ post)) by (rewrite Et, <- !app_assoc; done).
  assert (Hsz : size_of tokens = size_of ((pre ++ [BeginNode nm]) ++ a1) + (12 + Z.of_nat (length (padded4 v))) + size_of (a2 ++ post)).
  { rewrite Et', size_of_app, size_of_cons. cbn [encode]. rewrite !length_app, !be32_length. lia. }
  assert (H1 := size_of_nonneg ((pre ++ [BeginNode nm]) ++ a1)). assert (H2 := size_of_nonneg (a2 ++ post)).
  destruct (padded4_length v) as (k & Ek & Hk).
  unfold fdt_setprop_inplace. rewrite (reads_bind_eq _ _ _ _ G). rewrite Lv, Z.eqb_refl. cbn [negb].
  rewrite (reads_bind_eq _ _ _ _ (reads_lit_strlen fuel Hfuel name Hn Hl)), s32_small by lia.
  unfold fdt_setprop_inplace_namelen_partial. rewrite (reads_bind_eq _ _ _ _ G'), Z.add_0_r, !u32_small, Z.ltb_irrefl by lia.
  unfold memcpy_val. rewrite Lv, u64_small, Z.ltb_irrefl, Nat2Z.id, take_ge by (unfold is_u64; lia).
  erewrite bind_Ret.
  2: { apply (write_struct (addr := addr) (ly := ly)
         (encode_all ((pre ++ [BeginNode nm]) ++ a1) ++ be32 FDT_PROP ++ be32 (Z.of_nat (length v)) ++ be32 off) v
         (replicate (Z.to_nat (- Z.of_nat (length v) mod 4)) 0 ++ encode_all (a2 ++ post) ++ be32 FDT_END) value (ly_slack ly)); [|done| |done].
       - rewrite (ed_struct _ _ _ E), Et', (encode_all_app _ (Prop_ _ _ :: _)), encode_all_cons. cbn [encode]. unfold padded4.
         rewrite <- !app_assoc. done.
       - rewrite !length_app, !be32_length. unfold size_of. rewrite Z.add_0_r || idtac. lia. }
  unfold ret, edited, with_struct.
  replace (pre ++ BeginNode nm :: (a1 ++ Prop_ off value :: a2) ++ post) with (((pre ++ [BeginNode nm]) ++ a1) ++ Prop_ off value :: (a2 ++ post)) by (rewrite <- !app_assoc; done).
  rewrite (encode_all_app _ (Prop_ _ _ :: _)), encode_all_cons. cbn [encode]. unfold padded4. rewrite Lv, <- !app_assoc. done.
Qed.

End Setting.

(** ** Edits of the tree *)

(** A blob after an edit: other tags and strings in the same space. *)
Record after_edit (addr : Z) (ly ly' : layout) (tokens' : list token) (strings : list Z) : Prop := {
  ae_editable : editable addr ly' tokens';
  ae_strings : ly_strings ly' = strings;
  ae_total : ly_total ly' = ly_total ly;
  ae_cpu : ly_cpu ly' = ly_cpu ly;
  ae_rsv : ly_rsv ly' = ly_rsv ly;
  ae_beyond : ly_beyond ly' = ly_beyond ly;
}.

(** The operation makes this edit if there is room for it; if not it returns
    [full] and leaves the tree as it was. *)
Definition edits (addr : Z) (ly : layout) (tokens : list token) (c : M dtb Z) (ok full : Z) (tokens' : list token) (strings : list Z) : Prop :=
  if size_of tokens' + Z.of_nat (length strings) <=? size_of tokens + Z.of_nat (length (ly_strings ly)) + Z.of_nat (length (ly_slack ly))
  then exists ly', c (blob_of addr ly) = (Ret ok, blob_of addr ly') /\ after_edit addr ly ly' tokens' strings
  else exists ly', c (blob_of addr ly) = (Ret full, blob_of addr ly') /\ after_edit addr ly ly' tokens (ly_strings ly).

Lemma after_edited addr ly tokens tokens' strings slack :
  editable addr ly tokens -> Forall token_ok tokens' ->
  size_of tokens' + Z.of_nat (length strings) + Z.of_nat (length slack) =
    size_of tokens + Z.of_nat (length (ly_strings ly)) + Z.of_nat (length (ly_slack ly)) ->
  after_edit addr ly (edited tokens' strings slack ly) tokens' strings.
Proof. intros E Ht L. destruct (ed_edited addr ly tokens tokens' strings slack E L Ht). by split. Qed.

Lemma after_slack addr ly tokens slack :
  editable addr ly tokens -> length slack = length (ly_slack ly) ->
  after_edit addr ly (with_slack slack (ly_beyond ly) ly) tokens (ly_strings ly).
Proof.
  intros E L.
  assert (Et : ly_total (with_slack slack (ly_beyond ly) ly) = ly_total ly).
  { unfold ly_total, ly_data, ly_dn, ly_ds. cbn [with_slack ly_rsv ly_struct ly_strings ly_slack]. lia. }
  destruct E as [[H1 H2 H3 H4] Es Ht]. split; try done. split; [|done|done]. split; [done|by rewrite Et|done|done].
Qed.

Lemma makes_edits addr ly tokens c ok full tokens' strings :
  editable addr ly tokens -> Forall token_ok tokens' ->
  makes_edit (addr := addr) (ly := ly) (tokens := tokens) c ok full tokens' strings ->
  edits addr ly tokens c ok full tokens' strings.
Proof.
  intros E Ht [H1 H2]. unfold growth in *. unfold edits.
  destruct (Z.leb_spec (size_of tokens' + Z.of_nat (length strings)) (size_of tokens + Z.of_nat (length (ly_strings ly)) + Z.of_nat (length (ly_slack ly)))).
  - destruct H1 as (slack' & L & R); [lia|]. eexists. split; [exact R|]. apply (after_edited addr ly tokens); [done|done|lia].
  - destruct H2 as (slack' & L & R); [lia|]. eexists. split; [exact R|]. by apply after_slack.
Qed.

(** Edits one after the other, the last one seen from the first blob. *)
Lemma after_edit_trans addr ly ly1 ly2 tokens1 strings1 tokens2 strings2 :
  after_edit addr ly ly1 tokens1 strings1 -> after_edit addr ly1 ly2 tokens2 strings2 -> after_edit addr ly ly2 tokens2 strings2.
Proof. intros [] []. split; congruence. Qed.

Lemma flat_attrs t post : flat t ++ post = BeginNode (tree_name t) :: tree_attrs t ++ (flat_all (tree_children t) ++ EndNode :: post).
Proof. rewrite flat_node. unfold header. cbn [app]. by rewrite <- !app_assoc. Qed.

Lemma ends_attrs_children l post : ends_attrs (flat_all l ++ EndNode :: post).
Proof. by destruct l as [|[]]. Qed.

Lemma attr_value_split strings name attrs :
  attr_value strings name attrs = (λ r, snd (snd (fst r))) <$> split_attr strings name attrs.
Proof.
  induction attrs as [|t attrs IH]; [done|]. destruct t as [n| |off v|]; cbn [attr_value split_attr].
  3: destruct (bool_decide _); [done|].
  all: rewrite IH; by destruct (split_attr _ _ _).
Qed.

Lemma split_attr_app strings name attrs a1 off v a2 :
  split_attr strings name attrs = Some (a1, (off, v), a2) ->
  attrs = a1 ++ Prop_ off v :: a2 /\ string_at strings off = Some name /\ forall v', split_attr strings name (a1 ++ Prop_ off v' :: a2) = Some (a1, (off, v'), a2).
Proof.
  revert a1. induction attrs as [|t attrs IH]; intros a1; [done|]. cbn [split_attr].
  assert (Hrec : forall l, (λ r, (t :: fst (fst r), snd (fst r), snd r)) <$> split_attr strings name attrs = Some (l, (off, v), a2) ->
    (match t with Prop_ o _ => string_at strings o <> Some name | _ => True end) ->
    t :: attrs = l ++ Prop_ off v :: a2 /\ string_at strings off = Some name /\ forall v', split_attr strings name (l ++ Prop_ off v' :: a2) = Some (l, (off, v'), a2)).
  { intros l Hl Ht. destruct (split_attr strings name attrs) as [[[b1 p] b2]|]; [|done]. cbn in Hl. injection Hl as <- -> ->.
    destruct (IH b1 eq_refl) as (-> & Hs & Hv). split; [done|split; [done|]]. intros v'. cbn [app split_attr]. rewrite Hv.
    destruct t; try done. by rewrite bool_decide_eq_false_2. }
  destruct t as [n| |o v0|]; try (intros H; by apply Hrec).
  destruct (bool_decide_reflect (string_at strings o = Some name)) as [Es|Es]; [|intros H; by apply Hrec].
  intros [= <- <- <- <-]. split; [done|split; [done|]]. intros v'. cbn [app split_attr]. by rewrite bool_decide_eq_true_2.
Qed.

Lemma set_attr_value strings name value attrs : nonzero name ->
  attr_value (snd (set_attr strings name value attrs)) name (fst (set_attr strings name value attrs)) = Some value.
Proof.
  intros Hn. unfold set_attr. destruct (split_attr strings name attrs) as [[[a1 [off v]] a2]|] eqn:Es.
  - cbn [fst snd]. rewrite attr_value_split. by rewrite (proj2 (proj2 (split_attr_app _ _ _ _ _ _ _ Es))).
  - assert (Hi := intern_names name strings Hn). destruct (intern name strings) as [off strings']. cbn [fst snd attr_value] in *.
    by rewrite bool_decide_eq_true_2.
Qed.

(** Every property has a name. *)
Definition named (strings : list Z) (attrs : list token) : Prop :=
  Forall (λ t, match t with Prop_ off _ => is_Some (string_at strings off) | _ => True end) attrs.

Lemma attr_value_grows name strings other attrs : named strings attrs ->
  attr_value (snd (intern name strings)) other attrs = attr_value strings other attrs.
Proof.
  induction 1 as [|t attrs Ht Hn IH]; [done|]. destruct t as [n| |off v|]; cbn [attr_value]; try exact IH.
  destruct Ht as [x Hx]. rewrite IH, Hx, (intern_keeps name strings off x Hx). done.
Qed.

Lemma set_attr_other strings name value attrs other : named strings attrs -> other <> name -> nonzero name ->
  attr_value (snd (set_attr strings name value attrs)) other (fst (set_attr strings name value attrs)) = attr_value strings other attrs.
Proof.
  intros Hnm Hne Hn. unfold set_attr. destruct (split_attr strings name attrs) as [[[a1 [off v]] a2]|] eqn:Es; cbn [fst snd].
  - destruct (split_attr_app _ _ _ _ _ _ _ Es) as (-> & Hs & _). clear Es Hnm.
    assert (Hk : forall v, attr_value strings other (Prop_ off v :: a2) = attr_value strings other a2).
    { intros v'. cbn [attr_value]. rewrite bool_decide_eq_false_2; [done|]. rewrite Hs. congruence. }
    induction a1 as [|t a1 IH]; cbn [app]; [by rewrite !Hk|]. destruct t; cbn [attr_value]; try exact IH. by rewrite IH.
  - assert (Hi := intern_names name strings Hn). rewrite <- (attr_value_grows name strings other attrs Hnm).
    destruct (intern name strings) as [off strings']. cbn [fst snd attr_value] in *.
    rewrite bool_decide_eq_false_2; [done|]. rewrite Hi. congruence.
Qed.

Lemma set_attr_ok strings name value attrs :
  forallb is_attr attrs = true -> Forall token_ok attrs -> Forall is_byte value -> Z.of_nat (length strings) < 2 ^ 31 ->
  forallb is_attr (fst (set_attr strings name value attrs)) = true /\ Forall token_ok (fst (set_attr strings name value attrs)).
Proof.
  intros Ha Ht Hv Hs. unfold set_attr. destruct (split_attr strings name attrs) as [[[a1 [off v]] a2]|] eqn:Es; cbn [fst snd].
  - destruct (split_attr_app _ _ _ _ _ _ _ Es) as (-> & _ & _). rewrite forallb_app in *. cbn [forallb] in *.
    split; [done|]. apply Forall_app in Ht as [H1 H2]. apply Forall_cons in H2 as [H2 H3]. destruct H2 as [H2 _].
    apply Forall_app. split; [done|]. apply Forall_cons. done.
  - assert (Hi := intern_range name strings). destruct (intern name strings) as [off strings']. cbn [fst snd forallb] in *.
    split; [done|]. apply Forall_cons. split; [|done]. split; [lia|done].
Qed.

Definition name_fits (ly : layout) (name : list Z) : Prop := nonzero name /\ Z.of_nat (length name) <= ly_total ly.
Definition value_fits (value : list Z) : Prop :=
  Forall is_byte value /\ Z.of_nat (length value) mod 4 = 0 /\ Z.of_nat (length value) < 2 ^ 30.

Section Trees.
Context {addr : Z} {ly : layout} {tokens : list token} (E : editable addr ly tokens).
Context (fuel : nat) (Hfuel : ly_total ly < Z.of_nat fuel).
Context {pre : list token} {t : tree} {post : list token} (Et : tokens = pre ++ flat t ++ post) (Hok : tree_ok t = true).

Lemma context_tokens : Forall token_ok pre /\ Forall token_ok (header t) /\ Forall token_ok (flat_all (tree_children t)) /\ Forall token_ok post.
Proof.
  assert (H := ed_tokens _ _ _ E). rewrite Et, flat_node in H. apply Forall_app in H as [H1 H]. apply Forall_app in H as [H H4].
  apply Forall_app in H as [H2 H]. apply Forall_app in H as [H3 _]. done.
Qed.

Lemma setprop_tree name value : name_fits ly name -> value_fits value ->
  let r := set_attr (ly_strings ly) name value (tree_attrs t) in
  edits addr ly tokens (fdt_setprop fuel (size_of pre) (Cst name 0) value (Z.of_nat (length value))) 0 (- FDT_ERR_NOSPACE)
    (pre ++ flat (with_attrs (fst r) t) ++ post) (snd r).
Proof.
  intros [Hn Hl] (Hb & Hv4 & Hv) r. destruct context_tokens as (T1 & T2 & T3 & T4). assert (H := ed_range E).
  unfold header in T2. apply Forall_cons in T2 as [T2 T2'].
  destruct (set_attr_ok (ly_strings ly) name value (tree_attrs t) (attrs_ok _ Hok) T2' Hb ltac:(lia)) as [A1 A2]. fold r in A1, A2.
  apply makes_edits; [done| |].
  - rewrite flat_attrs. apply Forall_app. split; [done|]. apply Forall_cons. split; [done|]. apply Forall_app. split; [done|].
    apply Forall_app. split; [done|]. by apply Forall_cons.
  - rewrite flat_attrs. rewrite flat_attrs in Et.
    apply (setprop_run E fuel Hfuel pre (tree_name t) (tree_attrs t) _ name value Et (attrs_ok _ Hok) (ends_attrs_children _ _) Hn Hl Hv4 Hv).
Qed.

Lemma add_subnode_tree name : name_fits ly name -> Forall is_byte name -> Z.of_nat (length name) < 2 ^ 30 ->
  child_at (node_named name) (children_offset (size_of pre) t) (tree_children t) = None ->
  edits addr ly tokens (fdt_add_subnode fuel (size_of pre) (Cst name 0)) (children_offset (size_of pre) t) (- FDT_ERR_NOSPACE)
    (pre ++ flat (add_child (Node name [] []) t) ++ post) (ly_strings ly).
Proof.
  intros [Hn Hl] Hb Hl30 Hnew. destruct context_tokens as (T1 & T2 & T3 & T4).
  unfold header in T2. apply Forall_cons in T2 as [T2 T2'].
  assert (Ef : pre ++ flat (add_child (Node name [] []) t) ++ post =
    pre ++ BeginNode (tree_name t) :: tree_attrs t ++ empty_node name ++ flat_all (tree_children t) ++ EndNode :: post).
  { rewrite flat_attrs. done. }
  apply makes_edits; [done| |].
  - rewrite Ef. apply Forall_app. split; [done|]. apply Forall_cons. split; [done|]. apply Forall_app. split; [done|].
    apply Forall_cons. split.
    { apply List.Forall_forall. intros b Hi. split; [exact (proj1 (List.Forall_forall _ _) Hb b Hi)|exact (proj1 (List.Forall_forall _ _) Hn b Hi)]. }
    apply Forall_cons. split; [done|]. apply Forall_app. split; [done|]. by apply Forall_cons.
  - rewrite Ef. rewrite flat_attrs in Et. unfold children_offset, header. rewrite <- size_of_app.
    apply (add_subnode_run E fuel Hfuel); [done|by apply attrs_ok|apply ends_attrs_children|done|done|done|].
    rewrite skip_attrs, find_child_at by (by first [apply attrs_ok|apply children_ok]).
    unfold children_offset, header in Hnew. rewrite <- size_of_app in Hnew. cbn [app] in Hnew.
    rewrite <- app_assoc. cbn [app]. by rewrite Hnew.
Qed.

Lemma add_subnode_exists name o c : name_fits ly name ->
  child_at (node_named name) (children_offset (size_of pre) t) (tree_children t) = Some (o, c) ->
  fdt_add_subnode fuel (size_of pre) (Cst name 0) (blob_of addr ly) = (Ret (- FDT_ERR_EXISTS), blob_of addr ly).
Proof.
  intros [Hn Hl] Hc. assert (H := ed_range E). assert (B := editable_blob E).
  assert (Hnode : node_at tokens (size_of pre) t) by (by exists pre, post).
  unfold fdt_add_subnode, fdt_add_subnode_namelen. rewrite (reads_bind_eq _ _ _ _ (reads_lit_strlen fuel Hfuel name Hn Hl)), s32_small by lia.
  rewrite (rw_probed_run (ed_ok _ _ _ E)).
  rewrite (reads_bind_eq _ _ _ _ (reads_child B fuel Hfuel (size_of pre) t (Cst name 0) name Hnode ltac:(by eapply holds_app_l, holds_cst))), Hc.
  cbn [offset_of]. rewrite (proj2 (Z.leb_le 0 o)); [done|]. exact (node_at_nonneg _ _ (child_of_node _ _ _ _ _ Hnode Hc)).
Qed.

End Trees.

(** ** The two edits the firmware makes *)

(** [C20] Setting a property is setting it in the tree: on a blob that holds a tree,
    fdt_setprop at a node makes the value the value of the node's first property
    of that name, or puts a new property in front (its name found in the strings
    block or added to it), and returns 0; reading the property back then gives
    the value, and the node's other properties keep theirs.  When there is no
    room for it in the blob it returns -FDT_ERR_NOSPACE and the tree is as it
    was.  Values are of whole words. *)
Theorem setprop_sets_property addr ly tokens fuel pre t post name value :
  editable addr ly tokens -> tokens = pre ++ flat t ++ post -> tree_ok t = true -> ly_total ly < Z.of_nat fuel ->
  name_fits ly name -> value_fits value ->
  let '(attrs, strings) := set_attr (ly_strings ly) name value (tree_attrs t) in
  let tokens' := pre ++ flat (with_attrs attrs t) ++ post in
  edits addr ly tokens (fdt_setprop fuel (size_of pre) (Cst name 0) value (Z.of_nat (length value))) 0 (- FDT_ERR_NOSPACE) tokens' strings /\
  (forall ly', after_edit addr ly ly' tokens' strings ->
   exists data, reads (blob_of addr ly') (fdt_getprop fuel (size_of pre) (Cst name 0)) (Some data, Z.of_nat (length value)) /\
     at_offset (blob_of addr ly') data value) /\
  (named (ly_strings ly) (tree_attrs t) -> forall other, other <> name ->
   attr_value strings other attrs = attr_value (ly_strings ly) other (tree_attrs t)).
Proof.
  intros E Et Hok Hf Hn Hv. assert (H := setprop_tree E fuel Hf Et Hok name value Hn Hv).
  assert (Hs := set_attr_value (ly_strings ly) name value (tree_attrs t) (proj1 Hn)).
  assert (Ho := λ h other ne, set_attr_other (ly_strings ly) name value (tree_attrs t) other h ne (proj1 Hn)).
  assert (Ha := proj1 (set_attr_ok (ly_strings ly) name value (tree_attrs t) (attrs_ok _ Hok)
    (proj2 (proj1 (Forall_cons _ _ _) (proj1 (proj2 (context_tokens E Et))))) (proj1 Hv) ltac:(assert (Hr := ed_range E); lia))).
  destruct (set_attr _ _ _ _) as [attrs strings]. cbn [fst snd] in *. split; [done|]. split; [|done].
  intros ly' [E' <- Et' _ _ _].
  assert (R := reads_attr_lit (editable_blob E') fuel ltac:(by rewrite Et') (size_of pre) (with_attrs attrs t) name).
  cbn [with_attrs tree_attrs] in R. rewrite Hs in R. destruct R as (data & R1 & R2 & _).
  - exists pre, post. split; [done|]. split; [done|]. rewrite tree_ok_node in *. cbn [with_attrs tree_attrs tree_children].
    apply andb_true_iff in Hok as [_ Hc]. by rewrite Ha, Hc.
  - exact (proj1 Hn).
  - rewrite Et'. exact (proj2 Hn).
  - by exists data.
Qed.

(** The demonstration tree with room for changes. *)
Definition demo_layout : layout :=
  Layout 0 [(0x80000000, 0x1000)] (encode_all (flat demo_tree) ++ be32 FDT_END) demo_names (replicate 64 0) (replicate 100 7).

Lemma demo_editable : editable 8 demo_layout (flat demo_tree).
Proof.
  split; [|done|apply tokens_ok; vm_compute; reflexivity].
  split; [done|vm_compute; reflexivity|done|repeat constructor; done].
Qed.

Lemma setprop_sets_property_witness :
  exists ly', fdt_setprop 1000 0 (lit "a") (be32 7) 4 (blob_of 8 demo_layout) = (Ret 0, blob_of 8 ly') /\
    after_edit 8 demo_layout ly' (flat (Node [] [Prop_ 0 (be32 7)] (tree_children demo_tree))) demo_names.
Proof.
  destruct (setprop_sets_property 8 demo_layout (flat demo_tree) 1000 [] demo_tree [] (chars "a") (be32 7)
    demo_editable ltac:(by rewrite app_nil_r) eq_refl ltac:(vm_compute; reflexivity)
    ltac:(split; [by repeat constructor|vm_compute; discriminate])
    ltac:(split; [repeat constructor; vm_compute; intuition discriminate|split; [reflexivity|vm_compute; reflexivity]])) as (H & _ & _).
  exact H.
Defined.

(** ** Where the code falls short *)

Definition bus_offset : Z := offset_of (resolve 0 demo_tree [chars "bus"]).
Definition dev_offset : Z := offset_of (resolve 0 demo_tree demo_path).

(** [UINT32_MAX + 1] is 0 in 32-bit arithmetic: under a parent with one address
    cell no range at address 0 can be appended, and one that passes the end of
    the 32-bit space can.  See fdt_addresses.c:76. *)
Theorem addrrange_check_wraps :
  fst (fdt_appendprop_addrrange 1000 bus_offset dev_offset (lit "reg") 0 0x1000 (blob_of 8 demo_layout)) = Ret (- FDT_ERR_BADVALUE) /\
  fst (fdt_appendprop_addrrange 1000 bus_offset dev_offset (lit "reg") 0xfffff000 0x2000 (blob_of 8 demo_layout)) = Ret 0.
Proof. split; vm_compute; reflexivity. Qed.

(** A blob with the strings before the structure block, and free memory after it. *)
Definition swapped_blob : dtb :=
  Dtb 8 (words_bytes [FDT_MAGIC; 76; 60; 56; 40; 17; 16; 3; 4; 16] ++ replicate 16 0 ++ [97; 0; 0; 0] ++
         (encode_all [BeginNode []; EndNode] ++ be32 FDT_END) ++ replicate 124 0xee).

(** When the blocks have to be reordered in place, the number of the boot hart
    is read back from the buffer after the buffer has been overwritten.  See
    fdt_rw.c:482. *)
Theorem reorder_loses_boot_cpu :
  fst (fdt_boot_cpuid_phys swapped_blob) = Ret 3 /\
  fst ((err <- fdt_open_into 100 200 ;; cpu <- fdt_boot_cpuid_phys ;; ret (err, cpu))%sbi swapped_blob) = Ret (0, 0xeeeeeeee).
Proof. split; vm_compute; reflexivity. Qed.
