(* ===== verification/FdtHelper.v ===== *)
(** * What the firmware reads from the device tree

    Models lib/utils/fdt/fdt_helper.c (path relative to src/cva6-sdk/opensbi); its
    message on an invalid translation is left out.  A NULL [fdt] is a blob at
    address 0.  An output pointer is [None] when NULL, or else what it points
    to; variables that the code does not initialise start with arbitrary
    contents ([junk]). *)

From Stdlib Require Import ZArith Lia String Ascii.
From stdpp Require Import base tactics list numbers strings.
From S2P Require Import Prelude SbiDefs Bitops Plic Fdt FdtRo FdtTree.

Definition DEFAULT_UART_FREQ : Z := 0.
Definition DEFAULT_UART_BAUD : Z := 115200.
Definition DEFAULT_UART_REG_SHIFT : Z := 0.
Definition DEFAULT_UART_REG_IO_WIDTH : Z := 1.
Definition DEFAULT_SIFIVE_UART_FREQ : Z := 0.
Definition DEFAULT_SIFIVE_UART_BAUD : Z := 115200.
Definition DEFAULT_SIFIVE_UART_REG_SHIFT : Z := 0.
Definition DEFAULT_SIFIVE_UART_REG_IO_WIDTH : Z := 4.
Definition DEFAULT_GAISLER_UART_REG_IO_WIDTH : Z := 4.
Definition DEFAULT_SHAKTI_UART_FREQ : Z := 50000000.
Definition DEFAULT_SHAKTI_UART_BAUD : Z := 115200.
Definition FDT_MAX_PHANDLE_ARGS : Z := 16.

Record platform_uart_data : Type := UartData {
  uart_addr : Z;
  uart_freq : Z;
  uart_baud : Z;
  uart_reg_shift : Z;
  uart_reg_io_width : Z;
}.

Record fdt_phandle_args : Type := PhandleArgs {
  pa_node_offset : Z;
  pa_args_count : Z;
  pa_args : list Z;
}.

Definition fdt_is_null : M dtb bool := gets (λ s, dt_addr s =? 0).

Section Helper.
Context (fuel : nat).

(** ** Matches *)

(** A table is its compatible strings; the result is a place in it. *)
Fixpoint match_loop (nodeoff : Z) (table : list ptr) (i : nat) : M dtb (option nat) :=
  match table with
  | [] => ret None
  | compatible :: table' =>
      (rc <- fdt_node_check_compatible fuel nodeoff compatible ;;
       if rc =? 0 then ret (Some i) else match_loop nodeoff table' (S i))%sbi
  end.

Definition fdt_match_node (nodeoff : Z) (match_table : option (list ptr)) : M dtb (option nat) :=
  (null <- fdt_is_null ;;
   match match_table with
   | Some table => if null || (nodeoff <? 0) then ret None else match_loop nodeoff table O
   | None => ret None
   end)%sbi.

Fixpoint find_match_loop (startoff : Z) (table : list ptr) (i : nat) : M dtb (Z * option nat) :=
  match table with
  | [] => ret (SBI_ENODEV, None)
  | compatible :: table' =>
      (nodeoff <- fdt_node_offset_by_compatible fuel startoff compatible ;;
       if 0 <=? nodeoff then ret (nodeoff, Some i) else find_match_loop startoff table' (S i))%sbi
  end.

(** The node, and [*out_match]. *)
Definition fdt_find_match (startoff : Z) (match_table : option (list ptr)) : M dtb (Z * option nat) :=
  (null <- fdt_is_null ;;
   match match_table with
   | Some table => if null : bool then ret (SBI_ENODEV, None) else find_match_loop startoff table O
   | None => ret (SBI_ENODEV, None)
   end)%sbi.

(** ** Phandles with arguments *)

Fixpoint load_args (n : nat) (p : Z) : M dtb (list Z) :=
  match n with
  | O => ret []
  | S n' => (a <- fdt32_ld p ;; l <- load_args n' (p + 4) ;; ret (a :: l))%sbi
  end.

Fixpoint phandle_args_loop (n : nat) (lst list_end : Z) (cells_prop : ptr) (index : Z) : M dtb (Z * option fdt_phandle_args) :=
  match n with
  | O => stop spinning
  | S n' =>
      (if lst <? list_end then
         phandle <- fdt32_ld lst ;;
         pnodeoff <- fdt_node_offset_by_phandle fuel phandle ;;
         if pnodeoff <? 0 then ret (pnodeoff, None)
         else
           let lst := lst + 4 in
           val <- fdt_getprop fuel pnodeoff cells_prop ;;
           match fst val with
           | None => ret (SBI_ENOENT, None)
           | Some v =>
               pcells <- fdt32_ld v ;;
               if FDT_MAX_PHANDLE_ARGS <? pcells then ret (SBI_EINVAL, None)
               else if list_end <? lst + 4 * pcells then ret (SBI_ENOENT, None)
               else if 0 <? index then phandle_args_loop n' (lst + 4 * pcells) list_end cells_prop (index - 1)
               else args <- load_args (Z.to_nat pcells) lst ;; ret (0, Some (PhandleArgs pnodeoff pcells args))
           end
       else ret (SBI_ENOENT, None))%sbi
  end.

Definition fdt_parse_phandle_with_args (nodeoff : Z) (prop cells_prop : option ptr) (index : Z) (out_args : bool) :
    M dtb (Z * option fdt_phandle_args) :=
  (null <- fdt_is_null ;;
   match prop, cells_prop with
   | Some prop, Some cells_prop =>
       if null || (nodeoff <? 0) || negb out_args then ret (SBI_EINVAL, None)
       else
         r <- fdt_getprop fuel nodeoff prop ;;
         match r with
         | (Some lst, len) => phandle_args_loop fuel lst (lst + 4 * (u64 len / 4)) cells_prop index
         | (None, _) => ret (SBI_ENOENT, None)
         end
   | _, _ => ret (SBI_EINVAL, None)
   end)%sbi.

(** ** Addresses *)

(** [for (i = 0; i < n; i++) acc = (acc << 32) | fdt32_to_cpu( *p++);] *)
Fixpoint read_cells (n : nat) (p acc : Z) : M dtb Z :=
  match n with
  | O => ret acc
  | S n' => (c <- fdt32_ld p ;; read_cells n' (p + 4) (Z.lor (shl64 acc 32) c))%sbi
  end.

(** The result and the address, [None] if it is not written. *)
Definition fdt_translate_address (reg parent : Z) : M dtb (Z * option Z) :=
  (cell_addr <- fdt_address_cells fuel parent ;;
   if cell_addr <? 1 then ret (SBI_ENODEV, None)
   else
     cell_size <- fdt_size_cells fuel parent ;;
     if cell_size <? 0 then ret (SBI_ENODEV, None)
     else
       r <- fdt_getprop fuel parent (lit "ranges") ;;
       match r with
       | (Some ranges, rlen) =>
           if 0 <? rlen then
             caddr <- read_cells (Z.to_nat cell_addr) ranges 0 ;;
             paddr <- read_cells (Z.to_nat cell_addr) (ranges + 4 * cell_addr) 0 ;;
             rsize <- read_cells (Z.to_nat cell_size) (ranges + 8 * cell_addr) 0 ;;
             if (reg <? caddr) || (add64 reg rsize <=? caddr) then ret (SBI_ENODEV, None)
             else ret (0, Some (add64 paddr (sub64 reg caddr)))
           else ret (0, Some reg)
       | (None, _) => ret (0, Some reg)
       end)%sbi.

(** The loop up to the root: what [*addr] ends with. *)
Fixpoint translate_loop (n : nat) (temp parent addr : Z) : M dtb Z :=
  match n with
  | O => stop spinning
  | S n' =>
      (if parent <? 0 then ret addr
       else
         r <- fdt_translate_address temp parent ;;
         let addr := default addr (snd r) in
         if truthy (fst r) then ret addr
         else parent <- fdt_parent_offset fuel parent ;; translate_loop n' addr parent addr)%sbi
  end.

Definition fdt_get_node_addr_size (node index : Z) (addr size : option Z) : M dtb (Z * option Z * option Z) :=
  (null <- fdt_is_null ;;
   if null || (node <? 0) || (index <? 0) then ret (SBI_EINVAL, addr, size)
   else
     parent <- fdt_parent_offset fuel node ;;
     if parent <? 0 then ret (parent, addr, size)
     else
       cell_addr <- fdt_address_cells fuel parent ;;
       if cell_addr <? 1 then ret (SBI_ENODEV, addr, size)
       else
         cell_size <- fdt_size_cells fuel parent ;;
         if cell_size <? 0 then ret (SBI_ENODEV, addr, size)
         else
           r <- fdt_getprop fuel node (lit "reg") ;;
           match r with
           | (None, _) => ret (SBI_ENODEV, addr, size)
           | (Some prop_addr, len) =>
               let skip := s32 (index * (cell_addr + cell_size)) in
               if u64 len / 4 <=? u64 skip then ret (SBI_EINVAL, addr, size)
               else
                 let prop_addr := prop_addr + 4 * skip in
                 let prop_size := prop_addr + 4 * cell_addr in
                 addr <- (match addr with
                          | None => ret None
                          | Some a =>
                              temp <- read_cells (Z.to_nat cell_addr) prop_addr 0 ;;
                              a <- translate_loop fuel temp parent a ;; ret (Some a)
                          end) ;;
                 size <- (match size with
                          | None => ret None
                          | Some _ => sz <- read_cells (Z.to_nat cell_size) prop_size 0 ;; ret (Some sz)
                          end) ;;
                 ret (0, addr, size)
           end)%sbi.

(** ** Harts *)

(** The result and [*hartid]. *)
Definition fdt_parse_hart_id (cpu_offset : Z) : M dtb (Z * option Z) :=
  (null <- fdt_is_null ;;
   if null || (cpu_offset <? 0) then ret (SBI_EINVAL, None)
   else
     r <- fdt_getprop fuel cpu_offset (lit "device_type") ;;
     match r with
     | (Some prop, len) =>
         if len =? 0 then ret (SBI_EINVAL, None)
         else
           n <- strlen fuel (lit "cpu") ;;
           c <- strncmp (At prop) (lit "cpu") n ;;
           if negb (c =? 0) then ret (SBI_EINVAL, None)
           else
             r <- fdt_getprop fuel cpu_offset (lit "reg") ;;
             match r with
             | (Some val, len) =>
                 if u64 len <? 4 then ret (SBI_EINVAL, None)
                 else hartid <- fdt32_ld (if 4 <? u64 len then val + 4 else val) ;; ret (0, Some hartid)
             | (None, _) => ret (SBI_EINVAL, None)
             end
     | (None, _) => ret (SBI_EINVAL, None)
     end)%sbi.

(** [fdt_for_each_subnode]: [max_hartid] so far. *)
Fixpoint max_hart_loop (n : nat) (cpu_offset max_hartid : Z) : M dtb Z :=
  match n with
  | O => stop spinning
  | S n' =>
      (if 0 <=? cpu_offset then
         r <- fdt_parse_hart_id cpu_offset ;;
         let max_hartid := match r with
                           | (0, Some hartid) => if max_hartid <? hartid then hartid else max_hartid
                           | _ => max_hartid
                           end in
         next <- fdt_next_subnode fuel cpu_offset ;; max_hart_loop n' next max_hartid
       else ret max_hartid)%sbi
  end.

Definition fdt_parse_max_hart_id (max_hartid : option Z) : M dtb (Z * option Z) :=
  (null <- fdt_is_null ;;
   if null : bool then ret (SBI_EINVAL, max_hartid)
   else
     match max_hartid with
     | None => ret (0, None)
     | Some _ =>
         cpus_offset <- fdt_path_offset fuel (lit "/cpus") ;;
         if cpus_offset <? 0 then ret (cpus_offset, Some 0)
         else
           first <- fdt_first_subnode fuel cpus_offset ;;
           m <- max_hart_loop fuel first 0 ;; ret (0, Some m)
     end)%sbi.

(** A property read as one cell, when there is one and it is not empty. *)
Definition get_cell (nodeoffset : Z) (name : ptr) : M dtb (option Z) :=
  (r <- fdt_getprop fuel nodeoffset name ;;
   match r with
   | (Some val, len) => if 0 <? len then c <- fdt32_ld val ;; ret (Some c) else ret None
   | (None, _) => ret None
   end)%sbi.

Definition fdt_parse_timebase_frequency (freq : option Z) : M dtb (Z * option Z) :=
  (null <- fdt_is_null ;;
   match freq with
   | Some f =>
       if null : bool then ret (SBI_EINVAL, freq)
       else
         cpus_offset <- fdt_path_offset fuel (lit "/cpus") ;;
         if cpus_offset <? 0 then ret (cpus_offset, freq)
         else
           c <- get_cell cpus_offset (lit "timebase-frequency") ;;
           match c with Some c => ret (0, Some c) | None => ret (SBI_ENOENT, freq) end
   | None => ret (SBI_EINVAL, freq)
   end)%sbi.

(** ** Devices *)

(** The address and the size of a device, mandatory: [None] without them. *)
Definition device_region (nodeoffset junk_addr junk_size : Z) : M dtb (option (Z * Z)) :=
  (r <- fdt_get_node_addr_size nodeoffset 0 (Some junk_addr) (Some junk_size) ;;
   let '(rc, reg_addr, reg_size) := r in
   let reg_addr := default 0 reg_addr in
   let reg_size := default 0 reg_size in
   if (rc <? 0) || (reg_addr =? 0) || (reg_size =? 0) then ret None else ret (Some (reg_addr, reg_size)))%sbi.

(** A node is refused: NULL, or without a region. *)
Definition with_region {A} (nodeoffset junk_addr junk_size : Z) (d : A) (k : Z → M dtb (Z * A)) : M dtb (Z * A) :=
  (null <- fdt_is_null ;;
   if null || (nodeoffset <? 0) then ret (SBI_ENODEV, d)
   else
     region <- device_region nodeoffset junk_addr junk_size ;;
     match region with None => ret (SBI_ENODEV, d) | Some (reg_addr, _) => k reg_addr end)%sbi.

Definition cell_or (nodeoffset : Z) (name : ptr) (dflt : Z) : M dtb Z :=
  (c <- get_cell nodeoffset name ;; ret (default dflt c))%sbi.

Definition fdt_parse_gaisler_uart_node (nodeoffset junk_addr junk_size : Z) (uart : platform_uart_data) : M dtb (Z * platform_uart_data) :=
  with_region nodeoffset junk_addr junk_size uart (λ addr,
    (freq <- cell_or nodeoffset (lit "clock-frequency") DEFAULT_UART_FREQ ;;
     baud <- cell_or nodeoffset (lit "current-speed") DEFAULT_UART_BAUD ;;
     ret (0, UartData addr freq baud DEFAULT_UART_REG_SHIFT DEFAULT_GAISLER_UART_REG_IO_WIDTH))%sbi).

(** The last two fields are left alone. *)
Definition fdt_parse_shakti_uart_node (nodeoffset junk_addr junk_size : Z) (uart : platform_uart_data) : M dtb (Z * platform_uart_data) :=
  with_region nodeoffset junk_addr junk_size uart (λ addr,
    (freq <- cell_or nodeoffset (lit "clock-frequency") DEFAULT_SHAKTI_UART_FREQ ;;
     baud <- cell_or nodeoffset (lit "current-speed") DEFAULT_SHAKTI_UART_BAUD ;;
     ret (0, UartData addr freq baud (uart_reg_shift uart) (uart_reg_io_width uart)))%sbi).

Definition fdt_parse_sifive_uart_node (nodeoffset junk_addr junk_size : Z) (uart : platform_uart_data) : M dtb (Z * platform_uart_data) :=
  with_region nodeoffset junk_addr junk_size uart (λ addr,
    (freq <- cell_or nodeoffset (lit "clock-frequency") DEFAULT_SIFIVE_UART_FREQ ;;
     baud <- cell_or nodeoffset (lit "current-speed") DEFAULT_SIFIVE_UART_BAUD ;;
     ret (0, UartData addr freq baud DEFAULT_SIFIVE_UART_REG_SHIFT DEFAULT_SIFIVE_UART_REG_IO_WIDTH))%sbi).

Definition fdt_parse_uart8250_node (nodeoffset junk_addr junk_size : Z) (uart : platform_uart_data) : M dtb (Z * platform_uart_data) :=
  with_region nodeoffset junk_addr junk_size uart (λ addr,
    (freq <- cell_or nodeoffset (lit "clock-frequency") DEFAULT_UART_FREQ ;;
     baud <- cell_or nodeoffset (lit "current-speed") DEFAULT_UART_BAUD ;;
     shift <- cell_or nodeoffset (lit "reg-shift") DEFAULT_UART_REG_SHIFT ;;
     width <- cell_or nodeoffset (lit "reg-io-width") DEFAULT_UART_REG_IO_WIDTH ;;
     ret (0, UartData addr freq baud shift width))%sbi).

(** By the compatible string. *)
Definition by_compatible {A} (compatible : ptr) (d : A) (k : Z → M dtb (Z * A)) : M dtb (Z * A) :=
  (null <- fdt_is_null ;;
   if null : bool then ret (SBI_ENODEV, d)
   else
     nodeoffset <- fdt_node_offset_by_compatible fuel (-1) compatible ;;
     if nodeoffset <? 0 then ret (nodeoffset, d) else k nodeoffset)%sbi.

Definition fdt_parse_uart8250 (uart : platform_uart_data) (compatible : ptr) (junk_addr junk_size : Z) : M dtb (Z * platform_uart_data) :=
  by_compatible compatible uart (λ nodeoffset, fdt_parse_uart8250_node nodeoffset junk_addr junk_size uart).

(** [num_src] is left alone without the property. *)
Definition fdt_parse_plic_node (nodeoffset junk_addr junk_size : Z) (plic : plic_data) : M dtb (Z * plic_data) :=
  with_region nodeoffset junk_addr junk_size plic (λ addr,
    (ndev <- cell_or nodeoffset (lit "riscv,ndev") (num_src plic) ;; ret (0, PlicData addr ndev))%sbi).

Definition fdt_parse_plic (plic : plic_data) (compat : ptr) (junk_addr junk_size : Z) : M dtb (Z * plic_data) :=
  by_compatible compat plic (λ nodeoffset, fdt_parse_plic_node nodeoffset junk_addr junk_size plic).

(** The address alone: no NULL check of the blob. *)
Definition fdt_parse_compat_addr (addr : option Z) (compatible : ptr) : M dtb (Z * option Z) :=
  (nodeoffset <- fdt_node_offset_by_compatible fuel (-1) compatible ;;
   if nodeoffset <? 0 then ret (nodeoffset, addr)
   else
     r <- fdt_get_node_addr_size nodeoffset 0 addr None ;;
     let '(rc, addr, _) := r in
     if (rc <? 0) || (match addr with None => true | Some _ => false end) then ret (SBI_ENODEV, addr)
     else ret (0, addr))%sbi.

(** ** The ACLINT *)

Definition IRQ_M_SOFT : Z := 3.
Definition IRQ_M_TIMER : Z := 7.

(** The first and the last hart, and how many. *)
Record hart_span : Type := HartSpan { hs_first : Z; hs_last : Z; hs_count : Z }.

Fixpoint aclint_harts_loop (n : nat) (val match_hwirq : Z) (h : hart_span) : M dtb hart_span :=
  match n with
  | O => ret h
  | S n' =>
      (phandle <- fdt32_ld val ;;
       hwirq <- fdt32_ld (val + 4) ;;
       cpu_intc_offset <- fdt_node_offset_by_phandle fuel phandle ;;
       if cpu_intc_offset <? 0 then aclint_harts_loop n' (val + 8) match_hwirq h
       else
         cpu_offset <- fdt_parent_offset fuel cpu_intc_offset ;;
         r <- fdt_parse_hart_id cpu_offset ;;
         let h := match r with
                  | (0, Some hartid) =>
                      if (SBI_HARTMASK_MAX_BITS <=? hartid) || negb (match_hwirq =? hwirq) then h
                      else HartSpan (if hartid <? hs_first h then hartid else hs_first h)
                                    (if hs_last h <? hartid then hartid else hs_last h)
                                    (u32 (hs_count h + 1))
                  | _ => h
                  end in
         aclint_harts_loop n' (val + 8) match_hwirq h)%sbi
  end.

(** What the code writes through its output pointers. *)
Record aclint_out : Type := AclintOut {
  ao_addr1 : Z;
  ao_size1 : Z;
  ao_addr2 : option Z;
  ao_size2 : option Z;
  ao_first_hartid : Z;
  ao_hart_count : Z;
}.

Definition fdt_parse_aclint_node (nodeoffset : Z) (for_timer outs : bool) (junk_addr junk_size : Z) (out : aclint_out) :
    M dtb (Z * aclint_out) :=
  (let match_hwirq := if for_timer then IRQ_M_TIMER else IRQ_M_SOFT in
   null <- fdt_is_null ;;
   if (nodeoffset <? 0) || null || negb outs then ret (SBI_EINVAL, out)
   else
     r <- fdt_get_node_addr_size nodeoffset 0 (Some junk_addr) (Some junk_size) ;;
     let '(rc, reg_addr, reg_size) := r in
     let reg_addr := default 0 reg_addr in
     let reg_size := default 0 reg_size in
     if (rc <? 0) || (reg_size =? 0) then ret (SBI_ENODEV, out)
     else
       r <- fdt_get_node_addr_size nodeoffset 1 (Some reg_addr) (Some reg_size) ;;
       let '(rc, reg_addr2, reg_size2) := r in
       let bad := (rc <? 0) || (default 0 reg_size2 =? 0) in
       let reg_addr2 := if bad then 0 else default 0 reg_addr2 in
       let reg_size2 := if bad then 0 else default 0 reg_size2 in
       let out := AclintOut reg_addr reg_size ((λ _, reg_addr2) <$> ao_addr2 out) ((λ _, reg_size2) <$> ao_size2 out) 0 0 in
       v <- fdt_getprop fuel nodeoffset (lit "interrupts-extended") ;;
       match v with
       | (Some val, len) =>
           if u64 len <? 4 then ret (0, out)
           else
             let count := s32 (u64 len / 4) in
             h <- aclint_harts_loop (Z.to_nat (count / 2)) val match_hwirq (HartSpan (2 ^ 32 - 1) 0 0) ;;
             if (hs_first h <=? hs_last h) && negb (hs_first h =? 2 ^ 32 - 1) then
               let count := hs_last h - hs_first h + 1 in
               ret (0, AclintOut (ao_addr1 out) (ao_size1 out) (ao_addr2 out) (ao_size2 out) (hs_first h)
                         (if hs_count h <? count then hs_count h else count))
             else ret (0, out)
       | (None, _) => ret (0, out)
       end)%sbi.

End Helper.

(** ** The meaning of [reg] and [ranges] (Devicetree Specification, 2.3)

    Stated on the tree, without the code: numbers are big-endian and of any size,
    counts default to 2 and 1, a range maps the addresses from its start to its
    end, and a bus without [ranges] maps nothing. *)

(** The 32-bit cells of a value, and the number that some cells make. *)
Definition cells_in (v : list Z) : list Z := map (cell v) (seq 0 (length v / 4)).
Definition be_value (l : list Z) : Z := fold_left (λ acc c, acc * 2 ^ 32 + c) l 0.

(** The number of cells that a node states for its children. *)
Definition stated_cells (strings : list Z) (name : string) (dflt : nat) (t : tree) : option nat :=
  match attr_value strings (chars name) (tree_attrs t) with
  | None => Some dflt
  | Some v => if (length v =? 4)%nat then Some (Z.to_nat (be_value (cells_in v))) else None
  end.

(** An entry of [ranges]: where the window starts on the bus, where it appears
    above, and its size. *)
Record range : Type := Range { rg_child : Z; rg_parent : Z; rg_size : Z }.

Definition range_entry (l : list Z) (ca pa sc i : nat) : range :=
  let e := drop (i * (ca + pa + sc)) l in
  Range (be_value (take ca e)) (be_value (take pa (drop ca e))) (be_value (take sc (drop (ca + pa) e))).
Definition ranges_of (v : list Z) (ca pa sc : nat) : list range :=
  map (range_entry (cells_in v) ca pa sc) (seq 0 (length v / 4 / (ca + pa + sc))).

Definition in_window (a : Z) (r : range) : bool := (rg_child r <=? a) && (a <? rg_child r + rg_size r).

(** An address on [bus], as its parent sees it. *)
Definition bus_address (strings : list Z) (bus parent : tree) (a : Z) : option Z :=
  match attr_value strings (chars "ranges") (tree_attrs bus) with
  | None => None
  | Some [] => Some a
  | Some v =>
      ca ← stated_cells strings "#address-cells" 2 bus; pa ← stated_cells strings "#address-cells" 2 parent;
      sc ← stated_cells strings "#size-cells" 1 bus;
      match List.filter (in_window a) (ranges_of v ca pa sc) with
      | r :: _ => Some (rg_parent r + (a - rg_child r))
      | [] => None
      end
  end.

(** An address on the innermost of the buses [up], as the root sees it. *)
Fixpoint root_address (strings : list Z) (up : list (Z * tree)) (a : Z) : option Z :=
  match up with
  | [] => None
  | (_, bus) :: up' =>
      match up' with
      | [] => Some a
      | (_, parent) :: _ => a' ← bus_address strings bus parent a; root_address strings up' a'
      end
  end.

(** The cells of the [idx]-th entry of [reg], address and size. *)
Definition reg_entry (strings : list Z) (idx : nat) (t p : tree) : option (Z * Z) :=
  ac ← stated_cells strings "#address-cells" 2 p; sc ← stated_cells strings "#size-cells" 1 p;
  v ← attr_value strings (chars "reg") (tree_attrs t);
  let e := drop (idx * (ac + sc)) (cells_in v) in
  if (length e <? ac + sc)%nat then None else Some (be_value (take ac e), be_value (take sc (drop ac e))).

(** The [idx]-th region of a node: its address, as the root sees it, and size. *)
Definition region_in_tree (strings : list Z) (idx : nat) (t : tree) (up : list (Z * tree)) : option (Z * Z) :=
  match up with
  | (_, p) :: _ =>
      r ← reg_entry strings idx t p; a ← root_address strings up (fst r); Some (a, snd r)
  | [] => None
  end.

(** *** The trees the code handles

    Counts that libfdt accepts; numbers that fit 64 bits; and on every bus with a
    [ranges] that is not empty, the same number of cells for an address on both
    sides, and the address in the first window, which does not reach the end of
    the 64-bit space.  (What the code does otherwise is in
    [translation_accepts_beyond_range] and after it.) *)

Definition counts_ok (strings : list Z) (p : tree) : bool :=
  match stated_cells strings "#address-cells" 2 p, stated_cells strings "#size-cells" 1 p with
  | Some ac, Some sc => (1 <=? ac)%nat && (ac <=? 4)%nat && (sc <=? 4)%nat
  | _, _ => false
  end.

Definition bus_plain (strings : list Z) (bus parent : tree) (a : Z) : bool :=
  match attr_value strings (chars "ranges") (tree_attrs bus) with
  | Some ((_ :: _) as v) =>
      match stated_cells strings "#address-cells" 2 bus, stated_cells strings "#address-cells" 2 parent,
            stated_cells strings "#size-cells" 1 bus with
      | Some ca, Some pa, Some sc =>
          let r := range_entry (cells_in v) ca pa sc 0 in
          (ca =? pa)%nat && (ca + pa + sc <=? length v / 4)%nat && in_window a r &&
          (a + rg_size r <? 2 ^ 64) && (rg_parent r + (a - rg_child r) <? 2 ^ 64)
      | _, _, _ => false
      end
  | _ => true
  end.

Fixpoint buses_plain (strings : list Z) (up : list (Z * tree)) (a : Z) : bool :=
  match up with
  | [] => true
  | (_, bus) :: up' =>
      counts_ok strings bus &&
      match up' with
      | [] => match attr_value strings (chars "ranges") (tree_attrs bus) with Some (_ :: _) => false | _ => true end
      | (_, parent) :: _ =>
          bus_plain strings bus parent a &&
          match bus_address strings bus parent a with Some a' => buses_plain strings up' a' | None => false end
      end
  end.

Definition region_plain (strings : list Z) (idx : nat) (t : tree) (up : list (Z * tree)) : bool :=
  match up with
  | (_, p) :: _ =>
      match reg_entry strings idx t p with
      | Some (a, sz) => (a <? 2 ^ 64) && (sz <? 2 ^ 64) && buses_plain strings up a
      | None => false
      end
  | [] => false
  end.

(** ** What the code computes, on a tree *)

(** The cell counts of a node, or the error. *)
Definition cells_of (strings name : list Z) (t : tree) : Z :=
  match attr_value strings name (tree_attrs t) with
  | Some v =>
      if negb (length v =? 4)%nat then - FDT_ERR_BADNCELLS
      else if FDT_MAX_NCELLS <? cell v 0 then - FDT_ERR_BADNCELLS else cell v 0
  | None => - FDT_ERR_NOTFOUND
  end.
Definition address_cells (strings : list Z) (t : tree) : Z :=
  let val := cells_of strings (chars "#address-cells") t in
  if val =? 0 then - FDT_ERR_BADNCELLS else if val =? - FDT_ERR_NOTFOUND then 2 else val.
Definition size_cells (strings : list Z) (t : tree) : Z :=
  let val := cells_of strings (chars "#size-cells") t in if val =? - FDT_ERR_NOTFOUND then 1 else val.

(** The number in [n] cells. *)
Fixpoint number (v : list Z) (i n : nat) (acc : Z) : Z :=
  match n with O => acc | S n' => number v (S i) n' (Z.lor (shl64 acc 32) (cell v i)) end.

(** What the code makes of an address, on the tree, its quirks included (this is
    not what the tree means: see [bus_address]).  [None] when it gives up, or
    reads beyond a property. *)
Definition translate1 (strings : list Z) (p : tree) (reg : Z) : option Z :=
  let ac := address_cells strings p in
  let sc := size_cells strings p in
  if (ac <? 1) || (sc <? 0) then None
  else
    match attr_value strings (chars "ranges") (tree_attrs p) with
    | Some v =>
        if (length v =? 0)%nat then Some reg
        else if Z.of_nat (length v) <? 4 * (2 * ac + sc) then None
        else
          let caddr := number v 0 (Z.to_nat ac) 0 in
          let paddr := number v (Z.to_nat ac) (Z.to_nat ac) 0 in
          let rsize := number v (2 * Z.to_nat ac) (Z.to_nat sc) 0 in
          if (reg <? caddr) || (add64 reg rsize <=? caddr) then None else Some (add64 paddr (sub64 reg caddr))
    | None => Some reg
    end.

Fixpoint translate_up (strings : list Z) (up : list (Z * tree)) (reg : Z) : option Z :=
  match up with
  | [] => Some reg
  | (_, p) :: up' => match translate1 strings p reg with Some a => translate_up strings up' a | None => None end
  end.

(** What the code makes of the [idx]-th region of a node. *)
Definition node_region (strings : list Z) (idx : nat) (t : tree) (up : list (Z * tree)) : option (Z * Z) :=
  match up with
  | (_, p) :: _ =>
      let ac := address_cells strings p in
      let sc := size_cells strings p in
      if (ac <? 1) || (sc <? 0) then None
      else
        match attr_value strings (chars "reg") (tree_attrs t) with
        | Some v =>
            let skip := (idx * Z.to_nat (ac + sc))%nat in
            if (length v <? 4 * (skip + Z.to_nat (ac + sc)))%nat then None
            else
              match translate_up strings up (number v skip (Z.to_nat ac) 0) with
              | Some a => Some (a, number v (skip + Z.to_nat ac) (Z.to_nat sc) 0)
              | None => None
              end
        | None => None
        end
  | [] => None
  end.

(** The properties of a node are bytes, as on every blob. *)
Definition byte_attrs (strings : list Z) (t : tree) : Prop :=
  forall str v, attr_value strings (chars str) (tree_attrs t) = Some v -> Forall is_byte v.

Lemma cell_u32 v i : Forall is_byte v -> 0 <= cell v i < 2 ^ 32.
Proof.
  intros Hv. unfold cell. assert (H := Forall_drop is_byte (4 * i) v Hv).
  destruct (drop (4 * i) v) as [|a [|b [|c [|d l]]]]; try lia.
  apply Forall_cons in H as [Ha H]. apply Forall_cons in H as [Hb H]. apply Forall_cons in H as [Hc H].
  apply Forall_cons in H as [Hd _]. unfold is_byte in *. lia.
Qed.

Lemma cells_in_length v : length (cells_in v) = (length v / 4)%nat.
Proof. unfold cells_in. by rewrite length_map, length_seq. Qed.

Lemma cells_in_drop v i n :
  (i + S n <= length v / 4)%nat -> take (S n) (drop i (cells_in v)) = cell v i :: take n (drop (S i) (cells_in v)).
Proof.
  intros Hl. assert (E : cells_in v !! i = Some (cell v i)).
  { unfold cells_in. rewrite list_lookup_fmap, lookup_seq_lt by lia. done. }
  by rewrite (drop_S _ _ _ E).
Qed.

Definition be_step (acc c : Z) : Z := acc * 2 ^ 32 + c.

Lemma be_fold_nonneg l acc : Forall (λ c, 0 <= c) l -> 0 <= acc -> 0 <= fold_left be_step l acc.
Proof.
  intros H. revert acc. induction H as [|c l Hc H IH]; intros acc Ha; [done|]. cbn [fold_left]. apply IH. unfold be_step. lia.
Qed.

Lemma be_fold_u64 l acc : u64 (fold_left be_step l (u64 acc)) = u64 (fold_left be_step l acc).
Proof.
  revert acc. induction l as [|c l IH]; intros acc; cbn [fold_left]; [apply u64_idemp|].
  rewrite <- (IH (be_step (u64 acc) c)), <- (IH (be_step acc c)). do 2 f_equal.
  unfold be_step, u64. rewrite Zplus_mod, Zmult_mod_idemp_l, <- Zplus_mod. done.
Qed.

Lemma number_value v n : Forall is_byte v -> forall i acc, is_u64 acc -> (i + n <= length v / 4)%nat ->
  number v i n acc = u64 (fold_left be_step (take n (drop i (cells_in v))) acc).
Proof.
  intros Hv. induction n as [|n IH]; intros i acc Ha Hl; [by rewrite u64_small|].
  cbn [number]. rewrite cells_in_drop by lia. cbn [fold_left].
  assert (Hc := cell_u32 v i Hv).
  assert (E : Z.lor (shl64 acc 32) (cell v i) = u64 (be_step acc (cell v i))).
  { unfold shl64, be_step, u64. change (32 mod 64) with 32. rewrite Z.shiftl_mul_pow2 by lia.
    assert (E : (acc * 2 ^ 32) mod 2 ^ 64 = (acc mod 2 ^ 32) * 2 ^ 32).
    { change (2 ^ 64) with (2 ^ 32 * 2 ^ 32). by rewrite Zmult_mod_distr_r. }
    rewrite E, lor_low by lia.
    assert (R := Z.mod_pos_bound acc (2 ^ 32) ltac:(lia)).
    rewrite <- (Z.mod_small (acc mod 2 ^ 32 * 2 ^ 32 + cell v i) (2 ^ 64)) by lia.
    rewrite <- E. apply Zplus_mod_idemp_l. }
  rewrite E, IH by (apply u64_range || lia). apply be_fold_u64.
Qed.

Lemma number_fits v i n : Forall is_byte v -> (i + n <= length v / 4)%nat ->
  be_value (take n (drop i (cells_in v))) < 2 ^ 64 -> number v i n 0 = be_value (take n (drop i (cells_in v))).
Proof.
  intros Hv Hl Hb. rewrite number_value by (done || unfold is_u64; lia). apply u64_small. split; [|exact Hb].
  assert (Hc : Forall (λ c, 0 <= c) (take n (drop i (cells_in v)))).
  { apply Forall_take, Forall_drop. apply Forall_forall. intros c Hc. unfold cells_in in Hc. apply list_elem_of_In, in_map_iff in Hc as (j & <- & _).
    apply cell_u32, Hv. }
  by apply be_fold_nonneg.
Qed.

(** The counts that the code reads. *)
Lemma counts_agree strings p ac sc : byte_attrs strings p -> counts_ok strings p = true ->
  stated_cells strings "#address-cells" 2 p = Some ac -> stated_cells strings "#size-cells" 1 p = Some sc ->
  address_cells strings p = Z.of_nat ac /\ size_cells strings p = Z.of_nat sc /\ (1 <= ac <= 4)%nat /\ (sc <= 4)%nat.
Proof.
  intros Hb Hc Ea Es. unfold counts_ok in Hc. rewrite Ea, Es in Hc.
  apply andb_true_iff in Hc as [Hc H3]. apply andb_true_iff in Hc as [H1 H2].
  apply Nat.leb_le in H1, H2, H3.
  assert (C : forall str dflt n, stated_cells strings str dflt p = Some n -> (n <= 4)%nat ->
    cells_of strings (chars str) p = match attr_value strings (chars str) (tree_attrs p) with Some _ => Z.of_nat n | None => - FDT_ERR_NOTFOUND end /\
    (attr_value strings (chars str) (tree_attrs p) = None -> n = dflt)).
  { intros str dflt n E Hn. unfold stated_cells, cells_of in *. assert (Hv := Hb str).
    destruct (attr_value strings (chars str) (tree_attrs p)) as [v|]; [|injection E as <-; split; done].
    split; [|done]. destruct (Nat.eqb_spec (length v) 4) as [El|]; [|done]. cbn [negb]. injection E as <-.
    unfold cells_in in *. rewrite El in *. change (4 / 4)%nat with 1%nat in *. cbn [seq map] in *.
    assert (R := cell_u32 v 0 (Hv v eq_refl)).
    assert (Ev : be_value [cell v 0] = cell v 0) by (unfold be_value; cbn [fold_left]; lia). rewrite Ev in *.
    unfold FDT_MAX_NCELLS. rewrite (proj2 (Z.ltb_ge 4 _)) by lia. lia. }
  destruct (C _ _ _ Ea H2) as [A1 A2]. destruct (C _ _ _ Es H3) as [S1 S2].
  unfold address_cells, size_cells. rewrite A1, S1. split; [|split; [|lia]].
  - destruct (attr_value strings (chars "#address-cells") (tree_attrs p)).
    + rewrite (proj2 (Z.eqb_neq (Z.of_nat ac) 0)) by lia. rewrite (proj2 (Z.eqb_neq _ (- FDT_ERR_NOTFOUND))); [done|].
      unfold FDT_ERR_NOTFOUND. lia.
    + rewrite (A2 eq_refl). done.
  - destruct (attr_value strings (chars "#size-cells") (tree_attrs p)).
    + rewrite (proj2 (Z.eqb_neq _ (- FDT_ERR_NOTFOUND))); [done|]. unfold FDT_ERR_NOTFOUND. lia.
    + rewrite (S2 eq_refl). done.
Qed.

(** A bus the code handles. *)
Lemma bus_translated strings bus parent a a' : byte_attrs strings bus -> counts_ok strings bus = true ->
  bus_plain strings bus parent a = true -> bus_address strings bus parent a = Some a' -> is_u64 a ->
  translate1 strings bus a = Some a' /\ is_u64 a'.
Proof.
  intros Hb Hc Hp Ha Hu. unfold translate1, bus_plain, bus_address in *. cbv zeta.
  destruct (stated_cells strings "#address-cells" 2 bus) as [ca|] eqn:Ea; [|unfold counts_ok in Hc; by rewrite Ea in Hc].
  destruct (stated_cells strings "#size-cells" 1 bus) as [sc|] eqn:Es; [|unfold counts_ok in Hc; by rewrite Ea, Es in Hc].
  destruct (counts_agree strings bus ca sc Hb Hc Ea Es) as (-> & -> & H1 & H2).
  rewrite (proj2 (Z.ltb_ge (Z.of_nat ca) 1)), (proj2 (Z.ltb_ge (Z.of_nat sc) 0)) by lia. cbn [orb].
  destruct (attr_value strings (chars "ranges") (tree_attrs bus)) as [v|] eqn:Er; [|done].
  assert (Hv := Hb _ _ Er). destruct v as [|x v0]; [injection Ha as <-; by split|]. remember (x :: v0) as v eqn:Ex.
  assert (Hne : (0 < length v)%nat) by (subst v; cbn; lia). destruct (Nat.eqb_spec (length v) 0) as [|_]; [lia|].
  cbn [mbind option_bind] in Ha.
  destruct (stated_cells strings "#address-cells" 2 parent) as [pa|]; [|done]. cbn [mbind option_bind] in Ha.
  cbv zeta in Hp. repeat (apply andb_true_iff in Hp as [Hp ?Hq]).
  apply Nat.eqb_eq in Hp as <-. apply Nat.leb_le in Hq2. apply Z.ltb_lt in Hq, Hq0.
  assert (El : ranges_of v ca ca sc = range_entry (cells_in v) ca ca sc 0 :: tail (ranges_of v ca ca sc)).
  { unfold ranges_of. assert (Hn : (1 <= length v / 4 / (ca + ca + sc))%nat) by (apply Nat.div_le_lower_bound; [lia|rewrite Nat.mul_1_r; exact Hq2]).
    destruct (length v / 4 / (ca + ca + sc))%nat; [lia|]. done. }
  rewrite El in Ha. cbn [List.filter] in Ha. rewrite Hq1 in Ha. injection Ha as <-.
  unfold in_window in Hq1. apply andb_true_iff in Hq1 as [Hw1 Hw2]. apply Z.leb_le in Hw1. apply Z.ltb_lt in Hw2.
  unfold range_entry in *. rewrite Nat.mul_0_l, drop_0 in *. cbn [rg_child rg_parent rg_size] in *.
  assert (Hd : (4 * (length v / 4) <= length v)%nat) by (apply Nat.Div0.mul_div_le).
  rewrite !Nat2Z.id. rewrite (proj2 (Z.ltb_ge _ _)) by lia.
  assert (Hc0 : forall n m, 0 <= be_value (take n (drop m (cells_in v)))).
  { intros n m. apply be_fold_nonneg; [|done]. apply Forall_take, Forall_drop, Forall_forall. intros c Hi.
    apply list_elem_of_In, in_map_iff in Hi as (j & <- & _). apply cell_u32, Hv. }
  assert (P0 := Hc0 ca 0%nat). assert (P1 := Hc0 ca ca). assert (P2 := Hc0 sc (ca + ca)%nat). rewrite drop_0 in P0.
  unfold is_u64 in Hu.
  assert (N0 := number_fits v 0 ca Hv ltac:(lia)). rewrite drop_0 in N0. rewrite N0 by lia.
  rewrite (number_fits v ca ca Hv) by lia.
  replace (2 * ca)%nat with (ca + ca)%nat by lia. rewrite (number_fits v (ca + ca) sc Hv) by lia.
  unfold add64, sub64. rewrite (u64_small (a + _)), (u64_small (a - _)), u64_small by (unfold is_u64; lia).
  rewrite (proj2 (Z.ltb_ge a _)), (proj2 (Z.leb_gt _ _)) by lia. cbn [orb]. split; [done|]. unfold is_u64. lia.
Qed.

Lemma buses_translated strings up : Forall (λ p, byte_attrs strings (snd p)) up -> forall a a',
  buses_plain strings up a = true -> root_address strings up a = Some a' -> is_u64 a ->
  translate_up strings up a = Some a' /\ is_u64 a'.
Proof.
  induction 1 as [|[o bus] up Hb H IH]; intros a a' Hp Ha Hu; [done|]. cbn [buses_plain root_address translate_up snd] in *.
  apply andb_true_iff in Hp as [Hc Hp]. destruct up as [|[o' parent] up].
  - injection Ha as <-.
    assert (E : bus_plain strings bus bus a = true /\ bus_address strings bus bus a = Some a \/
                attr_value strings (chars "ranges") (tree_attrs bus) = None).
    { unfold bus_plain, bus_address. destruct (attr_value strings (chars "ranges") (tree_attrs bus)) as [[|]|]; [by left|done|by right]. }
    destruct E as [[E1 E2]|E].
    + destruct (bus_translated strings bus bus a a Hb Hc E1 E2 Hu) as [-> ?]. done.
    + assert (T : translate1 strings bus a = Some a).
      { unfold translate1, counts_ok in *. destruct (stated_cells strings "#address-cells" 2 bus) as [ca|] eqn:Ea; [|done].
        destruct (stated_cells strings "#size-cells" 1 bus) as [sc|] eqn:Es; [|done].
        destruct (counts_agree strings bus ca sc Hb ltac:(unfold counts_ok; by rewrite Ea, Es) Ea Es) as (-> & -> & H1 & H2).
        rewrite (proj2 (Z.ltb_ge (Z.of_nat ca) 1)), (proj2 (Z.ltb_ge (Z.of_nat sc) 0)) by lia. by rewrite E. }
      by rewrite T.
  - apply andb_true_iff in Hp as [Hp Hq]. destruct (bus_address strings bus parent a) as [a1|] eqn:E1; [|done].
    destruct (bus_translated strings bus parent a a1 Hb Hc Hp E1 Hu) as [-> U1]. by apply IH.
Qed.

Lemma region_read strings idx t up a sz : byte_attrs strings t -> Forall (λ p, byte_attrs strings (snd p)) up ->
  region_in_tree strings idx t up = Some (a, sz) -> region_plain strings idx t up = true ->
  node_region strings idx t up = Some (a, sz).
Proof.
  intros Ht Hup Hr Hp. destruct up as [|[o p] up]; [done|]. unfold region_in_tree, region_plain in *. cbn [node_region].
  destruct (reg_entry strings idx t p) as [[ra rs]|] eqn:E; [|done]. cbn [mbind option_bind fst snd] in Hr.
  destruct (root_address _ _ _) as [a1|] eqn:Er; [|done]. injection Hr as <- <-.
  apply andb_true_iff in Hp as [Hp Hq]. apply andb_true_iff in Hp as [H1 H2]. apply Z.ltb_lt in H1, H2.
  unfold reg_entry in E. destruct (stated_cells strings "#address-cells" 2 p) as [ac|] eqn:Ea; [|done].
  destruct (stated_cells strings "#size-cells" 1 p) as [sc|] eqn:Es; [|done]. cbn [mbind option_bind] in E.
  assert (Hc : counts_ok strings p = true) by (cbn [buses_plain] in Hq; by apply andb_true_iff in Hq as [Hc _]).
  assert (Hpb := proj1 (Forall_cons_1 _ _ _ Hup)). cbn [snd] in Hpb.
  destruct (counts_agree strings p ac sc Hpb Hc Ea Es) as (-> & -> & B1 & B2).
  rewrite (proj2 (Z.ltb_ge (Z.of_nat ac) 1)), (proj2 (Z.ltb_ge (Z.of_nat sc) 0)) by lia. cbn [orb].
  destruct (attr_value strings (chars "reg") (tree_attrs t)) as [v|] eqn:Ev; [|done]. cbn [mbind option_bind] in E. cbv zeta in E.
  assert (Hv := Ht _ _ Ev). rewrite length_drop, cells_in_length in E.
  destruct (Nat.ltb_spec (length v / 4 - idx * (ac + sc)) (ac + sc)) as [|Hl]; [done|]. injection E as <- <-.
  rewrite <- Nat2Z.inj_add, !Nat2Z.id.
  assert (Hd : (4 * (length v / 4) <= length v)%nat) by (apply Nat.Div0.mul_div_le).
  set (k := (idx * (ac + sc))%nat) in *. rewrite (proj2 (Nat.ltb_ge _ _)) by lia.
  rewrite drop_drop in *. rewrite (number_fits v k ac Hv) by (done || lia).
  rewrite (number_fits v (k + ac) sc Hv) by (done || lia).
  destruct (buses_translated strings ((o, p) :: up) Hup _ _ Hq Er) as [-> _]; [|done].
  split; [|done]. apply be_fold_nonneg; [|done]. apply Forall_take, Forall_drop, Forall_forall. intros c Hi.
  apply list_elem_of_In, in_map_iff in Hi as (j & <- & _). apply cell_u32, Hv.
Qed.

Lemma reads_read_cells s data v n : at_offset s data v -> forall i acc, (4 * (i + n) <= length v)%nat ->
  reads s (read_cells n (data + 4 * Z.of_nat i) acc) (number v i n acc).
Proof.
  intros Ha. induction n as [|n IH]; intros i acc Hl; cbn [read_cells number]; [apply reads_ret|].
  eapply reads_bind; [apply reads_cell; [exact Ha|lia]|].
  replace (data + 4 * Z.of_nat i + 4) with (data + 4 * Z.of_nat (S i)) by lia. apply IH. lia.
Qed.

Section Helpers.
Context {root : tree} (Hroot : tree_ok root = true).
Context {s : dtb} {strings : list Z} {ds dn total : Z}.
Context (B : blob s (flat root) strings ds dn total).
Context (fuel : nat) (Hfuel : total < Z.of_nat fuel) (Hnull : dt_addr s <> 0).

Lemma reads_not_null : reads s fdt_is_null false.
Proof. unfold reads, fdt_is_null, gets. by rewrite (proj2 (Z.eqb_neq _ 0) Hnull). Qed.

Lemma lineage_at o t up : lineage root o t up -> node_at (flat root) o t.
Proof. intros H. eapply below_node_at; [by apply root_at|by apply lineage_below]. Qed.

(** A property that code asks for by a constant. *)
Lemma reads_prop o t str : node_at (flat root) o t ->
  Forall (λ a, nat_of_ascii a <> O) (list_ascii_of_string str) -> (length (chars str) <= 36)%nat ->
  match attr_value strings (chars str) (tree_attrs t) with
  | Some v => exists data, reads s (fdt_getprop fuel o (lit str)) (Some data, Z.of_nat (length v)) /\
                       at_offset s data v /\ Forall is_byte v /\ Z.of_nat (length v) < total
  | None => reads s (fdt_getprop fuel o (lit str)) (None, - FDT_ERR_NOTFOUND)
  end.
Proof.
  intros Hn Hz Hl. assert (H36 := total_36 B). apply (reads_attr_lit B fuel Hfuel o t (chars str) Hn); [by apply chars_nonzero|lia].
Qed.

Lemma reads_fdt_cells o t str : node_at (flat root) o t ->
  Forall (λ a, nat_of_ascii a <> O) (list_ascii_of_string str) -> (length (chars str) <= 36)%nat ->
  reads s (fdt_cells fuel o (lit str)) (cells_of strings (chars str) t).
Proof.
  intros Hn Hz Hl. assert (R := reads_prop o t str Hn Hz Hl). unfold fdt_cells, cells_of.
  destruct (attr_value strings (chars str) (tree_attrs t)) as [v|].
  - destruct R as (data & R & Ha & _). eapply reads_bind; [exact R|]. cbv iota beta.
    destruct (Nat.eqb_spec (length v) 4) as [El|El].
    + rewrite El. cbn [negb Z.of_nat Z.eqb]. change (Z.of_nat 4 =? 4) with true. cbn [negb].
      eapply reads_bind; [rewrite <- (Z.add_0_r data); apply (reads_cell s data v 0 Ha); lia|].
      destruct (_ <? _); apply reads_ret.
    + rewrite (proj2 (Z.eqb_neq _ 4)) by lia. apply reads_ret.
  - eapply reads_bind; [exact R|]. apply reads_ret.
Qed.

Lemma reads_address_cells o t : node_at (flat root) o t -> reads s (fdt_address_cells fuel o) (address_cells strings t).
Proof.
  intros Hn. eapply reads_bind; [apply reads_fdt_cells; [exact Hn|by repeat constructor|cbn; lia]|]. apply reads_ret.
Qed.

Lemma reads_size_cells o t : node_at (flat root) o t -> reads s (fdt_size_cells fuel o) (size_cells strings t).
Proof.
  intros Hn. eapply reads_bind; [apply reads_fdt_cells; [exact Hn|by repeat constructor|cbn; lia]|]. apply reads_ret.
Qed.

Lemma reads_translate o t reg a : node_at (flat root) o t -> translate1 strings t reg = Some a ->
  reads s (fdt_translate_address fuel reg o) (0, Some a).
Proof.
  intros Hn. unfold translate1. cbv zeta. set (ac := address_cells strings t). set (sc := size_cells strings t).
  destruct (Z.ltb_spec ac 1); [done|]. destruct (Z.ltb_spec sc 0); [done|]. cbn [orb].
  assert (R := reads_prop o t "ranges" Hn ltac:(by repeat constructor) ltac:(cbn; lia)). intros Ht.
  unfold fdt_translate_address. eapply reads_bind; [by apply reads_address_cells|]. fold ac.
  rewrite (proj2 (Z.ltb_ge ac 1)) by lia. eapply reads_bind; [by apply reads_size_cells|]. fold sc.
  rewrite (proj2 (Z.ltb_ge sc 0)) by lia.
  destruct (attr_value strings (chars "ranges") (tree_attrs t)) as [v|].
  2: { injection Ht as <-. eapply reads_bind; [exact R|]. apply reads_ret. }
  destruct R as (data & R & Ha & _). eapply reads_bind; [exact R|]. cbv iota beta.
  destruct (Nat.eqb_spec (length v) 0) as [El|El].
  { injection Ht as <-. rewrite El. apply reads_ret. }
  rewrite (proj2 (Z.ltb_lt 0 _)) by lia. destruct (Z.ltb_spec (Z.of_nat (length v)) (4 * (2 * ac + sc))) as [|Hlen]; [done|].
  eapply reads_bind; [rewrite <- (Z.add_0_r data) at 1; apply (reads_read_cells s data v _ Ha 0); lia|].
  eapply reads_bind; [replace (4 * ac) with (4 * Z.of_nat (Z.to_nat ac)) by lia; apply (reads_read_cells s data v _ Ha (Z.to_nat ac)); lia|].
  eapply reads_bind; [replace (8 * ac) with (4 * Z.of_nat (2 * Z.to_nat ac)) by lia; apply (reads_read_cells s data v _ Ha (2 * Z.to_nat ac)); lia|].
  destruct (_ || _); [done|]. injection Ht as <-. apply reads_ret.
Qed.

(** Up to the root. *)
Lemma reads_translate_loop o t up : lineage root o t up -> forall n temp addr a, (length up + 1 < n)%nat ->
  translate_up strings ((o, t) :: up) temp = Some a -> reads s (translate_loop fuel n temp o addr) a.
Proof.
  intros Hl. induction Hl as [|o t up o' c Hl IH Hc]; intros n temp addr a Hn Ht; (destruct n as [|n]; [lia|]);
    cbn [translate_up] in Ht; cbn [translate_loop].
  - destruct (translate1 strings root temp) as [a1|] eqn:E1; [|done]. injection Ht as <-.
    cbn [Z.ltb Z.compare]. eapply reads_bind; [eapply reads_translate; [by apply root_at|exact E1]|].
    cbn [fst snd truthy Z.eqb negb]. change (default addr (Some a1)) with a1. cbv zeta.
    eapply reads_bind; [apply (reads_parent_root B fuel Hfuel)|].
    destruct n as [|n]; [cbn in Hn; lia|]. cbn [translate_loop]. change (- FDT_ERR_NOTFOUND <? 0) with true. apply reads_ret.
  - destruct (translate1 strings c temp) as [a1|] eqn:E1; [|done].
    assert (Hn' : lineage root o' c ((o, t) :: up)) by (by eapply lineage_child).
    assert (Hat := lineage_at _ _ _ Hn'). assert (H0 := node_at_nonneg _ _ Hat).
    rewrite (proj2 (Z.ltb_ge o' 0)) by lia. eapply reads_bind; [eapply reads_translate; [exact Hat|exact E1]|].
    cbn [fst snd truthy Z.eqb negb]. change (default addr (Some a1)) with a1. cbv zeta.
    eapply reads_bind; [apply (reads_parent_offset Hroot B fuel Hfuel _ _ _ _ _ (lineage_below _ _ _ _ Hl) Hc)|].
    apply IH; [cbn [length] in Hn; lia|exact Ht].
Qed.

Lemma cells_bound name t : cells_of strings name t <= 4.
Proof.
  unfold cells_of. destruct (attr_value strings name (tree_attrs t)) as [v|]; [|done].
  destruct (negb _); [done|]. destruct (Z.ltb_spec FDT_MAX_NCELLS (cell v 0)); [done|]. unfold FDT_MAX_NCELLS in *. lia.
Qed.

Lemma address_cells_bound t : address_cells strings t <= 4.
Proof.
  unfold address_cells. cbv zeta. assert (H := cells_bound (chars "#address-cells") t).
  destruct (_ =? 0); [done|]. destruct (_ =? _); [done|exact H].
Qed.

Lemma size_cells_bound t : size_cells strings t <= 4.
Proof.
  unfold size_cells. cbv zeta. assert (H := cells_bound (chars "#size-cells") t). destruct (_ =? _); [done|exact H].
Qed.

(** The region of a node. *)
Lemma reads_node_region o t up idx a0 size0 a sz :
  lineage root o t up -> node_region strings idx t up = Some (a, sz) -> Z.of_nat idx < 2 ^ 16 ->
  reads s (fdt_get_node_addr_size fuel o (Z.of_nat idx) (Some a0) size0) (0, Some a, (λ _, sz) <$> size0).
Proof.
  intros Hl Hr Hi. assert (Hat := lineage_at _ _ _ Hl). assert (H0 := node_at_nonneg _ _ Hat).
  destruct Hl as [|po p up o t Hl Hc]; [done|]. cbn [node_region] in Hr. cbv zeta in Hr.
  assert (Hp := lineage_at _ _ _ Hl). assert (Hp0 := node_at_nonneg _ _ Hp). assert (Hr0 := blob_total_range B).
  set (ac := address_cells strings p) in *. set (sc := size_cells strings p) in *.
  assert (Bac := address_cells_bound p). assert (Bsc := size_cells_bound p). fold ac in Bac. fold sc in Bsc.
  destruct (Z.ltb_spec ac 1); [done|]. destruct (Z.ltb_spec sc 0); [done|]. cbn [orb] in Hr.
  assert (R := reads_prop o t "reg" Hat ltac:(by repeat constructor) ltac:(cbn; lia)).
  unfold fdt_get_node_addr_size. eapply reads_bind; [apply reads_not_null|].
  rewrite (proj2 (Z.ltb_ge o 0)), (proj2 (Z.ltb_ge (Z.of_nat idx) 0)) by lia. cbn [orb].
  eapply reads_bind; [apply (reads_parent_offset Hroot B fuel Hfuel _ _ _ _ _ (lineage_below _ _ _ _ Hl) Hc)|].
  rewrite (proj2 (Z.ltb_ge po 0)) by lia.
  eapply reads_bind; [by apply reads_address_cells|]. fold ac. rewrite (proj2 (Z.ltb_ge ac 1)) by lia.
  eapply reads_bind; [by apply reads_size_cells|]. fold sc. rewrite (proj2 (Z.ltb_ge sc 0)) by lia.
  destruct (attr_value strings (chars "reg") (tree_attrs t)) as [v|]; [|done].
  destruct R as (data & R & Ha & _ & Hv). eapply reads_bind; [exact R|]. cbv iota beta zeta.
  set (skip := (idx * Z.to_nat (ac + sc))%nat) in *.
  assert (Es : s32 (Z.of_nat idx * (ac + sc)) = Z.of_nat skip) by (unfold skip; rewrite s32_small by nia; nia).
  rewrite Es. destruct (Nat.ltb_spec (length v) (4 * (skip + Z.to_nat (ac + sc)))); [done|].
  rewrite !u64_small by (unfold is_u64; lia).
  assert (Hd : Z.of_nat skip + 1 <= Z.of_nat (length v) / 4) by (apply Z.div_le_lower_bound; lia).
  rewrite (proj2 (Z.leb_gt _ _)) by lia.
  destruct (translate_up strings _ _) as [a1|] eqn:Et; [|done]. injection Hr as <- <-.
  assert (Hs := lineage_size _ _ _ _ Hl). assert (Hb := blob_struct_range B).
  assert (Hpo : po < size_of (flat root)).
  { destruct (node_at_split _ _ Hp) as (pre & post & E & ->). rewrite E, size_of_app, size_of_cons.
    destruct (encode_size (BeginNode (tree_name p))) as (k & -> & Hk). assert (Hn := size_of_nonneg (tree_attrs p ++ flat_all (tree_children p) ++ EndNode :: post)). lia. }
  eapply reads_bind.
  { eapply reads_bind; [apply (reads_read_cells s data v _ Ha); lia|].
    eapply reads_bind; [eapply reads_translate_loop; [exact Hl|lia|exact Et]|]. apply reads_ret. }
  destruct size0 as [z|]; cbn [fmap option_fmap option_map].
  - eapply reads_bind; [|apply reads_ret]. eapply reads_bind; [|apply reads_ret].
    replace (data + 4 * Z.of_nat skip + 4 * ac) with (data + 4 * Z.of_nat (skip + Z.to_nat ac)) by lia.
    apply (reads_read_cells s data v _ Ha). lia.
  - eapply reads_bind; [apply reads_ret|]. apply reads_ret.
Qed.

(** The nodes of a blob have bytes for properties. *)
Lemma node_bytes o t : node_at (flat root) o t -> byte_attrs strings t.
Proof.
  intros Hn str v Hv. destruct (node_at_split _ _ Hn) as (pre & post & E & _).
  assert (Ht := blob_tokens _ _ _ _ _ _ B). rewrite E in Ht. apply Forall_app in Ht as [_ Ht]. apply Forall_cons in Ht as [_ Ht].
  apply Forall_app in Ht as [Ht _]. revert Hv Ht. generalize (tree_attrs t). clear. intros l.
  induction l as [|x l IH]; [done|]. intros Hv Hl. apply Forall_cons in Hl as [Hx Hl].
  destruct x; cbn [attr_value] in Hv; try by apply IH. destruct (bool_decide _); [|by apply IH]. injection Hv as <-. apply Hx.
Qed.

Lemma lineage_bytes o t up : lineage root o t up -> byte_attrs strings t /\ Forall (λ p, byte_attrs strings (snd p)) up.
Proof.
  intros Hl. split; [by eapply node_bytes, lineage_at|].
  induction Hl as [|o t up o' c Hl IH Hc]; constructor; [by eapply node_bytes, lineage_at|exact IH].
Qed.

(** The region of a node is read as the tree means it. *)
Lemma reads_region o t up idx a0 size0 a sz :
  lineage root o t up -> region_in_tree strings idx t up = Some (a, sz) -> region_plain strings idx t up = true ->
  Z.of_nat idx < 2 ^ 16 ->
  reads s (fdt_get_node_addr_size fuel o (Z.of_nat idx) (Some a0) size0) (0, Some a, (λ _, sz) <$> size0).
Proof.
  intros Hl Hr Hp Hi. destruct (lineage_bytes _ _ _ Hl) as [H1 H2].
  apply (reads_node_region o t up); [done|by apply region_read|done].
Qed.

(** A property read as a cell; the code reads four bytes of it, however few it
    has. *)
Definition cell_prop (str : string) (t : tree) : option Z :=
  match attr_value strings (chars str) (tree_attrs t) with
  | Some v => if (length v =? 0)%nat then None else Some (cell v 0)
  | None => None
  end.
Definition cell_prop_ok (str : string) (t : tree) : bool :=
  match attr_value strings (chars str) (tree_attrs t) with
  | Some v => (length v =? 0)%nat || (4 <=? length v)%nat
  | None => true
  end.

Lemma reads_get_cell o t str : node_at (flat root) o t -> cell_prop_ok str t = true ->
  Forall (λ a, nat_of_ascii a <> O) (list_ascii_of_string str) -> (length (chars str) <= 36)%nat ->
  reads s (get_cell fuel o (lit str)) (cell_prop str t).
Proof.
  intros Hn Hok Hz Hl. assert (R := reads_prop o t str Hn Hz Hl). unfold get_cell, cell_prop, cell_prop_ok in *.
  destruct (attr_value strings (chars str) (tree_attrs t)) as [v|]; [|eapply reads_bind; [exact R|apply reads_ret]].
  destruct R as (data & R & Ha & _). eapply reads_bind; [exact R|]. cbv iota beta.
  destruct (Nat.eqb_spec (length v) 0) as [->|Hne]; [apply reads_ret|]. rewrite (proj2 (Z.ltb_lt 0 _)) by lia.
  cbn [orb] in Hok. apply Nat.leb_le in Hok.
  eapply reads_bind; [rewrite <- (Z.add_0_r data); apply (reads_cell s data v 0 Ha); lia|apply reads_ret].
Qed.

Lemma reads_cell_or o t str d : node_at (flat root) o t -> cell_prop_ok str t = true ->
  Forall (λ a, nat_of_ascii a <> O) (list_ascii_of_string str) -> (length (chars str) <= 36)%nat ->
  reads s (cell_or fuel o (lit str) d) (default d (cell_prop str t)).
Proof. intros. eapply reads_bind; [by apply reads_get_cell|]. apply reads_ret. Qed.

(** A device by its compatible string, and its region. *)
Definition device_at (c : string) : option (tree * (Z * Z)) :=
  match find_node (compatible_with strings (chars c)) root with
  | Some (_, t, up) => r ← region_in_tree strings 0 t up; Some (t, r)
  | None => None
  end.

(** It can be read, if there is one: its region is there and not at 0, the buses
    are such as the code handles, and the properties [cells] are whole cells. *)
Definition device_ok (c : string) (cells : list string) : bool :=
  match find_node (compatible_with strings (chars c)) root with
  | Some (_, t, up) =>
      match region_in_tree strings 0 t up with
      | Some (a, sz) => negb (a =? 0) && negb (sz =? 0) && region_plain strings 0 t up && forallb (λ p, cell_prop_ok p t) cells
      | None => false
      end
  | None => true
  end.

(** What is read of the device, if there is one. *)
Definition parsed {A} (c : string) (d : A) (g : Z → tree → Z * A) : Z * A :=
  match device_at c with Some (t, (a, _)) => g a t | None => (- FDT_ERR_NOTFOUND, d) end.

Context (Hcompat : forallb (λ n, compatible_ok strings (snd n)) (preorder root 0) = true).

Lemma reads_parsed {A} (c : string) cells (d : A) k g j1 j2 :
  Forall (λ a, nat_of_ascii a <> O) (list_ascii_of_string c) -> (1 <= length (chars c) <= 36)%nat ->
  device_ok c cells = true ->
  (forall o t a, node_at (flat root) o t -> forallb (λ p, cell_prop_ok p t) cells = true -> reads s (k o a) (g a t)) ->
  reads s (by_compatible fuel (lit c) d (λ o, with_region fuel o j1 j2 d (k o))) (parsed c d g).
Proof.
  intros Hz Hl Hok Hk. assert (H36 := total_36 B). unfold by_compatible, parsed, device_at, device_ok in *.
  eapply reads_bind; [apply reads_not_null|]. cbv iota.
  eapply reads_bind.
  { apply (reads_by_compatible Hroot B fuel Hfuel (chars c)); [|by intros E; rewrite E in Hl; cbn in Hl; lia|exact Hcompat].
    split; [by apply chars_nonzero|lia]. }
  rewrite find_node_scan. destruct (find_node _ root) as [[[o t] up]|] eqn:E; [|apply reads_ret].
  destruct (find_node_lineage _ _ _ _ _ E) as [Hln _]. assert (Hat := lineage_at _ _ _ Hln).
  rewrite (proj2 (Z.ltb_ge o 0)) by exact (node_at_nonneg _ _ Hat).
  destruct (region_in_tree strings 0 t up) as [[a sz]|] eqn:Er; [|done]. cbn [mbind option_bind].
  apply andb_true_iff in Hok as [Hok Hc]. apply andb_true_iff in Hok as [Hok Hp]. apply andb_true_iff in Hok as [Ha Hsz].
  apply negb_true_iff in Ha, Hsz. unfold with_region, device_region.
  eapply reads_bind; [apply reads_not_null|].
  rewrite (proj2 (Z.ltb_ge o 0)) by exact (node_at_nonneg _ _ Hat). cbn [orb].
  eapply (reads_bind s _ _ (Some (a, sz))); [|by apply Hk].
  eapply reads_bind; [apply (reads_region o t up 0 j1 (Some j2) a sz Hln Er Hp); lia|]. cbn [fmap option_fmap option_map].
  change (default 0 (Some a)) with a. change (default 0 (Some sz)) with sz. cbv zeta. rewrite Ha, Hsz.
  change (0 <? 0) with false. cbn [orb]. apply reads_ret.
Qed.

(** ** The devices of the platform *)

Definition uart_of (a : Z) (t : tree) : Z * platform_uart_data :=
  (0, UartData a (default DEFAULT_UART_FREQ (cell_prop "clock-frequency" t))
        (default DEFAULT_UART_BAUD (cell_prop "current-speed" t))
        (default DEFAULT_UART_REG_SHIFT (cell_prop "reg-shift" t))
        (default DEFAULT_UART_REG_IO_WIDTH (cell_prop "reg-io-width" t))).

Definition uart_cells : list string := ["clock-frequency"; "current-speed"; "reg-shift"; "reg-io-width"]%string.

Lemma reads_uart8250 c uart j1 j2 :
  Forall (λ a, nat_of_ascii a <> O) (list_ascii_of_string c) -> (1 <= length (chars c) <= 36)%nat ->
  device_ok c uart_cells = true ->
  reads s (fdt_parse_uart8250 fuel uart (lit c) j1 j2) (parsed c uart uart_of).
Proof.
  intros Hz Hl Hok. eapply reads_parsed; [done|done|exact Hok|]. intros o t a Hn Hc. cbn [forallb uart_cells] in Hc.
  apply andb_true_iff in Hc as [H1 Hc]. apply andb_true_iff in Hc as [H2 Hc]. apply andb_true_iff in Hc as [H3 Hc].
  apply andb_true_iff in Hc as [H4 _].
  do 4 (eapply reads_bind; [apply (reads_cell_or o t); [done|done|by repeat constructor|cbn; lia]|]). apply reads_ret.
Qed.

(** Without [riscv,ndev] the number of sources is what the caller had there. *)
Definition plic_of (plic : plic_data) (a : Z) (t : tree) : Z * plic_data :=
  (0, PlicData a (default (num_src plic) (cell_prop "riscv,ndev" t))).

Lemma reads_plic c plic j1 j2 :
  Forall (λ a, nat_of_ascii a <> O) (list_ascii_of_string c) -> (1 <= length (chars c) <= 36)%nat ->
  device_ok c ["riscv,ndev"%string] = true ->
  reads s (fdt_parse_plic fuel plic (lit c) j1 j2) (parsed c plic (plic_of plic)).
Proof.
  intros Hz Hl Hok. eapply reads_parsed; [done|done|exact Hok|]. intros o t a Hn Hc. cbn [forallb] in Hc.
  apply andb_true_iff in Hc as [H1 _].
  eapply reads_bind; [apply (reads_cell_or o t); [done|done|by repeat constructor|cbn; lia]|]. apply reads_ret.
Qed.

(** The address alone. *)
Lemma reads_compat_addr c addr :
  Forall (λ a, nat_of_ascii a <> O) (list_ascii_of_string c) -> (1 <= length (chars c) <= 36)%nat ->
  device_ok c [] = true ->
  reads s (fdt_parse_compat_addr fuel (Some addr) (lit c)) (parsed c (Some addr) (λ a _, (0, Some a))).
Proof.
  intros Hz Hl Hok. assert (H36 := total_36 B). unfold fdt_parse_compat_addr, parsed, device_at, device_ok in *.
  eapply reads_bind.
  { apply (reads_by_compatible Hroot B fuel Hfuel (chars c)); [|by intros E; rewrite E in Hl; cbn in Hl; lia|exact Hcompat].
    split; [by apply chars_nonzero|lia]. }
  rewrite find_node_scan. destruct (find_node _ root) as [[[o t] up]|] eqn:E; [|apply reads_ret].
  destruct (find_node_lineage _ _ _ _ _ E) as [Hln _].
  rewrite (proj2 (Z.ltb_ge o 0)) by exact (node_at_nonneg _ _ (lineage_at _ _ _ Hln)).
  destruct (region_in_tree strings 0 t up) as [[a sz]|] eqn:Er; [|done]. cbn [mbind option_bind].
  apply andb_true_iff in Hok as [Hok _]. apply andb_true_iff in Hok as [_ Hp].
  eapply reads_bind; [apply (reads_region o t up 0 addr None a sz Hln Er Hp); lia|]. apply reads_ret.
Qed.

End Helpers.

(** ** Harts *)

Section Harts.
Context {root : tree} (Hroot : tree_ok root = true).
Context {s : dtb} {strings : list Z} {ds dn total : Z}.
Context (B : blob s (flat root) strings ds dn total).
Context (fuel : nat) (Hfuel : total < Z.of_nat fuel) (Hnull : dt_addr s <> 0).

(** A child's offset, and where the next one starts. *)
Definition first_of (o : Z) (l : list tree) : Z := match l with [] => - FDT_ERR_NOTFOUND | _ => o end.

Lemma child_at_first o l : offset_of (child_at (λ _, true) o l) = first_of o l.
Proof. by destruct l. Qed.

Lemma reads_first_child o t : node_at (flat root) o t ->
  reads s (fdt_first_subnode fuel o) (first_of (children_offset o t) (tree_children t)).
Proof.
  intros Hn. assert (Hok := Hn). destruct Hok as (pre0 & post0 & _ & _ & Hok).
  destruct (node_at_split _ _ Hn) as (pre & post & E & ->).
  assert (R := reads_first_subnode B fuel Hfuel pre _ _ E).
  rewrite skip_attrs, find_child_at, child_at_first in R by (by first [apply attrs_ok|apply children_ok]).
  unfold children_offset, header. rewrite <- size_of_app. rewrite <- app_assoc in R. exact R.
Qed.

Lemma reads_next_child pre c l post :
  flat root = pre ++ flat c ++ flat_all l ++ EndNode :: post -> 0 < size_of pre -> tree_ok c = true -> forallb tree_ok l = true ->
  reads s (fdt_next_subnode fuel (size_of pre)) (first_of (size_of pre + size_of (flat c)) l).
Proof.
  intros E Hp Hc Hl.
  assert (E' : flat root = pre ++ BeginNode (tree_name c) :: (tree_attrs c ++ flat_all (tree_children c) ++ [EndNode] ++ flat_all l ++ EndNode :: post)).
  { rewrite E, flat_node. unfold header. cbn [app]. by rewrite <- !app_assoc. }
  assert (R := reads_next_subnode B fuel Hfuel pre _ _ E' Hp).
  rewrite skip_attrs in R by (by apply attrs_ok).
  assert (Hf : forall l pre post, forallb tree_ok l = true ->
    find_child (λ _, true) pre (flat_all l ++ post) 1 = find_child (λ _, true) (pre ++ flat_all l) post 1).
  { clear. induction l as [|t l IH]; intros pre post H; [by rewrite app_nil_r|]. cbn [forallb] in H. apply andb_true_iff in H as [Ht H].
    rewrite flat_all_cons, <- app_assoc, skip_tree by (done || lia). rewrite IH by done. by rewrite <- app_assoc. }
  rewrite Hf in R by (by apply children_ok). cbn [app find_child Z.eqb] in R. change (1 - 1) with 0 in R.
  rewrite find_child_at, child_at_first in R by done. rewrite <- size_of_app, flat_node. unfold header.
  rewrite <- !app_assoc in R. cbn [app] in R. rewrite <- ?app_assoc. exact R.
Qed.

(** The hart id of a cpu node. *)
Definition starts_cpu (v : list Z) : bool := bool_decide (take 3 v = chars "cpu").

Definition hart_id_of (t : tree) : option Z :=
  match attr_value strings (chars "device_type") (tree_attrs t) with
  | Some v =>
      if starts_cpu v then
        match attr_value strings (chars "reg") (tree_attrs t) with
        | Some r => if (length r <? 4)%nat then None else Some (cell r (if (length r =? 4)%nat then 0 else 1))
        | None => None
        end
      else None
  | None => None
  end.

(** [device_type] is a string, and [reg] whole cells. *)
Definition hart_ok (t : tree) : bool :=
  (match attr_value strings (chars "device_type") (tree_attrs t) with
   | Some v => (length v =? 0)%nat || (3 <=? length v)%nat || bool_decide (last v = Some 0)
   | None => true
   end) &&
  (match attr_value strings (chars "reg") (tree_attrs t) with
   | Some r => (length r mod 4 =? 0)%nat
   | None => true
   end).

(** The comparison with the constant. *)
Lemma reads_strncmp_cpu data v : at_offset s data v ->
  (0 < length v)%nat -> (3 <= length v)%nat \/ last v = Some 0 ->
  exists c, reads s (strncmp (At data) (lit "cpu") 3) c /\ (c =? 0) = starts_cpu v.
Proof.
  intros Ha Hl Hz. assert (Hv := holds_at _ _ _ Ha). assert (Hc := holds_cst s (chars "cpu")).
  change (Cst (chars "cpu") 0) with (lit "cpu") in Hc.
  assert (Hstep : forall n p q a b c, reads s (deref p) a -> reads s (deref q) b ->
    (if (a =? b) && negb (a =? 0) then reads s (strncmp_loop n (padd p 1) (padd q 1)) c else c = a - b) ->
    reads s (strncmp_loop (S n) p q) c).
  { intros n p q a b c Hp Hq H. cbn [strncmp_loop]. eapply reads_bind; [exact Hp|]. eapply reads_bind; [exact Hq|].
    destruct (_ && _); [exact H|]. rewrite H. apply reads_ret. }
  unfold strncmp. change (Z.to_nat 3) with 3%nat. unfold starts_cpu.
  change (chars "cpu") with [99; 112; 117] in *.
  assert (C1 := str_head _ _ _ _ Hc). assert (Hc1 := str_tail _ _ _ _ Hc). assert (C2 := str_head _ _ _ _ Hc1).
  assert (Hc2 := str_tail _ _ _ _ Hc1). assert (C3 := str_head _ _ _ _ Hc2).
  destruct v as [|a v]; [cbn in Hl; lia|]. assert (V1 := str_head _ _ _ _ Hv). assert (Hv1 := str_tail _ _ _ _ Hv).
  destruct (Z.eqb_spec a 99) as [->|Ha1].
  2: { exists (a - 99). split; [eapply Hstep; [exact V1|exact C1|]; by rewrite (proj2 (Z.eqb_neq a 99))|].
       rewrite bool_decide_eq_false_2 by (cbn; intros [=]; done). apply Z.eqb_neq. lia. }
  destruct v as [|b v]; [cbn in Hz; destruct Hz as [?|[=]]; lia|]. assert (V2 := str_head _ _ _ _ Hv1). assert (Hv2 := str_tail _ _ _ _ Hv1).
  destruct (Z.eqb_spec b 112) as [->|Hb1].
  2: { exists (b - 112). split.
       - eapply Hstep; [exact V1|exact C1|]. cbn [Z.eqb Pos.eqb andb negb]. eapply Hstep; [exact V2|exact C2|]. by rewrite (proj2 (Z.eqb_neq b 112)).
       - rewrite bool_decide_eq_false_2 by (cbn; intros [=]; done). apply Z.eqb_neq. lia. }
  destruct v as [|c v]; [cbn in Hz; destruct Hz as [?|[=]]; lia|]. assert (V3 := str_head _ _ _ _ Hv2).
  destruct (Z.eqb_spec c 117) as [->|Hc1'].
  2: { exists (c - 117). split.
       - eapply Hstep; [exact V1|exact C1|]. cbn [Z.eqb Pos.eqb andb negb]. eapply Hstep; [exact V2|exact C2|]. cbn [Z.eqb Pos.eqb andb negb].
         eapply Hstep; [exact V3|exact C3|]. by rewrite (proj2 (Z.eqb_neq c 117)).
       - rewrite bool_decide_eq_false_2 by (cbn; intros [=]; done). apply Z.eqb_neq. lia. }
  exists 0. split; [|by rewrite bool_decide_eq_true_2].
  eapply Hstep; [exact V1|exact C1|]. cbn [Z.eqb Pos.eqb andb negb]. eapply Hstep; [exact V2|exact C2|]. cbn [Z.eqb Pos.eqb andb negb].
  eapply Hstep; [exact V3|exact C3|]. cbn [Z.eqb Pos.eqb andb negb]. apply reads_ret.
Qed.

Lemma reads_hart_id o t : node_at (flat root) o t -> hart_ok t = true ->
  reads s (fdt_parse_hart_id fuel o) (match hart_id_of t with Some h => (0, Some h) | None => (SBI_EINVAL, None) end).
Proof.
  intros Hn Hok. unfold hart_ok in Hok. apply andb_true_iff in Hok as [Hd Hr]. assert (Ht := blob_total_range B).
  assert (H36 := total_36 B).
  assert (R1 := reads_prop B fuel Hfuel o t "device_type" Hn ltac:(by repeat constructor) ltac:(cbn; lia)).
  assert (R2 := reads_prop B fuel Hfuel o t "reg" Hn ltac:(by repeat constructor) ltac:(cbn; lia)).
  unfold fdt_parse_hart_id, hart_id_of.
  eapply reads_bind; [by apply reads_not_null|]. rewrite (proj2 (Z.ltb_ge o 0)) by exact (node_at_nonneg _ _ Hn). cbn [orb].
  destruct (attr_value strings (chars "device_type") (tree_attrs t)) as [v|].
  2: { eapply reads_bind; [exact R1|apply reads_ret]. }
  destruct R1 as (data & R1 & Ha & _). eapply reads_bind; [exact R1|]. cbv iota beta.
  destruct (Nat.eqb_spec (length v) 0) as [El|El].
  { rewrite El. cbn [Z.of_nat Z.eqb]. destruct v; [|done]. change (starts_cpu []) with false. apply reads_ret. }
  rewrite (proj2 (Z.eqb_neq _ 0)) by lia.
  eapply reads_bind; [apply (reads_lit_strlen fuel Hfuel (chars "cpu")); [by apply chars_nonzero; repeat constructor|cbn; lia]|].
  change (Z.of_nat (length (chars "cpu"))) with 3.
  destruct (reads_strncmp_cpu data v Ha ltac:(lia)) as (c & Rc & Ec).
  { cbn [orb] in Hd. apply orb_true_iff in Hd as [Hd|Hd]; [left; by apply Nat.leb_le|right; by apply bool_decide_eq_true_1 in Hd]. }
  eapply reads_bind; [exact Rc|]. rewrite Ec. destruct (starts_cpu v); cbn [negb]; [|apply reads_ret].
  destruct (attr_value strings (chars "reg") (tree_attrs t)) as [r|].
  2: { eapply reads_bind; [exact R2|apply reads_ret]. }
  destruct R2 as (rdata & R2 & Hra & _ & Hrl). eapply reads_bind; [exact R2|]. cbv iota beta.
  rewrite u64_small by (unfold is_u64; lia). apply Nat.eqb_eq in Hr.
  destruct (Nat.ltb_spec (length r) 4) as [H4|H4].
  { rewrite (proj2 (Z.ltb_lt _ 4)) by lia. apply reads_ret. }
  rewrite (proj2 (Z.ltb_ge _ 4)) by lia.
  destruct (Nat.eqb_spec (length r) 4) as [E4|E4].
  - rewrite E4. change (4 <? Z.of_nat 4) with false. cbv iota.
    eapply reads_bind; [rewrite <- (Z.add_0_r rdata); apply (reads_cell s rdata r 0 Hra); lia|apply reads_ret].
  - rewrite (proj2 (Z.ltb_lt 4 _)) by lia.
    assert (8 <= length r)%nat by (assert (D := Nat.div_mod_eq (length r) 4); lia).
    eapply reads_bind; [apply (reads_cell s rdata r 1 Hra); lia|apply reads_ret].
Qed.

(** The largest hart id of the cpu nodes. *)
Definition max_hart (l : list tree) (m : Z) : Z := fold_left (λ m t, Z.max m (default 0 (hart_id_of t))) l m.

Lemma reads_max_hart_loop l pre post n m :
  flat root = pre ++ flat_all l ++ EndNode :: post -> 0 < size_of pre -> forallb tree_ok l = true -> forallb hart_ok l = true ->
  0 <= m -> (length l < n)%nat -> reads s (max_hart_loop fuel n (first_of (size_of pre) l) m) (max_hart l m).
Proof.
  revert pre n m. induction l as [|c l IH]; intros pre n m E Hp Hok Hh Hm Hn; (destruct n as [|n]; [cbn in Hn; lia|]); cbn [max_hart_loop].
  { apply reads_ret. }
  cbn [forallb] in Hok, Hh. apply andb_true_iff in Hok as [Hc Hok]. apply andb_true_iff in Hh as [Hhc Hh].
  rewrite flat_all_cons, <- app_assoc in E. cbn [first_of]. rewrite (proj2 (Z.leb_le 0 _)) by lia.
  assert (Hat : node_at (flat root) (size_of pre) c) by (by exists pre, (flat_all l ++ EndNode :: post)).
  eapply reads_bind; [by apply reads_hart_id|]. cbv zeta.
  eapply reads_bind; [by apply (reads_next_child pre c l post)|]. rewrite <- size_of_app.
  assert (Hs := size_flat_pos c). unfold max_hart. cbn [fold_left]. fold (max_hart l).
  replace (match match hart_id_of c with Some h => (0, Some h) | None => (SBI_EINVAL, None) end with
           | (0, Some hartid) => if m <? hartid then hartid else m
           | _ => m end) with (Z.max m (default 0 (hart_id_of c))).
  { apply IH; [by rewrite <- app_assoc|rewrite size_of_app; lia|done|done|lia|cbn in Hn; lia]. }
  destruct (hart_id_of c) as [h|]; cbv iota beta.
  - change (default 0 (Some h)) with h. destruct (Z.ltb_spec m h); lia.
  - change (default 0 None) with 0. unfold SBI_EINVAL. lia.
Qed.

Definition max_hart_id_of : Z * option Z :=
  match resolve 0 root [chars "cpus"] with
  | Some (_, t) => (0, Some (max_hart (tree_children t) 0))
  | None => (- FDT_ERR_NOTFOUND, Some 0)
  end.

Definition timebase_of (freq : Z) : Z * option Z :=
  match resolve 0 root [chars "cpus"] with
  | Some (_, t) => match cell_prop (strings := strings) "timebase-frequency" t with Some c => (0, Some c) | None => (SBI_ENOENT, Some freq) end
  | None => (- FDT_ERR_NOTFOUND, Some freq)
  end.

Lemma reads_cpus : reads s (fdt_path_offset fuel (lit "/cpus")) (offset_of (resolve 0 root [chars "cpus"])).
Proof.
  assert (H36 := total_36 B). apply (reads_path_offset B fuel Hfuel root [chars "cpus"]); [done|done|done| |cbn; lia].
  constructor; [|constructor]. split; [done|]. by repeat constructor.
Qed.

Lemma resolve_at path o t : resolve 0 root path = Some (o, t) -> node_at (flat root) o t.
Proof. intros H. eapply below_node_at; [by apply root_at|]. eapply resolve_below; [constructor|exact H]. Qed.

Lemma reads_max_hart_id m :
  (forall o t, resolve 0 root [chars "cpus"] = Some (o, t) -> forallb hart_ok (tree_children t) = true) ->
  reads s (fdt_parse_max_hart_id fuel (Some m)) max_hart_id_of.
Proof.
  intros Hh. unfold fdt_parse_max_hart_id, max_hart_id_of. eapply reads_bind; [by apply reads_not_null|]. cbv iota.
  eapply reads_bind; [apply reads_cpus|].
  destruct (resolve 0 root [chars "cpus"]) as [[o t]|] eqn:E; cbn [offset_of]; [|apply reads_ret].
  assert (Hn := resolve_at _ _ _ E). rewrite (proj2 (Z.ltb_ge o 0)) by exact (node_at_nonneg _ _ Hn).
  eapply reads_bind; [by apply reads_first_child|].
  assert (Hok := Hn). destruct Hok as (pre & post & Ef & -> & Hok).
  assert (Hb := blob_struct_range B).
  eapply reads_bind; [|apply reads_ret]. unfold children_offset. rewrite <- size_of_app.
  apply (reads_max_hart_loop (tree_children t) (pre ++ header t) post).
  - rewrite Ef, flat_node. by rewrite <- !app_assoc.
  - rewrite size_of_app. unfold header. rewrite size_of_cons. destruct (encode_size (BeginNode (tree_name t))) as (k & -> & Hk).
    assert (H1 := size_of_nonneg pre). assert (H2 := size_of_nonneg (tree_attrs t)). lia.
  - by apply children_ok.
  - by apply (Hh (size_of pre)).
  - lia.
  - assert (Hl : Z.of_nat (length (tree_children t)) <= size_of (flat_all (tree_children t))).
    { clear. induction (tree_children t) as [|c l IH]; [done|]. rewrite flat_all_cons, size_of_app. assert (H := size_flat_pos c).
      cbn [length]. lia. }
    assert (Hs : size_of (flat_all (tree_children t)) <= size_of (flat root)).
    { rewrite Ef, flat_node, !size_of_app. assert (H1 := size_of_nonneg pre). assert (H2 := size_of_nonneg (header t)).
      assert (H3 := size_of_nonneg [EndNode]). assert (H4 := size_of_nonneg post). lia. }
    lia.
Qed.

Lemma reads_timebase freq :
  (forall o t, resolve 0 root [chars "cpus"] = Some (o, t) -> cell_prop_ok (strings := strings) "timebase-frequency" t = true) ->
  reads s (fdt_parse_timebase_frequency fuel (Some freq)) (timebase_of freq).
Proof.
  intros Hc. unfold fdt_parse_timebase_frequency, timebase_of. eapply reads_bind; [by apply reads_not_null|]. cbv iota.
  eapply reads_bind; [apply reads_cpus|].
  destruct (resolve 0 root [chars "cpus"]) as [[o t]|] eqn:E; cbn [offset_of]; [|apply reads_ret].
  assert (Hn := resolve_at _ _ _ E). rewrite (proj2 (Z.ltb_ge o 0)) by exact (node_at_nonneg _ _ Hn).
  eapply reads_bind; [apply (reads_get_cell B fuel Hfuel o t); [done|by apply (Hc o)|by repeat constructor|cbn; lia]|].
  destruct (cell_prop _ t); apply reads_ret.
Qed.

End Harts.

(** ** The regions and harts of a tree *)

(** [C22] The region of a device is what its tree says: on the blob of a tree,
    for a node with a region by the rules of the Devicetree Specification (the
    big-endian number in the address cells of the entry of [reg] asked for,
    mapped by the window of [ranges] that contains it on every bus on the way up,
    and the number in its size cells), fdt_get_node_addr_size succeeds and writes
    that address, and the size if it is asked for.  This holds on buses such as
    the code handles: where [ranges] is not empty, the address lies in its first
    window, with as many cells for an address above as below; and the numbers fit
    64 bits. *)
Theorem node_addr_size_follows_tree root s strings ds dn total fuel o t up idx a0 size0 a sz :
  blob s (flat root) strings ds dn total -> tree_ok root = true -> total < Z.of_nat fuel -> dt_addr s <> 0 ->
  lineage root o t up -> region_in_tree strings idx t up = Some (a, sz) -> region_plain strings idx t up = true ->
  Z.of_nat idx < 2 ^ 16 ->
  reads s (fdt_get_node_addr_size fuel o (Z.of_nat idx) (Some a0) size0) (0, Some a, (λ _, sz) <$> size0).
Proof. intros B Hok Hf Hn Hl Hr Hp Hi. by apply (reads_region Hok B fuel Hf Hn o t up). Qed.

(** A UART on a bus on a bus: the inner one maps 0x2000 to 0x20ff to 0x9000 of
    the outer one, which maps 0x8000 to 0x9fff to 0x10000000 of the root, and has
    a second window besides. *)
Definition window_names : list Z := string_list (map chars ["reg"; "ranges"; "#address-cells"; "#size-cells"]%string).
Definition window_tree : tree :=
  Node [] [Prop_ 11 (be32 1); Prop_ 26 (be32 1)]
    [Node (chars "outer")
       [Prop_ 4 (concat (map be32 [0x8000; 0x10000000; 0x2000; 0x20000; 0x30000000; 0x1000])); Prop_ 11 (be32 1); Prop_ 26 (be32 1)]
       [Node (chars "inner") [Prop_ 4 (concat (map be32 [0x2000; 0x9000; 0x100])); Prop_ 11 (be32 1); Prop_ 26 (be32 1)]
          [Node (chars "uart@2040") [Prop_ 0 (concat (map be32 [0x2040; 0x20; 0x2060; 8]))] []]]].
Definition window_blob : dtb := build 8 (flat window_tree) window_names.

Lemma window_is_blob :
  blob window_blob (flat window_tree) window_names 56 (60 + size_of (flat window_tree))
    (60 + size_of (flat window_tree) + Z.of_nat (length window_names)).
Proof. apply build_blob; [done|apply tokens_ok; vm_compute; reflexivity|vm_compute; reflexivity]. Qed.

Definition window_uart : option (Z * tree * list (Z * tree)) :=
  Eval vm_compute in find_node (λ t, bool_decide (tree_name t = chars "uart@2040")) window_tree.

Lemma node_addr_size_follows_tree_witness :
  match window_uart with
  | Some (o, t, up) => reads window_blob (fdt_get_node_addr_size 600 o 1 (Some 7) (Some 7)) (0, Some 0x10001060, Some 8)
  | None => False
  end.
Proof.
  assert (E : find_node (λ t, bool_decide (tree_name t = chars "uart@2040")) window_tree = window_uart) by (vm_compute; reflexivity).
  unfold window_uart in *. cbv beta iota.
  exact (node_addr_size_follows_tree window_tree window_blob window_names _ _ _ 600 _ _ _ 1 7 (Some 7) 0x10001060 8
           window_is_blob eq_refl eq_refl ltac:(discriminate) (proj1 (find_node_lineage _ _ _ _ _ E)) eq_refl eq_refl eq_refl).
Defined.

(** Elsewhere the code departs from the tree.  Every address above the start of a
    window is taken to lie in it: the test of the upper end compares the window's
    start with the end of a window that would start at the address. *)
Theorem translation_accepts_beyond_range strings p reg :
  attr_value strings (chars "ranges") (tree_attrs p) = Some (be32 0x2000 ++ be32 0x9000 ++ be32 0x100) ->
  attr_value strings (chars "#address-cells") (tree_attrs p) = Some (be32 1) ->
  attr_value strings (chars "#size-cells") (tree_attrs p) = Some (be32 1) ->
  0x2000 <= reg < 2 ^ 32 -> translate1 strings p reg = Some (0x9000 + (reg - 0x2000)).
Proof.
  intros Hr Ha Hs Hreg.
  assert (E1 : address_cells strings p = 1) by (unfold address_cells, cells_of; rewrite Ha; reflexivity).
  assert (E2 : size_cells strings p = 1) by (unfold size_cells, cells_of; rewrite Hs; reflexivity).
  unfold translate1. rewrite E1, E2, Hr. cbv zeta. set (v := be32 0x2000 ++ _).
  assert (N1 : number v 0 (Z.to_nat 1) 0 = 0x2000) by reflexivity.
  assert (N2 : number v (Z.to_nat 1) (Z.to_nat 1) 0 = 0x9000) by reflexivity.
  assert (N3 : number v (2 * Z.to_nat 1) (Z.to_nat 1) 0 = 0x100) by reflexivity.
  rewrite N1, N2, N3. change (length v) with 12%nat.
  change ((1 <? 1) || (1 <? 0)) with false. change (12 =? 0)%nat with false.
  change (Z.of_nat 12 <? 4 * (2 * 1 + 1)) with false. cbv iota.
  unfold add64, sub64. rewrite (u64_small (reg + _)), (u64_small (reg - _)), u64_small by (unfold is_u64; lia).
  rewrite (proj2 (Z.ltb_ge reg _)), (proj2 (Z.leb_gt _ _)) by lia. done.
Qed.

(** The second window of [ranges] is not looked at, and an address above has as
    many cells as one below: of the address 0x20010 of the outer bus above, and
    of 0x2010 on a bus of one cell below a root of two, which [ranges] maps to
    0x9010, the code makes something else. *)
Theorem windows_misread :
  match tree_children window_tree with
  | outer :: _ => bus_address window_names outer window_tree 0x20010 = Some 0x30000010 /\
                  translate1 window_names outer 0x20010 = Some 0x10018010
  | [] => False
  end /\
  (let root := Node [] [Prop_ 11 (be32 2); Prop_ 26 (be32 1)] [] in
   let bus := Node (chars "bus") [Prop_ 4 (concat (map be32 [0x2000; 0; 0x9000; 0x100])); Prop_ 11 (be32 1); Prop_ 26 (be32 1)] [] in
   bus_address window_names bus root 0x2010 = Some 0x9010 /\ translate1 window_names bus 0x2010 = Some 0x10).
Proof. vm_compute. auto. Qed.

(** An address below the range cannot be translated, and fdt_get_node_addr_size
    succeeds all the same, the address it was to write left as it was: here, for
    a device at 0x1000 behind the same bus. *)
Theorem untranslated_address_is_success addr :
  exists o t up, find_node (λ t, bool_decide (tree_name t = chars "dev")) demo_tree = Some (o, t, up) /\
  reads demo_blob (fdt_get_node_addr_size 400 o 0 (Some addr) (Some 0)) (0, Some addr, Some 0x20).
Proof.
  destruct (find_node (λ t, bool_decide (tree_name t = chars "dev")) demo_tree) as [[[o t] up]|] eqn:E.
  - exists o, t, up. split; [done|]. vm_compute in E. injection E as <- <- <-. vm_compute. reflexivity.
  - vm_compute in E. discriminate.
Qed.
