(* ===== verification/BoardTree.v ===== *)
(** * The device tree of the SoC

    src/modules/cva6/corev_apu/fpga/src/bootrom/cv64a6.dts as a tree, and the
    blob that the boot ROM carries (bootrom_64.h, from offset 0xc00 of the ROM).
    The theorem: the blob of the ROM is the tree, written out.

    Labels are replaced by the phandles that the compiler of the source chose. *)

From Stdlib Require Import ZArith Lia String Ascii.
From stdpp Require Import base tactics list numbers strings.
From S2P Require Import Prelude Fdt FdtRo FdtTree.

(** ** Sources *)

(** A node of a source: its name, its properties, its subnodes. *)
#[warnings="-register-all"]
Inductive dts : Type :=
| Dts (name : string) (props : list (string * list Z)) (children : list dts).

Definition cells (l : list Z) : list Z := concat (map be32 l).
Definition strs (l : list string) : list Z := string_list (map chars l).

(** The property names, in order of their first use. *)
Fixpoint dts_names (d : dts) : list string :=
  match d with Dts _ props children => map fst props ++ concat (map dts_names children) end.

Fixpoint distinct (seen l : list string) : list string :=
  match l with
  | [] => []
  | x :: l' => if existsb (String.eqb x) seen then distinct seen l' else x :: distinct (x :: seen) l'
  end.

Fixpoint name_offset (names : list string) (x : string) (o : Z) : Z :=
  match names with
  | [] => o
  | y :: names' => if String.eqb x y then o else name_offset names' x (o + Z.of_nat (String.length y) + 1)
  end.

Fixpoint compile (names : list string) (d : dts) : tree :=
  match d with
  | Dts name props children =>
      Node (chars name) (map (λ p, Prop_ (name_offset names (fst p) 0) (snd p)) props) (map (compile names) children)
  end.

(** ** cv64a6.dts *)

Open Scope string_scope.

Definition cv64a6 : dts :=
  Dts ""
   [("#address-cells", cells [2]);
    ("#size-cells", cells [2]);
    ("compatible", strs ["eth,ariane-bare-dev"]);
    ("model", strs ["eth,ariane-bare"])]
   [Dts "chosen"
     [("stdout-path", strs ["/soc/uart@10000000:115200"])]
     [];
    Dts "cpus"
     [("#address-cells", cells [1]);
      ("#size-cells", cells [0]);
      ("timebase-frequency", cells [0x17d7840])]
     [Dts "cpu@0"
       [("clock-frequency", cells [0x2faf080]);
        ("device_type", strs ["cpu"]);
        ("reg", cells [0]);
        ("status", strs ["okay"]);
        ("compatible", strs ["eth, ariane"; "riscv"]);
        ("riscv,isa", strs ["rv64imafdc"]);
        ("mmu-type", strs ["riscv,sv39"]);
        ("tlb-split", [])]
       [Dts "interrupt-controller"
         [("#interrupt-cells", cells [1]);
          ("interrupt-controller", []);
          ("compatible", strs ["riscv,cpu-intc"]);
          ("phandle", cells [2])]
         []];
      Dts "cpu@1"
       [("clock-frequency", cells [0x2faf080]);
        ("device_type", strs ["cpu"]);
        ("reg", cells [1]);
        ("status", strs ["okay"]);
        ("compatible", strs ["eth, ariane"; "riscv"]);
        ("riscv,isa", strs ["rv64imafdc"]);
        ("mmu-type", strs ["riscv,sv39"]);
        ("tlb-split", [])]
       [Dts "interrupt-controller"
         [("#interrupt-cells", cells [1]);
          ("interrupt-controller", []);
          ("compatible", strs ["riscv,cpu-intc"]);
          ("phandle", cells [3])]
         []]];
    Dts "memory@80000000"
     [("device_type", strs ["memory"]);
      ("reg", cells [0; 0x80000000; 0; 0x40000000])]
     [];
    Dts "leds"
     [("compatible", strs ["gpio-leds"])]
     [Dts "heartbeat-led"
       [("gpios", cells [1; 1; 0]);
        ("linux,default-trigger", strs ["heartbeat"]);
        ("retain-state-suspended", [])]
       []];
    Dts "soc"
     [("#address-cells", cells [2]);
      ("#size-cells", cells [2]);
      ("compatible", strs ["eth,ariane-bare-soc"; "simple-bus"]);
      ("ranges", [])]
     [Dts "clint@2000000"
       [("compatible", strs ["riscv,clint0"]);
        ("interrupts-extended", cells [2; 3; 2; 7; 3; 3; 3; 7]);
        ("reg", cells [0; 0x2000000; 0; 0xc0000]);
        ("reg-names", strs ["control"])]
       [];
      Dts "interrupt-controller@c000000"
       [("#address-cells", cells [0]);
        ("#interrupt-cells", cells [1]);
        ("compatible", strs ["riscv,plic0"]);
        ("interrupt-controller", []);
        ("interrupts-extended", cells [2; 0xb; 2; 9; 3; 0xb; 3; 9]);
        ("reg", cells [0; 0xc000000; 0; 0x4000000]);
        ("riscv,max-priority", cells [7]);
        ("riscv,ndev", cells [0x1e]);
        ("phandle", cells [4])]
       [];
      Dts "uart@10000000"
       [("compatible", strs ["ns16550a"]);
        ("reg", cells [0; 0x10000000; 0; 0x1000]);
        ("clock-frequency", cells [0x2faf080]);
        ("current-speed", cells [0x1c200]);
        ("interrupt-parent", cells [4]);
        ("interrupts", cells [1]);
        ("reg-shift", cells [2]);
        ("reg-io-width", cells [4])]
       [];
      Dts "timer@18000000"
       [("compatible", strs ["pulp,apb_timer"]);
        ("interrupts", cells [4; 5; 6; 7]);
        ("reg", cells [0; 0x18000000; 0; 0x1000]);
        ("interrupt-parent", cells [4]);
        ("reg-names", strs ["control"])]
       [];
      Dts "xps-spi@20000000"
       [("compatible", strs ["xlnx,xps-spi-2.00.b"; "xlnx,xps-spi-2.00.a"]);
        ("#address-cells", cells [1]);
        ("#size-cells", cells [0]);
        ("interrupt-parent", cells [4]);
        ("interrupts", cells [2; 2]);
        ("reg", cells [0; 0x20000000; 0; 0x1000]);
        ("xlnx,family", strs ["kintex7"]);
        ("xlnx,fifo-exist", cells [1]);
        ("xlnx,num-ss-bits", cells [1]);
        ("xlnx,num-transfer-bits", cells [8]);
        ("xlnx,sck-ratio", cells [4])]
       [Dts "mmc@0"
         [("compatible", strs ["mmc-spi-slot"]);
          ("reg", cells [0]);
          ("spi-max-frequency", cells [0xbebc20]);
          ("voltage-ranges", cells [0xce4; 0xce4]);
          ("disable-wp", [])]
         []];
      Dts "lowrisc-eth@30000000"
       [("compatible", strs ["lowrisc-eth"]);
        ("device_type", strs ["network"]);
        ("interrupt-parent", cells [4]);
        ("interrupts", cells [3; 0]);
        ("local-mac-address", [0x0; 0x18; 0x3e; 0x2; 0xe3; 0x7f]);
        ("reg", cells [0; 0x30000000; 0; 0x8000])]
       [];
      Dts "gpio@40000000"
       [("#gpio-cells", cells [2]);
        ("compatible", strs ["xlnx,xps-gpio-1.00.a"]);
        ("gpio-controller", []);
        ("reg", cells [0; 0x40000000; 0; 0x10000]);
        ("xlnx,all-inputs", cells [0]);
        ("xlnx,all-inputs-2", cells [0]);
        ("xlnx,dout-default", cells [0]);
        ("xlnx,dout-default-2", cells [0]);
        ("xlnx,gpio-width", cells [8]);
        ("xlnx,gpio2-width", cells [8]);
        ("xlnx,interrupt-present", cells [0]);
        ("xlnx,is-dual", cells [1]);
        ("xlnx,tri-default", cells [0xffffffff]);
        ("xlnx,tri-default-2", cells [0xffffffff]);
        ("phandle", cells [1])]
       []]].

Close Scope string_scope.

Definition board_names : list string := Eval vm_compute in distinct [] (dts_names cv64a6).
Definition board_strings : list Z := strs board_names.
Definition board_tree : tree := compile board_names cv64a6.

(** The words of [reset_vec] that hold the blob; the ROM is little-endian. *)
Definition rom_words : list Z := [
  0xedfe0dd0; 0x2a0d0000; 0x38000000; 0x580a0000; 0x28000000; 0x11000000; 0x10000000; 0x00000000;
  0xd2020000; 0x200a0000; 0x00000000; 0x00000000; 0x00000000; 0x00000000; 0x01000000; 0x00000000;
  0x03000000; 0x04000000; 0x00000000; 0x02000000; 0x03000000; 0x04000000; 0x0f000000; 0x02000000;
  0x03000000; 0x14000000; 0x1b000000; 0x2c687465; 0x61697261; 0x622d656e; 0x2d657261; 0x00766564;
  0x03000000; 0x10000000; 0x26000000; 0x2c687465; 0x61697261; 0x622d656e; 0x00657261; 0x01000000;
  0x736f6863; 0x00006e65; 0x03000000; 0x1a000000; 0x2c000000; 0x636f732f; 0x7261752f; 0x30314074;
  0x30303030; 0x313a3030; 0x30323531; 0x00000030; 0x02000000; 0x01000000; 0x73757063; 0x00000000;
  0x03000000; 0x04000000; 0x00000000; 0x01000000; 0x03000000; 0x04000000; 0x0f000000; 0x00000000;
  0x03000000; 0x04000000; 0x38000000; 0x40787d01; 0x01000000; 0x40757063; 0x00000030; 0x03000000;
  0x04000000; 0x4b000000; 0x80f0fa02; 0x03000000; 0x04000000; 0x5b000000; 0x00757063; 0x03000000;
  0x04000000; 0x67000000; 0x00000000; 0x03000000; 0x05000000; 0x6b000000; 0x79616b6f; 0x00000000;
  0x03000000; 0x12000000; 0x1b000000; 0x2c687465; 0x69726120; 0x00656e61; 0x63736972; 0x00000076;
  0x03000000; 0x0b000000; 0x72000000; 0x34367672; 0x66616d69; 0x00006364; 0x03000000; 0x0b000000;
  0x7c000000; 0x63736972; 0x76732c76; 0x00003933; 0x03000000; 0x00000000; 0x85000000; 0x01000000;
  0x65746e69; 0x70757272; 0x6f632d74; 0x6f72746e; 0x72656c6c; 0x00000000; 0x03000000; 0x04000000;
  0x8f000000; 0x01000000; 0x03000000; 0x00000000; 0xa0000000; 0x03000000; 0x0f000000; 0x1b000000;
  0x63736972; 0x70632c76; 0x6e692d75; 0x00006374; 0x03000000; 0x04000000; 0xb5000000; 0x02000000;
  0x02000000; 0x02000000; 0x01000000; 0x40757063; 0x00000031; 0x03000000; 0x04000000; 0x4b000000;
  0x80f0fa02; 0x03000000; 0x04000000; 0x5b000000; 0x00757063; 0x03000000; 0x04000000; 0x67000000;
  0x01000000; 0x03000000; 0x05000000; 0x6b000000; 0x79616b6f; 0x00000000; 0x03000000; 0x12000000;
  0x1b000000; 0x2c687465; 0x69726120; 0x00656e61; 0x63736972; 0x00000076; 0x03000000; 0x0b000000;
  0x72000000; 0x34367672; 0x66616d69; 0x00006364; 0x03000000; 0x0b000000; 0x7c000000; 0x63736972;
  0x76732c76; 0x00003933; 0x03000000; 0x00000000; 0x85000000; 0x01000000; 0x65746e69; 0x70757272;
  0x6f632d74; 0x6f72746e; 0x72656c6c; 0x00000000; 0x03000000; 0x04000000; 0x8f000000; 0x01000000;
  0x03000000; 0x00000000; 0xa0000000; 0x03000000; 0x0f000000; 0x1b000000; 0x63736972; 0x70632c76;
  0x6e692d75; 0x00006374; 0x03000000; 0x04000000; 0xb5000000; 0x03000000; 0x02000000; 0x02000000;
  0x02000000; 0x01000000; 0x6f6d656d; 0x38407972; 0x30303030; 0x00303030; 0x03000000; 0x07000000;
  0x5b000000; 0x6f6d656d; 0x00007972; 0x03000000; 0x10000000; 0x67000000; 0x00000000; 0x00000080;
  0x00000000; 0x00000040; 0x02000000; 0x01000000; 0x7364656c; 0x00000000; 0x03000000; 0x0a000000;
  0x1b000000; 0x6f697067; 0x64656c2d; 0x00000073; 0x01000000; 0x72616568; 0x61656274; 0x656c2d74;
  0x00000064; 0x03000000; 0x0c000000; 0xbd000000; 0x01000000; 0x01000000; 0x00000000; 0x03000000;
  0x0a000000; 0xc3000000; 0x72616568; 0x61656274; 0x00000074; 0x03000000; 0x00000000; 0xd9000000;
  0x02000000; 0x02000000; 0x01000000; 0x00636f73; 0x03000000; 0x04000000; 0x00000000; 0x02000000;
  0x03000000; 0x04000000; 0x0f000000; 0x02000000; 0x03000000; 0x1f000000; 0x1b000000; 0x2c687465;
  0x61697261; 0x622d656e; 0x2d657261; 0x00636f73; 0x706d6973; 0x622d656c; 0x00007375; 0x03000000;
  0x00000000; 0xf0000000; 0x01000000; 0x6e696c63; 0x30324074; 0x30303030; 0x00000030; 0x03000000;
  0x0d000000; 0x1b000000; 0x63736972; 0x6c632c76; 0x30746e69; 0x00000000; 0x03000000; 0x20000000;
  0xf7000000; 0x02000000; 0x03000000; 0x02000000; 0x07000000; 0x03000000; 0x03000000; 0x03000000;
  0x07000000; 0x03000000; 0x10000000; 0x67000000; 0x00000000; 0x00000002; 0x00000000; 0x00000c00;
  0x03000000; 0x08000000; 0x0b010000; 0x746e6f63; 0x006c6f72; 0x02000000; 0x01000000; 0x65746e69;
  0x70757272; 0x6f632d74; 0x6f72746e; 0x72656c6c; 0x30306340; 0x30303030; 0x00000000; 0x03000000;
  0x04000000; 0x00000000; 0x00000000; 0x03000000; 0x04000000; 0x8f000000; 0x01000000; 0x03000000;
  0x0c000000; 0x1b000000; 0x63736972; 0x6c702c76; 0x00306369; 0x03000000; 0x00000000; 0xa0000000;
  0x03000000; 0x20000000; 0xf7000000; 0x02000000; 0x0b000000; 0x02000000; 0x09000000; 0x03000000;
  0x0b000000; 0x03000000; 0x09000000; 0x03000000; 0x10000000; 0x67000000; 0x00000000; 0x0000000c;
  0x00000000; 0x00000004; 0x03000000; 0x04000000; 0x15010000; 0x07000000; 0x03000000; 0x04000000;
  0x28010000; 0x1e000000; 0x03000000; 0x04000000; 0xb5000000; 0x04000000; 0x02000000; 0x01000000;
  0x74726175; 0x30303140; 0x30303030; 0x00000030; 0x03000000; 0x09000000; 0x1b000000; 0x3631736e;
  0x61303535; 0x00000000; 0x03000000; 0x10000000; 0x67000000; 0x00000000; 0x00000010; 0x00000000;
  0x00100000; 0x03000000; 0x04000000; 0x4b000000; 0x80f0fa02; 0x03000000; 0x04000000; 0x33010000;
  0x00c20100; 0x03000000; 0x04000000; 0x41010000; 0x04000000; 0x03000000; 0x04000000; 0x52010000;
  0x01000000; 0x03000000; 0x04000000; 0x5d010000; 0x02000000; 0x03000000; 0x04000000; 0x67010000;
  0x04000000; 0x02000000; 0x01000000; 0x656d6974; 0x38314072; 0x30303030; 0x00003030; 0x03000000;
  0x0f000000; 0x1b000000; 0x706c7570; 0x6270612c; 0x6d69745f; 0x00007265; 0x03000000; 0x10000000;
  0x52010000; 0x04000000; 0x05000000; 0x06000000; 0x07000000; 0x03000000; 0x10000000; 0x67000000;
  0x00000000; 0x00000018; 0x00000000; 0x00100000; 0x03000000; 0x04000000; 0x41010000; 0x04000000;
  0x03000000; 0x08000000; 0x0b010000; 0x746e6f63; 0x006c6f72; 0x02000000; 0x01000000; 0x2d737078;
  0x40697073; 0x30303032; 0x30303030; 0x00000000; 0x03000000; 0x28000000; 0x1b000000; 0x786e6c78;
  0x7370782c; 0x6970732d; 0x302e322d; 0x00622e30; 0x786e6c78; 0x7370782c; 0x6970732d; 0x302e322d;
  0x00612e30; 0x03000000; 0x04000000; 0x00000000; 0x01000000; 0x03000000; 0x04000000; 0x0f000000;
  0x00000000; 0x03000000; 0x04000000; 0x41010000; 0x04000000; 0x03000000; 0x08000000; 0x52010000;
  0x02000000; 0x02000000; 0x03000000; 0x10000000; 0x67000000; 0x00000000; 0x00000020; 0x00000000;
  0x00100000; 0x03000000; 0x08000000; 0x74010000; 0x746e696b; 0x00377865; 0x03000000; 0x04000000;
  0x80010000; 0x01000000; 0x03000000; 0x04000000; 0x90010000; 0x01000000; 0x03000000; 0x04000000;
  0xa1010000; 0x08000000; 0x03000000; 0x04000000; 0xb8010000; 0x04000000; 0x01000000; 0x40636d6d;
  0x00000030; 0x03000000; 0x0d000000; 0x1b000000; 0x2d636d6d; 0x2d697073; 0x746f6c73; 0x00000000;
  0x03000000; 0x04000000; 0x67000000; 0x00000000; 0x03000000; 0x04000000; 0xc7010000; 0x20bcbe00;
  0x03000000; 0x08000000; 0xd9010000; 0xe40c0000; 0xe40c0000; 0x03000000; 0x00000000; 0xe8010000;
  0x02000000; 0x02000000; 0x01000000; 0x72776f6c; 0x2d637369; 0x40687465; 0x30303033; 0x30303030;
  0x00000000; 0x03000000; 0x0c000000; 0x1b000000; 0x72776f6c; 0x2d637369; 0x00687465; 0x03000000;
  0x08000000; 0x5b000000; 0x7774656e; 0x006b726f; 0x03000000; 0x04000000; 0x41010000; 0x04000000;
  0x03000000; 0x08000000; 0x52010000; 0x03000000; 0x00000000; 0x03000000; 0x06000000; 0xf3010000;
  0x023e1800; 0x00007fe3; 0x03000000; 0x10000000; 0x67000000; 0x00000000; 0x00000030; 0x00000000;
  0x00800000; 0x02000000; 0x01000000; 0x6f697067; 0x30303440; 0x30303030; 0x00000030; 0x03000000;
  0x04000000; 0x05020000; 0x02000000; 0x03000000; 0x15000000; 0x1b000000; 0x786e6c78; 0x7370782c;
  0x6970672d; 0x2e312d6f; 0x612e3030; 0x00000000; 0x03000000; 0x00000000; 0x11020000; 0x03000000;
  0x10000000; 0x67000000; 0x00000000; 0x00000040; 0x00000000; 0x00000100; 0x03000000; 0x04000000;
  0x21020000; 0x00000000; 0x03000000; 0x04000000; 0x31020000; 0x00000000; 0x03000000; 0x04000000;
  0x43020000; 0x00000000; 0x03000000; 0x04000000; 0x55020000; 0x00000000; 0x03000000; 0x04000000;
  0x69020000; 0x08000000; 0x03000000; 0x04000000; 0x79020000; 0x08000000; 0x03000000; 0x04000000;
  0x8a020000; 0x00000000; 0x03000000; 0x04000000; 0xa1020000; 0x01000000; 0x03000000; 0x04000000;
  0xae020000; 0xffffffff; 0x03000000; 0x04000000; 0xbf020000; 0xffffffff; 0x03000000; 0x04000000;
  0xb5000000; 0x01000000; 0x02000000; 0x02000000; 0x02000000; 0x09000000; 0x64646123; 0x73736572;
  0x6c65632d; 0x2300736c; 0x657a6973; 0x6c65632d; 0x6300736c; 0x61706d6f; 0x6c626974; 0x6f6d0065;
  0x006c6564; 0x6f647473; 0x702d7475; 0x00687461; 0x656d6974; 0x65736162; 0x6572662d; 0x6e657571;
  0x63007963; 0x6b636f6c; 0x6572662d; 0x6e657571; 0x64007963; 0x63697665; 0x79745f65; 0x72006570;
  0x73006765; 0x75746174; 0x69720073; 0x2c766373; 0x00617369; 0x2d756d6d; 0x65707974; 0x626c7400;
  0x6c70732d; 0x23007469; 0x65746e69; 0x70757272; 0x65632d74; 0x00736c6c; 0x65746e69; 0x70757272;
  0x6f632d74; 0x6f72746e; 0x72656c6c; 0x61687000; 0x656c646e; 0x69706700; 0x6c00736f; 0x78756e69;
  0x6665642c; 0x746c7561; 0x6972742d; 0x72656767; 0x74657200; 0x2d6e6961; 0x74617473; 0x75732d65;
  0x6e657073; 0x00646564; 0x676e6172; 0x69007365; 0x7265746e; 0x74707572; 0x78652d73; 0x646e6574;
  0x72006465; 0x6e2d6765; 0x73656d61; 0x73697200; 0x6d2c7663; 0x702d7861; 0x726f6972; 0x00797469;
  0x63736972; 0x646e2c76; 0x63007665; 0x65727275; 0x732d746e; 0x64656570; 0x746e6900; 0x75727265;
  0x702d7470; 0x6e657261; 0x6e690074; 0x72726574; 0x73747075; 0x67657200; 0x6968732d; 0x72007466;
  0x692d6765; 0x69772d6f; 0x00687464; 0x786e6c78; 0x6d61662c; 0x00796c69; 0x786e6c78; 0x6669662c;
  0x78652d6f; 0x00747369; 0x786e6c78; 0x6d756e2c; 0x2d73732d; 0x73746962; 0x6e6c7800; 0x756e2c78;
  0x72742d6d; 0x66736e61; 0x622d7265; 0x00737469; 0x786e6c78; 0x6b63732c; 0x7461722d; 0x73006f69;
  0x6d2d6970; 0x662d7861; 0x75716572; 0x79636e65; 0x6c6f7600; 0x65676174; 0x6e61722d; 0x00736567;
  0x61736964; 0x2d656c62; 0x6c007077; 0x6c61636f; 0x63616d2d; 0x6464612d; 0x73736572; 0x70672300;
  0x632d6f69; 0x736c6c65; 0x69706700; 0x6f632d6f; 0x6f72746e; 0x72656c6c; 0x6e6c7800; 0x6c612c78;
  0x6e692d6c; 0x73747570; 0x6e6c7800; 0x6c612c78; 0x6e692d6c; 0x73747570; 0x7800322d; 0x2c786e6c;
  0x74756f64; 0x6665642d; 0x746c7561; 0x6e6c7800; 0x6f642c78; 0x642d7475; 0x75616665; 0x322d746c;
  0x6e6c7800; 0x70672c78; 0x772d6f69; 0x68746469; 0x6e6c7800; 0x70672c78; 0x2d326f69; 0x74646977;
  0x6c780068; 0x692c786e; 0x7265746e; 0x74707572; 0x6572702d; 0x746e6573; 0x6e6c7800; 0x73692c78;
  0x6175642d; 0x6c78006c; 0x742c786e; 0x642d6972; 0x75616665; 0x7800746c; 0x2c786e6c; 0x2d697274;
  0x61666564; 0x2d746c75; 0x00000032].

Definition le32 (w : Z) : list Z := [w mod 256; w / 2 ^ 8 mod 256; w / 2 ^ 16 mod 256; w / 2 ^ 24 mod 256].

(** Its size is in its header. *)
Definition rom_blob : list Z := take (Z.to_nat 0xd2a) (concat (map le32 rom_words)).

(** The device tree blob in the boot ROM is cv64a6.dts written out by
    [build]: every byte, the header and the strings included. *)
Theorem rom_blob_is_tree : rom_blob = build_bytes (flat board_tree) board_strings.
Proof. vm_compute. reflexivity. Qed.
