(* ===== verification/Ariane.v ===== *)
(** * The platform of the SoC

    Models platform/fpga/ariane/platform.c: the device data of the platform and
    the hooks that set up the console, the interrupt controller, the
    inter-processor interrupts and the timer.  The hooks that read and patch the
    device tree, ariane_early_init and ariane_final_init, are in ArianeTree.v;
    ArianeBoot.v runs the hooks one after the other.

    The lemmas say what each hook of a cold boot leaves, for any timer frequency
    and any number of interrupt sources the controller has; the theorem, that the
    interrupt controller set-up, which means to enable all sources, enables
    none. *)

From Stdlib Require Import ZArith Lia.
From stdpp Require Import base tactics list numbers.
From S2P Require Import Prelude SbiDefs Bitops Scratch Domain Machine Ipi Timer Mmio Aclint Plic Uart.

Definition ARIANE_UART_ADDR : Z := 0x10000000.
Definition ARIANE_UART_FREQ : Z := 50000000.
Definition ARIANE_UART_BAUDRATE : Z := 115200.
Definition ARIANE_UART_REG_SHIFT : Z := 2.
Definition ARIANE_UART_REG_WIDTH : Z := 4.
Definition ARIANE_PLIC_ADDR : Z := 0xc000000.
Definition ARIANE_PLIC_NUM_SOURCES : Z := 3.
Definition ARIANE_HART_COUNT : Z := 2.
Definition ARIANE_CLINT_ADDR : Z := 0x2000000.
Definition ARIANE_ACLINT_MTIMER_FREQ : Z := 1000000.
Definition ARIANE_ACLINT_MSWI_ADDR : Z := ARIANE_CLINT_ADDR + CLINT_MSWI_OFFSET.
Definition ARIANE_ACLINT_MTIMER_ADDR : Z := ARIANE_CLINT_ADDR + CLINT_MTIMER_OFFSET.

(** The static data: [plic], [mswi], [mtimer]. *)
Definition ariane_plic : plic_data := PlicData ARIANE_PLIC_ADDR ARIANE_PLIC_NUM_SOURCES.
Definition ariane_mswi : aclint_mswi_data :=
  MswiData ARIANE_ACLINT_MSWI_ADDR ACLINT_MSWI_SIZE 0 ARIANE_HART_COUNT.
Definition ariane_mtimer : aclint_mtimer_data :=
  MtimerData ARIANE_ACLINT_MTIMER_FREQ
    (ARIANE_ACLINT_MTIMER_ADDR + ACLINT_DEFAULT_MTIME_OFFSET) ACLINT_DEFAULT_MTIME_SIZE
    (ARIANE_ACLINT_MTIMER_ADDR + ACLINT_DEFAULT_MTIMECMP_OFFSET) ACLINT_DEFAULT_MTIMECMP_SIZE
    0 ARIANE_HART_COUNT true false None 0 None None.

(** [platform]: two harts, numbered by their ids. *)
Definition platform : sbi_platform := Platform ARIANE_HART_COUNT None.

(** The state of the platform: the drivers of the CLINT (their objects at
    pointer 0), and the data of the other two. *)
Record ariane (D : Type) : Type := ArianeState {
  ar_drivers : drivers D;
  ar_plic : plic_data;
  ar_uart : Z * Z * Z * Z * Z;    (* base, frequency, baud rate, width, shift *)
}.
Arguments ArianeState {D}.
Arguments ar_drivers {D}.
Arguments ar_plic {D}.
Arguments ar_uart {D}.

Section Ariane.
Context {D : Type} `{Bus D} (polls : nat).

Definition ar_set_drivers d (s : ariane D) : ariane D := ArianeState d (ar_plic s) (ar_uart s).

Definition on_drivers {A} (c : M (drivers D) A) : M (ariane D) A := zoom ar_drivers ar_set_drivers c.
Definition on_ariane_bus {A} (c : M D A) : M (ariane D) A := on_drivers (on_bus c).

Definition ar_serial (s : ariane D) : serial D :=
  let '(base, freq, baud, width, shift) := ar_uart s in
  Serial (dr_bus (ar_drivers s)) (dr_machine (ar_drivers s)) base freq baud width shift.
Definition ar_set_serial (u : serial D) (s : ariane D) : ariane D :=
  ArianeState (set_bus (sr_bus u) (set_machine (sr_machine u) (ar_drivers s))) (ar_plic s)
    (uart8250_base u, uart8250_in_freq u, uart8250_baudrate u, uart8250_reg_width u, uart8250_reg_shift u).

Definition ariane_console_init : M (ariane D) Z :=
  zoom ar_serial ar_set_serial
    (uart8250_init ARIANE_UART_ADDR ARIANE_UART_FREQ ARIANE_UART_BAUDRATE
       ARIANE_UART_REG_SHIFT ARIANE_UART_REG_WIDTH).

Definition plic_ariane_warm_irqchip_init (m_cntx_id s_cntx_id : Z) : M (ariane D) Z :=
  (plic <- gets ar_plic ;;
   let ie_words := ARIANE_PLIC_NUM_SOURCES / 32 + 1 in
   on_ariane_bus (set_ie_words (Some plic) m_cntx_id ie_words 1) ;;;
   on_ariane_bus (set_ie_words (Some plic) s_cntx_id ie_words 1) ;;;
   on_ariane_bus (set_thresh_if (Some plic) m_cntx_id 1) ;;;
   on_ariane_bus (set_thresh_if (Some plic) s_cntx_id 0) ;;;
   ret 0)%sbi.

Definition ariane_irqchip_init (hartid : Z) (cold_boot : bool) : M (ariane D) Z :=
  (rc <- (if cold_boot then
            plic <- gets ar_plic ;; on_ariane_bus (plic_cold_irqchip_init (Some plic))
          else ret 0) ;;
   if truthy rc then ret rc
   else plic_ariane_warm_irqchip_init (2 * hartid) (2 * hartid + 1))%sbi.

Definition ariane_ipi_init (hartid : Z) (cold_boot : bool) : M (ariane D) Z :=
  (rc <- (if cold_boot then on_drivers (aclint_mswi_cold_init (Some platform) (Some 0%nat)) else ret 0) ;;
   if truthy rc then ret rc else on_drivers (aclint_mswi_warm_init hartid))%sbi.

Definition ariane_timer_init (hartid : Z) (cold_boot : bool) : M (ariane D) Z :=
  (rc <- (if cold_boot then on_drivers (aclint_mtimer_cold_init (Some platform) (Some 0%nat) None)
          else ret 0) ;;
   if truthy rc then ret rc else on_drivers (aclint_mtimer_warm_init polls hartid))%sbi.

End Ariane.

(** The platform at reset, beside a machine and its devices. *)
Definition ariane_reset {D} (b : D) (m : machine) : ariane D :=
  ArianeState
    (Drivers b m [ariane_mtimer] (replicate 128 None) false [ariane_mswi] (replicate 128 None))
    ariane_plic (0, 0, 0, 0, 0).

(** ** Cold boot *)

(** Where the firmware is, and what it starts: the payload at 2 MiB. *)
Definition ariane_scratch (size arg1 : Z) : boot_scratch :=
  BootScratch 0x80000000 size arg1 0x80200000 PRV_S.

Lemma firmware_region size :
  4096 <= size <= 2 ^ 21 ->
  exists k, 12 <= k <= 21 /\ sbi_domain_memregion_init 0x80000000 size 0 = MemRegion k 0x80000000 0.
Proof.
  intros Hs. destruct (memregion_init_spec 0x80000000 size 0) as (Hok & (H1 & H2 & H3) & Hf & Hmin);
    [unfold is_u64; lia|lia|lia|].
  set (r := sbi_domain_memregion_init _ _ _) in *. destruct Hok as (Ho & Hb & Ht).
  assert (Hk : reg_order r <= 21).
  { destruct (Z.le_gt_cases (reg_order r) 21) as [|Hgt]; [done|].
    specialize (Hmin 21 0x80000000 ltac:(lia)).
    assert (0x80000000 + 2 ^ 21 = 2 ^ 64); [|done]. apply Hmin. split; [done|]. lia. }
  assert (Hl : 12 <= reg_order r).
  { destruct (Z.le_gt_cases 12 (reg_order r)) as [|Hgt]; [done|].
    assert (2 ^ reg_order r <= 2 ^ 11) by (apply Z.pow_le_mono_r; lia).
    change (2 ^ 11) with 2048 in *. lia. }
  assert (0 < 2 ^ reg_order r) by (apply Z.pow_pos_nonneg; lia).
  assert (E : reg_base r = 0x80000000).
  { rewrite (aligned_block_base (reg_base r) 0x80000000 (reg_order r)) by lia.
    assert (E31 : 0x80000000 = 2 ^ (31 - reg_order r) * 2 ^ reg_order r)
      by (rewrite <- Z.pow_add_r by lia; replace (31 - reg_order r + reg_order r) with 31 by lia; done).
    rewrite E31, Z.div_mul by lia. done. }
  exists (reg_order r). split; [lia|]. destruct r as [o b f]. cbn in *. by subst.
Qed.

(** The root domain as sbi_domain_init leaves it. *)
Definition boot_domains (size arg1 cold : Z) : domain_state :=
  snd (sbi_domain_init (Some platform) (ariane_scratch size arg1) cold domain_initial).

(** A machine with these domains and no device yet. *)
Definition cold_machine (ds : domain_state) (ipi : option sbi_ipi_device) (m : machine) : machine :=
  set_m_domains ds (set_ipi_dev ipi (set_timer_dev None m)).

Lemma cold_machine_eta m ds :
  m_domains m = ds -> m_ipi_dev m = None -> m_timer_dev m = None -> m = cold_machine ds None m.
Proof. intros H1 H2 H3. destruct m; cbn in *. by subst. Qed.

(** [mtimer.mtime_freq = freq], with what the device tree says. *)
Definition mt_put_freq (freq : Z) (d : aclint_mtimer_data) : aclint_mtimer_data :=
  MtimerData freq (mtime_addr d) (mtime_size d) (mtimecmp_addr d) (mtimecmp_size d) (mt_first_hartid d)
    (mt_hart_count d) (has_64bit_mmio d) (has_shared_mtime d) (time_delta_reference d) (time_delta_computed d)
    (time_rd d) (time_wr d).

(** The domains after each device has added its regions. *)
Definition added_mswi (ds : domain_state) : domain_state :=
  m_domains (dr_machine (snd (aclint_mswi_cold_init (Some platform) (Some 0%nat)
    (ar_drivers (ariane_reset (dr_bus two_harts) (cold_machine ds None demo_machine)))))).
Definition added_mtimer (ds : domain_state) : domain_state :=
  m_domains (dr_machine (snd (aclint_mtimer_cold_init (Some platform) (Some 0%nat) None
    (ar_drivers (ariane_reset (dr_bus two_harts) (cold_machine ds None demo_machine)))))).

Definition served_table : list (option nat) := replicate 2 (Some 0%nat) ++ replicate 126 None.

Definition mtimer_ready (freq : Z) : aclint_mtimer_data := mt_set_access time64 (mt_put_freq freq ariane_mtimer).

(** The boot domains, by the size of the firmware region and the boot hart. *)
Definition boot_domains_at (k arg1 cold : Z) : domain_state :=
  snd (sbi_domain_register (Some platform) cold (Some root) (Some RootHmask)
         (DomainState (replicate 128 None) (replicate 32 None) 0 false
            (valid_hmask (Some platform) (Hartmask [0; 0]) (seqZ 0 SBI_HARTMASK_MAX_BITS)) 2
            (MemRegion k 0x80000000 0)
            (MemRegion k 0x80000000 0 :: allow_all :: replicate 15 (MemRegion 0 0 0))
            [Domain 0 (Hartmask [0; 0]) (Some RootHmask) (Some RootMemregs) cold arg1 0x80200000 PRV_S true])).

Lemma boot_domains_eq size arg1 cold k :
  sbi_domain_memregion_init 0x80000000 size 0 = MemRegion k 0x80000000 0 ->
  boot_domains size arg1 cold = boot_domains_at k arg1 cold.
Proof.
  intros E. unfold boot_domains. rewrite domain_init_unfold. unfold root_before, ariane_scratch.
  cbn [fw_start fw_size scratch_next_arg1 scratch_next_addr scratch_next_mode]. by rewrite E.
Qed.

(** A property of every firmware size and boot hart, evaluated case by case. *)
Ltac boot_cases :=
  match goal with
  | Hk : 12 <= ?k <= 21, Hc : ?c = 0 \/ ?c = 1 |- _ =>
      let E := fresh in
      assert (E : k = 12 \/ k = 13 \/ k = 14 \/ k = 15 \/ k = 16 \/ k = 17 \/ k = 18 \/ k = 19 \/
                  k = 20 \/ k = 21) by lia;
      clear Hk; destruct Hc as [-> | ->];
      repeat (destruct E as [-> | E]; [vm_compute; reflexivity|]); rewrite E; vm_compute; reflexivity
  end.

Lemma mswi_cold_run {D} `{Bus D} (b : D) m mts k arg1 cold :
  12 <= k <= 21 -> cold = 0 \/ cold = 1 ->
  aclint_mswi_cold_init (Some platform) (Some 0%nat)
    (Drivers b (cold_machine (boot_domains_at k arg1 cold) None m) mts (replicate 128 None)
       false [ariane_mswi] (replicate 128 None)) =
  (Ret 0, Drivers b (cold_machine (added_mswi (boot_domains_at k arg1 cold)) (Some (IpiDevice true true)) m)
            mts (replicate 128 None) false [ariane_mswi] served_table).
Proof. intros Hk Hc. boot_cases. Qed.

(** The firmware state after the registration of the timer. *)
Definition with_timer (freq : Z) (ds : domain_state) (ipi : option sbi_ipi_device) (m : machine) : machine :=
  snd (sbi_timer_set_device (Some (TimerDevice freq true true true)) (cold_machine ds ipi m)).

Lemma mtimer_cold_run {D} `{Bus D} (b : D) m ipi k arg1 cold freq :
  12 <= k <= 21 -> cold = 0 \/ cold = 1 ->
  aclint_mtimer_cold_init (Some platform) (Some 0%nat) None
    (Drivers b (cold_machine (added_mswi (boot_domains_at k arg1 cold)) ipi m) [mt_put_freq freq ariane_mtimer]
       (replicate 128 None) false [ariane_mswi] served_table) =
  (Ret 0, Drivers b (with_timer freq (added_mtimer (added_mswi (boot_domains_at k arg1 cold))) ipi m)
     [mtimer_ready freq] served_table true [ariane_mswi] served_table).
Proof. intros Hk Hc. boot_cases. Qed.

(** The root domain after the two devices. *)
Definition clint_regions : list sbi_domain_memregion :=
  [MemRegion 14 0x2008000 SBI_DOMAIN_MEMREGION_MMIO; MemRegion 15 0x2000000 SBI_DOMAIN_MEMREGION_MMIO].

Definition final_domains (k arg1 cold : Z) : domain_state :=
  added_mtimer (added_mswi (boot_domains_at k arg1 cold)).

Lemma final_regions k arg1 cold :
  12 <= k <= 21 -> cold = 0 \/ cold = 1 ->
  (regions <$> domains (final_domains k arg1 cold) !! root) = Some (Some RootMemregs) /\
  memregions (root_memregs (final_domains k arg1 cold)) =
    (if k <? 14 then MemRegion k 0x80000000 0 :: clint_regions
     else if k =? 14 then take 1 clint_regions ++ MemRegion k 0x80000000 0 :: drop 1 clint_regions
     else clint_regions ++ [MemRegion k 0x80000000 0]) ++ [allow_all].
Proof. intros Hk Hc. split; boot_cases. Qed.

(** One region of the list, for a supervisor or user access that asks for some
    permission. *)
Lemma check_step reg l addr mode rwx mmio :
  mode = PRV_S \/ mode = PRV_U -> 0 < rwx <= 7 ->
  reg_flags reg = 0 \/ reg_flags reg = SBI_DOMAIN_MEMREGION_MMIO ->
  check_regions (reg :: l) addr mode rwx mmio =
  if region_contains reg addr then false else check_regions l addr mode rwx mmio.
Proof.
  intros Hm Hr Hf. cbn [check_regions]. unfold region_contains.
  replace (mode =? PRV_M) with false by (symmetry; apply Z.eqb_neq; destruct Hm as [-> | ->]; discriminate).
  cbn [andb]. case_if; [|done].
  assert (Hz : Z.land (reg_flags reg) rwx = 0).
  { destruct Hf as [-> | ->]; [done|]. unfold SBI_DOMAIN_MEMREGION_MMIO.
    rewrite <- (Z.mod_small rwx (2 ^ 3)) by (change (2 ^ 3) with 8; lia).
    rewrite <- Z.land_ones, Z.land_comm, <- Z.land_assoc by lia. apply Z.land_0_r. }
  rewrite Hz. rewrite (proj2 (Z.eqb_neq 0 rwx)) by lia. by destruct (_ || _).
Qed.

Lemma check_last addr mode rwx mmio :
  mode = PRV_S \/ mode = PRV_U -> 0 < rwx <= 7 -> is_u64 addr ->
  check_regions [allow_all] addr mode rwx mmio = negb mmio.
Proof.
  intros Hm Hr Ha. cbn [check_regions].
  replace (mode =? PRV_M) with false by (symmetry; apply Z.eqb_neq; destruct Hm as [-> | ->]; discriminate).
  cbn [andb]. change (reg_base allow_all) with 0. change (region_end allow_all) with (2 ^ 64 - 1).
  unfold is_u64 in Ha. rewrite !(proj2 (Z.leb_le _ _)) by lia. cbn [andb].
  change (truthy (Z.land (reg_flags allow_all) SBI_DOMAIN_MEMREGION_MMIO)) with false.
  destruct mmio; [done|]. cbn [negb andb orb]. change (reg_flags allow_all) with (2 ^ 3 - 1).
  rewrite Z.land_comm, land_ones_mod by lia. rewrite Z.mod_small by (change (2 ^ 3) with 8; lia). apply Z.eqb_refl.
Qed.

Definition in_clint (addr : Z) : bool := (0x2000000 <=? addr) && (addr <? 0x200c000).

Lemma clint_regions_contain addr :
  region_contains (MemRegion 14 0x2008000 SBI_DOMAIN_MEMREGION_MMIO) addr ||
  region_contains (MemRegion 15 0x2000000 SBI_DOMAIN_MEMREGION_MMIO) addr = in_clint addr.
Proof.
  unfold region_contains, in_clint. cbn [reg_base].
  change (region_end (MemRegion 14 0x2008000 _)) with 0x200bfff.
  change (region_end (MemRegion 15 0x2000000 _)) with 0x2007fff.
  apply eq_true_iff_eq. rewrite orb_true_iff, !andb_true_iff, !Z.leb_le, Z.ltb_lt. lia.
Qed.

Lemma final_check k arg1 cold addr mode acc :
  12 <= k <= 21 -> cold = 0 \/ cold = 1 -> is_u64 addr -> mode = PRV_S \/ mode = PRV_U ->
  access_rwx acc <> 0 ->
  sbi_domain_check_addr (final_domains k arg1 cold) (Some root) addr mode acc =
  negb (in_clint addr) && negb (region_contains (MemRegion k 0x80000000 0) addr) &&
  negb (truthy (Z.land acc SBI_DOMAIN_MMIO)).
Proof.
  intros Hk Hc Ha Hm Hr. destruct (final_regions k arg1 cold Hk Hc) as [H1 H2].
  revert H1 H2. generalize (final_domains k arg1 cold). intros s H1 H2.
  unfold sbi_domain_check_addr. cbn [mbind option_bind].
  destruct (domains s !! root) as [d|]; [|discriminate].
  cbn [fmap option_fmap option_map] in H1. injection H1 as H1.
  unfold dom_regions. rewrite H1. cbn [deref_regions]. rewrite H2.
  assert (Hx : 0 < access_rwx acc <= 7) by (assert (R := access_rwx_range acc); lia).
  rewrite <- clint_regions_contain. unfold clint_regions.
  set (mmio := truthy _). generalize (access_rwx acc), Hx. clear - Ha Hm. intros rwx Hx.
  set (r1 := MemRegion 14 _ _). set (r2 := MemRegion 15 _ _). set (fw := MemRegion k _ _).
  assert (F1 : reg_flags r1 = 0 \/ reg_flags r1 = SBI_DOMAIN_MEMREGION_MMIO) by by right.
  assert (F2 : reg_flags r2 = 0 \/ reg_flags r2 = SBI_DOMAIN_MEMREGION_MMIO) by by right.
  assert (F3 : reg_flags fw = 0 \/ reg_flags fw = SBI_DOMAIN_MEMREGION_MMIO) by by left.
  clearbody r1 r2 fw.
  assert (C : forall a b c, (reg_flags a = 0 \/ reg_flags a = SBI_DOMAIN_MEMREGION_MMIO) ->
    (reg_flags b = 0 \/ reg_flags b = SBI_DOMAIN_MEMREGION_MMIO) ->
    (reg_flags c = 0 \/ reg_flags c = SBI_DOMAIN_MEMREGION_MMIO) ->
    check_regions [a; b; c; allow_all] addr mode rwx mmio =
    negb (region_contains a addr || region_contains b addr || region_contains c addr) && negb mmio).
  { intros a b c Fa Fb Fc. rewrite (check_step a), (check_step b), (check_step c), check_last by assumption.
    by destruct (region_contains a addr), (region_contains b addr), (region_contains c addr). }
  destruct (k <? 14); [|destruct (k =? 14)]; cbn [app take drop]; rewrite C by assumption;
    by destruct (region_contains r1 addr), (region_contains r2 addr), (region_contains fw addr).
Qed.

Lemma on_drivers_run {D A} (c : M (drivers D) A) (s : ariane D) o d :
  c (ar_drivers s) = (o, d) -> on_drivers c s = (o, ar_set_drivers d s).
Proof. intros E. unfold on_drivers, zoom. by rewrite E. Qed.

Lemma with_timer_keeps freq ds ipi m :
  m_domains (with_timer freq ds ipi m) = ds /\ m_ipi_dev (with_timer freq ds ipi m) = ipi /\
  m_timer_dev (with_timer freq ds ipi m) = Some (TimerDevice freq true true true) /\
  m_console_dev (with_timer freq ds ipi m) = m_console_dev m.
Proof.
  unfold with_timer, sbi_timer_set_device, modify, cold_machine. cbn.
  by destruct (m_get_time_val m).
Qed.

Definition ready_drivers (freq : Z) (b : soc) (m : machine) : drivers soc :=
  Drivers b m [mtimer_ready freq] served_table true [ariane_mswi] served_table.

Lemma ready_served freq b m :
  clint_of 2 (soc_clint b) -> is_u64 (mtime_q (soc_clint b)) -> clint_served 2 (ready_drivers freq b m).
Proof.
  intros Hc Ht. split; [done|done|unfold SBI_HARTMASK_MAX_BITS; lia| |]; intros h Hh;
    assert (C : h = 0 \/ h = 1) by lia; destruct C as [-> | ->]; by eexists 0%nat, _.
Qed.

(** Clearing the IPI of the boot hart. *)
Lemma mswi_warm_run b m mts tt0 reg cold :
  clint_of 2 (soc_clint b) -> cold = 0 \/ cold = 1 ->
  aclint_mswi_warm_init cold (Drivers b m mts tt0 reg [ariane_mswi] served_table) =
  (Ret 0, Drivers (soc_after (λ c, Clint (mtime_q c) (mtimecmp_q c) (<[Z.to_nat cold := false]> (msip_q c))) b)
            m mts tt0 reg [ariane_mswi] served_table).
Proof.
  intros Hc Hh. unfold aclint_mswi_warm_init, mswi_ipi_clear, mswi_write.
  rewrite (proj2 (Z.leb_gt SBI_HARTMASK_MAX_BITS cold)) by (unfold SBI_HARTMASK_MAX_BITS; lia).
  rewrite bind_assoc, bind_gets. cbn [mswi_hartid2data].
  replace (mjoin (served_table !! Z.to_nat cold)) with (Some 0%nat) by (by destruct Hh as [-> | ->]).
  rewrite bind_assoc. erewrite bind_Ret by reflexivity.
  change 0 with (Z.b2z false) at 1.
  erewrite bind_Ret by (apply (msip_store 2); [exact Hc|destruct Hh as [-> | ->]; lia|done|done]).
  done.
Qed.

(** Clearing the deadline of the boot hart; there is no clock to follow. *)
Lemma mtimer_warm_run polls freq b m cold :
  clint_of 2 (soc_clint b) -> cold = 0 \/ cold = 1 ->
  aclint_mtimer_warm_init polls cold (ready_drivers freq b m) =
  (Ret 0, ready_drivers freq (soc_after (λ c, Clint (mtime_q c) (<[Z.to_nat cold := u64_max]> (mtimecmp_q c)) (msip_q c)) b) m).
Proof.
  intros Hc Hh. unfold aclint_mtimer_warm_init.
  erewrite bind_Ret.
  2:{ unfold mtimer_entry, ready_drivers. cbn [mtimer_hartid2data].
      replace (served_table !! Z.to_nat cold) with (Some (Some 0%nat)) by (by destruct Hh as [-> | ->]).
      reflexivity. }
  cbv beta iota. erewrite bind_Ret by reflexivity. erewrite bind_Ret by reflexivity.
  erewrite bind_Ret by (apply (mtimecmp_store 2); [exact Hc|destruct Hh as [-> | ->]; lia
    |unfold is_u64, u64_max; lia|done|done|done]).
  done.
Qed.

Definition bus_after (cold : Z) (b : soc) : soc :=
  soc_after (λ c, Clint (mtime_q c) (<[Z.to_nat cold := u64_max]> (mtimecmp_q c)) (msip_q c))
    (soc_after (λ c, Clint (mtime_q c) (mtimecmp_q c) (<[Z.to_nat cold := false]> (msip_q c))) b).

(** The inter-processor interrupts and the timer, one after the other. *)
Lemma ipi_init_run k arg1 cold m b mts p u :
  12 <= k <= 21 -> cold = 0 \/ cold = 1 -> clint_of 2 (soc_clint b) ->
  ariane_ipi_init cold true
    (ArianeState (Drivers b (cold_machine (boot_domains_at k arg1 cold) None m) mts (replicate 128 None) false
                    [ariane_mswi] (replicate 128 None)) p u) =
  (Ret 0, ArianeState
     (Drivers (soc_after (λ c, Clint (mtime_q c) (mtimecmp_q c) (<[Z.to_nat cold := false]> (msip_q c))) b)
        (cold_machine (added_mswi (boot_domains_at k arg1 cold)) (Some (IpiDevice true true)) m) mts
        (replicate 128 None) false [ariane_mswi] served_table) p u).
Proof.
  intros Hk Hh Hc. unfold ariane_ipi_init.
  rewrite (bind_Ret _ _ _ _ _ (on_drivers_run _ (ArianeState (Drivers _ _ _ _ _ _ _) _ _) _ _
             (mswi_cold_run b m mts k arg1 cold Hk Hh))).
  cbv beta. change (truthy 0) with false. cbv iota. unfold ar_set_drivers. cbn [ar_plic ar_uart].
  exact (on_drivers_run _ (ArianeState (Drivers _ _ _ _ _ _ _) _ _) _ _ (mswi_warm_run b _ _ _ _ cold Hc Hh)).
Qed.

Lemma timer_init_run polls freq k arg1 cold m b ipi p u :
  12 <= k <= 21 -> cold = 0 \/ cold = 1 -> clint_of 2 (soc_clint b) ->
  ariane_timer_init polls cold true
    (ArianeState (Drivers b (cold_machine (added_mswi (boot_domains_at k arg1 cold)) ipi m)
                    [mt_put_freq freq ariane_mtimer] (replicate 128 None) false [ariane_mswi] served_table) p u) =
  (Ret 0, ArianeState
     (ready_drivers freq
        (soc_after (λ c, Clint (mtime_q c) (<[Z.to_nat cold := u64_max]> (mtimecmp_q c)) (msip_q c)) b)
        (with_timer freq (final_domains k arg1 cold) ipi m)) p u).
Proof.
  intros Hk Hh Hc. unfold ariane_timer_init.
  rewrite (bind_Ret _ _ _ _ _ (on_drivers_run _ (ArianeState (Drivers _ _ _ _ _ _ _) _ _) _ _
             (mtimer_cold_run b m ipi k arg1 cold freq Hk Hh))).
  cbv beta. change (truthy 0) with false. cbv iota. unfold ar_set_drivers. cbn [ar_plic ar_uart].
  exact (on_drivers_run _ (ArianeState (Drivers _ _ _ _ _ _ _) _ _) _ _ (mtimer_warm_run polls freq b _ cold Hc Hh)).
Qed.

Lemma bus_after_regs cold b :
  clint_of 2 (soc_clint b) -> cold = 0 \/ cold = 1 -> is_u64 (mtime_q (soc_clint b)) ->
  clint_of 2 (soc_clint (bus_after cold b)) /\ is_u64 (mtime_q (soc_clint (bus_after cold b))) /\
  ipi_o (soc_clint (bus_after cold b)) cold = false /\
  deadline_of (soc_clint (bus_after cold b)) cold = u64_max.
Proof.
  intros (C1 & C2 & C3) Hh Ht. unfold bus_after, soc_after. cbn [soc_clint soc_ticks soc_count].
  set (t1 := soc_ticks b (soc_count b)). set (t2 := soc_ticks b (S (soc_count b))).
  set (c1 := clint_ticks t1 (soc_clint b)).
  set (c2 := clint_ticks t2 _). assert (R2 := clint_ticks_regs t2
    (Clint (mtime_q c1) (mtimecmp_q c1) (<[Z.to_nat cold := false]> (msip_q c1)))). fold c2 in R2.
  assert (R1 := clint_ticks_regs t1 (soc_clint b)). fold c1 in R1. cbn [mtimecmp_q msip_q] in R2.
  destruct R1 as [A1 A2]. destruct R2 as [B1 B2].
  assert (T1 : is_u64 (mtime_q c1)) by (unfold c1; rewrite clint_ticks_mtime by done; apply u64_range).
  unfold clint_of, ipi_o, deadline_of. cbn [mtime_q mtimecmp_q msip_q]. rewrite B1, B2, A1, A2.
  rewrite !length_insert. split; [done|]. split.
  - unfold c2. rewrite clint_ticks_mtime by done. apply u64_range.
  - rewrite !list_lookup_insert_eq by (destruct Hh as [-> | ->]; lia). done.
Qed.

(** A platform routine that ends with [v] and turns the interrupt controller's
    registers into [f] of them; beside the bus it changes nothing. *)
Definition ar_does {A} (r0 : plic_regs) (c : M (ariane soc) A) (v : A) (f : plic_regs → plic_regs) : Prop :=
  forall s, exists b', c s = (Ret v, ar_set_drivers (set_bus b' (ar_drivers s)) s) /\
    clint_later (dr_bus (ar_drivers s)) b' /\ plic_of r0 b' = f (plic_of r0 (dr_bus (ar_drivers s))).

Lemma set_bus_id {D} (s : ariane D) : ar_set_drivers (set_bus (dr_bus (ar_drivers s)) (ar_drivers s)) s = s.
Proof. by destruct s as [[] ? ?]. Qed.

Lemma ar_does_bus {A} r0 (c : M soc A) v f : plic_does r0 c v f -> ar_does r0 (on_ariane_bus c) v f.
Proof.
  intros H s. destruct (H (dr_bus (ar_drivers s))) as (b & E & L & F).
  exists b. split; [|done]. unfold on_ariane_bus. apply on_drivers_run. unfold on_bus, zoom. by rewrite E.
Qed.

Lemma ar_does_bind {A B} r0 (c : M (ariane soc) A) (k : A → M (ariane soc) B) v w f g :
  ar_does r0 c v f -> ar_does r0 (k v) w g -> ar_does r0 (bind c k) w (λ r, g (f r)).
Proof.
  intros H1 H2 s. destruct (H1 s) as (b1 & E1 & L1 & F1).
  destruct (H2 (ar_set_drivers (set_bus b1 (ar_drivers s)) s)) as (b2 & E2 & L2 & F2).
  exists b2. split; [erewrite bind_Ret by exact E1; exact E2|]. split; [by eapply clint_later_trans|].
  rewrite F2. cbn [ar_drivers ar_set_drivers dr_bus set_bus]. by rewrite F1.
Qed.

Lemma ar_does_ret {A} r0 (v : A) : ar_does r0 (ret v) v id.
Proof. intros s. exists (dr_bus (ar_drivers s)). rewrite set_bus_id. split; [done|]. split; [apply clint_later_refl|done]. Qed.

Lemma ar_does_ext {A} r0 (c : M (ariane soc) A) v f g :
  ar_does r0 c v f -> (forall r, f r = g r) -> ar_does r0 c v g.
Proof. intros H E s. destruct (H s) as (b & H1 & H2 & H3). exists b. by rewrite <- E. Qed.

(** A controller at its address with at most the sources it has. *)
Definition soc_plic (p : plic_data) : Prop := plic_addr p = PLICBase /\ 0 <= num_src p <= N_SOURCE.

(** The registers after the set-up: no priority, one enable word of the hart's
    contexts that enables source 0, and thresholds 1 and 0. *)
Definition irqchip_regs (hartid n : Z) (r : plic_regs) : plic_regs :=
  let m := Z.to_nat (2 * hartid) in
  let s := Z.to_nat (2 * hartid + 1) in
  PlicRegs (foldl (λ p i, <[Z.to_nat (i - 1) := 0]> p) (prio_q r) (seqZ 1 n))
    (<[s := 0]> (<[m := 0]> (ie_q r))) (<[s := 0]> (<[m := 1]> (threshold_q r))).

Lemma irqchip_run r0 hartid (s : ariane soc) :
  hartid = 0 \/ hartid = 1 -> soc_plic (ar_plic s) ->
  exists b', ariane_irqchip_init hartid true s = (Ret 0, ar_set_drivers (set_bus b' (ar_drivers s)) s) /\
    clint_later (dr_bus (ar_drivers s)) b' /\
    plic_of r0 b' = irqchip_regs hartid (num_src (ar_plic s)) (plic_of r0 (dr_bus (ar_drivers s))).
Proof.
  intros Hh [Ha Hn]. destruct (ar_plic s) as [pa n] eqn:Ep. cbn [plic_addr num_src] in *. subst pa.
  assert (H4 : 0 <= 2 * hartid < N_TARGET /\ 0 <= 2 * hartid + 1 < N_TARGET)
    by (unfold N_TARGET; destruct Hh as [-> | ->]; lia). destruct H4 as [Hm Hs].
  unfold ariane_irqchip_init. rewrite bind_assoc, bind_gets, Ep.
  assert (C : ar_does r0 (on_ariane_bus (plic_cold_irqchip_init (Some (PlicData PLICBase n)))) 0
                (λ r, PlicRegs (foldl (λ p i, <[Z.to_nat (i - 1) := 0]> p) (prio_q r) (seqZ 1 n)) (ie_q r) (threshold_q r))).
  { apply ar_does_bus. unfold plic_cold_irqchip_init. cbn [num_src].
    eapply plic_does_ext; [eapply plic_does_bind; [apply does_priorities|apply does_ret]|reflexivity].
    apply Forall_forall. intros i Hi. apply list_elem_of_In, elem_of_seqZ in Hi. lia. }
  destruct (C s) as (b1 & E1 & L1 & F1). erewrite bind_Ret by exact E1. cbv beta. change (truthy 0) with false. cbv iota.
  set (s1 := ar_set_drivers _ _). unfold plic_ariane_warm_irqchip_init. rewrite bind_gets.
  change (ar_plic s1) with (ar_plic s). rewrite Ep. cbv zeta. change (ARIANE_PLIC_NUM_SOURCES / 32 + 1) with 1.
  match goal with |- context [bind ?c ?k s1] => assert (W : ar_does r0 (bind c k) 0
    (λ r, PlicRegs (prio_q r) (<[Z.to_nat (2 * hartid + 1) := 0]> (<[Z.to_nat (2 * hartid) := 0]> (ie_q r)))
            (<[Z.to_nat (2 * hartid + 1) := 0]> (<[Z.to_nat (2 * hartid) := 1]> (threshold_q r))))) end.
  { eapply ar_does_ext.
    - eapply ar_does_bind; [by apply ar_does_bus, does_set_ie_words|].
      eapply ar_does_bind; [by apply ar_does_bus, does_set_ie_words|].
      eapply ar_does_bind; [by apply ar_does_bus, does_set_thresh_if|].
      eapply ar_does_bind; [by apply ar_does_bus, does_set_thresh_if|]. apply ar_does_ret.
    - reflexivity. }
  destruct (W s1) as (b2 & E2 & L2 & F2). exists b2. split; [exact E2|]. split; [by eapply clint_later_trans|].
  rewrite F2. change (dr_bus (ar_drivers s1)) with b1. by rewrite F1.
Qed.

Lemma irqchip_masks hartid n r t :
  t = 2 * hartid \/ t = 2 * hartid + 1 -> forall ip, eip_target (irqchip_regs hartid n r) t ip = false.
Proof.
  intros Ht ip. apply eip_target_no_enable. unfold irqchip_regs. cbn [ie_q]. rewrite !clear_insert.
  destruct Ht as [-> | ->]; [by repeat destruct (decide _)|by rewrite decide_True].
Qed.

(** ** Properties *)

(** The set-up of the interrupt controller writes 1 to the enable words of the
    hart's contexts, meaning to enable every source; the word enables source 0,
    which does not exist, and disables the others.  Whatever was enabled before,
    no source interrupts the hart. *)
Theorem ariane_enables_no_source r0 (hartid : Z) m b :
  hartid = 0 \/ hartid = 1 ->
  exists s', ariane_irqchip_init hartid true (ariane_reset b m) = (Ret 0, s') /\
    let r := plic_of r0 (dr_bus (ar_drivers s')) in
    forall ip, eip_target r (2 * hartid) ip = false /\ eip_target r (2 * hartid + 1) ip = false.
Proof.
  intros Hh. destruct (irqchip_run r0 hartid (ariane_reset b m) Hh) as (b' & E & _ & F); [split; [done|]; cbn; done|].
  eexists. split; [exact E|]. cbv zeta. intros ip. cbn [ar_drivers ar_set_drivers dr_bus set_bus]. rewrite F.
  split; apply irqchip_masks; [by left|by right].
Qed.
