(* ===== verification/FdtFixup.v ===== *)
(** * Device tree fixups

    Models lib/utils/fdt/fdt_fixup.c and fdt_pmu.c (paths relative to
    src/cva6-sdk/opensbi): what the firmware changes in the device tree before
    the supervisor sees it.

    The local buffers are what the stack holds: the 32 bytes of a node's name lie
    at an address of the memory that sbi_snprintf writes (Console.v), and a name
    that does not fit in them stops like any access outside an object; the four
    cells of [reg] start with arbitrary contents. *)

From Stdlib Require Import ZArith Lia String Ascii.
From stdpp Require Import base tactics list numbers strings gmap.
From S2P Require Import Prelude SbiDefs Domain Csr Hart Pmu Machine Console Format Plic Fdt FdtRo FdtTree FdtRw FdtLayout FdtEdit FdtHelper.

(** What the fixups read beside the tree. *)
Record fixup_env : Type := FixupEnv {
  fx_hartid : Z;
  fx_domains : domain_state;
  fx_features : hart_features;
  fx_stack : print_state;
  fx_name : Z;
  fx_reg : list Z;
}.

Section Fixup.
Context (fuel : nat) (env : fixup_env).

Definition sbi_domain_thishart_ptr : option nat := mjoin (hartid_to_domain_table (fx_domains env) !! Z.to_nat (fx_hartid env)).

(** ** Harts *)

(** [fdt_for_each_subnode(cpu_offset, fdt, cpus_offset)] *)
Fixpoint cpu_fixup_loop (n : nat) (cpu_offset : Z) : M dtb unit :=
  match n with
  | O => stop spinning
  | S n' =>
      (if 0 <=? cpu_offset then
         r <- fdt_parse_hart_id fuel cpu_offset ;;
         match r with
         | (0, Some hartid) =>
             m <- fdt_getprop fuel cpu_offset (lit "mmu-type") ;;
             let '(mmu_type, len) := m in
             if negb (sbi_domain_is_assigned_hart (fx_domains env) sbi_domain_thishart_ptr hartid)
                || negb (bool_decide (is_Some mmu_type)) || negb (truthy len)
             then fdt_setprop_string fuel cpu_offset (lit "status") (chars "disabled") ;;; ret tt
             else ret tt
         | _ => ret tt
         end ;;;
         next <- fdt_next_subnode fuel cpu_offset ;; cpu_fixup_loop n' next
       else ret tt)%sbi
  end.

Definition fdt_cpu_fixup : M dtb unit :=
  (total <- fdt_totalsize ;;
   err <- fdt_open_into fuel (s32 (total + 32)) ;;
   if err <? 0 then ret tt
   else
     cpus_offset <- fdt_path_offset fuel (lit "/cpus") ;;
     if cpus_offset <? 0 then ret tt
     else first <- fdt_first_subnode fuel cpus_offset ;; cpu_fixup_loop fuel first)%sbi.

(** ** Interrupt controller *)

Definition IRQ_M_EXT : Z := 11.

(** [for (i = 0; i < (cells_count / 2); i++)] *)
Fixpoint plic_fixup_loop (n : nat) (cells i count : Z) : M dtb unit :=
  match n with
  | O => stop spinning
  | S n' =>
      (if i <? count then
         c <- fdt32_ld (cells + 4 * (2 * i + 1)) ;;
         (if c =? IRQ_M_EXT then fdt32_st (cells + 4 * (2 * i + 1)) 0xffffffff else ret tt) ;;;
         plic_fixup_loop n' cells (i + 1) count
       else ret tt)%sbi
  end.

Definition fdt_plic_fixup : M dtb unit :=
  (plic_off <- fdt_node_offset_by_compatible fuel 0 (lit "sifive,plic-1.0.0") ;;
   plic_off <- (if plic_off <? 0 then fdt_node_offset_by_compatible fuel 0 (lit "riscv,plic0") else ret plic_off) ;;
   if plic_off <? 0 then ret tt
   else
     r <- fdt_getprop fuel plic_off (lit "interrupts-extended") ;;
     match r with
     | (None, _) => ret tt
     | (Some cells, cells_count) =>
         let cells_count := s32 (u64 cells_count / 4) in
         if negb (truthy cells_count) then ret tt
         else plic_fixup_loop fuel cells 0 (Z.quot cells_count 2)
     end)%sbi.

(** ** Reserved memory *)

(** [char name[32]; sbi_snprintf(name, sizeof(name), ...);] *)
Definition format_name (fmt : string) (args : list argument) : M dtb (list Z) :=
  λ s, match sbi_snprintf (fx_name env) 32 (Console.chars fmt) args (fx_stack env) with
       | (Ret n, st) =>
           match (if n <? 32 then c_string 32 (ps_mem st) (fx_name env) else None) with
           | Some name => (Ret name, s)
           | None => (Stop wild_access, s)
           end
       | (Stop r, _) => (Stop r, s)
       end.

Definition fdt_resv_memory_update_node (addr size index parent : Z) (no_map : bool) : M dtb Z :=
  (na <- fdt_address_cells fuel 0 ;;
   ns <- fdt_size_cells fuel 0 ;;
   let addr_high := u32 (addr / 2 ^ 32) in
   let addr_low := u32 addr in
   let size_high := u32 (size / 2 ^ 32) in
   let size_low := u32 size in
   name <- (if (1 <? na) && truthy addr_high
            then format_name "mmode_resv%d@%x,%x" [ANum index; ANum addr_high; ANum addr_low]
            else format_name "mmode_resv%d@%x" [ANum index; ANum addr_low]) ;;
   subnode <- fdt_add_subnode fuel parent (Cst name 0) ;;
   if subnode <? 0 then ret subnode
   else
     err <- (if no_map then fdt_setprop_empty fuel subnode (lit "no-map") else ret 0) ;;
     if err <? 0 then ret err
     else
       let val := (if 1 <? na then be32 addr_high else []) ++ be32 addr_low ++
                  (if 1 <? ns then be32 size_high else []) ++ be32 size_low in
       err <- fdt_setprop fuel subnode (lit "reg") (overwrite 0 val (fx_reg env)) (s32 ((na + ns) * 4)) ;;
       if err <? 0 then ret err else ret 0)%sbi.

(** Only the firmware may use the region. *)
Definition firmware_only (reg : sbi_domain_memregion) : bool :=
  negb (truthy (Z.land (reg_flags reg) SBI_DOMAIN_MEMREGION_MMIO)) &&
  negb (truthy (Z.land (reg_flags reg) SBI_DOMAIN_MEMREGION_READABLE)) &&
  negb (truthy (Z.land (reg_flags reg) SBI_DOMAIN_MEMREGION_WRITEABLE)) &&
  negb (truthy (Z.land (reg_flags reg) SBI_DOMAIN_MEMREGION_EXECUTABLE)).

(** [sbi_domain_for_each_memregion(dom, reg)] *)
Fixpoint resv_regions_loop (regs : list sbi_domain_memregion) (i parent : Z) : M dtb unit :=
  match regs with
  | [] => ret tt
  | reg :: regs' =>
      (if firmware_only reg then
         fdt_resv_memory_update_node (reg_base reg) (shl64 1 (reg_order reg)) i parent (negb (truthy (pmp_count (fx_features env)))) ;;;
         resv_regions_loop regs' (i + 1) parent
       else resv_regions_loop regs' i parent)%sbi
  end.

(** The node, or the error. *)
Definition resv_parent (na ns : Z) : M dtb (Z + Z) :=
  (parent <- fdt_path_offset fuel (lit "/reserved-memory") ;;
   if 0 <=? parent then ret (inl parent)
   else
     parent <- fdt_add_subnode fuel 0 (lit "reserved-memory") ;;
     if parent <? 0 then ret (inr parent)
     else
       err <- fdt_setprop_empty fuel parent (lit "ranges") ;;
       if err <? 0 then ret (inr err)
       else
         err <- fdt_setprop_u32 fuel parent (lit "#size-cells") (u32 ns) ;;
         if err <? 0 then ret (inr err)
         else
           err <- fdt_setprop_u32 fuel parent (lit "#address-cells") (u32 na) ;;
           if err <? 0 then ret (inr err) else ret (inl parent))%sbi.

Definition fdt_reserved_memory_fixup : M dtb Z :=
  (na <- fdt_address_cells fuel 0 ;;
   ns <- fdt_size_cells fuel 0 ;;
   total <- fdt_totalsize ;;
   err <- fdt_open_into fuel (s32 (total + 1024)) ;;
   if err <? 0 then ret err
   else
     r <- resv_parent na ns ;;
     match r with
     | inr err => ret err
     | inl parent =>
         match sbi_domain_thishart_ptr ≫= λ p, domains (fx_domains env) !! p with
         | None => stop wild_access
         | Some dom => resv_regions_loop (memregions (dom_regions (fx_domains env) dom)) 0 parent ;;; ret 0
         end
     end)%sbi.

(** [fdt_for_each_subnode(subnode, fdt, parent)] *)
Fixpoint nomap_loop (n : nat) (subnode : Z) : M dtb Z :=
  match n with
  | O => stop spinning
  | S n' =>
      (if 0 <=? subnode then
         err <- fdt_setprop_empty fuel subnode (lit "no-map") ;;
         if err <? 0 then ret err
         else next <- fdt_next_subnode fuel subnode ;; nomap_loop n' next
       else ret 0)%sbi
  end.

Definition fdt_reserved_memory_nomap_fixup : M dtb Z :=
  (parent <- fdt_path_offset fuel (lit "/reserved-memory") ;;
   if parent <? 0 then ret parent
   else first <- fdt_first_subnode fuel parent ;; nomap_loop fuel first)%sbi.

(** ** Performance monitor *)

Definition fdt_pmu_fixup : M dtb Z :=
  (null <- fdt_is_null ;;
   if null : bool then ret SBI_EINVAL
   else
     pmu_offset <- fdt_node_offset_by_compatible fuel (-1) (lit "riscv,pmu") ;;
     if pmu_offset <? 0 then ret SBI_EFAIL
     else
       fdt_delprop fuel pmu_offset (lit "pmu,event-to-mhpmcounters") ;;;
       fdt_delprop fuel pmu_offset (lit "pmu,event-to-mhpmevent") ;;;
       fdt_delprop fuel pmu_offset (lit "pmu,raw-event-to-mhpmcounters") ;;;
       ret 0)%sbi.

Definition fdt_fixups : M dtb unit :=
  (fdt_plic_fixup ;;;
   fdt_reserved_memory_fixup ;;;
   fdt_pmu_fixup ;;;
   ret tt)%sbi.

End Fixup.

(** ** Event selectors *)

Definition FDT_PMU_HW_EVENT_MAX : Z := SBI_PMU_HW_EVENT_MAX * 2.

Record fdt_pmu_hw_event_select : Type := EventSelect {
  eidx : Z;
  select : Z;
}.

(** The blob, the counters of sbi_pmu.c and the static data of fdt_pmu.c. *)
Record pmu_tables : Type := PmuTables {
  pt_fdt : dtb;
  pt_pmu : pmu_state;
  fdt_pmu_evt_select : list fdt_pmu_hw_event_select;
  hw_event_count : Z;
}.

Definition set_pt_fdt f (s : pmu_tables) : pmu_tables := PmuTables f (pt_pmu s) (fdt_pmu_evt_select s) (hw_event_count s).
Definition set_pt_pmu p (s : pmu_tables) : pmu_tables := PmuTables (pt_fdt s) p (fdt_pmu_evt_select s) (hw_event_count s).
Definition set_pt_select l n (s : pmu_tables) : pmu_tables := PmuTables (pt_fdt s) (pt_pmu s) l n.

Definition on_tree {A} (c : M dtb A) : M pmu_tables A := zoom pt_fdt set_pt_fdt c.
Definition on_pmu {A} (c : M pmu_state A) : M pmu_tables A := zoom pt_pmu set_pt_pmu c.

(** [for (i = 0; i < SBI_PMU_HW_EVENT_MAX; i++)] over the first entries. *)
Definition fdt_pmu_get_select_value (s : pmu_tables) (event_idx : Z) : Z :=
  match find (λ e, eidx e =? event_idx) (take (Z.to_nat SBI_PMU_HW_EVENT_MAX) (fdt_pmu_evt_select s)) with
  | Some event => select event
  | None => 0
  end.

(** [fdt_pmu_evt_select[hw_event_count] = ...; hw_event_count++;] *)
Definition add_select (e : fdt_pmu_hw_event_select) : M pmu_tables unit :=
  λ s, if hw_event_count s <? FDT_PMU_HW_EVENT_MAX
       then (Ret tt, set_pt_select (<[Z.to_nat (hw_event_count s) := e]> (fdt_pmu_evt_select s)) (u32 (hw_event_count s + 1)) s)
       else (Stop wild_access, s).

(** [for (i = 0; i < len; i++)] over the triples of cells at [val]. *)
Fixpoint triples_loop (body : Z → Z → Z → M pmu_tables unit) (n : nat) (val i len : Z) : M pmu_tables unit :=
  match n with
  | O => stop spinning
  | S n' =>
      (if i <? len then
         a <- on_tree (fdt32_ld (val + 4 * (3 * i))) ;;
         b <- on_tree (fdt32_ld (val + 4 * (3 * i + 1))) ;;
         c <- on_tree (fdt32_ld (val + 4 * (3 * i + 2))) ;;
         body a b c ;;; triples_loop body n' val (i + 1) len
       else ret tt)%sbi
  end.

(** A table of triples: [SBI_EFAIL] when it is missing or shorter than two cells. *)
Definition triples (fuel : nat) (pmu_offset : Z) (name : string) (body : Z → Z → Z → M pmu_tables unit) (k : M pmu_tables Z) : M pmu_tables Z :=
  (r <- on_tree (fdt_getprop fuel pmu_offset (lit name)) ;;
   match r with
   | (Some val, len) => if len <? 8 then ret SBI_EFAIL else triples_loop body fuel val 0 (len / 12) ;;; k
   | (None, _) => ret SBI_EFAIL
   end)%sbi.

Definition fdt_pmu_setup (fuel : nat) : M pmu_tables Z :=
  (null <- on_tree fdt_is_null ;;
   if null : bool then ret SBI_EINVAL
   else
     pmu_offset <- on_tree (fdt_node_offset_by_compatible fuel (-1) (lit "riscv,pmu")) ;;
     if pmu_offset <? 0 then ret SBI_EFAIL
     else
       triples fuel pmu_offset "pmu,event-to-mhpmcounters"
         (λ event_idx_start event_idx_end ctr_map,
            on_pmu (sbi_pmu_add_hw_event_counter_map event_idx_start event_idx_end ctr_map) ;;; ret tt)
       (triples fuel pmu_offset "pmu,event-to-mhpmevent"
         (λ event_idx select_high select_low,
            add_select (EventSelect event_idx (Z.lor (shl64 select_high 32) select_low)))
       (triples fuel pmu_offset "pmu,raw-event-to-mhpmcounters"
         (λ select_high select_low ctr_map,
            result <- on_pmu (sbi_pmu_add_raw_event_counter_map (Z.lor (shl64 select_high 32) select_low) ctr_map) ;;
            if negb (truthy result)
            then modify (λ s, set_pt_select (fdt_pmu_evt_select s) (u32 (hw_event_count s + 1)) s)
            else ret tt)
       (ret 0))))%sbi.

(** ** Names *)

(** A printable character. *)
Definition printable (c : Z) : Prop := 33 <= c < 127.

Lemma numeral_printable b letbase n u : known_base b letbase -> 0 <= u -> Forall printable (numeral n b letbase u).
Proof.
  intros Hb. revert u. induction n as [|n IH]; intros u Hu; cbn [numeral]; [constructor|].
  assert (2 <= b) by (destruct Hb as [->|[-> _]]; lia).
  destruct (Z.eqb_spec u 0); [constructor|]. apply Forall_app. split; [apply IH, Z.div_pos; lia|]. apply Forall_singleton.
  assert (H1 := Z.mod_pos_bound u b ltac:(lia)). unfold printable, digit_char. change (chr "0") with 48.
  destruct Hb as [->|[-> Hl]]; destruct (Z.leb_spec 10 (u mod 16)); destruct (Z.leb_spec 10 (u mod 10));
    try destruct Hl as [->| ->]; try change (chr "a") with 97; try change (chr "A") with 65; lia.
Qed.

Lemma number_printable b letbase u : known_base b letbase -> 0 <= u -> Forall printable (number_text b letbase u).
Proof.
  intros Hb Hu. unfold number_text. destruct (u =? 0); [|by apply numeral_printable].
  apply Forall_singleton. unfold printable. change (chr "0") with 48. lia.
Qed.

Lemma printable_nonzero l : Forall printable l -> nonzero l.
Proof. intros H. eapply Forall_impl; [exact H|]. unfold printable. intros c Hc. lia. Qed.

Lemma printable_byte l : Forall printable l -> Forall is_byte l.
Proof. intros H. eapply Forall_impl; [exact H|]. unfold printable, is_byte. intros c Hc. lia. Qed.

(** The buffer lies in memory and the cells of [reg] are four. *)
Record env_ok (env : fixup_env) : Prop := {
  ok_name : 0 < fx_name env < 2 ^ 64 - 32;
  ok_reg : length (fx_reg env) = 16%nat;
}.

Lemma format_name_run env fmt args text s :
  env_ok env -> Forall printable text -> (length text < 32)%nat ->
  formatted (Console.chars fmt) args = Some text -> format_name env fmt args s = (Ret text, s).
Proof.
  intros [Hn _] Hp Hl Hf. unfold format_name.
  destruct (sbi_snprintf_run (fx_name env) 32 _ args text (fx_stack env) Hf) as [n ->]; [lia|lia|].
  rewrite s32_small by lia.
  rewrite (proj2 (Z.ltb_lt _ 32)) by lia. cbn [ps_mem set_ps_buffer].
  by rewrite c_string_put by (done || by apply printable_nonzero).
Qed.

(** The name of a node under /reserved-memory. *)
Definition resv_name (na index addr : Z) : list Z :=
  let high := u32 (addr / 2 ^ 32) in
  chars "mmode_resv" ++ decimal index ++ chars "@" ++
  (if (1 <? na) && truthy high then hexadecimal high ++ chars "," else []) ++ hexadecimal (u32 addr).

Lemma hexadecimal_range v : Forall printable (hexadecimal (u32 v)) /\ (length (hexadecimal (u32 v)) <= 8)%nat.
Proof.
  assert (H := u32_range v). split; [apply number_printable; [right; auto|lia]|].
  apply number_text_bound; [lia| |lia]. change (16 ^ Z.of_nat 8) with (2 ^ 32). lia.
Qed.

Lemma decimal_range v : 0 <= v < 10 -> Forall printable (decimal v) /\ (length (decimal v) <= 1)%nat.
Proof.
  intros H. split; [apply number_printable; [by left|lia]|]. apply number_text_bound; [lia|exact H|lia].
Qed.

Lemma resv_name_range na index addr : 0 <= index < 10 ->
  Forall printable (resv_name na index addr) /\ (length (resv_name na index addr) <= 29)%nat.
Proof.
  intros Hi. unfold resv_name. cbv zeta. destruct (decimal_range index Hi) as [P1 L1].
  destruct (hexadecimal_range addr) as [P2 L2]. destruct (hexadecimal_range (addr / 2 ^ 32)) as [P3 L3].
  assert (P4 : forall s, forallb (λ c, (33 <=? c) && (c <? 127)) (chars s) = true -> Forall printable (chars s)).
  { intros str. rewrite forallb_forall, List.Forall_forall. intros H c Hc. specialize (H c Hc). unfold printable. lia. }
  split.
  - repeat apply Forall_app_2; try done; try (by apply P4). case_if; [|constructor]. apply Forall_app. split; [done|by apply P4].
  - rewrite !length_app. change (length (chars "mmode_resv")) with 10%nat. change (length (chars "@")) with 1%nat.
    case_if; rewrite ?length_app; change (length (chars ",")) with 1%nat; cbn [length]; lia.
Qed.

(** The two formats. *)
Lemma resv_text_low index low : 0 <= index < 10 -> 0 <= low < 2 ^ 32 ->
  formatted (Console.chars "mmode_resv%d@%x") [ANum index; ANum low] =
    Some (chars "mmode_resv" ++ decimal index ++ chars "@" ++ hexadecimal low).
Proof.
  intros Hi Hlow. change (formatted _ _) with (Some (chars "mmode_resv" ++ printi_text (int_of index) 10 true 0 0 (chr "0") ++
    chars "@" ++ printi_text (uint_of low) 16 false 0 0 (chr "a") ++ [])).
  unfold int_of, uint_of. rewrite s32_small, u32_small, !printi_text_plain, app_nil_r by lia. done.
Qed.

Lemma resv_text_high index high low : 0 <= index < 10 -> 0 <= high < 2 ^ 32 -> 0 <= low < 2 ^ 32 ->
  formatted (Console.chars "mmode_resv%d@%x,%x") [ANum index; ANum high; ANum low] =
    Some (chars "mmode_resv" ++ decimal index ++ chars "@" ++ (hexadecimal high ++ chars ",") ++ hexadecimal low).
Proof.
  intros Hi Hhigh Hlow. change (formatted _ _) with (Some (chars "mmode_resv" ++ printi_text (int_of index) 10 true 0 0 (chr "0") ++
    chars "@" ++ printi_text (uint_of high) 16 false 0 0 (chr "a") ++ chars "," ++ printi_text (uint_of low) 16 false 0 0 (chr "a") ++ [])).
  unfold int_of, uint_of. rewrite s32_small, !u32_small, !printi_text_plain, app_nil_r, <- app_assoc by lia. done.
Qed.

Lemma resv_name_run env na index addr s : env_ok env -> 0 <= index < 10 ->
  (if (1 <? na) && truthy (u32 (addr / 2 ^ 32))
   then format_name env "mmode_resv%d@%x,%x" [ANum index; ANum (u32 (addr / 2 ^ 32)); ANum (u32 addr)]
   else format_name env "mmode_resv%d@%x" [ANum index; ANum (u32 addr)]) s = (Ret (resv_name na index addr), s).
Proof.
  intros He Hi. destruct (resv_name_range na index addr Hi) as [P L]. unfold resv_name in *. cbv zeta in *.
  case_if; (apply format_name_run; [done|done|lia|]).
  - apply resv_text_high; [done|apply u32_range|apply u32_range].
  - apply resv_text_low; [done|apply u32_range].
Qed.

(** ** Where the event selectors fall short *)

(** The table has 128 entries but only the first 64 are searched: the selector of
    the 65th event is lost.  See fdt_pmu.c:31. *)
Definition full_selects : list fdt_pmu_hw_event_select := map (λ i, EventSelect (Z.of_nat i + 1) (Z.of_nat i + 100)) (seq 0 65).

Theorem pmu_select_beyond_half (s : pmu_tables) :
  fdt_pmu_evt_select s = full_selects ++ replicate 63 (EventSelect 0 0) ->
  fdt_pmu_get_select_value s 64 = 163 /\ fdt_pmu_get_select_value s 65 = 0.
Proof. unfold fdt_pmu_get_select_value. intros ->. split; vm_compute; reflexivity. Qed.
