(* ===== verification/FdtReserve.v ===== *)
(** * Device tree fixups: reserved memory

    What the reserved-memory fixup (FdtFixup.v) makes of a tree: the node
    /reserved-memory, made when there is none, gets a child for every region that
    only the firmware may use.  The edits are reasoned about within the free
    space of the blob: [succeeds] says that an operation makes its edit and how
    much of the space it takes at most.

    The theorem: the 1024 bytes by which the fixup grows the blob are enough for
    nine regions, on any tree; then every region is listed with its base and
    size. *)

From Stdlib Require Import ZArith Lia String Ascii.
From stdpp Require Import base tactics list numbers strings gmap.
From S2P Require Import Prelude SbiDefs Bitops Domain Csr Hart Pmu Machine Console Format Plic Fdt FdtRo FdtTree FdtRw FdtLayout FdtEdit FdtHelper FdtFixup.

(** ** Edits within the free space *)

Definition free (ly : layout) : Z := Z.of_nat (length (ly_slack ly)).
Definition weight (tokens : list token) (strings : list Z) : Z := size_of tokens + Z.of_nat (length strings).

(** The operation returns [a], makes the edit, and takes at most [cost] bytes of
    the free space. *)
Definition succeeds {A} (addr : Z) (ly : layout) (c : M dtb A) (a : A) (cost : Z) (tokens' : list token) (strings' : list Z) : Prop :=
  exists ly', c (blob_of addr ly) = (Ret a, blob_of addr ly') /\ after_edit addr ly ly' tokens' strings' /\ free ly - cost <= free ly'.

Lemma free_after addr ly ly' tokens tokens' strings' : editable addr ly tokens -> after_edit addr ly ly' tokens' strings' ->
  free ly' + weight tokens' strings' = free ly + weight tokens (ly_strings ly).
Proof.
  intros E [E' <- Ht _ Hr _]. assert (H1 := ly_range (ed_ok _ _ _ E)). assert (H2 := ly_range (ed_ok _ _ _ E')).
  assert (L1 := ed_struct_length E). assert (L2 := ed_struct_length E'). unfold free, weight.
  assert (Hd : ly_ds ly' = ly_ds ly) by (unfold ly_ds; by rewrite Hr). lia.
Qed.

Lemma edits_succeed addr ly tokens c ok full cost tokens' strings' :
  editable addr ly tokens -> edits addr ly tokens c ok full tokens' strings' ->
  weight tokens' strings' <= weight tokens (ly_strings ly) + cost -> cost <= free ly ->
  succeeds addr ly c ok cost tokens' strings'.
Proof.
  intros E H Hw Hc. unfold edits, weight, free in *. rewrite (proj2 (Z.leb_le _ _)) in H by lia.
  destruct H as (ly' & R & Ha). exists ly'. split; [done|]. split; [done|].
  assert (Hf := free_after _ _ _ _ _ _ E Ha). unfold free, weight in *. lia.
Qed.

(** One after the other. *)
Lemma succeeds_bind {A B} addr ly (c : M dtb A) (k : A → M dtb B) a b cost1 cost2 tokens1 strings1 tokens2 strings2 :
  succeeds addr ly c a cost1 tokens1 strings1 ->
  (forall ly1, after_edit addr ly ly1 tokens1 strings1 -> free ly - cost1 <= free ly1 ->
   succeeds addr ly1 (k a) b cost2 tokens2 strings2) ->
  succeeds addr ly (bind c k) b (cost1 + cost2) tokens2 strings2.
Proof.
  intros (ly1 & R1 & A1 & F1) H. destruct (H ly1 A1 F1) as (ly2 & R2 & A2 & F2). exists ly2.
  rewrite (bind_Ret _ _ _ _ _ R1). split; [done|]. split; [by eapply after_edit_trans|lia].
Qed.

Lemma succeeds_reads {A B} addr ly (c : M dtb A) (k : A → M dtb B) a b cost tokens' strings' :
  reads (blob_of addr ly) c a -> succeeds addr ly (k a) b cost tokens' strings' ->
  succeeds addr ly (bind c k) b cost tokens' strings'.
Proof. intros R (ly' & H & HA). exists ly'. by rewrite (reads_bind_eq _ _ _ _ R). Qed.

Lemma after_refl addr ly tokens : editable addr ly tokens -> after_edit addr ly ly tokens (ly_strings ly).
Proof. by split. Qed.

Lemma succeeds_ret {A} addr ly tokens (a : A) : editable addr ly tokens -> succeeds addr ly (ret a) a 0 tokens (ly_strings ly).
Proof. intros E. exists ly. split; [done|]. split; [by apply after_refl|lia]. Qed.

Lemma succeeds_weaken {A} addr ly (c : M dtb A) a cost cost' tokens' strings' :
  succeeds addr ly c a cost tokens' strings' -> cost <= cost' -> succeeds addr ly c a cost' tokens' strings'.
Proof. intros (ly' & R & HA & F) H. exists ly'. split; [done|]. split; [done|lia]. Qed.

(** A result that is not looked at. *)
Lemma succeeds_drop {A} addr ly (c : M dtb A) a cost tokens' strings' :
  succeeds addr ly c a cost tokens' strings' -> succeeds addr ly (c ;;; ret tt)%sbi tt cost tokens' strings'.
Proof. intros (ly' & R & HA & F). exists ly'. rewrite (bind_Ret _ _ _ _ _ R). done. Qed.

(** Strings are added, never moved. *)
Definition grows (strings strings' : list Z) : Prop := forall off x, string_at strings off = Some x -> string_at strings' off = Some x.

#[export] Instance grows_preorder : PreOrder grows.
Proof. split; [by intros s off x|]. intros s1 s2 s3 H1 H2 off x Hx. auto. Qed.

Lemma set_attr_grows strings name value attrs : grows strings (snd (set_attr strings name value attrs)).
Proof.
  unfold set_attr. destruct (split_attr strings name attrs) as [[[a1 [off v]] a2]|]; [reflexivity|].
  assert (H := intern_keeps name strings). destruct (intern name strings). intros o x. apply H.
Qed.

Lemma attr_value_named strings strings' name attrs : named strings attrs -> grows strings strings' ->
  attr_value strings' name attrs = attr_value strings name attrs.
Proof.
  intros Hn Hg. induction Hn as [|t attrs Ht Hn IH]; [done|]. destruct t as [n| |off v|]; cbn [attr_value]; try exact IH.
  destruct Ht as [x Hx]. by rewrite IH, Hx, (Hg off x Hx).
Qed.

Lemma named_grows strings strings' attrs : named strings attrs -> grows strings strings' -> named strings' attrs.
Proof.
  intros Hn Hg. eapply Forall_impl; [exact Hn|]. intros [n| |off v|]; try done. intros [x Hx]. exists x. by apply Hg.
Qed.

Lemma prop_size off v : size_of [Prop_ off v] = 12 + Z.of_nat (length (padded4 v)).
Proof. rewrite size_of_cons. cbn [encode]. rewrite !length_app, !be32_length. change (size_of []) with 0. lia. Qed.

Lemma set_attr_weight strings name value attrs : value_fits value ->
  weight (fst (set_attr strings name value attrs)) (snd (set_attr strings name value attrs)) <=
  weight attrs strings + (13 + Z.of_nat (length value) + Z.of_nat (length name)).
Proof.
  intros (_ & H4 & _). unfold set_attr, weight. assert (Hp := padded4_id value H4).
  destruct (split_attr strings name attrs) as [[[a1 [off v]] a2]|] eqn:Es; cbn [fst snd].
  - destruct (split_attr_app _ _ _ _ _ _ _ Es) as (-> & _ & _). rewrite !size_of_app.
    rewrite (size_of_cons _ a2), (size_of_cons _ a2). cbn [encode]. rewrite !length_app, !be32_length, Hp. lia.
  - assert (Hi := intern_length name strings). destruct (intern name strings) as [off strings']. cbn [fst snd] in *.
    rewrite size_of_cons. cbn [encode]. rewrite !length_app, !be32_length, Hp. lia.
Qed.

(** Only the bytes counted by the length are written. *)
Lemma memcpy_val_prefix dst value rest : Z.of_nat (length value) < 2 ^ 30 ->
  memcpy_val dst (value ++ rest) (Z.of_nat (length value)) = memcpy_val dst value (Z.of_nat (length value)).
Proof.
  intros H. unfold memcpy_val. rewrite u64_small by (unfold is_u64; lia). rewrite !(proj2 (Z.ltb_ge _ _)) by (rewrite ?length_app; lia).
  by rewrite Nat2Z.id, take_app_length, take_ge by lia.
Qed.

Lemma setprop_prefix fuel o q value rest s : Z.of_nat (length value) < 2 ^ 30 ->
  fdt_setprop fuel o q (value ++ rest) (Z.of_nat (length value)) s = fdt_setprop fuel o q value (Z.of_nat (length value)) s.
Proof. intros H. unfold fdt_setprop, bind. destruct (fdt_setprop_placeholder _ _ _ _ s) as [[[err [d|]]|] s1]; [|done|done].
  by rewrite memcpy_val_prefix.
Qed.

Section Steps.
Context {addr : Z} {ly : layout} {tokens : list token} (E : editable addr ly tokens).
Context (fuel : nat) (Hfuel : ly_total ly < Z.of_nat fuel).
Context {pre : list token} {t : tree} {post : list token} (Et : tokens = pre ++ flat t ++ post) (Hok : tree_ok t = true).

Lemma short_name_fits name : nonzero name -> (length name <= 36)%nat -> name_fits ly name.
Proof. intros Hn Hl. split; [done|]. assert (H := ly_range (ed_ok _ _ _ E)). lia. Qed.

Lemma setprop_succeeds name value rest :
  nonzero name -> (length name <= 36)%nat -> value_fits value ->
  13 + Z.of_nat (length value) + Z.of_nat (length name) <= free ly ->
  let r := set_attr (ly_strings ly) name value (tree_attrs t) in
  succeeds addr ly (fdt_setprop fuel (size_of pre) (Cst name 0) (value ++ rest) (Z.of_nat (length value))) 0
    (13 + Z.of_nat (length value) + Z.of_nat (length name)) (pre ++ flat (with_attrs (fst r) t) ++ post) (snd r).
Proof.
  intros Hn Hl Hv Hf r. assert (Hx := setprop_tree E fuel Hfuel Et Hok name value (short_name_fits name Hn Hl) Hv).
  cbv zeta in Hx. fold r in Hx.
  assert (Hs : succeeds addr ly (fdt_setprop fuel (size_of pre) (Cst name 0) value (Z.of_nat (length value))) 0
    (13 + Z.of_nat (length value) + Z.of_nat (length name)) (pre ++ flat (with_attrs (fst r) t) ++ post) (snd r)).
  { eapply (edits_succeed addr ly tokens); [exact E|exact Hx| |exact Hf].
    assert (Hw := set_attr_weight (ly_strings ly) name value (tree_attrs t) Hv). fold r in Hw. unfold weight in *.
    rewrite Et, !size_of_app, !flat_node. unfold header. cbn [with_attrs tree_name tree_attrs tree_children].
    rewrite !size_of_app, !size_of_cons. lia. }
  destruct Hs as (ly' & R & H). exists ly'. split; [|done]. rewrite setprop_prefix; [exact R|]. exact (proj2 (proj2 Hv)).
Qed.

Lemma add_subnode_succeeds name :
  Forall printable name -> (length name <= 36)%nat -> Z.of_nat (length name) + 12 <= free ly ->
  existsb (λ c, node_named name (tree_name c)) (tree_children t) = false ->
  succeeds addr ly (fdt_add_subnode fuel (size_of pre) (Cst name 0)) (children_offset (size_of pre) t)
    (Z.of_nat (length name) + 12) (pre ++ flat (add_child (Node name [] []) t) ++ post) (ly_strings ly).
Proof.
  intros Hp Hl Hf Hnew. assert (Hn := printable_nonzero _ Hp).
  assert (Hc : forall o, child_at (node_named name) o (tree_children t) = None).
  { revert Hnew. generalize (tree_children t). induction l as [|c l IH]; intros H o; [done|]. cbn [existsb child_at] in *.
    apply orb_false_iff in H as [-> H]. by apply IH. }
  eapply (edits_succeed addr ly tokens); [exact E| | |exact Hf].
  - apply (add_subnode_tree E fuel Hfuel Et Hok); [by apply short_name_fits|by apply printable_byte|lia|apply Hc].
  - unfold weight. rewrite Et, !size_of_app, !flat_node. unfold header. cbn [add_child tree_name tree_attrs tree_children].
    rewrite flat_all_cons, !size_of_app. cbn [flat]. cbn [map concat app]. rewrite !size_of_cons. cbn [encode].
    rewrite !length_app, !be32_length. change (size_of []) with 0.
    destruct (padded4_length (name ++ [0])) as (k & Ek & Hk). rewrite length_app in Hk. cbn [length] in Hk. lia.
Qed.

Lemma add_subnode_refused name : Forall printable name -> (length name <= 36)%nat ->
  existsb (λ c, node_named name (tree_name c)) (tree_children t) = true ->
  fdt_add_subnode fuel (size_of pre) (Cst name 0) (blob_of addr ly) = (Ret (- FDT_ERR_EXISTS), blob_of addr ly).
Proof.
  intros Hp Hl Hx. assert (Hn := printable_nonzero _ Hp).
  assert (Hc : exists o c, child_at (node_named name) (children_offset (size_of pre) t) (tree_children t) = Some (o, c)).
  { generalize (children_offset (size_of pre) t). revert Hx. generalize (tree_children t).
    induction l as [|c l IH]; intros H o; [done|]. cbn [existsb child_at] in *.
    destruct (node_named name (tree_name c)); [by eexists _, _|]. by apply IH. }
  destruct Hc as (o & c & Hc). by apply (add_subnode_exists E fuel Hfuel Et Hok name o c); [apply short_name_fits|].
Qed.

End Steps.

(** ** What the reserved-memory fixup makes of the tree *)

Definition reg_value (na ns addr size : Z) : list Z :=
  (if 1 <? na then be32 (u32 (addr / 2 ^ 32)) else []) ++ be32 (u32 addr) ++
  (if 1 <? ns then be32 (u32 (size / 2 ^ 32)) else []) ++ be32 (u32 size).

(** The properties of a region's node, and the strings block. *)
Definition resv_attrs (strings : list Z) (na ns : Z) (no_map : bool) (reg : sbi_domain_memregion) : list token * list Z :=
  let r := if no_map then set_attr strings (chars "no-map") [] [] else ([], strings) in
  set_attr (snd r) (chars "reg") (reg_value na ns (reg_base reg) (shl64 1 (reg_order reg))) (fst r).

(** No flag lets the supervisor use the region, and it is not a device. *)
Definition hidden (reg : sbi_domain_memregion) : bool :=
  Z.land (reg_flags reg) (Z.lor SBI_DOMAIN_MEMREGION_MMIO (Z.lor SBI_DOMAIN_MEMREGION_READABLE
    (Z.lor SBI_DOMAIN_MEMREGION_WRITEABLE SBI_DOMAIN_MEMREGION_EXECUTABLE))) =? 0.

Lemma truthy_lor a b : truthy (Z.lor a b) = truthy a || truthy b.
Proof. unfold truthy. rewrite <- negb_andb. f_equal. apply eq_iff_eq_true. rewrite andb_true_iff, !Z.eqb_eq. apply Z.lor_eq_0_iff. Qed.

Lemma firmware_only_spec reg : firmware_only reg = hidden reg.
Proof.
  unfold hidden, firmware_only. rewrite !Z.land_lor_distr_r.
  match goal with |- _ = (?x =? 0) => replace (x =? 0) with (negb (truthy x)) by (by unfold truthy; rewrite negb_involutive) end.
  by rewrite !truthy_lor, !negb_orb, !andb_assoc.
Qed.

(** A node for the region, unless there is one of the name. *)
Definition add_region (na ns : Z) (no_map : bool) (index : Z) (reg : sbi_domain_memregion) (ts : tree * list Z) : tree * list Z :=
  let name := resv_name na index (reg_base reg) in
  if existsb (λ c, node_named name (tree_name c)) (tree_children (fst ts)) then ts
  else let r := resv_attrs (snd ts) na ns no_map reg in (add_child (Node name (fst r) []) (fst ts), snd r).

Fixpoint add_regions (na ns : Z) (no_map : bool) (index : Z) (regs : list sbi_domain_memregion) (ts : tree * list Z) : tree * list Z :=
  match regs with
  | [] => ts
  | reg :: regs' =>
      if hidden reg then add_regions na ns no_map (index + 1) regs' (add_region na ns no_map index reg ts)
      else add_regions na ns no_map index regs' ts
  end.

Lemma set_attr_attrs strings name value attrs : forallb is_attr attrs = true -> forallb is_attr (fst (set_attr strings name value attrs)) = true.
Proof.
  intros Ha. unfold set_attr. destruct (split_attr strings name attrs) as [[[a1 [off v]] a2]|] eqn:Es; cbn [fst].
  - destruct (split_attr_app _ _ _ _ _ _ _ Es) as (-> & _ & _). rewrite forallb_app in *. done.
  - by destruct (intern name strings).
Qed.

Lemma resv_attrs_ok strings na ns no_map reg :
  forallb is_attr (fst (resv_attrs strings na ns no_map reg)) = true /\ grows strings (snd (resv_attrs strings na ns no_map reg)).
Proof.
  unfold resv_attrs. cbv zeta. destruct no_map; cbn [fst snd].
  - split; [by repeat apply set_attr_attrs|]. etransitivity; apply set_attr_grows.
  - split; [by apply set_attr_attrs|apply set_attr_grows].
Qed.

Lemma add_region_ok na ns no_map index reg ts : tree_ok (fst ts) = true ->
  tree_ok (fst (add_region na ns no_map index reg ts)) = true /\ grows (snd ts) (snd (add_region na ns no_map index reg ts)).
Proof.
  intros Hok. unfold add_region. cbv zeta. case_if; [done|]. destruct (resv_attrs_ok (snd ts) na ns no_map reg) as [H1 H2].
  cbn [fst snd]. split; [|done]. rewrite tree_ok_node. cbn [add_child tree_attrs tree_children forallb]. rewrite (tree_ok_node (Node _ _ _)).
  cbn [tree_attrs tree_children forallb]. by rewrite H1, (attrs_ok _ Hok), (children_ok _ Hok).
Qed.

Lemma be32_bytes v : Forall is_byte (be32 v).
Proof.
  unfold be32. repeat constructor; unfold is_byte; apply Z.mod_pos_bound; lia.
Qed.

Lemma reg_value_fits na ns addr size : 1 <= na <= 2 -> 1 <= ns <= 2 ->
  value_fits (reg_value na ns addr size) /\ Z.of_nat (length (reg_value na ns addr size)) = (na + ns) * 4.
Proof.
  intros Hna Hns. assert (L : Z.of_nat (length (reg_value na ns addr size)) = (na + ns) * 4).
  { unfold reg_value. rewrite !length_app, !be32_length. destruct (Z.ltb_spec 1 na), (Z.ltb_spec 1 ns); rewrite ?be32_length; cbn [length]; lia. }
  split; [|done]. split; [|rewrite L; split; [rewrite <- (Z.add_0_l (_ * 4)), Z_mod_plus_full; done|lia]].
  unfold reg_value. repeat apply Forall_app_2; try case_if; first [by apply Forall_nil|apply be32_bytes].
Qed.

(** The root around a node. *)
Definition root_with (rn : list Z) (ra : list token) (l1 l2 : list tree) (t : tree) : tree := Node rn ra (l1 ++ t :: l2).
Definition root_pre (rn : list Z) (ra : list token) (l1 : list tree) : list token := BeginNode rn :: ra ++ flat_all l1.
Definition root_post (l2 : list tree) : list token := flat_all l2 ++ [EndNode].

Lemma flat_root_with rn ra l1 l2 t : flat (root_with rn ra l1 l2 t) = root_pre rn ra l1 ++ flat t ++ root_post l2.
Proof.
  rewrite flat_node. unfold header, root_with, root_pre, root_post. cbn [tree_name tree_attrs tree_children].
  rewrite flat_all_app, flat_all_cons. cbn [app]. by rewrite <- !app_assoc.
Qed.

Lemma flat_add_child pre c t post :
  pre ++ flat (add_child c t) ++ post = (pre ++ header t) ++ flat c ++ (flat_all (tree_children t) ++ EndNode :: post).
Proof.
  rewrite flat_node. unfold header. cbn [add_child tree_name tree_attrs tree_children]. rewrite flat_all_cons.
  cbn [app]. rewrite <- !app_assoc. cbn [app]. by rewrite <- ?app_assoc.
Qed.

Lemma address_cells_same strings strings' t t' : tree_attrs t' = tree_attrs t -> named strings (tree_attrs t) -> grows strings strings' ->
  address_cells strings' t' = address_cells strings t /\ size_cells strings' t' = size_cells strings t.
Proof.
  intros Ea Hn Hg. unfold address_cells, size_cells, cells_of. rewrite Ea, !(attr_value_named strings strings') by done. done.
Qed.

Section Regions.
Context (env : fixup_env) (Henv : env_ok env) (fuel : nat) (addr : Z).
Context (rn : list Z) (ra : list token) (l1 l2 : list tree) (na ns : Z) (Hna : 1 <= na <= 2) (Hns : 1 <= ns <= 2).

#[local] Notation "'rooted'" := (root_with rn ra l1 l2).

(** A blob with the node [t] under the root. *)
Record under_root (ly : layout) (t : tree) : Prop := {
  ur_editable : editable addr ly (flat (rooted t));
  ur_ok : tree_ok (rooted t) = true;
  ur_fuel : ly_total ly < Z.of_nat fuel;
  ur_named : named (ly_strings ly) ra;
  ur_na : address_cells (ly_strings ly) (rooted t) = na;
  ur_ns : size_cells (ly_strings ly) (rooted t) = ns;
}.

Lemma rooted_ok t t' : tree_ok (rooted t) = true -> tree_ok t' = true -> tree_ok (rooted t') = true.
Proof.
  unfold root_with. intros H H'. rewrite tree_ok_node in H |- *. cbn [tree_attrs tree_children] in *.
  rewrite forallb_app in H |- *. cbn [forallb] in *. rewrite H'. revert H. by destruct (forallb is_attr ra), (forallb tree_ok l1), (forallb tree_ok l2), (tree_ok t).
Qed.

Lemma child_ok t : tree_ok (rooted t) = true -> tree_ok t = true.
Proof.
  unfold root_with. rewrite tree_ok_node. cbn [tree_attrs tree_children]. rewrite forallb_app. cbn [forallb].
  by destruct (forallb is_attr ra), (forallb tree_ok l1), (tree_ok t).
Qed.

Lemma under_root_after ly ly' t t' : under_root ly t -> tree_ok t' = true -> grows (ly_strings ly) (ly_strings ly') ->
  after_edit addr ly ly' (flat (rooted t')) (ly_strings ly') -> under_root ly' t'.
Proof.
  intros [E Ho Hf Hn H1 H2] Hok Hg [E' _ Ht _ _ _].
  destruct (address_cells_same (ly_strings ly) (ly_strings ly') (rooted t) (rooted t') eq_refl Hn Hg) as [A1 A2].
  split; [done|by eapply rooted_ok|by rewrite Ht|by eapply named_grows|congruence|congruence].
Qed.

(** The node of a region: what its properties cost. *)
Lemma resv_props_run ly tokens p c q (no_map : bool) reg :
  editable addr ly tokens -> ly_total ly < Z.of_nat fuel -> tokens = p ++ flat c ++ q -> tree_ok c = true -> tree_attrs c = [] -> 51 <= free ly ->
  succeeds addr ly
    ((err <- (if no_map then fdt_setprop_empty fuel (size_of p) (lit "no-map") else ret 0) ;;
     if err <? 0 then ret err
     else
       err <- fdt_setprop fuel (size_of p) (lit "reg")
         (overwrite 0 (reg_value na ns (reg_base reg) (shl64 1 (reg_order reg))) (fx_reg env)) (s32 ((na + ns) * 4)) ;;
       if err <? 0 then ret err else ret 0)%sbi : M dtb Z) 0 51
    (p ++ flat (with_attrs (fst (resv_attrs (ly_strings ly) na ns no_map reg)) c) ++ q) (snd (resv_attrs (ly_strings ly) na ns no_map reg)).
Proof.
  intros E Hf Et Hok Ha Hfree. set (value := reg_value _ _ _ _). destruct (reg_value_fits na ns (reg_base reg) (shl64 1 (reg_order reg)) Hna Hns) as [Hv Lv].
  fold value in Hv, Lv. rewrite s32_small, <- Lv by lia.
  replace 51 with (19 + (32 + 0)) by lia. eapply (succeeds_bind _ _ _ _ 0 _ _ _
    (p ++ flat (with_attrs (fst (if no_map then set_attr (ly_strings ly) (chars "no-map") [] [] else ([], ly_strings ly))) c) ++ q)
    (snd (if no_map then set_attr (ly_strings ly) (chars "no-map") [] [] else ([], ly_strings ly)))).
  - destruct no_map; cbn [fst snd].
    + assert (H := setprop_succeeds E fuel Hf Et Hok (chars "no-map") [] [] ltac:(by apply chars_nonzero; repeat constructor) ltac:(cbn; lia)
        ltac:(split; [constructor|done]) ltac:(cbn; lia)). rewrite Ha in H. exact H.
    + assert (Hc : with_attrs [] c = c) by (destruct c; cbn in Ha; by subst). rewrite Hc, <- Et.
      eapply succeeds_weaken; [by apply succeeds_ret|lia].
  - intros ly1 A1 F1. change (0 <? 0) with false. cbv iota. destruct A1 as [E1 S1 T1 _ _ _]. unfold resv_attrs. cbv zeta. fold value. rewrite <- S1.
    set (attrs1 := fst _) in *. set (c1 := with_attrs attrs1 c) in *.
    assert (Hok1 : tree_ok c1 = true).
    { rewrite tree_ok_node. cbn [c1 with_attrs tree_attrs tree_children]. rewrite (children_ok _ Hok), andb_true_r.
      subst attrs1. destruct no_map; [by apply set_attr_attrs|done]. }
    assert (Hs := setprop_succeeds E1 fuel ltac:(by rewrite T1) eq_refl Hok1 (chars "reg") value
      (drop (length value) (fx_reg env)) ltac:(by apply chars_nonzero; repeat constructor) ltac:(cbn; lia) Hv ltac:(cbn [length chars]; change (length (chars "reg")) with 3%nat; lia)).
    cbv zeta in Hs. eapply succeeds_bind; [eapply succeeds_weaken; [exact Hs|change (length (chars "reg")) with 3%nat; lia]|].
    intros ly2 A2 F2. change (0 <? 0) with false. cbv iota.
    destruct A2 as [E2 S2 _ _ _ _]. assert (R := succeeds_ret addr ly2 _ 0 E2). rewrite S2 in R. exact R.
Qed.

Lemma update_node_run ly t index reg (no_map : bool) :
  under_root ly t -> 0 <= index < 10 -> 92 <= free ly ->
  let ts := add_region na ns no_map index reg (t, ly_strings ly) in
  exists r, succeeds addr ly
    (fdt_resv_memory_update_node fuel env (reg_base reg) (shl64 1 (reg_order reg)) index (size_of (root_pre rn ra l1)) no_map)
    r 92 (flat (rooted (fst ts))) (snd ts).
Proof.
  intros [E Ho Hf Hn H1 H2] Hi Hfree ts. assert (Hok := child_ok _ Ho). assert (B := editable_blob E).
  assert (Et := flat_root_with rn ra l1 l2 t). destruct (resv_name_range na index (reg_base reg) Hi) as [P L].
  assert (R1 := reads_address_cells B fuel Hf 0 (rooted t) (root_at Ho)). rewrite H1 in R1.
  assert (R2 := reads_size_cells B fuel Hf 0 (rooted t) (root_at Ho)). rewrite H2 in R2.
  assert (R3 : reads (blob_of addr ly) _ _) by exact (resv_name_run env na index (reg_base reg) (blob_of addr ly) Henv Hi).
  unfold fdt_resv_memory_update_node. subst ts. unfold add_region. cbv zeta. cbn [fst snd].
  destruct (existsb _ _) eqn:Ex.
  - exists (- FDT_ERR_EXISTS). cbn [fst snd]. do 2 (eapply succeeds_reads; [eassumption|]). cbv zeta.
    eapply succeeds_reads; [exact R3|]. eapply succeeds_reads.
    { exact (add_subnode_refused E fuel Hf Et Hok _ P ltac:(lia) Ex). }
    change (- FDT_ERR_EXISTS <? 0) with true. cbv iota. eapply succeeds_weaken; [by apply succeeds_ret|lia].
  - exists 0. cbn [fst snd]. do 2 (eapply succeeds_reads; [eassumption|]). cbv zeta. eapply succeeds_reads; [exact R3|].
    assert (Ha := add_subnode_succeeds E fuel Hf Et Hok _ P ltac:(lia) ltac:(lia) Ex).
    replace 92 with (41 + 51) by lia. eapply succeeds_bind; [eapply succeeds_weaken; [exact Ha|lia]|].
    intros ly1 A1 F1. unfold children_offset. rewrite <- size_of_app, (proj2 (Z.ltb_ge _ 0)) by apply size_of_nonneg.
    destruct A1 as [E1 S1 T1 _ _ _].
    assert (Hp := resv_props_run ly1 _ _ (Node (resv_name na index (reg_base reg)) [] []) _ no_map reg E1 ltac:(by rewrite T1)
      (flat_add_child (root_pre rn ra l1) _ t (root_post l2)) eq_refl eq_refl ltac:(lia)).
    rewrite S1 in Hp. rewrite flat_root_with, flat_add_child. exact Hp.
Qed.

Definition region_count (regs : list sbi_domain_memregion) : Z := Z.of_nat (length (List.filter hidden regs)).

Lemma regions_run regs : forall ly t index,
  under_root ly t -> 0 <= index -> index + region_count regs <= 10 -> 92 * region_count regs <= free ly ->
  let ts := add_regions na ns (negb (truthy (pmp_count (fx_features env)))) index regs (t, ly_strings ly) in
  succeeds addr ly (resv_regions_loop fuel env regs index (size_of (root_pre rn ra l1))) tt (92 * region_count regs)
    (flat (rooted (fst ts))) (snd ts).
Proof.
  unfold region_count. induction regs as [|reg regs IH]; intros ly t index U Hi Hc Hfree; cbn [resv_regions_loop add_regions List.filter] in *.
  - destruct U. by apply succeeds_ret.
  - rewrite firmware_only_spec. destruct (hidden reg); [|by apply IH]. cbn [length] in *.
    destruct (update_node_run ly t index reg (negb (truthy (pmp_count (fx_features env)))) U ltac:(lia) ltac:(lia)) as [r Hr].
    set (ts1 := add_region _ _ _ _ _ _) in *. destruct (add_region_ok na ns (negb (truthy (pmp_count (fx_features env)))) index reg (t, ly_strings ly)
      (child_ok _ (ur_ok _ _ U))) as [Hok Hg]. fold ts1 in Hok, Hg.
    match goal with |- context [92 * Z.of_nat (S ?k)] => replace (92 * Z.of_nat (S k)) with (92 + 92 * Z.of_nat k) by lia end.
    eapply succeeds_bind; [exact Hr|]. intros ly1 A1 F1.
    assert (S1 := ae_strings _ _ _ _ _ A1).
    assert (U1 : under_root ly1 (fst ts1)) by (apply (under_root_after ly ly1 t); [done|done|by rewrite S1|by rewrite S1]).
    assert (Hx := IH ly1 (fst ts1) (index + 1) U1 ltac:(lia) ltac:(lia) ltac:(lia)). rewrite S1 in Hx.
    destruct ts1 as [t1 s1]. exact Hx.
Qed.
End Regions.

(** The first child that satisfies [p], and its siblings. *)
Fixpoint split_child (p : list Z → bool) (l : list tree) : option (list tree * tree * list tree) :=
  match l with
  | [] => None
  | t :: l' => if p (tree_name t) then Some ([], t, l') else (λ r, (t :: fst (fst r), snd (fst r), snd r)) <$> split_child p l'
  end.

Lemma split_child_at p l : forall o,
  match split_child p l with
  | Some (l1, t, l2) => l = l1 ++ t :: l2 /\ child_at p o l = Some (o + size_of (flat_all l1), t)
  | None => child_at p o l = None /\ existsb (λ c, p (tree_name c)) l = false
  end.
Proof.
  induction l as [|t l IH]; intros o; cbn [split_child child_at existsb]; [done|].
  destruct (p (tree_name t)); [split; [done|]; change (size_of (flat_all [])) with 0; by rewrite Z.add_0_r|].
  specialize (IH (o + size_of (flat t))). destruct (split_child p l) as [[[l1 c] l2]|]; [|exact IH].
  cbn [fmap option_fmap option_map fst snd] in *. destruct IH as [-> ->]. split; [done|].
  rewrite flat_all_cons, size_of_app. do 2 f_equal. lia.
Qed.

(** The node /reserved-memory, when there is none yet. *)
Definition new_reserved (strings : list Z) (na ns : Z) : tree * list Z :=
  let r1 := set_attr strings (chars "ranges") [] [] in
  let r2 := set_attr (snd r1) (chars "#size-cells") (be32 (u32 ns)) (fst r1) in
  let r3 := set_attr (snd r2) (chars "#address-cells") (be32 (u32 na)) (fst r2) in
  (Node (chars "reserved-memory") (fst r3) [], snd r3).

(** The node and its siblings before and after. *)
Definition find_reserved (strings : list Z) (root : tree) : list tree * (tree * list Z) * list tree :=
  match split_child (node_named (chars "reserved-memory")) (tree_children root) with
  | Some (l1, t, l2) => (l1, (t, strings), l2)
  | None => ([], new_reserved strings (address_cells strings root) (size_cells strings root), tree_children root)
  end.

(** The tree with a node for every region that only the firmware may use. *)
Definition reserve_regions (strings : list Z) (no_map : bool) (regs : list sbi_domain_memregion) (root : tree) : tree * list Z :=
  let '(l1, ts, l2) := find_reserved strings root in
  let ts' := add_regions (address_cells strings root) (size_cells strings root) no_map 0 regs ts in
  (root_with (tree_name root) (tree_attrs root) l1 l2 (fst ts'), snd ts').

Lemma cell_fits v : value_fits (be32 v) /\ Z.of_nat (length (be32 v)) = 4.
Proof. rewrite be32_length. split; [|done]. split; [apply be32_bytes|]. by rewrite be32_length. Qed.

Lemma new_reserved_ok strings na ns : tree_ok (fst (new_reserved strings na ns)) = true /\ grows strings (snd (new_reserved strings na ns)).
Proof.
  unfold new_reserved. cbv zeta. cbn [fst snd]. split.
  - rewrite tree_ok_node. cbn [tree_attrs tree_children forallb]. rewrite andb_true_r. by repeat apply set_attr_attrs.
  - repeat (etransitivity; [|apply set_attr_grows]). reflexivity.
Qed.

Ltac constant_name := by apply chars_nonzero; repeat constructor.

Section Reserved.
Context (fuel : nat) (addr : Z).

(** One property of the new node. *)
Lemma prop_step ly tokens p c q str value (k : M dtb (Z + Z)) a cost tokens' strings' :
  editable addr ly tokens -> ly_total ly < Z.of_nat fuel -> tokens = p ++ flat c ++ q -> tree_ok c = true ->
  nonzero (chars str) -> (length (chars str) <= 36)%nat -> value_fits value ->
  13 + Z.of_nat (length value) + Z.of_nat (length (chars str)) <= free ly ->
  let r := set_attr (ly_strings ly) (chars str) value (tree_attrs c) in
  (forall ly1, editable addr ly1 (p ++ flat (with_attrs (fst r) c) ++ q) -> ly_strings ly1 = snd r -> ly_total ly1 = ly_total ly ->
     free ly - (13 + Z.of_nat (length value) + Z.of_nat (length (chars str))) <= free ly1 ->
     tree_ok (with_attrs (fst r) c) = true -> succeeds addr ly1 k a cost tokens' strings') ->
  succeeds addr ly (err <- fdt_setprop fuel (size_of p) (lit str) value (Z.of_nat (length value)) ;; if err <? 0 then ret (inr err) else k)%sbi
    a (13 + Z.of_nat (length value) + Z.of_nat (length (chars str)) + cost) tokens' strings'.
Proof.
  intros E Hf Et Hok Hz Hl Hv Hfree r Hk. assert (H := setprop_succeeds E fuel Hf Et Hok (chars str) value [] Hz Hl Hv Hfree).
  cbv zeta in H. fold r in H. rewrite app_nil_r in H. eapply succeeds_bind; [exact H|]. intros ly1 [E1 S1 T1 _ _ _] F1.
  change (0 <? 0) with false. cbv iota. apply Hk; [done|done|done|done|]. rewrite tree_ok_node. cbn [with_attrs tree_attrs tree_children].
  rewrite (children_ok _ Hok), andb_true_r. by apply set_attr_attrs, attrs_ok.
Qed.

Lemma resv_parent_run ly root na ns :
  editable addr ly (flat root) -> ly_total ly < Z.of_nat fuel -> tree_ok root = true ->
  address_cells (ly_strings ly) root = na -> size_cells (ly_strings ly) root = ns -> 105 <= free ly ->
  let '(l1, ts, l2) := find_reserved (ly_strings ly) root in
  succeeds addr ly (resv_parent fuel na ns) (inl (size_of (root_pre (tree_name root) (tree_attrs root) l1))) 105
    (flat (root_with (tree_name root) (tree_attrs root) l1 l2 (fst ts))) (snd ts).
Proof.
  intros E Hf Hok Hna Hns Hfree. assert (B := editable_blob E). assert (Hr := ly_range (ed_ok _ _ _ E)).
  assert (R : reads (blob_of addr ly) (fdt_path_offset fuel (lit "/reserved-memory")) (offset_of (resolve 0 root [chars "reserved-memory"]))).
  { apply (reads_path_offset B fuel Hf root [chars "reserved-memory"] eq_refl Hok); [done| |cbn; lia].
    apply Forall_singleton. split; [done|]. apply (bool_decide_unpack _). vm_compute. exact I. }
  cbn [resolve] in R. unfold find_reserved, resv_parent. rewrite Hna, Hns.
  assert (S := split_child_at (node_named (chars "reserved-memory")) (tree_children root) (children_offset 0 root)).
  destruct (split_child _ _) as [[[l1 t] l2]|].
  - destruct S as [Ec Hc]. rewrite Hc in R. cbn [offset_of fst snd] in *. eapply succeeds_reads; [exact R|].
    assert (Eo : children_offset 0 root + size_of (flat_all l1) = size_of (root_pre (tree_name root) (tree_attrs root) l1)).
    { unfold children_offset, root_pre, header. rewrite Z.add_0_l, <- size_of_app. done. }
    rewrite Eo, (proj2 (Z.leb_le 0 _)) by apply size_of_nonneg.
    assert (Er : root_with (tree_name root) (tree_attrs root) l1 l2 t = root) by (destruct root; unfold root_with; cbn in *; by subst).
    rewrite Er. eapply succeeds_weaken; [by apply succeeds_ret|lia].
  - destruct S as [Hc Hx]. rewrite Hc in R. cbn [offset_of fst snd] in *. eapply succeeds_reads; [exact R|].
    change (0 <=? - FDT_ERR_NOTFOUND) with false. cbv iota.
    assert (Ha := add_subnode_succeeds E fuel Hf (pre := []) (post := []) ltac:(by rewrite app_nil_r) Hok (chars "reserved-memory")
      ltac:(apply (bool_decide_unpack _); vm_compute; exact I) ltac:(cbn; lia) ltac:(cbn; lia) Hx).
    change (Z.of_nat (length (chars "reserved-memory")) + 12) with 27 in Ha.
    replace 105 with (27 + (19 + (28 + (31 + 0)))) by lia. eapply succeeds_bind; [exact Ha|]. intros ly1 [E1 S1 T1 _ _ _] F1.
    change (size_of []) with 0. assert (Eo : children_offset 0 root = size_of (root_pre (tree_name root) (tree_attrs root) [])).
    { unfold children_offset, root_pre, header. change (flat_all []) with (@nil token). by rewrite app_nil_r. }
    rewrite Eo, (proj2 (Z.ltb_ge _ 0)) by apply size_of_nonneg. unfold new_reserved. cbv zeta. rewrite <- S1.
    rewrite app_nil_r in E1. change (flat (add_child ?c root)) with (flat (root_with (tree_name root) (tree_attrs root) [] (tree_children root) c)) in E1.
    rewrite flat_root_with in E1.
    eapply (prop_step ly1 _ _ _ _ "ranges" [] _ _ (28 + (31 + 0)) _ _ E1); [by rewrite T1|done|done|constant_name|cbn; lia|split; [constructor|done]|cbn; lia|].
    cbn [tree_attrs]. intros ly2 E2 S2 T2 F2 Hok2. rewrite <- S2.
    change 28 with (13 + Z.of_nat (length (be32 (u32 ns))) + Z.of_nat (length (chars "#size-cells"))).
    eapply (prop_step ly2 _ _ _ _ "#size-cells" (be32 (u32 ns)) _ _ (31 + 0) _ _ E2); [by rewrite T2, T1|done|done|constant_name|cbn; lia|apply cell_fits| |].
    { change (length (chars "ranges")) with 6%nat in F2. change (length (chars "#size-cells")) with 11%nat. cbn [length] in F2. rewrite be32_length. lia. }
    cbn [with_attrs tree_attrs]. intros ly3 E3 S3 T3 F3 Hok3. rewrite <- S3.
    change 31 with (13 + Z.of_nat (length (be32 (u32 na))) + Z.of_nat (length (chars "#address-cells"))).
    eapply (prop_step ly3 _ _ _ _ "#address-cells" (be32 (u32 na)) _ _ 0 _ _ E3); [by rewrite T3, T2, T1|done|done|constant_name|cbn; lia|apply cell_fits| |].
    { change (length (chars "ranges")) with 6%nat in F2. change (length (chars "#size-cells")) with 11%nat in F3.
      change (length (chars "#address-cells")) with 14%nat. cbn [length] in F2. rewrite be32_length in F3 |- *. lia. }
    cbn [with_attrs tree_attrs]. intros ly4 E4 S4 T4 F4 Hok4. rewrite <- S4, flat_root_with. by apply succeeds_ret.
Qed.
End Reserved.

(** ** The whole fixup *)

(** The blob after its growth by 1024 bytes. *)
Definition grown (ly : layout) : layout := with_slack (ly_slack ly ++ take 1024 (ly_beyond ly)) (drop 1024 (ly_beyond ly)) ly.

(** What the fixup relies on: cells of one or two words, memory for the growth,
    a domain for the hart. *)
Record reservable (fuel : nat) (env : fixup_env) (addr : Z) (ly : layout) (root : tree) (dom : sbi_domain) : Prop := {
  rv_editable : editable addr ly (flat root);
  rv_ok : tree_ok root = true;
  rv_named : named (ly_strings ly) (tree_attrs root);
  rv_na : 1 <= address_cells (ly_strings ly) root <= 2;
  rv_ns : 1 <= size_cells (ly_strings ly) root <= 2;
  rv_beyond : 1024 <= Z.of_nat (length (ly_beyond ly));
  rv_total : ly_total ly + 1024 < INT_MAX;
  rv_fuel : ly_total ly + 1024 < Z.of_nat fuel;
  rv_env : env_ok env;
  rv_dom : sbi_domain_thishart_ptr env ≫= (λ p, domains (fx_domains env) !! p) = Some dom;
}.

Lemma grown_total ly : 1024 <= Z.of_nat (length (ly_beyond ly)) -> ly_total (grown ly) = ly_total ly + 1024.
Proof.
  intros H. unfold grown, ly_total, ly_data, ly_dn, ly_ds. cbn [with_slack ly_rsv ly_struct ly_strings ly_slack].
  rewrite length_app, length_take. lia.
Qed.

Lemma grown_editable addr ly tokens : editable addr ly tokens -> 1024 <= Z.of_nat (length (ly_beyond ly)) ->
  ly_total ly + 1024 < INT_MAX -> editable addr (grown ly) tokens.
Proof.
  intros [[H1 H2 H3 H4] Es Ht] Hb Hm. split; [|done|done]. split; [done|by rewrite grown_total|done|done].
Qed.

Lemma find_reserved_ok strings root : tree_ok root = true ->
  let '(l1, ts, l2) := find_reserved strings root in
  tree_ok (root_with (tree_name root) (tree_attrs root) l1 l2 (fst ts)) = true /\ grows strings (snd ts).
Proof.
  intros Hok. assert (Ha := attrs_ok _ Hok). assert (Hc := children_ok _ Hok). unfold find_reserved.
  assert (S := split_child_at (node_named (chars "reserved-memory")) (tree_children root) 0).
  destruct (split_child _ _) as [[[l1 t] l2]|]; cbn [fst snd]; unfold root_with; rewrite tree_ok_node; cbn [tree_attrs tree_children app].
  - destruct S as [<- _]. by rewrite Ha, Hc.
  - destruct (new_reserved_ok strings (address_cells strings root) (size_cells strings root)) as [H1 H2].
    cbn [forallb]. by rewrite Ha, Hc, H1.
Qed.

Lemma reserved_memory_run fuel env addr ly root dom :
  reservable fuel env addr ly root dom ->
  let regs := memregions (dom_regions (fx_domains env) dom) in
  region_count regs <= 9 ->
  let r := reserve_regions (ly_strings ly) (negb (truthy (pmp_count (fx_features env)))) regs root in
  exists ly', fdt_reserved_memory_fixup fuel env (blob_of addr ly) = (Ret 0, blob_of addr ly') /\
    after_edit addr (grown ly) ly' (flat (fst r)) (snd r) /\
    free ly + 1024 - (105 + 92 * region_count regs) <= free ly'.
Proof.
  intros [E Hok Hn Hna Hns Hb Hm Hf Henv Hd] regs Hc r. assert (B := editable_blob E).
  assert (Hf0 : ly_total ly < Z.of_nat fuel) by lia.
  assert (R1 := reads_address_cells B fuel Hf0 0 root (root_at Hok)). assert (R2 := reads_size_cells B fuel Hf0 0 root (root_at Hok)).
  assert (Hr := ly_range (ed_ok _ _ _ E)).
  assert (Lt : Z.of_nat (length (take 1024 (ly_beyond ly))) = 1024) by (rewrite length_take; lia).
  assert (Ro := open_into_run (ed_ok _ _ _ E) fuel Hf0 (take 1024 (ly_beyond ly)) (drop 1024 (ly_beyond ly)) ltac:(by rewrite take_drop) ltac:(lia)).
  rewrite Lt in Ro. change (with_slack _ _ ly) with (grown ly) in Ro.
  assert (Eg := grown_editable addr ly _ E Hb Hm). assert (Tg := grown_total ly Hb).
  assert (Fg : free (grown ly) = free ly + 1024) by (unfold free, grown; cbn [with_slack ly_slack]; rewrite length_app; lia).
  unfold fdt_reserved_memory_fixup. rewrite (reads_bind_eq _ _ _ _ R1), (reads_bind_eq _ _ _ _ R2).
  rewrite (reads_bind_eq _ _ _ _ (ly_reads_totalsize (ed_ok _ _ _ E))), s32_small by (unfold INT_MAX in Hm; lia).
  rewrite (bind_Ret _ _ _ _ _ Ro). change (0 <? 0) with false. cbv iota.
  assert (Hx : succeeds addr (grown ly)
    ((r <- resv_parent fuel (address_cells (ly_strings ly) root) (size_cells (ly_strings ly) root) ;;
      match r with
      | inr err => ret err
      | inl parent =>
          match sbi_domain_thishart_ptr env ≫= λ p, domains (fx_domains env) !! p with
          | None => stop wild_access
          | Some dom => resv_regions_loop fuel env (memregions (dom_regions (fx_domains env) dom)) 0 parent ;;; ret 0
          end
      end)%sbi : M dtb Z) 0 (105 + (92 * region_count regs + 0)) (flat (fst r)) (snd r)).
  { assert (Hp := resv_parent_run fuel addr (grown ly) root _ _ Eg ltac:(lia) Hok eq_refl eq_refl ltac:(rewrite Fg; unfold free; lia)).
    change (ly_strings (grown ly)) with (ly_strings ly) in Hp. subst r. unfold reserve_regions.
    assert (Hfo := find_reserved_ok (ly_strings ly) root Hok). destruct (find_reserved (ly_strings ly) root) as [[l1 ts] l2]. cbn [fst snd].
    destruct Hfo as [Hok1 Hg]. eapply succeeds_bind; [exact Hp|]. intros ly1 A1 F1. rewrite Hd. fold regs.
    assert (S1 := ae_strings _ _ _ _ _ A1).
    destruct (address_cells_same (ly_strings ly) (ly_strings ly1) root (root_with (tree_name root) (tree_attrs root) l1 l2 (fst ts)) eq_refl Hn ltac:(by rewrite S1)) as [C1 C2].
    assert (U : under_root fuel addr (tree_name root) (tree_attrs root) l1 l2 (address_cells (ly_strings ly) root) (size_cells (ly_strings ly) root) ly1 (fst ts)).
    { split; [apply A1|done|rewrite (ae_total _ _ _ _ _ A1); lia|apply (named_grows (ly_strings ly)); [done|by rewrite S1]|done|done]. }
    assert (Hl := regions_run env Henv fuel addr _ _ l1 l2 _ _ Hna Hns regs ly1 (fst ts) 0 U ltac:(lia) ltac:(lia) ltac:(unfold free in *; lia)).
    rewrite S1 in Hl. replace (fst ts, snd ts) with ts in Hl by (by destruct ts).
    eapply succeeds_bind; [exact Hl|]. intros ly2 A2 _. assert (Hret := succeeds_ret addr ly2 _ 0 (ae_editable _ _ _ _ _ A2)).
    rewrite (ae_strings _ _ _ _ _ A2) in Hret. exact Hret. }
  destruct Hx as (ly' & R & HA & F). exists ly'. split; [exact R|]. split; [exact HA|lia].
Qed.

(** ** What the supervisor reads there *)

(** The node of the region, with its base and size. *)
Definition lists_region (strings : list Z) (na ns : Z) (no_map : bool) (index : Z) (reg : sbi_domain_memregion) (c : tree) : Prop :=
  tree_name c = resv_name na index (reg_base reg) /\ named strings (tree_attrs c) /\
  attr_value strings (chars "reg") (tree_attrs c) = Some (reg_value na ns (reg_base reg) (shl64 1 (reg_order reg))) /\
  attr_value strings (chars "no-map") (tree_attrs c) = (if no_map then Some [] else None).

Lemma lists_region_grows strings strings' na ns no_map index reg c : grows strings strings' ->
  lists_region strings na ns no_map index reg c -> lists_region strings' na ns no_map index reg c.
Proof.
  intros Hg (H1 & H2 & H3 & H4). split; [done|]. split; [by eapply named_grows|].
  rewrite !(attr_value_named strings strings') by done. done.
Qed.

Lemma set_attr_named strings name value attrs : nonzero name -> named strings attrs ->
  named (snd (set_attr strings name value attrs)) (fst (set_attr strings name value attrs)).
Proof.
  intros Hz Hn. assert (Hg := set_attr_grows strings name value attrs). unfold set_attr in *.
  destruct (split_attr strings name attrs) as [[[a1 [off v]] a2]|] eqn:Es; cbn [fst snd].
  - destruct (split_attr_app _ _ _ _ _ _ _ Es) as (-> & _ & _). unfold named in *. apply Forall_app in Hn as [H1 H2].
    apply Forall_cons in H2 as [H2 H3]. apply Forall_app. split; [done|]. by apply Forall_cons.
  - assert (Hi := intern_names name strings Hz). destruct (intern name strings) as [off strings']. cbn [fst snd] in *.
    apply Forall_cons. split; [by eexists|]. by apply (named_grows strings).
Qed.

Lemma resv_attrs_list strings na ns no_map index reg :
  let r := resv_attrs strings na ns no_map reg in
  lists_region (snd r) na ns no_map index reg (Node (resv_name na index (reg_base reg)) (fst r) []).
Proof.
  assert (Zm : nonzero (chars "no-map")) by constant_name. assert (Zr : nonzero (chars "reg")) by constant_name.
  assert (Hne : chars "no-map" <> chars "reg") by (vm_compute; discriminate).
  unfold resv_attrs. cbv zeta. set (r1 := if no_map then _ else _). cbn [fst snd].
  assert (Hn : named (snd r1) (fst r1)).
  { subst r1. destruct no_map; [|constructor]. apply set_attr_named; [done|constructor]. }
  split; [done|]. cbn [tree_attrs]. split; [by apply set_attr_named|]. split; [by apply set_attr_value|].
  rewrite set_attr_other by done. subst r1. destruct no_map; [by apply set_attr_value|done].
Qed.

Lemma numeral_digit n b letbase k : 0 < k < b -> numeral (S (S n)) b letbase k = [digit_char letbase k].
Proof.
  intros H. cbn [numeral]. rewrite (proj2 (Z.eqb_neq k 0)), (Z.div_small k b), (Z.mod_small k b) by lia.
  rewrite Z.eqb_refl. done.
Qed.

Lemma resv_names_differ na i j a b : 0 <= i < 10 -> 0 <= j < 10 -> i <> j -> node_named (resv_name na i a) (resv_name na j b) = false.
Proof.
  intros Hi Hj Hne. unfold node_named. rewrite bool_decide_eq_false_2; [done|]. intros H.
  assert (Hd : forall k, 0 <= k < 10 -> exists d, decimal k = [d] /\ d = k + 48).
  { intros k Hk. unfold decimal, number_text. destruct (Z.eqb_spec k 0) as [->|Hk0]; [by eexists|].
    exists (k + 48). split; [|done]. rewrite (numeral_digit 62) by lia. unfold digit_char. rewrite (proj2 (Z.leb_gt 10 k)) by lia. change (chr "0") with 48. done. }
  destruct (Hd i Hi) as (di & Ei & ->). destruct (Hd j Hj) as (dj & Ej & ->). unfold resv_name in H. cbv zeta in H. rewrite Ei, Ej in H.
  apply (f_equal (λ l, l !! 10%nat)) in H. rewrite lookup_take_lt in H by (rewrite !length_app; cbn; lia).
  cbn in H. injection H. lia.
Qed.

(** No child has the name of a region's node yet. *)
Definition unlisted (na : Z) (t : tree) : Prop :=
  forall index base, 0 <= index < 10 -> existsb (λ c, node_named (resv_name na index base) (tree_name c)) (tree_children t) = false.

Lemma add_regions_list na ns no_map regs : forall index t strings,
  0 <= index -> index + region_count regs <= 10 ->
  (forall i base, index <= i < 10 -> existsb (λ c, node_named (resv_name na i base) (tree_name c)) (tree_children t) = false) ->
  let ts := add_regions na ns no_map index regs (t, strings) in
  grows strings (snd ts) /\ (forall c, In c (tree_children t) -> In c (tree_children (fst ts))) /\
  forall k reg, List.filter hidden regs !! k = Some reg ->
    exists c, In c (tree_children (fst ts)) /\ lists_region (snd ts) na ns no_map (index + Z.of_nat k) reg c.
Proof.
  unfold region_count. induction regs as [|reg regs IH]; intros index t strings Hi Hc Hu; cbn [add_regions List.filter] in *.
  - split; [reflexivity|]. split; [done|]. intros k reg H. by rewrite lookup_nil in H.
  - destruct (hidden reg) eqn:Ef; [|by apply IH]. cbn [length] in Hc.
    unfold add_region. cbv zeta. cbn [fst snd]. rewrite (Hu index (reg_base reg)) by lia.
    set (r := resv_attrs strings na ns no_map reg). set (c := Node (resv_name na index (reg_base reg)) (fst r) []).
    destruct (IH (index + 1) (add_child c t) (snd r) ltac:(lia) ltac:(lia)) as (G & K & L).
    { intros i base Hi'. cbn [add_child tree_children existsb]. rewrite (Hu i base) by lia. cbn [c tree_name].
      by rewrite resv_names_differ by lia. }
    split; [etransitivity; [|exact G]; apply resv_attrs_ok|]. split; [intros c' Hc'; apply K; by right|].
    intros [|k] reg' Hk; cbn in Hk.
    + injection Hk as <-. exists c. split; [apply K; by left|]. rewrite Z.add_0_r. eapply lists_region_grows; [exact G|]. apply resv_attrs_list.
    + destruct (L k reg' Hk) as (c' & Hin & Hl). exists c'. split; [done|]. by replace (index + Z.of_nat (S k)) with (index + 1 + Z.of_nat k) by lia.
Qed.

Lemma child_at_middle p l1 t l2 : existsb (λ c, p (tree_name c)) l1 = false -> p (tree_name t) = true ->
  forall o, child_at p o (l1 ++ t :: l2) = Some (o + size_of (flat_all l1), t).
Proof.
  intros H Ht. induction l1 as [|c l1 IH]; intros o; cbn [app child_at existsb] in *.
  - rewrite Ht. change (size_of (flat_all [])) with 0. by rewrite Z.add_0_r.
  - apply orb_false_iff in H as [-> H]. rewrite IH by done. rewrite flat_all_cons, size_of_app. do 2 f_equal. lia.
Qed.

Lemma split_child_first p l l1 t l2 : split_child p l = Some (l1, t, l2) -> existsb (λ c, p (tree_name c)) l1 = false /\ p (tree_name t) = true.
Proof.
  revert l1. induction l as [|c l IH]; intros l1; [done|]. cbn [split_child]. destruct (p (tree_name c)) eqn:Ep.
  - by intros [= <- <- <-].
  - destruct (split_child p l) as [[[b1 b] b2]|]; [|done]. cbn. intros [= <- <- <-]. destruct (IH b1 eq_refl) as [H1 H2].
    cbn [existsb]. by rewrite Ep, H1.
Qed.

Lemma add_regions_name na ns no_map regs index ts : tree_name (fst (add_regions na ns no_map index regs ts)) = tree_name (fst ts).
Proof.
  revert index ts. induction regs as [|reg regs IH]; intros index ts; [done|]. cbn [add_regions].
  destruct (hidden reg); [|apply IH]. rewrite IH. unfold add_region. cbv zeta. by case_if.
Qed.

(** The node /reserved-memory of the new tree and what is in it. *)
Lemma reserve_regions_list strings no_map regs root :
  region_count regs <= 10 ->
  (forall o t, resolve 0 root [chars "reserved-memory"] = Some (o, t) -> unlisted (address_cells strings root) t) ->
  let r := reserve_regions strings no_map regs root in
  exists o t, resolve 0 (fst r) [chars "reserved-memory"] = Some (o, t) /\
    forall k reg, List.filter hidden regs !! k = Some reg ->
      exists c, In c (tree_children t) /\
        lists_region (snd r) (address_cells strings root) (size_cells strings root) no_map (Z.of_nat k) reg c.
Proof.
  intros Hc Hu r. subst r. unfold reserve_regions. set (na := address_cells strings root) in *. set (ns := size_cells strings root) in *.
  assert (Hf : let '(l1, ts, l2) := find_reserved strings root in
    existsb (λ c, node_named (chars "reserved-memory") (tree_name c)) l1 = false /\
    node_named (chars "reserved-memory") (tree_name (fst ts)) = true /\ unlisted na (fst ts)).
  { unfold find_reserved. assert (S := split_child_at (node_named (chars "reserved-memory")) (tree_children root) (children_offset 0 root)).
    destruct (split_child _ _) as [[[l1 t] l2]|] eqn:Es; cbn [fst].
    - destruct (split_child_first _ _ _ _ _ Es) as [H1 H2]. split; [done|]. split; [done|]. eapply Hu. cbn [resolve]. destruct S as [_ ->]. reflexivity.
    - split; [done|]. split; [vm_compute; reflexivity|]. by intros index base _. }
  destruct (find_reserved strings root) as [[l1 ts] l2]. destruct Hf as (H1 & H2 & H3). cbn [fst snd].
  destruct ts as [t strings1]. cbn [fst] in *.
  destruct (add_regions_list na ns no_map regs 0 t strings1 ltac:(lia) ltac:(lia) ltac:(intros i base Hi; apply H3; lia)) as (_ & _ & L).
  eexists _, _. split; [|intros k reg Hk; destruct (L k reg Hk) as (c & Hi & Hl); exists c; split; [exact Hi|exact Hl]].
  cbn [resolve root_with tree_children]. rewrite child_at_middle; [reflexivity|done|by rewrite add_regions_name].
Qed.

(** [C17] The supervisor is told of the memory that only the firmware may use: on a
    blob that holds a tree with one or two cells per number, with 1,024 bytes of
    memory behind it, fdt_reserved_memory_fixup returns 0 and leaves the blob of
    the tree in which /reserved-memory, made when there was none, has a node for
    each region of the hart's domain that is not a device and that its flags let
    nobody read, write or execute, at most nine of them:
    its name carries the region's number and base, its reg property the base and
    the size, and it has the property no-map exactly when the hart has no PMP
    entries.  The blob is 1,024 bytes larger; everything else in the tree is as
    it was. *)
Theorem reserved_memory_listed fuel env addr ly root dom :
  reservable fuel env addr ly root dom ->
  region_count (memregions (dom_regions (fx_domains env) dom)) <= 9 ->
  (forall o t, resolve 0 root [chars "reserved-memory"] = Some (o, t) -> unlisted (address_cells (ly_strings ly) root) t) ->
  let no_map := negb (truthy (pmp_count (fx_features env))) in
  let regs := memregions (dom_regions (fx_domains env) dom) in
  let '(root', strings') := reserve_regions (ly_strings ly) no_map regs root in
  (exists ly', fdt_reserved_memory_fixup fuel env (blob_of addr ly) = (Ret 0, blob_of addr ly') /\
     after_edit addr (grown ly) ly' (flat root') strings' /\ ly_total ly' = ly_total ly + 1024) /\
  exists o t, resolve 0 root' [chars "reserved-memory"] = Some (o, t) /\
    forall k reg, List.filter hidden regs !! k = Some reg ->
      exists c, In c (tree_children t) /\
        lists_region strings' (address_cells (ly_strings ly) root) (size_cells (ly_strings ly) root) no_map (Z.of_nat k) reg c.
Proof.
  intros H Hc Hu no_map regs. assert (L := reserve_regions_list (ly_strings ly) no_map regs root ltac:(subst regs; lia) Hu).
  destruct (reserved_memory_run fuel env addr ly root dom H Hc) as (ly' & R & HA & _). fold no_map regs in R, HA.
  destruct (reserve_regions _ _ _ _) as [root' strings']. split; [|exact L]. exists ly'. split; [exact R|]. split; [exact HA|].
  rewrite (ae_total _ _ _ _ _ HA). apply grown_total, (rv_beyond _ _ _ _ _ _ H).
Qed.

(** A hart whose domain keeps the firmware's memory from the supervisor. *)
Definition demo_firmware_domain : sbi_domain :=
  Domain 0 (Hartmask [1; 0]) None (Some (OwnRegions [MemRegion 18 0x80000000 0; MemRegion 64 0 7; MemRegion 0 0 0])) 0 0 0x80200000 1 true.
Definition demo_env : fixup_env :=
  FixupEnv 0 (DomainState [Some O] [Some O] 1 true (Hartmask [1; 0]) 0 (MemRegion 0 0 0) [] [demo_firmware_domain])
    (HartFeatures 0 16 54 4 0 0) demo_print 0x1000 (replicate 16 0xee).
Definition roomy_layout : layout :=
  Layout 0 [(0x80000000, 0x1000)] (encode_all (flat demo_tree) ++ be32 FDT_END) demo_names [] (replicate (Z.to_nat 1024) 7).

Lemma roomy_reservable : reservable 3000 demo_env 8 roomy_layout demo_tree demo_firmware_domain.
Proof.
  split; try (vm_compute; intuition congruence); try (by vm_compute).
  split; [|done|apply tokens_ok; vm_compute; reflexivity]. split; [done|vm_compute; reflexivity|done|repeat constructor; done].
Qed.

Lemma reserved_memory_listed_witness :
  exists ly', fdt_reserved_memory_fixup 3000 demo_env (blob_of 8 roomy_layout) = (Ret 0, blob_of 8 ly') /\
    after_edit 8 (grown roomy_layout) ly'
      (flat (Node [] [] (Node (chars "reserved-memory") [Prop_ 13 (be32 2); Prop_ 28 (be32 1); Prop_ 6 []]
         [Node (chars "mmode_resv0@80000000") [Prop_ 2 (be32 0 ++ be32 0x80000000 ++ be32 0x40000)] []] :: tree_children demo_tree)))
      demo_names.
Proof.
  destruct (reserved_memory_listed 3000 demo_env 8 roomy_layout demo_tree demo_firmware_domain roomy_reservable
    ltac:(vm_compute; discriminate) ltac:(intros o t H; vm_compute in H; discriminate)) as [(ly' & R & HA & _) _].
  exists ly'. split; [exact R|]. exact HA.
Defined.

(** ** Where the code falls short *)

(** Sixteen regions, as many as PMP entries. *)
Definition sixteen_regions : list sbi_domain_memregion :=
  map (λ i, MemRegion 12 (0x123480000000 + 4096 * Z.of_nat i) 0) (seq 0 16) ++ [MemRegion 0 0 0].
Definition crowded_env : fixup_env :=
  FixupEnv 0 (DomainState [Some O] [Some O] 1 true (Hartmask [1; 0]) 0 (MemRegion 0 0 0) []
    [dom_set_regions (Some (OwnRegions sixteen_regions)) demo_firmware_domain])
    (HartFeatures 0 16 54 4 0 0) demo_print 0x1000 (replicate 16 0xee).

(** The 1,024 bytes are not enough for them: the fixup returns 0, but the last
    node is left without its reg property.  See fdt_fixup.c:171. *)
Theorem sixteen_regions_do_not_fit :
  let c := (_ <- fdt_reserved_memory_fixup 3000 crowded_env ;;
            o <- fdt_path_offset 3000 (lit "/reserved-memory/mmode_resv15") ;;
            r <- fdt_getprop 3000 o (lit "reg") ;; ret (0 <=? o, r))%sbi in
  fst (fdt_reserved_memory_fixup 3000 crowded_env (blob_of 8 roomy_layout)) = Ret 0 /\
  fst (c (blob_of 8 roomy_layout)) = Ret (true, (None, - FDT_ERR_NOTFOUND)).
Proof. vm_compute. split; reflexivity. Qed.

(** With five cells the four of the local array are read beyond their end.  See
    fdt_fixup.c:135. *)
Definition wide_tree : tree := Node [] [Prop_ 0 (be32 3); Prop_ 15 (be32 2)] [].
Definition wide_layout : layout :=
  Layout 0 [] (encode_all (flat wide_tree) ++ be32 FDT_END) (string_list (map chars ["#address-cells"; "#size-cells"]%string)) []
    (replicate (Z.to_nat 1024) 7).

Theorem wide_cells_overrun_reg : fst (fdt_reserved_memory_fixup 3000 demo_env (blob_of 8 wide_layout)) = Stop wild_access.
Proof. vm_compute. reflexivity. Qed.
