(* ===== verification/FdtMask.v ===== *)
(** * Device tree fixups: interrupt controller and performance monitor

    What the other fixups of lib/utils/fdt/fdt_fixup.c and fdt_pmu.c (FdtFixup.v)
    make of a tree: the contexts of the PLIC that belong to machine mode are
    masked, and the properties of the performance monitor that are for the
    firmware are deleted.  Both change the first node, in document order, that
    answers to a compatible string. *)

From Stdlib Require Import ZArith Lia String Ascii.
From stdpp Require Import base tactics list numbers strings gmap.
From S2P Require Import Prelude SbiDefs Domain Csr Hart Pmu Machine Console Format Plic Fdt FdtRo FdtTree FdtRw FdtLayout FdtEdit FdtHelper FdtFixup FdtReserve.

(** ** Changing the first node that satisfies a predicate *)

Section Update.
Context (p : tree → bool) (f : tree → tree).

Fixpoint update_first (t : tree) : option tree :=
  if p t then Some (f t)
  else match t with
       | Node name attrs children =>
           Node name attrs <$>
           (fix go (l : list tree) : option (list tree) :=
              match l with
              | [] => None
              | c :: l' => match update_first c with Some c' => Some (c' :: l') | None => cons c <$> go l' end
              end) children
       end.

Fixpoint update_first_all (l : list tree) : option (list tree) :=
  match l with
  | [] => None
  | c :: l' => match update_first c with Some c' => Some (c' :: l') | None => cons c <$> update_first_all l' end
  end.

Definition with_children (l : list tree) (t : tree) : tree := Node (tree_name t) (tree_attrs t) l.

(** The same below a node. *)
Definition update_below (t : tree) : option tree := (λ l, with_children l t) <$> update_first_all (tree_children t).

Lemma update_first_node t : update_first t = if p t then Some (f t) else update_below t.
Proof. by destruct t. Qed.
End Update.

(** [p] as a search for offsets. *)
Definition select_by (p : tree → bool) : Z → tree → option Z := λ o t, if p t then Some o else None.

Lemma scan_result_app f l1 l2 : scan_result f (l1 ++ l2) =
  if existsb (λ n, bool_decide (is_Some (f (fst n) (snd n)))) l1 then scan_result f l1 else scan_result f l2.
Proof.
  induction l1 as [|[o t] l1 IH]; [done|]. cbn [app scan_result existsb fst snd].
  destruct (f o t); [done|]. exact IH.
Qed.

(** The outcome of a search and of the update: the node that both found. *)
Definition found (p : tree → bool) (f : tree → tree) (nodes : list (Z * tree)) (o : Z) (tokens : list token) (r : option (list token)) : Prop :=
  match r with
  | Some tokens' => exists pre u post, tokens = pre ++ flat u ++ post /\ tokens' = pre ++ flat (f u) ++ post /\ p u = true /\
      tree_ok u = true /\ existsb (λ n, p (snd n)) nodes = true /\ scan_result (select_by p) nodes = o + size_of pre
  | None => existsb (λ n, p (snd n)) nodes = false /\ scan_result (select_by p) nodes = - FDT_ERR_NOTFOUND
  end.

Lemma select_existsb p (l : list (Z * tree)) :
  existsb (λ n, bool_decide (is_Some (select_by p (fst n) (snd n)))) l = existsb (λ n, p (snd n)) l.
Proof. induction l as [|[o t] l IH]; [done|]. cbn [existsb fst snd]. rewrite IH. unfold select_by. by destruct (p t). Qed.

Lemma found_app p f l1 l2 o tokens1 tokens2 r1 r2 :
  found p f l1 o tokens1 r1 -> found p f l2 (o + size_of tokens1) tokens2 r2 ->
  found p f (l1 ++ l2) o (tokens1 ++ tokens2)
    (match r1 with Some t' => Some (t' ++ tokens2) | None => app tokens1 <$> r2 end).
Proof.
  intros F1 F2. unfold found in *. rewrite scan_result_app, select_existsb, existsb_app.
  destruct r1 as [t1|].
  - destruct F1 as (pre & u & post & -> & -> & Hp & Hok & -> & ->). exists pre, u, (post ++ tokens2).
    split; [by rewrite <- !app_assoc|]. split; [by rewrite <- !app_assoc|]. done.
  - destruct F1 as [-> _]. cbn [orb]. destruct r2 as [t2|]; cbn [fmap option_fmap option_map]; [|done].
    destruct F2 as (pre & u & post & -> & -> & Hp & Hok & -> & ->). exists (tokens1 ++ pre), u, post.
    split; [by rewrite <- !app_assoc|]. split; [by rewrite <- !app_assoc|]. rewrite size_of_app. do 3 (split; [done|]). lia.
Qed.

Lemma update_first_found p f t : tree_ok t = true -> forall o, found p f (preorder t o) o (flat t) (flat <$> update_first p f t).
Proof.
  induction t as [name attrs children IH] using tree_induction. intros Hok o. set (t := Node name attrs children) in *.
  assert (Hc := children_ok _ Hok). cbn [t tree_children] in Hc.
  assert (Hall : forall o, found p f (preorder_all children o) o (flat_all children) (flat_all <$> update_first_all p f children)).
  { clear Hok t. induction children as [|c l IHl]; intros o'; [done|]. cbn [forallb] in Hc. apply andb_true_iff in Hc as [Hc1 Hc2].
    apply Forall_cons in IH as [IHc IH]. cbn [preorder_all update_first_all]. rewrite flat_all_cons.
    assert (H := found_app _ _ _ _ _ _ _ _ _ (IHc Hc1 o') (IHl IH Hc2 _)).
    destruct (update_first p f c) as [c'|]; [exact H|]. by destruct (update_first_all p f l). }
  rewrite update_first_node, preorder_node. destruct (p t) eqn:Ep.
  - exists [], t, []. rewrite !app_nil_r. do 2 (split; [done|]). split; [done|]. split; [done|]. cbn [existsb snd scan_result]. unfold select_by.
    rewrite Ep. split; [done|]. change (size_of []) with 0. lia.
  - unfold update_below. cbn [t tree_children]. specialize (Hall (children_offset o t)). unfold found in *.
    cbn [existsb snd scan_result]. unfold select_by at 1 3. rewrite Ep. cbn [orb].
    destruct (update_first_all p f children) as [l|]; cbn [fmap option_fmap option_map] in *; [|done].
    destruct Hall as (pre & u & post & E1 & E2 & Hp & Hu & Hx & Hs). exists (header t ++ pre), u, (post ++ [EndNode]).
    split; [rewrite flat_node; cbn [t tree_children]; rewrite E1, <- !app_assoc; done|].
    split; [rewrite flat_node; cbn [with_children tree_children]; rewrite E2, <- !app_assoc; done|].
    do 3 (split; [done|]). rewrite Hs. unfold children_offset. rewrite size_of_app. lia.
Qed.

Lemma update_below_found p f t : tree_ok t = true -> forall o,
  found p f (preorder_all (tree_children t) (children_offset o t)) o (flat t) (flat <$> update_below p f t).
Proof.
  intros Hok o. assert (Hc := children_ok _ Hok). unfold update_below.
  assert (Hall : forall o, found p f (preorder_all (tree_children t) o) o (flat_all (tree_children t)) (flat_all <$> update_first_all p f (tree_children t))).
  { revert Hc. generalize (tree_children t). intros l. induction l as [|c l IH]; intros H o'; [done|].
    cbn [forallb] in H. apply andb_true_iff in H as [H1 H2]. cbn [preorder_all update_first_all]. rewrite flat_all_cons.
    assert (F := found_app _ _ _ _ _ _ _ _ _ (update_first_found p f c H1 o') (IH H2 _)).
    destruct (update_first p f c) as [c'|]; [exact F|]. by destruct (update_first_all p f l). }
  specialize (Hall (children_offset o t)). unfold found in *.
  destruct (update_first_all p f (tree_children t)) as [l|]; cbn [fmap option_fmap option_map] in *; [|done].
  destruct Hall as (pre & u & post & E1 & E2 & Hp & Hu & Hx & Hs). exists (header t ++ pre), u, (post ++ [EndNode]).
  split; [rewrite flat_node, E1, <- !app_assoc; done|].
  split; [rewrite flat_node; cbn [with_children tree_children]; rewrite E2, <- !app_assoc; done|].
  do 3 (split; [done|]). rewrite Hs. unfold children_offset. rewrite size_of_app. lia.
Qed.

(** ** Searching below the root *)

Section Below.
Context {root : tree} (Hroot : tree_ok root = true).
Context {s : dtb} {strings : list Z} {ds dn total : Z}.
Context (B : blob s (flat root) strings ds dn total).
Context (fuel : nat) (Hfuel : total < Z.of_nat fuel).

Definition nodes_below : list (Z * tree) := preorder_all (tree_children root) (children_offset 0 root).

Lemma below_in_preorder o t : In (o, t) nodes_below -> In (o, t) (preorder root 0).
Proof. rewrite preorder_node. by right. Qed.

Lemma reads_scan_below test f :
  (forall o t, In (o, t) nodes_below -> node_at (flat root) o t -> reads s (test o) (f o t)) ->
  reads s (scan_nodes fuel fuel 0 test) (scan_result f nodes_below).
Proof.
  intros Hf. assert (Ht := blob_total_range B). assert (SF := struct_fuel B fuel Hfuel).
  assert (E := flat_attrs root []). rewrite app_nil_r in E. set (rest := tree_attrs root ++ _) in E.
  assert (exists n, fuel = S n) as [n En] by (destruct fuel; [lia|eauto]). rewrite En at 2. cbn [scan_nodes].
  eapply reads_bind; [apply (reads_next_node B fuel SF [] (tree_name root) rest None E); done|].
  apply (reads_scan_loop B fuel Hfuel test f nodes_below ([] ++ [BeginNode (tree_name root)]) rest n); [|done| |].
  - intros o t H. apply Hf; [done|]. destruct (preorder_below _ _ _ _ (below_in_preorder _ _ H)) as [k Hk]. eapply below_node_at; [by apply root_at|exact Hk].
  - assert (H := begins_tree root Hroot [] []). rewrite app_nil_r, preorder_node, E in H. cbn [begins map app fst] in H.
    injection H as H. rewrite app_nil_r in H. symmetry. exact H.
  - assert (H1 := post_fuel fuel SF [] (flat root) eq_refl). rewrite E in H1. cbn [length] in H1. lia.
Qed.

Lemma reads_compatible_below c : text_ok total c -> c <> [] ->
  forallb (λ n, compatible_ok strings (snd n)) (preorder root 0) = true ->
  reads s (fdt_node_offset_by_compatible fuel 0 (Cst c 0)) (scan_result (select_by (compatible_with strings c)) nodes_below).
Proof.
  intros Hc Hne Hok. apply (reads_probed B), reads_scan_below. intros o t Hi Hn. apply below_in_preorder in Hi.
  eapply reads_bind; [apply (reads_check_compatible B fuel Hfuel o t); [done| |done|done]; exact (proj1 (forallb_forall _ _) Hok _ Hi)|].
  unfold select_by, compatible_with. destruct (compatible_list strings t) as [l|]; [destruct (bool_decide _)|]; apply reads_ret.
Qed.
End Below.

(** ** Masking contexts *)

(** A pair is the phandle of a hart's interrupt controller and the number of the
    interrupt there. *)
Fixpoint mask_pairs (v : list Z) : list Z :=
  match v with
  | a0 :: a1 :: a2 :: a3 :: b0 :: b1 :: b2 :: b3 :: v' =>
      a0 :: a1 :: a2 :: a3 :: (if cell [b0; b1; b2; b3] 0 =? IRQ_M_EXT then be32 0xffffffff else [b0; b1; b2; b3]) ++ mask_pairs v'
  | _ => v
  end.

(** The value as pairs and a rest. *)
Lemma pairs_induction (P : list Z → Prop) :
  (forall v, (length v < 8)%nat -> P v) ->
  (forall a b v, length a = 4%nat -> length b = 4%nat -> P v -> P (a ++ b ++ v)) -> forall v, P v.
Proof.
  intros H0 H1. assert (G : forall n v, (length v <= n)%nat -> P v).
  { induction n as [|n IH]; intros v Hv; [apply H0; lia|]. destruct (decide (length v < 8)%nat) as [Hl|Hl]; [by apply H0|].
    rewrite <- (take_drop 4 v), <- (take_drop 4 (drop 4 v)). apply H1; [rewrite length_take; lia|rewrite length_take, length_drop; lia|].
    apply IH. rewrite !length_drop. lia. }
  intros v. by apply (G (length v)).
Qed.

Lemma mask_pairs_step a b v : length a = 4%nat -> length b = 4%nat ->
  mask_pairs (a ++ b ++ v) = a ++ (if cell b 0 =? IRQ_M_EXT then be32 0xffffffff else b) ++ mask_pairs v.
Proof.
  intros La Lb. destruct a as [|a0 [|a1 [|a2 [|a3 [|]]]]]; try done. destruct b as [|b0 [|b1 [|b2 [|b3 [|]]]]]; try done.
Qed.

Lemma mask_pairs_short v : (length v < 8)%nat -> mask_pairs v = v.
Proof. intros H. do 8 (destruct v as [|? v]; [done|]). cbn [length] in H. lia. Qed.

Lemma mask_pairs_length v : length (mask_pairs v) = length v.
Proof.
  induction v as [v H|a b v La Lb IH] using pairs_induction; [by rewrite mask_pairs_short|].
  rewrite mask_pairs_step, !length_app, IH by done. case_if; [by rewrite be32_length, Lb|done].
Qed.

Lemma mask_pairs_bytes v : Forall is_byte v -> Forall is_byte (mask_pairs v).
Proof.
  induction v as [v H|a b v La Lb IH] using pairs_induction; [by rewrite mask_pairs_short|].
  intros Hv. rewrite !Forall_app in Hv. rewrite mask_pairs_step by done. apply Forall_app. split; [tauto|]. apply Forall_app.
  split; [|tauto]. case_if; [apply be32_bytes|tauto].
Qed.

Lemma struct_at addr ly A m C : ly_struct ly = A ++ m ++ C -> at_offset (blob_of addr ly) (ly_ds ly + Z.of_nat (length A)) m.
Proof.
  intros E. apply (at_offset_middle _ (words_bytes (ly_words ly) ++ rsv_bytes (ly_rsv ly) ++ A) m (C ++ ly_strings ly ++ ly_slack ly ++ ly_beyond ly)).
  - unfold blob_of, ly_bytes, ly_rest. cbn [dt_bytes]. rewrite E, <- !app_assoc. done.
  - rewrite !length_app, words_bytes_length. unfold ly_ds. cbn [ly_words length]. lia.
Qed.

Lemma with_struct_twice x y l1 l2 ly : with_struct x l1 (with_struct y l2 ly) = with_struct x l1 ly.
Proof. done. Qed.

Lemma plic_loop_run fuel addr rest : forall ly A seen C i,
  ly_struct ly = A ++ (seen ++ rest) ++ C -> Z.of_nat (length seen) = 8 * i -> 0 <= i -> (length rest < fuel)%nat ->
  plic_fixup_loop fuel (ly_ds ly + Z.of_nat (length A)) i (i + Z.of_nat (length rest) / 8) (blob_of addr ly) =
  (Ret tt, blob_of addr (with_struct (A ++ (seen ++ mask_pairs rest) ++ C) (ly_slack ly) ly)).
Proof.
  revert fuel. induction rest as [rest Hl|a b rest La Lb IH] using pairs_induction; intros fuel ly A seen C i Es Ls Hi Hf;
    (destruct fuel as [|fuel]; [lia|]); cbn [plic_fixup_loop].
  - rewrite mask_pairs_short, (Z.div_small _ 8), Z.add_0_r, Z.ltb_irrefl, <- Es by lia. unfold ret. by destruct ly.
  - rewrite !length_app, La, Lb in *. replace (Z.of_nat (4 + (4 + length rest)) / 8) with (1 + Z.of_nat (length rest) / 8).
    2: { replace (Z.of_nat (4 + (4 + length rest))) with (Z.of_nat (length rest) + 1 * 8) by lia. rewrite Z.div_add by lia. lia. }
    assert (0 <= Z.of_nat (length rest) / 8) by (apply Z.div_pos; lia). rewrite (proj2 (Z.ltb_lt i _)) by lia.
    assert (Es' : ly_struct ly = (A ++ seen ++ a) ++ b ++ (rest ++ C)) by (rewrite Es, <- !app_assoc; done).
    assert (Eo : ly_ds ly + Z.of_nat (length A) + 4 * (2 * i + 1) = ly_ds ly + Z.of_nat (length (A ++ seen ++ a)) + 4 * Z.of_nat 0).
    { rewrite !length_app, La. lia. }
    rewrite Eo, (reads_bind_eq _ _ _ _ (reads_cell _ _ b 0 (struct_at addr ly _ _ _ Es') ltac:(lia))), mask_pairs_step by done.
    set (b' := if cell b 0 =? IRQ_M_EXT then be32 0xffffffff else b). assert (Lb' : length b' = 4%nat) by (subst b'; case_if; [apply be32_length|done]).
    set (ly1 := with_struct ((A ++ seen ++ a) ++ b' ++ (rest ++ C)) (ly_slack ly) ly).
    assert (Hw : (if cell b 0 =? IRQ_M_EXT then fdt32_st (ly_ds ly + Z.of_nat (length (A ++ seen ++ a)) + 4 * Z.of_nat 0) 0xffffffff else ret tt) (blob_of addr ly)
                 = (Ret tt, blob_of addr ly1)).
    { subst ly1 b'. case_if; [unfold fdt32_st; apply (write_struct (addr := addr) (ly := ly) (A ++ seen ++ a) b (rest ++ C) _ (ly_slack ly)); [done|by rewrite be32_length|lia|done]|].
      rewrite <- Es'. unfold ret. by destruct ly. }
    rewrite (bind_Ret _ _ _ _ _ Hw).
    assert (Hx := IH fuel ly1 A (seen ++ a ++ b') C (i + 1) ltac:(cbn [ly1 with_struct ly_struct]; rewrite <- !app_assoc; done)
      ltac:(rewrite !length_app, La, Lb'; lia) ltac:(lia) ltac:(lia)).
    change (ly_ds ly1) with (ly_ds ly) in Hx. rewrite <- Z.add_assoc in Hx. rewrite Hx. subst ly1. rewrite with_struct_twice. do 3 f_equal.
    by rewrite <- !app_assoc.
Qed.

(** The node with its machine-mode contexts masked. *)
Definition mask_node (strings : list Z) (t : tree) : tree :=
  match attr_value strings (chars "interrupts-extended") (tree_attrs t) with
  | Some v => with_attrs (fst (set_attr strings (chars "interrupts-extended") (mask_pairs v) (tree_attrs t))) t
  | None => t
  end.

(** The tree with its PLIC masked: the first node below the root compatible with
    "sifive,plic-1.0.0", or else with "riscv,plic0". *)
Definition mask_plic (strings : list Z) (root : tree) : tree :=
  match update_below (compatible_with strings (chars "sifive,plic-1.0.0")) (mask_node strings) root with
  | Some root' => root'
  | None => default root (update_below (compatible_with strings (chars "riscv,plic0")) (mask_node strings) root)
  end.

Lemma editable_same addr ly tokens : editable addr ly tokens -> edited tokens (ly_strings ly) (ly_slack ly) ly = ly.
Proof. intros E. unfold edited. rewrite <- (ed_struct _ _ _ E). by destruct ly. Qed.

Lemma split_attr_same strings name attrs a1 off v a2 :
  split_attr strings name attrs = Some (a1, (off, v), a2) -> attrs = a1 ++ Prop_ off v :: a2.
Proof. intros H. by destruct (split_attr_app _ _ _ _ _ _ _ H). Qed.

Section Plic.
Context {addr : Z} {ly : layout} {tokens : list token} (E : editable addr ly tokens).
Context (fuel : nat) (Hfuel : ly_total ly < Z.of_nat fuel).

Definition masked (tokens' : list token) : Prop :=
  after_edit addr ly (edited tokens' (ly_strings ly) (ly_slack ly) ly) tokens' (ly_strings ly).

Lemma mask_node_run pre u post :
  tokens = pre ++ flat u ++ post -> tree_ok u = true ->
  let tokens' := pre ++ flat (mask_node (ly_strings ly) u) ++ post in
  (r <- fdt_getprop fuel (size_of pre) (lit "interrupts-extended") ;;
   match r with
   | (None, _) => ret tt
   | (Some cells, cells_count) =>
       let cells_count := s32 (u64 cells_count / 4) in
       if negb (truthy cells_count) then ret tt else plic_fixup_loop fuel cells 0 (Z.quot cells_count 2)
   end)%sbi (blob_of addr ly) = (Ret tt, blob_of addr (edited tokens' (ly_strings ly) (ly_slack ly) ly)) /\ masked tokens'.
Proof.
  intros Et Hok tokens'. assert (ET : tokens' = pre ++ flat (mask_node (ly_strings ly) u) ++ post) by done. clearbody tokens'.
  assert (H := ed_range E). assert (B := editable_blob E). rewrite flat_attrs in Et.
  assert (R := reads_getprop B fuel Hfuel pre _ _ (chars "interrupts-extended") Et ltac:(by apply chars_nonzero; repeat constructor) ltac:(cbn; assert (Hr := ly_range (ed_ok _ _ _ E)); lia)).
  assert (F := split_find (ly_strings ly) (chars "interrupts-extended") (tree_attrs u) (pre ++ [BeginNode (tree_name u)]) _ (attrs_ok _ Hok) (ends_attrs_children (tree_children u) post)).
  assert (FV := found_value B fuel (pre ++ [BeginNode (tree_name u)]) (tree_attrs u ++ flat_all (tree_children u) ++ EndNode :: post) (chars "interrupts-extended")).
  rewrite (reads_bind_eq _ _ _ _ R). unfold mask_node in ET. rewrite attr_value_split in ET.
  destruct (find_prop _ _ _ _) as [e|[o v]].
  - destruct F as [-> Es]. rewrite Es in ET. cbn [fmap option_fmap option_map] in ET.
    assert (Et' : tokens' = tokens) by (rewrite ET, flat_attrs; done). unfold masked. rewrite Et'.
    rewrite (editable_same _ _ _ E). split; [done|by apply after_refl].
  - destruct F as (a1 & off & a2 & Es & Ea & Eo). rewrite Es in ET. cbn [fmap option_fmap option_map fst snd] in ET.
    unfold set_attr in ET. rewrite Es in ET. cbn [fst] in ET.
    destruct (FV o v ltac:(rewrite Et, <- app_assoc; done) eq_refl) as (_ & Hv & Hb & Ho). clear FV R.
    set (A := (pre ++ [BeginNode (tree_name u)]) ++ a1) in *. set (C := a2 ++ flat_all (tree_children u) ++ EndNode :: post).
    assert (E1 : tokens = A ++ Prop_ off v :: C) by (rewrite Et, Ea; subst A C; rewrite <- !app_assoc; done).
    assert (E2 : tokens' = A ++ Prop_ off (mask_pairs v) :: C).
    { rewrite ET. subst A C. rewrite flat_attrs. cbn [with_attrs tree_name tree_attrs tree_children]. rewrite <- !app_assoc. done. }
    assert (Hsz : size_of tokens' = size_of tokens).
    { rewrite E1, E2, !size_of_app, !size_of_cons. cbn [encode]. unfold padded4. rewrite !length_app, !be32_length, mask_pairs_length. done. }
    split.
    + set (SA := encode_all A ++ be32 FDT_PROP ++ be32 (Z.of_nat (length v)) ++ be32 off).
      set (SC := replicate (Z.to_nat (- Z.of_nat (length v) mod 4)) 0 ++ encode_all C ++ be32 FDT_END).
      assert (Es1 : ly_struct ly = SA ++ ([] ++ v) ++ SC).
      { rewrite (ed_struct _ _ _ E), E1, encode_all_app, encode_all_cons. cbn [encode]. unfold padded4. subst SA SC. rewrite <- !app_assoc. done. }
      assert (Es2 : edited tokens' (ly_strings ly) (ly_slack ly) ly = with_struct (SA ++ ([] ++ mask_pairs v) ++ SC) (ly_slack ly) ly).
      { unfold edited, with_struct. f_equal. rewrite E2, encode_all_app, encode_all_cons. cbn [encode]. unfold padded4. rewrite mask_pairs_length.
        subst SA SC. rewrite <- !app_assoc. done. }
      assert (Eoff : ly_ds ly + o + 12 = ly_ds ly + Z.of_nat (length SA)).
      { subst SA. rewrite !length_app, !be32_length, Eo. unfold size_of. fold A. lia. }
      rewrite Es2, Eoff. rewrite u64_small by (unfold is_u64; lia). assert (Hq := Z.div_mod (Z.of_nat (length v)) 4 ltac:(lia)).
      assert (Hq' := Z.mod_pos_bound (Z.of_nat (length v)) 4 ltac:(lia)). rewrite s32_small by lia. cbv zeta.
      destruct (truthy (Z.of_nat (length v) / 4)) eqn:Etr; cbn [negb].
      * rewrite Z.quot_div_nonneg, Z.div_div by lia. change (4 * 2) with 8.
        apply (plic_loop_run fuel addr v ly SA [] SC 0 Es1 eq_refl); [lia|]. lia.
      * apply truthy_false in Etr. rewrite mask_pairs_short, <- Es1 by lia. unfold ret. by destruct ly.
    + apply (after_edited addr ly tokens); [done| |by rewrite Hsz].
      assert (Ht := ed_tokens _ _ _ E). rewrite E1 in Ht. rewrite E2. apply Forall_app in Ht as [H1 H2]. apply Forall_cons in H2 as [H2 H3].
      apply Forall_app. split; [done|]. apply Forall_cons. split; [|done]. destruct H2 as [H2 H2'].
      split; [done|by apply mask_pairs_bytes].
Qed.
End Plic.

Lemma update_first_ok p f t t' : (forall u, tree_ok u = true -> tree_ok (f u) = true) -> tree_ok t = true ->
  update_first p f t = Some t' -> tree_ok t' = true.
Proof.
  intros Hf. revert t'. induction t as [name attrs children IH] using tree_induction. intros t' Hok. rewrite update_first_node.
  destruct (p _); [intros [= <-]; by apply Hf|]. assert (Ha := attrs_ok _ Hok). assert (Hc := children_ok _ Hok). unfold update_below. cbn [tree_attrs tree_children] in *.
  assert (Hall : forall l', update_first_all p f children = Some l' -> forallb tree_ok l' = true).
  { clear Hok. induction children as [|c l IHl]; intros l'; [done|]. apply Forall_cons in IH as [IHc IH]. cbn [forallb] in Hc. apply andb_true_iff in Hc as [Hc1 Hc2].
    cbn [update_first_all]. destruct (update_first p f c) as [c'|].
    - intros [= <-]. cbn [forallb]. by rewrite (IHc c' Hc1 eq_refl), Hc2.
    - destruct (update_first_all p f l) as [l1|]; [|done]. intros [= <-]. cbn [forallb]. by rewrite Hc1, (IHl IH Hc2 l1 eq_refl). }
  destruct (update_first_all p f children) as [l'|]; [|done]. intros [= <-]. rewrite tree_ok_node. cbn [with_children tree_attrs tree_children].
  by rewrite Ha, (Hall l' eq_refl).
Qed.

Lemma update_below_ok p f t t' : (forall u, tree_ok u = true -> tree_ok (f u) = true) -> tree_ok t = true ->
  update_below p f t = Some t' -> tree_ok t' = true.
Proof.
  intros Hf Hok H.
  assert (Ha := attrs_ok _ Hok). assert (Hc := children_ok _ Hok). unfold update_below in H.
  assert (Hall : forall l l', forallb tree_ok l = true -> update_first_all p f l = Some l' -> forallb tree_ok l' = true).
  { induction l as [|c l IHl]; intros l'; [done|]. cbn [forallb]. intros [Hc1 Hc2]%andb_true_iff.
    cbn [update_first_all]. destruct (update_first p f c) as [c'|] eqn:Eu.
    - intros [= <-]. cbn [forallb]. by rewrite (update_first_ok p f c c' Hf Hc1 Eu), Hc2.
    - destruct (update_first_all p f l) as [l1|]; [|done]. intros [= <-]. cbn [forallb]. by rewrite Hc1, (IHl l1 Hc2 eq_refl). }
  destruct (update_first_all p f (tree_children t)) as [l'|] eqn:El; [|done]. injection H as <-.
  rewrite tree_ok_node. cbn [with_children tree_attrs tree_children]. by rewrite Ha, (Hall _ _ Hc El).
Qed.

Lemma mask_node_ok strings u : tree_ok u = true -> tree_ok (mask_node strings u) = true.
Proof.
  intros Hok. unfold mask_node. destruct (attr_value _ _ _) as [v|]; [|done]. rewrite tree_ok_node. cbn [with_attrs tree_attrs tree_children].
  rewrite (children_ok _ Hok), andb_true_r. by apply set_attr_attrs, attrs_ok.
Qed.

(** Masking leaves the root's own properties. *)
Lemma mask_plic_root strings root : tree_attrs (mask_plic strings root) = tree_attrs root /\ tree_name (mask_plic strings root) = tree_name root.
Proof.
  unfold mask_plic, update_below. destruct (update_first_all _ _ _); [done|]. cbn [fmap option_fmap option_map].
  by destruct (update_first_all _ _ _).
Qed.

Lemma mask_plic_ok strings root : tree_ok root = true -> tree_ok (mask_plic strings root) = true.
Proof.
  intros Hok. unfold mask_plic. assert (Hm := mask_node_ok strings).
  destruct (update_below _ _ root) as [r|] eqn:E; [by eapply update_below_ok|].
  destruct (update_below (compatible_with strings (chars "riscv,plic0")) _ root) as [r|] eqn:E'; [by eapply update_below_ok|done].
Qed.

Lemma plic_fixup_run addr ly root fuel :
  editable addr ly (flat root) -> tree_ok root = true -> ly_total ly < Z.of_nat fuel ->
  forallb (λ n, compatible_ok (ly_strings ly) (snd n)) (preorder root 0) = true ->
  let tokens' := flat (mask_plic (ly_strings ly) root) in
  fdt_plic_fixup fuel (blob_of addr ly) = (Ret tt, blob_of addr (edited tokens' (ly_strings ly) (ly_slack ly) ly)) /\
  masked (addr := addr) (ly := ly) tokens'.
Proof.
  intros E Hok Hf Hc tokens'. assert (B := editable_blob E). assert (Hr := ly_range (ed_ok _ _ _ E)).
  assert (Hlook : forall str, Forall (λ a, nat_of_ascii a <> O) (list_ascii_of_string str) -> (length (chars str) <= 40)%nat -> chars str <> [] ->
    reads (blob_of addr ly) (fdt_node_offset_by_compatible fuel 0 (lit str)) (scan_result (select_by (compatible_with (ly_strings ly) (chars str))) (nodes_below (root := root)))).
  { intros str Hz Hl Hne. apply (reads_compatible_below Hok B fuel Hf); [split; [by apply chars_nonzero|lia]|done|done]. }
  assert (R1 := Hlook "sifive,plic-1.0.0"%string ltac:(by repeat constructor) ltac:(cbn; lia) ltac:(done)).
  assert (R2 := Hlook "riscv,plic0"%string ltac:(by repeat constructor) ltac:(cbn; lia) ltac:(done)). clear Hlook.
  unfold fdt_plic_fixup. rewrite (reads_bind_eq _ _ _ _ R1). subst tokens'. unfold mask_plic.
  assert (F1 := update_below_found (compatible_with (ly_strings ly) (chars "sifive,plic-1.0.0")) (mask_node (ly_strings ly)) root Hok 0).
  assert (F2 := update_below_found (compatible_with (ly_strings ly) (chars "riscv,plic0")) (mask_node (ly_strings ly)) root Hok 0).
  fold (nodes_below (root := root)) in F1, F2. unfold found in F1, F2.
  destruct (update_below (compatible_with (ly_strings ly) (chars "sifive,plic-1.0.0")) _ root) as [r|]; cbn [fmap option_fmap option_map] in F1.
  - destruct F1 as (pre & u & post & Et & Et' & _ & Hu & _ & ->). rewrite Z.add_0_l, (proj2 (Z.ltb_ge _ 0)) by apply size_of_nonneg.
    rewrite bind_ret_l, (proj2 (Z.ltb_ge _ 0)) by apply size_of_nonneg. cbv iota. rewrite Et'. by apply (mask_node_run E fuel Hf pre u post).
  - destruct F1 as [_ ->]. change (- FDT_ERR_NOTFOUND <? 0) with true. cbv iota. rewrite (reads_bind_eq _ _ _ _ R2).
    destruct (update_below (compatible_with (ly_strings ly) (chars "riscv,plic0")) _ root) as [r|]; cbn [fmap option_fmap option_map default] in *.
    + destruct F2 as (pre & u & post & Et & Et' & _ & Hu & _ & ->). rewrite Z.add_0_l, (proj2 (Z.ltb_ge _ 0)) by apply size_of_nonneg.
      change (id r) with r. rewrite Et'. by apply (mask_node_run E fuel Hf pre u post).
    + destruct F2 as [_ ->]. change (- FDT_ERR_NOTFOUND <? 0) with true. cbv iota. unfold masked. rewrite (editable_same _ _ _ E).
      split; [done|by apply after_refl].
Qed.

(** ** Stripping the performance monitor *)

Definition strip_attr (strings name : list Z) (t : tree) : tree := with_attrs (default (tree_attrs t) (delete_attr strings name (tree_attrs t))) t.

Definition strip_node (strings : list Z) (t : tree) : tree :=
  strip_attr strings (chars "pmu,raw-event-to-mhpmcounters")
    (strip_attr strings (chars "pmu,event-to-mhpmevent") (strip_attr strings (chars "pmu,event-to-mhpmcounters") t)).

Definition strip_pmu (strings : list Z) (root : tree) : tree :=
  default root (update_first (compatible_with strings (chars "riscv,pmu")) (strip_node strings) root).

Lemma delete_attr_split strings name attrs l : delete_attr strings name attrs = Some l ->
  exists a1 off v a2, attrs = a1 ++ Prop_ off v :: a2 /\ l = a1 ++ a2.
Proof.
  unfold delete_attr. destruct (split_attr strings name attrs) as [[[a1 [off v]] a2]|] eqn:Es; [|done]. intros [= <-].
  exists a1, off, v, a2. split; [by eapply split_attr_same|done].
Qed.

Lemma strip_attr_ok strings name t : tree_ok t = true -> tree_ok (strip_attr strings name t) = true.
Proof.
  intros Hok. unfold strip_attr. rewrite tree_ok_node. cbn [with_attrs tree_attrs tree_children]. rewrite (children_ok _ Hok), andb_true_r.
  assert (Ha := attrs_ok _ Hok). destruct (delete_attr _ _ _) as [l|] eqn:Ed; [|done].
  destruct (delete_attr_split _ _ _ _ Ed) as (a1 & off & v & a2 & Ea & ->). rewrite Ea, forallb_app in Ha. cbn [forallb is_attr andb] in Ha.
  cbn. by rewrite forallb_app.
Qed.

Lemma strip_node_ok strings t : tree_ok t = true -> tree_ok (strip_node strings t) = true.
Proof. intros H. by repeat apply strip_attr_ok. Qed.

Lemma strip_pmu_ok strings root : tree_ok root = true -> tree_ok (strip_pmu strings root) = true.
Proof.
  intros H. unfold strip_pmu. destruct (update_first _ _ root) as [r|] eqn:E; [|done].
  exact (update_first_ok _ _ _ _ (strip_node_ok strings) H E).
Qed.

Section Pmu.
Context {addr : Z} (fuel : nat).

Lemma delprop_step ly tokens pre u post str :
  editable addr ly tokens -> ly_total ly < Z.of_nat fuel -> tokens = pre ++ flat u ++ post -> tree_ok u = true ->
  nonzero (chars str) -> (length (chars str) <= 36)%nat ->
  exists r ly', fdt_delprop fuel (size_of pre) (lit str) (blob_of addr ly) = (Ret r, blob_of addr ly') /\
    after_edit addr ly ly' (pre ++ flat (strip_attr (ly_strings ly) (chars str) u) ++ post) (ly_strings ly).
Proof.
  intros E Hf Et Hok Hz Hl. assert (Hr := ly_range (ed_ok _ _ _ E)). assert (Et' := Et). rewrite flat_attrs in Et'.
  assert (D := delprop_run E fuel Hf pre _ _ _ (chars str) Et' (attrs_ok _ Hok) (ends_attrs_children _ _) Hz ltac:(lia)).
  unfold strip_attr. destruct (delete_attr _ _ _) as [l|] eqn:Ed; cbn [default].
  - destruct D as (slack' & R & L). eexists _, _. split; [exact R|]. change (id l) with l. rewrite flat_attrs. cbn [with_attrs tree_name tree_attrs tree_children].
    destruct (delete_attr_split _ _ _ _ Ed) as (a1 & off & v & a2 & Ea & ->).
    apply (after_edited addr ly tokens); [done| |].
    + assert (Ht := ed_tokens _ _ _ E). rewrite Et', Ea in Ht. apply Forall_app in Ht as [H1 H2]. apply Forall_cons in H2 as [H2 H3].
      apply Forall_app in H3 as [H3 H4]. apply Forall_app in H3 as [H3 H5]. apply Forall_cons in H5 as [_ H5].
      apply Forall_app. split; [done|]. apply Forall_cons. split; [done|]. apply Forall_app. split; [|done]. by apply Forall_app.
    + rewrite Et', !size_of_app, !size_of_cons, !size_of_app in *. lia.
  - eexists _, ly. split; [exact D|]. replace (with_attrs (tree_attrs u) u) with u by (by destruct u). rewrite <- Et. by apply after_refl.
Qed.

Lemma pmu_fixup_run ly root :
  editable addr ly (flat root) -> tree_ok root = true -> ly_total ly < Z.of_nat fuel -> addr <> 0 ->
  forallb (λ n, compatible_ok (ly_strings ly) (snd n)) (preorder root 0) = true ->
  exists r ly', fdt_pmu_fixup fuel (blob_of addr ly) = (Ret r, blob_of addr ly') /\
    after_edit addr ly ly' (flat (strip_pmu (ly_strings ly) root)) (ly_strings ly).
Proof.
  intros E Hok Hf Hnull Hc. assert (B := editable_blob E). assert (Hr := ly_range (ed_ok _ _ _ E)).
  assert (R := reads_by_compatible Hok B fuel Hf (chars "riscv,pmu") ltac:(split; [constant_name|cbn; lia]) ltac:(done) Hc).
  unfold fdt_pmu_fixup. rewrite (reads_bind_eq _ _ _ _ (reads_not_null (s := blob_of addr ly) Hnull)), (reads_bind_eq _ _ _ _ R).
  assert (F := update_first_found (compatible_with (ly_strings ly) (chars "riscv,pmu")) (strip_node (ly_strings ly)) root Hok 0).
  unfold found in F. unfold strip_pmu. fold (select_by (compatible_with (ly_strings ly) (chars "riscv,pmu"))).
  destruct (update_first _ _ root) as [t|]; cbn [fmap option_fmap option_map default] in *.
  - destruct F as (pre & u & post & Et & Et' & _ & Hu & _ & ->). rewrite Z.add_0_l, (proj2 (Z.ltb_ge _ 0)) by apply size_of_nonneg.
    destruct (delprop_step ly _ pre u post "pmu,event-to-mhpmcounters" E Hf Et Hu ltac:(constant_name) ltac:(cbn; lia)) as (r1 & ly1 & D1 & A1).
    rewrite (bind_Ret _ _ _ _ _ D1). destruct A1 as [E1 S1 T1 C1 V1 B1].
    destruct (delprop_step ly1 _ pre _ post "pmu,event-to-mhpmevent" E1 ltac:(by rewrite T1) eq_refl ltac:(by apply strip_attr_ok) ltac:(constant_name) ltac:(cbn; lia)) as (r2 & ly2 & D2 & A2).
    rewrite (bind_Ret _ _ _ _ _ D2). destruct A2 as [E2 S2 T2 C2 V2 B2].
    destruct (delprop_step ly2 _ pre _ post "pmu,raw-event-to-mhpmcounters" E2 ltac:(by rewrite T2, T1) eq_refl ltac:(by do 2 apply strip_attr_ok) ltac:(constant_name) ltac:(cbn; lia)) as (r3 & ly3 & D3 & A3).
    rewrite (bind_Ret _ _ _ _ _ D3). destruct A3 as [E3 S3 T3 C3 V3 B3]. eexists _, ly3. split; [reflexivity|].
    change (id t) with t. rewrite Et'. unfold strip_node. rewrite S2, S1 in E3. split; [exact E3|congruence..].
  - destruct F as [_ ->]. change (- FDT_ERR_NOTFOUND <? 0) with true. cbv iota. eexists _, ly. split; [reflexivity|]. by apply after_refl.
Qed.
End Pmu.

(** ** All fixups *)

(** Every node's attributes satisfy [P]. *)
Fixpoint all_nodes (P : list token → Prop) (t : tree) : Prop :=
  match t with
  | Node name attrs children =>
      P attrs /\ (fix go (l : list tree) : Prop := match l with [] => True | c :: l' => all_nodes P c /\ go l' end) children
  end.

Lemma all_nodes_node P t : all_nodes P t <-> P (tree_attrs t) /\ Forall (all_nodes P) (tree_children t).
Proof.
  destruct t as [name attrs children]. cbn [all_nodes tree_attrs tree_children].
  assert (H : (fix go (l : list tree) : Prop := match l with [] => True | c :: l' => all_nodes P c /\ go l' end) children <-> Forall (all_nodes P) children).
  { induction children as [|c l IH]; [by split|]. rewrite Forall_cons, IH. done. }
  by rewrite H.
Qed.

Lemma all_nodes_impl (P Q : list token → Prop) t : (forall a, P a -> Q a) -> all_nodes P t -> all_nodes Q t.
Proof.
  intros H. induction t as [name attrs children IH] using tree_induction. rewrite !all_nodes_node. cbn [tree_attrs tree_children].
  intros [H1 H2]. split; [by apply H|]. rewrite List.Forall_forall in *. auto.
Qed.

Lemma all_nodes_preorder P t : forall o, all_nodes P t -> Forall (λ n, P (tree_attrs (snd n))) (preorder t o).
Proof.
  induction t as [name attrs children IH] using tree_induction. intros o. rewrite all_nodes_node, preorder_node. intros [H1 H2].
  apply Forall_cons. split; [done|]. cbn [tree_children] in *. generalize (children_offset o (Node name attrs children)). clear o.
  induction children as [|c l IHl]; intros o; [constructor|]. apply Forall_cons in IH as [IHc IH]. apply Forall_cons in H2 as [Hc Hl].
  cbn [preorder_all]. apply Forall_app. split; [by apply IHc|]. by apply IHl.
Qed.

Lemma all_nodes_update P p f t t' : (forall u, all_nodes P u -> all_nodes P (f u)) -> all_nodes P t -> update_first p f t = Some t' -> all_nodes P t'.
Proof.
  intros Hf. revert t'. induction t as [name attrs children IH] using tree_induction. intros t'. rewrite update_first_node. intros H.
  destruct (p _); [intros [= <-]; by apply Hf|]. apply all_nodes_node in H as [Ha Hc]. unfold update_below. cbn [tree_attrs tree_children] in *.
  assert (Hall : forall l', update_first_all p f children = Some l' -> Forall (all_nodes P) l').
  { induction children as [|c l IHl]; intros l'; [done|]. apply Forall_cons in IH as [IHc IH]. apply Forall_cons in Hc as [Hc1 Hc2].
    cbn [update_first_all]. destruct (update_first p f c) as [c'|].
    - intros [= <-]. apply Forall_cons. auto.
    - destruct (update_first_all p f l) as [l1|]; [|done]. intros [= <-]. apply Forall_cons. auto. }
  destruct (update_first_all p f children) as [l'|]; [|done]. intros [= <-]. apply all_nodes_node. cbn [with_children tree_attrs tree_children]. auto.
Qed.

Lemma all_nodes_update_below P p f t t' : (forall u, all_nodes P u -> all_nodes P (f u)) -> all_nodes P t -> update_below p f t = Some t' -> all_nodes P t'.
Proof.
  intros Hf H. apply all_nodes_node in H as [Ha Hc]. unfold update_below.
  destruct (update_first_all p f (tree_children t)) as [l'|] eqn:El; [|done]. intros [= <-]. apply all_nodes_node.
  cbn [with_children tree_attrs tree_children]. split; [done|]. revert l' El. induction Hc as [|c l Hc Hl IH]; intros l'; [done|].
  cbn [update_first_all]. destruct (update_first p f c) as [c'|] eqn:Eu.
  - intros [= <-]. apply Forall_cons. split; [by eapply all_nodes_update|done].
  - destruct (update_first_all p f l) as [l1|]; [|done]. intros [= <-]. apply Forall_cons. auto.
Qed.

(** Every property has a name, and [compatible] is a list of strings. *)
Definition tidy (strings : list Z) (attrs : list token) : Prop := named strings attrs /\ compatible_ok strings (Node [] attrs []) = true.

Lemma tidy_nil strings : tidy strings [].
Proof. by split; [constructor|]. Qed.

Lemma tidy_grows strings strings' attrs : grows strings strings' -> tidy strings attrs -> tidy strings' attrs.
Proof.
  intros Hg [Hn Hc]. split; [by eapply named_grows|]. unfold compatible_ok in *. cbn [tree_attrs] in *. by rewrite (attr_value_named strings strings').
Qed.

Lemma tidy_set_attr strings name value attrs : nonzero name -> name <> chars "compatible" -> tidy strings attrs ->
  tidy (snd (set_attr strings name value attrs)) (fst (set_attr strings name value attrs)).
Proof.
  intros Hz Hne [Hn Hc]. split; [by apply set_attr_named|]. unfold compatible_ok in *. cbn [tree_attrs] in *. by rewrite set_attr_other.
Qed.

Lemma tidy_compatible strings root : all_nodes (tidy strings) root -> forallb (λ n, compatible_ok strings (snd n)) (preorder root 0) = true.
Proof.
  intros H. apply (all_nodes_preorder _ _ 0) in H. apply forallb_forall. intros [o t] Hi. rewrite List.Forall_forall in H. exact (proj2 (H _ Hi)).
Qed.

Lemma tidy_mask_node strings u : all_nodes (tidy strings) u -> all_nodes (tidy strings) (mask_node strings u).
Proof.
  intros H. unfold mask_node. destruct (attr_value _ _ _) as [v|] eqn:Ev; [|done]. apply all_nodes_node in H as [H1 H2].
  apply all_nodes_node. cbn [with_attrs tree_attrs tree_children]. split; [|done].
  assert (Hs : snd (set_attr strings (chars "interrupts-extended") (mask_pairs v) (tree_attrs u)) = strings).
  { unfold set_attr. rewrite attr_value_split in Ev. by destruct (split_attr _ _ _) as [[[a1 [off w]] a2]|]. }
  assert (Ht := tidy_set_attr strings (chars "interrupts-extended") (mask_pairs v) (tree_attrs u) ltac:(constant_name) ltac:(vm_compute; discriminate) H1).
  by rewrite Hs in Ht.
Qed.

Lemma tidy_mask_plic strings root : all_nodes (tidy strings) root -> all_nodes (tidy strings) (mask_plic strings root).
Proof.
  intros H. unfold mask_plic. destruct (update_below _ _ root) as [r|] eqn:E; [exact (all_nodes_update_below _ _ _ _ _ (tidy_mask_node strings) H E)|].
  destruct (update_below (compatible_with strings (chars "riscv,plic0")) _ root) as [r|] eqn:E'; [|done].
  exact (all_nodes_update_below _ _ _ _ _ (tidy_mask_node strings) H E').
Qed.

Lemma tidy_resv_attrs strings na ns no_map reg : tidy (snd (resv_attrs strings na ns no_map reg)) (fst (resv_attrs strings na ns no_map reg)).
Proof.
  unfold resv_attrs. cbv zeta. apply tidy_set_attr; [constant_name|vm_compute; discriminate|].
  destruct no_map; [|apply tidy_nil]. apply tidy_set_attr; [constant_name|vm_compute; discriminate|apply tidy_nil].
Qed.

Lemma tidy_add_regions na ns no_map regs : forall index ts, all_nodes (tidy (snd ts)) (fst ts) ->
  let ts' := add_regions na ns no_map index regs ts in all_nodes (tidy (snd ts')) (fst ts') /\ grows (snd ts) (snd ts').
Proof.
  induction regs as [|reg regs IH]; intros index ts H; cbn [add_regions]; [done|]. destruct (hidden reg); [|by apply IH].
  unfold add_region. cbv zeta. case_if; [by apply IH|]. destruct (resv_attrs_ok (snd ts) na ns no_map reg) as [_ Hg].
  set (r := resv_attrs _ _ _ _ _) in *. destruct (IH (index + 1) (add_child (Node (resv_name na index (reg_base reg)) (fst r) []) (fst ts), snd r)) as [I1 I2].
  - cbn [fst snd]. apply all_nodes_node. cbn [add_child tree_attrs tree_children]. apply all_nodes_node in H as [H1 H2].
    split; [by eapply tidy_grows|]. apply Forall_cons. split.
    + apply all_nodes_node. split; [apply tidy_resv_attrs|constructor].
    + eapply Forall_impl; [exact H2|]. intros c. apply all_nodes_impl. intros a. by apply tidy_grows.
  - split; [done|]. by etransitivity.
Qed.

Lemma tidy_reserve strings no_map regs root : all_nodes (tidy strings) root ->
  let r := reserve_regions strings no_map regs root in all_nodes (tidy (snd r)) (fst r).
Proof.
  intros H r. subst r. unfold reserve_regions. apply all_nodes_node in H as [Ha Hc].
  assert (Hf : let '(l1, ts, l2) := find_reserved strings root in
    Forall (all_nodes (tidy strings)) l1 /\ all_nodes (tidy (snd ts)) (fst ts) /\ Forall (all_nodes (tidy strings)) l2 /\ grows strings (snd ts)).
  { unfold find_reserved. assert (S := split_child_at (node_named (chars "reserved-memory")) (tree_children root) 0).
    destruct (split_child _ _) as [[[l1 t] l2]|]; cbn [fst snd].
    - destruct S as [Ec _]. rewrite Ec in Hc. apply Forall_app in Hc as [H1 H2]. apply Forall_cons in H2 as [H2 H3]. done.
    - split; [constructor|]. split; [|split; [done|apply new_reserved_ok]].
      unfold new_reserved. cbv zeta. cbn [fst snd]. apply all_nodes_node. split; [|constructor]. cbn [tree_attrs].
      repeat (apply tidy_set_attr; [constant_name|vm_compute; discriminate|]). apply tidy_nil. }
  destruct (find_reserved strings root) as [[l1 ts] l2]. destruct Hf as (H1 & H2 & H3 & H4). cbn [fst snd].
  destruct (tidy_add_regions (address_cells strings root) (size_cells strings root) no_map regs 0 ts H2) as [I1 I2].
  assert (Hg : grows strings (snd (add_regions (address_cells strings root) (size_cells strings root) no_map 0 regs ts))) by (by etransitivity).
  assert (Hl : forall l, Forall (all_nodes (tidy strings)) l -> Forall (all_nodes (tidy (snd (add_regions (address_cells strings root) (size_cells strings root) no_map 0 regs ts)))) l).
  { intros l Hl. eapply Forall_impl; [exact Hl|]. intros c. apply all_nodes_impl. intros a. by apply tidy_grows. }
  apply all_nodes_node. unfold root_with. cbn [tree_attrs tree_children]. split; [by eapply tidy_grows|]. apply Forall_app.
  split; [by apply Hl|]. apply Forall_cons. split; [exact I1|by apply Hl].
Qed.

(** The tree the supervisor gets. *)
Definition fixed_tree (strings : list Z) (no_map : bool) (regs : list sbi_domain_memregion) (root : tree) : tree * list Z :=
  let r := reserve_regions strings no_map regs (mask_plic strings root) in (strip_pmu (snd r) (fst r), snd r).

Lemma reservable_masked fuel env addr ly root dom : reservable fuel env addr ly root dom ->
  let root1 := mask_plic (ly_strings ly) root in
  masked (addr := addr) (ly := ly) (flat root1) ->
  reservable fuel env addr (edited (flat root1) (ly_strings ly) (ly_slack ly) ly) root1 dom.
Proof.
  intros [E Hok Hn Hna Hns Hb Hm Hf Henv Hd] root1 [E1 S1 T1 _ _ B1]. destruct (mask_plic_root (ly_strings ly) root) as [Ha _].
  destruct (address_cells_same (ly_strings ly) (ly_strings ly) root root1 Ha Hn ltac:(reflexivity)) as [C1 C2].
  split; [done|by apply mask_plic_ok|by rewrite S1; unfold root1; rewrite Ha|by rewrite S1, C1|by rewrite S1, C2|by rewrite B1|by rewrite T1|by rewrite T1|done|done].
Qed.

Lemma fixups_run fuel env addr ly root dom :
  reservable fuel env addr ly root dom -> all_nodes (tidy (ly_strings ly)) root -> addr <> 0 ->
  let regs := memregions (dom_regions (fx_domains env) dom) in
  region_count regs <= 9 ->
  let r := fixed_tree (ly_strings ly) (negb (truthy (pmp_count (fx_features env)))) regs root in
  exists ly', fdt_fixups fuel env (blob_of addr ly) = (Ret tt, blob_of addr ly') /\
    after_edit addr (grown ly) ly' (flat (fst r)) (snd r) /\ ly_total ly' = ly_total ly + 1024.
Proof.
  intros H Ht Hnull regs Hc r. assert (Hf := rv_fuel _ _ _ _ _ _ H).
  destruct (plic_fixup_run addr ly root fuel (rv_editable _ _ _ _ _ _ H) (rv_ok _ _ _ _ _ _ H) ltac:(lia) (tidy_compatible _ _ Ht)) as [R1 M1].
  assert (H1 := reservable_masked _ _ _ _ _ _ H M1). set (root1 := mask_plic (ly_strings ly) root) in *.
  set (ly1 := edited (flat root1) (ly_strings ly) (ly_slack ly) ly) in *.
  assert (T1 := ae_total _ _ _ _ _ M1). fold ly1 in T1.
  destruct (reserved_memory_run fuel env addr ly1 root1 dom H1 Hc) as (ly2 & R2 & A2 & _). fold regs in A2.
  change (ly_strings ly1) with (ly_strings ly) in A2. subst r. unfold fixed_tree. fold root1. cbn [fst snd].
  set (r2 := reserve_regions _ _ _ root1) in *.
  assert (Ht2 : all_nodes (tidy (snd r2)) (fst r2)) by exact (tidy_reserve (ly_strings ly) _ regs root1 (tidy_mask_plic _ _ Ht)).
  destruct A2 as [E2 S2 T2 C2 V2 B2].
  assert (Tg : ly_total ly2 = ly_total ly + 1024).
  { rewrite T2, grown_total, T1; [done|exact (rv_beyond _ _ _ _ _ _ H)]. }
  assert (Hok2 : tree_ok (fst r2) = true).
  { subst r2. unfold reserve_regions. assert (Hfo := find_reserved_ok (ly_strings ly) root1 (rv_ok _ _ _ _ _ _ H1)).
    destruct (find_reserved (ly_strings ly) root1) as [[l1 ts] l2]. cbn [fst]. destruct Hfo as [Hfo _].
    eapply rooted_ok; [exact Hfo|]. apply child_ok in Hfo. clear -Hfo. revert ts Hfo. generalize 0.
    induction regs as [|reg regs IH]; intros i ts Hts; [done|]. cbn [add_regions]. destruct (hidden reg); [|by apply IH].
    apply IH. by apply add_region_ok. }
  rewrite <- S2 in Ht2. destruct (pmu_fixup_run fuel ly2 (fst r2) E2 Hok2 ltac:(lia) Hnull (tidy_compatible _ _ Ht2)) as (e & ly3 & R3 & A3).
  exists ly3. unfold fdt_fixups. rewrite (bind_Ret _ _ _ _ _ R1), (bind_Ret _ _ _ _ _ R2), (bind_Ret _ _ _ _ _ R3). split; [done|].
  rewrite S2 in A3. destruct A3 as [E3 S3 T3 C3 V3 B3]. split; [|by rewrite T3].
  split; [exact E3|done|rewrite T3, Tg; symmetry; apply grown_total; exact (rv_beyond _ _ _ _ _ _ H)|by rewrite C3, C2|by rewrite V3, V2|by rewrite B3, B2].
Qed.
