(* ===== verification/ArianeTree.v ===== *)
(** * The platform and its device tree

    Models ariane_early_init and ariane_final_init of
    platform/fpga/ariane/platform.c: what the platform takes from the device tree
    before the devices are set up, and what it changes in the tree before the
    supervisor is entered.

    The theorems: on a well-formed blob the first hook leaves in the static data
    what the tree says, and on the blob of the boot ROM it takes the number of
    interrupt sources and the timer frequency from the tree but not the UART,
    which the tree calls by another name; the second hook makes of the tree the
    tree the supervisor should see. *)

From Stdlib Require Import ZArith Lia String Ascii.
From stdpp Require Import base tactics list numbers strings.
From S2P Require Import Prelude SbiDefs Bitops Domain Hart Machine Console Plic Mmio Aclint Fdt FdtRo FdtTree FdtRw FdtLayout FdtEdit FdtHelper BoardTree Ariane FdtFixup FdtReserve FdtMask.

(** The static data: [uart] beside what the drivers use, and the blob. *)
Record board (D : Type) : Type := Board {
  bd_fdt : dtb;
  bd_uart : platform_uart_data;
  bd_ariane : ariane D;
}.
Arguments Board {D}.
Arguments bd_fdt {D}.
Arguments bd_uart {D}.
Arguments bd_ariane {D}.

Definition ariane_uart : platform_uart_data := UartData ARIANE_UART_ADDR ARIANE_UART_FREQ ARIANE_UART_BAUDRATE 0 0.

(** What the stack holds before the variables of the hook are set. *)
Record early_junk : Type := EarlyJunk {
  ej_uart : platform_uart_data;
  ej_plic : plic_data;
  ej_freq : Z;
  ej_addr : Z;
  ej_size : Z;
}.

Section Early.
Context {D : Type}.

Definition on_fdt {A} (c : M dtb A) : M (board D) A := zoom bd_fdt (λ f s, Board f (bd_uart s) (bd_ariane s)) c.
Definition with_uart (u : platform_uart_data) (s : board D) : board D := Board (bd_fdt s) u (bd_ariane s).
Definition with_plic (p : plic_data) (s : board D) : board D :=
  Board (bd_fdt s) (bd_uart s) (ArianeState (ar_drivers (bd_ariane s)) p (ar_uart (bd_ariane s))).
Definition with_drivers (f : drivers D → drivers D) (s : board D) : board D :=
  Board (bd_fdt s) (bd_uart s) (ar_set_drivers (f (ar_drivers (bd_ariane s))) (bd_ariane s)).

(** The static [mtimer] and [mswi] are the drivers' objects at pointer 0. *)
Definition with_mtimer (f : aclint_mtimer_data → aclint_mtimer_data) : board D → board D :=
  with_drivers (λ d, set_mtimers (alter f O (dr_mtimers d)) d).
Definition with_mswi (f : aclint_mswi_data → aclint_mswi_data) : board D → board D :=
  with_drivers (λ d, Drivers (dr_bus d) (dr_machine d) (dr_mtimers d) (mtimer_hartid2data d) (dr_mtimer_registered d)
                       (alter f O (dr_mswis d)) (mswi_hartid2data d)).

Definition mt_set_addrs (clint_addr : Z) (d : aclint_mtimer_data) : aclint_mtimer_data :=
  MtimerData (mtime_freq d) (add64 (add64 clint_addr CLINT_MTIMER_OFFSET) ACLINT_DEFAULT_MTIME_OFFSET) (mtime_size d)
    (add64 (add64 clint_addr CLINT_MTIMER_OFFSET) ACLINT_DEFAULT_MTIMECMP_OFFSET) (mtimecmp_size d) (mt_first_hartid d)
    (mt_hart_count d) (has_64bit_mmio d) (has_shared_mtime d) (time_delta_reference d) (time_delta_computed d)
    (time_rd d) (time_wr d).
Definition mswi_set_addr (clint_addr : Z) (d : aclint_mswi_data) : aclint_mswi_data :=
  MswiData clint_addr (mswi_size d) (mswi_first_hartid d) (mswi_hart_count d).

(** [if (!rc) ... = ...;] *)
Definition take {A} (r : Z * A) (f : A → board D → board D) : M (board D) unit :=
  if fst r =? 0 then modify (f (snd r)) else ret tt.

Definition take_clint (addr : option Z) (s : board D) : board D :=
  with_mtimer (mt_set_addrs (default 0 addr)) (with_mswi (mswi_set_addr (default 0 addr)) s).

Definition ariane_early_init (fuel : nat) (junk : early_junk) (cold_boot : bool) : M (board D) Z :=
  (if negb cold_boot then ret 0
   else
     r <- on_fdt (fdt_parse_uart8250 fuel (ej_uart junk) (lit "ns16550") (ej_addr junk) (ej_size junk)) ;;
     take r with_uart ;;;
     r <- on_fdt (fdt_parse_plic fuel (ej_plic junk) (lit "riscv,plic0") (ej_addr junk) (ej_size junk)) ;;
     take r with_plic ;;;
     r <- on_fdt (fdt_parse_timebase_frequency fuel (Some (ej_freq junk))) ;;
     take r (λ freq, with_mtimer (mt_put_freq (default 0 freq))) ;;;
     r <- on_fdt (fdt_parse_compat_addr fuel (Some (ej_addr junk)) (lit "riscv,clint0")) ;;
     take r take_clint ;;;
     ret 0)%sbi.

(** ** What the tree says *)

Section Spec.
Context (root : tree) (strings : list Z).

(** The data of each device, when the tree has it. *)
Definition tree_uart : option platform_uart_data :=
  '(t, (a, _)) ← device_at (root := root) (strings := strings) "ns16550";
  Some (UartData a (default DEFAULT_UART_FREQ (cell_prop (strings := strings) "clock-frequency" t))
         (default DEFAULT_UART_BAUD (cell_prop (strings := strings) "current-speed" t))
         (default DEFAULT_UART_REG_SHIFT (cell_prop (strings := strings) "reg-shift" t))
         (default DEFAULT_UART_REG_IO_WIDTH (cell_prop (strings := strings) "reg-io-width" t))).
Definition tree_plic : option plic_data :=
  '(t, (a, _)) ← device_at (root := root) (strings := strings) "riscv,plic0";
  ndev ← cell_prop (strings := strings) "riscv,ndev" t; Some (PlicData a ndev).
Definition tree_timebase : option Z :=
  '(_, t) ← resolve 0 root [chars "cpus"]; cell_prop (strings := strings) "timebase-frequency" t.
Definition tree_clint : option Z :=
  '(_, (a, _)) ← device_at (root := root) (strings := strings) "riscv,clint0"; Some a.

(** The devices the hook looks for can be read (see [device_ok]), the PLIC states
    its number of sources, and the properties that are read are whole cells. *)
Definition readable_tree : bool :=
  tree_ok root && forallb (λ n, compatible_ok strings (snd n)) (preorder root 0) &&
  device_ok (root := root) (strings := strings) "ns16550" uart_cells &&
  device_ok (root := root) (strings := strings) "riscv,plic0" ["riscv,ndev"%string] &&
  device_ok (root := root) (strings := strings) "riscv,clint0" [] &&
  match device_at (root := root) (strings := strings) "riscv,plic0" with
  | Some (t, _) => bool_decide (is_Some (cell_prop (strings := strings) "riscv,ndev" t))
  | None => true
  end &&
  match resolve 0 root [chars "cpus"] with
  | Some (_, t) => cell_prop_ok (strings := strings) "timebase-frequency" t
  | None => true
  end.

Definition put {A} (o : option A) (f : A → board D → board D) (s : board D) : board D :=
  match o with Some a => f a s | None => s end.

(** The static data after the hook. *)
Definition early_spec (s : board D) : board D :=
  put tree_clint (λ a, take_clint (Some a))
    (put tree_timebase (λ freq, with_mtimer (mt_put_freq freq))
      (put tree_plic with_plic (put tree_uart with_uart s))).
End Spec.

Definition apply_if {A} (r : Z * A) (f : A → board D → board D) (s : board D) : board D :=
  if fst r =? 0 then f (snd r) s else s.

Lemma on_fdt_reads {A} (c : M dtb A) a (s : board D) : reads (bd_fdt s) c a -> on_fdt c s = (Ret a, s).
Proof. unfold reads, on_fdt, zoom. intros ->. by destruct s. Qed.

Lemma take_run {A} (r : Z * A) f (s : board D) : take r f s = (Ret tt, apply_if r f s).
Proof. unfold take, apply_if. by destruct (fst r =? 0). Qed.

Lemma apply_if_fdt {A} (r : Z * A) f (s : board D) :
  (forall a s, bd_fdt (f a s) = bd_fdt s) -> bd_fdt (apply_if r f s) = bd_fdt s.
Proof. intros H. unfold apply_if. destruct (fst r =? 0); [apply H|done]. Qed.

Lemma put_fdt {A} (o : option A) f (s : board D) :
  (forall a s, bd_fdt (f a s) = bd_fdt s) -> bd_fdt (put o f s) = bd_fdt s.
Proof. intros H. destruct o; [apply H|done]. Qed.

Lemma early_init_run root strings ds dn total fuel junk (s : board D) :
  blob (bd_fdt s) (flat root) strings ds dn total -> total < Z.of_nat fuel -> dt_addr (bd_fdt s) <> 0 ->
  readable_tree root strings = true ->
  ariane_early_init fuel junk true s = (Ret 0, early_spec root strings s).
Proof.
  intros B Hf Hnull Hr. unfold readable_tree in Hr. apply andb_true_iff in Hr as [Hr Ht].
  apply andb_true_iff in Hr as [Hr Hdev].
  apply andb_true_iff in Hr as [Hr Hc]. apply andb_true_iff in Hr as [Hr Hp]. apply andb_true_iff in Hr as [Hr Hu].
  apply andb_true_iff in Hr as [Hok Hcompat].
  unfold ariane_early_init, early_spec. cbn [negb].
  erewrite bind_Ret by (apply on_fdt_reads, (reads_uart8250 Hok B fuel Hf Hnull Hcompat); [by repeat constructor|cbn; lia|exact Hu]).
  erewrite bind_Ret by apply take_run.
  replace (apply_if _ with_uart s) with (put (tree_uart root strings) with_uart s)
    by (unfold parsed, tree_uart; by destruct (device_at "ns16550") as [[t [a sz]]|]).
  set (s1 := put _ _ s). assert (E1 : bd_fdt s1 = bd_fdt s) by (by apply put_fdt).
  rewrite <- E1 in B, Hnull.
  erewrite bind_Ret by (apply on_fdt_reads, (reads_plic Hok B fuel Hf Hnull Hcompat); [by repeat constructor|cbn; lia|exact Hp]).
  erewrite bind_Ret by apply take_run.
  replace (apply_if _ with_plic s1) with (put (tree_plic root strings) with_plic s1).
  2:{ unfold parsed, tree_plic. destruct (device_at "riscv,plic0") as [[t [a sz]]|]; [|done]. cbn [mbind option_bind].
      unfold plic_of. apply bool_decide_eq_true in Hdev as [n ->]. done. }
  set (s2 := put _ _ s1). assert (E2 : bd_fdt s2 = bd_fdt s1) by (by apply put_fdt).
  rewrite <- E2 in B, Hnull.
  erewrite bind_Ret by (apply on_fdt_reads, (reads_timebase Hok B fuel Hf Hnull); intros o t E; by rewrite E in Ht).
  erewrite bind_Ret by apply take_run.
  replace (apply_if (timebase_of _) _ s2) with (put (tree_timebase root strings) (λ freq, with_mtimer (mt_put_freq freq)) s2).
  2:{ unfold timebase_of, tree_timebase. destruct (resolve _ _ _) as [[o t]|]; [|done]. cbn [mbind option_bind].
      by destruct (cell_prop _ t). }
  set (s3 := put _ _ s2). assert (E3 : bd_fdt s3 = bd_fdt s2) by (by apply put_fdt).
  rewrite <- E3 in B, Hnull.
  erewrite bind_Ret by (apply on_fdt_reads, (reads_compat_addr Hok B fuel Hf Hnull Hcompat); [by repeat constructor|cbn; lia|exact Hc]).
  erewrite bind_Ret by apply take_run.
  replace (apply_if _ take_clint s3) with (put (tree_clint root strings) (λ a, take_clint (Some a)) s3); [done|].
  unfold parsed, tree_clint. by destruct (device_at "riscv,clint0") as [[t [a sz]]|].
Qed.

End Early.

(** [C18] Early initialisation takes from the device tree what the tree says: on the
    blob of a tree whose devices can be read and whose PLIC states its number of
    sources, ariane_early_init returns 0 and leaves in the static data the UART
    of the first node compatible with "ns16550", the PLIC of the first one
    compatible with "riscv,plic0" with its number of sources, the timer frequency
    of /cpus, and the CLINT address of the first node compatible with
    "riscv,clint0", each only when the tree has it.  Addresses are those the
    Devicetree Specification gives ([region_in_tree]); nothing depends on what
    the stack held. *)
Theorem early_init_follows_tree {D} root strings ds dn total fuel junk (s : board D) :
  blob (bd_fdt s) (flat root) strings ds dn total -> total < Z.of_nat fuel -> dt_addr (bd_fdt s) <> 0 ->
  readable_tree root strings = true ->
  ariane_early_init fuel junk true s = (Ret 0, early_spec root strings s).
Proof. intros B Hf Hn Hr. by apply (early_init_run root strings ds dn total). Qed.

(** ** The blob of the boot ROM *)

Definition board_blob (addr : Z) : dtb := Dtb addr rom_blob.

Lemma board_is_blob addr : Z.land addr 7 = 0 ->
  blob (board_blob addr) (flat board_tree) board_strings 56 2648 3370.
Proof.
  intros Ha. unfold board_blob. assert (E : rom_blob = build_bytes (flat board_tree) board_strings) by (vm_compute; reflexivity).
  rewrite E. apply (build_blob addr (flat board_tree) board_strings Ha); [apply tokens_ok; vm_compute; reflexivity|vm_compute; reflexivity].
Qed.

(** The platform as it is linked. *)
Definition board_reset {D} (addr : Z) (b : D) m : board D := Board (board_blob addr) ariane_uart (ariane_reset b m).

(** What becomes of it: 30 interrupt sources instead of 3 and a timer of 25 MHz
    instead of 1 MHz, but the UART as before. *)
Definition board_early {D} (addr : Z) (b : D) m : board D :=
  with_mtimer (mt_put_freq 25000000) (with_plic (PlicData ARIANE_PLIC_ADDR 30) (board_reset addr b m)).

Definition some_junk : early_junk := EarlyJunk (UartData 1 2 3 4 5) (PlicData 6 7) 8 9 10.

Lemma early_init_follows_tree_witness :
  ariane_early_init 4000 some_junk true (board_reset 0x10c00 tt demo_machine) = (Ret 0, board_early 0x10c00 tt demo_machine).
Proof.
  exact (early_init_follows_tree board_tree board_strings _ _ _ 4000 some_junk (board_reset 0x10c00 tt demo_machine)
           (board_is_blob 0x10c00 eq_refl) eq_refl ltac:(discriminate) ltac:(vm_compute; reflexivity)).
Defined.

(** The tree's UART answers to "ns16550a" only, and nothing reads [uart] anyway:
    the console is set up from constants. *)
Theorem board_uart_not_found :
  find_node (compatible_with board_strings (chars "ns16550")) board_tree = None /\
  parsed (root := board_tree) (strings := board_strings) "ns16550a" ariane_uart
    (uart_of (strings := board_strings)) =
  (0, UartData ARIANE_UART_ADDR ARIANE_UART_FREQ ARIANE_UART_BAUDRATE ARIANE_UART_REG_SHIFT ARIANE_UART_REG_WIDTH).
Proof. split; vm_compute; reflexivity. Qed.

(** ** Final initialisation *)

Definition ariane_final_init {D} (fuel : nat) (env : fixup_env) (cold_boot : bool) : M (board D) Z :=
  (if negb cold_boot then ret 0 else on_fdt (fdt_fixups fuel env) ;;; ret 0)%sbi.

Definition with_fdt {D} (f : dtb) (s : board D) : board D := Board f (bd_uart s) (bd_ariane s).

(** [C16] Final initialisation hands the supervisor the tree it should see: on a blob
    that holds a tidy tree (every property has a name, every compatible is a list
    of strings) with one or two cells per number and 1,024 bytes of memory behind
    it, ariane_final_init on the cold boot returns 0 and changes only the blob,
    which then holds the tree with the machine-mode contexts of the PLIC masked,
    a node under /reserved-memory for each of the at most nine regions of the
    domain that its flags let nobody use, and the performance monitor's properties for the
    firmware deleted; on a warm boot nothing changes. *)
Theorem final_init_fixes_tree {D} fuel env addr ly root dom (s : board D) :
  bd_fdt s = blob_of addr ly -> reservable fuel env addr ly root dom -> all_nodes (tidy (ly_strings ly)) root -> addr <> 0 ->
  let regs := memregions (dom_regions (fx_domains env) dom) in
  region_count regs <= 9 ->
  let '(root', strings') := fixed_tree (ly_strings ly) (negb (truthy (pmp_count (fx_features env)))) regs root in
  (exists ly', ariane_final_init fuel env true s = (Ret 0, with_fdt (blob_of addr ly') s) /\
     after_edit addr (grown ly) ly' (flat root') strings' /\ ly_total ly' = ly_total ly + 1024) /\
  ariane_final_init fuel env false s = (Ret 0, s).
Proof.
  intros Es H Ht Hnull regs Hc. destruct (fixups_run fuel env addr ly root dom H Ht Hnull Hc) as (ly' & R & HA & T). fold regs in HA.
  destruct (fixed_tree _ _ _ _) as [root' strings']. cbn [fst snd] in HA. split; [|done]. exists ly'. split; [|done].
  unfold ariane_final_init. cbn [negb]. erewrite bind_Ret; [reflexivity|]. unfold on_fdt, zoom. rewrite Es, R. done.
Qed.

(** The blob of the boot ROM, copied to memory. *)
Definition board_layout : layout :=
  Layout 0 [] (encode_all (flat board_tree) ++ be32 FDT_END) board_strings [] (replicate (Z.to_nat 1024) 0).

Lemma board_layout_bytes : ly_bytes board_layout = rom_blob ++ replicate (Z.to_nat 1024) 0.
Proof. vm_compute. reflexivity. Qed.

Definition tidyb (strings : list Z) (attrs : list token) : bool :=
  forallb (λ t, match t with Prop_ off _ => bool_decide (is_Some (string_at strings off)) | _ => true end) attrs &&
  compatible_ok strings (Node [] attrs []).

Lemma tidyb_tidy strings attrs : tidyb strings attrs = true -> tidy strings attrs.
Proof.
  unfold tidyb. intros [H1 H2]%andb_true_iff. split; [|done]. unfold named. rewrite forallb_forall in H1. apply List.Forall_forall.
  intros t Hi. specialize (H1 t Hi). destruct t; try done. by apply bool_decide_eq_true in H1.
Qed.

Lemma preorder_all_nodes P t : forall o, Forall (λ n, P (tree_attrs (snd n))) (preorder t o) -> all_nodes P t.
Proof.
  induction t as [name attrs children IH] using tree_induction. intros o. rewrite all_nodes_node, preorder_node. intros H.
  apply Forall_cons in H as [H1 H2]. split; [done|]. cbn [tree_children] in *. revert H2. generalize (children_offset o (Node name attrs children)). clear o H1.
  induction children as [|c l IHl]; intros o H; [constructor|]. apply Forall_cons in IH as [IHc IH]. cbn [preorder_all] in H. apply Forall_app in H as [Hc Hl].
  apply Forall_cons. split; [by eapply IHc|by eapply IHl].
Qed.

Lemma tidy_tree strings root : forallb (λ n, tidyb strings (tree_attrs (snd n))) (preorder root 0) = true -> all_nodes (tidy strings) root.
Proof.
  intros H. apply (preorder_all_nodes _ _ 0). rewrite forallb_forall in H. apply List.Forall_forall. intros n Hi. by apply tidyb_tidy, H.
Qed.

Lemma board_reservable addr : Z.land addr 7 = 0 -> reservable 4500 demo_env addr board_layout board_tree demo_firmware_domain.
Proof.
  intros Ha. assert (E : editable addr board_layout (flat board_tree)).
  { split; [|done|apply tokens_ok; vm_compute; reflexivity]. split; [done|vm_compute; reflexivity|done|constructor]. }
  assert (T : all_nodes (tidy board_strings) board_tree) by (apply tidy_tree; vm_compute; reflexivity).
  apply all_nodes_node in T as [[Hn _] _].
  split; [done|vm_compute; reflexivity|exact Hn|vm_compute; intuition congruence|vm_compute; intuition congruence|vm_compute; discriminate
         |vm_compute; reflexivity|vm_compute; reflexivity|split; [vm_compute; intuition congruence|reflexivity]|reflexivity].
Qed.

(** What the supervisor finds in the tree of the SoC. *)
Definition board_final : tree * list Z := Eval vm_compute in fixed_tree board_strings false (memregions [MemRegion 18 0x80000000 0]) board_tree.

Definition value_at (r : tree * list Z) (path : list string) (name : string) : option (list Z) :=
  p ← resolve 0 (fst r) (map chars path); attr_value (snd r) (chars name) (tree_attrs (snd p)).

Lemma final_init_fixes_tree_witness :
  (exists ly', ariane_final_init 4500 demo_env true (Board (blob_of 0x82200000 board_layout) ariane_uart (ariane_reset tt demo_machine)) =
     (Ret 0, Board (blob_of 0x82200000 ly') ariane_uart (ariane_reset tt demo_machine)) /\
     after_edit 0x82200000 (grown board_layout) ly' (flat (fst board_final)) (snd board_final)) /\
  value_at board_final ["reserved-memory"; "mmode_resv0@80000000"]%string "reg" = Some (cells [0; 0x80000000; 0; 0x40000]) /\
  value_at board_final ["soc"; "interrupt-controller@c000000"]%string "interrupts-extended" = Some (cells [2; 0xffffffff; 2; 9; 3; 0xffffffff; 3; 9]).
Proof.
  split; [|split; vm_compute; reflexivity].
  destruct (final_init_fixes_tree 4500 demo_env 0x82200000 board_layout board_tree demo_firmware_domain
    (Board (blob_of 0x82200000 board_layout) ariane_uart (ariane_reset tt demo_machine)) eq_refl (board_reservable 0x82200000 eq_refl)
    ltac:(apply tidy_tree; vm_compute; reflexivity) ltac:(discriminate) ltac:(vm_compute; discriminate)) as [(ly' & R & HA & _) _].
  exists ly'. split; [exact R|]. exact HA.
Defined.
