(* ===== verification/ArianeBoot.v ===== *)
(** * The platform through a cold boot

    The hooks of platform/fpga/ariane/platform.c in the order in which
    sbi_init.c (init_coldboot) calls them before the firmware is locked away:
    ariane_early_init, ariane_console_init, ariane_irqchip_init, ariane_ipi_init
    and ariane_timer_init.  A hook that fails stops the boot.

    The theorem: on this SoC, with the device tree of its boot ROM, all of them
    succeed, and what they leave protects the firmware and the CLINT, has both
    drivers of the CLINT ready for both harts and lets no interrupt source
    interrupt the boot hart. *)

From Stdlib Require Import ZArith Lia.
From stdpp Require Import base tactics list numbers.
From S2P Require Import Prelude SbiDefs Bitops Scratch Domain Machine Console Ipi Timer Mmio Aclint Plic Uart Fdt FdtRo FdtTree FdtHelper BoardTree Ariane ArianeTree.

Section Boot.
Context {D : Type} `{Bus D} (polls fuel : nat) (junk : early_junk).

Definition on_ariane {A} (c : M (ariane D) A) : M (board D) A :=
  zoom bd_ariane (λ a s, Board (bd_fdt s) (bd_uart s) a) c.

(** [rc = c; if (rc) sbi_hart_hang();] *)
Definition must (c next : M (board D) Z) : M (board D) Z :=
  (rc <- c ;; if truthy rc then ret rc else next)%sbi.

Definition ariane_cold_devices (cold : Z) : M (board D) Z :=
  must (ariane_early_init fuel junk true)
    (must (on_ariane ariane_console_init)
      (must (on_ariane (ariane_irqchip_init cold true))
        (must (on_ariane (ariane_ipi_init cold true))
          (on_ariane (ariane_timer_init polls cold true))))).

Lemma must_run c next s s1 : c s = (Ret 0, s1) -> must c next s = next s1.
Proof. intros E. unfold must. by erewrite bind_Ret by exact E. Qed.

Lemma on_ariane_run {A} (c : M (ariane D) A) f u a o a' :
  c a = (o, a') -> on_ariane c (Board f u a) = (o, Board f u a').
Proof. intros E. unfold on_ariane, zoom. cbn [bd_ariane]. by rewrite E. Qed.

End Boot.

(** ** The console *)

(** A routine of the UART driver that touches neither the CLINT nor the
    interrupt controller. *)
Definition uart_only {A} (r0 : plic_regs) (c : M (serial soc) A) (P : A → Prop) (f : machine → machine) : Prop :=
  forall s, uart8250_base s = ARIANE_UART_ADDR -> uart8250_reg_shift s = 2 -> uart8250_reg_width s = 4 ->
    exists a b', c s = (Ret a, sr_set_machine (f (sr_machine s)) (sr_set_bus b' s)) /\ P a /\
      clint_later (sr_bus s) b' /\ Plic.plic_of r0 b' = Plic.plic_of r0 (sr_bus s).

Section Uart.
Context (r0 : plic_regs).

Lemma uart_reg_addr num (s : serial soc) :
  0 <= num < 8 -> uart8250_base s = ARIANE_UART_ADDR -> uart8250_reg_shift s = 2 ->
  reg_addr num s = ARIANE_UART_ADDR + 4 * num.
Proof.
  intros Hn Hb Hs. unfold reg_addr. rewrite Hb, Hs. change (2 mod 32) with 2. rewrite Z.shiftl_mul_pow2 by lia.
  change (2 ^ 2) with 4. unfold u32. rewrite Z.mod_small by lia. unfold add64.
  rewrite u64_small by (unfold is_u64, ARIANE_UART_ADDR; lia). lia.
Qed.

Lemma plic_ignores_uart num v r :
  0 <= num < 8 -> soc_decodes (ARIANE_UART_ADDR + 4 * num) = false /\
  plic_reg_write (ARIANE_UART_ADDR + 4 * num) v r = r.
Proof.
  intros Hn.
  assert (C : num = 0 \/ num = 1 \/ num = 2 \/ num = 3 \/ num = 4 \/ num = 5 \/ num = 6 \/ num = 7) by lia.
  by repeat destruct C as [-> | C]; [..|subst num].
Qed.

Lemma uart_only_set num v : 0 <= num < 8 -> uart_only r0 (set_reg num v) (λ _, True) id.
Proof.
  intros Hn s Hb Hs Hw. exists tt. unfold set_reg. rewrite Hw. change (4 =? 1) with false. change (4 =? 2) with false.
  cbv iota. rewrite uart_reg_addr by done. unfold zoom, writel, __raw_writel, mmio_write. cbn [bus_write soc_bus].
  unfold soc_write. destruct (plic_ignores_uart num (v mod 2 ^ 32) (Plic.plic_of r0 (sr_bus s)) Hn) as [-> Ep].
  eexists. split; [reflexivity|]. split; [done|]. split; [by eexists|].
  unfold Plic.plic_of. cbn [soc_writes]. rewrite plic_after_app. exact Ep.
Qed.

Lemma uart_only_get num : 0 <= num < 8 -> uart_only r0 (get_reg num) (λ _, True) id.
Proof.
  intros Hn s Hb Hs Hw. unfold get_reg. rewrite Hw. change (4 =? 1) with false. change (4 =? 2) with false.
  cbv iota. rewrite uart_reg_addr by done. unfold zoom, readl, __raw_readl, mmio_read. cbn [bus_read soc_bus].
  unfold soc_read. destruct (plic_ignores_uart num 0 (Plic.plic_of r0 (sr_bus s)) Hn) as [-> _].
  eexists _, _. split; [reflexivity|]. split; [done|]. split; [by eexists|]. done.
Qed.

Lemma uart_only_seq {A B} P Q (c : M (serial soc) A) (k : M (serial soc) B) f g :
  uart_only r0 c P f -> uart_only r0 k Q g -> uart_only r0 (c ;;; k)%sbi Q (λ m, g (f m)).
Proof.
  intros H1 H2 s Hb Hs Hw. destruct (H1 s Hb Hs Hw) as (a & b1 & E1 & _ & L1 & F1).
  edestruct H2 as (b & b2 & E2 & Hq & L2 & F2); [| | |].
  4:{ exists b, b2. split; [erewrite bind_Ret by exact E1; rewrite E2; reflexivity|]. split; [exact Hq|].
      split; [eapply clint_later_trans; [exact L1|exact L2]|]. rewrite F2. exact F1. }
  all: done.
Qed.

Lemma uart_only_ret {A} (a : A) : uart_only r0 (ret a) (eq a) id.
Proof.
  intros s _ _ _. exists a, (sr_bus s). split; [by destruct s|]. split; [done|]. split; [apply clint_later_refl|done].
Qed.

Lemma uart_only_machine (c : M machine unit) f :
  (forall m, c m = (Ret tt, f m)) -> uart_only r0 (zoom sr_machine sr_set_machine c) (λ _, True) f.
Proof.
  intros Hc s _ _ _. exists tt, (sr_bus s). unfold zoom. rewrite Hc. split; [by destruct s|]. split; [done|].
  split; [apply clint_later_refl|done].
Qed.

Lemma uart_only_any {A} P (c : M (serial soc) A) f : uart_only r0 c P f -> uart_only r0 c (λ _, True) f.
Proof. intros H s Hb Hs Hw. destruct (H s Hb Hs Hw) as (a & b' & H1 & _ & H2). by exists a, b'. Qed.

Lemma uart_only_ext {A} P (c : M (serial soc) A) f g :
  uart_only r0 c P f -> (forall m, f m = g m) -> uart_only r0 c P g.
Proof. intros H E s Hb Hs Hw. destruct (H s Hb Hs Hw) as (a & b' & H1 & H2). exists a, b'. by rewrite <- E. Qed.

(** The console device of the platform, when none was registered before. *)
Definition uart_console (m : machine) : machine := snd (sbi_console_set_device (Some (ConsoleDevice true true)) m).

Lemma uart_console_keeps m :
  m_domains (uart_console m) = m_domains m /\ m_ipi_dev (uart_console m) = m_ipi_dev m /\
  m_timer_dev (uart_console m) = m_timer_dev m /\ m_console_dev (uart_console m) <> None.
Proof. unfold uart_console, sbi_console_set_device, modify. cbn. by destruct (m_console_dev m) eqn:E; cbn; rewrite ?E. Qed.

Lemma console_run (s : ariane soc) :
  exists b' u', ariane_console_init s =
    (Ret 0, ArianeState (set_bus b' (set_machine (uart_console (dr_machine (ar_drivers s))) (ar_drivers s))) (ar_plic s) u') /\
    clint_later (dr_bus (ar_drivers s)) b' /\ Plic.plic_of r0 b' = Plic.plic_of r0 (dr_bus (ar_drivers s)).
Proof.
  unfold ariane_console_init, uart8250_init. set (bdiv := u16 _).
  match goal with |- context [bind (modify ?g) ?k] => assert (H : uart_only r0 (k tt) (eq 0) uart_console) end.
  { cbv zeta. eapply uart_only_ext.
    - do 2 (eapply uart_only_seq; [by apply uart_only_set|]).
      eapply (uart_only_seq (λ _, True) _ _ _ id).
      { destruct (truthy bdiv); [|by apply (uart_only_any (eq tt)), uart_only_ret].
        apply (uart_only_seq (λ _, True) (λ _, True) _ _ id id); by apply uart_only_set. }
      do 3 (eapply uart_only_seq; [by apply uart_only_set|]). do 2 (eapply uart_only_seq; [by apply uart_only_get|]).
      eapply uart_only_seq; [by apply uart_only_set|].
      eapply uart_only_seq; [by apply (uart_only_machine _ uart_console)|]. apply uart_only_ret.
    - reflexivity. }
  destruct s as [d p [[[[ub uf] ubd] uw] us]]. unfold zoom at 1.
  edestruct H as (a & b' & E & <- & L & F); [| | |].
  4:{ erewrite bind_Ret by reflexivity. rewrite E. eexists b', _. split; [reflexivity|]. split; [exact L|exact F]. }
  all: done.
Qed.

End Uart.

(** ** Properties *)

Lemma early_board (b : soc) m addr fuel junk :
  Z.land addr 7 = 0 -> addr <> 0 -> 3370 < Z.of_nat fuel ->
  ariane_early_init fuel junk true (board_reset addr b m) = (Ret 0, board_early addr b m).
Proof.
  intros Ha Hn Hf. rewrite (early_init_run board_tree board_strings 56 2648 3370 fuel junk (board_reset addr b m)).
  - done.
  - by apply board_is_blob.
  - exact Hf.
  - exact Hn.
  - vm_compute. reflexivity.
Qed.

Lemma soc_after_clint n f b :
  (forall c, clint_of n c -> clint_of n (f c)) -> clint_of n (soc_clint b) -> clint_of n (soc_clint (soc_after f b)).
Proof. intros Hf Hb. cbn [soc_after soc_clint]. by apply Hf, clint_ticks_of. Qed.

Lemma bus_after_plic r0 cold b : Plic.plic_of r0 (bus_after cold b) = Plic.plic_of r0 b.
Proof. done. Qed.

(** All the hooks, from the platform as it is linked. *)
Lemma cold_devices_run r0 polls fuel junk addr k arg1 cold m b :
  12 <= k <= 21 -> cold = 0 \/ cold = 1 ->
  m_domains m = boot_domains_at k arg1 cold -> m_ipi_dev m = None -> m_timer_dev m = None ->
  clint_of 2 (soc_clint b) -> Z.land addr 7 = 0 -> addr <> 0 -> 3370 < Z.of_nat fuel ->
  exists b' u', clint_later b b' /\ Plic.plic_of r0 b' = irqchip_regs cold 30 (Plic.plic_of r0 b) /\
    ariane_cold_devices polls fuel junk cold (board_reset addr b m) =
    (Ret 0, Board (board_blob addr) ariane_uart
       (ArianeState (ready_drivers 25000000 (bus_after cold b')
                       (with_timer 25000000 (final_domains k arg1 cold) (Some (IpiDevice true true)) (uart_console m)))
          (PlicData ARIANE_PLIC_ADDR 30) u')).
Proof.
  intros Hk Hh Hd Hi Ht Hc Ha Hn Hf.
  unfold ariane_cold_devices. erewrite must_run by (by apply early_board). unfold board_early, with_mtimer, with_drivers.
  cbn [with_plic board_reset bd_fdt bd_uart bd_ariane].
  match goal with |- context [Board ?f ?u ?a] =>
    destruct (console_run r0 a) as (b1 & u1 & E1 & L1 & F1); cbn in L1, F1 end.
  erewrite must_run by (apply on_ariane_run; exact E1).
  cbn [ar_drivers ar_plic ar_set_drivers ariane_reset dr_machine set_mtimers set_machine set_bus dr_mtimers].
  match goal with |- context [Board ?f ?u ?a] => destruct (irqchip_run r0 cold a Hh) as (b2 & E2 & L2 & F2) end.
  { split; [done|]. cbn. unfold N_SOURCE. lia. }
  cbn in L2, F2. rewrite F1 in F2. erewrite must_run by (apply on_ariane_run; exact E2). clear E1 E2.
  assert (L : clint_later b b2) by (by eapply clint_later_trans).
  assert (C2 : clint_of 2 (soc_clint b2)) by (destruct L as [j ->]; by apply clint_ticks_of).
  exists b2, u1. split; [done|]. split; [done|].
  destruct (uart_console_keeps m) as (K1 & K2 & K3 & _). rewrite Hd in K1. rewrite Hi in K2. rewrite Ht in K3.
  rewrite (cold_machine_eta (uart_console m) _ K1 K2 K3).
  match goal with |- context [Board ?f ?u ?a] => replace a with
    (ArianeState (Drivers b2 (cold_machine (boot_domains_at k arg1 cold) None (uart_console m))
       [mt_put_freq 25000000 ariane_mtimer] (replicate 128 None) false [ariane_mswi] (replicate 128 None))
       (PlicData ARIANE_PLIC_ADDR 30) u1) by reflexivity end.
  erewrite must_run by (apply on_ariane_run; exact (ipi_init_run k arg1 cold _ b2 _ _ _ Hk Hh C2)).
  erewrite on_ariane_run.
  2:{ apply (timer_init_run polls 25000000 k); [done|done|]. apply soc_after_clint; [|done]. intros c (H1 & H2 & H3).
      split; [done|]. cbn [msip_q mtimecmp_q]. rewrite length_insert. exact (conj H2 H3). }
  reflexivity.
Qed.

(** [C15] The device set-up of a cold boot of this SoC, ariane_early_init on the tree
    of the boot ROM and then the console, interrupt controller, inter-processor
    interrupt and timer hooks, succeeds for every size of the firmware up to the
    payload and either boot hart.  Afterwards an S- or U-mode access of the root
    domain that asks for some permission is allowed exactly when it lies outside
    the CLINT and outside the firmware's region and is not an MMIO access; the
    CLINT drivers serve both harts, at 25 MHz, and are registered with the
    firmware, which has a console; the boot hart has neither a software interrupt
    nor a deadline; and all 30 interrupt sources have priority zero and interrupt
    neither context of the boot hart, whatever is pending. *)
Theorem ariane_cold_boot_protects r0 polls fuel junk addr size arg1 cold m b :
  4096 <= size <= 2 ^ 21 -> cold = 0 \/ cold = 1 ->
  m_domains m = boot_domains size arg1 cold -> m_ipi_dev m = None -> m_timer_dev m = None ->
  clint_of 2 (soc_clint b) -> is_u64 (mtime_q (soc_clint b)) ->
  Z.land addr 7 = 0 -> addr <> 0 -> 3370 < Z.of_nat fuel ->
  exists s', ariane_cold_devices polls fuel junk cold (board_reset addr b m) = (Ret 0, s') /\
    let d := ar_drivers (bd_ariane s') in
    let r := Plic.plic_of r0 (dr_bus d) in
    (forall a mode acc, is_u64 a -> mode = PRV_S \/ mode = PRV_U -> access_rwx acc <> 0 ->
      sbi_domain_check_addr (m_domains (dr_machine d)) (Some root) a mode acc =
      negb (in_clint a) && negb (region_contains (sbi_domain_memregion_init 0x80000000 size 0) a) &&
      negb (truthy (Z.land acc SBI_DOMAIN_MMIO))) /\
    (clint_served 2 d /\ m_ipi_dev (dr_machine d) = Some (IpiDevice true true) /\
     m_timer_dev (dr_machine d) = Some (TimerDevice 25000000 true true true) /\ m_console_dev (dr_machine d) <> None) /\
    (ipi_o (soc_clint (dr_bus d)) cold = false /\ deadline_of (soc_clint (dr_bus d)) cold = u64_max) /\
    (forall i, 1 <= i <= 30 -> default 0 (prio_q r !! Z.to_nat (i - 1)) = 0) /\
    forall ip, eip_target r (2 * cold) ip = false /\ eip_target r (2 * cold + 1) ip = false.
Proof.
  intros Hs Hh Hd Hi Ht Hc Hm Ha Hn Hf. destruct (firmware_region size Hs) as (k & Hk & E).
  rewrite (boot_domains_eq size arg1 cold k E) in Hd.
  destruct (cold_devices_run r0 polls fuel junk addr k arg1 cold m b Hk Hh Hd Hi Ht Hc Ha Hn Hf) as (b' & u' & [j L] & F & R).
  eexists. split; [exact R|]. cbv zeta. cbn [bd_ariane ar_drivers ready_drivers dr_bus dr_machine].
  destruct (with_timer_keeps 25000000 (final_domains k arg1 cold) (Some (IpiDevice true true)) (uart_console m)) as (-> & -> & -> & ->).
  destruct (bus_after_regs cold b') as (R1 & R2 & R3 & R4); [rewrite L; by apply clint_ticks_of|done
    |rewrite L, clint_ticks_mtime by done; apply u64_range|].
  rewrite bus_after_plic, F.
  split; [intros a mode acc Haddr Hmode Hx; rewrite E; by apply final_check|].
  split; [split; [by apply ready_served|]; split; [done|]; split; [done|]; by apply uart_console_keeps|].
  split; [exact (conj R3 R4)|]. split.
  - intros i Hr. apply zeroed_priority. right. apply elem_of_seqZ. lia.
  - intros ip. split; apply irqchip_masks; [by left|by right].
Qed.

Lemma ariane_cold_boot_protects_witness :
  let b := Soc (Clint 7 [5; 6] [true; true]) [] 0 (λ n, n) (λ _ _, 0) in
  let r0 := PlicRegs (replicate 30 5) (replicate 4 0x3fffffff) (replicate 4 0) in
  let m := set_m_domains (boot_domains 0x20000 0x82200000 1)
             (set_ipi_dev None (set_timer_dev None demo_machine)) in
  exists s', ariane_cold_devices 4 4000 some_junk 1 (board_reset 0x10c00 b m) = (Ret 0, s') /\
    let d := ar_drivers (bd_ariane s') in
    let r := Plic.plic_of r0 (dr_bus d) in
    (forall a mode acc, is_u64 a -> mode = PRV_S \/ mode = PRV_U -> access_rwx acc <> 0 ->
      sbi_domain_check_addr (m_domains (dr_machine d)) (Some root) a mode acc =
      negb (in_clint a) && negb (region_contains (sbi_domain_memregion_init 0x80000000 0x20000 0) a) &&
      negb (truthy (Z.land acc SBI_DOMAIN_MMIO))) /\
    (clint_served 2 d /\ m_ipi_dev (dr_machine d) = Some (IpiDevice true true) /\
     m_timer_dev (dr_machine d) = Some (TimerDevice 25000000 true true true) /\ m_console_dev (dr_machine d) <> None) /\
    (ipi_o (soc_clint (dr_bus d)) 1 = false /\ deadline_of (soc_clint (dr_bus d)) 1 = u64_max) /\
    (forall i, 1 <= i <= 30 -> default 0 (prio_q r !! Z.to_nat (i - 1)) = 0) /\
    forall ip, eip_target r 2 ip = false /\ eip_target r 3 ip = false.
Proof.
  intros b r0 m.
  apply (ariane_cold_boot_protects r0 4 4000 some_junk 0x10c00 0x20000 0x82200000 1 m b).
  - lia.
  - by right.
  - reflexivity.
  - reflexivity.
  - reflexivity.
  - split; [lia|done].
  - unfold is_u64. cbn. lia.
  - reflexivity.
  - discriminate.
  - reflexivity.
Defined.
